(* ===== verification/_CoqProject ===== *)
-Q . S2P
Prelude.v
PsciTypes.v
PsciCommon.v
PsciStat.v
PsciHandlers.v
PsciMain.v
PsciSetup.v
PsciDemo.v
PsciTopology.v
PsciCoord.v
PsciNodes.v
PsciFrame.v
PsciInterface.v
PsciSystem.v
PsciBoot.v
PsciBuild.v
PsciSafety.v
PsciPower.v
PsciRequests.v
PsciProgress.v
PsciCalls.v
Fwu.v
FwuState.v
FwuInv.v
FwuAuth.v
FwuProps.v
Bakery.v
BakeryProps.v
BakeryRun.v
InterruptMgmt.v
Traps.v
TrapsProps.v
RuntimeSvc.v
RuntimeSvcProps.v
Ehf.v
EhfProps.v
SdeiTypes.v
Sdei.v
SdeiMain.v
SdeiCalls.v
SdeiInv.v
SdeiFrame.v
SdeiSafety.v
SdeiInit.v
SdeiProps.v
SdeiReset.v
SdeiRun.v
XlatDefs.v
XlatCore.v
XlatWalk.v
XlatShape.v
XlatDesc.v
XlatMap.v
XlatUnmap.v
XlatRegions.v
XlatInit.v
XlatBoot.v
XlatDynamic.v
XlatUtils.v
XlatAttrs.v
XlatMmu.v
XlatDemo.v
GptDefs.v
Gpt.v
GptTable.v
GptBlocks.v
GptView.v
GptPolicy.v
GptTransition.v
GptProps.v
GptBoot.v
GptFill.v
GptRegions.v
GptInit.v
GptBuild.v
GptSetup.v
GptDemo.v
