(* ===== verification/Prelude.v ===== *)
(** * Trusted Firmware-A: PSCI, firmware update, EL3 events, memory protection

    ** The program

    Trusted Firmware-A is the secure-world firmware of Arm A-profile systems:
    boot stages (bl1, bl2, bl31, ...), a runtime that answers Secure Monitor
    Calls, and libraries and drivers shared by them. This development verifies
    the parts that keep the system's own state machines:

    - PSCI, the power state coordination interface of BL31 (lib/psci, with
      include/lib/psci and the generic platform code of
      plat/common/plat_psci_common.c): CPUs are turned on, off and suspended by
      SMCs; the domains above them (clusters, the system) follow by
      coordination of the requests of all the CPUs below;
    - the firmware update service of BL1 (bl1/bl1_fwu.c, with
      [bl1_prepare_next_image] of bl1/aarch64/bl1_context_mgmt.c): the normal
      world copies, authenticates, executes, resumes and resets images by SMCs;
    - the way events reach and leave EL3: the interrupt management framework
      (bl31/interrupt_mgmt.c), the exception handling framework that orders
      them by priority (bl31/ehf.c), the emulation of trapped registers and the
      injection of exceptions into lower levels (bl31/bl31_traps.c), the entry
      points of exceptions and the dispatch of SMCs to runtime services
      (common/runtime_svc.c), and the
      SDEI dispatcher that delivers them to a Non-secure client
      (services/std_svc/sdei), which uses the first three;
    - the bakery lock (lib/locks/bakery/bakery_lock_coherent.c), the lock of
      the power domains that works before caches and coherency are on;
    - the translation tables of the images (lib/xlat_tables_v2, for AArch64):
      an image registers a context, adds regions, and builds the tables the MMU
      walks; later it adds and removes dynamic regions and changes the
      attributes of pages while the MMU uses the tables;
    - the granule protection tables (lib/gpt_rme), which give each granule of
      memory to a physical address space: they are built from a list of regions
      at boot and changed, while all CPUs use them, when a world gives a granule
      to another one.

    ** How the code is modelled

    Prelude gives C integers (a [Z] reduced modulo [2^w]), C arrays indexed by
    [Z], and the monad [cmd S A] the code is written in. A command maps a state
    to [Done a s] or [Stopped why s]: a failed assertion (when the build has
    assertions), a panic, a call that does not return, or an access outside an
    array or through a null pointer, which no theorem lets pass as a result.
    [wp] is its weakest precondition, with a rule per construct.

    Calls to code outside the modelled files (platform hooks, the Secure
    Payload Dispatcher, the interrupt controller, the CPU driver, locks, cache
    maintenance) are events of the state's [trace]; their answers are functions
    of their arguments and of the trace, parameters of the development (classes
    [Platform], [FwuPlatform], [EhfConfig], [TrapCpu], [RtPlatform], [SdeiPlatform],
    [XlatConfig] and [GptConfig]), so the theorems hold for every platform. Build options are fields of these classes
    and of [PsciConfig]: one definition covers every combination of the
    conditionally compiled parts it names. In the files outside PSCI and FWU
    the build has assertions.

    Translation tables are memory: a context owns a base table and a pool of
    sub-tables, a table descriptor holds the address of a sub-table, and
    following one that is not of the pool is a fault. Independently of the
    library, [translate] of XlatWalk is the walk the architecture prescribes;
    the theorems say what it finds. Stores to the tables, TLB maintenance and
    the registers with which the MMU is enabled are events of a trace.

    Granule protection tables are words of memory, [gpt_mem], and [gpi_at] of
    GptView is the walk of the architecture. Every store and every maintenance
    operation is an event, and memory can be replayed after any prefix of the
    events of a call: that is what the other CPUs may see while it runs. A store
    of 128 bits is two stores of 64 bits; the clearing of the bit locks writes
    its bytes into the same memory.

    Functions that read their CPU from [plat_my_core_pos] take its index.
    Variables that are updated through a pointer ([state_info]) are returned.
    Data and instruction cache maintenance, barriers, messages and saved CPU
    contexts are not part of the state.

    ** Files and sources

    - PsciTypes: psci.h, psci_lib.h, psci_private.h: configuration, types,
      events, platform interface, the record [psci_state] of all variables of
      lib/psci and its accessors.
    - PsciCommon: psci_common.c. Requests, target states, coordination,
      OS-initiated validation, suspend request checks, locks, entry points,
      power down and the stopping of other cores.
    - PsciStat: psci_stat.c and the generic platform functions.
    - PsciHandlers: psci_on.c, psci_off.c, psci_suspend.c, psci_system_off.c,
      psci_mem_protect.c, and [psci_warmboot_entrypoint].
    - PsciMain: psci_main.c, with the SMC dispatcher [psci_smc_handler].
    - PsciSetup: psci_setup.c, from the topology description to the tree.
    - PsciDemo: a platform of two clusters of two CPUs, for the witnesses.
    - Fwu: bl1_fwu.c.
    - Bakery: bakery_lock_coherent.c, one definition per access to the lock.
    - InterruptMgmt: interrupt_mgmt.c for a GICv3.
    - Traps: bl31_traps.c, and [handle_idreg_trap] of idte3.c.
    - RuntimeSvc: runtime_svc.c, the entry points of BL31's exception vectors.
      A handler or hook outside the file is a command on the saved context.
    - Ehf: ehf.c.
    - SdeiTypes, Sdei, SdeiMain, SdeiCalls: sdei_private.h, sdei_state.c,
      sdei_event.c, sdei_intr_mgmt.c and sdei_main.c, in this order. The tables
      are shared by the CPUs; each operation takes the CPU that runs it. A
      dispatch leaves EL3 and comes back by [longjmp]: the code before and after
      are two definitions, and the saved jump buffer says which comes next.
    - XlatDefs: xlat_tables_defs.h, xlat_tables_v2.h, xlat_tables_v2_helpers.h:
      descriptor bits, attributes, regions, [xlat_ctx], access to the tables.
    - XlatCore: xlat_tables_core.c and aarch64/xlat_tables_arch.c: descriptors,
      mapping and unmapping, region checks, static and dynamic regions,
      initialisation.
    - XlatUtils: xlat_tables_utils.c (reading and changing attributes),
      xlat_tables_context.c, and the MMU registers of xlat_tables_arch.c.
    - GptDefs: gpt_rme_private.h and gpt_rme.h: descriptors, sizes, indices and
      the state [gpt_state], the variables of gpt_rme.c.
    - Gpt: gpt_rme.c: checks and construction of the tables, registers, the
      transition of a granule with the breaking up and joining of contiguous
      blocks.

    The other files hold the theory. PsciTopology abstracts the node arrays to
    the ancestor [anc] of a CPU at each level and states what a power domain
    tree is ([wf_topo]); PsciCoord gives the effect of the functions that walk
    the tree, and the specification [coordinated]; PsciNodes does so for the
    domain states; PsciFrame for what each function leaves alone;
    PsciInterface is the class [CoordPlatform], what coordination expects of
    [plat_get_target_pwr_state], and [OffPlatform], which one further theorem of
    PsciPower needs, with the generic implementation as an
    instance of both; PsciSystem is the system of all CPUs, a step relation over
    the early hook and the lock-protected parts of the handlers, with the phase
    each CPU is in, and its invariant; PsciBoot decides
    whether a state is a good state after boot. FwuState and FwuInv are the
    invariant of the update state machine in a build with assertions and its
    preservation by each call, FwuAuth an invariant that every build has: images
    that are executed through EXECUTE were authenticated.
    SdeiInv is the invariant of the SDEI tables, SdeiFrame what each operation
    leaves alone ([frames], [quiet]), SdeiSafety that every call preserves the
    invariant, SdeiRun a platform and its runs. XlatWalk has the walk and the
    invariant [wf] of tables, which labels each sub-table in use with its level
    and first address; XlatShape shows how linking, unlinking and counting keep
    it; XlatDesc computes descriptors; XlatMap and XlatUnmap are the effect of
    the recursive functions, XlatRegions of the sorted array, XlatInit of
    mapping all its regions, each a specification of the translations before
    and after; XlatDemo is a platform for the witnesses. GptTable has the level 1
    tables as functions and when they are well formed, GptBlocks the effect of
    breaking up and joining blocks at every moment ([during]), GptView the walk
    and the invariant [wf_gpt], GptPolicy who may ask for what ([allowed]),
    GptTransition the steps of a transition. GptFill has the effect of filling a
    level 1 table, GptRegions valid lists of regions and the tables they need,
    GptInit tables under construction ([building]), GptBuild the loop over the
    regions. GptDemo is a small system for the witnesses.

    ** What the theorems show

    - PsciSafety (C1, C2): for every interleaving of the CPUs, no domain is put
      in a low power state above a running CPU, one whose CPU_OFF failed after
      coordination excepted, and the affinity state of each CPU follows the PSCI
      automaton.
    - PsciPower (C3): coordination refines its specification; as further
      theorems, the last
      CPU turns its domains off, waking up restores a CPU's domains and nothing
      else; target states are read back as written, and the last-CPU query.
    - XlatBoot (C5): tables translate as the regions ask, for every valid
      configuration and set of regions. XlatDynamic (C6, C7, C19): so they do
      after regions are added and removed, one after the other a round trip.
      XlatAttrs (C8, C9, C11): no page is writable and executable; what reading
      and changing attributes answer and do. XlatRegions (C10): the checks of a
      region, exactly. XlatMmu (C12): the registers fit the tables that an image
      has built and the regions it may still add. XlatDemo has, as further
      theorems, two runs that do not do what the comments of the library say.
    - GptProps (C4, C16, C20, C24, C35): a transition moves one granule and no
      observer sees anything else change at any moment; a granule is scrubbed
      before it returns to the non-secure world; the lock that is held covers
      every word that is written; whatever the worlds ask for, they stay apart.
      GptSetup (C14): every valid list of regions is built as it asks. GptBoot
      (C40): the runtime firmware finds the tables it is handed.
    - PsciRequests (C15, C17): the analysis and validation of suspend requests;
      OS-initiated requests outlive the suspension above its level; as further
      theorems the behaviour of their error paths, and a run in which such a
      request turns the system domain off under a running CPU.
    - PsciCalls (C18): each call's results and effects on every branch: CPU_ON,
      and as further theorems CPU_OFF, SYSTEM_OFF/RESET/RESET2, FEATURES against
      the dispatcher, MEM_CHK_RANGE, SET_SUSPEND_MODE, residency arithmetic, the
      generic coordination function, the stopping of the other cores.
    - RuntimeSvcProps (C13, C27, C38): which service answers an SMC, after any
      registration; the SVE hint is lost; exactly what a trapped register access
      does, emulated or as an undefined exception.
    - FwuProps (C21-C23, C25, C26): the invariant of the update state machine (in
      a build with assertions, its part on the worlds on a platform whose entry
      point hook keeps the attributes, [attrs_kept]), that executed images were
      authenticated, that its assertions hold, and as a further theorem the
      effect of copying; what happens after failures. C26 and further theorems
      exhibit behaviours the code does not intend.
    - PsciBuild (C28): [psci_setup] with valid arguments boots every platform
      whose description fits its arrays, into the state C1 and C2 start from. PsciProgress (C29):
      CPU_OFF always ends, refused or with the CPU off.
    - BakeryProps and BakeryRun (C30-C33): mutual exclusion, first come first
      served and progress, for runs within the range of the tickets; and that
      beyond it exclusion fails.
    - EhfProps (C34): the priority bitmap is a stack; as a further theorem, the
      mask after a nested deactivation.
    - SdeiInit (C36): the tables are consistent in every state reachable from
      [sdei_init]. SdeiProps (C37): dispatch and completion are a round trip.
      SdeiReset: as a further theorem, the reset calls do what they answer.
    - TrapsProps (C39): which level takes an injected exception, and that it
      finds the registers of an exception entry of the architecture, bit by bit; as a further theorem, the hook for implementation defined
      registers is dead code.

    ** Atomicity, bounds and fuel

    A step of PsciSystem is one part of a handler between the acquisition and
    the release of the locks of the CPU's power domains (or, for CPU_ON, of the
    target's spinlock), or the early hook of CPU_OFF, which is called before
    the locks and whose answer, other than DENIED, may be any in the step that
    follows. A CPU that returns from CPU_OFF with an error after coordination is
    in the phase [Running true]. All CPUs share the top-level lock when a request
    reaches the top level; the model takes the parts to be atomic, which the
    locks provide for the domains they cover. The system is the one of
    platform-coordinated mode ([PSCI_OS_INIT_MODE = false]);
    PsciRequests treats OS-initiated mode by itself.

    A step of Bakery is one access to [lock_data], in memory that is fully
    ordered, as the source file requires; a position fits the low byte of a
    priority ([BakeryConfig]). A step of SDEI is a whole call, up to the point
    where it leaves EL3; the one place where the code reads a table without its
    lock and checks again, [sdei_interrupt_bind], takes what the other CPUs do
    in between as an argument, and the number of turns of its retry loop.

    The recursion over tables has the levels that are left as its fuel
    ([levels_from], at most four), which no run exceeds: C5 and C7 show that the
    functions return. Loops over a table count its entries. The loops of
    [xlat_change_mem_attributes_ctx] count pages in 32 bits; a request of 2^32
    pages or more would never end, and the model says so ([NoReturn]).

    [fill_l1_loop] has as fuel a bound of its turns, one for each 2MB and three
    more: each turn but the first and the last advances by 2MB or more, and C14
    shows that the loop ends.

    No other definition has fuel: [walk_up] is bounded by the level it walks to,
    [find_lvl_down] and [populate_levels] descend a level, the retry loop of
    [psci_pwrdown_cpu_end_terminal] is the source's 32 iterations and
    [wait_for_others] the source's count of milliseconds.

    ** Not modelled

    AArch32 variants, [psci_print_power_domain_map] (output only),
    [psci_arch_setup] and [psci_prepare_next_non_secure_ctx] (processor
    registers), the bakery lock in normal memory (it needs a model of the
    caches), the errata variant of the priority mask (GIC600_ERRATA_WA_2384374),
    the caching of ID registers in idte3.c, of the translation tables the
    printing of tables, cache maintenance, the assembly that enables the MMU and
    the older library lib/xlat_tables, and the other parts of the firmware:
    secure partition managers, realm management, image
    loading and authentication, I/O drivers, interrupt controllers, CPU drivers,
    libc and the platform ports. *)

From stdpp Require Export base list numbers option tactics relations.
From stdpp Require Import list_numbers.
From Stdlib Require Export ZArith Lia.
#[global] Open Scope Z_scope.

(** ** Machine integers

    A C unsigned integer of width [w] is a [Z] in [0 .. 2^w - 1]; conversions
    and arithmetic reduce modulo [2^w] explicitly. *)

Definition u8 (x : Z) : Z := x mod 2 ^ 8.
Definition u16 (x : Z) : Z := x mod 2 ^ 16.
Definition u32 (x : Z) : Z := x mod 2 ^ 32.
Definition u64 (x : Z) : Z := x mod 2 ^ 64.

Definition UINT32_MAX : Z := 2 ^ 32 - 1.
Definition UINT64_MAX : Z := 2 ^ 64 - 1.

(** [check_uptr_overflow(_ptr, _inc)] of include/lib/utils_def.h on a 64-bit
    target: the subtraction is on [uintptr_t]. *)
Definition check_uptr_overflow (ptr inc : Z) : bool :=
  u64 (UINT64_MAX - inc) <? ptr.

(** A bit test [x & mask] as C writes it. *)
Definition is_set (x mask : Z) : bool := negb (Z.land x mask =? 0).

Lemma u64_small x : 0 <= x < 2 ^ 64 -> u64 x = x.
Proof. apply Z.mod_small. Qed.

Lemma u32_small x : 0 <= x < 2 ^ 32 -> u32 x = x.
Proof. apply Z.mod_small. Qed.

Lemma u64_range x : 0 <= u64 x < 2 ^ 64.
Proof. by apply Z.mod_pos_bound. Qed.

Lemma u32_range x : 0 <= u32 x < 2 ^ 32.
Proof. by apply Z.mod_pos_bound. Qed.

Lemma check_uptr_overflow_spec ptr inc :
  0 <= ptr < 2 ^ 64 -> 0 <= inc < 2 ^ 64 ->
  check_uptr_overflow ptr inc = true <-> 2 ^ 64 <= ptr + inc.
Proof.
  intros Hp Hi. unfold check_uptr_overflow, UINT64_MAX.
  rewrite u64_small by lia. rewrite Z.ltb_lt. lia.
Qed.

(** A field of [k] bits below a shifted value. *)
Lemma lor_shiftl a k b : 0 <= k -> 0 <= b < 2 ^ k -> Z.lor (Z.shiftl a k) b = a * 2 ^ k + b.
Proof.
  intros Hk Hb.
  assert (Z.land (Z.shiftl a k) b = 0) as Hland.
  { apply Z.bits_inj_0. intros n. rewrite Z.land_spec.
    destruct (Z.ltb_spec n k) as [Hn|Hn].
    - destruct (Z.ltb_spec n 0); [by rewrite !Z.testbit_neg_r|]. by rewrite Z.shiftl_spec_low.
    - rewrite <- (Z.mod_small b (2 ^ k)) by lia.
      by rewrite Z.mod_pow2_bits_high, andb_false_r by lia. }
  rewrite <- Z.lxor_lor, <- Z.add_nocarry_lxor by done. by rewrite Z.shiftl_mul_pow2.
Qed.

(** ** C arrays indexed by unsigned integers

    [zlookup] and [zupdate] are stdpp's list lookup and insert at a [Z]
    index; an index outside the array has no element. *)

Definition in_range {A} (l : list A) (i : Z) : bool :=
  (0 <=? i) && (i <? Z.of_nat (length l)).

Definition zlookup {A} (l : list A) (i : Z) : option A :=
  if in_range l i then l !! Z.to_nat i else None.

Definition zupdate {A} (l : list A) (i : Z) (x : A) : list A :=
  if in_range l i then <[Z.to_nat i := x]> l else l.

Declare Scope carray_scope.
Delimit Scope carray_scope with carray.
Notation "l .[ i ]" := (zlookup l i)
  (at level 1, left associativity, format "l .[ i ]") : carray_scope.
#[global] Open Scope carray_scope.

Create HintDb carray.
Create Rewrite HintDb carray.

Section Arrays.
Context {A : Type}.
Implicit Types (l : list A) (i j : Z) (x : A).

Lemma in_range_spec l i : in_range l i = true <-> 0 <= i < Z.of_nat (length l).
Proof. unfold in_range. rewrite andb_true_iff, Z.leb_le, Z.ltb_lt. done. Qed.

Lemma zlookup_lt_is_Some l i : is_Some (l.[i]) <-> 0 <= i < Z.of_nat (length l).
Proof.
  unfold zlookup. destruct (in_range l i) eqn:E.
  - apply in_range_spec in E. rewrite lookup_lt_is_Some. lia.
  - split; [intros [? ?]; done|]. intros H. apply in_range_spec in H. congruence.
Qed.

Lemma zlookup_lt_Some l i x : l.[i] = Some x -> 0 <= i < Z.of_nat (length l).
Proof. intros H. apply zlookup_lt_is_Some. eauto. Qed.

Lemma zlookup_ge_None l i : ~ (0 <= i < Z.of_nat (length l)) -> l.[i] = None.
Proof.
  intros H. destruct (l.[i]) eqn:E; [|done].
  by apply zlookup_lt_Some in E.
Qed.

Lemma zlookup_of_nat l (n : nat) : l.[Z.of_nat n] = l !! n.
Proof.
  unfold zlookup. destruct (in_range l (Z.of_nat n)) eqn:E.
  - by rewrite Nat2Z.id.
  - symmetry. apply lookup_ge_None. unfold in_range in E.
    apply andb_false_iff in E as [E|E]; [apply Z.leb_gt in E|apply Z.ltb_ge in E]; lia.
Qed.

Lemma zlookup_to_nat l i : 0 <= i -> l.[i] = l !! Z.to_nat i.
Proof. intros H. rewrite <- (Z2Nat.id i) at 1 by done. apply zlookup_of_nat. Qed.

Lemma length_zupdate l i x : length (zupdate l i x) = length l.
Proof. unfold zupdate. destruct (in_range l i); [apply length_insert|done]. Qed.

Lemma zlookup_zupdate_eq l i x :
  0 <= i < Z.of_nat (length l) -> (zupdate l i x).[i] = Some x.
Proof.
  intros H. rewrite zlookup_to_nat by lia. unfold zupdate.
  rewrite (proj2 (in_range_spec l i) H). apply list_lookup_insert_eq. lia.
Qed.

Lemma zlookup_zupdate_ne l i j x : i <> j -> (zupdate l i x).[j] = l.[j].
Proof.
  intros Hne. unfold zupdate. destruct (in_range l i) eqn:E; [|done].
  destruct (in_range l j) eqn:Ej.
  - apply in_range_spec in E, Ej. rewrite !zlookup_to_nat by lia.
    apply list_lookup_insert_ne. lia.
  - rewrite !zlookup_ge_None; [done| |].
    + rewrite <- in_range_spec. congruence.
    + rewrite length_insert, <- in_range_spec. congruence.
Qed.

Lemma zlookup_zupdate l i j x y :
  l.[i] = Some y ->
  (zupdate l i x).[j] = if decide (i = j) then Some x else l.[j].
Proof.
  intros H%zlookup_lt_Some. case_decide; subst.
  - by apply zlookup_zupdate_eq.
  - by apply zlookup_zupdate_ne.
Qed.

Lemma zupdate_id l i x : l.[i] = Some x -> zupdate l i x = l.
Proof.
  intros H. pose proof (zlookup_lt_Some _ _ _ H) as Hr.
  unfold zupdate. destruct (in_range l i); [|done].
  apply list_insert_id. by rewrite <- zlookup_to_nat by lia.
Qed.

Lemma zupdate_zupdate l i x y : zupdate (zupdate l i x) i y = zupdate l i y.
Proof.
  unfold zupdate, in_range.
  destruct ((0 <=? i) && (i <? Z.of_nat (length l))) eqn:E.
  - rewrite length_insert, E. apply list_insert_insert_eq.
  - by rewrite E.
Qed.

Lemma zlookup_fmap {B} (f : A -> B) l i : (f <$> l).[i] = f <$> l.[i].
Proof.
  unfold zlookup, in_range. rewrite length_fmap.
  destruct (_ && _); [apply list_lookup_fmap|done].
Qed.

Lemma zupdate_fmap {B} (f : A -> B) l i x :
  f <$> zupdate l i x = zupdate (f <$> l) i (f x).
Proof.
  unfold zupdate, in_range. rewrite length_fmap.
  destruct (_ && _); [apply list_fmap_insert|done].
Qed.

(** Two arrays of one length with the same elements are equal. *)
Lemma zlist_eq l l' :
  length l = length l' ->
  (forall i, 0 <= i < Z.of_nat (length l) -> l.[i] = l'.[i]) -> l = l'.
Proof.
  intros Hlen H. apply list_eq. intros n.
  destruct (decide (n < length l)%nat).
  - specialize (H (Z.of_nat n)). rewrite !zlookup_of_nat in H. apply H. lia.
  - rewrite !lookup_ge_None_2; [done|lia|lia].
Qed.
End Arrays.

(** The elements of [seqZ] in order. *)
Lemma seqZ_split b n done x todo :
  seqZ b n = done ++ x :: todo ->
  x = b + Z.of_nat (length done) /\ Z.of_nat (length done) < n.
Proof.
  intros Hs. pose proof (f_equal (lookup (length done)) Hs) as Hx.
  rewrite lookup_app_r, Nat.sub_diag in Hx by lia. simpl in Hx.
  apply lookup_seqZ in Hx. lia.
Qed.

Lemma rev_fmap {A B} (f : A -> B) (l : list A) : rev (f <$> l) = f <$> rev l.
Proof. induction l as [|x l IH]; [done|]. rewrite fmap_cons. cbn [rev]. by rewrite IH, fmap_app. Qed.

Lemma omap_rev {A B} (f : A -> option B) (l : list A) : omap f (rev l) = rev (omap f l).
Proof.
  induction l as [|x l IH]; [done|]. cbn [rev]. rewrite omap_app, IH. cbn [omap list_omap].
  destruct (f x); cbn [rev]; [done|]. by rewrite app_nil_r.
Qed.

(** [n] consecutive elements from index [i], when they are all in the array. *)
Definition zslice {A} (l : list A) (i n : Z) : option (list A) :=
  if (0 <=? i) && (0 <=? n) && (i + n <=? Z.of_nat (length l))
  then Some (take (Z.to_nat n) (drop (Z.to_nat i) l)) else None.

#[export] Hint Rewrite @length_zupdate : carray.
#[export] Hint Resolve zlookup_lt_Some : carray.

(** ** Commands: state passing with the ways C code stops

    A command runs on a state and either returns a value ([Done]) or never
    returns to its caller ([Stopped]): [panic()], a failed [assert] in a build
    with assertions, an access outside an array or through a NULL pointer, or
    a call that does not come back because the CPU (or the system) was powered
    down. The state at that point is kept, because other CPUs observe it. *)

Inductive stop : Set :=
  | Panicked
  | AssertFailed
  | MemFault
  | NoReturn.

#[export] Instance stop_eq_dec : EqDecision stop.
Proof. solve_decision. Defined.

Inductive outcome (S A : Type) : Type :=
  | Done (a : A) (s : S)
  | Stopped (w : stop) (s : S).
Arguments Done {S A} a s.
Arguments Stopped {S A} w s.

Definition cmd (S A : Type) : Type := S -> outcome S A.

Section Commands.
Context {S : Type}.

Definition ret {A} (a : A) : cmd S A := fun s => Done a s.

Definition bind {A B} (c : cmd S A) (k : A -> cmd S B) : cmd S B := fun s =>
  match c s with
  | Done a s' => k a s'
  | Stopped w s' => Stopped w s'
  end.

Definition halt {A} (w : stop) : cmd S A := fun s => Stopped w s.

Definition gets {A} (f : S -> A) : cmd S A := fun s => Done (f s) s.

Definition modify (f : S -> S) : cmd S unit := fun s => Done tt (f s).

(** [assert(b)]: checked only when assertions are compiled in. *)
Definition assert_ (enabled b : bool) : cmd S unit :=
  if enabled && negb b then halt AssertFailed else ret tt.

(** Reading an optional value whose absence is an invalid access. *)
Definition deref {A} (o : option A) : cmd S A :=
  match o with
  | Some a => ret a
  | None => halt MemFault
  end.

Definition when (b : bool) (c : cmd S unit) : cmd S unit :=
  if b then c else ret tt.

(** [for (x in l) f(x)] *)
Fixpoint for_each {X} (l : list X) (f : X -> cmd S unit) : cmd S unit :=
  match l with
  | [] => ret tt
  | x :: l' => bind (f x) (fun _ => for_each l' f)
  end.

(** The same with a loop variable. *)
Fixpoint fold_each {X A} (l : list X) (a : A) (f : X -> A -> cmd S A) : cmd S A :=
  match l with
  | [] => ret a
  | x :: l' => bind (f x a) (fun a' => fold_each l' a' f)
  end.

(** [for (x in l) if (!p(x)) return false; return true] *)
Fixpoint all_of {X} (l : list X) (p : X -> cmd S bool) : cmd S bool :=
  match l with
  | [] => ret true
  | x :: l' => bind (p x) (fun b => if b then all_of l' p else ret false)
  end.

(** The state a run ends in, whichever way it ends. *)
Definition final {A} (o : outcome S A) : S :=
  match o with Done _ s => s | Stopped _ s => s end.
End Commands.

Declare Scope cmd_scope.
Delimit Scope cmd_scope with cmd.
Bind Scope cmd_scope with cmd.
Notation "'let!' x := c1 'in' c2" := (bind c1 (fun x => c2))
  (at level 10, x name, c1 at level 100, c2 at level 200) : cmd_scope.
Notation "c1 ;; c2" := (bind c1 (fun _ => c2))
  (at level 100, right associativity) : cmd_scope.

(** ** Weakest preconditions

    [wp c Q E s]: running [c] from [s] returns [a] in [s'] with [Q a s'], or
    stops for reason [w] in [s'] with [E w s']. [wpd] allows no stop at all:
    it states that the command returns. *)

Definition wp {S A} (c : cmd S A) (Q : A -> S -> Prop) (E : stop -> S -> Prop)
    (s : S) : Prop :=
  match c s with
  | Done a s' => Q a s'
  | Stopped w s' => E w s'
  end.

Definition no_stop {S} : stop -> S -> Prop := fun _ _ => False.
Abbreviation wpd c Q := (wp c Q no_stop).

Section Wp.
Context {S : Type}.
Implicit Types (s : S) (E : stop -> S -> Prop).

Lemma wp_ret {A} (a : A) Q E s : Q a s -> wp (ret a) Q E s.
Proof. done. Qed.

Lemma wp_bind {A B} (c : cmd S A) (k : A -> cmd S B) Q E s :
  wp c (fun a s' => wp (k a) Q E s') E s -> wp (bind c k) Q E s.
Proof. unfold wp, bind. by destruct (c s). Qed.

Lemma wp_mono {A} (c : cmd S A) (Q Q' : A -> S -> Prop) E E' s :
  wp c Q E s ->
  (forall a s', Q a s' -> Q' a s') ->
  (forall w s', E w s' -> E' w s') ->
  wp c Q' E' s.
Proof. unfold wp. destruct (c s); auto. Qed.

(** A postcondition that always holds. *)
Lemma wp_any {A} (c : cmd S A) (Q : A -> S -> Prop) s :
  (forall a s', Q a s') -> wp c Q (fun _ _ => True) s.
Proof. intros HQ. unfold wp. destruct (c s); auto. Qed.

Lemma wp_halt {A} w (Q : A -> S -> Prop) E s : E w s -> wp (halt w) Q E s.
Proof. done. Qed.

Lemma wp_gets {A} (f : S -> A) Q E s : Q (f s) s -> wp (gets f) Q E s.
Proof. done. Qed.

Lemma wp_modify (f : S -> S) Q E s : Q tt (f s) -> wp (modify f) Q E s.
Proof. done. Qed.

Lemma wp_assert b e Q E s : b = true -> Q tt s -> wp (assert_ e b) Q E s.
Proof. intros -> H. unfold assert_. by rewrite andb_false_r. Qed.

Lemma wp_deref {A} (o : option A) a Q E s : o = Some a -> Q a s -> wp (deref o) Q E s.
Proof. by intros ->. Qed.

Lemma wp_when b c Q E s :
  (b = true -> wp c Q E s) -> (b = false -> Q tt s) -> wp (when b c) Q E s.
Proof. destruct b; intros H1 H2; [by apply H1|by apply H2]. Qed.

(** A command that returns for certain returns a determined result. *)
Lemma wpd_done {A} (c : cmd S A) Q s : wpd c Q s -> exists a s', c s = Done a s' /\ Q a s'.
Proof. unfold wp. destruct (c s); [eauto|done]. Qed.

(** A command whose run is known. *)
Lemma wp_exact {A} (c : cmd S A) a s s' Q E : c s = Done a s' -> Q a s' -> wp c Q E s.
Proof. intros H. unfold wp. by rewrite H. Qed.

Lemma wp_bind_exact {A B} (c : cmd S A) (k : A -> cmd S B) a s s' Q E :
  c s = Done a s' -> wp (k a) Q E s' -> wp (bind c k) Q E s.
Proof. intros H Hk. apply wp_bind. by eapply wp_exact. Qed.

(** Invariant rule of [for_each], over the elements already visited. *)
Lemma wp_for_each {X} (l : list X) (f : X -> cmd S unit) (I : list X -> S -> Prop) E s :
  I [] s ->
  (forall done x s', (exists todo, l = done ++ x :: todo) -> I done s' ->
     wp (f x) (fun _ s'' => I (done ++ [x]) s'') E s') ->
  wp (for_each l f) (fun _ s' => I l s') E s.
Proof.
  intros H0 Hstep.
  cut (forall todo done s', l = done ++ todo -> I done s' ->
         wp (for_each todo f) (fun _ s'' => I l s'') E s').
  { intros H. by apply (H l [] s). }
  induction todo as [|x todo IH]; intros done s' Hl Hd; simpl.
  - apply wp_ret. by rewrite Hl, app_nil_r.
  - apply wp_bind. eapply wp_mono; [apply Hstep; eauto| |done].
    intros [] s'' H. apply (IH (done ++ [x])); [|done].
    by rewrite <- app_assoc.
Qed.

(** Invariant rule of [fold_each]. *)
Lemma wp_fold_each {X A} (l : list X) (f : X -> A -> cmd S A)
    (I : list X -> A -> S -> Prop) E a s :
  I [] a s ->
  (forall done x a' s', (exists todo, l = done ++ x :: todo) -> I done a' s' ->
     wp (f x a') (fun a'' s'' => I (done ++ [x]) a'' s'') E s') ->
  wp (fold_each l a f) (fun a' s' => I l a' s') E s.
Proof.
  intros H0 Hstep.
  cut (forall todo done a' s', l = done ++ todo -> I done a' s' ->
         wp (fold_each todo a' f) (fun a'' s'' => I l a'' s'') E s').
  { intros H. by apply (H l [] a s). }
  induction todo as [|x todo IH]; intros done a' s' Hl Hd; simpl.
  - apply wp_ret. by rewrite Hl, app_nil_r.
  - apply wp_bind. eapply wp_mono; [apply Hstep; eauto| |done].
    intros a'' s'' H. apply (IH (done ++ [x])); [|done].
    by rewrite <- app_assoc.
Qed.

(** A scan that only reads: it computes [forallb]. *)
Lemma all_of_pure {X} (l : list X) (p : X -> cmd S bool) (q : X -> bool) s :
  (forall x, x ∈ l -> p x s = Done (q x) s) -> all_of l p s = Done (forallb q l) s.
Proof.
  induction l as [|x l IH]; intros H; simpl; [done|].
  unfold bind. rewrite H by apply list_elem_of_here.
  destruct (q x); simpl; [|done].
  apply IH. intros y Hy. apply H. by apply list_elem_of_further.
Qed.
End Wp.

(** [wp_step] runs the command at the head of a [wp] goal one primitive
    further; [wp_steps] repeats it while no side condition is left. *)
Ltac wp_step :=
  lazymatch goal with
  | |- wp (bind _ _) _ _ _ => apply wp_bind
  | |- wp (ret _) _ _ _ => apply wp_ret
  | |- wp (gets _) _ _ _ => apply wp_gets
  | |- wp (modify _) _ _ _ => apply wp_modify
  | |- wp (halt _) _ _ _ => apply wp_halt
  end; cbv beta.
Ltac wp_steps := repeat wp_step.
