(* ===== verification/PsciTypes.v ===== *)
(** * PSCI: configuration, data and state

    The types of include/lib/psci/psci.h, psci_lib.h and lib/psci/psci_private.h,
    the variables of lib/psci as one state record, the platform and Secure
    Payload Dispatcher interfaces, and the accessors the handlers are written
    with. *)

From S2P Require Import Prelude.

(** ** Build-time configuration *)

(** Platform constants (platform_def.h) and build options PSCI depends on.
    Power levels are small ([PSCI_MAX_PWR_LVL] is 3) and are [nat]; node and CPU
    indices, states and register values are [Z]. *)
Class PsciConfig := {
  PLAT_MAX_PWR_LVL : nat;
  PLATFORM_CORE_COUNT : Z;
  PSCI_NUM_NON_CPU_PWR_DOMAINS : Z;
  PLAT_MAX_RET_STATE : Z;
  PLAT_MAX_OFF_STATE : Z;
  PLAT_MAX_CPU_SUSPEND_PWR_LVL : option nat;
  PLAT_MAX_PWR_LVL_STATES : Z;
  PSCI_OS_INIT_MODE : bool;
  PSCI_EXTENDED_STATE_ID : bool;
  ENABLE_PSCI_STAT : bool;
  ENABLE_RUNTIME_INSTRUMENTATION : bool;
  HW_ASSISTED_COHERENCY : bool;
  WARMBOOT_ENABLE_DCACHE_EARLY : bool;
  USE_GIC_DRIVER : bool;
  ENABLE_RMM : bool;
  ENABLE_ASSERTIONS : bool
}.

(** The [CASSERT]s of psci_common.c and psci_setup.c, with the ranges the
    [uint8_t] type of a local state imposes. *)
Class PsciConfigOk `{PsciConfig} : Prop := {
  cfg_max_lvl : (PLAT_MAX_PWR_LVL <= 3)%nat;
  cfg_states : 0 <= PLAT_MAX_RET_STATE < PLAT_MAX_OFF_STATE;
  cfg_off_u8 : PLAT_MAX_OFF_STATE < 256;
  cfg_cores : 0 < PLATFORM_CORE_COUNT <= 65536;
  cfg_suspend_lvl : forall l, PLAT_MAX_CPU_SUSPEND_PWR_LVL = Some l -> (l <= PLAT_MAX_PWR_LVL)%nat
}.

(** ** Constants *)

Definition PSCI_CPU_PWR_LVL : nat := 0.
Definition PSCI_INVALID_PWR_LVL `{PsciConfig} : nat := S PLAT_MAX_PWR_LVL.
Definition PSCI_LOCAL_STATE_RUN : Z := 0.

Definition PSCI_E_SUCCESS : Z := 0.
Definition PSCI_E_NOT_SUPPORTED : Z := -1.
Definition PSCI_E_INVALID_PARAMS : Z := -2.
Definition PSCI_E_DENIED : Z := -3.
Definition PSCI_E_ALREADY_ON : Z := -4.
Definition PSCI_E_ON_PENDING : Z := -5.
Definition PSCI_E_INTERN_FAIL : Z := -6.
Definition PSCI_E_NOT_PRESENT : Z := -7.
Definition PSCI_E_DISABLED : Z := -8.
Definition PSCI_E_INVALID_ADDRESS : Z := -9.

Definition PSCI_INVALID_MPIDR : Z := UINT64_MAX.
Definition PSCI_PARENT_NODE_INVALID : Z := UINT32_MAX.

Definition PSTATE_TYPE_STANDBY : Z := 0.
Definition PSTATE_TYPE_POWERDOWN : Z := 1.

(** The [max_pwrlvl] of the OS-initiated code: the platform's limit when it
    defines one. *)
Definition max_suspend_pwrlvl `{PsciConfig} : nat :=
  match PLAT_MAX_CPU_SUSPEND_PWR_LVL with
  | Some l => l
  | None => PLAT_MAX_PWR_LVL
  end.

(** ** Local power states (psci.h) *)

Section LocalState.
Context `{Cfg : PsciConfig}.

Definition is_local_state_run (st : Z) : bool := st =? PSCI_LOCAL_STATE_RUN.

Definition is_local_state_retn (st : Z) : bool :=
  (PSCI_LOCAL_STATE_RUN <? st) && (st <=? PLAT_MAX_RET_STATE).

Definition is_local_state_off (st : Z) : bool :=
  (PLAT_MAX_RET_STATE <? st) && (st <=? PLAT_MAX_OFF_STATE).

(** Fields of the CPU_SUSPEND [power_state] parameter. *)
Definition PSTATE_VALID_MASK : Z :=
  if PSCI_EXTENDED_STATE_ID then 0xB0000000 else 0xFCFE0000.
Definition PSTATE_TYPE_SHIFT : Z := if PSCI_EXTENDED_STATE_ID then 30 else 16.

Definition psci_get_pstate_type (power_state : Z) : Z :=
  Z.land (Z.shiftr power_state PSTATE_TYPE_SHIFT) 1.

Definition psci_check_power_state (power_state : Z) : Z :=
  Z.land power_state PSTATE_VALID_MASK.
End LocalState.

(** [define_psci_cap]: the capability bit of a function identifier. *)
Definition define_psci_cap (x : Z) : Z := Z.shiftl 1 (Z.land x 0x1f).

(** ** Data structures *)

Inductive aff_info_state_t : Set :=
  | AFF_STATE_ON
  | AFF_STATE_OFF
  | AFF_STATE_ON_PENDING.

#[export] Instance aff_info_state_eq_dec : EqDecision aff_info_state_t.
Proof. solve_decision. Defined.

Definition aff_info_state_val (a : aff_info_state_t) : Z :=
  match a with AFF_STATE_ON => 0 | AFF_STATE_OFF => 1 | AFF_STATE_ON_PENDING => 2 end.

Inductive suspend_mode_t : Set := PLAT_COORD | OS_INIT.

#[export] Instance suspend_mode_eq_dec : EqDecision suspend_mode_t.
Proof. solve_decision. Defined.

Record non_cpu_pd_node_t := {
  cpu_start_idx : Z;
  ncpus : Z;
  parent_node : Z;
  first_child_idx : Z;
  num_children : Z;
  local_state : Z;
  level : nat;
  lock_index : Z
}.

Record cpu_pd_node_t := {
  mpidr : Z;
  cpu_parent_node : Z
}.

(** [struct psci_cpu_data], with the per-CPU pointer to the entry point
    information as the index of the element it points to. *)
Record psci_cpu_data_t := {
  aff_info_state : aff_info_state_t;
  target_pwrlvl : nat;
  cpu_local_state : Z;
  warmboot_ep_ptr : option Z
}.

Record psci_power_state_t := {
  pwr_domain_state : list Z;
  last_at_pwrlvl : nat
}.

(** [entry_point_info_t] on AArch64. *)
Record entry_point_info_t := {
  ep_type : Z;
  ep_version : Z;
  ep_size : Z;
  ep_attr : Z;
  ep_pc : Z;
  ep_spsr : Z;
  ep_args : list Z
}.

Record psci_stat_t := { residency : Z; count : Z }.

(** ** Events

    Every interaction with code outside lib/psci that has an effect is
    recorded in the state's [trace], newest first: locks, platform and SPD
    hooks, the interrupt controller, cache maintenance, the CPU driver and
    [wfi]. A hook's answer is a function of its arguments and of the trace, so
    that the theorems quantify over every platform whose behaviour depends on
    the interaction so far. *)

Inductive event : Type :=
  | E_lock_get (lock : Z)
  | E_lock_release (lock : Z)
  | E_spin_lock_cpu (idx : Z)
  | E_spin_unlock_cpu (idx : Z)
  | E_cpu_standby (st : Z)
  | E_pwr_domain_on (mpidr : Z)
  | E_pwr_domain_off (st : psci_power_state_t)
  | E_pwr_domain_off_early (st : psci_power_state_t)
  | E_pwr_domain_validate_suspend (st : psci_power_state_t)
  | E_pwr_domain_suspend_pwrdown_early (st : psci_power_state_t)
  | E_pwr_domain_suspend (st : psci_power_state_t)
  | E_pwr_domain_on_finish (st : psci_power_state_t)
  | E_pwr_domain_on_finish_late (st : psci_power_state_t)
  | E_pwr_domain_suspend_finish (st : psci_power_state_t)
  | E_pwr_domain_pwr_down (st : psci_power_state_t)
  | E_stat_accounting_start (st : psci_power_state_t)
  | E_stat_accounting_stop (st : psci_power_state_t)
  | E_system_off
  | E_system_reset
  | E_system_reset2 (is_vendor reset_type cookie : Z)
  | E_write_mem_protect (val : Z)
  | E_svc_on (target_cpu : Z)
  | E_svc_off
  | E_svc_suspend (max_off_pwrlvl : nat)
  | E_svc_on_finish
  | E_svc_suspend_finish (max_off_pwrlvl : nat) (abandon : bool)
  | E_svc_migrate (from_cpu to_cpu : Z)
  | E_svc_system_off
  | E_svc_system_reset
  | E_gic_cpuif_enable (idx : Z)
  | E_gic_cpuif_disable (idx : Z)
  | E_gic_pcpu_init (idx : Z)
  | E_gic_pcpu_off (idx : Z)
  | E_wfi
  | E_cpu_pwr_dwn (op : nat)
  | E_pwrdown_cache_maintenance
  | E_pwrup_cache_maintenance
  | E_arch_setup
  | E_setup_psci_ops (mailbox_ep : Z)
  | E_write_cntfrq
  | E_publish_cpu_off_start
  | E_publish_cpu_on_finish
  | E_publish_suspend_pwrdown_start (idx : Z)
  | E_publish_suspend_pwrdown_finish (idx : Z)
  | E_timestamp (id : nat)
  | E_console_flush
  | E_cm_set_context (idx : Z)
  | E_cm_init_my_context (ep : entry_point_info_t)
  | E_cm_prepare_el3_exit_ns
  | E_stop_core (mpidr : Z)
  | E_mdelay.

(** Timestamps of lib/runtime_instr.h. *)
Definition RT_INSTR_ENTER_HW_LOW_PWR : nat := 2.
Definition RT_INSTR_EXIT_HW_LOW_PWR : nat := 3.
Definition RT_INSTR_ENTER_CFLUSH : nat := 4.
Definition RT_INSTR_EXIT_CFLUSH : nat := 5.

(** ** The platform and the Secure Payload Dispatcher

    [plat_psci_ops_t]: an unregistered (NULL) hook is [None], or [false] for a
    hook without a result. A [bool] result of a hook that "may not return"
    tells whether it returns. *)
Record plat_psci_ops_t := {
  cpu_standby : bool;
  pwr_domain_on : option (Z -> list event -> Z);
  pwr_domain_off : bool;
  pwr_domain_off_early : option (psci_power_state_t -> list event -> Z);
  pwr_domain_validate_suspend : option (psci_power_state_t -> list event -> Z);
  pwr_domain_suspend_pwrdown_early : bool;
  pwr_domain_suspend : bool;
  pwr_domain_on_finish : bool;
  pwr_domain_on_finish_late : bool;
  pwr_domain_suspend_finish : bool;
  pwr_domain_pwr_down : option (psci_power_state_t -> list event -> bool);
  system_off : option (list event -> bool);
  system_reset : option (list event -> bool);
  validate_power_state : option (Z -> psci_power_state_t -> list event -> Z * psci_power_state_t);
  validate_ns_entrypoint : option (Z -> list event -> Z);
  get_sys_suspend_power_state : option (list event -> psci_power_state_t);
  get_pwr_lvl_state_idx : option (Z -> nat -> Z);
  translate_power_state_by_mpidr :
    option (Z -> Z -> psci_power_state_t -> list event -> Z * psci_power_state_t);
  get_node_hw_state : option (Z -> Z -> list event -> Z);
  mem_protect_chk : option (Z -> Z -> list event -> Z);
  read_mem_protect : option (list event -> Z * Z);
  write_mem_protect : option (Z -> list event -> Z);
  system_reset2 : option (Z -> Z -> Z -> list event -> Z)
}.

Record spd_pm_ops_t := {
  svc_on : bool;
  svc_off : option (list event -> Z);
  svc_suspend : bool;
  svc_on_finish : bool;
  svc_suspend_finish : bool;
  svc_migrate : option (Z -> Z -> list event -> Z);
  svc_migrate_info : option (list event -> Z * Z);
  svc_system_off : bool;
  svc_system_reset : bool
}.

(** [h != NULL] *)
Definition registered {A} (h : option A) : bool :=
  match h with Some _ => true | None => false end.

(** The platform port and the processor as PSCI sees them.
    [plat_get_target_pwr_state] is [None] when its assertion on the number of
    CPUs fails; [wfi_wakes] tells whether a [wfi] executed after a given trace
    resumes. [plat_setup_psci_ops] tells whether the function of this name stores
    a pointer to the platform's hooks, which are [psci_plat_pm_ops]. [cpu_ops_ptr]
    has the power down operations of the CPU driver. *)
Class Platform := {
  plat_core_pos_by_mpidr : Z -> Z;
  plat_get_target_pwr_state : nat -> list Z -> option Z;
  plat_get_power_domain_tree_desc : list Z;
  plat_setup_psci_ops : Z -> bool;
  psci_plat_pm_ops : plat_psci_ops_t;
  plat_psci_stat_get_residency : nat -> psci_power_state_t -> Z -> list event -> Z;
  read_mpidr : Z -> Z;
  read_scr_el3 : list event -> Z;
  read_sctlr_el1 : list event -> Z;
  read_sctlr_el2 : list event -> Z;
  read_isr_el1 : list event -> Z;
  wfi_wakes : list event -> bool;
  cpu_ops_ptr : option (list (option (list event -> Z)))
}.

(** ** The state of lib/psci *)

Record psci_state := {
  psci_non_cpu_pd_nodes : list non_cpu_pd_node_t;
  psci_cpu_pd_nodes : list cpu_pd_node_t;
  psci_req_local_pwr_states : list (list Z);
  psci_svc_cpu_data : list psci_cpu_data_t;
  warmboot_ep_info : list entry_point_info_t;
  psci_plat_core_count : Z;
  psci_caps : Z;
  psci_suspend_mode : suspend_mode_t;
  psci_spd_pm : option spd_pm_ops_t;
  last_cpu_in_non_cpu_pd : list Z;
  psci_cpu_stat : list (list psci_stat_t);
  psci_non_cpu_stat : list (list psci_stat_t);
  trace : list event
}.

Definition set_nodes (v : list non_cpu_pd_node_t) (s : psci_state) : psci_state := {|
  psci_non_cpu_pd_nodes := v;
  psci_cpu_pd_nodes := psci_cpu_pd_nodes s;
  psci_req_local_pwr_states := psci_req_local_pwr_states s;
  psci_svc_cpu_data := psci_svc_cpu_data s;
  warmboot_ep_info := warmboot_ep_info s;
  psci_plat_core_count := psci_plat_core_count s;
  psci_caps := psci_caps s;
  psci_suspend_mode := psci_suspend_mode s;
  psci_spd_pm := psci_spd_pm s;
  last_cpu_in_non_cpu_pd := last_cpu_in_non_cpu_pd s;
  psci_cpu_stat := psci_cpu_stat s;
  psci_non_cpu_stat := psci_non_cpu_stat s;
  trace := trace s
|}.

Definition set_cpu_nodes (v : list cpu_pd_node_t) (s : psci_state) : psci_state := {|
  psci_non_cpu_pd_nodes := psci_non_cpu_pd_nodes s;
  psci_cpu_pd_nodes := v;
  psci_req_local_pwr_states := psci_req_local_pwr_states s;
  psci_svc_cpu_data := psci_svc_cpu_data s;
  warmboot_ep_info := warmboot_ep_info s;
  psci_plat_core_count := psci_plat_core_count s;
  psci_caps := psci_caps s;
  psci_suspend_mode := psci_suspend_mode s;
  psci_spd_pm := psci_spd_pm s;
  last_cpu_in_non_cpu_pd := last_cpu_in_non_cpu_pd s;
  psci_cpu_stat := psci_cpu_stat s;
  psci_non_cpu_stat := psci_non_cpu_stat s;
  trace := trace s
|}.

Definition set_req (v : list (list Z)) (s : psci_state) : psci_state := {|
  psci_non_cpu_pd_nodes := psci_non_cpu_pd_nodes s;
  psci_cpu_pd_nodes := psci_cpu_pd_nodes s;
  psci_req_local_pwr_states := v;
  psci_svc_cpu_data := psci_svc_cpu_data s;
  warmboot_ep_info := warmboot_ep_info s;
  psci_plat_core_count := psci_plat_core_count s;
  psci_caps := psci_caps s;
  psci_suspend_mode := psci_suspend_mode s;
  psci_spd_pm := psci_spd_pm s;
  last_cpu_in_non_cpu_pd := last_cpu_in_non_cpu_pd s;
  psci_cpu_stat := psci_cpu_stat s;
  psci_non_cpu_stat := psci_non_cpu_stat s;
  trace := trace s
|}.

Definition set_cpu_data (v : list psci_cpu_data_t) (s : psci_state) : psci_state := {|
  psci_non_cpu_pd_nodes := psci_non_cpu_pd_nodes s;
  psci_cpu_pd_nodes := psci_cpu_pd_nodes s;
  psci_req_local_pwr_states := psci_req_local_pwr_states s;
  psci_svc_cpu_data := v;
  warmboot_ep_info := warmboot_ep_info s;
  psci_plat_core_count := psci_plat_core_count s;
  psci_caps := psci_caps s;
  psci_suspend_mode := psci_suspend_mode s;
  psci_spd_pm := psci_spd_pm s;
  last_cpu_in_non_cpu_pd := last_cpu_in_non_cpu_pd s;
  psci_cpu_stat := psci_cpu_stat s;
  psci_non_cpu_stat := psci_non_cpu_stat s;
  trace := trace s
|}.

Definition set_ep_info (v : list entry_point_info_t) (s : psci_state) : psci_state := {|
  psci_non_cpu_pd_nodes := psci_non_cpu_pd_nodes s;
  psci_cpu_pd_nodes := psci_cpu_pd_nodes s;
  psci_req_local_pwr_states := psci_req_local_pwr_states s;
  psci_svc_cpu_data := psci_svc_cpu_data s;
  warmboot_ep_info := v;
  psci_plat_core_count := psci_plat_core_count s;
  psci_caps := psci_caps s;
  psci_suspend_mode := psci_suspend_mode s;
  psci_spd_pm := psci_spd_pm s;
  last_cpu_in_non_cpu_pd := last_cpu_in_non_cpu_pd s;
  psci_cpu_stat := psci_cpu_stat s;
  psci_non_cpu_stat := psci_non_cpu_stat s;
  trace := trace s
|}.

Definition set_core_count (v : Z) (s : psci_state) : psci_state := {|
  psci_non_cpu_pd_nodes := psci_non_cpu_pd_nodes s;
  psci_cpu_pd_nodes := psci_cpu_pd_nodes s;
  psci_req_local_pwr_states := psci_req_local_pwr_states s;
  psci_svc_cpu_data := psci_svc_cpu_data s;
  warmboot_ep_info := warmboot_ep_info s;
  psci_plat_core_count := v;
  psci_caps := psci_caps s;
  psci_suspend_mode := psci_suspend_mode s;
  psci_spd_pm := psci_spd_pm s;
  last_cpu_in_non_cpu_pd := last_cpu_in_non_cpu_pd s;
  psci_cpu_stat := psci_cpu_stat s;
  psci_non_cpu_stat := psci_non_cpu_stat s;
  trace := trace s
|}.

Definition set_caps (v : Z) (s : psci_state) : psci_state := {|
  psci_non_cpu_pd_nodes := psci_non_cpu_pd_nodes s;
  psci_cpu_pd_nodes := psci_cpu_pd_nodes s;
  psci_req_local_pwr_states := psci_req_local_pwr_states s;
  psci_svc_cpu_data := psci_svc_cpu_data s;
  warmboot_ep_info := warmboot_ep_info s;
  psci_plat_core_count := psci_plat_core_count s;
  psci_caps := v;
  psci_suspend_mode := psci_suspend_mode s;
  psci_spd_pm := psci_spd_pm s;
  last_cpu_in_non_cpu_pd := last_cpu_in_non_cpu_pd s;
  psci_cpu_stat := psci_cpu_stat s;
  psci_non_cpu_stat := psci_non_cpu_stat s;
  trace := trace s
|}.

Definition set_mode (v : suspend_mode_t) (s : psci_state) : psci_state := {|
  psci_non_cpu_pd_nodes := psci_non_cpu_pd_nodes s;
  psci_cpu_pd_nodes := psci_cpu_pd_nodes s;
  psci_req_local_pwr_states := psci_req_local_pwr_states s;
  psci_svc_cpu_data := psci_svc_cpu_data s;
  warmboot_ep_info := warmboot_ep_info s;
  psci_plat_core_count := psci_plat_core_count s;
  psci_caps := psci_caps s;
  psci_suspend_mode := v;
  psci_spd_pm := psci_spd_pm s;
  last_cpu_in_non_cpu_pd := last_cpu_in_non_cpu_pd s;
  psci_cpu_stat := psci_cpu_stat s;
  psci_non_cpu_stat := psci_non_cpu_stat s;
  trace := trace s
|}.

Definition set_spd (v : option spd_pm_ops_t) (s : psci_state) : psci_state := {|
  psci_non_cpu_pd_nodes := psci_non_cpu_pd_nodes s;
  psci_cpu_pd_nodes := psci_cpu_pd_nodes s;
  psci_req_local_pwr_states := psci_req_local_pwr_states s;
  psci_svc_cpu_data := psci_svc_cpu_data s;
  warmboot_ep_info := warmboot_ep_info s;
  psci_plat_core_count := psci_plat_core_count s;
  psci_caps := psci_caps s;
  psci_suspend_mode := psci_suspend_mode s;
  psci_spd_pm := v;
  last_cpu_in_non_cpu_pd := last_cpu_in_non_cpu_pd s;
  psci_cpu_stat := psci_cpu_stat s;
  psci_non_cpu_stat := psci_non_cpu_stat s;
  trace := trace s
|}.

Definition set_last_cpu (v : list Z) (s : psci_state) : psci_state := {|
  psci_non_cpu_pd_nodes := psci_non_cpu_pd_nodes s;
  psci_cpu_pd_nodes := psci_cpu_pd_nodes s;
  psci_req_local_pwr_states := psci_req_local_pwr_states s;
  psci_svc_cpu_data := psci_svc_cpu_data s;
  warmboot_ep_info := warmboot_ep_info s;
  psci_plat_core_count := psci_plat_core_count s;
  psci_caps := psci_caps s;
  psci_suspend_mode := psci_suspend_mode s;
  psci_spd_pm := psci_spd_pm s;
  last_cpu_in_non_cpu_pd := v;
  psci_cpu_stat := psci_cpu_stat s;
  psci_non_cpu_stat := psci_non_cpu_stat s;
  trace := trace s
|}.

Definition set_cpu_stat (v : list (list psci_stat_t)) (s : psci_state) : psci_state := {|
  psci_non_cpu_pd_nodes := psci_non_cpu_pd_nodes s;
  psci_cpu_pd_nodes := psci_cpu_pd_nodes s;
  psci_req_local_pwr_states := psci_req_local_pwr_states s;
  psci_svc_cpu_data := psci_svc_cpu_data s;
  warmboot_ep_info := warmboot_ep_info s;
  psci_plat_core_count := psci_plat_core_count s;
  psci_caps := psci_caps s;
  psci_suspend_mode := psci_suspend_mode s;
  psci_spd_pm := psci_spd_pm s;
  last_cpu_in_non_cpu_pd := last_cpu_in_non_cpu_pd s;
  psci_cpu_stat := v;
  psci_non_cpu_stat := psci_non_cpu_stat s;
  trace := trace s
|}.

Definition set_non_cpu_stat (v : list (list psci_stat_t)) (s : psci_state) : psci_state := {|
  psci_non_cpu_pd_nodes := psci_non_cpu_pd_nodes s;
  psci_cpu_pd_nodes := psci_cpu_pd_nodes s;
  psci_req_local_pwr_states := psci_req_local_pwr_states s;
  psci_svc_cpu_data := psci_svc_cpu_data s;
  warmboot_ep_info := warmboot_ep_info s;
  psci_plat_core_count := psci_plat_core_count s;
  psci_caps := psci_caps s;
  psci_suspend_mode := psci_suspend_mode s;
  psci_spd_pm := psci_spd_pm s;
  last_cpu_in_non_cpu_pd := last_cpu_in_non_cpu_pd s;
  psci_cpu_stat := psci_cpu_stat s;
  psci_non_cpu_stat := v;
  trace := trace s
|}.

Definition set_trace (v : list event) (s : psci_state) : psci_state := {|
  psci_non_cpu_pd_nodes := psci_non_cpu_pd_nodes s;
  psci_cpu_pd_nodes := psci_cpu_pd_nodes s;
  psci_req_local_pwr_states := psci_req_local_pwr_states s;
  psci_svc_cpu_data := psci_svc_cpu_data s;
  warmboot_ep_info := warmboot_ep_info s;
  psci_plat_core_count := psci_plat_core_count s;
  psci_caps := psci_caps s;
  psci_suspend_mode := psci_suspend_mode s;
  psci_spd_pm := psci_spd_pm s;
  last_cpu_in_non_cpu_pd := last_cpu_in_non_cpu_pd s;
  psci_cpu_stat := psci_cpu_stat s;
  psci_non_cpu_stat := psci_non_cpu_stat s;
  trace := v
|}.


Abbreviation psci A := (cmd psci_state A).

(** ** Accessors *)

Definition emit (e : event) : psci unit :=
  modify (fun s => set_trace (e :: trace s) s).

(** [if (flag) event] for the conditionally compiled calls. *)
Definition emit_if (b : bool) (e : event) : psci unit := when b (emit e).

Definition non_cpu_node (i : Z) : psci non_cpu_pd_node_t := fun s =>
  deref ((psci_non_cpu_pd_nodes s).[i]) s.

Definition write_non_cpu_node (i : Z) (f : non_cpu_pd_node_t -> non_cpu_pd_node_t) : psci unit :=
  (let! n := non_cpu_node i in
   modify (fun s => set_nodes (zupdate (psci_non_cpu_pd_nodes s) i (f n)) s))%cmd.

Definition cpu_node (i : Z) : psci cpu_pd_node_t := fun s =>
  deref ((psci_cpu_pd_nodes s).[i]) s.

Definition write_cpu_node (i : Z) (f : cpu_pd_node_t -> cpu_pd_node_t) : psci unit :=
  (let! n := cpu_node i in
   modify (fun s => set_cpu_nodes (zupdate (psci_cpu_pd_nodes s) i (f n)) s))%cmd.

Definition cpu_data (i : Z) : psci psci_cpu_data_t := fun s =>
  deref ((psci_svc_cpu_data s).[i]) s.

Definition write_cpu_data (i : Z) (f : psci_cpu_data_t -> psci_cpu_data_t) : psci unit :=
  (let! d := cpu_data i in
   modify (fun s => set_cpu_data (zupdate (psci_svc_cpu_data s) i (f d)) s))%cmd.

(** [state_info->pwr_domain_state[lvl]] *)
Definition pd_state (st : psci_power_state_t) (lvl : nat) : psci Z :=
  deref (pwr_domain_state st !! lvl).

Definition set_pd_state (st : psci_power_state_t) (lvl : nat) (v : Z) : psci_power_state_t :=
  {| pwr_domain_state := <[lvl := v]> (pwr_domain_state st);
     last_at_pwrlvl := last_at_pwrlvl st |}.

Definition write_pd_state (st : psci_power_state_t) (lvl : nat) (v : Z) : psci psci_power_state_t :=
  (deref (pwr_domain_state st !! lvl) ;; ret (set_pd_state st lvl v))%cmd.

(** Record updates of the node and per-CPU structures. *)
Definition with_local_state (v : Z) (n : non_cpu_pd_node_t) : non_cpu_pd_node_t := {|
  cpu_start_idx := cpu_start_idx n; ncpus := ncpus n; parent_node := parent_node n;
  first_child_idx := first_child_idx n; num_children := num_children n;
  local_state := v; level := level n; lock_index := lock_index n |}.

Definition with_aff_info_state (v : aff_info_state_t) (d : psci_cpu_data_t) : psci_cpu_data_t := {|
  aff_info_state := v; target_pwrlvl := target_pwrlvl d;
  cpu_local_state := cpu_local_state d; warmboot_ep_ptr := warmboot_ep_ptr d |}.

Definition with_target_pwrlvl (v : nat) (d : psci_cpu_data_t) : psci_cpu_data_t := {|
  aff_info_state := aff_info_state d; target_pwrlvl := v;
  cpu_local_state := cpu_local_state d; warmboot_ep_ptr := warmboot_ep_ptr d |}.

Definition with_cpu_local_state (v : Z) (d : psci_cpu_data_t) : psci_cpu_data_t := {|
  aff_info_state := aff_info_state d; target_pwrlvl := target_pwrlvl d;
  cpu_local_state := v; warmboot_ep_ptr := warmboot_ep_ptr d |}.

Definition with_mpidr (v : Z) (n : cpu_pd_node_t) : cpu_pd_node_t := {|
  mpidr := v; cpu_parent_node := cpu_parent_node n |}.

(** The inline accessors of psci_private.h. The functions that act on the
    executing CPU take its index. *)
Definition psci_get_aff_info_state_by_idx (idx : Z) : psci aff_info_state_t :=
  (let! d := cpu_data idx in ret (aff_info_state d))%cmd.

Definition psci_set_aff_info_state_by_idx (idx : Z) (a : aff_info_state_t) : psci unit :=
  write_cpu_data idx (with_aff_info_state a).

Definition psci_get_suspend_pwrlvl (me : Z) : psci nat :=
  (let! d := cpu_data me in ret (target_pwrlvl d))%cmd.

Definition psci_set_suspend_pwrlvl (me : Z) (lvl : nat) : psci unit :=
  write_cpu_data me (with_target_pwrlvl lvl).

Definition psci_get_cpu_local_state_by_idx (idx : Z) : psci Z :=
  (let! d := cpu_data idx in ret (cpu_local_state d))%cmd.

Definition psci_set_cpu_local_state (me : Z) (st : Z) : psci unit :=
  write_cpu_data me (with_cpu_local_state st).

Definition is_cpu_standby_req (is_power_down_state : Z) (retn_lvl : nat) : bool :=
  (is_power_down_state =? 0) && (retn_lvl =? 0)%nat.

Definition psci_lock_get (node : non_cpu_pd_node_t) : psci unit :=
  emit (E_lock_get (lock_index node)).

Definition psci_lock_release (node : non_cpu_pd_node_t) : psci unit :=
  emit (E_lock_release (lock_index node)).

Definition is_valid_mpidr `{PsciConfig, Platform} (m : Z) : bool :=
  let pos := plat_core_pos_by_mpidr m in
  negb ((pos <? 0) || (PLATFORM_CORE_COUNT <=? u32 pos)).
