(* ===== verification/PsciCommon.v ===== *)
(** * PSCI: power domain state management (lib/psci/psci_common.c) *)

From stdpp Require Import list_numbers.
From S2P Require Import Prelude PsciTypes.
#[local] Open Scope cmd_scope.

Section Definitions.
Context `{Cfg : PsciConfig} `{Plat : Platform}.

(** ** Walking up the power domain tree

    The loops [for (lvl = 1; lvl <= end_pwrlvl; lvl++)] that follow
    [parent_idx] share one shape: a body that may break, then
    [parent_idx = psci_non_cpu_pd_nodes[parent_idx].parent_node]. [walk_up n]
    runs at most [n] iterations with a loop variable [acc] and returns the
    final [lvl]. *)
Fixpoint walk_up {X} (n : nat) (lvl : nat) (parent_idx : Z) (acc : X)
    (body : nat -> Z -> X -> psci (bool * X)) : psci (nat * X) :=
  match n with
  | O => ret (lvl, acc)
  | S n' =>
      let! r := body lvl parent_idx acc in
      if fst r then ret (lvl, snd r)
      else
        let! nd := non_cpu_node parent_idx in
        walk_up n' (S lvl) (parent_node nd) (snd r) body
  end.

(** [assert(hook != NULL)] followed by a call through [hook]. *)
Definition required {A} (hook : option A) : psci A :=
  assert_ ENABLE_ASSERTIONS (bool_decide (is_Some hook)) ;;
  deref hook.

(** ** Requested states *)

Definition psci_set_req_local_pwr_state (pwrlvl : nat) (cpu_idx req_pwr_state : Z) : psci unit :=
  assert_ ENABLE_ASSERTIONS (PSCI_CPU_PWR_LVL <? pwrlvl)%nat ;;
  let! n := gets psci_plat_core_count in
  when ((PSCI_CPU_PWR_LVL <? pwrlvl)%nat && (pwrlvl <=? PLAT_MAX_PWR_LVL)%nat && (cpu_idx <? n))
    (let! reqs := gets psci_req_local_pwr_states in
     let! row := deref (reqs !! (pwrlvl - 1)%nat) in
     deref (row.[cpu_idx]) ;;
     modify (fun s =>
       set_req (<[(pwrlvl - 1)%nat := zupdate row cpu_idx req_pwr_state]> reqs) s)).

Definition psci_init_req_local_pwr_states : psci unit :=
  let! n := gets psci_plat_core_count in
  for_each (seq 0 PLAT_MAX_PWR_LVL) (fun pwrlvl =>
    for_each (seqZ 0 n) (fun core =>
      let! reqs := gets psci_req_local_pwr_states in
      let! row := deref (reqs !! pwrlvl) in
      deref (row.[core]) ;;
      modify (set_req (<[pwrlvl := zupdate row core PLAT_MAX_OFF_STATE]> reqs)))).

(** The returned pointer [&psci_req_local_pwr_states[pwrlvl - 1][cpu_idx]], or
    NULL. *)
Definition psci_get_req_local_pwr_states (pwrlvl : nat) (cpu_idx : Z) : psci (option (nat * Z)) :=
  assert_ ENABLE_ASSERTIONS (PSCI_CPU_PWR_LVL <? pwrlvl)%nat ;;
  let! n := gets psci_plat_core_count in
  ret (if (PSCI_CPU_PWR_LVL <? pwrlvl)%nat && (pwrlvl <=? PLAT_MAX_PWR_LVL)%nat && (cpu_idx <? n)
       then Some ((pwrlvl - 1)%nat, cpu_idx) else None).

(** Reading [ncpus] elements through such a pointer. *)
Definition read_req_states (ptr : option (nat * Z)) (ncpu : Z) : psci (list Z) :=
  let! p := deref ptr in
  let! reqs := gets psci_req_local_pwr_states in
  let! row := deref (reqs !! fst p) in
  deref (zslice row (snd p) ncpu).

(** ** Local states of non-CPU power domains *)

Definition get_non_cpu_pd_node_local_state (parent_idx : Z) : psci Z :=
  let! nd := non_cpu_node parent_idx in ret (local_state nd).

Definition set_non_cpu_pd_node_local_state (parent_idx state : Z) : psci unit :=
  write_non_cpu_node parent_idx (with_local_state state).

Definition psci_get_target_local_pwr_states (cpu_idx : Z) (end_pwrlvl : nat)
    (target_state : psci_power_state_t) : psci psci_power_state_t :=
  let! st0 := psci_get_cpu_local_state_by_idx cpu_idx in
  let! ts0 := write_pd_state target_state PSCI_CPU_PWR_LVL st0 in
  let! c := cpu_node cpu_idx in
  let! r := walk_up end_pwrlvl 1 (cpu_parent_node c) ts0 (fun lvl parent_idx ts =>
    let! st := get_non_cpu_pd_node_local_state parent_idx in
    let! ts' := write_pd_state ts lvl st in
    ret (false, ts')) in
  let lvl := fst r in
  fold_each (seq lvl (S PLAT_MAX_PWR_LVL - lvl)%nat) (snd r) (fun l ts =>
    write_pd_state ts l PSCI_LOCAL_STATE_RUN).

Definition psci_set_target_local_pwr_states (cpu_idx : Z) (end_pwrlvl : nat)
    (target_state : psci_power_state_t) : psci unit :=
  let! st0 := pd_state target_state PSCI_CPU_PWR_LVL in
  psci_set_cpu_local_state cpu_idx st0 ;;
  let! c := cpu_node cpu_idx in
  walk_up end_pwrlvl 1 (cpu_parent_node c) tt (fun lvl parent_idx _ =>
    let! st := pd_state target_state lvl in
    set_non_cpu_pd_node_local_state parent_idx st ;;
    ret (false, tt)) ;;
  ret tt.

Definition psci_get_parent_pwr_domain_nodes (cpu_idx : Z) (end_lvl : nat) : psci (list Z) :=
  let! c := cpu_node cpu_idx in
  let! r := walk_up end_lvl 1 (cpu_parent_node c) [] (fun _ parent_node acc =>
    ret (false, acc ++ [parent_node])) in
  ret (snd r).

Definition psci_set_pwr_domains_to_run (cpu_idx : Z) (end_pwrlvl : nat) : psci unit :=
  let! c := cpu_node cpu_idx in
  walk_up end_pwrlvl 1 (cpu_parent_node c) tt (fun lvl parent_idx _ =>
    set_non_cpu_pd_node_local_state parent_idx PSCI_LOCAL_STATE_RUN ;;
    psci_set_req_local_pwr_state lvl cpu_idx PSCI_LOCAL_STATE_RUN ;;
    ret (false, tt)) ;;
  psci_set_aff_info_state_by_idx cpu_idx AFF_STATE_ON ;;
  psci_set_cpu_local_state cpu_idx PSCI_LOCAL_STATE_RUN.

(** ** State coordination *)

(** Second loop of [psci_do_state_coordination]: the levels above the one that
    was negotiated to RUN. *)
Definition coordination_rest (lvls : list nat) (cpu_idx : Z) (st : psci_power_state_t)
    : psci psci_power_state_t :=
  fold_each lvls st (fun lvl st =>
    let! v := pd_state st lvl in
    psci_set_req_local_pwr_state lvl cpu_idx v ;;
    write_pd_state st lvl PSCI_LOCAL_STATE_RUN).

(** Body of the first loop. *)
Definition coordination_body (cpu_idx : Z) (lvl : nat) (parent_idx : Z) (st : psci_power_state_t)
    : psci (bool * psci_power_state_t) :=
  let! v := pd_state st lvl in
  psci_set_req_local_pwr_state lvl cpu_idx v ;;
  let! nd := non_cpu_node parent_idx in
  let! req_states := psci_get_req_local_pwr_states lvl (cpu_start_idx nd) in
  let! states := read_req_states req_states (ncpus nd) in
  match plat_get_target_pwr_state lvl states with
  | None => halt AssertFailed
  | Some target_state =>
      let! st' := write_pd_state st lvl target_state in
      ret (is_local_state_run target_state, st')
  end.

Definition psci_do_state_coordination (cpu_idx : Z) (end_pwrlvl : nat)
    (state_info : psci_power_state_t) : psci psci_power_state_t :=
  assert_ ENABLE_ASSERTIONS (end_pwrlvl <=? PLAT_MAX_PWR_LVL)%nat ;;
  let! c := cpu_node cpu_idx in
  let! r := walk_up end_pwrlvl 1 (cpu_parent_node c) state_info (coordination_body cpu_idx) in
  let lvl := S (fst r) in
  coordination_rest (seq lvl (S end_pwrlvl - lvl)%nat) cpu_idx (snd r).

(** ** OS-initiated mode *)

Definition psci_update_req_local_pwr_states (end_pwrlvl : nat) (cpu_idx : Z)
    (state_info : psci_power_state_t) : psci (list Z) :=
  fold_each (seq 1 max_suspend_pwrlvl) [] (fun lvl prev =>
    let! p := psci_get_req_local_pwr_states lvl cpu_idx in
    let! olds := read_req_states p 1 in
    let! old := deref (olds !! 0%nat) in
    let! req_state :=
      pd_state state_info (if (lvl <=? end_pwrlvl)%nat then lvl else end_pwrlvl) in
    psci_set_req_local_pwr_state lvl cpu_idx req_state ;;
    ret (prev ++ [old])).

Definition psci_restore_req_local_pwr_states (cpu_idx : Z) (prev : list Z) : psci unit :=
  for_each (seq 1 max_suspend_pwrlvl) (fun lvl =>
    let! v := deref (prev !! (lvl - 1)%nat) in
    psci_set_req_local_pwr_state lvl cpu_idx v).

Definition psci_validate_subtree_state (node_idx : Z) (lvl : nat) (target_state : Z) : psci bool :=
  if (lvl =? PSCI_CPU_PWR_LVL)%nat then
    let! core_state := psci_get_cpu_local_state_by_idx node_idx in
    ret (target_state <=? core_state)
  else
    let! st := get_non_cpu_pd_node_local_state node_idx in
    ret (target_state <=? st).

(** The inner loop over the children of one parent: [false] on the first
    sibling that is too shallow. *)
Definition siblings_deep_enough (children : list Z) (path_node_idx : Z) (lvl : nat) (req : Z)
    : psci bool :=
  all_of children (fun node =>
    if node =? path_node_idx then ret true
    else psci_validate_subtree_state node (lvl - 1) req).

(** The loop variable is [(path_node_idx, rc)]. *)
Definition psci_validate_hierarchical_state_consistency (cpu_idx : Z) (end_pwrlvl : nat)
    (state_info : psci_power_state_t) : psci Z :=
  let! c := cpu_node cpu_idx in
  let! r := walk_up end_pwrlvl 1 (cpu_parent_node c) (cpu_idx, PSCI_E_SUCCESS)
    (fun lvl parent_node_idx acc =>
      let! parent_req_state := pd_state state_info lvl in
      let! nd := non_cpu_node parent_node_idx in
      let! ok := siblings_deep_enough (seqZ (first_child_idx nd) (num_children nd))
                   (fst acc) lvl parent_req_state in
      if ok then ret (false, (parent_node_idx, PSCI_E_SUCCESS))
      else ret (true, (fst acc, PSCI_E_DENIED))) in
  ret (snd (snd r)).

(** The scan of [psci_is_last_cpu_to_idle_at_pwrlvl]. *)
Definition others_idle (cpus : list Z) (my_idx : Z) : psci bool :=
  all_of cpus (fun cpu_idx =>
    let! st := psci_get_cpu_local_state_by_idx cpu_idx in
    if cpu_idx =? my_idx then
      assert_ ENABLE_ASSERTIONS (is_local_state_run st) ;; ret true
    else ret (negb (is_local_state_run st))).

Definition psci_is_last_cpu_to_idle_at_pwrlvl (my_idx : Z) (end_pwrlvl : nat) : psci bool :=
  if (end_pwrlvl =? PSCI_CPU_PWR_LVL)%nat then ret true
  else
    let! c := cpu_node my_idx in
    let! r := walk_up (end_pwrlvl - 1) 1 (cpu_parent_node c) (cpu_parent_node c)
      (fun _ parent_idx _ =>
        let! nd := non_cpu_node parent_idx in ret (false, parent_node nd)) in
    let! nd := non_cpu_node (snd r) in
    others_idle (seqZ (cpu_start_idx nd) (ncpus nd)) my_idx.

Definition psci_validate_state_coordination (cpu_idx : Z) (end_pwrlvl : nat)
    (state_info : psci_power_state_t) : psci Z :=
  assert_ ENABLE_ASSERTIONS (end_pwrlvl <=? PLAT_MAX_PWR_LVL)%nat ;;
  let! prev := psci_update_req_local_pwr_states end_pwrlvl cpu_idx state_info in
  let exit (rc : Z) : psci Z :=
    when (negb (rc =? PSCI_E_SUCCESS)) (psci_restore_req_local_pwr_states cpu_idx prev) ;;
    ret rc in
  let! rc := psci_validate_hierarchical_state_consistency cpu_idx end_pwrlvl state_info in
  if negb (rc =? PSCI_E_SUCCESS) then exit rc
  else
    let lvl := last_at_pwrlvl state_info in
    if (PLAT_MAX_PWR_LVL <? lvl)%nat then ret PSCI_E_INVALID_PARAMS
    else if (end_pwrlvl <? lvl)%nat then
      let! last := psci_is_last_cpu_to_idle_at_pwrlvl cpu_idx lvl in
      exit (if last then PSCI_E_SUCCESS else PSCI_E_DENIED)
    else exit PSCI_E_SUCCESS.

(** ** CPU counting *)

Definition psci_is_last_on_cpu (my_idx : Z) : psci bool :=
  let! n := gets psci_plat_core_count in
  all_of (seqZ 0 n) (fun cpu_idx =>
    let! a := psci_get_aff_info_state_by_idx cpu_idx in
    if cpu_idx =? my_idx then
      assert_ ENABLE_ASSERTIONS (bool_decide (a = AFF_STATE_ON)) ;; ret true
    else ret (bool_decide (a = AFF_STATE_OFF))).

Definition psci_are_all_cpus_on : psci bool :=
  let! n := gets psci_plat_core_count in
  all_of (seqZ 0 n) (fun cpu_idx =>
    let! a := psci_get_aff_info_state_by_idx cpu_idx in
    ret (negb (bool_decide (a = AFF_STATE_OFF)))).

Definition psci_num_cpus_running : psci Z :=
  let! n := gets psci_plat_core_count in
  fold_each (seqZ 0 n) 0 (fun cpu_idx no_of_cpus =>
    let! a := psci_get_aff_info_state_by_idx cpu_idx in
    ret (if bool_decide (a = AFF_STATE_ON) || bool_decide (a = AFF_STATE_ON_PENDING)
         then u32 (no_of_cpus + 1) else no_of_cpus)).

Definition get_power_on_target_pwrlvl (me : Z) : psci nat :=
  let! pwrlvl := psci_get_suspend_pwrlvl me in
  assert_ ENABLE_ASSERTIONS (pwrlvl <? PSCI_INVALID_PWR_LVL)%nat ;;
  ret pwrlvl.

(** ** Suspend requests *)

Inductive plat_local_state_type_t : Set :=
  | STATE_TYPE_RUN
  | STATE_TYPE_RETN
  | STATE_TYPE_OFF.

Definition state_type_val (t : plat_local_state_type_t) : Z :=
  match t with STATE_TYPE_RUN => 0 | STATE_TYPE_RETN => 1 | STATE_TYPE_OFF => 2 end.

Definition find_local_state_type (state : Z) : plat_local_state_type_t :=
  if negb (state =? 0) then
    if PLAT_MAX_RET_STATE <? state then STATE_TYPE_OFF else STATE_TYPE_RETN
  else STATE_TYPE_RUN.

Definition psci_validate_power_state (power_state : Z) (state_info : psci_power_state_t)
    : psci (Z * psci_power_state_t) :=
  if negb (psci_check_power_state power_state =? 0) then ret (PSCI_E_INVALID_PARAMS, state_info)
  else
    let! hook := required (validate_power_state psci_plat_pm_ops) in
    let! t := gets trace in
    ret (hook power_state state_info t).

Definition psci_query_sys_suspend_pwrstate : psci psci_power_state_t :=
  let! hook := required (get_sys_suspend_power_state psci_plat_pm_ops) in
  let! t := gets trace in
  ret (hook t).

(** [for (i = from; i >= 0; i--) if (p(state[i])) return i; return INVALID] *)
Fixpoint find_lvl_down (p : Z -> bool) (st : psci_power_state_t) (from : nat) : psci nat :=
  let! v := pd_state st from in
  if p v then ret from
  else match from with
       | O => ret PSCI_INVALID_PWR_LVL
       | S i => find_lvl_down p st i
       end.

Definition psci_find_max_off_lvl (state_info : psci_power_state_t) : psci nat :=
  find_lvl_down is_local_state_off state_info PLAT_MAX_PWR_LVL.

Definition psci_find_target_suspend_lvl (state_info : psci_power_state_t) : psci nat :=
  find_lvl_down (fun v => negb (is_local_state_run v)) state_info PLAT_MAX_PWR_LVL.

(** The loop [for (i = target_lvl; i >= 0; i--)] of
    [psci_validate_suspend_req]: [false] when a state type is shallower than
    the deepest one met so far. *)
Fixpoint state_types_deepen (st : psci_power_state_t) (i : nat) (deepest : plat_local_state_type_t)
    : psci bool :=
  let! state := pd_state st i in
  let req_state_type := find_local_state_type state in
  if state_type_val req_state_type <? state_type_val deepest then ret false
  else match i with
       | O => ret true
       | S i' => state_types_deepen st i' req_state_type
       end.

Definition psci_validate_suspend_req (state_info : psci_power_state_t) (is_power_down_state : Z)
    : psci Z :=
  let! target_lvl := psci_find_target_suspend_lvl state_info in
  if (target_lvl =? PSCI_INVALID_PWR_LVL)%nat then ret PSCI_E_INVALID_PARAMS
  else
    let! ok := state_types_deepen state_info target_lvl STATE_TYPE_RUN in
    if negb ok then ret PSCI_E_INVALID_PARAMS
    else
      let! max_off_lvl := psci_find_max_off_lvl state_info in
      let max_retn_lvl :=
        if negb (target_lvl =? max_off_lvl)%nat then target_lvl else PSCI_INVALID_PWR_LVL in
      if (is_power_down_state =? 0) &&
         (negb (max_off_lvl =? PSCI_INVALID_PWR_LVL)%nat || (max_retn_lvl =? PSCI_INVALID_PWR_LVL)%nat)
      then ret PSCI_E_INVALID_PARAMS
      else ret PSCI_E_SUCCESS.

(** ** Power domain locks *)

Definition psci_acquire_pwr_domain_locks (end_pwrlvl : nat) (parent_nodes : list Z) : psci unit :=
  for_each (seq 1 end_pwrlvl) (fun level =>
    let! parent_idx := deref (parent_nodes !! (level - 1)%nat) in
    let! nd := non_cpu_node parent_idx in
    psci_lock_get nd).

Definition psci_release_pwr_domain_locks (end_pwrlvl : nat) (parent_nodes : list Z) : psci unit :=
  for_each (rev (seq 1 end_pwrlvl)) (fun level =>
    let! parent_idx := deref (parent_nodes !! (level - 1)%nat) in
    let! nd := non_cpu_node parent_idx in
    psci_lock_release nd).

(** The [*_safe] queries take every lock on the CPU's path. *)
Definition with_all_locks {A} (this_core : Z) (query : psci A) : psci A :=
  let! parent_nodes := psci_get_parent_pwr_domain_nodes this_core PLAT_MAX_PWR_LVL in
  psci_acquire_pwr_domain_locks PLAT_MAX_PWR_LVL parent_nodes ;;
  let! r := query in
  psci_release_pwr_domain_locks PLAT_MAX_PWR_LVL parent_nodes ;;
  ret r.

Definition psci_is_last_on_cpu_safe (this_core : Z) : psci bool :=
  with_all_locks this_core (psci_is_last_on_cpu this_core).

Definition psci_are_all_cpus_on_safe (this_core : Z) : psci bool :=
  with_all_locks this_core psci_are_all_cpus_on.

Definition psci_num_cpus_running_on_safe (this_core : Z) : psci Z :=
  with_all_locks this_core psci_num_cpus_running.

(** ** Entry points (AArch64) *)

Definition NON_SECURE : Z := 0x1.
Definition EP_ST_DISABLE : Z := 0x0.
Definition EP_EE_BIG : Z := 0x2.
Definition PARAM_EP : Z := 0x01.
Definition VERSION_1 : Z := 0x01.
Definition SIZEOF_ENTRY_POINT_INFO : Z := 88.
Definition SCR_HCE_BIT : Z := Z.shiftl 1 8.
Definition SCR_RW_BIT : Z := Z.shiftl 1 10.
Definition SCTLR_EE_BIT : Z := Z.shiftl 1 25.
Definition MODE_EL1 : Z := 1.
Definition MODE_EL2 : Z := 2.
Definition MODE_SP_ELX : Z := 1.
Definition MODE32_svc : Z := 0x3.
Definition MODE32_hyp : Z := 0xa.
Definition DISABLE_ALL_EXCEPTIONS : Z := 0xf.
Definition DAIF_ABT_IRQ_FIQ : Z := 0x7.

Definition SPSR_64 (el sp daif : Z) : Z :=
  Z.land
    (Z.lor (Z.lor (Z.shiftl (Z.land el 0x3) 2) (Z.land sp 0x1)) (Z.shiftl (Z.land daif 0xf) 6))
    (Z.lnot (Z.shiftl 1 12)).

Definition SPSR_MODE32 (mode isa endian aif : Z) : Z :=
  Z.land
    (Z.lor (Z.lor (Z.lor (Z.lor (Z.shiftl 1 4) (Z.land mode 0xf))
       (Z.shiftl (Z.land isa 0x1) 5)) (Z.shiftl (Z.land endian 0x1) 9))
       (Z.shiftl (Z.land aif 0x7) 6))
    (Z.lnot (Z.shiftl 1 23)).

(** [psci_get_ns_ep_info] writes [*ep] before it can fail: the returned pair
    is the code and the written structure; [ep_spsr] keeps its old value on
    the failing path. *)
Definition psci_get_ns_ep_info (ep : entry_point_info_t) (entrypoint context_id : Z)
    : psci (Z * entry_point_info_t) :=
  let! ns_scr_el3 := gets (fun s => read_scr_el3 (trace s)) in
  let! ns_sctlr_el1 := gets (fun s => read_sctlr_el1 (trace s)) in
  let! sctlr := if is_set ns_scr_el3 SCR_HCE_BIT
                then gets (fun s => read_sctlr_el2 (trace s)) else ret ns_sctlr_el1 in
  let big := is_set sctlr SCTLR_EE_BIT in
  let ep_attr0 := Z.lor NON_SECURE EP_ST_DISABLE in
  let mk spsr := {|
    ep_type := u8 PARAM_EP; ep_version := u8 VERSION_1; ep_size := u16 SIZEOF_ENTRY_POINT_INFO;
    ep_attr := u32 (if big then Z.lor ep_attr0 EP_EE_BIG else ep_attr0);
    ep_pc := entrypoint; ep_spsr := spsr;
    ep_args := context_id :: replicate 7 0 |} in
  if is_set ns_scr_el3 SCR_RW_BIT then
    if negb (Z.land entrypoint 0x1 =? 0) then ret (PSCI_E_INVALID_ADDRESS, mk (ep_spsr ep))
    else
      let mode := if is_set ns_scr_el3 SCR_HCE_BIT then MODE_EL2 else MODE_EL1 in
      ret (PSCI_E_SUCCESS, mk (u32 (SPSR_64 mode MODE_SP_ELX DISABLE_ALL_EXCEPTIONS)))
  else
    let mode := if is_set ns_scr_el3 SCR_HCE_BIT then MODE32_hyp else MODE32_svc in
    ret (PSCI_E_SUCCESS,
         mk (u32 (SPSR_MODE32 mode (Z.land entrypoint 0x1) (if big then 1 else 0) DAIF_ABT_IRQ_FIQ))).

Definition psci_validate_entry_point (ep : entry_point_info_t) (entrypoint context_id : Z)
    : psci (Z * entry_point_info_t) :=
  let! t := gets trace in
  match validate_ns_entrypoint psci_plat_pm_ops with
  | Some hook =>
      if negb (hook entrypoint t =? PSCI_E_SUCCESS) then ret (PSCI_E_INVALID_ADDRESS, ep)
      else psci_get_ns_ep_info ep entrypoint context_id
  | None => psci_get_ns_ep_info ep entrypoint context_id
  end.

(** ** Secure Payload Dispatcher hooks *)

Definition PSCI_MIG_AARCH64 : Z := 0xc4000005.
Definition PSCI_MIG_INFO_UP_CPU_AARCH64 : Z := 0xc4000007.
Definition PSCI_MIG_INFO_TYPE : Z := 0x84000006.
Definition PSCI_TOS_UP_MIG_CAP : Z := 0.
Definition PSCI_TOS_NOT_UP_MIG_CAP : Z := 1.
Definition PSCI_TOS_NOT_PRESENT_MP : Z := 2.

Definition psci_register_spd_pm_hook (pm : spd_pm_ops_t) : psci unit :=
  modify (set_spd (Some pm)) ;;
  when (bool_decide (is_Some (svc_migrate pm)))
    (modify (fun s => set_caps (Z.lor (psci_caps s) (define_psci_cap PSCI_MIG_AARCH64)) s)) ;;
  when (bool_decide (is_Some (svc_migrate_info pm)))
    (modify (fun s => set_caps (Z.lor (psci_caps s)
       (Z.lor (define_psci_cap PSCI_MIG_INFO_UP_CPU_AARCH64)
              (define_psci_cap PSCI_MIG_INFO_TYPE))) s)).

(** Runs [c] with the SPD's operations when a dispatcher is registered. *)
Definition with_spd (c : spd_pm_ops_t -> psci unit) : psci unit :=
  let! spd := gets psci_spd_pm in
  match spd with Some pm => c pm | None => ret tt end.

(** The second component is [*mpidr]: its old value when the hook is not
    called. *)
Definition psci_spd_migrate_info (m : Z) : psci (Z * Z) :=
  let! spd := gets psci_spd_pm in
  match (spd ≫= svc_migrate_info) with
  | None => ret (PSCI_E_NOT_SUPPORTED, m)
  | Some hook =>
      let! t := gets trace in
      let r := hook t in
      assert_ ENABLE_ASSERTIONS
        ((fst r =? PSCI_TOS_UP_MIG_CAP) || (fst r =? PSCI_TOS_NOT_UP_MIG_CAP) ||
         (fst r =? PSCI_TOS_NOT_PRESENT_MP) || (fst r =? PSCI_E_NOT_SUPPORTED)) ;;
      ret r
  end.

Definition psci_secondaries_brought_up : psci Z :=
  let! n_valid := fold_each (seqZ 0 PLATFORM_CORE_COUNT) 0 (fun idx n =>
    let! c := cpu_node idx in
    ret (if mpidr c =? PSCI_INVALID_MPIDR then n else n + 1)) in
  assert_ ENABLE_ASSERTIONS (0 <? n_valid) ;;
  ret (if 1 <? n_valid then 1 else 0).

(** ** Powering a CPU down *)

Definition CPU_MAX_PWR_DWN_OPS : nat := 2.
Definition PABANDON_ACK : Z := 0xffaba4d4aba4d400.

(** The CPU driver's power down operation for a level; the last one serves
    every higher level. *)
Definition pwr_dwn_op_idx (power_level : nat) : nat :=
  if (CPU_MAX_PWR_DWN_OPS - 1 <? power_level)%nat then (CPU_MAX_PWR_DWN_OPS - 1)%nat else power_level.

Definition get_cpu_pwr_dwn (power_level : nat) : psci (option (list event -> Z)) :=
  assert_ ENABLE_ASSERTIONS (registered cpu_ops_ptr) ;;
  let! ops := deref cpu_ops_ptr in
  let! op := deref (ops !! pwr_dwn_op_idx power_level) in
  assert_ ENABLE_ASSERTIONS (registered op) ;;
  ret op.

(** [get_cpu_pwr_dwn(power_level)()]: what the operation returns. *)
Definition cpu_pwr_dwn (power_level : nat) : psci Z :=
  let! op := get_cpu_pwr_dwn power_level in
  let! call := deref op in
  emit (E_cpu_pwr_dwn (pwr_dwn_op_idx power_level)) ;;
  gets (fun s => call (trace s)).

Definition wfi : psci unit :=
  emit E_wfi ;;
  let! wakes := gets (fun s => wfi_wakes (trace s)) in
  if (wakes : bool) then ret tt else halt NoReturn.

Definition prepare_cpu_pwr_up (power_level : nat) : psci unit :=
  let! r := cpu_pwr_dwn power_level in
  when (negb (r =? PABANDON_ACK)) (halt Panicked).

Definition psci_pwrdown_cpu_start (power_level : nat) : psci unit :=
  emit_if ENABLE_RUNTIME_INSTRUMENTATION (E_timestamp RT_INSTR_ENTER_CFLUSH) ;;
  emit_if (negb HW_ASSISTED_COHERENCY) E_pwrdown_cache_maintenance ;;
  cpu_pwr_dwn power_level ;;
  emit_if ENABLE_RUNTIME_INSTRUMENTATION (E_timestamp RT_INSTR_EXIT_CFLUSH).

Definition psci_pwrdown_cpu_end_terminal {A} : psci A :=
  for_each (seq 0 32) (fun _ => wfi) ;;
  halt Panicked.

Definition psci_pwrdown_cpu_end_wakeup (power_level : nat) : psci unit :=
  wfi ;;
  when (negb HW_ASSISTED_COHERENCY) (halt Panicked) ;;
  prepare_cpu_pwr_up power_level.

(** ** Stopping the other cores

    [others] is the effect of the rest of the system during [mdelay(1U)]. *)
Fixpoint wait_for_others (delay_ms : nat) (this_cpu_idx : Z) (others : psci_state -> psci_state)
    : psci unit :=
  match delay_ms with
  | O => ret tt
  | S delay_ms' =>
      let! last := psci_is_last_on_cpu this_cpu_idx in
      if last then ret tt
      else emit E_mdelay ;; modify others ;; wait_for_others delay_ms' this_cpu_idx others
  end.

Definition psci_stop_other_cores (this_cpu_idx : Z) (wait_ms : nat)
    (others : psci_state -> psci_state) : psci Z :=
  let! n := gets psci_plat_core_count in
  for_each (seqZ 0 n) (fun idx =>
    if idx =? this_cpu_idx then ret tt
    else
      let! a := psci_get_aff_info_state_by_idx idx in
      when (bool_decide (a = AFF_STATE_ON))
        (let! c := cpu_node idx in emit (E_stop_core (mpidr c)))) ;;
  if (wait_ms =? 0)%nat then ret PSCI_E_SUCCESS
  else
    wait_for_others wait_ms this_cpu_idx others ;;
    let! last := psci_is_last_on_cpu this_cpu_idx in
    if last then ret PSCI_E_SUCCESS else ret PSCI_E_DENIED.

End Definitions.
