(* ===== verification/PsciStat.v ===== *)
(** * PSCI: statistics (lib/psci/psci_stat.c, plat/common/plat_psci_common.c) *)

From S2P Require Import Prelude PsciTypes PsciCommon.
#[local] Open Scope cmd_scope.

Section Definitions.
Context `{Cfg : PsciConfig} `{Plat : Platform}.

Definition get_stat_idx (st : Z) (pwr_lvl : nat) : psci Z :=
  match get_pwr_lvl_state_idx psci_plat_pm_ops with
  | None =>
      assert_ ENABLE_ASSERTIONS (PLAT_MAX_PWR_LVL_STATES =? 2) ;;
      if is_local_state_retn st then ret 0
      else assert_ ENABLE_ASSERTIONS (is_local_state_off st) ;; ret 1
  | Some hook =>
      let idx := hook st pwr_lvl in
      assert_ ENABLE_ASSERTIONS (idx <? PLAT_MAX_PWR_LVL_STATES) ;;
      ret idx
  end.

Definition psci_stats_update_pwr_down (cpu_idx : Z) (end_pwrlvl : nat)
    (state_info : psci_power_state_t) : psci unit :=
  assert_ ENABLE_ASSERTIONS (end_pwrlvl <=? PLAT_MAX_PWR_LVL)%nat ;;
  let! c := cpu_node cpu_idx in
  walk_up end_pwrlvl 1 (cpu_parent_node c) tt (fun lvl parent_idx _ =>
    let! st := pd_state state_info lvl in
    if is_local_state_run st then ret (true, tt)
    else
      let! last := gets last_cpu_in_non_cpu_pd in
      deref (last.[parent_idx]) ;;
      modify (set_last_cpu (zupdate last parent_idx cpu_idx)) ;;
      ret (false, tt)) ;;
  ret tt.

(** [stat[i][stat_idx].residency += residency; stat[i][stat_idx].count++] *)
Definition account (stat : list (list psci_stat_t)) (i stat_idx res : Z)
    : psci (list (list psci_stat_t)) :=
  let! row := deref (stat.[i]) in
  let! e := deref (row.[stat_idx]) in
  ret (zupdate stat i (zupdate row stat_idx
         {| residency := u64 (residency e + res); count := u64 (count e + 1) |})).

(** One iteration of the loop over the power domains above the CPU. *)
Definition stats_pwr_up_body (state_info : psci_power_state_t) (lvl : nat) (parent_idx : Z) (_ : unit)
    : psci (bool * unit) :=
  let! st := pd_state state_info lvl in
  if is_local_state_run st then ret (true, tt)
  else
    let! lasts := gets last_cpu_in_non_cpu_pd in
    let! last := deref (lasts.[parent_idx]) in
    assert_ ENABLE_ASSERTIONS (negb (last =? -1)) ;;
    let! res := gets (fun s => plat_psci_stat_get_residency lvl state_info (u32 last) (trace s)) in
    modify (set_last_cpu (zupdate lasts parent_idx (-1))) ;;
    let! stat_idx := get_stat_idx st lvl in
    let! stats := gets psci_non_cpu_stat in
    let! stats' := account stats parent_idx stat_idx res in
    modify (set_non_cpu_stat stats') ;;
    ret (false, tt).

Definition psci_stats_update_pwr_up (cpu_idx : Z) (end_pwrlvl : nat)
    (state_info : psci_power_state_t) : psci unit :=
  assert_ ENABLE_ASSERTIONS (end_pwrlvl <=? PLAT_MAX_PWR_LVL)%nat ;;
  let! st := pd_state state_info PSCI_CPU_PWR_LVL in
  let! stat_idx := get_stat_idx st PSCI_CPU_PWR_LVL in
  let! res := gets (fun s =>
    plat_psci_stat_get_residency PSCI_CPU_PWR_LVL state_info cpu_idx (trace s)) in
  let! stats := gets psci_cpu_stat in
  let! stats' := account stats cpu_idx stat_idx res in
  modify (set_cpu_stat stats') ;;
  let! c := cpu_node cpu_idx in
  let! lasts := gets last_cpu_in_non_cpu_pd in
  let! last := deref (lasts.[cpu_parent_node c]) in
  if last =? -1 then ret tt
  else
    walk_up end_pwrlvl 1 (cpu_parent_node c) tt (stats_pwr_up_body state_info) ;;
    ret tt.

(** The result is [(rc, *psci_stat)]; the structure is only written on
    success. *)
Definition psci_get_stat (target_cpu power_state : Z) : psci (Z * option psci_stat_t) :=
  let target_idx := u32 (plat_core_pos_by_mpidr target_cpu) in
  let state_info0 := {| pwr_domain_state := replicate (S PLAT_MAX_PWR_LVL) PSCI_LOCAL_STATE_RUN;
                        last_at_pwrlvl := 0 |} in
  let! r :=
    match translate_power_state_by_mpidr psci_plat_pm_ops with
    | None => psci_validate_power_state power_state state_info0
    | Some hook => gets (fun s => hook target_cpu power_state state_info0 (trace s))
    end in
  if negb (fst r =? PSCI_E_SUCCESS) then ret (PSCI_E_INVALID_PARAMS, None)
  else
    let state_info := snd r in
    let! pwrlvl := psci_find_target_suspend_lvl state_info in
    if (pwrlvl =? PSCI_INVALID_PWR_LVL)%nat then halt Panicked
    else
      let! st := pd_state state_info pwrlvl in
      let! stat_idx := get_stat_idx st pwrlvl in
      let! row :=
        (if (PSCI_CPU_PWR_LVL <? pwrlvl)%nat then
          let! c := cpu_node target_idx in
          let! r := walk_up (pwrlvl - 1) 1 (cpu_parent_node c) (cpu_parent_node c)
            (fun _ parent_idx _ =>
              let! nd := non_cpu_node parent_idx in ret (false, parent_node nd)) in
          let! stats := gets psci_non_cpu_stat in
          deref (stats.[snd r])
        else
          let! stats := gets psci_cpu_stat in
          deref (stats.[target_idx])) in
      let! e := deref (row.[stat_idx]) in
      ret (PSCI_E_SUCCESS, Some e).

Definition psci_stat_field (f : psci_stat_t -> Z) (target_cpu power_state : Z) : psci Z :=
  if negb (is_valid_mpidr target_cpu) then ret 0
  else
    let! r := psci_get_stat target_cpu power_state in
    ret (match r with
         | (rc, Some e) => if rc =? PSCI_E_SUCCESS then f e else 0
         | (_, None) => 0
         end).

Definition psci_stat_residency (target_cpu power_state : Z) : psci Z :=
  psci_stat_field residency target_cpu power_state.

Definition psci_stat_count (target_cpu power_state : Z) : psci Z :=
  psci_stat_field count target_cpu power_state.

End Definitions.

(** ** The generic platform implementation *)

(** [calc_stat_residency], with the counter frequency read from the system
    register; [None] when the assertion on the divisor fails (the division
    would be by zero). Arithmetic is on [u_register_t]. *)
Definition MHZ_TICKS_PER_SEC : Z := 1000000.
Definition MAX_TS : Z := UINT64_MAX.

Definition calc_stat_residency (cntfrq pwrupts pwrdnts : Z) : option Z :=
  let residency_div := cntfrq / MHZ_TICKS_PER_SEC in
  if residency_div =? 0 then None
  else
    let res := if pwrupts <? pwrdnts then u64 (u64 (MAX_TS - pwrdnts) + pwrupts)
               else u64 (pwrupts - pwrdnts) in
    Some (res / residency_div).

(** [plat_get_target_pwr_state]: the minimum of the requested states, by the
    source's do-while loop; [None] for the failing [assert(ncpu > 0U)]. *)
Section DefaultPlatform.
Context `{Cfg : PsciConfig}.

Fixpoint min_state_loop (target : Z) (st : list Z) : Z :=
  match st with
  | [] => target
  | temp :: st' => min_state_loop (if temp <? target then temp else target) st'
  end.

Definition default_get_target_pwr_state (lvl : nat) (states : list Z) : option Z :=
  match states with
  | [] => None
  | _ => Some (min_state_loop PLAT_MAX_OFF_STATE states)
  end.
End DefaultPlatform.
