(* ===== verification/PsciHandlers.v ===== *)
(** * PSCI: power management handlers

    lib/psci/psci_on.c, psci_off.c, psci_suspend.c, psci_system_off.c,
    psci_mem_protect.c and [psci_warmboot_entrypoint] of psci_common.c.

    A handler that gives up the power domain locks in the middle (CPU_OFF,
    CPU_SUSPEND) is the composition of its lock-protected parts and of what it
    does between them; PsciSystem interleaves these parts. *)

From S2P Require Import Prelude PsciTypes PsciCommon PsciStat.
#[local] Open Scope cmd_scope.

Section Definitions.
Context `{Cfg : PsciConfig} `{Plat : Platform}.

(** ** CPU_ON (psci_on.c) *)

Definition cpu_on_validate_state (aff_state : aff_info_state_t) : Z :=
  match aff_state with
  | AFF_STATE_ON => PSCI_E_ALREADY_ON
  | AFF_STATE_ON_PENDING => PSCI_E_ON_PENDING
  | AFF_STATE_OFF => PSCI_E_SUCCESS
  end.

(** [*get_cpu_data_by_index(idx, warmboot_ep_info) = ep] *)
Definition write_warmboot_ep (idx : Z) (ep : entry_point_info_t) : psci unit :=
  let! d := cpu_data idx in
  let! p := deref (warmboot_ep_ptr d) in
  let! eps := gets warmboot_ep_info in
  deref (eps.[p]) ;;
  modify (set_ep_info (zupdate eps p ep)).

Definition read_warmboot_ep (idx : Z) : psci entry_point_info_t :=
  let! d := cpu_data idx in
  let! p := deref (warmboot_ep_ptr d) in
  let! eps := gets warmboot_ep_info in
  deref (eps.[p]).

Definition psci_cpu_on_start (target_idx target_cpu : Z) (ep : entry_point_info_t) : psci Z :=
  if PLATFORM_CORE_COUNT <=? target_idx then ret PSCI_E_INVALID_PARAMS
  else
    let! on_hook := required (pwr_domain_on psci_plat_pm_ops) in
    assert_ ENABLE_ASSERTIONS (pwr_domain_on_finish psci_plat_pm_ops) ;;
    emit (E_spin_lock_cpu target_idx) ;;
    let! a := psci_get_aff_info_state_by_idx target_idx in
    let rc := cpu_on_validate_state a in
    let! rc :=
      (if negb (rc =? PSCI_E_SUCCESS) then ret rc
       else
         write_warmboot_ep target_idx ep ;;
         with_spd (fun pm => emit_if (svc_on pm) (E_svc_on target_cpu)) ;;
         psci_set_aff_info_state_by_idx target_idx AFF_STATE_ON_PENDING ;;
         let! target_aff_state := psci_get_aff_info_state_by_idx target_idx in
         when (negb (bool_decide (target_aff_state = AFF_STATE_ON_PENDING)))
           (assert_ ENABLE_ASSERTIONS (bool_decide (target_aff_state = AFF_STATE_OFF)) ;;
            psci_set_aff_info_state_by_idx target_idx AFF_STATE_ON_PENDING ;;
            let! again := psci_get_aff_info_state_by_idx target_idx in
            assert_ ENABLE_ASSERTIONS (bool_decide (again = AFF_STATE_ON_PENDING))) ;;
         emit (E_pwr_domain_on target_cpu) ;;
         let! rc := gets (fun s => on_hook target_cpu (trace s)) in
         assert_ ENABLE_ASSERTIONS ((rc =? PSCI_E_SUCCESS) || (rc =? PSCI_E_INTERN_FAIL)) ;;
         when (negb (rc =? PSCI_E_SUCCESS))
           (psci_set_aff_info_state_by_idx target_idx AFF_STATE_OFF) ;;
         ret rc) in
    emit (E_spin_unlock_cpu target_idx) ;;
    ret rc.

Definition MPIDR_AFFINITY_MASK : Z := 0xff00ffffff.

Definition psci_cpu_on_finish (cpu_idx : Z) (state_info : psci_power_state_t) : psci unit :=
  emit (E_pwr_domain_on_finish state_info) ;;
  emit_if (negb (HW_ASSISTED_COHERENCY || WARMBOOT_ENABLE_DCACHE_EARLY)) E_pwrup_cache_maintenance ;;
  emit_if USE_GIC_DRIVER (E_gic_pcpu_init cpu_idx) ;;
  emit_if USE_GIC_DRIVER (E_gic_cpuif_enable cpu_idx) ;;
  emit_if (pwr_domain_on_finish_late psci_plat_pm_ops) (E_pwr_domain_on_finish_late state_info) ;;
  emit E_arch_setup ;;
  emit (E_spin_lock_cpu cpu_idx) ;;
  emit (E_spin_unlock_cpu cpu_idx) ;;
  let! a := psci_get_aff_info_state_by_idx cpu_idx in
  assert_ ENABLE_ASSERTIONS (bool_decide (a = AFF_STATE_ON_PENDING)) ;;
  with_spd (fun pm => emit_if (svc_on_finish pm) E_svc_on_finish) ;;
  emit E_publish_cpu_on_finish ;;
  write_cpu_node cpu_idx (with_mpidr (Z.land (read_mpidr cpu_idx) MPIDR_AFFINITY_MASK)).

(** ** CPU_OFF (psci_off.c) *)

Definition psci_set_power_off_state : psci_power_state_t := {|
  pwr_domain_state := replicate (S PLAT_MAX_PWR_LVL) PLAT_MAX_OFF_STATE;
  last_at_pwrlvl := 0
|}.

(** The body between the SPD's agreement and the label [off_exit]. *)
Definition cpu_off_power_down (idx : Z) (end_pwrlvl : nat) (state_info : psci_power_state_t)
    : psci psci_power_state_t :=
  let! st := psci_do_state_coordination idx end_pwrlvl state_info in
  psci_set_target_local_pwr_states idx end_pwrlvl st ;;
  when ENABLE_PSCI_STAT (psci_stats_update_pwr_down idx end_pwrlvl st) ;;
  emit E_publish_cpu_off_start ;;
  let! off_lvl := psci_find_max_off_lvl st in
  psci_pwrdown_cpu_start off_lvl ;;
  emit_if USE_GIC_DRIVER (E_gic_cpuif_disable idx) ;;
  emit_if USE_GIC_DRIVER (E_gic_pcpu_off idx) ;;
  emit (E_pwr_domain_off st) ;;
  emit_if ENABLE_PSCI_STAT (E_stat_accounting_start st) ;;
  ret st.

(** From the acquisition of the locks to their release; [rc] is the value left
    by the early hook, which the SPD's answer replaces. *)
Definition cpu_off_locked (idx : Z) (end_pwrlvl : nat) (state_info : psci_power_state_t)
    (parent_nodes : list Z) (rc : Z) : psci (Z * psci_power_state_t) :=
  psci_acquire_pwr_domain_locks end_pwrlvl parent_nodes ;;
  let! spd := gets psci_spd_pm in
  let! r :=
    match spd ≫= svc_off with
    | Some hook =>
        emit E_svc_off ;;
        let! rc' := gets (fun s => hook (trace s)) in
        if negb (rc' =? PSCI_E_SUCCESS) then ret (rc', state_info)
        else let! st := cpu_off_power_down idx end_pwrlvl state_info in ret (rc', st)
    | None =>
        let! st := cpu_off_power_down idx end_pwrlvl state_info in ret (rc, st)
    end in
  psci_release_pwr_domain_locks end_pwrlvl parent_nodes ;;
  ret r.

(** A hook that may not return. *)
Definition may_not_return (e : event) (returns : list event -> bool) : psci unit :=
  emit e ;;
  let! b := gets (fun s => returns (trace s)) in
  if (b : bool) then ret tt else halt NoReturn.

Definition call_pwr_down (st : psci_power_state_t) : psci unit :=
  match pwr_domain_pwr_down psci_plat_pm_ops with
  | Some hook => may_not_return (E_pwr_domain_pwr_down st) (hook st)
  | None => ret tt
  end.

(** After the locks are released: the CPU commits to being off. *)
Definition cpu_off_commit (idx : Z) : psci unit :=
  psci_set_aff_info_state_by_idx idx AFF_STATE_OFF ;;
  emit_if ENABLE_RUNTIME_INSTRUMENTATION (E_timestamp RT_INSTR_ENTER_HW_LOW_PWR).

(** The early hook. *)
Definition cpu_off_early (state_info : psci_power_state_t) : psci Z :=
  match pwr_domain_off_early psci_plat_pm_ops with
  | Some hook =>
      emit (E_pwr_domain_off_early state_info) ;;
      gets (fun s => hook state_info (trace s))
  | None => ret PSCI_E_SUCCESS
  end.

Definition psci_do_cpu_off (idx : Z) (end_pwrlvl : nat) : psci Z :=
  assert_ ENABLE_ASSERTIONS (pwr_domain_off psci_plat_pm_ops) ;;
  let state_info := psci_set_power_off_state in
  let! early := cpu_off_early state_info in
  if early =? PSCI_E_DENIED then ret early
  else
    let! parent_nodes := psci_get_parent_pwr_domain_nodes idx end_pwrlvl in
    let! r := cpu_off_locked idx end_pwrlvl state_info parent_nodes early in
    if fst r =? PSCI_E_SUCCESS then
      cpu_off_commit idx ;;
      call_pwr_down (snd r) ;;
      psci_pwrdown_cpu_end_terminal
    else ret (fst r).

(** ** CPU_SUSPEND (psci_suspend.c) *)

Definition psci_cpu_suspend_to_standby_finish (me : Z) (state_info : psci_power_state_t) : psci unit :=
  emit (E_pwr_domain_suspend_finish state_info) ;;
  psci_set_suspend_pwrlvl me PLAT_MAX_PWR_LVL.

Definition psci_suspend_to_pwrdown_start (idx : Z) (end_pwrlvl max_off_lvl : nat)
    (state_info : psci_power_state_t) : psci unit :=
  emit (E_publish_suspend_pwrdown_start idx) ;;
  let! mode := gets psci_suspend_mode in
  let end_pwrlvl := if PSCI_OS_INIT_MODE && bool_decide (mode = OS_INIT)
                    then max_suspend_pwrlvl else end_pwrlvl in
  psci_set_suspend_pwrlvl idx end_pwrlvl ;;
  with_spd (fun pm => emit_if (svc_suspend pm) (E_svc_suspend max_off_lvl)) ;;
  emit_if (negb HW_ASSISTED_COHERENCY && pwr_domain_suspend_pwrdown_early psci_plat_pm_ops)
    (E_pwr_domain_suspend_pwrdown_early state_info) ;;
  psci_pwrdown_cpu_start max_off_lvl.

Definition psci_cpu_suspend_to_powerdown_finish (cpu_idx : Z) (max_off_lvl : nat)
    (state_info : psci_power_state_t) (abandon : bool) : psci unit :=
  let! a := psci_get_aff_info_state_by_idx cpu_idx in
  let! st := pd_state state_info PSCI_CPU_PWR_LVL in
  assert_ ENABLE_ASSERTIONS (bool_decide (a = AFF_STATE_ON) && is_local_state_off st) ;;
  emit (E_pwr_domain_suspend_finish state_info) ;;
  emit_if (negb (HW_ASSISTED_COHERENCY || WARMBOOT_ENABLE_DCACHE_EARLY)) E_pwrup_cache_maintenance ;;
  emit_if USE_GIC_DRIVER (E_gic_cpuif_enable cpu_idx) ;;
  emit_if (negb abandon) E_write_cntfrq ;;
  with_spd (fun pm => emit_if (svc_suspend_finish pm) (E_svc_suspend_finish max_off_lvl abandon)) ;;
  psci_set_suspend_pwrlvl cpu_idx PLAT_MAX_PWR_LVL ;;
  emit (E_publish_suspend_pwrdown_finish cpu_idx).

(** The choice of the states to enter, until the point of no return:
    [inl rc] is [goto suspend_exit] with [rc], [inr st] continues with the
    negotiated (or validated) states. *)
Definition suspend_coordinate (idx : Z) (end_pwrlvl : nat) (state_info : psci_power_state_t)
    : psci (Z + psci_power_state_t) :=
  let! isr := gets (fun s => read_isr_el1 (trace s)) in
  if negb (isr =? 0) then ret (inl PSCI_E_SUCCESS)
  else
    let! mode := gets psci_suspend_mode in
    let! r :=
      (if PSCI_OS_INIT_MODE && bool_decide (mode = OS_INIT) then
         let! rc := psci_validate_state_coordination idx end_pwrlvl state_info in
         ret (if negb (rc =? PSCI_E_SUCCESS) then inl rc else inr state_info)
       else
         let! st := psci_do_state_coordination idx end_pwrlvl state_info in
         ret (inr st)) in
    match r, pwr_domain_validate_suspend psci_plat_pm_ops with
    | inr st, Some hook =>
        if PSCI_OS_INIT_MODE then
          emit (E_pwr_domain_validate_suspend st) ;;
          let! rc := gets (fun s => hook st (trace s)) in
          if negb (rc =? PSCI_E_SUCCESS) then
            psci_set_pwr_domains_to_run idx max_suspend_pwrlvl ;;
            ret (inl rc)
          else ret r
        else ret r
    | _, _ => ret r
    end.

(** First lock-protected part: [inl rc] when the request is abandoned,
    otherwise the states to enter and [max_off_lvl]. *)
Definition suspend_enter (idx : Z) (end_pwrlvl : nat) (state_info : psci_power_state_t)
    (is_power_down_state : Z) (parent_nodes : list Z) : psci (Z + psci_power_state_t * nat) :=
  psci_acquire_pwr_domain_locks end_pwrlvl parent_nodes ;;
  let! r := suspend_coordinate idx end_pwrlvl state_info in
  match r with
  | inl rc =>
      psci_release_pwr_domain_locks end_pwrlvl parent_nodes ;;
      ret (inl rc)
  | inr st =>
      psci_set_target_local_pwr_states idx end_pwrlvl st ;;
      when ENABLE_PSCI_STAT (psci_stats_update_pwr_down idx end_pwrlvl st) ;;
      let! max_off_lvl :=
        (if negb (is_power_down_state =? 0) then
           let! max_off_lvl := psci_find_max_off_lvl st in
           psci_suspend_to_pwrdown_start idx end_pwrlvl max_off_lvl st ;;
           ret max_off_lvl
         else ret 0%nat) in
      emit_if USE_GIC_DRIVER (E_gic_cpuif_disable idx) ;;
      emit (E_pwr_domain_suspend st) ;;
      emit_if ENABLE_PSCI_STAT (E_stat_accounting_start st) ;;
      psci_release_pwr_domain_locks end_pwrlvl parent_nodes ;;
      ret (inr (st, max_off_lvl))
  end.

(** Between the two parts: the CPU sleeps. A power down normally does not
    return; the CPU then resumes in [psci_warmboot_entrypoint]. *)
Definition suspend_sleep (st : psci_power_state_t) (max_off_lvl : nat) (is_power_down_state : Z)
    : psci unit :=
  emit_if ENABLE_RUNTIME_INSTRUMENTATION (E_timestamp RT_INSTR_ENTER_HW_LOW_PWR) ;;
  (if negb (is_power_down_state =? 0) then
     call_pwr_down st ;;
     psci_pwrdown_cpu_end_wakeup max_off_lvl
   else wfi) ;;
  emit_if ENABLE_RUNTIME_INSTRUMENTATION (E_timestamp RT_INSTR_EXIT_HW_LOW_PWR).

(** Second lock-protected part: the CPU woke up with its context. *)
Definition suspend_wakeup (idx : Z) (end_pwrlvl : nat) (st : psci_power_state_t)
    (max_off_lvl : nat) (is_power_down_state : Z) (parent_nodes : list Z) : psci unit :=
  psci_acquire_pwr_domain_locks end_pwrlvl parent_nodes ;;
  let! st := psci_get_target_local_pwr_states idx end_pwrlvl st in
  emit_if ENABLE_PSCI_STAT (E_stat_accounting_stop st) ;;
  when ENABLE_PSCI_STAT (psci_stats_update_pwr_up idx end_pwrlvl st) ;;
  (if negb (is_power_down_state =? 0) then
     psci_cpu_suspend_to_powerdown_finish idx max_off_lvl st true
   else psci_cpu_suspend_to_standby_finish idx st) ;;
  emit_if USE_GIC_DRIVER (E_gic_cpuif_enable idx) ;;
  psci_set_pwr_domains_to_run idx end_pwrlvl ;;
  psci_release_pwr_domain_locks end_pwrlvl parent_nodes.

Definition psci_cpu_suspend_start (idx : Z) (end_pwrlvl : nat) (state_info : psci_power_state_t)
    (is_power_down_state : Z) : psci Z :=
  assert_ ENABLE_ASSERTIONS
    (pwr_domain_suspend psci_plat_pm_ops && pwr_domain_suspend_finish psci_plat_pm_ops) ;;
  let! parent_nodes := psci_get_parent_pwr_domain_nodes idx end_pwrlvl in
  let! r := suspend_enter idx end_pwrlvl state_info is_power_down_state parent_nodes in
  match r with
  | inl rc => ret rc
  | inr (st, max_off_lvl) =>
      suspend_sleep st max_off_lvl is_power_down_state ;;
      suspend_wakeup idx end_pwrlvl st max_off_lvl is_power_down_state parent_nodes ;;
      ret PSCI_E_SUCCESS
  end.

(** ** Warm boot *)

Definition run_power_state : psci_power_state_t := {|
  pwr_domain_state := replicate (S PLAT_MAX_PWR_LVL) PSCI_LOCAL_STATE_RUN;
  last_at_pwrlvl := 0
|}.

Definition psci_warmboot_entrypoint (cpu_idx : Z) : psci unit :=
  let! a := psci_get_aff_info_state_by_idx cpu_idx in
  when (bool_decide (a = AFF_STATE_OFF)) (halt Panicked) ;;
  let! end_pwrlvl := get_power_on_target_pwrlvl cpu_idx in
  let! parent_nodes := psci_get_parent_pwr_domain_nodes cpu_idx end_pwrlvl in
  psci_acquire_pwr_domain_locks end_pwrlvl parent_nodes ;;
  let! state_info := psci_get_target_local_pwr_states cpu_idx end_pwrlvl run_power_state in
  emit_if ENABLE_PSCI_STAT (E_stat_accounting_stop state_info) ;;
  let! a := psci_get_aff_info_state_by_idx cpu_idx in
  (if bool_decide (a = AFF_STATE_ON_PENDING) then psci_cpu_on_finish cpu_idx state_info
   else
     let! max_off_lvl := psci_find_max_off_lvl state_info in
     assert_ ENABLE_ASSERTIONS (negb (max_off_lvl =? PSCI_INVALID_PWR_LVL)%nat) ;;
     psci_cpu_suspend_to_powerdown_finish cpu_idx max_off_lvl state_info false) ;;
  let! ep := read_warmboot_ep cpu_idx in
  emit (E_cm_init_my_context ep) ;;
  emit E_cm_prepare_el3_exit_ns ;;
  psci_set_pwr_domains_to_run cpu_idx end_pwrlvl ;;
  when ENABLE_PSCI_STAT (psci_stats_update_pwr_up cpu_idx end_pwrlvl state_info) ;;
  psci_release_pwr_domain_locks end_pwrlvl parent_nodes.

(** ** SYSTEM_OFF, SYSTEM_RESET, SYSTEM_RESET2 (psci_system_off.c) *)

Definition system_power_down {A} (me : Z) : psci A :=
  emit_if USE_GIC_DRIVER (E_gic_cpuif_disable me) ;;
  emit_if USE_GIC_DRIVER (E_gic_pcpu_off me) ;;
  psci_pwrdown_cpu_start PLAT_MAX_PWR_LVL ;;
  psci_pwrdown_cpu_end_terminal.

Definition psci_system_off {A} (me : Z) : psci A :=
  let! hook := required (system_off psci_plat_pm_ops) in
  with_spd (fun pm => emit_if (svc_system_off pm) E_svc_system_off) ;;
  emit E_console_flush ;;
  may_not_return E_system_off hook ;;
  system_power_down me.

Definition psci_system_reset {A} (me : Z) : psci A :=
  let! hook := required (system_reset psci_plat_pm_ops) in
  with_spd (fun pm => emit_if (svc_system_reset pm) E_svc_system_reset) ;;
  emit E_console_flush ;;
  may_not_return E_system_reset hook ;;
  system_power_down me.

Definition PSCI_RESET2_TYPE_VENDOR_SHIFT : Z := 31.
Definition PSCI_RESET2_SYSTEM_WARM_RESET : Z := 0.

(** Calling [write_mem_protect(val)]; the result is the hook's. *)
Definition call_write_mem_protect (hook : Z -> list event -> Z) (val : Z) : psci Z :=
  emit (E_write_mem_protect val) ;;
  gets (fun s => hook val (trace s)).

Definition psci_system_reset2 (me reset_type cookie : Z) : psci Z :=
  let! hook := required (system_reset2 psci_plat_pm_ops) in
  let is_vendor := Z.land (Z.shiftr reset_type PSCI_RESET2_TYPE_VENDOR_SHIFT) 1 in
  let! early :=
    (if is_vendor =? 0 then
       if negb (reset_type =? PSCI_RESET2_SYSTEM_WARM_RESET) then
         ret (Some (u64 PSCI_E_INVALID_PARAMS))
       else match write_mem_protect psci_plat_pm_ops with
            | Some wmp =>
                let! r := call_write_mem_protect wmp 0 in
                ret (if r <? 0 then Some (u64 PSCI_E_NOT_SUPPORTED) else None)
            | None => ret None
            end
     else ret None) in
  match early with
  | Some r => ret r
  | None =>
      with_spd (fun pm => emit_if (svc_system_reset pm) E_svc_system_reset) ;;
      emit E_console_flush ;;
      emit (E_system_reset2 is_vendor reset_type cookie) ;;
      let! rc := gets (fun s => hook is_vendor reset_type cookie (trace s)) in
      if negb (rc =? PSCI_E_SUCCESS) then ret (u64 rc)
      else system_power_down me
  end.

(** ** MEM_PROTECT, MEM_CHK_RANGE (psci_mem_protect.c) *)

Definition psci_mem_protect (enable : Z) : psci Z :=
  let! rmp := required (read_mem_protect psci_plat_pm_ops) in
  let! wmp := required (write_mem_protect psci_plat_pm_ops) in
  let! r := gets (fun s => rmp (trace s)) in
  if fst r <? 0 then ret (u64 PSCI_E_NOT_SUPPORTED)
  else
    let! w := call_write_mem_protect wmp enable in
    if w <? 0 then ret (u64 PSCI_E_NOT_SUPPORTED)
    else ret (if negb (snd r =? 0) then 1 else 0).

Definition psci_mem_chk_range (base length : Z) : psci Z :=
  let! chk := required (mem_protect_chk psci_plat_pm_ops) in
  if (length =? 0) || check_uptr_overflow base (u64 (length - 1)) then ret (u64 PSCI_E_DENIED)
  else
    let! rc := gets (fun s => chk base length (trace s)) in
    ret (if rc <? 0 then u64 PSCI_E_DENIED else u64 PSCI_E_SUCCESS).

End Definitions.
