(* ===== verification/PsciMain.v ===== *)
(** * PSCI: the SMC front end (lib/psci/psci_main.c) *)

From S2P Require Import Prelude PsciTypes PsciCommon PsciStat PsciHandlers.
#[local] Open Scope cmd_scope.

(** Function identifiers (psci.h). *)
Definition PSCI_VERSION : Z := 0x84000000.
Definition PSCI_CPU_SUSPEND_AARCH32 : Z := 0x84000001.
Definition PSCI_CPU_SUSPEND_AARCH64 : Z := 0xc4000001.
Definition PSCI_CPU_OFF : Z := 0x84000002.
Definition PSCI_CPU_ON_AARCH32 : Z := 0x84000003.
Definition PSCI_CPU_ON_AARCH64 : Z := 0xc4000003.
Definition PSCI_AFFINITY_INFO_AARCH32 : Z := 0x84000004.
Definition PSCI_AFFINITY_INFO_AARCH64 : Z := 0xc4000004.
Definition PSCI_MIG_AARCH32 : Z := 0x84000005.
Definition PSCI_MIG_INFO_UP_CPU_AARCH32 : Z := 0x84000007.
Definition PSCI_SYSTEM_OFF : Z := 0x84000008.
Definition PSCI_SYSTEM_RESET : Z := 0x84000009.
Definition PSCI_FEATURES : Z := 0x8400000A.
Definition PSCI_NODE_HW_STATE_AARCH32 : Z := 0x8400000d.
Definition PSCI_NODE_HW_STATE_AARCH64 : Z := 0xc400000d.
Definition PSCI_SYSTEM_SUSPEND_AARCH32 : Z := 0x8400000E.
Definition PSCI_SYSTEM_SUSPEND_AARCH64 : Z := 0xc400000E.
Definition PSCI_SET_SUSPEND_MODE : Z := 0x8400000F.
Definition PSCI_STAT_RESIDENCY_AARCH32 : Z := 0x84000010.
Definition PSCI_STAT_RESIDENCY_AARCH64 : Z := 0xc4000010.
Definition PSCI_STAT_COUNT_AARCH32 : Z := 0x84000011.
Definition PSCI_STAT_COUNT_AARCH64 : Z := 0xc4000011.
Definition PSCI_SYSTEM_RESET2_AARCH32 : Z := 0x84000012.
Definition PSCI_SYSTEM_RESET2_AARCH64 : Z := 0xc4000012.
Definition PSCI_MEM_PROTECT : Z := 0x84000013.
Definition PSCI_MEM_CHK_RANGE_AARCH32 : Z := 0x84000014.
Definition PSCI_MEM_CHK_RANGE_AARCH64 : Z := 0xc4000014.

Definition SMCCC_VERSION : Z := 0x80000000.
Definition SMC_UNK : Z := u64 (-1).

(** Fields of a function identifier (include/lib/smccc.h). *)
Definition GET_SMC_CC (fid : Z) : Z := Z.land (Z.shiftr fid 30) 1.
Definition GET_SMC_TYPE (fid : Z) : Z := Z.land (Z.shiftr fid 31) 1.
Definition GET_SMC_OEN (fid : Z) : Z := Z.land (Z.shiftr fid 24) 0x3f.
Definition is_std_svc_call (fid : Z) : bool := GET_SMC_OEN fid =? 4.
Definition is_valid_fast_smc (fid : Z) : bool :=
  (Z.land (Z.shiftr fid 16) 0xff =? 0) && (GET_SMC_TYPE fid =? 1).
Definition is_psci_fid (fid : Z) : bool := Z.land fid 0xffe0 =? 0.

(** psci_private.h *)
Definition PSCI_CAP_64BIT_MASK : Z :=
  foldr Z.lor 0 (define_psci_cap <$>
    [PSCI_CPU_SUSPEND_AARCH64; PSCI_CPU_ON_AARCH64; PSCI_AFFINITY_INFO_AARCH64;
     PSCI_MIG_AARCH64; PSCI_MIG_INFO_UP_CPU_AARCH64; PSCI_NODE_HW_STATE_AARCH64;
     PSCI_SYSTEM_SUSPEND_AARCH64; PSCI_STAT_RESIDENCY_AARCH64; PSCI_STAT_COUNT_AARCH64;
     PSCI_SYSTEM_RESET2_AARCH64; PSCI_MEM_CHK_RANGE_AARCH64]).

Section Definitions.
Context `{Cfg : PsciConfig} `{Plat : Platform}.

Definition is_caller_non_secure (flags : Z) : bool :=
  if ENABLE_RMM then Z.land flags 0x21 =? 0x1 else negb (Z.land flags 0x1 =? 0).

(** ** CPU_ON *)

(** Contents of the caller-local [entry_point_info_t ep;] before it is
    written: never observed on success. *)
Definition ep_local : entry_point_info_t := {|
  ep_type := 0; ep_version := 0; ep_size := 0; ep_attr := 0; ep_pc := 0; ep_spsr := 0;
  ep_args := replicate 8 0 |}.

Definition psci_cpu_on_by_core_pos (target_idx target_cpu entrypoint context_id : Z) : psci Z :=
  if negb (is_valid_mpidr target_cpu) then ret PSCI_E_INVALID_PARAMS
  else
    let! r := psci_validate_entry_point ep_local entrypoint context_id in
    if negb (fst r =? PSCI_E_SUCCESS) then ret (fst r)
    else psci_cpu_on_start target_idx target_cpu (snd r).

Definition psci_cpu_on (target_cpu entrypoint context_id : Z) : psci Z :=
  psci_cpu_on_by_core_pos (u32 (plat_core_pos_by_mpidr target_cpu)) target_cpu entrypoint context_id.

Definition psci_version : Z := Z.lor (Z.shiftl 1 16) 0x1.

(** ** CPU_SUSPEND *)

(** The entry point is validated into the CPU's own [warmboot_ep_info]. *)
Definition validate_own_entry_point (cpu_idx entrypoint context_id : Z) : psci Z :=
  let! ep := read_warmboot_ep cpu_idx in
  let! r := psci_validate_entry_point ep entrypoint context_id in
  write_warmboot_ep cpu_idx (snd r) ;;
  ret (fst r).

Definition psci_cpu_standby (cpu_idx : Z) (state_info : psci_power_state_t) : psci Z :=
  if negb (cpu_standby psci_plat_pm_ops) then ret PSCI_E_INVALID_PARAMS
  else
    let! cpu_pd_state := pd_state state_info PSCI_CPU_PWR_LVL in
    psci_set_cpu_local_state cpu_idx cpu_pd_state ;;
    emit_if ENABLE_PSCI_STAT (E_stat_accounting_start state_info) ;;
    emit_if ENABLE_RUNTIME_INSTRUMENTATION (E_timestamp RT_INSTR_ENTER_HW_LOW_PWR) ;;
    emit (E_cpu_standby cpu_pd_state) ;;
    psci_set_cpu_local_state cpu_idx PSCI_LOCAL_STATE_RUN ;;
    emit_if ENABLE_RUNTIME_INSTRUMENTATION (E_timestamp RT_INSTR_EXIT_HW_LOW_PWR) ;;
    emit_if ENABLE_PSCI_STAT (E_stat_accounting_stop state_info) ;;
    when ENABLE_PSCI_STAT (psci_stats_update_pwr_up cpu_idx PSCI_CPU_PWR_LVL state_info) ;;
    ret PSCI_E_SUCCESS.

Definition psci_cpu_suspend (cpu_idx power_state entrypoint context_id : Z) : psci Z :=
  let! r := psci_validate_power_state power_state run_power_state in
  if negb (fst r =? PSCI_E_SUCCESS) then
    assert_ ENABLE_ASSERTIONS (fst r =? PSCI_E_INVALID_PARAMS) ;;
    ret (fst r)
  else
    let state_info := snd r in
    let is_power_down_state := psci_get_pstate_type power_state in
    when ENABLE_ASSERTIONS
      (let! rc := psci_validate_suspend_req state_info is_power_down_state in
       assert_ true (rc =? PSCI_E_SUCCESS)) ;;
    let! target_pwrlvl := psci_find_target_suspend_lvl state_info in
    if (target_pwrlvl =? PSCI_INVALID_PWR_LVL)%nat then halt Panicked
    else if is_cpu_standby_req is_power_down_state target_pwrlvl then
      psci_cpu_standby cpu_idx state_info
    else
      let! rc := (if negb (is_power_down_state =? 0)
                  then validate_own_entry_point cpu_idx entrypoint context_id
                  else ret PSCI_E_SUCCESS) in
      if negb (rc =? PSCI_E_SUCCESS) then ret rc
      else psci_cpu_suspend_start cpu_idx target_pwrlvl state_info is_power_down_state.

Definition psci_system_suspend (cpu_idx entrypoint context_id : Z) : psci Z :=
  let! last := psci_is_last_on_cpu cpu_idx in
  if negb last then ret PSCI_E_DENIED
  else
    let! rc := validate_own_entry_point cpu_idx entrypoint context_id in
    if negb (rc =? PSCI_E_SUCCESS) then ret rc
    else
      let! state_info := psci_query_sys_suspend_pwrstate in
      let! lvl := psci_find_target_suspend_lvl state_info in
      if (lvl <? PLAT_MAX_PWR_LVL)%nat then ret PSCI_E_DENIED
      else
        when ENABLE_ASSERTIONS
          (let! rc := psci_validate_suspend_req state_info PSTATE_TYPE_POWERDOWN in
           assert_ true (rc =? PSCI_E_SUCCESS) ;;
           let! top := pd_state state_info PLAT_MAX_PWR_LVL in
           assert_ true (is_local_state_off top)) ;;
        psci_cpu_suspend_start cpu_idx PLAT_MAX_PWR_LVL state_info PSTATE_TYPE_POWERDOWN.

Definition psci_cpu_off (me : Z) : psci Z :=
  let! rc := psci_do_cpu_off me PLAT_MAX_PWR_LVL in
  assert_ ENABLE_ASSERTIONS (rc =? PSCI_E_DENIED) ;;
  ret rc.

(** ** Queries *)

Definition psci_get_aff_by_idx (cpu_idx : Z) : psci aff_info_state_t :=
  psci_get_aff_info_state_by_idx cpu_idx.

Definition psci_affinity_info (target_affinity lowest_affinity_level : Z) : psci Z :=
  if negb (is_valid_mpidr target_affinity) then ret PSCI_E_INVALID_PARAMS
  else if 0 <? lowest_affinity_level then ret PSCI_E_INVALID_PARAMS
  else
    let! a := psci_get_aff_by_idx (u32 (plat_core_pos_by_mpidr target_affinity)) in
    ret (aff_info_state_val a).

Definition psci_migrate (me target_cpu : Z) : psci Z :=
  if negb (is_valid_mpidr target_cpu) then ret PSCI_E_INVALID_PARAMS
  else
    let! r := psci_spd_migrate_info 0 in
    if negb (fst r =? PSCI_TOS_UP_MIG_CAP) then
      ret (if fst r =? PSCI_TOS_NOT_UP_MIG_CAP then PSCI_E_DENIED else PSCI_E_NOT_SUPPORTED)
    else if negb (snd r =? read_mpidr me) then ret PSCI_E_NOT_PRESENT
    else if negb (is_valid_mpidr target_cpu) then ret PSCI_E_INVALID_PARAMS
    else
      let! spd := gets psci_spd_pm in
      let! hook := required (spd ≫= svc_migrate) in
      emit (E_svc_migrate (read_mpidr me) target_cpu) ;;
      let! rc := gets (fun s => hook (read_mpidr me) target_cpu (trace s)) in
      assert_ ENABLE_ASSERTIONS ((rc =? PSCI_E_SUCCESS) || (rc =? PSCI_E_INTERN_FAIL)) ;;
      ret rc.

Definition psci_migrate_info_type : psci Z :=
  let! r := psci_spd_migrate_info 0 in ret (fst r).

Definition psci_migrate_info_up_cpu : psci Z :=
  let! r := psci_spd_migrate_info 0 in
  if negb (fst r =? PSCI_TOS_NOT_UP_MIG_CAP) && negb (fst r =? PSCI_TOS_UP_MIG_CAP)
  then ret (u64 PSCI_E_INVALID_PARAMS)
  else ret (snd r).

Definition HW_ON : Z := 0.
Definition HW_STANDBY : Z := 2.

Definition psci_node_hw_state (target_cpu power_level : Z) : psci Z :=
  if negb (is_valid_mpidr target_cpu) then ret PSCI_E_INVALID_PARAMS
  else if Z.of_nat PLAT_MAX_PWR_LVL <? power_level then ret PSCI_E_INVALID_PARAMS
  else
    let! hook := required (get_node_hw_state psci_plat_pm_ops) in
    let! rc := gets (fun s => hook target_cpu power_level (trace s)) in
    assert_ ENABLE_ASSERTIONS
      (((HW_ON <=? rc) && (rc <=? HW_STANDBY)) || (rc =? PSCI_E_NOT_SUPPORTED) ||
       (rc =? PSCI_E_INVALID_PARAMS)) ;;
    ret rc.

Definition psci_features (psci_fid : Z) : psci Z :=
  let! caps := gets psci_caps in
  if psci_fid =? SMCCC_VERSION then ret PSCI_E_SUCCESS
  else
    let local_caps := if GET_SMC_CC psci_fid =? 1 then Z.land caps PSCI_CAP_64BIT_MASK else caps in
    if negb (is_std_svc_call psci_fid && is_valid_fast_smc psci_fid && is_psci_fid psci_fid)
    then ret PSCI_E_NOT_SUPPORTED
    else if Z.land local_caps (define_psci_cap psci_fid) =? 0 then ret PSCI_E_NOT_SUPPORTED
    else if (psci_fid =? PSCI_CPU_SUSPEND_AARCH32) || (psci_fid =? PSCI_CPU_SUSPEND_AARCH64) then
      ret (Z.lor (Z.shiftl (if PSCI_EXTENDED_STATE_ID then 1 else 0) 1)
                 (if PSCI_OS_INIT_MODE then 1 else 0))
    else ret PSCI_E_SUCCESS.

Definition psci_set_suspend_mode (this_core mode : Z) : psci Z :=
  if negb (mode =? 0) && negb (mode =? 1) then ret PSCI_E_INVALID_PARAMS
  else
    let new_mode := if mode =? 0 then PLAT_COORD else OS_INIT in
    let! cur := gets psci_suspend_mode in
    if bool_decide (cur = new_mode) then ret PSCI_E_SUCCESS
    else
      let! allowed :=
        match new_mode with
        | PLAT_COORD => psci_is_last_on_cpu_safe this_core
        | OS_INIT =>
            let! all_on := psci_are_all_cpus_on_safe this_core in
            if all_on then ret true else psci_is_last_on_cpu_safe this_core
        end in
      if negb allowed then ret PSCI_E_DENIED
      else modify (set_mode new_mode) ;; ret PSCI_E_SUCCESS.

(** ** The handler

    Results are [u_register_t]: an [int] is sign-extended to 64 bits. *)
Definition ret_int (c : psci Z) : psci Z := let! rc := c in ret (u64 rc).

Definition psci_smc_32 (me smc_fid r1 r2 r3 : Z) : psci Z :=
  if smc_fid =? PSCI_VERSION then ret psci_version
  else if smc_fid =? PSCI_CPU_OFF then ret_int (psci_cpu_off me)
  else if smc_fid =? PSCI_CPU_SUSPEND_AARCH32 then ret_int (psci_cpu_suspend me r1 r2 r3)
  else if smc_fid =? PSCI_CPU_ON_AARCH32 then ret_int (psci_cpu_on r1 r2 r3)
  else if smc_fid =? PSCI_AFFINITY_INFO_AARCH32 then ret_int (psci_affinity_info r1 r2)
  else if smc_fid =? PSCI_MIG_AARCH32 then ret_int (psci_migrate me r1)
  else if smc_fid =? PSCI_MIG_INFO_TYPE then ret_int psci_migrate_info_type
  else if smc_fid =? PSCI_MIG_INFO_UP_CPU_AARCH32 then psci_migrate_info_up_cpu
  else if smc_fid =? PSCI_NODE_HW_STATE_AARCH32 then ret_int (psci_node_hw_state r1 r2)
  else if smc_fid =? PSCI_SYSTEM_SUSPEND_AARCH32 then ret_int (psci_system_suspend me r1 r2)
  else if smc_fid =? PSCI_SYSTEM_OFF then psci_system_off me
  else if smc_fid =? PSCI_SYSTEM_RESET then psci_system_reset me
  else if smc_fid =? PSCI_FEATURES then ret_int (psci_features r1)
  else if PSCI_OS_INIT_MODE && (smc_fid =? PSCI_SET_SUSPEND_MODE) then
    ret_int (psci_set_suspend_mode me r1)
  else if ENABLE_PSCI_STAT && (smc_fid =? PSCI_STAT_RESIDENCY_AARCH32) then psci_stat_residency r1 r2
  else if ENABLE_PSCI_STAT && (smc_fid =? PSCI_STAT_COUNT_AARCH32) then psci_stat_count r1 r2
  else if smc_fid =? PSCI_MEM_PROTECT then psci_mem_protect r1
  else if smc_fid =? PSCI_MEM_CHK_RANGE_AARCH32 then psci_mem_chk_range r1 r2
  else if smc_fid =? PSCI_SYSTEM_RESET2_AARCH32 then psci_system_reset2 me r1 r2
  else ret SMC_UNK.

Definition psci_smc_64 (me smc_fid x1 x2 x3 : Z) : psci Z :=
  if smc_fid =? PSCI_CPU_SUSPEND_AARCH64 then ret_int (psci_cpu_suspend me (u32 x1) x2 x3)
  else if smc_fid =? PSCI_CPU_ON_AARCH64 then ret_int (psci_cpu_on x1 x2 x3)
  else if smc_fid =? PSCI_AFFINITY_INFO_AARCH64 then ret_int (psci_affinity_info x1 (u32 x2))
  else if smc_fid =? PSCI_MIG_AARCH64 then ret_int (psci_migrate me x1)
  else if smc_fid =? PSCI_MIG_INFO_UP_CPU_AARCH64 then psci_migrate_info_up_cpu
  else if smc_fid =? PSCI_NODE_HW_STATE_AARCH64 then ret_int (psci_node_hw_state x1 (u32 x2))
  else if smc_fid =? PSCI_SYSTEM_SUSPEND_AARCH64 then ret_int (psci_system_suspend me x1 x2)
  else if ENABLE_PSCI_STAT && (smc_fid =? PSCI_STAT_RESIDENCY_AARCH64) then
    psci_stat_residency x1 (u32 x2)
  else if ENABLE_PSCI_STAT && (smc_fid =? PSCI_STAT_COUNT_AARCH64) then psci_stat_count x1 (u32 x2)
  else if smc_fid =? PSCI_MEM_CHK_RANGE_AARCH64 then psci_mem_chk_range x1 x2
  else if smc_fid =? PSCI_SYSTEM_RESET2_AARCH64 then psci_system_reset2 me (u32 x1) x2
  else ret SMC_UNK.

Definition psci_smc_handler (me smc_fid x1 x2 x3 flags : Z) : psci Z :=
  if negb (is_caller_non_secure flags) then ret SMC_UNK
  else
    let! caps := gets psci_caps in
    if Z.land caps (define_psci_cap smc_fid) =? 0 then ret SMC_UNK
    else if GET_SMC_CC smc_fid =? 0 then
      psci_smc_32 me smc_fid (u32 x1) (u32 x2) (u32 x3)
    else psci_smc_64 me smc_fid x1 x2 x3.

End Definitions.
