(* ===== verification/PsciSetup.v ===== *)
(** * PSCI: initialisation (lib/psci/psci_setup.c) *)

From stdpp Require Import list_numbers.
From S2P Require Import Prelude PsciTypes PsciCommon PsciStat PsciHandlers PsciMain.
#[local] Open Scope cmd_scope.

Section Definitions.
Context `{Cfg : PsciConfig} `{Plat : Platform}.

Definition init_node (n : non_cpu_pd_node_t) (idx parent_idx : Z) (lvl : nat) : non_cpu_pd_node_t := {|
  cpu_start_idx := cpu_start_idx n; ncpus := ncpus n; parent_node := parent_idx;
  first_child_idx := first_child_idx n; num_children := num_children n;
  local_state := PLAT_MAX_OFF_STATE; level := lvl; lock_index := idx |}.

Definition psci_init_pwr_domain_node (node_idx parent_idx : Z) (lvl : nat) : psci unit :=
  if (PSCI_CPU_PWR_LVL <? lvl)%nat then
    assert_ ENABLE_ASSERTIONS (node_idx <? PSCI_NUM_NON_CPU_PWR_DOMAINS) ;;
    write_non_cpu_node node_idx (fun n => init_node n node_idx parent_idx lvl)
  else
    assert_ ENABLE_ASSERTIONS (node_idx <? PLATFORM_CORE_COUNT) ;;
    write_cpu_node node_idx (fun _ => {| mpidr := PSCI_INVALID_MPIDR; cpu_parent_node := parent_idx |}) ;;
    write_cpu_data node_idx (fun d => {|
      aff_info_state := AFF_STATE_OFF; target_pwrlvl := PLAT_MAX_PWR_LVL;
      cpu_local_state := PLAT_MAX_OFF_STATE; warmboot_ep_ptr := warmboot_ep_ptr d |}) ;;
    emit (E_cm_set_context node_idx).

(** [psci_update_pwrlvl_limits]: the loop variable is [nodes_idx]; the inner
    loop runs from the highest level down. *)
Definition with_limits (start n : Z) (nd : non_cpu_pd_node_t) : non_cpu_pd_node_t := {|
  cpu_start_idx := start; ncpus := n; parent_node := parent_node nd;
  first_child_idx := first_child_idx nd; num_children := num_children nd;
  local_state := local_state nd; level := level nd; lock_index := lock_index nd |}.

Definition update_limit_at (cpu_idx : Z) (temp_index nodes_idx : list Z) (j : nat) : psci (list Z) :=
  let! t := deref (temp_index !! j) in
  let! n := deref (nodes_idx !! j) in
  when (negb (t =? n)) (write_non_cpu_node t (fun nd => with_limits cpu_idx (ncpus nd) nd)) ;;
  write_non_cpu_node t (fun nd => with_limits (cpu_start_idx nd) (u32 (ncpus nd + 1)) nd) ;;
  ret (if negb (t =? n) then <[j := t]> nodes_idx else nodes_idx).

Definition psci_update_pwrlvl_limits : psci unit :=
  let! n := gets psci_plat_core_count in
  fold_each (seqZ 0 n) (replicate PLAT_MAX_PWR_LVL 0) (fun cpu_idx nodes_idx =>
    let! temp_index := psci_get_parent_pwr_domain_nodes cpu_idx PLAT_MAX_PWR_LVL in
    fold_each (rev (seq 0 PLAT_MAX_PWR_LVL)) nodes_idx (fun j nodes_idx =>
      update_limit_at cpu_idx temp_index nodes_idx j)) ;;
  ret tt.

Definition with_warmboot_ep_ptr (p : option Z) (d : psci_cpu_data_t) : psci_cpu_data_t := {|
  aff_info_state := aff_info_state d; target_pwrlvl := target_pwrlvl d;
  cpu_local_state := cpu_local_state d; warmboot_ep_ptr := p |}.

Definition populate_cpu_data : psci unit :=
  let! n := gets psci_plat_core_count in
  for_each (seqZ 0 n) (fun idx => write_cpu_data idx (with_warmboot_ep_ptr (Some idx))).

(** The loop over the entries of one level. The loop variables are
    [(node_index, num_nodes_at_next_lvl, parent_node_index, j)]; the argument
    of [psci_init_pwr_domain_node] is truncated to 16 bits. *)
Definition with_children (first n : Z) (nd : non_cpu_pd_node_t) : non_cpu_pd_node_t := {|
  cpu_start_idx := cpu_start_idx nd; ncpus := ncpus nd; parent_node := parent_node nd;
  first_child_idx := first; num_children := n;
  local_state := local_state nd; level := level nd; lock_index := lock_index nd |}.

Record tree_vars := { node_index : Z; next_lvl_nodes : Z; parent_node_index : Z; tree_j : Z }.

Definition populate_entry (topology : list Z) (lvl : nat) (v : tree_vars) : psci tree_vars :=
  assert_ ENABLE_ASSERTIONS (parent_node_index v <=? PSCI_NUM_NON_CPU_PWR_DOMAINS) ;;
  let! num_children := deref (topology.[parent_node_index v]) in
  for_each (seqZ (node_index v) num_children) (fun j =>
    psci_init_pwr_domain_node (u16 j) (u32 (parent_node_index v - 1)) lvl) ;;
  when (PSCI_OS_INIT_MODE && (0 <? parent_node_index v))
    (write_non_cpu_node (parent_node_index v - 1) (with_children (node_index v) num_children)) ;;
  ret {| node_index := node_index v + num_children;
         next_lvl_nodes := next_lvl_nodes v + num_children;
         parent_node_index := parent_node_index v + 1;
         tree_j := node_index v + num_children |}.

(** [while (level >= PSCI_CPU_PWR_LVL)], from [lvl] down to 0. *)
Fixpoint populate_levels (topology : list Z) (lvl : nat) (num_nodes_at_lvl : Z) (v : tree_vars)
    : psci tree_vars :=
  let! v' := fold_each (seqZ 0 num_nodes_at_lvl)
               {| node_index := node_index v; next_lvl_nodes := 0;
                  parent_node_index := parent_node_index v; tree_j := tree_j v |}
               (fun _ v => populate_entry topology lvl v) in
  match lvl with
  | O => ret v'
  | S lvl' =>
      populate_levels topology lvl' (next_lvl_nodes v')
        {| node_index := if (lvl' =? PSCI_CPU_PWR_LVL)%nat then 0 else node_index v';
           next_lvl_nodes := next_lvl_nodes v';
           parent_node_index := parent_node_index v'; tree_j := tree_j v' |}
  end.

Definition populate_power_domain_tree (topology : list Z) : psci Z :=
  let! v := populate_levels topology PLAT_MAX_PWR_LVL 1
              {| node_index := 0; next_lvl_nodes := 0; parent_node_index := 0; tree_j := 0 |} in
  assert_ ENABLE_ASSERTIONS (tree_j v <=? PLATFORM_CORE_COUNT) ;;
  ret (tree_j v).

(** ** Capabilities *)

Definition PSCI_GENERIC_CAP : Z :=
  Z.lor (Z.lor (define_psci_cap PSCI_VERSION) (define_psci_cap PSCI_AFFINITY_INFO_AARCH64))
        (define_psci_cap PSCI_FEATURES).

Definition add_cap (b : bool) (fid : Z) (caps : Z) : Z :=
  if b then Z.lor caps (define_psci_cap fid) else caps.

Definition platform_caps (ops : plat_psci_ops_t) : Z :=
  let suspend := pwr_domain_suspend ops && pwr_domain_suspend_finish ops in
  add_cap ENABLE_PSCI_STAT PSCI_STAT_COUNT_AARCH64 (
  add_cap ENABLE_PSCI_STAT PSCI_STAT_RESIDENCY_AARCH64 (
  add_cap (registered (system_reset2 ops)) PSCI_SYSTEM_RESET2_AARCH64 (
  add_cap (registered (mem_protect_chk ops)) PSCI_MEM_CHK_RANGE_AARCH64 (
  add_cap (registered (read_mem_protect ops) && registered (write_mem_protect ops)) PSCI_MEM_PROTECT (
  add_cap (registered (get_node_hw_state ops)) PSCI_NODE_HW_STATE_AARCH64 (
  add_cap (registered (system_reset ops)) PSCI_SYSTEM_RESET (
  add_cap (registered (system_off ops)) PSCI_SYSTEM_OFF (
  add_cap (suspend && PSCI_OS_INIT_MODE) PSCI_SET_SUSPEND_MODE (
  add_cap (suspend && registered (get_sys_suspend_power_state ops)) PSCI_SYSTEM_SUSPEND_AARCH64 (
  add_cap (suspend && registered (validate_power_state ops)) PSCI_CPU_SUSPEND_AARCH64 (
  add_cap (registered (pwr_domain_on ops) && pwr_domain_on_finish ops) PSCI_CPU_ON_AARCH64 (
  add_cap (pwr_domain_off ops) PSCI_CPU_OFF PSCI_GENERIC_CAP)))))))))))).

(** ** The arguments of the library *)

Definition PARAM_PSCI_LIB_ARGS : Z := 6.

Record psci_lib_args_t := {
  lib_h_type : Z;
  lib_h_version : Z;
  lib_h_size : Z;
  lib_h_attr : Z;
  mailbox_ep : Z
}.

Definition VERIFY_PSCI_LIB_ARGS_V1 (p : option psci_lib_args_t) : bool :=
  match p with
  | Some a => (lib_h_type a =? PARAM_PSCI_LIB_ARGS) && (lib_h_version a =? VERSION_1) && (lib_h_size a =? 16) &&
      (lib_h_attr a =? 0) && negb (mailbox_ep a =? 0)
  | None => false
  end.

(** The pointer [psci_plat_pm_ops] after [plat_setup_psci_ops]. *)
Definition plat_pm_ops_ptr (ep : Z) : option plat_psci_ops_t :=
  if plat_setup_psci_ops ep then Some psci_plat_pm_ops else None.

Definition psci_setup (lib_args : option psci_lib_args_t) (cpu_idx : Z) : psci Z :=
  assert_ ENABLE_ASSERTIONS (VERIFY_PSCI_LIB_ARGS_V1 lib_args) ;;
  emit E_arch_setup ;;
  let! n := populate_power_domain_tree plat_get_power_domain_tree_desc in
  modify (set_core_count n) ;;
  psci_update_pwrlvl_limits ;;
  populate_cpu_data ;;
  write_cpu_node cpu_idx (with_mpidr (Z.land (read_mpidr cpu_idx) MPIDR_AFFINITY_MASK)) ;;
  psci_init_req_local_pwr_states ;;
  psci_set_pwr_domains_to_run cpu_idx PLAT_MAX_PWR_LVL ;;
  let! args := deref lib_args in
  emit (E_setup_psci_ops (mailbox_ep args)) ;;
  assert_ ENABLE_ASSERTIONS (registered (plat_pm_ops_ptr (mailbox_ep args))) ;;
  let! ops := deref (plat_pm_ops_ptr (mailbox_ep args)) in
  modify (set_caps (platform_caps ops)) ;;
  ret 0.

(** The zero-initialised state before [psci_setup]. *)
Definition cold_node : non_cpu_pd_node_t := {|
  cpu_start_idx := 0; ncpus := 0; parent_node := 0; first_child_idx := 0; num_children := 0;
  local_state := 0; level := 0; lock_index := 0 |}.

Definition cold_state : psci_state :=
  let cores := Z.to_nat PLATFORM_CORE_COUNT in
  let domains := Z.to_nat PSCI_NUM_NON_CPU_PWR_DOMAINS in
  let states := Z.to_nat PLAT_MAX_PWR_LVL_STATES in
  {| psci_non_cpu_pd_nodes := replicate domains cold_node;
     psci_cpu_pd_nodes := replicate cores {| mpidr := 0; cpu_parent_node := 0 |};
     psci_req_local_pwr_states := replicate PLAT_MAX_PWR_LVL (replicate cores 0);
     psci_svc_cpu_data := replicate cores {|
       aff_info_state := AFF_STATE_ON; target_pwrlvl := 0; cpu_local_state := 0;
       warmboot_ep_ptr := None |};
     warmboot_ep_info := replicate cores ep_local;
     psci_plat_core_count := 0;
     psci_caps := 0;
     psci_suspend_mode := PLAT_COORD;
     psci_spd_pm := None;
     last_cpu_in_non_cpu_pd := replicate domains (-1);
     psci_cpu_stat := replicate cores (replicate states {| residency := 0; count := 0 |});
     psci_non_cpu_stat := replicate domains (replicate states {| residency := 0; count := 0 |});
     trace := [] |}.

End Definitions.
