(* ===== verification/PsciDemo.v ===== *)
(** * A concrete platform

    Two clusters of two CPUs under one system domain, with every hook
    registered and answering with success: the concrete inputs of the
    witnesses. *)

From S2P Require Import Prelude PsciTypes PsciCommon PsciStat PsciHandlers PsciMain PsciSetup.

Definition demo_config (os_init assertions : bool) : PsciConfig := {|
  PLAT_MAX_PWR_LVL := 2;
  PLATFORM_CORE_COUNT := 4;
  PSCI_NUM_NON_CPU_PWR_DOMAINS := 3;
  PLAT_MAX_RET_STATE := 1;
  PLAT_MAX_OFF_STATE := 2;
  PLAT_MAX_CPU_SUSPEND_PWR_LVL := None;
  PLAT_MAX_PWR_LVL_STATES := 2;
  PSCI_OS_INIT_MODE := os_init;
  PSCI_EXTENDED_STATE_ID := false;
  ENABLE_PSCI_STAT := true;
  ENABLE_RUNTIME_INSTRUMENTATION := false;
  HW_ASSISTED_COHERENCY := true;
  WARMBOOT_ENABLE_DCACHE_EARLY := true;
  USE_GIC_DRIVER := true;
  ENABLE_RMM := false;
  ENABLE_ASSERTIONS := assertions
|}.

(** The [power_state] format of the demonstration platform: the state type in
    bit 16, the highest power level in bits 25:24. *)
Definition demo_validate_power_state (ps : Z) (st : psci_power_state_t) (_ : list event)
    : Z * psci_power_state_t :=
  let lvl := Z.to_nat (Z.land (Z.shiftr ps 24) 3) in
  let v := if Z.testbit ps 16 then 2 else 1 in
  if (2 <? lvl)%nat then (PSCI_E_INVALID_PARAMS, st)
  else (PSCI_E_SUCCESS,
        {| pwr_domain_state := replicate (S lvl) v ++ replicate (2 - lvl) 0;
           last_at_pwrlvl := lvl |}).

Definition demo_ops : plat_psci_ops_t := {|
  cpu_standby := true;
  pwr_domain_on := Some (fun _ _ => PSCI_E_SUCCESS);
  pwr_domain_off := true;
  pwr_domain_off_early := None;
  pwr_domain_validate_suspend := None;
  pwr_domain_suspend_pwrdown_early := false;
  pwr_domain_suspend := true;
  pwr_domain_on_finish := true;
  pwr_domain_on_finish_late := false;
  pwr_domain_suspend_finish := true;
  pwr_domain_pwr_down := None;
  system_off := Some (fun _ => true);
  system_reset := Some (fun _ => true);
  validate_power_state := Some demo_validate_power_state;
  validate_ns_entrypoint := None;
  get_sys_suspend_power_state :=
    Some (fun _ => {| pwr_domain_state := [2; 2; 2]; last_at_pwrlvl := 2 |});
  get_pwr_lvl_state_idx := None;
  translate_power_state_by_mpidr := None;
  get_node_hw_state := Some (fun _ _ _ => 0);
  mem_protect_chk := Some (fun _ _ _ => 0);
  read_mem_protect := Some (fun _ => (0, 0));
  write_mem_protect := Some (fun _ _ => 0);
  system_reset2 := Some (fun _ _ _ _ => PSCI_E_SUCCESS)
|}.

(** [wakes] tells whether [wfi] resumes; the register reads describe an
    AArch64 EL2 caller with no pending interrupt. *)
Definition demo_platform `{PsciConfig} (wakes : bool) : Platform := {|
  plat_core_pos_by_mpidr := fun m => if (0 <=? m) && (m <? 4) then m else -1;
  plat_get_target_pwr_state := default_get_target_pwr_state;
  plat_get_power_domain_tree_desc := [1; 2; 2; 2];
  plat_setup_psci_ops := fun _ => true;
  psci_plat_pm_ops := demo_ops;
  plat_psci_stat_get_residency := fun _ _ _ _ => 7;
  read_mpidr := fun me => me;
  read_scr_el3 := fun _ => Z.lor SCR_RW_BIT SCR_HCE_BIT;
  read_sctlr_el1 := fun _ => 0;
  read_sctlr_el2 := fun _ => 0;
  read_isr_el1 := fun _ => 0;
  wfi_wakes := fun _ => wakes;
  cpu_ops_ptr := Some [Some (fun _ => PABANDON_ACK); Some (fun _ => PABANDON_ACK)]
|}.

Definition demo_args : option psci_lib_args_t :=
  Some {| lib_h_type := PARAM_PSCI_LIB_ARGS; lib_h_version := VERSION_1; lib_h_size := 16; lib_h_attr := 0;
          mailbox_ep := 0x4000 |}.

(** The state after a cold boot on CPU 0. *)
Definition demo_boot (C : PsciConfig) (P : Platform) : psci_state :=
  final (psci_setup demo_args 0 cold_state).
