(* ===== verification/PsciTopology.v ===== *)
(** * PSCI: the power domain tree

    What never changes after [psci_setup]: the shape of the node arrays, the
    parent links and the CPU ranges ([topology]), when such a tree is well
    formed, and the rule for the loops that walk up from a CPU. *)

From stdpp Require Import list_numbers.
From S2P Require Import Prelude PsciTypes PsciCommon.
#[local] Open Scope cmd_scope.

(** ** The static part of the state *)

Record topology := {
  t_nodes : list non_cpu_pd_node_t;
  t_cpus : list Z;
  t_cores : Z;
  t_req : list nat;
  t_data : list (option Z);
  t_eps : nat;
  t_last : nat;
  t_cpu_stat : list nat;
  t_non_cpu_stat : list nat
}.

Definition topo (s : psci_state) : topology := {|
  t_nodes := with_local_state 0 <$> psci_non_cpu_pd_nodes s;
  t_cpus := cpu_parent_node <$> psci_cpu_pd_nodes s;
  t_cores := psci_plat_core_count s;
  t_req := length <$> psci_req_local_pwr_states s;
  t_data := warmboot_ep_ptr <$> psci_svc_cpu_data s;
  t_eps := length (warmboot_ep_info s);
  t_last := length (last_cpu_in_non_cpu_pd s);
  t_cpu_stat := length <$> psci_cpu_stat s;
  t_non_cpu_stat := length <$> psci_non_cpu_stat s
|}.

(** [anc t c l]: the index of the ancestor of CPU [c] at level [l >= 1]. *)
Fixpoint anc (t : topology) (c : Z) (l : nat) : option Z :=
  match l with
  | O => None
  | S l' =>
      match l' with
      | O => (t_cpus t).[c]
      | S _ =>
          match anc t c l' with
          | Some p => parent_node <$> (t_nodes t).[p]
          | None => None
          end
      end
  end.

Definition node_covers (n : non_cpu_pd_node_t) (c : Z) : Prop :=
  cpu_start_idx n <= c < cpu_start_idx n + ncpus n.

Section WellFormed.
Context `{Cfg : PsciConfig}.

Record wf_topo (t : topology) : Prop := {
  wt_cores : 0 <= t_cores t <= Z.of_nat (length (t_cpus t));
  wt_data : t_cores t <= Z.of_nat (length (t_data t));
  wt_eps : forall c, 0 <= c < t_cores t ->
    exists p, (t_data t).[c] = Some (Some p) /\ 0 <= p < Z.of_nat (t_eps t);
  wt_req : forall l, (1 <= l <= PLAT_MAX_PWR_LVL)%nat ->
    exists n, t_req t !! (l - 1)%nat = Some n /\ t_cores t <= Z.of_nat n;
  wt_last : t_last t = length (t_nodes t);
  wt_anc : forall c l, 0 <= c < t_cores t -> (1 <= l <= PLAT_MAX_PWR_LVL)%nat ->
    exists p n, anc t c l = Some p /\ (t_nodes t).[p] = Some n /\
      level n = l /\ lock_index n = p /\ node_covers n c /\
      0 <= cpu_start_idx n /\ cpu_start_idx n + ncpus n <= t_cores t;
  wt_covers : forall c c' l p n,
    0 <= c < t_cores t -> 0 <= c' < t_cores t -> (1 <= l <= PLAT_MAX_PWR_LVL)%nat ->
    anc t c l = Some p -> (t_nodes t).[p] = Some n ->
    node_covers n c' -> anc t c' l = Some p
}.

(** A CPU of the system, and a level above the CPU level. *)
Definition valid_cpu (t : topology) (c : Z) : Prop := 0 <= c < t_cores t.
Definition valid_lvl (l : nat) : Prop := (1 <= l <= PLAT_MAX_PWR_LVL)%nat.

(** The ancestors of [c] are nodes of the array. *)
Definition linked (t : topology) (c : Z) : Prop :=
  forall l, valid_lvl l -> exists p n, anc t c l = Some p /\ (t_nodes t).[p] = Some n.

Lemma wf_linked t c : wf_topo t -> valid_cpu t c -> linked t c.
Proof. intros Hwf Hc l Hl. destruct (wt_anc t Hwf c l Hc Hl) as (p & n & ? & ? & _). by exists p, n. Qed.

Lemma anc_succ t c l p n :
  (1 <= l)%nat -> anc t c l = Some p -> (t_nodes t).[p] = Some n ->
  anc t c (S l) = Some (parent_node n).
Proof. destruct l as [|l]; [lia|]. intros _ Hp Hn. simpl in *. by rewrite Hp, Hn. Qed.

(** The ancestors of a CPU at different levels are different nodes. *)
Lemma anc_level t c l p n :
  wf_topo t -> valid_cpu t c -> valid_lvl l -> anc t c l = Some p ->
  (t_nodes t).[p] = Some n -> level n = l /\ lock_index n = p.
Proof.
  intros Hwf Hc Hl Hp Hn.
  destruct (wt_anc t Hwf c l Hc Hl) as (p' & n' & ? & ? & ? & ? & _). naive_solver.
Qed.

Lemma anc_inj t c c' l l' p :
  wf_topo t -> valid_cpu t c -> valid_cpu t c' -> valid_lvl l -> valid_lvl l' ->
  anc t c l = Some p -> anc t c' l' = Some p -> l = l'.
Proof.
  intros Hwf Hc Hc' Hl Hl' Hp Hp'.
  destruct (wt_anc t Hwf c l Hc Hl) as (q & n & Hq & Hn & Hlv & _).
  destruct (wt_anc t Hwf c' l' Hc' Hl') as (q' & n' & Hq' & Hn' & Hlv' & _).
  congruence.
Qed.

(** The node behind an ancestor index, in a state with that topology. *)
Lemma topo_node s p n :
  (t_nodes (topo s)).[p] = Some n ->
  exists nd, (psci_non_cpu_pd_nodes s).[p] = Some nd /\ n = with_local_state 0 nd.
Proof.
  simpl. rewrite zlookup_fmap.
  destruct ((psci_non_cpu_pd_nodes s).[p]) as [nd|]; [|done].
  intros [= <-]. eauto.
Qed.

Lemma topo_node_inv s p nd :
  (psci_non_cpu_pd_nodes s).[p] = Some nd ->
  (t_nodes (topo s)).[p] = Some (with_local_state 0 nd).
Proof. intros Hn. simpl. by rewrite zlookup_fmap, Hn. Qed.

(** Everything the handlers use of the ancestor of a CPU. *)
Lemma wf_anc s c l :
  wf_topo (topo s) -> valid_cpu (topo s) c -> valid_lvl l ->
  exists p nd, anc (topo s) c l = Some p /\ (psci_non_cpu_pd_nodes s).[p] = Some nd /\
    level nd = l /\ lock_index nd = p /\ node_covers nd c /\
    0 <= cpu_start_idx nd /\ cpu_start_idx nd + ncpus nd <= t_cores (topo s).
Proof.
  intros Hwf Hc Hl.
  destruct (wt_anc _ Hwf c l Hc Hl) as (p & n & Hp & Hn & ? & ? & ? & ? & ?).
  apply topo_node in Hn as (nd & Hnd & ->).
  exists p, nd. done.
Qed.

Lemma wf_cpu_node s c :
  wf_topo (topo s) -> valid_cpu (topo s) c ->
  exists nd, (psci_cpu_pd_nodes s).[c] = Some nd.
Proof.
  intros Hwf Hc. apply zlookup_lt_is_Some.
  pose proof (wt_cores _ Hwf) as Hn. simpl in Hn. rewrite length_fmap in Hn.
  unfold valid_cpu in Hc. simpl in Hc. lia.
Qed.

Lemma anc_1 s c nd :
  (psci_cpu_pd_nodes s).[c] = Some nd -> anc (topo s) c 1 = Some (cpu_parent_node nd).
Proof. intros Hn. simpl. by rewrite zlookup_fmap, Hn. Qed.

Lemma wf_cpu_data s c :
  wf_topo (topo s) -> valid_cpu (topo s) c ->
  exists d, (psci_svc_cpu_data s).[c] = Some d.
Proof.
  intros Hwf Hc. apply zlookup_lt_is_Some.
  pose proof (wt_data _ Hwf) as Hn. simpl in Hn. rewrite length_fmap in Hn.
  unfold valid_cpu in Hc. simpl in Hc. lia.
Qed.

Lemma wf_req_row s l :
  wf_topo (topo s) -> valid_lvl l ->
  exists row, psci_req_local_pwr_states s !! (l - 1)%nat = Some row /\
    t_cores (topo s) <= Z.of_nat (length row).
Proof.
  intros Hwf Hl. destruct (wt_req _ Hwf l Hl) as (n & Hn & Hle).
  simpl in Hn. rewrite list_lookup_fmap in Hn.
  destruct (psci_req_local_pwr_states s !! (l - 1)%nat) as [row|]; [|done].
  simpl in Hn. injection Hn as <-. eauto.
Qed.
End WellFormed.

(** ** Updates that keep the topology *)

Lemma topo_set_local_state s p nd v :
  (psci_non_cpu_pd_nodes s).[p] = Some nd ->
  topo (set_nodes (zupdate (psci_non_cpu_pd_nodes s) p (with_local_state v nd)) s) = topo s.
Proof.
  intros Hn. unfold topo. simpl. f_equal.
  rewrite zupdate_fmap. apply zupdate_id. by rewrite zlookup_fmap, Hn.
Qed.

Lemma topo_set_cpu_data s c d d' :
  (psci_svc_cpu_data s).[c] = Some d -> warmboot_ep_ptr d' = warmboot_ep_ptr d ->
  topo (set_cpu_data (zupdate (psci_svc_cpu_data s) c d') s) = topo s.
Proof.
  intros Hd He. unfold topo. simpl. f_equal.
  rewrite zupdate_fmap. apply zupdate_id. by rewrite zlookup_fmap, Hd, He.
Qed.

Lemma topo_set_req s l row row' :
  psci_req_local_pwr_states s !! l = Some row -> length row' = length row ->
  topo (set_req (<[l := row']> (psci_req_local_pwr_states s)) s) = topo s.
Proof.
  intros Hr Hl. unfold topo. simpl. f_equal.
  rewrite list_fmap_insert. apply list_insert_id. rewrite list_lookup_fmap, Hr. simpl. by rewrite Hl.
Qed.

Lemma topo_set_last s l :
  length l = length (last_cpu_in_non_cpu_pd s) -> topo (set_last_cpu l s) = topo s.
Proof. intros Hl. unfold topo. simpl. by rewrite Hl. Qed.

Lemma topo_set_mpidr s c nd v :
  (psci_cpu_pd_nodes s).[c] = Some nd ->
  topo (set_cpu_nodes (zupdate (psci_cpu_pd_nodes s) c (with_mpidr v nd)) s) = topo s.
Proof.
  intros Hn. unfold topo. simpl. f_equal.
  rewrite zupdate_fmap. apply zupdate_id. by rewrite zlookup_fmap, Hn.
Qed.

(** ** The walk rule

    With the invariant [I] at each level and [B] where the body breaks, a walk
    from a CPU's ancestor at level [l] meets exactly its ancestors at levels
    [l], [l+1], ... and never leaves the node array. *)
Section Walk.
Context `{Cfg : PsciConfig}.

Lemma wp_walk_linked {X} (t : topology) (c : Z) (body : nat -> Z -> X -> psci (bool * X))
    (I B : nat -> X -> psci_state -> Prop) E :
  linked t c ->
  forall n l p acc s,
  (1 <= l)%nat -> (l + n <= S PLAT_MAX_PWR_LVL)%nat ->
  anc t c l = Some p -> topo s = t -> I l acc s ->
  (forall k q a s', (l <= k < l + n)%nat -> anc t c k = Some q -> topo s' = t -> I k a s' ->
     wp (body k q a)
        (fun r s'' => topo s'' = t /\ if fst r then B k (snd r) s'' else I (S k) (snd r) s'')
        E s') ->
  wp (walk_up n l p acc body)
     (fun r s' => topo s' = t /\
        (fst r = (l + n)%nat /\ I (l + n)%nat (snd r) s' \/
         exists k, (l <= k < l + n)%nat /\ fst r = k /\ B k (snd r) s')) E s.
Proof.
  intros Hlk. induction n as [|n IH]; intros l p acc s Hl Hln Hp Ht HI Hbody; simpl.
  { apply wp_ret. split; [done|]. left. rewrite Nat.add_0_r. done. }
  apply wp_bind. eapply wp_mono; [apply Hbody; eauto; lia| |done].
  intros [brk a] s' [Ht' Hr]; simpl in *. destruct brk.
  { apply wp_ret. split; [done|]. right. exists l. simpl. split; [lia|done]. }
  destruct (Hlk l) as (q & n0 & Hq & Hn0); [split; lia|].
  assert (q = p) as -> by congruence. rewrite <- Ht' in Hn0.
  apply topo_node in Hn0 as (nd & Hnd & _).
  apply wp_bind. unfold non_cpu_node. unfold wp at 1. rewrite Hnd. simpl.
  eapply wp_mono; [apply IH| |done]; eauto; try lia.
  - rewrite <- Ht'. rewrite (anc_succ _ c l p (with_local_state 0 nd)); [done|lia| |].
    + by rewrite Ht'.
    + by apply topo_node_inv.
  - intros k q' a' s'' Hk. apply Hbody. lia.
  - intros r s'' [Ht'' [[Hf HI'']|(k & Hk & Hf & HB)]]; (split; [done|]).
    + left. replace (l + S n)%nat with (S l + n)%nat by lia. done.
    + right. exists k. split; [lia|done].
Qed.

Lemma wp_walk_up {X} (t : topology) (c : Z) (body : nat -> Z -> X -> psci (bool * X))
    (I B : nat -> X -> psci_state -> Prop) E :
  wf_topo t -> valid_cpu t c ->
  forall n l p acc s,
  (1 <= l)%nat -> (l + n <= S PLAT_MAX_PWR_LVL)%nat ->
  anc t c l = Some p -> topo s = t -> I l acc s ->
  (forall k q a s', (l <= k < l + n)%nat -> anc t c k = Some q -> topo s' = t -> I k a s' ->
     wp (body k q a)
        (fun r s'' => topo s'' = t /\ if fst r then B k (snd r) s'' else I (S k) (snd r) s'')
        E s') ->
  wp (walk_up n l p acc body)
     (fun r s' => topo s' = t /\
        (fst r = (l + n)%nat /\ I (l + n)%nat (snd r) s' \/
         exists k, (l <= k < l + n)%nat /\ fst r = k /\ B k (snd r) s')) E s.
Proof. intros Hwf Hc. apply wp_walk_linked. by apply wf_linked. Qed.

(** A walk whose body never breaks, started at the CPU itself. *)
Lemma wp_walk_from_linked {X} (c : Z) (body : nat -> Z -> X -> psci (bool * X))
    (I : nat -> X -> psci_state -> Prop) E end_lvl acc s :
  linked (topo s) c -> (end_lvl <= PLAT_MAX_PWR_LVL)%nat ->
  I 1%nat acc s ->
  (forall k q a s', (1 <= k <= end_lvl)%nat -> anc (topo s) c k = Some q -> topo s' = topo s ->
     I k a s' ->
     wp (body k q a)
        (fun r s'' => fst r = false /\ topo s'' = topo s /\ I (S k) (snd r) s'') E s') ->
  forall nd, (psci_cpu_pd_nodes s).[c] = Some nd ->
  wp (walk_up end_lvl 1 (cpu_parent_node nd) acc body)
     (fun r s' => topo s' = topo s /\ fst r = S end_lvl /\ I (S end_lvl) (snd r) s') E s.
Proof.
  intros Hlk He HI Hbody nd Hnd.
  eapply wp_mono.
  - apply (wp_walk_linked (topo s) c body I (fun _ _ _ => False)); eauto; [lia|by apply anc_1|].
    intros k q a s' Hk Hq Ht HIk.
    eapply wp_mono; [apply Hbody; eauto; lia| |done].
    intros r s'' (Hf & Ht'' & HIr). by rewrite Hf.
  - intros r s' [Ht [[Hf HIr]|(k & _ & _ & [])]]. done.
  - done.
Qed.

Lemma wp_walk_from_cpu {X} (c : Z) (body : nat -> Z -> X -> psci (bool * X))
    (I : nat -> X -> psci_state -> Prop) E end_lvl acc s :
  wf_topo (topo s) -> valid_cpu (topo s) c -> (end_lvl <= PLAT_MAX_PWR_LVL)%nat ->
  I 1%nat acc s ->
  (forall k q a s', (1 <= k <= end_lvl)%nat -> anc (topo s) c k = Some q -> topo s' = topo s ->
     I k a s' ->
     wp (body k q a)
        (fun r s'' => fst r = false /\ topo s'' = topo s /\ I (S k) (snd r) s'') E s') ->
  forall nd, (psci_cpu_pd_nodes s).[c] = Some nd ->
  wp (walk_up end_lvl 1 (cpu_parent_node nd) acc body)
     (fun r s' => topo s' = topo s /\ fst r = S end_lvl /\ I (S end_lvl) (snd r) s') E s.
Proof. intros Hwf Hc. apply wp_walk_from_linked. by apply wf_linked. Qed.
End Walk.
