(* ===== verification/PsciCoord.v ===== *)
(** * PSCI: state coordination

    Exact results of the operations of psci_common.c on a well-formed power
    domain tree, and the specification of state coordination: every request
    is recorded, and each level enters the state the platform coordinates from
    the requests of all the CPUs of the domain, until the first level that has
    to keep running. *)

From stdpp Require Import list_numbers.
From S2P Require Import Prelude PsciTypes PsciCommon PsciTopology.
#[local] Open Scope cmd_scope.

(** ** Observations *)

Definition pds (st : psci_power_state_t) : list Z := pwr_domain_state st.
Arguments pds : simpl never.
Arguments set_pd_state : simpl never.

Definition node_state (s : psci_state) (p : Z) : option Z :=
  local_state <$> (psci_non_cpu_pd_nodes s).[p].

Definition req_state (s : psci_state) (l : nat) (c : Z) : option Z :=
  match psci_req_local_pwr_states s !! (l - 1)%nat with
  | Some row => row.[c]
  | None => None
  end.

Definition aff_of (s : psci_state) (c : Z) : option aff_info_state_t :=
  aff_info_state <$> (psci_svc_cpu_data s).[c].

(** The local state of the ancestor of CPU [c] at level [l]. *)
Definition anc_state (s : psci_state) (c : Z) (l : nat) : option Z :=
  match anc (topo s) c l with
  | Some p => node_state s p
  | None => None
  end.

(** A request vector with one entry per level, and its values. *)
Definition wf_power_state `{PsciConfig} (st : psci_power_state_t) : Prop :=
  length (pds st) = S PLAT_MAX_PWR_LVL.

Lemma wf_power_state_lookup `{PsciConfig} st l :
  wf_power_state st -> (l <= PLAT_MAX_PWR_LVL)%nat -> exists v, pds st !! l = Some v.
Proof. intros Hst Hl. apply lookup_lt_is_Some. rewrite Hst. lia. Qed.

Lemma pds_set_eq st l v :
  (l < length (pds st))%nat -> pds (set_pd_state st l v) !! l = Some v.
Proof. intros Hl. by apply list_lookup_insert_eq. Qed.

Lemma pds_set_ne st l l' v : l <> l' -> pds (set_pd_state st l v) !! l' = pds st !! l'.
Proof. intros Hne. by apply list_lookup_insert_ne. Qed.

Lemma length_pds_set st l v : length (pds (set_pd_state st l v)) = length (pds st).
Proof. apply length_insert. Qed.

Lemma write_pd_state_run st l v s :
  (l < length (pds st))%nat -> write_pd_state st l v s = Done (set_pd_state st l v) s.
Proof.
  intros Hl. apply lookup_lt_is_Some in Hl as [w Hw].
  unfold write_pd_state, bind, pds in *. by rewrite Hw.
Qed.

Lemma pd_state_run st l v s : pds st !! l = Some v -> pd_state st l s = Done v s.
Proof. intros Hv. unfold pd_state, pds in *. by rewrite Hv. Qed.

(** ** Exact effect of the elementary writes *)

Definition vote (l : nat) (c v : Z) (reqs : list (list Z)) : list (list Z) :=
  alter (fun row => zupdate row c v) (l - 1)%nat reqs.

Section Primitives.
Context `{Cfg : PsciConfig} `{Plat : Platform}.

Lemma set_req_run s l c v :
  wf_topo (topo s) -> valid_cpu (topo s) c -> valid_lvl l ->
  psci_set_req_local_pwr_state l c v s =
  Done tt (set_req (vote l c v (psci_req_local_pwr_states s)) s).
Proof.
  intros Hwf Hc Hl. destruct (wf_req_row s l Hwf Hl) as (row & Hrow & Hlen).
  unfold valid_cpu, valid_lvl in *. simpl in Hc, Hlen.
  destruct (proj2 (zlookup_lt_is_Some row c)) as [old Hold]; [lia|].
  unfold psci_set_req_local_pwr_state, assert_, bind, gets, when, PSCI_CPU_PWR_LVL.
  rewrite (proj2 (Nat.ltb_lt 0 l)) by lia. rewrite andb_false_r. simpl.
  rewrite (proj2 (Nat.leb_le l _)), (proj2 (Z.ltb_lt c _)) by lia. simpl.
  rewrite Hrow. simpl. rewrite Hold. simpl.
  unfold modify, vote. do 2 f_equal.
  apply list_eq. intros i. destruct (decide (i = (l - 1)%nat)) as [->|Hne].
  - rewrite list_lookup_alter_eq, Hrow.
    apply list_lookup_insert_eq. by eapply lookup_lt_Some.
  - by rewrite list_lookup_alter_ne, list_lookup_insert_ne.
Qed.

Lemma topo_vote s l c v :
  topo (set_req (vote l c v (psci_req_local_pwr_states s)) s) = topo s.
Proof.
  unfold topo, vote. simpl. f_equal.
  apply list_eq. intros i. rewrite !list_lookup_fmap.
  destruct (decide (i = (l - 1)%nat)) as [->|Hne].
  - rewrite list_lookup_alter_eq. destruct (_ !! _); [|done]. simpl. by rewrite length_zupdate.
  - by rewrite list_lookup_alter_ne.
Qed.

(** The request table after a vote: own entry at that level only. *)
Lemma req_state_vote s l l' c c' v :
  wf_topo (topo s) -> valid_cpu (topo s) c -> valid_lvl l -> valid_lvl l' ->
  req_state (set_req (vote l c v (psci_req_local_pwr_states s)) s) l' c' =
  if decide (l' = l /\ c' = c) then Some v else req_state s l' c'.
Proof.
  intros Hwf Hc Hl Hl'. unfold req_state, vote. simpl. unfold valid_lvl in *.
  destruct (wf_req_row s l Hwf Hl) as (row & Hrow & Hlen). unfold valid_cpu in Hc. simpl in *.
  destruct (decide (l' = l)) as [->|Hne].
  - rewrite list_lookup_alter_eq, Hrow. simpl.
    destruct (decide (c' = c)) as [->|Hcc].
    + rewrite decide_True by done. apply zlookup_zupdate_eq. lia.
    + rewrite decide_False by tauto. by apply zlookup_zupdate_ne.
  - rewrite decide_False by tauto. rewrite list_lookup_alter_ne by lia. done.
Qed.

Lemma set_local_state_run s p nd v :
  (psci_non_cpu_pd_nodes s).[p] = Some nd ->
  set_non_cpu_pd_node_local_state p v s =
  Done tt (set_nodes (zupdate (psci_non_cpu_pd_nodes s) p (with_local_state v nd)) s).
Proof.
  intros Hn. unfold set_non_cpu_pd_node_local_state, write_non_cpu_node, non_cpu_node, bind.
  by rewrite Hn.
Qed.

Lemma node_state_set s p q nd v :
  (psci_non_cpu_pd_nodes s).[p] = Some nd ->
  node_state (set_nodes (zupdate (psci_non_cpu_pd_nodes s) p (with_local_state v nd)) s) q =
  if decide (q = p) then Some v else node_state s q.
Proof.
  intros Hn. unfold node_state. simpl. destruct (decide (q = p)) as [->|Hne].
  - rewrite zlookup_zupdate_eq; [done|]. by eapply zlookup_lt_Some.
  - by rewrite zlookup_zupdate_ne.
Qed.

Lemma write_cpu_data_run s c d f :
  (psci_svc_cpu_data s).[c] = Some d ->
  write_cpu_data c f s = Done tt (set_cpu_data (zupdate (psci_svc_cpu_data s) c (f d)) s).
Proof. intros Hd. unfold write_cpu_data, cpu_data, bind. by rewrite Hd. Qed.

Lemma cpu_node_run s c nd : (psci_cpu_pd_nodes s).[c] = Some nd -> cpu_node c s = Done nd s.
Proof. intros Hn. unfold cpu_node. by rewrite Hn. Qed.

Lemma non_cpu_node_run s p nd :
  (psci_non_cpu_pd_nodes s).[p] = Some nd -> non_cpu_node p s = Done nd s.
Proof. intros Hn. unfold non_cpu_node. by rewrite Hn. Qed.

Lemma aff_run s c d :
  (psci_svc_cpu_data s).[c] = Some d ->
  psci_get_aff_info_state_by_idx c s = Done (aff_info_state d) s.
Proof. intros Hd. unfold psci_get_aff_info_state_by_idx, cpu_data, bind. by rewrite Hd. Qed.
End Primitives.

(** ** Specification of the coordination *)

(** The request table after CPU [c] has voted [st] at levels 1 to [n]. *)
Fixpoint votes (c : Z) (st : psci_power_state_t) (n : nat) (reqs : list (list Z)) : list (list Z) :=
  match n with
  | O => reqs
  | S n' =>
      match pds st !! n with
      | Some v => vote n c v (votes c st n' reqs)
      | None => votes c st n' reqs
      end
  end.

Definition voted (c : Z) (st : psci_power_state_t) (n : nat) (s : psci_state) : psci_state :=
  set_req (votes c st n (psci_req_local_pwr_states s)) s.

(** The requests of all the CPUs of the domain of [c] at level [l], and the
    state the platform coordinates from them. *)
Definition domain_requests (s : psci_state) (c : Z) (l : nat) : option (list Z) :=
  match anc (topo s) c l, psci_req_local_pwr_states s !! (l - 1)%nat with
  | Some p, Some row =>
      match (psci_non_cpu_pd_nodes s).[p] with
      | Some nd => zslice row (cpu_start_idx nd) (ncpus nd)
      | None => None
      end
  | _, _ => None
  end.

Section Coordination.
Context `{Cfg : PsciConfig} `{Plat : Platform}.

Definition coord_target (s : psci_state) (c : Z) (l : nat) : option Z :=
  match domain_requests s c l with
  | Some rs => plat_get_target_pwr_state l rs
  | None => None
  end.

(** Whether the domain of [c] at level [l] may leave the RUN state. *)
Definition asleep (s : psci_state) (c : Z) (l : nat) : bool :=
  match coord_target s c l with
  | Some v => negb (is_local_state_run v)
  | None => false
  end.

(** The state of level [l]: RUN above a level that keeps running. *)
Definition coord_state (s : psci_state) (c : Z) (l : nat) : option Z :=
  if forallb (asleep s c) (seq 1 (l - 1)) then coord_target s c l
  else Some PSCI_LOCAL_STATE_RUN.

Lemma topo_voted s c st n : topo (voted c st n s) = topo s.
Proof.
  unfold voted. induction n as [|n IH]; cbn [votes].
  - by destruct s.
  - destruct (pds st !! S n); [|done]. rewrite <- IH.
    apply (topo_vote (set_req (votes c st n (psci_req_local_pwr_states s)) s)).
Qed.

Lemma votes_row c st n l reqs :
  (1 <= l <= n)%nat -> votes c st n reqs !! (l - 1)%nat = votes c st l reqs !! (l - 1)%nat.
Proof.
  induction n as [|n IH]; intros Hl; [lia|].
  destruct (decide (l = S n)) as [->|Hne]; [done|].
  rewrite <- IH by lia. cbn [votes]. destruct (pds st !! S n); [|done].
  unfold vote. apply list_lookup_alter_ne. lia.
Qed.

Lemma coord_target_voted s c st n l :
  (1 <= l <= n)%nat -> coord_target (voted c st n s) c l = coord_target (voted c st l s) c l.
Proof.
  intros Hl. unfold coord_target, domain_requests. rewrite !topo_voted.
  unfold voted. simpl. by rewrite votes_row.
Qed.

Lemma asleep_voted s c st n l :
  (1 <= l <= n)%nat -> asleep (voted c st n s) c l = asleep (voted c st l s) c l.
Proof. intros Hl. unfold asleep. by rewrite coord_target_voted. Qed.

(** The slice read for the domain of a valid CPU exists and is not empty. *)
Lemma domain_requests_some s c l :
  wf_topo (topo s) -> valid_cpu (topo s) c -> valid_lvl l ->
  exists p nd row rs, anc (topo s) c l = Some p /\ (psci_non_cpu_pd_nodes s).[p] = Some nd /\
    psci_req_local_pwr_states s !! (l - 1)%nat = Some row /\
    zslice row (cpu_start_idx nd) (ncpus nd) = Some rs /\
    domain_requests s c l = Some rs /\ rs <> [] /\
    cpu_start_idx nd < t_cores (topo s).
Proof.
  intros Hwf Hc Hl.
  destruct (wf_anc s c l Hwf Hc Hl) as (p & nd & Hp & Hnd & _ & _ & Hcov & H0 & Hend).
  destruct (wf_req_row s l Hwf Hl) as (row & Hrow & Hlen).
  assert (zslice row (cpu_start_idx nd) (ncpus nd) =
          Some (take (Z.to_nat (ncpus nd)) (drop (Z.to_nat (cpu_start_idx nd)) row))) as Hsl.
  { unfold zslice, node_covers in *.
    rewrite (proj2 (Z.leb_le 0 _)), (proj2 (Z.leb_le 0 _)), (proj2 (Z.leb_le _ _)) by lia. done. }
  eexists p, nd, row, _. split_and!; try done.
  - unfold domain_requests. by rewrite Hp, Hrow, Hnd.
  - intros Hnil. apply (f_equal length) in Hnil. unfold node_covers in Hcov.
    rewrite length_take, length_drop in Hnil. simpl in Hnil. lia.
  - unfold node_covers, valid_cpu in *. lia.
Qed.

(** The platform's part of the contract used here: it answers whenever it is
    given at least one request. *)
Context (target_total : forall l rs, rs <> [] -> is_Some (plat_get_target_pwr_state l rs)).

Lemma coordination_body_run s c st k p a v :
  wf_topo (topo s) -> valid_cpu (topo s) c -> valid_lvl k -> anc (topo s) c k = Some p ->
  (k < length (pds a))%nat -> pds a !! k = Some v -> pds st !! k = Some v ->
  exists w, coord_target (voted c st k s) c k = Some w /\
    coordination_body c k p a (voted c st (k - 1) s) =
    Done (is_local_state_run w, set_pd_state a k w) (voted c st k s).
Proof.
  intros Hwf Hc Hk Hp Hlen Hv Hstv.
  assert (voted c st k s = set_req (vote k c v (psci_req_local_pwr_states (voted c st (k - 1) s)))
            (voted c st (k - 1) s)) as Hvoted.
  { unfold voted, valid_lvl in *. destruct k as [|k]; [lia|].
    simpl. rewrite Hstv. by rewrite Nat.sub_0_r. }
  assert (topo (voted c st (k - 1) s) = topo s) as Ht by apply topo_voted.
  destruct (domain_requests_some (voted c st k s) c k) as
    (q & nd & row & rs & Hq & Hnd & Hrow & Hsl & Hdr & Hne & Hst); rewrite ?topo_voted; try done.
  destruct (target_total k rs Hne) as [w Hw].
  exists w. split; [unfold coord_target; by rewrite Hdr|].
  rewrite topo_voted in Hq, Hst. assert (q = p) as -> by congruence.
  unfold coordination_body, bind. rewrite (pd_state_run _ _ _ _ Hv).
  rewrite set_req_run, <- Hvoted by (rewrite ?Ht; done).
  rewrite (non_cpu_node_run _ _ _ Hnd).
  unfold psci_get_req_local_pwr_states, assert_, bind, gets, PSCI_CPU_PWR_LVL. unfold valid_lvl in Hk.
  rewrite (proj2 (Nat.ltb_lt 0 k)) by lia. rewrite andb_false_r. simpl.
  rewrite (proj2 (Nat.leb_le k _)) by lia. simpl in Hst.
  rewrite (proj2 (Z.ltb_lt _ _)) by lia. simpl.
  unfold read_req_states, bind, gets. simpl. unfold voted in Hrow. simpl in Hrow.
  rewrite Hrow. simpl. rewrite Hsl. simpl. rewrite Hw.
  by rewrite write_pd_state_run.
Qed.

(** What [state_info] holds after the levels below [k] have been negotiated,
    all of them to a low power state. *)
Record negotiated (s : psci_state) (c : Z) (st : psci_power_state_t) (k : nat)
    (a : psci_power_state_t) : Prop := {
  ng_length : length (pds a) = S PLAT_MAX_PWR_LVL;
  ng_last : last_at_pwrlvl a = last_at_pwrlvl st;
  ng_todo : forall l, (l = 0 \/ k <= l)%nat -> pds a !! l = pds st !! l;
  ng_done : forall l, (1 <= l < k)%nat ->
    exists v, coord_target (voted c st l s) c l = Some v /\ is_local_state_run v = false /\
      pds a !! l = Some v
}.

Lemma negotiated_step s c st k a w :
  negotiated s c st k a -> (1 <= k <= PLAT_MAX_PWR_LVL)%nat ->
  coord_target (voted c st k s) c k = Some w -> is_local_state_run w = false ->
  negotiated s c st (S k) (set_pd_state a k w).
Proof.
  intros [Hlen Hlast Htodo Hdone] Hk Hw Hrun. split.
  - by rewrite length_pds_set.
  - done.
  - intros l Hl. rewrite pds_set_ne by lia. apply Htodo. lia.
  - intros l Hl. destruct (decide (l = k)) as [->|Hne].
    + exists w. rewrite pds_set_eq by lia. done.
    + rewrite pds_set_ne by lia. apply Hdone. lia.
Qed.

Lemma forallb_asleep_true s c st n l :
  (forall k, (1 <= k < l)%nat -> asleep (voted c st k s) c k = true) -> (l <= S n)%nat ->
  forallb (asleep (voted c st n s) c) (seq 1 (l - 1)) = true.
Proof.
  intros Hk Hln. apply forallb_forall. intros k Hin. apply in_seq in Hin.
  rewrite asleep_voted by lia. apply Hk. lia.
Qed.

Lemma forallb_asleep_false s c st n k l :
  asleep (voted c st k s) c k = false -> (1 <= k < l)%nat -> (k <= n)%nat ->
  forallb (asleep (voted c st n s) c) (seq 1 (l - 1)) = false.
Proof.
  intros Hk Hl Hn. apply not_true_iff_false. intros Hall.
  rewrite forallb_forall in Hall. specialize (Hall k).
  rewrite asleep_voted, Hk in Hall by lia. discriminate Hall. apply in_seq. lia.
Qed.

(** The second loop: the remaining levels vote and are left running. *)
Lemma coordination_rest_spec s c st k a end_lvl :
  wf_topo (topo s) -> valid_cpu (topo s) c -> (end_lvl <= PLAT_MAX_PWR_LVL)%nat ->
  length (pds a) = S PLAT_MAX_PWR_LVL ->
  (1 <= k <= S end_lvl)%nat ->
  (forall l, (k < l)%nat -> pds a !! l = pds st !! l) -> wf_power_state st ->
  wpd (coordination_rest (seq (S k) (end_lvl - k)) c a)
    (fun a' s' => s' = voted c st (Nat.max k end_lvl) s /\
       length (pds a') = S PLAT_MAX_PWR_LVL /\ last_at_pwrlvl a' = last_at_pwrlvl a /\
       forall l, pds a' !! l =
         if decide (k < l <= end_lvl)%nat then Some PSCI_LOCAL_STATE_RUN else pds a !! l)
    (voted c st k s).
Proof.
  intros Hwf Hc He Hlen Hk Htodo Hst. unfold coordination_rest.
  eapply wp_mono.
  - apply (wp_fold_each _ _ (fun done a' s' =>
      s' = voted c st (k + length done) s /\
      length (pds a') = S PLAT_MAX_PWR_LVL /\ last_at_pwrlvl a' = last_at_pwrlvl a /\
      forall l, pds a' !! l =
        if decide (k < l <= k + length done)%nat then Some PSCI_LOCAL_STATE_RUN else pds a !! l)).
    + rewrite Nat.add_0_r. split_and!; try done.
      intros l. by rewrite decide_False by lia.
    + intros done x a' s' [todo Hseq] (-> & Hl' & Hlast' & Ha').
      assert (x = S (k + length done))%nat as ->.
      { apply (f_equal (lookup (length done))) in Hseq.
        rewrite lookup_app_r, Nat.sub_diag in Hseq by lia. simpl in Hseq.
        apply lookup_seq in Hseq. lia. }
      assert (length done < end_lvl - k)%nat as Hd.
      { apply (f_equal length) in Hseq. rewrite length_seq, length_app in Hseq. simpl in Hseq. lia. }
      destruct (wf_power_state_lookup st (S (k + length done)) Hst) as [v Hv]; [lia|].
      assert (pds a' !! (S (k + length done)) = Some v) as Hv'.
      { rewrite Ha', decide_False, Htodo by lia. done. }
      eapply wp_bind_exact; [by apply pd_state_run|].
      eapply wp_bind_exact.
      { apply set_req_run; rewrite ?topo_voted; try done. split; lia. }
      eapply wp_exact; [apply write_pd_state_run; lia|].
      rewrite length_app, length_pds_set. simpl.
      replace (k + (length done + 1))%nat with (S (k + length done)) by lia.
      split_and!; try done.
      * unfold voted. simpl. by rewrite Hv.
      * intros l. destruct (decide (l = S (k + length done))) as [->|Hne].
        -- rewrite pds_set_eq, decide_True by lia. done.
        -- rewrite pds_set_ne, Ha' by lia.
           destruct (decide (k < l <= k + length done)%nat).
           ++ by rewrite decide_True by lia.
           ++ by rewrite decide_False by lia.
  - intros a' s' (-> & ? & ? & Ha'). rewrite length_seq in *. split_and!; try done.
    + f_equal. lia.
    + intros l. rewrite Ha'. destruct (decide (k < l <= end_lvl)%nat).
      * by rewrite decide_True by lia.
      * by rewrite decide_False by lia.
  - done.
Qed.

(** The result of coordination, level by level. *)
Record coordinated (s' : psci_state) (c : Z) (end_lvl : nat) (st st' : psci_power_state_t) : Prop := {
  co_wf : wf_power_state st';
  co_last : last_at_pwrlvl st' = last_at_pwrlvl st;
  co_cpu : pds st' !! 0%nat = pds st !! 0%nat;
  co_above : forall l, (end_lvl < l)%nat -> pds st' !! l = pds st !! l;
  co_level : forall l, (1 <= l <= end_lvl)%nat -> pds st' !! l = coord_state s' c l
}.

(** All levels were negotiated to a low power state. *)
Lemma coordinated_full s c end_lvl st a :
  wf_power_state st -> (end_lvl <= PLAT_MAX_PWR_LVL)%nat -> negotiated s c st (S end_lvl) a ->
  coordinated (voted c st end_lvl s) c end_lvl st a.
Proof.
  intros Hst He [Hlen Hlast Htodo Hdone]. split; try done.
  - apply Htodo. lia.
  - intros l Hl. apply Htodo. lia.
  - intros l Hl. destruct (Hdone l) as (v & Hv & Hrun & Ha); [lia|].
    unfold coord_state. rewrite forallb_asleep_true; [|intros k Hk|lia].
    + rewrite coord_target_voted by lia. congruence.
    + destruct (Hdone k) as (w & Hw & Hrw & _); [lia|].
      unfold asleep. by rewrite Hw, Hrw.
Qed.

(** Level [k] has to keep running, and every level above it with it. *)
Lemma coordinated_break s c end_lvl st k a w a' :
  wf_power_state st -> (1 <= k <= end_lvl)%nat -> (end_lvl <= PLAT_MAX_PWR_LVL)%nat ->
  negotiated s c st k a ->
  coord_target (voted c st k s) c k = Some w -> is_local_state_run w = true ->
  length (pds a') = S PLAT_MAX_PWR_LVL -> last_at_pwrlvl a' = last_at_pwrlvl st ->
  (forall l, pds a' !! l =
     if decide (k < l <= end_lvl)%nat then Some PSCI_LOCAL_STATE_RUN
     else pds (set_pd_state a k w) !! l) ->
  coordinated (voted c st end_lvl s) c end_lvl st a'.
Proof.
  intros Hst Hk He [Hlen Hlast Htodo Hdone] Hw Hrun Hlen' Hlast' Ha'.
  assert (forall j, (1 <= j < k)%nat -> asleep (voted c st j s) c j = true) as Has.
  { intros j Hj. destruct (Hdone j) as (v & Hv & Hrv & _); [lia|].
    unfold asleep. by rewrite Hv, Hrv. }
  split; try done.
  - rewrite Ha', decide_False, pds_set_ne by lia. apply Htodo. lia.
  - intros l Hl. rewrite Ha', decide_False, pds_set_ne by lia. apply Htodo. lia.
  - intros l Hl. rewrite Ha'. unfold coord_state.
    destruct (decide (k < l <= end_lvl)%nat) as [Hlt|Hge].
    + rewrite (forallb_asleep_false s c st end_lvl k l); [done| |lia|lia].
      unfold asleep. by rewrite Hw, Hrun.
    + rewrite forallb_asleep_true; [|intros j Hj; apply Has; lia|lia].
      rewrite coord_target_voted by lia. destruct (decide (l = k)) as [->|Hne].
      * rewrite pds_set_eq by lia. done.
      * rewrite pds_set_ne by lia. destruct (Hdone l) as (v & Hv & _ & Hav); [lia|]. congruence.
Qed.

(** Coordination returns, records exactly the votes of [c], and its result is
    the specified one. *)
Lemma coordination_spec s c end_lvl st :
  wf_topo (topo s) -> valid_cpu (topo s) c -> wf_power_state st ->
  (end_lvl <= PLAT_MAX_PWR_LVL)%nat ->
  exists st', psci_do_state_coordination c end_lvl st s = Done st' (voted c st end_lvl s) /\
    coordinated (voted c st end_lvl s) c end_lvl st st'.
Proof.
  intros Hwf Hc Hst He.
  cut (wpd (psci_do_state_coordination c end_lvl st)
        (fun st' s' => s' = voted c st end_lvl s /\
           coordinated (voted c st end_lvl s) c end_lvl st st') s).
  { intros (a & s' & Hrun & -> & ?)%wpd_done. eauto. }
  destruct (wf_cpu_node s c Hwf Hc) as [nd Hnd].
  unfold psci_do_state_coordination.
  apply wp_bind, wp_assert; [by apply Nat.leb_le|].
  eapply wp_bind_exact; [by apply cpu_node_run|].
  apply wp_bind. eapply wp_mono.
  - apply (wp_walk_up (topo s) c _
      (fun k a s' => s' = voted c st (k - 1) s /\ negotiated s c st k a)
      (fun k a' s' => s' = voted c st k s /\ exists a w, a' = set_pd_state a k w /\
         negotiated s c st k a /\ coord_target (voted c st k s) c k = Some w /\
         is_local_state_run w = true)); try done; [lia|by apply anc_1| |].
    + split; [by destruct s|]. split; try done. intros; lia.
    + intros k q a s' Hk Hq Ht (-> & Hng).
      destruct (wf_power_state_lookup st k Hst) as [v Hv]; [lia|].
      destruct (coordination_body_run s c st k q a v) as (w & Hw & Hrun); try done.
      { split; lia. }
      { rewrite (ng_length _ _ _ _ _ Hng). lia. }
      { rewrite (ng_todo _ _ _ _ _ Hng) by lia. done. }
      eapply wp_exact; [exact Hrun|]. cbn [fst snd]. split; [apply topo_voted|].
      destruct (is_local_state_run w) eqn:Hrw.
      * split; [done|]. eauto 10.
      * replace (S k - 1)%nat with k by lia. split; [done|]. apply negotiated_step; auto. lia.
  - intros r s' [Ht [(Hf & -> & Hng)|(k & Hk & Hf & -> & a & w & Hr & Hng & Hw & Hrw)]].
    + rewrite Hf. replace (S end_lvl - S (1 + end_lvl))%nat with 0%nat by lia.
      apply wp_ret. replace (1 + end_lvl - 1)%nat with end_lvl by lia. split; [done|].
      by apply coordinated_full.
    + rewrite Hf. simpl. rewrite Hr. eapply wp_mono; [apply coordination_rest_spec| |done]; auto.
      * rewrite length_pds_set. apply (ng_length _ _ _ _ _ Hng).
      * lia.
      * intros l Hl. rewrite pds_set_ne by lia. apply (ng_todo _ _ _ _ _ Hng). lia.
      * intros a' s' (-> & Hlen' & Hlast' & Ha'). replace (Nat.max k end_lvl) with end_lvl by lia.
        split; [done|]. eapply coordinated_break; eauto; [lia|].
        rewrite Hlast'. apply (ng_last _ _ _ _ _ Hng).
  - done.
Qed.
End Coordination.
