(* ===== verification/PsciNodes.v ===== *)
(** * PSCI: reading and writing the states of a CPU's power domains

    Exact results of [psci_set_target_local_pwr_states],
    [psci_get_target_local_pwr_states], [psci_set_pwr_domains_to_run],
    [psci_get_parent_pwr_domain_nodes] and the power domain locks on a
    well-formed tree. *)

From stdpp Require Import list_numbers.
From S2P Require Import Prelude PsciTypes PsciCommon PsciTopology PsciCoord.
#[local] Open Scope cmd_scope.

(** The node array after the ancestors of [c] at levels 1 to [n] entered the
    states of [st]. *)
Definition enter_one (p v : Z) (ns : list non_cpu_pd_node_t) : list non_cpu_pd_node_t :=
  match ns.[p] with
  | Some nd => zupdate ns p (with_local_state v nd)
  | None => ns
  end.

Fixpoint enter (t : topology) (c : Z) (st : psci_power_state_t) (n : nat)
    (ns : list non_cpu_pd_node_t) : list non_cpu_pd_node_t :=
  match n with
  | O => ns
  | S n' =>
      match anc t c n, pds st !! n with
      | Some p, Some v => enter_one p v (enter t c st n' ns)
      | _, _ => enter t c st n' ns
      end
  end.

Lemma length_enter t c st n ns : length (enter t c st n ns) = length ns.
Proof.
  induction n as [|n IH]; [done|]. cbn [enter].
  destruct (anc t c (S n)), (pds st !! S n); try done.
  unfold enter_one. destruct (_.[_]); [|done]. by rewrite length_zupdate.
Qed.

Lemma enter_one_state p v ns q :
  local_state <$> (enter_one p v ns).[q] =
  if decide (q = p /\ is_Some (ns.[p])) then Some v else local_state <$> ns.[q].
Proof.
  unfold enter_one. destruct (ns.[p]) as [nd|] eqn:Hp.
  - rewrite (zlookup_zupdate _ _ _ _ _ Hp). destruct (decide (p = q)) as [->|Hne].
    + by rewrite decide_True by eauto.
    + rewrite decide_False; [done|]. intros [-> _]. done.
  - rewrite decide_False; [done|]. intros [_ [? ?]]. done.
Qed.

Lemma enter_erase t c st n ns :
  with_local_state 0 <$> enter t c st n ns = with_local_state 0 <$> ns.
Proof.
  induction n as [|n IH]; [done|]. cbn [enter].
  destruct (anc t c (S n)) as [p|], (pds st !! S n); try done.
  unfold enter_one. destruct ((enter t c st n ns).[p]) as [nd|] eqn:Hp; [|done].
  rewrite zupdate_fmap. rewrite zupdate_id; [done|].
  rewrite zlookup_fmap, Hp. done.
Qed.

Lemma topo_enter s t c st n :
  topo (set_nodes (enter t c st n (psci_non_cpu_pd_nodes s)) s) = topo s.
Proof. unfold topo. simpl. by rewrite enter_erase. Qed.

Lemma enter_lookup_some t c st n ns p : is_Some ((enter t c st n ns).[p]) <-> is_Some (ns.[p]).
Proof. by rewrite !zlookup_lt_is_Some, length_enter. Qed.

Section Nodes.
Context `{Cfg : PsciConfig} `{Plat : Platform}.

(** States of the nodes after [enter]. *)
Lemma enter_other t c st n ns p :
  (forall l, (1 <= l <= n)%nat -> anc t c l <> Some p) ->
  local_state <$> (enter t c st n ns).[p] = local_state <$> ns.[p].
Proof.
  induction n as [|n IH]; intros Hp; [done|]. cbn [enter].
  rewrite <- IH by (intros; apply Hp; lia).
  destruct (anc t c (S n)) as [q|] eqn:Hq; [|done].
  destruct (pds st !! S n); [|done].
  rewrite enter_one_state, decide_False; [done|].
  intros [-> _]. apply (Hp (S n)); [lia|done].
Qed.

Lemma enter_at t c st n ns l p v :
  wf_topo t -> valid_cpu t c -> (n <= PLAT_MAX_PWR_LVL)%nat -> (1 <= l <= n)%nat ->
  with_local_state 0 <$> ns = t_nodes t ->
  anc t c l = Some p -> pds st !! l = Some v ->
  local_state <$> (enter t c st n ns).[p] = Some v.
Proof.
  intros Hwf Hc Hn Hl Hns Hp Hv. induction n as [|n IH]; [lia|].
  cbn [enter]. destruct (decide (l = S n)) as [->|Hne].
  - rewrite Hp, Hv, enter_one_state, decide_True; [done|]. split; [done|].
    apply enter_lookup_some. apply zlookup_lt_is_Some.
    destruct (wt_anc t Hwf c (S n) Hc) as (q & nd & Hq & Hnd & _); [lia|].
    assert (q = p) as -> by congruence. apply zlookup_lt_Some in Hnd.
    rewrite <- Hns, length_fmap in Hnd. done.
  - rewrite <- IH by lia. destruct (anc t c (S n)) as [q|] eqn:Hq; [|done].
    destruct (pds st !! S n); [|done].
    rewrite enter_one_state, decide_False; [done|]. intros [-> _].
    apply Hne. eapply (anc_inj t c c l (S n)); eauto; split; lia.
Qed.

(** ** Writing *)

Definition set_cpu_state (c v : Z) (s : psci_state) : psci_state :=
  match (psci_svc_cpu_data s).[c] with
  | Some d => set_cpu_data (zupdate (psci_svc_cpu_data s) c (with_cpu_local_state v d)) s
  | None => s
  end.

Lemma topo_set_cpu_state c v s : topo (set_cpu_state c v s) = topo s.
Proof.
  unfold set_cpu_state. destruct (_.[c]) as [d|] eqn:Hd; [|done].
  by eapply topo_set_cpu_data.
Qed.

Lemma set_cpu_local_state_run s c v :
  wf_topo (topo s) -> valid_cpu (topo s) c ->
  psci_set_cpu_local_state c v s = Done tt (set_cpu_state c v s).
Proof.
  intros Hwf Hc. destruct (wf_cpu_data s c Hwf Hc) as [d Hd].
  unfold psci_set_cpu_local_state, set_cpu_state. rewrite Hd. by apply write_cpu_data_run.
Qed.

Definition entered (c : Z) (st : psci_power_state_t) (n : nat) (s : psci_state) : psci_state :=
  set_nodes (enter (topo s) c st n (psci_non_cpu_pd_nodes s)) s.

Lemma topo_entered c st n s : topo (entered c st n s) = topo s.
Proof. apply topo_enter. Qed.

(** One iteration: the ancestor at level [k] enters its state. *)
Lemma entered_step s c st k p v :
  wf_topo (topo s) -> valid_cpu (topo s) c -> valid_lvl k -> anc (topo s) c k = Some p ->
  pds st !! k = Some v ->
  set_non_cpu_pd_node_local_state p v (entered c st (k - 1) s) = Done tt (entered c st k s).
Proof.
  intros Hwf Hc Hk Hp Hv. destruct (wf_anc s c k Hwf Hc Hk) as (q & nd & Hq & Hnd & _).
  assert (q = p) as -> by congruence.
  destruct (proj2 (enter_lookup_some (topo s) c st (k - 1) (psci_non_cpu_pd_nodes s) p))
    as [nd' Hnd']; [eauto|].
  erewrite set_local_state_run by exact Hnd'. f_equal. unfold entered. simpl.
  destruct k as [|k]; [unfold valid_lvl in Hk; lia|]. cbn [enter]. rewrite Hp, Hv.
  replace (S k - 1)%nat with k in * by lia. unfold enter_one. by rewrite Hnd'.
Qed.

Lemma set_target_run s c end_lvl st v0 :
  wf_topo (topo s) -> valid_cpu (topo s) c -> wf_power_state st ->
  (end_lvl <= PLAT_MAX_PWR_LVL)%nat -> pds st !! 0%nat = Some v0 ->
  psci_set_target_local_pwr_states c end_lvl st s =
  Done tt (entered c st end_lvl (set_cpu_state c v0 s)).
Proof.
  intros Hwf Hc Hst He Hv0.
  set (s1 := set_cpu_state c v0 s). assert (topo s1 = topo s) as Ht by apply topo_set_cpu_state.
  cut (wpd (psci_set_target_local_pwr_states c end_lvl st)
         (fun _ s' => s' = entered c st end_lvl s1) s).
  { intros ([] & s' & -> & ->)%wpd_done. done. }
  unfold psci_set_target_local_pwr_states.
  eapply wp_bind_exact; [by apply pd_state_run|].
  eapply wp_bind_exact; [by apply set_cpu_local_state_run|]. fold s1.
  destruct (wf_cpu_node s1 c) as [nd Hnd]; [by rewrite Ht|by rewrite Ht|].
  eapply wp_bind_exact; [by apply cpu_node_run|].
  apply wp_bind. eapply wp_mono.
  - apply (wp_walk_from_cpu c _ (fun k _ s' => s' = entered c st (k - 1) s1));
      try (rewrite Ht; done); try done.
    + by destruct s1.
    + intros k q a s' Hk Hq Ht' ->.
      destruct (wf_power_state_lookup st k Hst) as [v Hv]; [lia|].
      eapply wp_bind_exact; [by apply pd_state_run|].
      eapply wp_bind_exact; [apply entered_step; rewrite ?Ht; eauto|].
      { split; lia. }
      { by rewrite <- Ht. }
      apply wp_ret. split; [done|]. split; [apply topo_entered|].
      by replace (S k - 1)%nat with k by lia.
  - intros r s' (_ & _ & ->). apply wp_ret. by replace (S end_lvl - 1)%nat with end_lvl by lia.
  - done.
Qed.

(** ** Waking up *)

Definition all_run : psci_power_state_t := {|
  pwr_domain_state := replicate (S PLAT_MAX_PWR_LVL) PSCI_LOCAL_STATE_RUN;
  last_at_pwrlvl := 0
|}.

Lemma all_run_lookup l :
  (l <= PLAT_MAX_PWR_LVL)%nat -> pds all_run !! l = Some PSCI_LOCAL_STATE_RUN.
Proof. intros Hl. unfold pds. apply lookup_replicate. split; [done|lia]. Qed.

Definition cpu_on_state (c : Z) (s : psci_state) : psci_state :=
  match (psci_svc_cpu_data s).[c] with
  | Some d => set_cpu_data (zupdate (psci_svc_cpu_data s) c
      (with_cpu_local_state PSCI_LOCAL_STATE_RUN (with_aff_info_state AFF_STATE_ON d))) s
  | None => s
  end.

Definition running (c : Z) (n : nat) (s : psci_state) : psci_state :=
  cpu_on_state c (voted c all_run n (entered c all_run n s)).

Lemma topo_running c n s : topo (running c n s) = topo s.
Proof.
  unfold running, cpu_on_state. destruct (_.[c]) as [d|] eqn:Hd.
  - erewrite topo_set_cpu_data by done. by rewrite topo_voted, topo_entered.
  - by rewrite topo_voted, topo_entered.
Qed.

Lemma set_run_run s c end_lvl :
  wf_topo (topo s) -> valid_cpu (topo s) c -> (end_lvl <= PLAT_MAX_PWR_LVL)%nat ->
  psci_set_pwr_domains_to_run c end_lvl s = Done tt (running c end_lvl s).
Proof.
  intros Hwf Hc He.
  cut (wpd (psci_set_pwr_domains_to_run c end_lvl) (fun _ s' => s' = running c end_lvl s) s).
  { intros ([] & s' & -> & ->)%wpd_done. done. }
  unfold psci_set_pwr_domains_to_run.
  destruct (wf_cpu_node s c Hwf Hc) as [nd Hnd].
  eapply wp_bind_exact; [by apply cpu_node_run|].
  apply wp_bind. eapply wp_mono.
  - apply (wp_walk_from_cpu c _
      (fun k _ s' => s' = voted c all_run (k - 1) (entered c all_run (k - 1) s))); try done.
    + by destruct s.
    + intros k q a s' Hk Hq Ht ->. assert (valid_lvl k) as Hvk by (split; lia).
      pose proof (all_run_lookup k) as Hrun.
      pose proof (entered_step s c all_run k q PSCI_LOCAL_STATE_RUN Hwf Hc Hvk Hq) as Hstep.
      eapply wp_bind_exact with (s' := voted c all_run (k - 1) (entered c all_run k s)).
      { unfold set_non_cpu_pd_node_local_state, write_non_cpu_node, non_cpu_node, bind in *.
        simpl in *. destruct (_.[q]); simpl in *; [|specialize (Hstep (Hrun ltac:(lia))); discriminate].
        unfold modify in *. simpl in *. unfold entered in *.
        specialize (Hstep (Hrun ltac:(lia))). injection Hstep as Hns. simpl in Hns.
        f_equal. unfold voted. simpl. by rewrite Hns. }
      eapply wp_bind_exact.
      { apply set_req_run; rewrite ?topo_voted, ?topo_entered; done. }
      apply wp_ret. split; [done|]. split.
      { rewrite topo_vote. by rewrite topo_voted, topo_entered. }
      replace (S k - 1)%nat with k by lia. unfold voted.
      destruct k as [|k]; [lia|]. cbn [votes]. rewrite Hrun by lia.
      by replace (S k - 1)%nat with k by lia.
  - intros r s' (_ & _ & ->). replace (S end_lvl - 1)%nat with end_lvl by lia.
    set (s2 := voted c all_run end_lvl (entered c all_run end_lvl s)).
    assert (topo s2 = topo s) as Ht by (unfold s2; by rewrite topo_voted, topo_entered).
    destruct (wf_cpu_data s2 c) as [d Hd]; [by rewrite Ht|by rewrite Ht|].
    eapply wp_bind_exact; [by apply write_cpu_data_run|].
    eapply wp_exact.
    { apply write_cpu_data_run. simpl. apply zlookup_zupdate_eq. by eapply zlookup_lt_Some. }
    unfold running, cpu_on_state. fold s2. rewrite Hd. simpl.
    unfold set_cpu_data. simpl. by rewrite zupdate_zupdate.
  - done.
Qed.

(** ** Reading *)

(** The result of [psci_get_target_local_pwr_states]. *)
Record read_states (s : psci_state) (c : Z) (end_lvl : nat) (st : psci_power_state_t) : Prop := {
  rs_wf : wf_power_state st;
  rs_cpu : pds st !! 0%nat = cpu_local_state <$> (psci_svc_cpu_data s).[c];
  rs_level : forall l, (1 <= l <= end_lvl)%nat -> pds st !! l = anc_state s c l;
  rs_above : forall l, (end_lvl < l <= PLAT_MAX_PWR_LVL)%nat ->
    pds st !! l = Some PSCI_LOCAL_STATE_RUN
}.

(** The trailing loop: levels from [k] on are set to RUN. *)
Lemma fill_run_spec s k st :
  wf_power_state st ->
  wpd (fold_each (seq k (S PLAT_MAX_PWR_LVL - k)) st (fun l ts =>
         write_pd_state ts l PSCI_LOCAL_STATE_RUN))
    (fun st' s' => s' = s /\ wf_power_state st' /\
       (forall l, (l < k)%nat -> pds st' !! l = pds st !! l) /\
       (forall l, (k <= l <= PLAT_MAX_PWR_LVL)%nat -> pds st' !! l = Some PSCI_LOCAL_STATE_RUN)) s.
Proof.
  intros Hst. eapply wp_mono.
  - apply (wp_fold_each _ _ (fun done st' s' => s' = s /\ wf_power_state st' /\
      (forall l, (l < k)%nat -> pds st' !! l = pds st !! l) /\
      (forall l, (k <= l < k + length done)%nat -> pds st' !! l = Some PSCI_LOCAL_STATE_RUN))).
    + split_and!; try done. simpl. intros; lia.
    + intros done x st' s' [todo Hseq] (-> & Hwf & Hlow & Hhigh).
      assert (x = k + length done /\ x < S PLAT_MAX_PWR_LVL)%nat as [-> Hx].
      { apply (f_equal (lookup (length done))) in Hseq.
        rewrite lookup_app_r, Nat.sub_diag in Hseq by lia. simpl in Hseq.
        apply lookup_seq in Hseq. lia. }
      eapply wp_exact; [apply write_pd_state_run; rewrite Hwf; lia|].
      rewrite length_app. unfold wf_power_state in *. rewrite length_pds_set. cbn [length].
      split_and!; try done.
      * intros l Hl. rewrite pds_set_ne by lia. by apply Hlow.
      * intros l Hl. destruct (decide (l = k + length done)%nat) as [->|Hne].
        -- apply pds_set_eq. rewrite Hwf. lia.
        -- rewrite pds_set_ne by lia. apply Hhigh. lia.
  - intros st' s' (-> & Hwf & Hlow & Hhigh). rewrite length_seq in Hhigh.
    split_and!; try done. intros l Hl. apply Hhigh. lia.
  - done.
Qed.

Lemma get_target_run s c end_lvl st0 :
  wf_topo (topo s) -> valid_cpu (topo s) c -> wf_power_state st0 ->
  (end_lvl <= PLAT_MAX_PWR_LVL)%nat ->
  exists st, psci_get_target_local_pwr_states c end_lvl st0 s = Done st s /\
    read_states s c end_lvl st.
Proof.
  intros Hwf Hc Hst0 He.
  cut (wpd (psci_get_target_local_pwr_states c end_lvl st0)
         (fun st s' => s' = s /\ read_states s c end_lvl st) s).
  { intros (st & s' & Hrun & -> & ?)%wpd_done. eauto. }
  destruct (wf_cpu_data s c Hwf Hc) as [d Hd]. destruct (wf_cpu_node s c Hwf Hc) as [nd Hnd].
  unfold psci_get_target_local_pwr_states.
  eapply wp_bind_exact.
  { unfold psci_get_cpu_local_state_by_idx, cpu_data, bind. by rewrite Hd. }
  eapply wp_bind_exact; [apply write_pd_state_run; unfold PSCI_CPU_PWR_LVL; rewrite Hst0; lia|].
  eapply wp_bind_exact; [by apply cpu_node_run|].
  apply wp_bind. eapply wp_mono.
  - apply (wp_walk_from_cpu c _ (fun k ts s' => s' = s /\ wf_power_state ts /\
      pds ts !! 0%nat = Some (cpu_local_state d) /\
      forall l, (1 <= l < k)%nat -> pds ts !! l = anc_state s c l)); try done.
    + unfold wf_power_state, PSCI_CPU_PWR_LVL. rewrite length_pds_set.
      split_and!; try done; [|intros; lia]. apply pds_set_eq. rewrite Hst0. lia.
    + intros k q ts s' Hk Hq _ (-> & Hts & H0 & Hl).
      destruct (wf_anc s c k Hwf Hc) as (p & n & Hp & Hn & _); [split; lia|].
      assert (p = q) as -> by congruence.
      eapply wp_bind_exact.
      { unfold get_non_cpu_pd_node_local_state, bind. by rewrite (non_cpu_node_run _ _ _ Hn). }
      eapply wp_bind_exact; [apply write_pd_state_run; rewrite Hts; lia|].
      apply wp_ret. cbn [fst snd]. unfold wf_power_state. rewrite length_pds_set.
      split_and!; try done.
      * rewrite pds_set_ne by lia. done.
      * intros l Hlk. destruct (decide (l = k)) as [->|Hne].
        -- rewrite pds_set_eq by (rewrite Hts; lia).
           unfold anc_state, node_state. by rewrite Hq, Hn.
        -- rewrite pds_set_ne by lia. apply Hl. lia.
  - intros [lvl ts] s' (_ & Hf & -> & Hts & H0 & Hl). cbn [fst snd] in *. rewrite Hf.
    eapply wp_mono; [by apply fill_run_spec| |done].
    intros st' s' (-> & Hwf' & Hlow & Hhigh). split; [done|]. split; try done.
    + rewrite Hlow by lia. rewrite Hd. done.
    + intros l Hl'. rewrite Hlow by lia. apply Hl. lia.
  - done.
Qed.

(** ** Parent nodes and locks *)

(** The ancestors of [c] at levels 1 to [n], lowest first. *)
Definition path (t : topology) (c : Z) (n : nat) : list Z := omap (anc t c) (seq 1 n).

Lemma path_snoc t c n p :
  anc t c (S n) = Some p -> path t c (S n) = path t c n ++ [p].
Proof.
  intros Hp. unfold path. rewrite seq_S, omap_app. change (1 + n)%nat with (S n).
  cbn [omap list_omap]. by rewrite Hp.
Qed.

Lemma path_linked t c n :
  linked t c -> (n <= PLAT_MAX_PWR_LVL)%nat ->
  length (path t c n) = n /\
  forall l, (1 <= l <= n)%nat -> path t c n !! (l - 1)%nat = anc t c l.
Proof.
  intros Hlk. induction n as [|n IH]; intros Hn.
  - split; [done|]. intros; lia.
  - destruct (Hlk (S n)) as (p & nd & Hp & _); [split; lia|].
    destruct IH as [Hlen Hl]; [lia|]. rewrite (path_snoc _ _ _ _ Hp).
    split; [rewrite length_app; simpl; lia|].
    intros l Hl'. destruct (decide (l = S n)) as [->|Hne].
    + rewrite lookup_app_r by lia. replace (S n - 1 - length (path t c n))%nat with 0%nat by lia.
      by rewrite Hp.
    + rewrite lookup_app_l by lia. apply Hl. lia.
Qed.

Lemma path_spec t c n :
  wf_topo t -> valid_cpu t c -> (n <= PLAT_MAX_PWR_LVL)%nat ->
  length (path t c n) = n /\
  forall l, (1 <= l <= n)%nat -> path t c n !! (l - 1)%nat = anc t c l.
Proof. intros Hwf Hc. by apply path_linked, wf_linked. Qed.

Lemma get_parents_linked s c nd n :
  linked (topo s) c -> (psci_cpu_pd_nodes s).[c] = Some nd -> (n <= PLAT_MAX_PWR_LVL)%nat ->
  psci_get_parent_pwr_domain_nodes c n s = Done (path (topo s) c n) s.
Proof.
  intros Hlk Hnd Hn.
  cut (wpd (psci_get_parent_pwr_domain_nodes c n)
         (fun ps s' => s' = s /\ ps = path (topo s) c n) s).
  { intros (ps & s' & -> & -> & ->)%wpd_done. done. }
  unfold psci_get_parent_pwr_domain_nodes.
  eapply wp_bind_exact; [by apply cpu_node_run|].
  apply wp_bind. eapply wp_mono.
  - apply (wp_walk_from_linked c _ (fun k acc s' => s' = s /\ acc = path (topo s) c (k - 1))); try done.
    intros k q acc s' Hk Hq _ (-> & ->). apply wp_ret. cbn [fst snd]. split_and!; try done.
    destruct k as [|k]; [lia|]. replace (S (S k) - 1)%nat with (S k) by lia.
    replace (S k - 1)%nat with k by lia. by rewrite (path_snoc _ _ _ _ Hq).
  - intros r s' (_ & _ & -> & ->). apply wp_ret.
    by replace (S n - 1)%nat with n by lia.
  - done.
Qed.

Lemma get_parents_run s c n :
  wf_topo (topo s) -> valid_cpu (topo s) c -> (n <= PLAT_MAX_PWR_LVL)%nat ->
  psci_get_parent_pwr_domain_nodes c n s = Done (path (topo s) c n) s.
Proof.
  intros Hwf Hc. destruct (wf_cpu_node s c Hwf Hc) as [nd Hnd].
  apply (get_parents_linked s c nd); [by apply wf_linked|done].
Qed.

(** Emitting one event per level of a path. *)
Lemma lock_loop_run (ev : Z -> event) s c n (lvls : list nat) :
  wf_topo (topo s) -> valid_cpu (topo s) c -> (n <= PLAT_MAX_PWR_LVL)%nat ->
  Forall (fun l => (1 <= l <= n)%nat) lvls ->
  for_each lvls (fun level =>
    let! parent_idx := deref (path (topo s) c n !! (level - 1)%nat) in
    let! nd := non_cpu_node parent_idx in
    emit (ev (lock_index nd))) s =
  Done tt (set_trace (rev (ev <$> omap (anc (topo s) c) lvls) ++ trace s) s).
Proof.
  intros Hwf Hc Hn. destruct (path_spec (topo s) c n Hwf Hc Hn) as [_ Hpath].
  set (t := topo s) in *. assert (topo s = t) as Ht by done. clearbody t. revert s Ht.
  induction lvls as [|l lvls IH]; intros s Ht Hall; [by destruct s|].
  apply Forall_cons in Hall as [Hl Hall]. cbn [for_each].
  destruct (wf_anc s c l) as (p & nd & Hp & Hnd & _ & Hlk & _);
    [by rewrite Ht|by rewrite Ht|split; lia|].
  rewrite Ht in Hp. unfold bind at 1 2 3. rewrite Hpath, Hp by done. simpl.
  rewrite (non_cpu_node_run _ _ _ Hnd). simpl.
  rewrite IH by (try done; by destruct s). rewrite Hp. simpl. rewrite Hlk.
  by rewrite <- app_assoc.
Qed.

Definition lock_gets (t : topology) (c : Z) (n : nat) : list event :=
  E_lock_get <$> path t c n.
Definition lock_releases (t : topology) (c : Z) (n : nat) : list event :=
  E_lock_release <$> path t c n.

Lemma acquire_run s c n :
  wf_topo (topo s) -> valid_cpu (topo s) c -> (n <= PLAT_MAX_PWR_LVL)%nat ->
  psci_acquire_pwr_domain_locks n (path (topo s) c n) s =
  Done tt (set_trace (rev (lock_gets (topo s) c n) ++ trace s) s).
Proof.
  intros Hwf Hc Hn. apply (lock_loop_run E_lock_get); try done.
  apply Forall_forall. intros l Hl%list_elem_of_In%in_seq. lia.
Qed.

Lemma release_run s c n :
  wf_topo (topo s) -> valid_cpu (topo s) c -> (n <= PLAT_MAX_PWR_LVL)%nat ->
  psci_release_pwr_domain_locks n (path (topo s) c n) s =
  Done tt (set_trace (lock_releases (topo s) c n ++ trace s) s).
Proof.
  intros Hwf Hc Hn. unfold psci_release_pwr_domain_locks, psci_lock_release.
  rewrite (lock_loop_run E_lock_release); try done.
  - do 3 f_equal. unfold lock_releases, path.
    by rewrite rev_fmap, omap_rev, rev_involutive.
  - apply Forall_forall. intros l Hl%list_elem_of_In%in_rev%in_seq. lia.
Qed.
End Nodes.
