(* ===== verification/PsciFrame.v ===== *)
(** * PSCI: what the bookkeeping leaves alone

    [core s] is the part of the state the power domain invariants speak of.
    Hooks, statistics, timestamps, the CPU driver and the locks keep it;
    [preserves] says so of a command, however it ends, and the hint database
    [psci_frame] decides it for compositions. *)

From stdpp Require Import list_numbers.
From S2P Require Import Prelude PsciTypes PsciCommon PsciStat PsciHandlers PsciTopology.
#[local] Open Scope cmd_scope.

Record core_state := {
  c_nodes : list non_cpu_pd_node_t;
  c_req : list (list Z);
  c_data : list psci_cpu_data_t;
  c_topo : topology;
  c_mode : suspend_mode_t
}.

Definition core (s : psci_state) : core_state := {|
  c_nodes := psci_non_cpu_pd_nodes s;
  c_req := psci_req_local_pwr_states s;
  c_data := psci_svc_cpu_data s;
  c_topo := topo s;
  c_mode := psci_suspend_mode s
|}.

Definition preserves {A} (c : psci A) : Prop := forall s, core (final (c s)) = core s.

Create HintDb psci_frame.

Lemma preserves_ret {A} (a : A) : preserves (ret a).
Proof. done. Qed.

Lemma preserves_halt {A} w : preserves (A := A) (halt w).
Proof. done. Qed.

Lemma preserves_gets {A} (f : psci_state -> A) : preserves (gets f).
Proof. done. Qed.

Lemma preserves_bind {A B} (c : psci A) (k : A -> psci B) :
  preserves c -> (forall a, preserves (k a)) -> preserves (bind c k).
Proof.
  intros Hc Hk s. unfold bind. specialize (Hc s). destruct (c s) as [a s'|w s']; [|done].
  simpl in Hc. rewrite (Hk a s'). done.
Qed.

Lemma preserves_deref {A} (o : option A) : preserves (deref o).
Proof. by destruct o. Qed.

Lemma preserves_assert e b : preserves (assert_ e b).
Proof. unfold assert_. by destruct (e && negb b). Qed.

Lemma preserves_when b c : preserves c -> preserves (when b c).
Proof. by destruct b. Qed.

Lemma preserves_if {A} (b : bool) (c1 c2 : psci A) :
  preserves c1 -> preserves c2 -> preserves (if b then c1 else c2).
Proof. by destruct b. Qed.

Lemma preserves_emit e : preserves (emit e).
Proof. done. Qed.

Lemma preserves_emit_if b e : preserves (emit_if b e).
Proof. by destruct b. Qed.

Lemma preserves_for_each {X} (l : list X) f : (forall x, preserves (f x)) -> preserves (for_each l f).
Proof. intros Hf. induction l as [|x l IH]; simpl; [done|]. apply preserves_bind; auto. Qed.

Lemma preserves_fold_each {X A} (l : list X) (a : A) f :
  (forall x a, preserves (f x a)) -> preserves (fold_each l a f).
Proof.
  intros Hf. revert a. induction l as [|x l IH]; intros a; simpl; [done|].
  apply preserves_bind; auto.
Qed.

Lemma preserves_all_of {X} (l : list X) p : (forall x, preserves (p x)) -> preserves (all_of l p).
Proof.
  intros Hp. induction l as [|x l IH]; simpl; [done|].
  apply preserves_bind; auto. intros b. by destruct b.
Qed.

Lemma preserves_non_cpu_node i : preserves (non_cpu_node i).
Proof. intros s. unfold non_cpu_node. by destruct (_.[i]). Qed.

Lemma preserves_cpu_node i : preserves (cpu_node i).
Proof. intros s. unfold cpu_node. by destruct (_.[i]). Qed.

Lemma preserves_cpu_data i : preserves (cpu_data i).
Proof. intros s. unfold cpu_data. by destruct (_.[i]). Qed.

Lemma preserves_walk_up {X} n l p (acc : X) body :
  (forall k q a, preserves (body k q a)) -> preserves (walk_up n l p acc body).
Proof.
  intros Hb. revert l p acc. induction n as [|n IH]; intros l p acc; simpl; [done|].
  apply preserves_bind; [done|]. intros [[] a]; simpl; [done|].
  apply preserves_bind; [apply preserves_non_cpu_node|auto].
Qed.

#[export] Hint Resolve preserves_ret preserves_halt preserves_gets preserves_bind preserves_deref
  preserves_assert preserves_when preserves_if preserves_emit preserves_emit_if preserves_for_each
  preserves_fold_each preserves_all_of preserves_non_cpu_node preserves_cpu_node
  preserves_cpu_data preserves_walk_up : psci_frame.

(** Decides [preserves] for a composition, unfolding nothing. *)
Ltac frame := intros; eauto 40 with psci_frame.

Section Frame.
Context `{Cfg : PsciConfig} `{Plat : Platform}.

Lemma preserves_pd_state st l : preserves (pd_state st l).
Proof. unfold pd_state. frame. Qed.
#[local] Hint Resolve preserves_pd_state : psci_frame.

Lemma preserves_write_pd_state st l v : preserves (write_pd_state st l v).
Proof. unfold write_pd_state. frame. Qed.
#[local] Hint Resolve preserves_write_pd_state : psci_frame.

Lemma preserves_get_aff i : preserves (psci_get_aff_info_state_by_idx i).
Proof. unfold psci_get_aff_info_state_by_idx. frame. Qed.

Lemma preserves_acquire n ps : preserves (psci_acquire_pwr_domain_locks n ps).
Proof. unfold psci_acquire_pwr_domain_locks, psci_lock_get. frame. Qed.

Lemma preserves_release n ps : preserves (psci_release_pwr_domain_locks n ps).
Proof. unfold psci_release_pwr_domain_locks, psci_lock_release. frame. Qed.

Lemma preserves_parents c n : preserves (psci_get_parent_pwr_domain_nodes c n).
Proof. unfold psci_get_parent_pwr_domain_nodes. frame. Qed.

Lemma preserves_get_target c n st : preserves (psci_get_target_local_pwr_states c n st).
Proof.
  unfold psci_get_target_local_pwr_states, psci_get_cpu_local_state_by_idx,
    get_non_cpu_pd_node_local_state. frame.
Qed.

Lemma preserves_find_lvl p st i : preserves (find_lvl_down p st i).
Proof. induction i as [|i IH]; simpl; apply preserves_bind; frame. Qed.

Lemma preserves_cpu_pwr_dwn l : preserves (cpu_pwr_dwn l).
Proof. unfold cpu_pwr_dwn, get_cpu_pwr_dwn. frame. Qed.
#[local] Hint Resolve preserves_cpu_pwr_dwn : psci_frame.

Lemma preserves_pwrdown_start l : preserves (psci_pwrdown_cpu_start l).
Proof. unfold psci_pwrdown_cpu_start. frame. Qed.

Lemma preserves_with_spd c : (forall pm, preserves (c pm)) -> preserves (with_spd c).
Proof. intros Hc. unfold with_spd. apply preserves_bind; [frame|]. intros [pm|]; frame. Qed.

Lemma preserves_set_last l s :
  length l = length (last_cpu_in_non_cpu_pd s) -> core (set_last_cpu l s) = core s.
Proof. intros Hl. unfold core. simpl. by rewrite topo_set_last. Qed.

Lemma preserves_get_stat_idx st l : preserves (get_stat_idx st l).
Proof. unfold get_stat_idx. destruct (get_pwr_lvl_state_idx _); frame. Qed.

Lemma preserves_stats_down c n st : preserves (psci_stats_update_pwr_down c n st).
Proof.
  unfold psci_stats_update_pwr_down.
  apply preserves_bind; [frame|intros _]. apply preserves_bind; [frame|intros nd].
  apply preserves_bind; [|frame]. apply preserves_walk_up. intros k q a.
  apply preserves_bind; [frame|intros v]. apply preserves_if; [frame|].
  intros s. unfold bind, gets, modify. destruct (_.[q]); [|done]. simpl.
  apply preserves_set_last, length_zupdate.
Qed.

(** Accounting keeps the shape of a statistics table. *)
Lemma account_shape (stat : list (list psci_stat_t)) i idx e row :
  stat.[i] = Some row -> length <$> zupdate stat i (zupdate row idx e) = length <$> stat.
Proof.
  intros Hi. rewrite zupdate_fmap. apply zupdate_id.
  rewrite zlookup_fmap, Hi. simpl. by rewrite length_zupdate.
Qed.

Lemma core_set_stats s last stat :
  length last = length (last_cpu_in_non_cpu_pd s) ->
  length <$> stat = length <$> psci_non_cpu_stat s ->
  core (set_non_cpu_stat stat (set_last_cpu last s)) = core s.
Proof. intros Hl Hs. unfold core, topo. simpl. by rewrite Hl, Hs. Qed.

Lemma core_set_cpu_stat s stat :
  length <$> stat = length <$> psci_cpu_stat s -> core (set_cpu_stat stat s) = core s.
Proof. intros Hs. unfold core, topo. simpl. by rewrite Hs. Qed.

Lemma core_modify {A} (f : psci_state -> psci_state) (k : psci A) s :
  core (f s) = core s -> preserves k ->
  core (final ((modify f ;; k) s)) = core s.
Proof. intros Hf Hk. unfold bind, modify. by rewrite Hk. Qed.

Lemma get_stat_idx_state st l s : final (get_stat_idx st l s) = s.
Proof.
  unfold get_stat_idx, assert_, bind, ret, halt.
  destruct (get_pwr_lvl_state_idx _);
    repeat match goal with |- context [if ?b then _ else _] => destruct b end; done.
Qed.

Lemma preserves_stats_up_body st k q a : preserves (stats_pwr_up_body st k q a).
Proof.
  unfold stats_pwr_up_body. apply preserves_bind; [frame|intros v].
  apply preserves_if; [frame|]. intros s.
  unfold bind, gets, modify, assert_, account, deref, bind, ret, halt.
  destruct (_.[q]) as [last|]; [|done]. destruct (_ && _); [done|].
  set (s1 := set_last_cpu _ s).
  assert (length (last_cpu_in_non_cpu_pd s1) = length (last_cpu_in_non_cpu_pd s)) as Hl
    by apply length_zupdate.
  pose proof (get_stat_idx_state v k s1) as Hidx.
  destruct (get_stat_idx v k s1) as [idx s2|w s2]; simpl in Hidx; subst s2;
    [|by apply preserves_set_last].
  destruct (psci_non_cpu_stat s1).[q] as [row|] eqn:Hrow; [|by apply preserves_set_last].
  destruct (row.[idx]); [|by apply preserves_set_last]. simpl.
  apply core_set_stats; [done|]. by apply account_shape.
Qed.

Lemma preserves_stats_up c n st : preserves (psci_stats_update_pwr_up c n st).
Proof.
  unfold psci_stats_update_pwr_up.
  apply preserves_bind; [frame|intros _]. apply preserves_bind; [frame|intros v].
  apply preserves_bind; [apply preserves_get_stat_idx|intros idx].
  apply preserves_bind; [frame|intros res]. intros s.
  unfold bind at 1, gets at 1. unfold bind at 1, account, bind at 1 2.
  destruct (psci_cpu_stat s).[c] as [row|] eqn:Hrow; [|done]. cbn [deref ret].
  unfold ret at 1. destruct (row.[idx]); [|done]. unfold deref, ret at 1 2.
  apply core_modify; [apply core_set_cpu_stat; by apply account_shape|].
  apply preserves_bind; [frame|intros nd].
  apply preserves_bind; [frame|intros lasts]. apply preserves_bind; [frame|intros last].
  apply preserves_if; [frame|]. apply preserves_bind; [|frame].
  apply preserves_walk_up. apply preserves_stats_up_body.
Qed.

Lemma preserves_may_not_return e r : preserves (may_not_return e r).
Proof. unfold may_not_return. frame. Qed.

Lemma preserves_call_pwr_down st : preserves (call_pwr_down st).
Proof.
  unfold call_pwr_down. destruct (pwr_domain_pwr_down _); [apply preserves_may_not_return|frame].
Qed.

Lemma preserves_wfi : preserves wfi.
Proof. unfold wfi. frame. Qed.

(** Entry points and MPIDRs. *)
Lemma preserves_read_ep c : preserves (read_warmboot_ep c).
Proof. unfold read_warmboot_ep. frame. Qed.

Lemma core_set_ep s p ep : core (set_ep_info (zupdate (warmboot_ep_info s) p ep) s) = core s.
Proof. unfold core, topo. simpl. by rewrite length_zupdate. Qed.

Lemma preserves_write_ep c ep : preserves (write_warmboot_ep c ep).
Proof.
  unfold write_warmboot_ep. apply preserves_bind; [frame|intros d].
  apply preserves_bind; [frame|intros p]. intros s. unfold bind, gets, modify.
  destruct (_.[p]); [|done]. simpl. apply core_set_ep.
Qed.

Lemma preserves_write_mpidr c v : preserves (write_cpu_node c (with_mpidr v)).
Proof.
  intros s. unfold write_cpu_node, cpu_node, bind, modify.
  destruct (_.[c]) as [nd|] eqn:Hn; [|done]. simpl. unfold core. simpl.
  by rewrite topo_set_mpidr.
Qed.

Lemma preserves_ns_ep ep e x : preserves (psci_get_ns_ep_info ep e x).
Proof.
  unfold psci_get_ns_ep_info. repeat (apply preserves_bind; [frame|intros ?]).
  apply preserves_if; [apply preserves_if|]; frame.
Qed.

Lemma preserves_validate_ep ep e x : preserves (psci_validate_entry_point ep e x).
Proof.
  unfold psci_validate_entry_point. apply preserves_bind; [frame|intros t].
  destruct (validate_ns_entrypoint _); [apply preserves_if; [frame|]|]; apply preserves_ns_ep.
Qed.

#[local] Hint Resolve preserves_get_aff preserves_with_spd preserves_write_mpidr : psci_frame.

Lemma preserves_on_finish c st : preserves (psci_cpu_on_finish c st).
Proof.
  unfold psci_cpu_on_finish.
  repeat (first [by apply preserves_write_mpidr | apply preserves_bind; [by frame|intros ?]]).
Qed.
End Frame.

#[export] Hint Resolve preserves_pd_state preserves_write_pd_state preserves_get_aff
  preserves_acquire preserves_release preserves_parents preserves_get_target preserves_find_lvl
  preserves_cpu_pwr_dwn preserves_pwrdown_start preserves_with_spd preserves_get_stat_idx
  preserves_stats_down preserves_stats_up preserves_may_not_return preserves_call_pwr_down
  preserves_wfi preserves_read_ep preserves_write_ep preserves_write_mpidr preserves_validate_ep
  preserves_on_finish : psci_frame.

(** Running a frame command in a partial-correctness goal. *)
Lemma wp_frame {A} (c : psci A) (Q : A -> psci_state -> Prop) s :
  preserves c -> (forall a s', core s' = core s -> Q a s') -> wp c Q (fun _ _ => True) s.
Proof.
  intros Hc HQ. specialize (Hc s). unfold wp. destruct (c s); simpl in Hc; auto.
Qed.

Lemma wp_bind_frame {A B} (c : psci A) (k : A -> psci B) (Q : B -> psci_state -> Prop) s :
  preserves c -> (forall a s', core s' = core s -> wp (k a) Q (fun _ _ => True) s') ->
  wp (bind c k) Q (fun _ _ => True) s.
Proof. intros Hc HQ. apply wp_bind. by apply wp_frame. Qed.
