(* ===== verification/PsciInterface.v ===== *)
(** * PSCI: the contract between coordination and the platform

    [CoordPlatform] is what the generic code relies on of
    [plat_get_target_pwr_state]; the theorems about coordination are proved
    against it, and the generic implementation of
    plat/common/plat_psci_common.c discharges it. *)

From stdpp Require Import list_numbers.
From S2P Require Import Prelude PsciTypes PsciCommon PsciStat PsciHandlers PsciMain PsciSetup PsciDemo PsciTopology PsciCoord.

Class CoordPlatform `{Cfg : PsciConfig} `{Plat : Platform} : Prop := {
  target_total : forall l rs, rs <> [] -> is_Some (plat_get_target_pwr_state l rs);
  target_shallowest : forall l rs v, plat_get_target_pwr_state l rs = Some v -> Forall (fun r => v <= r) rs;
  target_nonneg : forall l rs v,
    plat_get_target_pwr_state l rs = Some v -> Forall (fun r => 0 <= r) rs -> 0 <= v
}.

(** A domain is turned off when all its CPUs ask for it. The generic
    implementation does so; coordination does not rely on it. *)
Class OffPlatform `{Cfg : PsciConfig} `{Plat : Platform} : Prop := {
  target_off : forall l rs,
    rs <> [] -> Forall (fun r => r = PLAT_MAX_OFF_STATE) rs ->
    plat_get_target_pwr_state l rs = Some PLAT_MAX_OFF_STATE
}.

(** ** The generic implementation *)

Section Default.
Context `{Cfg : PsciConfig}.

Lemma min_state_loop_spec rs target :
  let m := min_state_loop target rs in
  m <= target /\ Forall (fun r => m <= r) rs /\ (m = target \/ m ∈ rs).
Proof.
  revert target. induction rs as [|r rs IH]; intros target; simpl.
  - split; [lia|]. split; [constructor|by left].
  - specialize (IH (if r <? target then r else target)) as (Hle & Hall & Hin).
    destruct (Z.ltb_spec r target).
    + split; [lia|]. split; [by constructor|].
      right. destruct Hin as [->|Hin]; [apply list_elem_of_here|by apply list_elem_of_further].
    + split; [lia|]. split; [constructor; [lia|done]|].
      destruct Hin as [Heq|Hin]; [by left|right; by apply list_elem_of_further].
Qed.
End Default.

#[export] Instance default_coord_platform `{PsciConfigOk} (P : Platform)
    (HP : plat_get_target_pwr_state = default_get_target_pwr_state) : CoordPlatform.
Proof.
  split; rewrite HP; unfold default_get_target_pwr_state.
  - intros l [|r rs] Hne; [done|eauto].
  - intros l [|r rs] v Hv; [done|]. assert (v = min_state_loop PLAT_MAX_OFF_STATE (r :: rs)) as -> by congruence.
    apply (min_state_loop_spec (r :: rs)).
  - intros l [|r rs] v Hv Hall; [done|]. assert (v = min_state_loop PLAT_MAX_OFF_STATE (r :: rs)) as -> by congruence.
    destruct (min_state_loop_spec (r :: rs) PLAT_MAX_OFF_STATE) as (_ & _ & [Heq|Hin]).
    + rewrite Heq. pose proof cfg_states. lia.
    + rewrite Forall_forall in Hall. by apply Hall.
Qed.

#[export] Instance default_off_platform `{PsciConfigOk} (P : Platform)
    (HP : plat_get_target_pwr_state = default_get_target_pwr_state) : OffPlatform.
Proof.
  split; rewrite HP; unfold default_get_target_pwr_state.
  - intros l [|r rs] Hne Hall; [done|]. f_equal.
    destruct (min_state_loop_spec (r :: rs) PLAT_MAX_OFF_STATE) as (_ & _ & [Heq|Hin]); [done|].
    rewrite Forall_forall in Hall. by apply Hall.
Qed.

(** ** Slices *)

Lemma zslice_lookup {A} (l : list A) i n sl j :
  zslice l i n = Some sl -> i <= j < i + n -> sl !! Z.to_nat (j - i) = l.[j].
Proof.
  unfold zslice. destruct (_ && _ && _) eqn:E; [|done]. intros [= <-] Hj.
  apply andb_true_iff in E as [[E1 E2]%andb_true_iff E3].
  apply Z.leb_le in E1, E2, E3.
  rewrite lookup_take_lt, lookup_drop by lia. rewrite zlookup_to_nat by lia. f_equal. lia.
Qed.

Lemma zslice_elem {A} (l : list A) i n sl x :
  zslice l i n = Some sl -> x ∈ sl -> exists j, i <= j < i + n /\ l.[j] = Some x.
Proof.
  intros Hsl Hx. apply list_elem_of_lookup in Hx as [k Hk].
  assert (Z.of_nat k < n) as Hn.
  { apply lookup_lt_Some in Hk. unfold zslice in Hsl. destruct (_ && _ && _); [|done].
    injection Hsl as <-. rewrite length_take in Hk. lia. }
  exists (i + Z.of_nat k). split; [lia|].
  rewrite <- (zslice_lookup l i n sl); [|done|lia]. by replace (Z.to_nat _) with k by lia.
Qed.

(** ** What a vote does to the domain *)

Definition req_nonneg (s : psci_state) : Prop :=
  Forall (Forall (fun r => 0 <= r)) (psci_req_local_pwr_states s).

Section Votes.
Context `{Cfg : PsciConfig} `{Plat : Platform}.

(** The requests of a domain are the requests of its CPUs. *)
Lemma domain_requests_vote s c c' l p rs :
  wf_topo (topo s) -> valid_cpu (topo s) c -> valid_cpu (topo s) c' -> valid_lvl l ->
  anc (topo s) c l = Some p -> anc (topo s) c' l = Some p ->
  domain_requests s c l = Some rs ->
  exists v, req_state s l c' = Some v /\ v ∈ rs.
Proof.
  intros Hwf Hc Hc' Hl Hp Hp' Hrs.
  destruct (wf_anc s c' l Hwf Hc' Hl) as (q & nd & Hq & Hnd & _ & _ & Hcov & H0 & Hend).
  assert (q = p) as -> by congruence.
  unfold domain_requests in Hrs. rewrite Hp, Hnd in Hrs. unfold req_state.
  destruct (psci_req_local_pwr_states s !! (l - 1)%nat) as [row|]; [|done].
  pose proof (zslice_lookup _ _ _ _ c' Hrs Hcov) as Hlk.
  assert (is_Some (rs !! Z.to_nat (c' - cpu_start_idx nd))) as [v Hv].
  { apply lookup_lt_is_Some. unfold zslice in Hrs. destruct (_ && _ && _) eqn:E; [|done].
    injection Hrs as <-. apply andb_true_iff in E as [_ E%Z.leb_le].
    unfold node_covers in Hcov. rewrite length_take, length_drop. lia. }
  exists v. split; [congruence|]. apply list_elem_of_lookup. eauto.
Qed.

Lemma domain_requests_elem s c l p rs v :
  wf_topo (topo s) -> valid_cpu (topo s) c -> valid_lvl l ->
  anc (topo s) c l = Some p -> domain_requests s c l = Some rs -> v ∈ rs ->
  exists c', valid_cpu (topo s) c' /\ anc (topo s) c' l = Some p /\ req_state s l c' = Some v.
Proof.
  intros Hwf Hc Hl Hp Hrs Hv.
  destruct (wf_anc s c l Hwf Hc Hl) as (q & nd & Hq & Hnd & _ & _ & Hcov & H0 & Hend).
  assert (q = p) as -> by congruence.
  unfold domain_requests in Hrs. rewrite Hp, Hnd in Hrs. unfold req_state.
  destruct (psci_req_local_pwr_states s !! (l - 1)%nat) as [row|]; [|done].
  destruct (zslice_elem _ _ _ _ _ Hrs Hv) as (c' & Hc' & Hr).
  assert (valid_cpu (topo s) c') as Hvc by (unfold valid_cpu; lia).
  exists c'. split; [done|]. split; [|done].
  by apply (wt_covers _ Hwf c c' l p (with_local_state 0 nd) Hc Hvc Hl Hp (topo_node_inv _ _ _ Hnd)).
Qed.

Lemma domain_requests_nonneg s c l rs :
  req_nonneg s -> domain_requests s c l = Some rs -> Forall (fun r => 0 <= r) rs.
Proof.
  intros Hnn Hrs. unfold domain_requests in Hrs.
  destruct (anc _ _ _); [|done].
  destruct (psci_req_local_pwr_states s !! (l - 1)%nat) as [row|] eqn:Hrow; [|done].
  destruct (_.[_]) as [nd|]; [|done].
  unfold req_nonneg in Hnn. rewrite Forall_forall in Hnn.
  assert (Forall (fun r => 0 <= r) row) as Hr.
  { apply Hnn. apply list_elem_of_lookup. eauto. }
  apply Forall_forall. intros v Hv. rewrite Forall_forall in Hr.
  destruct (zslice_elem _ _ _ _ _ Hrs Hv) as (j & _ & Hj).
  apply Hr. apply list_elem_of_lookup. unfold zlookup in Hj.
  destruct (in_range row j); [eauto|done].
Qed.

Context `{!CoordPlatform}.

(** A CPU of the domain that votes RUN keeps the domain running. *)
Lemma run_vote_target s c c' l p :
  wf_topo (topo s) -> valid_cpu (topo s) c -> valid_cpu (topo s) c' -> valid_lvl l ->
  req_nonneg s -> anc (topo s) c l = Some p -> anc (topo s) c' l = Some p ->
  req_state s l c' = Some PSCI_LOCAL_STATE_RUN ->
  coord_target s c l = Some PSCI_LOCAL_STATE_RUN.
Proof.
  intros Hwf Hc Hc' Hl Hnn Hp Hp' Hreq.
  destruct (domain_requests_some s c l Hwf Hc Hl) as (q & nd & row & rs & _ & _ & _ & _ & Hrs & Hne & _).
  destruct (domain_requests_vote s c c' l p rs) as (v & Hv & Hin); auto.
  assert (v = PSCI_LOCAL_STATE_RUN) as -> by congruence.
  destruct (target_total l rs Hne) as [w Hw].
  pose proof (target_shallowest l rs w Hw) as Hle. rewrite Forall_forall in Hle.
  pose proof (Hle _ Hin) as Hle0. cbv beta in Hle0.
  pose proof (target_nonneg l rs w Hw (domain_requests_nonneg s c l rs Hnn Hrs)).
  unfold coord_target. rewrite Hrs, Hw. f_equal. unfold PSCI_LOCAL_STATE_RUN in *. lia.
Qed.

Lemma run_vote_coord_state s c c' l p :
  wf_topo (topo s) -> valid_cpu (topo s) c -> valid_cpu (topo s) c' -> valid_lvl l ->
  req_nonneg s -> anc (topo s) c l = Some p -> anc (topo s) c' l = Some p ->
  req_state s l c' = Some PSCI_LOCAL_STATE_RUN ->
  coord_state s c l = Some PSCI_LOCAL_STATE_RUN.
Proof.
  intros. unfold coord_state. destruct (forallb _ _); [|done]. by eapply run_vote_target.
Qed.

(** When every CPU of the domain votes OFF, the domain is turned off. *)
Lemma off_votes_target `{!OffPlatform} s c l p :
  wf_topo (topo s) -> valid_cpu (topo s) c -> valid_lvl l -> anc (topo s) c l = Some p ->
  (forall c', valid_cpu (topo s) c' -> anc (topo s) c' l = Some p ->
     req_state s l c' = Some PLAT_MAX_OFF_STATE) ->
  coord_target s c l = Some PLAT_MAX_OFF_STATE.
Proof.
  intros Hwf Hc Hl Hp Hall.
  destruct (domain_requests_some s c l Hwf Hc Hl) as (q & nd & row & rs & _ & _ & _ & _ & Hrs & Hne & _).
  unfold coord_target. rewrite Hrs. apply target_off; [done|].
  apply Forall_forall. intros v Hv.
  destruct (domain_requests_elem s c l p rs v) as (c' & Hc' & Hp' & Hr); auto.
  specialize (Hall c' Hc' Hp'). congruence.
Qed.
End Votes.
