(* ===== verification/PsciSystem.v ===== *)
(** * PSCI: the CPUs together

    Every CPU of the system runs PSCI calls at its own pace on the shared
    power domain tree. A step is one lock-protected part of a handler (or one
    write of a CPU's own affinity state): the power domain locks serialise
    these parts, everything between them interleaves. The theorems here are
    about every reachable interleaving. *)

From stdpp Require Import list_numbers.
From S2P Require Import Prelude PsciTypes PsciCommon PsciStat PsciHandlers PsciMain PsciSetup PsciDemo PsciTopology PsciCoord PsciNodes PsciFrame PsciInterface.
#[local] Open Scope cmd_scope.

(** ** Requests and node states after the elementary updates *)

Section Updates.
Context `{Cfg : PsciConfig} `{Plat : Platform}.

Lemma req_state_voted s c st n l c' :
  wf_topo (topo s) -> valid_cpu (topo s) c -> wf_power_state st ->
  (n <= PLAT_MAX_PWR_LVL)%nat -> valid_lvl l ->
  req_state (voted c st n s) l c' =
  if decide (c' = c /\ (l <= n)%nat) then pds st !! l else req_state s l c'.
Proof.
  intros Hwf Hc Hst. induction n as [|n IH]; intros Hn Hl.
  - rewrite decide_False by (unfold valid_lvl in Hl; lia). done.
  - destruct (wf_power_state_lookup st (S n) Hst) as [v Hv]; [lia|].
    assert (voted c st (S n) s =
      set_req (vote (S n) c v (psci_req_local_pwr_states (voted c st n s))) (voted c st n s)) as ->.
    { unfold voted. cbn [votes]. by rewrite Hv. }
    rewrite req_state_vote; rewrite ?topo_voted; try done; [|split; lia].
    rewrite IH by (done || lia).
    destruct (decide (l = S n /\ c' = c)) as [[-> ->]|Hne].
    + by rewrite decide_True by (split; [done|lia]).
    + destruct (decide (c' = c /\ (l <= n)%nat)) as [[-> ?]|Hno].
      * by rewrite decide_True by (split; [done|lia]).
      * rewrite decide_False; [done|]. intros [-> ?].
        destruct (decide (l = S n)); [tauto|]. apply Hno. split; [done|lia].
Qed.

Lemma anc_state_entered s c st n l c' p :
  wf_topo (topo s) -> valid_cpu (topo s) c -> valid_cpu (topo s) c' -> wf_power_state st ->
  (n <= PLAT_MAX_PWR_LVL)%nat -> valid_lvl l -> anc (topo s) c' l = Some p ->
  anc_state (entered c st n s) c' l =
  if decide (anc (topo s) c l = Some p /\ (l <= n)%nat) then pds st !! l else anc_state s c' l.
Proof.
  intros Hwf Hc Hc' Hst Hn Hl Hp. unfold anc_state. rewrite topo_entered, Hp.
  unfold node_state, entered. simpl. case_decide as Hd.
  - destruct Hd as [Hcp Hle]. destruct (wf_power_state_lookup st l Hst) as [v Hv].
    { unfold valid_lvl in Hl. lia. }
    rewrite Hv. eapply enter_at; eauto. unfold valid_lvl in Hl. lia.
  - apply enter_other. intros k Hk Heq. apply Hd.
    assert (k = l) as ->.
    { eapply (anc_inj (topo s) c c'); eauto. split; lia. }
    split; [done|lia].
Qed.

Lemma req_nonneg_vote s l c v :
  req_nonneg s -> 0 <= v -> req_nonneg (set_req (vote l c v (psci_req_local_pwr_states s)) s).
Proof.
  unfold req_nonneg, vote. simpl. intros Hnn Hv. apply Forall_alter; [done|].
  intros row Hrow Hall. unfold zupdate. destruct (in_range row c); [|done].
  by apply Forall_insert.
Qed.

Definition nonneg_state (st : psci_power_state_t) : Prop := Forall (fun v => 0 <= v) (pds st).

Lemma req_nonneg_voted s c st n :
  req_nonneg s -> nonneg_state st -> req_nonneg (voted c st n s).
Proof.
  intros Hnn Hst. induction n as [|n IH]; [done|].
  unfold voted in *. cbn [votes]. destruct (pds st !! S n) as [v|] eqn:Hv; [|done].
  apply (req_nonneg_vote (set_req (votes c st n (psci_req_local_pwr_states s)) s)); [done|].
  unfold nonneg_state in Hst. rewrite Forall_forall in Hst. apply Hst.
  apply list_elem_of_lookup. eauto.
Qed.

(** ** Running domains under running requests *)

(** A CPU that requests RUN for its ancestor at a level finds it running. *)
Definition upheld (s : psci_state) : Prop :=
  forall c l, valid_cpu (topo s) c -> valid_lvl l ->
    req_state s l c = Some PSCI_LOCAL_STATE_RUN -> anc_state s c l = Some PSCI_LOCAL_STATE_RUN.

(** What [psci_set_pwr_domains_to_run] does to the state. *)
Lemma running_effects s c end_lvl :
  wf_topo (topo s) -> valid_cpu (topo s) c -> (end_lvl <= PLAT_MAX_PWR_LVL)%nat ->
  let s' := running c end_lvl s in
  (forall l, (1 <= l <= end_lvl)%nat -> anc_state s' c l = Some PSCI_LOCAL_STATE_RUN /\
     req_state s' l c = Some PSCI_LOCAL_STATE_RUN) /\
  (forall p, (forall l, (1 <= l <= end_lvl)%nat -> anc (topo s) c l <> Some p) ->
     node_state s' p = node_state s p) /\
  (forall c' l, c' <> c -> valid_lvl l -> req_state s' l c' = req_state s l c') /\
  (exists d, (psci_svc_cpu_data s').[c] = Some d /\ aff_info_state d = AFF_STATE_ON /\
     cpu_local_state d = PSCI_LOCAL_STATE_RUN /\
     target_pwrlvl <$> (psci_svc_cpu_data s).[c] = Some (target_pwrlvl d)) /\
  (forall c', c' <> c -> (psci_svc_cpu_data s').[c'] = (psci_svc_cpu_data s).[c']) /\
  (req_nonneg s -> req_nonneg s').
Proof.
  intros Hwf Hc He. cbv zeta. destruct (wf_cpu_data s c Hwf Hc) as [d Hd].
  assert (wf_power_state all_run) as Hst by apply length_replicate.
  set (s1 := voted c all_run end_lvl (entered c all_run end_lvl s)).
  assert (running c end_lvl s = set_cpu_data (zupdate (psci_svc_cpu_data s) c
    (with_cpu_local_state PSCI_LOCAL_STATE_RUN (with_aff_info_state AFF_STATE_ON d))) s1) as Hrun.
  { unfold running, cpu_on_state. fold s1.
    change (psci_svc_cpu_data s1) with (psci_svc_cpu_data s). by rewrite Hd. }
  assert (forall l c', valid_lvl l -> req_state (running c end_lvl s) l c' =
    if decide (c' = c /\ (l <= end_lvl)%nat) then pds all_run !! l else req_state s l c') as Hreq.
  { intros l c' Hl. rewrite Hrun. transitivity (req_state s1 l c'); [done|]. unfold s1.
    by rewrite req_state_voted by (rewrite ?topo_entered; done). }
  split_and!.
  - intros l Hl. assert (valid_lvl l) as Hvl by (split; lia). split.
    + unfold anc_state. rewrite topo_running.
      destruct (wf_anc s c l Hwf Hc Hvl) as (p & nd & Hp & _). rewrite Hp, Hrun.
      change (node_state (entered c all_run end_lvl s) p = Some PSCI_LOCAL_STATE_RUN).
      pose proof (anc_state_entered s c all_run end_lvl l c p) as Ha.
      unfold anc_state in Ha. rewrite topo_entered, Hp in Ha.
      rewrite Ha by done. rewrite decide_True by (split; [done|lia]). apply all_run_lookup. lia.
    + rewrite Hreq, decide_True by (done || (split; [done|lia])). apply all_run_lookup. lia.
  - intros p Hp. rewrite Hrun. by apply enter_other.
  - intros c' l Hne Hl. rewrite Hreq, decide_False by (done || tauto). done.
  - eexists. rewrite Hrun. cbn [psci_svc_cpu_data set_cpu_data].
    rewrite zlookup_zupdate_eq by (by eapply zlookup_lt_Some). by rewrite Hd.
  - intros c' Hne. rewrite Hrun. cbn [psci_svc_cpu_data set_cpu_data]. by rewrite zlookup_zupdate_ne.
  - intros Hnn. rewrite Hrun. change (req_nonneg s1). apply req_nonneg_voted; [done|].
    apply Forall_replicate. done.
Qed.

Lemma req_state_running s c n l c' :
  wf_topo (topo s) -> valid_cpu (topo s) c -> (n <= PLAT_MAX_PWR_LVL)%nat -> valid_lvl l ->
  req_state (running c n s) l c' =
  if decide (c' = c /\ (l <= n)%nat) then pds all_run !! l else req_state s l c'.
Proof.
  intros Hwf Hc Hn Hl. assert (wf_power_state all_run) as Hst by apply length_replicate.
  destruct (wf_cpu_data s c Hwf Hc) as [d Hd]. unfold running, cpu_on_state.
  set (s1 := voted c all_run n (entered c all_run n s)).
  assert ((psci_svc_cpu_data s1).[c] = Some d) as -> by done. change (req_state s1 l c' =
    if decide (c' = c /\ (l <= n)%nat) then pds all_run !! l else req_state s l c').
  unfold s1. by rewrite req_state_voted by (rewrite ?topo_entered; done).
Qed.

Lemma upheld_running s c n :
  wf_topo (topo s) -> valid_cpu (topo s) c -> (n <= PLAT_MAX_PWR_LVL)%nat ->
  upheld s -> upheld (voted c all_run n (entered c all_run n s)).
Proof.
  intros Hwf Hc Hn Hup c' l. rewrite topo_voted, topo_entered. intros Hc' Hl.
  assert (wf_power_state all_run) as Hst by apply length_replicate.
  destruct (wf_anc s c' l Hwf Hc' Hl) as (p & nd & Hp & _).
  rewrite req_state_voted by (rewrite ?topo_entered; done).
  change (anc_state (voted c all_run n (entered c all_run n s)) c' l)
    with (match anc (topo (voted c all_run n (entered c all_run n s))) c' l with
          | Some p => node_state (entered c all_run n s) p | None => None end).
  rewrite topo_voted.
  change (match anc (topo (entered c all_run n s)) c' l with
          | Some p => node_state (entered c all_run n s) p | None => None end)
    with (anc_state (entered c all_run n s) c' l).
  rewrite (anc_state_entered s c all_run n l c' p) by done.
  case_decide as Hd; case_decide as Hd2; intros Hreq.
  - apply all_run_lookup. lia.
  - destruct Hd as [-> Hle]. tauto.
  - apply all_run_lookup. lia.
  - by apply Hup.
Qed.

Context `{!CoordPlatform}.

Lemma upheld_coordinated s c end_lvl st st' :
  wf_topo (topo s) -> valid_cpu (topo s) c -> (end_lvl <= PLAT_MAX_PWR_LVL)%nat ->
  wf_power_state st -> nonneg_state st -> req_nonneg s -> upheld s ->
  coordinated (voted c st end_lvl s) c end_lvl st st' ->
  upheld (entered c st' end_lvl (voted c st end_lvl s)).
Proof.
  intros Hwf Hc He Hst Hnn Hreq Hup Hco c' l. rewrite topo_entered, topo_voted. intros Hc' Hl.
  destruct (wf_anc s c' l Hwf Hc' Hl) as (p & nd & Hp & _).
  rewrite (anc_state_entered _ c st' end_lvl l c' p); rewrite ?topo_voted; try done; [|apply Hco].
  change (req_state (entered c st' end_lvl (voted c st end_lvl s)) l c')
    with (req_state (voted c st end_lvl s) l c').
  intros Hr. case_decide as Hd.
  - destruct Hd as [Hcp Hle]. unfold valid_lvl in Hl.
    rewrite (co_level _ _ _ _ _ Hco) by lia.
    eapply run_vote_coord_state; rewrite ?topo_voted; eauto. by apply req_nonneg_voted.
  - assert (req_state s l c' = Some PSCI_LOCAL_STATE_RUN) as Hr'.
    { rewrite req_state_voted in Hr by done. case_decide as Hd2; [|done].
      destruct Hd2 as [-> Hle]. destruct Hd. by rewrite Hp. }
    apply Hup in Hr'; [|done|done]. unfold anc_state in *. by rewrite topo_voted.
Qed.
End Updates.

(** ** Phases of a CPU *)

(** [lowered] tells of a CPU that asked for OFF and came back: CPU_OFF goes on
    after an error of the early hook other than DENIED and returns the error
    with the domains lowered and the requests of the CPU at OFF. Until the CPU
    has been through a power down of all levels its domains may be off. *)
Inductive phase : Type :=
  | Running (lowered : bool)
  | GoingOff
  | Off
  | OnPending
  | Sleeping (end_pwrlvl : nat) (st : psci_power_state_t) (max_off_lvl : nat) (pd : Z)
      (lowered : bool).

Definition set_phase (c : Z) (p : phase) (ph : Z -> phase) : Z -> phase :=
  fun c' => if decide (c' = c) then p else ph c'.

Lemma set_phase_eq c p ph : set_phase c p ph c = p.
Proof. unfold set_phase. by rewrite decide_True. Qed.

Lemma set_phase_ne c c' p ph : c' <> c -> set_phase c p ph c' = ph c'.
Proof. intros Hne. unfold set_phase. by rewrite decide_False. Qed.

Section Invariant.
Context `{Cfg : PsciConfig} `{Plat : Platform}.

Definition phase_aff (p : phase) : aff_info_state_t :=
  match p with
  | Running _ | GoingOff | Sleeping _ _ _ _ _ => AFF_STATE_ON
  | Off => AFF_STATE_OFF
  | OnPending => AFF_STATE_ON_PENDING
  end.

(** The level a warm boot would restore from. *)
Definition phase_lvl (p : phase) : nat :=
  match p with
  | Sleeping e _ _ pd _ => if pd =? 0 then PLAT_MAX_PWR_LVL else e
  | _ => PLAT_MAX_PWR_LVL
  end.

(** The CPU requests RUN for every level above this one. *)
Definition phase_low (p : phase) : nat :=
  match p with
  | Running b => if b then PLAT_MAX_PWR_LVL else 0
  | Sleeping e _ _ _ b => if b then Nat.max e PLAT_MAX_PWR_LVL else e
  | _ => PLAT_MAX_PWR_LVL
  end.

(** What a CPU that wakes up is: all levels up to the one it slept at run. *)
Definition woken (p : phase) : phase :=
  match p with
  | Sleeping e _ _ _ b => Running (b && (e <? PLAT_MAX_PWR_LVL)%nat)
  | _ => Running false
  end.

Record cpu_inv (s : psci_state) (c : Z) (p : phase) : Prop := {
  ci_data : exists d, (psci_svc_cpu_data s).[c] = Some d /\
    aff_info_state d = phase_aff p /\ target_pwrlvl d = phase_lvl p;
  ci_low : (phase_low p <= PLAT_MAX_PWR_LVL)%nat;
  ci_req : forall l, valid_lvl l -> (phase_low p < l)%nat ->
    req_state s l c = Some PSCI_LOCAL_STATE_RUN
}.

Record inv (s : psci_state) (ph : Z -> phase) : Prop := {
  i_wf : wf_topo (topo s);
  i_nonneg : req_nonneg s;
  i_upheld : upheld s;
  i_cpu : forall c, valid_cpu (topo s) c -> cpu_inv s c (ph c)
}.

(** What the invariant speaks of is in [core]. *)
Lemma inv_core s s' ph : core s' = core s -> inv s ph -> inv s' ph.
Proof.
  intros Hcore [Hwf Hnn Hup Hcpu].
  pose proof (f_equal c_nodes Hcore) as Hn. pose proof (f_equal c_req Hcore) as Hr.
  pose proof (f_equal c_data Hcore) as Hd. pose proof (f_equal c_topo Hcore) as Ht.
  cbn [c_nodes c_req c_data c_topo core] in *.
  split; unfold req_nonneg, upheld, anc_state, node_state, req_state in *;
    rewrite ?Hn, ?Hr, ?Ht; try done.
  intros c Hc. destruct (Hcpu c Hc). split; unfold req_state in *; rewrite ?Hd, ?Hr; done.
Qed.

Lemma upheld_ext s s' :
  topo s' = topo s -> psci_non_cpu_pd_nodes s' = psci_non_cpu_pd_nodes s ->
  psci_req_local_pwr_states s' = psci_req_local_pwr_states s -> upheld s -> upheld s'.
Proof.
  unfold upheld, anc_state, node_state, req_state. intros -> -> ->. done.
Qed.

(** One CPU changes, the others keep their data and their requests. *)
Lemma inv_update s s' ph c p :
  inv s ph -> topo s' = topo s -> req_nonneg s' -> upheld s' ->
  (forall c', c' <> c -> (psci_svc_cpu_data s').[c'] = (psci_svc_cpu_data s).[c']) ->
  (forall c' l, c' <> c -> valid_lvl l -> req_state s' l c' = req_state s l c') ->
  (valid_cpu (topo s) c -> cpu_inv s' c p) ->
  inv s' (set_phase c p ph).
Proof.
  intros [Hwf Hnn Hup Hcpu] Ht Hnn' Hup' Hd Hr Hc. split; rewrite ?Ht; try done.
  intros c' Hc'. destruct (decide (c' = c)) as [->|Hne].
  - rewrite set_phase_eq. by apply Hc.
  - rewrite set_phase_ne by done. destruct (Hcpu c' Hc') as [Hdat Hlow Hreq].
    split; [by rewrite Hd|done|]. intros l Hl Hlt. rewrite Hr by done. by apply Hreq.
Qed.

Lemma inv_set_data s ph c d d' p :
  inv s ph -> (psci_svc_cpu_data s).[c] = Some d -> warmboot_ep_ptr d' = warmboot_ep_ptr d ->
  (valid_cpu (topo s) c -> aff_info_state d' = phase_aff p /\ target_pwrlvl d' = phase_lvl p /\
     (phase_low (ph c) <= phase_low p <= PLAT_MAX_PWR_LVL)%nat) ->
  inv (set_cpu_data (zupdate (psci_svc_cpu_data s) c d') s) (set_phase c p ph).
Proof.
  intros Hinv Hd Hep Hp. pose proof (zlookup_lt_Some _ _ _ Hd) as Hrng.
  assert (topo (set_cpu_data (zupdate (psci_svc_cpu_data s) c d') s) = topo s) as Ht
    by by eapply topo_set_cpu_data.
  eapply inv_update; eauto.
  - apply Hinv.
  - eapply upheld_ext; [exact Ht|done|done|apply Hinv].
  - intros c' Hne. simpl. by rewrite zlookup_zupdate_ne.
  - intros Hc. destruct (Hp Hc) as (Ha & Hl & Hlow).
    destruct (i_cpu _ _ Hinv c Hc) as [_ _ Hreq]. split; [|lia|].
    + exists d'. simpl. by rewrite zlookup_zupdate_eq.
    + intros l Hvl Hlt. apply Hreq; [done|lia].
Qed.

Lemma set_phase_same s ph c p : inv s (set_phase c p ph) -> p = ph c -> inv s ph.
Proof.
  intros [Hwf Hnn Hup Hcpu] ->. split; try done. intros c' Hc'.
  specialize (Hcpu c' Hc'). unfold set_phase in Hcpu. case_decide; subst; done.
Qed.

(** The same as a rule for [write_cpu_data]. *)
Lemma wp_write_data s ph c f p (Q : unit -> psci_state -> Prop) :
  inv s ph -> (forall d, warmboot_ep_ptr (f d) = warmboot_ep_ptr d) ->
  (forall d, valid_cpu (topo s) c ->
     aff_info_state d = phase_aff (ph c) -> target_pwrlvl d = phase_lvl (ph c) ->
     aff_info_state (f d) = phase_aff p /\ target_pwrlvl (f d) = phase_lvl p) ->
  (valid_cpu (topo s) c -> (phase_low (ph c) <= phase_low p <= PLAT_MAX_PWR_LVL)%nat) ->
  (forall s', inv s' (set_phase c p ph) -> topo s' = topo s -> Q tt s') ->
  wp (write_cpu_data c f) Q (fun _ _ => True) s.
Proof.
  intros Hinv Hep Hf Hlow HQ. unfold write_cpu_data, cpu_data, wp, bind.
  destruct (_.[c]) as [d|] eqn:Hd; [|done]. simpl. apply HQ.
  - eapply inv_set_data; eauto. intros Hc. specialize (Hlow Hc).
    destruct (i_cpu _ _ Hinv c Hc) as [(d0 & Hd0 & Ha & Hl) _ _].
    assert (d0 = d) as -> by congruence. destruct (Hf d Hc Ha Hl). done.
  - by eapply topo_set_cpu_data.
Qed.

(** Waking up: every level up to the CPU's low level is set to RUN. *)
Lemma inv_running s ph c n b :
  inv s ph -> valid_cpu (topo s) c -> (n <= PLAT_MAX_PWR_LVL)%nat ->
  phase_lvl (ph c) = PLAT_MAX_PWR_LVL -> (b = false -> (phase_low (ph c) <= n)%nat) ->
  inv (running c n s) (set_phase c (Running b) ph).
Proof.
  intros Hinv Hc Hn Hlvl Hlow. destruct Hinv as [Hwf Hnn Hup Hcpu] eqn:Hi. clear Hi.
  assert (wf_power_state all_run) as Hst by apply length_replicate.
  set (s1 := voted c all_run n (entered c all_run n s)).
  assert (topo s1 = topo s) as Ht by (unfold s1; by rewrite topo_voted, topo_entered).
  destruct (Hcpu c Hc) as [(d & Hd & Ha & Hl) _ Hreq].
  assert ((psci_svc_cpu_data s1).[c] = Some d) as Hd1 by done.
  assert (forall c' l, valid_lvl l -> req_state s1 l c' =
    if decide (c' = c /\ (l <= n)%nat) then pds all_run !! l else req_state s l c') as Hr.
  { intros c' l Hvl. unfold s1. by rewrite req_state_voted by (rewrite ?topo_entered; done). }
  unfold running, cpu_on_state. fold s1. rewrite Hd1.
  eapply inv_update with (s := s); eauto.
  - by rewrite (topo_set_cpu_data s1 c d).
  - apply (req_nonneg_voted (entered c all_run n s)); [done|].
    apply Forall_replicate. by apply Z.leb_le.
  - eapply upheld_ext; [by eapply topo_set_cpu_data|done|done|]. by apply upheld_running.
  - intros c' Hne. simpl. by rewrite zlookup_zupdate_ne.
  - intros c' l Hne Hvl. change (req_state s1 l c' = req_state s l c').
    rewrite Hr, decide_False by tauto. done.
  - intros _. split; [|destruct b; simpl; lia|].
    + eexists. simpl. rewrite zlookup_zupdate_eq by (by eapply zlookup_lt_Some).
      split; [done|]. split; [done|]. cbn. by rewrite Hl.
    + intros l Hvl Hbl. destruct b; [unfold valid_lvl in Hvl; cbn in Hbl; lia|]. specialize (Hlow eq_refl). change (req_state s1 l c = Some PSCI_LOCAL_STATE_RUN).
      rewrite Hr by done. case_decide as Hd2; [apply all_run_lookup; lia|].
      apply Hreq; [done|]. assert (~ (l <= n)%nat) by tauto. lia.
Qed.

Lemma wp_set_run s ph c n b (Q : unit -> psci_state -> Prop) :
  inv s ph -> valid_cpu (topo s) c -> (n <= PLAT_MAX_PWR_LVL)%nat ->
  phase_lvl (ph c) = PLAT_MAX_PWR_LVL -> (b = false -> (phase_low (ph c) <= n)%nat) ->
  (forall s', inv s' (set_phase c (Running b) ph) -> Q tt s') ->
  wp (psci_set_pwr_domains_to_run c n) Q (fun _ _ => True) s.
Proof.
  intros Hinv Hc Hn Hlvl Hlow HQ. eapply wp_exact; [apply set_run_run; [apply Hinv|done|done]|].
  apply HQ. by apply inv_running.
Qed.
End Invariant.

(** ** The steps *)

Section Steps.
Context `{Cfg : PsciConfig} `{Plat : Platform}.
Context `{!CoordPlatform}.

Lemma wp_skip {A B} (cm : psci A) (k : A -> psci B) (Q : B -> psci_state -> Prop) s ph t :
  preserves cm -> inv s ph -> topo s = t ->
  (forall a s', inv s' ph -> topo s' = t -> wp (k a) Q (fun _ _ => True) s') ->
  wp (bind cm k) Q (fun _ _ => True) s.
Proof.
  intros Hp Hinv Ht Hk. apply wp_bind_frame; [done|]. intros a s' Hcore.
  apply Hk; [by eapply inv_core|]. pose proof (f_equal c_topo Hcore) as Ht'. cbn in Ht'.
  congruence.
Qed.

Lemma wp_last {A} (cm : psci A) (Q : A -> psci_state -> Prop) s ph :
  preserves cm -> inv s ph -> (forall a s', inv s' ph -> Q a s') -> wp cm Q (fun _ _ => True) s.
Proof. intros Hp Hinv HQ. apply wp_frame; [done|]. intros a s' Hcore. by eapply HQ, inv_core. Qed.

(** After coordination: the request of [c] is recorded and the negotiated
    states are entered. *)
Lemma inv_lowered s ph c end_lvl st st' v0 m b :
  inv s ph -> valid_cpu (topo s) c -> ph c = Running b -> (end_lvl <= PLAT_MAX_PWR_LVL)%nat ->
  wf_power_state st -> nonneg_state st ->
  coordinated (voted c st end_lvl s) c end_lvl st st' ->
  inv (entered c st' end_lvl (set_cpu_state c v0 (voted c st end_lvl s)))
      (set_phase c (Sleeping end_lvl st' m 0 b) ph).
Proof.
  intros Hinv Hc Hph He Hst Hnn Hco.
  set (s1 := voted c st end_lvl s). assert (topo s1 = topo s) as Ht1 by apply topo_voted.
  destruct (i_cpu _ _ Hinv c Hc) as [(d & Hd & Ha & Hl) _ Hreq]. rewrite Hph in Ha, Hl, Hreq.
  assert (set_cpu_state c v0 s1 = set_cpu_data (zupdate (psci_svc_cpu_data s) c
            (with_cpu_local_state v0 d)) s1) as Hs2.
  { unfold set_cpu_state. change (psci_svc_cpu_data s1) with (psci_svc_cpu_data s). by rewrite Hd. }
  assert (topo (set_cpu_state c v0 s1) = topo s) as Ht2 by (by rewrite topo_set_cpu_state).
  assert (forall c' l, valid_lvl l -> req_state s1 l c' =
    if decide (c' = c /\ (l <= end_lvl)%nat) then pds st !! l else req_state s l c') as Hr.
  { intros c' l Hvl. apply req_state_voted; try done. apply Hinv. }
  assert (forall l c', req_state (entered c st' end_lvl (set_cpu_state c v0 s1)) l c' =
            req_state s1 l c') as Hre by (rewrite Hs2; done).
  eapply inv_update with (s := s); eauto.
  - by rewrite topo_entered.
  - rewrite Hs2. apply (req_nonneg_voted s); [apply Hinv|done].
  - apply upheld_ext with (s := entered c st' end_lvl s1).
    + by rewrite !topo_entered, Ht1.
    + rewrite Hs2. unfold entered. simpl. rewrite <- Hs2, Ht2. by rewrite Ht1.
    + by rewrite Hs2.
    + apply upheld_coordinated; try done; apply Hinv.
  - intros c' Hne. rewrite Hs2. simpl. by rewrite zlookup_zupdate_ne.
  - intros c' l Hne Hvl. rewrite Hre, Hr, decide_False by tauto. done.
  - intros _. split; [|cbn; destruct b; lia|].
    + rewrite Hs2. eexists. simpl. rewrite zlookup_zupdate_eq by (by eapply zlookup_lt_Some).
      split; [done|]. done.
    + intros l Hvl Hlt. unfold valid_lvl in *. cbn in Hlt, Hreq. destruct b; [lia|].
      rewrite Hre, Hr, decide_False by (done || lia). apply Hreq; [done|lia].
Qed.

Lemma wp_coordinate_enter s ph c end_lvl st m b (Q : psci_power_state_t -> psci_state -> Prop) :
  inv s ph -> valid_cpu (topo s) c -> ph c = Running b -> (end_lvl <= PLAT_MAX_PWR_LVL)%nat ->
  wf_power_state st -> nonneg_state st ->
  (forall st' s', inv s' (set_phase c (Sleeping end_lvl st' m 0 b) ph) -> topo s' = topo s -> Q st' s') ->
  wp (let! st' := psci_do_state_coordination c end_lvl st in
      psci_set_target_local_pwr_states c end_lvl st' ;; ret st') Q (fun _ _ => True) s.
Proof.
  intros Hinv Hc Hph He Hst Hnn HQ.
  destruct (coordination_spec target_total s c end_lvl st) as (st' & Hrun & Hco); try done.
  { apply Hinv. }
  eapply wp_bind_exact; [exact Hrun|].
  destruct (wf_power_state_lookup st' 0) as [v0 Hv0]; [apply Hco|lia|].
  eapply wp_bind_exact; [apply set_target_run; rewrite ?topo_voted; eauto; [apply Hinv|apply Hco]|].
  apply wp_ret. apply HQ; [by apply inv_lowered with (st := st)|].
  by rewrite topo_entered, topo_set_cpu_state, topo_voted.
Qed.
End Steps.

(** Runs past a command that keeps the invariant's part of the state. *)
Ltac skip :=
  lazymatch goal with
  | Hinv : inv ?s ?ph, Hc : topo ?s = _ |- wp (bind _ _) _ _ ?s =>
      eapply wp_skip; [by frame|exact Hinv|exact Hc|]; clear Hinv Hc; try clear s;
      let s' := fresh s in intros ? s' Hinv Hc; cbv beta
  end.
Ltac finish :=
  lazymatch goal with
  | Hinv : inv ?s ?ph |- wp _ _ _ ?s =>
      eapply wp_last; [by frame|exact Hinv|]; clear Hinv; intros
  end.

Section StepRules.
Context `{Cfg : PsciConfig} `{Plat : Platform}.
Context `{!CoordPlatform}.

Lemma wp_then_ret {A B} (c1 : psci A) (c2 : A -> psci unit) (k : A -> psci B) Q E s :
  wp (let! a := c1 in c2 a ;; ret a) (fun a s' => wp (k a) Q E s') E s ->
  wp (let! a := c1 in c2 a ;; k a) Q E s.
Proof.
  unfold wp, bind, ret. destruct (c1 s) as [a s1|w s1]; [|done]. by destruct (c2 a s1).
Qed.

Lemma off_state_ok `{!PsciConfigOk} :
  wf_power_state psci_set_power_off_state /\ nonneg_state psci_set_power_off_state.
Proof.
  split; [apply length_replicate|]. apply Forall_replicate. pose proof cfg_states. lia.
Qed.

(** A phase that only forgets about the requests of [c]. *)
Lemma inv_phase s ph c p p' :
  inv s (set_phase c p ph) -> phase_aff p' = phase_aff p -> phase_lvl p' = phase_lvl p ->
  (phase_low p <= phase_low p' <= PLAT_MAX_PWR_LVL)%nat -> inv s (set_phase c p' ph).
Proof.
  intros [Hwf Hnn Hup Hcpu] Ha Hl Hlow. split; try done. intros c' Hc'.
  specialize (Hcpu c' Hc'). unfold set_phase in *. case_decide; [|done].
  destruct Hcpu as [Hd _ Hreq]. split; [by rewrite Ha, Hl|lia|].
  intros l Hvl Hlt. apply Hreq; [done|lia].
Qed.

Lemma wp_off_power_down `{!PsciConfigOk} s ph c b :
  inv s ph -> valid_cpu (topo s) c -> ph c = Running b ->
  wp (cpu_off_power_down c PLAT_MAX_PWR_LVL psci_set_power_off_state)
     (fun _ s' => inv s' (set_phase c GoingOff ph)) (fun _ _ => True) s.
Proof.
  intros Hinv Hc Hph. destruct off_state_ok as [Hst Hnn].
  unfold cpu_off_power_down. apply wp_then_ret.
  eapply (wp_coordinate_enter s ph c) with (m := 0%nat); try done.
  intros st s1 Hinv1 Ht. clear Hinv.
  apply (inv_phase _ _ _ _ GoingOff) in Hinv1; [|done|done|cbn; destruct b; lia].
  unfold psci_find_max_off_lvl. repeat skip. by finish.
Qed.

(** What a CPU is after the locked part of CPU_OFF. Its result is the answer of
    the Secure Payload Dispatcher, which refuses before anything has changed, or
    else that of the early hook. *)
Definition off_phase (s : psci_state) (c rc : Z) (ph : Z -> phase) : Z -> phase :=
  if rc =? PSCI_E_SUCCESS then set_phase c GoingOff ph
  else match psci_spd_pm s ≫= svc_off with Some _ => ph | None => set_phase c (Running true) ph end.

Lemma inv_set_phase_twice s ph c p p' :
  inv s (set_phase c p' (set_phase c p ph)) -> inv s (set_phase c p' ph).
Proof.
  intros [Hwf Hnn Hup Hcpu]. split; try done. intros c' Hc'. specialize (Hcpu c' Hc').
  unfold set_phase in *. by case_decide.
Qed.

Lemma inv_trace s ph tr : inv s ph -> inv (set_trace tr s) ph.
Proof. by apply inv_core. Qed.

Lemma wp_off_locked `{!PsciConfigOk} s ph c b early :
  inv s ph -> valid_cpu (topo s) c -> ph c = Running b ->
  wp (cpu_off_locked c PLAT_MAX_PWR_LVL psci_set_power_off_state (path (topo s) c PLAT_MAX_PWR_LVL) early)
     (fun r s' => inv s' (off_phase s c (fst r) ph)) (fun _ _ => True) s.
Proof.
  intros Hinv Hc Hph. unfold cpu_off_locked, off_phase.
  eapply wp_bind_exact; [by apply acquire_run; [apply Hinv|..]|]. apply wp_bind, wp_gets.
  set (tr := rev _ ++ _). apply (inv_trace _ _ tr) in Hinv. change (psci_spd_pm (set_trace tr s)) with (psci_spd_pm s).
  assert (topo (set_trace tr s) = topo s) as Ht by done. set (s1 := set_trace tr s) in *. clearbody s1.
  apply wp_bind. eapply wp_mono with (Q := fun r s' => inv s' (if fst r =? PSCI_E_SUCCESS then set_phase c GoingOff ph
    else match psci_spd_pm s ≫= svc_off with Some _ => ph | None => set_phase c (Running true) ph end)).
  - destruct (psci_spd_pm s ≫= svc_off) as [hook|].
    + skip. skip. destruct (_ =? _) eqn:Hrc; simpl; [|apply wp_ret; simpl; by rewrite Hrc].
      apply wp_bind. eapply wp_mono; [apply (wp_off_power_down _ ph c b); by rewrite ?Ht| |done].
      intros st s2 Hinv2. apply wp_ret. simpl. by rewrite Hrc.
    + apply wp_bind. eapply wp_mono; [apply (wp_off_power_down _ ph c b); by rewrite ?Ht| |done].
      intros st s2 Hinv2. apply wp_ret. simpl. destruct (_ =? _); [done|].
      eapply inv_phase; [exact Hinv2|done..|]. cbn. lia.
  - intros r s2 Hinv2. apply wp_bind. finish. by apply wp_ret.
  - done.
Qed.

Lemma wp_off_commit s ph c :
  inv s ph -> ph c = GoingOff ->
  wp (cpu_off_commit c) (fun _ s' => inv s' (set_phase c Off ph)) (fun _ _ => True) s.
Proof.
  intros Hinv Hph. unfold cpu_off_commit. apply wp_bind.
  eapply wp_write_data with (p := Off); rewrite ?Hph; try done.
  intros s1 Hinv1 Ht. by finish.
Qed.

(** The affinity state of a CPU that is off or about to be turned on. *)
Lemma wp_set_aff s ph t p a (Q : unit -> psci_state -> Prop) :
  inv s (set_phase t p ph) -> p = Off \/ p = OnPending -> a <> AFF_STATE_ON ->
  (forall s', inv s' (set_phase t (match a with AFF_STATE_OFF => Off | _ => OnPending end) ph) ->
     topo s' = topo s -> Q tt s') ->
  wp (psci_set_aff_info_state_by_idx t a) Q (fun _ _ => True) s.
Proof.
  intros Hinv Hp Ha HQ. unfold psci_set_aff_info_state_by_idx.
  eapply wp_write_data with (p := match a with AFF_STATE_OFF => Off | _ => OnPending end);
    [exact Hinv|done| | |].
  - intros d _ _ Hl. rewrite set_phase_eq in Hl. by destruct a, Hp as [->| ->].
  - intros _. rewrite set_phase_eq. by destruct a, Hp as [->| ->].
  - intros s' Hinv' Ht. apply HQ; try done. by eapply inv_set_phase_twice.
Qed.

(** A phase of a CPU outside the system does not matter. *)
Lemma inv_phase_irrelevant s ph c p :
  (valid_cpu (topo s) c -> ph c = p) -> inv s (set_phase c p ph) <-> inv s ph.
Proof.
  intros Hp. split; intros [Hwf Hnn Hup Hcpu]; split; try done; intros c' Hc';
    specialize (Hcpu c' Hc'); unfold set_phase in *; case_decide; subst; try done;
    specialize (Hp Hc'); by rewrite Hp in *.
Qed.

(** An affinity state OFF tells the phase. *)
Lemma inv_aff_off s ph t d :
  inv s ph -> (psci_svc_cpu_data s).[t] = Some d -> aff_info_state d = AFF_STATE_OFF ->
  valid_cpu (topo s) t -> ph t = Off.
Proof.
  intros Hinv Hd Ha Ht. destruct (i_cpu _ _ Hinv t Ht) as [(d' & Hd' & Ha' & _) _ _].
  assert (d' = d) as -> by congruence. rewrite Ha in Ha'. by destruct (ph t).
Qed.

Lemma wp_cpu_on_start s ph t target_cpu ep :
  inv s ph ->
  wp (psci_cpu_on_start t target_cpu ep)
     (fun rc s' => inv s' (if rc =? PSCI_E_SUCCESS then set_phase t OnPending ph else ph))
     (fun _ _ => True) s.
Proof.
  intros Hinv. assert (topo s = topo s) as Ht by done. revert Ht. generalize (topo s) at 2.
  intros tp Ht. unfold psci_cpu_on_start, required.
  destruct (PLATFORM_CORE_COUNT <=? t); [by apply wp_ret|].
  skip. rename a into hook. skip. skip.
  unfold psci_get_aff_info_state_by_idx at 1, cpu_data at 1.
  apply wp_bind. apply wp_bind. unfold wp at 1. destruct (_.[t]) as [d|] eqn:Hd; [|done].
  cbn [deref ret]. apply wp_ret. apply wp_bind.
  eapply wp_mono with
    (Q := fun rc s' => inv s' (if rc =? PSCI_E_SUCCESS then set_phase t OnPending ph else ph)).
  - destruct (aff_info_state d) eqn:Ha; cbn [cpu_on_validate_state]; try by apply wp_ret.
    pose proof (inv_aff_off _ _ _ _ Hinv Hd Ha) as Hoff. rewrite Ht in Hoff.
    apply (inv_phase_irrelevant _ _ t Off) in Hinv; [|by rewrite Ht]. clear Hd Ha d.
    change (negb (PSCI_E_SUCCESS =? PSCI_E_SUCCESS)) with false. cbv iota.
    skip. skip. apply wp_bind. eapply wp_set_aff; [exact Hinv|by left|done|].
    intros s1 Hinv1 Ht1. rewrite Ht in Ht1. clear Hinv Ht s. cbv beta iota in *. skip.
    apply wp_bind.
    eapply wp_mono with (Q := fun _ s' => inv s' (set_phase t OnPending ph) /\ topo s' = tp).
    + apply wp_when; [|done]. intros _. skip. apply wp_bind.
      eapply wp_set_aff; [exact Hinv1|by right|done|]. cbv beta iota.
      intros s2 Hinv2 Ht. rewrite Ht1 in Ht. skip.
      apply wp_frame; [by frame|]. intros _ s3 Hcore.
      pose proof (f_equal c_topo Hcore) as Htp. cbn in Htp. split; [by eapply inv_core|congruence].
    + intros _ s2 [Hinv2 Ht2]. skip. skip. rename a3 into rc. skip.
      apply wp_bind. apply wp_when.
      * intros Hrc%negb_true_iff. eapply wp_set_aff; [exact Hinv2|by right|done|]. cbv beta iota.
        intros s3 Hinv3 Ht3. apply wp_ret. rewrite Hrc.
        eapply inv_phase_irrelevant; [|exact Hinv3]. by rewrite Ht3, Ht2.
      * intros Hrc%negb_false_iff. apply wp_ret. by rewrite Hrc.
    + done.
  - intros rc s1 Hinv1. apply wp_bind. finish. by apply wp_ret.
  - done.
Qed.

Lemma wp_cpu_on s ph target_cpu ep ctx :
  inv s ph ->
  wp (psci_cpu_on target_cpu ep ctx)
     (fun rc s' => inv s' (if rc =? PSCI_E_SUCCESS
        then set_phase (u32 (plat_core_pos_by_mpidr target_cpu)) OnPending ph else ph))
     (fun _ _ => True) s.
Proof.
  intros Hinv. assert (topo s = topo s) as Ht by done. unfold psci_cpu_on, psci_cpu_on_by_core_pos.
  destruct (is_valid_mpidr _); cbn [negb]; [|by apply wp_ret].
  skip. destruct (fst a =? PSCI_E_SUCCESS) eqn:Ha; cbn [negb]; [|apply wp_ret; by rewrite Ha].
  by apply wp_cpu_on_start.
Qed.

(** ** Suspending and resuming *)

Context (no_os_init : PSCI_OS_INIT_MODE = false).

Lemma wp_suspend_coordinate s c e st (Q : Z + psci_power_state_t -> psci_state -> Prop) :
  wf_topo (topo s) -> valid_cpu (topo s) c -> (e <= PLAT_MAX_PWR_LVL)%nat -> wf_power_state st ->
  (forall rc, Q (inl rc) s) ->
  (forall st', coordinated (voted c st e s) c e st st' -> Q (inr st') (voted c st e s)) ->
  wp (suspend_coordinate c e st) Q (fun _ _ => True) s.
Proof.
  intros Hwf Hc He Hst Hinl Hinr. unfold suspend_coordinate. rewrite no_os_init. wp_steps.
  destruct (_ =? 0); cbn [negb]; [|apply wp_ret, Hinl]. wp_steps. cbn [andb].
  destruct (coordination_spec target_total s c e st) as (st' & Hrun & Hco); try done.
  eapply wp_bind_exact; [exact Hrun|]. apply wp_ret.
  destruct (pwr_domain_validate_suspend _); apply wp_ret; by apply Hinr.
Qed.

(** [psci_set_suspend_pwrlvl] of a sleeping CPU. *)
Lemma wp_set_suspend_pwrlvl s ph c e st m pd b pd' (Q : unit -> psci_state -> Prop) :
  inv s (set_phase c (Sleeping e st m pd b) ph) -> (e <= PLAT_MAX_PWR_LVL)%nat ->
  (forall s', inv s' (set_phase c (Sleeping e st m pd' b) ph) -> topo s' = topo s -> Q tt s') ->
  wp (psci_set_suspend_pwrlvl c (phase_lvl (Sleeping e st m pd' b))) Q (fun _ _ => True) s.
Proof.
  intros Hinv He HQ. unfold psci_set_suspend_pwrlvl.
  eapply wp_write_data with (p := Sleeping e st m pd' b); [exact Hinv|done| | |].
  - intros d _ Ha _. by rewrite set_phase_eq in Ha.
  - intros _. rewrite set_phase_eq. cbn. destruct b; lia.
  - intros s' Hinv' Ht. apply HQ; [|done]. by eapply inv_set_phase_twice.
Qed.

Lemma sleeping_rename s ph c e st m st' m' pd b :
  inv s (set_phase c (Sleeping e st m pd b) ph) -> (e <= PLAT_MAX_PWR_LVL)%nat ->
  inv s (set_phase c (Sleeping e st' m' pd b) ph).
Proof. intros Hinv He. eapply inv_phase; [exact Hinv|done|done|cbn; destruct b; lia]. Qed.

Lemma wp_pwrdown_start s ph c e st m t pd b (Q : unit -> psci_state -> Prop) :
  inv s (set_phase c (Sleeping e st m 0 b) ph) -> topo s = t -> (e <= PLAT_MAX_PWR_LVL)%nat ->
  pd <> 0 ->
  (forall s', inv s' (set_phase c (Sleeping e st m pd b) ph) -> topo s' = t -> Q tt s') ->
  wp (psci_suspend_to_pwrdown_start c e m st) Q (fun _ _ => True) s.
Proof.
  intros Hinv Ht He Hpd HQ. unfold psci_suspend_to_pwrdown_start. rewrite no_os_init. cbn [andb].
  skip. skip. apply wp_bind.
  assert (e = phase_lvl (Sleeping e st m pd b)) as Hlvl
    by (cbn; by rewrite (proj2 (Z.eqb_neq pd 0))).
  rewrite Hlvl at 1. eapply wp_set_suspend_pwrlvl; [exact Hinv|done|].
  intros s1 Hinv1 Ht1. rewrite Ht in Ht1. clear Hinv. skip. skip.
  apply wp_frame; [by frame|]. intros [] s2 Hcore.
  pose proof (f_equal c_topo Hcore) as Htp. cbn in Htp. apply HQ; [by eapply inv_core|congruence].
Qed.

Lemma wp_suspend_enter s ph c e st pd nodes t b :
  inv s ph -> topo s = t -> valid_cpu t c -> ph c = Running b -> (e <= PLAT_MAX_PWR_LVL)%nat ->
  wf_power_state st -> nonneg_state st ->
  wp (suspend_enter c e st pd nodes)
     (fun r s' => match r with
      | inl _ => inv s' ph
      | inr (st', m) => inv s' (set_phase c (Sleeping e st' m pd b) ph)
      end) (fun _ _ => True) s.
Proof.
  intros Hinv Ht Hc Hph He Hst Hnn. unfold suspend_enter. skip.
  apply wp_bind. apply wp_suspend_coordinate; try done; [apply Hinv|by rewrite Ht| |].
  { intros rc. apply wp_bind. finish. by apply wp_ret. }
  intros st' Hco. destruct (wf_power_state_lookup st' 0) as [v0 Hv0]; [apply Hco|lia|].
  eapply wp_bind_exact.
  { apply set_target_run; rewrite ?topo_voted, ?Ht; eauto; [rewrite <- Ht; apply Hinv|apply Hco]. }
  pose proof (inv_lowered s ph c e st st' v0 0 b Hinv) as Hlow. rewrite Ht in Hlow.
  specialize (Hlow Hc Hph He Hst Hnn Hco).
  assert (topo (entered c st' e (set_cpu_state c v0 (voted c st e s))) = t) as Ht'
    by by rewrite topo_entered, topo_set_cpu_state, topo_voted.
  revert Hlow Ht'. generalize (entered c st' e (set_cpu_state c v0 (voted c st e s))).
  clear Hinv Ht Hco s. intros s Hinv Ht. skip. apply wp_bind.
  eapply wp_mono with (Q := fun m s' => inv s' (set_phase c (Sleeping e st' m pd b) ph) /\ topo s' = t).
  - destruct (Z.eqb_spec pd 0) as [->|Hpd]; cbn [negb].
    + apply wp_ret. done.
    + unfold psci_find_max_off_lvl. skip. apply wp_bind.
      eapply wp_pwrdown_start with (pd := pd); [by eapply sleeping_rename|done|done|done|].
      intros s1 Hinv1 Ht1. by apply wp_ret.
  - intros m s1 [Hinv1 Ht1]. repeat skip. by apply wp_ret.
  - done.
Qed.

Lemma wp_powerdown_finish s ph c e st m pd b t m' st' ab (Q : unit -> psci_state -> Prop) :
  inv s (set_phase c (Sleeping e st m pd b) ph) -> topo s = t -> (e <= PLAT_MAX_PWR_LVL)%nat ->
  (forall s', inv s' (set_phase c (Sleeping e st m 0 b) ph) -> topo s' = t -> Q tt s') ->
  wp (psci_cpu_suspend_to_powerdown_finish c m' st' ab) Q (fun _ _ => True) s.
Proof.
  intros Hinv Ht He HQ. unfold psci_cpu_suspend_to_powerdown_finish.
  do 8 skip. apply wp_bind.
  change PLAT_MAX_PWR_LVL with (phase_lvl (Sleeping e st m 0 b)) at 1.
  eapply wp_set_suspend_pwrlvl; [exact Hinv|done|]. intros s1 Hinv1 Ht1.
  apply wp_frame; [by frame|]. intros [] s2 Hcore.
  pose proof (f_equal c_topo Hcore) as Htp. cbn in Htp. apply HQ; [by eapply inv_core|congruence].
Qed.

Lemma wp_suspend_wakeup s ph c e st m pd b nodes t :
  inv s ph -> topo s = t -> valid_cpu t c -> ph c = Sleeping e st m pd b ->
  wp (suspend_wakeup c e st m pd nodes) (fun _ s' => inv s' (set_phase c (woken (ph c)) ph))
     (fun _ _ => True) s.
Proof.
  intros Hinv Ht Hc Hph. rewrite Hph. cbn [woken].
  assert (e <= PLAT_MAX_PWR_LVL)%nat as He.
  { rewrite <- Ht in Hc. pose proof (ci_low _ _ _ (i_cpu _ _ Hinv c Hc)) as Hl. rewrite Hph in Hl. cbn in Hl. destruct b; lia. }
  apply (inv_phase_irrelevant _ _ c (Sleeping e st m pd b)) in Hinv; [|done].
  unfold suspend_wakeup. do 4 skip. apply wp_bind.
  eapply wp_mono with (Q := fun _ s' => inv s' (set_phase c (Sleeping e st m 0 b) ph) /\ topo s' = t).
  - destruct (pd =? 0) eqn:Hpd; cbn [negb].
    + unfold psci_cpu_suspend_to_standby_finish. skip.
      change PLAT_MAX_PWR_LVL with (phase_lvl (Sleeping e st m 0 b)) at 1.
      eapply wp_set_suspend_pwrlvl; [exact Hinv|done|]. intros s1 Hinv1 Ht1.
      split; [done|congruence].
    + by eapply wp_powerdown_finish.
  - intros _ s1 [Hinv1 Ht1]. skip. apply wp_bind.
    eapply (wp_set_run _ _ _ _ (b && (e <? PLAT_MAX_PWR_LVL)%nat)); [exact Hinv1|by rewrite Ht1|done|by rewrite set_phase_eq| |].
    + rewrite set_phase_eq. cbn [phase_low]. destruct b; cbn [andb]; [intros Hlt%Nat.ltb_ge; lia|intros _; apply Nat.le_refl].
    + intros s2 Hinv2. finish. by eapply inv_set_phase_twice.
  - done.
Qed.

Lemma wp_standby s ph c st :
  inv s ph -> wp (psci_cpu_standby c st) (fun _ s' => inv s' ph) (fun _ _ => True) s.
Proof.
  intros Hinv. assert (topo s = topo s) as Ht by done. unfold psci_cpu_standby.
  assert (forall s v (Q : unit -> psci_state -> Prop),
    inv s ph -> (forall s', inv s' ph -> topo s' = topo s -> Q tt s') ->
    wp (psci_set_cpu_local_state c v) Q (fun _ _ => True) s) as Hset.
  { intros s1 v Q Hi HQ. destruct (decide (valid_cpu (topo s1) c)) as [Hv|Hv].
    - pose proof (ci_low _ _ _ (i_cpu _ _ Hi c Hv)).
      eapply wp_write_data with (p := ph c); [exact Hi|done|done|done|].
      intros s2 Hi2 Ht2. apply HQ; [|done]. by eapply set_phase_same.
    - eapply wp_write_data with (p := ph c); [exact Hi|done|done|done|].
      intros s2 Hi2 Ht2. apply HQ; [|done]. by eapply set_phase_same. }
  destruct (cpu_standby _); cbn [negb]; [|by apply wp_ret].
  skip. apply wp_bind, Hset; [done|]. clear Hinv. intros s1 Hinv1 Ht1. clear Ht. do 3 skip.
  apply wp_bind, Hset; [done|]. intros s2 Hinv2 Ht2. do 3 skip. by apply wp_ret.
Qed.

(** ** Warm boot *)

Lemma aff_of_phase s ph c :
  inv s ph -> valid_cpu (topo s) c ->
  psci_get_aff_info_state_by_idx c s = Done (phase_aff (ph c)) s.
Proof.
  intros Hinv Hc. destruct (i_cpu _ _ Hinv c Hc) as [(d & Hd & Ha & _) _ _].
  rewrite (aff_run _ _ _ Hd). by rewrite Ha.
Qed.

Lemma pwrlvl_of_phase s ph c :
  inv s ph -> valid_cpu (topo s) c ->
  psci_get_suspend_pwrlvl c s = Done (phase_lvl (ph c)) s.
Proof.
  intros Hinv Hc. destruct (i_cpu _ _ Hinv c Hc) as [(d & Hd & _ & Hl) _ _].
  unfold psci_get_suspend_pwrlvl, cpu_data, bind. rewrite Hd. simpl. by rewrite <- Hl.
Qed.

(** The phases a CPU warm boots from. *)
Definition powered_down (p : phase) : Prop :=
  match p with
  | OnPending => True
  | Sleeping _ _ _ pd _ => pd <> 0
  | _ => False
  end.

(** A powered-down CPU restores the levels it may have lowered, unless it had
    lowered others before. *)
Lemma powered_down_lvl p b :
  powered_down p -> woken p = Running b -> (phase_low p <= PLAT_MAX_PWR_LVL)%nat ->
  (phase_lvl p <= PLAT_MAX_PWR_LVL)%nat /\ (b = false -> (phase_low p <= phase_lvl p)%nat).
Proof.
  destruct p as [| | | |e st m pd b']; try done; cbn; intros Hpd [= <-] Hlow.
  rewrite (proj2 (Z.eqb_neq pd 0)) by done. destruct b'; cbn; [|lia]. split; [lia|]. intros Hlt%Nat.ltb_ge. lia.
Qed.

Lemma woken_running p : exists b, woken p = Running b.
Proof. destruct p; by eexists. Qed.

Lemma wp_warmboot s ph c t :
  inv s ph -> topo s = t -> valid_cpu t c -> powered_down (ph c) ->
  wp (psci_warmboot_entrypoint c) (fun _ s' => inv s' (set_phase c (woken (ph c)) ph))
     (fun _ _ => True) s.
Proof.
  intros Hinv Ht Hc Hpd. unfold psci_warmboot_entrypoint.
  assert (phase_low (ph c) <= PLAT_MAX_PWR_LVL)%nat as Hlow.
  { rewrite <- Ht in Hc. apply (i_cpu _ _ Hinv c Hc). }
  destruct (woken_running (ph c)) as [b Hb]. rewrite Hb.
  destruct (powered_down_lvl (ph c) b Hpd Hb Hlow) as [Hmax Hle].
  skip. skip. unfold get_power_on_target_pwrlvl. apply wp_bind.
  eapply wp_bind_exact; [apply (pwrlvl_of_phase s ph); [done|by rewrite Ht]|].
  skip. apply wp_ret. do 4 skip.
  eapply wp_bind_exact; [apply (aff_of_phase s ph); [done|by rewrite Ht]|].
  apply wp_bind.
  eapply wp_mono with (Q := fun _ s' => topo s' = t /\ exists p, inv s' (set_phase c p ph) /\
    phase_lvl p = PLAT_MAX_PWR_LVL /\ phase_low p = phase_low (ph c)).
  - destruct (ph c) as [| | | |e st' m pd b'] eqn:Hph; try done.
    + cbn [phase_aff]. rewrite bool_decide_eq_true_2 by done.
      apply wp_frame; [by frame|]. intros _ s1 Hcore.
      pose proof (f_equal c_topo Hcore) as Htp. cbn in Htp. split; [congruence|].
      exists OnPending. split; [|done]. apply inv_phase_irrelevant; [done|]. by eapply inv_core.
    + cbn [phase_aff]. rewrite bool_decide_eq_false_2 by done. unfold psci_find_max_off_lvl.
      apply (inv_phase_irrelevant _ _ c (Sleeping e st' m pd b')) in Hinv; [|done].
      skip. skip. eapply wp_powerdown_finish; [done|done|cbn in Hlow; destruct b'; lia|]. intros s1 Hinv1 Ht1.
      split; [done|]. by exists (Sleeping e st' m 0 b').
  - intros _ s1 (Ht1 & p & Hinv1 & Hlvl & Hpl). skip. skip. skip. apply wp_bind.
    eapply (wp_set_run _ _ _ _ b); [exact Hinv1|by rewrite Ht1|done|by rewrite set_phase_eq| |].
    { rewrite set_phase_eq. rewrite Hpl. done. }
    intros s2 Hinv2. apply inv_set_phase_twice in Hinv2.
    assert (topo s2 = topo s2) as Ht2 by done. skip. by finish.
  - done.
Qed.

(** ** The system *)

Record system := { sys_psci : psci_state; sys_phase : Z -> phase }.

(** One step of one CPU. A run of a handler part that stops (a panic, an
    assertion) has no successor. A suspend request may be any vector of
    states: [psci_cpu_suspend] passes on only some of them. CPU_OFF calls the
    early hook without a lock; the locked part goes on with any answer of it
    but DENIED. *)
Inductive step : system -> system -> Prop :=
  | step_cpu_on s ph c b target_cpu ep ctx rc s' :
      valid_cpu (topo s) c -> ph c = Running b ->
      psci_cpu_on target_cpu ep ctx s = Done rc s' ->
      step {| sys_psci := s; sys_phase := ph |}
        {| sys_psci := s';
           sys_phase := if rc =? PSCI_E_SUCCESS
             then set_phase (u32 (plat_core_pos_by_mpidr target_cpu)) OnPending ph else ph |}
  | step_off_early s ph c b rc s' :
      valid_cpu (topo s) c -> ph c = Running b ->
      cpu_off_early psci_set_power_off_state s = Done rc s' ->
      step {| sys_psci := s; sys_phase := ph |} {| sys_psci := s'; sys_phase := ph |}
  | step_cpu_off s ph c b early nodes rc st s' :
      valid_cpu (topo s) c -> ph c = Running b ->
      early <> PSCI_E_DENIED -> (pwr_domain_off_early psci_plat_pm_ops = None -> early = PSCI_E_SUCCESS) ->
      psci_get_parent_pwr_domain_nodes c PLAT_MAX_PWR_LVL s = Done nodes s ->
      cpu_off_locked c PLAT_MAX_PWR_LVL psci_set_power_off_state nodes early s
        = Done (rc, st) s' ->
      step {| sys_psci := s; sys_phase := ph |} {| sys_psci := s'; sys_phase := off_phase s c rc ph |}
  | step_off_commit s ph c s' :
      valid_cpu (topo s) c -> ph c = GoingOff ->
      cpu_off_commit c s = Done tt s' ->
      step {| sys_psci := s; sys_phase := ph |}
        {| sys_psci := s'; sys_phase := set_phase c Off ph |}
  | step_suspend s ph c b e st pd nodes r s' :
      valid_cpu (topo s) c -> ph c = Running b ->
      (e <= PLAT_MAX_PWR_LVL)%nat -> wf_power_state st -> nonneg_state st ->
      psci_get_parent_pwr_domain_nodes c e s = Done nodes s ->
      suspend_enter c e st pd nodes s = Done r s' ->
      step {| sys_psci := s; sys_phase := ph |}
        {| sys_psci := s';
           sys_phase := match r with
             | inl _ => ph
             | inr (st', m) => set_phase c (Sleeping e st' m pd b) ph
             end |}
  | step_wakeup s ph c e st m pd b nodes s' :
      valid_cpu (topo s) c -> ph c = Sleeping e st m pd b ->
      psci_get_parent_pwr_domain_nodes c e s = Done nodes s ->
      suspend_wakeup c e st m pd nodes s = Done tt s' ->
      step {| sys_psci := s; sys_phase := ph |}
        {| sys_psci := s'; sys_phase := set_phase c (woken (ph c)) ph |}
  | step_warmboot s ph c s' :
      valid_cpu (topo s) c -> powered_down (ph c) ->
      psci_warmboot_entrypoint c s = Done tt s' ->
      step {| sys_psci := s; sys_phase := ph |}
        {| sys_psci := s'; sys_phase := set_phase c (woken (ph c)) ph |}
  | step_standby s ph c b st rc s' :
      valid_cpu (topo s) c -> ph c = Running b ->
      psci_cpu_standby c st s = Done rc s' ->
      step {| sys_psci := s; sys_phase := ph |} {| sys_psci := s'; sys_phase := ph |}.

Definition sys_inv (y : system) : Prop := inv (sys_psci y) (sys_phase y).

Lemma wp_elim {A} (cm : psci A) Q a s s' :
  wp cm Q (fun _ _ => True) s -> cm s = Done a s' -> Q a s'.
Proof. unfold wp. intros Hw Heq. by rewrite Heq in Hw. Qed.

Lemma preserves_off_early st : preserves (cpu_off_early st).
Proof. unfold cpu_off_early. destruct (pwr_domain_off_early _); by frame. Qed.

Lemma wp_off_early s ph st :
  inv s ph -> wp (cpu_off_early st) (fun _ s' => inv s' ph) (fun _ _ => True) s.
Proof. intros Hinv. eapply wp_last; [apply preserves_off_early|exact Hinv|done]. Qed.

Lemma step_inv `{!PsciConfigOk} y y' : step y y' -> sys_inv y -> sys_inv y'.
Proof.
  unfold sys_inv. destruct 1 as [s ph c b tg ep ctx rc s' Hc Hp Hrun|s ph c b rc s' Hc Hp Hrun
    |s ph c b early nodes rc st s' Hc Hp Hd Hs Hn Hrun
    |s ph c s' Hc Hp Hrun|s ph c b e st pd nodes r s' Hc Hp He Hst Hnn Hn Hrun
    |s ph c e st m pd b nodes s' Hc Hp Hn Hrun|s ph c s' Hc Hp Hrun|s ph c b st rc s' Hc Hp Hrun];
    cbn [sys_psci sys_phase]; intros Hinv.
  - exact (wp_elim _ _ _ _ _ (wp_cpu_on _ _ tg ep ctx Hinv) Hrun).
  - exact (wp_elim _ _ _ _ _ (wp_off_early _ _ _ Hinv) Hrun).
  - rewrite (get_parents_run s c PLAT_MAX_PWR_LVL (i_wf _ _ Hinv) Hc (Nat.le_refl _)) in Hn. injection Hn as <-.
    exact (wp_elim _ _ _ _ _ (wp_off_locked _ _ c b early Hinv Hc Hp) Hrun).
  - exact (wp_elim _ _ _ _ _ (wp_off_commit _ _ c Hinv Hp) Hrun).
  - pose proof (wp_elim _ _ _ _ _
      (wp_suspend_enter _ _ c e st pd nodes _ b Hinv eq_refl Hc Hp He Hst Hnn) Hrun) as Hres.
    cbv beta in Hres. by destruct r as [|[st' m]].
  - exact (wp_elim _ _ _ _ _ (wp_suspend_wakeup _ _ c e st m pd b nodes _ Hinv eq_refl Hc Hp) Hrun).
  - exact (wp_elim _ _ _ _ _ (wp_warmboot _ _ c _ Hinv eq_refl Hc Hp) Hrun).
  - exact (wp_elim _ _ _ _ _ (wp_standby _ _ c st Hinv) Hrun).
Qed.

Lemma reachable_inv `{!PsciConfigOk} y y' : rtc step y y' -> sys_inv y -> sys_inv y'.
Proof. induction 1; [done|]. intros. by eapply IHrtc, step_inv. Qed.
End StepRules.
