(* ===== verification/PsciBoot.v ===== *)
(** * PSCI: the state after a cold boot

    A decision procedure for well-formed trees, and the boot state from which
    the system starts. *)

From stdpp Require Import list_numbers.
From S2P Require Import Prelude PsciTypes PsciCommon PsciStat PsciHandlers PsciMain PsciSetup PsciDemo PsciTopology PsciCoord PsciNodes PsciFrame PsciInterface PsciSystem.

(** ** Checking a tree *)

Section Check.
Context `{Cfg : PsciConfig}.

Definition check_eps (t : topology) (c : Z) : bool :=
  match (t_data t).[c] with
  | Some (Some p) => (0 <=? p) && (p <? Z.of_nat (t_eps t))
  | _ => false
  end.

Definition check_row (t : topology) (l : nat) : bool :=
  match t_req t !! (l - 1)%nat with
  | Some n => t_cores t <=? Z.of_nat n
  | None => false
  end.

Definition covers (n : non_cpu_pd_node_t) (c : Z) : bool :=
  (cpu_start_idx n <=? c) && (c <? cpu_start_idx n + ncpus n).

Definition check_anc (t : topology) (c : Z) (l : nat) : bool :=
  match anc t c l with
  | Some p =>
      match (t_nodes t).[p] with
      | Some n =>
          (level n =? l)%nat && (lock_index n =? p) && covers n c &&
          (0 <=? cpu_start_idx n) && (cpu_start_idx n + ncpus n <=? t_cores t) &&
          forallb (fun c' => implb (covers n c') (bool_decide (anc t c' l = Some p)))
            (seqZ 0 (t_cores t))
      | None => false
      end
  | None => false
  end.

Definition check_topo (t : topology) : bool :=
  (0 <=? t_cores t) && (t_cores t <=? Z.of_nat (length (t_cpus t))) &&
  (t_cores t <=? Z.of_nat (length (t_data t))) &&
  (t_last t =? length (t_nodes t))%nat &&
  forallb (check_eps t) (seqZ 0 (t_cores t)) &&
  forallb (check_row t) (seq 1 PLAT_MAX_PWR_LVL) &&
  forallb (fun c => forallb (check_anc t c) (seq 1 PLAT_MAX_PWR_LVL)) (seqZ 0 (t_cores t)).

Lemma covers_spec n c : covers n c = true <-> node_covers n c.
Proof. unfold covers, node_covers. rewrite andb_true_iff, Z.leb_le, Z.ltb_lt. done. Qed.

Lemma forallb_seqZ (f : Z -> bool) n :
  forallb f (seqZ 0 n) = true -> forall c, 0 <= c < n -> f c = true.
Proof.
  rewrite forallb_forall. intros Hf c Hc. apply Hf. apply list_elem_of_In, elem_of_seqZ. lia.
Qed.

Lemma forallb_seq (f : nat -> bool) n :
  forallb f (seq 1 n) = true -> forall l, (1 <= l <= n)%nat -> f l = true.
Proof. rewrite forallb_forall. intros Hf l Hl. apply Hf, in_seq. lia. Qed.

Lemma check_anc_spec t c l :
  check_anc t c l = true ->
  exists p n, anc t c l = Some p /\ (t_nodes t).[p] = Some n /\
    (level n = l /\ lock_index n = p /\ node_covers n c /\
     0 <= cpu_start_idx n /\ cpu_start_idx n + ncpus n <= t_cores t) /\
    forall c', 0 <= c' < t_cores t -> node_covers n c' -> anc t c' l = Some p.
Proof.
  unfold check_anc. destruct (anc t c l) as [p|]; [|done].
  destruct ((t_nodes t).[p]) as [n|] eqn:Hn; [|done].
  rewrite !andb_true_iff, Nat.eqb_eq, Z.eqb_eq, covers_spec, !Z.leb_le.
  intros (((((Hl & Hk) & Hc) & H0) & He) & Hall). exists p, n. split_and!; try done.
  intros c' Hc' Hcov. pose proof (forallb_seqZ _ _ Hall c' Hc') as Hx. cbv beta in Hx.
  apply covers_spec in Hcov. rewrite Hcov in Hx. by apply bool_decide_eq_true in Hx.
Qed.

Lemma check_topo_sound t : check_topo t = true -> wf_topo t.
Proof.
  unfold check_topo. rewrite !andb_true_iff, !Z.leb_le, Nat.eqb_eq.
  intros ((((((H0 & Hcpus) & Hdata) & Hlast) & Heps) & Hrow) & Hanc). split; try done.
  - intros c Hc. pose proof (forallb_seqZ _ _ Heps c Hc) as Hx. unfold check_eps in Hx.
    destruct ((t_data t).[c]) as [[p|]|]; try done. exists p. split; [done|].
    apply andb_true_iff in Hx as [?%Z.leb_le ?%Z.ltb_lt]. lia.
  - intros l Hl. pose proof (forallb_seq _ _ Hrow l Hl) as Hx. unfold check_row in Hx.
    destruct (t_req t !! (l - 1)%nat) as [n|]; [|done]. exists n. apply Z.leb_le in Hx. done.
  - intros c l Hc Hl. pose proof (forallb_seqZ _ _ Hanc c Hc) as Hx.
    pose proof (forallb_seq _ _ Hx l Hl) as Hy. apply check_anc_spec in Hy as (p & n & ? & ? & ? & _). by exists p, n.
  - intros c c' l p n Hc Hc' Hl Hp Hn Hcov. pose proof (forallb_seqZ _ _ Hanc c Hc) as Hx.
    pose proof (forallb_seq _ _ Hx l Hl) as Hy.
    apply check_anc_spec in Hy as (p' & n' & Hp' & Hn' & _ & Hall).
    assert (p' = p) as -> by congruence. apply Hall; [done|]. congruence.
Qed.
End Check.

(** ** The boot state *)

Section Boot.
Context `{Cfg : PsciConfig} `{Plat : Platform}.

(** What [psci_setup] on CPU [c0] leaves: [c0] running with its domains, every
    other CPU off and asking for OFF. *)
Record booted (c0 : Z) (s : psci_state) : Prop := {
  b_wf : wf_topo (topo s);
  b_nonneg : req_nonneg s;
  b_data : forall c, valid_cpu (topo s) c -> exists d, (psci_svc_cpu_data s).[c] = Some d /\
    aff_info_state d = (if decide (c = c0) then AFF_STATE_ON else AFF_STATE_OFF) /\
    target_pwrlvl d = PLAT_MAX_PWR_LVL;
  b_req : forall c l, valid_cpu (topo s) c -> valid_lvl l ->
    req_state s l c = Some (if decide (c = c0) then PSCI_LOCAL_STATE_RUN else PLAT_MAX_OFF_STATE);
  b_nodes : forall l, valid_cpu (topo s) c0 -> valid_lvl l ->
    anc_state s c0 l = Some PSCI_LOCAL_STATE_RUN
}.

Definition boot_phase (c0 : Z) : Z -> phase := fun c => if decide (c = c0) then Running false else Off.

Definition boot_system (c0 : Z) (s : psci_state) : system :=
  {| sys_psci := s; sys_phase := boot_phase c0 |}.

Lemma booted_inv `{!PsciConfigOk} c0 s : booted c0 s -> sys_inv (boot_system c0 s).
Proof.
  intros [Hwf Hnn Hd Hreq Hn]. split; try done; cbn [boot_system sys_psci sys_phase].
  - intros c l Hc Hl Hr. rewrite Hreq in Hr by done. case_decide as Hcc; [subst; by apply Hn|].
    pose proof cfg_states. injection Hr as Hr. unfold PSCI_LOCAL_STATE_RUN in *. lia.
  - intros c Hc. destruct (Hd c Hc) as (d & Hdc & Ha & Hl). unfold boot_phase.
    split; [|by case_decide; cbn; lia|].
    + exists d. rewrite Ha, Hl. by case_decide.
    + intros l Hvl Hlt. rewrite Hreq by done. case_decide; [done|].
      cbn in Hlt. unfold valid_lvl in Hvl. lia.
Qed.
(** The same, by evaluation. *)
Definition check_booted_cpu (c0 : Z) (s : psci_state) (c : Z) : bool :=
  match (psci_svc_cpu_data s).[c] with
  | Some d =>
      bool_decide (aff_info_state d = (if decide (c = c0) then AFF_STATE_ON else AFF_STATE_OFF)) &&
      (target_pwrlvl d =? PLAT_MAX_PWR_LVL)%nat &&
      forallb (fun l => bool_decide (req_state s l c =
        Some (if decide (c = c0) then PSCI_LOCAL_STATE_RUN else PLAT_MAX_OFF_STATE)))
        (seq 1 PLAT_MAX_PWR_LVL)
  | None => false
  end.

Definition check_booted (c0 : Z) (s : psci_state) : bool :=
  check_topo (topo s) &&
  forallb (forallb (fun r => 0 <=? r)) (psci_req_local_pwr_states s) &&
  forallb (check_booted_cpu c0 s) (seqZ 0 (t_cores (topo s))) &&
  forallb (fun l => bool_decide (anc_state s c0 l = Some PSCI_LOCAL_STATE_RUN))
    (seq 1 PLAT_MAX_PWR_LVL).

Lemma check_booted_cpu_spec c0 s c :
  check_booted_cpu c0 s c = true ->
  (exists d, (psci_svc_cpu_data s).[c] = Some d /\
    aff_info_state d = (if decide (c = c0) then AFF_STATE_ON else AFF_STATE_OFF) /\
    target_pwrlvl d = PLAT_MAX_PWR_LVL) /\
  forall l, valid_lvl l -> req_state s l c =
    Some (if decide (c = c0) then PSCI_LOCAL_STATE_RUN else PLAT_MAX_OFF_STATE).
Proof.
  unfold check_booted_cpu. destruct (_.[c]) as [d|]; [|done].
  rewrite !andb_true_iff, bool_decide_eq_true, Nat.eqb_eq. intros ((Ha & Hl) & Hr).
  split; [by exists d|]. intros l Hvl. pose proof (forallb_seq _ _ Hr l Hvl) as Hx.
  by apply bool_decide_eq_true in Hx.
Qed.

Lemma check_booted_sound c0 s : check_booted c0 s = true -> booted c0 s.
Proof.
  unfold check_booted. rewrite !andb_true_iff. intros (((Ht & Hnn) & Hcpu) & Hn).
  pose proof (forallb_seqZ _ _ Hcpu) as Hc. split.
  - by apply check_topo_sound.
  - apply Forall_forall. intros row Hrow. apply Forall_forall. intros v Hv.
    rewrite forallb_forall in Hnn. apply list_elem_of_In in Hrow, Hv.
    specialize (Hnn row Hrow). rewrite forallb_forall in Hnn. by apply Z.leb_le, Hnn.
  - intros c Hv. by apply check_booted_cpu_spec, Hc.
  - intros c l Hv. by apply check_booted_cpu_spec, Hc.
  - intros l _ Hl. pose proof (forallb_seq _ _ Hn l Hl) as Hx. by apply bool_decide_eq_true in Hx.
Qed.
End Boot.

(** ** The demonstration platform *)

#[export] Instance demo_config_ok os a : @PsciConfigOk (demo_config os a).
Proof. split; cbn; (done || lia). Qed.

#[export] Instance demo_coord os a w :
  @CoordPlatform (demo_config os a) (@demo_platform (demo_config os a) w).
Proof. by apply default_coord_platform. Qed.

#[export] Instance demo_off os a w :
  @OffPlatform (demo_config os a) (@demo_platform (demo_config os a) w).
Proof. by apply default_off_platform. Qed.

(** The demonstration platform boots into such a state. *)
Lemma demo_boots os a w :
  (@psci_setup (demo_config os a) (@demo_platform (demo_config os a) w) demo_args 0
    (@cold_state (demo_config os a))) =
  Done 0 (demo_boot (demo_config os a) (@demo_platform (demo_config os a) w)).
Proof. destruct os, a, w; vm_compute; reflexivity. Qed.

Lemma demo_booted os a w :
  @booted (demo_config os a) 0
    (demo_boot (demo_config os a) (@demo_platform (demo_config os a) w)).
Proof.
  apply check_booted_sound. destruct os, a, w; vm_compute; reflexivity.
Qed.
