(* ===== verification/PsciBuild.v ===== *)
(** * PSCI: the tree that [psci_setup] builds

    [populate_power_domain_tree] turns the platform's breadth-first
    description into node arrays in which the nodes of a level are contiguous
    and their parents increase; [psci_update_pwrlvl_limits] then gives each
    node the range of its CPUs. From a description that fits the arrays,
    [psci_setup] returns in a booted state. *)

From stdpp Require Import list_numbers.
From S2P Require Import Prelude PsciTypes PsciCommon PsciStat PsciHandlers PsciMain PsciSetup PsciDemo PsciTopology PsciCoord PsciNodes PsciFrame PsciInterface PsciSystem PsciBoot.
#[local] Open Scope cmd_scope.

(** ** Descriptions *)

Definition zsum (l : list Z) : Z := foldr Z.add 0 l.

(** The entries of a description, level by level from the top: the first
    level has [n] entries, each the number of children of a node, and every
    further level has one entry per child of the previous one. *)
Fixpoint widths (n : Z) (lv : list (list Z)) : Prop :=
  match lv with
  | [] => True
  | L :: lv' => Z.of_nat (length L) = n /\ Forall (fun x => 0 <= x) L /\ widths (zsum L) lv'
  end.

(** Children of all the entries but those of the last level, and of the last
    level: the power domains and the CPUs. *)
Fixpoint desc_nodes (lv : list (list Z)) : Z :=
  match lv with
  | [] | [_] => 0
  | L :: lv' => zsum L + desc_nodes lv'
  end.

Fixpoint desc_cpus (lv : list (list Z)) : Z :=
  match lv with
  | [] => 0
  | [L] => zsum L
  | _ :: lv' => desc_cpus lv'
  end.

Lemma zsum_app l l' : zsum (l ++ l') = zsum l + zsum l'.
Proof. unfold zsum. induction l as [|x l IH]; simpl in *; lia. Qed.

Lemma zsum_nonneg l : Forall (fun x => 0 <= x) l -> 0 <= zsum l.
Proof. unfold zsum. induction 1; simpl; lia. Qed.

Lemma desc_nodes_nonneg n lv : widths n lv -> 0 <= desc_nodes lv.
Proof.
  revert n. induction lv as [|L lv IH]; intros n; [done|]. intros (_ & HL & Hw).
  pose proof (zsum_nonneg L HL). destruct lv as [|L' lv]; [done|].
  specialize (IH _ Hw). cbn [desc_nodes] in *. lia.
Qed.

(** ** Rows of nodes *)

(** A node without its list of children, which only OS-initiated mode
    records. *)
Definition bare (nd : non_cpu_pd_node_t) : non_cpu_pd_node_t := with_children 0 0 nd.

Section Build.
Context `{Cfg : PsciConfig} `{Plat : Platform}.

(** Nodes [a] to [b - 1] are fresh nodes of level [l], and their parents, of
    the next level, increase from [pa] to [pb - 1]. *)
Record row (nodes : list non_cpu_pd_node_t) (l : nat) (a b pa pb : Z) : Prop := {
  row_node : forall j, a <= j < b -> exists nd, nodes.[j] = Some nd /\ level nd = l /\
    lock_index nd = j /\ cpu_start_idx nd = 0 /\ ncpus nd = 0 /\
    ((l < PLAT_MAX_PWR_LVL)%nat -> pa <= parent_node nd < pb);
  row_mono : (l < PLAT_MAX_PWR_LVL)%nat -> forall j j' nd nd', a <= j <= j' -> j' < b ->
    nodes.[j] = Some nd -> nodes.[j'] = Some nd' -> parent_node nd <= parent_node nd'
}.

(** The same for the CPU nodes, and what is initialised of the CPUs. *)
Record cpu_row (cpus : list cpu_pd_node_t) (b pa pb : Z) : Prop := {
  cr_node : forall c, 0 <= c < b -> exists nd, cpus.[c] = Some nd /\
    ((0 < PLAT_MAX_PWR_LVL)%nat -> pa <= cpu_parent_node nd < pb);
  cr_mono : (0 < PLAT_MAX_PWR_LVL)%nat -> forall c c' nd nd', 0 <= c <= c' -> c' < b ->
    cpus.[c] = Some nd -> cpus.[c'] = Some nd' -> cpu_parent_node nd <= cpu_parent_node nd'
}.

Definition data_row (data : list psci_cpu_data_t) (b : Z) : Prop :=
  forall c, 0 <= c < b -> exists d, data.[c] = Some d /\
    aff_info_state d = AFF_STATE_OFF /\ target_pwrlvl d = PLAT_MAX_PWR_LVL.

(** A row only depends on the bare nodes of its range. *)
Lemma row_ext nodes nodes' l a b pa pb :
  (forall j, a <= j < b -> bare <$> nodes'.[j] = bare <$> nodes.[j]) ->
  row nodes l a b pa pb -> row nodes' l a b pa pb.
Proof.
  intros Heq [Hn Hm].
  assert (forall j nd', a <= j < b -> nodes'.[j] = Some nd' ->
    exists nd, nodes.[j] = Some nd /\ bare nd' = bare nd) as Hback.
  { intros j nd' Hj Hnd'. specialize (Heq j Hj). rewrite Hnd' in Heq.
    destruct (nodes.[j]) as [nd|]; [|done]. exists nd. split; [done|]. cbn in Heq. congruence. }
  split.
  - intros j Hj. destruct (Hn j Hj) as (nd & Hnd & H1 & H2 & H3 & H4 & H5).
    specialize (Heq j Hj). rewrite Hnd in Heq. destruct (nodes'.[j]) as [nd'|]; [|done].
    exists nd'. split; [done|]. injection Heq as E1 E2 E3 E4 E5 E6.
    rewrite E1, E2, E3, E5, E6. done.
  - intros Hl j j' nd nd' Hj Hj' Hnd Hnd'.
    destruct (Hback j nd) as (n1 & Hn1 & E1); [lia|done|].
    destruct (Hback j' nd') as (n2 & Hn2 & E2); [lia|done|].
    injection E1 as _ _ E1 _ _ _. injection E2 as _ _ E2 _ _ _. rewrite E1, E2. by eapply Hm.
Qed.

(** Extending a row by the children of one more parent. *)
Lemma row_extend nodes l a b n pa q :
  a <= b -> 0 <= n ->
  row nodes l a b pa q -> ((l < PLAT_MAX_PWR_LVL)%nat -> pa <= q) ->
  (forall j, b <= j < b + n -> exists nd, nodes.[j] = Some nd /\ level nd = l /\
     lock_index nd = j /\ cpu_start_idx nd = 0 /\ ncpus nd = 0 /\
     ((l < PLAT_MAX_PWR_LVL)%nat -> parent_node nd = q)) ->
  row nodes l a (b + n) pa (q + 1).
Proof.
  intros Hab Hn0 [Hn Hm] Hpq Hnew. split.
  - intros j Hj. destruct (decide (j < b)) as [Hlt|Hge].
    + destruct (Hn j) as (nd & ? & ? & ? & ? & ? & Hp); [lia|]. exists nd. split_and!; try done.
      intros Hl. specialize (Hp Hl). lia.
    + destruct (Hnew j) as (nd & ? & ? & ? & ? & ? & Hp); [lia|]. exists nd. split_and!; try done.
      intros Hl. specialize (Hp Hl). specialize (Hpq Hl). lia.
  - intros Hl j j' nd nd' Hj Hj' Hnd Hnd'. destruct (decide (j' < b)) as [Hlt|Hge].
    { eapply Hm; eauto; lia. }
    destruct (Hnew j') as (n2 & Hn2 & _ & _ & _ & _ & Hp2); [lia|].
    assert (n2 = nd') as -> by congruence. rewrite (Hp2 Hl).
    destruct (decide (j < b)) as [Hlt'|Hge'].
    + destruct (Hn j) as (n1 & Hn1 & _ & _ & _ & _ & Hp1); [lia|].
      assert (n1 = nd) as -> by congruence. specialize (Hp1 Hl). lia.
    + destruct (Hnew j) as (n1 & Hn1 & _ & _ & _ & _ & Hp1); [lia|].
      assert (n1 = nd) as -> by congruence. rewrite (Hp1 Hl). lia.
Qed.

Lemma row_nil nodes l a pa pb : row nodes l a a pa pb.
Proof. split; intros; lia. Qed.

Lemma cpu_row_extend cpus b n pa q cpus' :
  0 <= b -> 0 <= n ->
  cpu_row cpus b pa q -> ((0 < PLAT_MAX_PWR_LVL)%nat -> pa <= q) ->
  (forall c, 0 <= c < b -> cpus'.[c] = cpus.[c]) ->
  (forall c, b <= c < b + n -> exists nd, cpus'.[c] = Some nd /\
     ((0 < PLAT_MAX_PWR_LVL)%nat -> cpu_parent_node nd = q)) ->
  cpu_row cpus' (b + n) pa (q + 1).
Proof.
  intros Hb Hn0 [Hn Hm] Hpq Hold Hnew. split.
  - intros c Hc. destruct (decide (c < b)) as [Hlt|Hge].
    + destruct (Hn c) as (nd & ? & Hp); [lia|]. exists nd. rewrite Hold by lia. split; [done|].
      intros Hl. specialize (Hp Hl). lia.
    + destruct (Hnew c) as (nd & ? & Hp); [lia|]. exists nd. split; [done|].
      intros Hl. specialize (Hp Hl). specialize (Hpq Hl). lia.
  - intros Hl c c' nd nd' Hc Hc' Hnd Hnd'. destruct (decide (c' < b)) as [Hlt|Hge].
    { rewrite Hold in Hnd, Hnd' by lia. eapply (Hm Hl c c'); eauto; lia. }
    destruct (Hnew c') as (n2 & Hn2 & Hp2); [lia|].
    assert (n2 = nd') as -> by congruence. rewrite (Hp2 Hl).
    destruct (decide (c < b)) as [Hlt'|Hge'].
    + destruct (Hn c) as (n1 & Hn1 & Hp1); [lia|]. rewrite Hold in Hnd by lia.
      assert (n1 = nd) as -> by congruence. specialize (Hp1 Hl). lia.
    + destruct (Hnew c) as (n1 & Hn1 & Hp1); [lia|].
      assert (n1 = nd) as -> by congruence. rewrite (Hp1 Hl). lia.
Qed.

(** ** Creating the nodes *)

Lemma write_node_run s p nd f :
  (psci_non_cpu_pd_nodes s).[p] = Some nd ->
  write_non_cpu_node p f s = Done tt (set_nodes (zupdate (psci_non_cpu_pd_nodes s) p (f nd)) s).
Proof. intros Hn. unfold write_non_cpu_node, non_cpu_node, bind. by rewrite Hn. Qed.

Lemma write_cpu_node_run s c nd f :
  (psci_cpu_pd_nodes s).[c] = Some nd ->
  write_cpu_node c f s = Done tt (set_cpu_nodes (zupdate (psci_cpu_pd_nodes s) c (f nd)) s).
Proof. intros Hn. unfold write_cpu_node, cpu_node, bind. by rewrite Hn. Qed.

Lemma u16_small x : 0 <= x < 2 ^ 16 -> u16 x = x.
Proof. apply Z.mod_small. Qed.

Definition fits (s : psci_state) : Prop :=
  Z.of_nat (length (psci_non_cpu_pd_nodes s)) = PSCI_NUM_NON_CPU_PWR_DOMAINS /\
  Z.of_nat (length (psci_cpu_pd_nodes s)) = PLATFORM_CORE_COUNT /\
  Z.of_nat (length (psci_svc_cpu_data s)) = PLATFORM_CORE_COUNT /\
  PSCI_NUM_NON_CPU_PWR_DOMAINS <= 2 ^ 16 /\ PLATFORM_CORE_COUNT <= 2 ^ 16.

(** The children of one entry above the CPU level. *)
Lemma wp_init_nodes lvl b n q s :
  fits s -> (0 < lvl)%nat -> 0 <= b -> 0 <= n -> b + n <= PSCI_NUM_NON_CPU_PWR_DOMAINS ->
  wpd (for_each (seqZ b n) (fun j => psci_init_pwr_domain_node (u16 j) q lvl))
    (fun _ s' => exists nodes', s' = set_nodes nodes' s /\
       length nodes' = length (psci_non_cpu_pd_nodes s) /\
       forall j, nodes'.[j] = if decide (b <= j < b + n)
         then (fun nd => init_node nd j q lvl) <$> (psci_non_cpu_pd_nodes s).[j]
         else (psci_non_cpu_pd_nodes s).[j]) s.
Proof.
  intros (Hlen & _ & _ & H16 & _) Hlvl Hb Hn Hbn. eapply wp_mono.
  - apply (wp_for_each _ _ (fun done s' => exists nodes', s' = set_nodes nodes' s /\
      length nodes' = length (psci_non_cpu_pd_nodes s) /\
      forall j, nodes'.[j] = if decide (b <= j < b + Z.of_nat (length done))
         then (fun nd => init_node nd j q lvl) <$> (psci_non_cpu_pd_nodes s).[j]
         else (psci_non_cpu_pd_nodes s).[j])).
    + exists (psci_non_cpu_pd_nodes s). split; [by destruct s|]. split; [done|].
      intros j. simpl. rewrite decide_False by lia. done.
    + intros done x s' [todo Hseq] (nodes' & -> & Hl' & Hj). apply seqZ_split in Hseq as [-> Hlt].
      unfold psci_init_pwr_domain_node. rewrite (proj2 (Nat.ltb_lt PSCI_CPU_PWR_LVL lvl)) by done.
      set (x := b + Z.of_nat (length done)) in *. rewrite u16_small by lia.
      apply wp_bind, wp_assert; [apply Z.ltb_lt; lia|].
      destruct (proj2 (zlookup_lt_is_Some (psci_non_cpu_pd_nodes s) x)) as [nd Hnd]; [lia|].
      assert (nodes'.[x] = Some nd) as Hx by (rewrite Hj, decide_False by lia; done).
      eapply wp_exact; [by apply write_node_run|].
      exists (zupdate nodes' x (init_node nd x q lvl)). split; [done|].
      split; [by rewrite length_zupdate|]. intros j. rewrite length_app. cbn [length].
      destruct (decide (j = x)) as [->|Hne].
      * rewrite zlookup_zupdate_eq by (rewrite Hl'; lia). rewrite decide_True by lia. by rewrite Hnd.
      * rewrite zlookup_zupdate_ne by done. rewrite Hj.
        destruct (decide (b <= j < x)); [rewrite decide_True by lia|rewrite decide_False by lia]; done.
  - intros _ s' (nodes' & -> & Hl' & Hj). rewrite length_seqZ, Z2Nat.id in Hj by lia. eauto.
  - done.
Qed.

(** The initial per-CPU data. *)
Definition fresh_cpu_data (d : psci_cpu_data_t) : psci_cpu_data_t := {|
  aff_info_state := AFF_STATE_OFF; target_pwrlvl := PLAT_MAX_PWR_LVL;
  cpu_local_state := PLAT_MAX_OFF_STATE; warmboot_ep_ptr := warmboot_ep_ptr d |}.

Definition with_cpus (cpus : list cpu_pd_node_t) (data : list psci_cpu_data_t) (tr : list event)
    (s : psci_state) : psci_state := set_trace tr (set_cpu_data data (set_cpu_nodes cpus s)).

(** The CPUs of one entry of the last level. *)
Lemma wp_init_cpus b n q s :
  fits s -> 0 <= b -> 0 <= n -> b + n <= PLATFORM_CORE_COUNT ->
  wpd (for_each (seqZ b n) (fun j => psci_init_pwr_domain_node (u16 j) q 0))
    (fun _ s' => exists cpus data tr, s' = with_cpus cpus data tr s /\
       length cpus = length (psci_cpu_pd_nodes s) /\ length data = length (psci_svc_cpu_data s) /\
       (forall c, cpus.[c] = if decide (b <= c < b + n)
          then Some {| mpidr := PSCI_INVALID_MPIDR; cpu_parent_node := q |}
          else (psci_cpu_pd_nodes s).[c]) /\
       (forall c, data.[c] = if decide (b <= c < b + n)
          then fresh_cpu_data <$> (psci_svc_cpu_data s).[c] else (psci_svc_cpu_data s).[c])) s.
Proof.
  intros (_ & Hlen & Hlend & _ & H16) Hb Hn Hbn. eapply wp_mono.
  - apply (wp_for_each _ _ (fun done s' => exists cpus data tr, s' = with_cpus cpus data tr s /\
      length cpus = length (psci_cpu_pd_nodes s) /\ length data = length (psci_svc_cpu_data s) /\
      (forall c, cpus.[c] = if decide (b <= c < b + Z.of_nat (length done))
          then Some {| mpidr := PSCI_INVALID_MPIDR; cpu_parent_node := q |}
          else (psci_cpu_pd_nodes s).[c]) /\
      (forall c, data.[c] = if decide (b <= c < b + Z.of_nat (length done))
          then fresh_cpu_data <$> (psci_svc_cpu_data s).[c] else (psci_svc_cpu_data s).[c]))).
    + exists (psci_cpu_pd_nodes s), (psci_svc_cpu_data s), (trace s).
      split_and!; [by destruct s|done|done| |]; intros c; simpl; by rewrite decide_False by lia.
    + intros done x s' [todo Hseq] (cpus & data & tr & -> & Hl & Hld & Hc & Hd).
      apply seqZ_split in Hseq as [-> Hlt].
      unfold psci_init_pwr_domain_node. cbn [Nat.ltb Nat.leb PSCI_CPU_PWR_LVL].
      set (x := b + Z.of_nat (length done)) in *. rewrite u16_small by lia.
      apply wp_bind, wp_assert; [apply Z.ltb_lt; lia|].
      destruct (proj2 (zlookup_lt_is_Some cpus x)) as [nd Hnd]; [lia|].
      destruct (proj2 (zlookup_lt_is_Some (psci_svc_cpu_data s) x)) as [d Hdx]; [lia|].
      assert (data.[x] = Some d) as Hdx' by (rewrite Hd, decide_False by lia; done).
      eapply wp_bind_exact; [by apply write_cpu_node_run|].
      eapply wp_bind_exact; [by apply write_cpu_data_run|].
      unfold emit. apply wp_modify.
      exists (zupdate cpus x {| mpidr := PSCI_INVALID_MPIDR; cpu_parent_node := q |}),
        (zupdate data x (fresh_cpu_data d)), (E_cm_set_context x :: tr).
      rewrite !length_zupdate, length_app. cbn [length]. split_and!; try done; intros c.
      * destruct (decide (c = x)) as [->|Hne].
        -- rewrite zlookup_zupdate_eq by lia. by rewrite decide_True by lia.
        -- rewrite zlookup_zupdate_ne by done. rewrite Hc.
           destruct (decide (b <= c < x)); [rewrite decide_True by lia|rewrite decide_False by lia]; done.
      * destruct (decide (c = x)) as [->|Hne].
        -- rewrite zlookup_zupdate_eq by lia. rewrite decide_True by lia. by rewrite Hdx.
        -- rewrite zlookup_zupdate_ne by done. rewrite Hd.
           destruct (decide (b <= c < x)); [rewrite decide_True by lia|rewrite decide_False by lia]; done.
  - intros _ s' (cpus & data & tr & -> & Hl & Hld & Hc & Hd).
    rewrite length_seqZ, Z2Nat.id in Hc, Hd by lia. by exists cpus, data, tr.
  - done.
Qed.

(** ** One entry of the description *)

Definition next_vars (v : tree_vars) (n : Z) : tree_vars := {|
  node_index := node_index v + n; next_lvl_nodes := next_lvl_nodes v + n;
  parent_node_index := parent_node_index v + 1; tree_j := node_index v + n |}.

(** Recording the children of the parent, in OS-initiated mode. *)
Lemma wp_record_children e b n s (Q : unit -> psci_state -> Prop) :
  fits s -> 0 <= e <= PSCI_NUM_NON_CPU_PWR_DOMAINS ->
  (forall nodes', length nodes' = length (psci_non_cpu_pd_nodes s) ->
     (forall j, bare <$> nodes'.[j] = bare <$> (psci_non_cpu_pd_nodes s).[j]) ->
     Q tt (set_nodes nodes' s)) ->
  wpd (when (PSCI_OS_INIT_MODE && (0 <? e)) (write_non_cpu_node (e - 1) (with_children b n))) Q s.
Proof.
  intros (Hlen & _) He HQ. destruct (PSCI_OS_INIT_MODE && (0 <? e)) eqn:Hc; cbn [when].
  - apply andb_true_iff in Hc as [_ Hlt%Z.ltb_lt].
    destruct (proj2 (zlookup_lt_is_Some (psci_non_cpu_pd_nodes s) (e - 1))) as [nd Hnd]; [lia|].
    eapply wp_exact; [by apply write_node_run|]. apply HQ; [by rewrite length_zupdate|].
    intros j. destruct (decide (j = e - 1)) as [->|Hne].
    + rewrite zlookup_zupdate_eq by lia. by rewrite Hnd.
    + by rewrite zlookup_zupdate_ne.
  - apply wp_ret. specialize (HQ (psci_non_cpu_pd_nodes s)). destruct s. by apply HQ.
Qed.

Lemma fits_set_nodes nodes s :
  length nodes = length (psci_non_cpu_pd_nodes s) -> fits s -> fits (set_nodes nodes s).
Proof. unfold fits. simpl. by intros ->. Qed.

Lemma wp_entry_nodes T lvl v n s :
  fits s -> (0 < lvl)%nat -> 0 <= node_index v -> 0 <= n ->
  node_index v + n <= PSCI_NUM_NON_CPU_PWR_DOMAINS ->
  0 <= parent_node_index v <= PSCI_NUM_NON_CPU_PWR_DOMAINS -> T.[parent_node_index v] = Some n ->
  wpd (populate_entry T lvl v) (fun v' s' => v' = next_vars v n /\
    exists nodes', s' = set_nodes nodes' s /\ length nodes' = length (psci_non_cpu_pd_nodes s) /\
    forall j, bare <$> nodes'.[j] = if decide (node_index v <= j < node_index v + n)
      then (fun nd => bare (init_node nd j (u32 (parent_node_index v - 1)) lvl)) <$>
             (psci_non_cpu_pd_nodes s).[j]
      else bare <$> (psci_non_cpu_pd_nodes s).[j]) s.
Proof.
  intros Hf Hlvl Hb Hn Hbn He HT. unfold populate_entry.
  apply wp_bind, wp_assert; [apply Z.leb_le; lia|].
  apply wp_bind. eapply wp_deref; [done|].
  apply wp_bind. eapply wp_mono; [by apply wp_init_nodes| |done].
  intros _ s' (nodes1 & -> & Hl1 & Hj1). apply wp_bind.
  apply wp_record_children; [by apply fits_set_nodes|done|]. cbn [psci_non_cpu_pd_nodes set_nodes].
  intros nodes2 Hl2 Hj2. apply wp_ret. split; [done|]. exists nodes2. split; [done|].
  split; [lia|]. intros j. rewrite Hj2, Hj1.
  case_decide; [by destruct (_.[j])|done].
Qed.

Lemma wp_entry_cpus T v n s :
  fits s -> 0 <= node_index v -> 0 <= n -> node_index v + n <= PLATFORM_CORE_COUNT ->
  0 <= parent_node_index v <= PSCI_NUM_NON_CPU_PWR_DOMAINS -> T.[parent_node_index v] = Some n ->
  wpd (populate_entry T 0 v) (fun v' s' => v' = next_vars v n /\
    exists nodes cpus data tr, s' = with_cpus cpus data tr (set_nodes nodes s) /\
    length nodes = length (psci_non_cpu_pd_nodes s) /\
    length cpus = length (psci_cpu_pd_nodes s) /\ length data = length (psci_svc_cpu_data s) /\
    (forall j, bare <$> nodes.[j] = bare <$> (psci_non_cpu_pd_nodes s).[j]) /\
    (forall c, cpus.[c] = if decide (node_index v <= c < node_index v + n)
       then Some {| mpidr := PSCI_INVALID_MPIDR;
                    cpu_parent_node := u32 (parent_node_index v - 1) |}
       else (psci_cpu_pd_nodes s).[c]) /\
    (forall c, data.[c] = if decide (node_index v <= c < node_index v + n)
       then fresh_cpu_data <$> (psci_svc_cpu_data s).[c] else (psci_svc_cpu_data s).[c])) s.
Proof.
  intros Hf Hb Hn Hbn He HT. unfold populate_entry.
  apply wp_bind, wp_assert; [apply Z.leb_le; lia|].
  apply wp_bind. eapply wp_deref; [done|].
  apply wp_bind. eapply wp_mono; [by apply wp_init_cpus| |done].
  intros _ s' (cpus & data & tr & -> & Hl & Hld & Hc & Hd). apply wp_bind.
  apply wp_record_children; [|done|].
  { unfold fits in *. cbn in *. by rewrite Hl, Hld. }
  cbn [psci_non_cpu_pd_nodes with_cpus set_trace set_cpu_data set_cpu_nodes].
  intros nodes2 Hl2 Hj2. apply wp_ret. split; [done|].
  exists nodes2, cpus, data, tr. done.
Qed.

(** ** One level of the description *)

Lemma zsum_take_S L k x : L !! k = Some x -> zsum (take (S k) L) = zsum (take k L) + x.
Proof. intros Hx. rewrite (take_S_r _ _ _ Hx), zsum_app. unfold zsum. simpl. lia. Qed.

Lemma zsum_take_le L k : Forall (fun x => 0 <= x) L -> 0 <= zsum (take k L) <= zsum L.
Proof.
  intros HL. rewrite <- (take_drop k L) at 3. rewrite zsum_app.
  pose proof (zsum_nonneg _ (Forall_take _ k _ HL)). pose proof (zsum_nonneg _ (Forall_drop _ k _ HL)).
  lia.
Qed.

(** The loop variables after [k] entries of [L]. *)
Definition level_vars (b e tj : Z) (L : list Z) (k : nat) : tree_vars := {|
  node_index := b + zsum (take k L); next_lvl_nodes := zsum (take k L);
  parent_node_index := e + Z.of_nat k;
  tree_j := match k with O => tj | S _ => b + zsum (take k L) end |}.

Lemma level_vars_next b e tj L k x :
  L !! k = Some x -> next_vars (level_vars b e tj L k) x = level_vars b e tj L (S k).
Proof.
  intros Hx. unfold next_vars, level_vars. cbn [node_index next_lvl_nodes parent_node_index tree_j].
  rewrite (zsum_take_S _ _ _ Hx). f_equal; lia.
Qed.

Lemma u32_pred e : 0 < e <= 2 ^ 32 -> u32 (e - 1) = e - 1.
Proof. intros He. apply u32_small. lia. Qed.

(** The nodes from [b] on have no CPUs yet. *)
Definition no_cpus (nodes : list non_cpu_pd_node_t) (b : Z) : Prop :=
  forall j, b <= j < Z.of_nat (length nodes) ->
    exists nd, nodes.[j] = Some nd /\ cpu_start_idx nd = 0 /\ ncpus nd = 0.

Lemma wp_level_nodes T lvl b e tj L s :
  fits s -> (0 < lvl)%nat -> 0 <= b -> Forall (fun x => 0 <= x) L ->
  b + zsum L <= PSCI_NUM_NON_CPU_PWR_DOMAINS ->
  0 <= e -> e + Z.of_nat (length L) <= PSCI_NUM_NON_CPU_PWR_DOMAINS + 1 ->
  ((lvl < PLAT_MAX_PWR_LVL)%nat -> 0 < e) ->
  (forall i x, L !! i = Some x -> T.[e + Z.of_nat i] = Some x) ->
  no_cpus (psci_non_cpu_pd_nodes s) b ->
  wpd (fold_each (seqZ 0 (Z.of_nat (length L))) (level_vars b e tj L 0)
         (fun _ v => populate_entry T lvl v))
    (fun v' s' => v' = level_vars b e tj L (length L) /\
       exists nodes', s' = set_nodes nodes' s /\ length nodes' = length (psci_non_cpu_pd_nodes s) /\
         row nodes' lvl b (b + zsum L) (e - 1) (e - 1 + Z.of_nat (length L)) /\
         forall j, ~ (b <= j < b + zsum L) ->
           bare <$> nodes'.[j] = bare <$> (psci_non_cpu_pd_nodes s).[j]) s.
Proof.
  intros Hf Hlvl Hb HL Hsum He Hmax Htop HT Hcold. eapply wp_mono.
  - apply (wp_fold_each _ _ (fun done v' s' => let k := length done in
      v' = level_vars b e tj L k /\
      exists nodes', s' = set_nodes nodes' s /\ length nodes' = length (psci_non_cpu_pd_nodes s) /\
         row nodes' lvl b (b + zsum (take k L)) (e - 1) (e - 1 + Z.of_nat k) /\
         forall j, ~ (b <= j < b + zsum (take k L)) ->
           bare <$> nodes'.[j] = bare <$> (psci_non_cpu_pd_nodes s).[j])).
    + cbn [length take zsum foldr]. split; [done|]. exists (psci_non_cpu_pd_nodes s).
      split_and!; try done; [by destruct s|]. rewrite Z.add_0_r. apply row_nil.
    + intros done i v' s' [todo Hseq] (-> & nodes' & -> & Hl & Hrow & Hold).
      apply seqZ_split in Hseq as [_ Hk]. set (k := length done) in *.
      destruct (lookup_lt_is_Some_2 L k) as [x Hx]; [lia|].
      pose proof (zsum_take_S _ _ _ Hx) as HS.
      pose proof (zsum_take_le L k HL) as Hlo. pose proof (zsum_take_le L (S k) HL) as Hhi.
      assert (0 <= x) as Hx0 by exact (proj1 (Forall_lookup _ _) HL k x Hx).
      destruct Hf as (Hlen & Hf').
      eapply wp_mono; [apply (wp_entry_nodes T lvl _ x)|..]; cbn [node_index parent_node_index level_vars];
        try lia; try done.
      { apply fits_set_nodes; [done|by split]. }
      { by apply HT. }
      intros v' s' (-> & nodes'' & -> & Hl'' & Hj). cbn [psci_non_cpu_pd_nodes set_nodes] in *.
      rewrite length_app. cbn [length]. fold k. rewrite Nat.add_1_r.
      split; [by apply level_vars_next|]. exists nodes''. split; [done|]. split; [lia|].
      rewrite HS, Nat2Z.inj_succ. split.
      * replace (e - 1 + Z.succ (Z.of_nat k)) with (e - 1 + Z.of_nat k + 1) by lia.
        replace (b + (zsum (take k L) + x)) with (b + zsum (take k L) + x) by lia.
        apply row_extend; [lia|lia| |lia|].
        -- eapply row_ext; [|done]. intros j Hjr. rewrite Hj, decide_False by lia. done.
        -- intros j Hjr. specialize (Hj j). rewrite decide_True in Hj by lia.
           destruct (Hcold j) as (nd & Hnd & Hs & Hn); [lia|].
           specialize (Hold j). rewrite Hnd in Hold.
           destruct (nodes'.[j]) as [nd'|]; [|specialize (Hold ltac:(lia)); done].
           injection (Hold ltac:(lia)) as Es En _ _ _ _.
           destruct (nodes''.[j]) as [nd''|]; [|done]. cbn [fmap option_fmap option_map] in Hj.
           injection Hj as E1 E2 E3 E4 E5 E6. exists nd''. cbn in *.
           split_and!; try congruence. intros Hltop. rewrite E3. rewrite u32_pred; [lia|].
           specialize (Htop Hltop). lia.
      * intros j Hjr. rewrite Hj, decide_False by lia. apply Hold. lia.
  - intros v' s' (-> & nodes' & -> & Hl & Hrow & Hold).
    rewrite length_seqZ, Nat2Z.id, take_ge in * by lia. eauto 10.
  - done.
Qed.

Lemma wp_level_cpus T e tj L s :
  fits s -> Forall (fun x => 0 <= x) L -> zsum L <= PLATFORM_CORE_COUNT ->
  0 <= e -> e + Z.of_nat (length L) <= PSCI_NUM_NON_CPU_PWR_DOMAINS + 1 ->
  ((0 < PLAT_MAX_PWR_LVL)%nat -> 0 < e) ->
  (forall i x, L !! i = Some x -> T.[e + Z.of_nat i] = Some x) ->
  wpd (fold_each (seqZ 0 (Z.of_nat (length L))) (level_vars 0 e tj L 0)
         (fun _ v => populate_entry T 0 v))
    (fun v' s' => v' = level_vars 0 e tj L (length L) /\
       exists nodes cpus data tr, s' = with_cpus cpus data tr (set_nodes nodes s) /\
         length nodes = length (psci_non_cpu_pd_nodes s) /\
         length cpus = length (psci_cpu_pd_nodes s) /\ length data = length (psci_svc_cpu_data s) /\
         (forall j, bare <$> nodes.[j] = bare <$> (psci_non_cpu_pd_nodes s).[j]) /\
         cpu_row cpus (zsum L) (e - 1) (e - 1 + Z.of_nat (length L)) /\
         data_row data (zsum L)) s.
Proof.
  intros Hf HL Hsum He Hmax Htop HT. eapply wp_mono.
  - apply (wp_fold_each _ _ (fun done v' s' => let k := length done in
      v' = level_vars 0 e tj L k /\
      exists nodes cpus data tr, s' = with_cpus cpus data tr (set_nodes nodes s) /\
         length nodes = length (psci_non_cpu_pd_nodes s) /\
         length cpus = length (psci_cpu_pd_nodes s) /\ length data = length (psci_svc_cpu_data s) /\
         (forall j, bare <$> nodes.[j] = bare <$> (psci_non_cpu_pd_nodes s).[j]) /\
         cpu_row cpus (zsum (take k L)) (e - 1) (e - 1 + Z.of_nat k) /\
         data_row data (zsum (take k L)))).
    + cbn [length]. rewrite take_0. change (zsum []) with 0. split; [done|].
      exists (psci_non_cpu_pd_nodes s), (psci_cpu_pd_nodes s), (psci_svc_cpu_data s), (trace s).
      split_and!; try done; [by destruct s|split; intros; lia|intros c Hc; lia].
    + intros done i v' s' [todo Hseq] (-> & nodes & cpus & data & tr & -> & Hl & Hlc & Hld & Hnd & Hrow & Hdr).
      apply seqZ_split in Hseq as [_ Hk]. set (k := length done) in *.
      destruct (lookup_lt_is_Some_2 L k) as [x Hx]; [lia|].
      pose proof (zsum_take_S _ _ _ Hx) as HS.
      pose proof (zsum_take_le L k HL) as Hlo. pose proof (zsum_take_le L (S k) HL) as Hhi.
      assert (0 <= x) as Hx0 by exact (proj1 (Forall_lookup _ _) HL k x Hx).
      destruct Hf as (Hn0 & Hc0 & Hd0 & Hf').
      eapply wp_mono; [apply (wp_entry_cpus T _ x)|..]; cbn [node_index parent_node_index level_vars];
        try lia; try done.
      { unfold fits. cbn. rewrite Hl, Hlc, Hld. done. }
      { by apply HT. }
      intros v' s' (-> & nodes' & cpus' & data' & tr' & -> & Hl' & Hlc' & Hld' & Hnd' & Hc' & Hd').
      cbn [psci_non_cpu_pd_nodes psci_cpu_pd_nodes psci_svc_cpu_data with_cpus set_trace set_cpu_data
           set_cpu_nodes set_nodes] in *.
      rewrite length_app. cbn [length]. fold k. rewrite Nat.add_1_r.
      split; [by apply level_vars_next|]. exists nodes', cpus', data', tr'. split; [done|].
      split_and!; try lia; [intros j; by rewrite Hnd'| |].
      * rewrite HS, Nat2Z.inj_succ.
        replace (e - 1 + Z.succ (Z.of_nat k)) with (e - 1 + Z.of_nat k + 1) by lia.
        apply (cpu_row_extend cpus); [lia|lia|done|lia| |].
        -- intros c Hc. rewrite Hc', decide_False by lia. done.
        -- intros c Hc. rewrite Hc', decide_True by lia. eexists. split; [done|].
           cbn [cpu_parent_node]. intros Htop'. specialize (Htop Htop'). rewrite u32_pred by lia. lia.
      * intros c Hc. rewrite HS in Hc. rewrite Hd'. case_decide as Hin.
        -- destruct (proj2 (zlookup_lt_is_Some data c)) as [d Hdc]; [lia|].
           exists (fresh_cpu_data d). by rewrite Hdc.
        -- apply Hdr. lia.
  - intros v' s' (-> & nodes & cpus & data & tr & -> & Hl & Hlc & Hld & Hnd & Hrow & Hdr).
    rewrite length_seqZ, Nat2Z.id, take_ge in * by lia. split; [done|].
    exists nodes, cpus, data, tr. done.
  - done.
Qed.

(** ** The whole tree *)

(** The rows of the levels from [k] up, each the parents of the one below. *)
Definition rows (nodes : list non_cpu_pd_node_t) (k : nat) (lo hi : nat -> Z) : Prop :=
  forall l, (k <= l <= PLAT_MAX_PWR_LVL)%nat -> (1 <= l)%nat ->
    0 <= lo l /\ row nodes l (lo l) (hi l) (lo (S l)) (hi (S l)).

(** The state after the tree has been built for [n] CPUs. *)
Definition built (s s' : psci_state) (n : Z) : Prop :=
  exists nodes cpus data tr lo hi, s' = with_cpus cpus data tr (set_nodes nodes s) /\
    length nodes = length (psci_non_cpu_pd_nodes s) /\
    length cpus = length (psci_cpu_pd_nodes s) /\ length data = length (psci_svc_cpu_data s) /\
    rows nodes 1 lo hi /\ cpu_row cpus n (lo 1%nat) (hi 1%nat) /\ data_row data n.

Lemma widths_cons n L lv :
  widths n (L :: lv) -> Z.of_nat (length L) = n /\ Forall (fun x => 0 <= x) L /\ widths (zsum L) lv.
Proof. done. Qed.

Lemma rows_add nodes nodes' l a b lo hi :
  (1 <= l <= PLAT_MAX_PWR_LVL)%nat -> 0 <= a ->
  rows nodes (S l) lo hi ->
  (forall k j, (S l <= k <= PLAT_MAX_PWR_LVL)%nat -> lo k <= j < hi k ->
     bare <$> nodes'.[j] = bare <$> nodes.[j]) ->
  row nodes' l a b (lo (S l)) (hi (S l)) ->
  let up f v := fun k => if (k =? l)%nat then v else f k in
  rows nodes' l (up lo a) (up hi b).
Proof.
  intros Hl Ha Hrows Hext Hrow up k Hk Hk1. unfold up.
  rewrite (proj2 (Nat.eqb_neq (S k) l)) by lia.
  destruct (Nat.eqb_spec k l) as [->|Hne]; [done|].
  destruct (Hrows k) as [H0 Hr]; [lia|done|]. split; [done|].
  eapply row_ext; [|done]. intros j Hj. apply (Hext k); [lia|done].
Qed.

Lemma no_cpus_ext nodes nodes' b b' :
  b <= b' -> length nodes' = length nodes ->
  (forall j, b' <= j -> bare <$> nodes'.[j] = bare <$> nodes.[j]) ->
  no_cpus nodes b -> no_cpus nodes' b'.
Proof.
  intros Hb Hl Hext Hno j Hj. destruct (Hno j) as (nd & Hnd & Hs & Hn); [lia|].
  specialize (Hext j ltac:(lia)). rewrite Hnd in Hext. destruct (nodes'.[j]) as [nd'|]; [|done].
  injection Hext as E1 E2 _ _ _ _. exists nd'. split_and!; congruence.
Qed.

Lemma built_trans nodes s s' n :
  length nodes = length (psci_non_cpu_pd_nodes s) -> built (set_nodes nodes s) s' n -> built s s' n.
Proof.
  intros Hl (nodes' & cpus & data & tr & lo & hi & -> & Hl' & H). cbn in Hl', H.
  exists nodes', cpus, data, tr, lo, hi. split; [done|]. rewrite <- Hl. done.
Qed.

Lemma level_vars_0 b e tj L :
  level_vars b e tj L 0 =
  {| node_index := b; next_lvl_nodes := 0; parent_node_index := e; tree_j := tj |}.
Proof. unfold level_vars. rewrite take_0. change (zsum []) with 0. f_equal; lia. Qed.

Lemma concat_lookup_l (L : list Z) lv i x : L !! i = Some x -> concat (L :: lv) !! i = Some x.
Proof. intros Hx. cbn [concat]. by apply lookup_app_l_Some. Qed.

Lemma concat_lookup_r (L : list Z) lv i x :
  concat lv !! i = Some x -> concat (L :: lv) !! (length L + i)%nat = Some x.
Proof.
  intros Hx. cbn [concat]. rewrite lookup_app_r by lia.
  by replace (length L + i - length L)%nat with i by lia.
Qed.

(** The CPU level, the last one. *)
Lemma wp_populate_last T L num v s lo hi :
  fits s -> widths num [L] -> (forall i x, L !! i = Some x -> T.[parent_node_index v + Z.of_nat i] = Some x) ->
  0 < zsum L <= PLATFORM_CORE_COUNT -> hi 1%nat <= PSCI_NUM_NON_CPU_PWR_DOMAINS ->
  node_index v = 0 -> rows (psci_non_cpu_pd_nodes s) 1 lo hi ->
  parent_node_index v = lo 1%nat + 1 -> hi 1%nat = lo 1%nat + num -> -1 <= lo 1%nat ->
  wpd (populate_levels T 0 num v) (fun v' s' => tree_j v' = zsum L /\ built s s' (zsum L)) s.
Proof.
  intros Hf [<- [HL _]]%widths_cons HT Hcpus Hnum Hni Hrows Hpi Hhi Hlo. cbn [populate_levels].
  rewrite Hni, <- (level_vars_0 0 (parent_node_index v) (tree_j v) L).
  apply wp_bind. eapply wp_mono; [apply wp_level_cpus|..]; try done; try lia.
  { intros HM. destruct (Hrows 1%nat) as [H0 _]; lia. }
  intros v' s' (-> & nodes & cpus & data & tr & -> & Hl & Hlc & Hld & Hj & Hrow & Hdata).
  apply wp_ret. split.
  - cbn [level_vars tree_j]. destruct (length L) as [|k] eqn:HE; [|rewrite take_ge by lia; lia].
    apply nil_length_inv in HE as ->. unfold zsum in Hcpus. simpl in Hcpus. lia.
  - exists nodes, cpus, data, tr, lo, hi. split_and!; try done.
    + intros l Hl1 Hl2. destruct (Hrows l Hl1 Hl2) as [H0 Hr]. split; [done|]. by apply (row_ext (psci_non_cpu_pd_nodes s)).
    + replace (lo 1%nat) with (parent_node_index v - 1) by lia. rewrite Hhi.
      by replace (lo 1%nat + Z.of_nat (length L)) with (parent_node_index v - 1 + Z.of_nat (length L)) by lia.
Qed.

Lemma wp_populate_levels T lvl : forall lv num v s lo hi,
  (lvl <= PLAT_MAX_PWR_LVL)%nat -> fits s -> length lv = S lvl -> widths num lv ->
  (forall i x, concat lv !! i = Some x -> T.[parent_node_index v + Z.of_nat i] = Some x) ->
  0 < desc_cpus lv <= PLATFORM_CORE_COUNT ->
  hi (S lvl) + desc_nodes lv <= PSCI_NUM_NON_CPU_PWR_DOMAINS ->
  no_cpus (psci_non_cpu_pd_nodes s) (hi (S lvl)) ->
  node_index v = (if (lvl =? 0)%nat then 0 else hi (S lvl)) ->
  rows (psci_non_cpu_pd_nodes s) (S lvl) lo hi ->
  (forall k, (S lvl <= k <= PLAT_MAX_PWR_LVL)%nat -> hi k <= hi (S lvl)) ->
  parent_node_index v = lo (S lvl) + 1 -> hi (S lvl) = lo (S lvl) + num -> -1 <= lo (S lvl) ->
  0 <= hi (S lvl) ->
  wpd (populate_levels T lvl num v)
    (fun v' s' => tree_j v' = desc_cpus lv /\ built s s' (desc_cpus lv)) s.
Proof.
  induction lvl as [|lvl IH]; intros lv num v s lo hi HM Hf Hlen Hw HT Hcpus Hnum Hno Hni Hrows Hhik
    Hpi Hhi Hlo Hhi0.
  { destruct lv as [|L [|]]; [done| |done]. cbn [desc_cpus desc_nodes] in *.
    apply (wp_populate_last T L num v s lo hi); try done; [|lia].
    intros i x Hx. apply HT. by apply concat_lookup_l. }
  destruct lv as [|L lv]; [done|]. pose proof Hw as [<- [HL Hw']]%widths_cons.
  assert (desc_nodes (L :: lv) = zsum L + desc_nodes lv /\ desc_cpus (L :: lv) = desc_cpus lv)
    as [En Ec] by (destruct lv; done). rewrite En in Hnum. rewrite Ec in *. clear En Ec.
  pose proof (desc_nodes_nonneg _ _ Hw') as Hn0. pose proof (zsum_nonneg L HL) as HL0.
  cbn [populate_levels]. rewrite Hni. cbn [Nat.eqb].
  rewrite <- (level_vars_0 (hi (S (S lvl))) (parent_node_index v) (tree_j v) L).
  apply wp_bind. eapply wp_mono; [apply wp_level_nodes|..]; try done; try lia.
  { intros HMl. destruct (Hrows (S (S lvl))) as [H0 _]; lia. }
  { intros i x Hx. apply HT. by apply concat_lookup_l. }
  intros v' s' (-> & nodes & -> & Hl & Hrow & Hold). set (b := hi (S (S lvl))) in *.
  set (lo' := fun k => if (k =? S lvl)%nat then b else lo k).
  set (hi' := fun k => if (k =? S lvl)%nat then b + zsum L else hi k).
  assert (lo' (S lvl) = b /\ hi' (S lvl) = b + zsum L) as [Elo Ehi]
    by (unfold lo', hi'; by rewrite Nat.eqb_refl).
  cbn [node_index next_lvl_nodes parent_node_index tree_j level_vars]. rewrite !take_ge by done.
  eapply wp_mono; [apply (IH lv (zsum L) _ _ lo' hi')|..]; try done; rewrite ?Elo, ?Ehi;
    cbn [node_index parent_node_index psci_non_cpu_pd_nodes set_nodes]; try lia; try done.
  - by apply fits_set_nodes.
  - simpl in Hlen. lia.
  - intros i x Hx. rewrite <- Z.add_assoc, <- Nat2Z.inj_add. apply HT. by apply concat_lookup_r.
  - eapply (no_cpus_ext (psci_non_cpu_pd_nodes s) _ b); [lia|done| |done]. intros j Hj. apply Hold. lia.
  - apply (rows_add (psci_non_cpu_pd_nodes s)); [lia|lia|done| |].
    + intros k j Hk Hj. apply Hold. specialize (Hhik k Hk). lia.
    + replace (lo (S (S lvl))) with (parent_node_index v - 1) by lia.
      replace (hi (S (S lvl))) with (parent_node_index v - 1 + Z.of_nat (length L)) by lia. done.
  - intros k Hk. unfold hi'. destruct (Nat.eqb_spec k (S lvl)); [lia|]. specialize (Hhik k). lia.
  - intros v' s' [Hj Hb]. split; [done|]. by eapply built_trans.
Qed.

(** A description of the platform's tree: one list of entries per level,
    starting with the number of top-level domains, for arrays of the given
    sizes. *)
Record tree_desc (lv : list (list Z)) : Prop := {
  td_levels : length lv = S PLAT_MAX_PWR_LVL;
  td_widths : widths 1 lv;
  td_nodes : desc_nodes lv <= PSCI_NUM_NON_CPU_PWR_DOMAINS;
  td_cpus : 0 < desc_cpus lv <= PLATFORM_CORE_COUNT
}.

Lemma wp_populate_tree lv extra s :
  tree_desc lv -> fits s -> no_cpus (psci_non_cpu_pd_nodes s) 0 ->
  wpd (populate_power_domain_tree (concat lv ++ extra))
    (fun n s' => n = desc_cpus lv /\ built s s' n) s.
Proof.
  intros [Hlen Hw Hn Hc] Hf Hno. unfold populate_power_domain_tree. apply wp_bind.
  eapply wp_mono.
  - apply (wp_populate_levels _ PLAT_MAX_PWR_LVL lv 1 _ s (fun _ => -1) (fun _ => 0)); try done.
    + cbn [parent_node_index]. intros i x Hx. rewrite Z.add_0_l, zlookup_of_nat.
      by apply lookup_app_l_Some.
    + cbn [node_index]. by destruct (PLAT_MAX_PWR_LVL =? 0)%nat.
    + intros l Hl. lia.
  - intros v s' [Hj Hb]. rewrite Hj. apply wp_bind, wp_assert; [apply Z.leb_le; lia|].
    by apply wp_ret.
  - done.
Qed.

(** ** The ancestors in a built tree *)

Section Tree.
Variables (t : topology) (n : Z) (lo hi : nat -> Z).

(** The rows and the CPU row, as a topology. *)
Record tree : Prop := {
  tr_cpu : forall c, 0 <= c < n -> (0 < PLAT_MAX_PWR_LVL)%nat -> exists p, (t_cpus t).[c] = Some p /\
    lo 1%nat <= p < hi 1%nat;
  tr_cpu_mono : forall c c' p p', (0 < PLAT_MAX_PWR_LVL)%nat -> 0 <= c <= c' -> c' < n ->
    (t_cpus t).[c] = Some p -> (t_cpus t).[c'] = Some p' -> p <= p';
  tr_node : forall l j, valid_lvl l -> lo l <= j < hi l -> exists nd, (t_nodes t).[j] = Some nd /\
    level nd = l /\ lock_index nd = j /\
    ((l < PLAT_MAX_PWR_LVL)%nat -> lo (S l) <= parent_node nd < hi (S l));
  tr_mono : forall l j j' nd nd', valid_lvl l -> (l < PLAT_MAX_PWR_LVL)%nat -> lo l <= j <= j' ->
    j' < hi l -> (t_nodes t).[j] = Some nd -> (t_nodes t).[j'] = Some nd' ->
    parent_node nd <= parent_node nd'
}.

Hypothesis Htree : tree.

Lemma anc_in_row c l : 0 <= c < n -> valid_lvl l -> exists p, anc t c l = Some p /\ lo l <= p < hi l.
Proof.
  intros Hc. unfold valid_lvl. induction l as [|l IH]; intros Hl; [lia|].
  destruct l as [|l]; [apply (tr_cpu Htree); [done|lia]|].
  destruct IH as (p & Hp & Hr); [lia|].
  destruct (tr_node Htree (S l) p) as (nd & Hnd & _ & _ & Hpar); [split; lia|done|].
  exists (parent_node nd). split; [|apply Hpar; lia]. by apply (anc_succ _ _ _ p); [lia|..].
Qed.

Lemma tree_linked c : 0 <= c < n -> linked t c.
Proof.
  intros Hc l Hl. destruct (anc_in_row c l Hc Hl) as (p & Hp & Hr).
  destruct (tr_node Htree l p Hl Hr) as (nd & Hnd & _). by exists p, nd.
Qed.

Lemma anc_mono c c' l p p' :
  0 <= c <= c' -> c' < n -> valid_lvl l -> anc t c l = Some p -> anc t c' l = Some p' -> p <= p'.
Proof.
  intros Hc Hc'. unfold valid_lvl. revert p p'. induction l as [|l IH]; intros p p' Hl Hp Hp'; [lia|].
  destruct l as [|l]; [eapply (tr_cpu_mono Htree c c'); eauto; lia|].
  destruct (anc_in_row c (S l)) as (q & Hq & Hr); [lia|split; lia|].
  destruct (anc_in_row c' (S l)) as (q' & Hq' & Hr'); [lia|split; lia|].
  assert (q <= q') as Hqq by (apply IH; [lia|done..]).
  destruct (tr_node Htree (S l) q) as (nd & Hnd & _); [split; lia|done|].
  destruct (tr_node Htree (S l) q') as (nd' & Hnd' & _); [split; lia|done|].
  rewrite (anc_succ t c (S l) q nd) in Hp by (lia || done). injection Hp as <-.
  rewrite (anc_succ t c' (S l) q' nd') in Hp' by (lia || done). injection Hp' as <-.
  eapply (tr_mono Htree (S l) q q'); eauto; [split; lia|lia|lia|lia].
Qed.
End Tree.

(** A tree stays one when only the CPU ranges of its nodes change. *)
Definition no_limits (nd : non_cpu_pd_node_t) : non_cpu_pd_node_t := with_limits 0 0 nd.

Lemma anc_SS t c l :
  anc t c (S (S l)) = anc t c (S l) ≫= fun p => parent_node <$> (t_nodes t).[p].
Proof. done. Qed.

Lemma anc_same_parents s s' c l :
  t_cpus (topo s') = t_cpus (topo s) ->
  (forall p, no_limits <$> (psci_non_cpu_pd_nodes s').[p] = no_limits <$> (psci_non_cpu_pd_nodes s).[p]) ->
  anc (topo s') c l = anc (topo s) c l.
Proof.
  intros Hc Hn. induction l as [|l IH]; [done|]. destruct l as [|l].
  - change (anc (topo s') c 1) with ((t_cpus (topo s')).[c]).
    change (anc (topo s) c 1) with ((t_cpus (topo s)).[c]). by rewrite Hc.
  - rewrite !anc_SS, IH. destruct (anc (topo s) c (S l)) as [p|]; [|done].
    cbn [mbind option_bind t_nodes topo]. rewrite !zlookup_fmap. specialize (Hn p).
    destruct ((psci_non_cpu_pd_nodes s').[p]), ((psci_non_cpu_pd_nodes s).[p]); try done.
    cbn in Hn |- *. injection Hn as E _ _ _ _ _. by rewrite E.
Qed.

(** ** The CPU ranges *)

Section Limits.
Variables (A : Z -> nat -> option Z) (n : Z) (lo hi : nat -> Z).

(** The ancestors of the CPUs, in the rows and increasing with the CPU. *)
Hypothesis A_row : forall c l, 0 <= c < n -> valid_lvl l -> exists p, A c l = Some p /\ lo l <= p < hi l.
Hypothesis A_mono : forall c c' l p p', 0 <= c <= c' -> c' < n -> valid_lvl l ->
  A c l = Some p -> A c' l = Some p' -> p <= p'.

(** After the first [k] CPUs, a node of level [l] has the range of those below
    it. *)
Definition limited (nodes : list non_cpu_pd_node_t) (l : nat) (k : Z) : Prop :=
  forall p, lo l <= p < hi l -> exists nd, nodes.[p] = Some nd /\ level nd = l /\ lock_index nd = p /\
    0 <= cpu_start_idx nd /\ 0 <= ncpus nd /\ cpu_start_idx nd + ncpus nd <= k /\
    (ncpus nd = 0 -> cpu_start_idx nd = 0) /\
    forall c, 0 <= c < k -> (A c l = Some p <-> node_covers nd c).

(** [nodes_idx[l - 1]] before CPU [k]. *)
Definition previous (k : Z) (l : nat) (q : Z) : Prop :=
  if decide (k = 0) then q = 0 else A (k - 1) l = Some q.

Definition add_cpu (k q : Z) (t : Z) (nd : non_cpu_pd_node_t) : non_cpu_pd_node_t :=
  with_limits (if t =? q then cpu_start_idx nd else k) (ncpus nd + 1) nd.

(** A node that is not the previous one has no CPU yet. *)
Lemma limited_new nodes l k q t nd :
  valid_lvl l -> 0 <= k < n -> limited nodes l k -> previous k l q -> A k l = Some t -> t <> q ->
  lo l <= t < hi l -> nodes.[t] = Some nd -> ncpus nd = 0.
Proof.
  intros Hl Hk Hlim Hprev Ht Hne Hr Hnd. destruct (Hlim t Hr) as (nd' & Hnd' & _ & _ & H0 & H1 & H2 & _ & Hc).
  assert (nd' = nd) as -> by congruence. destruct (decide (ncpus nd = 0)) as [|Hpos]; [done|].
  assert (0 <= cpu_start_idx nd < k) as Hin by lia.
  assert (A (cpu_start_idx nd) l = Some t) as Ha by (apply Hc; [done|unfold node_covers; lia]).
  unfold previous in Hprev. rewrite decide_False in Hprev by lia.
  pose proof (A_mono (cpu_start_idx nd) (k - 1) l t q ltac:(lia) ltac:(lia) Hl Ha Hprev).
  pose proof (A_mono (k - 1) k l q t ltac:(lia) ltac:(lia) Hl Hprev Ht). lia.
Qed.

Lemma limited_step nodes l k q t nd :
  valid_lvl l -> 0 <= k < n -> limited nodes l k -> previous k l q -> A k l = Some t ->
  nodes.[t] = Some nd -> limited (zupdate nodes t (add_cpu k q t nd)) l (k + 1).
Proof.
  intros Hl Hk Hlim Hprev Ht Hnd p Hp.
  assert (lo l <= t < hi l) as Htr.
  { destruct (A_row k l Hk Hl) as (t' & Ht' & ?). congruence. }
  destruct (Hlim p Hp) as (nd' & Hnd' & Hlv & Hlk & H0 & H1 & H2 & H3 & Hc).
  destruct (decide (p = t)) as [->|Hne].
  - assert (nd' = nd) as -> by congruence.
    exists (add_cpu k q t nd). split; [apply zlookup_zupdate_eq; by eapply zlookup_lt_Some|].
    unfold add_cpu, node_covers in *. cbn [level lock_index cpu_start_idx ncpus with_limits].
    destruct (Z.eqb_spec t q) as [->|Hq].
    + assert (cpu_start_idx nd + ncpus nd = k) as Hfull.
      { unfold previous in Hprev. case_decide as Hk0; [lia|].
        pose proof (proj1 (Hc (k - 1) ltac:(lia)) Hprev). lia. }
      split_and!; try done; try lia. intros c Hck. destruct (decide (c = k)) as [->|Hck'].
      * split; [lia|done].
      * rewrite Hc by lia. lia.
    + assert (ncpus nd = 0) as Hz by (by eapply limited_new).
      split_and!; try done; try lia. intros c Hck. destruct (decide (c = k)) as [->|Hck'].
      * split; [lia|done].
      * rewrite Hc by lia. lia.
  - exists nd'. rewrite zlookup_zupdate_ne by done. split_and!; try done; try lia.
    intros c Hck. destruct (decide (c = k)) as [->|Hck'].
    + unfold node_covers. split; [congruence|lia].
    + apply Hc. lia.
Qed.

Lemma limited_other nodes l l' k t nd nd' :
  l <> l' -> limited nodes l' k -> nodes.[t] = Some nd -> level nd = l ->
  limited (zupdate nodes t nd') l' k.
Proof.
  intros Hne Hlim Hnd Hlv p Hp. destruct (Hlim p Hp) as (m & Hm & Hml & H).
  exists m. rewrite zlookup_zupdate_ne by congruence. done.
Qed.

(** One level of one CPU. *)
Lemma wp_update_limit_at k temp idx j t q nd s (Q : list Z -> psci_state -> Prop) :
  temp !! j = Some t -> idx !! j = Some q -> (psci_non_cpu_pd_nodes s).[t] = Some nd ->
  0 <= ncpus nd < UINT32_MAX ->
  Q (<[j := t]> idx) (set_nodes (zupdate (psci_non_cpu_pd_nodes s) t (add_cpu k q t nd)) s) ->
  wpd (update_limit_at k temp idx j) Q s.
Proof.
  intros Htemp Hidx Hnd Hn HQ. unfold update_limit_at.
  apply wp_bind. eapply wp_deref; [done|]. apply wp_bind. eapply wp_deref; [done|].
  assert (u32 (ncpus nd + 1) = ncpus nd + 1) as Hu by (apply u32_small; unfold UINT32_MAX in Hn; lia).
  unfold add_cpu in HQ. destruct (Z.eqb_spec t q) as [->|Hne]; cbn [negb when].
  - apply wp_bind, wp_ret. eapply wp_bind_exact; [by apply write_node_run|]. apply wp_ret.
    rewrite Hu. rewrite list_insert_id in HQ by done. done.
  - apply wp_bind. eapply wp_exact; [by apply write_node_run|].
    eapply wp_bind_exact.
    { apply write_node_run. cbn [psci_non_cpu_pd_nodes set_nodes]. apply zlookup_zupdate_eq.
      by eapply zlookup_lt_Some. }
    apply wp_ret. cbn [psci_non_cpu_pd_nodes set_nodes ncpus cpu_start_idx with_limits].
    rewrite Hu, zupdate_zupdate. done.
Qed.

Lemma rev_seq_split m done j todo :
  rev (seq 0 m) = done ++ j :: todo -> (j = m - 1 - length done /\ length done < m)%nat.
Proof.
  intros Hs. pose proof (f_equal length Hs) as Hlen.
  rewrite length_rev, length_seq, length_app in Hlen. simpl in Hlen.
  pose proof (f_equal (lookup (length done)) Hs) as Hj.
  rewrite lookup_app_r, Nat.sub_diag in Hj by lia. simpl in Hj.
  rewrite rev_alt in Hj. change (rev_append (seq 0 m) []) with (reverse (seq 0 m)) in Hj.
  rewrite reverse_lookup in Hj by (rewrite length_seq; lia). rewrite length_seq in Hj.
  apply lookup_seq in Hj. lia.
Qed.

Definition same_shape (nodes nodes' : list non_cpu_pd_node_t) : Prop :=
  length nodes' = length nodes /\ forall p, no_limits <$> nodes'.[p] = no_limits <$> nodes.[p].

Lemma same_shape_update nodes nodes' t nd k q :
  same_shape nodes nodes' -> nodes'.[t] = Some nd ->
  same_shape nodes (zupdate nodes' t (add_cpu k q t nd)).
Proof.
  intros [Hl Hs] Hnd. split; [by rewrite length_zupdate|]. intros p. rewrite <- Hs.
  destruct (decide (p = t)) as [->|Hne]; [|by rewrite zlookup_zupdate_ne].
  rewrite zlookup_zupdate_eq by (by eapply zlookup_lt_Some). by rewrite Hnd.
Qed.

(** All the levels of one CPU. *)
Lemma wp_cpu_limits k temp idx s :
  0 <= k < n -> n <= 2 ^ 16 -> (forall l, valid_lvl l -> temp !! (l - 1)%nat = A k l) ->
  (forall l, valid_lvl l -> exists q, idx !! (l - 1)%nat = Some q /\ previous k l q) ->
  (forall l, valid_lvl l -> limited (psci_non_cpu_pd_nodes s) l k) ->
  wpd (fold_each (rev (seq 0 PLAT_MAX_PWR_LVL)) idx (fun j idx => update_limit_at k temp idx j))
    (fun idx' s' => (forall l, valid_lvl l -> idx' !! (l - 1)%nat = A k l) /\
       exists nodes', s' = set_nodes nodes' s /\ same_shape (psci_non_cpu_pd_nodes s) nodes' /\
         forall l, valid_lvl l -> limited nodes' l (k + 1)) s.
Proof.
  intros Hk Hn Htemp Hidx Hlim. eapply wp_mono.
  - apply (wp_fold_each _ _ (fun done idx' s' => exists nodes', s' = set_nodes nodes' s /\
      same_shape (psci_non_cpu_pd_nodes s) nodes' /\
      forall l, valid_lvl l -> if decide (PLAT_MAX_PWR_LVL - length done < l)%nat
        then limited nodes' l (k + 1) /\ idx' !! (l - 1)%nat = A k l
        else limited nodes' l k /\ exists q, idx' !! (l - 1)%nat = Some q /\ previous k l q)).
    + exists (psci_non_cpu_pd_nodes s). split; [by destruct s|]. split; [done|].
      intros l Hl. unfold valid_lvl in Hl. rewrite decide_False by (simpl; lia). eauto.
    + intros done j idx' s' [todo Hseq] (nodes' & -> & Hsh & Hl). apply rev_seq_split in Hseq as [Hj Hd].
      set (l := S j). assert (valid_lvl l) as Hvl by (unfold valid_lvl, l; lia).
      pose proof (Hl l Hvl) as Hcur. rewrite decide_False in Hcur by (unfold l; lia).
      destruct Hcur as [Hliml (q & Hq & Hprev)]. destruct (A_row k l Hk Hvl) as (t & Ht & Htr).
      destruct (Hliml t Htr) as (nd & Hnd & Hlv & _ & H0 & H1 & H2 & _).
      replace (l - 1)%nat with j in Hq by (unfold l; lia).
      eapply wp_update_limit_at; [| |exact Hnd| |].
      { rewrite <- Ht, <- Htemp by done. f_equal. unfold l. lia. }
      { done. }
      { unfold UINT32_MAX. lia. }
      exists (zupdate nodes' t (add_cpu k q t nd)). split; [done|].
      split; [by apply same_shape_update|]. intros l' Hl'. rewrite length_app. cbn [length].
      specialize (Hl l' Hl'). destruct (decide (l' = l)) as [->|Hne].
      * rewrite decide_True by (unfold l; lia). split; [by apply limited_step|].
        replace (l - 1)%nat with j by (unfold l; lia).
        rewrite list_lookup_insert_eq by (by eapply lookup_lt_Some). done.
      * assert (j <> (l' - 1)%nat) as Hj' by (unfold l, valid_lvl in *; lia).
        rewrite list_lookup_insert_ne by done.
        destruct (decide (PLAT_MAX_PWR_LVL - length done < l')%nat) as [Hlt|Hge].
        -- rewrite decide_True by lia. destruct Hl as [Hl Hi]. split; [|done].
           by apply (limited_other _ l _ _ _ nd).
        -- rewrite decide_False by (unfold l in *; lia). destruct Hl as [Hl Hi]. split; [|done].
           by apply (limited_other _ l _ _ _ nd).
  - intros idx' s' (nodes' & -> & Hsh & Hl). rewrite length_rev, length_seq in Hl.
    assert (forall l, valid_lvl l -> limited nodes' l (k + 1) /\ idx' !! (l - 1)%nat = A k l) as Hfin.
    { intros l Hvl. specialize (Hl l Hvl). rewrite decide_True in Hl by (unfold valid_lvl in Hvl; lia). done. }
    split; [intros l Hvl; by apply Hfin|]. exists nodes'. split_and!; try done.
    intros l Hvl. by apply Hfin.
  - done.
Qed.
End Limits.

Lemma wp_update_limits s n lo hi :
  tree (topo s) n lo hi -> psci_plat_core_count s = n -> 0 <= n <= 2 ^ 16 ->
  n <= Z.of_nat (length (psci_cpu_pd_nodes s)) ->
  (forall l, valid_lvl l -> limited (anc (topo s)) lo hi (psci_non_cpu_pd_nodes s) l 0) ->
  wpd psci_update_pwrlvl_limits
    (fun _ s' => exists nodes', s' = set_nodes nodes' s /\
       same_shape (psci_non_cpu_pd_nodes s) nodes' /\
       forall l, valid_lvl l -> limited (anc (topo s)) lo hi nodes' l n) s.
Proof.
  intros Htree Hcount Hn Hlen Hlim. unfold psci_update_pwrlvl_limits.
  apply wp_bind, wp_gets. rewrite Hcount. apply wp_bind. eapply wp_mono.
  - apply (wp_fold_each _ _ (fun done idx s' => let k := Z.of_nat (length done) in
      (forall l, valid_lvl l -> exists q, idx !! (l - 1)%nat = Some q /\ previous (anc (topo s)) k l q) /\
      exists nodes', s' = set_nodes nodes' s /\ same_shape (psci_non_cpu_pd_nodes s) nodes' /\
        forall l, valid_lvl l -> limited (anc (topo s)) lo hi nodes' l k)).
    + split.
      * intros l Hl. exists 0. split; [|unfold previous; by rewrite decide_True].
        apply lookup_replicate. unfold valid_lvl in Hl. lia.
      * exists (psci_non_cpu_pd_nodes s). split_and!; try done. by destruct s.
    + intros done x idx s' [todo Hseq] (Hidx & nodes' & -> & [Hl Hsh] & Hlim').
      apply seqZ_split in Hseq as [Hx Hlt]. rewrite Z.add_0_l in Hx. subst x.
      set (k := Z.of_nat (length done)) in *.
      assert (forall c l, anc (topo (set_nodes nodes' s)) c l = anc (topo s) c l) as Hanc
        by (intros; by apply anc_same_parents).
      destruct (proj2 (zlookup_lt_is_Some (psci_cpu_pd_nodes s) k)) as [nd Hnd]; [lia|].
      assert (linked (topo (set_nodes nodes' s)) k) as Hlk.
      { intros l Hvl. destruct (anc_in_row _ _ _ _ Htree k l) as (p & Hp & Hr); [lia|done|].
        destruct (Hlim' l Hvl p Hr) as (m & Hm & _). exists p, (with_local_state 0 m).
        rewrite Hanc. split; [done|]. by apply topo_node_inv. }
      eapply wp_bind_exact; [by apply (get_parents_linked _ _ nd)|].
      eapply wp_mono.
      * apply (wp_cpu_limits (anc (topo s)) n lo hi); try done; try lia.
        -- intros; by eapply anc_in_row.
        -- intros; by eapply (anc_mono _ _ _ _ Htree c c').
        -- intros l Hvl. destruct (path_linked _ _ _ Hlk (Nat.le_refl _)) as [_ Hp].
           rewrite Hp by (unfold valid_lvl in Hvl; lia). by rewrite Hanc.
      * intros idx' s' (Hidx' & nodes'' & -> & [Hl2 Hsh2] & Hlim2).
        cbn [psci_non_cpu_pd_nodes set_nodes] in *. rewrite length_app, Nat2Z.inj_add. cbn [length].
        fold k. split.
        -- intros l Hvl. rewrite Hidx' by done.
           destruct (anc_in_row _ _ _ _ Htree k l) as (p & Hp & Hr); [lia|done|].
           exists p. split; [done|]. unfold previous. rewrite decide_False by lia.
           by replace (k + Z.of_nat 1 - 1) with k by lia.
        -- exists nodes''. split; [done|]. split; [|done]. split; [lia|]. intros p. by rewrite Hsh2.
      * done.
  - intros idx s' (_ & nodes' & -> & Hsh & Hlim'). apply wp_ret.
    rewrite length_seqZ, Z2Nat.id in Hlim' by lia. eauto.
  - done.
Qed.

(** ** The rest of the set-up *)

Lemma wp_populate_cpu_data s n :
  psci_plat_core_count s = n -> 0 <= n <= Z.of_nat (length (psci_svc_cpu_data s)) ->
  wpd populate_cpu_data (fun _ s' => exists data, s' = set_cpu_data data s /\
    length data = length (psci_svc_cpu_data s) /\
    forall c, data.[c] = if decide (0 <= c < n)
      then with_warmboot_ep_ptr (Some c) <$> (psci_svc_cpu_data s).[c]
      else (psci_svc_cpu_data s).[c]) s.
Proof.
  intros Hcount Hn. unfold populate_cpu_data. apply wp_bind, wp_gets. rewrite Hcount. eapply wp_mono.
  - apply (wp_for_each _ _ (fun done s' => exists data, s' = set_cpu_data data s /\
      length data = length (psci_svc_cpu_data s) /\
      forall c, data.[c] = if decide (0 <= c < Z.of_nat (length done))
        then with_warmboot_ep_ptr (Some c) <$> (psci_svc_cpu_data s).[c]
        else (psci_svc_cpu_data s).[c])).
    + exists (psci_svc_cpu_data s). split_and!; try done; [by destruct s|].
      intros c. simpl. by rewrite decide_False by lia.
    + intros done x s' [todo Hseq] (data & -> & Hl & Hd). apply seqZ_split in Hseq as [Hx Hlt].
      rewrite Z.add_0_l in Hx.
      destruct (proj2 (zlookup_lt_is_Some (psci_svc_cpu_data s) x)) as [d Hdx]; [lia|].
      assert (data.[x] = Some d) as Hdx' by (rewrite Hd, decide_False by lia; done).
      eapply wp_exact; [by apply write_cpu_data_run|].
      exists (zupdate data x (with_warmboot_ep_ptr (Some x) d)). split; [done|].
      rewrite length_zupdate, length_app. cbn [length]. split; [done|]. intros c.
      destruct (decide (c = x)) as [->|Hne].
      * rewrite zlookup_zupdate_eq by lia. rewrite decide_True by lia. by rewrite Hdx.
      * rewrite zlookup_zupdate_ne by done. rewrite Hd.
        destruct (decide (0 <= c < Z.of_nat (length done)));
          [rewrite decide_True by lia|rewrite decide_False by lia]; done.
  - intros _ s' (data & -> & Hl & Hd). rewrite length_seqZ, Z2Nat.id in Hd by lia. eauto.
  - done.
Qed.

(** The request table during its initialisation. *)
Definition req_at (reqs : list (list Z)) (l : nat) (c : Z) : option Z :=
  reqs !! l ≫= fun row => row.[c].

Record req_table (s s' : psci_state) (off : nat -> Z -> Prop) : Prop := {
  rt_state : s' = set_req (psci_req_local_pwr_states s') s;
  rt_len : length <$> psci_req_local_pwr_states s' = length <$> psci_req_local_pwr_states s;
  rt_nonneg : req_nonneg s';
  rt_off : forall l c, off l c -> req_at (psci_req_local_pwr_states s') l c = Some PLAT_MAX_OFF_STATE
}.

Lemma req_table_set s s' off l row c :
  0 <= PLAT_MAX_OFF_STATE -> req_table s s' off -> psci_req_local_pwr_states s' !! l = Some row ->
  0 <= c < Z.of_nat (length row) ->
  req_table s (set_req (<[l := zupdate row c PLAT_MAX_OFF_STATE]> (psci_req_local_pwr_states s')) s')
    (fun l' c' => off l' c' \/ (l' = l /\ c' = c)).
Proof.
  intros Hoff [Hst Hlen Hnn Hof] Hrow Hc. set (reqs := psci_req_local_pwr_states s') in *.
  split; cbn [psci_req_local_pwr_states set_req].
  - by rewrite Hst.
  - rewrite list_fmap_insert, length_zupdate, <- Hlen. apply list_insert_id.
    by rewrite list_lookup_fmap, Hrow.
  - apply Forall_insert; [done|]. unfold zupdate. case_match; [|by eapply Forall_lookup_1].
    apply Forall_insert; [|done]. by eapply Forall_lookup_1.
  - intros l' c' Hor. unfold req_at. destruct (decide (l' = l)) as [->|Hne].
    + rewrite list_lookup_insert_eq by (by eapply lookup_lt_Some). cbn [mbind option_bind].
      destruct (decide (c' = c)) as [->|Hcc]; [by apply zlookup_zupdate_eq|].
      rewrite zlookup_zupdate_ne by done. destruct Hor as [Ho|[_ ?]]; [|done].
      specialize (Hof l c' Ho). unfold req_at in Hof. by rewrite Hrow in Hof.
    + rewrite list_lookup_insert_ne by done. destruct Hor as [Ho|[? _]]; [|done]. by apply Hof.
Qed.

Lemma wp_init_req s n :
  0 <= PLAT_MAX_OFF_STATE -> psci_plat_core_count s = n -> 0 <= n -> req_nonneg s ->
  (forall l, (l < PLAT_MAX_PWR_LVL)%nat -> exists row, psci_req_local_pwr_states s !! l = Some row /\
     n <= Z.of_nat (length row)) ->
  wpd psci_init_req_local_pwr_states (fun _ s' =>
    req_table s s' (fun l c => (l < PLAT_MAX_PWR_LVL)%nat /\ 0 <= c < n)) s.
Proof.
  intros Hoff Hcount Hn Hnn Hrows. unfold psci_init_req_local_pwr_states.
  apply wp_bind, wp_gets. rewrite Hcount. eapply wp_mono.
  - apply (wp_for_each _ _ (fun done s' =>
      req_table s s' (fun l c => (l < length done)%nat /\ 0 <= c < n))).
    { split; try done; [by destruct s|]. simpl. intros l c [? _]. lia. }
    intros done x s1 [todo Hseq] H1.
    assert (x = length done /\ x < PLAT_MAX_PWR_LVL)%nat as [-> Hx].
    { apply (f_equal (lookup (length done))) in Hseq.
      rewrite lookup_app_r, Nat.sub_diag in Hseq by lia. apply lookup_seq in Hseq. lia. }
    set (l := length done) in *. eapply wp_mono.
    + apply (wp_for_each _ _ (fun cs s' => req_table s s' (fun l' c =>
        ((l' < l)%nat /\ 0 <= c < n) \/ (l' = l /\ 0 <= c < Z.of_nat (length cs))))).
      { destruct H1 as [Hst Hlen Hnn' Hof]. split; try done. simpl.
        intros l' c [Hlt|[_ Hc]]; [by apply Hof|lia]. }
      intros cs c s2 [todo' Hseq'] H2. apply seqZ_split in Hseq' as [Hc Hlt]. rewrite Z.add_0_l in Hc.
      destruct (Hrows l Hx) as (row0 & Hrow0 & Hlen0).
      pose proof (f_equal (lookup l) (rt_len _ _ _ H2)) as Hll. rewrite !list_lookup_fmap, Hrow0 in Hll.
      destruct (psci_req_local_pwr_states s2 !! l) as [row|] eqn:Hrow; [|done]. injection Hll as Hll.
      destruct (proj2 (zlookup_lt_is_Some row c)) as [v Hv]; [lia|].
      apply wp_bind, wp_gets. apply wp_bind. eapply wp_deref; [done|].
      apply wp_bind. eapply wp_deref; [done|]. apply wp_modify.
      pose proof (req_table_set s s2 _ l row c Hoff H2 Hrow ltac:(lia)) as [Hst Hlen Hnn' Hof].
      split; try done. intros l' c' Hor. apply Hof. rewrite length_app in Hor. simpl in Hor.
      destruct (decide (l' = l /\ c' = c)) as [|Hne]; [by right|]. left. destruct Hor as [|[-> Hc']]; [by left|].
      right. split; [done|]. destruct (decide (c' = c)) as [->|]; [tauto|]. lia.
    + intros _ s' [Hst Hlen Hnn' Hof]. rewrite length_seqZ, Z2Nat.id in Hof by lia.
      split; try done. intros l' c [Hl Hc]. rewrite length_app in Hl. simpl in Hl. apply Hof.
      destruct (decide (l' = l)); [by right|]. left. lia.
    + done.
  - intros _ s' [Hst Hlen Hnn' Hof]. rewrite length_seq in Hof. done.
  - done.
Qed.

(** ** The booted state *)

Lemma built_tree nodes cpus s n lo hi :
  psci_non_cpu_pd_nodes s = nodes -> psci_cpu_pd_nodes s = cpus ->
  rows nodes 1 lo hi -> cpu_row cpus n (lo 1%nat) (hi 1%nat) -> tree (topo s) n lo hi.
Proof.
  intros Hns Hcs Hrows [Hcn Hcm].
  assert (forall c p, (t_cpus (topo s)).[c] = Some p ->
    exists nd, cpus.[c] = Some nd /\ p = cpu_parent_node nd) as Hcpu.
  { intros c p. simpl. rewrite Hcs, zlookup_fmap. destruct (cpus.[c]) as [nd|]; [|done].
    intros [= <-]. eauto. }
  split.
  - intros c Hc HM. destruct (Hcn c Hc) as (nd & Hnd & Hp). exists (cpu_parent_node nd).
    split; [|by apply Hp]. simpl. by rewrite Hcs, zlookup_fmap, Hnd.
  - intros c c' p p' HM Hc Hc' (nd & Hnd & ->)%Hcpu (nd' & Hnd' & ->)%Hcpu. by eapply (Hcm HM c c').
  - intros l j Hl Hj. destruct (Hrows l) as [_ [Hrow _]]; [unfold valid_lvl in Hl; lia..|].
    destruct (Hrow j Hj) as (nd & Hnd & Hlv & Hlk & _ & _ & Hp). rewrite <- Hns in Hnd.
    exists (with_local_state 0 nd). split; [by apply topo_node_inv|done].
  - intros l j j' nd nd' Hl HM Hj Hj' (m & Hm & ->)%topo_node (m' & Hm' & ->)%topo_node.
    destruct (Hrows l) as [_ [_ Hmono]]; [unfold valid_lvl in Hl; lia..|].
    rewrite Hns in Hm, Hm'. by apply (Hmono HM j j' m m').
Qed.

Lemma rows_limited A nodes lo hi l :
  rows nodes 1 lo hi -> valid_lvl l -> limited A lo hi nodes l 0.
Proof.
  intros Hrows Hl p Hp. destruct (Hrows l) as [_ [Hrow _]]; [unfold valid_lvl in Hl; lia..|].
  destruct (Hrow p Hp) as (nd & Hnd & Hlv & Hlk & Hs & Hn & _). exists nd.
  split_and!; try done; try lia. 
Qed.

Lemma limited_wf s n lo hi :
  psci_plat_core_count s = n -> 0 <= n <= Z.of_nat (length (psci_cpu_pd_nodes s)) ->
  n <= Z.of_nat (length (psci_svc_cpu_data s)) ->
  (forall c, 0 <= c < n -> exists d, (psci_svc_cpu_data s).[c] = Some d /\
     exists p, warmboot_ep_ptr d = Some p /\ 0 <= p < Z.of_nat (length (warmboot_ep_info s))) ->
  (forall l, (l < PLAT_MAX_PWR_LVL)%nat -> exists row, psci_req_local_pwr_states s !! l = Some row /\
     n <= Z.of_nat (length row)) ->
  length (last_cpu_in_non_cpu_pd s) = length (psci_non_cpu_pd_nodes s) ->
  (forall c l, 0 <= c < n -> valid_lvl l -> exists p, anc (topo s) c l = Some p /\ lo l <= p < hi l) ->
  (forall l, valid_lvl l -> limited (anc (topo s)) lo hi (psci_non_cpu_pd_nodes s) l n) ->
  wf_topo (topo s).
Proof.
  intros Hcount Hn Hdata Heps Hreq Hlast Hrow Hlim.
  split; cbn [topo t_cores t_cpus t_data t_eps t_req t_last t_nodes]; rewrite ?Hcount, ?length_fmap;
    try done; try lia.
  - intros c Hc. destruct (Heps c Hc) as (d & Hd & p & Hp & Hr). exists p.
    rewrite zlookup_fmap, Hd. cbn. by rewrite Hp.
  - intros l Hl. destruct (Hreq (l - 1)%nat) as (row & Hr & Hlen); [lia|]. exists (length row).
    by rewrite list_lookup_fmap, Hr.
  - intros c l Hc Hl. destruct (Hrow c l Hc Hl) as (p & Hp & Hr).
    destruct (Hlim l Hl p Hr) as (nd & Hnd & Hlv & Hlk & H0 & H1 & H2 & _ & Hcov).
    exists p, (with_local_state 0 nd). split_and!; try done; [by apply topo_node_inv|by apply Hcov].
  - intros c c' l p nd Hc Hc' Hl Hp Hnd Hcv. apply topo_node in Hnd as (m & Hm & ->).
    destruct (Hrow c l Hc Hl) as (p' & Hp' & Hr). assert (p' = p) as -> by congruence.
    destruct (Hlim l Hl p Hr) as (m' & Hm' & _ & _ & _ & _ & _ & _ & Hcov).
    assert (m' = m) as -> by congruence. by apply Hcov.
Qed.

(** From a state with a well-formed tree in which every CPU is off. *)
Lemma running_booted s c0 :
  wf_topo (topo s) -> valid_cpu (topo s) c0 -> req_nonneg s ->
  (forall c, valid_cpu (topo s) c -> exists d, (psci_svc_cpu_data s).[c] = Some d /\
     aff_info_state d = AFF_STATE_OFF /\ target_pwrlvl d = PLAT_MAX_PWR_LVL) ->
  (forall c l, valid_cpu (topo s) c -> valid_lvl l -> req_state s l c = Some PLAT_MAX_OFF_STATE) ->
  booted c0 (running c0 PLAT_MAX_PWR_LVL s).
Proof.
  intros Hwf Hc0 Hnn Hdata Hreq.
  destruct (running_effects s c0 PLAT_MAX_PWR_LVL Hwf Hc0 (Nat.le_refl _))
    as (Hlvl & _ & Hr & (d0 & Hd0 & Ha0 & _ & Ht0) & Hd & Hnn').
  split; rewrite ?topo_running; try done.
  - by apply Hnn'.
  - intros c Hc. destruct (Hdata c Hc) as (d & Hdc & Ha & Ht). case_decide as Hcc.
    + subst c. exists d0. rewrite Hdc in Ht0. injection Ht0 as Ht0. split_and!; congruence.
    + exists d. by rewrite Hd.
  - intros c l Hc Hl. case_decide as Hcc; [subst; by apply Hlvl|]. rewrite Hr by done. by apply Hreq.
  - intros l _ Hl. by apply Hlvl.
Qed.

Lemma booted_trace tr c0 s : booted c0 s -> booted c0 (set_trace tr s).
Proof. by intros [? ? ? ? ?]. Qed.

Lemma booted_set_caps v c0 s : booted c0 s -> booted c0 (set_caps v s).
Proof. by intros [? ? ? ? ?]. Qed.

(** ** [psci_setup] *)

Lemma cold_fits `{!PsciConfigOk} lv e :
  tree_desc lv -> PSCI_NUM_NON_CPU_PWR_DOMAINS <= 2 ^ 16 ->
  let s := set_trace e cold_state in
  fits s /\ no_cpus (psci_non_cpu_pd_nodes s) 0.
Proof.
  intros [_ Hw Hn _] H16. pose proof (desc_nodes_nonneg _ _ Hw). pose proof cfg_cores. cbv zeta. split.
  - unfold fits. cbn. rewrite !length_replicate, !Z2Nat.id by lia. split_and!; try done; lia.
  - intros j Hj. cbn in *. rewrite length_replicate in Hj. exists cold_node.
    rewrite zlookup_to_nat by lia. split; [|done]. apply lookup_replicate. split; [done|lia].
Qed.

(** After the tree is built and the CPU count is known. *)
Lemma wp_setup_tail `{!PsciConfigOk} s0 s1 n c0 :
  fits s0 -> built s0 s1 n -> 0 <= c0 < n -> n <= PLATFORM_CORE_COUNT ->
  psci_req_local_pwr_states s0 =
    replicate PLAT_MAX_PWR_LVL (replicate (Z.to_nat PLATFORM_CORE_COUNT) 0) ->
  length (warmboot_ep_info s0) = Z.to_nat PLATFORM_CORE_COUNT ->
  length (last_cpu_in_non_cpu_pd s0) = length (psci_non_cpu_pd_nodes s0) ->
  wpd (psci_update_pwrlvl_limits ;; populate_cpu_data ;;
       write_cpu_node c0 (with_mpidr (Z.land (read_mpidr c0) MPIDR_AFFINITY_MASK)) ;;
       psci_init_req_local_pwr_states ;; psci_set_pwr_domains_to_run c0 PLAT_MAX_PWR_LVL)
    (fun _ s' => booted c0 s' /\ psci_plat_core_count s' = n) (set_core_count n s1).
Proof.
  intros (Hfn & Hfc & Hfd & _ & H16) (nodes & cpus & data & tr & lo & hi & -> & Hln & Hlc & Hld & Hrows & Hcr & Hdr)
    Hc0 Hn Hreqs Heps Hlast. pose proof cfg_cores as Hcores. pose proof cfg_states as Hstates.
  set (s2 := set_core_count n _). assert (tree (topo s2) n lo hi) as Htree by (by apply (built_tree nodes cpus)).
  apply wp_bind. eapply wp_mono; [apply (wp_update_limits s2 n lo hi); try done; try (cbn; lia)| |done].
  { intros l Hl. by apply rows_limited. }
  intros _ s3 (nodes3 & -> & [Hl3 Hsh3] & Hlim3).
  apply wp_bind. eapply wp_mono; [apply (wp_populate_cpu_data _ n); [done|cbn; lia]| |done].
  intros _ s4 (data4 & -> & Hl4 & Hd4). cbn in Hl4, Hd4, Hl3.
  destruct (proj2 (zlookup_lt_is_Some cpus c0)) as [nd Hnd]; [lia|].
  eapply wp_bind_exact; [by apply (write_cpu_node_run _ _ nd)|]. set (s5 := set_cpu_nodes _ _).
  apply wp_bind. eapply wp_mono; [apply (wp_init_req s5 n); try done; try lia| |done].
  { unfold req_nonneg. cbn. rewrite Hreqs. by do 2 apply Forall_replicate. }
  { intros l Hl. cbn. rewrite Hreqs. eexists. split; [by apply lookup_replicate|].
    rewrite length_replicate. lia. }
  intros _ s6 [Hst6 Hlen6 Hnn6 Hoff6]. set (reqs := psci_req_local_pwr_states s6) in *. clearbody reqs. subst s6.
  assert (forall c l, anc (topo (set_req reqs s5)) c l = anc (topo s2) c l) as Hanc.
  { intros c l. apply anc_same_parents; [|done]. unfold s5, s2. cbn.
    rewrite zupdate_fmap. apply zupdate_id. by rewrite zlookup_fmap, Hnd. }
  assert (wf_topo (topo (set_req reqs s5))) as Hwf.
  { apply (limited_wf _ n lo hi); cbn; rewrite ?length_zupdate; try done; try lia.
    - intros c Hc. rewrite Hd4, decide_True by done. destruct (Hdr c Hc) as (d & Hd & _).
      rewrite Hd. eexists. split; [done|]. exists c. split; [done|]. lia.
    - intros l Hl. cbn in Hlen6. rewrite Hreqs in Hlen6.
      pose proof (f_equal (lookup l) Hlen6) as Hr. rewrite !list_lookup_fmap, lookup_replicate_2 in Hr by done.
      destruct (reqs !! l) as [row|]; [|done]. exists row. split; [done|].
      injection Hr as Hr. rewrite length_replicate in Hr. lia.
    - intros c l Hc Hl. rewrite Hanc. by eapply anc_in_row.
    - intros l Hl p Hp. destruct (Hlim3 l Hl p Hp) as (m & Hm & Hrest). exists m. split; [done|].
      destruct Hrest as (? & ? & ? & ? & ? & ? & Hcov). split_and!; try done. intros c Hc. rewrite Hanc. by apply Hcov. }
  eapply wp_exact; [by apply set_run_run|]. split.
  - apply running_booted; try done.
    + intros c Hc. cbn. rewrite Hd4, decide_True by done. destruct (Hdr c Hc) as (d & Hd & Ha & Ht).
      rewrite Hd. by eexists.
    + intros c l Hc Hl. specialize (Hoff6 (l - 1)%nat c). unfold req_at in Hoff6. unfold req_state. cbn.
      destruct Hl as [Hl1 Hl2]. specialize (Hoff6 ltac:(split; [lia|done])).
      by destruct (reqs !! (l - 1)%nat).
  - exact (f_equal t_cores (topo_running c0 PLAT_MAX_PWR_LVL (set_req reqs s5))).
Qed.

(** [plat_setup_psci_ops], given the entry point of [args], stores no hooks. *)
Definition hooks_missing (args : option psci_lib_args_t) : Prop :=
  exists a, args = Some a /\ plat_setup_psci_ops (mailbox_ep a) = false.

Lemma wp_setup `{!PsciConfigOk} args lv extra c0 :
  tree_desc lv -> PSCI_NUM_NON_CPU_PWR_DOMAINS <= 2 ^ 16 ->
  plat_get_power_domain_tree_desc = concat lv ++ extra -> 0 <= c0 < desc_cpus lv ->
  VERIFY_PSCI_LIB_ARGS_V1 args = true ->
  wp (psci_setup args c0) (fun r s => r = 0 /\ booted c0 s /\ psci_plat_core_count s = desc_cpus lv /\
    psci_caps s = platform_caps psci_plat_pm_ops) (fun _ _ => hooks_missing args) cold_state.
Proof.
  intros Htd H16 Hdesc Hc0 Hargs. destruct args as [x|]; [|done]. destruct (cold_fits lv [E_arch_setup] Htd H16) as [Hf Hno].
  unfold psci_setup, emit. apply wp_bind, wp_assert; [by rewrite Hargs|]. apply wp_bind, wp_modify. rewrite Hdesc.
  apply wp_bind. eapply wp_mono; [by apply wp_populate_tree| |done]. intros n s1 [-> Hb].
  apply wp_bind, wp_modify.
  pose proof (wp_setup_tail _ s1 (desc_cpus lv) c0 Hf Hb Hc0) as Htail.
  destruct (wpd_done _ _ _ (Htail (proj2 (td_cpus _ Htd)) eq_refl ltac:(apply length_replicate)
    ltac:(cbn; by rewrite !length_replicate))) as ([] & s' & Hrun & Hbt & Hct).
  unfold wp, bind, modify, assert_, deref, ret, plat_pm_ops_ptr in *.
  destruct (plat_setup_psci_ops (mailbox_ep x)) eqn:Hops; cbn [registered] in *; rewrite ?andb_false_r.
  - repeat (case_match; simplify_eq/=). split_and!; try done. by apply booted_set_caps, booted_trace.
  - repeat (case_match; simplify_eq/=); by exists x.
Qed.

(** [s] is the state in which [psci_setup] on CPU [c0] returns after a cold
    boot, on a platform whose description fits the arrays. *)
Definition cold_boot (c0 : Z) (s : psci_state) : Prop :=
  exists args lv extra, VERIFY_PSCI_LIB_ARGS_V1 args = true /\ tree_desc lv /\ PSCI_NUM_NON_CPU_PWR_DOMAINS <= 2 ^ 16 /\
    plat_get_power_domain_tree_desc = concat lv ++ extra /\ 0 <= c0 < desc_cpus lv /\
    psci_setup args c0 cold_state = Done 0 s.

Lemma cold_boot_booted `{!PsciConfigOk} c0 s : cold_boot c0 s -> booted c0 s.
Proof.
  intros (args & lv & extra & Hargs & Htd & H16 & Hdesc & Hc0 & Hrun).
  pose proof (wp_setup args lv extra c0 Htd H16 Hdesc Hc0 Hargs) as Hwp. unfold wp in Hwp. rewrite Hrun in Hwp.
  apply Hwp.
Qed.

(** C28. Cold boot: for every platform description that lists the entries of
    one tree level after the other and fits the arrays, [psci_setup] on any of
    its CPUs, called with valid library arguments, returns 0, without a failing
    assertion or an access outside an array, when [plat_setup_psci_ops] stores the
    hooks of the platform; the arrays then form a well-formed power domain tree
    with exactly the CPUs described, in which the calling CPU runs, with its
    domains, and every other CPU is off and asks for OFF. *)
Theorem setup_boots `{!PsciConfigOk} args lv extra c0 :
  VERIFY_PSCI_LIB_ARGS_V1 args = true -> (forall ep, plat_setup_psci_ops ep = true) ->
  tree_desc lv -> PSCI_NUM_NON_CPU_PWR_DOMAINS <= 2 ^ 16 ->
  plat_get_power_domain_tree_desc = concat lv ++ extra -> 0 <= c0 < desc_cpus lv ->
  exists s, psci_setup args c0 cold_state = Done 0 s /\ booted c0 s /\
    psci_plat_core_count s = desc_cpus lv /\ psci_caps s = platform_caps psci_plat_pm_ops.
Proof.
  intros Hargs Hops Htd H16 Hdesc Hc0. pose proof (wp_setup args lv extra c0 Htd H16 Hdesc Hc0 Hargs) as Hwp.
  unfold wp in Hwp. destruct (psci_setup args c0 cold_state) as [r s|w s].
  - destruct Hwp as [-> Hs]. by exists s.
  - destruct Hwp as (a & _ & Ha). by rewrite Hops in Ha.
Qed.
End Build.

(** ** The demonstration platform *)

Lemma demo_desc os a : @tree_desc (demo_config os a) [[1]; [2]; [2; 2]].
Proof. split; cbn; try done; repeat constructor; lia. Qed.

Lemma demo_cold_boot os a w :
  @cold_boot (demo_config os a) (@demo_platform (demo_config os a) w) 0
    (demo_boot (demo_config os a) (@demo_platform (demo_config os a) w)).
Proof.
  exists demo_args, [[1]; [2]; [2; 2]], []. split; [done|]. split; [apply demo_desc|]. split_and!; try (cbn; lia); [done|].
  apply demo_boots.
Qed.

Module BuildRun.
Lemma setup_boots_witness :
  exists s, @psci_setup (demo_config false true) (@demo_platform (demo_config false true) true) demo_args 0
    (@cold_state (demo_config false true)) = Done 0 s /\ psci_plat_core_count s = 4.
Proof.
  destruct (@setup_boots (demo_config false true) (@demo_platform (demo_config false true) true) _
    demo_args [[1]; [2]; [2; 2]] [] 0) as (s & Hrun & _ & Hn & _).
  - reflexivity.
  - reflexivity.
  - apply demo_desc.
  - cbn. lia.
  - reflexivity.
  - cbn. lia.
  - exists s. split; [exact Hrun|exact Hn].
Defined.
End BuildRun.
