(* ===== verification/PsciSafety.v ===== *)
(** * PSCI: safety of the whole system

    Properties of every reachable interleaving of the CPUs' PSCI calls in a
    build with platform-coordinated suspend. *)

From stdpp Require Import list_numbers.
From S2P Require Import Prelude PsciTypes PsciCommon PsciStat PsciHandlers PsciMain PsciSetup PsciDemo PsciTopology PsciCoord PsciNodes PsciFrame PsciInterface PsciSystem PsciBoot PsciBuild.

Section Safety.
Context `{Cfg : PsciConfig} `{Plat : Platform} `{!CoordPlatform} `{!PsciConfigOk}.

Lemma boot_reachable_inv c0 s y :
  PSCI_OS_INIT_MODE = false -> cold_boot c0 s -> rtc step (boot_system c0 s) y -> sys_inv y.
Proof. intros Hos Hb Hr. eapply reachable_inv; [done..|]. by apply booted_inv, cold_boot_booted. Qed.

(** The CPU has reset its own power level and affinity state by the time it is
    running, so that its requests are all RUN. *)
Lemma running_requests y c l :
  sys_inv y -> valid_cpu (topo (sys_psci y)) c -> sys_phase y c = Running false -> valid_lvl l ->
  req_state (sys_psci y) l c = Some PSCI_LOCAL_STATE_RUN.
Proof.
  intros Hinv Hc Hp Hl. apply (ci_req _ _ _ (i_cpu _ _ Hinv c Hc)); [done|].
  rewrite Hp. cbn. unfold valid_lvl in Hl. lia.
Qed.

(** C1. In every state the CPUs can reach after a cold boot ([psci_setup] on a
    platform with any tree of power domains that fits the arrays) by any
    interleaving of CPU_ON, CPU_OFF, CPU_SUSPEND, wake-ups and warm boots, with
    any answers of the hooks, all the power domains above a running CPU are in
    the RUN state: coordination never turns a domain off, or puts it in
    retention, under a CPU that executes. The one exception, [Running true], is
    a CPU whose CPU_OFF came back with an error of the early hook other than
    DENIED, until it next powers down all levels: that call lowers the domains
    and returns. *)
Theorem running_cpu_domains_run c0 s y c l :
  PSCI_OS_INIT_MODE = false -> cold_boot c0 s -> rtc step (boot_system c0 s) y ->
  valid_cpu (topo (sys_psci y)) c -> sys_phase y c = Running false -> valid_lvl l ->
  anc_state (sys_psci y) c l = Some PSCI_LOCAL_STATE_RUN.
Proof.
  intros Hos Hb Hr Hc Hp Hl. pose proof (boot_reachable_inv _ _ _ Hos Hb Hr) as Hinv.
  apply (i_upheld _ _ Hinv); [done|done|]. by apply running_requests.
Qed.

(** ** Affinity states *)

(** A successful CPU_ON found the target OFF. *)
Lemma cpu_on_success_off t target_cpu ep s s' d :
  psci_cpu_on_start t target_cpu ep s = Done PSCI_E_SUCCESS s' ->
  (psci_svc_cpu_data s).[t] = Some d -> aff_info_state d = AFF_STATE_OFF.
Proof.
  intros Hrun Hd.
  cut (wp (psci_cpu_on_start t target_cpu ep)
         (fun rc _ => rc = PSCI_E_SUCCESS -> aff_info_state d = AFF_STATE_OFF) (fun _ _ => True) s).
  { intros Hw. unfold wp in Hw. rewrite Hrun in Hw. by apply Hw. }
  unfold psci_cpu_on_start, required.
  destruct (PLATFORM_CORE_COUNT <=? t); [by apply wp_ret|].
  apply wp_bind_frame; [by frame|]. intros hook s1 Hc1.
  apply wp_bind_frame; [by frame|]. intros _ s2 Hc2.
  apply wp_bind_frame; [by frame|]. intros _ s3 Hc3.
  assert ((psci_svc_cpu_data s3).[t] = Some d) as Hd3.
  { pose proof (f_equal c_data (eq_trans Hc3 (eq_trans Hc2 Hc1))) as Hdat. cbn in Hdat.
    by rewrite Hdat. }
  apply wp_bind. eapply wp_exact; [by apply aff_run|]. apply wp_bind.
  eapply wp_mono with (Q := fun rc _ => rc = PSCI_E_SUCCESS -> aff_info_state d = AFF_STATE_OFF).
  - destruct (aff_info_state d); cbn [cpu_on_validate_state]; try by apply wp_ret.
    by apply wp_any.
  - intros rc s4 Hrc. apply wp_bind. apply wp_frame; [by frame|]. intros. by apply wp_ret.
  - done.
Qed.

(** The transitions the PSCI specification allows between affinity states. *)
Inductive aff_edge : aff_info_state_t -> aff_info_state_t -> Prop :=
  | aff_start : aff_edge AFF_STATE_OFF AFF_STATE_ON_PENDING
  | aff_booted : aff_edge AFF_STATE_ON_PENDING AFF_STATE_ON
  | aff_stop : aff_edge AFF_STATE_ON AFF_STATE_OFF.

Lemma inv_aff y c :
  sys_inv y -> valid_cpu (topo (sys_psci y)) c ->
  aff_of (sys_psci y) c = Some (phase_aff (sys_phase y c)).
Proof.
  intros Hinv Hc. destruct (i_cpu _ _ Hinv c Hc) as [(d & Hd & Ha & _) _ _].
  unfold aff_of. rewrite Hd. cbn. by rewrite Ha.
Qed.

(** A CPU whose data is unchanged or moves along an edge. *)
Definition aff_step (c : Z) (s s' : psci_state) : Prop :=
  exists a a', aff_of s c = Some a /\ aff_of s' c = Some a' /\ (a = a' \/ aff_edge a a').

Lemma phase_edges y y' c :
  step y y' -> sys_inv y -> valid_cpu (topo (sys_psci y)) c ->
  phase_aff (sys_phase y c) = phase_aff (sys_phase y' c) \/
  aff_edge (phase_aff (sys_phase y c)) (phase_aff (sys_phase y' c)).
Proof.
  destruct 1 as [s ph me b tg ep ctx rc s' Hc Hp Hrun|s ph me b rc s' Hc Hp Hrun|s ph me b early nodes rc st s' Hc Hp Hd Hs Hn Hrun
    |s ph me s' Hc Hp Hrun|s ph me b e st pd nodes r s' Hc Hp He Hst Hnn Hn Hrun
    |s ph me e st m pd b nodes s' Hc Hp Hn Hrun|s ph me s' Hc Hp Hrun|s ph me b st rc s' Hc Hp Hrun];
    cbn [sys_psci sys_phase]; intros Hinv Hv; unfold set_phase.
  - destruct (Z.eqb_spec rc PSCI_E_SUCCESS) as [->|]; [|by left].
    case_decide as Hcc; [subst c|by left]. right.
    assert (ph (u32 (plat_core_pos_by_mpidr tg)) = Off) as ->; [|constructor].
    destruct (i_cpu _ _ Hinv _ Hv) as [(d & Hd & _) _ _]. cbn in Hd.
    eapply inv_aff_off; eauto. revert Hrun. unfold psci_cpu_on, psci_cpu_on_by_core_pos, bind.
    destruct (is_valid_mpidr tg); cbn [negb]; [|done].
    pose proof (preserves_validate_ep ep_local ep ctx s) as Hcore.
    destruct (psci_validate_entry_point ep_local ep ctx s) as [r s1|w s1]; [|done]. cbn in Hcore.
    destruct (Z.eqb_spec (fst r) PSCI_E_SUCCESS) as [|Hr]; cbn [negb]; [|by intros [= ? _]].
    intros Hrun. eapply cpu_on_success_off; [exact Hrun|].
    pose proof (f_equal c_data Hcore) as Hdat. cbn in Hdat. by rewrite Hdat.
  - by left.
  - unfold off_phase, set_phase. destruct (rc =? PSCI_E_SUCCESS); [|destruct (_ ≫= _); [by left|]];
      (case_decide; [subst|by left]; rewrite Hp; by left).
  - case_decide; [subst|by left]. rewrite Hp. right. constructor.
  - destruct r as [|[st' m]]; [by left|]. case_decide; [subst|by left]. rewrite Hp. by left.
  - case_decide; [subst|by left]. rewrite Hp. by left.
  - case_decide; [subst|by left]. destruct (ph me); try done; [right; constructor|by left].
  - by left.
Qed.

(** C2. Refinement of the PSCI affinity automaton: in every reachable state,
    one step of the system takes the affinity state of each CPU nowhere, or
    along OFF -> ON_PENDING -> ON -> OFF. *)
Theorem affinity_automaton c0 s y y' c :
  PSCI_OS_INIT_MODE = false -> cold_boot c0 s -> rtc step (boot_system c0 s) y -> step y y' ->
  valid_cpu (topo (sys_psci y)) c -> valid_cpu (topo (sys_psci y')) c ->
  aff_step c (sys_psci y) (sys_psci y').
Proof.
  intros Hos Hb Hr Hstep Hc Hc'. pose proof (boot_reachable_inv _ _ _ Hos Hb Hr) as Hinv.
  pose proof (step_inv Hos _ _ Hstep Hinv) as Hinv'.
  eexists _, _. split; [by apply inv_aff|]. split; [by apply inv_aff|]. by eapply phase_edges.
Qed.
End Safety.

(** ** A run of the demonstration platform

    CPU 0 boots, turns CPU 2 on (in the other cluster), and CPU 2 warm
    boots. *)
Module Run.

Definition C : PsciConfig := demo_config false true.
#[export] Existing Instance C.
Definition P : Platform := demo_platform true.
#[export] Existing Instance P.
#[export] Instance C_ok : PsciConfigOk := demo_config_ok false true.
#[export] Instance P_coord : CoordPlatform := demo_coord false true true.

Definition s0 : psci_state := demo_boot C P.
Definition s1 : psci_state := final (psci_cpu_on 2 0x1000 7 s0).
Definition s2 : psci_state := final (psci_warmboot_entrypoint 2 s1).

Definition y1 : system := {| sys_psci := s1; sys_phase := set_phase 2 OnPending (boot_phase 0) |}.
Definition y2 : system := {|
  sys_psci := s2; sys_phase := set_phase 2 (Running false) (set_phase 2 OnPending (boot_phase 0)) |}.

Lemma s0_booted : booted 0 s0.
Proof. exact (demo_booted false true true). Qed.

Lemma s0_wf : wf_topo (topo s0).
Proof. apply s0_booted. Qed.

Lemma cpu_valid s c :
  (t_cores (topo s) =? 4) = true -> (0 <=? c) && (c <? 4) = true -> valid_cpu (topo s) c.
Proof.
  intros Hn%Z.eqb_eq [?%Z.leb_le ?%Z.ltb_lt]%andb_true_iff. unfold valid_cpu. lia.
Qed.

Lemma step_01 : step (boot_system 0 s0) y1.
Proof.
  assert (u32 (plat_core_pos_by_mpidr 2) = 2) as Hpos by (vm_compute; reflexivity).
  pose proof (step_cpu_on s0 (boot_phase 0) 0 false 2 0x1000 7 PSCI_E_SUCCESS s1) as Hstep.
  rewrite Hpos in Hstep. apply Hstep.
  - apply cpu_valid; vm_compute; reflexivity.
  - reflexivity.
  - vm_compute. reflexivity.
Qed.

Lemma step_12 : step y1 y2.
Proof.
  apply (step_warmboot s1 (set_phase 2 OnPending (boot_phase 0)) 2 s2).
  - apply cpu_valid; vm_compute; reflexivity.
  - exact I.
  - vm_compute. reflexivity.
Qed.

Lemma running_cpu_domains_run_witness :
  rtc step (boot_system 0 s0) y2 /\ sys_phase y2 2 = Running false /\
  anc_state (sys_psci y2) 2 1 = Some PSCI_LOCAL_STATE_RUN.
Proof.
  assert (rtc step (boot_system 0 s0) y2) as Hr.
  { eapply rtc_l; [exact step_01|]. apply rtc_once, step_12. }
  split; [exact Hr|]. split; [reflexivity|].
  apply (running_cpu_domains_run 0 s0 y2 2 1).
  - reflexivity.
  - exact (demo_cold_boot false true true).
  - exact Hr.
  - apply cpu_valid; vm_compute; reflexivity.
  - reflexivity.
  - split; cbn; lia.
Defined.

Lemma affinity_automaton_witness :
  aff_of s1 2 = Some AFF_STATE_ON_PENDING /\ aff_of s2 2 = Some AFF_STATE_ON /\
  aff_step 2 (sys_psci y1) (sys_psci y2).
Proof.
  split; [vm_compute; reflexivity|]. split; [vm_compute; reflexivity|].
  apply (affinity_automaton 0 s0 y1 y2 2).
  - reflexivity.
  - exact (demo_cold_boot false true true).
  - apply rtc_once, step_01.
  - apply step_12.
  - apply cpu_valid; vm_compute; reflexivity.
  - apply cpu_valid; vm_compute; reflexivity.
Defined.
End Run.
