(* ===== verification/PsciPower.v ===== *)
(** * PSCI: properties of power domain state management

    State coordination, reading and writing the states of a CPU's domains,
    waking up and the lock discipline (lib/psci/psci_common.c). *)

From stdpp Require Import list_numbers.
From S2P Require Import Prelude PsciTypes PsciCommon PsciStat PsciHandlers PsciMain PsciSetup PsciDemo PsciTopology PsciCoord PsciNodes PsciFrame PsciInterface PsciSystem PsciBoot PsciSafety.

Section Coordination.
Context `{Cfg : PsciConfig} `{Plat : Platform} `{!CoordPlatform}.

(** The state chosen for a domain is not deeper than any of its requests. *)
Lemma coord_state_shallowest s c c' l p v w :
  wf_topo (topo s) -> valid_cpu (topo s) c -> valid_cpu (topo s) c' -> valid_lvl l ->
  req_nonneg s -> anc (topo s) c l = Some p -> anc (topo s) c' l = Some p ->
  req_state s l c' = Some v -> coord_state s c l = Some w -> w <= v.
Proof.
  intros Hwf Hc Hc' Hl Hnn Hp Hp' Hv Hw.
  destruct (domain_requests_some s c l Hwf Hc Hl) as (q & nd & row & rs & _ & _ & _ & _ & Hrs & _).
  destruct (domain_requests_vote s c c' l p rs) as (v' & Hv' & Hin); try done.
  assert (v' = v) as -> by congruence.
  pose proof (domain_requests_nonneg s c l rs Hnn Hrs) as Hall.
  unfold coord_state, coord_target in Hw. rewrite Hrs in Hw. destruct (forallb _ _).
  - pose proof (target_shallowest l rs w Hw) as Hle. rewrite Forall_forall in Hle. by apply Hle.
  - injection Hw as <-. rewrite Forall_forall in Hall. by apply Hall.
Qed.

(** C3. Refinement of coordination: [psci_do_state_coordination] returns,
    changes nothing but the recorded requests of the calling CPU, and leaves in
    each level of [state_info] the state that the specification assigns to it
    (the platform's answer to the requests of all the CPUs of the domain, RUN
    above the first level that keeps running); that state is never deeper than
    what any CPU of the domain has requested. *)
Theorem coordination_refines_spec s c end_lvl st :
  wf_topo (topo s) -> valid_cpu (topo s) c -> wf_power_state st -> nonneg_state st ->
  req_nonneg s -> (end_lvl <= PLAT_MAX_PWR_LVL)%nat ->
  exists st', psci_do_state_coordination c end_lvl st s = Done st' (voted c st end_lvl s) /\
    coordinated (voted c st end_lvl s) c end_lvl st st' /\
    forall c' l p v w, (1 <= l <= end_lvl)%nat -> valid_cpu (topo s) c' ->
      anc (topo s) c l = Some p -> anc (topo s) c' l = Some p ->
      req_state (voted c st end_lvl s) l c' = Some v -> pds st' !! l = Some w -> w <= v.
Proof.
  intros Hwf Hc Hst Hnn Hrn He.
  destruct (coordination_spec target_total s c end_lvl st) as (st' & Hrun & Hco); try done.
  exists st'. split_and!; try done. intros c' l p v w Hl Hc' Hp Hp' Hv Hw.
  rewrite (co_level _ _ _ _ _ Hco) in Hw by done.
  eapply (coord_state_shallowest (voted c st end_lvl s) c c' l p);
    rewrite ?topo_voted; eauto; [split; lia|]. by apply req_nonneg_voted.
Qed.

(** The last CPU turns its domains off: when every other CPU under the
    ancestors of [c] up to level [end_lvl] asks for OFF and [c] does too,
    coordination yields OFF at all those levels. *)
Theorem last_cpu_turns_domains_off `{!PsciConfigOk} `{!OffPlatform} s c end_lvl st :
  wf_topo (topo s) -> valid_cpu (topo s) c -> wf_power_state st ->
  (end_lvl <= PLAT_MAX_PWR_LVL)%nat ->
  (forall l, (1 <= l <= end_lvl)%nat -> pds st !! l = Some PLAT_MAX_OFF_STATE) ->
  (forall c' l p, valid_cpu (topo s) c' -> c' <> c -> (1 <= l <= end_lvl)%nat ->
     anc (topo s) c l = Some p -> anc (topo s) c' l = Some p ->
     req_state s l c' = Some PLAT_MAX_OFF_STATE) ->
  exists st', psci_do_state_coordination c end_lvl st s = Done st' (voted c st end_lvl s) /\
    forall l, (1 <= l <= end_lvl)%nat -> pds st' !! l = Some PLAT_MAX_OFF_STATE.
Proof.
  intros Hwf Hc Hst He Hoff Hothers.
  destruct (coordination_spec target_total s c end_lvl st) as (st' & Hrun & Hco); try done.
  exists st'. split; [done|].
  assert (forall l, (1 <= l <= end_lvl)%nat ->
    coord_target (voted c st end_lvl s) c l = Some PLAT_MAX_OFF_STATE) as Htgt.
  { intros l Hl. assert (valid_lvl l) as Hvl by (split; lia).
    destruct (wf_anc s c l Hwf Hc Hvl) as (p & nd & Hp & _).
    apply (off_votes_target _ c l p); rewrite ?topo_voted; try done.
    intros c' Hc' Hp'. rewrite req_state_voted by done.
    case_decide as Hd; [by apply Hoff|]. apply (Hothers c' l p); try done.
    intros ->. apply Hd. split; [done|lia]. }
  intros l Hl. rewrite (co_level _ _ _ _ _ Hco) by done. unfold coord_state.
  destruct (forallb _ _) eqn:Hall; [by apply Htgt|]. exfalso.
  apply not_true_iff_false in Hall. apply Hall, forallb_forall. intros k Hk%in_seq.
  unfold asleep. rewrite Htgt by lia. pose proof cfg_states.
  apply negb_true_iff, Z.eqb_neq. unfold PSCI_LOCAL_STATE_RUN. lia.
Qed.
End Coordination.

Section Nodes.
Context `{Cfg : PsciConfig} `{Plat : Platform}.

(** Round trip: the states written with
    [psci_set_target_local_pwr_states] are read back by
    [psci_get_target_local_pwr_states] at every level up to [end_lvl], with
    RUN above, and reading changes nothing. *)
Theorem set_get_target_states s c end_lvl st st0 :
  wf_topo (topo s) -> valid_cpu (topo s) c -> wf_power_state st -> wf_power_state st0 ->
  (end_lvl <= PLAT_MAX_PWR_LVL)%nat ->
  exists s' st', psci_set_target_local_pwr_states c end_lvl st s = Done tt s' /\
    psci_get_target_local_pwr_states c end_lvl st0 s' = Done st' s' /\
    forall l, (l <= PLAT_MAX_PWR_LVL)%nat ->
      pds st' !! l = if decide (l <= end_lvl)%nat then pds st !! l else Some PSCI_LOCAL_STATE_RUN.
Proof.
  intros Hwf Hc Hst Hst0 He.
  destruct (wf_power_state_lookup st 0 Hst) as [v0 Hv0]; [lia|].
  set (s1 := set_cpu_state c v0 s). assert (topo s1 = topo s) as Ht1 by apply topo_set_cpu_state.
  assert (topo (entered c st end_lvl s1) = topo s) as Ht by (by rewrite topo_entered).
  destruct (get_target_run (entered c st end_lvl s1) c end_lvl st0) as (st' & Hget & Hrs);
    rewrite ?Ht; try done.
  exists (entered c st end_lvl s1), st'. split; [by apply set_target_run|]. split; [done|].
  intros l Hl. case_decide as Hle; [|apply (rs_above _ _ _ _ Hrs); lia].
  destruct l as [|l].
  - rewrite (rs_cpu _ _ _ _ Hrs). unfold entered. cbn [psci_svc_cpu_data set_nodes].
    destruct (wf_cpu_data s c Hwf Hc) as [d Hd]. unfold s1, set_cpu_state. rewrite Hd. cbn.
    rewrite zlookup_zupdate_eq by (by eapply zlookup_lt_Some). done.
  - rewrite (rs_level _ _ _ _ Hrs) by lia. assert (valid_lvl (S l)) as Hvl by (split; lia).
    destruct (wf_anc s1 c (S l)) as (p & nd & Hp & _); rewrite ?Ht1; try done.
    rewrite (anc_state_entered s1 c st end_lvl (S l) c p); rewrite ?Ht1 in *; try done.
    rewrite decide_True; [done|]. split; [done|lia].
Qed.

(** Waking up: [psci_set_pwr_domains_to_run] returns with every domain of
    the CPU up to [end_lvl] in RUN, its requests for them set to RUN, its
    affinity state ON and its own state RUN; the states of all other domains
    and the requests of all other CPUs are as before. *)
Theorem set_pwr_domains_to_run_effect s c end_lvl :
  wf_topo (topo s) -> valid_cpu (topo s) c -> (end_lvl <= PLAT_MAX_PWR_LVL)%nat ->
  exists s', psci_set_pwr_domains_to_run c end_lvl s = Done tt s' /\ topo s' = topo s /\
    (forall l, (1 <= l <= end_lvl)%nat -> anc_state s' c l = Some PSCI_LOCAL_STATE_RUN /\
       req_state s' l c = Some PSCI_LOCAL_STATE_RUN) /\
    (forall p, (forall l, (1 <= l <= end_lvl)%nat -> anc (topo s) c l <> Some p) ->
       node_state s' p = node_state s p) /\
    (forall c' l, c' <> c -> valid_lvl l -> req_state s' l c' = req_state s l c') /\
    (exists d, (psci_svc_cpu_data s').[c] = Some d /\ aff_info_state d = AFF_STATE_ON /\
       cpu_local_state d = PSCI_LOCAL_STATE_RUN).
Proof.
  intros Hwf Hc He. exists (running c end_lvl s). split; [by apply set_run_run|].
  split; [apply topo_running|]. destruct (running_effects s c end_lvl Hwf Hc He) as (Hlvl & Ho & Hr & Hd & _).
  split_and!; try done. destruct Hd as (d & ? & ? & ? & _). by exists d.
Qed.

(** ** Queries under the locks *)

Definition others_off (me : Z) (s : psci_state) : bool :=
  forallb (fun c => (c =? me) || bool_decide (aff_of s c = Some AFF_STATE_OFF))
    (seqZ 0 (psci_plat_core_count s)).

Lemma is_last_on_cpu_run s me :
  wf_topo (topo s) -> aff_of s me = Some AFF_STATE_ON ->
  psci_is_last_on_cpu me s = Done (others_off me s) s.
Proof.
  intros Hwf Hme. unfold psci_is_last_on_cpu, bind at 1, gets. apply all_of_pure.
  intros c Hc%elem_of_seqZ. destruct (wf_cpu_data s c Hwf) as [d Hd].
  { unfold valid_cpu. cbn. lia. }
  unfold bind. rewrite (aff_run _ _ _ Hd). unfold aff_of in *. rewrite Hd. cbn.
  destruct (Z.eqb_spec c me) as [->|Hne]; cbn [orb].
  - rewrite Hd in Hme. cbn in Hme. injection Hme as ->. unfold assert_.
    rewrite bool_decide_eq_true_2 by done. by rewrite andb_false_r.
  - unfold ret. f_equal. apply bool_decide_ext. split; [congruence|by intros [=]].
Qed.

(** [psci_is_last_on_cpu_safe] returns whether every other CPU of the
    system is OFF; it takes the locks of the caller's power domains from level
    1 upwards, releases them in the opposite order, and changes nothing
    else. *)
Theorem is_last_on_cpu_safe_spec s me :
  wf_topo (topo s) -> valid_cpu (topo s) me -> aff_of s me = Some AFF_STATE_ON ->
  psci_is_last_on_cpu_safe me s =
    Done (others_off me s)
      (set_trace (rev (lock_gets (topo s) me PLAT_MAX_PWR_LVL ++
                       rev (lock_releases (topo s) me PLAT_MAX_PWR_LVL)) ++ trace s) s) /\
  (others_off me s = true <->
   forall c, valid_cpu (topo s) c -> c <> me -> aff_of s c = Some AFF_STATE_OFF).
Proof.
  intros Hwf Hc Hme. split.
  - unfold psci_is_last_on_cpu_safe, with_all_locks, bind.
    rewrite get_parents_run, acquire_run by done.
    rewrite is_last_on_cpu_run by done.
    set (s1 := set_trace _ s).
    change (path (topo s) me PLAT_MAX_PWR_LVL) with (path (topo s1) me PLAT_MAX_PWR_LVL).
    rewrite release_run by done. unfold ret. f_equal.
    by rewrite rev_app_distr, rev_involutive, <- app_assoc.
  - unfold others_off. rewrite forallb_forall. split.
    + intros Hall c Hv Hne. specialize (Hall c). rewrite <- list_elem_of_In, elem_of_seqZ in Hall.
      unfold valid_cpu in Hv. cbn in Hv. apply orb_true_iff in Hall as [?%Z.eqb_eq|Hoff]; try lia.
      by apply bool_decide_eq_true in Hoff.
    + intros Hall c Hin. apply list_elem_of_In, elem_of_seqZ in Hin.
      destruct (Z.eqb_spec c me); [done|]. apply bool_decide_eq_true. apply Hall; [|done].
      unfold valid_cpu. cbn. lia.
Qed.
End Nodes.

(** ** The same on the demonstration platform, with CPUs 0 and 2 running *)
Module PowerRun.
Import Run.

Lemma s2_wf : wf_topo (topo s2).
Proof. apply check_topo_sound. vm_compute. reflexivity. Qed.

Lemma s2_nonneg : req_nonneg s2.
Proof.
  assert (forallb (forallb (fun r => 0 <=? r)) (psci_req_local_pwr_states s2) = true) as Hb
    by (vm_compute; reflexivity).
  apply Forall_forall. intros row Hrow%list_elem_of_In. apply Forall_forall. intros v Hv%list_elem_of_In.
  rewrite forallb_forall in Hb. specialize (Hb row Hrow). rewrite forallb_forall in Hb.
  by apply Z.leb_le, Hb.
Qed.

Lemma s2_cpu c : (0 <=? c) && (c <? 4) = true -> valid_cpu (topo s2) c.
Proof. apply cpu_valid. vm_compute. reflexivity. Qed.

Lemma coordination_refines_spec_witness :
  exists st', psci_do_state_coordination 2 2 psci_set_power_off_state s2 =
    Done st' (voted 2 psci_set_power_off_state 2 s2).
Proof.
  destruct (coordination_refines_spec s2 2 2 psci_set_power_off_state) as (st' & Hrun & _ & _).
  - apply s2_wf.
  - by apply s2_cpu.
  - apply off_state_ok.
  - apply off_state_ok.
  - apply s2_nonneg.
  - cbn. lia.
  - exists st'. exact Hrun.
Defined.

(** CPU 2 is the only running CPU of its cluster. *)
Lemma last_cpu_turns_domains_off_witness :
  exists st', psci_do_state_coordination 2 1 psci_set_power_off_state s2 =
    Done st' (voted 2 psci_set_power_off_state 1 s2) /\
    forall l, (1 <= l <= 1)%nat -> pds st' !! l = Some PLAT_MAX_OFF_STATE.
Proof.
  apply (last_cpu_turns_domains_off s2 2 1 psci_set_power_off_state).
  - apply s2_wf.
  - by apply s2_cpu.
  - apply off_state_ok.
  - cbn. lia.
  - intros l Hl. by replace l with 1%nat by lia.
  - intros c' l p Hc' Hne Hl. replace l with 1%nat by lia.
    assert (c' = 0 \/ c' = 1 \/ c' = 3) as [->|[->| ->]].
    { unfold valid_cpu in Hc'. assert (t_cores (topo s2) = 4) as Hn by (vm_compute; reflexivity). lia. }
    + vm_compute. congruence.
    + vm_compute. congruence.
    + intros _ _. vm_compute. reflexivity.
Defined.

Lemma set_get_target_states_witness :
  exists s' st', psci_set_target_local_pwr_states 2 1 psci_set_power_off_state s2 = Done tt s' /\
    psci_get_target_local_pwr_states 2 1 run_power_state s' = Done st' s' /\
    forall l, (l <= PLAT_MAX_PWR_LVL)%nat -> pds st' !! l =
      if decide (l <= 1)%nat then pds psci_set_power_off_state !! l else Some PSCI_LOCAL_STATE_RUN.
Proof.
  apply (set_get_target_states s2 2 1 psci_set_power_off_state run_power_state).
  - apply s2_wf.
  - by apply s2_cpu.
  - apply off_state_ok.
  - reflexivity.
  - cbn. lia.
Defined.

Lemma set_pwr_domains_to_run_effect_witness :
  exists s', psci_set_pwr_domains_to_run 1 2 s2 = Done tt s' /\
    anc_state s' 1 1 = Some PSCI_LOCAL_STATE_RUN.
Proof.
  destruct (set_pwr_domains_to_run_effect s2 1 2) as (s' & Hrun & _ & Hlvl & _).
  - apply s2_wf.
  - by apply s2_cpu.
  - cbn. lia.
  - exists s'. split; [exact Hrun|]. apply Hlvl. lia.
Defined.

Lemma is_last_on_cpu_safe_spec_witness :
  psci_is_last_on_cpu_safe 0 s2 =
  Done false (set_trace (rev (lock_gets (topo s2) 0 2 ++ rev (lock_releases (topo s2) 0 2)) ++
    trace s2) s2).
Proof.
  destruct (is_last_on_cpu_safe_spec s2 0) as [Hrun _].
  - apply s2_wf.
  - by apply s2_cpu.
  - vm_compute. reflexivity.
  - assert (others_off 0 s2 = false) as Ho by (vm_compute; reflexivity).
    rewrite Ho in Hrun. exact Hrun.
Defined.
End PowerRun.
