(* ===== verification/PsciRequests.v ===== *)
(** * PSCI: validation of suspend requests

    The level searches and [psci_validate_suspend_req], and the bookkeeping of
    requests in OS-initiated mode (lib/psci/psci_common.c). *)

From stdpp Require Import list_numbers.
From S2P Require Import Prelude PsciTypes PsciCommon PsciStat PsciHandlers PsciMain PsciSetup PsciDemo PsciTopology PsciCoord PsciNodes PsciFrame PsciInterface PsciSystem PsciBoot PsciSafety.
#[local] Open Scope cmd_scope.

(** ** Searching for a level *)

Section Levels.
Context `{Cfg : PsciConfig} `{Plat : Platform}.

(** [lvl] is the highest level that satisfies [p], or the invalid level when
    there is none. *)
Definition highest_lvl (p : Z -> bool) (st : psci_power_state_t) (lvl : nat) : Prop :=
  ((lvl <= PLAT_MAX_PWR_LVL)%nat /\ (exists v, pds st !! lvl = Some v /\ p v = true) /\
   forall l v, (lvl < l <= PLAT_MAX_PWR_LVL)%nat -> pds st !! l = Some v -> p v = false) \/
  (lvl = PSCI_INVALID_PWR_LVL /\
   forall l v, (l <= PLAT_MAX_PWR_LVL)%nat -> pds st !! l = Some v -> p v = false).

Lemma find_lvl_down_spec p st i s :
  wf_power_state st -> (i <= PLAT_MAX_PWR_LVL)%nat ->
  (forall l v, (i < l <= PLAT_MAX_PWR_LVL)%nat -> pds st !! l = Some v -> p v = false) ->
  exists lvl, find_lvl_down p st i s = Done lvl s /\ highest_lvl p st lvl.
Proof.
  intros Hst. induction i as [|i IH]; intros Hi Habove;
    destruct (wf_power_state_lookup st _ Hst Hi) as [v Hv];
    cbn [find_lvl_down]; unfold bind at 1; rewrite (pd_state_run _ _ _ _ Hv);
    destruct (p v) eqn:Hp.
  - exists 0%nat. split; [done|]. left. eauto.
  - exists PSCI_INVALID_PWR_LVL. split; [done|]. right. split; [done|].
    intros l w Hl Hw. destruct l as [|l]; [congruence|]. apply (Habove (S l)); [lia|done].
  - exists (S i). split; [done|]. left. eauto.
  - apply IH; [lia|]. intros l w Hl Hw. destruct (decide (l = S i)) as [->|Hne]; [congruence|].
    apply (Habove l); [lia|done].
Qed.

Lemma highest_lvl_unique p st l l' :
  highest_lvl p st l -> highest_lvl p st l' -> l = l'.
Proof.
  unfold highest_lvl, PSCI_INVALID_PWR_LVL.
  intros [(Hl & (v & Hv & Hpv) & Ha)|(-> & Ha)] [(Hl' & (v' & Hv' & Hpv') & Ha')|(-> & Ha')].
  - destruct (lt_eq_lt_dec l l') as [[Hlt| ->]|Hgt]; [|done|].
    + rewrite (Ha l' v') in Hpv' by (done || lia). done.
    + rewrite (Ha' l v) in Hpv by (done || lia). done.
  - by rewrite (Ha' l v) in Hpv by done.
  - by rewrite (Ha l' v') in Hpv' by done.
  - done.
Qed.

(** [psci_find_target_suspend_lvl] and [psci_find_max_off_lvl] return the
    highest level that is not in RUN, respectively that is in an OFF state, and
    the invalid level exactly when no level is; neither changes the state. *)
Theorem find_suspend_levels st s :
  wf_power_state st ->
  (exists lvl, psci_find_target_suspend_lvl st s = Done lvl s /\
     highest_lvl (fun v => negb (is_local_state_run v)) st lvl) /\
  (exists lvl, psci_find_max_off_lvl st s = Done lvl s /\ highest_lvl is_local_state_off st lvl).
Proof. intros Hst. split; apply find_lvl_down_spec; done || lia. Qed.

(** ** Suspend requests *)

Definition state_type (st : psci_power_state_t) (l : nat) : Z :=
  match pds st !! l with
  | Some v => state_type_val (find_local_state_type v)
  | None => 0
  end.

Lemma state_types_deepen_spec st i deepest s :
  wf_power_state st -> (i <= PLAT_MAX_PWR_LVL)%nat ->
  exists b, state_types_deepen st i deepest s = Done b s /\
    (b = true <-> state_type_val deepest <= state_type st i /\
       forall l, (l < i)%nat -> state_type st (S l) <= state_type st l).
Proof.
  intros Hst. revert deepest. induction i as [|i IH]; intros deepest Hi;
    destruct (wf_power_state_lookup st _ Hst Hi) as [v Hv];
    cbn [state_types_deepen]; unfold bind at 1; rewrite (pd_state_run _ _ _ _ Hv);
    unfold state_type at 1; rewrite Hv;
    destruct (Z.ltb_spec (state_type_val (find_local_state_type v)) (state_type_val deepest)).
  - exists false. split; [done|]. split; [done|lia].
  - exists true. split; [done|]. split; [|done]. intros _. split; [lia|]. intros; lia.
  - exists false. split; [done|]. split; [done|lia].
  - destruct (IH (find_local_state_type v)) as (b & Hb & Hiff); [lia|]. exists b. split; [done|].
    rewrite Hiff. split.
    + intros [Hi' Hl]. split; [lia|]. intros l Hlt. destruct (decide (l = i)) as [->|Hne].
      * unfold state_type at 1. by rewrite Hv.
      * apply Hl. lia.
    + intros [_ Hl]. split; [|intros; apply Hl; lia].
      specialize (Hl i). unfold state_type at 1 in Hl. rewrite Hv in Hl. apply Hl. lia.
Qed.

(** States a platform may use. *)
Definition states_in_range (st : psci_power_state_t) : Prop :=
  Forall (fun v => 0 <= v <= PLAT_MAX_OFF_STATE) (pds st).

(** A valid request: some level sleeps, no level sleeps deeper than a level
    below it, and a standby request turns nothing off. *)
Definition valid_suspend_req (st : psci_power_state_t) (is_power_down_state : Z) : Prop :=
  (exists l v, pds st !! l = Some v /\ v <> PSCI_LOCAL_STATE_RUN) /\
  (forall l, (S l <= PLAT_MAX_PWR_LVL)%nat -> state_type st (S l) <= state_type st l) /\
  (is_power_down_state = 0 -> forall l v, pds st !! l = Some v -> v <= PLAT_MAX_RET_STATE).

Lemma state_type_above st lvl l :
  highest_lvl (fun v => negb (is_local_state_run v)) st lvl ->
  (lvl < l <= PLAT_MAX_PWR_LVL)%nat -> state_type st l = 0.
Proof.
  intros Hh Hl. unfold state_type. destruct (pds st !! l) as [v|] eqn:Hv; [|done].
  assert (negb (is_local_state_run v) = false) as Hr%negb_false_iff%Z.eqb_eq.
  { destruct Hh as [(_ & _ & Ha)|(-> & Ha)]; [by apply (Ha l v)|]. apply (Ha l v); [lia|done]. }
  unfold find_local_state_type. rewrite Hr. done.
Qed.

Lemma state_type_nonneg st l : 0 <= state_type st l.
Proof.
  unfold state_type. destruct (_ !! _) as [v|]; [|lia]. by destruct (find_local_state_type v); cbn.
Qed.

Lemma no_off_lvl st lvl :
  wf_power_state st -> states_in_range st -> highest_lvl is_local_state_off st lvl ->
  (lvl = PSCI_INVALID_PWR_LVL <-> forall l v, pds st !! l = Some v -> v <= PLAT_MAX_RET_STATE).
Proof.
  intros Hst Hrng Hh. unfold states_in_range in Hrng. rewrite Forall_lookup in Hrng.
  assert (forall l v, pds st !! l = Some v -> is_local_state_off v = false <-> v <= PLAT_MAX_RET_STATE)
    as Hoff.
  { intros l v Hv. specialize (Hrng l v Hv). cbv beta in Hrng. unfold is_local_state_off.
    rewrite andb_false_iff, Z.ltb_ge, Z.leb_gt. lia. }
  assert (forall l v, pds st !! l = Some v -> (l <= PLAT_MAX_PWR_LVL)%nat) as Hlen.
  { intros l v Hv%lookup_lt_Some. rewrite Hst in Hv. lia. }
  destruct Hh as [(Hl & (v & Hv & Hpv) & _)|(-> & Ha)].
  - split; [unfold PSCI_INVALID_PWR_LVL; lia|]. intros Hall. specialize (Hall _ _ Hv).
    apply (Hoff _ _ Hv) in Hall. congruence.
  - split; [|done]. intros _ l v Hv. apply (Hoff _ _ Hv). by apply (Ha l v); [eapply Hlen|].
Qed.

(** C15. [psci_validate_suspend_req] accepts exactly the valid requests, and
    rejects the others with INVALID_PARAMS. *)
Theorem validate_suspend_req_spec st pd s :
  wf_power_state st -> states_in_range st ->
  exists rc, psci_validate_suspend_req st pd s = Done rc s /\
    (rc = PSCI_E_SUCCESS /\ valid_suspend_req st pd \/
     rc = PSCI_E_INVALID_PARAMS /\ ~ valid_suspend_req st pd).
Proof.
  intros Hst Hrng. destruct (find_lvl_down_spec (fun v => negb (is_local_state_run v)) st
    PLAT_MAX_PWR_LVL s) as (tl & Htl & Hh); [done|lia|lia|].
  unfold psci_validate_suspend_req, psci_find_target_suspend_lvl, bind at 1. rewrite Htl.
  destruct (Nat.eqb_spec tl PSCI_INVALID_PWR_LVL) as [Hinv|Hninv].
  { exists PSCI_E_INVALID_PARAMS. split; [done|]. right. split; [done|].
    intros ((l & v & Hv & Hne) & _). destruct Hh as [(? & _)|(_ & Ha)].
    - unfold PSCI_INVALID_PWR_LVL in *. lia.
    - pose proof (lookup_lt_Some _ _ _ Hv) as Hlt. rewrite Hst in Hlt.
      apply Hne, Z.eqb_eq, negb_false_iff. apply (Ha l v); [lia|done]. }
  assert (tl <= PLAT_MAX_PWR_LVL)%nat as Hle by (destruct Hh as [(? & _)|(? & _)]; [done|congruence]).
  destruct (state_types_deepen_spec st tl STATE_TYPE_RUN s Hst Hle) as (b & Hb & Hiff).
  unfold bind at 1. rewrite Hb.
  assert (b = true <-> forall l, (S l <= PLAT_MAX_PWR_LVL)%nat -> state_type st (S l) <= state_type st l)
    as Hmono.
  { rewrite Hiff. split.
    - intros [_ Hl] l Hlt. destruct (decide (l < tl)%nat); [by apply Hl|].
      rewrite (state_type_above st tl (S l)) by (done || lia). apply state_type_nonneg.
    - intros Hl. split; [apply state_type_nonneg|]. intros l Hlt. apply Hl. lia. }
  destruct b; cbn [negb].
  2:{ exists PSCI_E_INVALID_PARAMS. split; [done|]. right. split; [done|].
      intros (_ & Hm & _). by apply Hmono in Hm. }
  destruct (find_lvl_down_spec is_local_state_off st PLAT_MAX_PWR_LVL s) as (ol & Hol & Ho);
    [done|lia|lia|]. pose proof (no_off_lvl st ol Hst Hrng Ho) as Hno.
  unfold psci_find_max_off_lvl, bind at 1. rewrite Hol.
  assert (exists l v, pds st !! l = Some v /\ v <> PSCI_LOCAL_STATE_RUN) as Hsome.
  { destruct Hh as [(_ & (v & Hv & Hp) & _)|(? & _)]; [|congruence].
    exists tl, v. split; [done|]. by apply Z.eqb_neq, negb_true_iff. }
  assert (forall l, (S l <= PLAT_MAX_PWR_LVL)%nat -> state_type st (S l) <= state_type st l)
    as Hm by by apply Hmono.
  destruct (Z.eqb_spec pd 0) as [->|Hpd]; cbn [andb].
  - destruct (Nat.eqb_spec ol PSCI_INVALID_PWR_LVL) as [->|Hoff]; cbn [negb orb].
    + rewrite (proj2 (Nat.eqb_neq tl _)) by done. cbn [negb].
      rewrite (proj2 (Nat.eqb_neq tl _)) by done. exists PSCI_E_SUCCESS. split; [done|]. left.
      split; [done|]. split; [done|]. split; [done|]. intros _. by apply Hno.
    + exists PSCI_E_INVALID_PARAMS. split; [done|]. right. split; [done|].
      intros (_ & _ & Hret). by apply Hoff, Hno, Hret.
  - exists PSCI_E_SUCCESS. split; [done|]. left. split; [done|]. split_and!; done.
Qed.
End Levels.

(** ** Commands that only read *)

Definition reads {A} (c : psci A) : Prop := forall s, final (c s) = s.

Create HintDb psci_reads.

Lemma reads_ret {A} (a : A) : reads (ret a).
Proof. done. Qed.

Lemma reads_bind {A B} (c : psci A) (k : A -> psci B) :
  reads c -> (forall a, reads (k a)) -> reads (bind c k).
Proof.
  intros Hc Hk s. unfold bind. specialize (Hc s). destruct (c s) as [a s'|w s']; [|done].
  cbn in Hc. subst s'. apply Hk.
Qed.

Lemma reads_deref {A} (o : option A) : reads (deref o).
Proof. by destruct o. Qed.

Lemma reads_assert e b : reads (assert_ e b).
Proof. unfold assert_. by destruct (e && negb b). Qed.

Lemma reads_if {A} (b : bool) (c1 c2 : psci A) : reads c1 -> reads c2 -> reads (if b then c1 else c2).
Proof. by destruct b. Qed.

Lemma reads_non_cpu_node i : reads (non_cpu_node i).
Proof. intros s. unfold non_cpu_node. by destruct (_.[i]). Qed.

Lemma reads_cpu_node i : reads (cpu_node i).
Proof. intros s. unfold cpu_node. by destruct (_.[i]). Qed.

Lemma reads_cpu_data i : reads (cpu_data i).
Proof. intros s. unfold cpu_data. by destruct (_.[i]). Qed.

Lemma reads_all_of {X} (l : list X) p : (forall x, reads (p x)) -> reads (all_of l p).
Proof.
  intros Hp. induction l as [|x l IH]; cbn; [done|].
  apply reads_bind; auto. intros b. by destruct b.
Qed.

Lemma reads_walk_up {X} n l p (acc : X) body :
  (forall k q a, reads (body k q a)) -> reads (walk_up n l p acc body).
Proof.
  intros Hb. revert l p acc. induction n as [|n IH]; intros l p acc; cbn; [done|].
  apply reads_bind; [done|]. intros [[] a]; cbn; [done|].
  apply reads_bind; [apply reads_non_cpu_node|auto].
Qed.

#[export] Hint Resolve reads_ret reads_bind reads_deref reads_assert reads_if reads_non_cpu_node
  reads_cpu_node reads_cpu_data reads_all_of reads_walk_up : psci_reads.

Section OsInitiated.
Context `{Cfg : PsciConfig} `{Plat : Platform}.

Lemma reads_hierarchical c e st : reads (psci_validate_hierarchical_state_consistency c e st).
Proof.
  unfold psci_validate_hierarchical_state_consistency, siblings_deep_enough,
    psci_validate_subtree_state, psci_get_cpu_local_state_by_idx, get_non_cpu_pd_node_local_state,
    pd_state. eauto 30 with psci_reads.
Qed.

Lemma reads_last_to_idle c e : reads (psci_is_last_cpu_to_idle_at_pwrlvl c e).
Proof.
  unfold psci_is_last_cpu_to_idle_at_pwrlvl, others_idle, psci_get_cpu_local_state_by_idx.
  eauto 30 with psci_reads.
Qed.

(** ** The requests of OS-initiated mode *)

(** The request recorded at each level: the one for [end_lvl] above it. *)
Definition stretched (e : nat) (st : psci_power_state_t) : psci_power_state_t := {|
  pwr_domain_state := (fun l => default 0 (pds st !! (if (l <=? e)%nat then l else e))) <$>
                      seq 0 (S PLAT_MAX_PWR_LVL);
  last_at_pwrlvl := last_at_pwrlvl st
|}.

Lemma stretched_lookup e st l :
  (l <= PLAT_MAX_PWR_LVL)%nat ->
  pds (stretched e st) !! l = Some (default 0 (pds st !! (if (l <=? e)%nat then l else e))).
Proof.
  intros Hl. unfold pds at 1, stretched. cbn [pwr_domain_state].
  rewrite list_lookup_fmap. rewrite lookup_seq_lt by lia. done.
Qed.

(** The requests of [c] at levels 1 to [n]. *)
Definition own_requests (s : psci_state) (c : Z) (n : nat) : list Z :=
  (fun l => default 0 (req_state s l c)) <$> seq 1 n.

Lemma read_req_run s c l :
  wf_topo (topo s) -> valid_cpu (topo s) c -> valid_lvl l ->
  exists v, req_state s l c = Some v /\
    (let! p := psci_get_req_local_pwr_states l c in read_req_states p 1) s = Done [v] s.
Proof.
  intros Hwf Hc Hl. destruct (wf_req_row s l Hwf Hl) as (row & Hrow & Hlen).
  unfold valid_cpu in Hc. cbn in Hc, Hlen.
  destruct (proj2 (zlookup_lt_is_Some row c)) as [v Hv]; [lia|].
  exists v. split; [unfold req_state; by rewrite Hrow|].
  unfold psci_get_req_local_pwr_states, assert_, read_req_states, bind, gets, PSCI_CPU_PWR_LVL.
  unfold valid_lvl in Hl.
  rewrite (proj2 (Nat.ltb_lt 0 l)), andb_false_r by lia. cbn [ret andb].
  rewrite (proj2 (Nat.leb_le l _)), (proj2 (Z.ltb_lt c _)) by lia. cbn.
  rewrite Hrow. cbn. unfold zslice.
  rewrite (proj2 (Z.leb_le 0 c)), (proj2 (Z.leb_le (c + 1) _)) by lia. cbn.
  rewrite zlookup_to_nat in Hv by lia. apply drop_S in Hv. rewrite Hv. done.
Qed.

Lemma stretched_wf e st : wf_power_state (stretched e st).
Proof. unfold wf_power_state, pds, stretched. cbn [pwr_domain_state]. by rewrite length_fmap, length_seq. Qed.

Lemma own_requests_snoc s c n v :
  req_state s (S n) c = Some v -> own_requests s c (S n) = own_requests s c n ++ [v].
Proof.
  intros Hv. unfold own_requests. rewrite seq_S, fmap_app. change (1 + n)%nat with (S n).
  cbn [fmap list_fmap]. by rewrite Hv.
Qed.

(** The body of the loop of [psci_update_req_local_pwr_states]. *)
Definition update_req_body (e : nat) (c : Z) (st : psci_power_state_t) (lvl : nat) (prev : list Z)
    : psci (list Z) :=
  let! p := psci_get_req_local_pwr_states lvl c in
  let! olds := read_req_states p 1 in
  let! old := deref (olds !! 0%nat) in
  let! req_state := pd_state st (if (lvl <=? e)%nat then lvl else e) in
  psci_set_req_local_pwr_state lvl c req_state ;;
  ret (prev ++ [old]).

Lemma update_req_step s c e st k :
  wf_topo (topo s) -> valid_cpu (topo s) c -> wf_power_state st -> (e <= PLAT_MAX_PWR_LVL)%nat ->
  valid_lvl (S k) ->
  update_req_body e c st (S k) (own_requests s c k) (voted c (stretched e st) k s) =
  Done (own_requests s c (S k)) (voted c (stretched e st) (S k) s).
Proof.
  intros Hwf Hc Hst He Hvl. unfold valid_lvl in Hvl.
  destruct (read_req_run (voted c (stretched e st) k s) c (S k)) as (v & Hv & Hread);
    rewrite ?topo_voted; try done.
  rewrite req_state_voted, decide_False in Hv by (done || apply stretched_wf || lia).
  unfold update_req_body, bind in *.
  destruct (psci_get_req_local_pwr_states _ _ _) as [p s1|]; [|done]. rewrite Hread.
  cbn [lookup list_lookup deref]. unfold ret at 1.
  destruct (wf_power_state_lookup st (if (S k <=? e)%nat then S k else e) Hst) as [w Hw].
  { destruct (Nat.leb_spec (S k) e); lia. }
  rewrite (pd_state_run _ _ _ _ Hw).
  rewrite set_req_run by (rewrite ?topo_voted; done). unfold ret.
  rewrite (own_requests_snoc _ _ _ _ Hv). f_equal.
  unfold voted. cbn [votes]. rewrite stretched_lookup by lia. by rewrite Hw.
Qed.

(** The element a loop over consecutive levels visits next. *)
Lemma seq_next n dn x todo : seq 1 n = dn ++ x :: todo -> x = S (length dn) /\ (length dn < n)%nat.
Proof.
  intros Hseq. apply (f_equal (lookup (length dn))) in Hseq.
  rewrite lookup_app_r, Nat.sub_diag in Hseq by lia. cbn in Hseq.
  apply lookup_seq in Hseq. lia.
Qed.

Lemma update_req_run s c e st :
  wf_topo (topo s) -> valid_cpu (topo s) c -> wf_power_state st -> (e <= PLAT_MAX_PWR_LVL)%nat ->
  (max_suspend_pwrlvl <= PLAT_MAX_PWR_LVL)%nat ->
  psci_update_req_local_pwr_states e c st s =
  Done (own_requests s c max_suspend_pwrlvl) (voted c (stretched e st) max_suspend_pwrlvl s).
Proof.
  intros Hwf Hc Hst He Hmax.
  cut (wpd (fold_each (seq 1 max_suspend_pwrlvl) [] (update_req_body e c st))
    (fun prev s' => prev = own_requests s c max_suspend_pwrlvl /\
       s' = voted c (stretched e st) max_suspend_pwrlvl s) s).
  { intros (prev & s' & Hrun & -> & ->)%wpd_done. exact Hrun. }
  eapply wp_mono.
  - apply (wp_fold_each _ _ (fun dn prev s' => prev = own_requests s c (length dn) /\
      s' = voted c (stretched e st) (length dn) s)).
    + split; [done|]. by destruct s.
    + intros dn x prev s' [todo [-> Hx]%seq_next] (-> & ->).
      eapply wp_exact; [apply update_req_step; try done; split; lia|].
      rewrite length_app. cbn [length]. by rewrite Nat.add_1_r.
  - intros prev s' [-> ->]. by rewrite length_seq.
  - done.
Qed.

(** Row by row, a vote overwrites the entry of [c]. *)
Lemma votes_lookup c st n reqs i v :
  (i < n)%nat -> pds st !! S i = Some v ->
  votes c st n reqs !! i = (fun row => zupdate row c v) <$> reqs !! i.
Proof.
  intros Hi Hv. assert (forall m, (m <= i)%nat -> votes c st m reqs !! i = reqs !! i) as Hbelow.
  { induction m as [|m IH]; intros Hm; [done|]. cbn [votes]. destruct (pds st !! S m); [|apply IH; lia].
    unfold vote. rewrite list_lookup_alter_ne by lia. apply IH. lia. }
  induction n as [|n IH]; [lia|]. cbn [votes]. destruct (decide (i = n)) as [->|Hne].
  - rewrite Hv. unfold vote. replace (S n - 1)%nat with n by lia.
    rewrite list_lookup_alter_eq, Hbelow by lia. done.
  - rewrite <- IH by lia. destruct (pds st !! S n); [|done].
    unfold vote. by rewrite list_lookup_alter_ne by lia.
Qed.

Lemma votes_lookup_above c st n reqs i : (n <= i)%nat -> votes c st n reqs !! i = reqs !! i.
Proof.
  intros Hi. induction n as [|n IH]; [done|]. cbn [votes]. rewrite <- IH by lia.
  destruct (pds st !! S n); [|done]. unfold vote. by rewrite list_lookup_alter_ne by lia.
Qed.

(** Voting the recorded requests again undoes a vote. *)
Lemma voted_undo s c st old n :
  wf_power_state st -> wf_power_state old -> (n <= PLAT_MAX_PWR_LVL)%nat ->
  (forall l, (1 <= l <= n)%nat -> req_state s l c = pds old !! l) ->
  voted c old n (voted c st n s) = s.
Proof.
  intros Hst Hold Hn Hreq. unfold voted. cbn [psci_req_local_pwr_states set_req].
  replace (votes c old n (votes c st n (psci_req_local_pwr_states s)))
    with (psci_req_local_pwr_states s); [by destruct s|].
  apply list_eq. intros i. destruct (decide (i < n)%nat) as [Hi|Hi].
  - destruct (wf_power_state_lookup st (S i) Hst) as [v Hv]; [lia|].
    destruct (wf_power_state_lookup old (S i) Hold) as [w Hw]; [lia|].
    rewrite (votes_lookup c old n _ i w), (votes_lookup c st n _ i v) by done.
    specialize (Hreq (S i)). unfold req_state in Hreq. replace (S i - 1)%nat with i in Hreq by lia.
    destruct (psci_req_local_pwr_states s !! i) as [row|]; [|done]. cbn.
    rewrite zupdate_zupdate, zupdate_id; [done|]. rewrite Hreq by lia. done.
  - by rewrite !votes_lookup_above by lia.
Qed.

Lemma own_requests_lookup s c n l :
  (l < n)%nat -> own_requests s c n !! l = Some (default 0 (req_state s (S l) c)).
Proof. intros Hl. unfold own_requests. by rewrite list_lookup_fmap, lookup_seq_lt. Qed.

(** Restoring the requests read before gives the table of before. *)
Lemma restore_req_run s c st :
  wf_topo (topo s) -> valid_cpu (topo s) c -> wf_power_state st ->
  (max_suspend_pwrlvl <= PLAT_MAX_PWR_LVL)%nat ->
  psci_restore_req_local_pwr_states c (own_requests s c max_suspend_pwrlvl)
    (voted c st max_suspend_pwrlvl s) = Done tt s.
Proof.
  intros Hwf Hc Hst Hmax. set (n := max_suspend_pwrlvl) in *.
  set (old := {| pwr_domain_state := 0 :: own_requests s c PLAT_MAX_PWR_LVL; last_at_pwrlvl := 0 |}).
  assert (wf_power_state old) as Hold.
  { unfold wf_power_state, old, pds, own_requests. cbn [pwr_domain_state length].
    by rewrite length_fmap, length_seq. }
  assert (forall l, (l < PLAT_MAX_PWR_LVL)%nat ->
    pds old !! S l = Some (default 0 (req_state s (S l) c))) as Hlk.
  { intros l Hl. by rewrite <- (own_requests_lookup s c PLAT_MAX_PWR_LVL). }
  cut (wpd (psci_restore_req_local_pwr_states c (own_requests s c n))
         (fun _ s' => s' = voted c old n (voted c st n s)) (voted c st n s)).
  { intros ([] & s' & -> & ->)%wpd_done. f_equal. apply voted_undo; try done.
    intros [|l] Hl; [lia|]. rewrite Hlk by lia.
    destruct (read_req_run s c (S l) Hwf Hc) as (v & -> & _); [split; lia|done]. }
  unfold psci_restore_req_local_pwr_states. eapply wp_mono.
  - apply (wp_for_each _ _ (fun dn s' => s' = voted c old (length dn) (voted c st n s))).
    + by destruct s.
    + intros dn x s' [todo [-> Hx]%seq_next] ->. fold n in Hx.
      replace (S (length dn) - 1)%nat with (length dn) by lia.
      rewrite own_requests_lookup by done. eapply wp_bind_exact; [done|].
      eapply wp_exact; [apply set_req_run; rewrite ?topo_voted; try done; split; lia|].
      rewrite length_app, Nat.add_1_r. unfold voted. cbn [votes]. by rewrite Hlk by lia.
  - intros [] s' ->. by rewrite length_seq.
  - done.
Qed.

(** A property of the loop variable of a walk. *)
Lemma walk_up_acc {X} (P : X -> Prop) n l p (acc : X) body s :
  P acc ->
  (forall k q a s', P a -> wp (body k q a) (fun r _ => P (snd r)) (fun _ _ => True) s') ->
  wp (walk_up n l p acc body) (fun r _ => P (snd r)) (fun _ _ => True) s.
Proof.
  intros H0 Hb. revert l p acc s H0. induction n as [|n IH]; intros l p acc s H0; cbn [walk_up].
  - by apply wp_ret.
  - apply wp_bind. eapply wp_mono; [by apply Hb| |done]. intros [[] a] s' Ha; cbn [fst snd] in *.
    + by apply wp_ret.
    + apply wp_bind, wp_any. intros nd s''. by apply IH.
Qed.

Lemma hierarchical_result c e st s rc s' :
  psci_validate_hierarchical_state_consistency c e st s = Done rc s' ->
  rc = PSCI_E_SUCCESS \/ rc = PSCI_E_DENIED.
Proof.
  apply (wp_elim _ (fun rc _ => rc = PSCI_E_SUCCESS \/ rc = PSCI_E_DENIED)).
  unfold psci_validate_hierarchical_state_consistency.
  apply wp_bind, wp_any. intros nd s1. apply wp_bind.
  eapply wp_mono; [|intros r s2 Hr; apply wp_ret; exact Hr|done].
  apply (walk_up_acc (fun a => snd a = PSCI_E_SUCCESS \/ snd a = PSCI_E_DENIED)); [by left|].
  intros k q a s2 _. do 3 (apply wp_bind, wp_any; intros ? ?).
  match goal with |- wp (if ?b then _ else _) _ _ _ => destruct b end; apply wp_ret; cbn; auto.
Qed.

(** OS-initiated requests: when [psci_validate_state_coordination]
    returns, a DENIED request has left the whole state as it was, and a
    request that was accepted has recorded the CPU's requests at every level up
    to the maximum, the ones above the requested level repeating it. A request
    rejected with INVALID_PARAMS (its [last_at_pwrlvl] is out of range) leaves
    the requests recorded as if it had been accepted. *)
Theorem validate_state_coordination_requests `{!PsciConfigOk} s c e st rc s' :
  wf_topo (topo s) -> valid_cpu (topo s) c -> wf_power_state st -> (e <= PLAT_MAX_PWR_LVL)%nat ->
  psci_validate_state_coordination c e st s = Done rc s' ->
  (rc = PSCI_E_DENIED /\ s' = s) \/
  (rc = PSCI_E_SUCCESS /\ s' = voted c (stretched e st) max_suspend_pwrlvl s) \/
  (rc = PSCI_E_INVALID_PARAMS /\ (PLAT_MAX_PWR_LVL < last_at_pwrlvl st)%nat /\
   s' = voted c (stretched e st) max_suspend_pwrlvl s).
Proof.
  intros Hwf Hc Hst He.
  assert (max_suspend_pwrlvl <= PLAT_MAX_PWR_LVL)%nat as Hmax.
  { unfold max_suspend_pwrlvl. destruct PLAT_MAX_CPU_SUSPEND_PWR_LVL eqn:Hl; [|done].
    by apply cfg_suspend_lvl. }
  unfold psci_validate_state_coordination, assert_, bind at 1.
  rewrite (proj2 (Nat.leb_le e _)), andb_false_r by done. unfold ret at 1. unfold bind at 1.
  rewrite update_req_run by done. cbv zeta.
  set (s1 := voted c (stretched e st) max_suspend_pwrlvl s).
  assert (forall rc0, (when (negb (rc0 =? PSCI_E_SUCCESS))
      (psci_restore_req_local_pwr_states c (own_requests s c max_suspend_pwrlvl)) ;; ret rc0) s1 =
    Done rc0 (if rc0 =? PSCI_E_SUCCESS then s1 else s)) as Hexit.
  { intros rc0. unfold bind, when, s1. destruct (rc0 =? PSCI_E_SUCCESS); cbn [negb]; [done|].
    rewrite restore_req_run by (done || apply stretched_wf). done. }
  unfold bind at 1. pose proof (reads_hierarchical c e st s1) as Hh.
  destruct (psci_validate_hierarchical_state_consistency c e st s1) as [rc1 s2|w s2] eqn:Hrun;
    [|done]. cbn in Hh. subst s2.
  destruct (rc1 =? PSCI_E_SUCCESS) eqn:Hrc1; cbn [negb].
  - destruct (Nat.ltb_spec PLAT_MAX_PWR_LVL (last_at_pwrlvl st)) as [Hlast|Hlast].
    { intros [= <- <-]. auto. }
    destruct (e <? last_at_pwrlvl st)%nat.
    + unfold bind at 1. pose proof (reads_last_to_idle c (last_at_pwrlvl st) s1) as Hi.
      destruct (psci_is_last_cpu_to_idle_at_pwrlvl c (last_at_pwrlvl st) s1) as [b s2|]; [|done].
      cbn in Hi. subst s2. rewrite Hexit. intros [= <- <-]. destruct b; auto.
    + rewrite Hexit. intros [= <- <-]. auto.
  - specialize (Hexit rc1). rewrite Hrc1 in Hexit. cbn [negb] in Hexit. rewrite Hexit.
    intros [= <- <-]. left. split; [|done].
    apply hierarchical_result in Hrun as [-> | ->]; done.
Qed.

(** ** Requests that outlive their suspension *)

(** The command changes neither the topology nor a request. *)
Definition keeps_req {A} (cm : psci A) : Prop := forall s,
  match cm s with
  | Done _ s' => topo s' = topo s /\ psci_req_local_pwr_states s' = psci_req_local_pwr_states s
  | Stopped _ _ => True
  end.

Lemma keeps_frame {A} (cm : psci A) : preserves cm -> keeps_req cm.
Proof.
  intros Hp s. specialize (Hp s). destruct (cm s) as [a s'|]; [|done]. cbn in Hp.
  pose proof (f_equal c_topo Hp). pose proof (f_equal c_req Hp). done.
Qed.

Lemma keeps_req_bind {A B} (cm : psci A) (k : A -> psci B) :
  keeps_req cm -> (forall a, keeps_req (k a)) -> keeps_req (bind cm k).
Proof.
  intros Hc Hk s. unfold bind. specialize (Hc s). destruct (cm s) as [a s1|]; [|done]. specialize (Hk a s1).
  destruct (k a s1); [|done]. destruct Hc as [-> ->] in Hk. done.
Qed.

Lemma keeps_pwrlvl c lvl : keeps_req (psci_set_suspend_pwrlvl c lvl).
Proof.
  intros s. unfold psci_set_suspend_pwrlvl, write_cpu_data, cpu_data, bind. destruct (_.[c]) as [d|] eqn:Hd; [|done].
  cbn. split; [by eapply topo_set_cpu_data|done].
Qed.

Lemma wp_keeps {A B} (cm : psci A) (k : A -> psci B) (Q : B -> psci_state -> Prop) s :
  keeps_req cm ->
  (forall a s', topo s' = topo s -> psci_req_local_pwr_states s' = psci_req_local_pwr_states s ->
     wp (k a) Q (fun _ _ => True) s') ->
  wp (bind cm k) Q (fun _ _ => True) s.
Proof.
  intros Hc Hk. apply wp_bind. unfold wp at 1. specialize (Hc s). destruct (cm s) as [a s'|]; [|done].
  destruct Hc. by apply Hk.
Qed.

Lemma keeps_wakeup_tail c m st : keeps_req (psci_cpu_suspend_to_powerdown_finish c m st true).
Proof.
  unfold psci_cpu_suspend_to_powerdown_finish.
  do 8 (apply keeps_req_bind; [apply keeps_frame; by frame|intros]). apply keeps_req_bind; [apply keeps_pwrlvl|intros].
  apply keeps_frame. by frame.
Qed.

Lemma keeps_pwrdown_start c e m st : keeps_req (psci_suspend_to_pwrdown_start c e m st).
Proof.
  unfold psci_suspend_to_pwrdown_start. do 2 (apply keeps_req_bind; [apply keeps_frame; by frame|intros]).
  apply keeps_req_bind; [apply keeps_pwrlvl|intros]. apply keeps_frame. by frame.
Qed.

Lemma keeps_enter_tail c e pd st :
  keeps_req (if negb (pd =? 0) then
    let! max_off_lvl := psci_find_max_off_lvl st in
    psci_suspend_to_pwrdown_start c e max_off_lvl st ;; ret max_off_lvl else ret 0%nat).
Proof.
  destruct (negb _); [|by apply keeps_frame, preserves_ret]. unfold psci_find_max_off_lvl.
  apply keeps_req_bind; [apply keeps_frame; by frame|intros]. apply keeps_req_bind; [apply keeps_pwrdown_start|intros].
  by apply keeps_frame, preserves_ret.
Qed.

(** An accepted OS-initiated request. *)
Lemma wp_os_coordinate `{!PsciConfigOk} s c e st (Q : Z + psci_power_state_t -> psci_state -> Prop) :
  PSCI_OS_INIT_MODE = true -> psci_suspend_mode s = OS_INIT ->
  wf_topo (topo s) -> valid_cpu (topo s) c -> wf_power_state st -> (e <= PLAT_MAX_PWR_LVL)%nat ->
  (forall rc s', Q (inl rc) s') ->
  (forall s', topo s' = topo s ->
     psci_req_local_pwr_states s' = psci_req_local_pwr_states (voted c (stretched e st) max_suspend_pwrlvl s) ->
     Q (inr st) s') ->
  wp (suspend_coordinate c e st) Q (fun _ _ => True) s.
Proof.
  intros Hos Hmode Hwf Hc Hst He Hinl Hinr. unfold suspend_coordinate. wp_steps.
  destruct (_ =? 0); cbn [negb]; [|apply wp_ret, Hinl]. wp_steps. rewrite Hos, Hmode, bool_decide_eq_true_2 by done. cbn [andb].
  wp_step. unfold wp at 1. destruct (psci_validate_state_coordination c e st s) as [rc s1|] eqn:Hrun; [|done].
  pose proof (validate_state_coordination_requests s c e st rc s1 Hwf Hc Hst He Hrun) as Hres. wp_step.
  destruct (rc =? PSCI_E_SUCCESS) eqn:Hrc; cbn [negb]; [|apply wp_ret, Hinl].
  apply Z.eqb_eq in Hrc as ->. destruct Hres as [[? _]|[[_ ->]|[? _]]]; [done| |done].
  assert (topo (voted c (stretched e st) max_suspend_pwrlvl s) = topo s) as Ht by apply topo_voted.
  destruct (pwr_domain_validate_suspend _) as [hook|]; [|apply wp_ret; by apply Hinr].
  unfold emit. wp_steps. destruct (_ =? _); cbn [negb]; [apply wp_ret; by apply Hinr|].
  apply wp_bind, wp_any. intros. apply wp_ret, Hinl.
Qed.

End OsInitiated.

(** ** OS-initiated mode on the demonstration platform *)
Module OsRun.

Definition C : PsciConfig := demo_config true true.
#[export] Existing Instance C.
(** [awake]: a [wfi] resumes. [asleep_for_good]: it does not. *)
Definition awake : Platform := @demo_platform C true.
Definition asleep_for_good : Platform := @demo_platform C false.

Definition s0 : psci_state := demo_boot C awake.

Definition turn_on (c : Z) (s : psci_state) : psci_state :=
  final (@psci_warmboot_entrypoint C awake c (final (@psci_cpu_on C awake c 0x1000 0 s))).
Definition turn_off (c : Z) (s : psci_state) : psci_state :=
  final (@psci_cpu_off C asleep_for_good c s).

(** All CPUs are on, the OS selects OS-initiated mode, CPUs 1 and 3 go off. *)
Definition s1 : psci_state := turn_on 3 (turn_on 2 (turn_on 1 s0)).
Definition s2 : psci_state := final (psci_set_suspend_mode 0 1 s1).
Definition s3 : psci_state := turn_off 3 (turn_off 1 s2).
(** CPU 0 suspends its cluster with a power down request that is abandoned, and
    resumes; then CPU 2 turns itself off. *)
Definition s4 : psci_state := final (@psci_cpu_suspend C awake 0 0x01010000 0x1000 0 s3).
Definition s5 : psci_state := turn_off 2 s4.

(** A stale request in OS-initiated mode: after CPU 0 has suspended at
    cluster level and resumed, its request at the system level is still OFF;
    when the other CPUs turn themselves off, the system domain is put in the
    OFF state although CPU 0 is on and running. *)
Theorem os_initiated_stale_request :
  @psci_cpu_suspend C awake 0 0x01010000 0x1000 0 s3 = Done PSCI_E_SUCCESS s4 /\
  aff_of s5 0 = Some AFF_STATE_ON /\
  cpu_local_state <$> (psci_svc_cpu_data s5).[0] = Some PSCI_LOCAL_STATE_RUN /\
  req_state s4 2 0 = Some PLAT_MAX_OFF_STATE /\
  anc_state s4 0 2 = Some PSCI_LOCAL_STATE_RUN /\
  anc_state s5 0 2 = Some PLAT_MAX_OFF_STATE.
Proof. vm_compute. split_and!; reflexivity. Qed.

Lemma find_suspend_levels_witness :
  exists lvl, @psci_find_target_suspend_lvl C {| pwr_domain_state := [2; 1; 0]; last_at_pwrlvl := 0 |} s0
    = Done lvl s0 /\
    highest_lvl (fun v => negb (is_local_state_run v))
      {| pwr_domain_state := [2; 1; 0]; last_at_pwrlvl := 0 |} lvl.
Proof.
  destruct (find_suspend_levels {| pwr_domain_state := [2; 1; 0]; last_at_pwrlvl := 0 |} s0) as [Hl _].
  - reflexivity.
  - exact Hl.
Defined.

Lemma validate_suspend_req_spec_witness :
  exists rc, @psci_validate_suspend_req C {| pwr_domain_state := [2; 1; 0]; last_at_pwrlvl := 0 |} 1 s0
    = Done rc s0 /\
    (rc = PSCI_E_SUCCESS /\
       valid_suspend_req {| pwr_domain_state := [2; 1; 0]; last_at_pwrlvl := 0 |} 1 \/
     rc = PSCI_E_INVALID_PARAMS /\
       ~ valid_suspend_req {| pwr_domain_state := [2; 1; 0]; last_at_pwrlvl := 0 |} 1).
Proof.
  apply (validate_suspend_req_spec {| pwr_domain_state := [2; 1; 0]; last_at_pwrlvl := 0 |} 1 s0).
  - reflexivity.
  - unfold states_in_range, pds. repeat constructor; cbn; lia.
Defined.

(** CPU 1 cannot suspend the cluster while CPU 0 runs. *)
Lemma validate_state_coordination_requests_witness :
  @psci_validate_state_coordination C 1 1 {| pwr_domain_state := [2; 2; 0]; last_at_pwrlvl := 1 |} s2
    = Done PSCI_E_DENIED s2 /\
  ((PSCI_E_DENIED = PSCI_E_DENIED /\ s2 = s2) \/
   (PSCI_E_DENIED = PSCI_E_SUCCESS /\ s2 = voted 1 (stretched 1
      {| pwr_domain_state := [2; 2; 0]; last_at_pwrlvl := 1 |}) max_suspend_pwrlvl s2) \/
   (PSCI_E_DENIED = PSCI_E_INVALID_PARAMS /\ (PLAT_MAX_PWR_LVL < 1)%nat /\
    s2 = voted 1 (stretched 1
      {| pwr_domain_state := [2; 2; 0]; last_at_pwrlvl := 1 |}) max_suspend_pwrlvl s2)).
Proof.
  assert (@psci_validate_state_coordination C 1 1
    {| pwr_domain_state := [2; 2; 0]; last_at_pwrlvl := 1 |} s2 = Done PSCI_E_DENIED s2) as Hrun
    by (vm_compute; reflexivity).
  split; [exact Hrun|].
  apply (validate_state_coordination_requests s2 1 1
    {| pwr_domain_state := [2; 2; 0]; last_at_pwrlvl := 1 |} PSCI_E_DENIED s2).
  - apply check_topo_sound. vm_compute. reflexivity.
  - apply Run.cpu_valid; vm_compute; reflexivity.
  - reflexivity.
  - cbn. lia.
  - exact Hrun.
Defined.

Definition cluster_off : psci_power_state_t := {| pwr_domain_state := [2; 2; 0]; last_at_pwrlvl := 1 |}.
Definition nodes0 : list Z := path (topo s3) 0 1.
Definition asleep : psci_state := final (@suspend_enter C awake 0 1 cluster_off 1 nodes0 s3).
Definition resumed : psci_state := final (@suspend_wakeup C awake 0 1 cluster_off 1 1 nodes0 asleep).

Lemma asleep_run : @suspend_enter C awake 0 1 cluster_off 1 nodes0 s3 = Done (inr (cluster_off, 1%nat)) asleep.
Proof. vm_compute. reflexivity. Qed.

Lemma resumed_run : @suspend_wakeup C awake 0 1 cluster_off 1 1 nodes0 asleep = Done tt resumed.
Proof. vm_compute. reflexivity. Qed.

End OsRun.
