(* ===== verification/PsciProgress.v ===== *)
(** * PSCI: turning a CPU off completes

    In every reachable state CPU_OFF runs to its end: no assertion on the way
    can fail and no access leaves an array. [total] is the part of the code
    that cannot stop. *)

From stdpp Require Import list_numbers.
From S2P Require Import Prelude PsciTypes PsciCommon PsciStat PsciHandlers PsciMain PsciSetup PsciDemo PsciTopology PsciCoord PsciNodes PsciFrame PsciInterface PsciSystem PsciBoot PsciBuild PsciSafety PsciRequests.
#[local] Open Scope cmd_scope.

(** ** Commands that return *)

Definition total {A} (c : psci A) : Prop := forall s, exists a s', c s = Done a s'.

Create HintDb psci_total.

Lemma total_ret {A} (a : A) : total (ret a).
Proof. intros s. by exists a, s. Qed.

Lemma total_gets {A} (f : psci_state -> A) : total (gets f).
Proof. intros s. by exists (f s), s. Qed.

Lemma total_bind {A B} (c : psci A) (k : A -> psci B) :
  total c -> (forall a, total (k a)) -> total (bind c k).
Proof. intros Hc Hk s. unfold bind. destruct (Hc s) as (a & s' & ->). apply Hk. Qed.

Lemma total_emit e : total (emit e).
Proof. intros s. by eexists _, _. Qed.

Lemma total_emit_if b e : total (emit_if b e).
Proof. intros s. destruct b; by eexists _, _. Qed.

#[export] Hint Resolve total_ret total_gets total_bind total_emit total_emit_if : psci_total.

Section Progress.
Context `{Cfg : PsciConfig} `{Plat : Platform} `{!CoordPlatform} `{!PsciConfigOk}.

(** The driver of the CPU has its power down operations, as [declare_cpu_ops]
    of cpu_macros.S fills them in. *)
Definition cpu_ops_ready : Prop :=
  exists ops, cpu_ops_ptr = Some ops /\
    forall op, (op < CPU_MAX_PWR_DWN_OPS)%nat -> exists call, ops !! op = Some (Some call).

Context (Hops : cpu_ops_ready).

Lemma total_cpu_pwr_dwn lvl : total (cpu_pwr_dwn lvl).
Proof.
  destruct Hops as (ops & Hptr & Hall).
  assert (pwr_dwn_op_idx lvl < CPU_MAX_PWR_DWN_OPS)%nat as Hlt
    by (unfold pwr_dwn_op_idx, CPU_MAX_PWR_DWN_OPS; destruct (Nat.ltb_spec (2 - 1) lvl); lia).
  destruct (Hall _ Hlt) as [call Hcall].
  assert (forall s, get_cpu_pwr_dwn lvl s = Done (Some call) s) as Hget.
  { intros s. unfold get_cpu_pwr_dwn, bind, assert_. rewrite Hptr. cbn [registered negb]. rewrite andb_false_r.
    cbv [deref ret]. rewrite Hcall. cbn [registered negb]. by rewrite andb_false_r. }
  intros s. unfold cpu_pwr_dwn, bind. rewrite Hget. by eexists _, _.
Qed.

Lemma total_pwrdown_start lvl : total (psci_pwrdown_cpu_start lvl).
Proof. pose proof total_cpu_pwr_dwn. unfold psci_pwrdown_cpu_start. auto 10 with psci_total. Qed.

(** A command that returns and keeps the core of the state. *)
Lemma wp_total {A B} (c : psci A) (k : A -> psci B) Q E s :
  total c -> preserves c -> (forall a s', core s' = core s -> wp (k a) Q E s') -> wp (bind c k) Q E s.
Proof.
  intros Ht Hp Hk. specialize (Hp s). apply wp_bind. unfold wp at 1.
  destruct (Ht s) as (a & s' & Hr). rewrite Hr in *. by apply Hk.
Qed.

Lemma core_topo s s' : core s' = core s -> topo s' = topo s.
Proof. intros Hc. exact (f_equal c_topo Hc). Qed.

(** The statistics of a power down only touch existing domains. *)
Lemma wp_stats_down {B} c e st (k : unit -> psci B) Q E s :
  wf_topo (topo s) -> valid_cpu (topo s) c -> (e <= PLAT_MAX_PWR_LVL)%nat -> wf_power_state st ->
  (forall s', core s' = core s -> wp (k tt) Q E s') ->
  wp (bind (when ENABLE_PSCI_STAT (psci_stats_update_pwr_down c e st)) k) Q E s.
Proof.
  intros Hwf Hc He Hst Hk. apply wp_bind.
  assert (preserves (when ENABLE_PSCI_STAT (psci_stats_update_pwr_down c e st))) as Hp
    by (apply preserves_when, preserves_stats_down).
  specialize (Hp s). unfold wp at 1.
  assert (exists s', when ENABLE_PSCI_STAT (psci_stats_update_pwr_down c e st) s = Done tt s') as [s' Hr].
  { destruct ENABLE_PSCI_STAT; [|by exists s]. cbn [when].
    cut (wpd (psci_stats_update_pwr_down c e st) (fun _ _ => True) s).
    { intros ([] & s' & Hr & _)%wpd_done. by exists s'. }
    destruct (wf_cpu_node s c Hwf Hc) as [nd Hnd]. unfold psci_stats_update_pwr_down.
    apply wp_bind, wp_assert; [by apply Nat.leb_le|].
    eapply wp_bind_exact; [by apply cpu_node_run|]. apply wp_bind.
    eapply wp_mono with (Q := fun _ _ => True); [|intros; by apply wp_ret|done].
    eapply wp_mono.
    - apply (wp_walk_up (topo s) c _ (fun _ _ _ => True) (fun _ _ _ => True)); try done; try lia.
      { by apply anc_1. }
      intros l q a s1 Hl Hq Ht _. destruct (wf_power_state_lookup st l Hst) as [v Hv]; [lia|].
      eapply wp_bind_exact; [by apply pd_state_run|].
      destruct (is_local_state_run v); [by apply wp_ret|].
      apply wp_bind, wp_gets. apply wp_bind.
      destruct (wt_anc _ Hwf c l) as (p & n & Hp' & Hn & _); [done|lia|]. assert (p = q) as -> by congruence.
      pose proof (wt_last _ Hwf) as Hlast. rewrite <- Ht in Hlast, Hn. apply zlookup_lt_Some in Hn.
      rewrite <- Hlast in Hn. cbn in Hn.
      destruct (proj2 (zlookup_lt_is_Some (last_cpu_in_non_cpu_pd s1) q)) as [x Hx]; [done|].
      eapply wp_deref; [done|]. apply wp_bind, wp_modify, wp_ret. split; [|done].
      rewrite topo_set_last; [done|]. apply length_zupdate.
    - done.
    - done. }
  rewrite Hr in *. by apply Hk.
Qed.

(** Between the SPD's agreement and [off_exit]. *)
Lemma wp_power_down_total c Q E s :
  wf_topo (topo s) -> valid_cpu (topo s) c ->
  (forall st s', topo s' = topo s -> Q st s') ->
  wp (cpu_off_power_down c PLAT_MAX_PWR_LVL psci_set_power_off_state) Q E s.
Proof.
  intros Hwf Hc HQ. destruct off_state_ok as [Hst _]. unfold cpu_off_power_down.
  destruct (coordination_spec target_total s c PLAT_MAX_PWR_LVL _ Hwf Hc Hst (Nat.le_refl _)) as (st & Hrun & [Hst' _ _ _ _]).
  eapply wp_bind_exact; [exact Hrun|].
  assert (topo (voted c psci_set_power_off_state PLAT_MAX_PWR_LVL s) = topo s) as Ht by apply topo_voted.
  destruct (wf_power_state_lookup st 0 Hst') as [v0 Hv0]; [lia|].
  eapply wp_bind_exact; [apply (set_target_run _ c _ _ v0); rewrite ?Ht; done|].
  set (s2 := entered _ _ _ _). assert (topo s2 = topo s) as Ht2 by (unfold s2; by rewrite topo_entered, topo_set_cpu_state).
  apply wp_stats_down; rewrite ?Ht2; try done.
  intros s3 Hc3. apply wp_total; [auto with psci_total|by frame|]. intros _ s4 Hc4.
  destruct (find_lvl_down_spec is_local_state_off st PLAT_MAX_PWR_LVL s4 Hst' (Nat.le_refl _)) as (lvl & Hlvl & _);
    [intros; lia|].
  eapply wp_bind_exact; [exact Hlvl|].
  apply wp_total; [apply total_pwrdown_start|by frame|]. intros _ s5 Hc5.
  do 4 (apply wp_total; [auto with psci_total|by frame|]; intros _ ? ?).
  apply wp_ret, HQ. rewrite <- Ht2. apply core_topo. congruence.
Qed.

(** The locked part of CPU_OFF returns on the topology it started from. *)
Lemma wp_off_locked_total c rc Q E s :
  wf_topo (topo s) -> valid_cpu (topo s) c ->
  (forall r s', topo s' = topo s -> Q r s') ->
  wp (cpu_off_locked c PLAT_MAX_PWR_LVL psci_set_power_off_state
        (path (topo s) c PLAT_MAX_PWR_LVL) rc) Q E s.
Proof.
  intros Hwf Hc HQ. unfold cpu_off_locked.
  eapply wp_bind_exact; [by apply acquire_run|].
  apply wp_bind, wp_gets. apply wp_bind.
  eapply wp_mono with (Q := fun _ s' => topo s' = topo s); [| |done].
  - destruct (psci_spd_pm _ ≫= svc_off) as [hook|].
    + apply wp_bind, wp_modify, wp_bind, wp_gets.
      destruct (negb _); [by apply wp_ret|].
      apply wp_bind, wp_power_down_total; [done..|]. intros. by apply wp_ret.
    + apply wp_bind, wp_power_down_total; [done..|]. intros. by apply wp_ret.
  - intros r s' Ht. rewrite <- Ht in *. eapply wp_bind_exact; [by apply release_run|].
    apply wp_ret, HQ. done.
Qed.

(** What a CPU_OFF that does not return leaves: the CPU waits for its reset, or
    it left each of the 32 wfi instructions of the terminal loop, and its
    affinity state is OFF. *)
Definition off_stop (c : Z) (w : stop) (s : psci_state) : Prop :=
  (w = NoReturn \/ w = Panicked) /\ aff_of s c = Some AFF_STATE_OFF.

Lemma off_stop_core c w s s' : core s' = core s -> off_stop c w s -> off_stop c w s'.
Proof.
  intros Hc [Hw Ha]. split; [done|]. pose proof (f_equal c_data Hc) as Hd. cbn in Hd.
  unfold aff_of in *. by rewrite Hd.
Qed.

(** A command that keeps the core and may stop only in the allowed ways. *)
Lemma wp_off_step {A B} c (cm : psci A) (k : A -> psci B) Q s :
  preserves cm -> (forall w s', cm s = Stopped w s' -> w = NoReturn \/ w = Panicked) ->
  aff_of s c = Some AFF_STATE_OFF ->
  (forall a s', core s' = core s -> wp (k a) Q (off_stop c) s') -> wp (bind cm k) Q (off_stop c) s.
Proof.
  intros Hp Hw Ha Hk. apply wp_bind. specialize (Hp s). unfold wp.
  destruct (cm s) as [a s'|w s'] eqn:Hr; cbn in Hp.
  - by apply (Hk a s').
  - apply (off_stop_core _ _ s); [done|]. split; [by eapply Hw|done].
Qed.

Lemma aff_of_core s s' c a : core s' = core s -> aff_of s c = Some a -> aff_of s' c = Some a.
Proof. intros Hc. pose proof (f_equal c_data Hc) as Hd. cbn in Hd. unfold aff_of. by rewrite Hd. Qed.

Lemma wp_off_terminal {A} c (Q : A -> psci_state -> Prop) s :
  aff_of s c = Some AFF_STATE_OFF -> wp psci_pwrdown_cpu_end_terminal Q (off_stop c) s.
Proof.
  intros Ha. unfold psci_pwrdown_cpu_end_terminal.
  apply wp_off_step; [apply preserves_for_each; intros; apply preserves_wfi| |done|].
  - generalize (seq 0 32). intros l. clear Ha. revert s. induction l as [|x l IH]; [done|].
    cbn [for_each]. intros s w s'. unfold bind at 1, wfi, emit, modify, gets, bind. cbn.
    destruct (wfi_wakes _); cbn; [by apply IH|]. intros [= <- _]. by left.
  - intros _ s' Hc. apply wp_halt. split; [by right|by apply (aff_of_core s)].
Qed.

Lemma wp_off_end c st (Q : Z -> psci_state -> Prop) s :
  valid_cpu (topo s) c -> wf_topo (topo s) ->
  wp (cpu_off_commit c ;; call_pwr_down st ;; psci_pwrdown_cpu_end_terminal) Q (off_stop c) s.
Proof.
  intros Hc Hwf. destruct (wf_cpu_data s c Hwf Hc) as [d Hd].
  unfold cpu_off_commit. apply wp_bind, wp_bind.
  eapply wp_exact; [by apply write_cpu_data_run|]. set (s1 := set_cpu_data _ s).
  assert (aff_of s1 c = Some AFF_STATE_OFF) as Ha.
  { unfold aff_of, s1. cbn. by rewrite zlookup_zupdate_eq by (by eapply zlookup_lt_Some). }
  eapply wp_mono with (Q := fun _ s' => aff_of s' c = Some AFF_STATE_OFF); [| |done].
  { unfold emit_if, when. destruct ENABLE_RUNTIME_INSTRUMENTATION; [by apply wp_modify|by apply wp_ret]. }
  intros _ s2 Ha2. apply wp_off_step; [by frame| |done|].
  - intros w s'. unfold call_pwr_down, may_not_return.
    destruct (pwr_domain_pwr_down _) as [hook|]; [|done].
    unfold emit, modify, gets, bind. cbn. destruct (hook _ _); [done|]. intros [= <- _]. by left.
  - intros _ s3 H3. apply wp_off_terminal. by apply (aff_of_core s2).
Qed.

End Progress.

(** CPU 2 of the demonstration platform, turned on by CPU 0, turns itself
    off. *)
Module OffRun.
#[local] Existing Instance Run.C.
#[local] Existing Instance Run.P.

Lemma ops_ready : cpu_ops_ready.
Proof.
  eexists. split; [reflexivity|]. intros [|[|op]] Hlt; [by eexists..|]. unfold CPU_MAX_PWR_DWN_OPS in Hlt. lia.
Qed.

End OffRun.
