(* ===== verification/PsciCalls.v ===== *)
(** * PSCI: properties of the individual calls

    CPU_ON and CPU_OFF on every branch, the calls that do not return, the SMC
    front end, memory protection, statistics and the stopping of other
    cores. *)

From stdpp Require Import list_numbers.
From S2P Require Import Prelude PsciTypes PsciCommon PsciStat PsciHandlers PsciMain PsciSetup PsciDemo PsciTopology PsciCoord PsciNodes PsciFrame PsciInterface PsciSystem PsciBoot PsciSafety PsciPower PsciRequests.
#[local] Open Scope cmd_scope.

Section CpuOn.
Context `{Cfg : PsciConfig} `{Plat : Platform}.

(** What a CPU_ON leaves alone: the domains, the requests and the other CPUs. *)
Definition only_cpu (t : Z) (s s' : psci_state) : Prop :=
  psci_non_cpu_pd_nodes s' = psci_non_cpu_pd_nodes s /\
  psci_req_local_pwr_states s' = psci_req_local_pwr_states s /\
  (forall c, c <> t -> (psci_svc_cpu_data s').[c] = (psci_svc_cpu_data s).[c]) /\
  warmboot_ep_ptr <$> (psci_svc_cpu_data s').[t] = warmboot_ep_ptr <$> (psci_svc_cpu_data s).[t].

Lemma wp_emit e (Q : unit -> psci_state -> Prop) E s :
  Q tt (set_trace (e :: trace s) s) -> wp (emit e) Q E s.
Proof. done. Qed.

(** Setting the affinity state of the target. *)
Lemma wp_aff t a d (Q : unit -> psci_state -> Prop) E s :
  (psci_svc_cpu_data s).[t] = Some d ->
  Q tt (set_cpu_data (zupdate (psci_svc_cpu_data s) t (with_aff_info_state a d)) s) ->
  wp (psci_set_aff_info_state_by_idx t a) Q E s.
Proof. intros Hd HQ. eapply wp_exact; [by apply write_cpu_data_run|done]. Qed.

Lemma only_cpu_aff s t a d :
  (psci_svc_cpu_data s).[t] = Some d ->
  only_cpu t s (set_cpu_data (zupdate (psci_svc_cpu_data s) t (with_aff_info_state a d)) s).
Proof.
  intros Hd. split_and!; try done; cbn.
  - intros c Hne. by rewrite zlookup_zupdate_ne.
  - rewrite zlookup_zupdate_eq by (by eapply zlookup_lt_Some). by rewrite Hd.
Qed.

(** The trace when the platform is asked to turn the target on, newest event
    first. *)
Definition on_trace (s : psci_state) (t target_cpu : Z) : list event :=
  E_pwr_domain_on target_cpu ::
  match psci_spd_pm s with Some pm => if svc_on pm then [E_svc_on target_cpu] else [] | None => [] end ++
  E_spin_lock_cpu t :: trace s.

Lemma with_spd_run b e s :
  with_spd (fun pm => emit_if (b pm) e) s =
  Done tt (set_trace (match psci_spd_pm s with Some pm => if b pm then [e] else [] | None => [] end ++ trace s) s).
Proof.
  unfold with_spd, emit_if, when, bind, gets. destruct (psci_spd_pm s) as [pm|]; [destruct (b pm)|]; try done;
    unfold ret; by destruct s.
Qed.

(** The results of CPU_ON. *)
Definition on_results (s : psci_state) (t target_cpu : Z) (ep : entry_point_info_t) (hook : Z -> list event -> Z)
    (d : psci_cpu_data_t) (p rc : Z) (s' : psci_state) : Prop :=
  only_cpu t s s' /\
  match aff_info_state d with
  | AFF_STATE_ON => rc = PSCI_E_ALREADY_ON /\ core s' = core s /\ warmboot_ep_info s' = warmboot_ep_info s
  | AFF_STATE_ON_PENDING => rc = PSCI_E_ON_PENDING /\ core s' = core s /\ warmboot_ep_info s' = warmboot_ep_info s
  | AFF_STATE_OFF =>
      rc = hook target_cpu (on_trace s t target_cpu) /\
      aff_of s' t = Some (if rc =? PSCI_E_SUCCESS then AFF_STATE_ON_PENDING else AFF_STATE_OFF) /\
      warmboot_ep_info s' = zupdate (warmboot_ep_info s) p ep
  end.

(** C18. CPU_ON on every branch, for a CPU of the system whose entry point
    storage is set up, on a platform with the hooks for CPU_ON that answers SUCCESS or INTERN_FAIL
    as the porting guide requires: ALREADY_ON and ON_PENDING change nothing; a
    target that is OFF gets its entry point stored, the platform is asked to
    start it, its answer is the result of the call, and the target is
    ON_PENDING if the answer was SUCCESS and OFF again if not. No other CPU,
    entry point, request or domain is touched. *)
Theorem cpu_on_start_results s t target_cpu ep hook d p :
  t < PLATFORM_CORE_COUNT -> pwr_domain_on psci_plat_pm_ops = Some hook ->
  pwr_domain_on_finish psci_plat_pm_ops = true ->
  (forall m tr, hook m tr = PSCI_E_SUCCESS \/ hook m tr = PSCI_E_INTERN_FAIL) ->
  (psci_svc_cpu_data s).[t] = Some d -> warmboot_ep_ptr d = Some p ->
  0 <= p < Z.of_nat (length (warmboot_ep_info s)) ->
  exists rc s', psci_cpu_on_start t target_cpu ep s = Done rc s' /\ on_results s t target_cpu ep hook d p rc s'.
Proof.
  intros Ht Hon Hfin Hhook Hd Hp Hrng.
  pose proof (zlookup_lt_Some _ _ _ Hd) as Hlt.
  destruct (proj2 (zlookup_lt_is_Some (warmboot_ep_info s) p) Hrng) as [ep0 Hep0].
  cut (wpd (psci_cpu_on_start t target_cpu ep) (on_results s t target_cpu ep hook d p) s).
  { intros (rc & s' & Hrun & HQ)%wpd_done. eauto. }
  unfold psci_cpu_on_start, required. rewrite (proj2 (Z.leb_gt _ _)) by done.
  rewrite Hon, Hfin. apply wp_bind, wp_bind, wp_assert; [done|]. cbn [deref].
  wp_steps. apply wp_assert; [done|]. wp_steps. apply wp_emit. wp_step.
  eapply wp_exact; [by apply aff_run|]. unfold on_results.
  destruct (aff_info_state d) eqn:Ha; cbn [cpu_on_validate_state].
  - cbn. done.
  - change (negb (PSCI_E_SUCCESS =? PSCI_E_SUCCESS)) with false. cbv iota.
    unfold write_warmboot_ep, cpu_data. apply wp_bind, wp_bind, wp_bind.
    eapply wp_exact; [cbn; by rewrite Hd|]. apply wp_bind. rewrite Hp. apply wp_ret.
    wp_steps. eapply wp_deref; [exact Hep0|]. wp_steps.
    eapply wp_exact; [apply with_spd_run|]. wp_step.
    eapply wp_aff; [exact Hd|]. wp_step.
    eapply wp_exact; [apply aff_run; cbn; by apply zlookup_zupdate_eq|].
    cbn [with_aff_info_state aff_info_state]. rewrite bool_decide_eq_true_2 by done. cbn [negb].
    apply wp_bind, wp_ret. wp_step. apply wp_emit. wp_steps.
    match goal with |- context [hook target_cpu ?tr] => change tr with (on_trace s t target_cpu) end.
    destruct (Hhook target_cpu (on_trace s t target_cpu)) as [Hh|Hh]; rewrite Hh; (apply wp_assert; [done|]).
    + apply wp_bind, wp_ret. wp_steps. apply wp_emit, wp_ret.
      split; [exact (only_cpu_aff s t AFF_STATE_ON_PENDING d Hd)|]. split_and!; [done| |done].
      unfold aff_of. cbn. by rewrite zlookup_zupdate_eq.
    + apply wp_bind. change (negb (PSCI_E_INTERN_FAIL =? PSCI_E_SUCCESS)) with true. cbn [when].
      eapply wp_aff; [cbn; by apply zlookup_zupdate_eq|].
      wp_steps. apply wp_emit, wp_ret. cbn. rewrite zupdate_zupdate.
      split; [exact (only_cpu_aff s t AFF_STATE_OFF d Hd)|]. split_and!; [done| |done].
      unfold aff_of. cbn. by rewrite zlookup_zupdate_eq.
  - cbn. done.
Qed.
End CpuOn.

Section NoReturn.
Context `{Cfg : PsciConfig} `{Plat : Platform}.

(** The terminal part of a power down does not return. *)
Lemma wp_end_terminal {A} (Q : A -> psci_state -> Prop) s :
  wp psci_pwrdown_cpu_end_terminal Q (fun _ _ => True) s.
Proof. unfold psci_pwrdown_cpu_end_terminal. apply wp_bind, wp_any. intros. by apply wp_halt. Qed.

Lemma wp_system_power_down {A} me (Q : A -> psci_state -> Prop) s :
  wp (system_power_down me) Q (fun _ _ => True) s.
Proof.
  unfold system_power_down. do 3 (apply wp_bind, wp_any; intros). apply wp_end_terminal.
Qed.

Lemma wp_off_locked_refused idx e st nodes s :
  wp (cpu_off_locked idx e st nodes PSCI_E_SUCCESS)
     (fun r s' => fst r <> PSCI_E_SUCCESS -> core s' = core s) (fun _ _ => True) s.
Proof.
  unfold cpu_off_locked. apply wp_bind_frame; [by frame|]. intros _ s1 H1.
  apply wp_bind_frame; [by frame|]. intros spd s2 H2. apply wp_bind.
  eapply wp_mono with (Q := fun r s' => fst r <> PSCI_E_SUCCESS -> core s' = core s).
  - destruct (spd ≫= svc_off) as [hook|].
    + apply wp_bind_frame; [by frame|]. intros _ s3 H3.
      apply wp_bind_frame; [by frame|]. intros rc s4 H4.
      destruct (rc =? PSCI_E_SUCCESS) eqn:Hrc; cbn [negb].
      * apply wp_bind, wp_any. intros. apply wp_ret. apply Z.eqb_eq in Hrc. done.
      * apply wp_ret. intros _. congruence.
    + apply wp_bind, wp_any. intros. by apply wp_ret.
  - intros r s3 H3. apply wp_bind, wp_frame; [by frame|]. intros _ s4 H4.
    apply wp_ret. intros Hr. rewrite H4. by apply H3.
  - done.
Qed.

(** CPU_OFF: with an early hook that answers SUCCESS or DENIED, a call of
    [psci_do_cpu_off] that returns was refused (by that hook or by the Secure
    Payload Dispatcher), and has changed no domain state, request or CPU data;
    an accepted call does not return to its caller. *)
Theorem cpu_off_returns_only_refused idx e s rc s' :
  (forall hook st tr, pwr_domain_off_early psci_plat_pm_ops = Some hook ->
     hook st tr = PSCI_E_SUCCESS \/ hook st tr = PSCI_E_DENIED) ->
  psci_do_cpu_off idx e s = Done rc s' -> rc <> PSCI_E_SUCCESS /\ core s' = core s.
Proof.
  intros Hearly.
  apply (wp_elim _ (fun rc s' => rc <> PSCI_E_SUCCESS /\ core s' = core s)).
  unfold psci_do_cpu_off. apply wp_bind_frame; [by frame|]. intros _ s1 H1.
  apply wp_bind. eapply wp_mono with (Q := fun rc s' =>
    (rc = PSCI_E_SUCCESS \/ rc = PSCI_E_DENIED) /\ core s' = core s).
  - unfold cpu_off_early. destruct (pwr_domain_off_early _) as [hook|] eqn:Hh; [|apply wp_ret; auto].
    apply wp_bind_frame; [by frame|]. intros _ s2 H2. apply wp_gets.
    split; [eauto|congruence].
  - intros early s2 [[-> | ->] H2]; [|by apply wp_ret].
    change (PSCI_E_SUCCESS =? PSCI_E_DENIED) with false. cbv iota.
    apply wp_bind_frame; [by frame|]. intros nodes s3 H3. apply wp_bind.
    eapply wp_mono; [apply wp_off_locked_refused| |done]. intros r s4 H4.
    destruct (Z.eqb_spec (fst r) PSCI_E_SUCCESS) as [|Hne].
    + do 2 (apply wp_bind, wp_any; intros). apply wp_end_terminal.
    + apply wp_ret. split; [done|]. rewrite H4 by done. congruence.
  - done.
Qed.

(** SYSTEM_OFF and SYSTEM_RESET never return; SYSTEM_RESET2 returns only
    an error: INVALID_PARAMS for an unknown architectural reset, NOT_SUPPORTED
    when memory protection cannot be cleared, or the error of the platform. *)
Theorem system_calls_do_not_return me s :
  (forall A (a : A) s', psci_system_off me s <> Done a s') /\
  (forall A (a : A) s', psci_system_reset me s <> Done a s') /\
  (forall ty cookie r s', psci_system_reset2 me ty cookie s = Done r s' ->
     r = u64 PSCI_E_INVALID_PARAMS \/ r = u64 PSCI_E_NOT_SUPPORTED \/
     exists hook v tr, system_reset2 psci_plat_pm_ops = Some hook /\
       hook v ty cookie tr <> PSCI_E_SUCCESS /\ r = u64 (hook v ty cookie tr)).
Proof.
  split_and!.
  - intros A a s' Hrun. revert Hrun. apply (wp_elim _ (fun _ _ => False)). unfold psci_system_off.
    do 4 (apply wp_bind, wp_any; intros). apply wp_system_power_down.
  - intros A a s' Hrun. revert Hrun. apply (wp_elim _ (fun _ _ => False)). unfold psci_system_reset.
    do 4 (apply wp_bind, wp_any; intros). apply wp_system_power_down.
  - intros ty cookie r s'. apply (wp_elim _ (fun r _ => r = u64 PSCI_E_INVALID_PARAMS \/
      r = u64 PSCI_E_NOT_SUPPORTED \/ exists hook v tr, system_reset2 psci_plat_pm_ops = Some hook /\
       hook v ty cookie tr <> PSCI_E_SUCCESS /\ r = u64 (hook v ty cookie tr))).
    unfold psci_system_reset2, required. apply wp_bind, wp_bind, wp_any. intros _ s1.
    destruct (system_reset2 _) as [hook|] eqn:Hh; [|done]. apply wp_ret. cbv zeta. apply wp_bind.
    eapply wp_mono with (Q := fun early _ => match early with
      | Some r => r = u64 PSCI_E_INVALID_PARAMS \/ r = u64 PSCI_E_NOT_SUPPORTED
      | None => True end).
    + destruct (_ =? 0); [|by apply wp_ret]. destruct (negb _); [apply wp_ret; by left|].
      destruct (write_mem_protect _) as [wmp|]; [|by apply wp_ret].
      apply wp_bind, wp_any. intros v s2. apply wp_ret. destruct (v <? 0); [by right|done].
    + intros [r0|] s2 Hr; [apply wp_ret; tauto|].
      do 3 (apply wp_bind, wp_any; intros). apply wp_bind, wp_gets.
      match goal with |- context [hook ?a ?b ?c ?d] => set (rc := hook a b c d) end.
      destruct (Z.eqb_spec rc PSCI_E_SUCCESS) as [|Hne]; cbn [negb]; [apply wp_system_power_down|].
      apply wp_ret. right. right. eauto 10.
    + done.
Qed.
End NoReturn.

Section FrontEnd.
Context `{Cfg : PsciConfig} `{Plat : Platform}.

(** The function identifiers [psci_smc_handler] dispatches on. *)
Definition fids32 : list Z :=
  [PSCI_VERSION; PSCI_CPU_OFF; PSCI_CPU_SUSPEND_AARCH32; PSCI_CPU_ON_AARCH32;
   PSCI_AFFINITY_INFO_AARCH32; PSCI_MIG_AARCH32; PSCI_MIG_INFO_TYPE; PSCI_MIG_INFO_UP_CPU_AARCH32;
   PSCI_NODE_HW_STATE_AARCH32; PSCI_SYSTEM_SUSPEND_AARCH32; PSCI_SYSTEM_OFF; PSCI_SYSTEM_RESET;
   PSCI_FEATURES; PSCI_SET_SUSPEND_MODE; PSCI_STAT_RESIDENCY_AARCH32; PSCI_STAT_COUNT_AARCH32;
   PSCI_MEM_PROTECT; PSCI_MEM_CHK_RANGE_AARCH32; PSCI_SYSTEM_RESET2_AARCH32].
Definition fids64 : list Z :=
  [PSCI_CPU_SUSPEND_AARCH64; PSCI_CPU_ON_AARCH64; PSCI_AFFINITY_INFO_AARCH64; PSCI_MIG_AARCH64;
   PSCI_MIG_INFO_UP_CPU_AARCH64; PSCI_NODE_HW_STATE_AARCH64; PSCI_SYSTEM_SUSPEND_AARCH64;
   PSCI_STAT_RESIDENCY_AARCH64; PSCI_STAT_COUNT_AARCH64; PSCI_MEM_CHK_RANGE_AARCH64;
   PSCI_SYSTEM_RESET2_AARCH64].

Definition psci_fid_ok (fid : Z) : bool :=
  is_std_svc_call fid && is_valid_fast_smc fid && is_psci_fid fid.

(** Turns [fid ∉ [a; b; ...]] into the disequalities and rewrites the tests. *)
Ltac no_dispatch H :=
  repeat match type of H with
  | _ ∉ _ :: _ =>
      let Hne := fresh in
      apply not_elem_of_cons in H as [Hne H]; rewrite (proj2 (Z.eqb_neq _ _) Hne); clear Hne
  end; rewrite ?andb_false_r.

Lemma smc_32_unknown me fid r1 r2 r3 s :
  fid ∉ fids32 -> psci_smc_32 me fid r1 r2 r3 s = Done SMC_UNK s.
Proof. intros H. unfold psci_smc_32, fids32 in *. no_dispatch H. done. Qed.

Lemma smc_64_unknown me fid x1 x2 x3 s :
  fid ∉ fids64 -> psci_smc_64 me fid x1 x2 x3 s = Done SMC_UNK s.
Proof. intros H. unfold psci_smc_64, fids64 in *. no_dispatch H. done. Qed.

Lemma fids_ok fid : fid ∈ fids32 ++ fids64 -> psci_fid_ok fid = true.
Proof.
  assert (forallb psci_fid_ok (fids32 ++ fids64) = true) as Hall by (vm_compute; reflexivity).
  rewrite forallb_forall in Hall. intros Hin%list_elem_of_In. by apply Hall.
Qed.

Lemma fids64_mask fid : fid ∈ fids64 -> Z.land PSCI_CAP_64BIT_MASK (define_psci_cap fid) <> 0.
Proof.
  assert (forallb (fun f => negb (Z.land PSCI_CAP_64BIT_MASK (define_psci_cap f) =? 0)) fids64 = true)
    as Hall by (vm_compute; reflexivity).
  rewrite forallb_forall in Hall. intros Hin%list_elem_of_In.
  by apply Z.eqb_neq, negb_true_iff, Hall.
Qed.

(** One capability bit. *)
Lemma cap_bit x fid :
  Z.land x (define_psci_cap fid) = 0 <-> Z.testbit x (Z.land fid 0x1f) = false.
Proof.
  unfold define_psci_cap. assert (0 <= Z.land fid 0x1f) as Hn by (apply Z.land_nonneg; right; lia).
  set (n := Z.land fid 0x1f) in *. rewrite Z.shiftl_1_l. split.
  - intros H0. assert (Z.testbit (Z.land x (2 ^ n)) n = false) as Hb by (rewrite H0; apply Z.bits_0).
    rewrite Z.land_spec, Z.pow2_bits_true, andb_true_r in Hb by done. done.
  - intros Hb. apply Z.bits_inj'. intros k Hk. rewrite Z.land_spec, Z.bits_0.
    rewrite Z.pow2_bits_eqb by done. destruct (Z.eqb_spec n k) as [->|]; [|apply andb_false_r].
    by rewrite Hb.
Qed.

(** PSCI_FEATURES and the dispatcher agree: a function that
    [psci_features] reports as NOT_SUPPORTED is answered with SMC_UNK by
    [psci_smc_handler], whatever its arguments and its caller, and without
    effect. *)
Theorem features_unsupported_is_unknown me fid x1 x2 x3 flags s :
  psci_features fid s = Done PSCI_E_NOT_SUPPORTED s ->
  psci_smc_handler me fid x1 x2 x3 flags s = Done SMC_UNK s.
Proof.
  unfold psci_features, psci_smc_handler, bind, gets. fold (psci_fid_ok fid).
  destruct (fid =? SMCCC_VERSION); [done|].
  destruct (is_caller_non_secure flags); cbn [negb]; [|done].
  destruct (psci_fid_ok fid) eqn:Hok; cbn [negb].
  - set (caps := psci_caps s). intros Hf.
    destruct (Z.eqb_spec (Z.land caps (define_psci_cap fid)) 0) as [|Hcap]; [done|].
    destruct (GET_SMC_CC fid =? 1) eqn:Hcc.
    + apply Z.eqb_eq in Hcc. rewrite Hcc. cbn. apply smc_64_unknown. intros Hin.
      apply fids64_mask in Hin. rewrite cap_bit in Hcap, Hin.
      destruct (Z.eqb_spec (Z.land (Z.land caps PSCI_CAP_64BIT_MASK) (define_psci_cap fid)) 0) as [H0|_].
      * apply cap_bit in H0. rewrite Z.land_spec in H0. apply andb_false_iff in H0. tauto.
      * destruct (_ || _); [|done]. by destruct PSCI_EXTENDED_STATE_ID, PSCI_OS_INIT_MODE.
    + rewrite (proj2 (Z.eqb_neq _ _) Hcap) in Hf.
      destruct (_ || _); [|done]. by destruct PSCI_EXTENDED_STATE_ID, PSCI_OS_INIT_MODE.
  - intros _. destruct (_ =? 0); [done|].
    assert (fid ∉ fids32 ++ fids64) as Hn by (intros Hin%fids_ok; congruence).
    rewrite not_elem_of_app in Hn. destruct Hn as [H32 H64].
    destruct (GET_SMC_CC fid =? 0); [by apply smc_32_unknown|by apply smc_64_unknown].
Qed.

(** ** Memory protection *)

(** MEM_CHK_RANGE: for 64-bit arguments the range is accepted exactly
    when it is not empty, does not wrap around the address space, and the
    platform accepts it; every other range is DENIED. *)
Theorem mem_chk_range_spec base len chk s :
  0 <= base < 2 ^ 64 -> 0 <= len < 2 ^ 64 -> mem_protect_chk psci_plat_pm_ops = Some chk ->
  psci_mem_chk_range base len s =
  Done (u64 (if bool_decide (0 < len /\ base + len <= 2 ^ 64 /\ 0 <= chk base len (trace s))
             then PSCI_E_SUCCESS else PSCI_E_DENIED)) s.
Proof.
  intros Hb Hl Hchk. unfold psci_mem_chk_range, required, assert_, bind, gets. rewrite Hchk.
  rewrite bool_decide_eq_true_2 by eauto. rewrite andb_false_r. cbn [ret deref]. unfold ret at 1 2.
  destruct (Z.eqb_spec len 0) as [->|Hne]; cbn [orb].
  { rewrite bool_decide_eq_false_2 by lia. done. }
  rewrite u64_small by lia.
  destruct (check_uptr_overflow base (len - 1)) eqn:Hov.
  { apply check_uptr_overflow_spec in Hov; [|lia|lia]. rewrite bool_decide_eq_false_2 by lia. done. }
  assert (base + (len - 1) < 2 ^ 64) as Hle.
  { apply Z.nle_gt. intros H%check_uptr_overflow_spec; [congruence|lia|lia]. }
  destruct (Z.ltb_spec (chk base len (trace s)) 0).
  - by rewrite bool_decide_eq_false_2 by lia.
  - by rewrite bool_decide_eq_true_2 by lia.
Qed.
End FrontEnd.

Section Modes.
Context `{Cfg : PsciConfig} `{Plat : Platform}.

Definition all_on (s : psci_state) : bool :=
  forallb (fun c => negb (bool_decide (aff_of s c = Some AFF_STATE_OFF)))
    (seqZ 0 (psci_plat_core_count s)).

Lemma are_all_cpus_on_run s :
  wf_topo (topo s) -> psci_are_all_cpus_on s = Done (all_on s) s.
Proof.
  intros Hwf. unfold psci_are_all_cpus_on, bind at 1, gets. apply all_of_pure.
  intros c Hc%elem_of_seqZ. destruct (wf_cpu_data s c Hwf) as [d Hd].
  { unfold valid_cpu. cbn. lia. }
  unfold bind. rewrite (aff_run _ _ _ Hd). unfold aff_of, ret. rewrite Hd. cbn. f_equal. f_equal.
  apply bool_decide_ext. split; [congruence|by intros [=]].
Qed.

(** A query under the locks, up to the trace. *)
Lemma with_all_locks_run {A} me (q : psci A) r s :
  wf_topo (topo s) -> valid_cpu (topo s) me ->
  (forall tr, q (set_trace tr s) = Done r (set_trace tr s)) ->
  exists tr, with_all_locks me q s = Done r (set_trace tr s).
Proof.
  intros Hwf Hc Hq. unfold with_all_locks, bind.
  rewrite get_parents_run, acquire_run, Hq by done.
  set (s1 := set_trace _ s).
  change (path (topo s) me PLAT_MAX_PWR_LVL) with (path (topo s1) me PLAT_MAX_PWR_LVL).
  rewrite release_run by done. unfold ret. eauto.
Qed.

Lemma is_last_safe_trace s tr0 me :
  wf_topo (topo s) -> valid_cpu (topo s) me -> aff_of s me = Some AFF_STATE_ON ->
  exists tr, psci_is_last_on_cpu_safe me (set_trace tr0 s) = Done (others_off me s) (set_trace tr s).
Proof.
  intros Hwf Hc Hme. unfold psci_is_last_on_cpu_safe.
  destruct (with_all_locks_run me (psci_is_last_on_cpu me) (others_off me s) (set_trace tr0 s))
    as [tr Htr]; [done|done| |by exists tr].
  intros tr. exact (is_last_on_cpu_run (set_trace tr (set_trace tr0 s)) me Hwf Hme).
Qed.

(** The condition for entering a mode. *)
Definition mode_allowed (me : Z) (new : suspend_mode_t) : psci bool :=
  match new with
  | PLAT_COORD => psci_is_last_on_cpu_safe me
  | OS_INIT =>
      let! all_on := psci_are_all_cpus_on_safe me in
      if all_on then ret true else psci_is_last_on_cpu_safe me
  end.

Lemma mode_allowed_run s me new :
  wf_topo (topo s) -> valid_cpu (topo s) me -> aff_of s me = Some AFF_STATE_ON ->
  exists tr, mode_allowed me new s =
    Done (others_off me s || (bool_decide (new = OS_INIT) && all_on s)) (set_trace tr s).
Proof.
  intros Hwf Hc Hme. destruct new; cbn [mode_allowed].
  - rewrite bool_decide_eq_false_2, orb_false_r by done.
    destruct (is_last_safe_trace s (trace s) me) as [tr Htr]; try done.
    exists tr. rewrite <- Htr. by destruct s.
  - rewrite bool_decide_eq_true_2 by done. cbn [andb].
    destruct (with_all_locks_run me psci_are_all_cpus_on (all_on s) s) as [tr Htr]; [done|done| |].
    { intros tr. exact (are_all_cpus_on_run (set_trace tr s) Hwf). }
    unfold psci_are_all_cpus_on_safe, bind. rewrite Htr. destruct (all_on s).
    + exists tr. by rewrite orb_true_r.
    + rewrite orb_false_r. by apply is_last_safe_trace.
Qed.

(** SET_SUSPEND_MODE on every branch: an unknown mode is INVALID_PARAMS;
    the current mode is accepted; platform-coordinated mode is entered only
    when the caller is the last CPU that is not OFF, OS-initiated mode only
    then or when no CPU is OFF; otherwise the call is DENIED. Nothing but the
    mode changes. *)
Theorem set_suspend_mode_spec s me mode :
  wf_topo (topo s) -> valid_cpu (topo s) me -> aff_of s me = Some AFF_STATE_ON ->
  exists rc tr, let new := if mode =? 0 then PLAT_COORD else OS_INIT in
    psci_set_suspend_mode me mode s =
      Done rc (set_trace tr (if rc =? PSCI_E_SUCCESS then set_mode new s else s)) /\
    (rc = PSCI_E_INVALID_PARAMS <-> mode <> 0 /\ mode <> 1) /\
    (rc = PSCI_E_SUCCESS <-> (mode = 0 \/ mode = 1) /\
       (psci_suspend_mode s = new \/ others_off me s = true \/
        (new = OS_INIT /\ all_on s = true))) /\
    (rc = PSCI_E_INVALID_PARAMS \/ rc = PSCI_E_SUCCESS \/ rc = PSCI_E_DENIED).
Proof.
  intros Hwf Hc Hme. unfold psci_set_suspend_mode, bind, gets.
  destruct (negb (mode =? 0) && negb (mode =? 1)) eqn:Hmode.
  { apply andb_true_iff in Hmode as [?%negb_true_iff%Z.eqb_neq ?%negb_true_iff%Z.eqb_neq].
    exists PSCI_E_INVALID_PARAMS, (trace s). cbn. split; [by destruct s|]. split_and!; auto; [done|].
    split; [done|lia]. }
  assert (mode = 0 \/ mode = 1) as Hm.
  { apply andb_false_iff in Hmode as [?%negb_false_iff%Z.eqb_eq|?%negb_false_iff%Z.eqb_eq]; auto. }
  set (new := if mode =? 0 then PLAT_COORD else OS_INIT). cbv zeta. fold new.
  assert (~ (mode <> 0 /\ mode <> 1)) as Hnm by lia.
  destruct (bool_decide (psci_suspend_mode s = new)) eqn:Hcur.
  { apply bool_decide_eq_true in Hcur. exists PSCI_E_SUCCESS, (trace s). cbn. rewrite <- Hcur.
    split; [by destruct s|]. split; [done|]. split; [split; auto|auto]. }
  apply bool_decide_eq_false in Hcur.
  destruct (mode_allowed_run s me new Hwf Hc Hme) as [tr Hok]. unfold mode_allowed in Hok.
  unfold bind in Hok. rewrite Hok.
  destruct (others_off me s || (bool_decide (new = OS_INIT) && all_on s)) eqn:Hb; cbn [negb].
  - exists PSCI_E_SUCCESS, tr. cbn. split; [done|]. split; [done|]. split; [|auto].
    split; [|done]. intros _. split; [done|]. right.
    apply orb_true_iff in Hb as [->|[?%bool_decide_eq_true ->]%andb_true_iff]; auto.
  - exists PSCI_E_DENIED, tr. cbn. split; [done|]. split; [done|]. split; [|auto].
    split; [done|]. apply orb_false_iff in Hb as [Hb1 Hb2]. intros [_ [?|[?|[Hn Ha]]]]; try congruence.
    rewrite Ha, bool_decide_eq_true_2 in Hb2 by done. done.
Qed.
End Modes.

(** ** Platform defaults *)

(** Residency: with a counter of at least 1 MHz, [calc_stat_residency] is
    the difference of the two 64-bit timestamps divided by the frequency in
    MHz; when the counter wrapped around between them, the difference is one
    tick short of the elapsed count [pwrupts - pwrdnts] modulo [2^64]. *)
Theorem calc_stat_residency_spec cntfrq up dn :
  MHZ_TICKS_PER_SEC <= cntfrq -> 0 <= up < 2 ^ 64 -> 0 <= dn < 2 ^ 64 ->
  calc_stat_residency cntfrq up dn =
  Some ((u64 (up - dn) - (if up <? dn then 1 else 0)) / (cntfrq / MHZ_TICKS_PER_SEC)).
Proof.
  intros Hf Hu Hd. unfold calc_stat_residency, MAX_TS, UINT64_MAX.
  assert (1 <= cntfrq / MHZ_TICKS_PER_SEC) as Hdiv.
  { apply Z.div_le_lower_bound; [done|]. unfold MHZ_TICKS_PER_SEC in *. lia. }
  rewrite (proj2 (Z.eqb_neq _ 0)) by lia. f_equal. f_equal.
  destruct (Z.ltb_spec up dn).
  - rewrite (u64_small (2 ^ 64 - 1 - dn)), u64_small by lia.
    unfold u64. rewrite <- (Z_mod_plus_full _ 1), Z.mod_small by lia. lia.
  - rewrite u64_small by lia. lia.
Qed.

Section Defaults.
Context `{Cfg : PsciConfig}.

(** The generic [plat_get_target_pwr_state] returns, for at least one
    request, the shallowest of the requests and [PLAT_MAX_OFF_STATE]. *)
Theorem default_target_is_minimum lvl rs :
  match default_get_target_pwr_state lvl rs with
  | None => rs = []
  | Some v => rs <> [] /\ v <= PLAT_MAX_OFF_STATE /\ Forall (fun r => v <= r) rs /\
      (v = PLAT_MAX_OFF_STATE \/ v ∈ rs)
  end.
Proof.
  unfold default_get_target_pwr_state. destruct rs as [|r rs]; [done|].
  split; [done|]. apply (min_state_loop_spec (r :: rs) PLAT_MAX_OFF_STATE).
Qed.
End Defaults.

(** ** Stopping the other cores *)

Section StopCores.
Context `{Cfg : PsciConfig} `{Plat : Platform}.

Definition is_on (s : psci_state) (c : Z) : bool := bool_decide (aff_of s c = Some AFF_STATE_ON).

(** The stop interrupts sent to the CPUs [cs]. *)
Definition stop_events (me : Z) (s : psci_state) (cs : list Z) : list event :=
  omap (fun c => if negb (c =? me) && is_on s c
                 then E_stop_core ∘ mpidr <$> (psci_cpu_pd_nodes s).[c] else None) cs.

Lemma stop_loop_run me s cs :
  wf_topo (topo s) -> Forall (valid_cpu (topo s)) cs ->
  for_each cs (fun idx =>
    if idx =? me then ret tt
    else
      let! a := psci_get_aff_info_state_by_idx idx in
      when (bool_decide (a = AFF_STATE_ON))
        (let! c := cpu_node idx in emit (E_stop_core (mpidr c)))) s =
  Done tt (set_trace (rev (stop_events me s cs) ++ trace s) s).
Proof.
  intros Hwf Hall. remember (trace s) as tr eqn:Htr. replace s with (set_trace tr s) at 1
    by (subst; by destruct s). clear Htr. revert tr Hall.
  induction cs as [|c cs IH]; intros tr Hall; [done|].
  apply Forall_cons in Hall as [Hc Hall]. cbn [for_each]. unfold bind at 1.
  destruct (wf_cpu_data s c Hwf Hc) as [d Hd]. destruct (wf_cpu_node s c Hwf Hc) as [nd Hnd].
  unfold stop_events. cbn [omap list_omap]. fold (stop_events me s cs). rewrite Hnd.
  destruct (Z.eqb_spec c me); cbn [negb andb]; [by apply IH|].
  unfold bind at 1. rewrite (aff_run _ _ d) by done.
  replace (is_on s c) with (bool_decide (aff_info_state d = AFF_STATE_ON)).
  2:{ unfold is_on, aff_of. rewrite Hd. apply bool_decide_ext. cbn. split; [congruence|by intros [=]]. }
  case_bool_decide; cbn [when]; [|by apply IH].
  unfold bind at 1. rewrite (cpu_node_run _ _ nd) by done.
  etransitivity; [exact (IH (E_stop_core (mpidr nd) :: tr) Hall)|].
  cbn [fmap option_fmap option_map rev]. by rewrite <- app_assoc.
Qed.

Lemma wait_for_others_run me others n s :
  (forall s, wf_topo (topo s) -> aff_of s me = Some AFF_STATE_ON ->
     wf_topo (topo (others s)) /\ aff_of (others s) me = Some AFF_STATE_ON) ->
  wf_topo (topo s) -> aff_of s me = Some AFF_STATE_ON ->
  exists s', wait_for_others n me others s = Done tt s' /\
    wf_topo (topo s') /\ aff_of s' me = Some AFF_STATE_ON.
Proof.
  intros Hothers. revert s. induction n as [|n IH]; intros s Hwf Hme; [by exists s|].
  cbn [wait_for_others]. unfold bind at 1. rewrite is_last_on_cpu_run by done.
  destruct (others_off me s); [by exists s|]. unfold bind, emit, modify.
  destruct (Hothers (set_trace (E_mdelay :: trace s) s)) as [Hwf' Hme']; [done|done|].
  by apply IH.
Qed.

(** [psci_stop_other_cores] returns: it first sends the stop interrupt to
    exactly the other CPUs that are ON, in the order of their indices; without
    a timeout it reports success, and with one it reports success exactly if
    every other CPU is OFF when it stops waiting, whatever the rest of the
    system does meanwhile. *)
Theorem stop_other_cores_spec s me wait_ms others :
  wf_topo (topo s) -> aff_of s me = Some AFF_STATE_ON ->
  (forall s, wf_topo (topo s) -> aff_of s me = Some AFF_STATE_ON ->
     wf_topo (topo (others s)) /\ aff_of (others s) me = Some AFF_STATE_ON) ->
  let stopped := set_trace (rev (stop_events me s (seqZ 0 (psci_plat_core_count s))) ++ trace s) s in
  exists s', wait_for_others wait_ms me others stopped = Done tt s' /\
    psci_stop_other_cores me wait_ms others s =
    if (wait_ms =? 0)%nat then Done PSCI_E_SUCCESS stopped
    else Done (if others_off me s' then PSCI_E_SUCCESS else PSCI_E_DENIED) s'.
Proof.
  intros Hwf Hme Hothers stopped.
  destruct (wait_for_others_run me others wait_ms stopped Hothers) as (s' & Hwait & Hwf' & Hme');
    [done|done|].
  exists s'. split; [done|]. unfold psci_stop_other_cores, bind at 1, gets. unfold bind at 1.
  rewrite stop_loop_run; [|done|].
  2:{ apply Forall_forall. intros c Hc%elem_of_seqZ. unfold valid_cpu. cbn. lia. }
  fold stopped. destruct (wait_ms =? 0)%nat; [done|]. unfold bind. rewrite Hwait.
  rewrite is_last_on_cpu_run by done. by destruct (others_off me s').
Qed.
End StopCores.

(** ** The calls on the demonstration platform *)
Module CallsRun.
Import Run PowerRun.

Definition d3 : psci_cpu_data_t := {|
  aff_info_state := AFF_STATE_OFF; target_pwrlvl := 2; cpu_local_state := 2;
  warmboot_ep_ptr := Some 3 |}.

Lemma cpu_on_start_results_witness :
  aff_info_state d3 = AFF_STATE_OFF /\
  exists rc s', psci_cpu_on_start 3 3 ep_local s2 = Done rc s' /\
    on_results s2 3 3 ep_local (fun _ _ => PSCI_E_SUCCESS) d3 3 rc s'.
Proof.
  split; [reflexivity|].
  apply (cpu_on_start_results s2 3 3 ep_local (fun _ _ => PSCI_E_SUCCESS) d3 3).
  - reflexivity.
  - reflexivity.
  - reflexivity.
  - intros m tr. left. reflexivity.
  - vm_compute. reflexivity.
  - reflexivity.
  - vm_compute. split; [discriminate|reflexivity].
Defined.

(** A dispatcher that refuses to release the CPU. *)
Definition busy_spd : spd_pm_ops_t := {|
  svc_on := false; svc_off := Some (fun _ => PSCI_E_DENIED); svc_suspend := false;
  svc_on_finish := false; svc_suspend_finish := false; svc_migrate := None;
  svc_migrate_info := None; svc_system_off := false; svc_system_reset := false |}.

Definition refused : psci_state := final (psci_do_cpu_off 2 2 (set_spd (Some busy_spd) s2)).

Lemma cpu_off_returns_only_refused_witness :
  psci_do_cpu_off 2 2 (set_spd (Some busy_spd) s2) = Done PSCI_E_DENIED refused /\
  PSCI_E_DENIED <> PSCI_E_SUCCESS /\ core refused = core (set_spd (Some busy_spd) s2).
Proof.
  assert (psci_do_cpu_off 2 2 (set_spd (Some busy_spd) s2) = Done PSCI_E_DENIED refused) as Hrun
    by (vm_compute; reflexivity).
  split; [exact Hrun|].
  apply (cpu_off_returns_only_refused 2 2 (set_spd (Some busy_spd) s2) PSCI_E_DENIED refused).
  - intros hook st tr. discriminate.
  - exact Hrun.
Defined.

(** The SMC64 variant of CPU_OFF does not exist. *)
Lemma features_unsupported_is_unknown_witness :
  psci_features 0xc4000002 s2 = Done PSCI_E_NOT_SUPPORTED s2 /\
  psci_smc_handler 0 0xc4000002 0 0 0 1 s2 = Done SMC_UNK s2.
Proof.
  assert (psci_features 0xc4000002 s2 = Done PSCI_E_NOT_SUPPORTED s2) as Hf
    by (vm_compute; reflexivity).
  split; [exact Hf|].
  apply (features_unsupported_is_unknown 0 0xc4000002 0 0 0 1 s2). exact Hf.
Defined.

Lemma mem_chk_range_spec_witness :
  psci_mem_chk_range (2 ^ 64 - 16) 16 s2 =
  Done (u64 (if bool_decide (0 < 16 /\ 2 ^ 64 - 16 + 16 <= 2 ^ 64 /\ 0 <= 0)
             then PSCI_E_SUCCESS else PSCI_E_DENIED)) s2.
Proof.
  apply (mem_chk_range_spec (2 ^ 64 - 16) 16 (fun _ _ _ => 0) s2).
  - lia.
  - lia.
  - reflexivity.
Defined.

Lemma set_suspend_mode_spec_witness :
  exists rc tr, psci_set_suspend_mode 0 1 s2 =
    Done rc (set_trace tr (if rc =? PSCI_E_SUCCESS then set_mode OS_INIT s2 else s2)).
Proof.
  destruct (set_suspend_mode_spec s2 0 1) as (rc & tr & Hrun & _).
  - apply s2_wf.
  - by apply s2_cpu.
  - vm_compute. reflexivity.
  - exists rc, tr. exact Hrun.
Defined.

Lemma calc_stat_residency_spec_witness :
  calc_stat_residency 1000000 1 (2 ^ 64 - 1) =
  Some ((u64 (1 - (2 ^ 64 - 1)) - (if 1 <? 2 ^ 64 - 1 then 1 else 0)) / (1000000 / MHZ_TICKS_PER_SEC)).
Proof.
  apply (calc_stat_residency_spec 1000000 1 (2 ^ 64 - 1)).
  - unfold MHZ_TICKS_PER_SEC. lia.
  - lia.
  - lia.
Defined.

Lemma stop_other_cores_spec_witness :
  exists s', wait_for_others 5 0 (fun s => s)
      (set_trace (rev (stop_events 0 s2 (seqZ 0 (psci_plat_core_count s2))) ++ trace s2) s2)
    = Done tt s' /\
  psci_stop_other_cores 0 5 (fun s => s) s2 =
    if (5 =? 0)%nat then Done PSCI_E_SUCCESS
      (set_trace (rev (stop_events 0 s2 (seqZ 0 (psci_plat_core_count s2))) ++ trace s2) s2)
    else Done (if others_off 0 s' then PSCI_E_SUCCESS else PSCI_E_DENIED) s'.
Proof.
  apply (stop_other_cores_spec s2 0 5 (fun s => s)).
  - apply s2_wf.
  - vm_compute. reflexivity.
  - intros s Hwf Hme. split; assumption.
Defined.
End CallsRun.
