(* ===== verification/Fwu.v ===== *)
(** * BL1: the firmware update state machine

    bl1/bl1_fwu.c and [bl1_prepare_next_image] of
    bl1/aarch64/bl1_context_mgmt.c. The state is the platform's table of image
    descriptors, the table of loaded image identifiers, the last executed
    secure image, the security state the next exception return goes to, the
    authentication flags and the memory; messages and cache maintenance are
    not part of it. *)

From stdpp Require Import gmap list_numbers.
From S2P Require Import Prelude PsciTypes PsciCommon.
#[local] Open Scope cmd_scope.

(** ** Data *)

Inductive image_state : Set :=
  | IMAGE_STATE_RESET
  | IMAGE_STATE_COPIED
  | IMAGE_STATE_COPYING
  | IMAGE_STATE_AUTHENTICATED
  | IMAGE_STATE_EXECUTED
  | IMAGE_STATE_INTERRUPTED.

#[export] Instance image_state_eq_dec : EqDecision image_state.
Proof. solve_decision. Defined.

(** [image_desc_t] with its [image_info_t] inlined. *)
Record image_desc := {
  img_state : image_state;
  copied_size : Z;
  image_base : Z;
  image_size : Z;
  image_max_size : Z;
  img_ep : entry_point_info_t
}.

Definition with_state (v : image_state) (d : image_desc) : image_desc := {|
  img_state := v; copied_size := copied_size d; image_base := image_base d;
  image_size := image_size d; image_max_size := image_max_size d; img_ep := img_ep d |}.
Definition with_copied (v : Z) (d : image_desc) : image_desc := {|
  img_state := img_state d; copied_size := v; image_base := image_base d;
  image_size := image_size d; image_max_size := image_max_size d; img_ep := img_ep d |}.
Definition with_size (v : Z) (d : image_desc) : image_desc := {|
  img_state := img_state d; copied_size := copied_size d; image_base := image_base d;
  image_size := v; image_max_size := image_max_size d; img_ep := img_ep d |}.
Definition with_ep (v : entry_point_info_t) (d : image_desc) : image_desc := {|
  img_state := img_state d; copied_size := copied_size d; image_base := image_base d;
  image_size := image_size d; image_max_size := image_max_size d; img_ep := v |}.

Definition INVALID_IMAGE_ID : Z := 0xffffffff.
Definition SECURE : Z := 0.
Definition EP_SECURITY_MASK : Z := 0x21.
Definition EP_EXE_MASK : Z := 0x8.
Definition NON_EXECUTABLE : Z := 0x0.
Definition EXECUTABLE : Z := 0x8.
Definition GET_SECURITY_STATE (x : Z) : Z := Z.land x EP_SECURITY_MASK.
Definition EP_GET_EXE (x : Z) : Z := Z.land x EP_EXE_MASK.

Definition img_security (d : image_desc) : Z := GET_SECURITY_STATE (ep_attr (img_ep d)).
Definition img_exe (d : image_desc) : Z := EP_GET_EXE (ep_attr (img_ep d)).

Definition EPERM : Z := 1.
Definition ENOMEM : Z := 12.
Definition EAUTH : Z := 80.

(** What happened to the images, for the properties of sequences of calls:
    authentication, preparation for execution, return to the RESET state. *)
Inductive fwu_event : Set :=
  | F_authenticated (image_id base size : Z)
  | F_prepared (image_id : Z)
  | F_reset (image_id : Z).

Record fwu_state := {
  descs : gmap Z image_desc;
  bl1_fwu_loaded_ids : list Z;
  sec_exec_image_id : Z;
  next_world : Z;
  auth_img_flags : list Z;
  mem : Z -> Z;
  ftrace : list fwu_event
}.

Definition set_descs v s := {|
  descs := v; bl1_fwu_loaded_ids := bl1_fwu_loaded_ids s; sec_exec_image_id := sec_exec_image_id s;
  next_world := next_world s; auth_img_flags := auth_img_flags s; mem := mem s; ftrace := ftrace s |}.
Definition set_loaded v s := {|
  descs := descs s; bl1_fwu_loaded_ids := v; sec_exec_image_id := sec_exec_image_id s;
  next_world := next_world s; auth_img_flags := auth_img_flags s; mem := mem s; ftrace := ftrace s |}.
Definition set_sec_exec v s := {|
  descs := descs s; bl1_fwu_loaded_ids := bl1_fwu_loaded_ids s; sec_exec_image_id := v;
  next_world := next_world s; auth_img_flags := auth_img_flags s; mem := mem s; ftrace := ftrace s |}.
Definition set_world v s := {|
  descs := descs s; bl1_fwu_loaded_ids := bl1_fwu_loaded_ids s;
  sec_exec_image_id := sec_exec_image_id s; next_world := v;
  auth_img_flags := auth_img_flags s; mem := mem s; ftrace := ftrace s |}.
Definition set_auth_flags v s := {|
  descs := descs s; bl1_fwu_loaded_ids := bl1_fwu_loaded_ids s;
  sec_exec_image_id := sec_exec_image_id s; next_world := next_world s;
  auth_img_flags := v; mem := mem s; ftrace := ftrace s |}.
Definition set_mem v s := {|
  descs := descs s; bl1_fwu_loaded_ids := bl1_fwu_loaded_ids s;
  sec_exec_image_id := sec_exec_image_id s; next_world := next_world s;
  auth_img_flags := auth_img_flags s; mem := v; ftrace := ftrace s |}.
Definition set_ftrace v s := {|
  descs := descs s; bl1_fwu_loaded_ids := bl1_fwu_loaded_ids s;
  sec_exec_image_id := sec_exec_image_id s; next_world := next_world s;
  auth_img_flags := auth_img_flags s; mem := mem s; ftrace := v |}.

Abbreviation fwu A := (cmd fwu_state A).

(** ** The platform and the authentication module

    [auth_mod_verify_img] (drivers/auth) reads the image in memory, and may
    update the authentication flags. *)
Class FwuPlatform := {
  FWU_MAX_SIMULTANEOUS_IMAGES : nat;
  BL1_ENABLE_ASSERTIONS : bool;
  el2_implemented : bool;
  bl1_plat_mem_check : Z -> Z -> Z -> Z;
  bl1_plat_handle_pre_image_load : Z -> list fwu_event -> Z;
  bl1_plat_handle_post_image_load : Z -> list fwu_event -> Z;
  bl1_plat_set_ep_info : Z -> entry_point_info_t -> entry_point_info_t;
  auth_mod_verify_img : Z -> Z -> Z -> (Z -> Z) -> list Z -> Z * list Z
}.

(** [memcpy] and [zero_normalmem] on the address space. *)
Definition mem_copy (m : Z -> Z) (dst src n : Z) : Z -> Z := fun a =>
  if (dst <=? a) && (a <? dst + n) then m (src + (a - dst)) else m a.
Definition mem_zero (m : Z -> Z) (dst n : Z) : Z -> Z := fun a =>
  if (dst <=? a) && (a <? dst + n) then 0 else m a.

(** The first index of [x] in an array. *)
Fixpoint first_index (x : Z) (l : list Z) : option nat :=
  match l with
  | [] => None
  | y :: l' => if y =? x then Some 0%nat else S <$> first_index x l'
  end.

Section Definitions.
Context `{Plat : FwuPlatform}.

Definition fwu_assert (b : bool) : fwu unit := assert_ BL1_ENABLE_ASSERTIONS b.

Definition bl1_plat_get_image_desc (image_id : Z) : fwu (option image_desc) :=
  gets (fun s => descs s !! image_id).

(** A write through a descriptor pointer. *)
Definition update_desc (image_id : Z) (f : image_desc -> image_desc) : fwu unit :=
  modify (fun s => set_descs (alter f image_id (descs s)) s).

Definition log (e : fwu_event) : fwu unit := modify (fun s => set_ftrace (e :: ftrace s) s).

Definition bl1_fwu_add_loaded_id (image_id : Z) : fwu Z :=
  let! ids := gets bl1_fwu_loaded_ids in
  match first_index image_id ids with
  | Some _ => ret 0
  | None =>
      match first_index INVALID_IMAGE_ID ids with
      | Some i => modify (set_loaded (<[i := image_id]> ids)) ;; ret 0
      | None => ret 1
      end
  end.

Definition bl1_fwu_remove_loaded_id (image_id : Z) : fwu Z :=
  let! ids := gets bl1_fwu_loaded_ids in
  match first_index image_id ids with
  | Some i => modify (set_loaded (<[i := INVALID_IMAGE_ID]> ids)) ;; ret 0
  | None => ret 1
  end.

(** The loop of [bl1_fwu_image_check_overlaps] over the loaded images. *)
Fixpoint check_overlaps_loop (ids : list Z) (image_id checked_base checked_end : Z) : fwu Z :=
  match ids with
  | [] => ret 0
  | id :: ids' =>
      if (id =? INVALID_IMAGE_ID) || (id =? image_id) then
        check_overlaps_loop ids' image_id checked_base checked_end
      else
        let! od := bl1_plat_get_image_desc id in
        fwu_assert (match od with
                    | Some d => negb (bool_decide (img_state d = IMAGE_STATE_RESET))
                    | None => false
                    end) ;;
        let! d := deref od in
        if image_size d =? 0 then check_overlaps_loop ids' image_id checked_base checked_end
        else
          let base := image_base d in
          let end_ := u64 (u64 (base + image_size d) - 1) in
          fwu_assert (base <? end_) ;;
          if negb ((end_ <? checked_base) || (checked_end <? base)) then ret (- EPERM)
          else check_overlaps_loop ids' image_id checked_base checked_end
  end.

Definition bl1_fwu_image_check_overlaps (image_id : Z) : fwu Z :=
  let! od := bl1_plat_get_image_desc image_id in
  fwu_assert (bool_decide (is_Some od)) ;;
  let! checked := deref od in
  fwu_assert (negb (image_size checked =? 0)) ;;
  let base := image_base checked in
  let! ids := gets bl1_fwu_loaded_ids in
  check_overlaps_loop ids image_id base (u64 (u64 (base + image_size checked) - 1)).

(** *** IMAGE_COPY *)

(** The size of the image being copied: recorded by the first call, given by
    the caller in it. [inl] is an early return. *)
Definition copy_size (image_id image_size_arg : Z) (d : image_desc) : fwu (Z + Z) :=
  if bool_decide (img_state d = IMAGE_STATE_COPYING) then
    fwu_assert (negb (copied_size d =? 0)) ;;
    fwu_assert (negb (image_size d =? 0)) ;;
    fwu_assert (copied_size d <? image_size d) ;;
    ret (inr (image_size d))
  else if image_size_arg =? 0 then ret (inl (- ENOMEM))
  else if image_max_size d <? image_size_arg then ret (inl (- ENOMEM))
  else
    update_desc image_id (with_size image_size_arg) ;;
    let! overlap := bl1_fwu_image_check_overlaps image_id in
    if negb (overlap =? 0) then
      update_desc image_id (with_size 0) ;; ret (inl (- EPERM))
    else
      update_desc image_id (with_copied 0) ;; ret (inr image_size_arg).

(** From the clipping of the block to the end. *)
Definition copy_block (image_id image_src block_size flags total : Z) : fwu Z :=
  let! od := bl1_plat_get_image_desc image_id in
  let! d := deref od in
  let remaining := u32 (total - copied_size d) in
  let block_size := if remaining <? block_size then remaining else block_size in
  if negb (bl1_plat_mem_check image_src block_size flags =? 0) then ret (- ENOMEM)
  else
    let! added := bl1_fwu_add_loaded_id image_id in
    if negb (added =? 0) then ret (- ENOMEM)
    else
      let! pre :=
        (if bool_decide (img_state d = IMAGE_STATE_RESET)
         then gets (fun s => bl1_plat_handle_pre_image_load image_id (ftrace s)) else ret 0) in
      if negb (pre =? 0) then
        bl1_fwu_remove_loaded_id image_id ;; ret (- EPERM)
      else
        let dest_addr := u64 (image_base d + copied_size d) in
        modify (fun s => set_mem (mem_copy (mem s) dest_addr image_src block_size) s) ;;
        update_desc image_id (fun d => with_copied (u32 (copied_size d + block_size)) d) ;;
        update_desc image_id (with_state
          (if block_size =? remaining then IMAGE_STATE_COPIED else IMAGE_STATE_COPYING)) ;;
        ret 0.

Definition bl1_fwu_image_copy (image_id image_src block_size image_size flags : Z) : fwu Z :=
  let! od := bl1_plat_get_image_desc image_id in
  match od with
  | None => ret (- EPERM)
  | Some d =>
      if GET_SECURITY_STATE flags =? SECURE then ret (- EPERM)
      else if img_security d =? NON_SECURE then ret (- EPERM)
      else if negb (bool_decide (img_state d = IMAGE_STATE_RESET)) &&
              negb (bool_decide (img_state d = IMAGE_STATE_COPYING)) then ret (- EPERM)
      else if (image_src =? 0) || (block_size =? 0) || check_uptr_overflow image_src block_size
      then ret (- ENOMEM)
      else
        let! r := copy_size image_id image_size d in
        match r with
        | inl rc => ret rc
        | inr total => copy_block image_id image_src block_size flags total
        end
  end.

(** *** IMAGE_AUTH *)

Definition auth_allowed (d : image_desc) (flags : Z) : bool :=
  if GET_SECURITY_STATE flags =? SECURE then bool_decide (img_state d = IMAGE_STATE_RESET)
  else if img_security d =? SECURE then bool_decide (img_state d = IMAGE_STATE_COPIED)
  else bool_decide (img_state d = IMAGE_STATE_RESET).

(** The image to authenticate: where it was copied, or in place. *)
Definition auth_range (image_id image_src image_size_arg : Z) (d : image_desc) : fwu (Z + Z * Z) :=
  if bool_decide (img_state d = IMAGE_STATE_COPIED) then ret (inr (image_base d, image_size d))
  else if (image_src =? 0) || (image_size_arg =? 0) || check_uptr_overflow image_src image_size_arg
  then ret (inl (- ENOMEM))
  else if negb (bl1_plat_mem_check image_src image_size_arg (ep_attr (img_ep d)) =? 0)
  then ret (inl (- ENOMEM))
  else
    let! added := bl1_fwu_add_loaded_id image_id in
    if negb (added =? 0) then ret (inl (- ENOMEM))
    else
      update_desc image_id (with_size image_size_arg) ;;
      ret (inr (image_src, image_size_arg)).

Definition verify_img (image_id base size : Z) : fwu Z :=
  let! r := gets (fun s => auth_mod_verify_img image_id base size (mem s) (auth_img_flags s)) in
  modify (set_auth_flags (snd r)) ;;
  ret (fst r).

(** After a failed authentication. *)
Definition auth_failed (image_id base size : Z) (d : image_desc) : fwu Z :=
  when (bool_decide (img_state d = IMAGE_STATE_COPIED))
    (modify (fun s => set_mem (mem_zero (mem s) base size) s) ;;
     update_desc image_id (with_state IMAGE_STATE_RESET) ;;
     log (F_reset image_id)) ;;
  bl1_fwu_remove_loaded_id image_id ;;
  ret (- EAUTH).

Definition bl1_fwu_image_auth (image_id image_src image_size flags : Z) : fwu Z :=
  let! od := bl1_plat_get_image_desc image_id in
  match od with
  | None => ret (- EPERM)
  | Some d =>
      if negb (auth_allowed d flags) then ret (- EPERM)
      else
        let! r := auth_range image_id image_src image_size d in
        match r with
        | inl rc => ret rc
        | inr (base, size) =>
            let! result := verify_img image_id base size in
            if negb (result =? 0) then auth_failed image_id base size d
            else
              log (F_authenticated image_id base size) ;;
              update_desc image_id (with_state IMAGE_STATE_AUTHENTICATED) ;;
              let! post := gets (fun s => bl1_plat_handle_post_image_load image_id (ftrace s)) in
              when (negb (post =? 0)) (halt NoReturn) ;;
              ret 0
        end
  end.

(** *** IMAGE_EXECUTE *)

Definition with_spsr (v : Z) (ep : entry_point_info_t) : entry_point_info_t := {|
  ep_type := ep_type ep; ep_version := ep_version ep; ep_size := ep_size ep;
  ep_attr := ep_attr ep; ep_pc := ep_pc ep; ep_spsr := v; ep_args := ep_args ep |}.

(** The variant for a BL2 that does not run at EL3. The context switch
    ([cm_init_my_context], [cm_prepare_el3_exit]) is the choice of the next
    world; the check of [CTX_INCLUDE_AARCH32_REGS] against the processor is
    left out. *)
Definition bl1_prepare_next_image (image_id : Z) : fwu unit :=
  let! od := bl1_plat_get_image_desc image_id in
  fwu_assert (bool_decide (is_Some od)) ;;
  let! d := deref od in
  let security_state := img_security d in
  let mode := if negb (security_state =? SECURE) && el2_implemented then MODE_EL2 else MODE_EL1 in
  update_desc image_id (fun d => with_ep
    (with_spsr (u32 (SPSR_64 mode MODE_SP_ELX DISABLE_ALL_EXCEPTIONS)) (img_ep d)) d) ;;
  update_desc image_id (fun d => with_ep (bl1_plat_set_ep_info image_id (img_ep d)) d) ;;
  modify (set_world security_state) ;;
  log (F_prepared image_id) ;;
  update_desc image_id (with_state IMAGE_STATE_EXECUTED).

Definition execute_allowed (od : option image_desc) (flags : Z) : bool :=
  match od with
  | None => false
  | Some d =>
      negb (GET_SECURITY_STATE flags =? SECURE) && negb (img_security d =? NON_SECURE) &&
      negb (img_exe d =? NON_EXECUTABLE) && bool_decide (img_state d = IMAGE_STATE_AUTHENTICATED)
  end.

Definition bl1_fwu_image_execute (image_id flags : Z) : fwu Z :=
  let! od := bl1_plat_get_image_desc image_id in
  if negb (execute_allowed od flags) then ret (- EPERM)
  else
    bl1_prepare_next_image image_id ;;
    modify (set_sec_exec image_id) ;;
    ret 0.

(** *** IMAGE_RESUME *)

Definition resume_switch (image_id : Z) (expected next : image_state) (world image_param : Z)
    (d : image_desc) : fwu Z :=
  fwu_assert (bool_decide (img_state d = expected)) ;;
  update_desc image_id (with_state next) ;;
  modify (set_world world) ;;
  ret image_param.

Definition bl1_fwu_image_resume (image_param flags : Z) : fwu Z :=
  let caller_sec_state := GET_SECURITY_STATE flags in
  let! image_id := gets sec_exec_image_id in
  let! od := bl1_plat_get_image_desc image_id in
  if (caller_sec_state =? NON_SECURE) && bool_decide (od = None) then ret (- EPERM)
  else
    when (negb (caller_sec_state =? NON_SECURE)) (fwu_assert (bool_decide (is_Some od))) ;;
    let! d := deref od in
    fwu_assert (img_security d =? SECURE) ;;
    fwu_assert (img_exe d =? EXECUTABLE) ;;
    if caller_sec_state =? SECURE then
      resume_switch image_id IMAGE_STATE_EXECUTED IMAGE_STATE_INTERRUPTED NON_SECURE image_param d
    else
      resume_switch image_id IMAGE_STATE_INTERRUPTED IMAGE_STATE_EXECUTED SECURE image_param d.

(** *** SEC_IMAGE_DONE *)

Definition bl1_fwu_sec_image_done (flags : Z) : fwu Z :=
  if GET_SECURITY_STATE flags =? NON_SECURE then ret (- EPERM)
  else
    let! image_id := gets sec_exec_image_id in
    let! od := bl1_plat_get_image_desc image_id in
    fwu_assert (bool_decide (is_Some od)) ;;
    let! d := deref od in
    fwu_assert (img_security d =? SECURE) ;;
    fwu_assert (img_exe d =? EXECUTABLE) ;;
    fwu_assert (bool_decide (img_state d = IMAGE_STATE_EXECUTED)) ;;
    let! rc := bl1_fwu_remove_loaded_id image_id in
    fwu_assert (rc =? 0) ;;
    update_desc image_id (with_state IMAGE_STATE_RESET) ;;
    log (F_reset image_id) ;;
    modify (set_sec_exec INVALID_IMAGE_ID) ;;
    modify (set_world NON_SECURE) ;;
    ret 0.

(** *** UPDATE_DONE *)

Definition bl1_fwu_done {A} : fwu A := halt NoReturn.

(** *** IMAGE_RESET *)

Definition clear_auth_flag (image_id : Z) : fwu unit :=
  let! flags := gets auth_img_flags in
  deref (flags.[image_id]) ;;
  modify (set_auth_flags (zupdate flags image_id 0)).

Definition bl1_fwu_image_reset (image_id flags : Z) : fwu Z :=
  let! od := bl1_plat_get_image_desc image_id in
  match od with
  | None => ret (- EPERM)
  | Some d =>
      if GET_SECURITY_STATE flags =? SECURE then ret (- EPERM)
      else
        match img_state d with
        | IMAGE_STATE_RESET => ret 0
        | IMAGE_STATE_INTERRUPTED | IMAGE_STATE_AUTHENTICATED
        | IMAGE_STATE_COPIED | IMAGE_STATE_COPYING =>
            let! rc := bl1_fwu_remove_loaded_id image_id in
            if negb (rc =? 0) then ret (- EPERM)
            else
              when (negb (copied_size d =? 0))
                (fwu_assert (img_security d =? SECURE) ;;
                 modify (fun s => set_mem (mem_zero (mem s) (image_base d) (copied_size d)) s)) ;;
              update_desc image_id (fun d => with_copied 0 d) ;;
              update_desc image_id (with_size 0) ;;
              update_desc image_id (with_state IMAGE_STATE_RESET) ;;
              log (F_reset image_id) ;;
              clear_auth_flag image_id ;;
              ret 0
        | IMAGE_STATE_EXECUTED => fwu_assert false ;; ret 0
        end
  end.

(** *** The handler *)

Definition FWU_SMC_IMAGE_COPY : Z := 0x10.
Definition FWU_SMC_IMAGE_AUTH : Z := 0x11.
Definition FWU_SMC_IMAGE_EXECUTE : Z := 0x12.
Definition FWU_SMC_IMAGE_RESUME : Z := 0x13.
Definition FWU_SMC_SEC_IMAGE_DONE : Z := 0x14.
Definition FWU_SMC_UPDATE_DONE : Z := 0x15.
Definition FWU_SMC_IMAGE_RESET : Z := 0x16.
Definition FWU_SMC_UNK : Z := u64 (-1).

Definition bl1_fwu_smc_handler (smc_fid x1 x2 x3 x4 flags : Z) : fwu Z :=
  if smc_fid =? FWU_SMC_IMAGE_COPY then
    let! r := bl1_fwu_image_copy (u32 x1) x2 (u32 x3) (u32 x4) flags in ret (u64 r)
  else if smc_fid =? FWU_SMC_IMAGE_AUTH then
    let! r := bl1_fwu_image_auth (u32 x1) x2 (u32 x3) flags in ret (u64 r)
  else if smc_fid =? FWU_SMC_IMAGE_EXECUTE then
    let! r := bl1_fwu_image_execute (u32 x1) flags in ret (u64 r)
  else if smc_fid =? FWU_SMC_IMAGE_RESUME then
    let! r := bl1_fwu_image_resume x1 flags in ret (u64 r)
  else if smc_fid =? FWU_SMC_SEC_IMAGE_DONE then
    let! r := bl1_fwu_sec_image_done flags in ret (u64 r)
  else if smc_fid =? FWU_SMC_IMAGE_RESET then
    let! r := bl1_fwu_image_reset (u32 x1) flags in ret (u64 r)
  else if smc_fid =? FWU_SMC_UPDATE_DONE then bl1_fwu_done
  else fwu_assert false ;; ret FWU_SMC_UNK.

End Definitions.
