(* ===== verification/FwuState.v ===== *)
(** * BL1 firmware update: the invariant

    Well-formed states of the update state machine, and that every call made
    from the world that is running keeps them. *)

From stdpp Require Import gmap list_numbers.
From S2P Require Import Prelude PsciTypes PsciCommon Fwu.
#[local] Open Scope cmd_scope.

(** ** The table of loaded images *)

Lemma first_index_some x l i : first_index x l = Some i -> l !! i = Some x.
Proof.
  revert i. induction l as [|y l IH]; intros i; cbn; [done|].
  destruct (Z.eqb_spec y x) as [->|Hne]; [by intros [= <-]|].
  destruct (first_index x l) as [j|]; [|done]. intros [= <-]. cbn. by apply IH.
Qed.

Lemma first_index_none x l : first_index x l = None -> x ∉ l.
Proof.
  induction l as [|y l IH]; cbn; [intros _; apply not_elem_of_nil|].
  destruct (Z.eqb_spec y x) as [->|Hne]; [done|].
  destruct (first_index x l); [done|]. intros _. apply not_elem_of_cons. auto.
Qed.

Section Loaded.
Context `{Plat : FwuPlatform}.

(** The identifiers in the table are those of [S], each once. *)
Record loaded_ok (l : list Z) (S : Z -> Prop) : Prop := {
  lo_len : length l = FWU_MAX_SIMULTANEOUS_IMAGES;
  lo_once : forall i j x, l !! i = Some x -> l !! j = Some x -> x <> INVALID_IMAGE_ID -> i = j;
  lo_mem : forall x, x <> INVALID_IMAGE_ID -> x ∈ l <-> S x
}.

Lemma loaded_ok_ext l (S S' : Z -> Prop) :
  (forall x, x <> INVALID_IMAGE_ID -> S x <-> S' x) -> loaded_ok l S -> loaded_ok l S'.
Proof. intros HS [Hlen Honce Hmem]. split; try done. intros x Hx. by rewrite Hmem, HS. Qed.

Lemma loaded_ok_add l S x i :
  loaded_ok l S -> x <> INVALID_IMAGE_ID -> ~ S x -> l !! i = Some INVALID_IMAGE_ID ->
  loaded_ok (<[i := x]> l) (fun y => S y \/ y = x).
Proof.
  intros [Hlen Honce Hmem] Hx Hnot Hi. pose proof (lookup_lt_Some _ _ _ Hi) as Hlt. split.
  - by rewrite length_insert.
  - assert (forall j, l !! j = Some x -> False) as Hno.
    { intros j Hj. apply Hnot, Hmem; [done|]. apply list_elem_of_lookup. eauto. }
    intros j k y Hj Hk Hy. rewrite list_lookup_insert in Hj, Hk.
    repeat case_decide; naive_solver.
  - intros y Hy. rewrite <- Hmem by done. rewrite !list_elem_of_lookup. split.
    + intros [j Hj]. rewrite list_lookup_insert in Hj. case_decide; naive_solver.
    + intros [[j Hj]| ->].
      * exists j. rewrite list_lookup_insert_ne; [done|]. intros <-. congruence.
      * exists i. by apply list_lookup_insert_eq.
Qed.

Lemma loaded_ok_remove l S x i :
  loaded_ok l S -> l !! i = Some x ->
  loaded_ok (<[i := INVALID_IMAGE_ID]> l) (fun y => S y /\ y <> x).
Proof.
  intros [Hlen Honce Hmem] Hi. pose proof (lookup_lt_Some _ _ _ Hi) as Hlt. split.
  - by rewrite length_insert.
  - intros j k y Hj Hk Hy. rewrite list_lookup_insert in Hj, Hk.
    repeat case_decide; naive_solver.
  - intros y Hy. rewrite <- Hmem by done. rewrite !list_elem_of_lookup. split.
    + intros [j Hj]. rewrite list_lookup_insert in Hj. case_decide; [naive_solver|].
      split; [eauto|]. intros ->. assert (j = i) by eauto. naive_solver.
    + intros [[j Hj] Hne]. exists j. rewrite list_lookup_insert_ne; [done|]. intros <-. congruence.
Qed.

(** The two operations on the table, as rules. *)
Lemma wp_add_loaded s S x (Q : Z -> fwu_state -> Prop) E :
  loaded_ok (bl1_fwu_loaded_ids s) S -> x <> INVALID_IMAGE_ID ->
  (forall l, loaded_ok l (fun y => S y \/ y = x) -> Q 0 (set_loaded l s)) ->
  Q 1 s ->
  wp (bl1_fwu_add_loaded_id x) Q E s.
Proof.
  intros Hl Hx Hok Hfull. unfold bl1_fwu_add_loaded_id. wp_steps.
  destruct (first_index x _) as [i|] eqn:Hi.
  - apply first_index_some in Hi. apply wp_ret. specialize (Hok (bl1_fwu_loaded_ids s)).
    replace (set_loaded (bl1_fwu_loaded_ids s) s) with s in Hok by (by destruct s).
    apply Hok. eapply loaded_ok_ext; [|exact Hl]. intros y Hy. split; [auto|].
    intros [?| ->]; [done|]. apply (lo_mem _ _ Hl); [done|]. apply list_elem_of_lookup. eauto.
  - destruct (first_index INVALID_IMAGE_ID _) as [i|] eqn:Hinv; [|by apply wp_ret].
    apply first_index_some in Hinv. apply first_index_none in Hi. wp_steps. apply Hok.
    apply loaded_ok_add; try done. by rewrite <- (lo_mem _ _ Hl).
Qed.

Lemma wp_remove_loaded s S x (Q : Z -> fwu_state -> Prop) E :
  loaded_ok (bl1_fwu_loaded_ids s) S -> x <> INVALID_IMAGE_ID ->
  (forall l, S x -> loaded_ok l (fun y => S y /\ y <> x) -> Q 0 (set_loaded l s)) ->
  (~ S x -> Q 1 s) ->
  wp (bl1_fwu_remove_loaded_id x) Q E s.
Proof.
  intros Hl Hx Hok Hno. unfold bl1_fwu_remove_loaded_id. wp_steps.
  destruct (first_index x _) as [i|] eqn:Hi.
  - apply first_index_some in Hi. wp_steps. apply Hok.
    + apply (lo_mem _ _ Hl); [done|]. apply list_elem_of_lookup. eauto.
    + by apply loaded_ok_remove.
  - apply first_index_none in Hi. apply wp_ret, Hno. by rewrite <- (lo_mem _ _ Hl).
Qed.
End Loaded.

(** ** The invariant *)

(** Authenticated since the image last returned to the RESET state. *)
Definition authed (id : Z) (tr : list fwu_event) : Prop :=
  exists u b n v, tr = u ++ F_authenticated id b n :: v /\ F_reset id ∉ u.

Lemma authed_cons id e tr : e <> F_reset id -> authed id tr -> authed id (e :: tr).
Proof.
  intros He (u & b & n & v & -> & Hu). exists (e :: u), b, n, v. split; [done|].
  apply not_elem_of_cons. split; [congruence|done].
Qed.

Lemma authed_now id b n tr : authed id (F_authenticated id b n :: tr).
Proof. exists [], b, n, tr. split; [done|]. apply not_elem_of_nil. Qed.

Section Invariant.
Context `{Plat : FwuPlatform}.

(** An image that is being, or has been, copied to its destination. *)
Definition copying (d : image_desc) : Prop :=
  img_state d = IMAGE_STATE_COPYING \/ img_state d = IMAGE_STATE_COPIED.

(** An image that has passed authentication. *)
Definition trusted (d : image_desc) : Prop :=
  img_state d = IMAGE_STATE_AUTHENTICATED \/ img_state d = IMAGE_STATE_EXECUTED \/
  img_state d = IMAGE_STATE_INTERRUPTED.

(** The platform's hook before the execution of an image keeps the attributes of
    the entry point, as all implementations of the repository do: the default
    does nothing, and those of Juno, HiKey and HiKey960 set arguments and the
    SPSR. The hook may replace the whole entry point, so that what depends on the
    attributes holds under this condition only. *)
Definition attrs_kept : Prop := forall id ep, ep_attr (bl1_plat_set_ep_info id ep) = ep_attr ep.

(** What the platform fixes about an image: its destination lies in the
    address space, its identifier has an authentication flag. *)
Record desc_static (nflags : nat) (id : Z) (d : image_desc) : Prop := {
  ds_id : 0 <= id < Z.of_nat nflags /\ id <> INVALID_IMAGE_ID;
  ds_base : 0 <= image_base d /\ 0 <= image_max_size d < 2 ^ 32 /\
    image_base d + image_max_size d < 2 ^ 64;
  ds_sec : attrs_kept -> img_security d = SECURE \/ img_security d = NON_SECURE
}.

Record desc_ok (tr : list fwu_event) (id : Z) (d : image_desc) : Prop := {
  do_sizes : 0 <= copied_size d < 2 ^ 32 /\ 0 <= image_size d < 2 ^ 32;
  do_copying : img_state d = IMAGE_STATE_COPYING ->
    0 < copied_size d < image_size d /\ image_size d <= image_max_size d;
  do_copied : img_state d = IMAGE_STATE_COPIED ->
    0 < image_size d /\ copied_size d = image_size d /\ image_size d <= image_max_size d;
  do_secure : attrs_kept -> copied_size d <> 0 -> img_security d = SECURE;
  do_trusted : trusted d -> authed id tr
}.

Definition disjoint_images (d d' : image_desc) : Prop :=
  image_base d + image_size d <= image_base d' \/ image_base d' + image_size d' <= image_base d.

Definition in_use (m : gmap Z image_desc) (id : Z) : Prop :=
  exists d, m !! id = Some d /\ img_state d <> IMAGE_STATE_RESET.

(** The security state of the caller and the image in execution agree. *)
Record world_ok (s : fwu_state) : Prop := {
  wo_world : next_world s = SECURE \/ next_world s = NON_SECURE;
  wo_exec : forall id d, descs s !! id = Some d -> img_state d = IMAGE_STATE_EXECUTED ->
    next_world s = SECURE /\ id = sec_exec_image_id s;
  wo_secure : next_world s = SECURE -> exists d, descs s !! sec_exec_image_id s = Some d /\
    img_state d = IMAGE_STATE_EXECUTED /\ img_security d = SECURE /\ img_exe d = EXECUTABLE
}.

Record finv (s : fwu_state) : Prop := {
  fi_static : forall id d, descs s !! id = Some d -> desc_static (length (auth_img_flags s)) id d;
  fi_desc : forall id d, descs s !! id = Some d -> desc_ok (ftrace s) id d;
  fi_loaded : loaded_ok (bl1_fwu_loaded_ids s) (in_use (descs s));
  fi_disjoint : forall id id' d d', id <> id' -> descs s !! id = Some d -> descs s !! id' = Some d' ->
    copying d -> copying d' -> disjoint_images d d';
  fi_prepared : forall id t1 t2, ftrace s = t1 ++ F_prepared id :: t2 -> authed id t2;
  fi_world : attrs_kept -> world_ok s
}.

(** The authentication module keeps the size of its table. *)
Class FwuPlatformOk : Prop := {
  verify_flags : forall id base size m fl,
    length (snd (auth_mod_verify_img id base size m fl)) = length fl
}.

(** A copy inside the destination does not wrap around. *)
Lemma desc_dest n id d tr k :
  desc_static n id d -> desc_ok tr id d -> 0 <= k <= image_max_size d ->
  u64 (image_base d + k) = image_base d + k.
Proof. intros [_ Hb _] _ Hk. apply u64_small. lia. Qed.

(** Rules for descriptors. *)
Lemma wp_update_desc id f (Q : unit -> fwu_state -> Prop) E s :
  Q tt (set_descs (alter f id (descs s)) s) -> wp (update_desc id f) Q E s.
Proof. done. Qed.

Lemma wp_fwu_assert b (Q : unit -> fwu_state -> Prop) s :
  Q tt s -> wp (fwu_assert b) Q (fun _ _ => True) s.
Proof. intros HQ. unfold wp, fwu_assert, assert_. by destruct (BL1_ENABLE_ASSERTIONS && negb b). Qed.

(** *** Replacing one descriptor *)

Lemma alter_insert (m : gmap Z image_desc) id f d :
  m !! id = Some d -> alter f id m = <[id := f d]> m.
Proof.
  intros Hd. apply map_eq. intros j. rewrite lookup_insert. case_decide; subst.
  - by rewrite lookup_alter_eq, Hd.
  - by rewrite lookup_alter_ne.
Qed.

(** The invariant after the descriptor of [id] has become [d'], with a new
    table of loaded images and a longer trace. *)
Lemma finv_replace s s' id d d' :
  finv s -> descs s !! id = Some d -> descs s' = <[id := d']> (descs s) ->
  length (auth_img_flags s') = length (auth_img_flags s) ->
  image_base d' = image_base d -> image_max_size d' = image_max_size d ->
  (attrs_kept -> img_security d' = img_security d) ->
  (forall j dj, j <> id -> descs s !! j = Some dj -> trusted dj -> authed j (ftrace s) ->
     authed j (ftrace s')) ->
  desc_ok (ftrace s') id d' ->
  loaded_ok (bl1_fwu_loaded_ids s') (in_use (<[id := d']> (descs s))) ->
  (copying d' -> forall j dj, j <> id -> descs s !! j = Some dj -> copying dj -> disjoint_images d' dj) ->
  (forall j t1 t2, ftrace s' = t1 ++ F_prepared j :: t2 -> authed j t2) ->
  (attrs_kept -> world_ok s') ->
  finv s'.
Proof.
  intros [Hst Hdesc Hld Hdis Hprep Hw] Hd Hm Hfl Hb Hmx Hsec Htr Hok Hl Hcop Hprep' Hw'.
  assert (forall j dj, descs s' !! j = Some dj -> (j = id /\ dj = d') \/ (j <> id /\ descs s !! j = Some dj))
    as Hlk.
  { intros j dj. rewrite Hm, lookup_insert. case_decide; naive_solver. }
  split.
  - intros j dj [[-> ->]|[Hne Hj]]%Hlk; rewrite Hfl; [|by apply Hst].
    destruct (Hst id d Hd) as [Hid Hbase Hs]. split; [done| |].
    + by rewrite Hb, Hmx.
    + intros Hk. by rewrite Hsec; [apply Hs|].
  - intros j dj [[-> ->]|[Hne Hj]]%Hlk; [done|].
    destruct (Hdesc j dj Hj) as [Hsz Hc1 Hc2 Hs Ht]. split; try done.
    intros Htj. eapply Htr; eauto.
  - by rewrite Hm.
  - intros j j' dj dj' Hne Hj Hj' Hc Hc'. apply Hlk in Hj as [[-> ->]|[Hn Hj]];
      apply Hlk in Hj' as [[-> ->]|[Hn' Hj']]; [done| | |].
    + by eapply Hcop.
    + assert (disjoint_images d' dj) as Hdd by (by eapply Hcop).
      unfold disjoint_images in *. tauto.
    + by eapply (Hdis j j').
  - done.
  - done.
Qed.
End Invariant.
