(* ===== verification/FwuInv.v ===== *)
(** * BL1 firmware update: every call keeps the invariant *)

From stdpp Require Import gmap list_numbers.
From S2P Require Import Prelude PsciTypes PsciCommon Fwu FwuState.
#[local] Open Scope cmd_scope.

Section Calls.
Context `{Plat : FwuPlatform}.

(** Updates that the invariant does not see. *)
Lemma finv_same s s' :
  descs s' = descs s -> ftrace s' = ftrace s -> next_world s' = next_world s ->
  sec_exec_image_id s' = sec_exec_image_id s ->
  length (auth_img_flags s') = length (auth_img_flags s) ->
  loaded_ok (bl1_fwu_loaded_ids s') (in_use (descs s)) -> finv s -> finv s'.
Proof.
  intros Hd Ht Hw Hx Hf Hl [Hst Hdesc _ Hdis Hprep Hwo].
  split; rewrite ?Hd, ?Ht, ?Hf; try done. intros [H1 H2 H3]%Hwo. split; rewrite ?Hd, ?Hw, ?Hx; done.
Qed.

(** Replacing a descriptor by one in the same state with other sizes. *)
Lemma in_use_insert m id d d' j :
  m !! id = Some d -> (img_state d' = IMAGE_STATE_RESET <-> img_state d = IMAGE_STATE_RESET) ->
  in_use (<[id := d']> m) j <-> in_use m j.
Proof.
  intros Hd Hs. unfold in_use. setoid_rewrite lookup_insert. case_decide; subst; [|done].
  split; intros (dj & Hj & Hne); [exists d|exists d'].
  - split; [done|]. injection Hj as <-. tauto.
  - split; [done|]. assert (dj = d) as -> by congruence. tauto.
Qed.

Lemma in_use_start m id d' j :
  img_state d' <> IMAGE_STATE_RESET -> in_use (<[id := d']> m) j <-> in_use m j \/ j = id.
Proof.
  intros Hs. unfold in_use. setoid_rewrite lookup_insert. case_decide; subst.
  - split; [auto|]. intros _. eauto.
  - split; [auto|]. intros [?|?]; [done|congruence].
Qed.

Lemma in_use_stop m id d' j :
  img_state d' = IMAGE_STATE_RESET -> in_use (<[id := d']> m) j <-> in_use m j /\ j <> id.
Proof.
  intros Hs. unfold in_use. setoid_rewrite lookup_insert. case_decide; subst.
  - split; [intros (dj & [= <-] & ?); done|]. intros [_ ?]. done.
  - split; [intros ?; split; [done|congruence]|]. by intros [? _].
Qed.

Lemma not_in_use s id d :
  descs s !! id = Some d -> img_state d = IMAGE_STATE_RESET -> ~ in_use (descs s) id.
Proof. intros Hd Hr (d' & Hd' & Hne). congruence. Qed.

(** The world is not affected by an image that does not execute. *)
Lemma world_ok_replace s s' id d d' :
  world_ok s -> descs s !! id = Some d -> descs s' = <[id := d']> (descs s) ->
  next_world s' = next_world s -> sec_exec_image_id s' = sec_exec_image_id s ->
  img_state d <> IMAGE_STATE_EXECUTED -> img_state d' <> IMAGE_STATE_EXECUTED -> world_ok s'.
Proof.
  intros [H1 H2 H3] Hd Hm Hw Hx Hne Hne'. split; rewrite ?Hw, ?Hx, ?Hm; [done| |].
  - intros j dj. rewrite lookup_insert. case_decide; [naive_solver|]. apply H2.
  - intros Hs. destruct (H3 Hs) as (dx & Hdx & Hex & Hsec & Hexe).
    exists dx. rewrite lookup_insert. case_decide; [congruence|done].
Qed.

(** A descriptor in the RESET state whose sizes change. *)
Lemma finv_reset_sizes s id d d' :
  finv s -> descs s !! id = Some d -> img_state d = IMAGE_STATE_RESET ->
  img_state d' = IMAGE_STATE_RESET -> image_base d' = image_base d ->
  image_max_size d' = image_max_size d -> img_ep d' = img_ep d ->
  0 <= copied_size d' < 2 ^ 32 -> 0 <= image_size d' < 2 ^ 32 ->
  (copied_size d' = 0 \/ copied_size d' = copied_size d) ->
  finv (set_descs (<[id := d']> (descs s)) s).
Proof.
  intros Hinv Hd Hr Hr' Hb Hm He Hc Hsz Hcd. pose proof (fi_desc _ Hinv id d Hd) as Hok.
  assert (img_security d' = img_security d) as Hsec by (unfold img_security; by rewrite He).
  eapply finv_replace with (s := s); try done.
  - split; try done; try congruence.
    + intros Hk Hne. rewrite Hsec. apply (do_secure _ _ _ Hok Hk). destruct Hcd; congruence.
    + unfold trusted. rewrite Hr'. intros [?|[?|?]]; done.
  - eapply loaded_ok_ext; [|apply (fi_loaded _ Hinv)]. intros j _. symmetry.
    eapply in_use_insert; [exact Hd|tauto].
  - unfold copying. rewrite Hr'. intros [?|?]; done.
  - apply (fi_prepared _ Hinv).
  - intros Hk. eapply world_ok_replace; [apply (fi_world _ Hinv Hk)|exact Hd|done..| |]; congruence.
Qed.

(** ** IMAGE_COPY *)

Lemma wp_check_overlaps_loop ids id cb ce s :
  wp (check_overlaps_loop ids id cb ce)
    (fun r s' => s' = s /\ (r = 0 -> forall j dj, j ∈ ids -> j <> INVALID_IMAGE_ID -> j <> id ->
       descs s !! j = Some dj -> image_size dj <> 0 ->
       u64 (u64 (image_base dj + image_size dj) - 1) < cb \/ ce < image_base dj))
    (fun _ _ => True) s.
Proof.
  induction ids as [|k ids IH]; cbn [check_overlaps_loop].
  { apply wp_ret. split; [done|]. intros _ j dj Hj. by apply not_elem_of_nil in Hj. }
  destruct ((k =? INVALID_IMAGE_ID) || (k =? id)) eqn:Hk.
  { eapply wp_mono; [exact IH| |done]. intros r s' [-> Hr]. split; [done|].
    intros Hr0 j dj Hj. apply elem_of_cons in Hj as [->|Hj]; [|by apply Hr].
    apply orb_true_iff in Hk as [?%Z.eqb_eq|?%Z.eqb_eq]; intros; congruence. }
  unfold bl1_plat_get_image_desc. wp_steps. apply wp_fwu_assert.
  wp_step. destruct (descs s !! k) as [d|] eqn:Hd; [|done]. apply wp_ret.
  destruct (Z.eqb_spec (image_size d) 0) as [H0|H0].
  { eapply wp_mono; [exact IH| |done]. intros r s' [-> Hr]. split; [done|].
    intros Hr0 j dj Hj. apply elem_of_cons in Hj as [->|Hj]; [|by apply Hr].
    intros; congruence. }
  cbv zeta. wp_step. apply wp_fwu_assert.
  destruct ((_ <? cb) || (ce <? _)) eqn:Hov; cbn [negb]; [|by apply wp_ret].
  eapply wp_mono; [exact IH| |done]. intros r s' [-> Hr]. split; [done|].
  intros Hr0 j dj Hj. apply elem_of_cons in Hj as [->|Hj]; [|by apply Hr].
  intros _ _ Hdj _. assert (dj = d) as -> by congruence.
  apply orb_true_iff in Hov as [?%Z.ltb_lt|?%Z.ltb_lt]; auto.
Qed.

(** What the first part of a copy establishes. *)
Record copy_ready (s : fwu_state) (id total : Z) (d1 : image_desc) : Prop := {
  cr_desc : descs s !! id = Some d1;
  cr_total : image_size d1 = total /\ 0 < total <= image_max_size d1;
  cr_copied : 0 <= copied_size d1 < total;
  cr_secure : attrs_kept -> img_security d1 = SECURE;
  cr_state : img_state d1 = IMAGE_STATE_COPYING \/
    (img_state d1 = IMAGE_STATE_RESET /\ copied_size d1 = 0 /\
     forall j dj, j <> id -> descs s !! j = Some dj -> copying dj -> disjoint_images d1 dj)
}.

(** The check of overlaps gives disjoint images. *)
Lemma overlaps_disjoint s id d d1 :
  finv s -> descs s !! id = Some d -> image_base d1 = image_base d ->
  0 < image_size d1 <= image_max_size d ->
  (forall j dj, j ∈ bl1_fwu_loaded_ids s -> j <> INVALID_IMAGE_ID -> j <> id ->
     descs s !! j = Some dj -> image_size dj <> 0 ->
     u64 (u64 (image_base dj + image_size dj) - 1) < image_base d1 \/
     u64 (u64 (image_base d1 + image_size d1) - 1) < image_base dj) ->
  forall j dj, j <> id -> descs s !! j = Some dj -> copying dj -> disjoint_images d1 dj.
Proof.
  intros Hinv Hd Hb Hsz Hov j dj Hne Hj Hc.
  destruct (fi_static _ Hinv id d Hd) as [_ Hbase _].
  destruct (fi_static _ Hinv j dj Hj) as [[_ Hjn] Hbj _].
  pose proof (fi_desc _ Hinv j dj Hj) as Hok.
  assert (0 < image_size dj <= image_max_size dj) as Hszj.
  { destruct Hc as [Hc|Hc]; [apply (do_copying _ _ _ Hok) in Hc|apply (do_copied _ _ _ Hok) in Hc]; lia. }
  assert (j ∈ bl1_fwu_loaded_ids s) as Hin.
  { apply (lo_mem _ _ (fi_loaded _ Hinv)); [done|]. exists dj. split; [done|].
    destruct Hc as [Hc|Hc]; rewrite Hc; done. }
  specialize (Hov j dj Hin Hjn Hne Hj ltac:(lia)). unfold disjoint_images.
  rewrite !u64_small in Hov by (rewrite ?u64_small; lia). lia.
Qed.

Lemma wp_copy_size s id arg d (Q : Z + Z -> fwu_state -> Prop) :
  finv s -> descs s !! id = Some d -> 0 <= arg < 2 ^ 32 ->
  img_state d = IMAGE_STATE_RESET \/ img_state d = IMAGE_STATE_COPYING ->
  (attrs_kept -> img_security d = SECURE) ->
  (forall rc s', finv s' -> rc <> 0 -> mem s' = mem s -> Q (inl rc) s') ->
  (forall total s' d1, finv s' -> copy_ready s' id total d1 -> mem s' = mem s ->
     image_base d1 = image_base d -> image_max_size d1 = image_max_size d ->
     copied_size d1 = (if decide (img_state d = IMAGE_STATE_COPYING) then copied_size d else 0) ->
     Q (inr total) s') ->
  wp (copy_size id arg d) Q (fun _ _ => True) s.
Proof.
  intros Hinv Hd Harg Hst Hsec Hinl Hinr. unfold copy_size.
  pose proof (fi_desc _ Hinv id d Hd) as Hok.
  case_bool_decide as Hcop.
  { do 3 (apply wp_bind, wp_fwu_assert). apply wp_ret. apply (Hinr _ _ d); try done.
    - pose proof (do_copying _ _ _ Hok Hcop). split; try done; try lia. by left.
    - by rewrite decide_True. }
  assert (img_state d = IMAGE_STATE_RESET) as Hr by tauto.
  destruct (Z.eqb_spec arg 0) as [|Ha0]; [by apply wp_ret, Hinl|].
  destruct (Z.ltb_spec (image_max_size d) arg) as [|Hmax]; [by apply wp_ret, Hinl|].
  wp_step. apply wp_update_desc. rewrite (alter_insert _ _ _ _ Hd).
  set (d1 := with_size arg d). set (s1 := set_descs (<[id := d1]> (descs s)) s).
  assert (descs s1 !! id = Some d1) as Hd1 by apply lookup_insert_eq.
  pose proof (do_sizes _ _ _ Hok) as Hsz.
  assert (finv s1) as Hinv1 by (apply finv_reset_sizes with (d := d); try done; try (cbn; lia); by right).
  wp_step. unfold bl1_fwu_image_check_overlaps, bl1_plat_get_image_desc.
  wp_steps. apply wp_fwu_assert. wp_step. rewrite Hd1. apply wp_ret.
  wp_step. apply wp_fwu_assert. wp_steps. eapply wp_mono; [apply wp_check_overlaps_loop| |done].
  intros r s' [-> Hr0]. destruct (Z.eqb_spec r 0) as [->|]; cbn [negb].
  - wp_steps. apply wp_update_desc. wp_steps. rewrite (alter_insert _ _ _ _ Hd1).
    set (d2 := with_copied 0 d1).
    apply (Hinr _ _ d2); try done.
    + apply finv_reset_sizes with (d := d1); try done; try (cbn; lia); by left.
    + split; try done; [apply lookup_insert_eq|cbn; lia|cbn; lia|]. right. split_and!; try done.
      intros j dj Hne Hj Hc. cbn in Hj. rewrite lookup_insert_ne in Hj by done.
      refine (overlaps_disjoint s1 id d1 d2 Hinv1 Hd1 eq_refl _ (Hr0 eq_refl) j dj Hne Hj Hc).
      cbn. lia.
    + by rewrite decide_False.
  - wp_steps. apply wp_update_desc. wp_steps. apply Hinl; try done.
    rewrite (alter_insert _ _ _ _ Hd1). apply finv_reset_sizes with (d := d1); try done; try (cbn; lia); by right.
Qed.

(** The second part: one block, from a prepared descriptor. *)
Lemma finv_block s id d1 total l blk :
  finv s -> copy_ready s id total d1 -> 0 < blk <= total - copied_size d1 ->
  loaded_ok l (fun y => in_use (descs s) y \/ y = id) ->
  let d' := with_state (if blk =? total - copied_size d1 then IMAGE_STATE_COPIED else IMAGE_STATE_COPYING)
              (with_copied (copied_size d1 + blk) d1) in
  forall m, finv (set_descs (<[id := d']> (descs s)) (set_mem m (set_loaded l s))).
Proof.
  intros Hinv [Hd [Htot Hmax] Hcop Hsec Hst] Hblk Hl d' m.
  pose proof (fi_desc _ Hinv id d1 Hd) as Hok. pose proof (do_sizes _ _ _ Hok) as Hsz.
  assert (img_state d' = IMAGE_STATE_COPIED /\ copied_size d1 + blk = total \/
          img_state d' = IMAGE_STATE_COPYING /\ copied_size d1 + blk < total) as Hd'.
  { unfold d'. cbn. destruct (Z.eqb_spec blk (total - copied_size d1)); [left|right]; split; try done; lia. }
  assert (image_size d' = total /\ image_base d' = image_base d1) as [Hs' Hb'] by done.
  eapply finv_replace with (s := s); try done.
  - split; try done.
    + unfold d'. cbn. lia.
    + intros Hc. unfold d'. cbn. destruct Hd' as [[? _]|[_ ?]]; [congruence|]. lia.
    + intros Hc. unfold d'. cbn. destruct Hd' as [[_ ?]|[? _]]; [|congruence]. lia.
    + intros Hk _. by apply Hsec.
    + unfold trusted. intros [?|[?|?]]; destruct Hd' as [[? _]|[? _]]; congruence.
  - eapply loaded_ok_ext; [|exact Hl]. intros j _. cbn. symmetry. apply in_use_start.
    destruct Hd' as [[-> _]|[-> _]]; done.
  - intros Hc j dj Hne Hj Hcj. unfold disjoint_images. rewrite Hs', Hb', <- Htot.
    destruct Hst as [Hc1|(_ & _ & Hdis)].
    + apply (fi_disjoint _ Hinv id j d1 dj); try done. by left.
    + by apply (Hdis j dj).
  - apply (fi_prepared _ Hinv).
  - intros Hk. eapply world_ok_replace; [apply (fi_world _ Hinv Hk)|exact Hd|done..| |].
    + destruct Hst as [->|[-> _]]; done.
    + destruct Hd' as [[-> _]|[-> _]]; done.
Qed.

Lemma wp_copy_block s id src blk flags total d1 :
  finv s -> copy_ready s id total d1 -> 0 < blk ->
  wp (copy_block id src blk flags total) (fun _ s' => finv s') (fun _ _ => True) s.
Proof.
  intros Hinv Hcr Hblk. destruct Hcr as [Hd [Htot Hmax] Hcop Hsec Hst] eqn:Hcr'. clear Hcr'.
  pose proof (fi_desc _ Hinv id d1 Hd) as Hok. pose proof (do_sizes _ _ _ Hok) as Hsz.
  destruct (fi_static _ Hinv id d1 Hd) as [[_ Hid] Hbase _].
  unfold copy_block, bl1_plat_get_image_desc. wp_steps. rewrite Hd. apply wp_ret.
  rewrite (u32_small (total - copied_size d1)) by lia. cbv zeta.
  set (rem := total - copied_size d1). set (blk' := if rem <? blk then rem else blk).
  assert (0 < blk' <= rem) as Hblk'.
  { unfold blk', rem. destruct (Z.ltb_spec (total - copied_size d1) blk); lia. }
  destruct (_ =? 0); cbn [negb]; [|by apply wp_ret].
  wp_step. eapply wp_add_loaded; [apply (fi_loaded _ Hinv)|done| |by apply wp_ret].
  intros l Hl. cbn [Z.eqb negb]. change (negb (0 =? 0)) with false. cbv iota.
  wp_step. eapply wp_mono with (Q := fun pre s' => s' = set_loaded l s /\
    (pre <> 0 -> img_state d1 = IMAGE_STATE_RESET)) (E := fun _ _ => True).
  - case_bool_decide; [by apply wp_gets|]. apply wp_ret. split; [done|]. intros ?. lia.
  - intros pre s' [-> Hpre]. destruct (Z.eqb_spec pre 0) as [->|Hne]; cbn [negb].
    + wp_steps. apply wp_update_desc. wp_steps. apply wp_update_desc. apply wp_ret.
      cbn [descs set_mem set_descs set_loaded].
      rewrite (alter_insert _ _ _ _ Hd).
      rewrite (alter_insert _ id _ (with_copied (u32 (copied_size d1 + blk')) d1)) by apply lookup_insert_eq.
      rewrite insert_insert_eq, (u32_small (copied_size d1 + blk')) by lia.
      exact (finv_block s id d1 total l blk' Hinv Hcr Hblk' Hl _).
    + wp_step. eapply wp_remove_loaded; [exact Hl|done| |].
      * intros l' _ Hl'. apply wp_ret. eapply (finv_same s); [done..| |exact Hinv].
        eapply loaded_ok_ext; [|exact Hl']. cbn. intros y Hy.
        pose proof (not_in_use _ _ _ Hd (Hpre Hne)). split; [tauto|]. intros Hu. split; [by left|].
        intros ->. done.
      * intros Hno. destruct Hno. by right.
  - done.
Qed.

Lemma wp_image_copy s id src blk size flags :
  finv s -> 0 <= blk < 2 ^ 32 -> 0 <= size < 2 ^ 32 ->
  wp (bl1_fwu_image_copy id src blk size flags) (fun _ s' => finv s') (fun _ _ => True) s.
Proof.
  intros Hinv Hblk Hsize. unfold bl1_fwu_image_copy, bl1_plat_get_image_desc. wp_steps.
  destruct (descs s !! id) as [d|] eqn:Hd; [|by apply wp_ret].
  destruct (_ =? SECURE); [by apply wp_ret|].
  destruct (Z.eqb_spec (img_security d) NON_SECURE) as [|Hsec]; [by apply wp_ret|].
  destruct (_ && _) eqn:Hst; [by apply wp_ret|].
  destruct (_ || _) eqn:Harg; [by apply wp_ret|].
  apply orb_false_iff in Harg as [[_ Hb0%Z.eqb_neq]%orb_false_iff _].
  wp_step. eapply wp_copy_size; try done.
  - apply andb_false_iff in Hst as [Hst%negb_false_iff|Hst%negb_false_iff];
      apply bool_decide_eq_true in Hst; auto.
  - intros Hk. destruct (ds_sec _ _ _ (fi_static _ Hinv id d Hd) Hk); [done|congruence].
  - intros total s' d1 Hinv' Hcr _ _ _ _. eapply wp_copy_block; eauto. lia.
Qed.

(** ** IMAGE_AUTH *)

Context `{!FwuPlatformOk}.

(** From RESET or COPIED to another state. *)
Lemma finv_to s id d st l tr :
  finv s -> descs s !! id = Some d -> img_state d <> IMAGE_STATE_EXECUTED ->
  (st = IMAGE_STATE_RESET \/ st = IMAGE_STATE_AUTHENTICATED) ->
  (st = IMAGE_STATE_AUTHENTICATED -> authed id tr) ->
  (forall j, j <> id -> authed j (ftrace s) -> authed j tr) ->
  (forall j t1 t2, tr = t1 ++ F_prepared j :: t2 -> authed j t2) ->
  loaded_ok l (in_use (<[id := with_state st d]> (descs s))) ->
  forall m fl, length fl = length (auth_img_flags s) ->
  finv (set_descs (<[id := with_state st d]> (descs s))
         (set_mem m (set_auth_flags fl (set_loaded l (set_ftrace tr s))))).
Proof.
  intros Hinv Hd Hne Hst Hauth Hothers Hprep Hl m fl Hfl.
  pose proof (fi_desc _ Hinv id d Hd) as [Hsz _ _ Hsec _].
  eapply finv_replace with (s := s); try done.
  - intros j dj Hj _ _. by apply Hothers.
  - split; try done; cbn; try (intros Hx; destruct Hst; congruence).
    unfold trusted. cbn. intros Ht. apply Hauth. destruct Hst as [->|?]; [|done].
    destruct Ht as [?|[?|?]]; done.
  - unfold copying. cbn. intros [?|?]; destruct Hst; congruence.
  - intros Hk. eapply world_ok_replace; [apply (fi_world _ Hinv Hk)|exact Hd|done..|].
    cbn. destruct Hst as [->| ->]; done.
Qed.

Lemma prepared_cons s e :
  finv s -> (forall id, e <> F_prepared id) ->
  forall j t1 t2, e :: ftrace s = t1 ++ F_prepared j :: t2 -> authed j t2.
Proof.
  intros Hinv He j [|e' t1] t2 Heq; [injection Heq as -> _; by destruct (He j)|].
  injection Heq as <- Heq. by apply (fi_prepared _ Hinv j t1).
Qed.

Lemma wp_auth_range s id src size d (Q : Z + Z * Z -> fwu_state -> Prop) :
  finv s -> descs s !! id = Some d -> 0 <= size < 2 ^ 32 ->
  img_state d = IMAGE_STATE_RESET \/ img_state d = IMAGE_STATE_COPIED ->
  (forall rc, Q (inl rc) s) ->
  (forall b n s1 d1 l, finv s1 -> descs s1 !! id = Some d1 -> img_state d1 = img_state d ->
     loaded_ok l (fun y => in_use (descs s1) y \/ y = id) -> Q (inr (b, n)) (set_loaded l s1)) ->
  wp (auth_range id src size d) Q (fun _ _ => True) s.
Proof.
  intros Hinv Hd Hsize Hst Hinl Hinr. unfold auth_range.
  pose proof (do_sizes _ _ _ (fi_desc _ Hinv id d Hd)) as Hsz.
  case_bool_decide as Hc.
  { apply wp_ret. replace s with (set_loaded (bl1_fwu_loaded_ids s) s) by (by destruct s).
    apply (Hinr _ _ s d); try done. eapply loaded_ok_ext; [|apply (fi_loaded _ Hinv)].
    intros y _. split; [auto|]. intros [?| ->]; [done|]. exists d. split; [done|]. by rewrite Hc. }
  assert (img_state d = IMAGE_STATE_RESET) as Hr by tauto.
  destruct (_ || _); [by apply wp_ret|]. destruct (negb _); [by apply wp_ret|].
  destruct (fi_static _ Hinv id d Hd) as [[_ Hid] _ _].
  wp_step. eapply wp_add_loaded; [apply (fi_loaded _ Hinv)|done| |by apply wp_ret].
  intros l Hl. change (negb (0 =? 0)) with false. cbv iota.
  wp_step. apply wp_update_desc. apply wp_ret. cbn [descs set_loaded].
  rewrite (alter_insert _ _ _ _ Hd).
  change (set_descs (<[id := with_size size d]> (descs s)) (set_loaded l s))
    with (set_loaded l (set_descs (<[id := with_size size d]> (descs s)) s)).
  apply (Hinr src size (set_descs (<[id := with_size size d]> (descs s)) s) (with_size size d) l).
  - apply finv_reset_sizes with (d := d); try done; try (cbn; lia); by right.
  - apply lookup_insert_eq.
  - done.
  - eapply loaded_ok_ext; [|exact Hl]. intros y _. cbn.
    rewrite (in_use_insert (descs s) id d (with_size size d) y Hd); [done|]. by cbn.
Qed.

(** The tail of a failed authentication. *)
Lemma wp_auth_failed s1 id d1 l fl b n d :
  finv s1 -> descs s1 !! id = Some d1 -> img_state d1 = img_state d ->
  img_state d = IMAGE_STATE_RESET \/ img_state d = IMAGE_STATE_COPIED ->
  loaded_ok l (fun y => in_use (descs s1) y \/ y = id) -> length fl = length (auth_img_flags s1) ->
  wp (auth_failed id b n d) (fun _ s' => finv s') (fun _ _ => True)
    (set_auth_flags fl (set_loaded l s1)).
Proof.
  intros Hinv Hd Hs1 Hst Hl Hfl. destruct (fi_static _ Hinv id d1 Hd) as [[_ Hid] _ _].
  unfold auth_failed. wp_step. apply wp_when; intros Hc; [apply bool_decide_eq_true in Hc|].
  - wp_steps. apply wp_update_desc. cbn [descs set_mem set_auth_flags set_loaded].
    rewrite (alter_insert _ _ _ _ Hd).
    unfold log. wp_steps. eapply wp_remove_loaded; [exact Hl|done| |intros Hno; destruct Hno; by right].
    intros l' _ Hl'. apply wp_ret.
    apply (finv_to s1 id d1 IMAGE_STATE_RESET l' (F_reset id :: ftrace s1)); try done.
    + congruence.
    + by left.
    + intros j Hne Hj. apply authed_cons; [congruence|done].
    + by apply prepared_cons.
    + eapply loaded_ok_ext; [|exact Hl']. cbn. intros y Hy. rewrite in_use_stop by done. tauto.
  - apply bool_decide_eq_false in Hc. assert (img_state d1 = IMAGE_STATE_RESET) as Hr by (rewrite Hs1; tauto).
    wp_step. eapply wp_remove_loaded; [exact Hl|done| |intros Hno; destruct Hno; by right].
    intros l' _ Hl'. apply wp_ret. eapply (finv_same s1); [done..| |exact Hinv].
    eapply loaded_ok_ext; [|exact Hl']. cbn. intros y Hy. pose proof (not_in_use _ _ _ Hd Hr).
    split; [tauto|]. intros Hu. split; [by left|]. by intros ->.
Qed.

Lemma wp_image_auth s id src size flags :
  finv s -> 0 <= size < 2 ^ 32 ->
  wp (bl1_fwu_image_auth id src size flags) (fun _ s' => finv s') (fun _ _ => True) s.
Proof.
  intros Hinv Hsize. unfold bl1_fwu_image_auth, bl1_plat_get_image_desc. wp_steps.
  destruct (descs s !! id) as [d|] eqn:Hd; [|by apply wp_ret].
  destruct (auth_allowed d flags) eqn:Hallow; cbn [negb]; [|by apply wp_ret].
  assert (img_state d = IMAGE_STATE_RESET \/ img_state d = IMAGE_STATE_COPIED) as Hst.
  { unfold auth_allowed in Hallow. repeat case_match; apply bool_decide_eq_true in Hallow; auto. }
  wp_step. eapply wp_auth_range; try done. intros b n s1 d1 l Hinv1 Hd1 Hs1 Hl.
  unfold verify_img. wp_steps. cbn [mem auth_img_flags set_loaded].
  destruct (auth_mod_verify_img id b n (mem s1) (auth_img_flags s1)) as [res fl] eqn:Hver.
  assert (length fl = length (auth_img_flags s1)) as Hfl
    by (rewrite <- (verify_flags id b n (mem s1) (auth_img_flags s1)), Hver; done).
  cbn [fst snd]. destruct (res =? 0); cbn [negb]; [|by eapply wp_auth_failed].
  wp_steps. unfold log. wp_steps. apply wp_update_desc. wp_steps. apply wp_when; intros _; [done|].
  apply wp_ret. cbn [descs set_ftrace set_auth_flags set_loaded].
  rewrite (alter_insert _ _ _ _ Hd1).
  apply (finv_to s1 id d1 IMAGE_STATE_AUTHENTICATED l (F_authenticated id b n :: ftrace s1)); try done.
  - rewrite Hs1. destruct Hst as [->| ->]; done.
  - by right.
  - intros _. apply authed_now.
  - intros j Hne Hj. by apply authed_cons.
  - by apply prepared_cons.
  - eapply loaded_ok_ext; [|exact Hl]. intros y _. by rewrite in_use_start.
Qed.

(** ** IMAGE_EXECUTE, IMAGE_RESUME, SEC_IMAGE_DONE, IMAGE_RESET

    The calls come from the world that is running. *)

Lemma exe_bit d : img_exe d <> NON_EXECUTABLE -> img_exe d = EXECUTABLE.
Proof.
  unfold img_exe, EP_GET_EXE, EP_EXE_MASK, NON_EXECUTABLE, EXECUTABLE. generalize (ep_attr (img_ep d)).
  intros a Hne. change 8 with (2 ^ 3) in *. assert (Z.testbit a 3 = true) as Hb.
  { destruct (Z.testbit a 3) eqn:Hb; [done|]. destruct Hne. apply Z.bits_inj'. intros k Hk.
    rewrite Z.land_spec, Z.bits_0, Z.pow2_bits_eqb by lia.
    destruct (Z.eqb_spec 3 k) as [<-|]; [by rewrite Hb|apply andb_false_r]. }
  apply Z.bits_inj'. intros k Hk. rewrite Z.land_spec, Z.pow2_bits_eqb by lia.
  destruct (Z.eqb_spec 3 k) as [<-|]; [by rewrite Hb|apply andb_false_r].
Qed.

(** The world after the image [id] became the one in execution. *)
Lemma world_ok_execute s s' id d' :
  world_ok s -> next_world s = NON_SECURE -> descs s' = <[id := d']> (descs s) ->
  img_state d' = IMAGE_STATE_EXECUTED -> img_security d' = SECURE -> img_exe d' = EXECUTABLE ->
  next_world s' = SECURE -> sec_exec_image_id s' = id -> world_ok s'.
Proof.
  intros [H1 H2 H3] Hns Hm Hex Hsec Hexe Hw Hx. split; rewrite ?Hw, ?Hx, ?Hm.
  - by left.
  - intros j dj. rewrite lookup_insert. case_decide; [auto|]. intros Hj Hjx.
    destruct (H2 j dj Hj Hjx). rewrite Hns in *. done.
  - intros _. exists d'. by rewrite lookup_insert_eq.
Qed.

(** The world after the image in execution stopped executing. *)
Lemma world_ok_leave s s' id d' :
  world_ok s -> sec_exec_image_id s = id -> descs s' = <[id := d']> (descs s) ->
  img_state d' <> IMAGE_STATE_EXECUTED -> next_world s' = NON_SECURE -> world_ok s'.
Proof.
  intros [H1 H2 H3] Hx Hm Hne Hw. split; rewrite ?Hw, ?Hm.
  - by right.
  - intros j dj. rewrite lookup_insert. case_decide; [naive_solver|]. intros Hj Hjx.
    destruct (H2 j dj Hj Hjx). congruence.
  - done.
Qed.

Lemma wp_image_execute s id flags :
  finv s -> GET_SECURITY_STATE flags = next_world s ->
  wp (bl1_fwu_image_execute id flags) (fun _ s' => finv s') (fun _ _ => True) s.
Proof.
  intros Hinv Hfl. unfold bl1_fwu_image_execute, bl1_plat_get_image_desc. wp_steps.
  destruct (execute_allowed _ flags) eqn:Hall; cbn [negb]; [|by apply wp_ret].
  unfold execute_allowed in Hall. destruct (descs s !! id) as [d|] eqn:Hd; [|done].
  rewrite !andb_true_iff, !negb_true_iff, !Z.eqb_neq, bool_decide_eq_true, Hfl in Hall.
  destruct Hall as (((Hw & Hsec) & Hexe) & Hst).
  assert (attrs_kept -> next_world s = NON_SECURE) as Hns
    by (intros Hk; destruct (wo_world _ (fi_world _ Hinv Hk)); [congruence|done]).
  assert (attrs_kept -> img_security d = SECURE) as Hsec'.
  { intros Hk. destruct (ds_sec _ _ _ (fi_static _ Hinv id d Hd) Hk); [done|congruence]. }
  unfold bl1_prepare_next_image, bl1_plat_get_image_desc. wp_steps. apply wp_fwu_assert.
  wp_step. eapply wp_deref; [exact Hd|]. unfold log, update_desc. wp_steps.
  cbn [descs set_descs set_world set_ftrace]. rewrite (alter_insert _ _ _ _ Hd).
  rewrite (alter_insert (<[id := _]> _) id _ _ (lookup_insert_eq _ _ _)), insert_insert_eq.
  rewrite (alter_insert (<[id := _]> _) id _ _ (lookup_insert_eq _ _ _)), insert_insert_eq.
  set (d' := with_state _ _).
  assert (attrs_kept -> ep_attr (img_ep d') = ep_attr (img_ep d)) as Hattr
    by (intros Hk; unfold d'; cbn; by rewrite Hk).
  assert (authed id (ftrace s)) as Hauth
    by (apply (do_trusted _ _ _ (fi_desc _ Hinv id d Hd)); by left).
  pose proof (fi_desc _ Hinv id d Hd) as [Hsz _ _ Hcs _].
  eapply (finv_replace s _ id d d'); try done.
  - intros Hk. unfold img_security. by rewrite Hattr.
  - intros j dj Hne _ _ Hj. by apply authed_cons.
  - split; try done.
    + intros Hk. unfold img_security. rewrite Hattr by done. exact (Hcs Hk).
    + intros _. by apply authed_cons.
  - eapply loaded_ok_ext; [|apply (fi_loaded _ Hinv)]. intros j _. symmetry.
    eapply in_use_insert; [exact Hd|]. rewrite Hst. by split.
  - intros [?|?]; done.
  - intros j [|e t1] t2 Heq; injection Heq as Heq1 Heq2; [congruence|].
    by apply (fi_prepared _ Hinv j t1).
  - intros Hk. eapply (world_ok_execute s _ id d'); try done; [apply (fi_world _ Hinv Hk)|by apply Hns|..].
    + unfold img_security. rewrite Hattr by done. by apply Hsec'.
    + unfold img_exe. rewrite Hattr by done. by apply exe_bit.
    + by apply Hsec'.
Qed.

(** With assertions compiled in, the code after an assertion may rely on it. *)
Context (asserts : BL1_ENABLE_ASSERTIONS = true).

Lemma wp_fwu_assert_on b (Q : unit -> fwu_state -> Prop) s :
  (b = true -> Q tt s) -> wp (fwu_assert b) Q (fun _ _ => True) s.
Proof.
  intros HQ. unfold wp, fwu_assert, assert_. rewrite asserts. destruct b; [by apply HQ|done].
Qed.

Lemma finv_switch s id d st w :
  finv s -> descs s !! id = Some d -> sec_exec_image_id s = id ->
  (st = IMAGE_STATE_INTERRUPTED /\ w = NON_SECURE \/
   st = IMAGE_STATE_EXECUTED /\ w = SECURE /\ (attrs_kept -> next_world s = NON_SECURE) /\
     img_security d = SECURE /\ img_exe d = EXECUTABLE) ->
  trusted d ->
  finv (set_world w (set_descs (<[id := with_state st d]> (descs s)) s)).
Proof.
  intros Hinv Hd Hx Hst Htr. pose proof (fi_desc _ Hinv id d Hd) as [Hsz _ _ Hcs Hauth].
  eapply (finv_replace s _ id d (with_state st d)); try done.
  - split; try done; cbn; try (intros ?; by destruct Hst as [[-> _]|[-> _]]).
    intros _. by apply Hauth.
  - eapply loaded_ok_ext; [|apply (fi_loaded _ Hinv)]. intros j _. symmetry.
    eapply in_use_insert; [exact Hd|]. cbn.
    destruct Htr as [Ht|[Ht|Ht]]; rewrite Ht; destruct Hst as [[-> _]|[-> _]]; by split.
  - unfold copying. cbn. intros [?|?]; destruct Hst as [[? _]|[? _]]; congruence.
  - apply (fi_prepared _ Hinv).
  - destruct Hst as [[-> ->]|(-> & -> & Hns & Hsec & Hexe)].
    + intros Hk. by eapply (world_ok_leave s); [apply (fi_world _ Hinv Hk)|exact Hx|..].
    + intros Hk. by eapply (world_ok_execute s); [apply (fi_world _ Hinv Hk)|by apply Hns|..].
Qed.

Lemma wp_image_resume s param flags :
  finv s -> GET_SECURITY_STATE flags = next_world s ->
  wp (bl1_fwu_image_resume param flags) (fun _ s' => finv s') (fun _ _ => True) s.
Proof.
  intros Hinv Hfl. unfold bl1_fwu_image_resume, bl1_plat_get_image_desc. rewrite Hfl. wp_steps.
  destruct (_ && _); [by apply wp_ret|]. wp_step.
  eapply wp_mono with (Q := fun _ s' => s' = s) (E := fun _ _ => True); [|intros _ s' ->|done].
  { apply wp_when; [|done]. intros _. by apply wp_fwu_assert. }
  wp_step. destruct (descs s !! sec_exec_image_id s) as [d|] eqn:Hd; [|done]. apply wp_ret.
  wp_step. apply wp_fwu_assert_on. intros Hsec%Z.eqb_eq.
  wp_step. apply wp_fwu_assert_on. intros Hexe%Z.eqb_eq.
  destruct (Z.eqb_spec (next_world s) SECURE) as [Hw|Hw]; unfold resume_switch;
    (wp_step; apply wp_fwu_assert_on; intros Hst%bool_decide_eq_true; wp_step; apply wp_update_desc;
     wp_steps; cbn [descs set_descs]; rewrite (alter_insert _ _ _ _ Hd); apply finv_switch; try done).
  - by left.
  - right. by left.
  - right. split_and!; try done. intros Hk.
    destruct (wo_world _ (fi_world _ Hinv Hk)); [congruence|done].
  - right. by right.
Qed.

(** An image returns to the RESET state. *)
Lemma finv_to_reset s id d d' l w x m fl :
  finv s -> descs s !! id = Some d -> img_state d' = IMAGE_STATE_RESET ->
  image_base d' = image_base d -> image_max_size d' = image_max_size d -> img_ep d' = img_ep d ->
  0 <= copied_size d' < 2 ^ 32 /\ 0 <= image_size d' < 2 ^ 32 ->
  (copied_size d' = 0 \/ copied_size d' = copied_size d) ->
  loaded_ok l (fun y => in_use (descs s) y /\ y <> id) ->
  length fl = length (auth_img_flags s) ->
  (attrs_kept -> world_ok (set_world w (set_sec_exec x (set_descs (<[id := d']> (descs s)) s)))) ->
  finv (set_world w (set_sec_exec x (set_auth_flags fl (set_ftrace (F_reset id :: ftrace s)
    (set_descs (<[id := d']> (descs s)) (set_mem m (set_loaded l s))))))).
Proof.
  intros Hinv Hd Hr Hb Hm He Hsz Hcd Hl Hfl Hwo.
  assert (img_security d' = img_security d) as Hsec by (unfold img_security; by rewrite He).
  pose proof (fi_desc _ Hinv id d Hd) as [_ _ _ Hcs _].
  eapply (finv_replace s _ id d d'); try done.
  - intros j dj Hne _ _ Hj. apply authed_cons; [congruence|done].
  - split; try done; try congruence.
    + intros Hk Hne. rewrite Hsec. apply (Hcs Hk). destruct Hcd; congruence.
    + unfold trusted. rewrite Hr. intros [?|[?|?]]; done.
  - eapply loaded_ok_ext; [|exact Hl]. intros y _. by rewrite in_use_stop.
  - unfold copying. rewrite Hr. intros [?|?]; done.
  - by apply prepared_cons.
  - intros Hk. destruct (Hwo Hk) as [H1 H2 H3]. by split.
Qed.

Lemma wp_sec_image_done s flags :
  finv s -> GET_SECURITY_STATE flags = next_world s ->
  wp (bl1_fwu_sec_image_done flags) (fun _ s' => finv s') (fun _ _ => True) s.
Proof.
  intros Hinv Hfl. unfold bl1_fwu_sec_image_done, bl1_plat_get_image_desc. rewrite Hfl.
  destruct (Z.eqb_spec (next_world s) NON_SECURE) as [|Hw]; [by apply wp_ret|].
  wp_steps. apply wp_fwu_assert. wp_step.
  destruct (descs s !! sec_exec_image_id s) as [d|] eqn:Hd; [|done]. apply wp_ret.
  do 2 (wp_step; apply wp_fwu_assert).
  wp_step. apply wp_fwu_assert_on. intros Hst%bool_decide_eq_true. wp_step.
  destruct (fi_static _ Hinv _ d Hd) as [[_ Hid] _ _].
  eapply wp_remove_loaded; [apply (fi_loaded _ Hinv)|done| |].
  2:{ intros Hno. destruct Hno. exists d. by rewrite Hst. }
  intros l _ Hl. wp_step. apply wp_fwu_assert. wp_step. apply wp_update_desc. unfold log. wp_steps.
  cbn [descs set_loaded]. rewrite (alter_insert _ _ _ _ Hd).
  apply (finv_to_reset s (sec_exec_image_id s) d (with_state IMAGE_STATE_RESET d) l NON_SECURE
    INVALID_IMAGE_ID (mem s) (auth_img_flags s)); try done.
  - apply (do_sizes _ _ _ (fi_desc _ Hinv _ d Hd)).
  - by right.
  - intros Hk. by eapply (world_ok_leave s); [apply (fi_world _ Hinv Hk)|..].
Qed.

Lemma wp_image_reset s id flags :
  finv s -> GET_SECURITY_STATE flags = next_world s ->
  wp (bl1_fwu_image_reset id flags) (fun _ s' => finv s') (fun _ _ => True) s.
Proof.
  intros Hinv Hfl. unfold bl1_fwu_image_reset, bl1_plat_get_image_desc. wp_steps.
  destruct (descs s !! id) as [d|] eqn:Hd; [|by apply wp_ret].
  destruct (_ =? SECURE); [by apply wp_ret|].
  destruct (decide (img_state d = IMAGE_STATE_RESET)) as [Hr|Hr]; [rewrite Hr; by apply wp_ret|].
  destruct (decide (img_state d = IMAGE_STATE_EXECUTED)) as [Hx|Hx].
  { rewrite Hx. wp_step. by apply wp_fwu_assert_on. }
  assert (wp (let! rc := bl1_fwu_remove_loaded_id id in
            if negb (rc =? 0) then ret (- EPERM)
            else
              when (negb (copied_size d =? 0))
                (fwu_assert (img_security d =? SECURE) ;;
                 modify (fun s => set_mem (mem_zero (mem s) (image_base d) (copied_size d)) s)) ;;
              update_desc id (fun d => with_copied 0 d) ;;
              update_desc id (with_size 0) ;;
              update_desc id (with_state IMAGE_STATE_RESET) ;;
              log (F_reset id) ;;
              clear_auth_flag id ;;
              ret 0) (fun _ s' => finv s') (fun _ _ => True) s) as Hmain.
  2:{ destruct (img_state d); done. }
  destruct (fi_static _ Hinv _ d Hd) as [[_ Hid] _ _].
  wp_step. eapply wp_remove_loaded; [apply (fi_loaded _ Hinv)|done| |by intros; apply wp_ret].
  intros l _ Hl. change (negb (0 =? 0)) with false. cbv iota. wp_step.
  eapply wp_mono with (Q := fun _ s' => exists m, s' = set_mem m (set_loaded l s))
    (E := fun _ _ => True); [|intros _ s' [m ->]|done].
  { apply wp_when; intros _; [|by exists (mem s)]. wp_step. apply wp_fwu_assert. apply wp_modify. eauto. }
  wp_step. apply wp_update_desc. wp_step. apply wp_update_desc. wp_step. apply wp_update_desc.
  unfold log, clear_auth_flag. wp_steps. destruct (_.[id]); [|done]. wp_steps.
  cbn [descs set_descs set_mem set_loaded auth_img_flags set_ftrace].
  rewrite (alter_insert _ _ _ _ Hd).
  rewrite (alter_insert (<[id := _]> _) id _ _ (lookup_insert_eq _ _ _)), insert_insert_eq.
  rewrite (alter_insert (<[id := _]> _) id _ _ (lookup_insert_eq _ _ _)), insert_insert_eq.
  apply (finv_to_reset s id d (with_state IMAGE_STATE_RESET (with_size 0 (with_copied 0 d))) l
    (next_world s) (sec_exec_image_id s) m (zupdate (auth_img_flags s) id 0)); try done.
  - by left.
  - by rewrite length_zupdate.
  - intros Hk. by eapply (world_ok_replace s); [apply (fi_world _ Hinv Hk)|exact Hd|..].
Qed.

Lemma wp_fwu_smc_handler s fid x1 x2 x3 x4 flags :
  finv s -> GET_SECURITY_STATE flags = next_world s ->
  wp (bl1_fwu_smc_handler fid x1 x2 x3 x4 flags) (fun _ s' => finv s') (fun _ _ => True) s.
Proof.
  intros Hinv Hfl. unfold bl1_fwu_smc_handler.
  repeat (destruct (fid =? _); [apply wp_bind; eapply wp_mono; [| |done];
    [eauto using wp_image_copy, wp_image_auth, wp_image_execute, wp_image_resume, wp_sec_image_done,
       wp_image_reset, u32_range|intros r s' Hs'; by apply wp_ret]|]).
  destruct (fid =? _); [done|]. wp_step. by apply wp_fwu_assert.
Qed.
End Calls.
