(* ===== verification/FwuAuth.v ===== *)
(** * BL1 firmware update: authentication in every build

    An image is prepared for execution only after it was authenticated. This
    needs neither the assertions of a debug build nor any property of the
    platform: it rests on the order in which each call changes the state of an
    image and on nothing else. *)

From stdpp Require Import gmap list_numbers.
From S2P Require Import Prelude PsciTypes PsciCommon Fwu FwuState.
#[local] Open Scope cmd_scope.

(** Images in the AUTHENTICATED state, and those that were prepared for
    execution, were authenticated after their last return to RESET. *)
Record ainv (s : fwu_state) : Prop := {
  ai_state : forall id d, descs s !! id = Some d -> img_state d = IMAGE_STATE_AUTHENTICATED -> authed id (ftrace s);
  ai_prepared : forall id t1 t2, ftrace s = t1 ++ F_prepared id :: t2 -> authed id t2
}.

(** What the invariant reads. *)
Lemma ainv_same s s' : descs s' = descs s -> ftrace s' = ftrace s -> ainv s -> ainv s'.
Proof. intros Hd Ht [H1 H2]. split; by rewrite ?Hd, ?Ht. Qed.

Lemma prepared_later e tr :
  (forall id, e <> F_prepared id) -> (forall id t1 t2, tr = t1 ++ F_prepared id :: t2 -> authed id t2) ->
  forall id t1 t2, e :: tr = t1 ++ F_prepared id :: t2 -> authed id t2.
Proof.
  intros He Hp id [|x t1] t2 Heq; [injection Heq as -> _; by destruct (He id)|].
  injection Heq as _ Heq. by apply (Hp id t1).
Qed.

(** A change of descriptors that makes none of them AUTHENTICATED. *)
Lemma ainv_alter id f s :
  (forall d, img_state (f d) = IMAGE_STATE_AUTHENTICATED -> img_state d = IMAGE_STATE_AUTHENTICATED) ->
  ainv s -> ainv (set_descs (alter f id (descs s)) s).
Proof.
  intros Hf [H1 H2]. split; [|done]. cbn. intros j d. destruct (decide (j = id)) as [->|Hne].
  - rewrite lookup_alter_eq. destruct (descs s !! id) as [d0|] eqn:Hd; [|done]. intros [= <-] Hst%Hf. by eapply H1.
  - rewrite lookup_alter_ne by done. by apply H1.
Qed.

Lemma ainv_reset_event id s :
  (forall d, descs s !! id = Some d -> img_state d <> IMAGE_STATE_AUTHENTICATED) ->
  ainv s -> ainv (set_ftrace (F_reset id :: ftrace s) s).
Proof.
  intros Hne [H1 H2]. split; cbn; [|by apply prepared_later]. intros j d Hd Hst.
  apply authed_cons; [|by eapply H1]. intros [= ->]. by apply (Hne d).
Qed.

Lemma ainv_authenticated id base size s :
  ainv s -> ainv (set_descs (alter (with_state IMAGE_STATE_AUTHENTICATED) id (descs s))
                    (set_ftrace (F_authenticated id base size :: ftrace s) s)).
Proof.
  intros [H1 H2]. split; cbn; [|by apply prepared_later]. intros j d Hd Hst.
  destruct (decide (j = id)) as [->|Hne]; [apply authed_now|]. rewrite lookup_alter_ne in Hd by done.
  apply authed_cons; [done|by eapply H1].
Qed.

Lemma ainv_prepared_event id s : authed id (ftrace s) -> ainv s -> ainv (set_ftrace (F_prepared id :: ftrace s) s).
Proof.
  intros Ha [H1 H2]. split; cbn.
  - intros j d Hd Hst. apply authed_cons; [done|by eapply H1].
  - intros j [|e t1] t2 Heq; injection Heq as Heq1 Heq2; [by subst|by apply (H2 j t1)].
Qed.

Section Calls.
Context `{Plat : FwuPlatform}.

(** A command that keeps the invariant, from any state that has it. *)
Definition safe {A} (c : fwu A) : Prop :=
  forall s, ainv s -> wp c (fun _ s' => ainv s') (fun _ _ => True) s.

Lemma safe_ret {A} (a : A) : safe (ret a).
Proof. intros s Hs. by apply wp_ret. Qed.
Lemma safe_bind {A B} (c : fwu A) (k : A -> fwu B) : safe c -> (forall a, safe (k a)) -> safe (bind c k).
Proof. intros Hc Hk s Hs. apply wp_bind. eapply wp_mono; [by apply Hc|intros a s'; apply Hk|done]. Qed.
Lemma safe_gets {A} (f : fwu_state -> A) : safe (gets f).
Proof. intros s Hs. by apply wp_gets. Qed.
Lemma safe_assert b : safe (fwu_assert b).
Proof. intros s Hs. by apply wp_fwu_assert. Qed.
Lemma safe_deref {A} (o : option A) : safe (deref o : fwu A).
Proof. intros s Hs. by destruct o. Qed.
Lemma safe_halt {A} w : safe (halt w : fwu A).
Proof. done. Qed.
Lemma safe_when b (c : fwu unit) : safe c -> safe (when b c).
Proof. intros Hc. destruct b; [exact Hc|apply safe_ret]. Qed.
Lemma safe_modify f : (forall s, descs (f s) = descs s /\ ftrace (f s) = ftrace s) -> safe (modify f).
Proof. intros Hf s Hs. apply wp_modify. destruct (Hf s). by apply (ainv_same s). Qed.
Lemma safe_update id f :
  (forall d, img_state (f d) = IMAGE_STATE_AUTHENTICATED -> img_state d = IMAGE_STATE_AUTHENTICATED) ->
  safe (update_desc id f).
Proof. intros Hf s Hs. apply wp_update_desc. by apply ainv_alter. Qed.

Create HintDb fwu_safe.
#[local] Hint Resolve safe_ret safe_gets safe_assert safe_deref safe_halt safe_when : fwu_safe.
#[local] Hint Extern 2 (safe (modify _)) => apply safe_modify; by intros : fwu_safe.
#[local] Hint Extern 2 (safe (update_desc _ _)) => apply safe_update; (done || by intros []) : fwu_safe.

Ltac safe_steps :=
  repeat first [progress (intros; cbv zeta) | solve [eauto with fwu_safe] | apply safe_bind | apply safe_when | case_match].

Lemma safe_get_desc id : safe (bl1_plat_get_image_desc id).
Proof. apply safe_gets. Qed.
Lemma safe_add_loaded id : safe (bl1_fwu_add_loaded_id id).
Proof. unfold bl1_fwu_add_loaded_id. safe_steps. Qed.
Lemma safe_remove_loaded id : safe (bl1_fwu_remove_loaded_id id).
Proof. unfold bl1_fwu_remove_loaded_id. safe_steps. Qed.
#[local] Hint Resolve safe_get_desc safe_add_loaded safe_remove_loaded : fwu_safe.

Lemma safe_check_overlaps id : safe (bl1_fwu_image_check_overlaps id).
Proof.
  assert (forall ids b e, safe (check_overlaps_loop ids id b e)) as Hloop.
  { induction ids as [|j ids IH]; intros b e; cbn [check_overlaps_loop]; safe_steps. }
  unfold bl1_fwu_image_check_overlaps. safe_steps.
Qed.
#[local] Hint Resolve safe_check_overlaps : fwu_safe.

Lemma safe_copy_size id size d : safe (copy_size id size d).
Proof. unfold copy_size. safe_steps. Qed.

Lemma safe_copy_block id src blk flags total : safe (copy_block id src blk flags total).
Proof. unfold copy_block. safe_steps. Qed.

#[local] Hint Resolve safe_copy_size safe_copy_block : fwu_safe.

Lemma safe_image_copy id src blk size flags : safe (bl1_fwu_image_copy id src blk size flags).
Proof. unfold bl1_fwu_image_copy. safe_steps. Qed.

Lemma safe_auth_range id src size d : safe (auth_range id src size d).
Proof. unfold auth_range. safe_steps. Qed.

(** An image returns to RESET, and this is recorded. *)
Lemma safe_to_reset id : safe (update_desc id (with_state IMAGE_STATE_RESET) ;; log (F_reset id)).
Proof.
  intros s Hs. wp_step. apply wp_update_desc. unfold log. apply wp_modify. apply ainv_reset_event.
  - cbn. intros d. rewrite lookup_alter_eq. destruct (descs s !! id); [|done]. by intros [= <-].
  - apply ainv_alter; [done|exact Hs].
Qed.

Lemma safe_to_reset_then {A} id (k : fwu A) :
  safe k -> safe (update_desc id (with_state IMAGE_STATE_RESET) ;; log (F_reset id) ;; k).
Proof.
  intros Hk s Hs. pose proof (safe_to_reset id s Hs) as Hr. revert Hr. unfold wp, bind. destruct (update_desc id _ s) as [u s1|]; [|done].
  destruct (log _ s1) as [u' s2|]; [|done]. intros Hs2. exact (Hk s2 Hs2).
Qed.

Lemma safe_auth_failed id base size d : safe (auth_failed id base size d).
Proof.
  unfold auth_failed. apply safe_bind; [|safe_steps]. apply safe_when. apply safe_bind; [eauto with fwu_safe|].
  intros _. apply safe_to_reset.
Qed.

Lemma safe_image_auth id src size flags : safe (bl1_fwu_image_auth id src size flags).
Proof.
  unfold bl1_fwu_image_auth, verify_img. apply safe_bind; [apply safe_get_desc|]. intros [d|]; [|apply safe_ret].
  destruct (negb _); [apply safe_ret|]. apply safe_bind; [apply safe_auth_range|]. intros [rc|[b n]]; [apply safe_ret|].
  apply safe_bind; [safe_steps|]. intros result. destruct (negb _); [apply safe_auth_failed|].
  intros s Hs. unfold log, update_desc. wp_step. apply wp_modify. wp_step. apply wp_modify.
  match goal with |- wp ?c _ _ _ => assert (safe c) as Hc by safe_steps end.
  apply Hc. exact (ainv_authenticated id b n s Hs).
Qed.

(** EXECUTE finds the image AUTHENTICATED when it prepares it. *)
Lemma safe_image_execute id flags : safe (bl1_fwu_image_execute id flags).
Proof.
  intros s Hs. unfold bl1_fwu_image_execute, bl1_plat_get_image_desc. wp_steps.
  destruct (execute_allowed _ flags) eqn:Hall; cbn [negb]; [|by apply wp_ret].
  unfold execute_allowed in Hall. destruct (descs s !! id) as [d|] eqn:Hd; [|done].
  rewrite !andb_true_iff, bool_decide_eq_true in Hall. destruct Hall as [_ Hst].
  unfold bl1_prepare_next_image, bl1_plat_get_image_desc. wp_steps. apply wp_fwu_assert.
  wp_step. eapply wp_deref; [exact Hd|]. unfold log, update_desc. wp_steps.
  match goal with |- ainv (set_sec_exec _ (set_descs _ (set_ftrace _ ?x))) => set (s1 := x) end.
  apply (ainv_same (set_descs (alter (with_state IMAGE_STATE_EXECUTED) id (descs s1))
                      (set_ftrace (F_prepared id :: ftrace s1) s1))); [done|done|].
  apply (ainv_alter id (with_state IMAGE_STATE_EXECUTED) (set_ftrace (F_prepared id :: ftrace s1) s1)); [done|].
  apply ainv_prepared_event; [by eapply (ai_state _ Hs)|].
  unfold s1. match goal with |- ainv (set_world _ ?x) => apply (ainv_same x); [done|done|] end.
  apply ainv_alter; [done|]. by apply ainv_alter.
Qed.

Lemma safe_image_resume param flags : safe (bl1_fwu_image_resume param flags).
Proof. unfold bl1_fwu_image_resume, resume_switch. safe_steps. Qed.

Lemma safe_sec_image_done flags : safe (bl1_fwu_sec_image_done flags).
Proof.
  unfold bl1_fwu_sec_image_done. case_match; [apply safe_ret|].
  do 9 (apply safe_bind; [eauto with fwu_safe|intros ?]). apply safe_to_reset_then. safe_steps.
Qed.

Lemma safe_image_reset id flags : safe (bl1_fwu_image_reset id flags).
Proof.
  unfold bl1_fwu_image_reset, clear_auth_flag. apply safe_bind; [apply safe_get_desc|]. intros [d|]; [|apply safe_ret].
  case_match; [apply safe_ret|].
  destruct (img_state d); try solve [safe_steps];
    (apply safe_bind; [apply safe_remove_loaded|intros rc]; case_match; [apply safe_ret|];
     do 3 (apply safe_bind; [solve [safe_steps]|intros _]); apply safe_to_reset_then; safe_steps).
Qed.

Lemma safe_smc_handler fid x1 x2 x3 x4 flags : safe (bl1_fwu_smc_handler fid x1 x2 x3 x4 flags).
Proof.
  unfold bl1_fwu_smc_handler, bl1_fwu_done.
  repeat (case_match; [first [apply safe_halt|apply safe_bind; [|intros ?; apply safe_ret];
    first [apply safe_image_copy|apply safe_image_auth|apply safe_image_execute|apply safe_image_resume
      |apply safe_sec_image_done|apply safe_image_reset]]|]).
  safe_steps.
Qed.
End Calls.
