(* ===== verification/FwuProps.v ===== *)
(** * BL1 firmware update: properties

    Reachable states of the update state machine, what each call guarantees,
    and two sequences of calls that do not behave as intended. *)

From stdpp Require Import gmap list_numbers.
From S2P Require Import Prelude PsciTypes PsciCommon Fwu FwuState FwuInv FwuAuth.
#[local] Open Scope cmd_scope.

(** One SMC from the world that runs. *)
Inductive fwu_step `{FwuPlatform} : fwu_state -> fwu_state -> Prop :=
  | fwu_call s s' fid x1 x2 x3 x4 flags r :
      GET_SECURITY_STATE flags = next_world s ->
      bl1_fwu_smc_handler fid x1 x2 x3 x4 flags s = Done r s' -> fwu_step s s'.

Section Reachable.
Context `{Plat : FwuPlatform}.

(** The state BL1 starts the update with: no image is loaded. *)
Record fwu_initial (s : fwu_state) : Prop := {
  in_static : forall id d, descs s !! id = Some d -> desc_static (length (auth_img_flags s)) id d;
  in_reset : forall id d, descs s !! id = Some d ->
    img_state d = IMAGE_STATE_RESET /\ copied_size d = 0 /\ 0 <= image_size d < 2 ^ 32;
  in_loaded : bl1_fwu_loaded_ids s = replicate FWU_MAX_SIMULTANEOUS_IMAGES INVALID_IMAGE_ID;
  in_world : next_world s = NON_SECURE;
  in_trace : ftrace s = []
}.

Lemma fwu_initial_inv s : fwu_initial s -> finv s.
Proof.
  intros [Hst Hr Hl Hw Ht]. split; try done.
  - intros id d Hd. destruct (Hr id d Hd) as (Hs & Hc & Hz). split; try congruence.
    + lia.
    + unfold trusted. rewrite Hs. intros [?|[?|?]]; done.
  - rewrite Hl. split.
    + apply length_replicate.
    + intros i j x Hi _ Hx. apply lookup_replicate in Hi as [-> _]. done.
    + intros x Hx. split.
      * intros Hin%elem_of_replicate. by destruct Hin as [-> _].
      * intros (d & Hd & Hne). by destruct (Hr x d Hd).
  - intros id id' d d' _ Hd _ Hc _. destruct (Hr id d Hd) as (Hs & _).
    destruct Hc as [Hc|Hc]; congruence.
  - rewrite Ht. intros id t1 t2 Heq. by destruct t1.
  - intros _. split; [by right| |by rewrite Hw].
    intros id d Hd Hx. destruct (Hr id d Hd) as (Hs & _). congruence.
Qed.

Lemma fwu_reachable_inv `{!FwuPlatformOk} s s' :
  BL1_ENABLE_ASSERTIONS = true -> fwu_initial s -> rtc fwu_step s s' -> finv s'.
Proof.
  intros Ha Hi%fwu_initial_inv Hr. induction Hr as [|s1 s2 s3 Hstep _ IH]; [done|].
  apply IH. clear IH. destruct Hstep as [s1 s2 fid x1 x2 x3 x4 flags r Hfl Hrun].
  pose proof (wp_fwu_smc_handler Ha s1 fid x1 x2 x3 x4 flags Hi Hfl) as Hw.
  unfold wp in Hw. by rewrite Hrun in Hw.
Qed.


Lemma fwu_initial_ainv s : fwu_initial s -> ainv s.
Proof.
  intros [_ Hr _ _ Ht]. split.
  - intros id d Hd Hst. destruct (Hr id d Hd) as [Hs _]. congruence.
  - rewrite Ht. intros id t1 t2 Heq. by destruct t1.
Qed.

Lemma fwu_reachable_ainv s s' : fwu_initial s -> rtc fwu_step s s' -> ainv s'.
Proof.
  intros Hi%fwu_initial_ainv Hr. induction Hr as [|s1 s2 s3 Hstep _ IH]; [done|].
  apply IH. destruct Hstep as [s1 s2 fid x1 x2 x3 x4 flags r _ Hrun].
  pose proof (safe_smc_handler fid x1 x2 x3 x4 flags s1 Hi) as Hw. unfold wp in Hw. by rewrite Hrun in Hw.
Qed.


Lemma wp_fwu_assert_true b (Q : unit -> fwu_state -> Prop) E s :
  b = true -> Q tt s -> wp (fwu_assert b) Q E s.
Proof. apply wp_assert. Qed.

Lemma secure_resume_returns s param :
  finv s -> attrs_kept -> next_world s = SECURE ->
  wpd (bl1_fwu_image_resume param SECURE) (fun r s' => r = param /\ next_world s' = NON_SECURE) s.
Proof.
  intros Hinv Hk Hw. destruct (wo_secure _ (fi_world _ Hinv Hk) Hw) as (d & Hd & Hst & Hsec & Hexe).
  unfold bl1_fwu_image_resume, bl1_plat_get_image_desc. wp_steps. rewrite Hd.
  change (GET_SECURITY_STATE SECURE =? NON_SECURE) with false. cbn [andb negb].
  wp_steps. apply wp_fwu_assert_true; [done|]. wp_step. apply wp_ret.
  wp_step. apply wp_fwu_assert_true; [by rewrite Hsec|].
  wp_step. apply wp_fwu_assert_true; [by rewrite Hexe|].
  change (GET_SECURITY_STATE SECURE =? SECURE) with true. cbv iota. unfold resume_switch.
  wp_step. apply wp_fwu_assert_true; [by rewrite Hst|]. unfold update_desc. wp_steps. done.
Qed.

Lemma secure_done_returns s :
  finv s -> attrs_kept -> next_world s = SECURE ->
  wpd (bl1_fwu_sec_image_done SECURE) (fun r s' => r = 0 /\ next_world s' = NON_SECURE) s.
Proof.
  intros Hinv Hk Hw. destruct (wo_secure _ (fi_world _ Hinv Hk) Hw) as (d & Hd & Hst & Hsec & Hexe).
  unfold bl1_fwu_sec_image_done, bl1_plat_get_image_desc.
  change (GET_SECURITY_STATE SECURE =? NON_SECURE) with false. cbv iota. wp_steps. rewrite Hd.
  apply wp_fwu_assert_true; [done|]. wp_step. apply wp_ret.
  wp_step. apply wp_fwu_assert_true; [by rewrite Hsec|].
  wp_step. apply wp_fwu_assert_true; [by rewrite Hexe|].
  wp_step. apply wp_fwu_assert_true; [by rewrite Hst|]. wp_step.
  destruct (fi_static _ Hinv _ d Hd) as [[_ Hid] _ _].
  eapply wp_remove_loaded; [apply (fi_loaded _ Hinv)|done| |].
  - intros l _ _. wp_step. apply wp_fwu_assert_true; [done|]. unfold update_desc, log. wp_steps. done.
  - intros Hno. destruct Hno. exists d. by rewrite Hst.
Qed.

Lemma reset_returns s id :
  finv s -> attrs_kept -> next_world s = NON_SECURE ->
  wpd (bl1_fwu_image_reset id NON_SECURE) (fun _ _ => True) s.
Proof.
  intros Hinv Hk Hw. unfold bl1_fwu_image_reset, bl1_plat_get_image_desc. wp_steps.
  destruct (descs s !! id) as [d|] eqn:Hd; [|done].
  change (GET_SECURITY_STATE NON_SECURE =? SECURE) with false. cbv iota.
  destruct (decide (img_state d = IMAGE_STATE_RESET)) as [->|Hr0]; [done|].
  destruct (decide (img_state d = IMAGE_STATE_EXECUTED)) as [Hx|Hx].
  { destruct (wo_exec _ (fi_world _ Hinv Hk) id d Hd Hx) as [Hs _]. by rewrite Hw in Hs. }
  destruct (fi_static _ Hinv id d Hd) as [[Hid Hidn] _ _].
  pose proof (do_secure _ _ _ (fi_desc _ Hinv id d Hd) Hk) as Hcs.
  destruct (proj2 (zlookup_lt_is_Some (auth_img_flags s) id) Hid) as [f Hf].
  destruct (img_state d); try done;
    (wp_step; eapply wp_remove_loaded; [apply (fi_loaded _ Hinv)|done| |done];
     intros l _ _; change (negb (0 =? 0)) with false; cbv iota; wp_step;
     eapply wp_mono with (Q := fun _ s' => auth_img_flags s' = auth_img_flags s) (E := no_stop);
       [|intros _ s' Hs'; unfold update_desc, log, clear_auth_flag; wp_steps; cbn; rewrite Hs';
         eapply wp_deref; [exact Hf|]; by wp_steps|done];
     apply wp_when; intros Hc; [|done]; wp_step; apply wp_fwu_assert_true; [|done];
     apply negb_true_iff, Z.eqb_neq in Hc; by rewrite Hcs).
Qed.

End Reachable.

(** ** What a copy and a failed authentication do *)

Section Effects.
Context `{Plat : FwuPlatform}.

(** One block of [n] bytes appended to the image. *)
Record block_copied (s s' : fwu_state) (id src n : Z) (d1 d' : image_desc) : Prop := {
  bc_desc : descs s' !! id = Some d';
  bc_count : copied_size d' = copied_size d1 + n /\ copied_size d' <= image_size d';
  bc_limit : image_size d' = image_size d1 /\ image_size d' <= image_max_size d1;
  bc_state : img_state d' = if decide (copied_size d' = image_size d')
                            then IMAGE_STATE_COPIED else IMAGE_STATE_COPYING;
  bc_mem : mem s' = mem_copy (mem s) (image_base d1 + copied_size d1) src n
}.

Lemma copy_block_effect s id src blk flags total d1 :
  finv s -> copy_ready s id total d1 -> 0 < blk ->
  wp (copy_block id src blk flags total)
    (fun rc s' => (rc <> 0 /\ mem s' = mem s) \/
       (rc = 0 /\ exists n d', 0 < n <= blk /\ block_copied s s' id src n d1 d'))
    (fun _ _ => True) s.
Proof.
  intros Hinv [Hd [Htot Hmax] Hcop Hsec Hst] Hblk.
  pose proof (do_sizes _ _ _ (fi_desc _ Hinv id d1 Hd)) as Hsz.
  destruct (fi_static _ Hinv id d1 Hd) as [[_ Hid] Hbase _].
  unfold copy_block, bl1_plat_get_image_desc. wp_steps. rewrite Hd. apply wp_ret.
  rewrite (u32_small (total - copied_size d1)), (u64_small (image_base d1 + copied_size d1)) by lia.
  cbv zeta. set (rem := total - copied_size d1). set (n := if rem <? blk then rem else blk).
  assert (0 < n <= blk /\ n <= rem) as Hn.
  { unfold n, rem. destruct (Z.ltb_spec (total - copied_size d1) blk); lia. }
  destruct (_ =? 0); cbn [negb]; [|apply wp_ret; by left].
  wp_step. eapply wp_add_loaded; [apply (fi_loaded _ Hinv)|done| |apply wp_ret; by left].
  intros l Hl. change (negb (0 =? 0)) with false. cbv iota. wp_step.
  eapply wp_mono with (Q := fun _ s' => s' = set_loaded l s) (E := fun _ _ => True);
    [case_bool_decide; [by apply wp_gets|by apply wp_ret]|intros pre s' ->|done].
  destruct (pre =? 0); cbn [negb].
  - unfold update_desc. wp_steps. right. split; [done|].
    cbn [descs set_mem set_descs set_loaded mem].
    rewrite (alter_insert _ _ _ _ Hd).
    rewrite (alter_insert (<[id := _]> _) id _ _ (lookup_insert_eq _ _ _)), insert_insert_eq.
    rewrite (u32_small (copied_size d1 + n)) by (unfold rem in *; lia).
    eexists n, _. split; [lia|]. split; [apply lookup_insert_eq|cbn; unfold rem in *; lia
      |cbn; lia|cbn|done].
    destruct (Z.eqb_spec n rem); [rewrite decide_True|rewrite decide_False]; unfold rem in *; done || lia.
  - wp_step. unfold bl1_fwu_remove_loaded_id. wp_steps.
    destruct (first_index id _); wp_steps; by left.
Qed.

(** IMAGE_COPY writes only the image's own destination: a call that fails
    changes no memory; a call that succeeds appends between 1 and [block_size]
    bytes of the source to what was copied of an image of another world (starting at its
    base when it was in the RESET state), within its recorded size and the
    limit of its descriptor, and the image is COPIED exactly when the recorded
    size is reached. *)
Theorem image_copy_effect s s' id src blk size flags rc :
  finv s -> 0 <= blk < 2 ^ 32 -> 0 <= size < 2 ^ 32 ->
  bl1_fwu_image_copy id src blk size flags s = Done rc s' ->
  (rc <> 0 /\ mem s' = mem s) \/
  (rc = 0 /\ exists n d d1 d' s1, descs s !! id = Some d /\ img_security d <> NON_SECURE /\
     image_base d1 = image_base d /\ image_max_size d1 = image_max_size d /\
     copied_size d1 = (if decide (img_state d = IMAGE_STATE_COPYING) then copied_size d else 0) /\
     mem s1 = mem s /\ 0 < n <= blk /\ block_copied s1 s' id src n d1 d').
Proof.
  intros Hinv Hblk Hsize Hrun.
  cut (wp (bl1_fwu_image_copy id src blk size flags)
    (fun rc s' => (rc <> 0 /\ mem s' = mem s) \/
     (rc = 0 /\ exists n d d1 d' s1, descs s !! id = Some d /\ img_security d <> NON_SECURE /\
     image_base d1 = image_base d /\ image_max_size d1 = image_max_size d /\
     copied_size d1 = (if decide (img_state d = IMAGE_STATE_COPYING) then copied_size d else 0) /\
     mem s1 = mem s /\ 0 < n <= blk /\ block_copied s1 s' id src n d1 d')) (fun _ _ => True) s).
  { unfold wp. by rewrite Hrun. }
  unfold bl1_fwu_image_copy, bl1_plat_get_image_desc. wp_steps.
  destruct (descs s !! id) as [d|] eqn:Hd; [|apply wp_ret; by left].
  destruct (_ =? SECURE); [apply wp_ret; by left|].
  destruct (Z.eqb_spec (img_security d) NON_SECURE) as [|Hsec]; [apply wp_ret; by left|].
  assert (attrs_kept -> img_security d = SECURE) as Hsec'.
  { intros Hk. destruct (ds_sec _ _ _ (fi_static _ Hinv id d Hd) Hk); [done|congruence]. }
  destruct (_ && _) eqn:Hst; [apply wp_ret; by left|].
  destruct (_ || _) eqn:Harg; [apply wp_ret; by left|].
  apply orb_false_iff in Harg as [[_ Hb0%Z.eqb_neq]%orb_false_iff _].
  wp_step. eapply wp_copy_size; try done.
  - apply andb_false_iff in Hst as [Hst%negb_false_iff|Hst%negb_false_iff];
      apply bool_decide_eq_true in Hst; auto.
  - intros rc' s1 _ Hne Hm. apply wp_ret. by left.
  - intros total s1 d1 Hinv1 Hcr Hm Hb Hmx Hcs.
    eapply wp_mono; [eapply copy_block_effect; eauto; lia| |done].
    intros rc' s2 [[Hne Hm2]|(-> & n & d' & Hn & Hbc)]; [left; split; congruence|].
    right. split; [done|]. exists n, d, d1, d', s1. done.
Qed.


(** ** RESUME after RESET *)

Lemma loaded_removable id s :
  id ∈ bl1_fwu_loaded_ids s -> exists l, bl1_fwu_remove_loaded_id id s = Done 0 (set_loaded l s).
Proof.
  intros Hin. unfold bl1_fwu_remove_loaded_id, bind, gets. destruct (first_index id _) as [i|] eqn:Hi; [by eexists|].
  by apply first_index_none in Hi.
Qed.

(** What a RESET of the last executed image leaves: it is still the one that a
    RESUME takes. *)
Lemma reset_interrupted s d :
  descs s !! sec_exec_image_id s = Some d -> img_state d = IMAGE_STATE_INTERRUPTED ->
  img_security d = SECURE -> sec_exec_image_id s ∈ bl1_fwu_loaded_ids s ->
  is_Some ((auth_img_flags s).[sec_exec_image_id s]) ->
  wpd (bl1_fwu_image_reset (sec_exec_image_id s) NON_SECURE) (fun rc s1 => rc = 0 /\
    sec_exec_image_id s1 = sec_exec_image_id s /\ ftrace s1 = F_reset (sec_exec_image_id s) :: ftrace s /\
    descs s1 !! sec_exec_image_id s = Some (with_state IMAGE_STATE_RESET (with_size 0 (with_copied 0 d))) /\
    mem s1 = (if copied_size d =? 0 then mem s else mem_zero (mem s) (image_base d) (copied_size d))) s.
Proof.
  intros Hd Hst Hsec Hin [f Hf]. unfold bl1_fwu_image_reset, bl1_plat_get_image_desc. wp_steps. rewrite Hd, Hst.
  change (GET_SECURITY_STATE NON_SECURE =? SECURE) with false. cbv iota.
  destruct (loaded_removable _ _ Hin) as [l Hl]. wp_step. eapply wp_exact; [exact Hl|].
  change (negb (0 =? 0)) with false. cbv iota. unfold update_desc, log, clear_auth_flag.
  destruct (copied_size d =? 0); cbn [negb when]; wp_steps.
  2: apply wp_fwu_assert_true; [by rewrite Hsec|]; wp_steps.
  all: eapply wp_deref; [exact Hf|]; wp_steps; cbn; rewrite !lookup_alter_eq, Hd; done.
Qed.

(** C26. RESUME after RESET: when the normal world resets the last executed
    secure image while it is interrupted, the image stays the one that RESUME
    takes, and only an assertion tests its state. In a build with assertions the
    following RESUME stops BL1. Without them it succeeds: the secure world runs
    again in the image, which is in the EXECUTED state although it was not
    authenticated since it was reset, and whose copied memory was wiped. *)
Theorem resume_after_reset_unauthenticated s d param :
  descs s !! sec_exec_image_id s = Some d -> img_state d = IMAGE_STATE_INTERRUPTED ->
  img_security d = SECURE -> img_exe d = EXECUTABLE -> sec_exec_image_id s ∈ bl1_fwu_loaded_ids s ->
  is_Some ((auth_img_flags s).[sec_exec_image_id s]) ->
  let id := sec_exec_image_id s in
  exists s1, bl1_fwu_image_reset id NON_SECURE s = Done 0 s1 /\
    if BL1_ENABLE_ASSERTIONS then bl1_fwu_image_resume param NON_SECURE s1 = Stopped AssertFailed s1
    else exists s2, bl1_fwu_image_resume param NON_SECURE s1 = Done param s2 /\
      next_world s2 = SECURE /\ img_state <$> descs s2 !! id = Some IMAGE_STATE_EXECUTED /\
      ~ authed id (ftrace s2) /\
      forall a, image_base d <= a < image_base d + copied_size d -> mem s2 a = 0.
Proof.
  intros Hd Hst Hsec Hexe Hin Hf. cbv zeta.
  destruct (wpd_done _ _ _ (reset_interrupted s d Hd Hst Hsec Hin Hf)) as (rc & s1 & Hrun & -> & Hx & Ht & Hd1 & Hm).
  exists s1. split; [done|].
  set (d1 := with_state IMAGE_STATE_RESET (with_size 0 (with_copied 0 d))) in *.
  assert (bl1_fwu_image_resume param NON_SECURE s1 =
    (fwu_assert true ;; fwu_assert true ;; resume_switch (sec_exec_image_id s) IMAGE_STATE_INTERRUPTED
      IMAGE_STATE_EXECUTED SECURE param d1) s1) as Hres.
  { replace true with (img_security d1 =? SECURE) at 1 by (unfold d1; change (img_security d =? SECURE = true); by rewrite Hsec).
    replace true with (img_exe d1 =? EXECUTABLE) by (unfold d1; change (img_exe d =? EXECUTABLE = true); by rewrite Hexe).
    unfold bl1_fwu_image_resume, bl1_plat_get_image_desc, bind at 1 2, gets. rewrite Hx, Hd1. done. }
  rewrite Hres. unfold resume_switch, fwu_assert, assert_, bind.
  destruct BL1_ENABLE_ASSERTIONS; [done|]. eexists. split; [done|]. cbn. split; [done|]. split.
  { by rewrite lookup_alter_eq, Hd1. }
  split.
  - rewrite Ht. intros (u & b & n & v & Heq & Hu). destruct u as [|e u]; [done|]. injection Heq as <- _.
    apply Hu, elem_of_cons. by left.
  - intros a Ha. rewrite Hm. destruct (Z.eqb_spec (copied_size d) 0); [lia|]. unfold mem_zero.
    by rewrite (proj2 (Z.leb_le _ _)), (proj2 (Z.ltb_lt _ _)) by lia.
Qed.
End Effects.

(** ** A concrete update *)
Module FwuRun.

(** Two secure executable images; an image is genuine when its first byte is
    [0xaa]. The genuine image is at [0x8000], another one at [0x9000]. *)
Definition platform (assertions : bool) : FwuPlatform := {|
  FWU_MAX_SIMULTANEOUS_IMAGES := 2;
  BL1_ENABLE_ASSERTIONS := assertions;
  el2_implemented := true;
  bl1_plat_mem_check := fun _ _ _ => 0;
  bl1_plat_handle_pre_image_load := fun _ _ => 0;
  bl1_plat_handle_post_image_load := fun _ _ => 0;
  bl1_plat_set_ep_info := fun _ ep => ep;
  auth_mod_verify_img := fun _ base _ m fl => (if m base =? 0xaa then 0 else 1, fl)
|}.

Definition desc (base : Z) : image_desc := {|
  img_state := IMAGE_STATE_RESET; copied_size := 0; image_base := base; image_size := 0;
  image_max_size := 0x100;
  img_ep := {| ep_type := 1; ep_version := 1; ep_size := 88; ep_attr := 0x8; ep_pc := base;
               ep_spsr := 0; ep_args := [] |} |}.

Definition s0 : fwu_state := {|
  descs := <[5 := desc 0x1000]> (<[6 := desc 0x2000]> ∅);
  bl1_fwu_loaded_ids := [INVALID_IMAGE_ID; INVALID_IMAGE_ID];
  sec_exec_image_id := INVALID_IMAGE_ID;
  next_world := NON_SECURE;
  auth_img_flags := replicate 8 0;
  mem := fun a => if (0x8000 <=? a) && (a <? 0x9000) then 0xaa
                  else if (0x9000 <=? a) && (a <? 0xa000) then 0xbb else 0;
  ftrace := []
|}.

#[export] Instance platform_ok a : @FwuPlatformOk (platform a).
Proof. by split. Qed.

Lemma platform_attrs a : @attrs_kept (platform a).
Proof. done. Qed.

Lemma s0_initial a : @fwu_initial (platform a) s0.
Proof.
  split; try done.
  - intros id d. cbn. rewrite !lookup_insert. repeat case_decide; intros [= <-]; subst;
      (split; [cbn; unfold INVALID_IMAGE_ID; lia|cbn; lia|by left]).
  - intros id d. cbn. rewrite !lookup_insert. repeat case_decide; intros [= <-]; done.
Qed.

Section Calls.
Context (a : bool).
#[local] Instance P : FwuPlatform := platform a.

(** Image 5 is copied, authenticated, executed, interrupted. *)
Definition s1 : fwu_state := final (bl1_fwu_smc_handler FWU_SMC_IMAGE_COPY 5 0x8000 16 16 1 s0).
Definition s2 : fwu_state := final (bl1_fwu_smc_handler FWU_SMC_IMAGE_AUTH 5 0 0 0 1 s1).
Definition s3 : fwu_state := final (bl1_fwu_smc_handler FWU_SMC_IMAGE_EXECUTE 5 0 0 0 1 s2).
Definition s4 : fwu_state := final (bl1_fwu_smc_handler FWU_SMC_IMAGE_RESUME 0 0 0 0 0 s3).
(** The normal world resets it and copies another image over it. *)
Definition s5 : fwu_state := final (bl1_fwu_smc_handler FWU_SMC_IMAGE_RESET 5 0 0 0 1 s4).
Definition s6 : fwu_state := final (bl1_fwu_smc_handler FWU_SMC_IMAGE_COPY 5 0x9000 16 16 1 s5).
Definition s7 : fwu_state := final (bl1_fwu_smc_handler FWU_SMC_IMAGE_RESUME 0 0 0 0 1 s6).

(** A one-byte image is copied. *)
Definition t1 : fwu_state := final (bl1_fwu_smc_handler FWU_SMC_IMAGE_COPY 5 0x8000 1 1 1 s0).
End Calls.

(** The normal world can copy an unauthenticated image over one that was reset
    and RESUME: in a build without assertions the secure world runs again, with
    memory whose authentication would fail. *)
Theorem resume_runs_other_image :
  next_world (s7 false) = SECURE /\
  img_state <$> descs (s7 false) !! 5 = Some IMAGE_STATE_EXECUTED /\
  mem (s7 false) 0x1000 = 0xbb /\
  fst (@auth_mod_verify_img (platform false) 5 0x1000 16 (mem (s7 false)) (auth_img_flags (s7 false))) <> 0 /\
  ftrace (s7 false) = [F_reset 5; F_prepared 5; F_authenticated 5 0x1000 16].
Proof. vm_compute. split_and!; done. Qed.

(** A one-byte image: after it has been copied, copying any other image
    fails the assertion [image_end > image_base] of the overlap check, although
    the images do not overlap. *)
Theorem one_byte_image_assertion :
  @bl1_fwu_image_copy (platform true) 5 0x8000 1 1 1 s0 = Done 0 (t1 true) /\
  match @bl1_fwu_image_copy (platform true) 6 0x8000 16 16 1 (t1 true) with
  | Stopped AssertFailed _ => True
  | _ => False
  end.
Proof. vm_compute. split; [reflexivity|done]. Qed.

(** The calls up to the interruption, as steps. *)
Lemma call_step a fid x1 x2 x3 x4 flags s :
  (GET_SECURITY_STATE flags =? next_world s) = true ->
  match @bl1_fwu_smc_handler (platform a) fid x1 x2 x3 x4 flags s with Done _ _ => true | _ => false end = true ->
  @fwu_step (platform a) s (final (@bl1_fwu_smc_handler (platform a) fid x1 x2 x3 x4 flags s)).
Proof.
  intros Hfl%Z.eqb_eq Hrun.
  destruct (@bl1_fwu_smc_handler (platform a) fid x1 x2 x3 x4 flags s) as [r s'|] eqn:Hr; [|done].
  by eapply fwu_call.
Qed.

Lemma steps_03 : rtc (@fwu_step (platform true)) s0 (s3 true).
Proof.
  eapply rtc_l; [apply (call_step true FWU_SMC_IMAGE_COPY 5 0x8000 16 16 1 s0); vm_compute; reflexivity|].
  eapply rtc_l; [apply (call_step true FWU_SMC_IMAGE_AUTH 5 0 0 0 1 (s1 true)); vm_compute; reflexivity|].
  apply rtc_once. apply (call_step true FWU_SMC_IMAGE_EXECUTE 5 0 0 0 1 (s2 true)); vm_compute; reflexivity.
Qed.

Lemma steps_01 : rtc (@fwu_step (platform true)) s0 (s1 true).
Proof.
  apply rtc_once. apply (call_step true FWU_SMC_IMAGE_COPY 5 0x8000 16 16 1 s0); vm_compute; reflexivity.
Qed.




Lemma s1_inv : @finv (platform true) (s1 true).
Proof. eapply fwu_reachable_inv; [reflexivity|apply s0_initial|apply steps_01]. Qed.

Lemma image_copy_effect_witness :
  exists rc s', @bl1_fwu_image_copy (platform true) 5 0x8000 4 16 1 s0 = Done rc s' /\
  ((rc <> 0 /\ mem s' = mem s0) \/
   (rc = 0 /\ exists n d d1 d' sm, descs s0 !! 5 = Some d /\ img_security d <> NON_SECURE /\
     image_base d1 = image_base d /\ image_max_size d1 = image_max_size d /\
     copied_size d1 = (if decide (img_state d = IMAGE_STATE_COPYING) then copied_size d else 0) /\
     mem sm = mem s0 /\ 0 < n <= 4 /\ block_copied sm s' 5 0x8000 n d1 d')).
Proof.
  destruct (@bl1_fwu_image_copy (platform true) 5 0x8000 4 16 1 s0) as [rc s'|w s'] eqn:Hrun.
  - exists rc, s'. split; [reflexivity|].
    apply (@image_copy_effect (platform true) s0 s' 5 0x8000 4 16 1 rc).
    + apply fwu_initial_inv, s0_initial.
    + lia.
    + lia.
    + exact Hrun.
  - exfalso. assert (match @bl1_fwu_image_copy (platform true) 5 0x8000 4 16 1 s0 with
      | Done _ _ => True | _ => False end) as Hd by (vm_compute; exact I).
    rewrite Hrun in Hd. exact Hd.
Defined.

(** Image 5 copied from [0x9000] does not authenticate. *)
Definition w1 : fwu_state :=
  final (@bl1_fwu_smc_handler (platform true) FWU_SMC_IMAGE_COPY 5 0x9000 16 16 1 s0).

Definition copied_desc : image_desc :=
  with_state IMAGE_STATE_COPIED (with_copied 16 (with_size 16 (desc 0x1000))).

Lemma w1_inv : @finv (platform true) w1.
Proof.
  eapply fwu_reachable_inv; [reflexivity|apply s0_initial|].
  apply rtc_once. apply (call_step true FWU_SMC_IMAGE_COPY 5 0x9000 16 16 1 s0); vm_compute; reflexivity.
Qed.


(** Image 5 is reset while it is interrupted. *)
Lemma resume_after_reset_witness :
  exists t1 t2, @bl1_fwu_image_reset (platform false) 5 NON_SECURE (s4 false) = Done 0 t1 /\
    @bl1_fwu_image_resume (platform false) 7 NON_SECURE t1 = Done 7 t2 /\ next_world t2 = SECURE /\
    ~ authed 5 (ftrace t2).
Proof.
  destruct (@resume_after_reset_unauthenticated (platform false) (s4 false)
    (default (desc 0) (descs (s4 false) !! 5)) 7) as (t1 & Hrun & t2 & Hrun2 & Hw & _ & Ha & _).
  - vm_compute. reflexivity.
  - vm_compute. reflexivity.
  - vm_compute. reflexivity.
  - vm_compute. reflexivity.
  - vm_compute. apply list_elem_of_here.
  - vm_compute. eexists. reflexivity.
  - exists t1, t2. split; [exact Hrun|]. split; [exact Hrun2|]. split; [exact Hw|exact Ha].
Defined.
End FwuRun.
