(* ===== verification/Bakery.v ===== *)
(** * Bakery locks (lib/locks/bakery/bakery_lock_coherent.c)

    The lock PSCI takes on each power domain. CPUs run [bakery_lock_get] and
    [bakery_lock_release] at the same time on the shared array [lock_data];
    the memory of the locks is fully ordered and coherent and an aligned
    access is single-copy atomic (bakery_lock_coherent.c:17-36), so that a run
    is an interleaving of the CPUs' accesses, one at a time. [location] is
    where a CPU stands between two accesses, with the locals it holds. *)

From stdpp Require Import list_numbers.
From S2P Require Import Prelude.
#[local] Open Scope cmd_scope.

(** ** The data of one CPU: bit 0 is [choosing], bits 1-15 the ticket *)

Definition CHOOSING_TICKET : Z := 1.
Definition CHOSEN_TICKET : Z := 0.

Definition bakery_get_priority (t pos : Z) : Z := Z.lor (u32 (Z.shiftl t 8)) pos.

Definition bakery_is_choosing (info : Z) : bool := Z.land info 1 =? CHOOSING_TICKET.

Definition bakery_ticket_number (info : Z) : Z := Z.land (Z.shiftr info 1) 0x7FFF.

Definition make_bakery_data (choosing num : Z) : Z :=
  u16 (Z.lor (Z.land choosing 1) (u32 (Z.shiftl num 1))).

(** ** Where a CPU stands *)

Inductive location : Set :=
  | Outside
  | Scanning (they my_ticket : Z)
  | Checking (they my_ticket : Z)
  | Watching (they my_ticket their_ticket : Z)
  | Holding.

#[export] Instance location_eq_dec : EqDecision location.
Proof. solve_decision. Defined.

(** [BAKERY_LOCK_MAX_CPUS] is [PLATFORM_CORE_COUNT]; a position must fit in
    the low byte of a priority. *)
Class BakeryConfig := {
  BAKERY_LOCK_MAX_CPUS : Z;
  bakery_cpus_bound : 0 <= BAKERY_LOCK_MAX_CPUS <= 256
}.

Definition lock_memory : Type := list Z.

Section Bakery.
Context `{Cfg : BakeryConfig}.

Definition read_data (cpu : Z) : cmd lock_memory Z :=
  let! l := gets id in deref (l.[cpu]).

Definition write_data (cpu v : Z) : cmd lock_memory unit :=
  modify (fun l => zupdate l cpu v).

(** [bakery_get_ticket]: the recursion check and the first store. *)
Definition bakery_ticket_begin (me : Z) : cmd lock_memory location :=
  assert_ true (me <? BAKERY_LOCK_MAX_CPUS) ;;
  let! d := read_data me in
  assert_ true (bakery_ticket_number d =? 0) ;;
  write_data me (make_bakery_data CHOOSING_TICKET 0) ;;
  ret (Scanning 0 0).

(** One iteration of its loop, or the store of the ticket after it. *)
Definition bakery_ticket_scan (me they my_ticket : Z) : cmd lock_memory location :=
  if they <? BAKERY_LOCK_MAX_CPUS then
    let! d := read_data they in
    let their_ticket := bakery_ticket_number d in
    ret (Scanning (they + 1) (if my_ticket <? their_ticket then their_ticket else my_ticket))
  else
    let my_ticket := u32 (my_ticket + 1) in
    write_data me (make_bakery_data CHOSEN_TICKET my_ticket) ;;
    ret (Checking 0 my_ticket).

(** [bakery_lock_get]: one read of the first wait loop of the iteration for
    [they], with what follows it; the end of the loop acquires the lock. *)
Definition bakery_check (me they my_ticket : Z) : cmd lock_memory location :=
  if they <? BAKERY_LOCK_MAX_CPUS then
    if me =? they then ret (Checking (they + 1) my_ticket)
    else
      let! their_bakery_data := read_data they in
      if bakery_is_choosing their_bakery_data then ret (Checking they my_ticket)
      else
        let their_ticket := bakery_ticket_number their_bakery_data in
        if negb (their_ticket =? 0) &&
           (bakery_get_priority their_ticket they <? bakery_get_priority my_ticket me)
        then ret (Watching they my_ticket their_ticket)
        else ret (Checking (they + 1) my_ticket)
  else ret Holding.

(** One read of the second wait loop. *)
Definition bakery_watch (they my_ticket their_ticket : Z) : cmd lock_memory location :=
  let! d := read_data they in
  if their_ticket =? bakery_ticket_number d then ret (Watching they my_ticket their_ticket)
  else ret (Checking (they + 1) my_ticket).

Definition bakery_lock_release (me : Z) : cmd lock_memory location :=
  assert_ true (me <? BAKERY_LOCK_MAX_CPUS) ;;
  let! d := read_data me in
  assert_ true (negb (bakery_ticket_number d =? 0)) ;;
  write_data me 0 ;;
  ret Outside.

(** The next access of CPU [me]. *)
Definition cpu_access (me : Z) (at_ : location) : cmd lock_memory location :=
  match at_ with
  | Outside => bakery_ticket_begin me
  | Scanning they my_ticket => bakery_ticket_scan me they my_ticket
  | Checking they my_ticket => bakery_check me they my_ticket
  | Watching they my_ticket their_ticket => bakery_watch they my_ticket their_ticket
  | Holding => bakery_lock_release me
  end.

(** ** Interleavings

    [tickets] counts the tickets handed out since no CPU held the lock or
    contended for it; it is not part of the program. *)

Record bakery := {
  lock_data : lock_memory;
  where_ : list location;
  tickets : Z
}.

Definition all_outside (w : list location) : bool := forallb (fun p => bool_decide (p = Outside)) w.

Definition issue (p p' : location) (n : Z) : Z :=
  match p, p' with
  | Scanning _ _, Checking _ _ => n + 1
  | _, _ => n
  end.

Definition count_ticket (w : list location) (p p' : location) (n : Z) : Z :=
  if all_outside w then 0 else issue p p' n.

Inductive bakery_step : bakery -> bakery -> Prop :=
  | bakery_access l w n me p p' l' :
      w.[me] = Some p -> cpu_access me p l = Done p' l' ->
      bakery_step {| lock_data := l; where_ := w; tickets := n |}
                  {| lock_data := l'; where_ := zupdate w me p'; tickets := count_ticket w p p' n |}.

(** The lock before its first use: zeroed memory and no CPU inside. *)
Definition bakery_initial : bakery := {|
  lock_data := replicate (Z.to_nat BAKERY_LOCK_MAX_CPUS) 0;
  where_ := replicate (Z.to_nat BAKERY_LOCK_MAX_CPUS) Outside;
  tickets := 0
|}.

(** A step of a run in which at most 2^15 - 1 tickets are handed out between
    two moments when the lock is free with no contender. *)
Definition bounded_step (b b' : bakery) : Prop := bakery_step b b' /\ tickets b' <= 0x7FFF.

(** ** Bits *)

Lemma priority_value t pos :
  0 <= t < 2 ^ 24 -> 0 <= pos < 256 -> bakery_get_priority t pos = t * 256 + pos.
Proof.
  intros Ht Hp. unfold bakery_get_priority. rewrite u32_small, lor_shiftl by (rewrite ?Z.shiftl_mul_pow2; lia).
  lia.
Qed.

(** Priorities order tickets first and positions second. *)
Lemma priority_lt t i t' j :
  0 <= t < 2 ^ 24 -> 0 <= t' < 2 ^ 24 -> 0 <= i < 256 -> 0 <= j < 256 ->
  bakery_get_priority t i < bakery_get_priority t' j <-> t < t' \/ (t = t' /\ i < j).
Proof. intros. rewrite !priority_value by done. lia. Qed.

Lemma chosen_data t : 0 <= t <= 0x7FFF -> make_bakery_data CHOSEN_TICKET t = 2 * t.
Proof.
  intros Ht. unfold make_bakery_data, CHOSEN_TICKET. rewrite Z.land_0_l, Z.lor_0_l.
  rewrite Z.shiftl_mul_pow2 by lia. unfold u16. rewrite u32_small by lia.
  rewrite Z.mod_small by lia. lia.
Qed.

Lemma ticket_of_chosen t : 0 <= t <= 0x7FFF -> bakery_ticket_number (2 * t) = t.
Proof.
  intros Ht. unfold bakery_ticket_number. change 0x7FFF with (Z.ones 15).
  rewrite Z.land_ones, Z.shiftr_div_pow2 by lia. rewrite Z.mul_comm, Z.div_mul by lia.
  apply Z.mod_small. lia.
Qed.

Lemma chosen_not_choosing t : bakery_is_choosing (2 * t) = false.
Proof.
  unfold bakery_is_choosing, CHOOSING_TICKET. change 1 with (Z.ones 1) at 1.
  rewrite Z.land_ones by lia. rewrite Z.mul_comm. by rewrite Z.mod_mul.
Qed.

End Bakery.
