(* ===== verification/BakeryProps.v ===== *)
(** * Bakery locks: exclusion, order and progress

    The lock against its contract: one holder at a time, first come first
    served, and every contender is served once no new one arrives. *)

From stdpp Require Import list_numbers.
From S2P Require Import Prelude Bakery.
#[local] Open Scope cmd_scope.

Section BakeryProps.
Context `{Cfg : BakeryConfig}.

Abbreviation N := BAKERY_LOCK_MAX_CPUS.

(** ** The invariant *)

(** The data of a CPU determines its location and the locals it holds; [T]
    bounds the tickets. *)
Definition loc_ok (T i : Z) (p : location) (d : Z) : Prop :=
  match p with
  | Outside => d = 0
  | Scanning k m => d = 1 /\ 0 <= k <= N /\ 0 <= m <= T
  | Checking k t => d = 2 * t /\ 1 <= t <= T /\ 0 <= k <= N
  | Watching k t th => d = 2 * t /\ 1 <= t <= T /\ 0 <= k < N /\ k <> i /\ 1 <= th <= T /\
      bakery_get_priority th k < bakery_get_priority t i
  | Holding => exists t, d = 2 * t /\ 1 <= t <= T
  end.

(** CPU [j] cannot get in front of CPU [i] with ticket [t]. *)
Definition behind (i t j : Z) (q : location) (dj : Z) : Prop :=
  match q with
  | Outside => True
  | Scanning k m => k <= i \/ t <= m
  | _ => bakery_get_priority t i < bakery_get_priority (bakery_ticket_number dj) j
  end.

(** A CPU that has finished its iteration for [j]. *)
Definition passed (p : location) (j : Z) : Prop :=
  match p with
  | Checking k _ | Watching k _ _ => j < k
  | Holding => True
  | _ => False
  end.

Definition ticketed (p : location) : bool :=
  match p with
  | Outside | Scanning _ _ => false
  | _ => true
  end.

Record pair_ok (i : Z) (p : location) (di j : Z) (q : location) (dj : Z) : Prop := {
  po_passed : passed p j -> behind i (bakery_ticket_number di) j q dj;
  po_watch : forall t th, p = Watching j t th ->
    (bakery_ticket_number dj = th /\ ticketed q = true) \/ behind i t j q dj
}.

Record bakery_inv (b : bakery) : Prop := {
  bi_data : Z.of_nat (length (lock_data b)) = N;
  bi_where : Z.of_nat (length (where_ b)) = N;
  bi_bound : 0 <= tickets b <= 0x7FFF;
  bi_local : forall i p d, (where_ b).[i] = Some p -> (lock_data b).[i] = Some d ->
    loc_ok (tickets b) i p d;
  bi_pair : forall i j p q di dj, i <> j ->
    (where_ b).[i] = Some p -> (where_ b).[j] = Some q ->
    (lock_data b).[i] = Some di -> (lock_data b).[j] = Some dj -> pair_ok i p di j q dj
}.

(** Only the ticket and the kind of location matter to an onlooker. *)
Lemma ticketed_number T i p d :
  T <= 0x7FFF -> loc_ok T i p d -> ticketed p = true ->
  1 <= bakery_ticket_number d <= T /\ d = 2 * bakery_ticket_number d.
Proof.
  intros HT. destruct p; cbn; try done; intros H _; destruct_and?; try destruct H as (t & -> & ?);
    subst; rewrite ticket_of_chosen by lia; lia.
Qed.

Lemma unticketed_number T i p d :
  loc_ok T i p d -> ticketed p = false -> bakery_ticket_number d = 0.
Proof. destruct p; cbn; try done; intros H _; destruct_and?; by subst. Qed.

(** Not choosing, with ticket 0: outside. *)
Lemma idle_data T i p d :
  T <= 0x7FFF -> loc_ok T i p d -> bakery_is_choosing d = false -> bakery_ticket_number d = 0 ->
  p = Outside.
Proof.
  intros HT Hok Hch Hn. destruct (ticketed p) eqn:Ht.
  - pose proof (ticketed_number _ _ _ _ HT Hok Ht). lia.
  - destruct p; cbn in *; try done. destruct Hok as (-> & _). done.
Qed.

Lemma choosing_scans T i p d :
  loc_ok T i p d -> bakery_is_choosing d = true -> exists k m, p = Scanning k m.
Proof.
  destruct p; cbn; intros H; destruct_and?; try destruct H as (t & -> & ?); subst;
    rewrite ?chosen_not_choosing; eauto; done.
Qed.

(** ** The accesses, one rule per branch *)

Inductive moves (me : Z) (l : lock_memory) : location -> location -> lock_memory -> Prop :=
  | m_begin d : me < N -> l.[me] = Some d -> bakery_ticket_number d = 0 ->
      moves me l Outside (Scanning 0 0) (zupdate l me 1)
  | m_scan k m d : k < N -> l.[k] = Some d ->
      moves me l (Scanning k m) (Scanning (k + 1) (Z.max m (bakery_ticket_number d))) l
  | m_take (k m : Z) : N <= k ->
      moves me l (Scanning k m) (Checking 0 (u32 (m + 1)))
        (zupdate l me (make_bakery_data CHOSEN_TICKET (u32 (m + 1))))
  | m_self t : me < N -> moves me l (Checking me t) (Checking (me + 1) t) l
  | m_spin k t d : k < N -> me <> k -> l.[k] = Some d -> bakery_is_choosing d = true ->
      moves me l (Checking k t) (Checking k t) l
  | m_watch k t d : k < N -> me <> k -> l.[k] = Some d -> bakery_is_choosing d = false ->
      bakery_ticket_number d <> 0 ->
      bakery_get_priority (bakery_ticket_number d) k < bakery_get_priority t me ->
      moves me l (Checking k t) (Watching k t (bakery_ticket_number d)) l
  | m_pass k t d : k < N -> me <> k -> l.[k] = Some d -> bakery_is_choosing d = false ->
      bakery_ticket_number d = 0 \/
      bakery_get_priority t me <= bakery_get_priority (bakery_ticket_number d) k ->
      moves me l (Checking k t) (Checking (k + 1) t) l
  | m_enter (k t : Z) : N <= k -> moves me l (Checking k t) Holding l
  | m_stay k t d : l.[k] = Some d ->
      moves me l (Watching k t (bakery_ticket_number d)) (Watching k t (bakery_ticket_number d)) l
  | m_next k t th d : l.[k] = Some d -> bakery_ticket_number d <> th ->
      moves me l (Watching k t th) (Checking (k + 1) t) l
  | m_release d : me < N -> l.[me] = Some d -> bakery_ticket_number d <> 0 ->
      moves me l Holding Outside (zupdate l me 0).

Lemma access_moves me p l p' l' : cpu_access me p l = Done p' l' -> moves me l p p' l'.
Proof.
  destruct p as [|k m|k t|k t th|]; cbn [cpu_access].
  - unfold bakery_ticket_begin, read_data, write_data, bind, assert_, gets, modify, halt, ret. cbn.
    destruct (Z.ltb_spec me N); cbn; [|done]. destruct (l.[me]) as [d|] eqn:Hd; cbn; [|done].
    destruct (Z.eqb_spec (bakery_ticket_number d) 0); cbn; [|done]. intros [= <- <-]. by econstructor.
  - unfold bakery_ticket_scan, read_data, write_data, bind, gets, modify, ret.
    destruct (Z.ltb_spec k N); cbn.
    + destruct (l.[k]) as [d|] eqn:Hd; cbn; [|done]. intros [= <- <-].
      replace (if m <? bakery_ticket_number d then bakery_ticket_number d else m)
        with (Z.max m (bakery_ticket_number d)); [by econstructor|].
      destruct (Z.ltb_spec m (bakery_ticket_number d)); lia.
    + intros [= <- <-]. by constructor.
  - unfold bakery_check, read_data, bind, gets, ret. destruct (Z.ltb_spec k N); cbn.
    + destruct (Z.eqb_spec me k) as [->|Hne]; [intros [= <- <-]; by constructor|]. cbn.
      destruct (l.[k]) as [d|] eqn:Hd; cbn; [|done].
      destruct (bakery_is_choosing d) eqn:Hch; [intros [= <- <-]; by econstructor|].
      destruct (Z.eqb_spec (bakery_ticket_number d) 0); cbn; [intros [= <- <-]; econstructor; eauto|].
      destruct (Z.ltb_spec (bakery_get_priority (bakery_ticket_number d) k) (bakery_get_priority t me));
        intros [= <- <-]; econstructor; eauto.
    + intros [= <- <-]. by constructor.
  - unfold bakery_watch, read_data, bind, gets, ret. cbn. destruct (l.[k]) as [d|] eqn:Hd; cbn; [|done].
    destruct (Z.eqb_spec th (bakery_ticket_number d)) as [->|Hne]; intros [= <- <-]; by econstructor.
  - unfold bakery_lock_release, read_data, write_data, bind, assert_, gets, modify, halt, ret. cbn.
    destruct (Z.ltb_spec me N); cbn; [|done]. destruct (l.[me]) as [d|] eqn:Hd; cbn; [|done].
    destruct (Z.eqb_spec (bakery_ticket_number d) 0); cbn; [done|]. intros [= <- <-]. by econstructor.
Qed.

(** A CPU that is behind another stays behind while the other keeps its
    ticket. *)
Lemma behind_moves T i t di j q dj q' l l' :
  issue q q' T <= 0x7FFF -> i <> j -> 0 <= i < N -> 0 <= j < N ->
  l.[i] = Some di -> bakery_ticket_number di = t -> 1 <= t <= T ->
  l.[j] = Some dj -> loc_ok T j q dj -> moves j l q q' l' -> behind i t j q dj ->
  exists dj', l'.[j] = Some dj' /\ behind i t j q' dj'.
Proof.
  intros HT Hne Hi Hj Hdi Hti Ht Hdj Hok Hm Hb. pose proof bakery_cpus_bound.
  destruct Hm; cbn in HT, Hok, Hb |- *; try (eexists; split; [exact Hdj|]; exact Hb);
    try (eexists; split; [exact Hdj|]; lia).
  - exists 1. split; [|lia]. by eapply zlookup_zupdate_eq, zlookup_lt_Some.
  - exists dj. split; [done|]. destruct (decide (k = i)) as [->|]; [|lia].
    assert (d = di) as -> by congruence. lia.
  - eexists. split; [by eapply zlookup_zupdate_eq, zlookup_lt_Some|].
    rewrite u32_small by lia. rewrite chosen_data, ticket_of_chosen by lia.
    apply priority_lt; lia.
  - exists 0. split; [|done]. by eapply zlookup_zupdate_eq, zlookup_lt_Some.
Qed.

(** The location of the CPU that moves. *)
Lemma loc_moves T me p p' d l l' :
  issue p p' T <= 0x7FFF -> Z.of_nat (length l) = N ->
  (forall k dk, l.[k] = Some dk -> 0 <= bakery_ticket_number dk <= T) ->
  l.[me] = Some d -> loc_ok T me p d -> moves me l p p' l' ->
  exists d', l'.[me] = Some d' /\ loc_ok (issue p p' T) me p' d'.
Proof.
  intros HT Hlen Hall Hd Hok Hm.
  assert (0 <= me < N) as Hme by (apply zlookup_lt_Some in Hd; lia).
  destruct Hm as [d0 _ Hd0 _|k m dk Hk Hdk|k m Hk|t _|k t dk Hk Hne Hdk Hch|k t dk Hk Hne Hdk Hch Hn Hp
    |k t dk Hk Hne Hdk Hch Hp|k t Hk|k t dk Hdk|k t th dk Hdk Hth|d0 _ Hd0 Hn];
    cbn in HT, Hok |- *;
    try (exists d; split; [done|]; pose proof (Hall _ _ Hd); try pose proof (Hall _ _ Hdk);
         destruct_and?; split_and?; eauto; lia).
  - exists 1. split; [by eapply zlookup_zupdate_eq, zlookup_lt_Some|].
    pose proof (Hall _ _ Hd). split_and!; lia.
  - exists (2 * (m + 1)). rewrite u32_small, chosen_data by lia.
    split; [by eapply zlookup_zupdate_eq, zlookup_lt_Some|]. lia.
  - exists 0. split; [|done]. by eapply zlookup_zupdate_eq, zlookup_lt_Some.
Qed.

(** The CPU that moves, against the others. *)
Lemma pair_moves T me p p' d d' l l' j q dj :
  T <= 0x7FFF -> me <> j -> 0 <= j < N -> 0 <= me < N ->
  l.[me] = Some d -> l'.[me] = Some d' -> l.[j] = Some dj ->
  loc_ok T me p d -> loc_ok T j q dj -> moves me l p p' l' ->
  pair_ok me p d j q dj -> pair_ok me p' d' j q dj.
Proof.
  intros HT Hne Hj Hme Hd Hd' Hdj Hok Hokj Hm [Hpa Hwa]. pose proof bakery_cpus_bound.
  destruct Hm as [d0 _ Hd0 _|k m dk Hk Hdk|k m Hk|t _|k t dk Hk Hnk Hdk Hch|k t dk Hk Hnk Hdk Hch Hn Hp
    |k t dk Hk Hnk Hdk Hch Hp|k t Hk|k t dk Hdk|k t th dk Hdk Hth|d0 _ Hd0 Hn];
    try (assert (d' = d) as -> by congruence);
    split; cbn in Hok, Hpa |- *; try done; try lia;
    try (intros ? ? [= <- <- <-]); try (intros; apply Hpa; lia).
  - assert (dk = dj) as -> by congruence. left. split; [done|].
    destruct (ticketed q) eqn:Hq; [done|]. by rewrite (unticketed_number _ _ _ _ Hokj Hq) in Hn.
  - intros Hjk. destruct (decide (j = k)) as [<-|]; [|apply Hpa; lia].
    assert (dk = dj) as -> by congruence. destruct Hp as [Hp|Hp].
    + by rewrite (idle_data _ _ _ _ HT Hokj Hch Hp).
    + destruct (ticketed q) eqn:Hq.
      2: { by rewrite (idle_data _ _ _ _ HT Hokj Hch (unticketed_number _ _ _ _ Hokj Hq)). }
      pose proof (ticketed_number _ _ _ _ HT Hokj Hq) as [Htj _].
      destruct Hok as (-> & Ht & _). rewrite ticket_of_chosen by lia.
      assert (bakery_get_priority t me < bakery_get_priority (bakery_ticket_number dj) j) as Hlt.
      { rewrite !priority_value in * by lia. lia. }
      destruct q; done.
  - intros Hjk. destruct (decide (j = k)) as [<-|]; [|apply Hpa; lia].
    assert (dk = dj) as -> by congruence.
    destruct (Hwa t th) as [[? _]|Hb]; [done|done|].
    destruct Hok as (-> & Ht & _). by rewrite ticket_of_chosen by lia.
Qed.

(** The others, against the CPU that moves. *)
Lemma pair_moved T me p p' d d' l l' j q dj :
  issue p p' T <= 0x7FFF -> T <= 0x7FFF -> me <> j -> 0 <= j < N -> 0 <= me < N ->
  l.[me] = Some d -> l'.[me] = Some d' -> l.[j] = Some dj ->
  loc_ok T me p d -> loc_ok T j q dj -> moves me l p p' l' ->
  pair_ok j q dj me p d -> pair_ok j q dj me p' d'.
Proof.
  intros HT HT' Hne Hj Hme Hd Hd' Hdj Hok Hokj Hm [Hpa Hwa].
  assert (forall t, t = bakery_ticket_number dj -> ticketed q = true ->
            behind j t me p d -> behind j t me p' d') as Hstep.
  { intros t -> Hq Hb. pose proof (ticketed_number _ _ _ _ HT' Hokj Hq) as [Ht _].
    destruct (behind_moves T j _ dj me p d p' l l' HT (not_eq_sym Hne) Hj Hme Hdj eq_refl Ht Hd Hok Hm Hb)
      as (d'' & Hd'' & Hb'). by assert (d'' = d') as -> by congruence. }
  split.
  - intros Hp. apply Hstep; [done|by destruct q|by apply Hpa].
  - intros t th Heq. assert (t = bakery_ticket_number dj) as Ht.
    { rewrite Heq in Hokj. destruct Hokj as (-> & ? & _). by rewrite ticket_of_chosen by lia. }
    destruct (Hwa t th Heq) as [[Hn Hq]|Hb]; [|right; apply Hstep; [done|by rewrite Heq|done]].
    destruct Hm; try done; try (left; by assert (d' = d) as -> by congruence).
    by right.
Qed.

Lemma loc_ok_mono T T' i p d : T <= T' -> loc_ok T i p d -> loc_ok T' i p d.
Proof.
  intros HT. destruct p; cbn; intros H; destruct_and?; try destruct H as (t & -> & ?);
    split_and?; eauto with lia.
Qed.

Lemma all_outside_spec w i p : all_outside w = true -> w.[i] = Some p -> p = Outside.
Proof.
  intros Hw Hp. unfold all_outside in Hw. rewrite forallb_forall in Hw.
  eapply bool_decide_eq_true_1, Hw, list_elem_of_In.
  pose proof (zlookup_lt_Some _ _ _ Hp). rewrite zlookup_to_nat in Hp by lia.
  by eapply list_elem_of_lookup_2.
Qed.

(** With no CPU inside, the count of tickets starts again. *)
Lemma inv_reset l w n :
  bakery_inv {| lock_data := l; where_ := w; tickets := n |} ->
  bakery_inv {| lock_data := l; where_ := w; tickets := if all_outside w then 0 else n |}.
Proof.
  intros [Hl Hw Hb Hloc Hpair]. split; cbn in *; try done; [by destruct (all_outside w)|].
  intros i p d Hp Hd. specialize (Hloc i p d Hp Hd). destruct (all_outside w) eqn:Hout; [|done].
  by rewrite (all_outside_spec _ _ _ Hout Hp) in *.
Qed.

Lemma count_issue w me p p' n :
  w.[me] = Some p -> count_ticket w p p' n = issue p p' (if all_outside w then 0 else n).
Proof.
  intros Hp. unfold count_ticket. destruct (all_outside w) eqn:Hw; [|done].
  by rewrite (all_outside_spec _ _ _ Hw Hp).
Qed.

(** Only the word of the CPU that moves changes. *)
Lemma moves_frame me l p p' l' j : moves me l p p' l' -> j <> me -> l'.[j] = l.[j].
Proof. intros Hm Hj. destruct Hm; try done; by apply zlookup_zupdate_ne. Qed.

Lemma moves_length me l p p' l' : moves me l p p' l' -> length l' = length l.
Proof. intros Hm. destruct Hm; try done; by apply length_zupdate. Qed.

Lemma issue_le p p' T : T <= issue p p' T.
Proof. unfold issue. repeat case_match; lia. Qed.

Lemma inv_numbers b k d :
  bakery_inv b -> (lock_data b).[k] = Some d -> 0 <= bakery_ticket_number d <= tickets b.
Proof.
  intros [Hl Hw Hb Hloc _] Hd.
  destruct (proj2 (zlookup_lt_is_Some (where_ b) k)) as [p Hp].
  { apply zlookup_lt_Some in Hd. lia. }
  specialize (Hloc _ _ _ Hp Hd). destruct (ticketed p) eqn:Ht.
  - pose proof (ticketed_number _ _ _ _ (proj2 Hb) Hloc Ht). lia.
  - rewrite (unticketed_number _ _ _ _ Hloc Ht). lia.
Qed.

(** A bounded step preserves the invariant. *)
Lemma step_bakery_inv b b' : bounded_step b b' -> bakery_inv b -> bakery_inv b'.
Proof.
  intros [Hstep Hbound]. destruct Hstep as [l w n me p p' l' Hp Hrun]. cbn in Hbound. intros Hinv.
  apply inv_reset in Hinv. rewrite (count_issue _ _ _ _ _ Hp) in *.
  set (T := if all_outside w then 0 else n) in *. clearbody T. apply access_moves in Hrun as Hm.
  pose proof (issue_le p p' T) as Hle. pose proof (fun k d => inv_numbers _ k d Hinv) as Hnum.
  destruct Hinv as [Hl Hw Hb Hloc Hpair]. cbn in *.
  assert (0 <= me < N) as Hme by (apply zlookup_lt_Some in Hp; lia).
  destruct (proj2 (zlookup_lt_is_Some l me)) as [d Hd]; [lia|].
  destruct (loc_moves T me p p' d l l' Hbound Hl Hnum Hd (Hloc _ _ _ Hp Hd) Hm) as (d' & Hd' & Hok').
  split; cbn.
  - by rewrite (moves_length _ _ _ _ _ Hm).
  - by rewrite length_zupdate.
  - lia.
  - intros i q di Hi Hdi. rewrite (zlookup_zupdate _ _ _ _ _ Hp) in Hi. case_decide as He.
    + subst. by simplify_eq.
    + rewrite (moves_frame _ _ _ _ _ i Hm) in Hdi by done. eapply loc_ok_mono; [exact Hle|]. by apply Hloc.
  - intros i j q r di dj Hne Hi Hj Hdi Hdj. rewrite (zlookup_zupdate _ _ i _ _ Hp) in Hi.
    rewrite (zlookup_zupdate _ _ j _ _ Hp) in Hj.
    destruct (decide (me = i)) as [<-|Hi']; [|destruct (decide (me = j)) as [<-|Hj']].
    + rewrite decide_False in Hj by done. rewrite (moves_frame _ _ _ _ _ j Hm) in Hdj by done.
      simplify_eq. assert (0 <= j < N) by (apply zlookup_lt_Some in Hj; lia).
      eapply (pair_moves T me p _ d); eauto; lia.
    + rewrite (moves_frame _ _ _ _ _ i Hm) in Hdi by done.
      simplify_eq. assert (0 <= i < N) by (apply zlookup_lt_Some in Hi; lia).
      eapply (pair_moved T me p _ d); eauto; lia.
    + rewrite (moves_frame _ _ _ _ _ i Hm) in Hdi by done.
      rewrite (moves_frame _ _ _ _ _ j Hm) in Hdj by done. by apply Hpair.
Qed.

Lemma initial_bakery_inv : bakery_inv bakery_initial.
Proof.
  pose proof bakery_cpus_bound. split; cbn; rewrite ?length_replicate; try lia.
  - intros i p d Hp Hd. pose proof (zlookup_lt_Some _ _ _ Hp) as Hi.
    rewrite zlookup_to_nat in Hp by lia. apply lookup_replicate in Hp as [-> _].
    rewrite zlookup_to_nat in Hd by lia. by apply lookup_replicate in Hd as [-> _].
  - intros i j p q di dj Hne Hp _ _ _. pose proof (zlookup_lt_Some _ _ _ Hp) as Hi.
    rewrite zlookup_to_nat in Hp by lia. apply lookup_replicate in Hp as [-> _]. by split.
Qed.

Lemma reachable_bakery_inv b b' : rtc bounded_step b b' -> bakery_inv b -> bakery_inv b'.
Proof. induction 1; [done|]. intros. by eapply IHrtc, step_bakery_inv. Qed.

(** Every CPU of a state with the invariant has a location and a word. *)
Lemma inv_cpu b i :
  bakery_inv b -> 0 <= i < N ->
  exists p d, (where_ b).[i] = Some p /\ (lock_data b).[i] = Some d /\ loc_ok (tickets b) i p d.
Proof.
  intros Hinv Hi. destruct Hinv as [Hl Hw _ Hloc _].
  destruct (proj2 (zlookup_lt_is_Some (where_ b) i)) as [p Hp]; [lia|].
  destruct (proj2 (zlookup_lt_is_Some (lock_data b) i)) as [d Hd]; [lia|]. eauto 6.
Qed.

Lemma inv_index b i p : bakery_inv b -> (where_ b).[i] = Some p -> 0 <= i < N.
Proof. intros Hinv Hp%zlookup_lt_Some. rewrite (bi_where _ Hinv) in Hp. done. Qed.

(** Two CPUs that have passed each other are the same. *)
Lemma passed_both b i j p q :
  bakery_inv b -> (where_ b).[i] = Some p -> (where_ b).[j] = Some q ->
  passed p j -> passed q i -> i = j.
Proof.
  intros Hinv Hp Hq Hpj Hqi. destruct (decide (i = j)) as [|Hne]; [done|exfalso].
  destruct (inv_cpu b i) as (p' & di & Hp' & Hdi & _); [done|by eapply inv_index|].
  destruct (inv_cpu b j) as (q' & dj & Hq' & Hdj & _); [done|by eapply inv_index|]. simplify_eq.
  pose proof (po_passed _ _ _ _ _ _ (bi_pair _ Hinv _ _ _ _ _ _ Hne Hp Hq Hdi Hdj) Hpj) as Hb.
  pose proof (po_passed _ _ _ _ _ _ (bi_pair _ Hinv _ _ _ _ _ _ (not_eq_sym Hne) Hq Hp Hdj Hdi) Hqi) as Hb'.
  destruct p, q; cbn in Hpj, Hqi, Hb, Hb'; try done; lia.
Qed.

(** C30. Mutual exclusion: however the CPUs' accesses interleave, at most one
    CPU is between its [bakery_lock_get] and its [bakery_lock_release], as
    long as fewer than 2^15 tickets are handed out between two moments without
    contenders. *)
Theorem bakery_mutual_exclusion b i j :
  rtc bounded_step bakery_initial b ->
  (where_ b).[i] = Some Holding -> (where_ b).[j] = Some Holding -> i = j.
Proof.
  intros Hr Hi Hj. apply reachable_bakery_inv in Hr; [|apply initial_bakery_inv].
  by eapply passed_both.
Qed.

(** ** First come, first served *)

(** CPU [i] has its ticket and waits for the lock. *)
Definition waiting (b : bakery) (i : Z) : Prop :=
  exists p, (where_ b).[i] = Some p /\ ticketed p = true /\ p <> Holding.

Definition behind_in (b : bakery) (i j : Z) : Prop :=
  exists p di q dj, (where_ b).[i] = Some p /\ (lock_data b).[i] = Some di /\ ticketed p = true /\
    (where_ b).[j] = Some q /\ (lock_data b).[j] = Some dj /\ behind i (bakery_ticket_number di) j q dj.

(** A waiting CPU that still waits after its move kept its word. *)
Lemma waiting_moves me l p p' l' : moves me l p p' l' -> ticketed p = true -> ticketed p' = true -> l' = l.
Proof. by intros []. Qed.

Lemma behind_in_step b b' i j :
  bounded_step b b' -> bakery_inv b -> i <> j -> waiting b' i -> behind_in b i j -> behind_in b' i j.
Proof.
  intros [Hstep Hbound]. destruct Hstep as [l w n me p p' l' Hp Hrun]. cbn in Hbound. intros Hinv Hne Hw.
  apply inv_reset in Hinv. rewrite (count_issue _ _ _ _ _ Hp) in Hbound.
  set (T := if all_outside w then 0 else n) in *. clearbody T. apply access_moves in Hrun as Hm.
  intros (pi & di & q & dj & Hpi & Hdi & Hti & Hq & Hdj & Hb). cbn in *.
  destruct Hw as (pi' & Hpi' & Hti' & _). cbn in Hpi'. unfold behind_in. cbn.
  assert (0 <= i < N) as Hi by (by apply (inv_index _ _ _ Hinv Hpi)).
  assert (0 <= j < N) as Hj by (by apply (inv_index _ _ _ Hinv Hq)).
  exists pi'. rewrite Hpi', (zlookup_zupdate _ _ j _ _ Hp).
  destruct (decide (me = i)) as [<-|Hmi].
  - rewrite decide_False by done. exists di, q, dj.
    rewrite (zlookup_zupdate _ _ _ _ _ Hp), decide_True in Hpi' by done. simplify_eq.
    rewrite (waiting_moves _ _ _ _ _ Hm Hti Hti'). split_and!; done.
  - rewrite (zlookup_zupdate _ _ _ _ _ Hp), decide_False in Hpi' by done. simplify_eq.
    exists di. rewrite (moves_frame _ _ _ _ _ i Hm) by done. case_decide as Hmj; [subst me|].
    + simplify_eq. pose proof (bi_local _ Hinv _ _ _ Hpi' Hdi) as Hli.
      pose proof (ticketed_number _ _ _ _ (proj2 (bi_bound _ Hinv)) Hli Hti) as [Ht _]. cbn in Ht.
      destruct (behind_moves T i _ di j p dj p' l l' Hbound Hne Hi Hj Hdi eq_refl Ht Hdj
                  (bi_local _ Hinv _ _ _ Hp Hdj) Hm Hb) as (dj' & Hdj' & Hb').
      exists p', dj'. split_and!; done.
    + exists q, dj. rewrite (moves_frame _ _ _ _ _ j Hm) by done. split_and!; done.
Qed.

(** Bounded steps during which CPU [i] keeps waiting. *)
Definition step_while_waiting (i : Z) (b b' : bakery) : Prop := bounded_step b b' /\ waiting b' i.

(** C31. First come, first served: once a CPU has its ticket, a CPU that was
    outside at that moment does not get the lock before it, as long as fewer than
    2^15 tickets are handed out between two moments without contenders. *)
Theorem bakery_first_come_first_served b b' i j :
  rtc bounded_step bakery_initial b -> waiting b i -> (where_ b).[j] = Some Outside ->
  rtc (step_while_waiting i) b b' -> (where_ b').[j] <> Some Holding.
Proof.
  intros Hr Hw Hj Hr' Hh. apply reachable_bakery_inv in Hr as Hinv; [|apply initial_bakery_inv].
  assert (i <> j) as Hne by (intros ->; destruct Hw as (p & Hp & Ht & _); by simplify_eq).
  cut (bakery_inv b' /\ waiting b' i /\ behind_in b' i j).
  - intros (Hinv' & (p & Hp & _ & _) & (p' & di & q & dj & Hp' & Hdi & Ht & Hq & Hdj & Hb)). simplify_eq.
    pose proof (po_passed _ _ _ _ _ _ (bi_pair _ Hinv' _ _ _ _ _ _ (not_eq_sym Hne) Hh Hp Hdj Hdi) I) as Hb'.
    cbn in Hb. destruct p; cbn in *; try done; lia.
  - assert (behind_in b i j) as Hb.
    { destruct Hw as (p & Hp & Ht & _).
      destruct (inv_cpu b i) as (p' & di & Hp' & Hdi & _); [done|by eapply inv_index|].
      destruct (inv_cpu b j) as (q' & dj & Hq' & Hdj & _); [done|by eapply inv_index|]. simplify_eq.
      by exists p, di, Outside, dj. }
    clear Hr Hj Hh. induction Hr' as [|x y z [Hs Hy] _ IH]; [done|].
    apply IH; eauto using step_bakery_inv, behind_in_step.
Qed.

(** ** Progress *)

Lemma moves_access me p l p' l' : moves me l p p' l' -> cpu_access me p l = Done p' l'.
Proof.
  destruct 1; cbn [cpu_access];
    unfold bakery_ticket_begin, bakery_ticket_scan, bakery_check, bakery_watch, bakery_lock_release,
      read_data, write_data, bind, assert_, gets, modify, ret, deref, id;
    repeat first
      [ rewrite (proj2 (Z.ltb_lt _ _)) by done
      | rewrite (proj2 (Z.ltb_ge _ _)) by done
      | rewrite (proj2 (Z.eqb_neq _ _)) by done
      | rewrite Z.eqb_refl
      | match goal with
        | H : ?x = Some _ |- context [?x] => rewrite H
        | H : bakery_is_choosing _ = _ |- _ => rewrite H
        | H : bakery_ticket_number _ = 0 |- _ => rewrite H
        end
      | progress cbn ]; try done.
  - repeat f_equal. destruct (Z.ltb_spec m (bakery_ticket_number d)); lia.
  - destruct H3 as [H3|H3]; [by rewrite H3|]. rewrite (proj2 (Z.ltb_ge _ _)) by done.
    by rewrite andb_false_r.
Qed.

(** A step that is not one more turn of a wait loop, by a CPU that already
    contends for the lock or holds it. *)
Definition work_step (b b' : bakery) : Prop :=
  bakery_step b b' /\ where_ b' <> where_ b /\
  forall i, (where_ b).[i] = Some Outside -> (where_ b').[i] = Some Outside.

(** The accesses a CPU still has to make, at most. *)
Definition remaining (p : location) : nat :=
  let left k := Z.to_nat (N - k) in
  match p with
  | Outside => 0
  | Holding => 1
  | Watching k _ _ => 2 * left k + 1
  | Checking k _ => 2 * left k + 2
  | Scanning k _ => 2 * left 0 + left k + 3
  end.

Lemma sum_insert_lt {A} (f : A -> nat) (l : list A) (i : nat) x y :
  l !! i = Some y -> (f x < f y)%nat -> (sum_list_with f (<[i:=x]> l) < sum_list_with f l)%nat.
Proof.
  revert i. induction l as [|z l IH]; intros [|i] Hi Hlt; cbn in *; try done; simplify_eq; [lia|].
  apply Nat.add_lt_mono_l. by apply IH.
Qed.

Lemma moves_remaining me l p p' l' :
  Z.of_nat (length l) = N -> moves me l p p' l' -> p <> Outside -> p <> p' ->
  (remaining p' < remaining p)%nat.
Proof.
  intros Hl Hm Hout Hne. destruct Hm; try done; cbn; try lia.
  apply zlookup_lt_Some in H. lia.
Qed.

(** Without new contenders the waiting is finite. *)
Lemma work_terminates b : Z.of_nat (length (lock_data b)) = N -> sn work_step b.
Proof.
  remember (sum_list_with remaining (where_ b)) as n eqn:Hn. revert b Hn.
  induction (lt_wf n) as [n _ IH]. intros b -> Hl. constructor. intros b' (Hstep & Hne & Hout).
  destruct Hstep as [l w k me p p' l' Hp Hrun]. cbn in *. apply access_moves in Hrun as Hm.
  eapply IH; [|reflexivity|cbn; by rewrite (moves_length _ _ _ _ _ Hm)]. cbn.
  assert (p <> p') as Hpp by (intros <-; by rewrite zupdate_id in Hne).
  assert (p <> Outside) as Hpo.
  { intros ->. specialize (Hout me Hp). rewrite (zlookup_zupdate _ _ _ _ _ Hp), decide_True in Hout by done.
    congruence. }
  pose proof (zlookup_lt_Some _ _ _ Hp) as Hme. rewrite zlookup_to_nat in Hp by lia.
  unfold zupdate. rewrite (proj2 (in_range_spec w me) Hme).
  eapply sum_insert_lt; [exact Hp|]. by eapply moves_remaining.
Qed.

(** A move to a new location is a step of work. *)
Lemma moves_work b me p p' l' :
  (where_ b).[me] = Some p -> moves me (lock_data b) p p' l' -> p <> Outside -> p <> p' ->
  exists b', work_step b b'.
Proof.
  destruct b as [l w n]. cbn. intros Hp Hm Hout Hne. eexists. split; [|split].
  - apply (bakery_access l w n me p p' l'); [done|by apply moves_access].
  - cbn. intros Hw. apply (f_equal (fun x => x.[me])) in Hw.
    rewrite (zlookup_zupdate _ _ _ _ _ Hp), decide_True in Hw by done. congruence.
  - cbn. intros i Hi. rewrite (zlookup_zupdate _ _ _ _ _ Hp). case_decide; [subst; congruence|done].
Qed.

Lemma scanning_works b i k m : bakery_inv b -> (where_ b).[i] = Some (Scanning k m) -> exists b', work_step b b'.
Proof.
  intros Hinv Hp. destruct (inv_cpu b i) as (p & d & Hp' & Hd & Hok); [done|by eapply inv_index|].
  assert (p = Scanning k m) as -> by congruence. destruct Hok as (_ & Hk & _).
  destruct (Z.ltb_spec k N).
  - destruct (inv_cpu b k) as (pk & dk & _ & Hdk & _); [done|lia|].
    eapply moves_work; [exact Hp|by econstructor|done|]. intros [= ? _]. lia.
  - eapply moves_work; [exact Hp|by constructor|done..].
Qed.

(** A CPU with a ticket can work, or waits for a CPU with a lower priority
    value that can. *)
Lemma ticketed_works b : bakery_inv b -> forall (n : nat) i p d,
  (where_ b).[i] = Some p -> (lock_data b).[i] = Some d -> ticketed p = true ->
  bakery_get_priority (bakery_ticket_number d) i < Z.of_nat n -> exists b', work_step b b'.
Proof.
  intros Hinv. pose proof bakery_cpus_bound as HN. pose proof (bi_bound _ Hinv) as HT.
  induction n as [|n IH]; intros i p d Hp Hd Ht Hn.
  { pose proof (inv_index _ _ _ Hinv Hp). pose proof (inv_numbers _ _ _ Hinv Hd).
    rewrite priority_value in Hn by lia. lia. }
  pose proof (bi_local _ Hinv _ _ _ Hp Hd) as Hok. destruct p as [|k m|k t|k t th|]; try done.
  - destruct Hok as (-> & Htt & Hk). destruct (Z.ltb_spec k N) as [Hlt|].
    2: { eapply moves_work; [exact Hp|by constructor|done..]. }
    destruct (decide (i = k)) as [->|Hik].
    { eapply moves_work; [exact Hp|by constructor|done|]. intros [= ?]. lia. }
    destruct (inv_cpu b k) as (q & dk & Hq & Hdk & Hokk); [done|lia|].
    destruct (bakery_is_choosing dk) eqn:Hch.
    { destruct (choosing_scans _ _ _ _ Hokk Hch) as (k' & m & ->). by eapply scanning_works. }
    destruct (decide (bakery_ticket_number dk <> 0 /\
      bakery_get_priority (bakery_ticket_number dk) k < bakery_get_priority t i)) as [[]|Hno].
    + eapply moves_work; [exact Hp|by eapply m_watch|done..].
    + eapply moves_work; [exact Hp|eapply m_pass; eauto; lia|done|]. intros [= ?]. lia.
  - destruct Hok as (-> & Htt & Hk & Hki & Hth & Hprio). rewrite ticket_of_chosen in Hn by lia.
    destruct (inv_cpu b k) as (q & dk & Hq & Hdk & Hokk); [done|lia|].
    destruct (decide (bakery_ticket_number dk = th)) as [Heq|Hne].
    2: { eapply moves_work; [exact Hp|by eapply m_next|done..]. }
    destruct (po_watch _ _ _ _ _ _ (bi_pair _ Hinv _ _ _ _ _ _ (not_eq_sym Hki) Hp Hq Hd Hdk) t th eq_refl)
      as [[_ Hqt]|Hb]; [apply (IH k q dk); try done; rewrite Heq; lia|].
    destruct (ticketed q) eqn:Hqt; [apply (IH k q dk); try done; rewrite Heq; lia|].
    rewrite (unticketed_number _ _ _ _ Hokk Hqt) in Heq. lia.
  - pose proof (ticketed_number _ _ _ _ (proj2 HT) Hok Ht).
    pose proof (inv_index _ _ _ Hinv Hp).
    eapply moves_work; [exact Hp|eapply m_release; eauto; lia|done..].
Qed.

(** C32. Progress: in every state that is reached with fewer than 2^15 tickets
    handed out between two moments without contenders, and in which some CPU
    contends for the lock or holds it, some such CPU can do something else than
    turn in a wait loop; and without new contenders there is no infinite sequence
    of such steps. So all the waiting ends, with every contender served. *)
Theorem bakery_progress b i p :
  rtc bounded_step bakery_initial b -> (where_ b).[i] = Some p -> p <> Outside ->
  (exists b', work_step b b') /\ sn work_step b.
Proof.
  intros Hr Hp Hout. apply reachable_bakery_inv in Hr as Hinv; [|apply initial_bakery_inv].
  split; [|by apply work_terminates, bi_data].
  destruct (inv_cpu b i) as (p' & d & Hp' & Hd & _); [done|by eapply inv_index|]. simplify_eq.
  destruct (ticketed p) eqn:Ht.
  - apply (ticketed_works b Hinv (Z.to_nat (bakery_get_priority (bakery_ticket_number d) i + 1)) i p d);
      try done. lia.
  - destruct p; try done. by eapply scanning_works.
Qed.
End BakeryProps.
