(* ===== verification/BakeryRun.v ===== *)
(** * Bakery locks: two CPUs

    Runs on a platform with two CPUs: the concrete inputs of the theorems on
    the lock, and what happens when tickets leave their 15 bits. *)

From stdpp Require Import list_numbers.
From S2P Require Import Prelude Bakery BakeryProps.

Definition two_cpus : BakeryConfig.
Proof. refine {| BAKERY_LOCK_MAX_CPUS := 2 |}. lia. Defined.

Section TwoCpus.
#[local] Existing Instance two_cpus.

(** ** Reachability, up to the count of tickets *)

Definition reach (l : lock_memory) (w : list location) (l' : lock_memory) (w' : list location) : Prop :=
  forall n, exists n', rtc bakery_step {| lock_data := l; where_ := w; tickets := n |}
                                  {| lock_data := l'; where_ := w'; tickets := n' |}.

Lemma reach_refl l w : reach l w l w.
Proof. intros n. exists n. constructor. Qed.

Lemma reach_trans l w l1 w1 l2 w2 : reach l w l1 w1 -> reach l1 w1 l2 w2 -> reach l w l2 w2.
Proof.
  intros H1 H2 n. destruct (H1 n) as [n1 Hr1]. destruct (H2 n1) as [n2 Hr2]. exists n2.
  by etransitivity.
Qed.

Lemma reach_move me l w p p' l1 w1 l2 w2 :
  w.[me] = Some p -> moves me l p p' l1 -> w1 = zupdate w me p' -> reach l1 w1 l2 w2 -> reach l w l2 w2.
Proof.
  intros Hp Hm -> H n. destruct (H (count_ticket w p p' n)) as [n' Hr]. exists n'.
  eapply rtc_l; [|exact Hr]. constructor; [done|by apply moves_access].
Qed.

(** CPU [me] makes its next access by the named rule. *)
Ltac norm_updates :=
  repeat match goal with
  | |- context [zupdate [?a; ?b] 0 ?c] => change (zupdate [a; b] 0 c) with [c; b]
  | |- context [zupdate [?a; ?b] 1 ?c] => change (zupdate [a; b] 1 c) with [a; c]
  end.

Ltac side t :=
  rewrite ?(ticket_of_chosen t), ?(ticket_of_chosen (t + 1)) by lia;
  rewrite ?chosen_not_choosing, ?priority_value by lia;
  change (bakery_ticket_number 0) with 0 in *; first [done|lia|left; done].

Tactic Notation "go" constr(me) uconstr(rule) constr(t) :=
  eapply (reach_move me); [reflexivity|refine rule; try reflexivity; side t|reflexivity|];
  norm_updates.

(** The ticket of the second CPU. *)
Lemma next_ticket t m : 1 <= t < 0x7FFF -> m = t -> u32 (m + 1) = t + 1.
Proof. intros Ht ->. apply u32_small. lia. Qed.

(** The lock passes from one CPU to the other without being free. *)
Lemma handoff_01 t : 1 <= t < 0x7FFF ->
  reach [2 * t; 0] [Holding; Outside] [0; 2 * (t + 1)] [Outside; Holding].
Proof.
  intros Ht.
  go 1 (m_begin _ _ 0 _ _ _) t.
  go 1 (m_scan _ _ _ _ (2 * t) _ _) t.
  go 1 (m_scan _ _ _ _ 1 _ _) t.
  go 1 (m_take _ _ _ _ _) t.
  rewrite (next_ticket t) by (rewrite ?(ticket_of_chosen t) by lia; change (bakery_ticket_number 1) with 0; lia).
  rewrite chosen_data by lia.
  go 1 (m_watch _ _ _ _ (2 * t) _ _ _ _ _ _) t.
  go 0 (m_release _ _ (2 * t) _ _ _) t.
  go 1 (m_next _ _ _ _ _ 0 _ _) t.
  go 1 (m_self _ _ _ _) t.
  go 1 (m_enter _ _ _ _ _) t.
  apply reach_refl.
Qed.

Lemma handoff_10 t : 1 <= t < 0x7FFF ->
  reach [0; 2 * t] [Outside; Holding] [2 * (t + 1); 0] [Holding; Outside].
Proof.
  intros Ht.
  go 0 (m_begin _ _ 0 _ _ _) t.
  go 0 (m_scan _ _ _ _ 1 _ _) t.
  go 0 (m_scan _ _ _ _ (2 * t) _ _) t.
  go 0 (m_take _ _ _ _ _) t.
  rewrite (next_ticket t) by (rewrite ?(ticket_of_chosen t) by lia; change (bakery_ticket_number 1) with 0; lia).
  rewrite chosen_data by lia.
  go 0 (m_self _ _ _ _) t.
  go 0 (m_watch _ _ _ _ (2 * t) _ _ _ _ _ _) t.
  go 1 (m_release _ _ (2 * t) _ _ _) t.
  go 0 (m_next _ _ _ _ _ 0 _ _) t.
  go 0 (m_enter _ _ _ _ _) t.
  apply reach_refl.
Qed.

(** CPU 0 takes the free lock. *)
Lemma first_get : reach [0; 0] [Outside; Outside] [2; 0] [Holding; Outside].
Proof.
  go 0 (m_begin _ _ 0 _ _ _) 1.
  go 0 (m_scan _ _ _ _ 1 _ _) 1.
  go 0 (m_scan _ _ _ _ 0 _ _) 1.
  go 0 (m_take _ _ _ _ _) 1.
  go 0 (m_self _ _ _ _) 1.
  go 0 (m_pass _ _ _ _ 0 _ _ _ _ _) 1.
  go 0 (m_enter _ _ _ _ _) 1.
  apply reach_refl.
Qed.

(** After [n] exchanges CPU 0 holds the ticket 2n + 1. *)
Lemma exchanges (n : nat) : Z.of_nat n <= 0x3FFF ->
  reach [0; 0] [Outside; Outside] [2 * (2 * Z.of_nat n + 1); 0] [Holding; Outside].
Proof.
  induction n as [|n IH]; intros Hn; [exact first_get|].
  eapply reach_trans; [apply IH; lia|]. eapply reach_trans; [apply handoff_01; lia|].
  eapply reach_trans; [apply handoff_10; lia|].
  replace (2 * Z.of_nat n + 1 + 1 + 1) with (2 * Z.of_nat (S n) + 1) by lia. apply reach_refl.
Qed.

(** CPU 1 takes ticket 2^15, which is stored as 0: it holds the lock and looks
    idle, so that CPU 0 enters too. *)
Lemma wrap_around : reach [2 * 0x7FFF; 0] [Holding; Outside] [2; 0] [Holding; Holding].
Proof.
  go 1 (m_begin _ _ 0 _ _ _) 1.
  go 1 (m_scan _ _ _ _ (2 * 0x7FFF) _ _) 1.
  go 1 (m_scan _ _ _ _ 1 _ _) 1.
  go 1 (m_take _ _ _ _ _) 1.
  go 1 (m_watch _ _ _ _ (2 * 0x7FFF) _ _ _ _ _ _) 1.
  go 0 (m_release _ _ (2 * 0x7FFF) _ _ _) 1.
  go 1 (m_next _ _ _ _ _ 0 _ _) 1.
  go 1 (m_self _ _ _ _) 1.
  go 1 (m_enter _ _ _ _ _) 1.
  go 0 (m_begin _ _ 0 _ _ _) 1.
  go 0 (m_scan _ _ _ _ 1 _ _) 1.
  go 0 (m_scan _ _ _ _ 0 _ _) 1.
  go 0 (m_take _ _ _ _ _) 1.
  go 0 (m_self _ _ _ _) 1.
  go 0 (m_pass _ _ _ _ 0 _ _ _ _ _) 1.
  go 0 (m_enter _ _ _ _ _) 1.
  apply reach_refl.
Qed.

(** C33. The bound is needed: after 2^15 - 1 exchanges without a free moment
    the next ticket, 2^15, does not fit the 15 bits of [lock_data]; the CPU
    that takes it is stored as idle, and two CPUs hold the lock. *)
Theorem ticket_overflow_breaks_exclusion :
  exists b, rtc bakery_step bakery_initial b /\
    (where_ b).[0] = Some Holding /\ (where_ b).[1] = Some Holding.
Proof.
  pose proof (exchanges (Z.to_nat 0x3FFF)) as He. rewrite Z2Nat.id in He by lia.
  pose proof (reach_trans _ _ _ _ _ _ (He ltac:(lia)) wrap_around) as Hr.
  destruct (Hr 0) as [n Hn]. eexists. split; [exact Hn|done].
Qed.

(** ** Running a schedule *)

(** The CPUs of [cpus] make an access each, in order, every state on the way
    satisfying [ok]. *)
Fixpoint schedule (ok : bakery -> bool) (cpus : list Z) (b : bakery) : option bakery :=
  match cpus with
  | [] => Some b
  | me :: cpus' =>
      match (where_ b).[me] with
      | None => None
      | Some p =>
          match cpu_access me p (lock_data b) with
          | Stopped _ _ => None
          | Done p' l' =>
              let b' := {| lock_data := l'; where_ := zupdate (where_ b) me p';
                           tickets := count_ticket (where_ b) p p' (tickets b) |} in
              if ok b' then schedule ok cpus' b' else None
          end
      end
  end.

Lemma schedule_rtc (R : bakery -> bakery -> Prop) ok cpus b b' :
  (forall x y, bakery_step x y -> ok y = true -> R x y) ->
  schedule ok cpus b = Some b' -> rtc R b b'.
Proof.
  intros HR. revert b. induction cpus as [|me cpus IH]; intros [l w n]; cbn [schedule lock_data where_ tickets].
  { intros [= <-]. constructor. }
  destruct (w.[me]) as [p|] eqn:Hp; [|done].
  destruct (cpu_access me p l) as [p' l'|] eqn:Hrun; [|done]. set (b1 := {| lock_data := l' |}).
  destruct (ok b1) eqn:Hok; [|done]. intros Hs. eapply rtc_l; [|by apply IH].
  apply HR; [|done]. by constructor.
Qed.

Definition few_tickets (b : bakery) : bool := tickets b <=? 0x7FFF.

Definition is_waiting (i : Z) (b : bakery) : bool :=
  match (where_ b).[i] with
  | Some p => ticketed p && bool_decide (p <> Holding)
  | None => false
  end.

Lemma is_waiting_spec i b : is_waiting i b = true -> waiting b i.
Proof.
  unfold is_waiting. destruct ((where_ b).[i]) as [p|] eqn:Hp; [|done].
  intros [Ht Hh%bool_decide_eq_true_1]%andb_true_iff. by exists p.
Qed.

Lemma schedule_bounded cpus b b' : schedule few_tickets cpus b = Some b' -> rtc bounded_step b b'.
Proof. apply schedule_rtc. intros x y Hs Hok%Z.leb_le. by split. Qed.

(** CPU 0 holds the lock, CPU 1 has a ticket and waits. *)
Definition contended : bakery := {|
  lock_data := [2; 4]; where_ := [Holding; Watching 0 2 1]; tickets := 2 |}.

Lemma contended_reached : rtc bounded_step bakery_initial contended.
Proof. apply (schedule_bounded ([0; 0; 0; 0; 0; 0; 0] ++ [1; 1; 1; 1; 1])). vm_compute. reflexivity. Qed.

Lemma bakery_mutual_exclusion_witness :
  (where_ contended).[0] = Some Holding /\ forall j, (where_ contended).[j] = Some Holding -> 0 = j.
Proof.
  split; [reflexivity|]. intros j Hj.
  apply (bakery_mutual_exclusion contended 0 j); [exact contended_reached|reflexivity|exact Hj].
Defined.

Lemma bakery_progress_witness : (exists b', work_step contended b') /\ sn work_step contended.
Proof.
  apply (bakery_progress contended 0 Holding); [exact contended_reached|reflexivity|discriminate].
Defined.

(** CPU 0 has its ticket; CPU 1 arrives, takes one and waits. *)
Definition arrived : bakery := {|
  lock_data := [2; 0]; where_ := [Checking 0 1; Outside]; tickets := 1 |}.
Definition overtaken : bakery := {|
  lock_data := [2; 4]; where_ := [Checking 0 1; Watching 0 2 1]; tickets := 2 |}.

Lemma bakery_first_come_first_served_witness :
  waiting arrived 0 /\ (where_ arrived).[1] = Some Outside /\ (where_ overtaken).[1] <> Some Holding.
Proof.
  assert (waiting arrived 0) as Hw by (apply is_waiting_spec; vm_compute; reflexivity).
  split; [exact Hw|]. split; [reflexivity|].
  apply (bakery_first_come_first_served arrived overtaken 0 1).
  - apply (schedule_bounded [0; 0; 0; 0]). vm_compute. reflexivity.
  - exact Hw.
  - reflexivity.
  - apply (schedule_rtc _ (fun b => few_tickets b && is_waiting 0 b) [1; 1; 1; 1; 1]);
      [|vm_compute; reflexivity].
    intros x y Hs [Hok%Z.leb_le Hy%is_waiting_spec]%andb_true_iff. by split; [split|].
Defined.
End TwoCpus.
