(* ===== verification/InterruptMgmt.v ===== *)
(** * Interrupt management framework (bl31/interrupt_mgmt.c)

    One handler and one routing model per interrupt type; the routing model is
    kept per type and written to the SCR_EL3 of the contexts that exist. The
    interrupt controller is GICv3 (plat/common/plat_gicv3.c). *)

From stdpp Require Import list_numbers.
From S2P Require Import Prelude.
#[local] Open Scope cmd_scope.

Definition SECURE : Z := 0.
Definition NON_SECURE : Z := 1.

Definition INTR_TYPE_S_EL1 : Z := 0.
Definition INTR_TYPE_EL3 : Z := 1.
Definition INTR_TYPE_NS : Z := 2.
Definition INTR_TYPE_RL : Z := 3.
Definition MAX_INTR_TYPES : Z := 4.

Definition INTR_DEFAULT_RM : Z := 0.
Definition INTR_TYPE_FLAGS_MASK : Z := 0xFFFFFFFC.
Definition INTR_RM_FLAGS_MASK : Z := 3.

Definition EINVAL_rc : Z := -22.
Definition EALREADY_rc : Z := -37.

Definition SCR_FIQ_POS : Z := 2.
Definition SCR_IRQ_POS : Z := 1.
Definition SCR_VALID_BIT_MASK : Z := 0x24000002F8F.

(** [handler] is an address, 0 for none. *)
Record intr_type_desc_t := {
  handler : Z;
  scr_el3 : list Z;
  flags : Z
}.

(** The descriptors, and SCR_EL3 of the context of each security state when
    that context exists. *)
Record intr_state := {
  intr_type_descs : list intr_type_desc_t;
  ctx_scr : list (option Z)
}.

Abbreviation intr := (cmd intr_state).

Definition empty_desc : intr_type_desc_t := {| handler := 0; scr_el3 := [0; 0]; flags := 0 |}.

(** The memory at reset, with the contexts [ctxs]. *)
Definition intr_reset (ctxs : list (option Z)) : intr_state := {|
  intr_type_descs := replicate (Z.to_nat MAX_INTR_TYPES) empty_desc;
  ctx_scr := ctxs
|}.

Definition desc_of (type : Z) : intr intr_type_desc_t :=
  let! s := gets id in deref ((intr_type_descs s).[type]).

Definition update_desc (type : Z) (f : intr_type_desc_t -> intr_type_desc_t) : intr unit :=
  let! d := desc_of type in
  modify (fun s => {| intr_type_descs := zupdate (intr_type_descs s) type (f d); ctx_scr := ctx_scr s |}).

Definition get_interrupt_rm_flag (flag ss : Z) : Z := Z.land (Z.shiftr flag ss) 1.

Definition plat_ic_has_interrupt_type (type : Z) : bool :=
  (type =? INTR_TYPE_EL3) || (type =? INTR_TYPE_S_EL1) || (type =? INTR_TYPE_NS).

Definition plat_interrupt_type_to_line (type security_state : Z) : Z :=
  if type =? INTR_TYPE_S_EL1 then if security_state =? SECURE then SCR_IRQ_POS else SCR_FIQ_POS
  else if type =? INTR_TYPE_NS then if security_state =? SECURE then SCR_FIQ_POS else SCR_IRQ_POS
  else SCR_FIQ_POS.

Definition validate_interrupt_type (type : Z) : Z :=
  if plat_ic_has_interrupt_type type then 0 else EINVAL_rc.

Definition validate_sel1_interrupt_rm (x : Z) : Z := if (x =? 2) || (x =? 3) then 0 else EINVAL_rc.
Definition validate_ns_interrupt_rm (x : Z) : Z := if (x =? 0) || (x =? 1) then 0 else EINVAL_rc.
Definition validate_el3_interrupt_rm (x : Z) : Z := if (x =? 2) || (x =? 3) then 0 else EINVAL_rc.

Definition validate_routing_model (type flags : Z) : Z :=
  let rm_flags := Z.land flags INTR_RM_FLAGS_MASK in
  if type =? INTR_TYPE_S_EL1 then validate_sel1_interrupt_rm rm_flags
  else if type =? INTR_TYPE_NS then validate_ns_interrupt_rm rm_flags
  else if type =? INTR_TYPE_EL3 then validate_el3_interrupt_rm rm_flags
  else EINVAL_rc.

Definition get_scr_el3_from_routing_model (security_state : Z) : intr Z :=
  assert_ true ((security_state =? SECURE) || (security_state =? NON_SECURE)) ;;
  let! ns := desc_of INTR_TYPE_NS in
  let! a := deref ((scr_el3 ns).[security_state]) in
  let! sel1 := desc_of INTR_TYPE_S_EL1 in
  let! b := deref ((scr_el3 sel1).[security_state]) in
  let! el3 := desc_of INTR_TYPE_EL3 in
  let! c := deref ((scr_el3 el3).[security_state]) in
  ret (Z.lor (Z.lor a b) c).

Definition cm_write_scr_el3_bit (security_state bit_pos value : Z) : intr unit :=
  let! s := gets id in
  let! ctx := deref ((ctx_scr s).[security_state]) in
  match ctx with
  | None => halt AssertFailed
  | Some scr =>
      assert_ true (negb (Z.land (Z.shiftl 1 bit_pos) SCR_VALID_BIT_MASK =? 0)) ;;
      assert_ true (value <=? 1) ;;
      let scr := Z.lor (Z.land scr (Z.lnot (Z.shiftl 1 bit_pos))) (Z.shiftl value bit_pos) in
      modify (fun s => {| intr_type_descs := intr_type_descs s;
                          ctx_scr := zupdate (ctx_scr s) security_state (Some scr) |})
  end.

Definition set_scr_el3_from_rm (type interrupt_type_flags security_state : Z) : intr unit :=
  let flag := get_interrupt_rm_flag interrupt_type_flags security_state in
  let bit_pos := plat_interrupt_type_to_line type security_state in
  update_desc type (fun d => {| handler := handler d;
                                scr_el3 := zupdate (scr_el3 d) security_state (Z.shiftl flag bit_pos);
                                flags := flags d |}) ;;
  let! s := gets id in
  let! ctx := deref ((ctx_scr s).[security_state]) in
  match ctx with
  | Some _ => cm_write_scr_el3_bit security_state bit_pos flag
  | None => ret tt
  end.

Definition set_routing_model (type flags_ : Z) : intr Z :=
  let rc := validate_interrupt_type type in
  if negb (rc =? 0) then ret rc
  else
    let rc := validate_routing_model type flags_ in
    if negb (rc =? 0) then ret rc
    else
      update_desc type (fun d => {| handler := handler d; scr_el3 := scr_el3 d; flags := flags_ |}) ;;
      set_scr_el3_from_rm type flags_ SECURE ;;
      set_scr_el3_from_rm type flags_ NON_SECURE ;;
      ret 0.

Definition disable_intr_rm_local (type security_state : Z) : intr Z :=
  let! d := desc_of type in
  assert_ true (negb (handler d =? 0)) ;;
  let flag := get_interrupt_rm_flag INTR_DEFAULT_RM security_state in
  cm_write_scr_el3_bit security_state (plat_interrupt_type_to_line type security_state) flag ;;
  ret 0.

Definition enable_intr_rm_local (type security_state : Z) : intr Z :=
  let! d := desc_of type in
  assert_ true (negb (handler d =? 0)) ;;
  let flag := get_interrupt_rm_flag (flags d) security_state in
  cm_write_scr_el3_bit security_state (plat_interrupt_type_to_line type security_state) flag ;;
  ret 0.

Definition register_interrupt_type_handler (type handler_ flags_ : Z) : intr Z :=
  if handler_ =? 0 then ret EINVAL_rc
  else if negb (Z.land flags_ INTR_TYPE_FLAGS_MASK =? 0) then ret EINVAL_rc
  else
    let! d := desc_of type in
    if negb (handler d =? 0) then ret EALREADY_rc
    else
      let! rc := set_routing_model type flags_ in
      if negb (rc =? 0) then ret rc
      else
        update_desc type (fun d => {| handler := handler_; scr_el3 := scr_el3 d; flags := flags d |}) ;;
        ret 0.

Definition get_interrupt_type_handler (type : Z) : intr Z :=
  if negb (validate_interrupt_type type =? 0) then ret 0
  else let! d := desc_of type in ret (handler d).

(** ** Registration *)

(** A type of interrupt is registered once. *)
Lemma register_twice type h fl s d :
  h <> 0 -> Z.land fl INTR_TYPE_FLAGS_MASK = 0 -> (intr_type_descs s).[type] = Some d -> handler d <> 0 ->
  register_interrupt_type_handler type h fl s = Done EALREADY_rc s.
Proof.
  intros Hh Hf Hd Hne. unfold register_interrupt_type_handler, desc_of, bind, gets, id.
  rewrite (proj2 (Z.eqb_neq h 0)), Hf by done. cbn. rewrite Hd. cbn.
  by rewrite (proj2 (Z.eqb_neq (handler d) 0)) by done.
Qed.

(** EL3 interrupts and, in the Secure state, Non-secure interrupts share the
    FIQ line. Registering the second type writes its own routing flag to the
    contexts and clears the bit the first one asked for, while
    [get_scr_el3_from_routing_model] still reports it set. *)
Lemma shared_line_overwritten :
  let run := register_interrupt_type_handler INTR_TYPE_EL3 0x1000 3 ;;
             register_interrupt_type_handler INTR_TYPE_NS 0x2000 0 in
  let s := final (run (intr_reset [Some 0; Some 0])) in
  run (intr_reset [Some 0; Some 0]) = Done 0 s /\
  (ctx_scr s).[SECURE] = Some (Some 0) /\
  get_scr_el3_from_routing_model SECURE s = Done (Z.shiftl 1 SCR_FIQ_POS) s.
Proof. vm_compute. repeat split. Qed.
