(* ===== verification/Traps.v ===== *)
(** * Traps from lower exception levels (bl31/bl31_traps.c,
    lib/extensions/idte/idte3.c)

    Emulation of trapped system register accesses, and injection of an
    undefined or external abort exception into EL1 or EL2: the syndrome and the
    return state are given to the target level, and the context that EL3
    returns to becomes its exception vector with a new PSTATE. *)

From stdpp Require Import list_numbers.
From S2P Require Import Prelude InterruptMgmt.
#[local] Open Scope cmd_scope.

(** ** Bits and fields *)

Definition BIT_64 (n : Z) : Z := Z.shiftl 1 n.

(** [MASK] and [EXTRACT] of a field given by its width and shift. *)
Definition MASK (width shift : Z) : Z := u64 (Z.shiftl (Z.shiftr (Z.ones 64) (64 - width)) shift).
Definition EXTRACT (width shift reg : Z) : Z := Z.shiftr (Z.land reg (MASK width shift)) shift.

Definition MODE_EL0 : Z := 0.
Definition MODE_EL1 : Z := 1.
Definition MODE_EL2 : Z := 2.
Definition GET_EL (mode : Z) : Z := Z.land (Z.shiftr mode 2) 3.
Definition MODE_SP_MASK : Z := 1.
Definition MODE_SP_SHIFT : Z := 0.
Definition MODE_SP_ELX : Z := 1.

Definition CURRENT_EL_SP0 : Z := 0.
Definition CURRENT_EL_SPX : Z := 0x200.
Definition LOWER_EL_AARCH64 : Z := 0x400.

Definition SPSR_M_AARCH64 : Z := 0.
Definition SPSR_M_SHIFT : Z := 4.
Definition SPSR_M_EL1H : Z := 5.
Definition SPSR_M_EL2H : Z := 9.
Definition SPSR_DAIF_MASK : Z := 0xF.
Definition SPSR_DAIF_SHIFT : Z := 6.
Definition SPSR_DAIF_WIDTH : Z := 4.
Definition SPSR_BTYPE_MASK_AARCH64 : Z := 3.
Definition SPSR_BTYPE_SHIFT_AARCH64 : Z := 10.
Definition SPSR_SSBS_BIT_AARCH64 : Z := BIT_64 12.
Definition SPSR_ALLINT_BIT_AARCH64 : Z := BIT_64 13.
Definition SPSR_IL_BIT : Z := BIT_64 20.
Definition SPSR_SS_BIT : Z := BIT_64 21.
Definition SPSR_PAN_BIT : Z := BIT_64 22.
Definition SPSR_UAO_BIT_AARCH64 : Z := BIT_64 23.
Definition SPSR_DIT_BIT : Z := BIT_64 24.
Definition SPSR_TCO_BIT_AARCH64 : Z := BIT_64 25.
Definition SPSR_Z_BIT : Z := BIT_64 30.
Definition SPSR_NZCV : Z := Z.shiftl 0xF 28.
Definition SPSR_PM_BIT_AARCH64 : Z := BIT_64 32.
Definition SPSR_EXLOCK_BIT_AARCH64 : Z := BIT_64 34.
Definition SPSR_PACM_BIT_AARCH64 : Z := BIT_64 35.
Definition SPSR_UINJ_BIT : Z := BIT_64 36.

Definition SCTLR_SPAN_BIT : Z := BIT_64 23.
Definition SCTLR_DSSBS_BIT : Z := BIT_64 44.
Definition SCTLR_SPINTMASK_BIT : Z := BIT_64 62.
Definition GCSCR_EXLOCK_EN_BIT : Z := BIT_64 6.
Definition HCR_TGE_BIT : Z := BIT_64 27.
Definition HCR_TEA_BIT : Z := BIT_64 37.
Definition HCRX_EL2_TMEA_BIT : Z := BIT_64 19.
Definition SCR_NS_BIT : Z := BIT_64 0.
Definition SCR_HCE_BIT : Z := BIT_64 8.
Definition SCR_EEL2_BIT : Z := BIT_64 18.
Definition DAIF_ABT_BIT : Z := Z.shiftl 1 2.

Definition ESR_EC_SHIFT : Z := 26.
Definition ESR_IL_BIT : Z := Z.shiftl 1 25.
Definition ESR_ISS_WIDTH : Z := 25.
Definition EC_UNKNOWN : Z := 0.
Definition EC_ABORT_CUR_EL_BIT : Z := 1.
Definition XZR_REG_NUM : Z := 31.

Definition TRAP_RET_UNHANDLED : Z := -1.
Definition TRAP_RET_CONTINUE : Z := 1.

(** The encoding of a system register in the ISS of a trap. *)
Definition SYSREG_ESR (op0 op1 crn crm op2 : Z) : Z :=
  Z.lor (Z.lor (Z.lor (Z.lor (Z.shiftl op0 20) (Z.shiftl op1 14)) (Z.shiftl crn 10)) (Z.shiftl crm 1))
        (Z.shiftl op2 17).

Definition ISS_SYSREG_OPCODE_ID_PFR0_EL1 : Z := SYSREG_ESR 3 0 0 1 0.
Definition ISS_SYSREG_OPCODE_ID_PFR1_EL1 : Z := SYSREG_ESR 3 0 0 1 1.
Definition ISS_SYSREG_OPCODE_ID_DFR0_EL1 : Z := SYSREG_ESR 3 0 0 1 2.
Definition ISS_SYSREG_OPCODE_ID_AFR0_EL1 : Z := SYSREG_ESR 3 0 0 1 3.
Definition ISS_SYSREG_OPCODE_ID_MMFR0_EL1 : Z := SYSREG_ESR 3 0 0 1 4.
Definition ISS_SYSREG_OPCODE_ID_MMFR1_EL1 : Z := SYSREG_ESR 3 0 0 1 5.
Definition ISS_SYSREG_OPCODE_ID_MMFR2_EL1 : Z := SYSREG_ESR 3 0 0 1 6.
Definition ISS_SYSREG_OPCODE_ID_MMFR3_EL1 : Z := SYSREG_ESR 3 0 0 1 7.
Definition ISS_SYSREG_OPCODE_ID_ISAR0_EL1 : Z := SYSREG_ESR 3 0 0 2 0.
Definition ISS_SYSREG_OPCODE_ID_ISAR1_EL1 : Z := SYSREG_ESR 3 0 0 2 1.
Definition ISS_SYSREG_OPCODE_ID_ISAR2_EL1 : Z := SYSREG_ESR 3 0 0 2 2.
Definition ISS_SYSREG_OPCODE_ID_ISAR3_EL1 : Z := SYSREG_ESR 3 0 0 2 3.
Definition ISS_SYSREG_OPCODE_ID_ISAR4_EL1 : Z := SYSREG_ESR 3 0 0 2 4.
Definition ISS_SYSREG_OPCODE_ID_ISAR5_EL1 : Z := SYSREG_ESR 3 0 0 2 5.
Definition ISS_SYSREG_OPCODE_ID_MMFR4_EL1 : Z := SYSREG_ESR 3 0 0 2 6.
Definition ISS_SYSREG_OPCODE_ID_ISAR6_EL1 : Z := SYSREG_ESR 3 0 0 2 7.
Definition ISS_SYSREG_OPCODE_MVFR0_EL1 : Z := SYSREG_ESR 3 0 0 3 0.
Definition ISS_SYSREG_OPCODE_MVFR1_EL1 : Z := SYSREG_ESR 3 0 0 3 1.
Definition ISS_SYSREG_OPCODE_MVFR2_EL1 : Z := SYSREG_ESR 3 0 0 3 2.
Definition ISS_SYSREG_OPCODE_ID_PFR2_EL1 : Z := SYSREG_ESR 3 0 0 3 4.
Definition ISS_SYSREG_OPCODE_ID_DFR1_EL1 : Z := SYSREG_ESR 3 0 0 3 5.
Definition ISS_SYSREG_OPCODE_ID_MMFR5_EL1 : Z := SYSREG_ESR 3 0 0 3 6.
Definition ISS_SYSREG_OPCODE_ID_AA64PFR0_EL1 : Z := SYSREG_ESR 3 0 0 4 0.
Definition ISS_SYSREG_OPCODE_ID_AA64PFR1_EL1 : Z := SYSREG_ESR 3 0 0 4 1.
Definition ISS_SYSREG_OPCODE_ID_AA64PFR2_EL1 : Z := SYSREG_ESR 3 0 0 4 2.
Definition ISS_SYSREG_OPCODE_ID_AA64ZFR0_EL1 : Z := SYSREG_ESR 3 0 0 4 4.
Definition ISS_SYSREG_OPCODE_ID_AA64SMFR0_EL1 : Z := SYSREG_ESR 3 0 0 4 5.
Definition ISS_SYSREG_OPCODE_ID_AA64FPFR0_EL1 : Z := SYSREG_ESR 3 0 0 4 7.
Definition ISS_SYSREG_OPCODE_ID_AA64DFR0_EL1 : Z := SYSREG_ESR 3 0 0 5 0.
Definition ISS_SYSREG_OPCODE_ID_AA64DFR1_EL1 : Z := SYSREG_ESR 3 0 0 5 1.
Definition ISS_SYSREG_OPCODE_ID_AA64DFR2_EL1 : Z := SYSREG_ESR 3 0 0 5 2.
Definition ISS_SYSREG_OPCODE_ID_AA64AFR0_EL1 : Z := SYSREG_ESR 3 0 0 5 4.
Definition ISS_SYSREG_OPCODE_ID_AA64AFR1_EL1 : Z := SYSREG_ESR 3 0 0 5 5.
Definition ISS_SYSREG_OPCODE_ID_AA64ISAR0_EL1 : Z := SYSREG_ESR 3 0 0 6 0.
Definition ISS_SYSREG_OPCODE_ID_AA64ISAR1_EL1 : Z := SYSREG_ESR 3 0 0 6 1.
Definition ISS_SYSREG_OPCODE_ID_AA64ISAR2_EL1 : Z := SYSREG_ESR 3 0 0 6 2.
Definition ISS_SYSREG_OPCODE_ID_AA64ISAR3_EL1 : Z := SYSREG_ESR 3 0 0 6 3.
Definition ISS_SYSREG_OPCODE_ID_AA64MMFR0_EL1 : Z := SYSREG_ESR 3 0 0 7 0.
Definition ISS_SYSREG_OPCODE_ID_AA64MMFR1_EL1 : Z := SYSREG_ESR 3 0 0 7 1.
Definition ISS_SYSREG_OPCODE_ID_AA64MMFR2_EL1 : Z := SYSREG_ESR 3 0 0 7 2.
Definition ISS_SYSREG_OPCODE_ID_AA64MMFR3_EL1 : Z := SYSREG_ESR 3 0 0 7 3.
Definition ISS_SYSREG_OPCODE_ID_AA64MMFR4_EL1 : Z := SYSREG_ESR 3 0 0 7 4.
Definition ISS_SYSREG_OPCODE_GMID_EL1 : Z := SYSREG_ESR 3 1 0 0 4.
Definition ISS_SYSREG_OPCODE_IMPDEF_MASK : Z := SYSREG_ESR 3 0 11 0 0.
Definition ISS_SYSREG_OPCODE_RNDR : Z := SYSREG_ESR 3 3 2 4 0.
Definition ISS_SYSREG_OPCODE_RNDRRS : Z := SYSREG_ESR 3 3 2 4 1.
Definition ISS_SYSREG_OPCODE_ERXPFGCDN_EL1 : Z := SYSREG_ESR 3 0 5 4 6.
Definition ISS_SYSREG_OPCODE_ERXPFGCTL_EL1 : Z := SYSREG_ESR 3 0 5 4 5.
Definition ISS_SYSREG_OPCODE_ERXPFGF_EL1 : Z := SYSREG_ESR 3 0 5 4 4.
Definition ISS_SYSREG_OPCODE_ERRSELR_EL1 : Z := SYSREG_ESR 3 0 5 3 1.
Definition ISS_SYSREG_OPCODE_ERXADDR_EL1 : Z := SYSREG_ESR 3 0 5 4 3.
Definition ISS_SYSREG_OPCODE_ERXCTLR_EL1 : Z := SYSREG_ESR 3 0 5 4 1.
Definition ISS_SYSREG_OPCODE_ERXMISC0_EL1 : Z := SYSREG_ESR 3 0 5 5 0.
Definition ISS_SYSREG_OPCODE_ERXMISC1_EL1 : Z := SYSREG_ESR 3 0 5 5 1.
Definition ISS_SYSREG_OPCODE_ERXSTATUS_EL1 : Z := SYSREG_ESR 3 0 5 4 2.
Definition ISS_SYSREG_OPCODE_ERRIDR_EL1 : Z := SYSREG_ESR 3 0 5 3 0.
Definition ISS_SYSREG_OPCODE_ERXFR_EL1 : Z := SYSREG_ESR 3 0 5 4 0.
Definition ISS_SYSREG_OPCODE_ERXMISC2_EL1 : Z := SYSREG_ESR 3 0 5 5 2.
Definition ISS_SYSREG_OPCODE_ERXMISC3_EL1 : Z := SYSREG_ESR 3 0 5 5 3.
Definition ISS_SYSREG_OPCODE_ERXGSR_EL1 : Z := SYSREG_ESR 3 0 5 3 2.

(** The three kinds of ID register: cached per world, cached per CPU, and read
    from the CPU. *)
Definition perworld_idregs : list Z :=
  [ISS_SYSREG_OPCODE_ID_AA64PFR0_EL1; ISS_SYSREG_OPCODE_ID_AA64PFR1_EL1; ISS_SYSREG_OPCODE_ID_AA64PFR2_EL1;
   ISS_SYSREG_OPCODE_ID_AA64SMFR0_EL1; ISS_SYSREG_OPCODE_ID_AA64ISAR0_EL1;
   ISS_SYSREG_OPCODE_ID_AA64ISAR1_EL1; ISS_SYSREG_OPCODE_ID_AA64ISAR2_EL1;
   ISS_SYSREG_OPCODE_ID_AA64ISAR3_EL1; ISS_SYSREG_OPCODE_ID_AA64MMFR0_EL1;
   ISS_SYSREG_OPCODE_ID_AA64MMFR1_EL1; ISS_SYSREG_OPCODE_ID_AA64MMFR2_EL1;
   ISS_SYSREG_OPCODE_ID_AA64MMFR3_EL1; ISS_SYSREG_OPCODE_ID_AA64MMFR4_EL1; ISS_SYSREG_OPCODE_ID_AA64DFR2_EL1].
Definition percpu_idregs : list Z :=
  [ISS_SYSREG_OPCODE_ID_AA64DFR0_EL1; ISS_SYSREG_OPCODE_ID_AA64DFR1_EL1].
Definition direct_idregs : list Z :=
  [ISS_SYSREG_OPCODE_ID_AA64ZFR0_EL1; ISS_SYSREG_OPCODE_ID_AA64FPFR0_EL1; ISS_SYSREG_OPCODE_ID_AA64AFR0_EL1;
   ISS_SYSREG_OPCODE_ID_AA64AFR1_EL1; ISS_SYSREG_OPCODE_GMID_EL1; ISS_SYSREG_OPCODE_ID_PFR0_EL1;
   ISS_SYSREG_OPCODE_ID_PFR1_EL1; ISS_SYSREG_OPCODE_ID_DFR0_EL1; ISS_SYSREG_OPCODE_ID_AFR0_EL1;
   ISS_SYSREG_OPCODE_ID_PFR2_EL1; ISS_SYSREG_OPCODE_ID_DFR1_EL1; ISS_SYSREG_OPCODE_ID_MMFR0_EL1;
   ISS_SYSREG_OPCODE_ID_MMFR1_EL1; ISS_SYSREG_OPCODE_ID_MMFR2_EL1; ISS_SYSREG_OPCODE_ID_MMFR3_EL1;
   ISS_SYSREG_OPCODE_ID_MMFR4_EL1; ISS_SYSREG_OPCODE_ID_MMFR5_EL1; ISS_SYSREG_OPCODE_ID_ISAR0_EL1;
   ISS_SYSREG_OPCODE_ID_ISAR1_EL1; ISS_SYSREG_OPCODE_ID_ISAR2_EL1; ISS_SYSREG_OPCODE_ID_ISAR3_EL1;
   ISS_SYSREG_OPCODE_ID_ISAR4_EL1; ISS_SYSREG_OPCODE_ID_ISAR5_EL1; ISS_SYSREG_OPCODE_ID_ISAR6_EL1;
   ISS_SYSREG_OPCODE_MVFR0_EL1; ISS_SYSREG_OPCODE_MVFR1_EL1; ISS_SYSREG_OPCODE_MVFR2_EL1].

Definition fault_injection_regs : list Z :=
  [ISS_SYSREG_OPCODE_ERXPFGCDN_EL1; ISS_SYSREG_OPCODE_ERXPFGCTL_EL1; ISS_SYSREG_OPCODE_ERXPFGF_EL1].
Definition error_record_regs : list Z :=
  [ISS_SYSREG_OPCODE_ERRSELR_EL1; ISS_SYSREG_OPCODE_ERXADDR_EL1; ISS_SYSREG_OPCODE_ERXCTLR_EL1;
   ISS_SYSREG_OPCODE_ERXMISC0_EL1; ISS_SYSREG_OPCODE_ERXMISC1_EL1; ISS_SYSREG_OPCODE_ERXSTATUS_EL1;
   ISS_SYSREG_OPCODE_ERRIDR_EL1; ISS_SYSREG_OPCODE_ERXFR_EL1; ISS_SYSREG_OPCODE_ERXMISC2_EL1;
   ISS_SYSREG_OPCODE_ERXMISC3_EL1; ISS_SYSREG_OPCODE_ERXGSR_EL1].

Definition one_of (opcode : Z) (l : list Z) : bool := existsb (Z.eqb opcode) l.

(** ** The CPU and the platform *)

(** The features of the CPU and of the build, the registers the handlers read
    (none of which they write), the caches of ID registers by context index and
    opcode, and the platform's random number hook, which gives the new value
    of the register and its answer. *)
Class TrapCpu := {
  ENABLE_RMM : bool;
  FAULT_INJECTION_SUPPORT : bool;
  RAS_TRAP_NS_ERR_REC_ACCESS : bool;
  IMPDEF_SYSREG_TRAP : bool;
  is_feat_bti_present : bool;
  is_feat_ssbs_present : bool;
  is_feat_nmi_present : bool;
  is_feat_pan_present : bool;
  is_feat_vhe_supported : bool;
  is_feat_uao_present : bool;
  is_feat_mte2_present : bool;
  is_feat_ebep_present : bool;
  is_feat_spe_exc_present : bool;
  is_feat_trbe_exc_present : bool;
  is_feat_gcs_present : bool;
  is_feat_pauth_lr_present : bool;
  is_feat_uinj_supported : bool;
  is_feat_sel2_supported : bool;
  is_feat_rng_trap_supported : bool;
  is_feat_idte3_supported : bool;
  is_feat_ras_supported : bool;
  is_feat_doublefault2_supported : bool;
  is_feat_hcx_supported : bool;
  is_feat_pfar_supported : bool;
  el2_implemented : bool;
  sctlr_el1 : Z;
  sctlr_el2 : Z;
  hcr_el2 : Z;
  hcrx_el2 : Z;
  gcscr_el1 : Z;
  gcscr_el2 : Z;
  vbar_el1 : Z;
  vbar_el2 : Z;
  far_el3 : Z;
  mfar_el3 : Z;
  perworld_idreg : Z -> Z -> Z;
  percpu_idreg : Z -> Z -> Z;
  read_idreg : Z -> Z;
  plat_handle_rng_trap : Z -> bool -> Z * Z
}.

(** The exception registers of a lower level. *)
Record el_regs := {
  er_esr : Z;
  er_elr : Z;
  er_spsr : Z;
  er_far : Z;
  er_pfar : Z
}.

(** The context of the level that trapped: x0 to x30 and SP_EL0, and the EL3
    state; and the registers of EL1 and EL2. *)
Record trap_state := {
  tc_regs : list Z;
  tc_elr_el3 : Z;
  tc_spsr_el3 : Z;
  tc_scr_el3 : Z;
  el1_regs : el_regs;
  el2_regs : el_regs
}.

Definition set_tc_regs (v : list Z) (s : trap_state) : trap_state := {|
  tc_regs := v; tc_elr_el3 := tc_elr_el3 s; tc_spsr_el3 := tc_spsr_el3 s; tc_scr_el3 := tc_scr_el3 s;
  el1_regs := el1_regs s; el2_regs := el2_regs s |}.
Definition set_tc_elr (v : Z) (s : trap_state) : trap_state := {|
  tc_regs := tc_regs s; tc_elr_el3 := v; tc_spsr_el3 := tc_spsr_el3 s; tc_scr_el3 := tc_scr_el3 s;
  el1_regs := el1_regs s; el2_regs := el2_regs s |}.
Definition set_tc_spsr (v : Z) (s : trap_state) : trap_state := {|
  tc_regs := tc_regs s; tc_elr_el3 := tc_elr_el3 s; tc_spsr_el3 := v; tc_scr_el3 := tc_scr_el3 s;
  el1_regs := el1_regs s; el2_regs := el2_regs s |}.

Definition el_bank (el : Z) (s : trap_state) : el_regs := if el =? MODE_EL2 then el2_regs s else el1_regs s.
Definition set_el_bank (el : Z) (v : el_regs) (s : trap_state) : trap_state :=
  if el =? MODE_EL2
  then {| tc_regs := tc_regs s; tc_elr_el3 := tc_elr_el3 s; tc_spsr_el3 := tc_spsr_el3 s; tc_scr_el3 := tc_scr_el3 s;
          el1_regs := el1_regs s; el2_regs := v |}
  else {| tc_regs := tc_regs s; tc_elr_el3 := tc_elr_el3 s; tc_spsr_el3 := tc_spsr_el3 s; tc_scr_el3 := tc_scr_el3 s;
          el1_regs := v; el2_regs := el2_regs s |}.

Abbreviation trap := (cmd trap_state).

Section Traps.
Context `{Cpu : TrapCpu}.

(** ** Emulation of system registers *)

(** A store to [ctx->gpregs_ctx.ctx_regs[rt]]. *)
Definition write_gpreg (rt v : Z) : trap unit :=
  let! s := gets id in
  deref ((tc_regs s).[rt]) ;;
  modify (set_tc_regs (zupdate (tc_regs s) rt v)).

Definition access_raz_wi (is_read : bool) (rt : Z) : trap Z :=
  when is_read (write_gpreg rt 0) ;;
  ret TRAP_RET_CONTINUE.

Definition EP_REALM : Z := 0x21.
Definition GET_SECURITY_STATE (x : Z) : Z := Z.land x 0x21.

Definition get_cpu_context_index (security_state : Z) : trap Z :=
  if security_state =? SECURE then ret 0
  else if ENABLE_RMM && (security_state =? EP_REALM) then ret 2
  else
    assert_ true (security_state =? NON_SECURE) ;;
    ret 1.

Definition handle_idreg_trap (rt idreg flags : Z) : trap Z :=
  let! security_state := get_cpu_context_index (GET_SECURITY_STATE flags) in
  let value :=
    if one_of idreg perworld_idregs then perworld_idreg security_state idreg
    else if one_of idreg percpu_idregs then percpu_idreg security_state idreg
    else if one_of idreg direct_idregs then read_idreg idreg
    else 0 in
  write_gpreg rt value ;;
  ret TRAP_RET_CONTINUE.

(** The RNDR and RNDRRS traps. [SPSR_NZCV] is an [unsigned int], so its
    complement has 32 bits and the mask clears the upper half of SPSR_EL3 too. *)
Definition handle_rng_trap (opcode rt : Z) : trap Z :=
  let! s := gets id in
  let new_spsr := Z.land (tc_spsr_el3 s) (u32 (Z.lnot SPSR_NZCV)) in
  let! r :=
    if rt =? XZR_REG_NUM then ret (TRAP_RET_CONTINUE, new_spsr)
    else
      let! old := deref ((tc_regs s).[rt]) in
      let (data, rc) := plat_handle_rng_trap old (opcode =? ISS_SYSREG_OPCODE_RNDRRS) in
      if rc =? TRAP_RET_UNHANDLED then
        write_gpreg rt 0 ;; ret (TRAP_RET_CONTINUE, Z.lor new_spsr SPSR_Z_BIT)
      else write_gpreg rt data ;; ret (rc, new_spsr) in
  modify (set_tc_spsr (snd r)) ;;
  assert_ true (fst r =? TRAP_RET_CONTINUE) ;;
  ret (fst r).

(** Whether the group 3 and group 5 ID registers are accessed. *)
Definition is_idreg (opcode : Z) : bool :=
  ((EXTRACT 2 20 opcode =? 3) && (EXTRACT 3 14 opcode =? 0) && (EXTRACT 4 10 opcode =? 0) &&
   (1 <=? EXTRACT 4 1 opcode) && (EXTRACT 4 1 opcode <=? 7)) ||
  (opcode =? ISS_SYSREG_OPCODE_GMID_EL1).

Definition trap_opcode (esr_el3 : Z) : Z :=
  Z.land (EXTRACT ESR_ISS_WIDTH 0 esr_el3) (Z.lnot (Z.lor (MASK 1 0) (MASK 5 5))).

(** The condition [opcode & ISS_SYSREG_OPCODE_IMPDEF_MASK ==
    ISS_SYSREG_OPCODE_IMPDEF_MASK], in which [==] binds tighter than [&]. *)
Definition is_impdef (opcode : Z) : bool :=
  negb (Z.land opcode
          (if ISS_SYSREG_OPCODE_IMPDEF_MASK =? ISS_SYSREG_OPCODE_IMPDEF_MASK then 1 else 0) =? 0).

(** [impdef] is [plat_handle_impdef_trap]. *)
Definition handle_sysreg_trap (impdef : Z -> trap Z) (esr_el3 flags : Z) : trap Z :=
  let opcode := trap_opcode esr_el3 in
  let rt := u8 (EXTRACT 5 5 esr_el3) in
  let is_read := negb (EXTRACT 1 0 esr_el3 =? 0) in
  if is_feat_rng_trap_supported &&
     ((opcode =? ISS_SYSREG_OPCODE_RNDR) || (opcode =? ISS_SYSREG_OPCODE_RNDRRS)) then
    assert_ true is_read ;;
    handle_rng_trap opcode rt
  else if is_read && (rt =? XZR_REG_NUM) then ret TRAP_RET_CONTINUE
  else if is_feat_idte3_supported && is_idreg opcode then handle_idreg_trap rt opcode flags
  else if is_feat_ras_supported && negb FAULT_INJECTION_SUPPORT && one_of opcode fault_injection_regs then
    access_raz_wi is_read rt
  else if is_feat_ras_supported && RAS_TRAP_NS_ERR_REC_ACCESS && one_of opcode error_record_regs then
    access_raz_wi is_read rt
  else if IMPDEF_SYSREG_TRAP && is_impdef opcode then impdef esr_el3
  else ret TRAP_RET_UNHANDLED.

(** ** The state an exception is taken in *)

Definition is_tge_enabled : bool := is_set hcr_el2 HCR_TGE_BIT.

Definition el2_enabled (scr_el3 : Z) : bool :=
  el2_implemented && (is_set scr_el3 SCR_NS_BIT || (is_feat_sel2_supported && is_set scr_el3 SCR_EEL2_BIT)).

(** [x |= old & mask]; [x &= ~mask] and [x |= mask] under a condition; and the
    choice between the two. *)
Definition keep_bits (x old mask : Z) : Z := Z.lor x (Z.land old mask).
Definition clear_if (b : bool) (x mask : Z) : Z := if b then Z.land x (Z.lnot mask) else x.
Definition set_if (b : bool) (x mask : Z) : Z := if b then Z.lor x mask else x.
Definition assign_if (b v : bool) (x mask : Z) : Z :=
  if b then if v then Z.lor x mask else Z.land x (Z.lnot mask) else x.

(** The complement of the BTYPE mask is an [unsigned int] as well; no bit above
    the mask is set in the value at that point. *)
Definition create_spsr (old_spsr target_el scr_el3 : Z) : Z :=
  let sctlr := if target_el =? MODE_EL2 then sctlr_el2 else sctlr_el1 in
  let x := Z.lor (Z.shiftl SPSR_M_AARCH64 SPSR_M_SHIFT) (if target_el =? MODE_EL2 then SPSR_M_EL2H else SPSR_M_EL1H) in
  let x := Z.lor x (Z.shiftl SPSR_DAIF_MASK SPSR_DAIF_SHIFT) in
  let x := keep_bits x old_spsr (Z.shiftl SPSR_BTYPE_MASK_AARCH64 SPSR_BTYPE_SHIFT_AARCH64) in
  let x := if is_feat_bti_present
           then Z.land x (u32 (Z.lnot (Z.shiftl SPSR_BTYPE_MASK_AARCH64 SPSR_BTYPE_SHIFT_AARCH64))) else x in
  let x := keep_bits x old_spsr SPSR_SSBS_BIT_AARCH64 in
  let x := assign_if is_feat_ssbs_present (is_set sctlr SCTLR_DSSBS_BIT) x SPSR_SSBS_BIT_AARCH64 in
  let x := keep_bits x old_spsr SPSR_ALLINT_BIT_AARCH64 in
  let x := assign_if is_feat_nmi_present (negb (is_set sctlr SCTLR_SPINTMASK_BIT)) x SPSR_ALLINT_BIT_AARCH64 in
  let x := clear_if true x SPSR_IL_BIT in
  let x := clear_if true x SPSR_SS_BIT in
  let x := keep_bits x old_spsr SPSR_PAN_BIT in
  let x := set_if (is_feat_pan_present &&
                   ((target_el =? MODE_EL1) ||
                    ((target_el =? MODE_EL2) && el2_enabled scr_el3 && is_feat_vhe_supported && is_tge_enabled)) &&
                   negb (is_set sctlr SCTLR_SPAN_BIT)) x SPSR_PAN_BIT in
  let x := keep_bits x old_spsr SPSR_UAO_BIT_AARCH64 in
  let x := clear_if is_feat_uao_present x SPSR_UAO_BIT_AARCH64 in
  let x := keep_bits x old_spsr SPSR_DIT_BIT in
  let x := keep_bits x old_spsr SPSR_TCO_BIT_AARCH64 in
  let x := set_if is_feat_mte2_present x SPSR_TCO_BIT_AARCH64 in
  let x := keep_bits x old_spsr SPSR_NZCV in
  let x := keep_bits x old_spsr SPSR_UINJ_BIT in
  let x := keep_bits x old_spsr SPSR_PM_BIT_AARCH64 in
  let x := set_if (is_feat_ebep_present || is_feat_spe_exc_present || is_feat_trbe_exc_present)
                  x SPSR_PM_BIT_AARCH64 in
  let x := keep_bits x old_spsr SPSR_EXLOCK_BIT_AARCH64 in
  let x := clear_if is_feat_gcs_present x SPSR_EXLOCK_BIT_AARCH64 in
  let gcscr := if target_el =? MODE_EL2 then gcscr_el2 else gcscr_el1 in
  let x := set_if (is_feat_gcs_present && (GET_EL old_spsr =? target_el) && is_set gcscr GCSCR_EXLOCK_EN_BIT)
                  x SPSR_EXLOCK_BIT_AARCH64 in
  let x := keep_bits x old_spsr SPSR_PACM_BIT_AARCH64 in
  clear_if is_feat_pauth_lr_present x SPSR_PACM_BIT_AARCH64.

Definition get_undef_target_el (scr_el3 from_el : Z) : Z :=
  if MODE_EL1 <? from_el then from_el
  else if (from_el =? MODE_EL0) && el2_enabled scr_el3 && is_tge_enabled then MODE_EL2
  else MODE_EL1.

Definition is_hcrx_el2_tmea_set (scr_el3 : Z) : bool :=
  is_feat_doublefault2_supported && el2_enabled scr_el3 && is_feat_hcx_supported &&
  is_set hcrx_el2 HCRX_EL2_TMEA_BIT.

Definition target_el_sync_ea (s : trap_state) : Z :=
  let el := GET_EL (tc_spsr_el3 s) in
  let pstate_a := is_set (EXTRACT SPSR_DAIF_WIDTH SPSR_DAIF_SHIFT (tc_spsr_el3 s)) DAIF_ABT_BIT in
  if el2_enabled (tc_scr_el3 s) && ((el =? MODE_EL1) || (el =? MODE_EL0)) &&
     (is_feat_ras_supported && is_set hcr_el2 HCR_TEA_BIT) && ((el =? 0) && is_tge_enabled) then MODE_EL2
  else if is_hcrx_el2_tmea_set (tc_scr_el3 s) && pstate_a && (el =? MODE_EL1) then MODE_EL2
  else if el =? MODE_EL2 then MODE_EL2
  else MODE_EL1.

Definition get_elr_el3 (spsr_el3 target_el : Z) : Z :=
  let vbar := if target_el =? MODE_EL2 then vbar_el2 else vbar_el1 in
  u64 (vbar +
    (if GET_EL spsr_el3 =? target_el then
       if Z.land spsr_el3 (Z.shiftl MODE_SP_MASK MODE_SP_SHIFT) =? MODE_SP_ELX then CURRENT_EL_SPX
       else CURRENT_EL_SP0
     else LOWER_EL_AARCH64)).

(** ** Injection *)

Definition inject_exception (new_esr to_el : Z) : trap unit :=
  let! s := gets id in
  let bank := el_bank to_el s in
  modify (set_el_bank to_el {| er_esr := new_esr; er_elr := tc_elr_el3 s; er_spsr := tc_spsr_el3 s;
                               er_far := er_far bank; er_pfar := er_pfar bank |}) ;;
  modify (set_tc_elr (get_elr_el3 (tc_spsr_el3 s) to_el)) ;;
  modify (set_tc_spsr (create_spsr (tc_spsr_el3 s) to_el (tc_scr_el3 s))).

Definition inject_undef64 : trap unit :=
  let! s := gets id in
  if is_feat_uinj_supported then modify (set_tc_spsr (Z.lor (tc_spsr_el3 s) SPSR_UINJ_BIT))
  else
    let to_el := get_undef_target_el (tc_scr_el3 s) (GET_EL (tc_spsr_el3 s)) in
    inject_exception (Z.lor (Z.shiftl EC_UNKNOWN ESR_EC_SHIFT) ESR_IL_BIT) to_el.

Definition inject_sync_ea64 (esr_el3 : Z) : trap unit :=
  let! s := gets id in
  let to_el := target_el_sync_ea s in
  let new_esr :=
    if GET_EL (tc_spsr_el3 s) =? to_el then Z.lor esr_el3 (Z.shiftl EC_ABORT_CUR_EL_BIT ESR_EC_SHIFT) else esr_el3 in
  let bank := el_bank to_el s in
  modify (set_el_bank to_el {| er_esr := er_esr bank; er_elr := er_elr bank; er_spsr := er_spsr bank;
                               er_far := far_el3;
                               er_pfar := if is_feat_pfar_supported then mfar_el3 else er_pfar bank |}) ;;
  inject_exception new_esr to_el.

End Traps.
