(* ===== verification/TrapsProps.v ===== *)
(** * Traps: what the lower exception level sees *)

From Stdlib Require Import Btauto.
From stdpp Require Import list_numbers.
From S2P Require Import Prelude InterruptMgmt Traps.
#[local] Open Scope cmd_scope.

(** ** Bits *)

Lemma BIT_64_spec k n : 0 <= k -> Z.testbit (BIT_64 k) n = (n =? k).
Proof.
  intros Hk. unfold BIT_64. rewrite Z.shiftl_1_l. destruct (Z.eqb_spec n k) as [->|Hn].
  - by rewrite Z.pow2_bits_true.
  - by rewrite Z.pow2_bits_false by lia.
Qed.

Lemma field_spec w k n : 0 <= w -> 0 <= k -> Z.testbit (Z.shiftl (Z.ones w) k) n = (k <=? n) && (n <? k + w).
Proof.
  intros Hw Hk. destruct (Z.ltb_spec n 0) as [Hn|Hn].
  - rewrite Z.testbit_neg_r by done. destruct (Z.leb_spec k n); [lia|done].
  - rewrite Z.shiftl_spec by done. destruct (Z.leb_spec k n).
    + destruct (Z.ltb_spec n (k + w)); [by rewrite Z.ones_spec_low by lia|by rewrite Z.ones_spec_high by lia].
    + by rewrite Z.testbit_neg_r by lia.
Qed.

Lemma clear_if_spec b x m n : 0 <= n -> Z.testbit (clear_if b x m) n = Z.testbit x n && negb (b && Z.testbit m n).
Proof. intros Hn. destruct b; cbn; [by rewrite Z.land_spec, Z.lnot_spec|by rewrite andb_true_r]. Qed.

Lemma set_if_spec b x m n : Z.testbit (set_if b x m) n = Z.testbit x n || (b && Z.testbit m n).
Proof. destruct b; cbn; [by rewrite Z.lor_spec|by rewrite orb_false_r]. Qed.

Lemma assign_if_spec b v x m n : 0 <= n ->
  Z.testbit (assign_if b v x m) n = (Z.testbit x n && negb (b && negb v && Z.testbit m n)) || (b && v && Z.testbit m n).
Proof.
  intros Hn. destruct b, v; cbn; rewrite ?Z.lor_spec, ?Z.land_spec, ?Z.lnot_spec by done;
    by rewrite ?andb_true_r, ?orb_false_r.
Qed.

Lemma keep_bits_spec x old m n : Z.testbit (keep_bits x old m) n = Z.testbit x n || (Z.testbit old n && Z.testbit m n).
Proof. unfold keep_bits. by rewrite Z.lor_spec, Z.land_spec. Qed.

Lemma is_set_BIT_64 x k : 0 <= k -> is_set x (BIT_64 k) = Z.testbit x k.
Proof.
  intros Hk. unfold is_set. destruct (Z.testbit x k) eqn:Hb.
  - apply negb_true_iff, Z.eqb_neq. intros Hz. apply (f_equal (fun z => Z.testbit z k)) in Hz.
    rewrite Z.land_spec, Hb, BIT_64_spec, Z.eqb_refl, Z.bits_0 in Hz by done. done.
  - apply negb_false_iff, Z.eqb_eq, Z.bits_inj_0. intros n. rewrite Z.land_spec, BIT_64_spec by done.
    destruct (Z.eqb_spec n k) as [->|]; [by rewrite Hb|apply andb_false_r].
Qed.

Lemma land_if_spec (b : bool) x m n :
  Z.testbit (if b then Z.land x m else x) n = Z.testbit x n && (negb b || Z.testbit m n).
Proof. destruct b; cbn; [by rewrite Z.land_spec|by rewrite andb_true_r]. Qed.

Section TrapsProps.
Context `{Cpu : TrapCpu}.

(** ** PSTATE at an exception *)

(** Bit [n] of the PSTATE in which an exception is taken to EL [el] from a
    level whose PSTATE was [old]. *)
Definition pstate_bit (old el scr_el3 n : Z) : bool :=
  let sctlr := if el =? MODE_EL2 then sctlr_el2 else sctlr_el1 in
  let gcscr := if el =? MODE_EL2 then gcscr_el2 else gcscr_el1 in
  let was := Z.testbit old n in
  if n =? 0 then true
  else if n =? 2 then negb (el =? MODE_EL2)
  else if n =? 3 then el =? MODE_EL2
  else if (6 <=? n) && (n <? 10) then true
  else if (10 <=? n) && (n <? 12) then was && negb is_feat_bti_present
  else if n =? 12 then if is_feat_ssbs_present then Z.testbit sctlr 44 else was
  else if n =? 13 then if is_feat_nmi_present then negb (Z.testbit sctlr 62) else was
  else if n =? 22 then
    was || (is_feat_pan_present &&
            ((el =? MODE_EL1) || ((el =? MODE_EL2) && el2_enabled scr_el3 && is_feat_vhe_supported && is_tge_enabled)) &&
            negb (Z.testbit sctlr 23))
  else if n =? 23 then was && negb is_feat_uao_present
  else if n =? 24 then was
  else if n =? 25 then was || is_feat_mte2_present
  else if (28 <=? n) && (n <? 32) then was
  else if n =? 32 then was || is_feat_ebep_present || is_feat_spe_exc_present || is_feat_trbe_exc_present
  else if n =? 34 then if is_feat_gcs_present then (GET_EL old =? el) && Z.testbit gcscr 6 else was
  else if n =? 35 then was && negb is_feat_pauth_lr_present
  else if n =? 36 then was
  else false.

Lemma mode_bits (b : bool) n :
  Z.testbit (Z.lor (Z.shiftl SPSR_M_AARCH64 SPSR_M_SHIFT) (if b then SPSR_M_EL2H else SPSR_M_EL1H)) n =
  (n =? 0) || (if b then n =? 3 else n =? 2).
Proof.
  replace (Z.lor _ _) with (Z.lor (BIT_64 0) (if b then BIT_64 3 else BIT_64 2)) by (by destruct b).
  rewrite Z.lor_spec. destruct b; by rewrite !BIT_64_spec by done.
Qed.

Lemma daif_bits n : Z.testbit (Z.shiftl SPSR_DAIF_MASK SPSR_DAIF_SHIFT) n = (6 <=? n) && (n <? 10).
Proof. exact (field_spec 4 6 n ltac:(done) ltac:(done)). Qed.
Lemma btype_bits n :
  Z.testbit (Z.shiftl SPSR_BTYPE_MASK_AARCH64 SPSR_BTYPE_SHIFT_AARCH64) n = (10 <=? n) && (n <? 12).
Proof. exact (field_spec 2 10 n ltac:(done) ltac:(done)). Qed.
Lemma nzcv_bits n : Z.testbit SPSR_NZCV n = (28 <=? n) && (n <? 32).
Proof. exact (field_spec 4 28 n ltac:(done) ltac:(done)). Qed.

Lemma btype_mask n :
  0 <= n -> Z.testbit (u32 (Z.lnot (Z.shiftl SPSR_BTYPE_MASK_AARCH64 SPSR_BTYPE_SHIFT_AARCH64))) n =
            (n <? 32) && negb ((10 <=? n) && (n <? 12)).
Proof.
  intros Hn. unfold u32. rewrite Z.testbit_mod_pow2, Z.lnot_spec, btype_bits by done.
  by destruct (n <? 32).
Qed.

(** Splits on the position of bit [n], and decides what is left. *)
Ltac by_position n :=
  repeat match goal with
         | |- context [n =? ?k] => destruct (Z.eqb_spec n k); [subst n|]
         | |- context [?k <=? n] => destruct (Z.leb_spec k n)
         | |- context [n <? ?k] => destruct (Z.ltb_spec n k)
         end; try (exfalso; lia); cbn -[Z.testbit]; rewrite ?andb_true_r; btauto.

Lemma create_spsr_bits old el scr n :
  0 <= n -> Z.testbit (create_spsr old el scr) n = pstate_bit old el scr n.
Proof.
  intros Hn. unfold create_spsr. cbv zeta.
  set (mode := Z.lor (Z.shiftl SPSR_M_AARCH64 SPSR_M_SHIFT) _).
  assert (Z.testbit mode n = (n =? 0) || (if el =? MODE_EL2 then n =? 3 else n =? 2)) as Hmode by apply mode_bits.
  unfold SPSR_SSBS_BIT_AARCH64, SPSR_ALLINT_BIT_AARCH64, SPSR_IL_BIT, SPSR_SS_BIT, SPSR_PAN_BIT,
    SPSR_UAO_BIT_AARCH64, SPSR_DIT_BIT, SPSR_TCO_BIT_AARCH64, SPSR_UINJ_BIT, SPSR_PM_BIT_AARCH64,
    SPSR_EXLOCK_BIT_AARCH64, SPSR_PACM_BIT_AARCH64, SCTLR_DSSBS_BIT, SCTLR_SPINTMASK_BIT, SCTLR_SPAN_BIT,
    GCSCR_EXLOCK_EN_BIT.
  rewrite !is_set_BIT_64 by done. clearbody mode.
  repeat first [rewrite clear_if_spec by done | rewrite land_if_spec | rewrite set_if_spec | rewrite keep_bits_spec
    | rewrite assign_if_spec by done | rewrite Z.lor_spec].
  rewrite Hmode, daif_bits, btype_mask, !btype_bits, nzcv_bits, !BIT_64_spec by done. clear Hmode.
  unfold pstate_bit. cbv zeta.
  generalize (Z.testbit old n) (Z.testbit (if el =? MODE_EL2 then sctlr_el2 else sctlr_el1) 44)
    (Z.testbit (if el =? MODE_EL2 then sctlr_el2 else sctlr_el1) 62)
    (is_feat_pan_present &&
       ((el =? MODE_EL1) || (el =? MODE_EL2) && el2_enabled scr && is_feat_vhe_supported && is_tge_enabled) &&
       negb (Z.testbit (if el =? MODE_EL2 then sctlr_el2 else sctlr_el1) 23))
    (GET_EL old =? el) (Z.testbit (if el =? MODE_EL2 then gcscr_el2 else gcscr_el1) 6) (el =? MODE_EL2).
  intros was ssbs nmi pan same exlock el2. by_position n.
Qed.

Lemma create_spsr_el old el scr : el = MODE_EL1 \/ el = MODE_EL2 -> GET_EL (create_spsr old el scr) = el.
Proof.
  intros Hel. apply Z.bits_inj'. intros n Hn. unfold GET_EL. rewrite Z.land_spec, Z.shiftr_spec by done.
  rewrite create_spsr_bits by lia. destruct (decide (n = 0)) as [->|]; [by destruct Hel as [->| ->]|].
  destruct (decide (n = 1)) as [->|]; [by destruct Hel as [->| ->]|].
  change 3 with (Z.ones 2). rewrite Z.ones_spec_high, andb_false_r by lia.
  symmetry. apply Z.bits_above_log2; [by destruct Hel as [->| ->]|]. destruct Hel as [->| ->]; cbn; lia.
Qed.

(** ** Injection *)

(** The vector an exception taken to EL [el] from PSTATE [old] goes to. *)
Definition vector (old el : Z) : Z :=
  u64 ((if el =? MODE_EL2 then vbar_el2 else vbar_el1) +
       (if GET_EL old =? el then if Z.testbit old 0 then 0x200 else 0 else 0x400)).

Lemma get_elr_vector old el : get_elr_el3 old el = vector old el.
Proof.
  unfold get_elr_el3, vector. do 3 f_equal. change (Z.shiftl MODE_SP_MASK MODE_SP_SHIFT) with (Z.ones 1).
  rewrite Z.land_ones by lia. change (2 ^ 1) with 2. rewrite Zmod_odd, <- Z.bit0_odd.
  by destruct (Z.testbit old 0).
Qed.

(** [s'] is [s] after an exception with syndrome [esr] was taken to EL [el]:
    EL [el] finds the syndrome and the state to return to, the other level's
    registers and the general-purpose registers are as they were, and EL3
    returns to the vector in the PSTATE of an exception entry. *)
Record takes_exception (esr el : Z) (s s' : trap_state) : Prop := {
  te_target : el = MODE_EL1 \/ el = MODE_EL2;
  te_up : GET_EL (tc_spsr_el3 s) <= el;
  te_esr : er_esr (el_bank el s') = esr;
  te_elr : er_elr (el_bank el s') = tc_elr_el3 s;
  te_spsr : er_spsr (el_bank el s') = tc_spsr_el3 s;
  te_other : el_bank (3 - el) s' = el_bank (3 - el) s;
  te_regs : tc_regs s' = tc_regs s;
  te_scr : tc_scr_el3 s' = tc_scr_el3 s;
  te_vector : tc_elr_el3 s' = vector (tc_spsr_el3 s) el;
  te_mode : GET_EL (tc_spsr_el3 s') = el;
  te_pstate : forall n, 0 <= n -> Z.testbit (tc_spsr_el3 s') n = pstate_bit (tc_spsr_el3 s) el (tc_scr_el3 s) n
}.

Lemma inject_exception_spec esr el s :
  el = MODE_EL1 \/ el = MODE_EL2 -> GET_EL (tc_spsr_el3 s) <= el ->
  exists s', inject_exception esr el s = Done tt s' /\ takes_exception esr el s s' /\
    er_far (el_bank el s') = er_far (el_bank el s) /\ er_pfar (el_bank el s') = er_pfar (el_bank el s).
Proof.
  intros Hel Hup. unfold inject_exception, bind, gets, modify, id. eexists. split; [reflexivity|].
  split; [|by destruct Hel as [->| ->]].
  split; try done; try by destruct Hel as [->| ->].
  - rewrite <- get_elr_vector. by destruct Hel as [->| ->].
  - apply (create_spsr_el (tc_spsr_el3 s) el (tc_scr_el3 s) Hel).
  - intros n Hn. by apply create_spsr_bits.
Qed.

(** The registers of the target level are all overwritten or not part of it. *)
Lemma takes_exception_bank esr el b s s' :
  takes_exception esr el (set_el_bank el b s) s' -> takes_exception esr el s s'.
Proof. intros [Ht]. destruct Ht as [->| ->]; by split; auto. Qed.

(** The fault addresses of the other level are part of its registers. *)
Lemma takes_exception_addresses esr el s s' :
  takes_exception esr el s s' ->
  er_far (el_bank el s') = er_far (el_bank el s) /\ er_pfar (el_bank el s') = er_pfar (el_bank el s) ->
  forall e, er_far (el_bank e s') = er_far (el_bank e s) /\ er_pfar (el_bank e s') = er_pfar (el_bank e s).
Proof.
  intros Ht Hfar e. pose proof (te_target _ _ _ _ Ht) as Hel. pose proof (te_other _ _ _ _ Ht) as Ho.
  destruct Hel as [->| ->].
  - change (el2_regs s' = el2_regs s) in Ho. change (el_bank MODE_EL1 ?x) with (el1_regs x) in Hfar.
    unfold el_bank. destruct (e =? MODE_EL2); by rewrite ?Ho.
  - change (el1_regs s' = el1_regs s) in Ho. change (el_bank MODE_EL2 ?x) with (el2_regs x) in Hfar.
    unfold el_bank. destruct (e =? MODE_EL2); by rewrite ?Ho.
Qed.

(** EL2 is implemented and in use in the security state of [scr_el3]. *)
Definition el2_on (scr_el3 : Z) : bool :=
  el2_implemented && (Z.testbit scr_el3 0 || (is_feat_sel2_supported && Z.testbit scr_el3 18)).

(** The level that takes an undefined instruction of EL [from]: EL2 its own,
    and those of EL0 when EL2 is in use and HCR_EL2.TGE is set; EL1 the rest. *)
Definition undef_route (from scr_el3 : Z) : Z :=
  if (from =? 2) || ((from =? 0) && el2_on scr_el3 && Z.testbit hcr_el2 27) then 2 else 1.

(** The level that takes a synchronous external abort of EL [from], where
    [masked] is PSTATE.A: EL2 its own; those of EL0 when EL2 is in use and both
    HCR_EL2.TEA and TGE are set, with FEAT_RAS; and the masked ones of EL1 when
    HCRX_EL2.TMEA is set, with FEAT_DoubleFault2. EL1 takes the rest. *)
Definition sea_route (from scr_el3 : Z) (masked : bool) : Z :=
  if (from =? 2) ||
     ((from =? 0) && el2_on scr_el3 && is_feat_ras_supported && Z.testbit hcr_el2 37 && Z.testbit hcr_el2 27) ||
     ((from =? 1) && masked && el2_on scr_el3 && is_feat_doublefault2_supported && is_feat_hcx_supported &&
      Z.testbit hcrx_el2 19)
  then 2 else 1.

Lemma el2_on_spec scr : el2_enabled scr = el2_on scr.
Proof.
  unfold el2_enabled, el2_on, SCR_NS_BIT, SCR_EEL2_BIT. by rewrite !is_set_BIT_64 by done.
Qed.

Lemma undef_target scr from : 0 <= from <= MODE_EL2 -> get_undef_target_el scr from = undef_route from scr.
Proof.
  unfold get_undef_target_el, undef_route, is_tge_enabled, HCR_TGE_BIT, MODE_EL0, MODE_EL1, MODE_EL2. intros H.
  rewrite is_set_BIT_64, el2_on_spec by done.
  assert (from = 0 \/ from = 1 \/ from = 2) as [->|[->| ->]] by lia; cbn -[Z.testbit]; by destruct (el2_on scr && Z.testbit hcr_el2 27).
Qed.

Lemma masked_bit spsr : is_set (EXTRACT SPSR_DAIF_WIDTH SPSR_DAIF_SHIFT spsr) DAIF_ABT_BIT = Z.testbit spsr 8.
Proof.
  change DAIF_ABT_BIT with (BIT_64 2). rewrite is_set_BIT_64 by done. unfold EXTRACT.
  rewrite Z.shiftr_spec, Z.land_spec by done. change (2 + SPSR_DAIF_SHIFT) with 8.
  change (Z.testbit (MASK SPSR_DAIF_WIDTH SPSR_DAIF_SHIFT) 8) with true. apply andb_true_r.
Qed.

Lemma sync_ea_target s : 0 <= GET_EL (tc_spsr_el3 s) <= MODE_EL2 ->
  target_el_sync_ea s = sea_route (GET_EL (tc_spsr_el3 s)) (tc_scr_el3 s) (Z.testbit (tc_spsr_el3 s) 8).
Proof.
  unfold target_el_sync_ea, sea_route, is_hcrx_el2_tmea_set, is_tge_enabled, HCR_TGE_BIT, HCR_TEA_BIT,
    HCRX_EL2_TMEA_BIT, MODE_EL0, MODE_EL1, MODE_EL2. intros H.
  rewrite masked_bit, !is_set_BIT_64, el2_on_spec by done.
  assert (GET_EL (tc_spsr_el3 s) = 0 \/ GET_EL (tc_spsr_el3 s) = 1 \/ GET_EL (tc_spsr_el3 s) = 2)
    as [->|[->| ->]] by lia; cbn -[Z.testbit];
    destruct (el2_on _), is_feat_ras_supported, is_feat_doublefault2_supported, is_feat_hcx_supported,
      (Z.testbit hcr_el2 37), (Z.testbit hcr_el2 27), (Z.testbit hcrx_el2 19), (Z.testbit (tc_spsr_el3 s) 8);
    reflexivity.
Qed.

Lemma undef_route_up from scr :
  0 <= from <= MODE_EL2 -> (undef_route from scr = MODE_EL1 \/ undef_route from scr = MODE_EL2) /\ from <= undef_route from scr.
Proof.
  unfold undef_route, MODE_EL1, MODE_EL2. intros H. destruct (Z.eqb_spec from 2); cbn [orb]; [lia|].
  destruct (_ && _); lia.
Qed.

Lemma sea_route_up from scr masked :
  0 <= from <= MODE_EL2 ->
  (sea_route from scr masked = MODE_EL1 \/ sea_route from scr masked = MODE_EL2) /\ from <= sea_route from scr masked.
Proof.
  unfold sea_route, MODE_EL1, MODE_EL2. intros H. destruct (Z.eqb_spec from 2); cbn [orb]; [lia|].
  destruct (_ || _); lia.
Qed.

Lemma get_el_nonneg x : 0 <= GET_EL x.
Proof. unfold GET_EL. apply Z.land_nonneg. right. done. Qed.


(** ** Implementation defined registers *)

Lemma trap_opcode_even esr : Z.testbit (trap_opcode esr) 0 = false.
Proof.
  unfold trap_opcode. rewrite Z.land_spec, Z.lnot_spec, Z.lor_spec by done. by rewrite andb_false_r.
Qed.

Lemma never_impdef esr : is_impdef (trap_opcode esr) = false.
Proof.
  unfold is_impdef. rewrite Z.eqb_refl. change 1 with (Z.ones 1). rewrite Z.land_ones by lia.
  change (2 ^ 1) with 2. by rewrite Zmod_odd, <- Z.bit0_odd, trap_opcode_even.
Qed.

(** [plat_handle_impdef_trap] is never called: whatever the build options,
    the features and the trap, [handle_sysreg_trap] does the same with any two
    platform hooks. An access to an implementation defined register that no
    other case covers is reported as unhandled, and the lower level takes an
    undefined exception instead of being emulated. *)
Theorem impdef_hook_never_called impdef impdef' esr_el3 flags s :
  handle_sysreg_trap impdef esr_el3 flags s = handle_sysreg_trap impdef' esr_el3 flags s.
Proof. unfold handle_sysreg_trap. by rewrite never_impdef, andb_false_r. Qed.
End TrapsProps.

Module TrapsRun.

(** A CPU with EL2 and the features of a recent core, HCR_EL2.TGE clear. *)
Definition C : TrapCpu := {|
  ENABLE_RMM := true; FAULT_INJECTION_SUPPORT := false; RAS_TRAP_NS_ERR_REC_ACCESS := true;
  IMPDEF_SYSREG_TRAP := true;
  is_feat_bti_present := true; is_feat_ssbs_present := true; is_feat_nmi_present := false;
  is_feat_pan_present := true; is_feat_vhe_supported := true; is_feat_uao_present := true;
  is_feat_mte2_present := true; is_feat_ebep_present := false; is_feat_spe_exc_present := false;
  is_feat_trbe_exc_present := false; is_feat_gcs_present := false; is_feat_pauth_lr_present := false;
  is_feat_uinj_supported := false; is_feat_sel2_supported := true; is_feat_rng_trap_supported := true;
  is_feat_idte3_supported := true; is_feat_ras_supported := true; is_feat_doublefault2_supported := false;
  is_feat_hcx_supported := false; is_feat_pfar_supported := false; el2_implemented := true;
  sctlr_el1 := 0; sctlr_el2 := 0; hcr_el2 := HCR_TEA_BIT; hcrx_el2 := 0; gcscr_el1 := 0; gcscr_el2 := 0;
  vbar_el1 := 0x10000; vbar_el2 := 0x20000; far_el3 := 0x77; mfar_el3 := 0;
  perworld_idreg := fun ss r => ss + 1; percpu_idreg := fun _ _ => 2; read_idreg := fun _ => 3;
  plat_handle_rng_trap := fun _ _ => (42, TRAP_RET_CONTINUE)
|}.
#[local] Existing Instance C.

Definition no_regs : el_regs := {| er_esr := 0; er_elr := 0; er_spsr := 0; er_far := 0; er_pfar := 0 |}.

(** EL1 code of the Normal world at 0x4000, flags N and C set. *)
Definition at_el1 : trap_state := {|
  tc_regs := seqZ 0 32; tc_elr_el3 := 0x4000; tc_spsr_el3 := 0xA0000005; tc_scr_el3 := Z.lor SCR_NS_BIT SCR_HCE_BIT;
  el1_regs := no_regs; el2_regs := no_regs |}.


(** An external abort of EL1 is injected into EL1, although HCR_EL2.TEA asks
    for EL2 and EL2 is enabled. *)
Lemma tea_of_el1_ignored : is_set hcr_el2 HCR_TEA_BIT = true /\ el2_enabled (tc_scr_el3 at_el1) = true /\
  target_el_sync_ea at_el1 = MODE_EL1.
Proof. vm_compute. split_and!; reflexivity. Qed.
End TrapsRun.
