(* ===== verification/RuntimeSvc.v ===== *)
(** * Exceptions taken to EL3 and runtime services
    (common/runtime_svc.c, include/common/runtime_svc.h)

    Synchronous exceptions, asynchronous external aborts and interrupts of the
    lower levels, and the services that answer Secure Monitor Calls: a service
    registers for a range of owning entity numbers and a type of call, and the
    function identifier of an SMC selects the service. *)

From stdpp Require Import list_numbers.
From S2P Require Import Prelude InterruptMgmt Traps.
#[local] Open Scope cmd_scope.

(** ** The SMC calling convention (include/lib/smccc.h) *)

Definition FUNCID_TYPE_MASK : Z := 0x1.
Definition FUNCID_OEN_MASK : Z := 0x3f.
Definition FUNCID_OEN_WIDTH : Z := 6.
Definition GET_SMC_TYPE (id : Z) : Z := Z.land (Z.shiftr id 31) FUNCID_TYPE_MASK.
Definition GET_SMC_OEN (id : Z) : Z := Z.land (Z.shiftr id 24) FUNCID_OEN_MASK.
(** The fields of a function identifier, as [EXTRACT] and [MASK] take them. *)
Definition FUNCID_TYPE (id : Z) : Z := EXTRACT 1 31 id.
Definition FUNCID_CC (id : Z) : Z := EXTRACT 1 30 id.
Definition FUNCID_FC_RESERVED (id : Z) : Z := EXTRACT 7 17 id.
Definition FUNCID_SVE_HINT : Z := MASK 1 16.
Definition OEN_LIMIT : Z := 64.
Definition SMC_TYPE_FAST : Z := 1.
Definition SMC_TYPE_YIELD : Z := 0.
Definition SMC_UNK : Z := -1.
Definition is_sve_hint_set (flags : Z) : bool := is_set flags (Z.shiftl 1 16).

Definition MAX_RT_SVCS : Z := 128.
Definition EINVAL : Z := 22.

Definition EC_AARCH32_SMC : Z := 0x13.
Definition EC_AARCH64_SMC : Z := 0x17.
Definition EC_AARCH64_SYS : Z := 0x18.
Definition EC_IABORT_LOWER_EL : Z := 0x20.
Definition EC_DABORT_LOWER_EL : Z := 0x24.
Definition EC_SERROR : Z := 0x2f.
Definition ESR_EC (esr : Z) : Z := EXTRACT 6 26 esr.
Definition SCR_EA_BIT : Z := Z.shiftl 1 3.
Definition SCR_NSE_SHIFT : Z := 62.
Definition SCR_NSE_BIT : Z := Z.shiftl 1 SCR_NSE_SHIFT.
Definition SERROR_IDS_BIT : Z := 24.
Definition EABORT_DFSC (esr : Z) : Z := EXTRACT 6 0 esr.
Definition EABORT_AET (esr : Z) : Z := EXTRACT 3 10 esr.
Definition EABORT_SET (esr : Z) : Z := EXTRACT 2 11 esr.
Definition DFSC_SERROR : Z := 0x11.
Definition SYNC_EA_FSC : Z := 0x10.
Definition ERROR_STATUS_UET_UC : Z := 0x0.
Definition ERROR_STATUS_SET_UC : Z := 0x2.
Definition ERROR_EA_ASYNC : Z := 0.
Definition ERROR_EA_SYNC : Z := 1.
Definition INTR_TYPE_INVAL : Z := MAX_INTR_TYPES.
Definition INTR_ID_UNAVAILABLE : Z := 0xFFFFFFFF.
Definition TRAP_RET_REPEAT : Z := 0.
Definition CTX_GPREG_SP_EL0 : Z := 31.

(** ** Services and the platform *)

(** [init] and [handle] are addresses, 0 for none. *)
Record rt_svc_desc_t := {
  start_oen : Z;
  end_oen : Z;
  call_type : Z;
  init : Z;
  handle : Z
}.

(** The calls out of the file, in their order. *)
Inductive rt_call : Set :=
  | InitCall (init : Z)
  | HandleCall (handle smc_fid x1 x2 x3 x4 flags : Z)
  | InterruptCall (handler id flags : Z)
  | EaCall (ea_reason esr_el3 flags : Z)
  | DoubleFaultCall (ea_reason esr_el3 : Z)
  | UncontainableEaCall.

(** The descriptors the linker collects; the build; and the functions that are
    called: what the initialisation routine of the service at an index answers,
    and what handlers do to the context of the caller. *)
Class RtPlatform := {
  rt_svc_descs : list rt_svc_desc_t;
  CTX_INCLUDE_AARCH32_REGS : bool;
  FFH_SUPPORT : bool;
  SDEI_SUPPORT : bool;
  svc_init : Z -> Z;
  svc_handle : Z -> Z -> Z -> Z -> Z -> Z -> Z -> trap unit;
  intr_handle : Z -> Z -> Z -> trap unit;
  plat_ic_get_pending_interrupt_type : list rt_call -> Z;
  plat_ea_handler : Z -> Z -> Z -> trap unit;
  plat_handle_double_fault : Z -> Z -> trap unit;
  plat_handle_uncontainable_ea : trap unit;
  plat_handle_impdef_trap : Z -> trap Z
}.

(** The context of the level that was interrupted, with its
    [CTX_DOUBLE_FAULT_ESR], the table of services and the interrupt handlers. *)
Record rt_state := {
  rt_ctx : trap_state;
  double_fault_esr : Z;
  rt_svc_descs_indices : list Z;
  rt_intr : intr_state;
  rt_calls : list rt_call
}.

Definition set_ctx (c : trap_state) (s : rt_state) : rt_state := {|
  rt_ctx := c; double_fault_esr := double_fault_esr s; rt_svc_descs_indices := rt_svc_descs_indices s;
  rt_intr := rt_intr s; rt_calls := rt_calls s |}.
Definition set_double_fault (v : Z) (s : rt_state) : rt_state := {|
  rt_ctx := rt_ctx s; double_fault_esr := v; rt_svc_descs_indices := rt_svc_descs_indices s;
  rt_intr := rt_intr s; rt_calls := rt_calls s |}.
Definition set_indices (v : list Z) (s : rt_state) : rt_state := {|
  rt_ctx := rt_ctx s; double_fault_esr := double_fault_esr s; rt_svc_descs_indices := v;
  rt_intr := rt_intr s; rt_calls := rt_calls s |}.
Definition add_call (e : rt_call) (s : rt_state) : rt_state := {|
  rt_ctx := rt_ctx s; double_fault_esr := double_fault_esr s; rt_svc_descs_indices := rt_svc_descs_indices s;
  rt_intr := rt_intr s; rt_calls := rt_calls s ++ [e] |}.

Abbreviation rt := (cmd rt_state).
Abbreviation assert := (assert_ true).

(** A command on the context. *)
Definition on_ctx {A} (p : trap A) : rt A := fun s =>
  match p (rt_ctx s) with
  | Done a c => Done a (set_ctx c s)
  | Stopped w c => Stopped w (set_ctx c s)
  end.

Definition call_out (e : rt_call) (p : trap unit) : rt unit := modify (add_call e) ;; on_ctx p.

Definition read_gpreg (i : Z) : rt Z := let! s := gets id in deref ((tc_regs (rt_ctx s)).[i]).

(** The answer of a function of another component on the interrupt handlers. *)
Definition on_intr {A} (p : intr A) : rt A := fun s =>
  match p (rt_intr s) with
  | Done a i => Done a {| rt_ctx := rt_ctx s; double_fault_esr := double_fault_esr s;
                          rt_svc_descs_indices := rt_svc_descs_indices s; rt_intr := i; rt_calls := rt_calls s |}
  | Stopped w _ => Stopped w s
  end.

Section RuntimeSvc.
Context `{Cpu : TrapCpu} `{Plat : RtPlatform}.

(** ** Selecting a service *)

Definition get_unique_oen (oen call_type : Z) : Z :=
  Z.lor (Z.shiftl (Z.land call_type FUNCID_TYPE_MASK) FUNCID_OEN_WIDTH) (Z.land oen FUNCID_OEN_MASK).

Definition get_unique_oen_from_smc_fid (fid : Z) : Z :=
  get_unique_oen (GET_SMC_OEN fid) (GET_SMC_TYPE fid).

Definition RT_SVC_DECS_NUM : Z := Z.of_nat (length rt_svc_descs).

(** The handler, if there is a service. *)
Definition get_handler_for_smc_fid (smc_fid : Z) : rt (option Z) :=
  let idx := get_unique_oen_from_smc_fid smc_fid in
  assert (idx <? MAX_RT_SVCS) ;;
  let! s := gets id in
  let! index := deref ((rt_svc_descs_indices s).[idx]) in
  if RT_SVC_DECS_NUM <=? index then ret None
  else
    let! d := deref (rt_svc_descs.[index]) in
    assert (negb (handle d =? 0)) ;;
    ret (Some (handle d)).

Definition smc_unknown : rt unit := on_ctx (write_gpreg 0 (u64 SMC_UNK)).

Definition get_flags (smc_fid scr_el3 : Z) : Z :=
  let flags := Z.land scr_el3 SCR_NS_BIT in
  let flags :=
    if ENABLE_RMM then Z.lor flags (Z.shiftl (Z.shiftr (Z.land scr_el3 SCR_NSE_BIT) SCR_NSE_SHIFT) 5) else flags in
  Z.lor flags (Z.land smc_fid FUNCID_SVE_HINT).

Definition sync_handler (smc_fid scr_el3 : Z) : rt unit :=
  if (FUNCID_TYPE smc_fid =? SMC_TYPE_FAST) && negb (FUNCID_FC_RESERVED smc_fid =? 0) then smc_unknown
  else
    let smc_fid := u32 (Z.land smc_fid (Z.lnot FUNCID_SVE_HINT)) in
    let! h := get_handler_for_smc_fid smc_fid in
    match h with
    | None => smc_unknown
    | Some h =>
        let! x1 := read_gpreg 1 in
        let! x2 := read_gpreg 2 in
        let! x3 := read_gpreg 3 in
        let! x4 := read_gpreg 4 in
        let flags := get_flags smc_fid scr_el3 in
        call_out (HandleCall h smc_fid x1 x2 x3 x4 flags) (svc_handle h smc_fid x1 x2 x3 x4 flags)
    end.

(** ** External aborts *)

Definition ea_proceed (ea_reason esr_el3 scr_el3 : Z) : rt unit :=
  let! s := gets id in
  if negb (double_fault_esr s =? 0) then
    call_out (DoubleFaultCall ea_reason esr_el3) (plat_handle_double_fault ea_reason esr_el3)
  else
    modify (set_double_fault esr_el3) ;;
    let flags := Z.land scr_el3 SCR_NS_BIT in
    call_out (EaCall ea_reason esr_el3 flags) (plat_ea_handler ea_reason esr_el3 flags) ;;
    modify (set_double_fault 0).

Definition handler_lower_el_async_ea (esr_el3 : Z) : rt unit :=
  let! s := gets id in
  let scr_el3 := tc_scr_el3 (rt_ctx s) in
  when is_feat_ras_supported (assert (ESR_EC esr_el3 =? EC_SERROR)) ;;
  if is_feat_ras_supported && is_set esr_el3 SERROR_IDS_BIT &&
     (EABORT_DFSC esr_el3 =? DFSC_SERROR) && (EABORT_AET esr_el3 =? ERROR_STATUS_UET_UC)
  then call_out UncontainableEaCall plat_handle_uncontainable_ea
  else ea_proceed ERROR_EA_ASYNC esr_el3 scr_el3.

(** ** Interrupts *)

Definition handler_interrupt_exception : rt unit :=
  let! s := gets id in
  let scr_el3 := tc_scr_el3 (rt_ctx s) in
  let type := plat_ic_get_pending_interrupt_type (rt_calls s) in
  if type =? INTR_TYPE_INVAL then ret tt
  else
    let! h := on_intr (get_interrupt_type_handler type) in
    if h =? 0 then ret tt
    else
      let flags := Z.land scr_el3 SCR_NS_BIT in
      call_out (InterruptCall h INTR_ID_UNAVAILABLE flags) (intr_handle h INTR_ID_UNAVAILABLE flags).

(** ** Synchronous exceptions

    The registers ESR_EL3 and SPSR_EL3 are arguments. *)

(** What no other part handles: an undefined exception is injected, which is not
    possible in AArch32 state. *)
Definition unhandled_exception (spsr_el3 : Z) : rt unit :=
  if CTX_INCLUDE_AARCH32_REGS && is_set spsr_el3 (MASK 1 SPSR_M_SHIFT) then halt Panicked
  else on_ctx inject_undef64.

Definition handle_trap (esr_el3 spsr_el3 smc_fid scr_el3 : Z) : rt unit :=
  let! sp_el0 := read_gpreg CTX_GPREG_SP_EL0 in
  let! rc := on_ctx (handle_sysreg_trap plat_handle_impdef_trap esr_el3 (get_flags smc_fid scr_el3)) in
  let! sp_el0' := read_gpreg CTX_GPREG_SP_EL0 in
  if negb (sp_el0 =? sp_el0') then halt Panicked
  else if rc =? TRAP_RET_CONTINUE then
    on_ctx (let! s := gets id in modify (set_tc_elr (u64 (tc_elr_el3 s + 4))))
  else if rc =? TRAP_RET_REPEAT then ret tt
  else unhandled_exception spsr_el3.

Definition handle_sync_ea (esr_el3 scr_el3 : Z) : rt unit :=
  if is_feat_ras_supported &&
     ((EABORT_DFSC esr_el3 =? SYNC_EA_FSC) && (EABORT_SET esr_el3 =? ERROR_STATUS_SET_UC))
  then call_out UncontainableEaCall plat_handle_uncontainable_ea
  else
    ea_proceed ERROR_EA_SYNC esr_el3 scr_el3 ;;
    when (negb SDEI_SUPPORT) (on_ctx (inject_sync_ea64 esr_el3)).

Definition handler_sync_exception (esr_el3 spsr_el3 : Z) : rt unit :=
  let! x0 := read_gpreg 0 in
  let smc_fid := u32 x0 in
  let exc_class := ESR_EC esr_el3 in
  let! s := gets id in
  let scr_el3 := tc_scr_el3 (rt_ctx s) in
  if exc_class =? EC_AARCH64_SMC then sync_handler smc_fid scr_el3
  else if CTX_INCLUDE_AARCH32_REGS && (exc_class =? EC_AARCH32_SMC) then
    if negb (FUNCID_CC smc_fid =? 0) then smc_unknown else sync_handler smc_fid scr_el3
  else if exc_class =? EC_AARCH64_SYS then handle_trap esr_el3 spsr_el3 smc_fid scr_el3
  else if FFH_SUPPORT && ((exc_class =? EC_IABORT_LOWER_EL) || (exc_class =? EC_DABORT_LOWER_EL)) &&
          is_set scr_el3 SCR_EA_BIT then handle_sync_ea esr_el3 scr_el3
  else unhandled_exception spsr_el3.

(** [handle_runtime_svc], for the callers that have the arguments of the SMC in
    a context of their own. *)
Definition handle_runtime_svc (smc_fid flags : Z) : rt unit :=
  let! h := get_handler_for_smc_fid smc_fid in
  match h with
  | None => on_ctx (write_gpreg 0 (u64 SMC_UNK))
  | Some h =>
      let! x1 := read_gpreg 1 in
      let! x2 := read_gpreg 2 in
      let! x3 := read_gpreg 3 in
      let! x4 := read_gpreg 4 in
      call_out (HandleCall h smc_fid x1 x2 x3 x4 flags) (svc_handle h smc_fid x1 x2 x3 x4 flags)
  end.

(** ** Registration *)

Definition validate_rt_svc_desc (desc : rt_svc_desc_t) : Z :=
  if end_oen desc <? start_oen desc then - EINVAL
  else if OEN_LIMIT <=? end_oen desc then - EINVAL
  else if negb (call_type desc =? SMC_TYPE_FAST) && negb (call_type desc =? SMC_TYPE_YIELD) then - EINVAL
  else if (init desc =? 0) && (handle desc =? 0) then - EINVAL
  else 0.

(** The indices from [start_idx] to [end_idx] are given to the service. *)
Definition fill_indices (start_idx end_idx index : Z) : rt unit :=
  for_each (seqZ start_idx (end_idx - start_idx + 1)) (fun i =>
    let! s := gets id in
    deref ((rt_svc_descs_indices s).[i]) ;;
    modify (set_indices (zupdate (rt_svc_descs_indices s) i index))).

Definition init_service (index : Z) (service : rt_svc_desc_t) : rt unit :=
  if negb (validate_rt_svc_desc service =? 0) then halt Panicked
  else
    let! rc :=
      (if negb (init service =? 0) then modify (add_call (InitCall (init service))) ;; ret (svc_init index)
       else ret 0) in
    if negb (rc =? 0) then ret tt
    else
      let start_idx := u8 (get_unique_oen (start_oen service) (call_type service)) in
      let end_idx := u8 (get_unique_oen (end_oen service) (call_type service)) in
      assert (start_idx <=? end_idx) ;;
      assert (end_idx <? MAX_RT_SVCS) ;;
      fill_indices start_idx end_idx (u8 index).

Definition runtime_svc_init : rt unit :=
  assert (RT_SVC_DECS_NUM <? MAX_RT_SVCS) ;;
  if RT_SVC_DECS_NUM =? 0 then ret tt
  else
    modify (set_indices (replicate (Z.to_nat MAX_RT_SVCS) 255)) ;;
    for_each (zip (seqZ 0 RT_SVC_DECS_NUM) rt_svc_descs) (fun p => init_service (fst p) (snd p)).
End RuntimeSvc.
