(* ===== verification/RuntimeSvcProps.v ===== *)
(** * Runtime services: which service answers a call, and traps *)

From stdpp Require Import list_numbers.
From S2P Require Import Prelude InterruptMgmt Traps TrapsProps RuntimeSvc.
#[local] Open Scope cmd_scope.

Section RuntimeSvcProps.
Context `{Cpu : TrapCpu} `{Plat : RtPlatform}.
Implicit Types (s : rt_state) (d : rt_svc_desc_t).

(** ** The index of a service *)

Lemma land_ones_small x k : 0 <= k -> 0 <= x < 2 ^ k -> Z.land x (Z.ones k) = x.
Proof. intros Hk Hx. rewrite Z.land_ones by done. by apply Z.mod_small. Qed.

Lemma unique_oen oen t : 0 <= oen < 64 -> t = 0 \/ t = 1 -> get_unique_oen oen t = t * 64 + oen.
Proof.
  intros Ho Ht. unfold get_unique_oen. change FUNCID_OEN_MASK with (Z.ones 6).
  rewrite (land_ones_small oen) by lia.
  assert (Z.land t FUNCID_TYPE_MASK = t) as -> by (by destruct Ht as [->| ->]).
  apply lor_shiftl; [done|]. change (2 ^ FUNCID_OEN_WIDTH) with 64. lia.
Qed.

Lemma smc_fields fid :
  (GET_SMC_TYPE fid = 0 \/ GET_SMC_TYPE fid = 1) /\ 0 <= GET_SMC_OEN fid < 64.
Proof.
  unfold GET_SMC_TYPE, GET_SMC_OEN. change FUNCID_TYPE_MASK with (Z.ones 1).
  change FUNCID_OEN_MASK with (Z.ones 6). rewrite !Z.land_ones by done.
  pose proof (Z.mod_pos_bound (Z.shiftr fid 31) (2 ^ 1)). pose proof (Z.mod_pos_bound (Z.shiftr fid 24) (2 ^ 6)).
  lia.
Qed.

(** ** Registration *)

(** A descriptor of a C structure that the validation accepts. *)
Record desc_ok (d : rt_svc_desc_t) : Prop := {
  ok_start : 0 <= start_oen d;
  ok_valid : validate_rt_svc_desc d = 0
}.

Lemma desc_ok_fields d :
  desc_ok d -> 0 <= start_oen d <= end_oen d /\ end_oen d < 64 /\ (call_type d = 0 \/ call_type d = 1) /\
  (init d <> 0 \/ handle d <> 0).
Proof.
  intros [Hs Hv]. unfold validate_rt_svc_desc, OEN_LIMIT, SMC_TYPE_FAST, SMC_TYPE_YIELD, EINVAL in Hv.
  destruct (Z.ltb_spec (end_oen d) (start_oen d)); [done|]. destruct (Z.leb_spec 64 (end_oen d)); [done|].
  destruct (Z.eqb_spec (call_type d) 1), (Z.eqb_spec (call_type d) 0); try done;
    destruct (Z.eqb_spec (init d) 0), (Z.eqb_spec (handle d) 0); try done; lia.
Qed.

(** The service at index [i] is initialised. *)
Definition ready (i : Z) (d : rt_svc_desc_t) : bool := (init d =? 0) || (svc_init i =? 0).

(** It answers for the index [idx] of the table. *)
Definition answers (idx : Z) (p : Z * rt_svc_desc_t) : Prop :=
  ready (fst p) (snd p) = true /\
  call_type (snd p) * 64 + start_oen (snd p) <= idx <= call_type (snd p) * 64 + end_oen (snd p).

#[local] Instance answers_dec idx p : Decision (answers idx p).
Proof. unfold answers. apply _. Defined.

(** What the table holds once the services [l] are registered. *)
Definition entry_of (l : list (Z * rt_svc_desc_t)) (idx : Z) : Z :=
  match last (filter (answers idx) l) with Some p => fst p | None => 255 end.

Lemma entry_snoc l p idx :
  entry_of (l ++ [p]) idx = if decide (answers idx p) then fst p else entry_of l idx.
Proof.
  unfold entry_of. rewrite filter_app. cbn [filter list_filter]. case_decide.
  - by rewrite last_snoc.
  - by rewrite app_nil_r.
Qed.

Definition table_is (f : Z -> Z) (s : rt_state) : Prop :=
  length (rt_svc_descs_indices s) = 128%nat /\
  forall idx, 0 <= idx < 128 -> (rt_svc_descs_indices s).[idx] = Some (f idx).

Lemma wp_fill a b v f s :
  0 <= a -> a <= b < 128 -> table_is f s ->
  wpd (fill_indices a b v)
    (fun _ s' => table_is (fun idx => if decide (a <= idx <= b) then v else f idx) s' /\
       s' = set_indices (rt_svc_descs_indices s') s) s.
Proof.
  intros Ha Hb Ht. unfold fill_indices.
  eapply wp_mono; [apply (wp_for_each _ _ (fun l s' =>
      table_is (fun idx => if decide (idx ∈ l) then v else f idx) s' /\
      s' = set_indices (rt_svc_descs_indices s') s))| |done].
  - split; [|by destruct s]. destruct Ht as [Hl Ht]. split; [done|]. intros idx Hi.
    rewrite decide_False by apply not_elem_of_nil. by apply Ht.
  - intros l1 x s' [l2 Heq] [[Hl Hs] He].
    assert (a <= x <= b) as Hx.
    { assert (x ∈ seqZ a (b - a + 1)) as Hin by (rewrite Heq; set_solver). apply elem_of_seqZ in Hin. lia. }
    wp_steps. unfold id. eapply wp_deref; [apply Hs; lia|]. wp_steps. split.
    + split; [cbn; by rewrite length_zupdate|]. intros idx Hi. cbn.
      destruct (decide (idx = x)) as [->|Hne].
      * rewrite zlookup_zupdate_eq by lia. rewrite decide_True by set_solver. done.
      * rewrite zlookup_zupdate_ne by done. rewrite Hs by done. f_equal.
        destruct (decide (idx ∈ l1)); [by rewrite decide_True by set_solver|by rewrite decide_False by set_solver].
    + rewrite He. done.
  - intros [] s' [[Hl Hs] He]. split; [|done]. split; [done|]. intros idx Hi. rewrite Hs by done. f_equal.
    pose proof (elem_of_seqZ a (b - a + 1) idx) as Hq.
    destruct (decide (a <= idx <= b)); [by rewrite decide_True by (apply Hq; lia)|].
    rewrite decide_False; [done|]. rewrite Hq. lia.
Qed.

(** One service. *)
Lemma wp_init_service l i d s :
  desc_ok d -> 0 <= i < 128 -> table_is (entry_of l) s ->
  wpd (init_service i d)
    (fun _ s' => table_is (entry_of (l ++ [(i, d)])) s' /\
       rt_ctx s' = rt_ctx s /\ rt_calls s' = rt_calls s ++ (if init d =? 0 then [] else [InitCall (init d)])) s.
Proof.
  intros Hd Hi Ht. destruct (desc_ok_fields d Hd) as (Hs & He & Hc & _). unfold init_service.
  rewrite (ok_valid _ Hd). cbn [Z.eqb negb]. rewrite !unique_oen by (done || lia).
  unfold u8. rewrite !Z.mod_small by (change (2 ^ 8) with 256; lia).
  assert (forall s', table_is (entry_of l) s' -> ready i d = false -> table_is (entry_of (l ++ [(i, d)])) s') as Hno.
  { intros s' [Hl Hn] Hr. split; [done|]. intros idx Hx. rewrite Hn by done. f_equal.
    rewrite entry_snoc, decide_False; [done|]. unfold answers. cbn [fst snd]. rewrite Hr. by intros [? _]. }
  assert (forall s', table_is (entry_of l) s' -> ready i d = true ->
    wpd (assert_ true (call_type d * 64 + start_oen d <=? call_type d * 64 + end_oen d) ;;
         assert_ true (call_type d * 64 + end_oen d <? MAX_RT_SVCS) ;;
         fill_indices (call_type d * 64 + start_oen d) (call_type d * 64 + end_oen d) i)
      (fun _ s'' => table_is (entry_of (l ++ [(i, d)])) s'' /\ rt_ctx s'' = rt_ctx s' /\ rt_calls s'' = rt_calls s') s')
    as Hyes.
  { intros s' Hs' Hr. wp_step. apply wp_assert; [apply Z.leb_le; lia|]. wp_step.
    apply wp_assert; [apply Z.ltb_lt; unfold MAX_RT_SVCS; lia|].
    eapply wp_mono; [apply (wp_fill _ _ _ _ _) with (3 := Hs'); lia| |done].
    intros [] s'' [[Hl Hn] ->]. split; [|done]. split; [done|]. intros idx Hx. rewrite Hn by done. f_equal.
    rewrite entry_snoc. destruct (decide (call_type d * 64 + start_oen d <= idx <= call_type d * 64 + end_oen d));
      [by rewrite decide_True|by rewrite decide_False by (by intros [_ ?])]. }
  unfold ready in *. destruct (Z.eqb_spec (init d) 0) as [Hz|Hz]; cbn [negb orb] in *.
  - wp_steps. cbn [Z.eqb negb]. eapply wp_mono; [by apply Hyes| |done].
    intros [] s' (? & ? & ->). by rewrite app_nil_r.
  - wp_steps. destruct (svc_init i =? 0) eqn:Hr; cbn [negb].
    + eapply wp_mono; [by apply Hyes| |done]. by intros [] s' (? & ? & ->).
    + wp_step. split; [by apply Hno|done].
Qed.

(** The services in their order, with their indices. *)
Definition services : list (Z * rt_svc_desc_t) := zip (seqZ 0 RT_SVC_DECS_NUM) rt_svc_descs.

Lemma services_at l i d l' : services = l ++ (i, d) :: l' -> 0 <= i < RT_SVC_DECS_NUM /\ rt_svc_descs.[i] = Some d.
Proof.
  intros Heq. unfold services in Heq.
  assert (zip (seqZ 0 RT_SVC_DECS_NUM) rt_svc_descs !! length l = Some (i, d)) as Hl
    by (rewrite Heq; by rewrite lookup_app_r, Nat.sub_diag by done).
  apply lookup_zip_Some in Hl as [Hi Hd]. apply lookup_seqZ in Hi as [-> Hi]. split; [lia|].
  rewrite zlookup_to_nat by lia. by replace (Z.to_nat (0 + Z.of_nat (length l))) with (length l) by lia.
Qed.

Definition init_calls : list rt_call :=
  omap (fun d => if init d =? 0 then None else Some (InitCall (init d))) rt_svc_descs.

Lemma wp_runtime_init s :
  Forall desc_ok rt_svc_descs -> RT_SVC_DECS_NUM < 128 ->
  wpd runtime_svc_init
    (fun _ s' => (RT_SVC_DECS_NUM = 0 /\ s' = s \/ table_is (entry_of services) s') /\
       rt_ctx s' = rt_ctx s /\
       rt_calls s' = rt_calls s ++ init_calls) s.
Proof.
  intros Hok Hn. unfold runtime_svc_init. wp_step. apply wp_assert; [by apply Z.ltb_lt|].
  destruct (Z.eqb_spec RT_SVC_DECS_NUM 0) as [Hz|Hz].
  { wp_step. split_and!; [by left|done|]. unfold init_calls. unfold RT_SVC_DECS_NUM in Hz.
    destruct rt_svc_descs; [by rewrite app_nil_r|cbn in Hz; lia]. }
  wp_steps. fold services.
  eapply wp_mono; [apply (wp_for_each _ _ (fun l s' => table_is (entry_of l) s' /\ rt_ctx s' = rt_ctx s /\
      rt_calls s' = rt_calls s ++
        omap (fun p => if init (snd p) =? 0 then None else Some (InitCall (init (snd p)))) l))| |done].
  - split; [|by rewrite app_nil_r]. split; [done|]. intros idx Hi. cbn.
    rewrite zlookup_to_nat by lia. by rewrite lookup_replicate_2 by (unfold MAX_RT_SVCS; lia).
  - intros l [i d] s' [l' Heq] (Ht & Hc & Hcalls). destruct (services_at _ _ _ _ Heq) as [Hi Hd].
    cbn [fst snd]. eapply wp_mono; [apply wp_init_service; [|lia|exact Ht]| |done].
    + rewrite zlookup_to_nat in Hd by lia. by eapply Forall_lookup_1.
    + intros [] s'' (Ht' & Hc' & Hcalls'). split_and!; [done|congruence|].
      rewrite Hcalls', Hcalls, omap_app. cbn [omap list_omap]. cbn [snd]. by destruct (init d =? 0); rewrite <- app_assoc.
  - intros [] s' (Ht & Hc & Hcalls). split_and!; [by right|done|]. rewrite Hcalls. f_equal.
    unfold init_calls, services.
    assert (forall k (l : list rt_svc_desc_t),
      omap (fun p => if init (snd p) =? 0 then None else Some (InitCall (init (snd p))))
        (zip (seqZ k (Z.of_nat (length l))) l) =
      omap (fun d => if init d =? 0 then None else Some (InitCall (init d))) l) as Hz'; [|apply Hz'].
    intros k l. revert k. induction l as [|d l IH]; intros k; [done|].
    cbn [length]. rewrite Nat2Z.inj_succ, seqZ_cons by lia. cbn [zip zip_with omap list_omap snd].
    replace (Z.pred (Z.succ (Z.of_nat (length l)))) with (Z.of_nat (length l)) by lia.
    by rewrite <- (IH (Z.succ k)).
Qed.

(** ** The service of a call *)

(** The service at an index answers a function identifier: it is initialised and
    registered for the type and the owning entity of the call. *)
Definition serves (fid : Z) (p : Z * rt_svc_desc_t) : Prop :=
  ready (fst p) (snd p) = true /\ call_type (snd p) = GET_SMC_TYPE fid /\
  start_oen (snd p) <= GET_SMC_OEN fid <= end_oen (snd p).

#[local] Instance serves_dec fid p : Decision (serves fid p).
Proof. unfold serves. apply _. Defined.

(** The last one of them is called. *)
Definition service_of (fid : Z) : option rt_svc_desc_t := snd <$> last (filter (serves fid) services).

Lemma filter_ext {A} (P Q : A -> Prop) `{!forall x, Decision (P x), !forall x, Decision (Q x)} (l : list A) :
  Forall (fun x => P x <-> Q x) l -> filter P l = filter Q l.
Proof.
  induction 1 as [|x l Hx _ IH]; [done|]. rewrite !filter_cons, IH.
  destruct (decide (P x)) as [HP|HP]; [rewrite decide_True by tauto|rewrite decide_False by tauto]; done.
Qed.

Lemma services_ok : Forall desc_ok rt_svc_descs -> Forall (fun p => desc_ok (snd p)) services.
Proof.
  intros Hok. apply Forall_forall. intros [i d] Hin. apply list_elem_of_split in Hin as (l & l' & Heq).
  destruct (services_at _ _ _ _ Heq) as [Hi Hd]. rewrite zlookup_to_nat in Hd by lia.
  by eapply Forall_lookup_1.
Qed.

Lemma answers_serves fid :
  Forall desc_ok rt_svc_descs ->
  filter (answers (get_unique_oen_from_smc_fid fid)) services = filter (serves fid) services.
Proof.
  intros Hok. apply filter_ext. eapply Forall_impl; [by apply services_ok|].
  intros [i d] Hd. cbn [snd] in Hd. destruct (desc_ok_fields d Hd) as (Hs & He & Hc & _).
  destruct (smc_fields fid) as [Ht Ho]. unfold answers, serves, get_unique_oen_from_smc_fid. cbn [fst snd].
  rewrite unique_oen by done. intuition lia.
Qed.

(** The table after [runtime_svc_init]. *)
Definition installed (s : rt_state) : Prop :=
  table_is (entry_of services) s \/
  (RT_SVC_DECS_NUM = 0 /\ length (rt_svc_descs_indices s) = 128%nat /\
   Forall (fun v => 0 <= v) (rt_svc_descs_indices s)).

Lemma get_handler_run fid s :
  Forall desc_ok rt_svc_descs -> RT_SVC_DECS_NUM < 128 -> installed s ->
  get_handler_for_smc_fid fid s =
    match service_of fid with
    | None => Done None s
    | Some d => if handle d =? 0 then Stopped AssertFailed s else Done (Some (handle d)) s
    end.
Proof.
  intros Hok Hn Hs. destruct (smc_fields fid) as [Ht Ho]. unfold get_handler_for_smc_fid.
  set (idx := get_unique_oen_from_smc_fid fid).
  assert (0 <= idx < 128) as Hidx by (unfold idx, get_unique_oen_from_smc_fid; rewrite unique_oen by done; lia).
  unfold bind at 1, assert_ at 1. rewrite (proj2 (Z.ltb_lt idx MAX_RT_SVCS)) by (unfold MAX_RT_SVCS; lia).
  cbn [andb negb ret]. unfold bind at 1, gets, id.
  destruct Hs as [[Hl Htab]|(Hz & Hl & Hpos)].
  - rewrite (Htab idx Hidx). cbn [deref]. unfold bind at 1, ret at 1, entry_of. unfold idx.
    rewrite answers_serves by done. unfold service_of.
    destruct (last (filter (serves fid) services)) as [[i d]|] eqn:Hlast; cbn [fst fmap option_fmap option_map snd].
    + apply last_Some_elem_of, list_elem_of_filter in Hlast as [_ Hin].
      apply list_elem_of_split in Hin as (l & l' & Heq).
      destruct (services_at _ _ _ _ Heq) as [Hi Hd]. rewrite (proj2 (Z.leb_gt _ _)) by lia.
      unfold bind, deref. rewrite Hd. unfold ret, assert_. by destruct (handle d =? 0).
    + rewrite (proj2 (Z.leb_le _ _)) by lia. done.
  - unfold service_of, services. rewrite Hz. cbn [seqZ zip zip_with filter list_filter last].
    destruct (proj2 (zlookup_lt_is_Some (rt_svc_descs_indices s) idx)) as [v Hv]; [lia|]. rewrite Hv. cbn [deref].
    unfold bind at 1, ret at 1. rewrite zlookup_to_nat in Hv by lia.
    rewrite (proj2 (Z.leb_le 0 v)); [done|]. by apply (Forall_lookup_1 _ _ _ _ Hpos Hv).
Qed.

(** ** The function identifier and the flags *)

Lemma extract_bits w k x :
  MASK w k = Z.shiftl (Z.ones w) k -> 0 <= w -> 0 <= k -> EXTRACT w k x = Z.shiftr x k mod 2 ^ w.
Proof.
  intros Hm Hw Hk. unfold EXTRACT. rewrite Hm, <- Z.land_ones by done. apply Z.bits_inj'. intros n Hn.
  rewrite Z.shiftr_spec, !Z.land_spec, Z.shiftr_spec, Z.shiftl_spec by lia.
  by replace (n + k - k) with n by lia.
Qed.

(** The bit that is taken out of the function identifier. *)
Definition fid_of (fid : Z) : Z := Z.clearbit fid 16.

Lemma fid_masked fid : 0 <= fid < 2 ^ 32 -> u32 (Z.land fid (Z.lnot FUNCID_SVE_HINT)) = fid_of fid.
Proof.
  intros Hf. change FUNCID_SVE_HINT with (2 ^ 16). rewrite <- Z.ldiff_land.
  unfold u32, fid_of. apply Z.bits_inj'. intros n Hn.
  destruct (Z.ltb_spec n 32) as [Hlt|Hge].
  - rewrite Z.mod_pow2_bits_low, Z.ldiff_spec, Z.pow2_bits_eqb, Z.clearbit_eqb by lia. done.
  - rewrite Z.mod_pow2_bits_high, Z.clearbit_eqb by lia. rewrite <- (Z.mod_small fid (2 ^ 32)) by done.
    by rewrite Z.mod_pow2_bits_high by lia.
Qed.

Lemma fid_of_field fid k w : 17 <= k -> 0 <= w ->
  Z.land (Z.shiftr (fid_of fid) k) (Z.ones w) = Z.land (Z.shiftr fid k) (Z.ones w).
Proof.
  intros Hk Hw. apply Z.bits_inj'. intros n Hn. rewrite !Z.land_spec, !Z.shiftr_spec by done. unfold fid_of.
  rewrite Z.clearbit_neq by lia. done.
Qed.

Lemma service_of_masked fid : service_of (fid_of fid) = service_of fid.
Proof.
  assert (GET_SMC_TYPE (fid_of fid) = GET_SMC_TYPE fid /\ GET_SMC_OEN (fid_of fid) = GET_SMC_OEN fid) as [Ht Ho].
  { split; [apply (fid_of_field fid 31 1)|apply (fid_of_field fid 24 6)]; lia. }
  unfold service_of. do 2 f_equal. apply filter_ext, Forall_true. intros p. unfold serves. by rewrite Ht, Ho.
Qed.

(** The security state of the caller: bit 0 is SCR_EL3.NS, and bit 5 SCR_EL3.NSE
    in a build for realms. *)
Definition caller_flags (scr : Z) : Z :=
  Z.lor (if Z.testbit scr 0 then 1 else 0) (if ENABLE_RMM && Z.testbit scr 62 then 0x20 else 0).

Lemma land_bit x k : 0 <= k -> Z.land x (2 ^ k) = if Z.testbit x k then 2 ^ k else 0.
Proof.
  intros Hk. apply Z.bits_inj'. intros n Hn. rewrite Z.land_spec, Z.pow2_bits_eqb by done.
  destruct (Z.eqb_spec k n) as [<-|Hne].
  - rewrite andb_true_r. destruct (Z.testbit x k); [by rewrite Z.pow2_bits_true|by rewrite Z.bits_0].
  - rewrite andb_false_r. destruct (Z.testbit x k); [by rewrite Z.pow2_bits_false by lia|by rewrite Z.bits_0].
Qed.

Lemma flags_of_masked fid scr : get_flags (fid_of fid) scr = caller_flags scr.
Proof.
  unfold get_flags, caller_flags. change FUNCID_SVE_HINT with (2 ^ 16). change SCR_NS_BIT with (2 ^ 0).
  change SCR_NSE_BIT with (2 ^ 62). rewrite !land_bit by done. unfold fid_of. rewrite Z.clearbit_eq, Z.lor_0_r.
  by destruct ENABLE_RMM, (Z.testbit scr 0), (Z.testbit scr 62).
Qed.

(** ** What an SMC does *)

(** A fast call with reserved bits of the identifier set. *)
Definition reserved (fid : Z) : bool := Z.testbit fid 31 && negb (Z.shiftr fid 17 mod 2 ^ 7 =? 0).

Definition unknown_answer (s : rt_state) : rt_state :=
  set_ctx (set_tc_regs (zupdate (tc_regs (rt_ctx s)) 0 (2 ^ 64 - 1)) (rt_ctx s)) s.

Definition gpreg (i : Z) (s : rt_state) : Z := default 0 ((tc_regs (rt_ctx s)).[i]).

(** The handler of a service is called with the arguments of the SMC. *)
Definition served (h fid : Z) (s : rt_state) : outcome rt_state unit :=
  let fl := caller_flags (tc_scr_el3 (rt_ctx s)) in
  let e := HandleCall h (fid_of fid) (gpreg 1 s) (gpreg 2 s) (gpreg 3 s) (gpreg 4 s) fl in
  match svc_handle h (fid_of fid) (gpreg 1 s) (gpreg 2 s) (gpreg 3 s) (gpreg 4 s) fl (rt_ctx s) with
  | Done _ c => Done tt (set_ctx c (add_call e s))
  | Stopped w c => Stopped w (set_ctx c (add_call e s))
  end.

Definition smc_effect (fid : Z) (s : rt_state) : outcome rt_state unit :=
  if reserved fid then Done tt (unknown_answer s)
  else match service_of fid with
       | None => Done tt (unknown_answer s)
       | Some d => if handle d =? 0 then Stopped AssertFailed s else served (handle d) fid s
       end.

Lemma reserved_run fid :
  (FUNCID_TYPE fid =? SMC_TYPE_FAST) && negb (FUNCID_FC_RESERVED fid =? 0) = reserved fid.
Proof.
  unfold reserved, FUNCID_TYPE, FUNCID_FC_RESERVED, SMC_TYPE_FAST. rewrite !extract_bits by done. f_equal.
  change (2 ^ 1) with 2. rewrite <- Z.bit0_mod, Z.shiftr_spec by done. change (0 + 31) with 31.
  by destruct (Z.testbit fid 31).
Qed.

Lemma unknown_run s : length (tc_regs (rt_ctx s)) = 32%nat -> smc_unknown s = Done tt (unknown_answer s).
Proof.
  intros Hl. unfold smc_unknown, on_ctx, write_gpreg, bind, gets, id.
  destruct (proj2 (zlookup_lt_is_Some (tc_regs (rt_ctx s)) 0)) as [v ->]; [lia|]. done.
Qed.

Lemma gpreg_run i s : length (tc_regs (rt_ctx s)) = 32%nat -> 0 <= i < 32 -> read_gpreg i s = Done (gpreg i s) s.
Proof.
  intros Hl Hi. unfold read_gpreg, bind, gets, id, gpreg.
  by destruct (proj2 (zlookup_lt_is_Some (tc_regs (rt_ctx s)) i)) as [v ->]; [lia|].
Qed.

Lemma sync_handler_run fid s :
  Forall desc_ok rt_svc_descs -> RT_SVC_DECS_NUM < 128 -> installed s ->
  length (tc_regs (rt_ctx s)) = 32%nat -> 0 <= fid < 2 ^ 32 ->
  sync_handler fid (tc_scr_el3 (rt_ctx s)) s = smc_effect fid s.
Proof.
  intros Hok Hn Hs Hl Hf. unfold sync_handler, smc_effect. rewrite reserved_run.
  destruct (reserved fid); [by apply unknown_run|]. rewrite fid_masked by done. unfold bind at 1.
  rewrite get_handler_run by done. rewrite service_of_masked.
  destruct (service_of fid) as [d|]; [|by apply unknown_run]. destruct (handle d =? 0); [done|].
  unfold bind. rewrite !gpreg_run by (done || lia). unfold served, call_out, bind, modify, on_ctx. cbn [rt_ctx add_call].
  rewrite flags_of_masked. by destruct (svc_handle _ _ _ _ _ _ _ _) as [[] c|w c].
Qed.

Lemma smc_run esr spsr s :
  Forall desc_ok rt_svc_descs -> RT_SVC_DECS_NUM < 128 -> installed s ->
  length (tc_regs (rt_ctx s)) = 32%nat -> ESR_EC esr = EC_AARCH64_SMC ->
  handler_sync_exception esr spsr s = smc_effect (u32 (gpreg 0 s)) s.
Proof.
  intros Hok Hn Hin Hl Hec.
  unfold handler_sync_exception, bind at 1. rewrite gpreg_run by (done || lia). unfold bind at 1, gets, id.
  rewrite Hec. cbn [Z.eqb Pos.eqb]. apply sync_handler_run; try done. apply u32_range.
Qed.


(** ** The SVE hint *)

Definition state_after {A} (o : outcome rt_state A) : rt_state :=
  match o with Done _ s | Stopped _ s => s end.

(** The same call with the hint bit of the identifier changed. *)
Definition flip_hint (s : rt_state) : rt_state :=
  set_ctx (set_tc_regs (zupdate (tc_regs (rt_ctx s)) 0 (Z.lxor (gpreg 0 s) (2 ^ 16))) (rt_ctx s)) s.

Lemma flip_gpreg i s :
  length (tc_regs (rt_ctx s)) = 32%nat ->
  gpreg i (flip_hint s) = if decide (i = 0) then Z.lxor (gpreg 0 s) (2 ^ 16) else gpreg i s.
Proof.
  intros Hl. unfold gpreg at 1, flip_hint. cbn [rt_ctx set_ctx tc_regs set_tc_regs]. case_decide as Hi.
  - subst i. by rewrite zlookup_zupdate_eq by lia.
  - by rewrite zlookup_zupdate_ne by done.
Qed.

Lemma flip_fid x : fid_of (u32 (Z.lxor x (2 ^ 16))) = fid_of (u32 x).
Proof.
  unfold fid_of, u32. apply Z.bits_inj'. intros n Hn. rewrite !Z.clearbit_eqb by lia.
  destruct (Z.ltb_spec n 32).
  - rewrite !Z.mod_pow2_bits_low, Z.lxor_spec, Z.pow2_bits_eqb by lia.
    destruct (Z.eqb_spec 16 n); [by rewrite !andb_false_r|by rewrite xorb_false_r].
  - by rewrite !Z.mod_pow2_bits_high by lia.
Qed.

Lemma reserved_masked fid : reserved (fid_of fid) = reserved fid.
Proof.
  unfold reserved. f_equal.
  - unfold fid_of. by rewrite Z.clearbit_neq by lia.
  - rewrite <- !Z.land_ones by lia. by rewrite fid_of_field by lia.
Qed.

Lemma smc_effect_calls fid s :
  rt_calls (state_after (smc_effect fid s)) =
    rt_calls s ++
      (if reserved fid then []
       else match service_of fid with
            | Some d => if handle d =? 0 then []
                        else [HandleCall (handle d) (fid_of fid) (gpreg 1 s) (gpreg 2 s) (gpreg 3 s) (gpreg 4 s)
                                (caller_flags (tc_scr_el3 (rt_ctx s)))]
            | None => []
            end).
Proof.
  unfold smc_effect. destruct (reserved fid); [by rewrite app_nil_r|].
  destruct (service_of fid) as [d|]; [|by rewrite app_nil_r]. destruct (handle d =? 0); [by rewrite app_nil_r|].
  unfold served. by destruct (svc_handle _ _ _ _ _ _ _ _).
Qed.

(** C38. The SVE hint of the caller never reaches a service: a call with the
    hint bit and the same call without it make the same calls of handlers, and
    in the flags a handler gets the hint is clear. *)
Theorem sve_hint_lost esr spsr s :
  Forall desc_ok rt_svc_descs -> RT_SVC_DECS_NUM < 128 -> installed s ->
  length (tc_regs (rt_ctx s)) = 32%nat -> ESR_EC esr = EC_AARCH64_SMC ->
  rt_calls (state_after (handler_sync_exception esr spsr (flip_hint s))) =
    rt_calls (state_after (handler_sync_exception esr spsr s)) /\
  forall h fid x1 x2 x3 x4 fl,
    rt_calls (state_after (handler_sync_exception esr spsr s)) = rt_calls s ++ [HandleCall h fid x1 x2 x3 x4 fl] ->
    is_sve_hint_set fl = false /\ Z.testbit fid 16 = false.
Proof.
  intros Hok Hn Hin Hl Hec.
  assert (length (tc_regs (rt_ctx (flip_hint s))) = 32%nat) as Hl' by (cbn; by rewrite length_zupdate).
  rewrite !smc_run by done. rewrite !smc_effect_calls, !flip_gpreg by done. cbn [decide].
  rewrite (decide_True (P := 0 = 0)), !(decide_False (P := _ = 0)) by lia.
  rewrite <- (reserved_masked (u32 (Z.lxor _ _))), <- (service_of_masked (u32 (Z.lxor _ _))), flip_fid.
  rewrite reserved_masked, service_of_masked. split; [done|].
  intros h fid x1 x2 x3 x4 fl Heq%app_inv_head.
  destruct (reserved _); [done|]. destruct (service_of _) as [d|]; [|done]. destruct (handle d =? 0); [done|].
  injection Heq as _ <- _ _ _ _ <-. split; [|apply Z.clearbit_eq]. unfold caller_flags.
  by destruct (Z.testbit _ 0), (ENABLE_RMM && _).
Qed.

(** ** Asynchronous external aborts

    Whether the syndrome of an SError is implementation defined makes no
    difference to its classification: the mask that stands for the IDS bit has
    bit 4 of the syndrome, which is set in every DFSC of an SError. *)
Lemma serror_ids_ignored esr s :
  is_feat_ras_supported = true -> ESR_EC esr = EC_SERROR ->
  handler_lower_el_async_ea esr s =
    if (EABORT_DFSC esr =? DFSC_SERROR) && (EABORT_AET esr =? ERROR_STATUS_UET_UC)
    then call_out UncontainableEaCall plat_handle_uncontainable_ea s
    else ea_proceed ERROR_EA_ASYNC esr (tc_scr_el3 (rt_ctx s)) s.
Proof.
  intros Hras Hec. unfold handler_lower_el_async_ea, bind at 1, gets, id. rewrite Hras, Hec. unfold when, assert_.
  cbn [negb andb Z.eqb Pos.eqb EC_SERROR]. unfold bind, ret.
  destruct (Z.eqb_spec (EABORT_DFSC esr) DFSC_SERROR) as [Hd|Hd]; [|by rewrite andb_false_r].
  assert (is_set esr SERROR_IDS_BIT = true) as ->; [|by cbn [andb]; destruct (_ =? _)].
  unfold is_set. apply negb_true_iff, Z.eqb_neq. intros Hz.
  apply (f_equal (fun z => Z.testbit z 4)) in Hz, Hd. rewrite Z.land_spec in Hz.
  unfold EABORT_DFSC in Hd. rewrite extract_bits, Z.mod_pow2_bits_low, Z.shiftr_spec in Hd by (done || lia).
  change (4 + 0) with 4 in Hd. rewrite Hd in Hz. discriminate Hz.
Qed.

(** ** Trapped system registers *)

(** Accesses the architecture traps: the random numbers and the ID registers are
    only read, and the trapping world is not the root world. The platform's hook
    for random numbers answers with one of the two codes it is given for that. *)
Record trap_ok (esr scr : Z) : Prop := {
  to_read : (trap_opcode esr =? ISS_SYSREG_OPCODE_RNDR) || (trap_opcode esr =? ISS_SYSREG_OPCODE_RNDRRS) ||
            is_idreg (trap_opcode esr) = true -> Z.testbit esr 0 = true;
  to_world : Z.testbit scr 62 = true -> Z.testbit scr 0 = true;
  to_rng old b : snd (plat_handle_rng_trap old b) = TRAP_RET_UNHANDLED \/
                 snd (plat_handle_rng_trap old b) = TRAP_RET_CONTINUE
}.

(** What a trapped access does. Bit 0 of the syndrome tells reads from writes,
    bits 9:5 name the general-purpose register. *)
Definition trap_rt (esr : Z) : Z := Z.shiftr esr 5 mod 2 ^ 5.
Definition is_rng (esr : Z) : bool :=
  is_feat_rng_trap_supported &&
  ((trap_opcode esr =? ISS_SYSREG_OPCODE_RNDR) || (trap_opcode esr =? ISS_SYSREG_OPCODE_RNDRRS)).
Definition is_ras (opcode : Z) : bool :=
  is_feat_ras_supported &&
  ((negb FAULT_INJECTION_SUPPORT && one_of opcode fault_injection_regs) ||
   (RAS_TRAP_NS_ERR_REC_ACCESS && one_of opcode error_record_regs)).

(** The random number and the answer of the platform. *)
Definition rng_answer (esr : Z) (c : trap_state) : Z * Z :=
  plat_handle_rng_trap (default 0 ((tc_regs c).[trap_rt esr])) (trap_opcode esr =? ISS_SYSREG_OPCODE_RNDRRS).

(** The world of the caller, as an index of the ID register caches: Secure,
    Non-secure and Realm. *)
Definition world_index (scr : Z) : Z :=
  if Z.testbit scr 0 then if ENABLE_RMM && Z.testbit scr 62 then 2 else 1 else 0.
Definition idreg_value (scr opcode : Z) : Z :=
  if one_of opcode perworld_idregs then perworld_idreg (world_index scr) opcode
  else if one_of opcode percpu_idregs then percpu_idreg (world_index scr) opcode
  else if one_of opcode direct_idregs then read_idreg opcode
  else 0.

(** The value an access is emulated with, if it is: a random number, or 0 when
    there is none; an ID register of the caller's world; 0 for the error records. *)
Definition trap_value (esr : Z) (c : trap_state) : option Z :=
  if is_rng esr
  then Some (if snd (rng_answer esr c) =? TRAP_RET_UNHANDLED then 0 else fst (rng_answer esr c))
  else if is_feat_idte3_supported && is_idreg (trap_opcode esr)
  then Some (idreg_value (tc_scr_el3 c) (trap_opcode esr))
  else if is_ras (trap_opcode esr) then Some 0
  else None.

(** Reads into XZR do nothing, whatever the register. *)
Definition trap_handled (esr : Z) (c : trap_state) : bool :=
  (if trap_value esr c then true else false) || (Z.testbit esr 0 && (trap_rt esr =? XZR_REG_NUM)).

(** A random number replaces the condition flags: Z tells that there was none.
    The bits above them are lost. *)
Definition trap_spsr (esr : Z) (c : trap_state) : Z :=
  if is_rng esr
  then tc_spsr_el3 c mod 2 ^ 28 +
       (if negb (trap_rt esr =? XZR_REG_NUM) && (snd (rng_answer esr c) =? TRAP_RET_UNHANDLED) then 2 ^ 30 else 0)
  else tc_spsr_el3 c.

Definition trap_regs (esr : Z) (c : trap_state) : list Z :=
  if Z.testbit esr 0 && negb (trap_rt esr =? XZR_REG_NUM)
  then zupdate (tc_regs c) (trap_rt esr) (default 0 (trap_value esr c)) else tc_regs c.

(** The context after the emulation: the register that is read, and the flags. *)
Definition emulate (esr : Z) (c : trap_state) : trap_state :=
  set_tc_spsr (trap_spsr esr c) (set_tc_regs (trap_regs esr c) c).

Lemma keep_spsr c : set_tc_spsr (tc_spsr_el3 c) c = c.
Proof. by destruct c. Qed.
Lemma keep_regs c : set_tc_regs (tc_regs c) c = c.
Proof. by destruct c. Qed.

Lemma write_run i v c :
  length (tc_regs c) = 32%nat -> 0 <= i < 32 -> write_gpreg i v c = Done tt (set_tc_regs (zupdate (tc_regs c) i v) c).
Proof.
  intros Hl Hi. unfold write_gpreg, bind, gets, id.
  by destruct (proj2 (zlookup_lt_is_Some (tc_regs c) i)) as [w ->]; [lia|].
Qed.

Lemma rt_field esr : u8 (EXTRACT 5 5 esr) = trap_rt esr /\ 0 <= trap_rt esr < 32.
Proof.
  rewrite extract_bits by done. fold (trap_rt esr).
  pose proof (Z.mod_pos_bound (Z.shiftr esr 5) (2 ^ 5) ltac:(done)) as Hb. fold (trap_rt esr) in Hb.
  split; [|done]. unfold u8. rewrite Z.mod_small by lia. done.
Qed.

Lemma direction_field esr : negb (EXTRACT 1 0 esr =? 0) = Z.testbit esr 0.
Proof.
  rewrite extract_bits by done. rewrite Z.shiftr_0_r. change (2 ^ 1) with 2. rewrite Zmod_odd, <- Z.bit0_odd.
  by destruct (Z.testbit esr 0).
Qed.

(** The flags after a random number: [b] when there was none. *)
Lemma flags_replaced x (b : bool) :
  (if b then Z.lor (Z.land x (u32 (Z.lnot SPSR_NZCV))) SPSR_Z_BIT else Z.land x (u32 (Z.lnot SPSR_NZCV))) =
  x mod 2 ^ 28 + (if b then 2 ^ 30 else 0).
Proof.
  change (u32 (Z.lnot SPSR_NZCV)) with (Z.ones 28). rewrite Z.land_ones by done. destruct b; [|by rewrite Z.add_0_r].
  change SPSR_Z_BIT with (Z.shiftl 1 30). rewrite Z.lor_comm. rewrite <- Z.shiftl_1_l.
  pose proof (Z.mod_pos_bound x (2 ^ 28) ltac:(done)).
  rewrite Z.add_comm, Z.add_nocarry_lxor, Z.lxor_lor; [done|..];
    apply Z.bits_inj'; intros n Hn; rewrite Z.land_spec, Z.bits_0, Z.shiftl_1_l, Z.pow2_bits_eqb by done;
    (destruct (Z.eqb_spec 30 n) as [<-|]; [|done]); by rewrite Z.mod_pow2_bits_high.
Qed.

Lemma wp_rng_trap esr c :
  length (tc_regs c) = 32%nat -> is_rng esr = true -> Z.testbit esr 0 = true ->
  (forall old b, snd (plat_handle_rng_trap old b) = TRAP_RET_UNHANDLED \/
                 snd (plat_handle_rng_trap old b) = TRAP_RET_CONTINUE) ->
  wpd (handle_rng_trap (trap_opcode esr) (trap_rt esr)) (fun rc c' => rc = TRAP_RET_CONTINUE /\ c' = emulate esr c) c.
Proof.
  intros Hl Hr Hd Hrng. pose proof (proj2 (rt_field esr)) as Hi.
  unfold handle_rng_trap, emulate, trap_spsr, trap_regs, trap_value. rewrite Hr, Hd. cbn [andb].
  wp_step. wp_step. unfold id. wp_step.
  destruct (Z.eqb_spec (trap_rt esr) XZR_REG_NUM) as [Hx|Hx]; cbn [negb andb].
  { wp_steps. cbn [fst snd]. apply wp_assert; [done|]. wp_steps. split; [done|].
    rewrite keep_regs. f_equal. exact (flags_replaced _ false). }
  destruct (proj2 (zlookup_lt_is_Some (tc_regs c) (trap_rt esr))) as [old Hold]; [lia|].
  wp_step. eapply wp_deref; [exact Hold|].
  unfold rng_answer. rewrite Hold. cbn [default].
  specialize (Hrng old (trap_opcode esr =? ISS_SYSREG_OPCODE_RNDRRS)).
  destruct (plat_handle_rng_trap _ _) as [data rc]. cbn [fst snd] in *.
  destruct Hrng as [->| ->]; cbn [Z.eqb TRAP_RET_UNHANDLED TRAP_RET_CONTINUE Pos.eqb];
    (wp_step; eapply wp_exact; [apply write_run; [done|lia]|]); wp_steps; cbn [fst snd];
    (apply wp_assert; [done|]); wp_steps; (split; [done|]); f_equal;
    [exact (flags_replaced _ true)|exact (flags_replaced _ false)].
Qed.

(** The flags name the security state of the caller. *)
Lemma context_index_run fid scr c :
  (Z.testbit scr 62 = true -> Z.testbit scr 0 = true) ->
  get_cpu_context_index (GET_SECURITY_STATE (get_flags fid scr)) c = Done (world_index scr) c.
Proof.
  intros Hw.
  assert (GET_SECURITY_STATE (get_flags fid scr) = caller_flags scr) as ->.
  { unfold GET_SECURITY_STATE, get_flags. change FUNCID_SVE_HINT with (2 ^ 16).
    rewrite Z.land_lor_distr_l, <- (Z.land_assoc fid). change (Z.land (2 ^ 16) 0x21) with 0.
    rewrite Z.land_0_r, Z.lor_0_r. unfold caller_flags.
    change SCR_NS_BIT with (2 ^ 0). change SCR_NSE_BIT with (2 ^ 62). rewrite !land_bit by done.
    by destruct ENABLE_RMM, (Z.testbit scr 0), (Z.testbit scr 62). }
  unfold caller_flags, get_cpu_context_index, world_index.
  destruct ENABLE_RMM, (Z.testbit scr 0), (Z.testbit scr 62); try done; by specialize (Hw eq_refl).
Qed.

(** A read that is not of a random number puts its value into the register. *)
Lemma emulate_read esr c v :
  is_rng esr = false -> trap_value esr c = Some v -> Z.testbit esr 0 = true -> trap_rt esr <> XZR_REG_NUM ->
  emulate esr c = set_tc_regs (zupdate (tc_regs c) (trap_rt esr) v) c.
Proof.
  intros Hr Hv Hd Hx%Z.eqb_neq. unfold emulate, trap_spsr, trap_regs. rewrite Hr, Hv, Hd, Hx.
  apply (keep_spsr (set_tc_regs _ c)).
Qed.

(** Writes and reads into XZR change nothing. *)
Lemma emulate_nothing esr c :
  is_rng esr = false -> Z.testbit esr 0 && negb (trap_rt esr =? XZR_REG_NUM) = false -> emulate esr c = c.
Proof. intros Hr Hd. unfold emulate, trap_spsr, trap_regs. rewrite Hr, Hd. by rewrite keep_regs, keep_spsr. Qed.

Definition trap_outcome (esr : Z) (c : trap_state) (rc : Z) (c' : trap_state) : Prop :=
  if trap_handled esr c then rc = TRAP_RET_CONTINUE /\ c' = emulate esr c else rc = TRAP_RET_UNHANDLED /\ c' = c.

(** The error records read as zero and ignore writes. *)
Lemma wp_raz_wi esr c :
  length (tc_regs c) = 32%nat -> is_rng esr = false -> trap_value esr c = Some 0 ->
  Z.testbit esr 0 && (trap_rt esr =? XZR_REG_NUM) = false ->
  wpd (access_raz_wi (Z.testbit esr 0) (trap_rt esr)) (trap_outcome esr c) c.
Proof.
  intros Hl Hr Hv Hx. pose proof (proj2 (rt_field esr)) as Hi. unfold access_raz_wi, when, trap_outcome, trap_handled.
  rewrite Hv, orb_true_l. destruct (Z.testbit esr 0) eqn:Hd; cbn [andb] in Hx.
  - wp_step. eapply wp_exact; [by apply write_run|]. wp_step. split; [done|].
    symmetry. apply emulate_read; [done..|by apply Z.eqb_neq].
  - wp_step. wp_step. wp_step. split; [done|]. symmetry. apply emulate_nothing; [done|by rewrite Hd].
Qed.

Lemma wp_sysreg_trap impdef esr fid c :
  length (tc_regs c) = 32%nat -> trap_ok esr (tc_scr_el3 c) ->
  wpd (handle_sysreg_trap impdef esr (get_flags fid (tc_scr_el3 c))) (trap_outcome esr c) c.
Proof.
  intros Hl [Hread Hworld Hrng]. unfold handle_sysreg_trap. rewrite direction_field.
  destruct (rt_field esr) as [-> Hi]. fold (is_rng esr).
  assert (is_impdef (trap_opcode esr) = false) as -> by apply never_impdef. rewrite andb_false_r.
  destruct (is_rng esr) eqn:Hr.
  { assert (Z.testbit esr 0 = true) as Hd
      by (apply Hread; unfold is_rng in Hr; apply andb_true_iff in Hr as [_ ->]; done).
    rewrite Hd. wp_step. apply wp_assert; [done|]. unfold trap_outcome, trap_handled, trap_value. rewrite Hr.
    by apply wp_rng_trap. }
  destruct (Z.testbit esr 0 && (trap_rt esr =? XZR_REG_NUM)) eqn:Hx.
  { wp_step. unfold trap_outcome, trap_handled. rewrite Hx, orb_true_r. split; [done|].
    symmetry. apply emulate_nothing; [done|]. apply andb_true_iff in Hx as [-> ->]. done. }
  destruct (is_feat_idte3_supported && is_idreg (trap_opcode esr)) eqn:Hid.
  { apply andb_true_iff in Hid as [Hte Hidr]. rewrite (Hread ltac:(rewrite Hidr; apply orb_true_r)) in Hx.
    assert (trap_value esr c = Some (idreg_value (tc_scr_el3 c) (trap_opcode esr))) as Hv
      by (unfold trap_value; by rewrite Hr, Hte, Hidr).
    unfold handle_idreg_trap. wp_step. eapply wp_exact; [by apply context_index_run|]. wp_step.
    eapply wp_exact; [by apply write_run|]. wp_step. unfold trap_outcome, trap_handled. rewrite Hv. split; [done|].
    symmetry. apply emulate_read; [done..| |by apply Z.eqb_neq]. apply Hread. rewrite Hidr. apply orb_true_r. }
  destruct (is_ras (trap_opcode esr)) eqn:Hras.
  { assert (trap_value esr c = Some 0) as Hv by (unfold trap_value; by rewrite Hr, Hid, Hras).
    unfold is_ras in Hras. apply andb_true_iff in Hras as [-> Hras]. cbn [andb].
    destruct (negb FAULT_INJECTION_SUPPORT && _); [by apply wp_raz_wi|]. cbn [orb] in Hras. rewrite Hras.
    by apply wp_raz_wi. }
  unfold trap_outcome, trap_handled, trap_value. rewrite Hr, Hid, Hras, Hx. cbn [orb].
  unfold is_ras in Hras. destruct is_feat_ras_supported; cbn [andb] in Hras |- *; [|by wp_step].
  apply orb_false_iff in Hras as [-> ->]. by wp_step.
Qed.

Lemma inject_undef_run c : exists c', inject_undef64 c = Done tt c'.
Proof.
  unfold inject_undef64, inject_exception, bind, gets, modify, id. by destruct is_feat_uinj_supported; eexists.
Qed.

Lemma wp_on_ctx {A} (p : trap A) (Q : A -> rt_state -> Prop) s :
  wpd p (fun a c => Q a (set_ctx c s)) (rt_ctx s) -> wpd (on_ctx p) Q s.
Proof. unfold wp, on_ctx. by destruct (p (rt_ctx s)). Qed.

Lemma emulate_sp esr c :
  length (tc_regs (emulate esr c)) = length (tc_regs c) /\
  (tc_regs (emulate esr c)).[CTX_GPREG_SP_EL0] = (tc_regs c).[CTX_GPREG_SP_EL0].
Proof.
  unfold emulate, trap_regs. cbn [tc_regs set_tc_spsr set_tc_regs]. destruct (Z.eqb_spec (trap_rt esr) XZR_REG_NUM) as [|Hx]; [by rewrite andb_false_r|].
  destruct (Z.testbit esr 0); [|done]. cbn [andb negb]. rewrite length_zupdate. split; [done|].
  apply zlookup_zupdate_ne. unfold CTX_GPREG_SP_EL0, XZR_REG_NUM in *. lia.
Qed.

(** A handled access is emulated and the level continues after it; the others
    take an undefined exception. *)
Definition trap_effect (esr : Z) (s s' : rt_state) : Prop :=
  let c := rt_ctx s in
  if trap_handled esr c then s' = set_ctx (set_tc_elr (u64 (tc_elr_el3 c + 4)) (emulate esr c)) s
  else exists c', inject_undef64 c = Done tt c' /\ s' = set_ctx c' s.

End RuntimeSvcProps.

Module RuntimeRun.

#[local] Existing Instance TrapsRun.C.

(** A standard service, an OS service for yielding calls, and a service that
    fails to initialise. *)
Definition std_svc : rt_svc_desc_t :=
  {| start_oen := 4; end_oen := 4; call_type := SMC_TYPE_FAST; init := 0x100; handle := 0x200 |}.
Definition tos_svc : rt_svc_desc_t :=
  {| start_oen := 50; end_oen := 63; call_type := SMC_TYPE_YIELD; init := 0; handle := 0x300 |}.
Definition broken_svc : rt_svc_desc_t :=
  {| start_oen := 0; end_oen := 0; call_type := SMC_TYPE_FAST; init := 0x110; handle := 0x400 |}.

#[local] Instance P : RtPlatform := {|
  rt_svc_descs := [std_svc; tos_svc; broken_svc];
  CTX_INCLUDE_AARCH32_REGS := true;
  FFH_SUPPORT := true;
  SDEI_SUPPORT := false;
  svc_init := fun i => if i =? 2 then 1 else 0;
  svc_handle := fun h fid _ _ _ _ _ => write_gpreg 0 0;
  intr_handle := fun _ _ _ => ret tt;
  plat_ic_get_pending_interrupt_type := fun _ => INTR_TYPE_INVAL;
  plat_ea_handler := fun _ _ _ => ret tt;
  plat_handle_double_fault := fun _ _ => halt Panicked;
  plat_handle_uncontainable_ea := halt Panicked;
  plat_handle_impdef_trap := fun _ => ret TRAP_RET_UNHANDLED
|}.

(** Non-secure code at EL1 calls [fid]. *)
Definition caller (fid : Z) (indices : list Z) : rt_state := {|
  rt_ctx := set_tc_regs (zupdate (tc_regs TrapsRun.at_el1) 0 fid) TrapsRun.at_el1;
  double_fault_esr := 0; rt_svc_descs_indices := indices; rt_intr := intr_reset [];
  rt_calls := [] |}.

Definition boot : rt_state := caller 0 (replicate 128 0).
Definition esr_smc : Z := Z.shiftl EC_AARCH64_SMC 26.
Definition table : list Z := rt_svc_descs_indices (state_after (runtime_svc_init boot)).

Lemma descs_ok : Forall desc_ok rt_svc_descs.
Proof. repeat constructor; vm_compute; done. Qed.

(** PSCI_VERSION with the hint bit set reaches the standard service; a call of
    the service that failed to initialise is unknown. *)
Definition version_call : rt_state := caller 0x84010000 table.
Definition arch_call : rt_state := caller 0x80000000 table.

Lemma version_call_calls :
  rt_calls (state_after (handler_sync_exception esr_smc 5 version_call)) = [HandleCall 0x200 0x84000000 1 2 3 4 1].
Proof. vm_compute. reflexivity. Qed.

Lemma arch_call_unknown :
  rt_calls (state_after (handler_sync_exception esr_smc 5 arch_call)) = [] /\
  gpreg 0 (state_after (handler_sync_exception esr_smc 5 arch_call)) = 2 ^ 64 - 1.
Proof. vm_compute. split; reflexivity. Qed.

Lemma table_run s1 : runtime_svc_init boot = Done tt s1 -> rt_svc_descs_indices version_call = rt_svc_descs_indices s1.
Proof. intros Hrun. unfold version_call, table. by rewrite Hrun. Qed.

Lemma caller_regs : length (tc_regs (rt_ctx version_call)) = 32%nat /\ ESR_EC esr_smc = EC_AARCH64_SMC.
Proof. vm_compute. split; reflexivity. Qed.


Lemma version_call_installed : installed version_call.
Proof.
  destruct (wpd_done _ _ _ (wp_runtime_init boot descs_ok ltac:(vm_compute; done))) as ([] & s1 & Hrun & Ht & _).
  destruct Ht as [[Hz _]|Ht]; [discriminate Hz|]. left. unfold table_is. by rewrite (table_run _ Hrun).
Qed.

Lemma sve_hint_lost_witness :
  rt_calls (state_after (handler_sync_exception esr_smc 5 (flip_hint version_call))) =
    [HandleCall 0x200 0x84000000 1 2 3 4 1] /\
  is_sve_hint_set 1 = false.
Proof.
  destruct (sve_hint_lost esr_smc 5 version_call descs_ok ltac:(vm_compute; done) version_call_installed
    (proj1 caller_regs) (proj2 caller_regs)) as [H1 H2].
  split; [exact (eq_trans H1 version_call_calls)|].
  exact (proj1 (H2 0x200 0x84000000 1 2 3 4 1 version_call_calls)).
Defined.

(** A read of an error record register into x3 gives 0. *)
Definition esr_errselr : Z :=
  Z.lor (Z.lor (Z.shiftl EC_AARCH64_SYS 26) ISS_SYSREG_OPCODE_ERRSELR_EL1) (Z.lor (Z.shiftl 3 5) 1).

Definition reader : rt_state := caller 7 [].

Lemma reader_after :
  gpreg 3 (state_after (handler_sync_exception esr_errselr 5 reader)) = 0 /\
  tc_elr_el3 (rt_ctx (state_after (handler_sync_exception esr_errselr 5 reader))) = 0x4004.
Proof. vm_compute. split; reflexivity. Qed.

Lemma reader_ok :
  length (tc_regs (rt_ctx reader)) = 32%nat /\ ESR_EC esr_errselr = EC_AARCH64_SYS /\
  trap_ok esr_errselr (tc_scr_el3 (rt_ctx reader)) /\
  (CTX_INCLUDE_AARCH32_REGS = true -> Z.testbit 5 SPSR_M_SHIFT = false).
Proof.
  split_and!; [vm_compute; reflexivity|vm_compute; reflexivity| |intros _; reflexivity].
  split; [intros _; vm_compute; reflexivity|vm_compute; discriminate|]. intros old b. right. reflexivity.
Qed.

End RuntimeRun.
