(* ===== verification/Ehf.v ===== *)
(** * Exception Handling Framework (bl31/ehf.c)

    Priority levels of the exceptions EL3 handles. Each CPU keeps a bitmap of
    the active levels and programs the interrupt controller's priority mask;
    a numerically lower value is a higher priority. [exception_data] is the
    platform's table. *)

From stdpp Require Import list_numbers.
From S2P Require Import Prelude InterruptMgmt.
#[local] Open Scope cmd_scope.

(** ** Data *)

Definition EHF_PRI_VALID_ : Z := 1.
Definition EHF_NO_HANDLER_ : Z := Z.lor 0 EHF_PRI_VALID_.
Definition EHF_INVALID_IDX : Z := -1.
Definition GIC_HIGHEST_NS_PRIORITY : Z := 0x80.
Definition INTR_ID_UNAVAILABLE : Z := 0xFFFFFFFF.

(** [pe_exc_data_t] of this CPU, the interrupt controller's mask and running
    priority ([icc_pmr_el1], [icc_rpr_el1]), register x0 of the Non-secure
    context, the handlers of the platform's priorities, and the handlers
    called so far. *)
Record ehf_state := {
  active_pri_bits : Z;
  init_pri_mask : Z;
  ns_pri_mask : Z;
  icc_pmr : Z;
  icc_rpr : Z;
  ns_x0 : Z;
  ehf_priorities : list Z;
  handled : list (Z * Z)
}.

(** [num_priorities] and [pri_bits] of [exception_data]; the handlers are in
    the state, because they are registered at boot. Acknowledging an interrupt
    gives its raw number and raises the running priority; a handler's answer
    and the address of [ehf_el3_interrupt_handler] come from outside. *)
Class EhfConfig := {
  num_priorities : Z;
  pri_bits : Z;
  plat_ic_acknowledge_interrupt : ehf_state -> Z * Z;
  plat_ic_get_interrupt_id : Z -> Z;
  ehf_handler_answer : Z -> Z -> Z;
  ehf_el3_interrupt_handler_addr : Z
}.

Definition set_active (v : Z) (s : ehf_state) : ehf_state := {|
  active_pri_bits := v; init_pri_mask := init_pri_mask s; ns_pri_mask := ns_pri_mask s;
  icc_pmr := icc_pmr s; icc_rpr := icc_rpr s; ns_x0 := ns_x0 s;
  ehf_priorities := ehf_priorities s; handled := handled s |}.
Definition set_init_mask (v : Z) (s : ehf_state) : ehf_state := {|
  active_pri_bits := active_pri_bits s; init_pri_mask := v; ns_pri_mask := ns_pri_mask s;
  icc_pmr := icc_pmr s; icc_rpr := icc_rpr s; ns_x0 := ns_x0 s;
  ehf_priorities := ehf_priorities s; handled := handled s |}.
Definition set_ns_mask (v : Z) (s : ehf_state) : ehf_state := {|
  active_pri_bits := active_pri_bits s; init_pri_mask := init_pri_mask s; ns_pri_mask := v;
  icc_pmr := icc_pmr s; icc_rpr := icc_rpr s; ns_x0 := ns_x0 s;
  ehf_priorities := ehf_priorities s; handled := handled s |}.
Definition set_pmr (v : Z) (s : ehf_state) : ehf_state := {|
  active_pri_bits := active_pri_bits s; init_pri_mask := init_pri_mask s; ns_pri_mask := ns_pri_mask s;
  icc_pmr := v; icc_rpr := icc_rpr s; ns_x0 := ns_x0 s;
  ehf_priorities := ehf_priorities s; handled := handled s |}.
Definition set_ns_x0 (v : Z) (s : ehf_state) : ehf_state := {|
  active_pri_bits := active_pri_bits s; init_pri_mask := init_pri_mask s; ns_pri_mask := ns_pri_mask s;
  icc_pmr := icc_pmr s; icc_rpr := icc_rpr s; ns_x0 := v;
  ehf_priorities := ehf_priorities s; handled := handled s |}.
Definition set_priorities (v : list Z) (s : ehf_state) : ehf_state := {|
  active_pri_bits := active_pri_bits s; init_pri_mask := init_pri_mask s; ns_pri_mask := ns_pri_mask s;
  icc_pmr := icc_pmr s; icc_rpr := icc_rpr s; ns_x0 := ns_x0 s;
  ehf_priorities := v; handled := handled s |}.
Definition set_rpr (v : Z) (s : ehf_state) : ehf_state := {|
  active_pri_bits := active_pri_bits s; init_pri_mask := init_pri_mask s; ns_pri_mask := ns_pri_mask s;
  icc_pmr := icc_pmr s; icc_rpr := v; ns_x0 := ns_x0 s;
  ehf_priorities := ehf_priorities s; handled := handled s |}.
Definition add_handled (h : Z * Z) (s : ehf_state) : ehf_state := {|
  active_pri_bits := active_pri_bits s; init_pri_mask := init_pri_mask s; ns_pri_mask := ns_pri_mask s;
  icc_pmr := icc_pmr s; icc_rpr := icc_rpr s; ns_x0 := ns_x0 s;
  ehf_priorities := ehf_priorities s; handled := h :: handled s |}.

Abbreviation ehf := (cmd ehf_state).

Section Ehf.
Context `{Cfg : EhfConfig}.

Definition PRI_BIT (idx : Z) : Z := u32 (Z.shiftl 1 idx).

Definition EHF_PRI_TO_IDX (pri plat_bits : Z) : Z := Z.shiftr (Z.land pri 0x7F) (7 - plat_bits).

Definition IDX_TO_PRI (idx : Z) : Z := Z.land (u32 (Z.shiftl idx (7 - pri_bits))) 0x7F.

Definition IS_PRI_SECURE (pri : Z) : bool := Z.land pri 0x80 =? 0.

Definition handler_of (idx : Z) : ehf Z :=
  let! s := gets id in deref ((ehf_priorities s).[idx]).

Definition IS_IDX_VALID (h : Z) : bool := negb (Z.land h EHF_PRI_VALID_ =? 0).

Definition pri_to_idx (priority : Z) : ehf Z :=
  let idx := EHF_PRI_TO_IDX priority pri_bits in
  assert_ true (idx <? num_priorities) ;;
  let! h := handler_of idx in
  assert_ true (IS_IDX_VALID h) ;;
  ret idx.

Definition has_valid_pri_activations (s : ehf_state) : bool := negb (active_pri_bits s =? 0).

(** [__builtin_ctz]: undefined on 0, where the code does not call it. *)
Fixpoint pos_ctz (p : positive) : Z :=
  match p with
  | xO p' => pos_ctz p' + 1
  | _ => 0
  end.
Definition builtin_ctz (x : Z) : Z :=
  match x with
  | Zpos p => pos_ctz p
  | _ => 32
  end.

Definition get_pe_highest_active_idx (s : ehf_state) : Z :=
  if has_valid_pri_activations s then builtin_ctz (active_pri_bits s) else EHF_INVALID_IDX.

(** [gicv3_set_pmr]: the old mask is returned. *)
Definition plat_ic_set_priority_mask (mask : Z) : ehf Z :=
  let! old_mask := gets icc_pmr in
  modify (set_pmr mask) ;;
  ret old_mask.

Definition plat_ic_get_running_priority : ehf Z := gets icc_rpr.

(** ** Operations *)

Definition ehf_activate_priority (priority : Z) : ehf unit :=
  let! run_pri := plat_ic_get_running_priority in
  if run_pri <=? priority then halt Panicked
  else
    let! cur_pri_idx := gets get_pe_highest_active_idx in
    let! idx := pri_to_idx priority in
    if negb (cur_pri_idx =? EHF_INVALID_IDX) && (u32 cur_pri_idx <=? idx) then halt Panicked
    else
      modify (fun s => set_active (Z.lor (active_pri_bits s) (PRI_BIT idx)) s) ;;
      let! old_mask := plat_ic_set_priority_mask priority in
      if old_mask <=? priority then halt Panicked
      else when (cur_pri_idx =? EHF_INVALID_IDX) (modify (set_init_mask (u8 old_mask))).

Definition ehf_deactivate_priority (priority : Z) : ehf unit :=
  let! run_pri := plat_ic_get_running_priority in
  if run_pri <=? priority then halt Panicked
  else
    let! cur_pri_idx := gets get_pe_highest_active_idx in
    let! idx := pri_to_idx priority in
    if (cur_pri_idx =? EHF_INVALID_IDX) || negb (idx =? u32 cur_pri_idx) then halt Panicked
    else
      modify (fun s => set_active (Z.land (active_pri_bits s) (u32 (active_pri_bits s - 1))) s) ;;
      let! cur_pri_idx := gets get_pe_highest_active_idx in
      let! old_mask :=
        if cur_pri_idx =? EHF_INVALID_IDX
        then let! m := gets init_pri_mask in plat_ic_set_priority_mask m
        else plat_ic_set_priority_mask priority in
      if priority <? old_mask then halt Panicked else ret tt.

Definition ehf_exited_normal_world : ehf unit :=
  let! run_pri := plat_ic_get_running_priority in
  if IS_PRI_SECURE run_pri then ret tt
  else
    let! active := gets has_valid_pri_activations in
    if (active : bool) then ret tt
    else
      let! ns := gets ns_pri_mask in
      assert_ true (ns =? 0) ;;
      let! old := plat_ic_set_priority_mask GIC_HIGHEST_NS_PRIORITY in
      modify (set_ns_mask (u8 old)) ;;
      if IS_PRI_SECURE (u8 old) then halt Panicked else ret tt.

Definition ehf_entering_normal_world : ehf unit :=
  let! run_pri := plat_ic_get_running_priority in
  if IS_PRI_SECURE run_pri then ret tt
  else
    let! active := gets has_valid_pri_activations in
    if (active : bool) then ret tt
    else
      let! ns := gets ns_pri_mask in
      if ns =? 0 then ret tt
      else
        let! old_pmr := plat_ic_set_priority_mask ns in
        if negb (old_pmr =? GIC_HIGHEST_NS_PRIORITY) && negb (old_pmr =? ns) then halt Panicked
        else modify (set_ns_mask 0).

Definition ehf_allow_ns_preemption (preempt_ret_code : Z) : ehf unit :=
  let! ns := gets ns_pri_mask in
  assert_ true (negb (ns =? 0)) ;;
  let! active := gets has_valid_pri_activations in
  if (active : bool) then halt Panicked
  else
    modify (set_ns_x0 preempt_ret_code) ;;
    plat_ic_set_priority_mask ns ;;
    modify (set_ns_mask 0).

Definition ehf_is_ns_preemption_allowed : ehf bool :=
  let! run_pri := plat_ic_get_running_priority in
  if IS_PRI_SECURE run_pri then ret false
  else
    let! active := gets has_valid_pri_activations in
    if (active : bool) then ret false
    else
      let! ns := gets ns_pri_mask in
      if negb (ns =? 0) then ret false else ret true.

(** A handler is its address; 0 is NULL. *)
Definition RAW_HANDLER (h : Z) : Z :=
  if negb (Z.land h EHF_PRI_VALID_ =? 0) then Z.land h (Z.lnot EHF_PRI_VALID_) else 0.

Definition ehf_el3_interrupt_handler (id_ : Z) : ehf Z :=
  assert_ true (id_ =? INTR_ID_UNAVAILABLE) ;;
  let! ack := gets plat_ic_acknowledge_interrupt in
  let intr_raw := fst ack in
  modify (set_rpr (snd ack)) ;;
  let intr_id := plat_ic_get_interrupt_id intr_raw in
  if intr_id =? INTR_ID_UNAVAILABLE then ret 0
  else
    let! pri := plat_ic_get_running_priority in
    assert_ true (IS_PRI_SECURE pri) ;;
    let! idx := pri_to_idx pri in
    assert_ true (pri =? IDX_TO_PRI idx) ;;
    let! h := handler_of idx in
    let handler := RAW_HANDLER h in
    if handler =? 0 then halt Panicked
    else
      modify (add_handled (handler, intr_raw)) ;;
      ret (u64 (ehf_handler_answer handler intr_raw)).

Definition ehf_register_priority_handler (pri handler : Z) : ehf unit :=
  assert_ true (negb (handler =? 0)) ;;
  assert_ true (Z.land handler 3 =? 0) ;;
  let! idx := pri_to_idx pri in
  assert_ true (idx <? num_priorities) ;;
  assert_ true (IDX_TO_PRI idx =? pri) ;;
  let! h := handler_of idx in
  if negb (h =? EHF_NO_HANDLER_) then halt Panicked
  else modify (fun s => set_priorities (zupdate (ehf_priorities s) idx (Z.lor handler EHF_PRI_VALID_)) s).

(** The third check is a disjunction that holds of any value. *)
Definition ehf_init : intr unit :=
  assert_ true (InterruptMgmt.plat_ic_has_interrupt_type INTR_TYPE_EL3) ;;
  assert_ true (num_priorities <=? 4 * 8) ;;
  assert_ true ((1 <=? pri_bits) || (pri_bits <? 8)) ;;
  let flags := Z.lor 0 (Z.shiftl 1 NON_SECURE) in
  let! ret_ := register_interrupt_type_handler INTR_TYPE_EL3 ehf_el3_interrupt_handler_addr flags in
  assert_ true (ret_ =? 0).

End Ehf.
