(* ===== verification/EhfProps.v ===== *)
(** * Exception Handling Framework: activations form a stack

    The bitmap of active levels against its contract, a stack of priorities. *)

From stdpp Require Import list_numbers sorting.
From S2P Require Import Prelude InterruptMgmt Ehf.
#[local] Open Scope cmd_scope.

(** ** Bitmaps *)

(** The bitmap of a list of levels. *)
Fixpoint bits_of (st : list Z) : Z :=
  match st with
  | [] => 0
  | i :: st' => 2 ^ i + bits_of st'
  end.

(** Levels from the highest priority (lowest index) down, within [lo, hi). *)
Fixpoint ascending (lo hi : Z) (st : list Z) : Prop :=
  match st with
  | [] => lo <= hi
  | i :: st' => lo <= i < hi /\ ascending (i + 1) hi st'
  end.

Lemma ascending_le lo hi st : ascending lo hi st -> lo <= hi.
Proof. destruct st; cbn; lia. Qed.

Lemma ascending_weaken lo lo' hi st : lo' <= lo -> ascending lo hi st -> ascending lo' hi st.
Proof. destruct st; cbn; intros; [lia|]. split; [lia|tauto]. Qed.

Lemma bits_of_multiple lo hi st :
  0 <= lo -> ascending lo hi st -> exists q, 0 <= q /\ bits_of st = q * 2 ^ lo.
Proof.
  intros Hlo. revert lo Hlo. induction st as [|i st IH]; intros lo Hlo Ha; cbn in *.
  { exists 0. lia. }
  destruct Ha as [Hi Ha]. destruct (IH (i + 1)) as (q & Hq & ->); [lia|done|].
  exists (2 ^ (i - lo) + q * 2 ^ (i + 1 - lo)).
  split; [apply Z.add_nonneg_nonneg; [lia|apply Z.mul_nonneg_nonneg; lia]|].
  rewrite Z.mul_add_distr_r, <- Z.mul_assoc, <- !Z.pow_add_r by lia.
  do 2 f_equal; f_equal; lia.
Qed.

Lemma bits_of_bound lo hi st : 0 <= lo -> ascending lo hi st -> 0 <= bits_of st <= 2 ^ hi - 2 ^ lo.
Proof.
  intros Hlo. revert lo Hlo. induction st as [|i st IH]; intros lo Hlo Ha; cbn in *.
  { pose proof (Z.pow_le_mono_r 2 lo hi). lia. }
  destruct Ha as [Hi Ha]. specialize (IH (i + 1) ltac:(lia) Ha).
  rewrite Z.pow_add_r in IH by lia. pose proof (Z.pow_le_mono_r 2 lo i). lia.
Qed.

(** [__builtin_ctz] and the clearing of the lowest bit. *)
Lemma ctz_double z : 0 < z -> builtin_ctz (2 * z) = builtin_ctz z + 1.
Proof. by destruct z. Qed.

Lemma ctz_odd q : 0 <= q -> builtin_ctz (2 * q + 1) = 0.
Proof. by destruct q. Qed.

Lemma ctz_spec i q : 0 <= i -> 0 <= q -> builtin_ctz (q * 2 ^ (i + 1) + 2 ^ i) = i.
Proof.
  intros Hi Hq. revert i Hi. apply natlike_ind.
  - rewrite Z.pow_0_r, Z.add_0_l, Z.pow_1_r. rewrite Z.mul_comm. by apply ctz_odd.
  - intros i Hi IH.
    replace (q * 2 ^ (Z.succ i + 1) + 2 ^ Z.succ i) with (2 * (q * 2 ^ (i + 1) + 2 ^ i))
      by (rewrite !Z.pow_add_r, !Z.pow_succ_r by lia; lia).
    rewrite ctz_double, IH; [lia|].
    pose proof (Z.pow_pos_nonneg 2 i).
    assert (0 <= q * 2 ^ (i + 1)) by (apply Z.mul_nonneg_nonneg; lia). lia.
Qed.

Lemma clear_lowest i q :
  0 <= i -> 0 <= q ->
  Z.land (q * 2 ^ (i + 1) + 2 ^ i) (q * 2 ^ (i + 1) + 2 ^ i - 1) = q * 2 ^ (i + 1).
Proof.
  intros Hi Hq. pose proof (Z.pow_pos_nonneg 2 i ltac:(lia) Hi) as Hp.
  assert (2 ^ (i + 1) = 2 * 2 ^ i) as Hd by (rewrite Z.pow_add_r; lia).
  rewrite <- Z.add_sub_assoc, <- !lor_shiftl by lia.
  rewrite <- Z.lor_land_distr_r. replace (2 ^ i - 1) with (Z.ones i) by (rewrite Z.ones_equiv; lia).
  rewrite Z.land_ones, Z.mod_same by lia. by rewrite Z.lor_0_r, Z.shiftl_mul_pow2 by lia.
Qed.

Section Bitmap.
Context (i : Z) (st : list Z) (Ha : ascending 0 32 (i :: st)).

Lemma top_split : exists q, 0 <= i < 32 /\ 0 <= q /\ bits_of st = q * 2 ^ (i + 1).
Proof.
  destruct Ha as [Hi Has]. destruct (bits_of_multiple (i + 1) 32 st) as (q & Hq & Hb); [lia|done|].
  exists q. split_and!; lia.
Qed.

Lemma top_ctz : builtin_ctz (bits_of (i :: st)) = i.
Proof.
  destruct top_split as (q & Hi & Hq & Hb). cbn [bits_of].
  rewrite Hb, Z.add_comm. by apply ctz_spec; lia.
Qed.

Lemma top_clear : Z.land (bits_of (i :: st)) (u32 (bits_of (i :: st) - 1)) = bits_of st.
Proof.
  destruct top_split as (q & Hi & Hq & Hb).
  pose proof (bits_of_bound 0 32 (i :: st) ltac:(lia) Ha) as Hbound.
  assert (bits_of (i :: st) = q * 2 ^ (i + 1) + 2 ^ i) as Heq
    by (cbn [bits_of]; lia).
  assert (0 < bits_of (i :: st)) as Hpos.
  { rewrite Heq. pose proof (Z.pow_pos_nonneg 2 i). assert (0 <= q * 2 ^ (i + 1)) by (apply Z.mul_nonneg_nonneg; lia). lia. }
  rewrite u32_small by lia. rewrite Heq, clear_lowest by lia. done.
Qed.

Lemma top_set : Z.lor (bits_of st) (PRI_BIT i) = bits_of (i :: st).
Proof.
  destruct top_split as (q & Hi & Hq & Hb). unfold PRI_BIT. rewrite Z.shiftl_1_l.
  pose proof (Z.pow_lt_mono_r 2 i 32 ltac:(lia) ltac:(lia) ltac:(lia)).
  pose proof (Z.pow_pos_nonneg 2 i ltac:(lia) ltac:(lia)).
  rewrite u32_small by lia. cbn [bits_of]. rewrite Hb.
  rewrite <- (Z.shiftl_mul_pow2 q) by lia. rewrite lor_shiftl; [rewrite Z.shiftl_mul_pow2; lia|lia|].
  rewrite Z.pow_add_r by lia. lia.
Qed.

Lemma top_nonzero : bits_of (i :: st) <> 0.
Proof.
  destruct top_split as (q & Hi & Hq & Hb). cbn [bits_of].
  pose proof (Z.pow_pos_nonneg 2 i ltac:(lia) ltac:(lia)).
  assert (0 <= q * 2 ^ (i + 1)) by (apply Z.mul_nonneg_nonneg; lia). lia.
Qed.
End Bitmap.

(** ** The contract: a stack of levels *)

Inductive ehf_op : Set :=
  | Activate (priority : Z)
  | Deactivate (priority : Z)
  | ExitedNormalWorld
  | EnteringNormalWorld
  | AllowNsPreemption (code : Z)
  | RunningPriority (v : Z).

(** [sp_stack] has the highest active priority on top; [sp_mask] is the mask in
    force when nothing is active. *)
Record ehf_spec := { sp_stack : list Z; sp_mask : Z }.

Section EhfProps.
Context `{Cfg : EhfConfig}.

Definition level (priority : Z) : Z := EHF_PRI_TO_IDX priority pri_bits.

Definition above_top (i : Z) (st : list Z) : Prop :=
  match st with
  | [] => True
  | top :: _ => i < top
  end.

Inductive spec_step : ehf_spec -> ehf_op -> ehf_spec -> Prop :=
  | sp_activate p st m : above_top (level p) st ->
      spec_step {| sp_stack := st; sp_mask := m |} (Activate p) {| sp_stack := level p :: st; sp_mask := m |}
  | sp_deactivate p st m :
      spec_step {| sp_stack := level p :: st; sp_mask := m |} (Deactivate p) {| sp_stack := st; sp_mask := m |}
  | sp_world op sp m' : (forall p, op <> Activate p /\ op <> Deactivate p) ->
      sp_stack sp = [] \/ m' = sp_mask sp ->
      spec_step sp op {| sp_stack := sp_stack sp; sp_mask := m' |}.

Definition spec_run : ehf_spec -> list ehf_op -> ehf_spec -> Prop :=
  fix go sp ops sp' :=
    match ops with
    | [] => sp' = sp
    | op :: ops' => exists sp1, spec_step sp op sp1 /\ go sp1 ops' sp'
    end.

Definition run_op (op : ehf_op) : ehf unit :=
  match op with
  | Activate p => ehf_activate_priority p
  | Deactivate p => ehf_deactivate_priority p
  | ExitedNormalWorld => ehf_exited_normal_world
  | EnteringNormalWorld => ehf_entering_normal_world
  | AllowNsPreemption code => ehf_allow_ns_preemption code
  | RunningPriority v => modify (set_rpr v)
  end.

(** Arguments of the C types: unsigned priorities, an 8-bit running priority. *)
Definition op_ok (op : ehf_op) : Prop :=
  match op with
  | Activate p | Deactivate p => 0 <= p
  | RunningPriority v => 0 <= v < 256
  | _ => True
  end.

(** The state of a CPU represents a stack. *)
Record represents (sp : ehf_spec) (s : ehf_state) : Prop := {
  r_asc : ascending 0 32 (sp_stack sp);
  r_bits : active_pri_bits s = bits_of (sp_stack sp);
  r_idle : sp_stack sp = [] -> icc_pmr s = sp_mask sp;
  r_init : sp_stack sp <> [] -> init_pri_mask s = sp_mask sp;
  r_masks : 0 <= icc_pmr s < 256 /\ 0 <= sp_mask sp < 256 /\ 0 <= ns_pri_mask s < 256 /\ 0 <= icc_rpr s < 256
}.

(** The bitmap has 32 bits ([ehf_init] checks it). *)
Context (Hnum : num_priorities <= 32).

Lemma level_nonneg p : 0 <= p -> 0 <= level p.
Proof.
  intros Hp. unfold level, EHF_PRI_TO_IDX. apply Z.shiftr_nonneg, Z.land_nonneg. lia.
Qed.

(** [pri_to_idx] only reads. *)
Lemma pri_to_idx_done p s idx s' :
  pri_to_idx p s = Done idx s' -> s' = s /\ idx = level p /\ level p < num_priorities.
Proof.
  unfold pri_to_idx, handler_of, bind, assert_, gets, id. cbn. fold (level p).
  destruct (Z.ltb_spec (level p) num_priorities); cbn; [|done].
  destruct ((ehf_priorities s).[level p]) as [h|]; cbn; [|done].
  destruct (IS_IDX_VALID h); cbn; [|done]. intros [= <- <-]. done.
Qed.

Lemma highest_idle sp s : represents sp s -> sp_stack sp = [] -> get_pe_highest_active_idx s = EHF_INVALID_IDX.
Proof.
  intros [_ Hb _ _ _] Hst. rewrite Hst in Hb. unfold get_pe_highest_active_idx, has_valid_pri_activations.
  by rewrite Hb.
Qed.

Lemma highest_top sp s i st :
  represents sp s -> sp_stack sp = i :: st -> get_pe_highest_active_idx s = i /\ 0 <= i < 32.
Proof.
  intros [Ha Hb _ _ _] Hst. rewrite Hst in *. unfold get_pe_highest_active_idx, has_valid_pri_activations.
  rewrite Hb, (proj2 (Z.eqb_neq _ _)) by (by apply top_nonzero). cbn [negb].
  rewrite (top_ctz i st Ha). split; [done|]. apply Ha.
Qed.

Lemma u8_small x : 0 <= x < 256 -> u8 x = x.
Proof. intros. by apply Z.mod_small. Qed.

Lemma activate_refines sp s p s' :
  represents sp s -> 0 <= p -> ehf_activate_priority p s = Done tt s' ->
  exists sp', spec_step sp (Activate p) sp' /\ represents sp' s' /\ icc_pmr s' = p.
Proof.
  intros Hr Hp. pose proof Hr as [Ha Hb Hidle Hinit Hm]. pose proof (level_nonneg p Hp) as Hl.
  unfold ehf_activate_priority, plat_ic_set_priority_mask, plat_ic_get_running_priority, bind, gets, modify, when.
  destruct (Z.leb_spec (icc_rpr s) p) as [|Hrun]; [done|].
  destruct (pri_to_idx p s) as [idx s1|] eqn:Hi; [|done].
  apply pri_to_idx_done in Hi as (-> & -> & Hlt).
  intros Hd. exists {| sp_stack := level p :: sp_stack sp; sp_mask := sp_mask sp |}. revert Hd.
  destruct sp as [[|i st] m]; cbn [sp_stack sp_mask] in *.
  - rewrite (highest_idle _ _ Hr) in * by done. cbn.
    destruct (Z.leb_spec (icc_pmr s) p); [done|]. cbn. intros [= <-].
    assert (ascending 0 32 [level p]) as Ha' by (cbn; lia).
    split; [by constructor|]. split; [|done]. split; cbn [sp_stack sp_mask set_init_mask set_pmr set_active
      active_pri_bits init_pri_mask icc_pmr ns_pri_mask icc_rpr]; try done.
    + rewrite Hb. exact (top_set _ _ Ha').
    + intros _. rewrite u8_small by lia. by apply Hidle.
    + lia.
  - destruct (highest_top _ _ i st Hr eq_refl) as [Hh Hi32]. rewrite Hh in *.
    unfold EHF_INVALID_IDX. rewrite (proj2 (Z.eqb_neq i (-1))) by lia. cbn [negb andb].
    rewrite u32_small by lia. destruct (Z.leb_spec i (level p)); [done|]. cbn.
    destruct (Z.leb_spec (icc_pmr s) p); [done|]. cbn. intros [= <-].
    assert (ascending 0 32 (level p :: i :: st)) as Ha' by (destruct Ha as [? ?]; cbn; split_and!; [lia..|done]).
    split; [by constructor|]. split; [|done]. split; cbn [sp_stack sp_mask set_init_mask set_pmr set_active
      active_pri_bits init_pri_mask icc_pmr ns_pri_mask icc_rpr]; try done.
    + rewrite Hb. exact (top_set _ _ Ha').
    + intros _. by apply Hinit.
    + lia.
Qed.

Lemma deactivate_refines sp s p s' :
  represents sp s -> 0 <= p -> ehf_deactivate_priority p s = Done tt s' ->
  exists sp', spec_step sp (Deactivate p) sp' /\ represents sp' s' /\
    icc_pmr s' = if decide (sp_stack sp' = []) then sp_mask sp else p.
Proof.
  intros Hr Hp. pose proof Hr as [Ha Hb Hidle Hinit Hm].
  unfold ehf_deactivate_priority, plat_ic_set_priority_mask, plat_ic_get_running_priority, bind, gets, modify.
  destruct (Z.leb_spec (icc_rpr s) p) as [|Hrun]; [done|].
  destruct (pri_to_idx p s) as [idx s1|] eqn:Hi; [|done].
  apply pri_to_idx_done in Hi as (-> & -> & Hlt).
  destruct sp as [[|i st] m]; cbn [sp_stack sp_mask] in *.
  { by rewrite (highest_idle _ _ Hr). }
  destruct (highest_top _ _ i st Hr eq_refl) as [Hh Hi32]. rewrite Hh.
  unfold EHF_INVALID_IDX. rewrite (proj2 (Z.eqb_neq i (-1))) by lia. cbn [negb orb].
  rewrite u32_small by lia. destruct (Z.eqb_spec (level p) i) as [<-|]; [|done]. cbn [negb].
  set (s1 := set_active _ s).
  assert (active_pri_bits s1 = bits_of st) as Hb1.
  { unfold s1. cbn [active_pri_bits set_active]. rewrite Hb. exact (top_clear _ _ Ha). }
  assert (ascending 0 32 st) as Has by (apply (ascending_weaken (level p + 1)); [lia|apply Ha]).
  intros Hd. exists {| sp_stack := st; sp_mask := m |}. revert Hd. cbn [sp_stack sp_mask].
  unfold get_pe_highest_active_idx, has_valid_pri_activations. rewrite Hb1.
  destruct st as [|j st]; cbn [bits_of].
  - cbn. destruct (Z.ltb_spec p (icc_pmr s)); [done|]. intros [= <-].
    split; [constructor|]. rewrite (Hinit ltac:(done)). split; [|done]. split; try done; cbn; lia.
  - change (2 ^ j + bits_of st) with (bits_of (j :: st)).
    rewrite (proj2 (Z.eqb_neq (bits_of (j :: st)) 0)) by (by apply top_nonzero). cbn [negb].
    rewrite (top_ctz j st Has). assert (0 <= j) by (cbn in Ha; lia).
    rewrite (proj2 (Z.eqb_neq j (-1))) by lia. cbn.
    destruct (Z.ltb_spec p (icc_pmr s)); [done|]. intros [= <-].
    split; [constructor|]. split; [|done]. split; try done; cbn [sp_stack sp_mask set_pmr icc_pmr
      ns_pri_mask icc_rpr init_pri_mask active_pri_bits]; [intros _; by apply Hinit|]. unfold s1. cbn. lia.
Qed.

Lemma inactive_idle sp s : represents sp s -> has_valid_pri_activations s = false -> sp_stack sp = [].
Proof.
  intros [Ha Hb _ _ _] Hv. unfold has_valid_pri_activations in Hv. rewrite Hb in Hv.
  destruct (sp_stack sp) as [|i st]; [done|]. apply negb_false_iff, Z.eqb_eq in Hv.
  by apply (top_nonzero i st) in Ha.
Qed.

(** Moving the mask while nothing is active. *)
Lemma represents_mask sp s m ns x0 :
  represents sp s -> sp_stack sp = [] -> 0 <= m < 256 -> 0 <= ns < 256 ->
  represents {| sp_stack := sp_stack sp; sp_mask := m |} (set_ns_mask ns (set_pmr m (set_ns_x0 x0 s))).
Proof. intros [Ha Hb Hi Hn Hm] Hst Hrm Hrn. split; cbn; try done; lia. Qed.

Definition world_op (op : ehf_op) : Prop := forall p, op <> Activate p /\ op <> Deactivate p.

Lemma represents_rpr sp s v : represents sp s -> 0 <= v < 256 -> represents sp (set_rpr v s).
Proof. intros [Ha Hb Hi Hn Hm] Hv. split; cbn; try done; lia. Qed.

Lemma world_refines sp s op s' :
  represents sp s -> op_ok op -> world_op op -> run_op op s = Done tt s' ->
  exists sp', spec_step sp op sp' /\ represents sp' s'.
Proof.
  intros Hr Hok Hw Hd.
  assert (forall m', (sp_stack sp = [] \/ m' = sp_mask sp) ->
            represents {| sp_stack := sp_stack sp; sp_mask := m' |} s' ->
            exists sp', spec_step sp op sp' /\ represents sp' s') as Hgo.
  { intros m' Hm' Hr'. eexists. split; [by apply sp_world|done]. }
  assert (s' = s -> exists sp', spec_step sp op sp' /\ represents sp' s') as Hsame.
  { intros ->. apply (Hgo (sp_mask sp)); [by right|]. by destruct sp. }
  pose proof (r_masks _ _ Hr) as Hm.
  destruct op as [p|p| | |code|v]; try (by destruct (Hw p)); cbn in Hd.
  - unfold ehf_exited_normal_world, plat_ic_set_priority_mask, plat_ic_get_running_priority,
      bind, gets, modify, assert_, ret in Hd.
    destruct (IS_PRI_SECURE (icc_rpr s)); [apply Hsame; congruence|].
    destruct (has_valid_pri_activations s) eqn:Hv; [apply Hsame; congruence|].
    destruct (ns_pri_mask s =? 0); cbn in Hd; [|done].
    destruct (IS_PRI_SECURE (u8 (icc_pmr s))); [done|]. cbn in Hd. injection Hd as <-.
    apply (inactive_idle _ _ Hr) in Hv. apply (Hgo 0x80); [by left|].
    assert (0 <= u8 (icc_pmr s) < 256) by (by apply Z.mod_pos_bound).
    pose proof (represents_mask sp s 0x80 (u8 (icc_pmr s)) (ns_x0 s) Hr Hv ltac:(lia) ltac:(lia)) as H1.
    by destruct s.
  - unfold ehf_entering_normal_world, plat_ic_set_priority_mask, plat_ic_get_running_priority,
      bind, gets, modify, ret in Hd.
    destruct (IS_PRI_SECURE (icc_rpr s)); [apply Hsame; congruence|].
    destruct (has_valid_pri_activations s) eqn:Hv; [apply Hsame; congruence|].
    destruct (ns_pri_mask s =? 0); [apply Hsame; congruence|]. cbn in Hd.
    destruct (_ && _); [done|]. cbn in Hd. injection Hd as <-.
    apply (inactive_idle _ _ Hr) in Hv. apply (Hgo (ns_pri_mask s)); [by left|].
    pose proof (represents_mask sp s (ns_pri_mask s) 0 (ns_x0 s) Hr Hv ltac:(lia) ltac:(lia)) as H1.
    by destruct s.
  - unfold ehf_allow_ns_preemption, plat_ic_set_priority_mask, bind, gets, modify, assert_, ret in Hd.
    destruct (ns_pri_mask s =? 0); cbn in Hd; [done|].
    destruct (has_valid_pri_activations s) eqn:Hv; [done|]. cbn in Hd. injection Hd as <-.
    apply (inactive_idle _ _ Hr) in Hv. apply (Hgo (ns_pri_mask s)); [by left|].
    pose proof (represents_mask sp s (ns_pri_mask s) 0 code Hr Hv ltac:(lia) ltac:(lia)) as H1.
    by destruct s.
  - cbn in Hd. injection Hd as <-. apply (Hgo (sp_mask sp)); [by right|].
    apply represents_rpr; [by destruct sp|done].
Qed.

Lemma op_refines sp s op s' :
  represents sp s -> op_ok op -> run_op op s = Done tt s' ->
  exists sp', spec_step sp op sp' /\ represents sp' s'.
Proof.
  intros Hr Hok Hd. destruct op as [p|p| | |code|v]; cbn in Hok.
  - destruct (activate_refines _ _ _ _ Hr Hok Hd) as (sp' & ? & ? & _). eauto.
  - destruct (deactivate_refines _ _ _ _ Hr Hok Hd) as (sp' & ? & ? & _). eauto.
  - by eapply world_refines.
  - by eapply world_refines.
  - by eapply world_refines.
  - by eapply world_refines.
Qed.

(** C34. Refinement: whatever sequence of activations, deactivations and world
    switches runs without a panic on a CPU that starts with nothing active,
    its bitmap represents a stack: an activation pushes a level of higher
    priority than the top, a deactivation pops exactly the top, and world
    switches leave the stack alone. With the stack empty again, the interrupt
    controller's mask is the one in force before the first activation. *)
Theorem ehf_refines_stack ops s s' :
  represents {| sp_stack := []; sp_mask := icc_pmr s |} s -> Forall op_ok ops ->
  for_each ops run_op s = Done tt s' ->
  exists sp', spec_run {| sp_stack := []; sp_mask := icc_pmr s |} ops sp' /\ represents sp' s'.
Proof.
  generalize {| sp_stack := []; sp_mask := icc_pmr s |}. intros sp. revert s sp.
  induction ops as [|op ops IH]; intros s sp Hr Hok Hd; cbn in *.
  { injection Hd as <-. eauto. }
  apply Forall_cons in Hok as [Hop Hok]. unfold bind in Hd.
  destruct (run_op op s) as [[] s1|] eqn:Hrun; [|done].
  destruct (op_refines _ _ _ _ Hr Hop Hrun) as (sp1 & Hs & Hr1).
  destruct (IH s1 sp1 Hr1 Hok Hd) as (sp' & Hrun' & Hr'). eauto.
Qed.

(** An activation that succeeds lowers the mask. *)
Lemma activate_lowers_mask p s s' : ehf_activate_priority p s = Done tt s' -> p < icc_pmr s.
Proof.
  unfold ehf_activate_priority, plat_ic_set_priority_mask, plat_ic_get_running_priority, bind, gets, modify.
  destruct (Z.leb_spec (icc_rpr s) p) as [|Hrun]; [done|].
  destruct (pri_to_idx p s) as [idx s1|] eqn:Hi; [|done].
  apply pri_to_idx_done in Hi as (-> & -> & _).
  destruct (_ && _); [done|]. cbn. destruct (Z.leb_spec (icc_pmr s) p); [done|]. lia.
Qed.

Lemma spec_activate sp p sp' : spec_step sp (Activate p) sp' -> sp_stack sp' = level p :: sp_stack sp.
Proof.
  intros Hs. remember (Activate p) as op eqn:Hop. destruct Hs as [p' st m Ha|p' st m|op sp m' Hw Hm]; try done.
  - by injection Hop as ->.
  - by destruct (Hw p).
Qed.

Lemma spec_deactivate sp p sp' : spec_step sp (Deactivate p) sp' -> sp_stack sp = level p :: sp_stack sp'.
Proof.
  intros Hs. remember (Deactivate p) as op eqn:Hop. destruct Hs as [p' st m Ha|p' st m|op sp m' Hw Hm]; try done.
  - by injection Hop as ->.
  - by destruct (Hw p).
Qed.

(** After a nested activation is undone the mask is not the one of the
    level that stays active: it keeps the inner priority, and until the outer
    level is deactivated too no priority between the two can be activated,
    although no such level is active any more. *)
Theorem nested_deactivation_keeps_inner_mask s p1 p2 s' :
  represents {| sp_stack := []; sp_mask := icc_pmr s |} s -> 0 <= p1 -> 0 <= p2 ->
  for_each [Activate p1; Activate p2; Deactivate p2] run_op s = Done tt s' ->
  p2 < p1 /\ icc_pmr s' = p2 /\ active_pri_bits s' = bits_of [level p1] /\
  forall p s'', p2 <= p -> ehf_activate_priority p s' <> Done tt s''.
Proof.
  intros Hr Hp1 Hp2. cbn [for_each run_op]. unfold bind.
  destruct (ehf_activate_priority p1 s) as [[] s1|] eqn:H1; [|done].
  destruct (ehf_activate_priority p2 s1) as [[] s2|] eqn:H2; [|done].
  destruct (ehf_deactivate_priority p2 s2) as [[] s3|] eqn:H3; [|done]. intros [= <-].
  destruct (activate_refines _ _ _ _ Hr Hp1 H1) as (sp1 & Hs1 & Hr1 & Hm1).
  destruct (activate_refines _ _ _ _ Hr1 Hp2 H2) as (sp2 & Hs2 & Hr2 & Hm2).
  destruct (deactivate_refines _ _ _ _ Hr2 Hp2 H3) as (sp3 & Hs3 & Hr3 & Hm3).
  pose proof (activate_lowers_mask _ _ _ H2) as Hlt. rewrite Hm1 in Hlt.
  assert (sp_stack sp3 = [level p1]) as Hst.
  { apply spec_activate in Hs1, Hs2. apply spec_deactivate in Hs3. cbn in Hs1. congruence. }
  rewrite Hst, decide_False in Hm3 by done. split_and!; [done|done| |].
  - by rewrite (r_bits _ _ Hr3), Hst.
  - intros p s'' Hp Hd. apply activate_lowers_mask in Hd. lia.
Qed.
End EhfProps.

(** ** A platform with four secure levels *)
Module EhfRun.

Definition C : EhfConfig := {|
  num_priorities := 16;
  pri_bits := 4;
  plat_ic_acknowledge_interrupt := fun s => (8, 0x20);
  plat_ic_get_interrupt_id := fun raw => raw;
  ehf_handler_answer := fun h raw => 0;
  ehf_el3_interrupt_handler_addr := 0x1000
|}.
#[local] Existing Instance C.

(** Nothing active, Non-secure mask 0xF0, idle running priority. *)
Definition s0 : ehf_state := {|
  active_pri_bits := 0; init_pri_mask := 0; ns_pri_mask := 0; icc_pmr := 0xF0; icc_rpr := 0xFF;
  ns_x0 := 0; ehf_priorities := replicate 16 EHF_NO_HANDLER_; handled := []
|}.

Definition nested : list ehf_op := [Activate 0x50; Activate 0x20; Deactivate 0x20].
Definition balanced : list ehf_op := nested ++ [Deactivate 0x50].

Lemma s0_represents : represents {| sp_stack := []; sp_mask := icc_pmr s0 |} s0.
Proof. split; try done; repeat split; vm_compute; congruence. Qed.

Lemma ehf_refines_stack_witness :
  icc_pmr (final (for_each balanced run_op s0)) = 0xF0 /\
  exists sp', spec_run {| sp_stack := []; sp_mask := icc_pmr s0 |} balanced sp' /\
    represents sp' (final (for_each balanced run_op s0)).
Proof.
  split; [vm_compute; reflexivity|].
  apply (ehf_refines_stack (Cfg := C)) with (ops := balanced) (s := s0).
  - vm_compute. congruence.
  - exact s0_represents.
  - repeat constructor; cbn; lia.
  - vm_compute. reflexivity.
Defined.

Lemma nested_deactivation_witness :
  let s' := final (for_each nested run_op s0) in
  icc_pmr s' = 0x20 /\ forall p s'', 0x20 <= p -> ehf_activate_priority p s' <> Done tt s''.
Proof.
  destruct (nested_deactivation_keeps_inner_mask (Cfg := C)) with (s := s0) (p1 := 0x50) (p2 := 0x20)
    (s' := final (for_each nested run_op s0)) as (_ & Hm & _ & Hp).
  - vm_compute. congruence.
  - exact s0_represents.
  - lia.
  - lia.
  - vm_compute. reflexivity.
  - split; [exact Hm|exact Hp].
Defined.
End EhfRun.
