(* ===== verification/SdeiTypes.v ===== *)
(** * SDEI dispatcher: data (services/std_svc/sdei/sdei_private.h,
    include/services/sdei.h, sdei_state.c)

    Event mappings, event entries, the dispatch stack of each CPU, and the
    state table of an event handler. The state of the dispatcher is one record;
    operations on the interrupt controller and the context library are
    recorded in a trace, and what they answer is given by the platform as a
    function of that trace. *)

From stdpp Require Import list_numbers.
From S2P Require Import Prelude InterruptMgmt Traps Ehf.
#[local] Open Scope cmd_scope.

(** ** Constants *)

Definition SDEI_STATF_REGISTERED : Z := 0.
Definition SDEI_STATF_ENABLED : Z := 1.
Definition SDEI_STATF_RUNNING : Z := 2.

Definition SDEI_EINVAL : Z := -2.
Definition SDEI_EDENY : Z := -3.
Definition SDEI_EPEND : Z := -5.
Definition SDEI_ENOMEM : Z := -10.
Definition SMC_UNK : Z := -1.

Definition SDEI_MAPF_DYNAMIC_SHIFT_ : Z := 1.
Definition SDEI_MAPF_BOUND_SHIFT_ : Z := 2.
Definition SDEI_MAPF_SIGNALABLE_SHIFT_ : Z := 3.
Definition SDEI_MAPF_PRIVATE_SHIFT_ : Z := 4.
Definition SDEI_MAPF_CRITICAL_SHIFT_ : Z := 5.
Definition SDEI_MAPF_EXPLICIT_SHIFT_ : Z := 6.

Definition SDEI_EVENT_0 : Z := 0.
Definition SDEI_DYN_IRQ : Z := 0.

Definition SDEI_REGF_RM_ANY : Z := 0.
Definition SDEI_REGF_RM_PE : Z := 1.

Definition SDEI_SAVED_GPREGS : Z := 18.
Definition MAX_EVENT_NESTING : Z := 2.
Definition LOWEST_INTR_PRIORITY : Z := 0xFF.

Definition INTR_ROUTING_MODE_PE : Z := 0.
Definition INTR_ROUTING_MODE_ANY : Z := 1.

Definition MPIDR_AFFINITY_MASK : Z := 0xFF00FFFFFF.

(** [SPSR_64(el, MODE_SP_ELX, DISABLE_ALL_EXCEPTIONS)] *)
Definition SPSR_64_handler (el : Z) : Z :=
  Z.lor (Z.lor (Z.shiftl (Z.land el 3) 2) 1) (Z.shiftl 0xF 6).

(** plat/common/plat_gicv3.c *)
Definition plat_ic_is_spi (id : Z) : bool := (32 <=? id) && (id <=? 1019).
Definition plat_ic_is_ppi (id : Z) : bool := (16 <=? id) && (id <? 32).
Definition plat_ic_is_sgi (id : Z) : bool := id <? 16.

(** ** Mappings and entries *)

Record sdei_ev_map_t := {
  ev_num : Z;
  map_intr : Z;
  map_flags : Z;
  reg_count : Z
}.

Record sdei_entry_t := {
  ep : Z;
  arg : Z;
  affinity : Z;
  reg_flags : Z;
  state : Z
}.

(** A pointer to an element of the private or of the shared mapping, and to an
    element of the private or of the shared event table. *)
Inductive map_ref : Set :=
  | PrivMap (i : Z)
  | ShrdMap (i : Z).

Inductive entry_ref : Set :=
  | PrivEntry (i : Z)
  | ShrdEntry (i : Z).

#[export] Instance map_ref_eq_dec : EqDecision map_ref.
Proof. solve_decision. Defined.
#[export] Instance entry_ref_eq_dec : EqDecision entry_ref.
Proof. solve_decision. Defined.

Definition BIT_32 (n : Z) : Z := Z.shiftl 1 n.

Definition is_event_private (m : sdei_ev_map_t) : bool := is_set (map_flags m) (BIT_32 SDEI_MAPF_PRIVATE_SHIFT_).
Definition is_event_shared (m : sdei_ev_map_t) : bool := negb (is_event_private m).
Definition is_event_critical (m : sdei_ev_map_t) : bool := is_set (map_flags m) (BIT_32 SDEI_MAPF_CRITICAL_SHIFT_).
Definition is_event_normal (m : sdei_ev_map_t) : bool := negb (is_event_critical m).
Definition is_event_signalable (m : sdei_ev_map_t) : bool := is_set (map_flags m) (BIT_32 SDEI_MAPF_SIGNALABLE_SHIFT_).
Definition is_map_dynamic (m : sdei_ev_map_t) : bool := is_set (map_flags m) (BIT_32 SDEI_MAPF_DYNAMIC_SHIFT_).
Definition is_map_bound (m : sdei_ev_map_t) : bool := is_set (map_flags m) (BIT_32 SDEI_MAPF_BOUND_SHIFT_).
Definition is_map_explicit (m : sdei_ev_map_t) : bool := is_set (map_flags m) (BIT_32 SDEI_MAPF_EXPLICIT_SHIFT_).

Definition with_flags (f : Z) (m : sdei_ev_map_t) : sdei_ev_map_t := {|
  ev_num := ev_num m; map_intr := map_intr m; map_flags := f; reg_count := reg_count m |}.
Definition with_intr (i : Z) (m : sdei_ev_map_t) : sdei_ev_map_t := {|
  ev_num := ev_num m; map_intr := i; map_flags := map_flags m; reg_count := reg_count m |}.
Definition with_reg_count (n : Z) (m : sdei_ev_map_t) : sdei_ev_map_t := {|
  ev_num := ev_num m; map_intr := map_intr m; map_flags := map_flags m; reg_count := n |}.

Definition set_map_bound (m : sdei_ev_map_t) : sdei_ev_map_t :=
  with_flags (Z.lor (map_flags m) (BIT_32 SDEI_MAPF_BOUND_SHIFT_)) m.
Definition clr_map_bound (m : sdei_ev_map_t) : sdei_ev_map_t :=
  with_flags (Z.land (map_flags m) (Z.lnot (BIT_32 SDEI_MAPF_BOUND_SHIFT_))) m.

Definition with_state (st : Z) (e : sdei_entry_t) : sdei_entry_t := {|
  ep := ep e; arg := arg e; affinity := affinity e; reg_flags := reg_flags e; state := st |}.

Definition get_ev_state_bit (e : sdei_entry_t) (bit_no : Z) : bool := is_set (state e) (BIT_32 bit_no).

(** ** Dispatches *)

(** Where [longjmp] resumes: the rest of [sdei_intr_handler], with the locals
    it uses, or the rest of [sdei_dispatch_event]. *)
Inductive jmp_buf : Set :=
  | AfterInterrupt (map : map_ref) (intr_raw sec_state : Z)
  | AfterDispatch (map : map_ref).

Record sdei_dispatch_context_t := {
  dc_map : option map_ref;
  dc_x : list Z;
  dc_jmp : option jmp_buf;
  dc_elr_el3 : Z;
  dc_spsr_el3 : Z;
  dc_disable_cve_2018_3639 : Z
}.

Definition empty_dispatch : sdei_dispatch_context_t := {|
  dc_map := None; dc_x := replicate 18 0; dc_jmp := None; dc_elr_el3 := 0; dc_spsr_el3 := 0;
  dc_disable_cve_2018_3639 := 0 |}.

Record sdei_cpu_state_t := {
  dispatch_stack : list sdei_dispatch_context_t;
  stack_top : Z;
  pe_masked : bool;
  pending_enables : bool
}.

(** The Non-secure context of a CPU: general-purpose registers x0 to x30 and
    the EL3 state the dispatcher touches. *)
Record ns_context := {
  gpregs : list Z;
  ctx_elr_el3 : Z;
  ctx_spsr_el3 : Z;
  ctx_scr_el3 : Z;
  ctx_cve_2018_3639_disable : Z
}.

(** ** Actions on the hardware, oldest last *)

Inductive sdei_event : Set :=
  | Ic_enable (intr : Z)
  | Ic_disable (intr : Z)
  | Ic_set_pending (intr : Z)
  | Ic_clear_pending (intr : Z)
  | Ic_end_of_interrupt (raw : Z)
  | Ic_set_type (intr type : Z)
  | Ic_set_priority (intr priority : Z)
  | Ic_set_spi_routing (intr mode mpidr : Z)
  | Ic_raise_el3_sgi (intr target : Z)
  | Masked_trigger (mpidr intr : Z)
  | Map_lock (m : map_ref)
  | Map_unlock (m : map_ref)
  | Cm_save (ss : Z)
  | Cm_restore (ss : Z)
  | Cm_next_eret (ss : Z)
  | Write_elr (el v : Z)
  | Write_spsr (el v : Z)
  | Dmbld
  | Plat_setup.

Class SdeiPlatform := {
  sdei_cpu :: TrapCpu;
  PLATFORM_CORE_COUNT : Z;
  PLAT_SDEI_CRITICAL_PRI : Z;
  PLAT_SDEI_NORMAL_PRI : Z;
  DYNAMIC_WORKAROUND_CVE_2018_3639 : bool;
  plat_core_pos_by_mpidr : Z -> Z;
  is_valid_mpidr : Z -> bool;
  mpidr_el1 : Z -> Z;
  plat_sdei_validate_entry_point : Z -> Z -> Z;
  plat_ic_get_interrupt_active : Z -> list sdei_event -> Z;
  plat_ic_get_interrupt_type : Z -> list sdei_event -> Z;
  plat_ic_interrupt_id : Z -> Z;
  sdei_intr_handler_addr : Z
}.

Record sdei_state := {
  private_mapping : list sdei_ev_map_t;
  shared_mapping : list sdei_ev_map_t;
  sdei_private_event_table : list sdei_entry_t;
  sdei_shared_event_table : list sdei_entry_t;
  cpu_state : list sdei_cpu_state_t;
  ns_ctx : list ns_context;
  num_dyn_priv_slots : Z;
  num_dyn_shrd_slots : Z;
  cpu_ehf : list ehf_state;
  sdei_trace : list sdei_event
}.

Definition set_private_mapping (v : list sdei_ev_map_t) (s : sdei_state) : sdei_state := {|
  private_mapping := v; shared_mapping := shared_mapping s;
  sdei_private_event_table := sdei_private_event_table s;
  sdei_shared_event_table := sdei_shared_event_table s; cpu_state := cpu_state s;
  ns_ctx := ns_ctx s; num_dyn_priv_slots := num_dyn_priv_slots s;
  num_dyn_shrd_slots := num_dyn_shrd_slots s; cpu_ehf := cpu_ehf s; sdei_trace := sdei_trace s |}.
Definition set_shared_mapping (v : list sdei_ev_map_t) (s : sdei_state) : sdei_state := {|
  private_mapping := private_mapping s; shared_mapping := v;
  sdei_private_event_table := sdei_private_event_table s;
  sdei_shared_event_table := sdei_shared_event_table s; cpu_state := cpu_state s;
  ns_ctx := ns_ctx s; num_dyn_priv_slots := num_dyn_priv_slots s;
  num_dyn_shrd_slots := num_dyn_shrd_slots s; cpu_ehf := cpu_ehf s; sdei_trace := sdei_trace s |}.
Definition set_private_table (v : list sdei_entry_t) (s : sdei_state) : sdei_state := {|
  private_mapping := private_mapping s; shared_mapping := shared_mapping s;
  sdei_private_event_table := v; sdei_shared_event_table := sdei_shared_event_table s;
  cpu_state := cpu_state s; ns_ctx := ns_ctx s; num_dyn_priv_slots := num_dyn_priv_slots s;
  num_dyn_shrd_slots := num_dyn_shrd_slots s; cpu_ehf := cpu_ehf s; sdei_trace := sdei_trace s |}.
Definition set_shared_table (v : list sdei_entry_t) (s : sdei_state) : sdei_state := {|
  private_mapping := private_mapping s; shared_mapping := shared_mapping s;
  sdei_private_event_table := sdei_private_event_table s; sdei_shared_event_table := v;
  cpu_state := cpu_state s; ns_ctx := ns_ctx s; num_dyn_priv_slots := num_dyn_priv_slots s;
  num_dyn_shrd_slots := num_dyn_shrd_slots s; cpu_ehf := cpu_ehf s; sdei_trace := sdei_trace s |}.
Definition set_cpu_states (v : list sdei_cpu_state_t) (s : sdei_state) : sdei_state := {|
  private_mapping := private_mapping s; shared_mapping := shared_mapping s;
  sdei_private_event_table := sdei_private_event_table s;
  sdei_shared_event_table := sdei_shared_event_table s; cpu_state := v; ns_ctx := ns_ctx s;
  num_dyn_priv_slots := num_dyn_priv_slots s; num_dyn_shrd_slots := num_dyn_shrd_slots s;
  cpu_ehf := cpu_ehf s; sdei_trace := sdei_trace s |}.
Definition set_ns_ctx (v : list ns_context) (s : sdei_state) : sdei_state := {|
  private_mapping := private_mapping s; shared_mapping := shared_mapping s;
  sdei_private_event_table := sdei_private_event_table s;
  sdei_shared_event_table := sdei_shared_event_table s; cpu_state := cpu_state s; ns_ctx := v;
  num_dyn_priv_slots := num_dyn_priv_slots s; num_dyn_shrd_slots := num_dyn_shrd_slots s;
  cpu_ehf := cpu_ehf s; sdei_trace := sdei_trace s |}.
Definition set_priv_slots (v : Z) (s : sdei_state) : sdei_state := {|
  private_mapping := private_mapping s; shared_mapping := shared_mapping s;
  sdei_private_event_table := sdei_private_event_table s;
  sdei_shared_event_table := sdei_shared_event_table s; cpu_state := cpu_state s;
  ns_ctx := ns_ctx s; num_dyn_priv_slots := v; num_dyn_shrd_slots := num_dyn_shrd_slots s;
  cpu_ehf := cpu_ehf s; sdei_trace := sdei_trace s |}.
Definition set_shrd_slots (v : Z) (s : sdei_state) : sdei_state := {|
  private_mapping := private_mapping s; shared_mapping := shared_mapping s;
  sdei_private_event_table := sdei_private_event_table s;
  sdei_shared_event_table := sdei_shared_event_table s; cpu_state := cpu_state s;
  ns_ctx := ns_ctx s; num_dyn_priv_slots := num_dyn_priv_slots s; num_dyn_shrd_slots := v;
  cpu_ehf := cpu_ehf s; sdei_trace := sdei_trace s |}.
Definition set_cpu_ehf (v : list ehf_state) (s : sdei_state) : sdei_state := {|
  private_mapping := private_mapping s; shared_mapping := shared_mapping s;
  sdei_private_event_table := sdei_private_event_table s;
  sdei_shared_event_table := sdei_shared_event_table s; cpu_state := cpu_state s;
  ns_ctx := ns_ctx s; num_dyn_priv_slots := num_dyn_priv_slots s;
  num_dyn_shrd_slots := num_dyn_shrd_slots s; cpu_ehf := v; sdei_trace := sdei_trace s |}.
Definition set_sdei_trace (v : list sdei_event) (s : sdei_state) : sdei_state := {|
  private_mapping := private_mapping s; shared_mapping := shared_mapping s;
  sdei_private_event_table := sdei_private_event_table s;
  sdei_shared_event_table := sdei_shared_event_table s; cpu_state := cpu_state s;
  ns_ctx := ns_ctx s; num_dyn_priv_slots := num_dyn_priv_slots s;
  num_dyn_shrd_slots := num_dyn_shrd_slots s; cpu_ehf := cpu_ehf s; sdei_trace := v |}.

Abbreviation sdei := (cmd sdei_state).

(** ** The state table (sdei_state.c) *)

Inductive sdei_action_t : Set :=
  | DO_REGISTER | DO_RELEASE | DO_ENABLE | DO_DISABLE | DO_UNREGISTER
  | DO_ROUTING | DO_CONTEXT | DO_COMPLETE | DO_COMPLETE_RESUME | DO_DISPATCH.

Definition action_index (act : sdei_action_t) : Z :=
  match act with
  | DO_REGISTER => 0 | DO_RELEASE => 1 | DO_ENABLE => 2 | DO_DISABLE => 3 | DO_UNREGISTER => 4
  | DO_ROUTING => 5 | DO_CONTEXT => 6 | DO_COMPLETE => 7 | DO_COMPLETE_RESUME => 8 | DO_DISPATCH => 9
  end.

Definition reg_ : Z := 0.
Definition reG_ : Z := 1.
Definition rEG_ : Z := 3.
Definition Reg_ : Z := 4.
Definition ReG_ : Z := 5.
Definition REG_ : Z := 7.
Definition X___ : Z := 255.
Definition NOP_ : Z := 254.
Definition MAX_STATES : Z := REG_ + 1.

Definition sdei_state_table : list (list Z) := [
  (* reg_ *) [reG_; NOP_; X___; X___; X___; X___; X___; X___; X___; X___];
  (* reG_ *) [X___; X___; rEG_; NOP_; reg_; NOP_; X___; X___; X___; X___];
  (* rEg_ *) [X___; X___; X___; X___; X___; X___; X___; X___; X___; X___];
  (* rEG_ *) [X___; X___; NOP_; reG_; reg_; X___; X___; X___; X___; REG_];
  (* Reg_ *) [X___; X___; X___; X___; X___; X___; NOP_; reg_; reg_; X___];
  (* ReG_ *) [X___; X___; REG_; NOP_; Reg_; X___; NOP_; reG_; reG_; X___];
  (* REg_ *) [X___; X___; X___; X___; X___; X___; X___; X___; X___; X___];
  (* REG_ *) [X___; X___; NOP_; ReG_; Reg_; X___; NOP_; rEG_; rEG_; X___] ].
