(* ===== verification/Sdei.v ===== *)
(** * SDEI dispatcher: operations (services/std_svc/sdei/)

    The calls of sdei_event.c, sdei_state.c, sdei_intr_mgmt.c and sdei_main.c,
    made on CPU [me]. A dispatch leaves EL3 for the Non-secure client and comes
    back by [longjmp] when the client completes the event: the code before and
    after it are two definitions, and the jump buffer says which. *)

From stdpp Require Import list_numbers.
From S2P Require Import Prelude InterruptMgmt Traps Ehf SdeiTypes.
#[local] Open Scope cmd_scope.

(** First index of a list whose element satisfies a test. *)
Fixpoint find_index {A} (p : A -> bool) (l : list A) (i : Z) : option Z :=
  match l with
  | [] => None
  | x :: l' => if p x then Some i else find_index p l' (i + 1)
  end.

Section Sdei.
Context `{Plat : SdeiPlatform} `{EhfCfg : EhfConfig} (me : Z).

(** ** Access to the tables *)

Definition emit_sdei (e : sdei_event) : sdei unit := modify (fun s => set_sdei_trace (e :: sdei_trace s) s).

Definition get_map (m : map_ref) : sdei sdei_ev_map_t :=
  let! s := gets id in
  deref (match m with PrivMap i => (private_mapping s).[i] | ShrdMap i => (shared_mapping s).[i] end).

Definition put_map (m : map_ref) (v : sdei_ev_map_t) : sdei unit :=
  modify (fun s =>
    match m with
    | PrivMap i => set_private_mapping (zupdate (private_mapping s) i v) s
    | ShrdMap i => set_shared_mapping (zupdate (shared_mapping s) i v) s
    end).

Definition get_entry (e : entry_ref) : sdei sdei_entry_t :=
  let! s := gets id in
  deref (match e with
         | PrivEntry i => (sdei_private_event_table s).[i]
         | ShrdEntry i => (sdei_shared_event_table s).[i]
         end).

Definition put_entry (e : entry_ref) (v : sdei_entry_t) : sdei unit :=
  modify (fun s =>
    match e with
    | PrivEntry i => set_private_table (zupdate (sdei_private_event_table s) i v) s
    | ShrdEntry i => set_shared_table (zupdate (sdei_shared_event_table s) i v) s
    end).

Definition num_private : sdei Z := gets (fun s => Z.of_nat (length (private_mapping s))).
Definition num_shared : sdei Z := gets (fun s => Z.of_nat (length (shared_mapping s))).

Definition private_maps : sdei (list map_ref) :=
  let! n := num_private in ret (PrivMap <$> seqZ 0 n).
Definition shared_maps : sdei (list map_ref) :=
  let! n := num_shared in ret (ShrdMap <$> seqZ 0 n).

(** ** sdei_event.c *)

Definition get_event_entry (m : map_ref) : sdei entry_ref :=
  let! map := get_map m in
  if is_event_private map then
    let! n := num_private in
    match m with
    | PrivMap i => ret (PrivEntry (me * n + i))
    | ShrdMap _ => halt MemFault
    end
  else
    match m with
    | PrivMap _ => halt MemFault
    | ShrdMap i => ret (ShrdEntry i)
    end.

Definition get_event_entry_target_pe (mapsub nm target_pe : Z) : option entry_ref :=
  let table_len := PLATFORM_CORE_COUNT * nm in
  let target_pos := plat_core_pos_by_mpidr target_pe in
  if (target_pos <? 0) || (PLATFORM_CORE_COUNT <=? target_pos) then None
  else if mapsub <? 0 then None
  else
    let uidx := u32 mapsub in
    if nm <=? uidx then None
    else
      let base := target_pos * nm + uidx in
      if table_len <=? base then None else Some (PrivEntry base).

Definition find_event_map_by_intr (intr_num : Z) (shared : bool) : sdei (option map_ref) :=
  let! s := gets id in
  if shared
  then ret (ShrdMap <$> find_index (fun m => map_intr m =? intr_num) (shared_mapping s) 0)
  else ret (PrivMap <$> find_index (fun m => map_intr m =? intr_num) (private_mapping s) 0).

Definition find_event_map (ev : Z) : sdei (option map_ref) :=
  let! s := gets id in
  match find_index (fun m => ev_num m =? ev) (private_mapping s) 0 with
  | Some i => ret (Some (PrivMap i))
  | None => ret (ShrdMap <$> find_index (fun m => ev_num m =? ev) (shared_mapping s) 0)
  end.

Definition sdei_get_registered_event_count : sdei Z :=
  let! s := gets id in
  ret (foldl (fun n m => n + reg_count m) 0 (private_mapping s ++ shared_mapping s)).

(** ** sdei_state.c *)

Definition can_sdei_state_trans (se : entry_ref) (act : sdei_action_t) : sdei bool :=
  let! e := get_entry se in
  if MAX_STATES <=? state e then ret false
  else
    let! row := deref (sdei_state_table.[state e]) in
    let! next := deref (row.[action_index act]) in
    if next =? X___ then ret false
    else if next =? NOP_ then ret true
    else put_entry se (with_state next e) ;; ret true.

Definition get_ev_state (se : entry_ref) (bit_no : Z) : sdei bool :=
  let! e := get_entry se in ret (get_ev_state_bit e bit_no).

(** ** Helpers of sdei_private.h *)

Definition sdei_map_lock (m : map_ref) : sdei unit := emit_sdei (Map_lock m).
Definition sdei_map_unlock (m : map_ref) : sdei unit := emit_sdei (Map_unlock m).
Definition lock_if_shared (m : map_ref) (map : sdei_ev_map_t) : sdei unit :=
  when (is_event_shared map) (sdei_map_lock m).
Definition unlock_if_shared (m : map_ref) (map : sdei_ev_map_t) : sdei unit :=
  when (is_event_shared map) (sdei_map_unlock m).

Definition my_ctx : sdei ns_context := let! s := gets id in deref ((ns_ctx s).[me]).
Definition put_ctx (c : ns_context) : sdei unit := modify (fun s => set_ns_ctx (zupdate (ns_ctx s) me c) s).

Definition sdei_client_el : sdei Z :=
  let! c := my_ctx in
  ret (if is_set (ctx_scr_el3 c) SCR_HCE_BIT then MODE_EL2 else MODE_EL1).

Definition sdei_event_priority (map : sdei_ev_map_t) : Z :=
  if is_event_critical map then PLAT_SDEI_CRITICAL_PRI else PLAT_SDEI_NORMAL_PRI.

Definition is_secure_sgi (intr : Z) : sdei bool :=
  let! t := gets sdei_trace in
  ret (plat_ic_is_sgi intr && (plat_ic_get_interrupt_type intr t =? INTR_TYPE_EL3)).

Definition my_pe : sdei sdei_cpu_state_t := let! s := gets id in deref ((cpu_state s).[me]).
Definition put_pe (c : sdei_cpu_state_t) : sdei unit := modify (fun s => set_cpu_states (zupdate (cpu_state s) me c) s).

(** Running EHF code on this CPU; the table of handlers is one for all
    CPUs. *)
Definition put_ehf (e : ehf_state) (s : sdei_state) : sdei_state :=
  set_cpu_ehf (set_priorities (ehf_priorities e) <$> zupdate (cpu_ehf s) me e) s.

Definition on_ehf {A} (c : ehf A) : sdei A := fun s =>
  match (cpu_ehf s).[me] with
  | None => Stopped MemFault s
  | Some e =>
      match c e with
      | Done a e' => Done a (put_ehf e' s)
      | Stopped w e' => Stopped w (put_ehf e' s)
      end
  end.

(** ** sdei_intr_mgmt.c: masking *)

Definition sdei_is_target_pe_masked (target_pe : Z) : sdei bool :=
  let cpu := plat_core_pos_by_mpidr target_pe in
  if (cpu <? 0) || (PLATFORM_CORE_COUNT <=? cpu) then ret true
  else
    let! s := gets id in
    let! st := deref ((cpu_state s).[cpu]) in
    ret (pe_masked st).

Definition sdei_pe_mask : sdei Z :=
  let! st := my_pe in
  if negb (pe_masked st) then
    put_pe {| dispatch_stack := dispatch_stack st; stack_top := stack_top st; pe_masked := true;
              pending_enables := pending_enables st |} ;;
    ret 1
  else ret 0.

Definition my_mpidr : Z := Z.land (mpidr_el1 me) MPIDR_AFFINITY_MASK.

Definition sdei_pe_unmask : sdei unit :=
  let! st := my_pe in
  when (pending_enables st) (
    let! pm := private_maps in
    for_each pm (fun m =>
      let! se := get_event_entry m in
      let! map := get_map m in
      let! en := get_ev_state se SDEI_STATF_ENABLED in
      when (is_map_bound map && en) (emit_sdei (Ic_enable (map_intr map)))) ;;
    let! sm := shared_maps in
    for_each sm (fun m =>
      let! se := get_event_entry m in
      sdei_map_lock m ;;
      let! map := get_map m in
      let! e := get_entry se in
      when (is_map_bound map && get_ev_state_bit e SDEI_STATF_ENABLED &&
            (reg_flags e =? SDEI_REGF_RM_PE) && (affinity e =? my_mpidr))
        (emit_sdei (Ic_enable (map_intr map))) ;;
      sdei_map_unlock m)) ;;
  put_pe {| dispatch_stack := dispatch_stack st; stack_top := stack_top st; pe_masked := false;
            pending_enables := false |}.

(** ** sdei_intr_mgmt.c: the dispatch stack *)

(** The slot that is pushed; its contents are written by the caller. *)
Definition push_dispatch : sdei Z :=
  let! st := my_pe in
  assert_ true (stack_top st <? MAX_EVENT_NESTING) ;;
  put_pe {| dispatch_stack := dispatch_stack st; stack_top := stack_top st + 1;
            pe_masked := pe_masked st; pending_enables := pending_enables st |} ;;
  ret (stack_top st).

Definition pop_dispatch : sdei (option Z) :=
  let! st := my_pe in
  if stack_top st =? 0 then ret None
  else
    assert_ true (stack_top st <=? MAX_EVENT_NESTING) ;;
    put_pe {| dispatch_stack := dispatch_stack st; stack_top := stack_top st - 1;
              pe_masked := pe_masked st; pending_enables := pending_enables st |} ;;
    ret (Some (stack_top st - 1)).

Definition get_outstanding_dispatch : sdei (option sdei_dispatch_context_t) :=
  let! st := my_pe in
  if stack_top st =? 0 then ret None
  else
    assert_ true (stack_top st <=? MAX_EVENT_NESTING) ;;
    let! d := deref ((dispatch_stack st).[stack_top st - 1]) in
    ret (Some d).

Definition put_slot (i : Z) (d : sdei_dispatch_context_t) : sdei unit :=
  let! st := my_pe in
  deref ((dispatch_stack st).[i]) ;;
  put_pe {| dispatch_stack := zupdate (dispatch_stack st) i d; stack_top := stack_top st;
            pe_masked := pe_masked st; pending_enables := pending_enables st |}.

Definition get_slot (i : Z) : sdei sdei_dispatch_context_t :=
  let! st := my_pe in deref ((dispatch_stack st).[i]).

Definition save_event_ctx (m : map_ref) : sdei Z :=
  let! c := my_ctx in
  let! i := push_dispatch in
  let! d := get_slot i in
  put_slot i {| dc_map := Some m; dc_x := take 18 (gpregs c); dc_jmp := dc_jmp d;
                dc_elr_el3 := ctx_elr_el3 c; dc_spsr_el3 := ctx_spsr_el3 c;
                dc_disable_cve_2018_3639 := dc_disable_cve_2018_3639 d |} ;;
  ret i.

Definition restore_event_ctx (d : sdei_dispatch_context_t) : sdei unit :=
  let! c := my_ctx in
  put_ctx {| gpregs := dc_x d ++ drop 18 (gpregs c); ctx_elr_el3 := dc_elr_el3 d;
             ctx_spsr_el3 := dc_spsr_el3 d; ctx_scr_el3 := ctx_scr_el3 c;
             ctx_cve_2018_3639_disable :=
               if DYNAMIC_WORKAROUND_CVE_2018_3639 then dc_disable_cve_2018_3639 d
               else ctx_cve_2018_3639_disable c |}.

Definition save_secure_context : sdei unit := emit_sdei (Cm_save SECURE).
Definition restore_and_resume_secure_context : sdei unit :=
  emit_sdei (Cm_restore SECURE) ;; emit_sdei (Cm_next_eret SECURE).
Definition restore_and_resume_ns_context : sdei unit :=
  emit_sdei (Cm_restore NON_SECURE) ;; emit_sdei (Cm_next_eret NON_SECURE).

Definition cm_set_elr_spsr_el3 (elr spsr : Z) : sdei unit :=
  let! c := my_ctx in
  put_ctx {| gpregs := gpregs c; ctx_elr_el3 := elr; ctx_spsr_el3 := spsr; ctx_scr_el3 := ctx_scr_el3 c;
             ctx_cve_2018_3639_disable := ctx_cve_2018_3639_disable c |}.

Definition sdei_set_elr_spsr (e : sdei_entry_t) (d : sdei_dispatch_context_t) : sdei unit :=
  let! c := my_ctx in
  let! client_el := sdei_client_el in
  cm_set_elr_spsr_el3 (ep e) (create_spsr (dc_spsr_el3 d) client_el (ctx_scr_el3 c)).

(** [SMC_SET_GP] on the first four registers. *)
Definition set_args (x0 x1 x2 x3 : Z) : sdei unit :=
  let! c := my_ctx in
  put_ctx {| gpregs := x0 :: x1 :: x2 :: x3 :: drop 4 (gpregs c); ctx_elr_el3 := ctx_elr_el3 c;
             ctx_spsr_el3 := ctx_spsr_el3 c; ctx_scr_el3 := ctx_scr_el3 c;
             ctx_cve_2018_3639_disable := ctx_cve_2018_3639_disable c |}.

Definition set_cve (v : Z) : sdei unit :=
  let! c := my_ctx in
  put_ctx {| gpregs := gpregs c; ctx_elr_el3 := ctx_elr_el3 c; ctx_spsr_el3 := ctx_spsr_el3 c;
             ctx_scr_el3 := ctx_scr_el3 c; ctx_cve_2018_3639_disable := v |}.

Definition setup_ns_dispatch (m : map_ref) (se : entry_ref) (dispatch_jmp : jmp_buf) : sdei unit :=
  let! i := save_event_ctx m in
  let! d := get_slot i in
  let! map := get_map m in
  let! e := get_entry se in
  set_args (u64 (ev_num map)) (arg e) (dc_elr_el3 d) (dc_spsr_el3 d) ;;
  sdei_set_elr_spsr e d ;;
  let! c := my_ctx in
  when DYNAMIC_WORKAROUND_CVE_2018_3639 (set_cve 0) ;;
  put_slot i {| dc_map := dc_map d; dc_x := dc_x d; dc_jmp := Some dispatch_jmp;
                dc_elr_el3 := dc_elr_el3 d; dc_spsr_el3 := dc_spsr_el3 d;
                dc_disable_cve_2018_3639 :=
                  if DYNAMIC_WORKAROUND_CVE_2018_3639 then ctx_cve_2018_3639_disable c
                  else dc_disable_cve_2018_3639 d |}.

End Sdei.
