(* ===== verification/SdeiMain.v ===== *)
(** * SDEI dispatcher: interrupt handler and calls (sdei_intr_mgmt.c,
    sdei_main.c) *)

From stdpp Require Import list_numbers.
From S2P Require Import Prelude InterruptMgmt Traps Ehf SdeiTypes Sdei.
#[local] Open Scope cmd_scope.

Section SdeiMain.
Context `{Plat : SdeiPlatform} `{EhfCfg : EhfConfig} (me : Z).

(** ** sdei_intr_mgmt.c: interrupts *)

Definition set_pending_enables : sdei unit :=
  let! st := my_pe me in
  put_pe me {| dispatch_stack := dispatch_stack st; stack_top := stack_top st;
               pe_masked := pe_masked st; pending_enables := true |}.

Definition handle_masked_trigger (m : map_ref) (se : entry_ref) (intr_raw : Z) : sdei unit :=
  let! map := get_map m in
  if ev_num map =? SDEI_EVENT_0 then ret tt
  else
    let! e := get_entry se in
    let disable := is_event_private map || (reg_flags e =? SDEI_REGF_RM_PE) in
    when (reg_flags e =? SDEI_REGF_RM_PE) (assert_ true (affinity e =? my_mpidr me)) ;;
    if disable then
      emit_sdei (Ic_disable (map_intr map)) ;;
      emit_sdei (Ic_set_pending (map_intr map)) ;;
      emit_sdei (Ic_end_of_interrupt intr_raw) ;;
      set_pending_enables
    else
      assert_ true (plat_ic_is_spi (map_intr map)) ;;
      emit_sdei (Ic_set_pending (map_intr map)) ;;
      emit_sdei (Masked_trigger (my_mpidr me) (map_intr map)) ;;
      emit_sdei (Ic_end_of_interrupt intr_raw).

(** What an entry of EL3 came to: it returns, or leaves for the client. *)
Inductive dispatch_result : Set :=
  | Returned (rc : Z)
  | Dispatched.

(** The checks on the outstanding dispatch. *)
Definition assert_preemption (map : sdei_ev_map_t) : sdei unit :=
  let! d := get_outstanding_dispatch me in
  if is_event_critical map then
    match d with
    | Some d =>
        let! m := deref (dc_map d) in
        let! outer := get_map m in
        assert_ true (is_event_normal outer)
    | None => ret tt
    end
  else
    match d with
    | Some _ => halt AssertFailed
    | None => ret tt
    end.

(** [sdei_intr_handler] up to the dispatch; [ss] is the security state the
    interrupt was taken from. *)
Definition sdei_intr_handler (intr_raw ss : Z) : sdei dispatch_result :=
  let intr := plat_ic_interrupt_id intr_raw in
  let! om := find_event_map_by_intr intr (plat_ic_is_spi intr) in
  match om with
  | None => halt Panicked
  | Some m =>
      let! map := get_map m in
      assert_ true ((ev_num map =? SDEI_EVENT_0) || is_map_bound map) ;;
      let! se := get_event_entry me m in
      let! st := my_pe me in
      if pe_masked st then
        lock_if_shared m map ;;
        handle_masked_trigger m se intr_raw ;;
        unlock_if_shared m map ;;
        ret (Returned 0)
      else
        when (ev_num map =? SDEI_EVENT_0) (emit_sdei Dmbld) ;;
        lock_if_shared m map ;;
        let! e := get_entry se in
        when (is_event_shared map && (reg_flags e =? SDEI_REGF_RM_PE))
          (assert_ true (affinity e =? my_mpidr me)) ;;
        let! ok := can_sdei_state_trans se DO_DISPATCH in
        if negb ok then
          let! reg := get_ev_state se SDEI_STATF_REGISTERED in
          when reg (emit_sdei (Ic_set_pending (map_intr map))) ;;
          emit_sdei (Ic_end_of_interrupt intr_raw) ;;
          unlock_if_shared m map ;;
          ret (Returned 0)
        else
          assert_preemption map ;;
          unlock_if_shared m map ;;
          when (ss =? SECURE) (save_secure_context ;; restore_and_resume_ns_context) ;;
          setup_ns_dispatch me m se (AfterInterrupt m intr_raw ss) ;;
          ret Dispatched
  end.

(** The rest of [sdei_intr_handler], after the client completed the event. *)
Definition sdei_intr_handler_finish (m : map_ref) (intr_raw ss : Z) : sdei Z :=
  when (ss =? SECURE) restore_and_resume_secure_context ;;
  let! map := get_map m in
  if negb (ev_num map =? SDEI_EVENT_0) && negb (is_map_bound map) then halt Panicked
  else
    emit_sdei (Ic_end_of_interrupt intr_raw) ;;
    ret 0.

(** [sdei_dispatch_event] up to the dispatch. *)
Definition sdei_dispatch_event (ev : Z) : sdei dispatch_result :=
  let! st := my_pe me in
  if pe_masked st then ret (Returned (-1))
  else if ev =? SDEI_EVENT_0 then ret (Returned (-1))
  else
    let! om := find_event_map ev in
    match om with
    | None => ret (Returned (-1))
    | Some m =>
        let! map := get_map m in
        if negb (is_map_explicit map) then ret (Returned (-1))
        else
          let! d := get_outstanding_dispatch me in
          let! busy :=
            match d with
            | None => ret false
            | Some d =>
                let! om := deref (dc_map d) in
                let! outer := get_map om in
                ret (is_event_critical outer || is_event_normal map)
            end in
          if (busy : bool) then ret (Returned (-1))
          else
            let! se := get_event_entry me m in
            let! ok := can_sdei_state_trans se DO_DISPATCH in
            if negb ok then ret (Returned (-1))
            else
              restore_and_resume_ns_context ;;
              on_ehf me (ehf_activate_priority (sdei_event_priority map)) ;;
              setup_ns_dispatch me m se (AfterDispatch m) ;;
              ret Dispatched
    end.

Definition sdei_dispatch_event_finish (m : map_ref) : sdei Z :=
  let! map := get_map m in
  on_ehf me (ehf_deactivate_priority (sdei_event_priority map)) ;;
  ret 0.

(** [sdei_event_complete]: an error code, or the jump that ends the
    dispatch. *)
Definition sdei_event_complete (resume : bool) (pc : Z) : sdei (Z + jmp_buf) :=
  let! client_el := sdei_client_el me in
  let! od := get_outstanding_dispatch me in
  match od with
  | None => ret (inl SDEI_EDENY)
  | Some d =>
      if resume && negb (plat_sdei_validate_entry_point pc client_el =? 0) then ret (inl SDEI_EDENY)
      else
        let! m := deref (dc_map d) in
        let! map := get_map m in
        let! se := get_event_entry me m in
        lock_if_shared m map ;;
        let! ok := can_sdei_state_trans se (if resume then DO_COMPLETE_RESUME else DO_COMPLETE) in
        if negb ok then
          unlock_if_shared m map ;;
          ret (inl SDEI_EDENY)
        else
          unlock_if_shared m map ;;
          pop_dispatch me ;;
          restore_event_ctx me d ;;
          when resume (
            cm_set_elr_spsr_el3 me pc (SPSR_64_handler client_el) ;;
            emit_sdei (Write_elr client_el (dc_elr_el3 d)) ;;
            emit_sdei (Write_spsr client_el (dc_spsr_el3 d))) ;;
          let! j := deref (dc_jmp d) in
          ret (inr j)
  end.

Definition sdei_event_context (param : Z) : sdei Z :=
  if SDEI_SAVED_GPREGS <=? param then ret SDEI_EINVAL
  else
    let! od := get_outstanding_dispatch me in
    match od with
    | None => ret SDEI_EDENY
    | Some d =>
        let! m := deref (dc_map d) in
        let! se := get_event_entry me m in
        let! ok := can_sdei_state_trans se DO_CONTEXT in
        if negb ok then ret SDEI_EDENY else deref ((dc_x d).[param])
    end.

(** ** sdei_main.c: initialisation *)

Inductive sdei_class_t : Set := SDEI_NORMAL | SDEI_CRITICAL.
#[export] Instance sdei_class_eq_dec : EqDecision sdei_class_t.
Proof. solve_decision. Defined.

Definition map_to_class (map : sdei_ev_map_t) : sdei_class_t :=
  if is_event_critical map then SDEI_CRITICAL else SDEI_NORMAL.

Definition clear_event_entries (e : sdei_entry_t) : sdei_entry_t := {|
  ep := 0; arg := 0; affinity := 0; reg_flags := 0; state := state e |}.

Definition sdei_cpu_on_init : sdei unit :=
  let! pm := private_maps in
  for_each pm (fun m =>
    let! se := get_event_entry me m in
    let! e := get_entry se in
    put_entry se (with_state 0 (clear_event_entries e))) ;;
  sdei_pe_mask me ;;
  ret tt.

Definition sdei_cpu_wakeup_init : sdei unit := sdei_pe_mask me ;; ret tt.

Definition SDEI_MAPF_PRIVATE : Z := BIT_32 SDEI_MAPF_PRIVATE_SHIFT_.
Definition SDEI_MAPF_SIGNALABLE : Z := BIT_32 SDEI_MAPF_SIGNALABLE_SHIFT_.
Definition SDEI_MAPF_CRITICAL : Z := BIT_32 SDEI_MAPF_CRITICAL_SHIFT_.
Definition SDEI_MAPF_EXPLICIT : Z := BIT_32 SDEI_MAPF_EXPLICIT_SHIFT_.

Definition init_map (m : map_ref) : sdei unit :=
  let! map := get_map m in put_map m (with_reg_count 0 map).

(** One shared mapping; the value is the loop's [ev_num_so_far]. *)
Definition class_init_shared (class : sdei_class_t) (m : map_ref) (ev_num_so_far : Z) : sdei Z :=
  let! map := get_map m in
  assert_ true ((ev_num_so_far <? 0) || (ev_num_so_far <? ev_num map)) ;;
  assert_ true (negb (ev_num map =? SDEI_EVENT_0)) ;;
  assert_ true (0 <=? ev_num map) ;;
  assert_ true (is_event_shared map) ;;
  assert_ true (negb (is_event_signalable map)) ;;
  assert_ true (negb (is_map_explicit map)) ;;
  (if negb (bool_decide (map_to_class map = class)) then ret tt
   else
     (if is_map_dynamic map then
        assert_ true (map_intr map =? SDEI_DYN_IRQ) ;;
        assert_ true (is_event_normal map) ;;
        modify (fun s => set_shrd_slots (u32 (num_dyn_shrd_slots s + 1)) s)
      else
        assert_ true (plat_ic_is_spi (map_intr map)) ;;
        put_map m (set_map_bound map)) ;;
     init_map m) ;;
  ret (ev_num map).

(** One private mapping; the value is [ev_num_so_far] and [zero_found]. *)
Definition class_init_private (class : sdei_class_t) (m : map_ref) (acc : Z * bool) : sdei (Z * bool) :=
  let! map := get_map m in
  assert_ true ((fst acc <? 0) || (fst acc <? ev_num map)) ;;
  let! sgi := is_secure_sgi (map_intr map) in
  (if ev_num map =? SDEI_EVENT_0 then
     assert_ true sgi ;;
     assert_ true (map_flags map =? Z.lor SDEI_MAPF_SIGNALABLE SDEI_MAPF_PRIVATE)
   else assert_ true (negb (is_event_signalable map))) ;;
  let zero_found := if ev_num map =? SDEI_EVENT_0 then true else snd acc in
  assert_ true (0 <=? ev_num map) ;;
  assert_ true (is_event_private map) ;;
  when (is_map_explicit map) (
    assert_ true (Z.lor (map_flags map) SDEI_MAPF_CRITICAL =?
                  Z.lor (Z.lor SDEI_MAPF_EXPLICIT SDEI_MAPF_PRIVATE) SDEI_MAPF_CRITICAL)) ;;
  (if negb (bool_decide (map_to_class map = class)) then ret tt
   else
     when (negb (ev_num map =? SDEI_EVENT_0)) (
       if is_map_dynamic map then
         assert_ true (map_intr map =? SDEI_DYN_IRQ) ;;
         assert_ true (is_event_normal map) ;;
         modify (fun s => set_priv_slots (u32 (num_dyn_priv_slots s + 1)) s)
       else if is_map_explicit map then assert_ true (map_intr map =? SDEI_DYN_IRQ)
       else
         assert_ true (plat_ic_is_ppi (map_intr map)) ;;
         put_map m (set_map_bound map)) ;;
     init_map m) ;;
  ret (ev_num map, zero_found).

Definition sdei_class_init (class : sdei_class_t) : sdei unit :=
  let! sm := shared_maps in
  fold_each sm (-1) (class_init_shared class) ;;
  let! pm := private_maps in
  let! r := fold_each pm (-1, false) (class_init_private class) in
  assert_ true (snd r) ;;
  sdei_cpu_on_init.

Definition sdei_init : sdei unit :=
  emit_sdei Plat_setup ;;
  sdei_class_init SDEI_CRITICAL ;;
  sdei_class_init SDEI_NORMAL ;;
  on_ehf me (ehf_register_priority_handler PLAT_SDEI_CRITICAL_PRI sdei_intr_handler_addr) ;;
  on_ehf me (ehf_register_priority_handler PLAT_SDEI_NORMAL_PRI sdei_intr_handler_addr).

End SdeiMain.
