(* ===== verification/SdeiCalls.v ===== *)
(** * SDEI dispatcher: the calls of the client (sdei_main.c) *)

From stdpp Require Import list_numbers.
From S2P Require Import Prelude InterruptMgmt Traps Ehf SdeiTypes Sdei SdeiMain.
#[local] Open Scope cmd_scope.

Definition SDEI_VERSION : Z := 0xC4000020.
Definition SDEI_EVENT_REGISTER : Z := 0xC4000021.
Definition SDEI_EVENT_ENABLE : Z := 0xC4000022.
Definition SDEI_EVENT_DISABLE : Z := 0xC4000023.
Definition SDEI_EVENT_CONTEXT : Z := 0xC4000024.
Definition SDEI_EVENT_COMPLETE : Z := 0xC4000025.
Definition SDEI_EVENT_COMPLETE_AND_RESUME : Z := 0xC4000026.
Definition SDEI_EVENT_UNREGISTER : Z := 0xC4000027.
Definition SDEI_EVENT_STATUS : Z := 0xC4000028.
Definition SDEI_EVENT_GET_INFO : Z := 0xC4000029.
Definition SDEI_EVENT_ROUTING_SET : Z := 0xC400002A.
Definition SDEI_PE_MASK : Z := 0xC400002B.
Definition SDEI_PE_UNMASK : Z := 0xC400002C.
Definition SDEI_INTERRUPT_BIND : Z := 0xC400002D.
Definition SDEI_INTERRUPT_RELEASE : Z := 0xC400002E.
Definition SDEI_EVENT_SIGNAL : Z := 0xC400002F.
Definition SDEI_FEATURES : Z := 0xC4000030.
Definition SDEI_PRIVATE_RESET : Z := 0xC4000031.
Definition SDEI_SHARED_RESET : Z := 0xC4000032.

(** [(int) x] of a 64-bit argument. *)
Definition to_int (x : Z) : Z := let v := u32 x in if v <? 2 ^ 31 then v else v - 2 ^ 32.

Definition BIND_SLOTS_MASK : Z := 0xFFFF.
Definition FEATURE_BIND_SLOTS (priv shrd : Z) : Z :=
  Z.lor (Z.land priv BIND_SLOTS_MASK) (Z.shiftl (Z.land shrd BIND_SLOTS_MASK) 16).

Section SdeiCalls.
Context `{Plat : SdeiPlatform} `{EhfCfg : EhfConfig} (me : Z).

Definition set_sdei_entry (e : sdei_entry_t) (ep_ arg_ flags affinity_ : Z) : sdei_entry_t := {|
  ep := ep_; arg := arg_; affinity := Z.land affinity_ MPIDR_AFFINITY_MASK; reg_flags := flags;
  state := state e |}.

Definition sdei_version : Z := Z.lor (Z.lor (Z.shiftl 1 48) (Z.shiftl 0 32)) 0.

Definition validate_flags (flags mpidr : Z) : Z :=
  if flags =? SDEI_REGF_RM_PE then if negb (is_valid_mpidr mpidr) then SDEI_EINVAL else 0
  else if flags =? SDEI_REGF_RM_ANY then 0
  else SDEI_EINVAL.

Definition routing_of (flags : Z) : Z :=
  if flags =? SDEI_REGF_RM_ANY then INTR_ROUTING_MODE_ANY else INTR_ROUTING_MODE_PE.

Definition sdei_event_routing_set (ev flags mpidr : Z) : sdei Z :=
  let r := validate_flags flags mpidr in
  if negb (r =? 0) then ret r
  else
    let! om := find_event_map ev in
    match om with
    | None => ret SDEI_EINVAL
    | Some m =>
        let! map := get_map m in
        if is_event_private map then ret SDEI_EINVAL
        else
          let! se := get_event_entry me m in
          sdei_map_lock m ;;
          let! r :=
            if negb (is_map_bound map) || is_event_private map then ret SDEI_EINVAL
            else
              let! ok := can_sdei_state_trans se DO_ROUTING in
              if negb ok then ret SDEI_EDENY
              else
                let! e := get_entry se in
                put_entry se {| ep := ep e; arg := arg e;
                                affinity := if flags =? SDEI_REGF_RM_PE
                                            then Z.land mpidr MPIDR_AFFINITY_MASK else affinity e;
                                reg_flags := u32 flags; state := state e |} ;;
                emit_sdei (Ic_set_spi_routing (map_intr map) (routing_of flags) mpidr) ;;
                ret 0 in
          sdei_map_unlock m ;;
          ret r
    end.

(** The programming of the interrupt of a bound event, unless another agent
    holds it. *)
Definition register_interrupt (map : sdei_ev_map_t) (ev flags mpidr : Z) : sdei bool :=
  let! t := gets sdei_trace in
  if negb (plat_ic_get_interrupt_active (map_intr map) t =? 0) then ret false
  else if negb (plat_ic_get_interrupt_type (map_intr map) t =? INTR_TYPE_NS) then ret false
  else
    emit_sdei (Ic_disable (map_intr map)) ;;
    when (negb (ev =? SDEI_EVENT_0)) (emit_sdei (Ic_clear_pending (map_intr map))) ;;
    emit_sdei (Ic_set_type (map_intr map) INTR_TYPE_EL3) ;;
    emit_sdei (Ic_set_priority (map_intr map) (sdei_event_priority map)) ;;
    when (is_event_shared map) (emit_sdei (Ic_set_spi_routing (map_intr map) (routing_of flags) mpidr)) ;;
    ret true.

(** [sdei_event_register] from the state transition to the label [fallback];
    the value says whether the registration went through. *)
Definition register_locked (m : map_ref) (se : entry_ref) (ev ep_ arg_ flags mpidr : Z) : sdei bool :=
  let! ok := can_sdei_state_trans se DO_REGISTER in
  if negb ok then ret false
  else
    let! map := get_map m in
    if is_map_dynamic map && negb (is_map_bound map) then ret false
    else
      assert_ true (if is_event_private map then 0 <=? reg_count map else reg_count map =? 0) ;;
      let! ok := if is_map_bound map then register_interrupt map ev flags mpidr else ret true in
      if negb ok then ret false
      else
        let! e := get_entry se in
        put_entry se (set_sdei_entry e ep_ arg_ (u32 flags) mpidr) ;;
        put_map m (with_reg_count (reg_count map + 1) map) ;;
        ret true.

Definition sdei_event_register (ev ep_ arg_ flags mpidr : Z) : sdei Z :=
  let! el := sdei_client_el me in
  if (ep_ =? 0) || negb (plat_sdei_validate_entry_point ep_ el =? 0) then ret SDEI_EINVAL
  else
    let r := validate_flags flags mpidr in
    if negb (r =? 0) then ret r
    else
      let! om := find_event_map ev in
      match om with
      | None => ret SDEI_EINVAL
      | Some m =>
          let! map := get_map m in
          let flags := if is_event_private map then SDEI_REGF_RM_PE else flags in
          let mpidr := if is_event_private map then mpidr_el1 me else mpidr in
          let! se := get_event_entry me m in
          sdei_map_lock m ;;
          let! before := get_entry se in
          let! ok := register_locked m se ev ep_ arg_ flags mpidr in
          if (ok : bool) then
            sdei_map_unlock m ;;
            ret 0
          else
            let! e := get_entry se in
            put_entry se (with_state (state before) e) ;;
            sdei_map_unlock m ;;
            ret SDEI_EDENY
      end.

(** [sdei_event_enable] and [sdei_event_disable] share everything but the
    action and the interrupt operation. *)
Definition enable_or_disable (ev : Z) (act : sdei_action_t) (changed : bool -> bool -> bool)
    (op : Z -> sdei_event) : sdei Z :=
  let! om := find_event_map ev in
  match om with
  | None => ret SDEI_EINVAL
  | Some m =>
      let! map := get_map m in
      let! se := get_event_entry me m in
      lock_if_shared m map ;;
      let! before := get_ev_state se SDEI_STATF_ENABLED in
      let! ok := can_sdei_state_trans se act in
      let! r :=
        if negb ok then ret SDEI_EDENY
        else
          let! after := get_ev_state se SDEI_STATF_ENABLED in
          when (is_map_bound map && changed before after) (emit_sdei (op (map_intr map))) ;;
          ret 0 in
      unlock_if_shared m map ;;
      ret r
  end.

Definition sdei_event_enable (ev : Z) : sdei Z :=
  enable_or_disable ev DO_ENABLE (fun before after => negb before && after) Ic_enable.

Definition sdei_event_disable (ev : Z) : sdei Z :=
  enable_or_disable ev DO_DISABLE (fun before after => before && negb after) Ic_disable.

Definition bool_rc (b : bool) : Z := if b then 1 else 0.

Definition sdei_event_get_info (ev info : Z) : sdei Z :=
  let! om := find_event_map ev in
  match om with
  | None => ret SDEI_EINVAL
  | Some m =>
      let! map := get_map m in
      let! se := get_event_entry me m in
      lock_if_shared m map ;;
      let! e := get_entry se in
      let registered := get_ev_state_bit e SDEI_STATF_REGISTERED in
      unlock_if_shared m map ;;
      if info =? 0 then ret (bool_rc (is_event_shared map))
      else if info =? 1 then ret (bool_rc (negb (is_event_signalable map)))
      else if info =? 2 then ret (bool_rc (is_event_critical map))
      else if info =? 3 then
        if negb (is_event_shared map) then ret SDEI_EINVAL
        else if negb registered then ret SDEI_EDENY
        else ret (bool_rc (reg_flags e =? SDEI_REGF_RM_PE))
      else if info =? 4 then
        if negb (is_event_shared map) then ret SDEI_EINVAL
        else if negb registered then ret SDEI_EDENY
        else if negb (reg_flags e =? SDEI_REGF_RM_PE) then ret SDEI_EINVAL
        else ret (affinity e)
      else ret SDEI_EINVAL
  end.

Definition unregister_interrupt (map : sdei_ev_map_t) (ev : Z) : sdei unit :=
  emit_sdei (Ic_disable (map_intr map)) ;;
  when (negb (ev =? SDEI_EVENT_0)) (emit_sdei (Ic_clear_pending (map_intr map))) ;;
  let! t := gets sdei_trace in
  assert_ true (plat_ic_get_interrupt_type (map_intr map) t =? INTR_TYPE_EL3) ;;
  emit_sdei (Ic_set_type (map_intr map) INTR_TYPE_NS) ;;
  emit_sdei (Ic_set_priority (map_intr map) LOWEST_INTR_PRIORITY).

(** [sdei_event_unregister] with the lock held. *)
Definition unregister_locked (m : map_ref) (se : entry_ref) (ev : Z) : sdei Z :=
  let! ok := can_sdei_state_trans se DO_UNREGISTER in
  if negb ok then
    let! running := get_ev_state se SDEI_STATF_RUNNING in
    ret (if (running : bool) then SDEI_EPEND else SDEI_EDENY)
  else
    let! map := get_map m in
    let map := with_reg_count (reg_count map - 1) map in
    put_map m map ;;
    assert_ true (if is_event_private map then 0 <=? reg_count map else reg_count map =? 0) ;;
    when (is_map_bound map) (unregister_interrupt map ev) ;;
    let! e := get_entry se in
    put_entry se (clear_event_entries e) ;;
    let! running := get_ev_state se SDEI_STATF_RUNNING in
    ret (if (running : bool) then SDEI_EPEND else 0).

Definition sdei_event_unregister (ev : Z) : sdei Z :=
  let! om := find_event_map ev in
  match om with
  | None => ret SDEI_EINVAL
  | Some m =>
      let! se := get_event_entry me m in
      sdei_map_lock m ;;
      let! r := unregister_locked m se ev in
      sdei_map_unlock m ;;
      ret r
  end.

Definition sdei_event_status (ev : Z) : sdei Z :=
  let! om := find_event_map ev in
  match om with
  | None => ret SDEI_EINVAL
  | Some m =>
      let! map := get_map m in
      let! se := get_event_entry me m in
      lock_if_shared m map ;;
      let! e := get_entry se in
      unlock_if_shared m map ;;
      ret (state e)
  end.


(** [sdei_interrupt_bind]: [others] is what the rest of the system does between
    the search for a free slot and the acquisition of its lock; the loop tries
    again when the slot was taken meanwhile. *)
Fixpoint bind_loop (others : sdei_state -> sdei_state) (turns : nat) (intr_num : Z) (shared_mapping_ : bool)
    : sdei Z :=
  match turns with
  | O => halt NoReturn
  | S turns' =>
      let! om := find_event_map_by_intr intr_num shared_mapping_ in
      let! found :=
        match om with
        | None => ret None
        | Some m =>
            let! map := get_map m in
            if is_map_dynamic map then
              if is_map_bound map then ret (Some (ev_num map)) else ret None
            else ret (Some SDEI_EINVAL)
        end in
      match found with
      | Some r => ret r
      | None =>
          let! om := find_event_map_by_intr SDEI_DYN_IRQ shared_mapping_ in
          match om with
          | None => ret SDEI_ENOMEM
          | Some m =>
              let! map := get_map m in
              if negb (is_map_dynamic map) then ret SDEI_ENOMEM
              else
                let! t := gets sdei_trace in
                if negb (plat_ic_get_interrupt_type intr_num t =? INTR_TYPE_NS) then ret SDEI_EDENY
                else
                  modify others ;;
                  sdei_map_lock m ;;
                  let! map := get_map m in
                  if negb (is_map_bound map) then
                    put_map m (set_map_bound (with_intr intr_num map)) ;;
                    sdei_map_unlock m ;;
                    ret (ev_num map)
                  else
                    sdei_map_unlock m ;;
                    bind_loop others turns' intr_num shared_mapping_
          end
      end
  end.

Definition sdei_interrupt_bind (others : sdei_state -> sdei_state) (turns : nat) (intr_num : Z) : sdei Z :=
  if negb (plat_ic_is_ppi intr_num || plat_ic_is_spi intr_num) then ret SDEI_EINVAL
  else bind_loop others turns intr_num (plat_ic_is_spi intr_num).

Definition sdei_interrupt_release (ev : Z) : sdei Z :=
  let! om := find_event_map ev in
  match om with
  | None => ret SDEI_EINVAL
  | Some m =>
      let! map := get_map m in
      if negb (is_map_dynamic map) then ret SDEI_EINVAL
      else
        let! se := get_event_entry me m in
        sdei_map_lock m ;;
        let! r :=
          if negb (reg_count map =? 0) then ret SDEI_EDENY
          else
            let! ok := can_sdei_state_trans se DO_RELEASE in
            if negb ok then ret SDEI_EDENY
            else if is_map_bound map then
              let! t := gets sdei_trace in
              if negb (plat_ic_get_interrupt_active (map_intr map) t =? 0) then ret SDEI_EDENY
              else
                put_map m (clr_map_bound (with_intr SDEI_DYN_IRQ map)) ;;
                ret 0
            else ret SDEI_EINVAL in
        sdei_map_unlock m ;;
        ret r
  end.

(** Unregistering every mapping of a list; EPEND becomes EDENY. *)
Definition unregister_all (ms : list map_ref) : sdei Z :=
  fold_each ms 0 (fun m final_ret =>
    let! map := get_map m in
    let! r := sdei_event_unregister (ev_num map) in
    ret (if (r =? SDEI_EPEND) && (final_ret =? 0) then SDEI_EDENY else final_ret)).

Definition sdei_private_reset : sdei Z :=
  let! pm := private_maps in unregister_all pm.

Definition sdei_shared_reset : sdei Z :=
  let! sm := shared_maps in
  let! final_ret := unregister_all sm in
  if negb (final_ret =? 0) then ret final_ret
  else
    let! pm := private_maps in
    let! sm := shared_maps in
    fold_each (pm ++ sm) final_ret (fun m final_ret =>
      let! map := get_map m in
      if is_map_dynamic map && is_map_bound map then
        let! r := sdei_interrupt_release (ev_num map) in
        ret (if negb (r =? 0) && (final_ret =? 0) then r else final_ret)
      else ret final_ret).

(** The loop of [sdei_signal] over the private mappings. *)
Fixpoint signal_check (ms : list map_ref) (i nm target_pe : Z) : sdei Z :=
  match ms with
  | [] => ret 0
  | m :: ms' =>
      let! map := get_map m in
      if ev_num map =? SDEI_EVENT_0 then
        match get_event_entry_target_pe i nm target_pe with
        | None => ret SDEI_EINVAL
        | Some se =>
            let! reg := get_ev_state se SDEI_STATF_REGISTERED in
            if negb reg then ret SDEI_EINVAL
            else
              let! en := get_ev_state se SDEI_STATF_ENABLED in
              if negb en then ret SDEI_EINVAL else signal_check ms' (i + 1) nm target_pe
        end
      else signal_check ms' (i + 1) nm target_pe
  end.

Definition sdei_signal (ev target_pe : Z) : sdei Z :=
  if negb (ev =? SDEI_EVENT_0) then ret SDEI_EINVAL
  else
    let! om := find_event_map SDEI_EVENT_0 in
    match om with
    | None => ret SDEI_EINVAL
    | Some m =>
        let! map := get_map m in
        if negb (is_event_signalable map) then ret SDEI_EINVAL
        else if negb (is_valid_mpidr target_pe) then ret SDEI_EINVAL
        else
          let! masked := sdei_is_target_pe_masked target_pe in
          if (masked : bool) then ret SDEI_EINVAL
          else
            let! r :=
              if is_event_private map then
                let! pm := private_maps in
                let! nm := num_private in
                signal_check pm 0 nm target_pe
              else ret 0 in
            if negb (r =? 0) then ret r
            else
              emit_sdei (Ic_raise_el3_sgi (map_intr map) target_pe) ;;
              ret 0
    end.

Definition sdei_features (feature : Z) : sdei Z :=
  let! s := gets id in
  if feature =? 0 then ret (FEATURE_BIND_SLOTS (num_dyn_priv_slots s) (num_dyn_shrd_slots s))
  else ret (u64 SDEI_EINVAL).

(** ** The SMC handler *)

(** [SMC_RET1], or the end of a dispatch: the value is the one the
    interrupted handler returns. *)
Inductive smc_result : Set :=
  | SmcRet1 (x0 : Z)
  | SmcResumed (rc : Z).

Definition ret1 (c : sdei Z) : sdei smc_result := let! r := c in ret (SmcRet1 r).

(** The code [longjmp] comes back to. *)
Definition resume_dispatch (j : jmp_buf) : sdei Z :=
  match j with
  | AfterInterrupt m intr_raw ss => sdei_intr_handler_finish m intr_raw ss
  | AfterDispatch m => sdei_dispatch_event_finish me m
  end.

Definition complete_call (resume : bool) (pc : Z) : sdei smc_result :=
  let! r := sdei_event_complete me resume pc in
  match r with
  | inl rc => ret (SmcRet1 rc)
  | inr j => let! rc := resume_dispatch j in ret (SmcResumed rc)
  end.

(** [spsr] is SPSR_EL3, [x5] the register of the context, [ss] the security
    state of the caller; [others] and [turns] are those of
    [sdei_interrupt_bind]. *)
Definition sdei_smc_handler (others : sdei_state -> sdei_state) (turns : nat)
    (smc_fid x1 x2 x3 x4 x5 spsr ss : Z) : sdei smc_result :=
  let ev := to_int x1 in
  if negb (ss =? NON_SECURE) then ret (SmcRet1 SMC_UNK)
  else
    let! el := sdei_client_el me in
    if negb (Z.land (Z.shiftr spsr 2) 3 =? el) then ret (SmcRet1 SMC_UNK)
    else if smc_fid =? SDEI_VERSION then ret (SmcRet1 sdei_version)
    else if smc_fid =? SDEI_EVENT_REGISTER then ret1 (sdei_event_register ev x2 x3 x4 x5)
    else if smc_fid =? SDEI_EVENT_ENABLE then ret1 (sdei_event_enable ev)
    else if smc_fid =? SDEI_EVENT_DISABLE then ret1 (sdei_event_disable ev)
    else if smc_fid =? SDEI_EVENT_CONTEXT then ret1 (sdei_event_context me (u32 x1))
    else if smc_fid =? SDEI_EVENT_COMPLETE_AND_RESUME then complete_call true x1
    else if smc_fid =? SDEI_EVENT_COMPLETE then complete_call false x1
    else if smc_fid =? SDEI_EVENT_STATUS then ret1 (sdei_event_status ev)
    else if smc_fid =? SDEI_EVENT_GET_INFO then ret1 (sdei_event_get_info ev (to_int x2))
    else if smc_fid =? SDEI_EVENT_UNREGISTER then ret1 (sdei_event_unregister ev)
    else if smc_fid =? SDEI_PE_UNMASK then sdei_pe_unmask me ;; ret (SmcRet1 0)
    else if smc_fid =? SDEI_PE_MASK then ret1 (sdei_pe_mask me)
    else if smc_fid =? SDEI_INTERRUPT_BIND then ret1 (sdei_interrupt_bind others turns (u32 x1))
    else if smc_fid =? SDEI_INTERRUPT_RELEASE then ret1 (sdei_interrupt_release ev)
    else if smc_fid =? SDEI_SHARED_RESET then ret1 sdei_shared_reset
    else if smc_fid =? SDEI_PRIVATE_RESET then ret1 sdei_private_reset
    else if smc_fid =? SDEI_EVENT_ROUTING_SET then ret1 (sdei_event_routing_set ev x2 x3)
    else if smc_fid =? SDEI_FEATURES then ret1 (sdei_features (u32 x1))
    else if smc_fid =? SDEI_EVENT_SIGNAL then ret1 (sdei_signal ev x2)
    else ret (SmcRet1 SMC_UNK).

End SdeiCalls.
