(* ===== verification/SdeiInv.v ===== *)
(** * SDEI dispatcher: the invariant of its tables

    Every event handler is in one of the six states of the specification, a
    shared event is counted as registered exactly when it is, a private event
    is counted at least once per CPU that registered it, and the dispatch
    stacks stay within their two slots. *)

From stdpp Require Import list_numbers.
From S2P Require Import Prelude InterruptMgmt Traps Ehf SdeiTypes Sdei SdeiMain SdeiCalls.
#[local] Open Scope cmd_scope.

(** ** The tables *)

Record tables_t := {
  t_priv : list sdei_ev_map_t;
  t_shrd : list sdei_ev_map_t;
  t_pe : list sdei_entry_t;
  t_se : list sdei_entry_t
}.

Definition tables (s : sdei_state) : tables_t := {|
  t_priv := private_mapping s; t_shrd := shared_mapping s;
  t_pe := sdei_private_event_table s; t_se := sdei_shared_event_table s |}.

Definition lookup_map (m : map_ref) (t : tables_t) : option sdei_ev_map_t :=
  match m with PrivMap i => (t_priv t).[i] | ShrdMap i => (t_shrd t).[i] end.
Definition lookup_entry (se : entry_ref) (t : tables_t) : option sdei_entry_t :=
  match se with PrivEntry i => (t_pe t).[i] | ShrdEntry i => (t_se t).[i] end.

Definition upd_map (m : map_ref) (v : sdei_ev_map_t) (t : tables_t) : tables_t :=
  match m with
  | PrivMap i => {| t_priv := zupdate (t_priv t) i v; t_shrd := t_shrd t; t_pe := t_pe t; t_se := t_se t |}
  | ShrdMap i => {| t_priv := t_priv t; t_shrd := zupdate (t_shrd t) i v; t_pe := t_pe t; t_se := t_se t |}
  end.
Definition upd_entry (se : entry_ref) (v : sdei_entry_t) (t : tables_t) : tables_t :=
  match se with
  | PrivEntry i => {| t_priv := t_priv t; t_shrd := t_shrd t; t_pe := zupdate (t_pe t) i v; t_se := t_se t |}
  | ShrdEntry i => {| t_priv := t_priv t; t_shrd := t_shrd t; t_pe := t_pe t; t_se := zupdate (t_se t) i v |}
  end.

Lemma upd_entry_twice se v w t : upd_entry se v (upd_entry se w t) = upd_entry se v t.
Proof. destruct se; cbn; by rewrite zupdate_zupdate. Qed.

Lemma upd_entry_id se v t : lookup_entry se t = Some v -> upd_entry se v t = t.
Proof. destruct t, se; cbn; intros H; by rewrite zupdate_id. Qed.

Lemma upd_entry_map se v m w t : upd_entry se v (upd_map m w t) = upd_map m w (upd_entry se v t).
Proof. by destruct se, m. Qed.

Lemma upd_map_twice m v w t : upd_map m v (upd_map m w t) = upd_map m v t.
Proof. destruct m; cbn; by rewrite zupdate_zupdate. Qed.

Lemma lookup_upd_entry se v w t : lookup_entry se t = Some w -> lookup_entry se (upd_entry se v t) = Some v.
Proof. destruct se; cbn; intros H%zlookup_lt_Some; by apply zlookup_zupdate_eq. Qed.

Lemma lookup_map_upd_entry m se v t : lookup_map m (upd_entry se v t) = lookup_map m t.
Proof. by destruct m, se. Qed.

Lemma lookup_upd_map m v w t : lookup_map m t = Some w -> lookup_map m (upd_map m v t) = Some v.
Proof. destruct m; cbn; intros H%zlookup_lt_Some; by apply zlookup_zupdate_eq. Qed.

Lemma lookup_upd_entry_ne se se' v t : se' <> se -> lookup_entry se' (upd_entry se v t) = lookup_entry se' t.
Proof. intros Hne. destruct se, se'; cbn; try done; (rewrite zlookup_zupdate_ne; [done|congruence]). Qed.

Lemma lookup_upd_map_ne m m' v t : m' <> m -> lookup_map m' (upd_map m v t) = lookup_map m' t.
Proof. intros Hne. destruct m, m'; cbn; try done; (rewrite zlookup_zupdate_ne; [done|congruence]). Qed.

Lemma lookup_entry_upd_map se m v t : lookup_entry se (upd_map m v t) = lookup_entry se t.
Proof. by destruct m, se. Qed.

(** ** Counting registrations *)

Definition registered (e : sdei_entry_t) : bool := get_ev_state_bit e SDEI_STATF_REGISTERED.

Definition reg1 (o : option sdei_entry_t) : Z :=
  match o with Some e => if registered e then 1 else 0 | None => 0 end.

Fixpoint sum_over (f : Z -> Z) (l : list Z) : Z :=
  match l with
  | [] => 0
  | x :: l' => f x + sum_over f l'
  end.

Lemma sum_over_ext f g l : (forall x, x ∈ l -> f x = g x) -> sum_over f l = sum_over g l.
Proof.
  induction l as [|x l IH]; intros H; cbn; [done|].
  rewrite H by apply list_elem_of_here. rewrite IH; [done|]. intros y Hy. apply H. by apply list_elem_of_further.
Qed.

Lemma sum_over_change f g l c :
  NoDup l -> c ∈ l -> (forall x, x <> c -> f x = g x) -> sum_over g l = sum_over f l + (g c - f c).
Proof.
  induction l as [|x l IH]; intros Hnd Hc H; cbn; [by apply not_elem_of_nil in Hc|].
  apply NoDup_cons in Hnd as [Hx Hnd]. apply elem_of_cons in Hc as [->|Hc].
  - rewrite (sum_over_ext f g l); [lia|]. intros y Hy. apply H. by intros ->.
  - assert (x <> c) by congruence. rewrite IH, (H x) by done. lia.
Qed.

Lemma sum_over_nonneg f l : (forall x, 0 <= f x) -> 0 <= sum_over f l.
Proof. intros H. induction l as [|x l IH]; cbn; [lia|]. specialize (H x). lia. Qed.

Section SdeiInv.
Context `{Plat : SdeiPlatform} `{EhfCfg : EhfConfig}.

(** The number of CPUs that registered private event [i]. *)
Definition registered_pes (t : tables_t) (i : Z) : Z :=
  sum_over (fun c => reg1 ((t_pe t).[c * Z.of_nat (length (t_priv t)) + i])) (seqZ 0 PLATFORM_CORE_COUNT).

Definition legal_states : list Z := [reg_; reG_; rEG_; Reg_; ReG_; REG_].
Definition legal (st : Z) : Prop := st ∈ legal_states.

Record tables_wf (t : tables_t) : Prop := {
  tw_priv : forall i m, (t_priv t).[i] = Some m -> is_event_private m = true;
  tw_shrd : forall i m, (t_shrd t).[i] = Some m -> is_event_private m = false;
  tw_pe_len : Z.of_nat (length (t_pe t)) = PLATFORM_CORE_COUNT * Z.of_nat (length (t_priv t));
  tw_se_len : length (t_se t) = length (t_shrd t);
  tw_legal : forall se e, lookup_entry se t = Some e -> legal (state e);
  tw_shared : forall i m e, (t_shrd t).[i] = Some m -> (t_se t).[i] = Some e -> reg_count m = reg1 (Some e);
  tw_private : forall i m, (t_priv t).[i] = Some m -> registered_pes t i <= reg_count m
}.

Definition pe_ok (st : sdei_cpu_state_t) : Prop :=
  length (dispatch_stack st) = 2%nat /\ 0 <= stack_top st <= MAX_EVENT_NESTING.

Definition stacks_wf (l : list sdei_cpu_state_t) : Prop := forall c st, l.[c] = Some st -> pe_ok st.

Definition sdei_wf (s : sdei_state) : Prop := tables_wf (tables s) /\ stacks_wf (cpu_state s).

(** The entry of a map on CPU [me]. *)
Definition entry_for (me : Z) (m : map_ref) (t : tables_t) : entry_ref :=
  match m with
  | PrivMap i => PrivEntry (me * Z.of_nat (length (t_priv t)) + i)
  | ShrdMap i => ShrdEntry i
  end.

(** Positions of the private table are determined by CPU and event. *)
Lemma position_inj n c c' i i' : 0 <= i < n -> 0 <= i' < n -> c * n + i = c' * n + i' -> c = c' /\ i = i'.
Proof. intros. assert (c = c') as -> by nia. lia. Qed.

Definition cpu_ok (me : Z) : Prop := 0 <= me < PLATFORM_CORE_COUNT.

(** The count after one entry changed. *)
Lemma registered_pes_upd t me i j e e' :
  cpu_ok me -> 0 <= i < Z.of_nat (length (t_priv t)) -> 0 <= j < Z.of_nat (length (t_priv t)) ->
  (t_pe t).[me * Z.of_nat (length (t_priv t)) + i] = Some e ->
  registered_pes (upd_entry (entry_for me (PrivMap i) t) e' t) j =
  registered_pes t j + (if decide (j = i) then reg1 (Some e') - reg1 (Some e) else 0).
Proof.
  intros Hme Hi Hj He. set (n := Z.of_nat (length (t_priv t))) in *. unfold registered_pes. cbn. fold n.
  assert (forall c, (zupdate (t_pe t) (me * n + i) e').[c * n + j] =
            if decide (c = me /\ j = i) then Some e' else (t_pe t).[c * n + j]) as Hlk.
  { intros c. rewrite (zlookup_zupdate _ _ _ _ _ He). case_decide as Heq; case_decide as Hcj; try done.
    - by apply position_inj in Heq as [-> ->]; [destruct Hcj|..].
    - destruct Hcj as [-> ->]. done. }
  case_decide as Hji; [subst j|].
  - rewrite (sum_over_change (fun c => reg1 ((t_pe t).[c * n + i])) _ _ me).
    + rewrite Hlk, decide_True, He by done. done.
    + apply NoDup_seqZ.
    + apply elem_of_seqZ. unfold cpu_ok in Hme. lia.
    + intros c Hc. by rewrite Hlk, decide_False by (intros [? _]; done).
  - rewrite Z.add_0_r. apply sum_over_ext. intros c _. by rewrite Hlk, decide_False by (intros [_ ?]; done).
Qed.

(** An update that keeps the registration of the handler. *)
Lemma wf_upd_entry t se e e' :
  tables_wf t -> lookup_entry se t = Some e -> legal (state e') -> registered e' = registered e ->
  tables_wf (upd_entry se e' t).
Proof.
  intros [Hp Hs Hpl Hsl Hleg Hsc Hpc] He Hl Hr.
  assert (forall se' x, lookup_entry se' (upd_entry se e' t) = Some x ->
            legal (state x) /\ exists y, lookup_entry se' t = Some y /\ registered x = registered y) as Hlk.
  { intros [k|k] x; destruct se as [j|j]; cbn in *; intros Hx; try (split; [by eapply (Hleg (PrivEntry k))|eauto]);
      try (split; [by eapply (Hleg (ShrdEntry k))|eauto]);
      rewrite (zlookup_zupdate _ _ _ _ _ He) in Hx; case_decide as Hd; simplify_eq; eauto;
      (split; [|by eauto]); first [by eapply (Hleg (PrivEntry k))|by eapply (Hleg (ShrdEntry k))]. }
  assert (forall k, reg1 ((t_pe (upd_entry se e' t)).[k]) = reg1 ((t_pe t).[k])) as Hreg.
  { intros k. destruct se as [j|j]; [|done]. cbn in *. rewrite (zlookup_zupdate _ _ _ _ _ He).
    case_decide; [subst k|done]. rewrite He. cbn. by rewrite Hr. }
  split.
  - by destruct se.
  - by destruct se.
  - destruct se; cbn; by rewrite ?length_zupdate.
  - destruct se; cbn; by rewrite ?length_zupdate.
  - intros se' x Hx. by apply (Hlk se').
  - intros i m x Hm Hx. destruct (Hlk (ShrdEntry i) x Hx) as (_ & y & Hy & Hxy). cbn in Hy |- *.
    rewrite Hxy. apply (Hsc i m y); [by destruct se|done].
  - intros i m Hm. replace (registered_pes (upd_entry se e' t) i) with (registered_pes t i).
    + apply Hpc. by destruct se.
    + unfold registered_pes. replace (t_priv (upd_entry se e' t)) with (t_priv t) by (by destruct se).
      apply sum_over_ext. intros c _. by rewrite Hreg.
Qed.

Lemma wf_upd_map t m mp mp' :
  tables_wf t -> lookup_map m t = Some mp -> is_event_private mp' = is_event_private mp ->
  reg_count mp' = reg_count mp -> tables_wf (upd_map m mp' t).
Proof.
  intros [Hp Hs Hpl Hsl Hleg Hsc Hpc] Hm Hpr Hrc. destruct m as [j|j]; cbn in *.
  - split; cbn; rewrite ?length_zupdate; try done.
    + intros i x Hx. rewrite (zlookup_zupdate _ _ _ _ _ Hm) in Hx. case_decide; simplify_eq; [|by eapply Hp].
      rewrite Hpr. by eapply Hp.
    + intros i x Hx. unfold registered_pes. cbn. rewrite length_zupdate.
      rewrite (zlookup_zupdate _ _ _ _ _ Hm) in Hx. case_decide; simplify_eq; [|by apply Hpc].
      rewrite Hrc. by apply Hpc.
  - split; cbn; rewrite ?length_zupdate; try done.
    + intros i x Hx. rewrite (zlookup_zupdate _ _ _ _ _ Hm) in Hx. case_decide; simplify_eq; [|by eapply Hs].
      rewrite Hpr. by eapply Hs.
    + intros i x e Hx He. rewrite (zlookup_zupdate _ _ _ _ _ Hm) in Hx. case_decide; simplify_eq; [|by apply (Hsc i)].
      rewrite Hrc. by apply (Hsc i).
Qed.

(** A registration or its undoing: the count follows the handler. *)
Lemma wf_count t me m mp mp' e e' :
  tables_wf t -> cpu_ok me -> lookup_map m t = Some mp ->
  lookup_entry (entry_for me m t) t = Some e -> legal (state e') ->
  is_event_private mp' = is_event_private mp ->
  reg_count mp' = reg_count mp + (reg1 (Some e') - reg1 (Some e)) ->
  tables_wf (upd_map m mp' (upd_entry (entry_for me m t) e' t)).
Proof.
  intros [Hp Hs Hpl Hsl Hleg Hsc Hpc] Hme Hm He Hl Hpr Hrc. destruct m as [j|j]; cbn [entry_for] in *.
  - cbn in Hm, He. pose proof (zlookup_lt_Some _ _ _ Hm) as Hj.
    split; cbn; rewrite ?length_zupdate; try done.
    + intros i x Hx. rewrite (zlookup_zupdate _ _ _ _ _ Hm) in Hx. case_decide; simplify_eq; [|by eapply Hp].
      rewrite Hpr. by eapply Hp.
    + intros [k|k] x Hx; cbn in Hx; [|by eapply (Hleg (ShrdEntry k))].
      rewrite (zlookup_zupdate _ _ _ _ _ He) in Hx. case_decide; simplify_eq; [done|].
      by eapply (Hleg (PrivEntry k)).
    + intros i x Hx. rewrite (zlookup_zupdate _ _ _ _ _ Hm) in Hx.
      assert (0 <= i < Z.of_nat (length (t_priv t))) as Hi.
      { case_decide; [by subst|by eapply zlookup_lt_Some]. }
      pose proof (registered_pes_upd t me j i e e' Hme Hj Hi He) as Hc.
      unfold registered_pes in Hc |- *. cbn in Hc |- *. rewrite length_zupdate, Hc.
      fold (registered_pes t i).
      case_decide as Hji; simplify_eq; case_decide; try done.
      { injection Hx as <-. specialize (Hpc _ _ Hm). cbn in Hrc. lia. }
      rewrite Z.add_0_r. by apply Hpc.
  - cbn in Hm, He. split; cbn; rewrite ?length_zupdate; try done.
    + intros i x Hx. rewrite (zlookup_zupdate _ _ _ _ _ Hm) in Hx. case_decide; simplify_eq; [|by eapply Hs].
      rewrite Hpr. by eapply Hs.
    + intros [k|k] x Hx; cbn in Hx; [by eapply (Hleg (PrivEntry k))|].
      rewrite (zlookup_zupdate _ _ _ _ _ He) in Hx. case_decide; simplify_eq; [done|].
      by eapply (Hleg (ShrdEntry k)).
    + intros i x y Hx Hy. rewrite (zlookup_zupdate _ _ _ _ _ Hm) in Hx.
      rewrite (zlookup_zupdate _ _ _ _ _ He) in Hy. case_decide; simplify_eq; [|by apply (Hsc i)].
      rewrite Hrc, (Hsc _ _ _ Hm He). cbn. lia.
Qed.
End SdeiInv.
