(* ===== verification/SdeiFrame.v ===== *)
(** * SDEI dispatcher: what each operation leaves alone

    A command frames a part of the state when it leaves it as it was, however
    it ends. [quiet] commands frame the tables and the dispatch stacks: all the
    reads, and the operations on the interrupt controller, the contexts and
    the exception handling framework. *)

From stdpp Require Import list_numbers.
From S2P Require Import Prelude InterruptMgmt Traps Ehf SdeiTypes Sdei SdeiMain SdeiCalls SdeiInv.
#[local] Open Scope cmd_scope.

Definition part (s : sdei_state) : tables_t * list sdei_cpu_state_t := (tables s, cpu_state s).

(** The same with the Non-secure contexts. *)
Definition whole (s : sdei_state) : tables_t * list sdei_cpu_state_t * list ns_context := (part s, ns_ctx s).

Definition frames {A B} (f : sdei_state -> B) (c : sdei A) : Prop := forall s, f (final (c s)) = f s.
Abbreviation quiet := (frames part).

(** The parts of the state that the record of hardware actions and the
    exception handling framework do not touch. *)
Class Apart {B} (f : sdei_state -> B) : Prop := {
  apart_trace : forall t s, f (set_sdei_trace t s) = f s;
  apart_ehf : forall l s, f (set_cpu_ehf l s) = f s
}.

Create HintDb sdei_quiet.

Lemma apart_part : Apart part.
Proof. by split; intros ? []. Qed.
Lemma apart_whole : Apart whole.
Proof. by split; intros ? []. Qed.
#[export] Existing Instances apart_part apart_whole.
#[export] Hint Resolve apart_part apart_whole : sdei_quiet.

Section Structure.
Context {R} (f : sdei_state -> R).

Lemma quiet_ret {A} (a : A) : frames f (ret a).
Proof. done. Qed.
Lemma quiet_gets {A} (g : sdei_state -> A) : frames f (gets g).
Proof. done. Qed.
Lemma quiet_halt {A} w : frames f (halt (A := A) w).
Proof. done. Qed.
Lemma quiet_deref {A} (o : option A) : frames f (deref o).
Proof. by destruct o. Qed.
Lemma quiet_assert e b : frames f (assert_ e b).
Proof. unfold assert_. by destruct (_ && _). Qed.
Lemma quiet_bind {A B} (c : sdei A) (k : A -> sdei B) : frames f c -> (forall a, frames f (k a)) -> frames f (bind c k).
Proof.
  intros Hc Hk s. specialize (Hc s). unfold bind. destruct (c s) as [a s'|w s']; cbn in *; [|done].
  by rewrite Hk.
Qed.
Lemma quiet_when b c : frames f c -> frames f (when b c).
Proof. by destruct b. Qed.
Lemma quiet_if {A} (b : bool) (c d : sdei A) : frames f c -> frames f d -> frames f (if b then c else d).
Proof. by destruct b. Qed.
Lemma quiet_match_option {A B} (o : option B) (c : B -> sdei A) (d : sdei A) :
  (forall x, frames f (c x)) -> frames f d -> frames f (match o with Some x => c x | None => d end).
Proof. by destruct o. Qed.
Lemma quiet_for_each {X} (l : list X) g : (forall x, frames f (g x)) -> frames f (for_each l g).
Proof. intros Hf. induction l as [|x l IH]; cbn; [done|]. by apply quiet_bind. Qed.
Lemma quiet_emit e : Apart f -> frames f (emit_sdei e).
Proof. intros Hf s. apply apart_trace. Qed.
End Structure.

#[export] Hint Resolve quiet_ret quiet_gets quiet_halt quiet_deref quiet_assert quiet_bind quiet_when
  quiet_if quiet_match_option quiet_for_each quiet_emit : sdei_quiet.

Ltac quiet := intros; eauto 30 with sdei_quiet.

Section Reads.
Context `{Plat : SdeiPlatform} `{EhfCfg : EhfConfig} (me : Z) {R} (f : sdei_state -> R).

Lemma quiet_get_map m : frames f (get_map m).
Proof. unfold get_map. quiet. Qed.
Lemma quiet_get_entry se : frames f (get_entry se).
Proof. unfold get_entry. quiet. Qed.
Lemma quiet_my_ctx : frames f (my_ctx me).
Proof. unfold my_ctx. quiet. Qed.
Lemma quiet_my_pe : frames f (my_pe me).
Proof. unfold my_pe. quiet. Qed.
Lemma quiet_on_ehf {A} (c : ehf A) : Apart f -> frames f (on_ehf me c).
Proof.
  intros Hf s. unfold on_ehf. destruct ((cpu_ehf s).[me]) as [e|]; [|done].
  destruct (c e); apply apart_ehf.
Qed.
#[local] Hint Resolve quiet_get_map quiet_get_entry quiet_my_ctx quiet_my_pe quiet_on_ehf : sdei_quiet.

Lemma quiet_event_entry m : frames f (get_event_entry me m).
Proof.
  unfold get_event_entry, num_private. apply quiet_bind; [quiet|]. intros map.
  destruct (is_event_private map); destruct m; quiet.
Qed.
Lemma quiet_find_map ev : frames f (find_event_map ev).
Proof. unfold find_event_map. apply quiet_bind; [quiet|]. intros s. case_match; quiet. Qed.
Lemma quiet_find_intr i b : frames f (find_event_map_by_intr i b).
Proof. unfold find_event_map_by_intr. apply quiet_bind; [quiet|]. intros s. destruct b; quiet. Qed.
Lemma quiet_ev_state se b : frames f (get_ev_state se b).
Proof. unfold get_ev_state. quiet. Qed.
Lemma quiet_client_el : frames f (sdei_client_el me).
Proof. unfold sdei_client_el. quiet. Qed.
Lemma quiet_lock_if m map : Apart f -> frames f (lock_if_shared m map).
Proof. unfold lock_if_shared, sdei_map_lock. quiet. Qed.
Lemma quiet_unlock_if m map : Apart f -> frames f (unlock_if_shared m map).
Proof. unfold unlock_if_shared, sdei_map_unlock. quiet. Qed.
Lemma quiet_lock m : Apart f -> frames f (sdei_map_lock m).
Proof. unfold sdei_map_lock. quiet. Qed.
Lemma quiet_unlock m : Apart f -> frames f (sdei_map_unlock m).
Proof. unfold sdei_map_unlock. quiet. Qed.
Lemma quiet_private_maps : frames f private_maps.
Proof. unfold private_maps, num_private. quiet. Qed.
Lemma quiet_shared_maps : frames f shared_maps.
Proof. unfold shared_maps, num_shared. quiet. Qed.
Lemma quiet_num_private : frames f num_private.
Proof. unfold num_private. quiet. Qed.
#[local] Hint Resolve quiet_event_entry quiet_find_map quiet_find_intr quiet_ev_state quiet_client_el
  quiet_lock_if quiet_unlock_if quiet_lock quiet_unlock quiet_private_maps quiet_shared_maps
  quiet_num_private : sdei_quiet.

Lemma quiet_outstanding : frames f (get_outstanding_dispatch me).
Proof. unfold get_outstanding_dispatch. quiet. Qed.
Lemma quiet_get_slot i : frames f (get_slot me i).
Proof. unfold get_slot. quiet. Qed.
#[local] Hint Resolve quiet_outstanding quiet_get_slot : sdei_quiet.

Lemma quiet_ns_context : Apart f -> frames f restore_and_resume_ns_context.
Proof. unfold restore_and_resume_ns_context. quiet. Qed.
Lemma quiet_s_context : Apart f -> frames f restore_and_resume_secure_context.
Proof. unfold restore_and_resume_secure_context. quiet. Qed.
Lemma quiet_save_s : Apart f -> frames f save_secure_context.
Proof. unfold save_secure_context. quiet. Qed.
Lemma quiet_masked_pe pe : frames f (sdei_is_target_pe_masked pe).
Proof. unfold sdei_is_target_pe_masked. quiet. Qed.
#[local] Hint Resolve quiet_ns_context quiet_s_context quiet_save_s quiet_masked_pe : sdei_quiet.

Lemma quiet_intr_finish m raw ss : Apart f -> frames f (sdei_intr_handler_finish m raw ss).
Proof. unfold sdei_intr_handler_finish. quiet. Qed.
Lemma quiet_dispatch_finish m : Apart f -> frames f (sdei_dispatch_event_finish me m).
Proof. unfold sdei_dispatch_event_finish. quiet. Qed.
Lemma quiet_preemption map : frames f (assert_preemption me map).
Proof.
  unfold assert_preemption. apply quiet_bind; [quiet|]. intros d.
  destruct (is_event_critical map), d; quiet.
Qed.
End Reads.

#[export] Hint Resolve quiet_get_map quiet_get_entry quiet_my_ctx quiet_my_pe quiet_on_ehf
  quiet_event_entry quiet_find_map quiet_find_intr quiet_ev_state quiet_client_el
  quiet_lock_if quiet_unlock_if quiet_lock quiet_unlock quiet_private_maps quiet_shared_maps quiet_num_private
  quiet_outstanding quiet_get_slot quiet_ns_context quiet_s_context
  quiet_save_s quiet_masked_pe quiet_intr_finish quiet_dispatch_finish quiet_preemption : sdei_quiet.

(** ** Commands that also write the Non-secure context *)

Section Contexts.
Context `{Plat : SdeiPlatform} `{EhfCfg : EhfConfig} (me : Z).

Lemma quiet_put_ctx c : quiet (put_ctx me c).
Proof. by intros []. Qed.
#[local] Hint Resolve quiet_put_ctx : sdei_quiet.
Lemma quiet_restore_ctx d : quiet (restore_event_ctx me d).
Proof. unfold restore_event_ctx. quiet. Qed.
Lemma quiet_set_elr elr spsr : quiet (cm_set_elr_spsr_el3 me elr spsr).
Proof. unfold cm_set_elr_spsr_el3. quiet. Qed.
#[local] Hint Resolve quiet_set_elr : sdei_quiet.
Lemma quiet_handler_ctx e d : quiet (sdei_set_elr_spsr me e d).
Proof. unfold sdei_set_elr_spsr. quiet. Qed.
Lemma quiet_set_args x0 x1 x2 x3 : quiet (set_args me x0 x1 x2 x3).
Proof. unfold set_args. quiet. Qed.
Lemma quiet_set_cve v : quiet (set_cve me v).
Proof. unfold set_cve. quiet. Qed.
Lemma quiet_register_intr map ev fl mp : quiet (register_interrupt map ev fl mp).
Proof. unfold register_interrupt. quiet. Qed.
Lemma quiet_unregister_intr map ev : quiet (unregister_interrupt map ev).
Proof. unfold unregister_interrupt. quiet. Qed.
Lemma quiet_status ev : quiet (sdei_event_status me ev).
Proof. unfold sdei_event_status. quiet. Qed.
Lemma quiet_get_info ev i : quiet (sdei_event_get_info me ev i).
Proof.
  unfold sdei_event_get_info. apply quiet_bind; [quiet|]. intros [m|]; [|quiet].
  do 3 (apply quiet_bind; [quiet|]; intros ?). apply quiet_bind; [quiet|]. intros e.
  apply quiet_bind; [quiet|]. intros _. repeat case_match; quiet.
Qed.
Lemma quiet_signal_check ms : forall i nm pe, quiet (signal_check ms i nm pe).
Proof.
  induction ms as [|m ms IH]; intros i nm pe; cbn; [quiet|]. apply quiet_bind; [quiet|]. intros map.
  apply quiet_if; [|done]. apply quiet_match_option; [|quiet]. intros se.
  apply quiet_bind; [quiet|]. intros reg. apply quiet_if; [quiet|].
  apply quiet_bind; [quiet|]. intros en. apply quiet_if; [quiet|done].
Qed.
#[local] Hint Resolve quiet_signal_check : sdei_quiet.
Lemma quiet_signal ev pe : quiet (sdei_signal ev pe).
Proof.
  unfold sdei_signal. apply quiet_if; [quiet|]. apply quiet_bind; [quiet|]. intros [m|]; [|quiet].
  apply quiet_bind; [quiet|]. intros map. apply quiet_if; [quiet|]. apply quiet_if; [quiet|].
  apply quiet_bind; [quiet|]. intros b. apply quiet_if; [quiet|].
  apply quiet_bind; [apply quiet_if; [|quiet]|]; quiet.
Qed.
Lemma quiet_features f : quiet (sdei_features f).
Proof. unfold sdei_features. quiet. Qed.
End Contexts.

#[export] Hint Resolve quiet_put_ctx quiet_restore_ctx quiet_set_elr quiet_handler_ctx quiet_set_args quiet_set_cve
  quiet_register_intr quiet_unregister_intr quiet_status quiet_get_info quiet_signal_check quiet_signal
  quiet_features : sdei_quiet.
