(* ===== verification/SdeiSafety.v ===== *)
(** * SDEI dispatcher: every call preserves the invariant *)

From stdpp Require Import list_numbers.
From S2P Require Import Prelude InterruptMgmt Traps Ehf SdeiTypes Sdei SdeiMain SdeiCalls SdeiInv SdeiFrame.
#[local] Open Scope cmd_scope.

Section SdeiSafety.
Context `{Plat : SdeiPlatform} `{EhfCfg : EhfConfig}.

Definition keeps {A} (c : sdei A) : Prop :=
  forall s, sdei_wf s -> wp c (fun _ s' => sdei_wf s') (fun _ _ => True) s.

Lemma wf_part s s' : part s' = part s -> sdei_wf s -> sdei_wf s'.
Proof.
  intros Hp [Ht Hs]. split; [by rewrite (f_equal fst Hp : tables s' = tables s)|].
  by rewrite (f_equal snd Hp : cpu_state s' = cpu_state s).
Qed.

(** A quiet command in front of another one. *)
Lemma wp_quiet {A B} (c : sdei A) (k : A -> sdei B) (Q : B -> sdei_state -> Prop) s :
  quiet c -> (forall a s', c s = Done a s' -> part s' = part s -> wp (k a) Q (fun _ _ => True) s') ->
  wp (bind c k) Q (fun _ _ => True) s.
Proof.
  intros Hc Hk. apply wp_bind. specialize (Hc s). unfold wp at 1.
  destruct (c s) as [a s'|w s'] eqn:Hr; [|done]. by apply (Hk a s').
Qed.

Lemma keeps_quiet {A} (c : sdei A) : quiet c -> keeps c.
Proof.
  intros Hc s Hs. specialize (Hc s). unfold wp. destruct (c s); [|done]. by eapply wf_part.
Qed.

Lemma keeps_bind {A B} (c : sdei A) (k : A -> sdei B) : keeps c -> (forall a, keeps (k a)) -> keeps (bind c k).
Proof. intros Hc Hk s Hs. apply wp_bind. eapply wp_mono; [by apply Hc| |done]. intros a s' Hs'. by apply Hk. Qed.

Lemma keeps_if {A} (b : bool) (c d : sdei A) : keeps c -> keeps d -> keeps (if b then c else d).
Proof. by destruct b. Qed.

Lemma keeps_when b c : keeps c -> keeps (when b c).
Proof. destruct b; [done|]. intros _. by apply keeps_quiet. Qed.

Lemma keeps_option {A B} (o : option B) (c : B -> sdei A) (d : sdei A) :
  (forall x, keeps (c x)) -> keeps d -> keeps (match o with Some x => c x | None => d end).
Proof. by destruct o. Qed.

Lemma keeps_for_each {X} (l : list X) f : (forall x, keeps (f x)) -> keeps (for_each l f).
Proof. intros Hf. induction l as [|x l IH]; cbn; [by apply keeps_quiet|]. by apply keeps_bind. Qed.

Lemma keeps_fold_each {X A} (l : list X) (f : X -> A -> sdei A) :
  (forall x a, keeps (f x a)) -> forall a, keeps (fold_each l a f).
Proof. intros Hf. induction l as [|x l IH]; intros a; cbn; [by apply keeps_quiet|]. by apply keeps_bind. Qed.

(** ** Dispatch stacks *)

Section Pe.
Context (me : Z).

Lemma my_pe_ok s st s' : my_pe me s = Done st s' -> sdei_wf s -> pe_ok st /\ (cpu_state s).[me] = Some st /\ s' = s.
Proof.
  unfold my_pe, bind, gets, id. cbn. destruct ((cpu_state s).[me]) as [st0|] eqn:Hst; cbn; [|done].
  intros [= <- <-] [_ Hwf]. split; [|done]. by eapply Hwf.
Qed.

Lemma stacks_wf_upd l st : pe_ok st -> stacks_wf l -> stacks_wf (zupdate l me st).
Proof.
  intros Hst Hwf c st'. destruct (zlookup_lt_is_Some l me) as [_ Hin]. destruct (in_range l me) eqn:Hr.
  - apply in_range_spec in Hr. destruct (Hin Hr) as [old Hold].
    rewrite (zlookup_zupdate _ _ _ _ _ Hold). case_decide; [by intros [= <-]|apply Hwf].
  - unfold zupdate. rewrite Hr. apply Hwf.
Qed.

Lemma put_pe_wf st s : pe_ok st -> sdei_wf s -> sdei_wf (final (put_pe me st s)).
Proof. intros Hst [Ht Hwf]. split; [done|]. by apply stacks_wf_upd. Qed.

Lemma keeps_pe_mask : keeps (sdei_pe_mask me).
Proof.
  intros s Hs. unfold sdei_pe_mask. apply wp_quiet; [quiet|]. intros st s' Hr Hp.
  destruct (my_pe_ok _ _ _ Hr Hs) as (Hok & _ & ->). destruct (negb _); [|by apply wp_ret].
  apply wp_bind, wp_ret. by apply (put_pe_wf _ s).
Qed.

Lemma keeps_pending : keeps (set_pending_enables me).
Proof.
  intros s Hs. unfold set_pending_enables. apply wp_quiet; [quiet|]. intros st s' Hr Hp.
  destruct (my_pe_ok _ _ _ Hr Hs) as (Hok & _ & ->). by apply (put_pe_wf _ s).
Qed.

Lemma keeps_pe_unmask : keeps (sdei_pe_unmask me).
Proof.
  intros s Hs. unfold sdei_pe_unmask. apply wp_quiet; [quiet|]. intros st s' Hr Hp.
  destruct (my_pe_ok _ _ _ Hr Hs) as (Hok & _ & ->). apply wp_quiet.
  { apply quiet_when, quiet_bind; [quiet|]. intros pm. apply quiet_bind.
    - apply quiet_for_each. intros m. quiet.
    - intros _. apply quiet_bind; [quiet|]. intros sm. apply quiet_for_each. intros m. quiet. }
  intros _ s2 _ Hp2. apply (put_pe_wf _ s2); [done|]. by apply (wf_part s).
Qed.

Lemma keeps_push : keeps (push_dispatch me).
Proof.
  intros s Hs. unfold push_dispatch. apply wp_quiet; [quiet|]. intros st s' Hr Hp.
  destruct (my_pe_ok _ _ _ Hr Hs) as (Hok & _ & ->). apply wp_quiet; [quiet|].
  intros [] s1 Ha Hp1. revert Ha. unfold assert_.
  destruct (Z.ltb_spec (stack_top st) MAX_EVENT_NESTING); cbn [negb andb]; [|done]. intros [= <-].
  apply wp_bind, wp_ret. apply (put_pe_wf _ s); [|done]. destruct Hok. split; [done|cbn; lia].
Qed.

Lemma keeps_pop : keeps (pop_dispatch me).
Proof.
  intros s Hs. unfold pop_dispatch. apply wp_quiet; [quiet|]. intros st s' Hr Hp.
  destruct (my_pe_ok _ _ _ Hr Hs) as (Hok & _ & ->).
  destruct (Z.eqb_spec (stack_top st) 0); [by apply wp_ret|].
  apply wp_quiet; [quiet|]. intros [] s' Ha Hp'. apply wp_bind, wp_ret.
  apply (put_pe_wf _ s'); [|by apply (wf_part s)]. destruct Hok. split; [done|cbn; lia].
Qed.

Lemma keeps_put_slot i d : keeps (put_slot me i d).
Proof.
  intros s Hs. unfold put_slot. apply wp_quiet; [quiet|]. intros st s' Hr Hp.
  destruct (my_pe_ok _ _ _ Hr Hs) as (Hok & _ & ->). apply wp_quiet; [quiet|]. intros _ s' _ Hp'.
  apply (put_pe_wf _ s'); [|by apply (wf_part s)]. destruct Hok. split; [|done]. cbn. by rewrite length_zupdate.
Qed.
End Pe.

(** ** Handler states *)

Definition table_next (st : Z) (act : sdei_action_t) : option Z :=
  sdei_state_table.[st] ≫= fun row => row.[action_index act].

(** What the table says of a legal state. *)
Lemma table_sound st act n :
  legal st -> table_next st act = Some n ->
  n = X___ \/ n = NOP_ \/
  (legal n /\ (act <> DO_REGISTER -> act <> DO_UNREGISTER -> Z.testbit n 0 = Z.testbit st 0)).
Proof.
  intros Hst Hn. unfold legal, legal_states in *. rewrite !elem_of_cons in Hst.
  destruct Hst as [->|[->|[->|[->|[->|[->|[]%not_elem_of_nil]]]]]]; destruct act; cbn in Hn;
    injection Hn as <-; try (by left); try (by right; left); right; right; (split; [set_solver|done]).
Qed.

Lemma registered_bit e : registered e = Z.testbit (state e) 0.
Proof.
  unfold registered, get_ev_state_bit, is_set, BIT_32, SDEI_STATF_REGISTERED. change (Z.shiftl 1 0) with (Z.ones 1).
  rewrite Z.land_ones by lia. change (2 ^ 1) with 2. rewrite Z.bit0_odd, Zmod_odd. by destruct (Z.odd (state e)).
Qed.

(** The effect of [can_sdei_state_trans] on the tables. *)
Lemma wp_trans se act (Q : bool -> sdei_state -> Prop) s :
  (forall e s', lookup_entry se (tables s) = Some e ->
     MAX_STATES <= state e \/ table_next (state e) act = Some X___ -> part s' = part s -> Q false s') ->
  (forall e s', lookup_entry se (tables s) = Some e -> table_next (state e) act = Some NOP_ ->
     part s' = part s -> Q true s') ->
  (forall e n s', lookup_entry se (tables s) = Some e -> table_next (state e) act = Some n ->
     n <> X___ -> n <> NOP_ -> tables s' = upd_entry se (with_state n e) (tables s) ->
     cpu_state s' = cpu_state s -> Q true s') ->
  wp (can_sdei_state_trans se act) Q (fun _ _ => True) s.
Proof.
  intros Hf Hn Hu. unfold can_sdei_state_trans. apply wp_bind. unfold get_entry. apply wp_bind, wp_gets. unfold id.
  fold (lookup_entry se (tables s)).
  change (match se with PrivEntry i => (sdei_private_event_table s).[i] | ShrdEntry i => (sdei_shared_event_table s).[i] end)
    with (lookup_entry se (tables s)).
  destruct (lookup_entry se (tables s)) as [e|] eqn:He; [|done]. apply wp_ret.
  destruct (Z.leb_spec MAX_STATES (state e)); [by apply wp_ret, (Hf e); auto|].
  destruct (sdei_state_table.[state e]) as [row|] eqn:Hrow; [|done]. apply wp_bind, wp_ret.
  destruct (row.[action_index act]) as [n|] eqn:Hcol; [|done]. apply wp_bind, wp_ret.
  assert (table_next (state e) act = Some n) as Ht by (unfold table_next; by rewrite Hrow).
  destruct (Z.eqb_spec n X___) as [->|]; [by apply wp_ret, (Hf e); auto|].
  destruct (Z.eqb_spec n NOP_) as [->|]; [by eapply wp_ret, Hn|].
  apply wp_bind, wp_ret. eapply Hu; [done|exact Ht|done|done|..]; cbn; by destruct se.
Qed.

Lemma keeps_trans se act : act <> DO_REGISTER -> act <> DO_UNREGISTER -> keeps (can_sdei_state_trans se act).
Proof.
  intros H1 H2 s [Ht Hst]. apply wp_trans.
  - intros e s' _ _ Hp. by apply (wf_part s).
  - intros e s' _ _ Hp. by apply (wf_part s).
  - intros e n s' He Hn HX HN Heq Hcpu. split; [|by rewrite Hcpu]. rewrite Heq.
    destruct (table_sound _ _ _ (tw_legal _ Ht _ _ He) Hn) as [?|[?|[Hl Hb]]]; [done..|].
    apply (wf_upd_entry _ _ e); [done..|]. rewrite !registered_bit. by apply Hb.
Qed.

(** ** Reading the tables *)

Lemma get_map_done m s map s' : get_map m s = Done map s' -> lookup_map m (tables s) = Some map /\ s' = s.
Proof.
  unfold get_map, bind, gets, id. cbn.
  destruct m; cbn; unfold deref; (case_match; cbn; [|done]); intros [= <- <-]; done.
Qed.

Lemma get_entry_done se s e s' : get_entry se s = Done e s' -> lookup_entry se (tables s) = Some e /\ s' = s.
Proof.
  unfold get_entry, bind, gets, id. cbn.
  destruct se; cbn; unfold deref; (case_match; cbn; [|done]); intros [= <- <-]; done.
Qed.

Lemma event_entry_done me m s se s' :
  tables_wf (tables s) -> get_event_entry me m s = Done se s' ->
  se = entry_for me m (tables s) /\ s' = s /\ exists map, lookup_map m (tables s) = Some map.
Proof.
  intros Hwf. unfold get_event_entry, bind at 1. destruct (get_map m s) as [map s1|] eqn:Hm; [|done].
  apply get_map_done in Hm as [Hm ->]. destruct m as [i|i]; cbn in Hm.
  - rewrite (tw_priv _ Hwf _ _ Hm). intros [= <- <-]. eauto.
  - rewrite (tw_shrd _ Hwf _ _ Hm). intros [= <- <-]. eauto.
Qed.

Lemma register_table st n :
  legal st -> table_next st DO_REGISTER = Some n -> n <> X___ -> st = reg_ /\ n = reG_.
Proof.
  intros Hst Hn HX. unfold legal, legal_states in *. rewrite !elem_of_cons in Hst.
  destruct Hst as [->|[->|[->|[->|[->|[->|[]%not_elem_of_nil]]]]]]; cbn in Hn; injection Hn as <-; done.
Qed.

Lemma unregister_table st n :
  legal st -> table_next st DO_UNREGISTER = Some n -> n <> X___ ->
  Z.testbit st 0 = true /\ ((n = reg_ /\ Z.testbit st 2 = false) \/ (n = Reg_ /\ Z.testbit st 2 = true)).
Proof.
  intros Hst Hn HX. unfold legal, legal_states in *. rewrite !elem_of_cons in Hst.
  destruct Hst as [->|[->|[->|[->|[->|[->|[]%not_elem_of_nil]]]]]]; cbn in Hn; injection Hn as <-; try done;
    (split; [done|]); first [by left|by right].
Qed.

Lemma part_tables s s' : part s' = part s -> tables s' = tables s.
Proof. intros Hp. exact (f_equal fst Hp). Qed.
Lemma part_cpus s s' : part s' = part s -> cpu_state s' = cpu_state s.
Proof. intros Hp. exact (f_equal snd Hp). Qed.

(** ** Registration *)

Definition registration_result (se : entry_ref) (e : sdei_entry_t) (s : sdei_state) (b : bool) (s' : sdei_state) : Prop :=
  if b then sdei_wf s'
  else cpu_state s' = cpu_state s /\ exists st, tables s' = upd_entry se (with_state st e) (tables s).

Lemma refused_result se e st s s' :
  part s' = part s -> forall s0, cpu_state s = cpu_state s0 ->
  tables s = upd_entry se (with_state st e) (tables s0) -> registration_result se e s0 false s'.
Proof.
  intros Hp s0 Hc Ht. split; [by rewrite (part_cpus _ _ Hp)|]. exists st. by rewrite (part_tables _ _ Hp).
Qed.

Lemma wp_register_locked me m map e ev ep_ arg_ flags_ mpidr s :
  sdei_wf s -> cpu_ok me -> lookup_map m (tables s) = Some map ->
  lookup_entry (entry_for me m (tables s)) (tables s) = Some e ->
  wp (register_locked m (entry_for me m (tables s)) ev ep_ arg_ flags_ mpidr)
     (registration_result (entry_for me m (tables s)) e s) (fun _ _ => True) s.
Proof.
  intros [Ht Hst] Hme Hm He. set (se := entry_for me m (tables s)) in *. unfold register_locked.
  assert (forall s', part s' = part s -> registration_result se e s false s') as Hno.
  { intros s' Hp. split; [by apply part_cpus|]. exists (state e). rewrite (part_tables _ _ Hp).
    rewrite upd_entry_id; [done|]. rewrite He. by destruct e. }
  apply wp_bind, wp_trans; cbn [negb].
  - intros e0 s' _ _ Hp. by apply wp_ret, Hno.
  - intros e0 s' He0 Hn _. simplify_eq.
    by destruct (register_table _ _ (tw_legal _ Ht _ _ He) Hn) as [_ ?].
  - intros e0 n s1 He0 Hn HX _ Heq Hcpu. simplify_eq.
    destruct (register_table _ _ (tw_legal _ Ht _ _ He) Hn HX) as [Hst0 ->].
    assert (lookup_map m (tables s1) = Some map) as Hm1 by (by rewrite Heq, lookup_map_upd_entry).
    apply wp_quiet; [quiet|]. intros map' s2 Hg _. apply get_map_done in Hg as [Hg ->]. simplify_eq.
    destruct (_ && _); [by eapply wp_ret, refused_result|].
    apply wp_quiet; [quiet|]. intros _ s2 _ Hp2.
    apply wp_quiet; [apply quiet_if; quiet|]. intros b s3 _ Hp3.
    assert (part s3 = part s1) as Hp13 by congruence.
    destruct b; cbn [negb]; [|by eapply wp_ret, refused_result].
    apply wp_quiet; [quiet|]. intros e1 s4 Hg1 _. apply get_entry_done in Hg1 as [Hg1 ->].
    rewrite (part_tables _ _ Hp13), Heq in Hg1. rewrite (lookup_upd_entry se _ e) in Hg1 by done.
    injection Hg1 as <-. apply wp_bind, wp_bind, wp_ret.
    split; [|by destruct se, m; cbn; rewrite (part_cpus _ _ Hp13), Hcpu].
    set (e' := set_sdei_entry _ _ _ _ _).
    replace (tables _) with (upd_map m (with_reg_count (reg_count map + 1) map) (upd_entry se e' (tables s))).
    + clear Hno. apply (wf_count _ _ _ map _ e); try done; [cbn; set_solver|].
      cbn [reg_count with_reg_count reg1]. rewrite !registered_bit. rewrite Hst0. done.
    + rewrite <- (upd_entry_twice se e' (with_state reG_ e)), <- Heq, <- (part_tables _ _ Hp13).
      by destruct se, m.
Qed.

Lemma keeps_register me ev ep_ arg_ flags_ mpidr : cpu_ok me -> keeps (sdei_event_register me ev ep_ arg_ flags_ mpidr).
Proof.
  intros Hme s Hs. unfold sdei_event_register. apply wp_quiet; [quiet|]. intros el s1 _ Hp1.
  apply (wf_part _ _ Hp1) in Hs. clear Hp1 s. rename s1 into s.
  destruct (_ || _); [by apply wp_ret|]. destruct (negb _); [by apply wp_ret|].
  apply wp_quiet; [quiet|]. intros [m|] s1 _ Hp1; apply (wf_part _ _ Hp1) in Hs; [|by apply wp_ret].
  clear Hp1 s. rename s1 into s.
  apply wp_quiet; [quiet|]. intros map s1 Hm _. apply get_map_done in Hm as [Hm ->].
  apply wp_quiet; [quiet|]. intros se s1 Hse _. destruct (event_entry_done _ _ _ _ _ (proj1 Hs) Hse) as (-> & -> & _).
  apply wp_quiet; [quiet|]. intros _ s1 _ Hp1. rewrite <- (part_tables _ _ Hp1) in Hm |- *.
  apply (wf_part _ _ Hp1) in Hs. clear Hp1 Hse s. rename s1 into s.
  apply wp_quiet; [quiet|]. intros e s1 He _. apply get_entry_done in He as [He ->].
  apply wp_bind. eapply wp_mono; [by eapply wp_register_locked|intros b s1 Hres|done].
  destruct b; cbn in Hres.
  - apply wp_quiet; [quiet|]. intros _ s2 _ Hp2. apply wp_ret. by apply (wf_part s1).
  - destruct Hres as (Hcpu & st & Heq).
    apply wp_quiet; [quiet|]. intros e1 s2 He1 _. apply get_entry_done in He1 as [He1 ->].
    rewrite Heq, (lookup_upd_entry _ _ e) in He1 by done. injection He1 as <-.
    apply wp_bind. apply wp_quiet; [quiet|]. intros _ s2 _ Hp2. apply wp_ret. apply (wf_part _ _ Hp2).
    destruct Hs as [Ht Hst]. set (se := entry_for me m (tables s)) in *. split.
    + replace (tables _) with (upd_entry se (with_state (state e) (with_state st e)) (tables s1)) by (by destruct se).
      rewrite Heq, upd_entry_twice, upd_entry_id; [done|]. rewrite He. by destruct e.
    + replace (cpu_state _) with (cpu_state s1) by (by destruct se). by rewrite Hcpu.
Qed.

(** ** Unregistration *)

Lemma get_ev_state_run se b s e :
  lookup_entry se (tables s) = Some e -> get_ev_state se b s = Done (get_ev_state_bit e b) s.
Proof.
  intros He. unfold get_ev_state, get_entry, bind, gets, id. cbn. destruct se; cbn in He |- *; by rewrite He.
Qed.

Lemma running_bit e : get_ev_state_bit e SDEI_STATF_RUNNING = Z.testbit (state e) 2.
Proof.
  unfold get_ev_state_bit, is_set, BIT_32, SDEI_STATF_RUNNING. rewrite Z.shiftl_1_l.
  destruct (Z.testbit (state e) 2) eqn:Hb.
  - apply negb_true_iff, Z.eqb_neq. intros Hz. apply (f_equal (fun x => Z.testbit x 2)) in Hz.
    rewrite Z.land_spec, Hb, Z.pow2_bits_true in Hz by lia. done.
  - apply negb_false_iff, Z.eqb_eq. apply Z.bits_inj_0. intros n. rewrite Z.land_spec.
    destruct (decide (n = 2)) as [->|Hn]; [by rewrite Hb|]. by rewrite Z.pow2_bits_false, andb_false_r.
Qed.

Lemma unregister_refused st :
  legal st -> table_next st DO_UNREGISTER = Some X___ -> Z.testbit st 0 = false.
Proof.
  intros Hst Hn. unfold legal, legal_states in *. rewrite !elem_of_cons in Hst.
  destruct Hst as [->|[->|[->|[->|[->|[->|[]%not_elem_of_nil]]]]]]; done.
Qed.

Lemma legal_lt st : legal st -> 0 <= st < MAX_STATES.
Proof.
  intros Hst. unfold legal, legal_states in *. rewrite !elem_of_cons in Hst.
  by destruct Hst as [->|[->|[->|[->|[->|[->|[]%not_elem_of_nil]]]]]].
Qed.

(** The outcomes of an unregistration: refused, with the tables as they were,
    or done, with the answer that tells whether the handler still runs. *)
Definition unregister_result (m : map_ref) (se : entry_ref) (map : sdei_ev_map_t) (e : sdei_entry_t)
    (s : sdei_state) (rc : Z) (s' : sdei_state) : Prop :=
  cpu_state s' = cpu_state s /\
  if Z.testbit (state e) 0 then
    rc = (if Z.testbit (state e) 2 then SDEI_EPEND else 0) /\
    exists e', state e' = (if Z.testbit (state e) 2 then Reg_ else reg_) /\
      tables s' = upd_map m (with_reg_count (reg_count map - 1) map) (upd_entry se e' (tables s))
  else rc = (if Z.testbit (state e) 2 then SDEI_EPEND else SDEI_EDENY) /\ tables s' = tables s.

Lemma unregister_result_part m se map e s rc s1 s2 :
  part s2 = part s1 -> unregister_result m se map e s rc s1 -> unregister_result m se map e s rc s2.
Proof. intros Hp. unfold unregister_result. by rewrite (part_tables _ _ Hp), (part_cpus _ _ Hp). Qed.

Lemma wp_unregister_locked me m ev map e s :
  sdei_wf s -> lookup_map m (tables s) = Some map ->
  lookup_entry (entry_for me m (tables s)) (tables s) = Some e ->
  wp (unregister_locked m (entry_for me m (tables s)) ev)
     (unregister_result m (entry_for me m (tables s)) map e s) (fun _ _ => True) s.
Proof.
  intros [Ht Hst] Hm He. set (se := entry_for me m (tables s)) in *. unfold unregister_locked.
  pose proof (tw_legal _ Ht _ _ He) as Hleg. pose proof (legal_lt _ Hleg) as Hlt.
  apply wp_bind, wp_trans; cbn [negb].
  - intros e0 s1 He0 Hno Hp. assert (e0 = e) as -> by congruence.
    assert (Z.testbit (state e) 0 = false) as Hb by (destruct Hno; [lia|by apply unregister_refused]).
    apply wp_bind. eapply wp_exact; [apply get_ev_state_run; by rewrite (part_tables _ _ Hp)|]. apply wp_ret.
    apply (unregister_result_part _ _ _ _ _ _ s); [done|]. split; [done|]. by rewrite Hb, running_bit.
  - intros e0 s1 He0 Hn _. simplify_eq.
    by destruct (unregister_table _ _ Hleg Hn) as [_ [[? _]|[? _]]].
  - intros e0 n s1 He0 Hn HX _ Heq Hcpu. simplify_eq.
    destruct (unregister_table _ _ Hleg Hn HX) as [Hb0 Hn2].
    assert (n = if Z.testbit (state e) 2 then Reg_ else reg_) as Hnv
      by (by destruct Hn2 as [[-> ->]|[-> ->]]).
    apply wp_quiet; [quiet|]. intros map' s2 Hg _. apply get_map_done in Hg as [Hg ->].
    rewrite Heq, lookup_map_upd_entry in Hg. simplify_eq. cbv zeta.
    apply wp_bind, wp_modify.
    set (map' := with_reg_count (reg_count map - 1) map). set (s2 := match m with PrivMap _ => _ | ShrdMap _ => _ end).
    assert (tables s2 = upd_map m map' (tables s1) /\ cpu_state s2 = cpu_state s1) as [Ht2 Hc2] by (by destruct m).
    apply wp_quiet; [quiet|]. intros _ s3 _ Hp3.
    apply wp_quiet; [quiet|]. intros _ s4 _ Hp4. assert (part s4 = part s2) as Hp24 by congruence.
    apply wp_quiet; [quiet|]. intros e1 s5 He1 _. apply get_entry_done in He1 as [He1 ->].
    rewrite (part_tables _ _ Hp24), Ht2, lookup_entry_upd_map, Heq, (lookup_upd_entry _ _ e) in He1 by done.
    injection He1 as <-. apply wp_bind, wp_modify.
    set (e' := clear_event_entries _). set (s5 := match se with PrivEntry _ => _ | ShrdEntry _ => _ end).
    assert (tables s5 = upd_map m map' (upd_entry se e' (tables s)) /\ cpu_state s5 = cpu_state s) as [Ht5 Hc5].
    { split.
      - replace (tables s5) with (upd_entry se e' (tables s4)) by (by destruct se).
        rewrite (part_tables _ _ Hp24), Ht2, upd_entry_map, Heq, upd_entry_twice. done.
      - replace (cpu_state s5) with (cpu_state s4) by (by destruct se).
        by rewrite (part_cpus _ _ Hp24), Hc2. }
    apply wp_bind. eapply wp_exact.
    { apply (get_ev_state_run _ _ _ e'). rewrite Ht5, lookup_entry_upd_map. by apply (lookup_upd_entry _ _ e). }
    apply wp_ret. split; [done|]. rewrite Hb0. split.
    + rewrite running_bit. change (state e') with (if Z.testbit (state e) 2 then Reg_ else reg_).
      by destruct (Z.testbit (state e) 2).
    + exists e'. by split.
Qed.

Lemma unregister_result_wf me m map e s rc s' :
  sdei_wf s -> cpu_ok me -> lookup_map m (tables s) = Some map ->
  lookup_entry (entry_for me m (tables s)) (tables s) = Some e ->
  unregister_result m (entry_for me m (tables s)) map e s rc s' -> sdei_wf s'.
Proof.
  intros [Ht Hst] Hme Hm He [Hc Hres]. split; [|by rewrite Hc].
  destruct (Z.testbit (state e) 0) eqn:Hb.
  - destruct Hres as (_ & e' & He' & ->). apply (wf_count _ _ _ map _ e); try done.
    + rewrite He'. destruct (Z.testbit (state e) 2); cbn; set_solver.
    + cbn [reg_count with_reg_count reg1]. rewrite !registered_bit, Hb, He'.
      by destruct (Z.testbit (state e) 2).
  - by destruct Hres as [_ ->].
Qed.

Lemma keeps_unregister me ev : cpu_ok me -> keeps (sdei_event_unregister me ev).
Proof.
  intros Hme s Hs. unfold sdei_event_unregister.
  apply wp_quiet; [quiet|]. intros [m|] s1 _ Hp1; apply (wf_part _ _ Hp1) in Hs; [|by apply wp_ret].
  clear Hp1 s. rename s1 into s.
  apply wp_quiet; [quiet|]. intros se s1 Hse _.
  destruct (event_entry_done _ _ _ _ _ (proj1 Hs) Hse) as (-> & -> & map & Hm).
  apply wp_quiet; [quiet|]. intros _ s1 _ Hp1. rewrite <- (part_tables _ _ Hp1) in Hm |- *.
  apply (wf_part _ _ Hp1) in Hs. clear Hp1 Hse s. rename s1 into s.
  destruct (lookup_entry (entry_for me m (tables s)) (tables s)) as [e|] eqn:He.
  - apply wp_bind. eapply wp_mono; [by eapply wp_unregister_locked|intros rc s1 Hres|done].
    apply wp_quiet; [quiet|]. intros _ s2 _ Hp2. apply wp_ret. apply (wf_part s1); [done|].
    by eapply unregister_result_wf.
  - apply wp_bind. unfold unregister_locked. apply wp_bind, wp_trans; congruence.
Qed.

(** ** The other calls *)

(** A write that keeps the handler's state. *)
Lemma keeps_update_entry {A} se (f : sdei_entry_t -> sdei_entry_t) (k : sdei_entry_t -> sdei A) :
  (forall e, state (f e) = state e) -> (forall e, keeps (k e)) ->
  keeps (let! e := get_entry se in put_entry se (f e) ;; k e).
Proof.
  intros Hf Hk s Hs. apply wp_quiet; [quiet|]. intros e s1 He _. apply get_entry_done in He as [He ->].
  apply wp_bind, wp_modify, Hk. destruct Hs as [Ht Hst]. split; [|by destruct se].
  replace (tables _) with (upd_entry se (f e) (tables s)) by (by destruct se).
  apply (wf_upd_entry _ _ e); [done..| |]; [rewrite Hf; by eapply tw_legal|by rewrite !registered_bit, Hf].
Qed.

(** A write to a mapping that keeps its kind and its count. *)
Lemma keeps_put_map_of m map map' s (Q : unit -> sdei_state -> Prop) :
  sdei_wf s -> lookup_map m (tables s) = Some map -> is_event_private map' = is_event_private map ->
  reg_count map' = reg_count map -> (forall s', sdei_wf s' -> Q tt s') ->
  wp (put_map m map') Q (fun _ _ => True) s.
Proof.
  intros [Ht Hst] Hm Hp Hr HQ. apply wp_modify, HQ. split; [|by destruct m].
  replace (tables _) with (upd_map m map' (tables s)) by (by destruct m). by eapply wf_upd_map.
Qed.

Lemma flag_lor k f b : 0 <= k -> b <> k -> is_set (Z.lor f (BIT_32 b)) (BIT_32 k) = is_set f (BIT_32 k).
Proof.
  intros Hk Hb. unfold is_set, BIT_32. do 2 f_equal. rewrite Z.land_lor_distr_l.
  replace (Z.land (Z.shiftl 1 b) (Z.shiftl 1 k)) with 0; [by rewrite Z.lor_0_r|].
  symmetry. apply Z.bits_inj_0. intros n. rewrite Z.land_spec, !Z.shiftl_1_l.
  destruct (decide (n = k)) as [->|Hn].
  - destruct (Z.ltb_spec b 0); [rewrite Z.pow_neg_r by lia; by rewrite Z.bits_0|].
    by rewrite Z.pow2_bits_false by lia.
  - rewrite (Z.pow2_bits_false k n) by lia. by rewrite andb_false_r.
Qed.

Lemma flag_clear k f b : 0 <= k -> b <> k -> is_set (Z.land f (Z.lnot (BIT_32 b))) (BIT_32 k) = is_set f (BIT_32 k).
Proof.
  intros Hk Hb. unfold is_set, BIT_32. do 2 f_equal. rewrite <- Z.land_assoc. f_equal.
  apply Z.bits_inj'. intros n Hn. rewrite Z.land_spec, Z.lnot_spec, !Z.shiftl_1_l by done.
  destruct (decide (n = k)) as [->|Hne].
  - destruct (Z.ltb_spec b 0); [rewrite (Z.pow_neg_r 2 b) by lia; by rewrite Z.bits_0|].
    by rewrite (Z.pow2_bits_false b k) by lia.
  - by rewrite (Z.pow2_bits_false k n), andb_false_r by lia.
Qed.

Create HintDb sdei_keeps.
#[local] Hint Resolve keeps_pe_mask keeps_pending keeps_pe_unmask keeps_push keeps_pop keeps_put_slot : sdei_keeps.

(** Splits a command into its parts; each is quiet, a state transition or one
    of the operations known to keep the invariant. *)
Ltac keep_leaf := first
  [ solve [eauto 2 with sdei_keeps] | solve [apply keeps_trans; done]
  | apply keeps_quiet; solve [eauto 4 with sdei_quiet] ].
Ltac keep := repeat (intros;
  lazymatch goal with
  | |- keeps (bind (get_entry ?se) (fun e => bind (put_entry ?se (@?v e)) (fun _ => @?k e))) =>
      apply (keeps_update_entry se v k); [done|]
  | |- keeps (bind _ _) => apply keeps_bind
  | |- keeps (if ?b then _ else _) => apply keeps_if
  | |- keeps (when _ _) => apply keeps_when
  | |- keeps (for_each _ _) => apply keeps_for_each
  | |- keeps (fold_each _ _ _) => apply keeps_fold_each
  | |- keeps (match ?x with _ => _ end) => destruct x
  | |- keeps _ => keep_leaf
  end).

Lemma keeps_enable_disable me ev act ch op :
  act <> DO_REGISTER -> act <> DO_UNREGISTER -> keeps (enable_or_disable me ev act ch op).
Proof.
  intros H1 H2. unfold enable_or_disable. keep.
Qed.

Lemma keeps_setup_dispatch me m se j : keeps (setup_ns_dispatch me m se j).
Proof.
  unfold setup_ns_dispatch, save_event_ctx. keep.
Qed.
#[local] Hint Resolve keeps_setup_dispatch : sdei_keeps.

Lemma keeps_masked_trigger me m se raw : keeps (handle_masked_trigger me m se raw).
Proof. unfold handle_masked_trigger. keep. Qed.
#[local] Hint Resolve keeps_masked_trigger : sdei_keeps.

Lemma keeps_intr_handler me raw ss : keeps (sdei_intr_handler me raw ss).
Proof. unfold sdei_intr_handler. keep. Qed.

Lemma keeps_dispatch_event me ev : keeps (sdei_dispatch_event me ev).
Proof. unfold sdei_dispatch_event. keep. Qed.

Lemma keeps_complete me resume pc : keeps (sdei_event_complete me resume pc).
Proof. unfold sdei_event_complete. keep. destruct resume; keep. Qed.

Lemma keeps_context me p : keeps (sdei_event_context me p).
Proof. unfold sdei_event_context. keep. Qed.

Lemma keeps_routing_set me ev fl mp : keeps (sdei_event_routing_set me ev fl mp).
Proof.
  unfold sdei_event_routing_set. keep.
Qed.

Lemma keeps_bind_loop others turns intr_num sh :
  keeps (modify others) -> keeps (bind_loop others turns intr_num sh).
Proof.
  intros Ho. induction turns as [|turns IH]; cbn; [keep|]. apply keeps_bind; [keep|]. intros om.
  apply keeps_bind; [keep|]. intros [r|]; [keep|]. apply keeps_bind; [keep|]. intros [m|]; [|keep].
  do 2 (apply keeps_bind; [keep|]; intros ?; apply keeps_if; [keep|]).
  apply keeps_bind; [done|]. intros _. apply keeps_bind; [keep|]. intros _ s Hs.
  apply wp_quiet; [quiet|]. intros map s1 Hm _. apply get_map_done in Hm as [Hm ->].
  destruct (negb (is_map_bound map)).
  - apply wp_bind. apply (keeps_put_map_of m map); try done. by apply flag_lor.
  - apply wp_quiet; [quiet|]. intros _ s' _ Hp. apply IH. by apply (wf_part s).
Qed.

Lemma keeps_bind_call others turns intr_num :
  keeps (modify others) -> keeps (sdei_interrupt_bind others turns intr_num).
Proof. intros Ho. unfold sdei_interrupt_bind. apply keeps_if; [keep|by apply keeps_bind_loop]. Qed.

Lemma keeps_release me ev : keeps (sdei_interrupt_release me ev).
Proof.
  unfold sdei_interrupt_release. apply keeps_bind; [keep|]. intros [m|]; [|keep]. intros s Hs.
  apply wp_quiet; [quiet|]. intros map s1 Hm _. apply get_map_done in Hm as [Hm ->].
  destruct (negb (is_map_dynamic map)); [by apply wp_ret|].
  apply wp_quiet; [quiet|]. intros se s1 _ Hp1. apply wp_quiet; [quiet|]. intros _ s2 _ Hp2.
  assert (part s2 = part s) as Hp by congruence. rewrite <- (part_tables _ _ Hp) in Hm.
  apply (wf_part _ _ Hp) in Hs. clear Hp Hp1 Hp2. revert s2 Hm Hs. intros s2 Hm Hs.
  apply wp_bind. eapply wp_mono with (Q := fun _ s' => sdei_wf s'); [| |done].
  2: { intros r s3 Hs3. revert s3 Hs3. change (keeps (sdei_map_unlock m ;; ret r)). keep. }
  destruct (negb (reg_count map =? 0)); [by apply wp_ret|].
  apply wp_bind. apply wp_trans.
  - intros e s' _ _ Hp. by apply wp_ret, (wf_part s2).
  - intros e s' _ _ Hp. cbn [negb]. rewrite <- (part_tables _ _ Hp) in Hm. apply (wf_part _ _ Hp) in Hs.
    destruct (is_map_bound map); [|by apply wp_ret].
    apply wp_bind, wp_gets. destruct (negb _); [by apply wp_ret|].
    apply wp_bind. apply (keeps_put_map_of m map); try done; by apply flag_clear.
  - intros e n s' He Hn HX HN _ _. exfalso.
    pose proof (tw_legal _ (proj1 Hs) _ _ He) as Hst. unfold legal, legal_states in *.
    rewrite !elem_of_cons in Hst.
    destruct Hst as [H|[H|[H|[H|[H|[H|[]%not_elem_of_nil]]]]]]; rewrite H in Hn; cbn in Hn; injection Hn as <-; done.
Qed.

Lemma keeps_unregister_all me ms : cpu_ok me -> keeps (unregister_all me ms).
Proof.
  intros Hme. unfold unregister_all. apply keeps_fold_each. intros m r. apply keeps_bind; [keep|]. intros map.
  apply keeps_bind; [by apply keeps_unregister|]. keep.
Qed.

Lemma keeps_private_reset me : cpu_ok me -> keeps (sdei_private_reset me).
Proof. intros Hme. unfold sdei_private_reset. apply keeps_bind; [keep|]. intros. by apply keeps_unregister_all. Qed.

Lemma keeps_shared_reset me : cpu_ok me -> keeps (sdei_shared_reset me).
Proof.
  intros Hme. unfold sdei_shared_reset. apply keeps_bind; [keep|]. intros sm.
  apply keeps_bind; [by apply keeps_unregister_all|]. intros r. apply keeps_if; [keep|].
  do 2 (apply keeps_bind; [keep|]; intros ?). apply keeps_fold_each. intros m r'. apply keeps_bind; [keep|].
  intros map. apply keeps_if; [|keep]. apply keeps_bind; [apply keeps_release|keep].
Qed.
(** ** A CPU comes on *)

(** A private handler that goes back to its initial state. *)
Lemma wf_reset_entry t me i e e' :
  tables_wf t -> cpu_ok me -> is_Some (lookup_map (PrivMap i) t) ->
  lookup_entry (entry_for me (PrivMap i) t) t = Some e -> state e' = reg_ ->
  tables_wf (upd_entry (entry_for me (PrivMap i) t) e' t).
Proof.
  intros Hwf Hme [mp Hm] He He'. set (d := reg1 (Some e') - reg1 (Some e)).
  assert (d <= 0) as Hd.
  { unfold d. cbn. rewrite !registered_bit, He'. by destruct (Z.testbit (state e) 0). }
  assert (tables_wf (upd_map (PrivMap i) (with_reg_count (reg_count mp + d) mp)
            (upd_entry (entry_for me (PrivMap i) t) e' t))) as [Hp Hs Hpl Hsl Hleg Hsc Hpc].
  { apply (wf_count _ _ _ mp _ e); try done. rewrite He'. cbn. set_solver. }
  destruct Hwf as [Hp0 Hs0 Hpl0 Hsl0 _ _ _]. cbn in *.
  split; cbn; rewrite ?length_zupdate; try done. intros j m Hj. unfold registered_pes. cbn.
  pose proof (Hpc j) as Hc. unfold registered_pes in Hc. cbn in Hc. rewrite length_zupdate in Hc.
  rewrite (zlookup_zupdate _ _ _ _ _ Hm) in Hc. case_decide as Hji; [subst j|by apply Hc].
  simplify_eq. specialize (Hc _ eq_refl). cbn in Hc. lia.
Qed.

Lemma keeps_cpu_on_init me : cpu_ok me -> keeps (sdei_cpu_on_init me).
Proof.
  intros Hme. unfold sdei_cpu_on_init, private_maps, num_private. intros s Hs.
  apply wp_bind, wp_bind, wp_gets, wp_ret. generalize (seqZ 0 (Z.of_nat (length (private_mapping s)))). intros l.
  revert s Hs. change (keeps (for_each (PrivMap <$> l) (fun m =>
    let! se := get_event_entry me m in let! e := get_entry se in
    put_entry se (with_state 0 (clear_event_entries e))) ;; sdei_pe_mask me ;; ret tt)).
  apply keeps_bind; [|keep]. induction l as [|i l IH]; cbn; [keep|]. apply keeps_bind; [|done]. intros s Hs.
  apply wp_quiet; [quiet|]. intros se s1 Hse _.
  destruct (event_entry_done _ _ _ _ _ (proj1 Hs) Hse) as (-> & -> & map & Hm).
  apply wp_quiet; [quiet|]. intros e s1 He _. apply get_entry_done in He as [He ->].
  apply wp_modify. destruct Hs as [Ht Hst]. split; [|done].
  by apply (wf_reset_entry (tables s) me i e).
Qed.

(** ** All that can happen *)

Inductive sdei_call : Type :=
  | CallSmc (others : sdei_state -> sdei_state) (turns : nat) (fid x1 x2 x3 x4 x5 spsr ss : Z)
  | CallInterrupt (intr_raw ss : Z)
  | CallDispatch (ev : Z)
  | CallCpuOn
  | CallCpuWakeup
  | CallClient (ctx : ns_context).

(** A call made on CPU [me]; [CallClient] is Non-secure code that leaves the
    registers in any state. *)
Definition run_call (me : Z) (c : sdei_call) : sdei unit :=
  match c with
  | CallSmc others turns fid x1 x2 x3 x4 x5 spsr ss =>
      sdei_smc_handler me others turns fid x1 x2 x3 x4 x5 spsr ss ;; ret tt
  | CallInterrupt intr_raw ss => sdei_intr_handler me intr_raw ss ;; ret tt
  | CallDispatch ev => sdei_dispatch_event me ev ;; ret tt
  | CallCpuOn => sdei_cpu_on_init me
  | CallCpuWakeup => sdei_cpu_wakeup_init me
  | CallClient ctx => put_ctx me ctx
  end.

(** What other CPUs do during [sdei_interrupt_bind] keeps the invariant. *)
Definition call_ok (c : sdei_call) : Prop :=
  match c with
  | CallSmc others _ _ _ _ _ _ _ _ _ => keeps (modify others)
  | _ => True
  end.

Inductive sdei_step : sdei_state -> sdei_state -> Prop :=
  | sdei_step_call me c s s' : cpu_ok me -> call_ok c -> run_call me c s = Done tt s' -> sdei_step s s'.

Lemma keeps_smc me others turns fid x1 x2 x3 x4 x5 spsr ss :
  cpu_ok me -> keeps (modify others) -> keeps (sdei_smc_handler me others turns fid x1 x2 x3 x4 x5 spsr ss).
Proof.
  intros Hme Ho. unfold sdei_smc_handler, ret1, complete_call, sdei_event_enable, sdei_event_disable.
  apply keeps_if; [keep|]. apply keeps_bind; [keep|]. intros el. apply keeps_if; [keep|].
  assert (forall c : sdei Z, keeps c -> keeps (let! r := c in ret (SmcRet1 r))) as Hr1 by (intros; keep; done).
  assert (forall b, keeps (let! r := sdei_event_complete me b x1 in
            match r with inl rc => ret (SmcRet1 rc)
            | inr j => let! rc := resume_dispatch me j in ret (SmcResumed rc) end)) as Hcomp.
  { intros b. apply keeps_bind; [apply keeps_complete|]. intros [rc|[m raw ss'|m]]; cbn [resume_dispatch]; keep. }
  assert (forall c : sdei Z, quiet c -> keeps (let! r := c in ret (SmcRet1 r))) as Hq1
    by (intros; by apply Hr1, keeps_quiet).
  apply keeps_if; [by apply keeps_quiet|].
  apply keeps_if; [by apply Hr1, keeps_register|].
  apply keeps_if; [by apply Hr1, keeps_enable_disable|].
  apply keeps_if; [by apply Hr1, keeps_enable_disable|].
  apply keeps_if; [apply Hr1, keeps_context|].
  apply keeps_if; [apply Hcomp|].
  apply keeps_if; [apply Hcomp|].
  apply keeps_if; [apply Hq1, quiet_status|].
  apply keeps_if; [apply Hq1, quiet_get_info|].
  apply keeps_if; [by apply Hr1, keeps_unregister|].
  apply keeps_if; [apply keeps_bind; [apply keeps_pe_unmask|by intros; apply keeps_quiet]|].
  apply keeps_if; [apply Hr1, keeps_pe_mask|].
  apply keeps_if; [by apply Hr1, keeps_bind_call|].
  apply keeps_if; [apply Hr1, keeps_release|].
  apply keeps_if; [by apply Hr1, keeps_shared_reset|].
  apply keeps_if; [by apply Hr1, keeps_private_reset|].
  apply keeps_if; [apply Hr1, keeps_routing_set|].
  apply keeps_if; [apply Hq1, quiet_features|].
  apply keeps_if; [apply Hq1, quiet_signal|by apply keeps_quiet].
Qed.

Lemma step_keeps s s' : sdei_step s s' -> sdei_wf s -> sdei_wf s'.
Proof.
  destruct 1 as [me c s s' Hme Hok Hrun]. intros Hs.
  cut (keeps (run_call me c)).
  { intros Hk. specialize (Hk s Hs). unfold wp in Hk. by rewrite Hrun in Hk. }
  destruct c; cbn [run_call].
  - apply keeps_bind; [by apply keeps_smc|]. keep.
  - apply keeps_bind; [apply keeps_intr_handler|]. keep.
  - apply keeps_bind; [apply keeps_dispatch_event|]. keep.
  - by apply keeps_cpu_on_init.
  - unfold sdei_cpu_wakeup_init. keep.
  - apply keeps_quiet. quiet.
Qed.

End SdeiSafety.
