(* ===== verification/SdeiInit.v ===== *)
(** * SDEI dispatcher: initialisation

    [sdei_init] brings the zero-initialised tables of the image into the
    invariant, so that every state the dispatcher reaches satisfies it. *)

From stdpp Require Import list_numbers.
From S2P Require Import Prelude InterruptMgmt Traps Ehf SdeiTypes Sdei SdeiMain SdeiCalls SdeiInv SdeiFrame SdeiSafety.
#[local] Open Scope cmd_scope.

Section SdeiInit.
Context `{Plat : SdeiPlatform} `{EhfCfg : EhfConfig}.

(** The image as it is loaded: the platform declares the mappings, the event
    tables are zero and as long as [REGISTER_SDEI_MAP] makes them, and no CPU
    has a dispatch. *)
Record sdei_image (s : sdei_state) : Prop := {
  si_pe_len : Z.of_nat (length (sdei_private_event_table s)) =
              PLATFORM_CORE_COUNT * Z.of_nat (length (private_mapping s));
  si_se_len : length (sdei_shared_event_table s) = length (shared_mapping s);
  si_zero : forall se e, lookup_entry se (tables s) = Some e -> state e = reg_;
  si_stacks : stacks_wf (cpu_state s)
}.

(** What [sdei_class_init] may do to a mapping. *)
Record evolved (m m' : sdei_ev_map_t) : Prop := {
  ed_private : is_event_private m' = is_event_private m;
  ed_class : map_to_class m' = map_to_class m;
  ed_count : reg_count m = 0 -> reg_count m' = 0
}.

Record evolves (s s' : sdei_state) : Prop := {
  es_image : sdei_image s -> sdei_image s';
  es_priv : length (private_mapping s') = length (private_mapping s);
  es_shrd : length (shared_mapping s') = length (shared_mapping s);
  es_map : forall m map', lookup_map m (tables s') = Some map' ->
    exists map, lookup_map m (tables s) = Some map /\ evolved map map'
}.

#[export] Instance evolved_preorder : PreOrder evolved.
Proof.
  split; [by split|]. intros x y z [H1 H2 H3] [H4 H5 H6]. split; [congruence|congruence|auto].
Qed.

#[export] Instance evolves_preorder : PreOrder evolves.
Proof.
  split; [split; eauto; intros m map' Hm; by exists map'|].
  intros x y z [H1 H2 H3 H4] [H5 H6 H7 H8]. split; [auto|congruence|congruence|].
  intros m map' (map & Hm & Hev)%H8. apply H4 in Hm as (map0 & Hm & Hev0). exists map0. split; [done|]. by etrans.
Qed.

Lemma evolves_part s s' : part s' = part s -> evolves s s'.
Proof.
  intros Hp. pose proof (part_tables _ _ Hp) as Ht. pose proof (part_cpus _ _ Hp) as Hc.
  pose proof (f_equal t_priv Ht) as H1. pose proof (f_equal t_shrd Ht) as H2.
  pose proof (f_equal t_pe Ht) as H3. pose proof (f_equal t_se Ht) as H4. cbn in *. split.
  - intros [Ha Hb Hz Hs]. split; rewrite ?H1, ?H2, ?H3, ?H4, ?Ht, ?Hc; done.
  - by rewrite H1.
  - by rewrite H2.
  - intros m map' Hm. rewrite Ht in Hm. by exists map'.
Qed.

Lemma evolves_put_map m map map' s :
  lookup_map m (tables s) = Some map -> evolved map map' -> evolves s (final (put_map m map' s)).
Proof.
  intros Hm Hev. assert (tables (final (put_map m map' s)) = upd_map m map' (tables s)) as Ht by (by destruct m).
  split.
  - intros [H1 H2 H3 H4]. split; destruct m; cbn; by rewrite ?length_zupdate.
  - destruct m; cbn; by rewrite ?length_zupdate.
  - destruct m; cbn; by rewrite ?length_zupdate.
  - intros k x Hk. rewrite Ht in Hk. destruct (decide (k = m)) as [->|Hne].
    + rewrite (lookup_upd_map _ _ map) in Hk by done. injection Hk as <-. eauto.
    + exists x. split; [|done]. destruct m as [i|i], k as [j|j]; cbn in Hk |- *; try done;
        (rewrite zlookup_zupdate_ne in Hk; [done|congruence]).
Qed.

(** What a pass over class [class] says of the mappings it visited. *)
Definition visited (class : sdei_class_t) (private : bool) (m : map_ref) (s : sdei_state) : Prop :=
  forall map, lookup_map m (tables s) = Some map ->
    is_event_private map = private /\ (map_to_class map = class -> reg_count map = 0).

Lemma visited_evolves class p m s s' : evolves s s' -> visited class p m s -> visited class p m s'.
Proof.
  intros [_ _ _ Hmap] Hv map' (map & Hm & [Hp Hc Hn])%Hmap. destruct (Hv _ Hm) as [H1 H2].
  rewrite Hp, Hc. split; [done|]. intros Hcl. by apply Hn, H2.
Qed.

Lemma wp_evolves_quiet {A} (c : sdei A) s : quiet c -> wp c (fun _ s' => evolves s s') (fun _ _ => True) s.
Proof.
  intros Hc. specialize (Hc s). unfold wp. destruct (c s); [|done]. by apply evolves_part.
Qed.

Lemma bound_evolved map : evolved map (set_map_bound map).
Proof.
  split; [by apply flag_lor| |done]. unfold map_to_class, is_event_critical, set_map_bound. cbn [map_flags with_flags].
  by rewrite flag_lor.
Qed.

(** A command between two others. *)
Lemma wp_then_quiet {A B} (c : sdei A) (k : A -> sdei B) (Q : B -> sdei_state -> Prop) s :
  quiet c -> (forall a s', evolves s s' -> (forall m, lookup_map m (tables s') = lookup_map m (tables s)) ->
    wp (k a) Q (fun _ _ => True) s') -> wp (bind c k) Q (fun _ _ => True) s.
Proof.
  intros Hc Hk. apply wp_quiet; [done|]. intros a s' _ Hp. apply Hk; [by apply evolves_part|].
  intros m. by rewrite (part_tables _ _ Hp).
Qed.

Lemma wp_init_map m map s0 s :
  evolves s0 s -> lookup_map m (tables s) = Some map ->
  wp (init_map m) (fun _ s' => evolves s0 s' /\ lookup_map m (tables s') = Some (with_reg_count 0 map))
     (fun _ _ => True) s.
Proof.
  intros He Hm. unfold init_map. apply wp_quiet; [quiet|]. intros map' s' Hg _. apply get_map_done in Hg as [Hg ->].
  assert (map' = map) as -> by congruence. apply wp_modify. split.
  - etrans; [done|]. by apply (evolves_put_map m map).
  - replace (tables _) with (upd_map m (with_reg_count 0 map) (tables s)) by (by destruct m).
    by eapply lookup_upd_map.
Qed.

(** The part both loops share: [prepare] binds the interrupt or counts a slot,
    then the registration count is cleared. *)
Lemma wp_class_body class p m map (prepare : sdei unit) s0 s :
  evolves s0 s -> lookup_map m (tables s) = Some map -> is_event_private map = p ->
  (map_to_class map = class -> wp prepare (fun _ s' => evolves s s' /\
     exists map', lookup_map m (tables s') = Some map' /\ evolved map map') (fun _ _ => True) s) ->
  wp (if negb (bool_decide (map_to_class map = class)) then ret tt else prepare ;; init_map m)
     (fun _ s' => evolves s0 s' /\ visited class p m s') (fun _ _ => True) s.
Proof.
  intros He Hm Hp Hprep. case_bool_decide as Hcl; cbn [negb].
  - apply wp_bind. eapply wp_mono; [by apply Hprep| |done]. intros _ s1 (He1 & map' & Hm' & Hev).
    eapply wp_mono; [apply (wp_init_map m map' s0 s1); [by etrans|done]| |done]. intros _ s2 [He2 Hm2]. split; [done|].
    intros x Hx. rewrite Hm2 in Hx. injection Hx as <-. split; [|done]. rewrite <- Hp. apply Hev.
  - apply wp_ret. split; [done|]. intros x Hx. rewrite Hm in Hx. injection Hx as <-. by split.
Qed.

Lemma wp_assert_then {A} b (k : sdei A) (Q : A -> sdei_state -> Prop) s :
  (b = true -> wp k Q (fun _ _ => True) s) -> wp (assert_ true b ;; k) Q (fun _ _ => True) s.
Proof.
  intros Hk. apply wp_bind. unfold assert_. destruct b; cbn [negb andb]; [by apply Hk|done].
Qed.

Lemma wp_prepare_bind m map s (b : bool) :
  lookup_map m (tables s) = Some map ->
  wp (assert_ true b ;; put_map m (set_map_bound map)) (fun _ s' => evolves s s' /\
    exists map', lookup_map m (tables s') = Some map' /\ evolved map map') (fun _ _ => True) s.
Proof.
  intros Hm. apply wp_assert_then. intros _. apply wp_modify. split.
  - apply (evolves_put_map m map); [done|apply bound_evolved].
  - exists (set_map_bound map). split; [|apply bound_evolved].
    replace (tables _) with (upd_map m (set_map_bound map) (tables s)) by (by destruct m).
    by eapply lookup_upd_map.
Qed.

Lemma wp_prepare_quiet m map s (c : sdei unit) :
  lookup_map m (tables s) = Some map -> quiet c ->
  wp c (fun _ s' => evolves s s' /\
    exists map', lookup_map m (tables s') = Some map' /\ evolved map map') (fun _ _ => True) s.
Proof.
  intros Hm Hc. specialize (Hc s). unfold wp. destruct (c s) as [a s'|]; [|done]. cbn in Hc.
  split; [by apply evolves_part|]. exists map. split; [|done]. by rewrite (part_tables _ _ Hc).
Qed.

Lemma quiet_shrd_slots f : quiet (modify (fun s => set_shrd_slots (f s) s)).
Proof. by intros []. Qed.
Lemma quiet_priv_slots f : quiet (modify (fun s => set_priv_slots (f s) s)).
Proof. by intros []. Qed.
#[local] Hint Resolve quiet_shrd_slots quiet_priv_slots : sdei_quiet.

Lemma wp_class_shared class m n s0 s :
  evolves s0 s -> wp (class_init_shared class m n)
    (fun _ s' => evolves s0 s' /\ visited class false m s') (fun _ _ => True) s.
Proof.
  intros He. unfold class_init_shared. apply wp_quiet; [quiet|]. intros map s1 Hm _. apply get_map_done in Hm as [Hm ->].
  do 3 (apply wp_assert_then; intros _). apply wp_assert_then. intros Hsh. do 2 (apply wp_assert_then; intros _).
  apply wp_bind. eapply wp_mono; [apply (wp_class_body class false m map _ s0 s He Hm)| |done].
  - by apply negb_true_iff in Hsh.
  - intros _. destruct (is_map_dynamic map); [|by apply wp_prepare_bind].
    apply wp_prepare_quiet; [done|]. quiet.
  - intros [] s' H. by apply wp_ret.
Qed.

Lemma quiet_secure_sgi i : quiet (is_secure_sgi i).
Proof. unfold is_secure_sgi. quiet. Qed.

Lemma wp_class_private class m a s0 s :
  evolves s0 s -> wp (class_init_private class m a)
    (fun _ s' => evolves s0 s' /\ visited class true m s') (fun _ _ => True) s.
Proof.
  intros He. unfold class_init_private. apply wp_quiet; [quiet|]. intros map s1 Hm _. apply get_map_done in Hm as [Hm ->].
  apply wp_assert_then; intros _. apply wp_then_quiet; [apply quiet_secure_sgi|]. intros sgi s1 He1 Hl1.
  apply wp_then_quiet; [quiet|]. intros _ s2 He2 Hl2. cbv zeta. apply wp_assert_then; intros _.
  apply wp_assert_then. intros Hpr. apply wp_then_quiet; [quiet|]. intros _ s3 He3 Hl3.
  rewrite <- Hl1, <- Hl2, <- Hl3 in Hm.
  apply wp_bind. eapply wp_mono; [apply (wp_class_body class true m map _ s0 s3); try done| |done].
  - by do 3 (etrans; [|done]).
  - intros _. apply wp_when; [intros _|by intros _; split; [|exists map]].
    destruct (is_map_dynamic map); [apply wp_prepare_quiet; [done|quiet]|].
    destruct (is_map_explicit map); [apply wp_prepare_quiet; [done|quiet]|by apply wp_prepare_bind].
  - intros [] s' H. by apply wp_ret.
Qed.

(** ** One pass *)

Lemma evolves_reset se e s :
  lookup_entry se (tables s) = Some e -> evolves s (final (put_entry se (with_state 0 (clear_event_entries e)) s)).
Proof.
  intros He. set (e' := with_state _ _). split; [|by destruct se..|].
  - intros [H1 H2 H3 H4]. split; try solve [destruct se; cbn; by rewrite ?length_zupdate].
    intros se' x Hx. destruct (decide (se' = se)) as [->|Hne].
    + replace (tables _) with (upd_entry se e' (tables s)) in Hx by (by destruct se).
      rewrite (lookup_upd_entry _ _ e) in Hx by done. by injection Hx as <-.
    + apply (H3 se'). rewrite <- Hx. destruct se as [i|i], se' as [j|j]; cbn; try done;
        (rewrite zlookup_zupdate_ne; [done|congruence]).
  - intros m map' Hm. exists map'. split; [|done]. by destruct se.
Qed.

Lemma evolves_pe_mask me s : wp (sdei_pe_mask me) (fun _ s' => evolves s s') (fun _ _ => True) s.
Proof.
  unfold sdei_pe_mask. apply wp_bind. unfold my_pe. apply wp_bind, wp_gets. unfold id.
  destruct ((cpu_state s).[me]) as [st|] eqn:Hst; [|done]. apply wp_ret.
  destruct (negb (pe_masked st)); [|by apply wp_ret]. apply wp_bind, wp_modify, wp_ret. split; try done.
  - intros [H1 H2 H3 H4]. split; try done. apply stacks_wf_upd; [|done]. exact (H4 _ _ Hst).
  - intros m map' Hm. by exists map'.
Qed.

Lemma evolves_cpu_on_init me s : wp (sdei_cpu_on_init me) (fun _ s' => evolves s s') (fun _ _ => True) s.
Proof.
  unfold sdei_cpu_on_init. apply wp_then_quiet; [quiet|]. intros pm s1 H1 _. apply wp_bind.
  eapply wp_mono; [apply (wp_for_each pm _ (fun _ s' => evolves s s'))| |done]; [done| |].
  - intros done m s2 _ H2. apply wp_then_quiet; [quiet|]. intros se s3 H3 _.
    apply wp_quiet; [quiet|]. intros e s4 He _. apply get_entry_done in He as [He ->].
    apply wp_modify. etrans; [|by apply (evolves_reset se e)]. by etrans.
  - intros [] s2 H2. apply wp_bind. eapply wp_mono; [apply evolves_pe_mask| |done].
    intros z s3 H3. apply wp_ret. by etrans.
Qed.

Definition all_visited (class : sdei_class_t) (s : sdei_state) : Prop :=
  (forall i, visited class true (PrivMap i) s) /\ (forall i, visited class false (ShrdMap i) s).

Lemma all_visited_evolves class s s' : evolves s s' -> all_visited class s -> all_visited class s'.
Proof. intros He [H1 H2]. split; intros i; by eapply visited_evolves. Qed.

(** A loop whose body visits its element visits all of them. *)
Lemma wp_visit_all {A} class p (f : map_ref -> A -> sdei A) ms a s :
  (forall m a s0 s1, evolves s0 s1 ->
     wp (f m a) (fun _ s' => evolves s0 s' /\ visited class p m s') (fun _ _ => True) s1) ->
  wp (fold_each ms a f) (fun _ s' => evolves s s' /\ forall m, m ∈ ms -> visited class p m s') (fun _ _ => True) s.
Proof.
  intros Hf. eapply (wp_fold_each ms f (fun done _ s' => evolves s s' /\ forall m, m ∈ done -> visited class p m s')).
  { split; [done|]. by intros m Hm%not_elem_of_nil. }
  intros done m a' s1 _ [He Hd]. specialize (Hf m a' s1 s1 ltac:(done)). eapply wp_mono; [exact Hf| |done].
  intros _ s2 [He2 Hv]. split; [by etrans|]. intros m' [Hm'|Hm']%elem_of_app.
  - by eapply visited_evolves; [|apply Hd].
  - apply list_elem_of_singleton in Hm'. by subst.
Qed.

Lemma map_in_range mk (len : nat) i s map :
  lookup_map (mk i) (tables s) = Some map ->
  (lookup_map (mk i) (tables s) = Some map -> 0 <= i < Z.of_nat len) -> mk i ∈ (mk <$> seqZ 0 (Z.of_nat len)).
Proof. intros Hm Hr. apply list_elem_of_fmap. exists i. split; [done|]. apply elem_of_seqZ. specialize (Hr Hm). lia. Qed.

Lemma wp_class_init me class s :
  wp (sdei_class_init me class) (fun _ s' => evolves s s' /\ all_visited class s') (fun _ _ => True) s.
Proof.
  unfold sdei_class_init, shared_maps, private_maps, num_shared, num_private.
  apply wp_bind, wp_bind, wp_gets, wp_ret, wp_bind.
  eapply wp_mono; [apply wp_visit_all; intros; by apply wp_class_shared| |done]. intros n1 s1 [He1 Hv1].
  apply wp_bind, wp_bind, wp_gets, wp_ret, wp_bind.
  eapply wp_mono; [apply wp_visit_all; intros; by apply wp_class_private| |done]. intros n2 s2 [He2 Hv2].
  apply wp_assert_then. intros _. eapply wp_mono; [apply evolves_cpu_on_init| |done]. intros [] s3 He3.
  split; [by etrans; [|etrans]|]. apply (all_visited_evolves _ s2); [done|]. split; intros i map Hm.
  - apply (Hv2 (PrivMap i)); [|done]. eapply map_in_range; [done|]. intros H%zlookup_lt_Some.
    by rewrite <- (es_priv _ _ He2).
  - apply (visited_evolves class false (ShrdMap i) s1 s2 He2); [|done]. apply Hv1.
    eapply map_in_range; [done|]. intros H%zlookup_lt_Some.
    by rewrite <- (es_shrd _ _ He1), <- (es_shrd _ _ He2).
Qed.

(** ** The invariant is established *)

Lemma no_registration t i :
  (forall se e, lookup_entry se t = Some e -> state e = reg_) -> registered_pes t i = 0.
Proof.
  intros Hz. unfold registered_pes. generalize (seqZ 0 PLATFORM_CORE_COUNT). intros l.
  induction l as [|c l IH]; [done|]. cbn [sum_over]. rewrite IH. unfold reg1.
  destruct ((t_pe t).[_]) as [e|] eqn:He; [|done]. by rewrite registered_bit, (Hz (PrivEntry _) e He).
Qed.

Lemma image_wf s :
  sdei_image s -> all_visited SDEI_CRITICAL s -> all_visited SDEI_NORMAL s -> sdei_wf s.
Proof.
  intros [Hpl Hsl Hz Hst] [Hp1 Hs1] [Hp2 Hs2]. split; [|done].
  assert (forall m map p, visited SDEI_CRITICAL p m s -> visited SDEI_NORMAL p m s ->
    lookup_map m (tables s) = Some map -> is_event_private map = p /\ reg_count map = 0) as Hc.
  { intros m map p H1 H2 Hm. destruct (H1 _ Hm) as [Ha Hb], (H2 _ Hm) as [_ Hd]. split; [done|].
    unfold map_to_class in *. destruct (is_event_critical map); auto. }
  split; try done.
  - intros i m Hm. by apply (Hc (PrivMap i) m true).
  - intros i m Hm. by apply (Hc (ShrdMap i) m false).
  - intros se e He. rewrite (Hz _ _ He). cbn. set_solver.
  - intros i m e Hm He. destruct (Hc (ShrdMap i) m false) as [_ ->]; try done.
    cbn. by rewrite registered_bit, (Hz (ShrdEntry i) e).
  - intros i m Hm. destruct (Hc (PrivMap i) m true) as [_ ->]; try done. by rewrite no_registration.
Qed.

Lemma wp_sdei_init me s :
  sdei_image s -> wp (sdei_init me) (fun _ s' => sdei_wf s') (fun _ _ => True) s.
Proof.
  intros Hs. unfold sdei_init. apply wp_then_quiet; [quiet|]. intros _ s1 H1 _.
  apply wp_bind. eapply wp_mono; [apply wp_class_init| |done]. intros _ s2 [H2 Hv2].
  apply wp_bind. eapply wp_mono; [apply wp_class_init| |done]. intros _ s3 [H3 Hv3].
  apply wp_then_quiet; [quiet|]. intros _ s4 H4 _.
  eapply wp_mono; [apply wp_evolves_quiet; quiet| |done]. intros z s5 H5.
  assert (evolves s3 s5) as H35 by (by etrans). assert (evolves s2 s5) as H25 by (by etrans).
  apply image_wf.
  - apply (es_image _ _ H25), (es_image _ _ H2), (es_image _ _ H1), Hs.
  - by apply (all_visited_evolves _ s2).
  - by apply (all_visited_evolves _ s3).
Qed.

(** A boot of the dispatcher on some CPU, followed by anything. *)
Definition sdei_reachable (s0 s : sdei_state) : Prop :=
  exists me s1, sdei_init me s0 = Done tt s1 /\ rtc sdei_step s1 s.

Lemma steps_keep s s' : rtc sdei_step s s' -> sdei_wf s -> sdei_wf s'.
Proof. induction 1 as [|x y z Hxy _ IH]; [done|]. intros Hx. by eapply IH, step_keeps. Qed.

(** C36. The tables of the dispatcher are consistent from [sdei_init] on,
    under any sequence of calls, interrupts, explicit dispatches, CPUs coming
    on and Non-secure code, on any CPUs, whatever mappings the platform
    declares: a private mapping is private and a shared one shared, every
    handler is in one of the six states of the specification (never enabled
    without being registered), a shared event counts one registration exactly
    when its handler is registered, a private event at least one per CPU that
    registered it, and no dispatch stack leaves its two slots. *)
Theorem sdei_tables_consistent s0 s : sdei_image s0 -> sdei_reachable s0 s -> sdei_wf s.
Proof.
  intros H0 (me & s1 & Hinit & Hr). apply (steps_keep _ _ Hr).
  pose proof (wp_sdei_init me s0 H0) as H. unfold wp in H. by rewrite Hinit in H.
Qed.
End SdeiInit.
