(* ===== verification/SdeiProps.v ===== *)
(** * SDEI dispatcher: dispatch, completion and reset *)

From stdpp Require Import list_numbers.
From S2P Require Import Prelude InterruptMgmt Traps Ehf SdeiTypes Sdei SdeiMain SdeiCalls SdeiInv SdeiFrame SdeiSafety.
#[local] Open Scope cmd_scope.

Section Dispatch.
Context `{Plat : SdeiPlatform} `{EhfCfg : EhfConfig} (me : Z).

(** ** Exact runs of the primitives *)

Lemma my_ctx_run s c : (ns_ctx s).[me] = Some c -> my_ctx me s = Done c s.
Proof. intros Hc. unfold my_ctx, bind, gets, id. by rewrite Hc. Qed.

Lemma my_pe_run s st : (cpu_state s).[me] = Some st -> my_pe me s = Done st s.
Proof. intros Hc. unfold my_pe, bind, gets, id. by rewrite Hc. Qed.

Lemma get_map_run m s map : lookup_map m (tables s) = Some map -> get_map m s = Done map s.
Proof. intros Hm. unfold get_map, bind, gets, id. destruct m; cbn in *; by rewrite Hm. Qed.

Lemma get_entry_run se s e : lookup_entry se (tables s) = Some e -> get_entry se s = Done e s.
Proof. intros He. unfold get_entry, bind, gets, id. destruct se; cbn in *; by rewrite He. Qed.

Lemma event_entry_run m s map :
  tables_wf (tables s) -> lookup_map m (tables s) = Some map ->
  get_event_entry me m s = Done (entry_for me m (tables s)) s.
Proof.
  intros Hwf Hm. unfold get_event_entry. unfold bind at 1. rewrite (get_map_run _ _ _ Hm). destruct m; cbn in Hm.
  - by rewrite (tw_priv _ Hwf _ _ Hm).
  - by rewrite (tw_shrd _ Hwf _ _ Hm).
Qed.

Lemma get_slot_run s st i d :
  (cpu_state s).[me] = Some st -> (dispatch_stack st).[i] = Some d -> get_slot me i s = Done d s.
Proof. intros Hst Hd. unfold get_slot, bind. by rewrite (my_pe_run _ _ Hst), Hd. Qed.

Definition with_slot (i : Z) (d : sdei_dispatch_context_t) (st : sdei_cpu_state_t) : sdei_cpu_state_t := {|
  dispatch_stack := zupdate (dispatch_stack st) i d; stack_top := stack_top st;
  pe_masked := pe_masked st; pending_enables := pending_enables st |}.

Lemma put_slot_run s st i d d0 :
  (cpu_state s).[me] = Some st -> (dispatch_stack st).[i] = Some d0 ->
  put_slot me i d s = Done tt (set_cpu_states (zupdate (cpu_state s) me (with_slot i d st)) s).
Proof. intros Hst Hd. unfold put_slot, bind. by rewrite (my_pe_run _ _ Hst), Hd. Qed.

(** What a dispatch saves in the slot it takes: the event, where to resume,
    and the interrupted context. *)
Record saves (m : map_ref) (j : jmp_buf) (c : ns_context) (d : sdei_dispatch_context_t) : Prop := {
  sv_map : dc_map d = Some m;
  sv_jmp : dc_jmp d = Some j;
  sv_x : dc_x d = take 18 (gpregs c);
  sv_elr : dc_elr_el3 d = ctx_elr_el3 c;
  sv_spsr : dc_spsr_el3 d = ctx_spsr_el3 c;
  sv_cve : DYNAMIC_WORKAROUND_CVE_2018_3639 = true -> dc_disable_cve_2018_3639 d = ctx_cve_2018_3639_disable c
}.

(** The stack of this CPU with that slot on top. *)
Definition pushed (m : map_ref) (j : jmp_buf) (c : ns_context) (st st1 : sdei_cpu_state_t) : Prop :=
  stack_top st1 = stack_top st + 1 /\ pe_masked st1 = pe_masked st /\ 0 <= stack_top st < MAX_EVENT_NESTING /\
  exists d, (dispatch_stack st1).[stack_top st] = Some d /\ saves m j c d.

(** The stack after [setup_ns_dispatch]. *)
Lemma wp_ns_dispatch m se j s st c map e (Q : unit -> sdei_state -> Prop) :
  (cpu_state s).[me] = Some st -> pe_ok st -> (ns_ctx s).[me] = Some c ->
  lookup_map m (tables s) = Some map -> lookup_entry se (tables s) = Some e ->
  (forall s' st1, tables s' = tables s -> (cpu_state s').[me] = Some st1 -> pushed m j c st st1 -> Q tt s') ->
  wp (setup_ns_dispatch me m se j) Q (fun _ _ => True) s.
Proof.
  intros Hst [Hlen Htop] Hc Hm He HQ. unfold setup_ns_dispatch, save_event_ctx, push_dispatch.
  pose proof (zlookup_lt_Some _ _ _ Hst) as Hme. pose proof (zlookup_lt_Some _ _ _ Hc) as Hmc.
  apply wp_bind. eapply wp_bind_exact; [by apply my_ctx_run|]. apply wp_bind.
  eapply wp_bind_exact; [by apply my_pe_run|]. apply wp_bind. unfold assert_.
  destruct (Z.ltb_spec (stack_top st) MAX_EVENT_NESTING) as [Hlt|]; cbn [negb andb]; [|done]. apply wp_ret.
  unfold MAX_EVENT_NESTING in *. apply wp_bind, wp_modify, wp_ret.
  set (st1 := {| dispatch_stack := dispatch_stack st |}). set (s1 := set_cpu_states _ s).
  assert ((cpu_state s1).[me] = Some st1) as Hst1 by (by apply zlookup_zupdate_eq).
  destruct (proj2 (zlookup_lt_is_Some (dispatch_stack st) (stack_top st))) as [d0 Hd0]; [lia|].
  eapply wp_bind_exact; [by apply (get_slot_run s1 st1)|].
  eapply wp_bind_exact; [by apply (put_slot_run s1 st1 _ _ d0)|]. apply wp_ret.
  set (d1 := {| dc_map := Some m |}). set (s2 := set_cpu_states _ s1). set (st2 := with_slot (stack_top st) d1 st1).
  assert ((cpu_state s2).[me] = Some st2) as Hst2.
  { apply zlookup_zupdate_eq. cbn. by rewrite length_zupdate. }
  assert ((dispatch_stack st2).[stack_top st] = Some d1) as Hd1.
  { apply zlookup_zupdate_eq. cbn. lia. }
  eapply wp_bind_exact; [by apply (get_slot_run s2 st2)|].
  eapply wp_bind_exact; [by apply (get_map_run m s2 map)|].
  eapply wp_bind_exact; [by apply (get_entry_run se s2 e)|].
  unfold set_args. apply wp_bind. eapply wp_bind_exact; [by apply (my_ctx_run s2 c)|]. apply wp_modify.
  set (c3 := {| gpregs := _ |}). set (s3 := set_ns_ctx _ s2).
  assert ((ns_ctx s3).[me] = Some c3) as Hc3 by (by apply zlookup_zupdate_eq).
  apply wp_bind. unfold sdei_set_elr_spsr, sdei_client_el, cm_set_elr_spsr_el3.
  eapply wp_bind_exact; [by apply (my_ctx_run s3 c3)|].
  eapply wp_bind_exact; [unfold bind; by rewrite (my_ctx_run s3 c3)|].
  eapply wp_bind_exact; [by apply (my_ctx_run s3 c3)|]. apply wp_modify.
  set (c4 := {| gpregs := _ |}). set (s4 := set_ns_ctx _ s3).
  assert ((ns_ctx s4).[me] = Some c4) as Hc4 by (apply zlookup_zupdate_eq; cbn; by rewrite length_zupdate).
  eapply wp_bind_exact; [by apply (my_ctx_run s4 c4)|]. apply wp_bind.
  set (d5 := {| dc_map := dc_map d1 |}).
  assert (forall s5, tables s5 = tables s -> cpu_state s5 = cpu_state s2 ->
            wp (put_slot me (stack_top st) d5) Q (fun _ _ => True) s5) as Hend.
  { intros s5 Ht5 Hc5. eapply wp_exact; [apply (put_slot_run s5 st2 _ _ d1); by rewrite ?Hc5|].
    rewrite Hc5. apply (HQ _ (with_slot (stack_top st) d5 st2)); [done| |].
    - apply zlookup_zupdate_eq. cbn. by rewrite !length_zupdate.
    - split_and!; [done|done|lia|done|]. exists d5. split.
      + apply zlookup_zupdate_eq. cbn. rewrite length_zupdate. lia.
      + split; try done. intros Hcve. cbn. by rewrite Hcve. }
  destruct DYNAMIC_WORKAROUND_CVE_2018_3639; cbn [when]; [|apply wp_ret; by apply Hend].
  unfold set_cve. eapply wp_bind_exact; [by apply (my_ctx_run s4 c4)|]. by apply wp_modify, Hend.
Qed.

(** ** Dispatches *)

Lemma dispatch_table st n :
  legal st -> table_next st DO_DISPATCH = Some n -> n <> X___ -> st = rEG_ /\ n = REG_.
Proof.
  intros Hst Hn HX. unfold legal, legal_states in *. rewrite !elem_of_cons in Hst.
  destruct Hst as [->|[->|[->|[->|[->|[->|[]%not_elem_of_nil]]]]]]; cbn in Hn; injection Hn as <-; done.
Qed.

Lemma trans_frames_ctx se act : frames ns_ctx (can_sdei_state_trans se act).
Proof.
  unfold can_sdei_state_trans. apply quiet_bind; [quiet|]. intros e. apply quiet_if; [quiet|].
  do 2 (apply quiet_bind; [quiet|]; intros ?). do 2 (apply quiet_if; [quiet|]).
  apply quiet_bind; [|quiet]. by intros s; destruct se.
Qed.

Lemma whole_parts s s' : whole s' = whole s -> tables s' = tables s /\ cpu_state s' = cpu_state s /\ ns_ctx s' = ns_ctx s.
Proof.
  intros H. pose proof (f_equal fst H) as Hp. pose proof (f_equal snd H) as Hn. cbn in Hp, Hn.
  split_and!; [exact (f_equal fst Hp)|exact (f_equal snd Hp)|done].
Qed.

Lemma wp_frames {A B} (c : sdei A) (k : A -> sdei B) (Q : B -> sdei_state -> Prop) s :
  frames whole c -> (forall a s', c s = Done a s' -> whole s' = whole s -> wp (k a) Q (fun _ _ => True) s') ->
  wp (bind c k) Q (fun _ _ => True) s.
Proof.
  intros Hc Hk. apply wp_bind. specialize (Hc s). unfold wp at 1.
  destruct (c s) as [a s'|w s'] eqn:Hr; [|done]. by apply (Hk a s').
Qed.

(** What a dispatch of [m] from [s] to [s1] did. *)
Definition dispatched (m : map_ref) (j : jmp_buf) (s s1 : sdei_state) : Prop :=
  exists e c st st1, is_Some (lookup_map m (tables s)) /\
    lookup_entry (entry_for me m (tables s)) (tables s) = Some e /\ state e = rEG_ /\
    tables s1 = upd_entry (entry_for me m (tables s)) (with_state REG_ e) (tables s) /\
    (ns_ctx s).[me] = Some c /\ (cpu_state s).[me] = Some st /\ (cpu_state s1).[me] = Some st1 /\
    pushed m j c st st1.

Definition outcome (jb : map_ref -> jmp_buf) (s : sdei_state) (r : dispatch_result) (s1 : sdei_state) : Prop :=
  r = Dispatched -> exists m, dispatched m (jb m) s s1.

(** The handler was marked running, and nothing else changed. *)
Definition taken (m : map_ref) (s s1 : sdei_state) : Prop :=
  exists e, lookup_entry (entry_for me m (tables s)) (tables s) = Some e /\ state e = rEG_ /\
    tables s1 = upd_entry (entry_for me m (tables s)) (with_state REG_ e) (tables s) /\
    cpu_state s1 = cpu_state s /\ ns_ctx s1 = ns_ctx s.

Lemma taken_frames m s s1 s2 : whole s2 = whole s1 -> taken m s s1 -> taken m s s2.
Proof. intros (Ht & Hc & Hn)%whole_parts. unfold taken. by rewrite Ht, Hc, Hn. Qed.

(** The transition both dispatch routines begin with. *)
Lemma wp_take {A} m (no yes : sdei A) (Q : A -> sdei_state -> Prop) s s0 :
  sdei_wf s -> whole s0 = whole s ->
  (forall s', wp no Q (fun _ _ => True) s') ->
  (forall s1, taken m s s1 -> wp yes Q (fun _ _ => True) s1) ->
  wp (let! ok := can_sdei_state_trans (entry_for me m (tables s)) DO_DISPATCH in if negb ok then no else yes)
     Q (fun _ _ => True) s0.
Proof.
  intros [Ht _] (Ht0 & Hc0 & Hn0)%whole_parts Hno Hyes. set (se := entry_for me m (tables s)).
  assert (forall e n, lookup_entry se (tables s0) = Some e -> table_next (state e) DO_DISPATCH = Some n ->
            n <> X___ -> state e = rEG_ /\ n = REG_) as Htab.
  { intros e n He. rewrite Ht0 in He. apply dispatch_table. by eapply tw_legal. }
  pose proof (trans_frames_ctx se DO_DISPATCH s0) as Hctx. apply wp_bind.
  pose proof (wp_trans se DO_DISPATCH (fun b s' => b = true -> ns_ctx s' = ns_ctx s -> taken m s s') s0) as Htr.
  unfold wp in Htr |- * at 1. destruct (can_sdei_state_trans se DO_DISPATCH s0) as [b s1|]; [|done]. cbn in Hctx.
  destruct b; cbn [negb]; [|apply Hno]. apply Hyes, Htr; [| | |done|by rewrite Hctx].
  - done.
  - intros e s' He Hn _ _. by destruct (Htab _ _ He Hn).
  - intros e n s' He Hn HX _ Hup Hcpu _ Hns. destruct (Htab _ _ He Hn HX) as [Hst ->].
    exists e. fold se. by rewrite <- Ht0, <- Hc0.
Qed.

(** The end of both. *)
Lemma wp_taken_setup m jb s s1 st cx :
  sdei_wf s -> (cpu_state s).[me] = Some st -> (ns_ctx s).[me] = Some cx -> is_Some (lookup_map m (tables s)) ->
  taken m s s1 ->
  wp (setup_ns_dispatch me m (entry_for me m (tables s)) (jb m) ;; ret Dispatched)
     (outcome jb s) (fun _ _ => True) s1.
Proof.
  intros [Ht Hs] Hst0 Hcx [map Hm] (e & He & Hst & Ht1 & Hc1 & Hn1). apply wp_bind.
  eapply (wp_ns_dispatch m _ (jb m) s1 st cx map (with_state REG_ e)).
  - by rewrite Hc1.
  - by eapply Hs.
  - by rewrite Hn1.
  - by rewrite Ht1, lookup_map_upd_entry.
  - rewrite Ht1. by eapply lookup_upd_entry.
  - intros s3 st1 Ht3 Hst1 Hpush. apply wp_ret. intros _. exists m, e, cx, st, st1.
    split_and!; try done. by rewrite Ht3.
Qed.

Lemma get_map_whole m s s0 map s' :
  whole s0 = whole s -> get_map m s0 = Done map s' -> is_Some (lookup_map m (tables s)).
Proof. intros (Ht & _)%whole_parts H. apply get_map_done in H as [H _]. rewrite <- Ht. eauto. Qed.

Lemma entry_whole m s s0 se s' :
  tables_wf (tables s) -> whole s0 = whole s -> get_event_entry me m s0 = Done se s' ->
  se = entry_for me m (tables s).
Proof.
  intros Hwf (Ht & _ & _)%whole_parts Hse. rewrite <- Ht in Hwf |- *.
  by destruct (event_entry_done _ _ _ _ _ Hwf Hse) as [? _].
Qed.

Lemma wp_dispatch_event ev s st c :
  sdei_wf s -> (cpu_state s).[me] = Some st -> (ns_ctx s).[me] = Some c ->
  wp (sdei_dispatch_event me ev) (outcome AfterDispatch s) (fun _ _ => True) s.
Proof.
  intros Hs Hst Hc. unfold sdei_dispatch_event.
  assert (forall r s', wp (ret (Returned r)) (outcome AfterDispatch s) (fun _ _ => True) s') as Hret
    by (intros; by apply wp_ret).
  apply wp_frames; [quiet|]. intros st0 s1 _ H1. do 2 (case_match; [apply Hret|]).
  apply wp_frames; [quiet|]. intros [m|] s2 _ H2; [|apply Hret].
  apply wp_frames; [quiet|]. intros map s3 Hm H3. apply (get_map_whole _ s) in Hm; [|congruence].
  case_match; [apply Hret|].
  apply wp_frames; [quiet|]. intros od s4 _ Ho. apply wp_frames; [destruct od; quiet|]. intros busy s5 _ H5.
  destruct busy; [apply Hret|]. apply wp_frames; [quiet|]. intros se s6 Hse H6.
  assert (whole s5 = whole s) as H05 by congruence. rewrite (entry_whole _ s _ _ _ (proj1 Hs) H05 Hse).
  apply wp_take; [done|congruence|done|]. intros s7 H7.
  apply wp_frames; [quiet|]. intros _ s8 _ H8. apply wp_frames; [quiet|]. intros _ s9 _ H9.
  eapply wp_taken_setup; [done..|]. eapply taken_frames; [|done]. congruence.
Qed.

Lemma wp_intr_handler raw ss s st c :
  sdei_wf s -> (cpu_state s).[me] = Some st -> (ns_ctx s).[me] = Some c ->
  wp (sdei_intr_handler me raw ss) (outcome (fun m => AfterInterrupt m raw ss) s) (fun _ _ => True) s.
Proof.
  intros Hs Hst Hc. unfold sdei_intr_handler.
  assert (forall A (c : sdei A) r s', wp (c ;; ret (Returned r))
            (outcome (fun m => AfterInterrupt m raw ss) s) (fun _ _ => True) s') as Hret.
  { intros. apply wp_bind. unfold wp. by destruct (c0 s'). }
  apply wp_frames; [quiet|]. intros [m|] s1 _ H1; [|done].
  apply wp_frames; [quiet|]. intros map s2 Hm H2. apply (get_map_whole _ s) in Hm; [|congruence].
  apply wp_frames; [quiet|]. intros _ s3 _ H3. apply wp_frames; [quiet|]. intros se s4 Hse H4.
  assert (whole s3 = whole s) as H03 by congruence. rewrite (entry_whole _ s _ _ _ (proj1 Hs) H03 Hse).
  apply wp_frames; [quiet|]. intros st0 s5 _ H5. case_match.
  { apply wp_frames; [quiet|]. intros _ s6 _ _. apply wp_bind.
    unfold wp at 1. destruct (handle_masked_trigger _ _ _ _ _); [|done]. apply Hret. }
  apply wp_frames; [quiet|]. intros _ s6 _ H6. apply wp_frames; [quiet|]. intros _ s7 _ H7.
  apply wp_frames; [quiet|]. intros e s8 _ H8. apply wp_frames; [quiet|]. intros _ s9 _ H9.
  apply wp_take; [done|congruence| |].
  { intros s'. do 2 (apply wp_frames; [quiet|]; intros ? ? _ _). apply Hret. }
  intros s10 H10. apply wp_frames; [quiet|]. intros _ s11 _ H11. apply wp_frames; [quiet|]. intros _ s12 _ H12.
  apply wp_frames; [quiet|]. intros _ s13 _ H13. 
  eapply (wp_taken_setup m (fun m => AfterInterrupt m raw ss)); [done..|]. eapply taken_frames; [|done]. congruence.
Qed.

(** ** Completion *)

(** The context a completion leaves: the registers the dispatch saved over
    those of the client. *)
Definition restored (c c2 : ns_context) : ns_context := {|
  gpregs := take 18 (gpregs c) ++ drop 18 (gpregs c2); ctx_elr_el3 := ctx_elr_el3 c;
  ctx_spsr_el3 := ctx_spsr_el3 c; ctx_scr_el3 := ctx_scr_el3 c2;
  ctx_cve_2018_3639_disable :=
    if DYNAMIC_WORKAROUND_CVE_2018_3639 then ctx_cve_2018_3639_disable c else ctx_cve_2018_3639_disable c2 |}.

Definition popped (st : sdei_cpu_state_t) : sdei_cpu_state_t := {|
  dispatch_stack := dispatch_stack st; stack_top := stack_top st - 1; pe_masked := pe_masked st;
  pending_enables := pending_enables st |}.

(** The state a completion leaves a running handler in. *)
Lemma complete_table st :
  legal st -> Z.testbit st 2 = true -> table_next st DO_COMPLETE = Some (Z.clearbit st 2) /\ 0 <= Z.clearbit st 2 < 4.
Proof.
  intros Hst Hb. unfold legal, legal_states in *. rewrite !elem_of_cons in Hst.
  destruct Hst as [->|[->|[->|[->|[->|[->|[]%not_elem_of_nil]]]]]]; done.
Qed.

Lemma trans_run se act s e n :
  lookup_entry se (tables s) = Some e -> state e < MAX_STATES -> table_next (state e) act = Some n ->
  n <> X___ -> n <> NOP_ -> exists s', can_sdei_state_trans se act s = Done true s' /\
    tables s' = upd_entry se (with_state n e) (tables s) /\ cpu_state s' = cpu_state s /\ ns_ctx s' = ns_ctx s.
Proof.
  intros He Hlt Hn HX HN. unfold can_sdei_state_trans, bind at 1. rewrite (get_entry_run _ _ _ He).
  destruct (Z.leb_spec MAX_STATES (state e)); [lia|]. unfold table_next in Hn.
  destruct (sdei_state_table.[state e]) as [row|]; [|done].
  change (row.[action_index act] = Some n) in Hn. unfold bind, deref. unfold ret at 1. rewrite Hn. unfold ret at 1.
  rewrite (proj2 (Z.eqb_neq _ _) HX), (proj2 (Z.eqb_neq _ _) HN). eexists. split; [done|]. by destruct se.
Qed.

Lemma frames_done (c : sdei unit) s s' : frames whole c -> c s = Done tt s' -> whole s' = whole s.
Proof. intros Hf Hc. specialize (Hf s). by rewrite Hc in Hf. Qed.

Lemma lock_run m map s : exists s', lock_if_shared m map s = Done tt s' /\ whole s' = whole s.
Proof. unfold lock_if_shared, when. destruct (is_event_shared map); eexists; split; try done. Qed.
Lemma unlock_run m map s : exists s', unlock_if_shared m map s = Done tt s' /\ whole s' = whole s.
Proof. unfold unlock_if_shared, when. destruct (is_event_shared map); eexists; split; try done. Qed.

(** A completion, from any state in which the slot on top is one a dispatch
    saved and its handler still runs. *)
Lemma complete_run m j c c2 st st2 e2 pc s2 :
  sdei_wf s2 -> (cpu_state s2).[me] = Some st2 -> pushed m j c st st2 -> is_Some (lookup_map m (tables s2)) ->
  lookup_entry (entry_for me m (tables s2)) (tables s2) = Some e2 -> Z.testbit (state e2) 2 = true ->
  (ns_ctx s2).[me] = Some c2 ->
  exists s3, sdei_event_complete me false pc s2 = Done (inr j) s3 /\
    tables s3 = upd_entry (entry_for me m (tables s2)) (with_state (Z.clearbit (state e2) 2) e2) (tables s2) /\
    cpu_state s3 = zupdate (cpu_state s2) me (popped st2) /\ (ns_ctx s3).[me] = Some (restored c c2).
Proof.
  intros [Ht2 _] Hst2 (Htop & _ & Hrng & d & Hd & Hsv) [map Hm] He2 Hb Hc2. unfold MAX_EVENT_NESTING in Hrng.
  pose proof (tw_legal _ Ht2 _ _ He2) as Hleg. destruct (complete_table _ Hleg Hb) as [Htab Hr].
  pose proof (zlookup_lt_Some _ _ _ Hc2) as Hmc.
  cut (wpd (sdei_event_complete me false pc) (fun r s3 => r = inr j /\
    tables s3 = upd_entry (entry_for me m (tables s2)) (with_state (Z.clearbit (state e2) 2) e2) (tables s2) /\
    cpu_state s3 = zupdate (cpu_state s2) me (popped st2) /\ (ns_ctx s3).[me] = Some (restored c c2)) s2).
  { intros (r & s3 & Hrun & -> & H)%wpd_done. eauto. }
  unfold sdei_event_complete, sdei_client_el. apply wp_bind. eapply wp_bind_exact; [by apply my_ctx_run|]. apply wp_ret.
  unfold get_outstanding_dispatch. apply wp_bind. eapply wp_bind_exact; [by apply my_pe_run|].
  destruct (Z.eqb_spec (stack_top st2) 0); [lia|]. apply wp_bind.
  apply wp_assert; [apply Z.leb_le; unfold MAX_EVENT_NESTING; lia|]. apply wp_bind.
  apply (wp_deref _ d); [rewrite <- Hd; f_equal; lia|]. apply wp_ret. cbn [andb]. apply wp_bind.
  apply (wp_deref _ m); [apply Hsv|]. eapply wp_bind_exact; [by apply get_map_run|].
  eapply wp_bind_exact; [by eapply event_entry_run|].
  destruct (lock_run m map s2) as (s4 & Hl4 & (Ht4 & Hc4 & Hn4)%whole_parts). eapply wp_bind_exact; [done|].
  destruct (trans_run (entry_for me m (tables s2)) DO_COMPLETE s4 e2 (Z.clearbit (state e2) 2))
    as (s5 & Hr5 & Ht5 & Hc5 & Hn5); [by rewrite Ht4|by apply legal_lt|done|unfold X___; lia|unfold NOP_; lia|].
  eapply wp_bind_exact; [done|]. cbn [negb].
  destruct (unlock_run m map s5) as (s6 & Hl6 & (Ht6 & Hc6 & Hn6)%whole_parts). eapply wp_bind_exact; [done|].
  unfold pop_dispatch. apply wp_bind.
  eapply wp_bind_exact; [apply (my_pe_run s6 st2); by rewrite Hc6, Hc5, Hc4|].
  destruct (Z.eqb_spec (stack_top st2) 0); [lia|]. apply wp_bind.
  apply wp_assert; [apply Z.leb_le; unfold MAX_EVENT_NESTING; lia|].
  apply wp_bind, wp_modify, wp_ret. fold (popped st2). set (s7 := set_cpu_states _ s6).
  unfold restore_event_ctx. apply wp_bind.
  eapply wp_bind_exact; [apply (my_ctx_run s7 c2); cbn; by rewrite Hn6, Hn5, Hn4|]. apply wp_modify.
  apply wp_bind, wp_ret, wp_bind. apply (wp_deref _ j); [apply Hsv|]. apply wp_ret. split; [done|].
  split; [|split]; cbn.
  - change (tables s6 = upd_entry (entry_for me m (tables s2)) (with_state (Z.clearbit (state e2) 2) e2) (tables s2)).
    by rewrite Ht6, Ht5, Ht4.
  - by rewrite Hc6, Hc5, Hc4.
  - rewrite zlookup_zupdate_eq by (rewrite Hn6, Hn5, Hn4; done). unfold restored.
    destruct Hsv as [_ _ -> -> -> Hcve]. destruct DYNAMIC_WORKAROUND_CVE_2018_3639; [by rewrite Hcve|done].
Qed.
End Dispatch.

(** ** The round trip *)

Section RoundTrip.
Context `{Plat : SdeiPlatform} `{EhfCfg : EhfConfig}.

(** EL3 leaves for the client's handler, through an interrupt or a call of
    [sdei_dispatch_event]; [jb] is where it will resume. *)
Inductive leaves_el3 (me : Z) (s s1 : sdei_state) : (map_ref -> jmp_buf) -> Prop :=
  | by_interrupt intr_raw ss :
      sdei_intr_handler me intr_raw ss s = Done Dispatched s1 ->
      leaves_el3 me s s1 (fun m => AfterInterrupt m intr_raw ss)
  | by_call ev : sdei_dispatch_event me ev s = Done Dispatched s1 -> leaves_el3 me s s1 AfterDispatch.

Lemma leaves_dispatched me s s1 jb st c :
  sdei_wf s -> (cpu_state s).[me] = Some st -> (ns_ctx s).[me] = Some c -> leaves_el3 me s s1 jb ->
  exists m, dispatched me m (jb m) s s1.
Proof.
  intros Hs Hst Hc [raw ss Hrun|ev Hrun].
  - pose proof (wp_intr_handler me raw ss s st c Hs Hst Hc) as H. unfold wp in H. rewrite Hrun in H. by apply H.
  - pose proof (wp_dispatch_event me ev s st c Hs Hst Hc) as H. unfold wp in H. rewrite Hrun in H. by apply H.
Qed.

(** The handler is back in the state it was dispatched from. *)
Lemma undo_dispatch se e t :
  lookup_entry se t = Some e -> state e = rEG_ ->
  upd_entry se (with_state (Z.clearbit REG_ 2) (with_state REG_ e)) (upd_entry se (with_state REG_ e) t) = t.
Proof.
  intros He Hst. rewrite upd_entry_twice. apply upd_entry_id. rewrite He. destruct e. cbn in *. by subst.
Qed.

(** C37. Dispatch and completion are a round trip. When EL3 leaves CPU [me]
    for the client's handler of an event, that handler was registered, enabled
    and idle and is now running. From any later state in which the CPU's
    dispatch stack is what the dispatch left and the handler still runs,
    whatever else the client or other CPUs did (enabled, disabled or
    unregistered events, changed its registers), [sdei_event_complete]
    succeeds: it resumes where the dispatch was made, takes the running bit of
    that handler and nothing else off the tables, pops the stack, and leaves
    the interrupted x0 to x17, ELR and SPSR in the context. If the client left
    the tables alone, they are those of before the dispatch. *)
Theorem sdei_dispatch_complete_roundtrip me s s1 jb st c :
  sdei_wf s -> (cpu_state s).[me] = Some st -> (ns_ctx s).[me] = Some c -> leaves_el3 me s s1 jb ->
  exists m e, is_Some (lookup_map m (tables s)) /\
    lookup_entry (entry_for me m (tables s)) (tables s) = Some e /\ state e = rEG_ /\
    tables s1 = upd_entry (entry_for me m (tables s)) (with_state REG_ e) (tables s) /\
    forall s2 c2 e2 pc,
      sdei_wf s2 -> (cpu_state s2).[me] = (cpu_state s1).[me] -> (ns_ctx s2).[me] = Some c2 ->
      is_Some (lookup_map m (tables s2)) ->
      lookup_entry (entry_for me m (tables s2)) (tables s2) = Some e2 -> Z.testbit (state e2) 2 = true ->
      exists s3 st3, sdei_event_complete me false pc s2 = Done (inr (jb m)) s3 /\
        tables s3 = upd_entry (entry_for me m (tables s2)) (with_state (Z.clearbit (state e2) 2) e2) (tables s2) /\
        (tables s2 = tables s1 -> tables s3 = tables s) /\
        (cpu_state s3).[me] = Some st3 /\ stack_top st3 = stack_top st /\ pe_masked st3 = pe_masked st /\
        (ns_ctx s3).[me] = Some (restored c c2).
Proof.
  intros Hs Hst Hc Hl. destruct (leaves_dispatched me s s1 jb st c Hs Hst Hc Hl)
    as (m & e & c' & st' & st1 & Hms & He & Hste & Ht1 & Hc' & Hst' & Hst1 & Hpush).
  assert (c' = c) as -> by congruence. assert (st' = st) as -> by congruence.
  exists m, e. split_and!; [done..|]. intros s2 c2 e2 pc Hs2 Hcpu Hc2 Hm2 He2 Hb. rewrite Hst1 in Hcpu.
  destruct (complete_run me m (jb m) c c2 st st1 e2 pc s2) as (s3 & Hrun & Ht3 & Hcpu3 & Hc3); try done.
  exists s3, (popped st1). split_and!; try done.
  - intros Heq. assert (entry_for me m (tables s2) = entry_for me m (tables s)) as Hef.
    { rewrite Heq, Ht1. destruct m; cbn; [|done]. by destruct (entry_for me (PrivMap i) (tables s)). }
    rewrite Hef in Ht3, He2. rewrite Heq, Ht1, (lookup_upd_entry _ _ e) in He2 by done.
    injection He2 as <-. rewrite Ht3, Heq, Ht1. by apply undo_dispatch.
  - rewrite Hcpu3. apply zlookup_zupdate_eq. by eapply zlookup_lt_Some.
  - destruct Hpush as (Htop & _). cbn. lia.
  - by destruct Hpush as (_ & Hmask & _).
Qed.
End RoundTrip.
