(* ===== verification/SdeiReset.v ===== *)
(** * SDEI dispatcher: the reset calls

    [sdei_private_reset] and [sdei_shared_reset] unregister each event by its
    number and, for the shared reset, release each bound interrupt. *)

From stdpp Require Import list_numbers.
From S2P Require Import Prelude InterruptMgmt Traps Ehf SdeiTypes Sdei SdeiMain SdeiCalls SdeiInv SdeiFrame SdeiSafety SdeiInit SdeiProps.
#[local] Open Scope cmd_scope.

(** ** Events are found by their number *)

(** No two mappings have the same event number. *)
Definition distinct_events (t : tables_t) : Prop :=
  forall m m' mp mp', lookup_map m t = Some mp -> lookup_map m' t = Some mp' -> ev_num mp = ev_num mp' -> m = m'.

Definition map_position (t : tables_t) (m : map_ref) : nat :=
  match m with PrivMap i => Z.to_nat i | ShrdMap i => length (t_priv t) + Z.to_nat i end%nat.

Lemma map_position_lookup t m mp :
  lookup_map m t = Some mp -> (t_priv t ++ t_shrd t) !! map_position t m = Some mp.
Proof.
  destruct m as [i|i]; cbn; intros H; pose proof (zlookup_lt_Some _ _ _ H); rewrite zlookup_to_nat in H by lia.
  - by apply lookup_app_l_Some.
  - rewrite lookup_app_r by lia. rewrite <- H. f_equal. lia.
Qed.

Lemma distinct_of_nodup t : NoDup (ev_num <$> (t_priv t ++ t_shrd t)) -> distinct_events t.
Proof.
  intros Hnd m m' mp mp' Hm Hm' Heq. pose proof (map_position_lookup _ _ _ Hm) as H1.
  pose proof (map_position_lookup _ _ _ Hm') as H2.
  assert (map_position t m = map_position t m') as Hpos.
  { eapply (NoDup_lookup _ _ _ (ev_num mp)); [exact Hnd|by rewrite list_lookup_fmap, H1|].
    by rewrite list_lookup_fmap, H2, Heq. }
  destruct m as [i|i], m' as [j|j]; cbn in *; apply zlookup_lt_Some in Hm, Hm'; try lia; f_equal; lia.
Qed.

Lemma find_index_Some {A} (p : A -> bool) l : forall i k, 0 <= i ->
  find_index p l i = Some k -> i <= k /\ exists x, l.[k - i] = Some x /\ p x = true.
Proof.
  induction l as [|x l IH]; intros i k Hi; cbn [find_index]; [done|]. destruct (p x) eqn:Hp.
  - intros [= <-]. split; [lia|]. exists x. split; [|done]. replace (i - i) with 0 by lia. done.
  - intros Hf. destruct (IH (i + 1) k ltac:(lia) Hf) as (Hk & y & Hy & Hpy). split; [lia|]. exists y. split; [|done].
    pose proof (zlookup_lt_Some _ _ _ Hy). rewrite zlookup_to_nat in Hy |- * by lia.
    replace (Z.to_nat (k - i)) with (S (Z.to_nat (k - (i + 1)))) by lia. done.
Qed.

Lemma find_index_None {A} (p : A -> bool) l i k x : find_index p l i = None -> l.[k] = Some x -> p x = false.
Proof.
  intros Hf Hx. pose proof (zlookup_lt_Some _ _ _ Hx). rewrite zlookup_to_nat in Hx by lia.
  apply list_elem_of_lookup_2 in Hx. clear H. revert i Hf. induction l as [|y l IH]; intros i; cbn [find_index].
  - by apply not_elem_of_nil in Hx.
  - destruct (p y) eqn:Hp; [done|]. apply elem_of_cons in Hx as [->|Hx]; [done|]. intros Hf. by eapply IH.
Qed.

Section SdeiReset.
Context `{Plat : SdeiPlatform} `{EhfCfg : EhfConfig}.

Lemma find_self m mp s :
  distinct_events (tables s) -> lookup_map m (tables s) = Some mp -> find_event_map (ev_num mp) s = Done (Some m) s.
Proof.
  intros Hd Hm. unfold find_event_map, bind, gets, id.
  destruct (find_index _ (private_mapping s) 0) as [i|] eqn:Hi.
  - apply find_index_Some in Hi as (_ & x & Hx & Heq%Z.eqb_eq); [|done]. rewrite Z.sub_0_r in Hx.
    by rewrite (Hd (PrivMap i) m x mp).
  - destruct m as [k|k]; [by eapply find_index_None in Hi; [|exact Hm]; rewrite Z.eqb_refl in Hi|].
    unfold ret. do 2 f_equal. destruct (find_index _ (shared_mapping s) 0) as [j|] eqn:Hj.
    + apply find_index_Some in Hj as (_ & x & Hx & Heq%Z.eqb_eq); [|done]. rewrite Z.sub_0_r in Hx. cbn. f_equal.
      by apply (Hd (ShrdMap j) (ShrdMap k) x mp).
    + eapply find_index_None in Hj; [|exact Hm]. by rewrite Z.eqb_refl in Hj.
Qed.

(** The mappings and their numbers are the same. *)
Definition same_events (t t' : tables_t) : Prop :=
  length (t_priv t') = length (t_priv t) /\ length (t_shrd t') = length (t_shrd t) /\
  forall m, ev_num <$> lookup_map m t' = ev_num <$> lookup_map m t.

#[export] Instance same_events_preorder : PreOrder same_events.
Proof.
  split; [by split|]. intros x y z (H1 & H2 & H3) (H4 & H5 & H6).
  split_and!; [congruence..|]. intros m. by rewrite H6.
Qed.

Lemma same_events_distinct t t' : same_events t t' -> distinct_events t -> distinct_events t'.
Proof.
  intros (_ & _ & He) Hd m m' mp mp' Hm Hm' Heq. pose proof (He m) as H1. pose proof (He m') as H2.
  rewrite Hm in H1. rewrite Hm' in H2. cbn in *.
  destruct (lookup_map m t) as [x|] eqn:Hx; [|done]. destruct (lookup_map m' t) as [y|] eqn:Hy; [|done].
  cbn in *. apply (Hd m m' x y); [done..|]. congruence.
Qed.

Lemma same_events_some t t' m : same_events t t' -> is_Some (lookup_map m t) -> is_Some (lookup_map m t').
Proof.
  intros (_ & _ & He) [x Hx]. specialize (He m). rewrite Hx in He. cbn in He.
  by destruct (lookup_map m t'); [eauto|].
Qed.

Lemma same_events_some_inv t t' m : same_events t t' -> is_Some (lookup_map m t') -> is_Some (lookup_map m t).
Proof.
  intros (_ & _ & He) [x Hx]. specialize (He m). rewrite Hx in He. cbn in He.
  by destruct (lookup_map m t); [eauto|].
Qed.

Lemma same_events_entry t t' me m : same_events t t' -> entry_for me m t' = entry_for me m t.
Proof. intros (Hl & _). destruct m; cbn; [|done]. by rewrite Hl. Qed.

Lemma same_events_upd m mp mp' se e t :
  lookup_map m t = Some mp -> ev_num mp' = ev_num mp -> same_events t (upd_map m mp' (upd_entry se e t)).
Proof.
  intros Hm Hev. split_and!; [by destruct m, se; cbn; rewrite ?length_zupdate..|]. intros k.
  destruct (decide (k = m)) as [->|Hne].
  - rewrite (lookup_upd_map _ _ mp) by (by rewrite lookup_map_upd_entry). rewrite Hm. cbn. by rewrite Hev.
  - by rewrite lookup_upd_map_ne, lookup_map_upd_entry.
Qed.

(** ** Idle handlers *)

Definition idle (me : Z) (m : map_ref) (t : tables_t) : Prop :=
  forall e, lookup_entry (entry_for me m t) t = Some e -> state e = reg_.

Lemma entry_for_inj me m m' t :
  is_Some (lookup_map m t) -> is_Some (lookup_map m' t) -> entry_for me m t = entry_for me m' t -> m = m'.
Proof.
  intros Hm Hm'. destruct m as [i|i], m' as [j|j]; cbn in *; intros [= H]; try done; [|congruence].
  f_equal. apply zlookup_lt_is_Some in Hm, Hm'. lia.
Qed.

Lemma idle_state st : legal st -> Z.testbit st 0 = false -> Z.testbit st 2 = false -> st = reg_.
Proof.
  intros Hst H0 H2. unfold legal, legal_states in *. rewrite !elem_of_cons in Hst.
  by destruct Hst as [->|[->|[->|[->|[->|[->|[]%not_elem_of_nil]]]]]].
Qed.

(** The unregistration of one event. *)
Lemma wp_unregister_event me m mp e s :
  sdei_wf s -> distinct_events (tables s) -> lookup_map m (tables s) = Some mp ->
  lookup_entry (entry_for me m (tables s)) (tables s) = Some e ->
  wp (sdei_event_unregister me (ev_num mp)) (unregister_result m (entry_for me m (tables s)) mp e s)
     (fun _ _ => True) s.
Proof.
  intros Hs Hd Hm He. unfold sdei_event_unregister. eapply wp_bind_exact; [by apply find_self|].
  eapply wp_bind_exact; [by eapply event_entry_run; [apply Hs|]|].
  apply wp_quiet; [quiet|]. intros _ s1 _ Hp1. pose proof (part_tables _ _ Hp1) as Ht1.
  apply (wf_part _ _ Hp1) in Hs. rewrite <- Ht1 in Hm, He |- *. apply wp_bind.
  eapply wp_mono; [by eapply wp_unregister_locked| |done]. intros rc s2 Hres.
  apply wp_quiet; [quiet|]. intros _ s3 _ Hp3. apply wp_ret.
  eapply unregister_result_part; [done|]. revert Hres. unfold unregister_result. by rewrite Ht1, (part_cpus _ _ Hp1).
Qed.

(** What it does to the handlers: the rest stay as they were. *)
Lemma unregister_effect me m mp e s rc s' :
  tables_wf (tables s) -> lookup_map m (tables s) = Some mp ->
  lookup_entry (entry_for me m (tables s)) (tables s) = Some e ->
  unregister_result m (entry_for me m (tables s)) mp e s rc s' ->
  same_events (tables s) (tables s') /\ (rc <> SDEI_EPEND -> idle me m (tables s')) /\
  forall m', is_Some (lookup_map m' (tables s)) -> m' <> m -> idle me m' (tables s) -> idle me m' (tables s').
Proof.
  intros Hwf Hm He [_ Hres]. destruct (Z.testbit (state e) 0) eqn:Hb.
  - destruct Hres as (-> & e' & He' & Ht). rewrite Ht.
    pose proof (same_events_upd m mp (with_reg_count (reg_count mp - 1) mp) (entry_for me m (tables s)) e' _ Hm eq_refl) as Hsame.
    split_and!; [done| |].
    + intros Hrc x. rewrite (same_events_entry _ _ _ _ Hsame), lookup_entry_upd_map, (lookup_upd_entry _ _ e) by done.
      intros [= <-]. rewrite He'. by destruct (Z.testbit (state e) 2).
    + intros m' Hm' Hne Hidle x. rewrite (same_events_entry _ _ _ _ Hsame), lookup_entry_upd_map, lookup_upd_entry_ne.
      * apply Hidle.
      * intros Heq. apply Hne. by eapply entry_for_inj.
  - destruct Hres as (-> & ->). split_and!; [done| |done]. intros Hrc x Hx. assert (x = e) as -> by congruence.
    apply idle_state; [by eapply tw_legal|done|]. by destruct (Z.testbit (state e) 2).
Qed.

(** ** Unregistering all *)

Lemma entry_exists me m t :
  tables_wf t -> cpu_ok me -> is_Some (lookup_map m t) -> is_Some (lookup_entry (entry_for me m t) t).
Proof.
  intros Hwf [Hm0 Hm1] H. destruct m as [i|i]; cbn in *.
  - apply zlookup_lt_is_Some in H. apply zlookup_lt_is_Some. rewrite (tw_pe_len _ Hwf). nia.
  - apply zlookup_lt_is_Some in H. apply zlookup_lt_is_Some. by rewrite (tw_se_len _ Hwf).
Qed.

Lemma wp_unregister_all me ms s :
  sdei_wf s -> cpu_ok me -> distinct_events (tables s) -> (forall m, m ∈ ms -> is_Some (lookup_map m (tables s))) ->
  wp (unregister_all me ms)
     (fun rc s' => sdei_wf s' /\ same_events (tables s) (tables s') /\
        (rc = 0 -> forall m, m ∈ ms -> idle me m (tables s')))
     (fun _ _ => True) s.
Proof.
  intros Hs Hme Hd Hms. unfold unregister_all.
  apply (wp_fold_each ms _ (fun done rc s' => sdei_wf s' /\ same_events (tables s) (tables s') /\
           (rc = 0 -> forall m, m ∈ done -> idle me m (tables s')))).
  { split_and!; [done..|]. by intros _ m Hm%not_elem_of_nil. }
  intros done m rc s1 [todo ->] (Hs1 & Hsame & Hidle).
  destruct (same_events_some _ _ m Hsame) as [mp Hm]; [apply Hms; set_solver|].
  eapply wp_bind_exact; [by apply get_map_run|]. apply wp_bind.
  destruct (entry_exists me m (tables s1)) as [e He]; [apply Hs1|done|by eexists|].
  eapply wp_mono; [eapply wp_unregister_event; [done|by eapply same_events_distinct|done..]| |done].
  intros r s2 Hres. pose proof (unregister_effect me m mp e s1 r s2 (proj1 Hs1) Hm He Hres) as (Hsame2 & Hnew & Hold).
  apply wp_ret. split_and!; [by eapply unregister_result_wf|by etrans|].
  destruct (Z.eqb_spec r SDEI_EPEND) as [|Hr]; cbn [andb].
  { destruct (Z.eqb_spec rc 0); intros H; by exfalso. }
  intros Hrc m' [Hm'|Hm'%list_elem_of_singleton]%elem_of_app; [|subst; by apply Hnew].
  destruct (decide (m' = m)) as [->|Hne]; [by apply Hnew|].
  apply Hold; [|done|by apply Hidle]. apply (same_events_some _ _ _ Hsame), Hms. set_solver.
Qed.

Lemma maps_range mk n m : m ∈ mk <$> seqZ 0 n -> exists i : Z, m = mk i :> map_ref /\ 0 <= i < n.
Proof. intros (i & -> & Hi%elem_of_seqZ)%list_elem_of_fmap. exists i. split; [done|lia]. Qed.

Lemma private_maps_some s m : m ∈ PrivMap <$> seqZ 0 (Z.of_nat (length (private_mapping s))) <->
  exists i, m = PrivMap i /\ is_Some (lookup_map m (tables s)).
Proof.
  split.
  - intros (i & -> & Hi)%maps_range. exists i. split; [done|]. by apply zlookup_lt_is_Some.
  - intros (i & -> & Hi%zlookup_lt_is_Some). apply list_elem_of_fmap. exists i. split; [done|]. by apply elem_of_seqZ.
Qed.

Lemma shared_maps_some s m : m ∈ ShrdMap <$> seqZ 0 (Z.of_nat (length (shared_mapping s))) <->
  exists i, m = ShrdMap i /\ is_Some (lookup_map m (tables s)).
Proof.
  split.
  - intros (i & -> & Hi)%maps_range. exists i. split; [done|]. by apply zlookup_lt_is_Some.
  - intros (i & -> & Hi%zlookup_lt_is_Some). apply list_elem_of_fmap. exists i. split; [done|]. by apply elem_of_seqZ.
Qed.

(** Every handler of a mapping of kind [mk] is idle. *)
Definition all_idle (me : Z) (mk : Z -> map_ref) (t : tables_t) : Prop :=
  forall i, is_Some (lookup_map (mk i) t) -> idle me (mk i) t.

Lemma wp_private_reset me s :
  sdei_wf s -> cpu_ok me -> distinct_events (tables s) ->
  wp (sdei_private_reset me) (fun rc s' => rc = 0 -> all_idle me PrivMap (tables s')) (fun _ _ => True) s.
Proof.
  intros Hs Hme Hd. unfold sdei_private_reset, private_maps, num_private. apply wp_bind, wp_bind, wp_gets, wp_ret.
  eapply wp_mono; [apply wp_unregister_all; try done| |done].
  - intros m (i & -> & Hi)%private_maps_some. done.
  - intros rc s' (Hs' & Hsame & Hidle) Hrc i Hi. apply (Hidle Hrc (PrivMap i)), private_maps_some.
    exists i. split; [done|]. by eapply same_events_some_inv.
Qed.

(** ** Releasing the bound interrupts *)

Definition dynamically_bound (map : sdei_ev_map_t) : bool := is_map_dynamic map && is_map_bound map.

Lemma clr_bound map : dynamically_bound (clr_map_bound map) = false.
Proof.
  unfold dynamically_bound, is_map_bound, clr_map_bound, is_set. cbn [map_flags with_flags].
  rewrite <- Z.land_assoc, (Z.land_comm (Z.lnot _)), Z.land_lnot_diag, Z.land_0_r. apply andb_false_r.
Qed.

(** No release changes the state of a handler. *)
Lemma release_table st n : legal st -> table_next st DO_RELEASE = Some n -> n = X___ \/ n = NOP_.
Proof.
  intros Hst Hn. unfold legal, legal_states in *. rewrite !elem_of_cons in Hst.
  destruct Hst as [->|[->|[->|[->|[->|[->|[]%not_elem_of_nil]]]]]]; cbn in Hn; injection Hn as <-; auto.
Qed.

(** A release either clears the binding of its mapping or refuses. *)
Definition release_result (m : map_ref) (mp : sdei_ev_map_t) (s : sdei_state) (rc : Z) (s' : sdei_state) : Prop :=
  rc <> 0 /\ tables s' = tables s \/
  rc = 0 /\ exists mp', ev_num mp' = ev_num mp /\ dynamically_bound mp' = false /\ tables s' = upd_map m mp' (tables s).

Lemma wp_release me m mp s :
  sdei_wf s -> distinct_events (tables s) -> lookup_map m (tables s) = Some mp ->
  wp (sdei_interrupt_release me (ev_num mp)) (release_result m mp s) (fun _ _ => True) s.
Proof.
  intros Hs Hd Hm. unfold sdei_interrupt_release. eapply wp_bind_exact; [by apply find_self|].
  eapply wp_bind_exact; [by apply get_map_run|]. destruct (negb (is_map_dynamic mp)); [apply wp_ret; by left|].
  eapply wp_bind_exact; [by eapply event_entry_run; [apply Hs|]|].
  apply wp_quiet; [quiet|]. intros _ s1 _ Hp1%part_tables. apply wp_bind.
  eapply wp_mono with (Q := release_result m mp s); [| |done].
  2: { intros r s2 Hr. apply wp_quiet; [quiet|]. intros _ s3 _ Hp3%part_tables. apply wp_ret.
       unfold release_result. by rewrite Hp3. }
  destruct (negb (reg_count mp =? 0)); [apply wp_ret; by left|]. apply wp_bind, wp_trans; cbn [negb].
  - intros e s2 _ _ Hp2%part_tables. apply wp_ret. left. by rewrite Hp2.
  - intros e s2 _ _ Hp2%part_tables. destruct (is_map_bound mp); [|apply wp_ret; left; by rewrite Hp2].
    apply wp_bind, wp_gets. destruct (negb _); [apply wp_ret; left; by rewrite Hp2|].
    apply wp_bind, wp_modify, wp_ret. right. split; [done|]. exists (clr_map_bound (with_intr SDEI_DYN_IRQ mp)).
    split_and!; [done|apply clr_bound|]. rewrite <- Hp1, <- Hp2. by destruct m.
  - intros e n s2 He Hn HX HN _ _. exfalso. rewrite Hp1 in He.
    by destruct (release_table _ _ (tw_legal _ (proj1 Hs) _ _ He) Hn).
Qed.

(** The mapping is not bound to an interrupt at run time. *)
Definition released (m : map_ref) (t : tables_t) : Prop :=
  forall mp, lookup_map m t = Some mp -> dynamically_bound mp = false.

(** Handlers and events are the same; mappings may have lost their
    binding. *)
Definition unbinds (t t' : tables_t) : Prop :=
  same_events t t' /\ t_pe t' = t_pe t /\ t_se t' = t_se t /\ forall m, released m t -> released m t'.

#[export] Instance unbinds_preorder : PreOrder unbinds.
Proof.
  split; [by split|]. intros x y z (H1 & H2 & H3 & H4) (H5 & H6 & H7 & H8).
  split_and!; [by etrans|congruence|congruence|auto].
Qed.

Lemma release_effect m mp s rc s' :
  lookup_map m (tables s) = Some mp -> release_result m mp s rc s' ->
  unbinds (tables s) (tables s') /\ (rc = 0 -> released m (tables s')).
Proof.
  intros Hm [[Hrc ->]|(_ & mp' & Hev & Hb & ->)]; [by split|].
  assert (forall k x, lookup_map k (upd_map m mp' (tables s)) = Some x ->
    x = mp' \/ lookup_map k (tables s) = Some x) as Hk.
  { intros k x. destruct (decide (k = m)) as [->|Hne].
    - rewrite (lookup_upd_map _ _ mp) by done. intros [= <-]. by left.
    - rewrite lookup_upd_map_ne by done. by right. }
  split.
  - split_and!; [|by destruct m|by destruct m|intros k Hrel x [->|Hx]%Hk; [done|by apply Hrel]].
    split_and!; [by destruct m; cbn; rewrite ?length_zupdate..|].
    intros k. destruct (decide (k = m)) as [->|Hne].
    + rewrite (lookup_upd_map _ _ mp), Hm by done. cbn. by rewrite Hev.
    + by rewrite lookup_upd_map_ne.
  - intros _ x Hx. rewrite (lookup_upd_map _ _ mp) in Hx by done. by injection Hx as <-.
Qed.

(** The loop over all the mappings. *)
Definition release_all (me : Z) (ms : list map_ref) (final_ret : Z) : sdei Z :=
  fold_each ms final_ret (fun m final_ret =>
    let! map := get_map m in
    if is_map_dynamic map && is_map_bound map then
      let! r := sdei_interrupt_release me (ev_num map) in
      ret (if negb (r =? 0) && (final_ret =? 0) then r else final_ret)
    else ret final_ret).

Lemma wp_release_all me ms s :
  sdei_wf s -> distinct_events (tables s) ->
  wp (release_all me ms 0)
     (fun rc s' => sdei_wf s' /\ unbinds (tables s) (tables s') /\
        (rc = 0 -> forall m, m ∈ ms -> released m (tables s')))
     (fun _ _ => True) s.
Proof.
  intros Hs Hd. apply (wp_fold_each ms _ (fun done rc s' => sdei_wf s' /\ unbinds (tables s) (tables s') /\
           (rc = 0 -> forall m, m ∈ done -> released m (tables s')))).
  { split_and!; [done..|]. by intros _ m Hm%not_elem_of_nil. }
  intros done m rc s1 _ (Hs1 & Hun & Hrel). apply wp_quiet; [quiet|].
  intros mp s2 Hm _. apply get_map_done in Hm as [Hm ->].
  assert (forall r s2, unbinds (tables s1) (tables s2) -> (r = 0 -> released m (tables s2)) -> rc = 0 -> r = 0 ->
    forall k, k ∈ done ++ [m] -> released k (tables s2)) as Hall.
  { intros r s2 (_ & _ & _ & Hmono) Hnew Hrc Hr k [Hk|Hk%list_elem_of_singleton]%elem_of_app; [by apply Hmono, Hrel|].
    subst k. by apply Hnew. }
  destruct (is_map_dynamic mp && is_map_bound mp) eqn:Hb.
  - apply wp_bind. pose proof (keeps_release me (ev_num mp) s1 Hs1) as Hk.
    assert (distinct_events (tables s1)) as Hd1 by (eapply same_events_distinct; [apply Hun|done]).
    pose proof (wp_release me m mp s1 Hs1 Hd1 Hm) as Hw. unfold wp in Hk, Hw |- * at 1.
    destruct (sdei_interrupt_release me (ev_num mp) s1) as [r s2|]; [|done].
    destruct (release_effect m mp s1 r s2 Hm Hw) as [Hun2 Hnew]. apply wp_ret.
    split_and!; [done|by etrans|]. intros Hz. destruct (Z.eqb_spec r 0), (Z.eqb_spec rc 0); cbn in Hz; try done.
    by eapply Hall.
  - apply wp_ret. split_and!; [done..|]. intros Hrc. apply (Hall 0); [done| |done|done].
    intros _ x Hx. assert (x = mp) as -> by congruence. done.
Qed.

Lemma wp_shared_reset me s :
  sdei_wf s -> cpu_ok me -> distinct_events (tables s) ->
  wp (sdei_shared_reset me) (fun rc s' => rc = 0 -> all_idle me ShrdMap (tables s') /\
     forall m, released m (tables s')) (fun _ _ => True) s.
Proof.
  intros Hs Hme Hd. unfold sdei_shared_reset, private_maps, shared_maps, num_private, num_shared.
  apply wp_bind, wp_bind, wp_gets, wp_ret, wp_bind.
  eapply wp_mono; [apply wp_unregister_all; try done| |done]; [by intros m (i & -> & Hi)%shared_maps_some|].
  intros rc s1 (Hs1 & Hsame & Hidle). destruct (Z.eqb_spec rc 0) as [->|Hrc]; cbn [negb]; [|by apply wp_ret].
  apply wp_bind, wp_bind, wp_gets, wp_ret, wp_bind, wp_bind, wp_gets, wp_ret.
  fold (release_all me ((PrivMap <$> seqZ 0 (Z.of_nat (length (private_mapping s1)))) ++
                        (ShrdMap <$> seqZ 0 (Z.of_nat (length (shared_mapping s1))))) 0).
  eapply wp_mono; [apply wp_release_all; [done|by eapply same_events_distinct]| |done].
  intros rc s2 (_ & (Hsame2 & Hpe & Hse & _) & Hrel) Hz. split.
  - intros i Hi e He. apply (same_events_some_inv _ _ _ Hsame2), (same_events_some_inv _ _ _ Hsame) in Hi.
    apply (Hidle eq_refl (ShrdMap i)); [apply shared_maps_some; eauto|].
    change ((t_se (tables s2)).[i] = Some e) in He. by rewrite Hse in He.
  - intros m mp Hm. apply (Hrel Hz m); [|done]. assert (is_Some (lookup_map m (tables s1))) as Hm1
      by (eapply same_events_some_inv; [done|]; eauto).
    destruct m as [i|i]; apply elem_of_app; [left; apply private_maps_some|right; apply shared_maps_some]; eauto.
Qed.

(** The reset calls answer 0 only when they have done what they promise.
    When event numbers are distinct and the tables are consistent, a
    [sdei_private_reset] that answers 0 leaves every private handler of the
    calling CPU unregistered, disabled and not running, and a
    [sdei_shared_reset] that answers 0 leaves every shared handler so and no
    mapping, private or shared, bound to an interrupt at run time. *)
Theorem sdei_reset_complete me s s' :
  sdei_wf s -> cpu_ok me -> distinct_events (tables s) ->
  (sdei_private_reset me s = Done 0 s' -> all_idle me PrivMap (tables s')) /\
  (sdei_shared_reset me s = Done 0 s' ->
     all_idle me ShrdMap (tables s') /\ forall m, released m (tables s')).
Proof.
  intros Hs Hme Hd. split; intros Hrun.
  - pose proof (wp_private_reset me s Hs Hme Hd) as H. unfold wp in H. rewrite Hrun in H. by apply H.
  - pose proof (wp_shared_reset me s Hs Hme Hd) as H. unfold wp in H. rewrite Hrun in H. by apply H.
Qed.
End SdeiReset.
