(* ===== verification/SdeiRun.v ===== *)
(** * SDEI dispatcher: a platform, and runs on it

    Two CPUs, the signalable event 0, an explicit and a dynamic private event, a
    static and a dynamic shared event. *)

From stdpp Require Import list_numbers.
From S2P Require Import Prelude InterruptMgmt Traps TrapsProps Ehf SdeiTypes Sdei SdeiMain SdeiCalls SdeiInv SdeiFrame SdeiSafety SdeiInit SdeiProps SdeiReset.
#[local] Open Scope cmd_scope.

Module SdeiRun.

(** The type the interrupt controller was last given for an interrupt; SGIs
    belong to EL3 from the start. *)
Fixpoint type_of (intr : Z) (t : list sdei_event) : Z :=
  match t with
  | [] => if intr <? 16 then INTR_TYPE_EL3 else INTR_TYPE_NS
  | Ic_set_type i ty :: t' => if i =? intr then ty else type_of intr t'
  | _ :: t' => type_of intr t'
  end.

Definition P : SdeiPlatform := {|
  sdei_cpu := TrapsRun.C;
  PLATFORM_CORE_COUNT := 2;
  PLAT_SDEI_CRITICAL_PRI := 0x60;
  PLAT_SDEI_NORMAL_PRI := 0x70;
  DYNAMIC_WORKAROUND_CVE_2018_3639 := true;
  plat_core_pos_by_mpidr := fun m => if (m =? 0) || (m =? 1) then m else -1;
  is_valid_mpidr := fun m => (m =? 0) || (m =? 1);
  mpidr_el1 := fun me => me;
  plat_sdei_validate_entry_point := fun _ _ => 0;
  plat_ic_get_interrupt_active := fun _ _ => 0;
  plat_ic_get_interrupt_type := type_of;
  plat_ic_interrupt_id := fun raw => raw;
  sdei_intr_handler_addr := 0x9000
|}.
Definition E : EhfConfig := {|
  num_priorities := 16; pri_bits := 4; plat_ic_acknowledge_interrupt := fun _ => (40, 0x70);
  plat_ic_get_interrupt_id := fun raw => raw; ehf_handler_answer := fun _ _ => 0;
  ehf_el3_interrupt_handler_addr := 0x1000
|}.
#[local] Existing Instances P E.

Definition mapping (ev intr fl : Z) : sdei_ev_map_t := {| ev_num := ev; map_intr := intr; map_flags := fl; reg_count := 0 |}.
Definition no_entry : sdei_entry_t := {| ep := 0; arg := 0; affinity := 0; reg_flags := 0; state := 0 |}.
Definition idle_pe : sdei_cpu_state_t := {|
  dispatch_stack := replicate 2 empty_dispatch; stack_top := 0; pe_masked := false; pending_enables := false |}.
Definition boot_ctx : ns_context := {|
  gpregs := seqZ 100 31; ctx_elr_el3 := 0x8000; ctx_spsr_el3 := 0x3C9; ctx_scr_el3 := SCR_HCE_BIT;
  ctx_cve_2018_3639_disable := 5 |}.
Definition boot_ehf : ehf_state := {|
  active_pri_bits := 0; init_pri_mask := 0; ns_pri_mask := 0; icc_pmr := 0xF0; icc_rpr := 0xFF;
  ns_x0 := 0; ehf_priorities := replicate 16 EHF_NO_HANDLER_; handled := [] |}.

(** The loaded image, with the private mappings [pm]. *)
Definition image_with (pm : list sdei_ev_map_t) : sdei_state := {|
  private_mapping := pm;
  shared_mapping := [mapping 300 40 0; mapping 301 0 2];
  sdei_private_event_table := replicate 6 no_entry;
  sdei_shared_event_table := replicate 2 no_entry;
  cpu_state := replicate 2 idle_pe;
  ns_ctx := replicate 2 boot_ctx;
  num_dyn_priv_slots := 0; num_dyn_shrd_slots := 0;
  cpu_ehf := replicate 2 boot_ehf;
  sdei_trace := [] |}.

Definition explicit_event : sdei_ev_map_t := mapping 100 0 0x50.
Definition image : sdei_state := image_with [mapping 0 8 0x18; mapping 99 0 0x12; explicit_event].

Definition booted : sdei_state := final (sdei_init 0 image).

(** A call of the EL2 client on CPU 0. *)
Definition smc (fid x1 x2 x3 x4 x5 : Z) : sdei_call := CallSmc id 1%nat fid x1 x2 x3 x4 x5 0x3C9 NON_SECURE.

(** The client unmasks events, registers and enables event 300, binds SPI 50
    to a shared event and registers it. *)
Definition client_setup : list sdei_call := [
  smc SDEI_PE_UNMASK 0 0 0 0 0;
  smc SDEI_EVENT_REGISTER 300 0x4000 7 0 0;
  smc SDEI_EVENT_ENABLE 300 0 0 0 0;
  smc SDEI_INTERRUPT_BIND 50 0 0 0 0;
  smc SDEI_EVENT_REGISTER 301 0x5000 8 0 0 ].

Fixpoint run_calls (me : Z) (cs : list sdei_call) (s : sdei_state) : sdei_state :=
  match cs with
  | [] => s
  | c :: cs' => run_calls me cs' (final (run_call me c s))
  end.

Fixpoint all_done (me : Z) (cs : list sdei_call) (s : sdei_state) : bool :=
  match cs with
  | [] => true
  | c :: cs' => match run_call me c s with Done _ s' => all_done me cs' s' | Stopped _ _ => false end
  end.

Lemma run_calls_steps me cs : cpu_ok me -> Forall call_ok cs ->
  forall s, all_done me cs s = true -> rtc sdei_step s (run_calls me cs s).
Proof.
  intros Hme Hcs. induction Hcs as [|c cs Hc _ IH]; intros s Hd; cbn in *; [done|].
  destruct (run_call me c s) as [[] s'|] eqn:Hr; [|done]. eapply rtc_l; [by eapply sdei_step_call|by apply IH].
Qed.

(** What holds after a command holds of the run it has. *)
Lemma wp_run {A} (c : sdei A) (Q : A -> sdei_state -> Prop) s a s' :
  wp c Q (fun _ _ => True) s -> c s = Done a s' -> Q a s'.
Proof. intros H Hr. unfold wp in H. by rewrite Hr in H. Qed.

Lemma zlookup_replicate {A} n (x y : A) i : (replicate n x).[i] = Some y -> y = x.
Proof.
  intros H. pose proof (zlookup_lt_Some _ _ _ H). rewrite zlookup_to_nat in H by lia.
  by apply lookup_replicate in H as [-> _].
Qed.

Lemma image_ok : sdei_image image.
Proof.
  split; [done|done| |].
  - intros [i|i] e He; apply zlookup_replicate in He; by subst.
  - intros c st Hst. apply zlookup_replicate in Hst. subst. by split; [|cbn].
Qed.

Lemma client_ok : Forall call_ok client_setup.
Proof. repeat first [apply List.Forall_nil|apply List.Forall_cons; [by intros s Hs|]]. Qed.

Definition ready : sdei_state := run_calls 0 client_setup booted.

Lemma ready_reachable : sdei_reachable image ready.
Proof.
  exists 0, booted. split; [vm_compute; reflexivity|]. apply run_calls_steps; [by split|exact client_ok|].
  vm_compute. reflexivity.
Qed.

(** Both shared events are registered and counted once. *)
Lemma sdei_tables_consistent_witness :
  (state <$> sdei_shared_event_table ready, reg_count <$> shared_mapping ready) = ([3; 1], [1; 1]) /\ sdei_wf ready.
Proof.
  split; [vm_compute; reflexivity|]. apply (sdei_tables_consistent image ready); [exact image_ok|exact ready_reachable].
Defined.

Lemma ready_wf : sdei_wf ready.
Proof.
  destruct ready_reachable as (me & s1 & Hinit & Hr). apply (steps_keep _ _ Hr).
  exact (wp_run _ _ _ _ _ (wp_sdei_init me image image_ok) Hinit).
Qed.

(** SPI 40 fires: the handler of event 300 is entered. *)
Definition fired : sdei_state := final (sdei_intr_handler 0 40 NON_SECURE ready).

Lemma fired_dispatched : sdei_intr_handler 0 40 NON_SECURE ready = Done Dispatched fired.
Proof. vm_compute. reflexivity. Qed.

Lemma fired_wf : sdei_wf fired.
Proof.
  exact (wp_run _ _ _ _ _ (keeps_intr_handler 0 40 NON_SECURE ready ready_wf) fired_dispatched).
Qed.

Definition ready_pe : sdei_cpu_state_t := Eval vm_compute in default idle_pe ((cpu_state ready).[0]).
Definition fired_ctx : ns_context := Eval vm_compute in default boot_ctx ((ns_ctx fired).[0]).

Lemma ready_pe_run : (cpu_state ready).[0] = Some ready_pe.
Proof. vm_compute. reflexivity. Qed.
Lemma fired_ctx_run : (ns_ctx fired).[0] = Some fired_ctx.
Proof. vm_compute. reflexivity. Qed.
Lemma ready_ctx_run : (ns_ctx ready).[0] = Some boot_ctx.
Proof. vm_compute. reflexivity. Qed.
Lemma fired_lengths :
  Z.of_nat (length (t_priv (tables fired))) = 3 /\ Z.of_nat (length (t_priv (tables ready))) = 3.
Proof. vm_compute. split; reflexivity. Qed.

(** The handler completes at once: the tables are as before, and the client
    continues with the registers it had. *)
Lemma sdei_dispatch_complete_roundtrip_witness :
  (ctx_elr_el3 <$> ns_ctx fired, state <$> sdei_shared_event_table fired) = ([0x4000; 0x8000], [7; 1]) /\
  exists j s3, sdei_event_complete 0 false 0 fired = Done (inr j) s3 /\ tables s3 = tables ready /\
    exists c2, (ns_ctx s3).[0] = Some (restored boot_ctx c2).
Proof.
  split; [vm_compute; reflexivity|].
  destruct (sdei_dispatch_complete_roundtrip 0 ready fired (fun m => AfterInterrupt m 40 NON_SECURE) ready_pe boot_ctx
    ready_wf ready_pe_run ready_ctx_run (by_interrupt 0 ready fired 40 NON_SECURE fired_dispatched))
    as (m & e & Hm & He & Hste & Ht1 & Hrt).
  assert (entry_for 0 m (tables fired) = entry_for 0 m (tables ready)) as Hent.
  { destruct m as [i|i]; [|reflexivity]. unfold entry_for. by rewrite (proj1 fired_lengths), (proj2 fired_lengths). }
  destruct (Hrt fired fired_ctx (with_state REG_ e) 0 fired_wf eq_refl fired_ctx_run)
    as (s3 & st3 & Hrun & _ & Htab & _ & _ & _ & Hctx).
  - by rewrite Ht1, lookup_map_upd_entry.
  - rewrite Hent, Ht1. by eapply lookup_upd_entry.
  - reflexivity.
  - exists (AfterInterrupt m 40 NON_SECURE), s3. split; [exact Hrun|]. split; [exact (Htab eq_refl)|].
    exists fired_ctx. exact Hctx.
Defined.

Lemma ready_distinct : distinct_events (tables ready).
Proof.
  apply distinct_of_nodup. replace (ev_num <$> _) with [0; 99; 100; 300; 301] by (vm_compute; reflexivity).
  by apply (bool_decide_eq_true _).
Qed.

Definition private_cleared : sdei_state := final (sdei_private_reset 0 ready).
Definition shared_cleared : sdei_state := final (sdei_shared_reset 0 ready).

Lemma private_reset_run : sdei_private_reset 0 ready = Done 0 private_cleared.
Proof. vm_compute. reflexivity. Qed.
Lemma shared_reset_run : sdei_shared_reset 0 ready = Done 0 shared_cleared.
Proof. vm_compute. reflexivity. Qed.
Lemma cpu0_ok : cpu_ok 0.
Proof. by split. Qed.

(** Both resets answer 0 here; the shared one unbinds SPI 50 from event 301. *)
Lemma sdei_reset_complete_witness :
  all_idle 0 PrivMap (tables private_cleared) /\
  all_idle 0 ShrdMap (tables shared_cleared) /\ forall m, released m (tables shared_cleared).
Proof.
  split.
  - exact (proj1 (sdei_reset_complete 0 ready private_cleared ready_wf cpu0_ok ready_distinct) private_reset_run).
  - exact (proj2 (sdei_reset_complete 0 ready shared_cleared ready_wf cpu0_ok ready_distinct) shared_reset_run).
Defined.

(** A CPU that registered the dynamic private event and is turned on again:
    [sdei_cpu_on_init] clears its handler but not the count, so that no
    handler is registered and yet the interrupt cannot be released. *)
Definition bound_private : sdei_state :=
  run_calls 1 [smc SDEI_INTERRUPT_BIND 20 0 0 0 0; smc SDEI_EVENT_REGISTER 99 0x4000 7 0 0; CallCpuOn] booted.

Lemma cpu_on_keeps_count :
  state <$> sdei_private_event_table bound_private = replicate 6 reg_ /\
  match sdei_interrupt_release 0 99 bound_private with Done rc _ => rc = SDEI_EDENY | _ => False end.
Proof. vm_compute. split; reflexivity. Qed.

(** An explicit event has no interrupt, like a free dynamic one: where its
    number is the lower, no private interrupt can be bound although the slot
    is free and reported by [sdei_features]. *)
Definition explicit_first : sdei_state :=
  final (sdei_init 0 (image_with [mapping 0 8 0x18; explicit_event; mapping 101 0 0x12])).

Lemma explicit_event_hides_slots :
  match sdei_features 0 explicit_first, sdei_interrupt_bind id 1%nat 20 explicit_first with
  | Done slots _, Done rc _ => Z.land slots 0xFFFF = 1 /\ rc = SDEI_ENOMEM
  | _, _ => False
  end.
Proof. vm_compute. split; reflexivity. Qed.
End SdeiRun.
