(* ===== verification/XlatDefs.v ===== *)
(** * Translation tables: types, constants and the context
    (include/lib/xlat_tables, lib/xlat_tables_v2/xlat_tables_private.h)

    A translation context owns the array of memory regions, the base table and
    a pool of sub-tables of 512 descriptors. The tables are memory: a table
    descriptor holds the address of a sub-table, and following it is an access
    that faults when the address is not one of the pool. *)

From stdpp Require Import list_numbers.
From S2P Require Import Prelude.
#[local] Open Scope cmd_scope.

(** ** Constants of xlat_tables_defs.h (4 KB granule) *)

Definition INVALID_DESC : Z := 0x0.
Definition BLOCK_DESC : Z := 0x1.
Definition TABLE_DESC : Z := 0x3.
Definition PAGE_DESC : Z := 0x3.
Definition DESC_MASK : Z := 0x3.

Definition XN : Z := Z.shiftl 1 2.
Definition UXN : Z := Z.shiftl 1 2.
Definition PXN : Z := Z.shiftl 1 1.
Definition UPPER_ATTRS (x : Z) : Z := Z.shiftl (Z.land x 0x7) 52.

Definition ACCESS_FLAG : Z := Z.shiftl 1 8.
Definition NSH : Z := Z.shiftl 0x0 6.
Definition OSH : Z := Z.shiftl 0x2 6.
Definition ISH : Z := Z.shiftl 0x3 6.
Definition GP : Z := Z.shiftl 1 50.
Definition TABLE_ADDR_MASK : Z := 0x0000FFFFFFFFF000.

Definition PAGE_SIZE_SHIFT : Z := 12.
Definition PAGE_SIZE : Z := Z.shiftl 1 PAGE_SIZE_SHIFT.
Definition PAGE_SIZE_MASK : Z := PAGE_SIZE - 1.
Definition IS_PAGE_ALIGNED (addr : Z) : bool := Z.land addr PAGE_SIZE_MASK =? 0.

Definition XLAT_TABLE_SIZE_SHIFT : Z := PAGE_SIZE_SHIFT.
Definition XLAT_TABLE_SIZE : Z := Z.shiftl 1 XLAT_TABLE_SIZE_SHIFT.
Definition XLAT_TABLE_LEVEL_MAX : Z := 3.
Definition XLAT_TABLE_ENTRIES_SHIFT : Z := 9.
Definition XLAT_TABLE_ENTRIES : Z := Z.shiftl 1 XLAT_TABLE_ENTRIES_SHIFT.

Definition XLAT_ADDR_SHIFT (level : Z) : Z :=
  PAGE_SIZE_SHIFT + (XLAT_TABLE_LEVEL_MAX - level) * XLAT_TABLE_ENTRIES_SHIFT.
Definition XLAT_BLOCK_SIZE (level : Z) : Z := Z.shiftl 1 (XLAT_ADDR_SHIFT level).
Definition XLAT_BLOCK_MASK (level : Z) : Z := XLAT_BLOCK_SIZE level - 1.
Definition XLAT_TABLE_IDX (va level : Z) : Z :=
  Z.land (Z.shiftr va (XLAT_ADDR_SHIFT level)) 0x1FF.

Definition AP2_SHIFT : Z := 7.
Definition AP2_RW : Z := 0.
Definition AP1_SHIFT : Z := 6.
Definition AP1_ACCESS_UNPRIVILEGED : Z := 1.
Definition AP_RO : Z := Z.shiftl 1 5.
Definition AP_RW : Z := Z.shiftl 0 5.
Definition AP_ACCESS_UNPRIVILEGED : Z := Z.shiftl 1 4.
Definition AP_NO_ACCESS_UNPRIVILEGED : Z := Z.shiftl 0 4.
Definition AP_ONE_VA_RANGE_RES1 : Z := Z.shiftl 1 4.
Definition NS : Z := Z.shiftl 1 3.
Definition EL3_S1_NSE : Z := Z.shiftl 1 9.
Definition ATTR_NON_CACHEABLE_INDEX : Z := 0x2.
Definition ATTR_DEVICE_INDEX : Z := 0x1.
Definition ATTR_IWBWA_OWBWA_NTR_INDEX : Z := 0x0.
Definition LOWER_ATTRS (x : Z) : Z := Z.shiftl (Z.land x 0xfff) 2.
Definition ATTR_INDEX_MASK : Z := 0x3.
Definition ATTR_INDEX_SHIFT : Z := 2.
Definition SC_BIT : Z := Z.shiftl 1 60.
Definition LC0_BIT : Z := Z.shiftl 1 61.

(** ** xlat_tables_aarch64.h and xlat_tables_arch.h *)

Definition MIN_LVL_BLOCK_DESC : Z := 1.
Definition MIN_VIRT_ADDR_SPACE_SIZE : Z := Z.shiftl 1 (64 - 39).
Definition MIN_VIRT_ADDR_SPACE_SIZE_TTST : Z := Z.shiftl 1 (64 - 48).
Definition MAX_VIRT_ADDR_SPACE_SIZE : Z := Z.shiftl 1 (64 - 16).
Definition GET_XLAT_TABLE_LEVEL_BASE (size : Z) : Z :=
  if Z.shiftl 1 (XLAT_ADDR_SHIFT 0) <? size then 0
  else if Z.shiftl 1 (XLAT_ADDR_SHIFT 1) <? size then 1
  else if Z.shiftl 1 (XLAT_ADDR_SHIFT 2) <? size then 2 else 3.
Definition GET_NUM_BASE_LEVEL_ENTRIES (size : Z) : Z :=
  Z.shiftr size (XLAT_ADDR_SHIFT (GET_XLAT_TABLE_LEVEL_BASE size)).
Definition IS_POWER_OF_TWO (x : Z) : bool := Z.land x (x - 1) =? 0.

(** ** Memory attributes of xlat_tables_v2.h *)

Definition MT_TYPE_MASK : Z := 0x7.
Definition MT_TYPE (attr : Z) : Z := Z.land attr MT_TYPE_MASK.
Definition MT_PAS (attr : Z) : Z := Z.land attr (Z.shiftl 3 4).
Definition MT_SHAREABILITY (attr : Z) : Z := Z.land attr (Z.shiftl 3 8).
Definition MT_DEVICE : Z := 0.
Definition MT_NON_CACHEABLE : Z := 1.
Definition MT_MEMORY : Z := 2.
Definition MT_RW : Z := Z.shiftl 1 3.
Definition MT_SECURE : Z := Z.shiftl 0 4.
Definition MT_NS : Z := Z.shiftl 1 4.
Definition MT_ROOT : Z := Z.shiftl 2 4.
Definition MT_REALM : Z := Z.shiftl 3 4.
Definition MT_EXECUTE_NEVER : Z := Z.shiftl 1 6.
Definition MT_USER : Z := Z.shiftl 1 7.
Definition MT_SHAREABILITY_ISH : Z := Z.shiftl 1 8.
Definition MT_SHAREABILITY_OSH : Z := Z.shiftl 2 8.
Definition MT_SHAREABILITY_NSH : Z := Z.shiftl 3 8.
Definition MT_CODE : Z := MT_MEMORY.
Definition MT_RO_DATA : Z := Z.lor MT_MEMORY MT_EXECUTE_NEVER.
Definition MT_RW_DATA : Z := Z.lor (Z.lor MT_MEMORY MT_RW) MT_EXECUTE_NEVER.
Definition MT_DYNAMIC : Z := Z.shiftl 1 31.
Definition REGION_DEFAULT_GRANULARITY : Z := XLAT_BLOCK_SIZE MIN_LVL_BLOCK_DESC.

Definition EL1_EL0_REGIME : Z := 1.
Definition EL2_REGIME : Z := 2.
Definition EL3_REGIME : Z := 3.
Definition EL_REGIME_INVALID : Z := -1.

Definition EPERM : Z := 1.
Definition ENOMEM : Z := 12.
Definition EINVAL : Z := 22.
Definition ERANGE : Z := 34.

(** ** The build and the CPU

    Build options, the registers the library reads, and the features the CPU
    reports. *)
Class XlatConfig := {
  PLAT_XLAT_TABLES_DYNAMIC : bool;
  ENABLE_FEAT_MORELLO : bool;
  ENABLE_RMM : bool;
  is_feat_morello_supported : bool;
  is_feat_bti_supported : bool;
  is_feat_rme_supported : bool;
  is_feat_sel2_supported : bool;
  is_feat_ttst_supported : bool;
  is_feat_ttcnp_supported : bool;
  id_aa64mmfr0_parange : Z;
  current_el : Z;
  sctlr_el1 : Z;
  sctlr_el2 : Z;
  sctlr_el3 : Z
}.

Definition MT_CAP_LD_ST_TRACK `{XlatConfig} : Z :=
  if ENABLE_FEAT_MORELLO then Z.shiftl 1 31 else 0.

(** ** Regions and the context *)

(** [mmap_region_t] *)
Record mmap_region := {
  base_pa : Z;
  base_va : Z;
  size : Z;
  attr : Z;
  granularity : Z
}.

#[export] Instance mmap_region_eq_dec : EqDecision mmap_region.
Proof. solve_decision. Defined.

Definition MAP_REGION_FULL_SPEC (pa va sz attr gr : Z) : mmap_region :=
  {| base_pa := pa; base_va := va; size := sz; attr := attr; granularity := gr |}.
Definition MAP_REGION (pa va sz attr : Z) : mmap_region :=
  MAP_REGION_FULL_SPEC pa va sz attr REGION_DEFAULT_GRANULARITY.

(** A zeroed element of the array, which ends it. *)
Definition no_region : mmap_region := MAP_REGION_FULL_SPEC 0 0 0 0 0.

(** [uint64_t *]: the base table, or the sub-table of an index. *)
Inductive table_ptr : Set :=
  | Base
  | Sub (i : Z).

#[export] Instance table_ptr_eq_dec : EqDecision table_ptr.
Proof. solve_decision. Defined.

(** What other observers see of the library, in the order it happens: stores
    to the tables, TLB maintenance and the barriers that complete it, and the
    MMU of a regime being turned off and on, with the values of MAIR, TCR and
    TTBR0 and the flags. *)
Inductive xlat_event : Set :=
  | DescWrite (p : table_ptr) (idx old new : Z)
  | TlbiVa (va : Z)
  | TlbiSync
  | DsbIshst
  | DsbIsh
  | MmuOff (regime : Z)
  | MmuOn (regime mair tcr ttbr0 flags : Z).

(** [struct xlat_ctx]. [tables_addr] is the address of the sub-tables, which
    follow each other. *)
Record xlat_ctx := {
  pa_max_address : Z;
  va_max_address : Z;
  mmap : list mmap_region;
  mmap_num : Z;
  tables_addr : Z;
  tables : list (list Z);
  tables_num : Z;
  readonly_tables : bool;
  tables_mapped_regions : list Z;
  next_table : Z;
  base_table : list Z;
  base_table_entries : Z;
  max_pa : Z;
  max_va : Z;
  base_level : Z;
  initialized : bool;
  xlat_regime : Z;
  xlat_trace : list xlat_event
}.

(** Updates of the fields that the library changes. *)
Definition set_mem (bt : list Z) (ts : list (list Z)) (cnt : list Z) (nt : Z)
    (tr : list xlat_event) (c : xlat_ctx) : xlat_ctx := {|
  pa_max_address := pa_max_address c; va_max_address := va_max_address c;
  mmap := mmap c; mmap_num := mmap_num c;
  tables_addr := tables_addr c; tables := ts; tables_num := tables_num c;
  readonly_tables := readonly_tables c; tables_mapped_regions := cnt; next_table := nt;
  base_table := bt; base_table_entries := base_table_entries c;
  max_pa := max_pa c; max_va := max_va c; base_level := base_level c;
  initialized := initialized c; xlat_regime := xlat_regime c; xlat_trace := tr |}.
Definition set_regions (ms : list mmap_region) (mpa mva : Z) (c : xlat_ctx) : xlat_ctx := {|
  pa_max_address := pa_max_address c; va_max_address := va_max_address c;
  mmap := ms; mmap_num := mmap_num c;
  tables_addr := tables_addr c; tables := tables c; tables_num := tables_num c;
  readonly_tables := readonly_tables c; tables_mapped_regions := tables_mapped_regions c;
  next_table := next_table c;
  base_table := base_table c; base_table_entries := base_table_entries c;
  max_pa := mpa; max_va := mva; base_level := base_level c;
  initialized := initialized c; xlat_regime := xlat_regime c; xlat_trace := xlat_trace c |}.
Definition set_flags (i : bool) (rg : Z) (ro : bool) (c : xlat_ctx) : xlat_ctx := {|
  pa_max_address := pa_max_address c; va_max_address := va_max_address c;
  mmap := mmap c; mmap_num := mmap_num c;
  tables_addr := tables_addr c; tables := tables c; tables_num := tables_num c;
  readonly_tables := ro; tables_mapped_regions := tables_mapped_regions c;
  next_table := next_table c;
  base_table := base_table c; base_table_entries := base_table_entries c;
  max_pa := max_pa c; max_va := max_va c; base_level := base_level c;
  initialized := i; xlat_regime := rg; xlat_trace := xlat_trace c |}.

Definition emit (e : xlat_event) : cmd xlat_ctx unit :=
  modify (fun c => set_mem (base_table c) (tables c) (tables_mapped_regions c) (next_table c)
                     (xlat_trace c ++ [e]) c).

(** ** Access to the tables *)

Definition table_at (c : xlat_ctx) (p : table_ptr) : option (list Z) :=
  match p with Base => Some (base_table c) | Sub i => (tables c).[i] end.

Definition entry_at (c : xlat_ctx) (p : table_ptr) (idx : Z) : option Z :=
  t ← table_at c p; t.[idx].

(** The address of a sub-table, and the sub-table at an address. *)
Definition table_addr (c : xlat_ctx) (i : Z) : Z := tables_addr c + i * XLAT_TABLE_SIZE.

Definition table_at_addr (c : xlat_ctx) (a : Z) : option table_ptr :=
  let i := (a - tables_addr c) / XLAT_TABLE_SIZE in
  if (0 <=? i) && (i <? Z.of_nat (length (tables c))) && (table_addr c i =? a)
  then Some (Sub i) else None.

Definition read_entry (p : table_ptr) (idx : Z) : cmd xlat_ctx Z :=
  let! c := gets id in deref (entry_at c p idx).

Definition upd_table (p : table_ptr) (idx d : Z) (c : xlat_ctx) : xlat_ctx :=
  match p with
  | Base => set_mem (zupdate (base_table c) idx d) (tables c) (tables_mapped_regions c)
              (next_table c) (xlat_trace c) c
  | Sub i => set_mem (base_table c)
               (match (tables c).[i] with
                | Some t => zupdate (tables c) i (zupdate t idx d)
                | None => tables c
                end) (tables_mapped_regions c) (next_table c) (xlat_trace c) c
  end.

Definition write_entry (p : table_ptr) (idx d : Z) : cmd xlat_ctx unit :=
  let! c := gets id in
  let! old := deref (entry_at c p idx) in
  modify (upd_table p idx d);;
  emit (DescWrite p idx old d).

(** [(uint64_t * )(uintptr_t)(desc & TABLE_ADDR_MASK)] *)
Definition subtable_of (desc : Z) : cmd xlat_ctx table_ptr :=
  let! c := gets id in deref (table_at_addr c (Z.land desc TABLE_ADDR_MASK)).
