(* ===== verification/XlatCore.v ===== *)
(** * Translation tables: building and changing them
    (lib/xlat_tables_v2/xlat_tables_core.c and aarch64/xlat_tables_arch.c)

    Descriptors, the recursive functions that map and unmap a region, the
    checks and the sorted array of regions, static and dynamic regions, and the
    initialisation of the tables. Cache maintenance is left out; TLB
    maintenance is in the trace. *)

From stdpp Require Import list_numbers.
From S2P Require Import Prelude XlatDefs.
#[local] Open Scope cmd_scope.

Section Xlat.
Context `{XlatConfig}.
Abbreviation xcmd := (cmd xlat_ctx).
Abbreviation assert := (assert_ true).

(** ** xlat_tables_arch.c *)

Definition xlat_arch_get_pas (a : Z) : xcmd Z :=
  let! c := gets id in
  let pas := MT_PAS a in
  if is_feat_rme_supported then
    assert (xlat_regime c =? EL3_REGIME);;
    assert ((pas =? MT_NS) || (pas =? MT_SECURE) || (pas =? MT_ROOT) || (pas =? MT_REALM));;
    if pas =? MT_REALM then
      if ENABLE_RMM then ret (LOWER_ATTRS (Z.lor EL3_S1_NSE NS)) else halt Panicked
    else if pas =? MT_ROOT then ret (LOWER_ATTRS EL3_S1_NSE)
    else if pas =? MT_NS then ret (LOWER_ATTRS NS)
    else if is_feat_sel2_supported then ret (LOWER_ATTRS 0)
    else (assert false;; ret (LOWER_ATTRS NS))
  else
    let pas := if (xlat_regime c =? EL3_REGIME) && (pas =? MT_ROOT) then MT_SECURE else pas in
    assert ((pas =? MT_NS) || (pas =? MT_SECURE));;
    ret (if pas =? MT_NS then LOWER_ATTRS NS else LOWER_ATTRS 0).

Definition xlat_arch_regime_get_xn_desc (regime : Z) : xcmd Z :=
  if regime =? EL1_EL0_REGIME then ret (Z.lor (UPPER_ATTRS UXN) (UPPER_ATTRS PXN))
  else
    assert ((regime =? EL2_REGIME) || (regime =? EL3_REGIME));;
    ret (UPPER_ATTRS XN).

Definition xlat_arch_current_el : xcmd Z :=
  assert (0 <? current_el);; ret current_el.

Definition SCTLR_M_BIT : Z := 1.

Definition is_mmu_enabled_ctx : xcmd bool :=
  let! c := gets id in
  if xlat_regime c =? EL1_EL0_REGIME then
    let! el := xlat_arch_current_el in
    assert (1 <=? el);; ret (is_set sctlr_el1 SCTLR_M_BIT)
  else if xlat_regime c =? EL2_REGIME then
    let! el := xlat_arch_current_el in
    assert (2 <=? el);; ret (is_set sctlr_el2 SCTLR_M_BIT)
  else
    assert (xlat_regime c =? EL3_REGIME);;
    let! el := xlat_arch_current_el in
    assert (3 <=? el);; ret (is_set sctlr_el3 SCTLR_M_BIT).

Definition xlat_arch_tlbi_va (va regime : Z) : xcmd unit :=
  emit DsbIshst;;
  (if regime =? EL1_EL0_REGIME then
     let! el := xlat_arch_current_el in assert (1 <=? el)
   else if regime =? EL2_REGIME then
     let! el := xlat_arch_current_el in assert (2 <=? el)
   else
     assert (regime =? EL3_REGIME);;
     let! el := xlat_arch_current_el in assert (3 <=? el));;
  emit (TlbiVa va).

Definition xlat_arch_tlbi_va_sync : xcmd unit := emit TlbiSync.

Definition pa_range_bits_arr : list Z := [32; 36; 40; 42; 44; 48; 52; 56].

Definition xlat_arch_get_max_supported_pa : xcmd Z :=
  match pa_range_bits_arr.[id_aa64mmfr0_parange] with
  | Some bits => ret (u64 (Z.shiftl 1 bits) - 1)
  | None => halt AssertFailed
  end.

Definition xlat_get_min_virt_addr_space_size : Z :=
  if is_feat_ttst_supported then MIN_VIRT_ADDR_SPACE_SIZE_TTST else MIN_VIRT_ADDR_SPACE_SIZE.

(** ** The pool of sub-tables *)

Definition xlat_table_get_index (p : table_ptr) : xcmd Z :=
  let! c := gets id in
  match p with
  | Sub i => if (0 <=? i) && (i <? tables_num c) then ret i else halt AssertFailed
  | Base => halt AssertFailed
  end.

Definition set_count (i v : Z) : xcmd unit :=
  modify (fun c => set_mem (base_table c) (tables c) (zupdate (tables_mapped_regions c) i v)
                     (next_table c) (xlat_trace c) c).

Definition xlat_table_inc_regions_count (p : table_ptr) : xcmd unit :=
  let! idx := xlat_table_get_index p in
  let! c := gets id in
  let! n := deref ((tables_mapped_regions c).[idx]) in
  set_count idx (n + 1).

Definition xlat_table_dec_regions_count (p : table_ptr) : xcmd unit :=
  let! idx := xlat_table_get_index p in
  let! c := gets id in
  let! n := deref ((tables_mapped_regions c).[idx]) in
  set_count idx (n - 1).

Definition xlat_table_is_empty (p : table_ptr) : xcmd bool :=
  let! idx := xlat_table_get_index p in
  let! c := gets id in
  let! n := deref ((tables_mapped_regions c).[idx]) in
  ret (n =? 0).

(** The first sub-table without regions, among the [n] from index [i] on. *)
Fixpoint first_empty (n : nat) (i : Z) (counts : list Z) : xcmd (option table_ptr) :=
  match n with
  | O => ret None
  | S n' =>
      let! k := deref (counts.[i]) in
      if k =? 0 then ret (Some (Sub i)) else first_empty n' (i + 1) counts
  end.

(** [xlat_table_get_empty], of a build with and without dynamic regions. *)
Definition xlat_table_get_empty : xcmd (option table_ptr) :=
  let! c := gets id in
  if PLAT_XLAT_TABLES_DYNAMIC then
    first_empty (Z.to_nat (tables_num c)) 0 (tables_mapped_regions c)
  else
    assert (next_table c <? tables_num c);;
    modify (fun c => set_mem (base_table c) (tables c) (tables_mapped_regions c)
                       (next_table c + 1) (xlat_trace c) c);;
    ret (Some (Sub (next_table c))).

(** ** Descriptors *)

(** The part of [xlat_desc] for the memory type. *)
Definition desc_mem_type (regime a desc : Z) : xcmd Z :=
  let mem_type := MT_TYPE a in
  if mem_type =? MT_DEVICE then
    let desc := Z.lor desc (LOWER_ATTRS (Z.lor ATTR_DEVICE_INDEX OSH)) in
    let! xn := xlat_arch_regime_get_xn_desc regime in
    ret (Z.lor desc xn)
  else
    let! xn := (if is_set a MT_RW || is_set a MT_EXECUTE_NEVER
                then xlat_arch_regime_get_xn_desc regime else ret 0) in
    let desc := Z.lor desc xn in
    let sh := MT_SHAREABILITY a in
    if mem_type =? MT_MEMORY then
      let desc := Z.lor desc (LOWER_ATTRS ATTR_IWBWA_OWBWA_NTR_INDEX) in
      let desc := Z.lor desc
        (if sh =? MT_SHAREABILITY_NSH then LOWER_ATTRS NSH
         else if sh =? MT_SHAREABILITY_OSH then LOWER_ATTRS OSH else LOWER_ATTRS ISH) in
      ret (if is_feat_bti_supported &&
              (Z.land a (Z.lor (Z.lor MT_TYPE_MASK MT_RW) MT_EXECUTE_NEVER) =? MT_CODE)
           then Z.lor desc GP else desc)
    else
      assert (mem_type =? MT_NON_CACHEABLE);;
      ret (Z.lor desc (LOWER_ATTRS (Z.lor ATTR_NON_CACHEABLE_INDEX OSH))).

Definition xlat_desc (a addr_pa level : Z) : xcmd Z :=
  let! c := gets id in
  assert (Z.land addr_pa (XLAT_BLOCK_MASK level) =? 0);;
  let desc := Z.lor addr_pa (if level =? XLAT_TABLE_LEVEL_MAX then PAGE_DESC else BLOCK_DESC) in
  let desc := Z.lor desc (LOWER_ATTRS ACCESS_FLAG) in
  let! pas := xlat_arch_get_pas a in
  let desc := Z.lor desc pas in
  let desc := Z.lor desc (if is_set a MT_RW then LOWER_ATTRS AP_RW else LOWER_ATTRS AP_RO) in
  let! desc :=
    (if xlat_regime c =? EL1_EL0_REGIME then
       ret (Z.lor desc (if is_set a MT_USER then LOWER_ATTRS AP_ACCESS_UNPRIVILEGED
                        else LOWER_ATTRS AP_NO_ACCESS_UNPRIVILEGED))
     else
       assert ((xlat_regime c =? EL2_REGIME) || (xlat_regime c =? EL3_REGIME));;
       ret (Z.lor desc (LOWER_ATTRS AP_ONE_VA_RANGE_RES1))) in
  desc_mem_type (xlat_regime c) a desc.

(** ** Mapping and unmapping a region *)

Inductive action : Set :=
  | ACTION_NONE
  | ACTION_WRITE_BLOCK_ENTRY
  | ACTION_CREATE_NEW_TABLE
  | ACTION_RECURSE_INTO_TABLE.

Definition region_end_va (mm : mmap_region) : Z := u64 (base_va mm + size mm - 1).
Definition region_end_pa (mm : mmap_region) : Z := u64 (base_pa mm + size mm - 1).

Definition xlat_tables_find_start_va (mm : mmap_region) (table_base_va level : Z) : Z :=
  if table_base_va <? base_va mm
  then Z.land (base_va mm) (Z.lxor (Z.ones 64) (XLAT_BLOCK_MASK level))
  else table_base_va.

Definition xlat_tables_va_to_index (table_base_va va level : Z) : Z :=
  u32 (Z.shiftr (u64 (va - table_base_va)) (XLAT_ADDR_SHIFT level)).

Definition xlat_tables_unmap_region_action (mm : mmap_region)
    (table_idx_va table_idx_end_va level desc_type : Z) : xcmd action :=
  if (base_va mm <=? table_idx_va) && (table_idx_end_va <=? region_end_va mm) then
    if level =? 3 then
      assert (desc_type =? PAGE_DESC);; ret ACTION_WRITE_BLOCK_ENTRY
    else if desc_type =? TABLE_DESC then ret ACTION_RECURSE_INTO_TABLE
    else (assert (desc_type =? BLOCK_DESC);; ret ACTION_WRITE_BLOCK_ENTRY)
  else if (base_va mm <=? table_idx_end_va) || (table_idx_va <=? region_end_va mm) then
    assert (level <? 3);;
    assert (desc_type =? TABLE_DESC);;
    ret ACTION_RECURSE_INTO_TABLE
  else ret ACTION_NONE.

(** One turn of the loop of [xlat_tables_unmap_region]; [unmap_sub] is the
    recursive call, on a sub-table at a base VA. *)
Definition unmap_entry (unmap_sub : Z -> table_ptr -> xcmd unit) (mm : mmap_region)
    (table : table_ptr) (level table_idx table_idx_va : Z) : xcmd unit :=
  let table_idx_end_va := u64 (table_idx_va + XLAT_BLOCK_SIZE level - 1) in
  let! c := gets id in
  let! desc := read_entry table table_idx in
  let! action := xlat_tables_unmap_region_action mm table_idx_va table_idx_end_va level
                   (Z.land desc DESC_MASK) in
  match action with
  | ACTION_WRITE_BLOCK_ENTRY =>
      write_entry table table_idx INVALID_DESC;;
      xlat_arch_tlbi_va table_idx_va (xlat_regime c)
  | ACTION_RECURSE_INTO_TABLE =>
      let! subtable := subtable_of desc in
      unmap_sub table_idx_va subtable;;
      let! empty := xlat_table_is_empty subtable in
      when empty
        (write_entry table table_idx INVALID_DESC;;
         xlat_arch_tlbi_va table_idx_va (xlat_regime c))
  | a => assert (match a with ACTION_NONE => true | _ => false end)
  end.

(** The loop: [n] entries are left in the table. *)
Fixpoint unmap_loop (unmap_sub : Z -> table_ptr -> xcmd unit) (n : nat) (mm : mmap_region)
    (table : table_ptr) (level table_idx table_idx_va : Z) : xcmd unit :=
  match n with
  | O => ret tt
  | S n' =>
      unmap_entry unmap_sub mm table level table_idx table_idx_va;;
      let va' := u64 (table_idx_va + XLAT_BLOCK_SIZE level) in
      if region_end_va mm <=? va' then ret tt
      else unmap_loop unmap_sub n' mm table level (table_idx + 1) va'
  end.

(** [fuel] is the number of levels from [level] to the last one; a call beyond
    it fails the assertion on [level]. *)
Fixpoint xlat_tables_unmap_region (fuel : nat) (mm : mmap_region) (table_base_va : Z)
    (table : table_ptr) (table_entries level : Z) : xcmd unit :=
  match fuel with
  | O => halt AssertFailed
  | S fuel' =>
      let! c := gets id in
      assert ((base_level c <=? level) && (level <=? XLAT_TABLE_LEVEL_MAX));;
      let table_idx_va := xlat_tables_find_start_va mm table_base_va level in
      let table_idx := xlat_tables_va_to_index table_base_va table_idx_va level in
      unmap_loop
        (fun va sub => xlat_tables_unmap_region fuel' mm va sub XLAT_TABLE_ENTRIES (level + 1))
        (Z.to_nat (table_entries - table_idx)) mm table level table_idx table_idx_va;;
      when (base_level c <? level) (xlat_table_dec_regions_count table)
  end.

Definition xlat_tables_map_region_action (mm : mmap_region)
    (desc_type dest_pa table_entry_base_va level : Z) : xcmd action :=
  let mm_end_va := region_end_va mm in
  let table_entry_end_va := u64 (table_entry_base_va + XLAT_BLOCK_SIZE level - 1) in
  if (base_va mm <=? table_entry_base_va) && (table_entry_end_va <=? mm_end_va) then
    if level =? 3 then
      if desc_type =? PAGE_DESC then ret ACTION_NONE
      else (assert (desc_type =? INVALID_DESC);; ret ACTION_WRITE_BLOCK_ENTRY)
    else if desc_type =? TABLE_DESC then ret ACTION_RECURSE_INTO_TABLE
    else if desc_type =? INVALID_DESC then
      if is_set dest_pa (XLAT_BLOCK_MASK level) || (level <? MIN_LVL_BLOCK_DESC) ||
         (granularity mm <? XLAT_BLOCK_SIZE level)
      then ret ACTION_CREATE_NEW_TABLE
      else ret ACTION_WRITE_BLOCK_ENTRY
    else (assert (desc_type =? BLOCK_DESC);; ret ACTION_NONE)
  else if (base_va mm <=? table_entry_end_va) || (table_entry_base_va <=? mm_end_va) then
    assert (level <? 3);;
    if desc_type =? INVALID_DESC then ret ACTION_CREATE_NEW_TABLE
    else (assert (desc_type =? TABLE_DESC);; ret ACTION_RECURSE_INTO_TABLE)
  else ret ACTION_NONE.

(** One turn of the loop of [xlat_tables_map_region]: the value the function
    returns, if it returns from inside the loop. [map_sub] is the recursive
    call. *)
Definition map_entry (map_sub : Z -> table_ptr -> xcmd Z) (mm : mmap_region)
    (table : table_ptr) (level table_idx table_idx_va : Z) : xcmd (option Z) :=
  let! desc := read_entry table table_idx in
  let table_idx_pa := u64 (base_pa mm + table_idx_va - base_va mm) in
  let! action := xlat_tables_map_region_action mm (Z.land desc DESC_MASK) table_idx_pa
                   table_idx_va level in
  let entry_end_va := u64 (table_idx_va + XLAT_BLOCK_SIZE level - 1) in
  match action with
  | ACTION_WRITE_BLOCK_ENTRY =>
      let! d := xlat_desc (attr mm) table_idx_pa level in
      write_entry table table_idx d;;
      when (is_feat_morello_supported && is_set (attr mm) MT_CAP_LD_ST_TRACK)
        (let! d := read_entry table table_idx in
         write_entry table table_idx (Z.lor d (Z.lor SC_BIT LC0_BIT)));;
      ret None
  | ACTION_CREATE_NEW_TABLE =>
      let! sub := xlat_table_get_empty in
      match sub with
      | None => ret (Some table_idx_va)
      | Some subtable =>
          let! c := gets id in
          let a := match subtable with Sub i => table_addr c i | Base => 0 end in
          write_entry table table_idx (Z.lor TABLE_DESC a);;
          let! end_va := map_sub table_idx_va subtable in
          ret (if end_va =? entry_end_va then None else Some end_va)
      end
  | ACTION_RECURSE_INTO_TABLE =>
      let! subtable := subtable_of desc in
      let! end_va := map_sub table_idx_va subtable in
      ret (if end_va =? entry_end_va then None else Some end_va)
  | ACTION_NONE => ret None
  end.

Fixpoint map_loop (map_sub : Z -> table_ptr -> xcmd Z) (n : nat) (mm : mmap_region)
    (table : table_ptr) (level table_idx table_idx_va : Z) : xcmd Z :=
  match n with
  | O => ret (u64 (table_idx_va - 1))
  | S n' =>
      let! r := map_entry map_sub mm table level table_idx table_idx_va in
      match r with
      | Some end_va => ret end_va
      | None =>
          let va' := u64 (table_idx_va + XLAT_BLOCK_SIZE level) in
          if region_end_va mm <=? va' then ret (u64 (va' - 1))
          else map_loop map_sub n' mm table level (table_idx + 1) va'
      end
  end.

Fixpoint xlat_tables_map_region (fuel : nat) (mm : mmap_region) (table_base_va : Z)
    (table : table_ptr) (table_entries level : Z) : xcmd Z :=
  match fuel with
  | O => halt AssertFailed
  | S fuel' =>
      let! c := gets id in
      assert ((base_level c <=? level) && (level <=? XLAT_TABLE_LEVEL_MAX));;
      let table_idx_va := xlat_tables_find_start_va mm table_base_va level in
      let table_idx := xlat_tables_va_to_index table_base_va table_idx_va level in
      when (PLAT_XLAT_TABLES_DYNAMIC && (base_level c <? level))
        (xlat_table_inc_regions_count table);;
      map_loop
        (fun va sub => xlat_tables_map_region fuel' mm va sub XLAT_TABLE_ENTRIES (level + 1))
        (Z.to_nat (table_entries - table_idx)) mm table level table_idx table_idx_va
  end.

(** The calls from the base table. *)
Definition levels_from (level : Z) : nat := Z.to_nat (XLAT_TABLE_LEVEL_MAX + 1 - level).

Definition map_from_base (mm : mmap_region) : xcmd Z :=
  let! c := gets id in
  xlat_tables_map_region (levels_from (base_level c)) mm 0 Base (base_table_entries c)
    (base_level c).

Definition unmap_from_base (mm : mmap_region) : xcmd unit :=
  let! c := gets id in
  xlat_tables_unmap_region (levels_from (base_level c)) mm 0 Base (base_table_entries c)
    (base_level c).

(** ** The array of regions *)

(** Walking the array with a pointer: the first index, from [i] on, where [f]
    is false; [None] when the walk leaves the array. *)
Fixpoint skip_while (f : mmap_region -> bool) (l : list mmap_region) (i : Z) : option Z :=
  match l with
  | [] => None
  | r :: l' => if f r then skip_while f l' (i + 1) else Some i
  end.

(** The checks of one region against one other. *)
Definition overlap_refused (mm cur : mmap_region) : bool :=
  let end_pa := region_end_pa mm in
  let end_va := region_end_va mm in
  let cur_end_va := region_end_va cur in
  let fully_overlapped_va :=
    ((base_va cur <=? base_va mm) && (end_va <=? cur_end_va)) ||
    ((base_va mm <=? base_va cur) && (cur_end_va <=? end_va)) in
  if fully_overlapped_va then
    (PLAT_XLAT_TABLES_DYNAMIC && (is_set (attr mm) MT_DYNAMIC || is_set (attr cur) MT_DYNAMIC))
    || negb (u64 (base_va cur - base_pa cur) =? u64 (base_va mm - base_pa mm))
    || ((base_va mm =? base_va cur) && (size mm =? size cur))
  else
    let cur_end_pa := region_end_pa cur in
    let separated_pa := (end_pa <? base_pa cur) || (cur_end_pa <? base_pa mm) in
    let separated_va := (end_va <? base_va cur) || (cur_end_va <? base_va mm) in
    negb separated_va || negb separated_pa.

(** The loop over the array, up to its end marker. *)
Fixpoint overlaps_loop (mm : mmap_region) (l : list mmap_region) : xcmd Z :=
  match l with
  | [] => halt MemFault
  | cur :: l' =>
      if size cur =? 0 then ret 0
      else if overlap_refused mm cur then ret (- EPERM)
      else overlaps_loop mm l'
  end.

Definition mmap_add_region_check (mm : mmap_region) : xcmd Z :=
  let! c := gets id in
  let end_pa := region_end_pa mm in
  let end_va := region_end_va mm in
  if negb (IS_PAGE_ALIGNED (base_pa mm)) || negb (IS_PAGE_ALIGNED (base_va mm)) ||
     negb (IS_PAGE_ALIGNED (size mm)) then ret (- EINVAL)
  else if negb (granularity mm =? XLAT_BLOCK_SIZE 1) && negb (granularity mm =? XLAT_BLOCK_SIZE 2)
          && negb (granularity mm =? XLAT_BLOCK_SIZE 3) then ret (- EINVAL)
  else if (end_pa <? base_pa mm) || (end_va <? base_va mm) then ret (- ERANGE)
  else if va_max_address c <? end_va then ret (- ERANGE)
  else if pa_max_address c <? end_pa then ret (- ERANGE)
  else
    let! last := deref ((mmap c).[mmap_num c - 1]) in
    if negb (size last =? 0) then ret (- ENOMEM)
    else overlaps_loop mm (mmap c).

(** Where a region goes: after the regions that end before it, and after the
    smaller ones that end with it. *)
Definition insert_pos (mm : mmap_region) (l : list mmap_region) : option Z :=
  i ← skip_while (fun r => (region_end_va r <? region_end_va mm) && negb (size r =? 0)) l 0;
  skip_while (fun r => (region_end_va r =? region_end_va mm) && negb (size r =? 0) &&
                       (size r <? size mm)) (drop (Z.to_nat i) l) i.

(** [memmove(a + dst, a + src, n * sizeof( *a))] *)
Definition memmove_regions (dst src n : Z) (l : list mmap_region) : option (list mmap_region) :=
  moved ← zslice l src n;
  if (0 <=? dst) && (dst + n <=? Z.of_nat (length l))
  then Some (take (Z.to_nat dst) l ++ moved ++ drop (Z.to_nat (dst + n)) l)
  else None.

Definition put_regions (ms : list mmap_region) : xcmd unit :=
  modify (fun c => set_regions ms (max_pa c) (max_va c) c).

Definition raise_max (end_pa end_va : Z) : xcmd unit :=
  modify (fun c => set_regions (mmap c)
    (if max_pa c <? end_pa then end_pa else max_pa c)
    (if max_va c <? end_va then end_va else max_va c) c).

Definition mmap_add_region_ctx (mm : mmap_region) : xcmd unit :=
  if size mm =? 0 then ret tt
  else
    let! c := gets id in
    assert (negb (initialized c));;
    let! r := mmap_add_region_check mm in
    if negb (r =? 0) then assert false
    else
      let! cursor := deref (insert_pos mm (mmap c)) in
      let! last := deref (skip_while (fun r => negb (size r =? 0))
                            (take (Z.to_nat (mmap_num c)) (mmap c) ++
                             [no_region]) 0) in
      let! mlast := deref ((mmap c).[last]) in
      assert (size mlast =? 0);;
      let! moved := deref (memmove_regions (cursor + 1) cursor (last - cursor) (mmap c)) in
      put_regions moved;;
      let! mend := deref (moved.[mmap_num c]) in
      assert (size mend =? 0);;
      put_regions (zupdate moved cursor mm);;
      raise_max (region_end_pa mm) (region_end_va mm).

Definition round_up (value boundary : Z) : Z :=
  u64 (Z.lor (u64 (value - 1)) (boundary - 1) + 1).

(** The loop of [mmap_alloc_va_align_ctx] over the levels up to 2. *)
Fixpoint align_loop (n : nat) (level align_check : Z) (va : Z) : Z :=
  match n with
  | O => va
  | S n' =>
      if is_set align_check (XLAT_BLOCK_MASK level) then align_loop n' (level + 1) align_check va
      else round_up va (XLAT_BLOCK_SIZE level)
  end.

Definition with_base_va (va : Z) (mm : mmap_region) : mmap_region :=
  MAP_REGION_FULL_SPEC (base_pa mm) va (size mm) (attr mm) (granularity mm).

Definition mmap_alloc_va_align_ctx (mm : mmap_region) : xcmd mmap_region :=
  let! c := gets id in
  ret (with_base_va
    (align_loop (Z.to_nat (3 - base_level c)) (base_level c) (Z.lor (base_pa mm) (size mm))
       (base_va mm)) mm).

(** The region with the VA it was given is returned, as the code leaves it in
    [ *mm]. *)
Definition mmap_add_region_alloc_va_ctx (mm : mmap_region) : xcmd mmap_region :=
  let! c := gets id in
  let mm := with_base_va (u64 (max_va c + 1)) mm in
  assert (0 <? size mm);;
  let! mm := mmap_alloc_va_align_ctx mm in
  assert (max_va c <? base_va mm);;
  mmap_add_region_ctx mm;;
  ret mm.

(** The array [mms] ends with an element of granularity 0. *)
Fixpoint mmap_add_ctx (mms : list mmap_region) : xcmd unit :=
  match mms with
  | [] => halt MemFault
  | mm :: mms' => if granularity mm =? 0 then ret tt else (mmap_add_region_ctx mm;; mmap_add_ctx mms')
  end.

(** ** Dynamic regions *)

Definition with_attr (a : Z) (mm : mmap_region) : mmap_region :=
  MAP_REGION_FULL_SPEC (base_pa mm) (base_va mm) (size mm) a (granularity mm).

(** The part of [mmap_add_dynamic_region_ctx] that maps the region at index
    [cursor] of the array: the error to return, if any. *)
Definition map_dynamic (mm : mmap_region) (cursor : Z) : xcmd (option Z) :=
  let! end_va := map_from_base mm in
  if negb (end_va =? region_end_va mm) then
    let! c := gets id in
    let! removed := deref (memmove_regions cursor (cursor + 1) (mmap_num c - cursor) (mmap c)) in
    put_regions removed;;
    if end_va <=? base_va mm then ret (Some (- ENOMEM))
    else
      unmap_from_base (MAP_REGION_FULL_SPEC 0 (base_va mm) (u64 (end_va - base_va mm)) 0 0);;
      ret (Some (- ENOMEM))
  else (emit DsbIshst;; ret None).

Definition mmap_add_dynamic_region_ctx (mm : mmap_region) : xcmd Z :=
  if size mm =? 0 then ret 0
  else
    let mm := with_attr (Z.lor (attr mm) MT_DYNAMIC) mm in
    let! r := mmap_add_region_check mm in
    if negb (r =? 0) then ret r
    else
      let! c := gets id in
      let! cursor := deref (insert_pos mm (mmap c)) in
      let! moved := deref (memmove_regions (cursor + 1) cursor (mmap_num c - cursor) (mmap c)) in
      put_regions moved;;
      let! mend := deref (moved.[mmap_num c]) in
      assert (size mend =? 0);;
      put_regions (zupdate moved cursor mm);;
      let! e := (if initialized c then map_dynamic mm cursor else ret None) in
      match e with
      | Some err => ret err
      | None => raise_max (region_end_pa mm) (region_end_va mm);; ret 0
      end.

Definition mmap_add_dynamic_region_alloc_va_ctx (mm : mmap_region) : xcmd (Z * mmap_region) :=
  let! c := gets id in
  let mm := with_base_va (u64 (max_va c + 1)) mm in
  if size mm =? 0 then ret (0, mm)
  else
    let! mm := mmap_alloc_va_align_ctx mm in
    if base_va mm <? max_va c then ret (- ENOMEM, mm)
    else
      let! r := mmap_add_dynamic_region_ctx mm in
      ret (r, mm).

(** The loops that look for the new maximum. *)
Fixpoint max_end (end_of : mmap_region -> Z) (l : list mmap_region) (acc : Z) : option Z :=
  match l with
  | [] => None
  | r :: l' =>
      if size r =? 0 then Some acc
      else max_end end_of l' (if acc <? end_of r then end_of r else acc)
  end.

Definition mmap_remove_dynamic_region_ctx (va sz : Z) : xcmd Z :=
  let! c := gets id in
  let! sentinel := deref ((mmap c).[mmap_num c]) in
  assert (size sentinel =? 0);;
  let! i := deref (skip_while (fun r => negb (size r =? 0) &&
                     negb ((base_va r =? va) && (size r =? sz))) (mmap c) 0) in
  let! mm := deref ((mmap c).[i]) in
  if size mm =? 0 then ret (- EINVAL)
  else if negb (is_set (attr mm) MT_DYNAMIC) then ret (- EPERM)
  else
    let update_max_va_needed := region_end_va mm =? max_va c in
    let update_max_pa_needed := region_end_pa mm =? max_pa c in
    when (initialized c) (unmap_from_base mm;; xlat_arch_tlbi_va_sync);;
    let! removed := deref (memmove_regions i (i + 1) (mmap_num c - i) (mmap c)) in
    put_regions removed;;
    when update_max_va_needed
      (let! m := deref (max_end region_end_va removed 0) in
       modify (fun c => set_regions (mmap c) (max_pa c) m c));;
    when update_max_pa_needed
      (let! m := deref (max_end region_end_pa removed 0) in
       modify (fun c => set_regions (mmap c) m (max_va c) c));;
    ret 0.

(** [xlat_setup_dynamic_ctx]: the context it fills, over the memory of the
    regions, the tables and the counts it is given. *)
Definition xlat_setup_dynamic_ctx (pa_max va_max : Z) (regions : list mmap_region) (num : Z)
    (taddr : Z) (ts : list (list Z)) (tnum : Z) (base : list Z) (regime : Z) (counts : list Z)
    (c : xlat_ctx) : xlat_ctx := {|
  pa_max_address := pa_max; va_max_address := va_max;
  mmap := replicate (Z.to_nat num) no_region ++ drop (Z.to_nat num) regions; mmap_num := num;
  tables_addr := taddr; tables := ts; tables_num := tnum;
  readonly_tables := readonly_tables c; tables_mapped_regions := counts;
  next_table := next_table c;
  base_table := base; base_table_entries := GET_NUM_BASE_LEVEL_ENTRIES (u64 (va_max + 1));
  max_pa := 0; max_va := 0; base_level := GET_XLAT_TABLE_LEVEL_BASE (u64 (va_max + 1));
  initialized := false; xlat_regime := regime; xlat_trace := xlat_trace c |}.

(** ** Initialisation *)

(** [REGISTER_XLAT_CONTEXT_FULL_SPEC]: the context the image starts with. *)
Definition register_xlat_context (mmap_count tables_count va_size pa_size regime taddr : Z) :
    xlat_ctx := {|
  pa_max_address := pa_size - 1; va_max_address := va_size - 1;
  mmap := replicate (Z.to_nat (mmap_count + 1)) no_region; mmap_num := mmap_count;
  tables_addr := taddr;
  tables := replicate (Z.to_nat tables_count) (replicate (Z.to_nat XLAT_TABLE_ENTRIES) 0);
  tables_num := tables_count; readonly_tables := false;
  tables_mapped_regions := replicate (Z.to_nat tables_count) 0;
  next_table := 0;
  base_table := replicate (Z.to_nat (GET_NUM_BASE_LEVEL_ENTRIES va_size)) 0;
  base_table_entries := GET_NUM_BASE_LEVEL_ENTRIES va_size;
  max_pa := 0; max_va := 0; base_level := GET_XLAT_TABLE_LEVEL_BASE va_size;
  initialized := false; xlat_regime := regime; xlat_trace := [] |}.

(** Zeroing the tables and the counts. *)
Definition zero_tables : xcmd unit :=
  modify (fun c => set_mem
    (replicate (Z.to_nat (base_table_entries c)) 0 ++
     drop (Z.to_nat (base_table_entries c)) (base_table c))
    (imap (fun i t => if (i <? Z.to_nat (tables_num c))%nat
                      then replicate (Z.to_nat XLAT_TABLE_ENTRIES) 0 else t) (tables c))
    (if PLAT_XLAT_TABLES_DYNAMIC
     then replicate (Z.to_nat (tables_num c)) 0 ++
          drop (Z.to_nat (tables_num c)) (tables_mapped_regions c)
     else tables_mapped_regions c) (next_table c) (xlat_trace c) c).

(** The loop that maps the regions of the array. *)
Fixpoint map_regions (l : list mmap_region) : xcmd unit :=
  match l with
  | [] => halt MemFault
  | mm :: l' =>
      if size mm =? 0 then ret tt
      else
        let! end_va := map_from_base mm in
        if end_va =? region_end_va mm then map_regions l' else halt Panicked
  end.

Definition init_xlat_tables_ctx : xcmd unit :=
  let! c := gets id in
  assert (negb (initialized c));;
  assert ((xlat_regime c =? EL3_REGIME) || (xlat_regime c =? EL2_REGIME) ||
          (xlat_regime c =? EL1_EL0_REGIME));;
  let! on := is_mmu_enabled_ctx in
  assert (negb on);;
  assert (xlat_get_min_virt_addr_space_size - 1 <=? va_max_address c);;
  assert (va_max_address c <=? MAX_VIRT_ADDR_SPACE_SIZE - 1);;
  assert (IS_POWER_OF_TWO (u64 (va_max_address c + 1)));;
  zero_tables;;
  map_regions (mmap c);;
  let! max_supported := xlat_arch_get_max_supported_pa in
  let! c := gets id in
  assert (pa_max_address c <=? max_supported);;
  assert (max_va c <=? va_max_address c);;
  assert (max_pa c <=? pa_max_address c);;
  modify (fun c => set_flags true (xlat_regime c) (readonly_tables c) c).

(** [init_xlat_tables] of xlat_tables_context.c: the regime is that of the
    exception level the image runs at. *)
Definition init_xlat_tables : xcmd unit :=
  let! c := gets id in
  assert (xlat_regime c =? EL_REGIME_INVALID);;
  let! el := xlat_arch_current_el in
  let! regime := (if el =? 1 then ret EL1_EL0_REGIME else if el =? 2 then ret EL2_REGIME
                  else (assert (el =? 3);; ret EL3_REGIME)) in
  modify (fun c => set_flags (initialized c) regime (readonly_tables c) c);;
  init_xlat_tables_ctx.
End Xlat.
