(* ===== verification/XlatWalk.v ===== *)
(** * Translation tables: the architecture's walk, and well-formed tables

    [translate] is what the MMU does with the tables: it follows descriptors
    from the base table. The shape of the tables is described by labels: each
    sub-table in use has a level and the first address it covers, and these
    determine it. What a table may contain is then a condition on single
    entries, and an update of an entry is felt only by the addresses it covers. *)

From stdpp Require Import list_numbers.
From S2P Require Import Prelude XlatDefs XlatCore.
#[local] Open Scope cmd_scope.

(** ** Blocks *)

Abbreviation blk := XLAT_BLOCK_SIZE.

Lemma blk_values : blk 0 = 2 ^ 39 /\ blk 1 = 2 ^ 30 /\ blk 2 = 2 ^ 21 /\ blk 3 = 2 ^ 12.
Proof. done. Qed.

Lemma level_cases l : 0 <= l <= 3 -> l = 0 \/ l = 1 \/ l = 2 \/ l = 3.
Proof. lia. Qed.

Ltac by_level l :=
  destruct (level_cases l) as [-> | [-> | [-> | ->]]]; [lia| | | |].

Lemma blk_pos l : 0 <= l <= 3 -> 4096 <= blk l <= 2 ^ 39.
Proof. intros Hl. by_level l; done. Qed.

Lemma blk_page l : 0 <= l <= 3 -> (4096 | blk l).
Proof. intros Hl. by_level l; by apply Z.mod_divide. Qed.

Lemma blk_next l : 0 <= l < 3 -> blk l = 512 * blk (l + 1).
Proof. intros Hl. by_level l; first [done | lia]. Qed.

Lemma blk_divide l l' : 0 <= l <= l' -> l' <= 3 -> (blk l' | blk l).
Proof.
  intros Hl Hl'. destruct (level_cases l) as [-> | [-> | [-> | ->]]]; [lia|..];
    destruct (level_cases l') as [-> | [-> | [-> | ->]]]; try lia; by apply Z.mod_divide.
Qed.

Lemma blk_shift l x : 0 <= l <= 3 -> Z.shiftr x (XLAT_ADDR_SHIFT l) = x / blk l.
Proof. intros Hl. by_level l; apply Z.shiftr_div_pow2; done. Qed.

Lemma blk_mask l x : 0 <= l <= 3 -> Z.land x (XLAT_BLOCK_MASK l) = x mod blk l.
Proof.
  intros Hl.
  by_level l; [apply (Z.land_ones x 39)|apply (Z.land_ones x 30)|apply (Z.land_ones x 21)|
               apply (Z.land_ones x 12)]; done.
Qed.

(** Rounding down to a block. *)
Lemma blk_floor l x :
  0 <= l <= 3 -> 0 <= x < 2 ^ 64 ->
  Z.land x (Z.lxor (Z.ones 64) (XLAT_BLOCK_MASK l)) = x - x mod blk l.
Proof.
  intros Hl Hx.
  assert (forall k, 0 <= k <= 64 -> Z.land x (Z.lxor (Z.ones 64) (Z.ones k)) = x - x mod 2 ^ k) as Hk.
  { intros k Hk.
    enough (Z.land x (Z.lxor (Z.ones 64) (Z.ones k)) = Z.ldiff x (Z.ones k)) as ->.
    { rewrite Z.ldiff_ones_r, Z.shiftl_mul_pow2, Z.shiftr_div_pow2 by lia.
      rewrite (Z.mod_eq x (2 ^ k)) by lia. lia. }
    apply Z.bits_inj'. intros n Hn. rewrite Z.land_spec, Z.lxor_spec, Z.ldiff_spec.
    rewrite !Z.testbit_ones_nonneg by lia.
    destruct (Z.ltb_spec n 64) as [Hn64|Hn64].
    - by rewrite xorb_true_l.
    - rewrite <- (Z.mod_small x (2 ^ 64)) by lia.
      by rewrite Z.mod_pow2_bits_high by lia. }
  by_level l; [apply (Hk 39)|apply (Hk 30)|apply (Hk 21)|apply (Hk 12)]; lia.
Qed.

(** Aligned blocks are nested or apart. *)
Lemma aligned_nest m n x y :
  0 < m -> (m | n) -> (m | y) -> (n | x) ->
  y + m <= x \/ x + n <= y \/ (x <= y /\ y + m <= x + n).
Proof.
  intros Hm Hmn [qy ->] Hx. destruct (Z.divide_trans m n x Hmn Hx) as [qx ->].
  destruct Hmn as [q ->].
  destruct (Z.le_gt_cases (qy + 1) qx); [left; nia|right].
  destruct (Z.le_gt_cases (qx + q) qy); [left; nia|right]. nia.
Qed.

Lemma divide_between m a b : 0 < m -> (m | a) -> (m | b) -> a <= b -> b < a + m -> a = b.
Proof.
  intros Hm [qa ->] [qb ->] Hle Hlt. f_equal.
  apply Z.mul_le_mono_pos_r in Hle; [|done].
  assert (qb * m < (qa + 1) * m) as Hlt' by lia. apply Z.mul_lt_mono_pos_r in Hlt'; lia.
Qed.

(** ** Fields of a descriptor *)

Lemma desc_addr d : Z.land d TABLE_ADDR_MASK = (d / 4096) mod 2 ^ 36 * 4096.
Proof.
  change TABLE_ADDR_MASK with (Z.shiftl (Z.ones 36) 12).
  change 4096 with (2 ^ 12).
  rewrite <- Z.land_ones, <- (Z.shiftr_div_pow2 d 12), <- Z.shiftl_mul_pow2 by lia.
  apply Z.bits_inj'. intros n Hn. rewrite Z.land_spec.
  destruct (Z.ltb_spec n 12).
  - by rewrite !Z.shiftl_spec_low, andb_false_r by lia.
  - rewrite !Z.shiftl_spec, Z.land_spec, Z.shiftr_spec by lia. do 2 f_equal. lia.
Qed.

Lemma desc_type_mod d : Z.land d DESC_MASK = d mod 4.
Proof. apply (Z.land_ones d 2). lia. Qed.

(** The attributes of a descriptor: all but its address and type. *)
Definition desc_attrs (d : Z) : Z := Z.ldiff d (Z.lor TABLE_ADDR_MASK DESC_MASK).

(** A descriptor made of an address, a type and attributes. *)
Lemma desc_fields a t x d :
  0 <= a < 2 ^ 48 -> a mod 4096 = 0 -> 0 <= t < 4 -> 0 <= x -> desc_attrs x = x ->
  d = Z.lor (Z.lor a t) x ->
  Z.land d TABLE_ADDR_MASK = a /\ d mod 4 = t /\ desc_attrs d = x.
Proof.
  intros Ha Ham Ht Hx Hxa ->.
  assert (forall n, 0 <= n -> Z.testbit a n = (12 <=? n) && (n <? 48) && Z.testbit a n) as Hba.
  { intros n Hn. destruct (Z.leb_spec 12 n); cbn [andb].
    - destruct (Z.ltb_spec n 48); cbn [andb]; [done|].
      rewrite <- (Z.mod_small a (2 ^ 48)) by lia. by rewrite Z.mod_pow2_bits_high by lia.
    - replace a with (Z.shiftl (a / 4096) 12)
        by (rewrite Z.shiftl_mul_pow2 by lia; change (2 ^ 12) with 4096;
            pose proof (Z.div_mod a 4096); lia).
      by rewrite Z.shiftl_spec_low by lia. }
  assert (forall n, 0 <= n -> Z.testbit t n = (n <? 2) && Z.testbit t n) as Hbt.
  { intros n Hn. destruct (Z.ltb_spec n 2); cbn [andb]; [done|].
    rewrite <- (Z.mod_small t (2 ^ 2)) by lia. by rewrite Z.mod_pow2_bits_high by lia. }
  assert (forall n, 0 <= n -> Z.testbit TABLE_ADDR_MASK n = (12 <=? n) && (n <? 48)) as Hbm.
  { intros n Hn. change TABLE_ADDR_MASK with (Z.shiftl (Z.ones 36) 12).
    destruct (Z.leb_spec 12 n); cbn [andb]; [|by rewrite Z.shiftl_spec_low by lia].
    rewrite Z.shiftl_spec, Z.testbit_ones_nonneg by lia. apply eq_true_iff_eq.
    rewrite !Z.ltb_lt. lia. }
  assert (forall n, 0 <= n -> Z.testbit DESC_MASK n = (n <? 2)) as Hbd.
  { intros n Hn. change DESC_MASK with (Z.ones 2). by rewrite Z.testbit_ones_nonneg by lia. }
  assert (forall n, 0 <= n -> Z.testbit x n = Z.testbit x n && negb ((12 <=? n) && (n <? 48) || (n <? 2))) as Hbx.
  { intros n Hn. rewrite <- Hxa at 1. unfold desc_attrs.
    by rewrite Z.ldiff_spec, Z.lor_spec, Hbm, Hbd by done. }
  rewrite <- desc_type_mod.
  assert (forall n, (12 <=? n) = true -> (n <? 2) = false) as Hlow.
  { intros n ?%Z.leb_le. apply Z.ltb_ge. lia. }
  split_and!; apply Z.bits_inj'; intros n Hn; unfold desc_attrs;
    rewrite ?Z.ldiff_spec, ?Z.land_spec, ?Z.lor_spec, ?Hbm, ?Hbd by done;
    rewrite (Hba n Hn), (Hbt n Hn), (Hbx n Hn); specialize (Hlow n);
    destruct (12 <=? n), (n <? 48), (n <? 2), (Z.testbit a n), (Z.testbit t n), (Z.testbit x n);
    try done; by discriminate Hlow.
Qed.

(** ** The walk *)

(** The output address and attributes of a block or page descriptor: the
    address bits above the block come from the descriptor. *)
Definition leaf_result (level d va : Z) : Z * Z :=
  (Z.land d TABLE_ADDR_MASK / blk level * blk level + va mod blk level, desc_attrs d).

(** A block or page descriptor. Level 0 has no blocks. *)
Definition is_leaf (level d : Z) : bool :=
  if level =? 3 then d mod 4 =? 3 else (1 <=? level) && (d mod 4 =? 1).

Fixpoint walk (fuel : nat) (c : xlat_ctx) (p : table_ptr) (level va : Z) : option (Z * Z) :=
  match fuel with
  | O => None
  | S fuel' =>
      d ← entry_at c p (XLAT_TABLE_IDX va level);
      if is_leaf level d then Some (leaf_result level d va)
      else if (level <? 3) && (d mod 4 =? 3) then
        q ← table_at_addr c (Z.land d TABLE_ADDR_MASK);
        walk fuel' c q (level + 1) va
      else None
  end.

Definition translate (c : xlat_ctx) (va : Z) : option (Z * Z) :=
  if (0 <=? va) && (va <=? va_max_address c)
  then walk (levels_from (base_level c)) c Base (base_level c) va else None.

Lemma levels_from_S l : l <= 3 -> levels_from l = S (levels_from (l + 1)).
Proof. intros. unfold levels_from, XLAT_TABLE_LEVEL_MAX. lia. Qed.

(** ** Ranges *)

(** The range of [n] addresses from [x] meets a region, or lies in it. *)
Definition meets (mm : mmap_region) (x n : Z) : Prop :=
  base_va mm < x + n /\ x < base_va mm + size mm.
Definition inside (mm : mmap_region) (x n : Z) : Prop :=
  base_va mm <= x /\ x + n <= base_va mm + size mm.

#[export] Instance meets_dec mm x n : Decision (meets mm x n).
Proof. unfold meets. apply _. Defined.
#[export] Instance inside_dec mm x n : Decision (inside mm x n).
Proof. unfold inside. apply _. Defined.

Section Shape.
Context `{XlatConfig}.

(** The sizes of the tables and where they are. *)
Record geometry (c : xlat_ctx) : Prop := {
  geo_level : 0 <= base_level c <= 3;
  geo_entries : 1 <= base_table_entries c <= 512;
  geo_va_max : va_max_address c = base_table_entries c * blk (base_level c) - 1;
  geo_base : Z.of_nat (length (base_table c)) = base_table_entries c;
  geo_num : Z.of_nat (length (tables c)) = tables_num c;
  geo_tables : forall i t, (tables c).[i] = Some t -> Z.of_nat (length t) = 512;
  geo_counts : PLAT_XLAT_TABLES_DYNAMIC = true ->
    Z.of_nat (length (tables_mapped_regions c)) = tables_num c;
  geo_next : PLAT_XLAT_TABLES_DYNAMIC = false -> 0 <= next_table c;
  geo_addr : 0 <= tables_addr c /\ tables_addr c mod 4096 = 0 /\
    tables_addr c + tables_num c * 4096 <= 2 ^ 48
}.

(** A labelling of the sub-tables by level and first address. *)
Definition labels : Type := Z -> option (Z * Z).

Definition label_of (c : xlat_ctx) (lab : labels) (p : table_ptr) : option (Z * Z) :=
  match p with Base => Some (base_level c, 0) | Sub i => lab i end.

Definition entries_of (c : xlat_ctx) (p : table_ptr) : Z :=
  match p with Base => base_table_entries c | Sub _ => 512 end.

(** The addresses a table covers. *)
Definition covers (c : xlat_ctx) (p : table_ptr) (l b va : Z) : Prop :=
  b <= va < b + entries_of c p * blk l.

Definition free_table (c : xlat_ctx) (i : Z) : Prop :=
  if PLAT_XLAT_TABLES_DYNAMIC then (tables_mapped_regions c).[i] = Some 0 else next_table c <= i.

Definition table_desc (c : xlat_ctx) (i : Z) : Z := Z.lor TABLE_DESC (table_addr c i).

(** What the entry for the addresses from [x] on may be, at a level: nothing, a
    sub-table labelled with the next level, or a block or page. [E] and [Q] are
    conditions on the ranges of empty and of mapped entries. *)
Definition entry_ok (Q E : Z -> Z -> Prop) (c : xlat_ctx) (lab : labels) (l x d : Z) : Prop :=
  (d = INVALID_DESC /\ E x (blk l)) \/
  (l < 3 /\ exists i, d = table_desc c i /\ lab i = Some (l + 1, x)) \/
  (is_leaf l d = true /\ Q x (blk l)).

(** Well-formed tables; [N] gives the region counts of a dynamic build. *)
Record wf (Q E : Z -> Z -> Prop) (N : Z -> Z -> Z) (c : xlat_ctx) (lab : labels) : Prop := {
  wf_geo : geometry c;
  wf_lab : forall i l b, lab i = Some (l, b) ->
    base_level c < l <= 3 /\ 0 <= i < tables_num c /\ 0 <= b /\ (512 * blk l | b);
  wf_inj : forall i j x, lab i = Some x -> lab j = Some x -> i = j;
  wf_entry : forall p l b k d, label_of c lab p = Some (l, b) -> entry_at c p k = Some d ->
    entry_ok Q E c lab l (b + k * blk l) d;
  wf_parent : forall i l b, lab i = Some (l, b) -> exists p b' k,
    label_of c lab p = Some (l - 1, b') /\ b = b' + k * blk (l - 1) /\
    entry_at c p k = Some (table_desc c i);
  wf_free : forall i t k d, lab i = None -> (tables c).[i] = Some t -> t.[k] = Some d -> d = 0;
  wf_used : forall i, 0 <= i < tables_num c -> lab i = None <-> free_table c i;
  wf_count : PLAT_XLAT_TABLES_DYNAMIC = true -> forall i l b, lab i = Some (l, b) ->
    (tables_mapped_regions c).[i] = Some (N l b)
}.

(** *** Reading a table *)

Lemma label_level c lab p l b Q E N :
  wf Q E N c lab -> label_of c lab p = Some (l, b) -> base_level c <= l <= 3 /\ 0 <= l.
Proof.
  intros Hwf Hl. destruct (geo_level c (wf_geo _ _ _ _ _ Hwf)).
  destruct p; simplify_eq/=; [lia|]. destruct (wf_lab _ _ _ _ _ Hwf _ _ _ Hl). lia.
Qed.

Lemma label_base c lab p l b Q E N :
  wf Q E N c lab -> label_of c lab p = Some (l, b) -> 0 <= b /\ (512 * blk l | b).
Proof.
  intros Hwf Hl. destruct p; simplify_eq/=; [split; [lia|apply Z.divide_0_r]|].
  destruct (wf_lab _ _ _ _ _ Hwf _ _ _ Hl) as (_ & _ & ? & ?). done.
Qed.

Lemma entries_bound c p : geometry c -> 1 <= entries_of c p <= 512.
Proof. intros Hg. destruct p; simpl; [apply Hg|lia]. Qed.

Lemma table_length c p t :
  geometry c -> table_at c p = Some t -> Z.of_nat (length t) = entries_of c p.
Proof.
  intros Hg Ht. destruct p; simplify_eq/=; [apply (geo_base _ Hg)|by eapply geo_tables].
Qed.

Lemma label_table c lab p l b Q E N :
  wf Q E N c lab -> label_of c lab p = Some (l, b) -> is_Some (table_at c p).
Proof.
  intros Hwf Hl. destruct p; simplify_eq/=; [eauto|].
  destruct (wf_lab _ _ _ _ _ Hwf _ _ _ Hl) as (_ & Hi & _).
  apply zlookup_lt_is_Some. by rewrite (geo_num _ (wf_geo _ _ _ _ _ Hwf)).
Qed.

Lemma entry_some c lab p l b k Q E N :
  wf Q E N c lab -> label_of c lab p = Some (l, b) -> 0 <= k < entries_of c p ->
  is_Some (entry_at c p k).
Proof.
  intros Hwf Hl Hk. destruct (label_table _ _ _ _ _ _ _ _ Hwf Hl) as [t Ht].
  unfold entry_at. rewrite Ht. simpl. apply zlookup_lt_is_Some.
  by rewrite (table_length _ _ _ (wf_geo _ _ _ _ _ Hwf) Ht).
Qed.

Lemma entry_range c p k d : geometry c -> entry_at c p k = Some d -> 0 <= k < entries_of c p.
Proof.
  intros Hg He. unfold entry_at in He. destruct (table_at c p) as [t|] eqn:Ht; [|done].
  simpl in He. apply zlookup_lt_Some in He. by rewrite (table_length _ _ _ Hg Ht) in He.
Qed.

(** *** Addresses of sub-tables *)

Lemma table_desc_fields c i :
  geometry c -> 0 <= i < tables_num c ->
  Z.land (table_desc c i) TABLE_ADDR_MASK = table_addr c i /\ table_desc c i mod 4 = 3.
Proof.
  intros Hg Hi. destruct (geo_addr _ Hg) as (Ha & Hm & Hb).
  assert (0 <= table_addr c i < 2 ^ 48 /\ table_addr c i mod 4096 = 0) as [Hr Hp].
  { unfold table_addr. change XLAT_TABLE_SIZE with 4096. split; [lia|].
    by rewrite Z.mod_add by lia. }
  destruct (desc_fields (table_addr c i) 3 0 (table_desc c i)) as (? & ? & _); try done.
  unfold table_desc, TABLE_DESC. by rewrite Z.lor_0_r, Z.lor_comm.
Qed.

Lemma table_at_table_addr c i :
  geometry c -> 0 <= i < tables_num c -> table_at_addr c (table_addr c i) = Some (Sub i).
Proof.
  intros Hg Hi. unfold table_at_addr, table_addr. change XLAT_TABLE_SIZE with 4096.
  replace ((tables_addr c + i * 4096 - tables_addr c) / 4096) with i.
  2:{ replace (tables_addr c + i * 4096 - tables_addr c) with (i * 4096) by lia.
      by rewrite Z.div_mul. }
  rewrite Z.eqb_refl, (proj2 (Z.leb_le 0 i)), (proj2 (Z.ltb_lt _ _)); [done| |lia].
  rewrite (geo_num _ Hg). lia.
Qed.

Lemma follow_table c i :
  geometry c -> 0 <= i < tables_num c ->
  table_at_addr c (Z.land (table_desc c i) TABLE_ADDR_MASK) = Some (Sub i).
Proof.
  intros Hg Hi. destruct (table_desc_fields _ _ Hg Hi) as [-> _]. by apply table_at_table_addr.
Qed.

Lemma table_desc_inj c i j :
  geometry c -> 0 <= i < tables_num c -> 0 <= j < tables_num c ->
  table_desc c i = table_desc c j -> i = j.
Proof.
  intros Hg Hi Hj Heq. pose proof (follow_table _ _ Hg Hi) as Hfi.
  rewrite Heq, (follow_table _ _ Hg Hj) in Hfi. congruence.
Qed.

(** *** Entries and walks *)

Lemma table_idx_covers c lab p l b va Q E N :
  wf Q E N c lab -> label_of c lab p = Some (l, b) -> covers c p l b va ->
  XLAT_TABLE_IDX va l = (va - b) / blk l /\ 0 <= (va - b) / blk l < entries_of c p.
Proof.
  intros Hwf Hl Hc. destruct (label_level _ _ _ _ _ _ _ _ Hwf Hl) as [? ?].
  destruct (label_base _ _ _ _ _ _ _ _ Hwf Hl) as [Hb [q Hq]].
  pose proof (blk_pos l). pose proof (entries_bound c p (wf_geo _ _ _ _ _ Hwf)).
  unfold covers in Hc. unfold XLAT_TABLE_IDX. rewrite blk_shift by lia.
  change 0x1FF with (Z.ones 9). rewrite Z.land_ones by lia.
  assert (0 <= (va - b) / blk l < entries_of c p).
  { split; [apply Z.div_pos; lia|apply Z.div_lt_upper_bound; lia]. }
  split; [|done]. subst b.
  replace (va - q * (512 * blk l)) with (va + (- q * 512) * blk l) in * by lia.
  rewrite Z.div_add in * by lia.
  replace (va / blk l) with (va / blk l + - q * 512 + q * 2 ^ 9) at 1 by lia.
  rewrite Z.mod_add by lia. apply Z.mod_small. lia.
Qed.

(** The entry a walk reads, and the addresses that read it. *)
Lemma entry_block c lab p l b va k Q E N :
  wf Q E N c lab -> label_of c lab p = Some (l, b) -> 0 <= k < entries_of c p ->
  b + k * blk l <= va < b + (k + 1) * blk l ->
  covers c p l b va /\ (va - b) / blk l = k.
Proof.
  intros Hwf Hl Hk Hva. destruct (label_level _ _ _ _ _ _ _ _ Hwf Hl) as [? ?].
  pose proof (blk_pos l). split; [unfold covers; nia|].
  symmetry. apply (Z.div_unique _ _ _ (va - b - k * blk l)); lia.
Qed.

Lemma covers_block c lab p l b va Q E N :
  wf Q E N c lab -> label_of c lab p = Some (l, b) -> covers c p l b va ->
  exists k, 0 <= k < entries_of c p /\ b + k * blk l <= va < b + (k + 1) * blk l.
Proof.
  intros Hwf Hl Hc. destruct (table_idx_covers _ _ _ _ _ _ _ _ _ Hwf Hl Hc) as [_ Hk].
  destruct (label_level _ _ _ _ _ _ _ _ Hwf Hl) as [? ?]. pose proof (blk_pos l).
  exists ((va - b) / blk l). split; [done|].
  pose proof (Z.div_mod (va - b) (blk l)). pose proof (Z.mod_pos_bound (va - b) (blk l)). lia.
Qed.

Lemma block_aligned c lab p l b k Q E N :
  wf Q E N c lab -> label_of c lab p = Some (l, b) -> (blk l | b + k * blk l).
Proof.
  intros Hwf Hl. destruct (label_base _ _ _ _ _ _ _ _ Hwf Hl) as [_ [q ->]].
  exists (q * 512 + k). lia.
Qed.

(** One step of a walk from a labelled table. *)
Lemma walk_entry c lab p l b k d va fuel Q E N :
  wf Q E N c lab -> label_of c lab p = Some (l, b) -> 0 <= k < entries_of c p ->
  b + k * blk l <= va < b + (k + 1) * blk l -> entry_at c p k = Some d ->
  walk (S fuel) c p l va =
    if is_leaf l d then Some (leaf_result l d va)
    else if (l <? 3) && (d mod 4 =? 3) then
      q ← table_at_addr c (Z.land d TABLE_ADDR_MASK); walk fuel c q (l + 1) va
    else None.
Proof.
  intros Hwf Hl Hk Hva Hd. destruct (entry_block _ _ _ _ _ _ _ _ _ _ Hwf Hl Hk Hva) as [Hc Hi].
  destruct (table_idx_covers _ _ _ _ _ _ _ _ _ Hwf Hl Hc) as [Hidx _].
  cbn [walk]. rewrite Hidx, Hi, Hd. done.
Qed.

Lemma leaf_not_table c lab l x i Q E N :
  wf Q E N c lab -> l < 3 -> lab i = Some (l + 1, x) ->
  is_leaf l (table_desc c i) = false /\ (l <? 3) && (table_desc c i mod 4 =? 3) = true /\
  table_at_addr c (Z.land (table_desc c i) TABLE_ADDR_MASK) = Some (Sub i).
Proof.
  intros Hwf Hl3 Hlab. destruct (wf_lab _ _ _ _ _ Hwf _ _ _ Hlab) as (_ & Hi & _).
  pose proof (wf_geo _ _ _ _ _ Hwf) as Hg. destruct (table_desc_fields _ _ Hg Hi) as [_ Hm].
  rewrite (proj2 (Z.ltb_lt l 3)) by done. unfold is_leaf.
  rewrite Hm, (proj2 (Z.eqb_neq l 3)) by lia. split_and!; [by destruct (1 <=? l)|done|].
  by apply follow_table.
Qed.

Lemma walk_table c lab p l b k i va fuel Q E N :
  wf Q E N c lab -> label_of c lab p = Some (l, b) -> 0 <= k < entries_of c p ->
  b + k * blk l <= va < b + (k + 1) * blk l ->
  entry_at c p k = Some (table_desc c i) -> l < 3 -> lab i = Some (l + 1, b + k * blk l) ->
  walk (S fuel) c p l va = walk fuel c (Sub i) (l + 1) va.
Proof.
  intros Hwf Hl Hk Hva Hd Hl3 Hlab. erewrite walk_entry by done.
  destruct (leaf_not_table _ _ _ _ _ _ _ _ Hwf Hl3 Hlab) as (-> & -> & ->). done.
Qed.

Lemma walk_invalid c lab p l b k va fuel Q E N :
  wf Q E N c lab -> label_of c lab p = Some (l, b) -> 0 <= k < entries_of c p ->
  b + k * blk l <= va < b + (k + 1) * blk l -> entry_at c p k = Some 0 ->
  walk (S fuel) c p l va = None.
Proof.
  intros Hwf Hl Hk Hva Hd. erewrite walk_entry by done.
  unfold is_leaf. destruct (l =? 3), (1 <=? l), (l <? 3); done.
Qed.

Lemma walk_leaf c lab p l b k d va fuel Q E N :
  wf Q E N c lab -> label_of c lab p = Some (l, b) -> 0 <= k < entries_of c p ->
  b + k * blk l <= va < b + (k + 1) * blk l -> entry_at c p k = Some d -> is_leaf l d = true ->
  walk (S fuel) c p l va = Some (leaf_result l d va).
Proof. intros Hwf Hl Hk Hva Hd Hleaf. erewrite walk_entry by done. by rewrite Hleaf. Qed.

Lemma walk_same c c' fuel :
  (forall q, table_at c' q = table_at c q) -> tables_addr c' = tables_addr c ->
  length (tables c') = length (tables c) ->
  forall p l va, walk fuel c' p l va = walk fuel c p l va.
Proof.
  intros Ht Ha Hlen. induction fuel as [|fuel IH]; intros p l va; [done|].
  cbn [walk]. unfold entry_at. rewrite Ht. destruct (table_at c p) as [t|]; [|done]. cbn.
  destruct (t.[_]) as [d|]; [|done]. cbn. unfold table_at_addr, table_addr. rewrite Ha, Hlen.
  destruct (is_leaf l d); [done|]. destruct (_ && _); [|done]. destruct (_ && _); [|done].
  cbn. apply IH.
Qed.

(** A walk depends only on the tables it goes through. *)
Lemma walk_ext c c' lab fuel Q E N :
  wf Q E N c lab -> tables_addr c' = tables_addr c -> length (tables c') = length (tables c) ->
  forall p l b va,
  label_of c lab p = Some (l, b) -> covers c p l b va ->
  (forall q l' b', label_of c lab q = Some (l', b') -> l <= l' -> covers c q l' b' va ->
     table_at c' q = table_at c q) ->
  walk fuel c' p l va = walk fuel c p l va.
Proof.
  intros Hwf Hta Hlen. induction fuel as [|fuel IH]; intros p l b va Hl Hc Hsame; [done|].
  destruct (covers_block _ _ _ _ _ _ _ _ _ Hwf Hl Hc) as (k & Hk & Hva).
  destruct (entry_some _ _ _ _ _ _ _ _ _ Hwf Hl Hk) as [d Hd].
  destruct (table_idx_covers _ _ _ _ _ _ _ _ _ Hwf Hl Hc) as [Hidx _].
  destruct (entry_block _ _ _ _ _ _ _ _ _ _ Hwf Hl Hk Hva) as [_ Hi].
  cbn [walk]. rewrite Hidx, Hi.
  assert (entry_at c' p k = entry_at c p k) as ->.
  { unfold entry_at. by rewrite (Hsame p l b) by (done || lia). }
  rewrite Hd. cbn [mbind option_bind].
  assert (forall a, table_at_addr c' a = table_at_addr c a) as Haddr.
  { intros a. unfold table_at_addr, table_addr. by rewrite Hta, Hlen. }
  rewrite Haddr.
  destruct (wf_entry _ _ _ _ _ Hwf _ _ _ _ _ Hl Hd) as [[-> _]|[(Hl3 & i & -> & Hlab)|[-> _]]].
  - unfold is_leaf. by destruct (l =? 3), (1 <=? l), (l <? 3).
  - destruct (leaf_not_table _ _ _ _ _ _ _ _ Hwf Hl3 Hlab) as (-> & -> & ->).
    cbn [mbind option_bind].
    destruct (label_level _ _ _ _ _ _ _ _ Hwf Hl) as [? ?].
    apply (IH (Sub i) (l + 1) (b + k * blk l)); [done| |].
    + unfold covers. cbn [entries_of]. rewrite <- blk_next by lia. lia.
    + intros q l' b' Hq Hll' Hcq. apply (Hsame q l' b'); [done|lia|done].
  - done.
Qed.

(** The same, when only the entry of the first table is known to be kept. *)
Lemma walk_ext1 c c' lab fuel p l b k va Q E N :
  wf Q E N c lab -> tables_addr c' = tables_addr c -> length (tables c') = length (tables c) ->
  label_of c lab p = Some (l, b) -> 0 <= k < entries_of c p ->
  b + k * blk l <= va < b + (k + 1) * blk l ->
  entry_at c' p k = entry_at c p k ->
  (forall q l' b', label_of c lab q = Some (l', b') -> l < l' -> covers c q l' b' va ->
     table_at c' q = table_at c q) ->
  walk fuel c' p l va = walk fuel c p l va.
Proof.
  intros Hwf Hta Hlen Hl Hk Hva Hent Hsame. destruct fuel as [|fuel]; [done|].
  destruct (entry_some _ _ _ _ _ _ _ _ _ Hwf Hl Hk) as [d Hd].
  destruct (entry_block _ _ _ _ _ _ _ _ _ _ Hwf Hl Hk Hva) as [Hc Hi].
  destruct (table_idx_covers _ _ _ _ _ _ _ _ _ Hwf Hl Hc) as [Hidx _].
  cbn [walk]. rewrite Hidx, Hi, Hent, Hd. cbn [mbind option_bind].
  assert (forall a, table_at_addr c' a = table_at_addr c a) as Haddr.
  { intros a. unfold table_at_addr, table_addr. by rewrite Hta, Hlen. }
  rewrite Haddr.
  destruct (wf_entry _ _ _ _ _ Hwf _ _ _ _ _ Hl Hd) as [[-> _]|[(Hl3 & i & -> & Hlab)|[-> _]]].
  - unfold is_leaf. by destruct (l =? 3), (1 <=? l), (l <? 3).
  - destruct (leaf_not_table _ _ _ _ _ _ _ _ Hwf Hl3 Hlab) as (-> & -> & ->).
    cbn [mbind option_bind]. destruct (label_level _ _ _ _ _ _ _ _ Hwf Hl) as [? ?].
    eapply (walk_ext _ _ _ _ _ _ _ Hwf Hta Hlen (Sub i) (l + 1) (b + k * blk l)); [done| |].
    + unfold covers. cbn [entries_of]. rewrite <- blk_next by lia. lia.
    + intros q l' b' Hq Hll' Hcq. apply (Hsame q l' b'); [done|lia|done].
  - done.
Qed.

(** The table that covers an address at a smaller level leads to it. *)
Lemma ancestor_entry c lab Q E N :
  wf Q E N c lab -> forall n p l b q l' b',
  l - l' = Z.of_nat (S n) ->
  label_of c lab p = Some (l, b) -> label_of c lab q = Some (l', b') -> covers c q l' b' b ->
  exists i, entry_at c q ((b - b') / blk l') = Some (table_desc c i) /\
    lab i = Some (l' + 1, b' + (b - b') / blk l' * blk l').
Proof.
  intros Hwf. induction n as [|n IH]; intros p l b q l' b' Hn Hp Hq Hc.
  all: destruct (label_level _ _ _ _ _ _ _ _ Hwf Hq) as [Hlq Hlq0].
  all: destruct (label_level _ _ _ _ _ _ _ _ Hwf Hp) as [Hlp _].
  all: destruct p as [|i]; cbn [label_of] in Hp; [simplify_eq; lia|].
  all: destruct (wf_parent _ _ _ _ _ Hwf _ _ _ Hp) as (p' & b1 & k & Hp' & Hb & Hk).
  all: destruct (covers_block _ _ _ _ _ _ _ _ _ Hwf Hq Hc) as (k' & Hk' & Hva).
  all: destruct (entry_block _ _ _ _ _ _ _ _ _ _ Hwf Hq Hk' Hva) as [_ Hdiv].
  all: pose proof (entry_range _ _ _ _ (wf_geo _ _ _ _ _ Hwf) Hk) as Hkr.
  all: pose proof (blk_pos l'); pose proof (blk_pos (l - 1)).
  all: pose proof (entries_bound c p' (wf_geo _ _ _ _ _ Hwf)).
  all: pose proof (entries_bound c q (wf_geo _ _ _ _ _ Hwf)).
  all: destruct (label_base _ _ _ _ _ _ _ _ Hwf Hp') as [Hb1 Hd1].
  all: destruct (label_base _ _ _ _ _ _ _ _ Hwf Hq) as [Hb' Hd'].
  - (* the parent is [q] *)
    assert (l - 1 = l') as El by lia. rewrite El in *.
    assert (b1 = b') as ->.
    { destruct (aligned_nest (512 * blk l') (512 * blk l') b1 b') as [?|[?|?]];
        [lia|apply Z.divide_refl|done|done|nia|nia|lia]. }
    assert (p' = q) as ->.
    { destruct p', q; cbn [label_of] in *; try done.
      - destruct (wf_lab _ _ _ _ _ Hwf _ _ _ Hq). simplify_eq. lia.
      - destruct (wf_lab _ _ _ _ _ Hwf _ _ _ Hp'). simplify_eq. lia.
      - f_equal. by eapply (wf_inj _ _ _ _ _ Hwf). }
    assert ((b - b') / blk l' = k) as ->.
    { replace (b - b') with (k * blk l') by lia. by rewrite Z.div_mul by lia. }
    exists i. split; [done|].
    replace (l' + 1) with l by lia. by rewrite Hp, Hb.
  - (* the parent is below [q] *)
    assert ((b1 - b') / blk l' = (b - b') / blk l' /\ covers c q l' b' b1) as [Heq Hcov].
    { assert (512 * blk (l - 1) = blk (l - 2)) as Hsz.
      { pose proof (blk_next (l - 2)) as Hx. replace (l - 2 + 1) with (l - 1) in Hx by lia. lia. }
      assert (0 <= l - 2 <= 3) as Hl2 by lia. pose proof (blk_pos (l - 2) Hl2).
      rewrite Hsz in Hd1.
      pose proof (block_aligned _ _ _ _ _ k' _ _ _ Hwf Hq) as Ha.
      assert (b1 <= b < b1 + blk (l - 2)) by nia.
      destruct (aligned_nest (blk (l - 2)) (blk l') (b' + k' * blk l') b1) as [?|[?|?]];
        [lia|apply blk_divide; lia|done|done|lia|lia|].
      assert (b' + k' * blk l' <= b1 < b' + (k' + 1) * blk l') as Hva1 by lia.
      destruct (entry_block _ _ _ _ _ _ _ _ _ _ Hwf Hq Hk' Hva1) as [? ->].
      split; [lia|done]. }
    rewrite <- Heq. by apply (IH p' (l - 1)); [lia|..].
Qed.

(** A table in use and an entry of another table: the entry is apart from the
    table, or in it, or leads to it. *)
Lemma table_in_entry c lab p l b k q l' b' Q E N :
  wf Q E N c lab -> label_of c lab p = Some (l, b) -> 0 <= k < entries_of c p ->
  label_of c lab q = Some (l', b') -> l < l' ->
  b + k * blk l <= b' < b + (k + 1) * blk l ->
  exists i, entry_at c p k = Some (table_desc c i) /\ lab i = Some (l + 1, b + k * blk l).
Proof.
  intros Hwf Hp Hk Hq Hll Hb'.
  destruct (entry_block _ _ _ _ _ _ _ _ _ _ Hwf Hp Hk Hb') as [Hc Hdiv].
  destruct (ancestor_entry _ _ _ _ _ Hwf (Z.to_nat (l' - l - 1)) q l' b' p l b) as (i & Hi & Hlab);
    [lia|done|done|done|]. rewrite Hdiv in *. eauto.
Qed.

(** Tables with the same label are the same. *)
Lemma label_inj c lab p q l b Q E N :
  wf Q E N c lab -> label_of c lab p = Some (l, b) -> label_of c lab q = Some (l, b) -> p = q.
Proof.
  intros Hwf Hp Hq. destruct p, q; cbn [label_of] in *; try done.
  - destruct (wf_lab _ _ _ _ _ Hwf _ _ _ Hq). simplify_eq. lia.
  - destruct (wf_lab _ _ _ _ _ Hwf _ _ _ Hp). simplify_eq. lia.
  - f_equal. by eapply (wf_inj _ _ _ _ _ Hwf).
Qed.

(** Two tables of a level cover the same addresses or none in common. *)
Lemma label_unique c lab p q l b b' va Q E N :
  wf Q E N c lab -> label_of c lab p = Some (l, b) -> label_of c lab q = Some (l, b') ->
  covers c p l b va -> covers c q l b' va -> b = b' /\ p = q.
Proof.
  intros Hwf Hp Hq Hcp Hcq. destruct (label_level _ _ _ _ _ _ _ _ Hwf Hp) as [? ?].
  destruct (label_base _ _ _ _ _ _ _ _ Hwf Hp) as [_ Hdb].
  destruct (label_base _ _ _ _ _ _ _ _ Hwf Hq) as [_ Hdb'].
  pose proof (blk_pos l). unfold covers in *.
  pose proof (entries_bound c p (wf_geo _ _ _ _ _ Hwf)).
  pose proof (entries_bound c q (wf_geo _ _ _ _ _ Hwf)).
  assert (b = b') as ->.
  { destruct (aligned_nest (512 * blk l) (512 * blk l) b b') as [?|[?|?]];
      [lia|apply Z.divide_refl|done|done|nia|nia|lia]. }
  split; [done|]. by eapply label_inj.
Qed.

(** A walk goes through the tables that cover the address. *)
Lemma walk_reaches c lab Q E N n :
  wf Q E N c lab -> forall p l b q l' b' va,
  l' - l = Z.of_nat n -> label_of c lab p = Some (l, b) -> label_of c lab q = Some (l', b') ->
  covers c p l b va -> covers c q l' b' va ->
  walk (levels_from l) c p l va = walk (levels_from l') c q l' va.
Proof.
  intros Hwf. induction n as [|n IH]; intros p l b q l' b' va Hn Hp Hq Hcp Hcq.
  - assert (l' = l) as -> by lia.
    by destruct (label_unique _ _ _ _ _ _ _ _ _ _ _ Hwf Hp Hq Hcp Hcq) as [-> ->].
  - destruct (label_level _ _ _ _ _ _ _ _ Hwf Hp) as [Hl Hl0].
    destruct (label_level _ _ _ _ _ _ _ _ Hwf Hq) as [Hl' _].
    destruct (covers_block _ _ _ _ _ _ _ _ _ Hwf Hp Hcp) as (k & Hk & Hva).
    pose proof (block_aligned _ _ _ _ _ k _ _ _ Hwf Hp) as Ha.
    destruct q as [|j]; cbn [label_of] in Hq; [simplify_eq; lia|].
    destruct (wf_lab _ _ _ _ _ Hwf _ _ _ Hq) as (_ & _ & _ & Hd).
    assert (512 * blk l' = blk (l' - 1)) as Hsz.
    { pose proof (blk_next (l' - 1)) as Hx. replace (l' - 1 + 1) with l' in Hx by lia. lia. }
    pose proof Hcq as Hcq'. unfold covers in Hcq'. cbn [entries_of] in Hcq'. rewrite Hsz in Hd, Hcq'.
    pose proof (blk_pos (l' - 1)).
    assert (b + k * blk l <= b' < b + (k + 1) * blk l) as Hb'.
    { destruct (aligned_nest (blk (l' - 1)) (blk l) (b + k * blk l) b') as [?|[?|?]];
        [lia|apply blk_divide; lia|done|done|lia|lia|lia]. }
    assert (l < l') as Hll by lia.
    destruct (table_in_entry _ _ _ _ _ _ (Sub j) _ _ _ _ _ Hwf Hp Hk Hq Hll Hb') as (i & Hi & Hlab).
    rewrite (levels_from_S l) by lia.
    rewrite (walk_table c lab p l b k i va _ _ _ _ Hwf Hp Hk Hva Hi); [|lia|done].
    eapply (IH (Sub i) (l + 1)); [lia|done|done| |done].
    unfold covers. cbn [entries_of]. rewrite <- blk_next by lia. lia.
Qed.

(** The walk of an address from the base table reaches the table of an entry
    that covers it. *)
Lemma walk_to_entry c lab p l b k va Q E N :
  wf Q E N c lab -> label_of c lab p = Some (l, b) -> 0 <= k < entries_of c p ->
  b + k * blk l <= va < b + (k + 1) * blk l -> va <= va_max_address c ->
  walk (levels_from (base_level c)) c Base (base_level c) va = walk (levels_from l) c p l va.
Proof.
  intros Hwf Hp Hkr Hva Hmax. pose proof (wf_geo _ _ _ _ _ Hwf) as Hg.
  destruct (label_level _ _ _ _ _ _ _ _ Hwf Hp) as [Hl Hl0]. pose proof (blk_pos l).
  destruct (label_base _ _ _ _ _ _ _ _ Hwf Hp) as [Hb _].
  destruct (entry_block _ _ _ _ _ _ _ _ _ _ Hwf Hp Hkr Hva) as [Hc _].
  apply (walk_reaches c lab _ _ _ (Z.to_nat (l - base_level c)) Hwf Base _ 0 p l b va); try done.
  - lia.
  - unfold covers. cbn [entries_of]. rewrite (geo_va_max _ Hg) in Hmax. nia.
Qed.

(** An address of an empty entry has no translation, one of a block or page has
    one. *)
Lemma walk_empty c lab p l b k va Q E N :
  wf Q E N c lab -> label_of c lab p = Some (l, b) -> entry_at c p k = Some INVALID_DESC ->
  b + k * blk l <= va < b + (k + 1) * blk l -> va <= va_max_address c ->
  walk (levels_from (base_level c)) c Base (base_level c) va = None.
Proof.
  intros Hwf Hp Hk Hva Hmax. pose proof (entry_range _ _ _ _ (wf_geo _ _ _ _ _ Hwf) Hk) as Hkr.
  destruct (label_level _ _ _ _ _ _ _ _ Hwf Hp).
  rewrite (walk_to_entry _ _ _ _ _ _ _ _ _ _ Hwf Hp Hkr Hva Hmax), levels_from_S by lia.
  by eapply walk_invalid.
Qed.

Lemma walk_to_leaf c lab p l b k d va Q E N :
  wf Q E N c lab -> label_of c lab p = Some (l, b) -> entry_at c p k = Some d -> is_leaf l d = true ->
  b + k * blk l <= va < b + (k + 1) * blk l -> va <= va_max_address c ->
  walk (levels_from (base_level c)) c Base (base_level c) va = Some (leaf_result l d va).
Proof.
  intros Hwf Hp Hk Hd Hva Hmax. pose proof (entry_range _ _ _ _ (wf_geo _ _ _ _ _ Hwf) Hk) as Hkr.
  destruct (label_level _ _ _ _ _ _ _ _ Hwf Hp).
  rewrite (walk_to_entry _ _ _ _ _ _ _ _ _ _ Hwf Hp Hkr Hva Hmax), levels_from_S by lia.
  by eapply walk_leaf.
Qed.
End Shape.
