(* ===== verification/XlatShape.v ===== *)
(** * Translation tables: updates of well-formed tables

    The effect of a store to a table, of linking a free sub-table into an entry
    and of the region counts on the conditions of [wf]. *)

From stdpp Require Import list_numbers.
From S2P Require Import Prelude XlatDefs XlatCore XlatWalk.
#[local] Open Scope cmd_scope.

Section Updates.
Context `{XlatConfig}.
Implicit Types (c : xlat_ctx) (lab : labels) (p q : table_ptr).

(** The parts of the context that mapping leaves alone. *)
Definition same_conf (c c' : xlat_ctx) : Prop :=
  c' = set_mem (base_table c') (tables c') (tables_mapped_regions c') (next_table c')
         (xlat_trace c') c.

Lemma same_conf_refl c : same_conf c c.
Proof. by destruct c. Qed.

Lemma same_conf_trans c1 c2 c3 : same_conf c1 c2 -> same_conf c2 c3 -> same_conf c1 c3.
Proof. unfold same_conf. destruct c1, c2, c3. cbn. intros [= ] [= ]. by simplify_eq. Qed.

Lemma same_conf_fields c c' :
  same_conf c c' ->
  base_level c' = base_level c /\ base_table_entries c' = base_table_entries c /\
  va_max_address c' = va_max_address c /\ tables_addr c' = tables_addr c /\
  tables_num c' = tables_num c /\ xlat_regime c' = xlat_regime c /\ mmap c' = mmap c.
Proof. intros ->. done. Qed.

(** ** A store to an entry *)

Definition written (p : table_ptr) (k d : Z) (c : xlat_ctx) : xlat_ctx :=
  let c' := upd_table p k d c in
  set_mem (base_table c') (tables c') (tables_mapped_regions c') (next_table c')
    (xlat_trace c ++ [DescWrite p k (default 0 (entry_at c p k)) d]) c.

Lemma write_entry_run p k d c :
  is_Some (entry_at c p k) -> write_entry p k d c = Done tt (written p k d c).
Proof.
  intros [old Ho]. unfold write_entry, bind, gets, id. rewrite Ho. cbn [deref ret].
  unfold modify, emit, written. rewrite Ho. cbn [default from_option id].
  by destruct p.
Qed.

Lemma same_conf_written p k d c : same_conf c (written p k d c).
Proof. by destruct p. Qed.

Lemma written_counts p k d c :
  tables_mapped_regions (written p k d c) = tables_mapped_regions c /\
  next_table (written p k d c) = next_table c.
Proof. by destruct p. Qed.

Lemma table_written_ne p q k d c : q <> p -> table_at (written p k d c) q = table_at c q.
Proof.
  intros Hne. destruct p as [|i], q as [|j]; cbn; try done.
  destruct ((tables c).[i]) eqn:Hi; [|done]. apply zlookup_zupdate_ne. congruence.
Qed.

Lemma entry_written p q k j d c old :
  entry_at c p k = Some old ->
  entry_at (written p k d c) q j = if decide (q = p /\ j = k) then Some d else entry_at c q j.
Proof.
  intros Ho. destruct (decide (q = p)) as [->|Hne].
  - unfold entry_at in Ho. destruct p as [|i]; cbn in *.
    + rewrite (zlookup_zupdate _ _ _ _ _ Ho).
      destruct (decide (k = j)) as [->|Hkj]; [by rewrite decide_True|].
      by rewrite decide_False by (intros [? ?]; congruence).
    + destruct ((tables c).[i]) as [t|] eqn:Hi; [|done]. cbn in Ho.
      unfold entry_at. cbn. rewrite ?Hi.
      rewrite zlookup_zupdate_eq by (by eapply zlookup_lt_Some). cbn.
      rewrite (zlookup_zupdate _ _ _ _ _ Ho).
      destruct (decide (k = j)) as [->|Hkj]; [by rewrite decide_True|].
      by rewrite decide_False by (intros [? ?]; congruence).
  - rewrite decide_False by (intros [? ?]; congruence). unfold entry_at. by rewrite table_written_ne.
Qed.

Lemma length_written p k d c : length (tables (written p k d c)) = length (tables c).
Proof.
  destruct p as [|i]; cbn; [done|]. destruct ((tables c).[i]); [apply length_zupdate|done].
Qed.

Lemma geometry_written p k d c : geometry c -> geometry (written p k d c).
Proof.
  intros Hg. destruct (written_counts p k d c) as [Hc Hn].
  constructor; try by (destruct p; apply Hg).
  - destruct p; cbn; rewrite ?length_zupdate; apply (geo_base _ Hg).
  - rewrite length_written. destruct p; apply (geo_num _ Hg).
  - intros i t Ht. destruct p as [|i']; cbn in Ht; [by eapply geo_tables|].
    destruct ((tables c).[i']) as [t'|] eqn:Hi'; [|by eapply geo_tables].
    rewrite (zlookup_zupdate _ _ _ _ _ Hi') in Ht. case_decide; simplify_eq.
    + rewrite length_zupdate. by eapply geo_tables.
    + by eapply geo_tables.
Qed.

(** The labels and conditions do not depend on the contents of the tables. *)
Lemma label_of_conf c c' lab p : same_conf c c' -> label_of c' lab p = label_of c lab p.
Proof. intros (Hb & _)%same_conf_fields. destruct p; cbn; [by rewrite Hb|done]. Qed.

Lemma table_desc_conf c c' i : same_conf c c' -> table_desc c' i = table_desc c i.
Proof.
  intros (_ & _ & _ & Ha & _)%same_conf_fields. unfold table_desc, table_addr. by rewrite Ha.
Qed.

Lemma entries_of_conf c c' p : same_conf c c' -> entries_of c' p = entries_of c p.
Proof. intros (_ & He & _)%same_conf_fields. destruct p; cbn; [by rewrite He|done]. Qed.

Lemma covers_conf c c' p l b va : same_conf c c' -> covers c' p l b va <-> covers c p l b va.
Proof. intros Hs. unfold covers. by rewrite (entries_of_conf _ _ _ Hs). Qed.

Lemma entry_ok_conf c c' lab l x d Q E :
  same_conf c c' -> entry_ok Q E c lab l x d -> entry_ok Q E c' lab l x d.
Proof.
  intros Hs [Hi|[(Hl & i & -> & Hi)|Hf]]; [by left| |by right; right].
  right; left. split; [done|]. exists i. by rewrite (table_desc_conf _ _ _ Hs).
Qed.

(** Weakening the conditions on the entries that are there. *)
Lemma wf_weaken Q E N Q' E' N' c lab :
  wf Q E N c lab ->
  (forall p l b k d, label_of c lab p = Some (l, b) -> entry_at c p k = Some d -> is_leaf l d = true ->
     Q (b + k * blk l) (blk l) -> Q' (b + k * blk l) (blk l)) ->
  (forall p l b k, label_of c lab p = Some (l, b) -> entry_at c p k = Some INVALID_DESC ->
     E (b + k * blk l) (blk l) -> E' (b + k * blk l) (blk l)) ->
  (forall i l b, lab i = Some (l, b) -> N' l b = N l b) ->
  wf Q' E' N' c lab.
Proof.
  intros Hwf HQ HE HN. constructor; try apply Hwf.
  - intros p l b k d Hl Hd.
    destruct (wf_entry _ _ _ _ _ Hwf _ _ _ _ _ Hl Hd) as [[-> ?]|[?|[? ?]]].
    + left. split; [done|]. by eapply HE.
    + by right; left.
    + right; right. split; [done|]. by eapply HQ.
  - intros Hd i l b Hi. rewrite (HN _ _ _ Hi). by eapply wf_count.
Qed.

Lemma wf_mono Q E N Q' E' N' c lab :
  wf Q E N c lab ->
  (forall x l, 0 <= l <= 3 -> Q x (blk l) -> Q' x (blk l)) ->
  (forall p l b k, label_of c lab p = Some (l, b) -> entry_at c p k = Some INVALID_DESC ->
     E (b + k * blk l) (blk l) -> E' (b + k * blk l) (blk l)) ->
  (forall i l b, lab i = Some (l, b) -> N' l b = N l b) ->
  wf Q' E' N' c lab.
Proof.
  intros Hwf HQ HE HN. eapply wf_weaken; try done. intros p l b k d Hl _ _.
  destruct (label_level _ _ _ _ _ _ _ _ Hwf Hl). apply HQ. lia.
Qed.

(** Replacing an entry that leads to no table. *)
Lemma wf_write Q E N c lab p l b k old d :
  wf Q E N c lab -> label_of c lab p = Some (l, b) -> entry_at c p k = Some old ->
  (forall i, lab i <> Some (l + 1, b + k * blk l)) ->
  entry_ok Q E c lab l (b + k * blk l) d ->
  wf Q E N (written p k d c) lab.
Proof.
  intros Hwf Hl Hold Hno Hok. pose proof (same_conf_written p k d c) as Hs.
  destruct (same_conf_fields _ _ Hs) as (Hbl & _ & _ & _ & Hnum & _).
  destruct (written_counts p k d c) as [Hcnt Hnext].
  constructor.
  - apply geometry_written, Hwf.
  - rewrite Hbl, Hnum. apply (wf_lab _ _ _ _ _ Hwf).
  - apply (wf_inj _ _ _ _ _ Hwf).
  - intros q l' b' j e Hq He. rewrite (label_of_conf _ _ _ _ Hs) in Hq.
    apply (entry_ok_conf c _ _ _ _ _ _ _ Hs).
    rewrite (entry_written _ _ _ _ _ _ _ Hold) in He. case_decide as Hd.
    + destruct Hd as [-> ->]. simplify_eq. done.
    + by eapply wf_entry.
  - intros i l' b' Hi. destruct (wf_parent _ _ _ _ _ Hwf _ _ _ Hi) as (q & b1 & j & Hq & Hb1 & Hj).
    exists q, b1, j. rewrite (label_of_conf _ _ _ _ Hs). split_and!; [done|done|].
    rewrite (entry_written _ _ _ _ _ _ _ Hold), (table_desc_conf _ _ _ Hs).
    rewrite decide_False; [done|]. intros [-> ->]. rewrite Hl in Hq. simplify_eq.
    replace (l' - 1 + 1) with l' in Hno by lia. by eapply Hno.
  - intros i t j e Hi Ht He. destruct p as [|i']; cbn in Ht; [by eapply wf_free|].
    assert (i <> i') by (intros ->; cbn in Hl; congruence).
    eapply wf_free; [done|done| |done]. destruct ((tables c).[i']); [|done].
    by rewrite zlookup_zupdate_ne in Ht by done.
  - intros i Hi. rewrite Hnum in Hi. rewrite (wf_used _ _ _ _ _ Hwf i Hi).
    unfold free_table. by rewrite Hcnt, Hnext.
  - rewrite Hcnt. apply (wf_count _ _ _ _ _ Hwf).
Qed.

(** ** Region counts *)

Definition with_count (i v : Z) (c : xlat_ctx) : xlat_ctx :=
  set_mem (base_table c) (tables c) (zupdate (tables_mapped_regions c) i v) (next_table c)
    (xlat_trace c) c.

(** The count of a table plus one, in a dynamic build. *)
Definition bump (p : table_ptr) (c : xlat_ctx) : xlat_ctx :=
  match p with
  | Base => c
  | Sub i => if PLAT_XLAT_TABLES_DYNAMIC
             then with_count i (default 0 ((tables_mapped_regions c).[i]) + 1) c else c
  end.

Lemma same_conf_bump p c : same_conf c (bump p c).
Proof. destruct p; cbn; [|destruct PLAT_XLAT_TABLES_DYNAMIC]; by destruct c. Qed.

Lemma table_bump p q c : table_at (bump p c) q = table_at c q.
Proof. destruct p, q; cbn; try done; by destruct PLAT_XLAT_TABLES_DYNAMIC. Qed.

Lemma tables_bump p c : tables (bump p c) = tables c.
Proof. destruct p; cbn; [|destruct PLAT_XLAT_TABLES_DYNAMIC]; done. Qed.

Lemma walk_bump p c fuel q l va : walk fuel (bump p c) q l va = walk fuel c q l va.
Proof.
  apply walk_same; [intros r; apply table_bump| |by rewrite tables_bump].
  apply (same_conf_fields _ _ (same_conf_bump p c)).
Qed.

Lemma geometry_bump p c : geometry c -> geometry (bump p c).
Proof.
  intros Hg. destruct p as [|i]; cbn; [done|]. destruct PLAT_XLAT_TABLES_DYNAMIC eqn:Hd; [|done].
  constructor; try apply Hg. intros _. cbn. rewrite length_zupdate. by apply (geo_counts _ Hg).
Qed.

Lemma count_bump i j c k :
  PLAT_XLAT_TABLES_DYNAMIC = true -> (tables_mapped_regions c).[i] = Some k ->
  (tables_mapped_regions (bump (Sub i) c)).[j] =
    if decide (i = j) then Some (k + 1) else (tables_mapped_regions c).[j].
Proof.
  intros Hd Hk. cbn. rewrite Hd. cbn. rewrite Hk. cbn. by eapply zlookup_zupdate.
Qed.

(** A well-formed state in which the count of a table in use is raised. *)
Lemma wf_bump Q E N N' c lab i l b :
  wf Q E N c lab -> lab i = Some (l, b) -> 0 <= N l b ->
  N' l b = N l b + 1 ->
  (forall l' b', (l', b') <> (l, b) -> (exists j, lab j = Some (l', b')) -> N' l' b' = N l' b') ->
  wf Q E N' (bump (Sub i) c) lab.
Proof.
  intros Hwf Hi Hpos Hnew Hother. pose proof (same_conf_bump (Sub i) c) as Hs.
  destruct (same_conf_fields _ _ Hs) as (Hbl & _ & _ & _ & Hnum & _).
  assert (forall q k, entry_at (bump (Sub i) c) q k = entry_at c q k) as Hent.
  { intros q k. unfold entry_at. by rewrite table_bump. }
  constructor.
  - apply geometry_bump, Hwf.
  - rewrite Hbl, Hnum. apply (wf_lab _ _ _ _ _ Hwf).
  - apply (wf_inj _ _ _ _ _ Hwf).
  - intros q l' b' k d Hq Hd. rewrite (label_of_conf _ _ _ _ Hs) in Hq. rewrite Hent in Hd.
    apply (entry_ok_conf c _ _ _ _ _ _ _ Hs). by eapply wf_entry.
  - intros j l' b' Hj. destruct (wf_parent _ _ _ _ _ Hwf _ _ _ Hj) as (q & b1 & k & ? & ? & ?).
    exists q, b1, k. by rewrite (label_of_conf _ _ _ _ Hs), Hent, (table_desc_conf _ _ _ Hs).
  - intros j t k d Hj Ht. rewrite tables_bump in Ht. by eapply wf_free.
  - intros j Hj. rewrite Hnum in Hj. rewrite (wf_used _ _ _ _ _ Hwf j Hj).
    unfold free_table. destruct PLAT_XLAT_TABLES_DYNAMIC eqn:Hd; [|by cbn; rewrite Hd].
    pose proof (wf_count _ _ _ _ _ Hwf Hd _ _ _ Hi) as Hc.
    rewrite (count_bump _ _ _ _ Hd Hc). case_decide as Hij; [subst j|done].
    assert (lab i <> None) as Hsome by congruence.
    assert ((tables_mapped_regions c).[i] <> Some 0) as Hnz.
    { intros Hz. apply Hsome, (wf_used _ _ _ _ _ Hwf _ Hj). unfold free_table. by rewrite Hd. }
    rewrite Hc in Hnz |- *. split; [congruence|]. intros [= Hz]. lia.
  - intros Hd j l' b' Hj. pose proof (wf_count _ _ _ _ _ Hwf Hd _ _ _ Hi) as Hc.
    rewrite (count_bump _ _ _ _ Hd Hc). case_decide as Hij.
    + subst j. rewrite Hi in Hj. simplify_eq. by rewrite Hnew.
    + rewrite (wf_count _ _ _ _ _ Hwf Hd _ _ _ Hj), Hother; [done| |by exists j].
      intros [= -> ->]. apply Hij. by eapply (wf_inj _ _ _ _ _ Hwf).
Qed.

Lemma inc_count_run i c lab l b Q E N :
  PLAT_XLAT_TABLES_DYNAMIC = true -> wf Q E N (bump (Sub i) c) lab -> lab i = Some (l, b) ->
  xlat_table_inc_regions_count (Sub i) c = Done tt (bump (Sub i) c).
Proof.
  intros Hd Hwf Hi. destruct (wf_lab _ _ _ _ _ Hwf _ _ _ Hi) as (_ & Hr & _).
  destruct (same_conf_fields _ _ (same_conf_bump (Sub i) c)) as (_ & _ & _ & _ & Hnum & _).
  rewrite Hnum in Hr.
  unfold xlat_table_inc_regions_count, xlat_table_get_index, bind, gets, id.
  rewrite (proj2 (Z.leb_le 0 i)), (proj2 (Z.ltb_lt i _)) by lia. cbn [andb ret].
  destruct ((tables_mapped_regions c).[i]) as [k|] eqn:Hk; cbn [deref ret].
  - unfold set_count, modify, bump. by rewrite Hd, Hk.
  - pose proof (wf_count _ _ _ _ _ Hwf Hd _ _ _ Hi) as Hc. apply zlookup_lt_Some in Hc.
    cbn in Hc. rewrite Hd in Hc. cbn in Hc. rewrite length_zupdate in Hc.
    apply zlookup_lt_is_Some in Hc. rewrite Hk in Hc. by destruct Hc.
Qed.

(** ** Taking and linking a free sub-table *)

Definition no_free (c : xlat_ctx) : Prop :=
  forall i, 0 <= i < tables_num c -> ~ free_table c i.

(** The state after a sub-table was taken. *)
Definition taken (c : xlat_ctx) : xlat_ctx :=
  if PLAT_XLAT_TABLES_DYNAMIC then c
  else set_mem (base_table c) (tables c) (tables_mapped_regions c) (next_table c + 1)
         (xlat_trace c) c.

Lemma first_empty_run n i (counts : list Z) c :
  0 <= i -> i + Z.of_nat n <= Z.of_nat (length counts) ->
  exists r, first_empty n i counts c = Done r c /\
    match r with
    | Some q => exists j, q = Sub j /\ i <= j < i + Z.of_nat n /\ counts.[j] = Some 0
    | None => forall j, i <= j < i + Z.of_nat n -> counts.[j] <> Some 0
    end.
Proof.
  revert i. induction n as [|n IH]; intros i Hi Hlen; cbn [first_empty].
  - exists None. split; [done|]. lia.
  - destruct (proj2 (zlookup_lt_is_Some counts i)) as [k Hk]; [lia|].
    unfold bind. rewrite Hk. cbn [deref ret]. destruct (Z.eqb_spec k 0) as [->|Hne].
    + eexists. split; [done|]. exists i. split_and!; [done|lia..|done].
    + destruct (IH (i + 1)) as (r & Hr & Hspec); [lia|lia|]. exists r. split; [done|].
      destruct r as [q|].
      * destruct Hspec as (j & -> & Hj & Hc). exists j. split_and!; [done|lia..|done].
      * intros j Hj. destruct (decide (j = i)) as [->|]; [congruence|]. apply Hspec. lia.
Qed.

Lemma wp_get_empty Q E N c lab :
  wf Q E N c lab ->
  wp xlat_table_get_empty
    (fun r c' => match r with
     | Some q => exists i, q = Sub i /\ 0 <= i < tables_num c /\ lab i = None /\ c' = taken c /\
                   (PLAT_XLAT_TABLES_DYNAMIC = false -> i = next_table c)
     | None => PLAT_XLAT_TABLES_DYNAMIC = true /\ no_free c'
     end)
    (fun w c' => PLAT_XLAT_TABLES_DYNAMIC = false /\ w = AssertFailed /\ no_free c') c.
Proof.
  intros Hwf. pose proof (wf_geo _ _ _ _ _ Hwf) as Hg. pose proof (geo_num _ Hg) as Hnum.
  unfold xlat_table_get_empty. wp_steps. unfold id, taken, no_free, free_table.
  destruct PLAT_XLAT_TABLES_DYNAMIC eqn:Hd.
  - destruct (first_empty_run (Z.to_nat (tables_num c)) 0 (tables_mapped_regions c) c)
      as (r & Hr & Hspec); [lia|rewrite (geo_counts _ Hg Hd); lia|].
    eapply wp_exact; [exact Hr|]. rewrite Z2Nat.id in Hspec by lia. destruct r as [q|].
    + destruct Hspec as (j & -> & Hj & Hc). exists j. split_and!; [done|lia|lia| |done|done].
      apply (wf_used _ _ _ _ _ Hwf); [lia|]. unfold free_table. by rewrite Hd.
    + split; [done|]. intros i Hi. apply Hspec. lia.
  - apply wp_bind. unfold assert_. destruct (Z.ltb_spec (next_table c) (tables_num c)) as [Hlt|Hge];
      cbn [andb negb].
    + wp_steps. pose proof (geo_next _ Hg Hd). eexists. split_and!; [done|lia|lia| |done|done].
      apply (wf_used _ _ _ _ _ Hwf); [lia|]. unfold free_table. by rewrite Hd.
    + apply wp_halt. split_and!; [done|done|]. lia.
Qed.

Definition set_label (i : Z) (x : option (Z * Z)) (lab : labels) : labels :=
  fun j => if decide (j = i) then x else lab j.

Lemma set_label_eq i x lab : set_label i x lab i = x.
Proof. unfold set_label. by rewrite decide_True. Qed.

Lemma set_label_ne i j x lab : j <> i -> set_label i x lab j = lab j.
Proof. intros. unfold set_label. by rewrite decide_False. Qed.

Lemma same_conf_taken c : same_conf c (taken c).
Proof. unfold taken. destruct PLAT_XLAT_TABLES_DYNAMIC; by destruct c. Qed.

Lemma table_taken c q : table_at (taken c) q = table_at c q.
Proof. unfold taken. by destruct PLAT_XLAT_TABLES_DYNAMIC, q. Qed.

Lemma geometry_taken c : geometry c -> geometry (taken c).
Proof.
  intros Hg. unfold taken. destruct PLAT_XLAT_TABLES_DYNAMIC eqn:Hd; [done|].
  constructor; try apply Hg. intros _. cbn. pose proof (geo_next _ Hg Hd). lia.
Qed.

Definition linked (p : table_ptr) (k i : Z) (c : xlat_ctx) : xlat_ctx :=
  written p k (table_desc c i) (taken c).

Lemma same_conf_linked p k i c : same_conf c (linked p k i c).
Proof. eapply same_conf_trans; [apply same_conf_taken|apply same_conf_written]. Qed.

Lemma entry_linked p q k j i c old :
  entry_at c p k = Some old ->
  entry_at (linked p k i c) q j =
    if decide (q = p /\ j = k) then Some (table_desc c i) else entry_at c q j.
Proof.
  intros Ho. unfold linked. rewrite (entry_written _ _ _ _ _ _ old).
  - case_decide; [done|]. unfold entry_at. by rewrite table_taken.
  - unfold entry_at. by rewrite table_taken.
Qed.

(** Nothing is labelled below an entry that is not a table. *)
Lemma no_label_below Q E N c lab p l b k d i :
  wf Q E N c lab -> label_of c lab p = Some (l, b) -> entry_at c p k = Some d ->
  d = INVALID_DESC \/ is_leaf l d = true ->
  forall l' b', lab i = Some (l', b') -> l < l' -> b + k * blk l <= b' < b + (k + 1) * blk l -> False.
Proof.
  intros Hwf Hl Hd Hnot l' b' Hi Hll Hb.
  pose proof (entry_range _ _ _ _ (wf_geo _ _ _ _ _ Hwf) Hd) as Hk.
  destruct (table_in_entry _ _ _ _ _ _ (Sub i) _ _ _ _ _ Hwf Hl Hk Hi Hll Hb) as (j & Hj & Hlab).
  rewrite Hd in Hj. simplify_eq.
  destruct (wf_lab _ _ _ _ _ Hwf _ _ _ Hlab) as (Hlv & Hr & _).
  assert (l < 3) as Hl3 by lia.
  destruct (leaf_not_table _ _ _ _ _ _ _ _ Hwf Hl3 Hlab) as (Hleaf & Hty & _).
  destruct Hnot as [Hz|Hz]; [|congruence]. rewrite Hz in Hty.
  apply andb_true_iff in Hty as [_ Hty]. done.
Qed.

(** A new sub-table [i] for the empty entry [k] of [p]. *)
Section Link.
Variables (Q E : Z -> Z -> Prop) (N N' : Z -> Z -> Z).
Variables (c : xlat_ctx) (lab : labels) (p : table_ptr) (l b k i : Z).
Let x := b + k * blk l.
Let c' := bump (Sub i) (linked p k i c).
Let lab' := set_label i (Some (l + 1, x)) lab.
Hypothesis Hwf : wf Q E N c lab.
Hypothesis Hl : label_of c lab p = Some (l, b).
Hypothesis Hk : entry_at c p k = Some INVALID_DESC.
Hypothesis Hl3 : l < 3.
Hypothesis Hi : lab i = None.
Hypothesis Hir : 0 <= i < tables_num c.

Local Lemma link_conf : same_conf c c'.
Proof. eapply same_conf_trans; [apply same_conf_linked|apply same_conf_bump]. Qed.

Local Lemma link_entry q j :
  entry_at c' q j = if decide (q = p /\ j = k) then Some (table_desc c i) else entry_at c q j.
Proof. unfold entry_at at 1, c'. rewrite table_bump. by eapply entry_linked. Qed.

Local Lemma link_counts :
  tables_mapped_regions (linked p k i c) = tables_mapped_regions c /\
  next_table (linked p k i c) = next_table (taken c).
Proof.
  destruct (written_counts p k (table_desc c i) (taken c)) as [Ha Hb].
  unfold linked. rewrite Ha, Hb. split; [|done]. unfold taken. by destruct PLAT_XLAT_TABLES_DYNAMIC.
Qed.

Local Lemma link_fresh j : lab j <> Some (l + 1, x).
Proof.
  intros Hj. destruct (label_level _ _ _ _ _ _ _ _ Hwf Hl). pose proof (blk_pos l).
  eapply (no_label_below _ _ _ _ _ _ _ _ _ _ j Hwf Hl Hk); [by left|done|lia|unfold x; lia].
Qed.

Local Lemma link_label q l' b' :
  q <> Sub i -> label_of c lab' q = Some (l', b') <-> label_of c lab q = Some (l', b').
Proof. destruct q as [|j]; [done|]. intros Hq. cbn. unfold lab'. by rewrite set_label_ne by congruence. Qed.

Local Lemma link_entries :
  (forall j, 0 <= j < 512 -> E (x + j * blk (l + 1)) (blk (l + 1))) ->
  forall q l' b' j d, label_of c' lab' q = Some (l', b') -> entry_at c' q j = Some d ->
  entry_ok Q E c' lab' l' (b' + j * blk l') d.
Proof.
  intros HE q l' b' j d Hq Hd. rewrite (label_of_conf _ _ _ _ link_conf) in Hq.
  apply (entry_ok_conf c _ _ _ _ _ _ _ link_conf). rewrite link_entry in Hd.
  assert (p <> Sub i) as Hpi by (intros ->; cbn in Hl; congruence).
  destruct (decide (q = Sub i)) as [->|Hqi].
  - rewrite decide_False in Hd by (intros [? ?]; congruence).
    cbn in Hq. unfold lab' in Hq. rewrite set_label_eq in Hq. injection Hq as <- <-.
    pose proof (entry_range _ _ _ _ (wf_geo _ _ _ _ _ Hwf) Hd) as Hjr. cbn in Hjr.
    unfold entry_at in Hd. cbn in Hd. destruct ((tables c).[i]) as [t|] eqn:Ht; [|done].
    left. split; [by eapply (wf_free _ _ _ _ _ Hwf)|]. by apply HE.
  - apply (link_label _ _ _ Hqi) in Hq. case_decide as Hqk.
    + destruct Hqk as [-> ->]. rewrite Hl in Hq. simplify_eq. right; left. split; [done|].
      exists i. split; [done|]. unfold lab'. by rewrite set_label_eq.
    + destruct (wf_entry _ _ _ _ _ Hwf _ _ _ _ _ Hq Hd) as [?|[(? & i' & ? & Hi')|?]];
        [by left| |by right; right]. right; left.
      split; [done|]. exists i'. split; [done|]. unfold lab'. rewrite set_label_ne; [done|]. congruence.
Qed.

Local Lemma link_parent j l' b' :
  lab' j = Some (l', b') ->
  exists q b1 j', label_of c' lab' q = Some (l' - 1, b1) /\ b' = b1 + j' * blk (l' - 1) /\
    entry_at c' q j' = Some (table_desc c' j).
Proof.
  assert (p <> Sub i) as Hpi by (intros ->; cbn in Hl; congruence). pose proof (wf_geo _ _ _ _ _ Hwf) as Hg.
  intros Hj. unfold lab' in Hj. destruct (decide (j = i)) as [->|Hji].
  - rewrite set_label_eq in Hj. injection Hj as <- <-. exists p, b, k.
    rewrite (label_of_conf _ _ _ _ link_conf), link_entry, decide_True, (table_desc_conf _ _ _ link_conf) by done.
    replace (l + 1 - 1) with l by lia. split_and!; [|done|done]. by apply link_label.
  - rewrite set_label_ne in Hj by done.
    destruct (wf_parent _ _ _ _ _ Hwf _ _ _ Hj) as (q & b1 & j' & Hq & Hb1 & Hj').
    exists q, b1, j'. rewrite (label_of_conf _ _ _ _ link_conf), (table_desc_conf _ _ _ link_conf), link_entry.
    split_and!; [|done|].
    + apply link_label; [|done]. intros ->. cbn in Hq. congruence.
    + rewrite decide_False; [done|]. intros [-> ->]. rewrite Hk in Hj'. injection Hj' as Hz.
      destruct (wf_lab _ _ _ _ _ Hwf _ _ _ Hj) as (_ & Hjr & _).
      destruct (table_desc_fields _ _ Hg Hjr) as [_ Hm]. rewrite <- Hz in Hm. done.
Qed.

Local Lemma link_used :
  (PLAT_XLAT_TABLES_DYNAMIC = false -> i = next_table c) ->
  forall j, 0 <= j < tables_num c -> lab' j = None <-> free_table c' j.
Proof.
  intros Hst j Hj. pose proof (wf_used _ _ _ _ _ Hwf j Hj) as Hu.
  pose proof (wf_used _ _ _ _ _ Hwf i Hir) as Hui. destruct link_counts as [Hcnt Hnext].
  unfold free_table, lab', c' in *. destruct PLAT_XLAT_TABLES_DYNAMIC eqn:Hd.
  - assert ((tables_mapped_regions (linked p k i c)).[i] = Some 0) as Hz by (rewrite Hcnt; by apply Hui).
    rewrite (count_bump _ _ _ _ Hd Hz), Hcnt. destruct (decide (j = i)) as [->|Hji].
    + rewrite set_label_eq, decide_True by done. done.
    + by rewrite set_label_ne, decide_False by done.
  - assert (next_table (bump (Sub i) (linked p k i c)) = next_table c + 1) as ->.
    { cbn. rewrite Hd, Hnext. unfold taken. by rewrite Hd. }
    specialize (Hst eq_refl). destruct (decide (j = i)) as [->|Hji].
    + rewrite set_label_eq. split; [done|]. lia.
    + rewrite set_label_ne by done. rewrite Hu. lia.
Qed.

Lemma wf_link :
  (PLAT_XLAT_TABLES_DYNAMIC = false -> i = next_table c) ->
  (forall j, 0 <= j < 512 -> E (x + j * blk (l + 1)) (blk (l + 1))) ->
  (forall l' b' j, lab j = Some (l', b') -> N' l' b' = N l' b') ->
  N' (l + 1) x = 1 ->
  wf Q E N' c' lab'.
Proof.
  intros Hst HE HN HN1. pose proof (wf_geo _ _ _ _ _ Hwf) as Hg. pose proof (entry_range _ _ _ _ Hg Hk) as Hkr.
  destruct (label_level _ _ _ _ _ _ _ _ Hwf Hl) as [Hlv Hlv0].
  destruct (label_base _ _ _ _ _ _ _ _ Hwf Hl) as [Hb0 Hbd].
  destruct (same_conf_fields _ _ link_conf) as (Hbl & _ & _ & _ & Hnum & _). destruct link_counts as [Hcnt _].
  constructor.
  - apply geometry_bump. unfold linked. by apply geometry_written, geometry_taken.
  - intros j l' b'. rewrite Hbl, Hnum. unfold lab', set_label. case_decide; [|by apply (wf_lab _ _ _ _ _ Hwf)].
    intros [= <- <-]. subst j. pose proof (blk_pos l). unfold x.
    split; [lia|]. split; [lia|]. split; [nia|].
    rewrite <- blk_next by lia. by apply (block_aligned _ _ _ _ _ _ _ _ _ Hwf Hl).
  - intros j j' y. unfold lab', set_label. destruct (decide (j = i)) as [->|], (decide (j' = i)) as [->|].
    + done.
    + intros [= <-] Hj'. by destruct (link_fresh j').
    + intros Hj [= <-]. by destruct (link_fresh j).
    + apply (wf_inj _ _ _ _ _ Hwf).
  - by apply link_entries.
  - apply link_parent.
  - intros j t j' d Hj Ht Hd. unfold lab' in Hj. destruct (decide (j = i)) as [->|Hji]; [by rewrite set_label_eq in Hj|].
    rewrite set_label_ne in Hj by done. unfold c' in Ht. rewrite tables_bump in Ht.
    eapply (wf_free _ _ _ _ _ Hwf); [exact Hj| |exact Hd]. rewrite <- Ht.
    change (table_at c (Sub j) = table_at (linked p k i c) (Sub j)).
    rewrite <- (table_taken c). symmetry. apply table_written_ne. intros <-. cbn in Hl. congruence.
  - intros j Hj. rewrite Hnum in Hj. by apply link_used.
  - intros Hd j l' b' Hj. unfold lab', c' in *.
    assert ((tables_mapped_regions (linked p k i c)).[i] = Some 0) as Hz.
    { rewrite Hcnt. pose proof (proj1 (wf_used _ _ _ _ _ Hwf i Hir) Hi) as Hf.
      unfold free_table in Hf. by rewrite Hd in Hf. }
    rewrite (count_bump _ _ _ _ Hd Hz), Hcnt. destruct (decide (j = i)) as [->|Hji].
    + rewrite set_label_eq in Hj. injection Hj as <- <-. by rewrite decide_True, HN1 by done.
    + rewrite set_label_ne in Hj by done. rewrite decide_False by done. rewrite (HN _ _ _ Hj). by apply (wf_count _ _ _ _ _ Hwf Hd).
Qed.
End Link.
End Updates.
