(* ===== verification/XlatDesc.v ===== *)
(** * Translation tables: the attributes of a region

    [region_attrs] gives the attribute bits of the descriptors of a region, on
    the attributes the library accepts; [xlat_desc] puts them on an address. *)

From stdpp Require Import list_numbers.
From S2P Require Import Prelude XlatDefs XlatCore XlatWalk.
#[local] Open Scope cmd_scope.

Section Desc.
Context `{XlatConfig}.
Implicit Types (c : xlat_ctx).

(** The physical address space: NS and, with RME, NSE. *)
Definition pas_attrs (regime a : Z) : option Z :=
  if is_feat_rme_supported then
    if regime =? EL3_REGIME then
      if MT_PAS a =? MT_REALM then
        if ENABLE_RMM then Some (LOWER_ATTRS (Z.lor EL3_S1_NSE NS)) else None
      else if MT_PAS a =? MT_ROOT then Some (LOWER_ATTRS EL3_S1_NSE)
      else if MT_PAS a =? MT_NS then Some (LOWER_ATTRS NS)
      else if is_feat_sel2_supported then Some (LOWER_ATTRS 0) else None
    else None
  else if MT_PAS a =? MT_NS then Some (LOWER_ATTRS NS)
  else if (MT_PAS a =? MT_SECURE) || ((regime =? EL3_REGIME) && (MT_PAS a =? MT_ROOT))
  then Some (LOWER_ATTRS 0) else None.

(** Privileged or not; AP[1] is RES1 in the regimes with one address range. *)
Definition user_attrs (regime a : Z) : option Z :=
  if regime =? EL1_EL0_REGIME then
    Some (if is_set a MT_USER then LOWER_ATTRS AP_ACCESS_UNPRIVILEGED
          else LOWER_ATTRS AP_NO_ACCESS_UNPRIVILEGED)
  else if (regime =? EL2_REGIME) || (regime =? EL3_REGIME)
  then Some (LOWER_ATTRS AP_ONE_VA_RANGE_RES1) else None.

(** The execute-never bits of a regime. *)
Definition xn_attrs (regime : Z) : Z :=
  if regime =? EL1_EL0_REGIME then Z.lor (UPPER_ATTRS UXN) (UPPER_ATTRS PXN) else UPPER_ATTRS XN.

(** Memory type, shareability, execute-never and guarded page. *)
Definition mem_attrs (regime a : Z) : option Z :=
  if MT_TYPE a =? MT_DEVICE then
    Some (Z.lor (LOWER_ATTRS (Z.lor ATTR_DEVICE_INDEX OSH)) (xn_attrs regime))
  else
    let xn := if is_set a MT_RW || is_set a MT_EXECUTE_NEVER then xn_attrs regime else 0 in
    if MT_TYPE a =? MT_MEMORY then
      let sh := MT_SHAREABILITY a in
      Some (Z.lor (Z.lor (Z.lor xn (LOWER_ATTRS ATTR_IWBWA_OWBWA_NTR_INDEX))
              (if sh =? MT_SHAREABILITY_NSH then LOWER_ATTRS NSH
               else if sh =? MT_SHAREABILITY_OSH then LOWER_ATTRS OSH else LOWER_ATTRS ISH))
              (if is_feat_bti_supported &&
                  (Z.land a (Z.lor (Z.lor MT_TYPE_MASK MT_RW) MT_EXECUTE_NEVER) =? MT_CODE)
               then GP else 0))
    else if MT_TYPE a =? MT_NON_CACHEABLE then
      Some (Z.lor xn (LOWER_ATTRS (Z.lor ATTR_NON_CACHEABLE_INDEX OSH)))
    else None.

Definition region_attrs (regime a : Z) : option Z :=
  pas ← pas_attrs regime a;
  user ← user_attrs regime a;
  mem ← mem_attrs regime a;
  Some (Z.lor (Z.lor (Z.lor (Z.lor (LOWER_ATTRS ACCESS_FLAG) pas)
    (if is_set a MT_RW then LOWER_ATTRS AP_RW else LOWER_ATTRS AP_RO)) user) mem).

(** ** [xlat_desc] *)

Lemma mt_pas_cases a : MT_PAS a = MT_NS \/ MT_PAS a = MT_SECURE \/ MT_PAS a = MT_ROOT \/ MT_PAS a = MT_REALM.
Proof.
  unfold MT_PAS. change (Z.shiftl 3 4) with (Z.shiftl (Z.ones 2) 4).
  assert (Z.land a (Z.shiftl (Z.ones 2) 4) = Z.shiftl (Z.land (Z.shiftr a 4) (Z.ones 2)) 4) as ->.
  { apply Z.bits_inj'. intros n Hn. rewrite Z.land_spec.
    destruct (Z.ltb_spec n 4).
    - by rewrite !Z.shiftl_spec_low, andb_false_r by lia.
    - rewrite !Z.shiftl_spec, Z.land_spec, Z.shiftr_spec by lia. do 2 f_equal. lia. }
  rewrite Z.land_ones by lia. pose proof (Z.mod_pos_bound (Z.shiftr a 4) (2 ^ 2)).
  assert (Z.shiftr a 4 mod 2 ^ 2 = 0 \/ Z.shiftr a 4 mod 2 ^ 2 = 1 \/
          Z.shiftr a 4 mod 2 ^ 2 = 2 \/ Z.shiftr a 4 mod 2 ^ 2 = 3)
    as [-> | [-> | [-> | ->]]] by lia; vm_compute; tauto.
Qed.

Lemma get_pas_run a c x :
  pas_attrs (xlat_regime c) a = Some x -> xlat_arch_get_pas a c = Done x c.
Proof.
  unfold pas_attrs, xlat_arch_get_pas, bind, gets, id, assert_.
  destruct (mt_pas_cases a) as [-> | [-> | [-> | ->]]];
    destruct is_feat_rme_supported, is_feat_sel2_supported, ENABLE_RMM,
      (xlat_regime c =? EL3_REGIME); cbn; intros [=]; by subst.
Qed.

Lemma xn_run regime c :
  is_Some (user_attrs regime 0) -> xlat_arch_regime_get_xn_desc regime c = Done (xn_attrs regime) c.
Proof.
  intros [y Hy]. unfold user_attrs in Hy. unfold xlat_arch_regime_get_xn_desc, xn_attrs.
  destruct (regime =? EL1_EL0_REGIME); [done|].
  by destruct (_ || _).
Qed.

Lemma user_attrs_regime regime a a' y : user_attrs regime a = Some y -> is_Some (user_attrs regime a').
Proof.
  unfold user_attrs. destruct (regime =? EL1_EL0_REGIME); [eauto|]. destruct (_ || _); [eauto|done].
Qed.

Lemma mem_type_run regime a d c x :
  is_Some (user_attrs regime 0) -> mem_attrs regime a = Some x ->
  desc_mem_type regime a d c = Done (Z.lor d x) c.
Proof.
  intros Hu. unfold mem_attrs, desc_mem_type. destruct (MT_TYPE a =? MT_DEVICE).
  { intros [= <-]. unfold bind. rewrite (xn_run _ _ Hu). unfold ret. by rewrite Z.lor_assoc. }
  assert ((if is_set a MT_RW || is_set a MT_EXECUTE_NEVER
           then xlat_arch_regime_get_xn_desc regime else ret 0) c =
          Done (if is_set a MT_RW || is_set a MT_EXECUTE_NEVER then xn_attrs regime else 0) c) as Hxn.
  { destruct (_ || _); [by apply xn_run|done]. }
  unfold bind at 1. rewrite Hxn. destruct (MT_TYPE a =? MT_MEMORY).
  - intros [= <-]. unfold ret. f_equal. rewrite !Z.lor_assoc.
    destruct (is_feat_bti_supported && _); by rewrite ?Z.lor_0_r.
  - destruct (MT_TYPE a =? MT_NON_CACHEABLE); [|done]. intros [= <-].
    unfold bind, assert_, ret. by rewrite Z.lor_assoc.
Qed.

Lemma xlat_desc_run a pa level c x :
  0 <= level <= 3 -> region_attrs (xlat_regime c) a = Some x -> pa mod blk level = 0 ->
  xlat_desc a pa level c =
    Done (Z.lor (Z.lor pa (if level =? XLAT_TABLE_LEVEL_MAX then PAGE_DESC else BLOCK_DESC)) x) c.
Proof.
  intros Hl Hx Hpa. unfold region_attrs in Hx.
  destruct (pas_attrs _ a) as [pas|] eqn:Hp; [|done]. cbn in Hx.
  destruct (user_attrs _ a) as [user|] eqn:Hu; [|done]. cbn in Hx.
  destruct (mem_attrs _ a) as [mem|] eqn:Hm; [|done]. cbn in Hx. injection Hx as <-.
  pose proof (user_attrs_regime _ _ 0 _ Hu) as Hu0.
  unfold xlat_desc. unfold bind at 1. unfold gets, id. unfold bind at 1, assert_ at 1.
  rewrite (blk_mask _ _ Hl), Hpa, Z.eqb_refl. cbn [andb negb ret].
  unfold bind at 1. rewrite (get_pas_run _ _ _ Hp). unfold bind at 1.
  unfold user_attrs in Hu. destruct (xlat_regime c =? EL1_EL0_REGIME).
  - injection Hu as <-. unfold ret. rewrite (mem_type_run _ _ _ _ _ Hu0 Hm). f_equal.
    by rewrite !Z.lor_assoc.
  - destruct (_ || _) eqn:Hr; [|done]. injection Hu as <-. unfold bind, assert_. cbn [andb negb ret].
    rewrite (mem_type_run _ _ _ _ _ Hu0 Hm). f_equal. by rewrite !Z.lor_assoc.
Qed.

(** ** Attribute bits *)

Definition attr_bits (x : Z) : Prop := 0 <= x /\ desc_attrs x = x.

Lemma attr_bits_lor x y : attr_bits x -> attr_bits y -> attr_bits (Z.lor x y).
Proof.
  intros [Hx Ex] [Hy Ey]. split; [by apply Z.lor_nonneg|]. unfold desc_attrs in *.
  apply Z.bits_inj'. intros n Hn. rewrite Z.ldiff_spec, Z.lor_spec.
  rewrite <- Ex at 2. rewrite <- Ey at 2. rewrite !Z.ldiff_spec. by destruct (Z.testbit x n), (Z.testbit y n), (Z.testbit _ n).
Qed.

Lemma region_attrs_bits regime a x : region_attrs regime a = Some x -> attr_bits x.
Proof.
  unfold region_attrs, pas_attrs, user_attrs, mem_attrs, xn_attrs. intros Hx.
  repeat (case_match; simplify_eq/=); simplify_eq/=;
    repeat apply attr_bits_lor; by (split; vm_compute).
Qed.

(** The attributes of the descriptors of a region, with the capability bits of
    Morello. *)
Definition leaf_attrs (regime : Z) (mm : mmap_region) : option Z :=
  x ← region_attrs regime (attr mm);
  Some (if is_feat_morello_supported && is_set (attr mm) MT_CAP_LD_ST_TRACK
        then Z.lor x (Z.lor SC_BIT LC0_BIT) else x).

Lemma leaf_attrs_bits regime mm x : leaf_attrs regime mm = Some x -> attr_bits x.
Proof.
  unfold leaf_attrs. destruct (region_attrs _ _) as [y|] eqn:Hy; [|done]. cbn. intros [= <-].
  apply region_attrs_bits in Hy. destruct (_ && _); [|done].
  apply attr_bits_lor; [done|]. split; vm_compute; done.
Qed.

(** What the MMU reads from a block or page descriptor. *)
Lemma leaf_desc level pa x va d :
  1 <= level <= 3 -> 0 <= pa < 2 ^ 48 -> pa mod blk level = 0 -> attr_bits x ->
  d = Z.lor (Z.lor pa (if level =? XLAT_TABLE_LEVEL_MAX then PAGE_DESC else BLOCK_DESC)) x ->
  is_leaf level d = true /\ leaf_result level d va = (pa + va mod blk level, x).
Proof.
  intros Hl Hpa Hm [Hx0 Hx] Hd. pose proof (blk_pos level). pose proof (blk_page level).
  assert (pa mod 4096 = 0) as Hp4.
  { apply Z.mod_divide; [lia|]. apply (Z.divide_trans _ (blk level)); [auto with lia|].
    by apply Z.mod_divide; [lia|]. }
  destruct (desc_fields pa (if level =? XLAT_TABLE_LEVEL_MAX then PAGE_DESC else BLOCK_DESC) x d)
    as (Ha & Ht & Hat); try done; [by destruct (level =? _)|].
  unfold leaf_result. rewrite Ha, Hat. split.
  - unfold is_leaf. rewrite Ht. unfold XLAT_TABLE_LEVEL_MAX.
    destruct (level =? 3); [done|]. by rewrite (proj2 (Z.leb_le 1 level)) by lia.
  - f_equal. pose proof (Z.div_mod pa (blk level)). lia.
Qed.
End Desc.
