(* ===== verification/XlatMap.v ===== *)
(** * Translation tables: what [xlat_tables_map_region] does

    Mapping a region goes through the entries of a table in the order of their
    addresses. Below the address [v] it has reached, every address of the region
    that had no translation has the one of the region; the counts of the tables
    it went through are one higher; the rest is as before. *)

From stdpp Require Import list_numbers.
From S2P Require Import Prelude XlatDefs XlatCore XlatWalk XlatShape XlatDesc.
#[local] Open Scope cmd_scope.

(** A region the checks let through, for a regime. *)
Record region_ok `{XlatConfig} (regime : Z) (mm : mmap_region) : Prop := {
  rg_va : 0 <= base_va mm /\ base_va mm + size mm <= 2 ^ 48;
  rg_pa : 0 <= base_pa mm /\ base_pa mm + size mm <= 2 ^ 48;
  rg_size : 0 < size mm;
  rg_page_va : base_va mm mod 4096 = 0;
  rg_page_pa : base_pa mm mod 4096 = 0;
  rg_page_size : size mm mod 4096 = 0;
  rg_attrs : is_Some (leaf_attrs regime mm)
}.

(** The translation that a region gives to an address. *)
Definition region_result `{XlatConfig} (regime : Z) (mm : mmap_region) (va : Z) : Z * Z :=
  (base_pa mm + (va - base_va mm), default 0 (leaf_attrs regime mm)).

Definition in_region (mm : mmap_region) (va : Z) : Prop :=
  base_va mm <= va < base_va mm + size mm.
#[export] Instance in_region_dec mm va : Decision (in_region mm va).
Proof. unfold in_region. apply _. Defined.

(** Where the functions that map and unmap a region start in a table: the entry
    of the first address of the region in it. *)
Lemma first_entry mm L B n :
  0 <= L <= 3 -> 0 <= B -> (blk L | B) -> 1 <= n <= 512 ->
  0 <= base_va mm /\ base_va mm + size mm <= 2 ^ 48 -> 0 < size mm -> meets mm B (n * blk L) ->
  exists k, xlat_tables_find_start_va mm B L = B + k * blk L /\
    xlat_tables_va_to_index B (xlat_tables_find_start_va mm B L) L = k /\
    0 <= k < n /\ base_va mm < B + k * blk L + blk L /\
    B + k * blk L < base_va mm + size mm /\ (k = 0 \/ B + k * blk L <= base_va mm).
Proof.
  intros HL HB HdL Hn Hva Hsz [? ?]. pose proof (blk_pos L HL).
  assert (exists k, xlat_tables_find_start_va mm B L = B + k * blk L /\
    0 <= k < n /\ base_va mm < B + k * blk L + blk L /\
    B + k * blk L < base_va mm + size mm /\ (k = 0 \/ B + k * blk L <= base_va mm))
    as (k & Hstart & Hk & Hb1 & Hb2 & Hb3).
  { unfold xlat_tables_find_start_va. destruct (Z.ltb_spec B (base_va mm)) as [Hlt|Hge].
    - rewrite blk_floor by lia. destruct HdL as [q Hq].
      pose proof (Z.div_mod (base_va mm) (blk L)). pose proof (Z.mod_pos_bound (base_va mm) (blk L)).
      exists (base_va mm / blk L - q).
      assert (B + (base_va mm / blk L - q) * blk L = base_va mm - base_va mm mod blk L) as -> by lia.
      assert (q <= base_va mm / blk L) by (apply Z.div_le_lower_bound; lia).
      assert (base_va mm / blk L < q + n) by (apply Z.div_lt_upper_bound; lia).
      split_and!; lia.
    - exists 0. split_and!; lia. }
  exists k. split_and!; try (done || lia). unfold xlat_tables_va_to_index. rewrite Hstart.
  replace (B + k * blk L - B) with (k * blk L) by lia.
  assert (k * blk L < 2 ^ 49) by nia.
  rewrite u64_small, blk_shift, Z.div_mul by lia. apply u32_small. lia.
Qed.

Section Map.
Context `{XlatConfig}.
Variables (regime : Z) (mm : mmap_region).
Hypothesis Hok : region_ok regime mm.

(** Conditions on the mapped and empty entries and counts before the region is
    mapped. Existing blocks are in the region or apart from it. *)
Variables (Q E0 : Z -> Z -> Prop) (N0 : Z -> Z -> Z).
Hypothesis HQ_in : forall x n, inside mm x n -> Q x n.
Hypothesis HQ_mm : forall x n, Q x n -> meets mm x n -> inside mm x n.
Hypothesis HE_sub : forall x n y m, E0 x n -> x <= y -> y + m <= x + n -> E0 y m.
Hypothesis HE_N : forall x l, 0 <= l < 3 -> E0 x (blk l) -> N0 (l + 1) x = 0.
Hypothesis HN_pos : forall l b, 0 <= N0 l b.

Implicit Types (c : xlat_ctx) (lab : labels) (p q : table_ptr) (v : Z).

Definition region_top : Z := base_va mm + size mm.

Lemma region_end_top : region_end_va mm = region_top - 1.
Proof.
  pose proof (rg_va _ _ Hok). pose proof (rg_size _ _ Hok). unfold region_end_va, region_top.
  apply u64_small. lia.
Qed.

(** Counts when the table at level [L] from [B] on is being processed at [v]:
    the tables that begin below [v], this table and those above it. *)
Definition visited (L B v l b : Z) : Prop :=
  meets mm b (512 * blk l) /\ (b < v \/ (l <= L /\ b <= B)).
#[local] Instance visited_dec L B v l b : Decision (visited L B v l b).
Proof. unfold visited. apply _. Defined.
Definition Nv (L B v l b : Z) : Z := N0 l b + (if decide (visited L B v l b) then 1 else 0).

Lemma Nv_same L B v L' B' v' l b :
  (meets mm b (512 * blk l) -> (b < v \/ (l <= L /\ b <= B)) <-> (b < v' \/ (l <= L' /\ b <= B'))) ->
  Nv L B v l b = Nv L' B' v' l b.
Proof.
  intros Hiff. unfold Nv. f_equal. apply decide_ext. unfold visited. tauto.
Qed.

(** A table at the level of [p] or above that begins in an entry of [p] begins
    where [p] does. *)
Lemma table_begins c lab p L B k i l b Q' E' N' :
  wf Q' E' N' c lab -> label_of c lab p = Some (L, B) -> 0 <= k < entries_of c p ->
  lab i = Some (l, b) -> l <= L -> B + k * blk L <= b < B + (k + 1) * blk L ->
  b = B + k * blk L /\ B = b.
Proof.
  intros Hwf Hp Hk Hi Hl Hb. destruct (wf_lab _ _ _ _ _ Hwf _ _ _ Hi) as (Hlv & _ & Hb0 & Hd).
  destruct (label_level _ _ _ _ _ _ _ _ Hwf Hp). destruct (label_base _ _ _ _ _ _ _ _ Hwf Hp) as [? HdB].
  pose proof (geo_level _ (wf_geo _ _ _ _ _ Hwf)).
  assert (512 * blk L | b) as Hdb.
  { eapply Z.divide_trans; [|exact Hd]. apply Z.mul_divide_mono_l, blk_divide; lia. }
  pose proof (blk_pos L). pose proof (entries_bound c p (wf_geo _ _ _ _ _ Hwf)).
  assert (B = b) as -> by (apply (divide_between (512 * blk L)); (done || nia)).
  split; [|done]. nia.
Qed.

(** *** Moving [v] *)

(** Over addresses before the region. *)
Lemma wf_skip L B v v' c lab p :
  wf Q E0 (Nv L B v) c lab -> label_of c lab p = Some (L, B) ->
  B <= v <= v' -> v' <= base_va mm -> v' < B + entries_of c p * blk L -> (blk L | v') ->
  wf Q E0 (Nv L B v') c lab.
Proof.
  intros Hwf Hp Hv Hbase Htop Hal.
  destruct (label_level _ _ _ _ _ _ _ _ Hwf Hp). pose proof (blk_pos L).
  pose proof (entries_bound c p (wf_geo _ _ _ _ _ Hwf)).
  destruct (label_base _ _ _ _ _ _ _ _ Hwf Hp) as [HB HdB].
  eapply wf_mono; [exact Hwf|done|done|].
  - intros i l b Hi. symmetry. apply Nv_same. intros Hm. split; [lia|].
    intros [Hb|?]; [|by right]. destruct (Z.lt_ge_cases b v) as [?|Hbv]; [by left|].
    right. destruct (wf_lab _ _ _ _ _ Hwf _ _ _ Hi) as (Hlv & _ & Hb0 & Hd).
    pose proof (geo_level _ (wf_geo _ _ _ _ _ Hwf)). pose proof (blk_pos l). unfold meets in Hm.
    destruct (Z.le_gt_cases l L) as [Hl|Hl].
    + split; [done|].
      assert (512 * blk L | b) as Hdb.
      { eapply Z.divide_trans; [|exact Hd]. apply Z.mul_divide_mono_l, blk_divide; lia. }
      assert (entries_of c p * blk L <= 512 * blk L) by nia.
      rewrite (divide_between (512 * blk L) B b); (done || lia).
    + exfalso. assert (512 * blk l = blk (l - 1)) as Hsz.
      { pose proof (blk_next (l - 1)) as Hx. replace (l - 1 + 1) with l in Hx by lia. lia. }
      rewrite Hsz in *.
      destruct (aligned_nest (blk (l - 1)) (blk L) v' b) as [?|[?|?]]; try lia; try done.
      apply blk_divide; lia.
Qed.

(** Over an entry that is a block or page. *)
Lemma wf_advance L B k d c lab p :
  let x := B + k * blk L in
  wf Q E0 (Nv L B x) c lab -> label_of c lab p = Some (L, B) ->
  entry_at c p k = Some d -> is_leaf L d = true ->
  wf Q E0 (Nv L B (x + blk L)) c lab.
Proof.
  intros x Hwf Hp Hd Hleaf. pose proof (wf_geo _ _ _ _ _ Hwf) as Hg.
  pose proof (entry_range _ _ _ _ Hg Hd) as Hk. pose proof (entries_bound c p Hg).
  destruct (label_level _ _ _ _ _ _ _ _ Hwf Hp). pose proof (blk_pos L).
  assert (forall i l b, lab i = Some (l, b) -> L < l -> x <= b < x + blk L -> False) as Hbelow.
  { intros i l b Hi Hl Hb. eapply (no_label_below _ _ _ _ _ _ _ _ _ _ i Hwf Hp Hd); [by right|done|done|].
    unfold x in Hb. lia. }
  eapply wf_mono; [exact Hwf|done|done|].
  - intros i l b Hi. symmetry. apply Nv_same. intros _. split; [lia|].
    intros [Hb|?]; [|by right]. destruct (Z.lt_ge_cases b x) as [?|Hbx]; [by left|]. right.
    destruct (Z.lt_ge_cases L l) as [Hl|Hl]; [by destruct (Hbelow i l b)|]. split; [done|].
    destruct (table_begins c lab p L B k i l b _ _ _ Hwf Hp Hk Hi Hl) as [? ?]; [unfold x in *; lia|lia].
Qed.

(** *** Entering a sub-table *)

Lemma Nv_enter L B k c lab p i l b Q' E' N' :
  let x := B + k * blk L in
  wf Q' E' N' c lab -> label_of c lab p = Some (L, B) -> 0 <= k < entries_of c p ->
  lab i = Some (l, b) -> (l, b) <> (L + 1, x) -> Nv (L + 1) x x l b = Nv L B x l b.
Proof.
  intros x Hwf Hp Hk Hi Hne. destruct (label_level _ _ _ _ _ _ _ _ Hwf Hp).
  pose proof (blk_pos L). apply Nv_same. intros _.
  split; intros [?|[Hl Hb]]; [by left| |by left|].
  - destruct (Z.lt_ge_cases b x) as [?|Hbx]; [by left|right].
    assert (b = x) as -> by lia. assert (l <= L) as Hl'.
    { destruct (decide (l = L + 1)) as [->|]; [done|lia]. }
    destruct (table_begins c lab p L B k i l x _ _ _ Hwf Hp Hk Hi Hl') as [? ?]; [unfold x; lia|].
    split; [done|]. unfold x in *. lia.
  - right. split; [lia|]. unfold x. nia.
Qed.

Lemma wf_enter L B k i c lab p :
  let x := B + k * blk L in
  wf Q E0 (Nv L B x) c lab -> label_of c lab p = Some (L, B) -> 0 <= k < entries_of c p ->
  lab i = Some (L + 1, x) -> L < 3 -> meets mm x (blk L) ->
  wf Q E0 (Nv (L + 1) x x) (bump (Sub i) c) lab.
Proof.
  intros x Hwf Hp Hk Hi HL Hm. destruct (label_level _ _ _ _ _ _ _ _ Hwf Hp) as [_ HL0].
  pose proof (blk_next L) as Hsz. eapply wf_bump; [exact Hwf|exact Hi| | |].
  - unfold Nv. pose proof (HN_pos (L + 1) x). case_decide; lia.
  - assert (visited (L + 1) x x (L + 1) x) as H1.
    { split; [by rewrite <- Hsz by lia|lia]. }
    assert (~ visited L B x (L + 1) x) as H2 by (intros [_ ?]; lia).
    unfold Nv. rewrite (decide_True _ _ H1), (decide_False _ _ H2). lia.
  - intros l' b' Hne [j Hj]. by eapply Nv_enter.
Qed.

Lemma wf_create L B k i c lab p :
  let x := B + k * blk L in
  wf Q E0 (Nv L B x) c lab -> label_of c lab p = Some (L, B) ->
  entry_at c p k = Some INVALID_DESC -> L < 3 -> meets mm x (blk L) ->
  lab i = None -> 0 <= i < tables_num c ->
  (PLAT_XLAT_TABLES_DYNAMIC = false -> i = next_table c) ->
  wf Q E0 (Nv (L + 1) x x) (bump (Sub i) (linked p k i c)) (set_label i (Some (L + 1, x)) lab).
Proof.
  intros x Hwf Hp Hd HL Hm Hi Hir Hst. destruct (label_level _ _ _ _ _ _ _ _ Hwf Hp) as [_ HL0].
  pose proof (blk_next L) as Hsz. pose proof (entry_range _ _ _ _ (wf_geo _ _ _ _ _ Hwf) Hd) as Hk.
  assert (E0 x (blk L)) as HE.
  { destruct (wf_entry _ _ _ _ _ Hwf _ _ _ _ _ Hp Hd) as [[_ ?]|[(_ & j & Hj & Hlab)|[Hl _]]]; [done| |].
    - destruct (wf_lab _ _ _ _ _ Hwf _ _ _ Hlab) as (_ & Hjr & _).
      destruct (table_desc_fields _ _ (wf_geo _ _ _ _ _ Hwf) Hjr) as [_ Hz]. by rewrite <- Hj in Hz.
    - unfold is_leaf in Hl. by destruct (L =? 3), (1 <=? L). }
  assert (forall j, lab j <> Some (L + 1, x)) as Hfresh.
  { intros j Hj. pose proof (blk_pos L).
    eapply (no_label_below _ _ _ _ _ _ _ _ _ _ j Hwf Hp Hd); [by left|done|lia|unfold x; lia]. }
  pose proof (blk_pos (L + 1)). eapply wf_link; try done.
  - intros j Hj. eapply HE_sub; [exact HE|unfold x; nia|].
    rewrite Hsz by lia. unfold x. nia.
  - intros l' b' j Hj. eapply Nv_enter; try done. intros [= -> ->]. by eapply Hfresh.
  - fold x. assert (visited (L + 1) x x (L + 1) x) as H1.
    { split; [by rewrite <- Hsz by lia|lia]. }
    unfold Nv. rewrite (decide_True _ _ H1), (HE_N x L) by (done || lia). done.
Qed.

(** ** The effect below an address *)

(** The translation of an address after the region was mapped below [v]. *)
Definition filled (v : Z) (o : option (Z * Z)) (va : Z) : option (Z * Z) :=
  if decide (in_region mm va /\ va < v)
  then Some (default (region_result regime mm va) o) else o.

(** From [c0] to [c] the region was mapped below [v] in the table [p]. *)
Record mapped (L B : Z) (p : table_ptr) (v : Z) (c0 : xlat_ctx) (lab0 : labels)
    (c : xlat_ctx) (lab : labels) : Prop := {
  mp_wf : wf Q E0 (Nv L B v) c lab;
  mp_conf : same_conf c0 c;
  mp_len : length (tables c) = length (tables c0);
  mp_lab : forall i x, lab0 i = Some x -> lab i = Some x;
  mp_frame : forall q l b, label_of c0 lab0 q = Some (l, b) -> q <> p ->
    ~ (L < l /\ B <= b < B + entries_of c0 p * blk L) -> table_at c q = table_at c0 q;
  mp_rest : forall k, v <= B + k * blk L -> entry_at c p k = entry_at c0 p k;
  mp_walk : forall va, covers c0 p L B va ->
    walk (levels_from L) c p L va = filled v (walk (levels_from L) c0 p L va) va
}.

Lemma mapped_label L B p v c0 lab0 c lab q l b :
  mapped L B p v c0 lab0 c lab -> label_of c0 lab0 q = Some (l, b) -> label_of c lab q = Some (l, b).
Proof.
  intros Hm Hq. rewrite (label_of_conf _ _ _ _ (mp_conf _ _ _ _ _ _ _ _ Hm)).
  destruct q; [done|]. by apply (mp_lab _ _ _ _ _ _ _ _ Hm).
Qed.

(** An entry that is a block already, or that becomes one. *)
Lemma mapped_leaf L B p k c0 lab0 c lab d :
  let x := B + k * blk L in
  mapped L B p x c0 lab0 c lab -> label_of c0 lab0 p = Some (L, B) ->
  entry_at c p k = Some d -> is_leaf L d = true ->
  mapped L B p (x + blk L) c0 lab0 c lab.
Proof.
  intros x Hm Hp Hd Hleaf. pose proof (mapped_label _ _ _ _ _ _ _ _ _ _ _ Hm Hp) as Hpc.
  pose proof (mp_wf _ _ _ _ _ _ _ _ Hm) as Hwf. destruct (label_level _ _ _ _ _ _ _ _ Hwf Hpc).
  pose proof (blk_pos L). pose proof (entry_range _ _ _ _ (wf_geo _ _ _ _ _ Hwf) Hd) as Hk.
  constructor; try apply Hm.
  - by eapply wf_advance.
  - intros j Hj. apply (mp_rest _ _ _ _ _ _ _ _ Hm). lia.
  - intros va Hva. rewrite (mp_walk _ _ _ _ _ _ _ _ Hm va Hva). unfold filled.
    destruct (decide (in_region mm va)) as [Hin|Hin];
      [|by rewrite !decide_False by (intros [? ?]; done)].
    destruct (Z.lt_ge_cases va x); [by rewrite !decide_True by (split; (done || lia))|].
    destruct (Z.lt_ge_cases va (x + blk L)); [|by rewrite !decide_False by lia].
    rewrite decide_False, decide_True by (done || lia).
    assert (walk (levels_from L) c p L va = Some (leaf_result L d va)) as Hw.
    { rewrite levels_from_S by lia. eapply walk_leaf; try done. unfold x in *. lia. }
    rewrite (mp_walk _ _ _ _ _ _ _ _ Hm va Hva) in Hw. unfold filled in Hw.
    rewrite decide_False in Hw by lia. by rewrite Hw.
Qed.

Lemma mapped_start L B p c lab :
  wf Q E0 (Nv L B B) (bump p c) lab -> label_of c lab p = Some (L, B) ->
  mapped L B p B c lab (bump p c) lab.
Proof.
  intros Hwf Hp. assert (forall q k, entry_at (bump p c) q k = entry_at c q k) as Hent.
  { intros q k. unfold entry_at. by rewrite table_bump. }
  constructor; try done.
  - apply same_conf_bump.
  - by rewrite tables_bump.
  - intros q l b _ _ _. apply table_bump.
  - intros va Hva. unfold filled. rewrite decide_False by (unfold covers in Hva; lia).
    pose proof (same_conf_bump p c) as Hs. destruct (same_conf_fields _ _ Hs) as (_ & _ & _ & Ha & _).
    symmetry. eapply (walk_ext _ _ _ _ _ _ _ Hwf).
    + by symmetry.
    + by rewrite tables_bump.
    + by rewrite (label_of_conf _ _ _ _ Hs).
    + by apply (covers_conf _ _ _ _ _ _ Hs).
    + intros q l b _ _ _. symmetry. apply table_bump.
Qed.

Lemma mapped_skip L B p v v' c0 lab0 c lab :
  mapped L B p v c0 lab0 c lab -> label_of c0 lab0 p = Some (L, B) ->
  B <= v <= v' -> v' <= base_va mm -> v' < B + entries_of c0 p * blk L -> (blk L | v') ->
  mapped L B p v' c0 lab0 c lab.
Proof.
  intros Hm Hp Hv Hb Ht Hal. pose proof (mapped_label _ _ _ _ _ _ _ _ _ _ _ Hm Hp) as Hpc.
  constructor; try apply Hm.
  - eapply wf_skip; try done; [apply Hm|].
    by rewrite (entries_of_conf _ _ _ (mp_conf _ _ _ _ _ _ _ _ Hm)).
  - intros k Hk. apply (mp_rest _ _ _ _ _ _ _ _ Hm). lia.
  - intros va Hva. rewrite (mp_walk _ _ _ _ _ _ _ _ Hm va Hva). unfold filled, in_region.
    by rewrite !decide_False by lia.
Qed.

(** A new block or page of the region. *)
Lemma mapped_write L B p k c0 lab0 c lab c' d :
  let x := B + k * blk L in
  mapped L B p x c0 lab0 c lab -> label_of c0 lab0 p = Some (L, B) ->
  entry_at c p k = Some INVALID_DESC -> inside mm x (blk L) -> is_leaf L d = true ->
  (forall va, x <= va < x + blk L -> leaf_result L d va = region_result regime mm va) ->
  wf Q E0 (Nv L B x) c' lab -> same_conf c c' -> length (tables c') = length (tables c) ->
  (forall q, q <> p -> table_at c' q = table_at c q) ->
  (forall j, entry_at c' p j = if decide (j = k) then Some d else entry_at c p j) ->
  mapped L B p (x + blk L) c0 lab0 c' lab.
Proof.
  intros x Hm Hp Hd Hin Hleaf Hres Hwf' Hs Hlen Hother Hent.
  pose proof (mapped_label _ _ _ _ _ _ _ _ _ _ _ Hm Hp) as Hpc.
  pose proof (mp_wf _ _ _ _ _ _ _ _ Hm) as Hwf. destruct (label_level _ _ _ _ _ _ _ _ Hwf Hpc).
  pose proof (blk_pos L). pose proof (entry_range _ _ _ _ (wf_geo _ _ _ _ _ Hwf) Hd) as Hk.
  assert (label_of c' lab p = Some (L, B)) as Hpc' by (by rewrite (label_of_conf _ _ _ _ Hs)).
  assert (entry_at c' p k = Some d) as Hd' by (by rewrite Hent, decide_True).
  destruct (same_conf_fields _ _ Hs) as (_ & _ & _ & Ha & _).
  constructor.
  - by eapply wf_advance.
  - eapply same_conf_trans; [apply Hm|done].
  - rewrite Hlen. apply Hm.
  - apply Hm.
  - intros q l b Hq Hqp Hout. rewrite Hother by done. by eapply (mp_frame _ _ _ _ _ _ _ _ Hm).
  - intros j Hj. rewrite Hent, decide_False by (intros ->; unfold x in Hj; lia).
    apply (mp_rest _ _ _ _ _ _ _ _ Hm). lia.
  - intros va Hva. pose proof (mp_walk _ _ _ _ _ _ _ _ Hm va Hva) as Hw. unfold filled in *.
    rewrite <- (covers_conf _ _ _ _ _ _ (mp_conf _ _ _ _ _ _ _ _ Hm)) in Hva.
    destruct (covers_block _ _ _ _ _ _ _ _ _ Hwf Hpc Hva) as (j & Hj & Hjva).
    destruct (decide (j = k)) as [->|Hjk].
    + assert (in_region mm va) by (unfold in_region, inside, x in *; lia).
      rewrite decide_True by (split; [done|unfold x; lia]).
      rewrite decide_False in Hw by (unfold x; lia). rewrite <- Hw.
      rewrite !levels_from_S by lia.
      rewrite (walk_invalid c lab p L B k va _ _ _ _ Hwf Hpc Hk Hjva Hd). cbn [default].
      rewrite <- Hres by (unfold x; lia). eapply walk_leaf; try done.
      by rewrite (entries_of_conf _ _ _ Hs).
    + assert (walk (levels_from L) c' p L va = walk (levels_from L) c p L va) as ->.
      { eapply (walk_ext1 _ _ _ _ _ _ _ j); try done.
        - by rewrite Hent, decide_False.
        - intros q l' b' Hq Hl' _. apply Hother. intros ->. rewrite Hpc in Hq. simplify_eq. lia. }
      rewrite Hw. assert (~ (x <= va < x + blk L)) by (unfold x; nia).
      destruct (decide (in_region mm va)) as [?|?];
        [|by rewrite !decide_False by (intros [? ?]; done)].
      destruct (Z.lt_ge_cases va x).
      * by rewrite !decide_True by (split; (done || lia)).
      * by rewrite !decide_False by lia.
Qed.

(** A sub-table in which the region was mapped below [v]. *)
(** The tables of addresses outside the entry [k] are not touched below it. *)
Lemma descend_frame L B p k i v c lab c1 lab1 c2 lab2 q l' b' va :
  let x := B + k * blk L in
  wf Q E0 (Nv L B x) c lab -> label_of c lab p = Some (L, B) -> 0 <= L < 3 ->
  same_conf c c1 -> (forall j y, lab j = Some y -> lab1 j = Some y) -> lab1 i = Some (L + 1, x) ->
  (forall q l b, label_of c lab q = Some (l, b) -> q <> p -> table_at c1 q = table_at c q) ->
  mapped (L + 1) x (Sub i) v c1 lab1 c2 lab2 ->
  ~ (x <= va < x + blk L) -> label_of c lab q = Some (l', b') -> L < l' -> covers c q l' b' va ->
  table_at c2 q = table_at c q.
Proof.
  intros x Hwf Hpc HL Hs1 Hlab1 Hi Hother Hsub Hnb Hq Hl' Hc. pose proof (blk_pos L). pose proof (blk_next L) as Hsz.
  rewrite <- (Hother q l' b' Hq) by (intros ->; rewrite Hpc in Hq; simplify_eq; lia).
  destruct (label_level _ _ _ _ _ _ _ _ Hwf Hpc).
  destruct q as [|i']; [cbn in Hq; simplify_eq; lia|].
  destruct (wf_lab _ _ _ _ _ Hwf _ _ _ Hq) as (Hlv & _ & _ & Hd').
  unfold covers in Hc. cbn [entries_of] in Hc.
  assert (512 * blk l' = blk (l' - 1)) as Hsz'.
  { pose proof (blk_next (l' - 1)) as Hx'. replace (l' - 1 + 1) with l' in Hx' by lia. lia. }
  rewrite Hsz' in *. pose proof (blk_pos (l' - 1)).
  assert (~ (x <= b' < x + blk L)) as Hb'.
  { pose proof (block_aligned _ _ _ _ _ k _ _ _ Hwf Hpc : (blk L | x)) as Hax.
    destruct (aligned_nest (blk (l' - 1)) (blk L) x b') as [?|[?|?]];
      [lia|apply blk_divide; lia|done|done|lia|lia|lia]. }
  apply Hlab1 in Hq. eapply (mp_frame _ _ _ _ _ _ _ _ Hsub).
  - by rewrite (label_of_conf _ _ _ _ Hs1).
  - intros [= ->]. rewrite Hi in Hq. injection Hq as <- <-. lia.
  - cbn [entries_of]. rewrite <- Hsz by lia. lia.
Qed.

Lemma mapped_descend L B p k i v c0 lab0 c lab c1 lab1 c2 lab2 :
  let x := B + k * blk L in
  mapped L B p x c0 lab0 c lab -> label_of c0 lab0 p = Some (L, B) -> 0 <= k < entries_of c0 p ->
  L < 3 -> x < v <= x + blk L ->
  same_conf c c1 -> length (tables c1) = length (tables c) ->
  (forall j y, lab j = Some y -> lab1 j = Some y) -> lab1 i = Some (L + 1, x) ->
  (forall q l b, label_of c lab q = Some (l, b) -> q <> p -> table_at c1 q = table_at c q) ->
  (forall j, entry_at c1 p j = if decide (j = k) then Some (table_desc c i) else entry_at c p j) ->
  (forall va, x <= va < x + blk L -> walk (levels_from (L + 1)) c1 (Sub i) (L + 1) va =
     walk (levels_from L) c p L va) ->
  mapped (L + 1) x (Sub i) v c1 lab1 c2 lab2 ->
  mapped L B p v c0 lab0 c2 lab2.
Proof.
  intros x Hm Hp Hk HL Hv Hs1 Hlen1 Hlab1 Hi Hother Hent Hwalk Hsub.
  pose proof (mapped_label _ _ _ _ _ _ _ _ _ _ _ Hm Hp) as Hpc.
  pose proof (mp_wf _ _ _ _ _ _ _ _ Hm) as Hwf. destruct (label_level _ _ _ _ _ _ _ _ Hwf Hpc).
  pose proof (mp_wf _ _ _ _ _ _ _ _ Hsub) as Hwf2.
  pose proof (blk_pos L). pose proof (blk_next L) as Hsz. pose proof (mp_conf _ _ _ _ _ _ _ _ Hm) as Hs0.
  pose proof (mp_conf _ _ _ _ _ _ _ _ Hsub) as Hs2.
  assert (same_conf c0 c2) as Hs02 by (eapply same_conf_trans; [done|by eapply same_conf_trans]).
  assert (forall q l b, label_of c lab q = Some (l, b) -> label_of c1 lab1 q = Some (l, b)) as Hup1.
  { intros q l b Hq. rewrite (label_of_conf _ _ _ _ Hs1). destruct q; [done|]. by apply Hlab1. }
  pose proof (Hup1 _ _ _ Hpc) as Hpc1.
  assert (p <> Sub i) as Hpi by (intros ->; cbn in Hpc1; rewrite Hi in Hpc1; simplify_eq; lia).
  assert (table_at c2 p = table_at c1 p) as Hp2.
  { eapply (mp_frame _ _ _ _ _ _ _ _ Hsub); [exact Hpc1|done|lia]. }
  assert (label_of c2 lab2 p = Some (L, B)) as Hpc2 by (by eapply mapped_label).
  pose proof (same_conf_fields _ _ Hs02) as (_ & _ & _ & Ha2 & _).
  pose proof (same_conf_fields _ _ Hs0) as (_ & _ & _ & Ha0 & _).
  constructor.
  - eapply wf_mono; [exact Hwf2|done|done|]. intros j l b Hj. apply Nv_same. intros _.
    assert (B <= x) by (unfold x; nia). split; intros [?|?]; lia.
  - done.
  - rewrite (mp_len _ _ _ _ _ _ _ _ Hsub), Hlen1. apply Hm.
  - intros j y Hj. by apply (mp_lab _ _ _ _ _ _ _ _ Hsub), Hlab1, (mp_lab _ _ _ _ _ _ _ _ Hm).
  - intros q l b Hq Hqp Hout. pose proof (mapped_label _ _ _ _ _ _ _ _ _ _ _ Hm Hq) as Hqc.
    rewrite <- (mp_frame _ _ _ _ _ _ _ _ Hm q l b) by done.
    rewrite <- (Hother q l b) by done.
    eapply (mp_frame _ _ _ _ _ _ _ _ Hsub); [by apply Hup1| |].
    + intros ->. apply Hup1 in Hqc. cbn in Hqc. rewrite Hi in Hqc. injection Hqc as <- <-.
      apply Hout. unfold x. nia.
    + cbn [entries_of]. rewrite <- Hsz by lia. intros [? ?]. apply Hout. unfold x in *. nia.
  - intros j Hj. assert (j <> k) by (intros ->; fold x in Hj; lia).
    unfold entry_at at 1. rewrite Hp2. fold (entry_at c1 p j). rewrite Hent, decide_False by done.
    apply (mp_rest _ _ _ _ _ _ _ _ Hm). lia.
  - intros va Hva. pose proof (mp_walk _ _ _ _ _ _ _ _ Hm va Hva) as Hw.
    assert (covers c p L B va) as Hvac by (by apply (covers_conf _ _ _ _ _ _ Hs0)).
    destruct (covers_block _ _ _ _ _ _ _ _ _ Hwf Hpc Hvac) as (j & Hj & Hjva).
    rewrite (entries_of_conf _ _ _ Hs0) in Hj.
    destruct (decide (j = k)) as [->|Hjk].
    + fold x in Hjva. assert (x <= va < x + blk L) as Hb by (unfold x in *; lia).
      rewrite (levels_from_S L) at 1 by lia.
      rewrite (walk_table c2 lab2 p L B k i va _ _ _ _ Hwf2 Hpc2); [|..].
      * rewrite (mp_walk _ _ _ _ _ _ _ _ Hsub), Hwalk, Hw by
          (done || (unfold covers; cbn [entries_of]; rewrite <- Hsz; lia)).
        unfold filled at 2. by rewrite (decide_False (P := _ /\ va < x)) by lia.
      * by rewrite (entries_of_conf _ _ _ Hs02).
      * fold x. lia.
      * unfold entry_at. rewrite Hp2. fold (entry_at c1 p k). rewrite Hent, decide_True by done.
        f_equal. unfold table_desc, table_addr. by rewrite Ha2, Ha0.
      * done.
      * by apply (mp_lab _ _ _ _ _ _ _ _ Hsub).
    + assert (~ (x <= va < x + blk L)) as Hnb by (unfold x; nia).
      assert (forall q l' b', label_of c lab q = Some (l', b') -> L < l' -> covers c q l' b' va ->
                table_at c2 q = table_at c q) as Hdeep
        by (intros q l' b' ? ? ?; by eapply (descend_frame L B p k i v c lab c1 lab1)).
      assert (walk (levels_from L) c2 p L va = walk (levels_from L) c p L va) as ->.
      { eapply (walk_ext1 _ _ _ _ _ _ _ j); try done.
        - by rewrite Ha2, Ha0.
        - by rewrite (mp_len _ _ _ _ _ _ _ _ Hsub).
        - by rewrite (entries_of_conf _ _ _ Hs0).
        - unfold entry_at at 1. rewrite Hp2. fold (entry_at c1 p j). by rewrite Hent, decide_False. }
      rewrite Hw. unfold filled. destruct (decide (in_region mm va)) as [?|?];
        [|by rewrite !decide_False by (intros [? ?]; done)].
      destruct (Z.lt_ge_cases va x).
      * by rewrite !decide_True by (split; (done || lia)).
      * by rewrite !decide_False by lia.
Qed.

(** ** One entry *)

Lemma blk_aligned_bound L x : 0 <= L <= 3 -> (blk L | x) -> x < 2 ^ 48 -> x + blk L <= 2 ^ 48.
Proof.
  intros HL Hd Hx. pose proof (blk_pos L HL).
  assert (blk L | 2 ^ 48) as Hp by (by_level L; by apply Z.mod_divide).
  destruct (aligned_nest (blk L) (2 ^ 48) 0 x) as [?|[?|?]]; try done; try lia.
  apply Z.divide_0_r.
Qed.

(** An entry that meets the region is in it at level 3. *)
Lemma page_inside x : (4096 | x) -> meets mm x 4096 -> inside mm x 4096.
Proof.
  intros [qx ->] [H1 H2]. pose proof (rg_page_va _ _ Hok) as Hb. pose proof (rg_page_size _ _ Hok) as Hs.
  apply Z.mod_divide in Hb as [qb Hb]; [|lia]. apply Z.mod_divide in Hs as [qs Hs]; [|lia].
  unfold inside. rewrite Hb, Hs in *. lia.
Qed.

Lemma map_action_spec Q' E' N' c lab p L B k d :
  let x := B + k * blk L in
  let pa := u64 (base_pa mm + x - base_va mm) in
  wf Q' E' N' c lab -> (forall y n, Q' y n -> meets mm y n -> inside mm y n) ->
  label_of c lab p = Some (L, B) -> entry_at c p k = Some d -> meets mm x (blk L) ->
  exists a, xlat_tables_map_region_action mm (Z.land d DESC_MASK) pa x L c = Done a c /\
    match a with
    | ACTION_NONE => is_leaf L d = true
    | ACTION_WRITE_BLOCK_ENTRY => d = INVALID_DESC /\ inside mm x (blk L) /\ 1 <= L /\ pa mod blk L = 0
    | ACTION_CREATE_NEW_TABLE => d = INVALID_DESC /\ L < 3
    | ACTION_RECURSE_INTO_TABLE => L < 3 /\ exists i, d = table_desc c i /\ lab i = Some (L + 1, x)
    end.
Proof.
  intros x pa Hwf HQ' Hp Hd Hm. destruct (label_level _ _ _ _ _ _ _ _ Hwf Hp) as [HL HL0].
  pose proof (blk_pos L). pose proof (wf_geo _ _ _ _ _ Hwf) as Hg. pose proof (rg_va _ _ Hok).
  pose proof (block_aligned _ _ _ _ _ k _ _ _ Hwf Hp : (blk L | x)) as Hax.
  destruct (label_base _ _ _ _ _ _ _ _ Hwf Hp) as [HB _]. pose proof (entry_range _ _ _ _ Hg Hd) as Hk.
  assert (0 <= x) by (unfold x; nia).
  assert (u64 (x + blk L - 1) = x + blk L - 1) as Hend.
  { apply u64_small. pose proof (blk_aligned_bound L x). unfold meets in Hm. lia. }
  assert (4096 | x) as Hpage by (eapply Z.divide_trans; [|exact Hax]; apply blk_page; lia).
  assert (L = 3 -> inside mm x (blk L)) as H3.
  { intros ->. by apply page_inside. }
  unfold xlat_tables_map_region_action. rewrite region_end_top, Hend, desc_type_mod.
  unfold PAGE_DESC, TABLE_DESC, INVALID_DESC, BLOCK_DESC, MIN_LVL_BLOCK_DESC.
  destruct ((base_va mm <=? x) && (x + blk L - 1 <=? region_top - 1)) eqn:Hcov.
  - apply andb_true_iff in Hcov as [Hc1%Z.leb_le Hc2%Z.leb_le].
    assert (inside mm x (blk L)) as Hin by (unfold inside, region_top in *; lia).
    destruct (wf_entry _ _ _ _ _ Hwf _ _ _ _ _ Hp Hd) as [[-> _]|[(HL3 & i & -> & Hi)|[Hl _]]].
    + change (INVALID_DESC mod 4) with 0. destruct (Z.eqb_spec L 3) as [->|HLn].
      * eexists. split; [done|]. split_and!; [done|done|lia|].
        apply Z.mod_divide; [lia|]. change (blk 3) with 4096 in *. unfold pa.
        rewrite u64_small by (pose proof (rg_pa _ _ Hok); unfold inside in Hin; lia).
        replace (base_pa mm + x - base_va mm) with (base_pa mm + (x - base_va mm)) by lia.
        apply Z.divide_add_r; [|apply Z.divide_sub_r; [done|]];
          by (apply Z.mod_divide; [lia|apply Hok]).
      * cbn [Z.eqb]. unfold is_set. rewrite blk_mask by lia.
        destruct (Z.eqb_spec (pa mod blk L) 0) as [Hpa|Hpa]; cbn [negb orb];
          [|eexists; split; [done|]; split; [done|lia]].
        destruct (Z.ltb_spec L 1); cbn [orb]; [eexists; split; [done|]; split; [done|lia]|].
        destruct (_ <? _); eexists; (split; [done|]); [split; [done|lia]|done].
    + destruct (wf_lab _ _ _ _ _ Hwf _ _ _ Hi) as (_ & Hir & _).
      destruct (table_desc_fields _ _ Hg Hir) as [_ ->].
      rewrite (proj2 (Z.eqb_neq L 3)) by lia. cbn [Z.eqb]. eexists. split; [done|]. split; [done|].
      exists i. done.
    + unfold is_leaf in Hl |- *. destruct (Z.eqb_spec L 3) as [->|HLn].
      * apply Z.eqb_eq in Hl. rewrite Hl. by eexists.
      * pose proof Hl as Hl'. apply andb_true_iff in Hl' as [_ Hl'%Z.eqb_eq]. rewrite Hl'.
        cbn [Z.eqb]. unfold bind, assert_, ret. cbn. by rewrite Hl' in Hl; eexists.
  - assert (~ inside mm x (blk L)) as Hnin.
    { intros [? ?]. apply andb_false_iff in Hcov as [Hc%Z.leb_gt|Hc%Z.leb_gt]; unfold region_top in Hc; lia. }
    assert (L < 3) as HL3 by (destruct (decide (L = 3)) as [HL3|]; [by destruct Hnin; apply H3|lia]).
    rewrite (proj2 (Z.leb_le (base_va mm) _)) by (unfold meets in Hm; lia). cbn [orb].
    rewrite (proj2 (Z.ltb_lt L 3)) by done. unfold bind, assert_. cbn [andb negb ret].
    destruct (wf_entry _ _ _ _ _ Hwf _ _ _ _ _ Hp Hd) as [[-> _]|[(_ & i & -> & Hi)|[_ HQ]]].
    + eexists. split; [done|]. done.
    + destruct (wf_lab _ _ _ _ _ Hwf _ _ _ Hi) as (_ & Hir & _).
      destruct (table_desc_fields _ _ Hg Hir) as [_ ->]. cbn [Z.eqb andb negb].
      eexists. split; [done|]. split; [done|]. by exists i.
    + by destruct Hnin; apply HQ'.
Qed.

(** The descriptor of a block or page of the region, as it is stored. *)
Lemma wp_write_leaf L B p k c0 lab0 c lab :
  let x := B + k * blk L in
  let pa := u64 (base_pa mm + x - base_va mm) in
  mapped L B p x c0 lab0 c lab -> label_of c0 lab0 p = Some (L, B) -> xlat_regime c0 = regime ->
  entry_at c p k = Some INVALID_DESC -> inside mm x (blk L) -> 1 <= L -> pa mod blk L = 0 ->
  wpd (let! d := xlat_desc (attr mm) pa L in
       write_entry p k d;;
       when (is_feat_morello_supported && is_set (attr mm) MT_CAP_LD_ST_TRACK)
         (let! d := read_entry p k in
          write_entry p k (Z.lor d (Z.lor SC_BIT LC0_BIT)));;
       ret (@None Z))
    (fun r c' => r = None /\ mapped L B p (x + blk L) c0 lab0 c' lab) c.
Proof.
  intros x pa Hm Hp Hreg Hd Hin HL1 Hpa.
  pose proof (mapped_label _ _ _ _ _ _ _ _ _ _ _ Hm Hp) as Hpc.
  pose proof (mp_wf _ _ _ _ _ _ _ _ Hm) as Hwf. destruct (label_level _ _ _ _ _ _ _ _ Hwf Hpc) as [HL HL0].
  pose proof (blk_pos L). destruct (rg_attrs _ _ Hok) as [y Hy].
  pose proof (leaf_attrs_bits _ _ _ Hy) as Hbits. pose proof Hy as Hy'. unfold leaf_attrs in Hy'.
  destruct (region_attrs regime (attr mm)) as [z|] eqn:Hz; [|done]. cbn in Hy'.
  destruct (same_conf_fields _ _ (mp_conf _ _ _ _ _ _ _ _ Hm)) as (_ & _ & _ & _ & _ & Hrg & _).
  assert (base_pa mm + x - base_va mm = pa) as Epa.
  { symmetry. apply u64_small. pose proof (rg_pa _ _ Hok). unfold inside in Hin. lia. }
  set (d1 := Z.lor (Z.lor pa (if L =? XLAT_TABLE_LEVEL_MAX then PAGE_DESC else BLOCK_DESC)) z).
  assert (forall d y', attr_bits y' ->
            d = Z.lor (Z.lor pa (if L =? XLAT_TABLE_LEVEL_MAX then PAGE_DESC else BLOCK_DESC)) y' ->
            is_leaf L d = true /\ forall va, leaf_result L d va = (pa + va mod blk L, y')) as Hleaf.
  { intros d y' Hy1 Hd1. split; [|intros va]; eapply leaf_desc; try done; try lia;
      pose proof (rg_pa _ _ Hok); unfold inside in Hin; lia. }
  assert (forall i, lab i <> Some (L + 1, x)) as Hfresh.
  { intros i Hi. eapply (no_label_below _ _ _ _ _ _ _ _ _ _ i Hwf Hpc Hd); [by left|done|lia|unfold x; lia]. }
  pose proof (block_aligned _ _ _ _ _ k _ _ _ Hwf Hpc : (blk L | x)) as Hax.
  assert (forall va, x <= va < x + blk L -> (pa + va mod blk L, y) = region_result regime mm va) as Hres.
  { intros va Hva. unfold region_result. rewrite Hy. cbn [default]. f_equal.
    rewrite <- Epa. destruct Hax as [q Hq].
    assert (va mod blk L = va - x) as ->; [|lia].
    rewrite <- (Z.mod_unique va (blk L) q (va - x)); lia. }
  assert (forall cc d old, same_conf c cc -> wf Q E0 (Nv L B x) cc lab ->
            entry_at cc p k = Some old -> is_leaf L d = true ->
            wf Q E0 (Nv L B x) (written p k d cc) lab) as Hwr.
  { intros cc d old Hs Hw Hold Hl. eapply wf_write; try done.
    - by rewrite (label_of_conf _ _ _ _ Hs).
    - right; right. split; [done|]. by apply HQ_in. }
  pose proof (Hleaf d1 z (region_attrs_bits _ _ _ Hz) eq_refl) as [Hl1 Hr1].
  assert (wf Q E0 (Nv L B x) (written p k d1 c) lab) as Hw1
    by (eapply Hwr; try done; apply same_conf_refl).
  assert (entry_at (written p k d1 c) p k = Some d1) as Hd1
    by (by rewrite (entry_written _ _ _ _ _ _ _ Hd), decide_True).
  wp_step. eapply wp_exact; [apply xlat_desc_run; [lia|by rewrite Hrg, Hreg|done]|]. fold d1.
  wp_step. eapply wp_exact; [by apply write_entry_run; eexists|]. wp_step. apply wp_when; intros Hmor.
  - rewrite Hmor in Hy'. injection Hy' as Ey.
    wp_step. unfold read_entry. wp_steps. eapply wp_deref; [exact Hd1|].
    set (d2 := Z.lor d1 (Z.lor SC_BIT LC0_BIT)).
    destruct (Hleaf d2 y Hbits) as [Hl2 Hr2]; [by unfold d2, d1; rewrite <- Ey, !Z.lor_assoc|].
    pose proof (same_conf_written p k d1 c) as Hs1.
    eapply wp_exact; [by apply write_entry_run; eexists|]. wp_steps. split; [done|].
    eapply (mapped_write L B p k c0 lab0 c lab _ d2 Hm Hp Hd Hin Hl2).
    + intros va Hva. rewrite Hr2. by apply Hres.
    + eapply Hwr; [exact Hs1|exact Hw1|exact Hd1|exact Hl2].
    + eapply same_conf_trans; [exact Hs1|apply same_conf_written].
    + by rewrite !length_written.
    + intros q Hq. by rewrite !table_written_ne.
    + intros j. rewrite (entry_written _ _ _ _ _ _ _ Hd1), (entry_written _ _ _ _ _ _ _ Hd).
      destruct (decide (j = k)) as [->|Hjk]; [by rewrite decide_True|].
      by rewrite !decide_False by (intros [? ?]; done).
  - rewrite Hmor in Hy'. injection Hy' as <-. wp_steps. split; [done|].
    eapply (mapped_write L B p k c0 lab0 c lab _ d1 Hm Hp Hd Hin Hl1).
    + intros va Hva. rewrite Hr1. by apply Hres.
    + exact Hw1.
    + apply same_conf_written.
    + by rewrite length_written.
    + intros q Hq. by rewrite table_written_ne.
    + intros j. rewrite (entry_written _ _ _ _ _ _ _ Hd).
      destruct (decide (j = k)) as [->|Hjk]; [by rewrite decide_True|].
      by rewrite decide_False by (intros [? ?]; done).
Qed.

(** The results of [xlat_tables_map_region]: the last address mapped when the
    region, as far as the table covers it, is mapped; otherwise no sub-table is
    free. *)
Definition table_top (c : xlat_ctx) (p : table_ptr) (L B : Z) : Z :=
  Z.min region_top (B + entries_of c p * blk L).

Definition map_post (L B : Z) (p : table_ptr) (c : xlat_ctx) (lab : labels)
    (end_va : Z) (c' : xlat_ctx) : Prop :=
  (end_va = table_top c p L B - 1 /\
   exists lab', mapped L B p (table_top c p L B) c lab c' lab') \/
  (PLAT_XLAT_TABLES_DYNAMIC = true /\ no_free c' /\ end_va mod 4096 = 0).

Definition map_stop (w : stop) (c' : xlat_ctx) : Prop :=
  PLAT_XLAT_TABLES_DYNAMIC = false /\ w = AssertFailed /\ no_free c'.

(** What a recursive call does. *)
Definition sub_spec (L : Z) (map_sub : Z -> table_ptr -> cmd xlat_ctx Z) : Prop :=
  forall x i c lab,
  wf Q E0 (Nv (L + 1) x x) (bump (Sub i) c) lab -> lab i = Some (L + 1, x) ->
  meets mm x (blk L) -> xlat_regime c = regime ->
  wp (map_sub x (Sub i)) (map_post (L + 1) x (Sub i) c lab) map_stop c.

(** What a turn of the loop does at an entry. *)
Definition entry_post (L B : Z) (p : table_ptr) (x : Z) (c0 : xlat_ctx) (lab0 : labels)
    (r : option Z) (c' : xlat_ctx) : Prop :=
  match r with
  | None => x + blk L <= region_top /\ exists lab', mapped L B p (x + blk L) c0 lab0 c' lab'
  | Some end_va =>
      (end_va = region_top - 1 /\ region_top < x + blk L /\
       exists lab', mapped L B p region_top c0 lab0 c' lab') \/
      (PLAT_XLAT_TABLES_DYNAMIC = true /\ no_free c' /\ end_va mod 4096 = 0)
  end.

(** The recursive call and the check of what it returns. *)
Lemma wp_map_sub map_sub L B p k i c0 lab0 c lab c1 lab1 :
  let x := B + k * blk L in
  sub_spec L map_sub ->
  mapped L B p x c0 lab0 c lab -> label_of c0 lab0 p = Some (L, B) -> 0 <= k < entries_of c0 p ->
  L < 3 -> meets mm x (blk L) -> xlat_regime c0 = regime ->
  same_conf c c1 -> length (tables c1) = length (tables c) ->
  (forall j y, lab j = Some y -> lab1 j = Some y) -> lab1 i = Some (L + 1, x) ->
  (forall q l b, label_of c lab q = Some (l, b) -> q <> p -> table_at c1 q = table_at c q) ->
  (forall j, entry_at c1 p j = if decide (j = k) then Some (table_desc c i) else entry_at c p j) ->
  (forall va, x <= va < x + blk L -> walk (levels_from (L + 1)) c1 (Sub i) (L + 1) va =
     walk (levels_from L) c p L va) ->
  wf Q E0 (Nv (L + 1) x x) (bump (Sub i) c1) lab1 ->
  wp (let! end_va := map_sub x (Sub i) in
      ret (if end_va =? u64 (x + blk L - 1) then None else Some end_va))
    (entry_post L B p x c0 lab0) map_stop c1.
Proof.
  intros x Hsub Hm Hp Hk HL Hmeet Hreg Hs1 Hlen1 Hlab1 Hi Hother Hent Hwalk Hwf1.
  pose proof (mapped_label _ _ _ _ _ _ _ _ _ _ _ Hm Hp) as Hpc.
  pose proof (mp_wf _ _ _ _ _ _ _ _ Hm) as Hwf. destruct (label_level _ _ _ _ _ _ _ _ Hwf Hpc) as [HLv HL0].
  pose proof (blk_pos L). pose proof (blk_next L) as Hsz. pose proof (rg_va _ _ Hok).
  destruct (label_base _ _ _ _ _ _ _ _ Hwf Hpc) as [HB _].
  pose proof (block_aligned _ _ _ _ _ k _ _ _ Hwf Hpc : (blk L | x)) as Hax.
  assert (0 <= x) by (unfold x; nia).
  assert (x + blk L <= 2 ^ 48) as Hx48.
  { apply blk_aligned_bound; [lia|done|unfold meets in Hmeet; lia]. }
  rewrite u64_small by lia. unfold meets in Hmeet.
  wp_step. eapply wp_mono; [apply (Hsub x i c1 lab1 Hwf1 Hi Hmeet)| |done].
  { destruct (same_conf_fields _ _ Hs1) as (_ & _ & _ & _ & _ & -> & _).
    destruct (same_conf_fields _ _ (mp_conf _ _ _ _ _ _ _ _ Hm)) as (_ & _ & _ & _ & _ & -> & _). done. }
  intros end_va c2 [[-> [lab2 Hm2]]|(Hdyn & Hfree & Hal)]; apply wp_ret; unfold entry_post.
  - unfold table_top in *. cbn [entries_of] in *. rewrite <- Hsz in * by lia.
    assert (x < Z.min region_top (x + blk L)) as Hlt by (unfold region_top; lia).
    assert (mapped L B p (Z.min region_top (x + blk L)) c0 lab0 c2 lab2) as Hm3.
    { eapply (mapped_descend L B p k i); try done. lia. }
    destruct (Z.le_gt_cases (x + blk L) region_top) as [Hle|Hgt].
    + rewrite Z.min_r in * by done. rewrite Z.eqb_refl. split; [done|by exists lab2].
    + rewrite Z.min_l in * by lia. rewrite (proj2 (Z.eqb_neq _ _)) by lia. left. split_and!; [done|lia|].
      by exists lab2.
  - rewrite (proj2 (Z.eqb_neq _ _)); [by right|]. intros ->.
    assert (4096 | x + blk L) as Hd.
    { apply (Z.divide_trans _ (blk L)); [apply blk_page; lia|]. apply Z.divide_add_r; [done|apply Z.divide_refl]. }
    apply Z.mod_divide in Hal; [|lia]. destruct Hd as [q1 Hq1], Hal as [q2 Hq2]. lia.
Qed.

(** A sub-table that was just taken maps nothing. *)
Lemma new_table_walk L B p k i c lab va :
  let x := B + k * blk L in
  wf Q E0 (Nv L B x) c lab -> label_of c lab p = Some (L, B) -> entry_at c p k = Some INVALID_DESC ->
  L < 3 -> meets mm x (blk L) -> lab i = None -> 0 <= i < tables_num c ->
  (PLAT_XLAT_TABLES_DYNAMIC = false -> i = next_table c) -> x <= va < x + blk L ->
  walk (levels_from (L + 1)) (linked p k i c) (Sub i) (L + 1) va = None.
Proof.
  intros x Hwf Hpc Hd HL3 Hmeet Hi Hir Hst Hva. destruct (label_level _ _ _ _ _ _ _ _ Hwf Hpc) as [HLv HL0].
  pose proof (wf_create L B k i c lab p Hwf Hpc Hd HL3 Hmeet Hi Hir Hst) as Hwf1. fold x in Hwf1.
  pose proof (same_conf_trans _ _ _ (same_conf_linked p k i c) (same_conf_bump (Sub i) _)) as Hs1.
  pose proof (blk_next L). pose proof (blk_pos (L + 1)).
  rewrite <- (walk_bump (Sub i)).
  assert (label_of c (set_label i (Some (L + 1, x)) lab) (Sub i) = Some (L + 1, x)) as Hlab
    by (cbn; by rewrite set_label_eq).
  assert (covers c (Sub i) (L + 1) x va) as Hcov by (unfold covers; cbn [entries_of]; lia).
  rewrite <- (label_of_conf _ _ _ _ Hs1) in Hlab. rewrite <- (covers_conf _ _ _ _ _ _ Hs1) in Hcov.
  destruct (covers_block _ _ _ _ _ _ _ _ _ Hwf1 Hlab Hcov) as (j & Hj & Hjva).
  destruct (levels_from (L + 1)) as [|f]; [done|]. eapply walk_invalid; try done.
  destruct (entry_some _ _ _ _ _ _ _ _ _ Hwf1 Hlab Hj) as [e He]. rewrite He. f_equal.
  unfold entry_at in He. rewrite table_bump in He.
  assert (p <> Sub i) by (intros ->; cbn in Hpc; congruence).
  unfold linked in He. rewrite table_written_ne in He by done. rewrite table_taken in He.
  cbn in He. destruct ((tables c).[i]) as [t|] eqn:Ht; [|done]. by eapply (wf_free _ _ _ _ _ Hwf).
Qed.

(** A new sub-table and the recursive call on it. *)
Lemma wp_map_new map_sub L B p k i c0 lab0 c lab :
  let x := B + k * blk L in
  sub_spec L map_sub ->
  mapped L B p x c0 lab0 c lab -> label_of c0 lab0 p = Some (L, B) -> 0 <= k < entries_of c0 p ->
  L < 3 -> meets mm x (blk L) -> xlat_regime c0 = regime -> entry_at c p k = Some INVALID_DESC ->
  lab i = None -> 0 <= i < tables_num c -> (PLAT_XLAT_TABLES_DYNAMIC = false -> i = next_table c) ->
  wp (let! end_va := map_sub x (Sub i) in
      ret (if end_va =? u64 (x + blk L - 1) then None else Some end_va))
    (entry_post L B p x c0 lab0) map_stop (linked p k i c).
Proof.
  intros x Hsub Hm Hp Hk HL3 Hmeet Hreg Hd Hi Hir Hst.
  pose proof (mapped_label _ _ _ _ _ _ _ _ _ _ _ Hm Hp) as Hpc. pose proof (mp_wf _ _ _ _ _ _ _ _ Hm) as Hwf.
  destruct (label_level _ _ _ _ _ _ _ _ Hwf Hpc) as [HLv HL0].
  assert (0 <= k < entries_of c p) as Hkc
    by (by rewrite (entries_of_conf _ _ _ (mp_conf _ _ _ _ _ _ _ _ Hm))).
  eapply (wp_map_sub map_sub L B p k i c0 lab0 c lab (linked p k i c)
            (set_label i (Some (L + 1, x)) lab)); try done.
  - apply same_conf_linked.
  - unfold linked. rewrite length_written. unfold taken. by destruct PLAT_XLAT_TABLES_DYNAMIC.
  - intros j y Hj. rewrite set_label_ne; [done|]. congruence.
  - apply set_label_eq.
  - intros q l b Hq Hqp. unfold linked. rewrite table_written_ne by done. apply table_taken.
  - intros j. rewrite (entry_linked _ _ _ _ _ _ _ Hd).
    destruct (decide (j = k)) as [->|Hjk]; [by rewrite decide_True|].
    by rewrite decide_False by (intros [? ?]; done).
  - intros va Hva. rewrite (new_table_walk L B p k i c lab va Hwf Hpc Hd HL3 Hmeet Hi Hir Hst Hva).
    rewrite levels_from_S by lia. symmetry. eapply walk_invalid; try done. unfold x in *. lia.
  - by apply wf_create.
Qed.

Lemma wp_map_entry map_sub L B p k c0 lab0 c lab :
  let x := B + k * blk L in
  (L < 3 -> sub_spec L map_sub) ->
  mapped L B p x c0 lab0 c lab -> label_of c0 lab0 p = Some (L, B) -> 0 <= k < entries_of c0 p ->
  meets mm x (blk L) -> xlat_regime c0 = regime ->
  wp (map_entry map_sub mm p L k x) (entry_post L B p x c0 lab0) map_stop c.
Proof.
  intros x Hsub Hm Hp Hk Hmeet Hreg.
  pose proof (mapped_label _ _ _ _ _ _ _ _ _ _ _ Hm Hp) as Hpc.
  pose proof (mp_wf _ _ _ _ _ _ _ _ Hm) as Hwf. pose proof (wf_geo _ _ _ _ _ Hwf) as Hg.
  destruct (label_level _ _ _ _ _ _ _ _ Hwf Hpc) as [HLv HL0]. pose proof (blk_pos L).
  assert (0 <= k < entries_of c p) as Hkc
    by (by rewrite (entries_of_conf _ _ _ (mp_conf _ _ _ _ _ _ _ _ Hm))).
  destruct (entry_some _ _ _ _ _ _ _ _ _ Hwf Hpc Hkc) as [d Hd].
  destruct (map_action_spec _ _ _ _ _ _ _ _ _ _ Hwf HQ_mm Hpc Hd Hmeet) as (a & Ha & Hspec). fold x in Ha, Hspec.
  unfold map_entry. wp_step. unfold read_entry. wp_steps. eapply wp_deref; [exact Hd|].
  wp_step. eapply wp_exact; [exact Ha|]. destruct a.
  - (* a block is there *)
    wp_steps. split; [|exists lab; by eapply mapped_leaf].
    destruct (wf_entry _ _ _ _ _ Hwf _ _ _ _ _ Hpc Hd) as [[-> _]|[(HL3 & i & -> & Hi)|[_ HQ]]].
    + unfold is_leaf in Hspec. by destruct (L =? 3), (1 <=? L).
    + by destruct (leaf_not_table _ _ _ _ _ _ _ _ Hwf HL3 Hi) as (? & _); simplify_eq/=; congruence.
    + apply HQ_mm in HQ; [|done]. unfold inside, region_top, x in *. lia.
  - (* a new block *)
    destruct Hspec as (-> & Hin & HL1 & Hpa).
    eapply wp_mono; [by eapply wp_write_leaf| |done]. intros r c' [-> Hm'].
    split; [unfold inside, region_top in *; lia|by exists lab].
  - (* a new table *)
    destruct Hspec as [-> HL3]. wp_step.
    eapply wp_mono; [by eapply wp_get_empty| |]; cycle 1.
    { intros w c' (? & ? & ?). done. }
    intros r c' Hr. destruct r as [q|].
    2:{ destruct Hr as [Hdyn Hfree]. wp_steps. right. split_and!; [done|done|].
        apply Z.mod_divide; [lia|]. apply (Z.divide_trans _ (blk L)); [apply blk_page; lia|].
        by apply (block_aligned _ _ _ _ _ k _ _ _ Hwf Hpc). }
    destruct Hr as (i & -> & Hir & Hi & -> & Hst). wp_steps.
    eapply wp_exact.
    { apply write_entry_run. exists INVALID_DESC. unfold entry_at. rewrite table_taken. exact Hd. }
    assert (Z.lor TABLE_DESC (table_addr (id (taken c)) i) = table_desc c i) as ->.
    { unfold id. fold (table_desc (taken c) i). apply table_desc_conf, same_conf_taken. }
    fold (linked p k i c).
    eapply (wp_map_new map_sub L B p k i c0 lab0 c lab); try done. by apply Hsub.
  - (* a table is there *)
    destruct Hspec as (HL3 & i & -> & Hi). wp_step. unfold subtable_of. wp_steps.
    destruct (leaf_not_table _ _ _ _ _ _ _ _ Hwf HL3 Hi) as (_ & _ & Hfollow).
    eapply wp_deref; [exact Hfollow|].
    eapply (wp_map_sub map_sub L B p k i c0 lab0 c lab c lab); try done; [by apply Hsub|..].
    + apply same_conf_refl.
    + intros j. destruct (decide (j = k)) as [->|]; done.
    + intros va Hva. rewrite (levels_from_S L) by lia. symmetry.
      eapply walk_table; try done. unfold x in *. lia.
    + by eapply wf_enter.
Qed.

(** ** The loop and the recursion *)

Lemma top_page : (4096 | region_top).
Proof.
  unfold region_top. apply Z.divide_add_r; (apply Z.mod_divide; [lia|apply Hok]).
Qed.

Lemma map_loop_S map_sub n p L k x :
  map_loop map_sub (S n) mm p L k x =
    (let! r := map_entry map_sub mm p L k x in
     match r with
     | Some end_va => ret end_va
     | None =>
         if region_end_va mm <=? u64 (x + blk L) then ret (u64 (u64 (x + blk L) - 1))
         else map_loop map_sub n mm p L (k + 1) (u64 (x + blk L))
     end).
Proof. done. Qed.

Lemma wp_map_loop map_sub n L B p k c0 lab0 c lab :
  let x := B + k * blk L in
  (L < 3 -> sub_spec L map_sub) ->
  mapped L B p x c0 lab0 c lab -> label_of c0 lab0 p = Some (L, B) ->
  0 <= k -> Z.of_nat (S n) = entries_of c0 p - k ->
  base_va mm < x + blk L -> x < region_top -> xlat_regime c0 = regime ->
  wp (map_loop map_sub (S n) mm p L k x) (map_post L B p c0 lab0) map_stop c.
Proof.
  revert k c lab. induction n as [|n IH]; intros k c lab x Hsub Hm Hp Hk Hn Hbase Htop Hreg.
  all: pose proof (mapped_label _ _ _ _ _ _ _ _ _ _ _ Hm Hp) as Hpc.
  all: pose proof (mp_wf _ _ _ _ _ _ _ _ Hm) as Hwf.
  all: destruct (label_level _ _ _ _ _ _ _ _ Hwf Hpc) as [HLv HL0]; pose proof (blk_pos L).
  all: destruct (label_base _ _ _ _ _ _ _ _ Hwf Hpc) as [HB _]; pose proof (rg_va _ _ Hok).
  all: pose proof (block_aligned _ _ _ _ _ k _ _ _ Hwf Hpc : (blk L | x)) as Hax.
  all: assert (0 <= x) by (unfold x; nia).
  all: assert (x + blk L <= 2 ^ 48) as Hx48
         by (apply blk_aligned_bound; [lia|done|unfold region_top in Htop; lia]).
  all: assert (x + blk L <= B + entries_of c0 p * blk L) as Hfit by (unfold x; nia).
  all: assert (0 <= k < entries_of c0 p) as Hkr by lia.
  all: assert (meets mm x (blk L)) as Hmeet by (unfold meets; unfold region_top in Htop; lia).
  all: rewrite map_loop_S; wp_step.
  all: eapply wp_mono; [by eapply wp_map_entry| |done].
  all: intros [end_va|] c1 He; unfold entry_post in He; cbv beta iota.
  1, 3: apply wp_ret; destruct He as [(-> & Hlt & lab' & Hm')|?]; [left|by right];
    unfold table_top; rewrite Z.min_l by lia; split; [done|by exists lab'].
  all: destruct He as [Hle [lab' Hm']]; rewrite u64_small, region_end_top by lia.
  all: assert (4096 | x + blk L) as Hdx by
    (apply (Z.divide_trans _ (blk L)); [apply blk_page; lia|apply Z.divide_add_r; [done|apply Z.divide_refl]]).
  all: destruct (Z.leb_spec (region_top - 1) (x + blk L)) as [Hend|Hmore].
  1, 3: assert (x + blk L = region_top) as Heq by
      (apply (divide_between 4096); [lia|done|apply top_page|lia|lia]);
    apply wp_ret; rewrite u64_small by lia; left; unfold table_top;
    rewrite Z.min_l, <- Heq by lia; split; [done|by exists lab'].
  - apply wp_ret. rewrite u64_small by lia. left. unfold table_top.
    assert (x + blk L = B + entries_of c0 p * blk L) as Hlast.
    { unfold x. replace (entries_of c0 p) with (k + 1) by lia. lia. }
    rewrite Z.min_r, <- Hlast by lia. split; [done|by exists lab'].
  - assert (x + blk L = B + (k + 1) * blk L) as Hnext by (unfold x; lia).
    rewrite Hnext.
    apply (IH (k + 1) c1 lab'); try done; [by rewrite <- Hnext|lia|lia|lia|lia].
Qed.

Lemma wp_map_region fuel L B p c lab :
  fuel = levels_from L -> wf Q E0 (Nv L B B) (bump p c) lab -> label_of c lab p = Some (L, B) ->
  meets mm B (entries_of c p * blk L) -> xlat_regime c = regime ->
  wp (xlat_tables_map_region fuel mm B p (entries_of c p) L) (map_post L B p c lab) map_stop c.
Proof.
  revert L B p c lab. induction fuel as [|fuel IH]; intros L B p c lab Hf Hwf Hp Hmeet Hreg.
  all: pose proof (same_conf_bump p c) as Hs; pose proof Hp as Hpb;
    rewrite <- (label_of_conf _ _ _ _ Hs) in Hpb.
  all: destruct (label_level _ _ _ _ _ _ _ _ Hwf Hpb) as [HLv HL0].
  { unfold levels_from, XLAT_TABLE_LEVEL_MAX in Hf. lia. }
  rewrite levels_from_S in Hf by lia. injection Hf as ->.
  pose proof (wf_geo _ _ _ _ _ Hwf) as Hg. pose proof (blk_pos L). pose proof (rg_va _ _ Hok).
  pose proof (rg_size _ _ Hok). destruct (label_base _ _ _ _ _ _ _ _ Hwf Hpb) as [HB HdB].
  destruct (same_conf_fields _ _ Hs) as (Hbl & _).
  pose proof (entries_bound _ p Hg) as Hent. rewrite (entries_of_conf _ _ _ Hs) in Hent.
  assert (blk L | B) as HdL by (eapply Z.divide_trans; [|exact HdB]; by exists 512).
  unfold meets in Hmeet.
  destruct (first_entry mm L B (entries_of c p)) as (k & Hstart & Hidx & Hk & Hb1 & Hb2 & Hb3); try done; try lia.
  assert (mapped L B p (B + k * blk L) c lab (bump p c) lab) as Hm.
  { pose proof (mapped_start L B p c lab Hwf Hp) as Hm0.
    destruct Hb3 as [->|Hb3]; [by rewrite Z.mul_0_l, Z.add_0_r|].
    eapply mapped_skip; try done; [nia|nia|]. apply Z.divide_add_r; [done|]. apply Z.divide_factor_r. }
  cbn [xlat_tables_map_region]. wp_steps. unfold id. apply wp_assert.
  { rewrite <- Hbl, (proj2 (Z.leb_le _ _)), (proj2 (Z.leb_le L _)) by (unfold XLAT_TABLE_LEVEL_MAX; lia). done. }
  wp_step. rewrite Hidx, Hstart.
  assert (forall (Q' : unit -> xlat_ctx -> Prop) E', Q' tt (bump p c) ->
    wp (when (PLAT_XLAT_TABLES_DYNAMIC && (base_level c <? L)) (xlat_table_inc_regions_count p)) Q' E' c) as Hinc.
  { intros Q' E' HQ'. destruct p as [|i].
    - cbn in Hp. injection Hp as <- <-. rewrite Z.ltb_irrefl, andb_false_r. done.
    - destruct (wf_lab _ _ _ _ _ Hwf _ _ _ Hp) as (Hlt & _). rewrite (proj2 (Z.ltb_lt _ _)) by lia.
      destruct PLAT_XLAT_TABLES_DYNAMIC eqn:Hd; cbn [andb when].
      + eapply wp_exact; [by eapply inc_count_run|done].
      + cbn [bump] in HQ'. by rewrite Hd in HQ'. }
  apply Hinc.
  replace (Z.to_nat (entries_of c p - k)) with (S (Z.to_nat (entries_of c p - k - 1))) by lia.
  eapply wp_map_loop; try done; [|lia|lia].
  intros HL3 x i c1 lab1 Hwf1 Hi Hmx Hr1.
  pose proof (IH (L + 1) x (Sub i) c1 lab1 eq_refl Hwf1 Hi) as Hsub. cbn [entries_of] in Hsub.
  apply Hsub; [|done]. rewrite <- blk_next by lia. done.
Qed.
End Map.
