(* ===== verification/XlatUnmap.v ===== *)
(** * Translation tables: what [xlat_tables_unmap_region] does

    Unmapping goes through the entries of a table as mapping does. Below the
    address [v] it has reached, no address of the region has a translation; the
    tables it has left count one region less, and those without regions are
    free again. *)

From stdpp Require Import list_numbers.
From S2P Require Import Prelude XlatDefs XlatCore XlatWalk XlatShape XlatDesc XlatMap.
#[local] Open Scope cmd_scope.

Section Shape.
Context `{XlatConfig}.
Hypothesis Hdyn : PLAT_XLAT_TABLES_DYNAMIC = true.
Implicit Types (c : xlat_ctx) (lab : labels) (p q : table_ptr).

(** ** TLB maintenance *)

Definition traced (es : list xlat_event) (c : xlat_ctx) : xlat_ctx :=
  set_mem (base_table c) (tables c) (tables_mapped_regions c) (next_table c) (xlat_trace c ++ es) c.

Lemma same_conf_traced es c : same_conf c (traced es c).
Proof. done. Qed.

Lemma table_traced es c q : table_at (traced es c) q = table_at c q.
Proof. by destruct q. Qed.

Lemma wf_traced es Q E N c lab : wf Q E N c lab -> wf Q E N (traced es c) lab.
Proof. intros [[? ? ? ? ? ? ? ? ?] ? ? ? ? ? ? ?]. by constructor. Qed.

(** The image runs at the exception level of the regime, or above it. *)
Definition el_covers (regime : Z) : Prop := 1 <= regime <= 3 /\ regime <= current_el.

Lemma tlbi_va_run va regime c :
  el_covers regime -> xlat_arch_tlbi_va va regime c = Done tt (traced [DsbIshst; TlbiVa va] c).
Proof.
  intros [Hr Hel]. unfold xlat_arch_tlbi_va, xlat_arch_current_el, emit, bind, modify, assert_.
  rewrite (proj2 (Z.ltb_lt 0 current_el)) by lia. cbn [andb negb ret].
  assert (regime = 1 \/ regime = 2 \/ regime = 3) as [->|[->| ->]] by lia; cbn [Z.eqb].
  all: unfold EL1_EL0_REGIME, EL2_REGIME, EL3_REGIME; cbn;
    rewrite (proj2 (Z.leb_le _ current_el)) by lia; cbn [negb]; unfold ret, traced; cbn;
    by rewrite <- app_assoc.
Qed.

(** ** Region counts *)

(** The count of a sub-table minus one. *)
Definition lower (p : table_ptr) (c : xlat_ctx) : xlat_ctx :=
  match p with
  | Base => c
  | Sub i => with_count i (default 0 ((tables_mapped_regions c).[i]) - 1) c
  end.

Lemma same_conf_lower p c : same_conf c (lower p c).
Proof. destruct p; by destruct c. Qed.

Lemma table_lower p q c : table_at (lower p c) q = table_at c q.
Proof. by destruct p, q. Qed.

Lemma count_lower i j c k :
  (tables_mapped_regions c).[i] = Some k ->
  (tables_mapped_regions (lower (Sub i) c)).[j] =
    if decide (i = j) then Some (k - 1) else (tables_mapped_regions c).[j].
Proof. intros Hk. cbn. rewrite Hk. cbn. by eapply zlookup_zupdate. Qed.

Lemma geometry_lower p c : geometry c -> geometry (lower p c).
Proof.
  intros Hg. destruct p as [|i]; cbn; [done|].
  constructor; try apply Hg. intros _. cbn. rewrite length_zupdate. by apply (geo_counts _ Hg).
Qed.

Lemma get_index_run i c : 0 <= i < tables_num c -> xlat_table_get_index (Sub i) c = Done i c.
Proof.
  intros Hi. unfold xlat_table_get_index, bind, gets, id.
  by rewrite (proj2 (Z.leb_le 0 i)), (proj2 (Z.ltb_lt i _)) by lia.
Qed.

Lemma dec_count_run i c lab l b Q E N :
  wf Q E N c lab -> lab i = Some (l, b) ->
  xlat_table_dec_regions_count (Sub i) c = Done tt (lower (Sub i) c).
Proof.
  intros Hwf Hi. destruct (wf_lab _ _ _ _ _ Hwf _ _ _ Hi) as (_ & Hr & _).
  pose proof (wf_count _ _ _ _ _ Hwf Hdyn _ _ _ Hi) as Hc.
  unfold xlat_table_dec_regions_count, bind. rewrite (get_index_run _ _ Hr). unfold gets, id.
  rewrite Hc. cbn [deref ret]. unfold set_count, modify, lower, with_count. by rewrite Hc.
Qed.

(** A table in use has a region. *)
Lemma used_count Q E N c lab i l b : wf Q E N c lab -> lab i = Some (l, b) -> N l b <> 0.
Proof.
  intros Hwf Hi Hz. destruct (wf_lab _ _ _ _ _ Hwf _ _ _ Hi) as (_ & Hr & _).
  pose proof (wf_count _ _ _ _ _ Hwf Hdyn _ _ _ Hi) as Hc. rewrite Hz in Hc.
  assert (lab i = None); [|congruence]. apply (wf_used _ _ _ _ _ Hwf _ Hr).
  unfold free_table. by rewrite Hdyn.
Qed.

(** A table that keeps a region. *)
Lemma wf_lower Q E N N' c lab i l b :
  wf Q E N c lab -> lab i = Some (l, b) -> N l b <> 1 -> N' l b = N l b - 1 ->
  (forall l' b' j, (l', b') <> (l, b) -> lab j = Some (l', b') -> N' l' b' = N l' b') ->
  wf Q E N' (lower (Sub i) c) lab.
Proof.
  intros Hwf Hi Hne Hnew Hother. pose proof (same_conf_lower (Sub i) c) as Hs.
  pose proof (wf_count _ _ _ _ _ Hwf Hdyn _ _ _ Hi) as Hc.
  assert (forall q k, entry_at (lower (Sub i) c) q k = entry_at c q k) as Hent.
  { intros q k. unfold entry_at. by rewrite table_lower. }
  constructor.
  - apply geometry_lower, Hwf.
  - apply (wf_lab _ _ _ _ _ Hwf).
  - apply (wf_inj _ _ _ _ _ Hwf).
  - intros q l' b' k d Hq Hd. rewrite (label_of_conf _ _ _ _ Hs) in Hq. rewrite Hent in Hd.
    apply (entry_ok_conf c _ _ _ _ _ _ _ Hs). by eapply wf_entry.
  - intros j l' b' Hj. destruct (wf_parent _ _ _ _ _ Hwf _ _ _ Hj) as (q & b1 & k & ? & ? & ?).
    exists q, b1, k. by rewrite (label_of_conf _ _ _ _ Hs), Hent, (table_desc_conf _ _ _ Hs).
  - apply (wf_free _ _ _ _ _ Hwf).
  - intros j Hj. rewrite (wf_used _ _ _ _ _ Hwf j Hj). unfold free_table. rewrite Hdyn.
    rewrite (count_lower _ _ _ _ Hc). case_decide as Hij; [subst j|done]. rewrite Hc.
    pose proof (used_count _ _ _ _ _ _ _ _ Hwf Hi). split; intros [= ?]; lia.
  - intros _ j l' b' Hj. rewrite (count_lower _ _ _ _ Hc). case_decide as Hij.
    + subst j. rewrite Hi in Hj. simplify_eq. by rewrite Hnew.
    + rewrite (wf_count _ _ _ _ _ Hwf Hdyn _ _ _ Hj). f_equal. symmetry.
      eapply Hother; [|exact Hj]. intros [= -> ->]. apply Hij. by eapply (wf_inj _ _ _ _ _ Hwf).
Qed.

(** A table whose last region goes: its entry is cleared and it is free. *)
Lemma wf_unlink Q E N N' c lab p l b k i :
  let x := b + k * blk l in
  wf Q E N c lab -> label_of c lab p = Some (l, b) -> entry_at c p k = Some (table_desc c i) ->
  l < 3 -> lab i = Some (l + 1, x) -> N (l + 1) x = 1 -> E x (blk l) ->
  (forall j d, entry_at c (Sub i) j = Some d -> d = 0) ->
  (forall l' b' j, (l', b') <> (l + 1, x) -> lab j = Some (l', b') -> N' l' b' = N l' b') ->
  wf Q E N' (written p k INVALID_DESC (lower (Sub i) c)) (set_label i None lab).
Proof.
  intros x Hwf Hp Hk Hl3 Hi HN HE Hzero Hother. pose proof (wf_geo _ _ _ _ _ Hwf) as Hg.
  set (c1 := lower (Sub i) c). pose proof (same_conf_lower (Sub i) c : same_conf c c1) as Hs1.
  set (c2 := written p k INVALID_DESC c1).
  assert (same_conf c c2) as Hs by (eapply same_conf_trans; [exact Hs1|apply same_conf_written]).
  destruct (same_conf_fields _ _ Hs) as (Hbl & _ & _ & _ & Hnum & _).
  pose proof (wf_count _ _ _ _ _ Hwf Hdyn _ _ _ Hi) as Hc.
  assert (forall q j, entry_at c2 q j =
    if decide (q = p /\ j = k) then Some INVALID_DESC else entry_at c q j) as Hent.
  { intros q j. unfold c2. rewrite (entry_written _ _ _ _ _ _ (table_desc c i)).
    - case_decide; [done|]. unfold entry_at, c1. by rewrite (table_lower (Sub i)).
    - unfold entry_at, c1. rewrite (table_lower (Sub i)). exact Hk. }
  assert (forall j, (tables_mapped_regions c2).[j] =
    if decide (i = j) then Some 0 else (tables_mapped_regions c).[j]) as Hcnt.
  { intros j. unfold c2. rewrite (proj1 (written_counts _ _ _ _)).
    unfold c1. rewrite (count_lower _ _ _ _ Hc), HN. done. }
  assert (p <> Sub i) as Hpi by (intros ->; cbn in Hp; rewrite Hi in Hp; simplify_eq; lia).
  assert (0 <= i < tables_num c) as Hir by (destruct (wf_lab _ _ _ _ _ Hwf _ _ _ Hi) as (_ & ? & _); done).
  constructor.
  - by apply geometry_written, geometry_lower.
  - rewrite Hbl, Hnum. intros j l' b'. unfold set_label. case_decide; [done|].
    apply (wf_lab _ _ _ _ _ Hwf).
  - intros j j' y. unfold set_label. do 2 (case_decide; [done|]). apply (wf_inj _ _ _ _ _ Hwf).
  - intros q l' b' j d Hq Hd. rewrite (label_of_conf _ _ _ _ Hs) in Hq.
    apply (entry_ok_conf c _ _ _ _ _ _ _ Hs).
    assert (label_of c lab q = Some (l', b')) as Hq'.
    { destruct q as [|i']; [done|]. cbn in Hq |- *. unfold set_label in Hq. by case_decide. }
    rewrite Hent in Hd. case_decide as Hpk.
    + destruct Hpk as [-> ->]. rewrite Hp in Hq'. simplify_eq. by left.
    + destruct (wf_entry _ _ _ _ _ Hwf _ _ _ _ _ Hq' Hd) as [?|[(Hl3' & i' & -> & Hi')|?]];
        [by left| |by right; right].
      right; left. split; [done|]. exists i'. split; [done|]. rewrite set_label_ne; [done|].
      intros ->. rewrite Hi in Hi'. injection Hi' as El Ex. assert (l' = l) as -> by lia.
      destruct (label_level _ _ _ _ _ _ _ _ Hwf Hp). pose proof (blk_pos l).
      pose proof (entry_range _ _ _ _ Hg Hd) as Hjr. pose proof (entry_range _ _ _ _ Hg Hk) as Hkr.
      destruct (entry_block _ _ _ _ _ x k _ _ _ Hwf Hp Hkr) as [Hc1 Hd1]; [unfold x; lia|].
      destruct (entry_block _ _ _ _ _ x j _ _ _ Hwf Hq' Hjr) as [Hc2 Hd2]; [lia|].
      destruct (label_unique _ _ _ _ _ _ _ _ _ _ _ Hwf Hq' Hp Hc2 Hc1) as [-> ->].
      apply Hpk. split; [done|congruence].
  - intros j l' b' Hj. unfold set_label in Hj. case_decide as Hji; [done|].
    destruct (wf_parent _ _ _ _ _ Hwf _ _ _ Hj) as (q & b1 & j' & Hq & Hb1 & Hj').
    destruct (wf_lab _ _ _ _ _ Hwf _ _ _ Hj) as (_ & Hjr & _).
    destruct (table_desc_fields _ _ Hg Hjr) as [_ Hty].
    exists q, b1, j'. rewrite (label_of_conf _ _ _ _ Hs), (table_desc_conf _ _ _ Hs), Hent.
    split_and!; [|done|].
    + destruct q as [|i']; [done|]. cbn in *. rewrite set_label_ne; [done|]. intros ->.
      apply Hzero in Hj'. by rewrite Hj' in Hty.
    + rewrite decide_False; [done|]. intros [-> ->]. rewrite Hk in Hj'. injection Hj' as Hj'.
      apply Hji. symmetry. by eapply table_desc_inj.
  - intros j t j' d Hj Ht Hd. change ((tables c2).[j]) with (table_at c2 (Sub j)) in Ht.
    destruct (decide (j = i)) as [->|Hji].
    + apply (Hzero j'). assert (entry_at c2 (Sub i) j' = Some d) as He by (unfold entry_at; by rewrite Ht).
      rewrite Hent, decide_False in He by (intros [? _]; congruence). done.
    + rewrite set_label_ne in Hj by done.
      assert (p <> Sub j) by (intros ->; cbn in Hp; congruence).
      unfold c2, c1 in Ht. rewrite table_written_ne, (table_lower (Sub i)) in Ht by congruence.
      by eapply (wf_free _ _ _ _ _ Hwf).
  - intros j Hj. rewrite Hnum in Hj. unfold free_table. rewrite Hdyn, Hcnt.
    destruct (decide (i = j)) as [->|Hij]; [by rewrite set_label_eq|].
    rewrite set_label_ne by done. rewrite (wf_used _ _ _ _ _ Hwf j Hj). unfold free_table. by rewrite Hdyn.
  - intros _ j l' b' Hj. unfold set_label in Hj. case_decide as Hji; [done|].
    rewrite Hcnt, decide_False by congruence.
    rewrite (wf_count _ _ _ _ _ Hwf Hdyn _ _ _ Hj). f_equal. symmetry.
    eapply Hother; [|exact Hj]. intros [= -> ->]. apply Hji. by eapply (wf_inj _ _ _ _ _ Hwf).
Qed.
End Shape.

(** The virtual addresses of a region to unmap. *)
Record va_range_ok (mm : mmap_region) : Prop := {
  vr_va : 0 <= base_va mm /\ base_va mm + size mm <= 2 ^ 48;
  vr_size : 0 < size mm;
  vr_page_va : base_va mm mod 4096 = 0;
  vr_page_size : size mm mod 4096 = 0
}.

Section Unmap.
Context `{XlatConfig}.
Hypothesis Hdyn : PLAT_XLAT_TABLES_DYNAMIC = true.
Variables (regime : Z) (mm : mmap_region).
Hypothesis Hel : el_covers regime.
Hypothesis Hok : va_range_ok mm.

(** The conditions that the other regions give: they are apart from this one. *)
Variables (Qr Er : Z -> Z -> Prop) (Nr : Z -> Z -> Z).
Hypothesis HQ_apart : forall x n, 0 < n -> Qr x n -> ~ meets mm x n.
Hypothesis HE_mm : forall x n, 0 < n -> inside mm x n -> Er x n.
Hypothesis HE_sub : forall x n y m, Er x n -> x <= y -> y + m <= x + n -> Er y m.
Hypothesis HE_N : forall x l, 0 <= l < 3 -> Er x (blk l) <-> Nr (l + 1) x = 0.
Hypothesis HQ_E : forall x n, 0 < n -> Qr x n -> ~ Er x n.
Hypothesis HN_pos : forall l b, 0 <= Nr l b.

Implicit Types (c : xlat_ctx) (lab : labels) (p q : table_ptr) (v : Z).

Definition Qu (x n : Z) : Prop := Qr x n \/ inside mm x n.

Abbreviation top := (region_top mm).

(** Tables that still count the region when the table at level [L] from [B] on
    is being processed at [v]: those with a part of the region from [v] on, this
    table and those above it. *)
Definition pending (L B v l b : Z) : Prop :=
  meets mm b (512 * blk l) /\
  (v < Z.min (b + 512 * blk l) top \/ (l <= L /\ b <= B < b + 512 * blk l)).
#[local] Instance pending_dec L B v l b : Decision (pending L B v l b).
Proof. unfold pending. apply _. Defined.
Definition Nu (L B v l b : Z) : Z := Nr l b + (if decide (pending L B v l b) then 1 else 0).

Lemma Nu_same L B v L' B' v' l b :
  (meets mm b (512 * blk l) ->
   (v < Z.min (b + 512 * blk l) top \/ (l <= L /\ b <= B < b + 512 * blk l)) <->
   (v' < Z.min (b + 512 * blk l) top \/ (l <= L' /\ b <= B' < b + 512 * blk l))) ->
  Nu L B v l b = Nu L' B' v' l b.
Proof. intros Hiff. unfold Nu. f_equal. apply decide_ext. unfold pending. tauto. Qed.

(** *** Tables around an entry *)

(** A table at a level up to that of [p] contains all of [p] or nothing. *)
Lemma table_around c lab p L B i l b Q E N :
  wf Q E N c lab -> label_of c lab p = Some (L, B) -> lab i = Some (l, b) -> l <= L ->
  b + 512 * blk l <= B \/ B + 512 * blk L <= b \/
  (b <= B /\ B + 512 * blk L <= b + 512 * blk l).
Proof.
  intros Hwf Hp Hi Hl. destruct (wf_lab _ _ _ _ _ Hwf _ _ _ Hi) as (Hlv & _ & Hb0 & Hd).
  destruct (label_level _ _ _ _ _ _ _ _ Hwf Hp). destruct (label_base _ _ _ _ _ _ _ _ Hwf Hp) as [? HdB].
  pose proof (geo_level _ (wf_geo _ _ _ _ _ Hwf)). pose proof (blk_pos L).
  destruct (aligned_nest (512 * blk L) (512 * blk l) b B) as [?|[?|?]];
    [lia| |done|done|by right; left|by left|by right; right].
  apply Z.mul_divide_mono_l, blk_divide; lia.
Qed.

(** A table below the level of [p] is in an entry of that level or apart. *)
Lemma table_within c lab L x i l b Q E N :
  wf Q E N c lab -> 0 <= L -> (blk L | x) -> lab i = Some (l, b) -> L < l ->
  b + 512 * blk l <= x \/ x + blk L <= b \/ (x <= b /\ b + 512 * blk l <= x + blk L).
Proof.
  intros Hwf HL Hax Hi Hl. destruct (wf_lab _ _ _ _ _ Hwf _ _ _ Hi) as (Hlv & _ & Hb0 & Hd).
  assert (512 * blk l = blk (l - 1)) as Hsz.
  { pose proof (blk_next (l - 1)) as Hx. replace (l - 1 + 1) with l in Hx by lia. lia. }
  rewrite Hsz in *. pose proof (blk_pos (l - 1)).
  apply aligned_nest; [lia|apply blk_divide; lia|done|done].
Qed.

(** *** Moving [v] *)

Lemma wf_unmap_skip L B v v' c lab E :
  wf Qu E (Nu L B v) c lab -> v <= v' -> v' <= base_va mm -> wf Qu E (Nu L B v') c lab.
Proof.
  intros Hwf Hv Hb. eapply wf_mono; [exact Hwf|done|done|]. intros i l b Hi. symmetry.
  apply Nu_same. intros [? ?]. unfold region_top. pose proof (vr_size _ Hok). lia.
Qed.

(** Over an entry with no table below it. *)
Lemma wf_unmap_advance L B k c lab p E :
  let x := B + k * blk L in
  wf Qu E (Nu L B x) c lab -> label_of c lab p = Some (L, B) -> 0 <= k < entries_of c p ->
  (forall i l b, lab i = Some (l, b) -> L < l -> x <= b < x + blk L -> False) ->
  wf Qu E (Nu L B (x + blk L)) c lab.
Proof.
  intros x Hwf Hp Hk Hbelow. destruct (label_level _ _ _ _ _ _ _ _ Hwf Hp). pose proof (blk_pos L).
  pose proof (block_aligned _ _ _ _ _ k _ _ _ Hwf Hp : (blk L | x)) as Hax.
  pose proof (entries_bound c p (wf_geo _ _ _ _ _ Hwf)).
  assert (B <= x /\ x + blk L <= B + 512 * blk L) as [? ?] by (unfold x; nia).
  eapply wf_mono; [exact Hwf|done|done|]. intros i l b Hi. symmetry.
  destruct (wf_lab _ _ _ _ _ Hwf _ _ _ Hi) as (Hlv & _).
  pose proof (geo_level _ (wf_geo _ _ _ _ _ Hwf)). pose proof (blk_pos l).
  apply Nu_same. intros [? Hm]. fold top in Hm.
  destruct (Z.lt_ge_cases L l) as [Hl|Hl].
  - destruct (table_within _ _ L x _ _ _ _ _ _ Hwf ltac:(lia) Hax Hi Hl) as [?|[?|?]]; [lia|lia|].
    destruct (Hbelow i l b Hi Hl). lia.
  - destruct (table_around _ _ _ _ _ _ _ _ _ _ _ Hwf Hp Hi) as [?|[?|?]]; lia.
Qed.

(** Into a sub-table, and out of it. *)
Lemma Nu_enter L B k c lab p i l b E N' :
  let x := B + k * blk L in
  wf Qu E N' c lab -> label_of c lab p = Some (L, B) -> 0 <= k < entries_of c p ->
  L < 3 -> meets mm x (blk L) -> lab i = Some (l, b) -> Nu (L + 1) x x l b = Nu L B x l b.
Proof.
  intros x Hwf Hp Hk HL3 Hm Hi. destruct (label_level _ _ _ _ _ _ _ _ Hwf Hp). pose proof (blk_pos L).
  pose proof (block_aligned _ _ _ _ _ k _ _ _ Hwf Hp : (blk L | x)) as Hax.
  pose proof (entries_bound c p (wf_geo _ _ _ _ _ Hwf)).
  assert (B <= x /\ x + blk L <= B + 512 * blk L) as [? ?] by (unfold x; nia).
  destruct (wf_lab _ _ _ _ _ Hwf _ _ _ Hi) as (Hlv & _).
  pose proof (geo_level _ (wf_geo _ _ _ _ _ Hwf)). pose proof (blk_pos l).
  destruct Hm as [? Hm]. fold top in Hm.
  apply Nu_same. intros _. destruct (Z.lt_ge_cases L l) as [Hl|Hl].
  - destruct (table_within _ _ L x _ _ _ _ _ _ Hwf ltac:(lia) Hax Hi Hl) as [?|[?|?]]; lia.
  - destruct (table_around _ _ _ _ _ _ _ _ _ _ _ Hwf Hp Hi) as [?|[?|?]]; lia.
Qed.

Lemma Nu_leave L B k c lab p i l b E N' :
  let x := B + k * blk L in
  let v := Z.min top (x + blk L) in
  wf Qu E N' c lab -> label_of c lab p = Some (L, B) -> 0 <= k < entries_of c p ->
  L < 3 -> meets mm x (blk L) -> lab i = Some (l, b) ->
  Nu L B v l b = Nu (L + 1) x v l b - (if decide ((l, b) = (L + 1, x)) then 1 else 0).
Proof.
  intros x v Hwf Hp Hk HL3 Hm Hi. destruct (label_level _ _ _ _ _ _ _ _ Hwf Hp). pose proof (blk_pos L).
  pose proof (block_aligned _ _ _ _ _ k _ _ _ Hwf Hp : (blk L | x)) as Hax.
  pose proof (entries_bound c p (wf_geo _ _ _ _ _ Hwf)). pose proof (blk_next L) as Hsz.
  assert (B <= x /\ x + blk L <= B + 512 * blk L) as [? ?] by (unfold x; nia).
  destruct (wf_lab _ _ _ _ _ Hwf _ _ _ Hi) as (Hlv & _ & _ & Hd).
  pose proof (geo_level _ (wf_geo _ _ _ _ _ Hwf)). pose proof (blk_pos l).
  destruct (decide ((l, b) = (L + 1, x))) as [[= -> ->]|Hne].
  - assert (pending (L + 1) x v (L + 1) x) as Hp1.
    { split; [by rewrite <- Hsz by lia|]. right. lia. }
    assert (~ pending L B v (L + 1) x) as Hp2.
    { intros [_ ?]. rewrite <- Hsz in * by lia. unfold v in *. lia. }
    unfold Nu. rewrite (decide_True _ _ Hp1), (decide_False _ _ Hp2). lia.
  - rewrite Z.sub_0_r. destruct Hm as [? Hm]. fold top in Hm. apply Nu_same. intros _.
    destruct (Z.lt_ge_cases L l) as [Hl|Hl].
    + assert (l = L + 1 -> ~ (b <= x < b + 512 * blk l)) as Hself.
      { intros -> Hb. apply Hne. f_equal. apply (divide_between (512 * blk (L + 1))); try done; try lia.
        rewrite <- Hsz by lia. done. }
      destruct (table_within _ _ L x _ _ _ _ _ _ Hwf ltac:(lia) Hax Hi Hl) as [?|[?|?]]; lia.
    + destruct (table_around _ _ _ _ _ _ _ _ _ _ _ Hwf Hp Hi) as [?|[?|?]]; lia.
Qed.

(** ** The effect below an address *)

Definition cleared (v : Z) (o : option (Z * Z)) (va : Z) : option (Z * Z) :=
  if decide (in_region mm va /\ va < v) then None else o.

(** Tables below the range of [n] addresses from [x] on, at a level. *)
Definition below (L x n l b : Z) : Prop := L < l /\ x <= b < x + n.

(** From [c0] to [c] the region was unmapped below [v] in the table [p]. *)
Record unmapped (L B : Z) (p : table_ptr) (v : Z) (c0 : xlat_ctx) (lab0 : labels)
    (c : xlat_ctx) (lab : labels) : Prop := {
  um_wf : wf Qu Er (Nu L B v) c lab;
  um_conf : same_conf c0 c;
  um_len : length (tables c) = length (tables c0);
  um_lab : forall i l b, lab0 i = Some (l, b) -> ~ below L B (entries_of c0 p * blk L) l b ->
    lab i = Some (l, b);
  um_frame : forall q l b, label_of c0 lab0 q = Some (l, b) -> q <> p ->
    ~ below L B (entries_of c0 p * blk L) l b -> table_at c q = table_at c0 q;
  um_rest : forall k, v <= B + k * blk L -> entry_at c p k = entry_at c0 p k;
  um_walk : forall va, covers c0 p L B va ->
    walk (levels_from L) c p L va = cleared v (walk (levels_from L) c0 p L va) va
}.

Lemma unmapped_label L B p v c0 lab0 c lab q l b :
  unmapped L B p v c0 lab0 c lab -> label_of c0 lab0 q = Some (l, b) ->
  ~ below L B (entries_of c0 p * blk L) l b -> label_of c lab q = Some (l, b).
Proof.
  intros Hm Hq Hnb. rewrite (label_of_conf _ _ _ _ (um_conf _ _ _ _ _ _ _ _ Hm)).
  destruct q; [done|]. by apply (um_lab _ _ _ _ _ _ _ _ Hm).
Qed.

Lemma unmapped_self L B p v c0 lab0 c lab :
  unmapped L B p v c0 lab0 c lab -> label_of c0 lab0 p = Some (L, B) -> label_of c lab p = Some (L, B).
Proof. intros Hm Hp. eapply unmapped_label; try done. unfold below. lia. Qed.

Lemma unmapped_start L B p c lab :
  wf Qu Er (Nu L B B) c lab -> unmapped L B p B c lab c lab.
Proof.
  intros Hwf. constructor; try done; [apply same_conf_refl|].
  intros va Hva. unfold cleared. by rewrite decide_False by (unfold covers in Hva; lia).
Qed.

Lemma unmapped_skip L B p v v' c0 lab0 c lab :
  unmapped L B p v c0 lab0 c lab -> v <= v' -> v' <= base_va mm -> unmapped L B p v' c0 lab0 c lab.
Proof.
  intros Hm Hv Hb. constructor; try apply Hm.
  - eapply wf_unmap_skip; [apply Hm|done|done].
  - intros k Hk. apply (um_rest _ _ _ _ _ _ _ _ Hm). lia.
  - intros va Hva. rewrite (um_walk _ _ _ _ _ _ _ _ Hm va Hva). unfold cleared, in_region.
    by rewrite !decide_False by lia.
Qed.

(** An entry from which the region was removed. *)
Lemma unmapped_entry L B p k v c0 lab0 c lab c3 lab3 :
  let x := B + k * blk L in
  unmapped L B p x c0 lab0 c lab -> label_of c0 lab0 p = Some (L, B) -> 0 <= k < entries_of c0 p ->
  x < v <= x + blk L -> (v < x + blk L -> v = top) ->
  wf Qu Er (Nu L B v) c3 lab3 -> same_conf c c3 -> length (tables c3) = length (tables c) ->
  (forall j l b, lab j = Some (l, b) -> ~ below L x (blk L) l b -> lab3 j = Some (l, b)) ->
  (forall q l b, label_of c lab q = Some (l, b) -> q <> p -> ~ below L x (blk L) l b ->
     table_at c3 q = table_at c q) ->
  (forall j, j <> k -> entry_at c3 p j = entry_at c p j) ->
  (forall va, x <= va < x + blk L ->
     walk (levels_from L) c3 p L va = cleared v (walk (levels_from L) c p L va) va) ->
  unmapped L B p v c0 lab0 c3 lab3.
Proof.
  intros x Hm Hp Hk Hv Hvt Hwf3 Hs3 Hlen3 Hlab3 Hframe3 Hent3 Hwalk3.
  pose proof (unmapped_self _ _ _ _ _ _ _ _ Hm Hp) as Hpc.
  pose proof (um_wf _ _ _ _ _ _ _ _ Hm) as Hwf. destruct (label_level _ _ _ _ _ _ _ _ Hwf Hpc).
  pose proof (blk_pos L). pose proof (um_conf _ _ _ _ _ _ _ _ Hm) as Hs0.
  pose proof (block_aligned _ _ _ _ _ k _ _ _ Hwf Hpc : (blk L | x)) as Hax.
  assert (B <= x /\ x + blk L <= B + entries_of c0 p * blk L) as [? ?] by (unfold x; nia).
  assert (forall l b, ~ below L B (entries_of c0 p * blk L) l b -> ~ below L x (blk L) l b) as Hbel
    by (unfold below; intros; lia).
  constructor; [done|by eapply same_conf_trans| | | | |].
  - rewrite Hlen3. apply Hm.
  - intros i l b Hi Hnb. apply Hlab3; [by eapply (um_lab _ _ _ _ _ _ _ _ Hm)|by apply Hbel].
  - intros q l b Hq Hqp Hnb. rewrite <- (um_frame _ _ _ _ _ _ _ _ Hm q l b) by done.
    eapply Hframe3; [by eapply unmapped_label|done|by apply Hbel].
  - intros j Hj. rewrite Hent3 by (intros ->; fold x in Hj; lia).
    apply (um_rest _ _ _ _ _ _ _ _ Hm). lia.
  - intros va Hva. pose proof (um_walk _ _ _ _ _ _ _ _ Hm va Hva) as Hw.
    assert (covers c p L B va) as Hvac by (by apply (covers_conf _ _ _ _ _ _ Hs0)).
    destruct (covers_block _ _ _ _ _ _ _ _ _ Hwf Hpc Hvac) as (j & Hj & Hjva).
    destruct (decide (j = k)) as [->|Hjk].
    + rewrite Hwalk3, Hw by (unfold x; lia). unfold cleared at 2. by rewrite decide_False by (unfold x; lia).
    + assert (~ (x <= va < x + blk L)) as Hnx by (unfold x; nia).
      assert (walk (levels_from L) c3 p L va = walk (levels_from L) c p L va) as ->.
      { eapply (walk_ext1 _ _ _ _ _ _ _ j); try done.
        - by rewrite Hs3.
        - by apply Hent3.
        - intros q l' b' Hq Hl' Hcq. destruct q as [|i]; [cbn in Hq; simplify_eq; lia|].
          apply (Hframe3 _ _ _ Hq); [intros <-; rewrite Hpc in Hq; simplify_eq; lia|].
          intros [_ Hb']. unfold covers in Hcq. cbn [entries_of] in Hcq.
          destruct (table_within _ _ L x _ _ _ _ _ _ Hwf ltac:(lia) Hax Hq Hl') as [?|[?|?]]; lia. }
      rewrite Hw. unfold cleared. apply decide_ext. unfold in_region, x in *. unfold region_top in Hvt. lia.
Qed.

(** ** One entry *)

Lemma unmap_end_top : region_end_va mm = top - 1.
Proof.
  pose proof (vr_va _ Hok). pose proof (vr_size _ Hok). unfold region_end_va, region_top.
  apply u64_small. lia.
Qed.

Lemma unmap_page_inside x : (4096 | x) -> meets mm x 4096 -> inside mm x 4096.
Proof.
  intros [qx ->] [? ?]. pose proof (vr_page_va _ Hok) as Hb. pose proof (vr_page_size _ Hok) as Hs.
  apply Z.mod_divide in Hb as [qb Hb]; [|lia]. apply Z.mod_divide in Hs as [qs Hs]; [|lia].
  unfold inside. rewrite Hb, Hs in *. lia.
Qed.

Lemma unmap_action_spec c lab p L B k d N' :
  let x := B + k * blk L in
  wf Qu Er N' c lab -> label_of c lab p = Some (L, B) -> entry_at c p k = Some d ->
  d <> INVALID_DESC -> meets mm x (blk L) ->
  (is_leaf L d = true /\ inside mm x (blk L) /\
   xlat_tables_unmap_region_action mm x (u64 (x + blk L - 1)) L (Z.land d DESC_MASK) c =
     Done ACTION_WRITE_BLOCK_ENTRY c) \/
  (L < 3 /\ (exists i, d = table_desc c i /\ lab i = Some (L + 1, x)) /\
   xlat_tables_unmap_region_action mm x (u64 (x + blk L - 1)) L (Z.land d DESC_MASK) c =
     Done ACTION_RECURSE_INTO_TABLE c).
Proof.
  intros x Hwf Hp Hd Hnz Hm. destruct (label_level _ _ _ _ _ _ _ _ Hwf Hp) as [HL HL0].
  pose proof (blk_pos L). pose proof (wf_geo _ _ _ _ _ Hwf) as Hg. pose proof (vr_va _ Hok).
  pose proof (block_aligned _ _ _ _ _ k _ _ _ Hwf Hp : (blk L | x)) as Hax.
  destruct (label_base _ _ _ _ _ _ _ _ Hwf Hp) as [HB _]. pose proof (entry_range _ _ _ _ Hg Hd) as Hk.
  assert (0 <= x) by (unfold x; nia).
  assert (u64 (x + blk L - 1) = x + blk L - 1) as ->.
  { apply u64_small. pose proof (blk_aligned_bound L x). unfold meets in Hm. lia. }
  assert (4096 | x) as Hpage by (eapply Z.divide_trans; [|exact Hax]; apply blk_page; lia).
  unfold xlat_tables_unmap_region_action. rewrite unmap_end_top, desc_type_mod.
  unfold PAGE_DESC, TABLE_DESC, BLOCK_DESC.
  assert ((base_va mm <=? x) && (x + blk L - 1 <=? top - 1) = bool_decide (inside mm x (blk L))) as ->.
  { apply eq_true_iff_eq. rewrite bool_decide_eq_true, andb_true_iff, !Z.leb_le.
    unfold inside, region_top. lia. }
  destruct (wf_entry _ _ _ _ _ Hwf _ _ _ _ _ Hp Hd) as [[-> _]|[(HL3 & i & -> & Hi)|[Hl HQ]]]; [done|right|left].
  - destruct (wf_lab _ _ _ _ _ Hwf _ _ _ Hi) as (_ & Hir & _).
    destruct (table_desc_fields _ _ Hg Hir) as [_ ->].
    rewrite (proj2 (Z.eqb_neq L 3)), (proj2 (Z.ltb_lt L 3)) by lia. cbn [Z.eqb Pos.eqb].
    split; [done|]. split; [by exists i|]. case_bool_decide; [done|].
    rewrite (proj2 (Z.leb_le (base_va mm) _)) by (unfold meets in Hm; lia). done.
  - assert (inside mm x (blk L)) as Hin by (destruct HQ as [HQ|?]; [by apply HQ_apart in HQ; [|lia]|done]).
    rewrite bool_decide_true by done. split_and!; [done|done|]. unfold is_leaf in Hl.
    destruct (L =? 3); [by rewrite Hl|]. apply andb_true_iff in Hl as [_ Hl%Z.eqb_eq]. by rewrite Hl.
Qed.

(** A block or page of the region. *)
Lemma unmapped_leaf L B p k c0 lab0 c lab d :
  let x := B + k * blk L in
  unmapped L B p x c0 lab0 c lab -> label_of c0 lab0 p = Some (L, B) -> 0 <= k < entries_of c0 p ->
  entry_at c p k = Some d -> is_leaf L d = true -> inside mm x (blk L) ->
  unmapped L B p (x + blk L) c0 lab0 (traced [DsbIshst; TlbiVa x] (written p k INVALID_DESC c)) lab.
Proof.
  intros x Hm Hp Hk Hd Hleaf Hin. pose proof (unmapped_self _ _ _ _ _ _ _ _ Hm Hp) as Hpc.
  pose proof (um_wf _ _ _ _ _ _ _ _ Hm) as Hwf. destruct (label_level _ _ _ _ _ _ _ _ Hwf Hpc).
  pose proof (blk_pos L). pose proof (entry_range _ _ _ _ (wf_geo _ _ _ _ _ Hwf) Hd) as Hkc.
  assert (forall i l b, lab i = Some (l, b) -> L < l -> x <= b < x + blk L -> False) as Hbelow.
  { intros i l b Hi Hl Hb. eapply (no_label_below _ _ _ _ _ _ _ _ _ _ i Hwf Hpc Hd); [by right|done|done|].
    unfold x in Hb. lia. }
  set (c1 := written p k INVALID_DESC c). pose proof (same_conf_written p k INVALID_DESC c : same_conf c c1) as Hs1.
  assert (wf Qu Er (Nu L B x) c1 lab) as Hwf1.
  { eapply wf_write; try done.
    - intros i Hi. eapply Hbelow; [exact Hi|lia|unfold x; lia].
    - left. split; [done|]. apply HE_mm; [lia|done]. }
  assert (forall j, entry_at c1 p j = if decide (j = k) then Some INVALID_DESC else entry_at c p j) as Hent.
  { intros j. unfold c1. rewrite (entry_written _ _ _ _ _ _ _ Hd).
    destruct (decide (j = k)); [by rewrite decide_True|by rewrite decide_False by (by intros [? ?])]. }
  eapply (unmapped_entry L B p k); try done; [lia|lia| | | | | ].
  - apply wf_traced. by eapply wf_unmap_advance.
  - apply length_written.
  - intros q l b Hq Hqp _. rewrite table_traced. by apply table_written_ne.
  - intros j Hj. unfold entry_at. rewrite table_traced. fold (entry_at c1 p j). by rewrite Hent, decide_False.
  - intros va Hva. unfold cleared. rewrite decide_True by (unfold in_region, inside in *; lia).
    rewrite levels_from_S by lia.
    eapply (walk_invalid _ lab p L B k); [by apply wf_traced| | | |].
    + by rewrite (label_of_conf _ _ _ _ Hs1 : label_of (traced _ c1) lab p = _).
    + by rewrite (entries_of_conf _ _ _ Hs1 : entries_of (traced _ c1) p = _).
    + unfold x in Hva. lia.
    + unfold entry_at. rewrite table_traced. fold (entry_at c1 p k). by rewrite Hent, decide_True.
Qed.

(** A sub-table that the region was removed from has other regions or is
    empty. *)
Lemma emptied_entries L B k i c1 lab1 c2 lab2 :
  let x := B + k * blk L in
  0 <= L < 3 -> meets mm x (blk L) -> lab1 i = Some (L + 1, x) ->
  unmapped (L + 1) x (Sub i) (Z.min top (x + blk L)) c1 lab1 c2 lab2 -> Nr (L + 1) x = 0 ->
  forall j d, entry_at c2 (Sub i) j = Some d -> d = 0.
Proof.
  intros x HL Hmeet Hi Hm HN j d Hd. pose proof (um_wf _ _ _ _ _ _ _ _ Hm) as Hwf.
  pose proof (unmapped_self _ _ _ _ _ _ _ _ Hm Hi) as Hic. cbn [label_of] in Hic.
  pose proof (entry_range _ _ _ _ (wf_geo _ _ _ _ _ Hwf) Hd) as Hj. pose proof (blk_next L).
  pose proof (blk_pos (L + 1)). cbn [entries_of] in Hj. set (y := x + j * blk (L + 1)).
  assert (x <= y /\ y + blk (L + 1) <= x + blk L) as Hy by (unfold y; nia).
  assert (Er x (blk L)) as HE by (apply HE_N; [lia|done]).
  assert (Er y (blk (L + 1))) as HEy by (eapply HE_sub; [exact HE|lia|lia]).
  destruct (wf_entry _ _ _ _ _ Hwf (Sub i) _ _ _ _ Hic Hd) as [[-> _]|[(HL3 & i' & -> & Hi')|[Hl HQ]]]; [done| |].
  - (* a table with no region left *)
    exfalso. fold y in Hi'. apply (used_count Hdyn _ _ _ _ _ _ _ _ Hwf Hi').
    assert (Nr (L + 1 + 1) y = 0) as HNy by (apply HE_N; [lia|done]).
    assert (~ pending (L + 1) x (Z.min top (x + blk L)) (L + 1 + 1) y) as Hnp.
    { intros [_ [?|?]]; [|lia]. rewrite <- (blk_next (L + 1)) in * by lia. lia. }
    unfold Nu. by rewrite HNy, decide_False.
  - (* a block or page *)
    exfalso. fold y in HQ. destruct HQ as [HQ|HQ]; [by apply HQ_E in HQ; [|lia]|].
    assert (in_region mm y /\ y < Z.min top (x + blk L)) as Hin
      by (unfold in_region, inside, region_top in *; lia).
    assert (covers c1 (Sub i) (L + 1) x y) as Hcov by (unfold covers; cbn [entries_of]; lia).
    pose proof (um_walk _ _ _ _ _ _ _ _ Hm y Hcov) as Hw. unfold cleared in Hw.
    rewrite decide_True in Hw by done. rewrite levels_from_S in Hw by lia.
    rewrite (walk_leaf c2 lab2 (Sub i) (L + 1) x j d y _ _ _ _ Hwf Hic) in Hw; [done|..];
      cbn [entries_of]; try done; unfold y; lia.
Qed.

(** What a recursive call does. *)
Definition unmap_total (L B : Z) (p : table_ptr) (c : xlat_ctx) : Prop :=
  forall va, in_region mm va -> covers c p L B va -> is_Some (walk (levels_from L) c p L va).

Definition unmap_post (L B : Z) (p : table_ptr) (c : xlat_ctx) (lab : labels) (c' : xlat_ctx) : Prop :=
  exists c1 lab1, unmapped L B p (table_top mm c p L B) c lab c1 lab1 /\ c' = lower p c1.

Definition unmap_sub_spec (L : Z) (unmap_sub : Z -> table_ptr -> cmd xlat_ctx unit) : Prop :=
  forall x i c lab,
  wf Qu Er (Nu (L + 1) x x) c lab -> lab i = Some (L + 1, x) -> meets mm x (blk L) ->
  unmap_total (L + 1) x (Sub i) c -> xlat_regime c = regime ->
  wpd (unmap_sub x (Sub i)) (fun _ => unmap_post (L + 1) x (Sub i) c lab) c.

Lemma is_empty_run i c n :
  0 <= i < tables_num c -> (tables_mapped_regions c).[i] = Some n ->
  xlat_table_is_empty (Sub i) c = Done (n =? 0) c.
Proof.
  intros Hi Hn. unfold xlat_table_is_empty, bind. rewrite (get_index_run _ _ Hi). unfold gets, id.
  by rewrite Hn.
Qed.

(** The sub-table [i] of an entry, once the region was removed from it. *)
Section UnmapTable.
Variables (L B : Z) (p : table_ptr) (k i : Z) (c0 : xlat_ctx) (lab0 : labels).
Variables (c : xlat_ctx) (lab : labels) (c1 : xlat_ctx) (lab1 : labels).
Let x := B + k * blk L.
Let v := Z.min top (x + blk L).
Hypothesis Hm : unmapped L B p x c0 lab0 c lab.
Hypothesis Hp : label_of c0 lab0 p = Some (L, B).
Hypothesis Hk : 0 <= k < entries_of c0 p.
Hypothesis HL3 : L < 3.
Hypothesis Hmeet : meets mm x (blk L).
Hypothesis Hd : entry_at c p k = Some (table_desc c i).
Hypothesis Hi : lab i = Some (L + 1, x).
Hypothesis Hsub : unmapped (L + 1) x (Sub i) v c lab c1 lab1.

Local Lemma ut_bounds : 0 <= L /\ base_level c <= L /\ 0 < blk L /\ blk L = 512 * blk (L + 1) /\
  x < v <= x + blk L /\ (v < x + blk L -> v = top).
Proof.
  pose proof (unmapped_self _ _ _ _ _ _ _ _ Hm Hp) as Hpc.
  destruct (label_level _ _ _ _ _ _ _ _ (um_wf _ _ _ _ _ _ _ _ Hm) Hpc) as [HL HL0].
  pose proof (blk_pos L). pose proof (blk_next L). unfold v, region_top. unfold meets in Hmeet. lia.
Qed.

(** The table of the entry, after the recursive call. *)
Local Lemma ut_table : label_of c1 lab1 p = Some (L, B) /\ p <> Sub i /\ table_at c1 p = table_at c p /\
  entry_at c1 p k = Some (table_desc c1 i) /\ 0 <= k < entries_of c1 p.
Proof.
  pose proof (unmapped_self _ _ _ _ _ _ _ _ Hm Hp) as Hpc. pose proof ut_bounds as Hb.
  pose proof (um_conf _ _ _ _ _ _ _ _ Hm) as Hs0. pose proof (um_conf _ _ _ _ _ _ _ _ Hsub) as Hs1.
  assert (p <> Sub i) as Hpi by (intros ->; cbn in Hpc; rewrite Hi in Hpc; simplify_eq; lia).
  assert (table_at c1 p = table_at c p) as Htp.
  { eapply (um_frame _ _ _ _ _ _ _ _ Hsub); [exact Hpc|done|]. unfold below. lia. }
  rewrite (entries_of_conf _ _ _ Hs1), (entries_of_conf _ _ _ Hs0). split_and!; [|done|done| |lia..].
  - eapply unmapped_label; [exact Hsub|done|]. unfold below. lia.
  - unfold entry_at. rewrite Htp. fold (entry_at c p k). by rewrite Hd, (table_desc_conf _ _ _ Hs1).
Qed.

(** The counts: the sub-table loses the region, the others keep theirs. *)
Local Lemma ut_counts :
  Nu L B v (L + 1) x = Nr (L + 1) x /\ Nu (L + 1) x v (L + 1) x = Nr (L + 1) x + 1 /\
  (tables_mapped_regions (lower (Sub i) c1)).[i] = Some (Nr (L + 1) x) /\
  (forall l' b' j, (l', b') <> (L + 1, x) -> lab1 j = Some (l', b') -> Nu L B v l' b' = Nu (L + 1) x v l' b').
Proof.
  pose proof (um_wf _ _ _ _ _ _ _ _ Hsub) as Hwf1. destruct ut_bounds as (HL & HL0 & Hb & Hsz & Hv & _).
  pose proof (unmapped_self _ _ _ _ _ _ _ _ Hsub Hi) as Hi1. cbn [label_of] in Hi1.
  destruct ut_table as (Hp1 & _ & _ & _ & Hk1).
  pose proof (Nu_leave L B k c1 lab1 p i (L + 1) x _ _ Hwf1 Hp1 Hk1 HL3 Hmeet Hi1) as HNi.
  fold x in HNi. fold v in HNi. rewrite decide_True in HNi by done.
  assert (Nu L B v (L + 1) x = Nr (L + 1) x) as HNr.
  { unfold Nu. rewrite decide_False; [lia|]. intros [_ ?]. rewrite <- Hsz in * by lia. unfold v in *. lia. }
  split_and!; [done|lia| |].
  - rewrite (count_lower _ _ _ _ (wf_count _ _ _ _ _ Hwf1 Hdyn _ _ _ Hi1)), decide_True by done. f_equal. lia.
  - intros l' b' j Hne Hj. pose proof (Nu_leave L B k c1 lab1 p j l' b' _ _ Hwf1 Hp1 Hk1 HL3 Hmeet Hj) as He.
    fold x in He. fold v in He. rewrite decide_False in He by done. lia.
Qed.

(** A state that keeps everything but the entry and its sub-table. *)
Local Lemma ut_final c3 lab3 :
  same_conf c1 c3 -> length (tables c3) = length (tables c1) -> wf Qu Er (Nu L B v) c3 lab3 ->
  (forall j, j <> i -> lab3 j = lab1 j) ->
  (forall q, q <> p -> table_at c3 q = table_at c1 q) ->
  (forall j, j <> k -> entry_at c3 p j = entry_at c1 p j) ->
  (forall va, x <= va < x + blk L ->
     walk (levels_from L) c3 p L va = walk (levels_from (L + 1)) c1 (Sub i) (L + 1) va) ->
  unmapped L B p v c0 lab0 c3 lab3.
Proof.
  pose proof (unmapped_self _ _ _ _ _ _ _ _ Hm Hp) as Hpc. pose proof (um_wf _ _ _ _ _ _ _ _ Hm) as Hwf.
  pose proof (um_conf _ _ _ _ _ _ _ _ Hm) as Hs0. pose proof (um_conf _ _ _ _ _ _ _ _ Hsub) as Hs1.
  destruct ut_bounds as (HL & HL0 & Hb & Hsz & Hv & Hvt). destruct ut_table as (_ & _ & Htp & _ & _).
  assert (forall l b, below (L + 1) x (512 * blk (L + 1)) l b -> below L x (blk L) l b) as Hbel
    by (unfold below; intros; rewrite <- Hsz in *; lia).
  assert (0 <= k < entries_of c p) as Hkc by (by rewrite (entries_of_conf _ _ _ Hs0)).
  intros Hs3 Hl3 Hwf3 Hlab3 Hq3 He3 Hw3. eapply (unmapped_entry L B p k); try done; fold x.
  - by eapply same_conf_trans.
  - rewrite Hl3. apply Hsub.
  - intros j l b Hj Hnb. rewrite Hlab3.
    + apply (um_lab _ _ _ _ _ _ _ _ Hsub); [done|]. cbn [entries_of]. auto.
    + intros ->. rewrite Hi in Hj. simplify_eq. apply Hnb. unfold below. lia.
  - intros q l b Hq Hqp Hnb. rewrite Hq3 by done.
    eapply (um_frame _ _ _ _ _ _ _ _ Hsub); [exact Hq| |cbn [entries_of]; auto].
    intros ->. cbn in Hq. rewrite Hi in Hq. simplify_eq. apply Hnb. unfold below. lia.
  - intros j Hj. rewrite He3 by done. unfold entry_at. by rewrite Htp.
  - intros va Hva. rewrite Hw3, (um_walk _ _ _ _ _ _ _ _ Hsub) by
      (done || (unfold covers; cbn [entries_of]; lia)). f_equal.
    rewrite (levels_from_S L) by lia. symmetry. eapply walk_table; try done. unfold x in *. lia.
Qed.

(** No region is left in the sub-table: the entry no longer refers to it. *)
Local Lemma ut_emptied :
  Nr (L + 1) x = 0 ->
  unmapped L B p v c0 lab0
    (traced [DsbIshst; TlbiVa x] (written p k INVALID_DESC (lower (Sub i) c1))) (set_label i None lab1).
Proof.
  intros Hz. pose proof (um_wf _ _ _ _ _ _ _ _ Hsub) as Hwf1. destruct ut_bounds as (HL & HL0 & Hb & Hsz & Hv & Hvt).
  pose proof (unmapped_self _ _ _ _ _ _ _ _ Hsub Hi) as Hi1. cbn [label_of] in Hi1.
  destruct ut_table as (Hp1 & Hpi & _ & Hd1 & Hk1). destruct ut_counts as (HNr & HN1 & _ & HNo).
  pose proof (emptied_entries L B k i c lab c1 lab1 ltac:(lia) Hmeet Hi Hsub Hz) as Hzero.
  assert (Er x (blk L)) as HE by (apply HE_N; [lia|done]).
  destruct (wf_lab _ _ _ _ _ Hwf1 _ _ _ Hi1) as (_ & Hir & _).
  assert (wf Qu Er (Nu L B v) (written p k INVALID_DESC (lower (Sub i) c1)) (set_label i None lab1)) as Hwf3.
  { eapply wf_unlink; try done. fold x. lia. }
  set (c3 := traced _ _).
  assert (same_conf c1 c3) as Hs3.
  { eapply same_conf_trans; [apply (same_conf_lower (Sub i))|].
    eapply same_conf_trans; [apply same_conf_written|apply same_conf_traced]. }
  assert (entry_at (lower (Sub i) c1) p k = Some (table_desc c1 i)) as Hdl
    by (unfold entry_at; rewrite table_lower; exact Hd1).
  assert (forall q j, entry_at c3 q j =
    if decide (q = p /\ j = k) then Some INVALID_DESC else entry_at c1 q j) as Hent.
  { intros q j. unfold entry_at at 1, c3. rewrite table_traced.
    fold (entry_at (written p k INVALID_DESC (lower (Sub i) c1)) q j).
    rewrite (entry_written _ _ _ _ _ _ _ Hdl). case_decide; [done|]. unfold entry_at. by rewrite table_lower. }
  apply ut_final; [done|etransitivity; [apply length_written|done]|by apply wf_traced|..].
  - intros j Hj. by apply set_label_ne.
  - intros q Hq. unfold c3. rewrite table_traced, table_written_ne by done. apply table_lower.
  - intros j Hj. rewrite Hent, decide_False by (by intros [_ ?]). done.
  - intros va Hva. rewrite !levels_from_S by lia.
    rewrite (walk_invalid c3 (set_label i None lab1) p L B k va _ _ _ _ (wf_traced _ _ _ _ _ _ Hwf3)).
    + assert (covers c1 (Sub i) (L + 1) x va) as Hcov by (unfold covers; cbn [entries_of]; lia).
      destruct (covers_block _ _ (Sub i) _ _ _ _ _ _ Hwf1 Hi1 Hcov) as (j & Hj & Hjva).
      destruct (entry_some _ _ (Sub i) _ _ _ _ _ _ Hwf1 Hi1 Hj) as [e He].
      pose proof (Hzero _ _ He). subst e. symmetry. by eapply (walk_invalid _ lab1 (Sub i) _ _ j).
    + rewrite (label_of_conf _ _ _ _ Hs3). destruct p; [done|]. cbn. by rewrite set_label_ne by congruence.
    + by rewrite (entries_of_conf _ _ _ Hs3).
    + unfold x in Hva. lia.
    + fold c3. by rewrite Hent, decide_True.
Qed.

(** Regions are left in it. *)
Local Lemma ut_kept : Nr (L + 1) x <> 0 -> unmapped L B p v c0 lab0 (lower (Sub i) c1) lab1.
Proof.
  intros Hz. pose proof (um_wf _ _ _ _ _ _ _ _ Hsub) as Hwf1. destruct ut_bounds as (HL & HL0 & Hb & Hsz & Hv & Hvt).
  pose proof (unmapped_self _ _ _ _ _ _ _ _ Hsub Hi) as Hi1. cbn [label_of] in Hi1.
  destruct ut_table as (Hp1 & Hpi & _ & Hd1 & Hk1). destruct ut_counts as (HNr & HN1 & _ & HNo).
  destruct (wf_lab _ _ _ _ _ Hwf1 _ _ _ Hi1) as (_ & Hir & _).
  apply ut_final.
  - apply (same_conf_lower (Sub i)).
  - done.
  - eapply wf_lower; try done; lia.
  - done.
  - intros q Hq. apply table_lower.
  - intros j Hj. unfold entry_at. by rewrite table_lower.
  - intros va Hva. rewrite (walk_same c1); [|intros q; apply table_lower|done|done].
    rewrite (levels_from_S L) by lia. eapply walk_table; try done. unfold x in *. lia.
Qed.

Lemma wp_unmap_table :
  xlat_regime c = regime ->
  wpd (let! empty := xlat_table_is_empty (Sub i) in
       when empty (write_entry p k INVALID_DESC;; xlat_arch_tlbi_va x regime))
    (fun _ c' => exists lab', unmapped L B p v c0 lab0 c' lab') (lower (Sub i) c1).
Proof.
  intros Hreg. pose proof (um_wf _ _ _ _ _ _ _ _ Hsub) as Hwf1.
  pose proof (unmapped_self _ _ _ _ _ _ _ _ Hsub Hi) as Hi1. cbn [label_of] in Hi1.
  destruct (wf_lab _ _ _ _ _ Hwf1 _ _ _ Hi1) as (_ & Hir & _).
  destruct ut_table as (_ & _ & _ & Hd1 & _). destruct ut_counts as (_ & _ & Hcnt & _).
  wp_step. eapply wp_exact; [apply is_empty_run; [done|exact Hcnt]|]. apply wp_when; intros Hz.
  - apply Z.eqb_eq in Hz. wp_step. eapply wp_exact.
    { apply write_entry_run. exists (table_desc c1 i). unfold entry_at. rewrite table_lower. exact Hd1. }
    eapply wp_exact; [by apply tlbi_va_run|]. exists (set_label i None lab1). by apply ut_emptied.
  - apply Z.eqb_neq in Hz. exists lab1. by apply ut_kept.
Qed.
End UnmapTable.

Lemma wp_unmap_entry unmap_sub L B p k c0 lab0 c lab :
  let x := B + k * blk L in
  (L < 3 -> unmap_sub_spec L unmap_sub) ->
  unmapped L B p x c0 lab0 c lab -> label_of c0 lab0 p = Some (L, B) -> 0 <= k < entries_of c0 p ->
  meets mm x (blk L) -> unmap_total L B p c0 -> xlat_regime c0 = regime ->
  wpd (unmap_entry unmap_sub mm p L k x)
    (fun _ c' => exists lab', unmapped L B p (Z.min top (x + blk L)) c0 lab0 c' lab') c.
Proof.
  intros x Hsub Hm Hp Hk Hmeet Htot Hreg. pose proof (unmapped_self _ _ _ _ _ _ _ _ Hm Hp) as Hpc.
  pose proof (um_wf _ _ _ _ _ _ _ _ Hm) as Hwf. destruct (label_level _ _ _ _ _ _ _ _ Hwf Hpc) as [HL HL0].
  pose proof (blk_pos L). pose proof (blk_next L). pose proof (um_conf _ _ _ _ _ _ _ _ Hm) as Hs0.
  assert (0 <= k < entries_of c p) as Hkc by (by rewrite (entries_of_conf _ _ _ Hs0)).
  destruct (entry_some _ _ _ _ _ _ _ _ _ Hwf Hpc Hkc) as [d Hd].
  assert (B <= x /\ x + blk L <= B + entries_of c0 p * blk L) as [? ?] by (unfold x; nia).
  (* the addresses of the region from [x] on are translated *)
  assert (forall va, in_region mm va -> x <= va < x + blk L -> is_Some (walk (levels_from L) c p L va)) as Htot'.
  { intros va Hin Hva. assert (covers c0 p L B va) as Hcov by (unfold covers; lia).
    rewrite (um_walk _ _ _ _ _ _ _ _ Hm va Hcov). unfold cleared. rewrite decide_False by lia. by apply Htot. }
  assert (d <> INVALID_DESC) as Hnz.
  { intros ->. set (va := Z.max (base_va mm) x). unfold meets in Hmeet. pose proof (vr_size _ Hok).
    destruct (Htot' va) as [t Ht]; [unfold in_region, va; lia|unfold va; lia|].
    rewrite levels_from_S in Ht by lia.
    rewrite (walk_invalid _ _ _ _ _ k _ _ _ _ _ Hwf Hpc Hkc) in Ht; [done| |done].
    unfold va, x in *. lia. }
  assert (xlat_regime c = regime) as Hrc by (rewrite Hs0; done).
  unfold unmap_entry. wp_steps. unfold id, read_entry. wp_steps. eapply wp_deref; [exact Hd|]. wp_step.
  destruct (unmap_action_spec _ _ _ _ _ _ _ _ Hwf Hpc Hd Hnz Hmeet)
    as [(Hleaf & Hin & Ha)|(HL3 & (i & -> & Hi) & Ha)]; fold x in Ha; (eapply wp_exact; [exact Ha|]); cbv beta iota.
  - wp_step. eapply wp_exact; [by apply write_entry_run; eexists|]. rewrite Hrc.
    eapply wp_exact; [by apply tlbi_va_run|]. exists lab.
    rewrite Z.min_r by (unfold inside in Hin; unfold region_top; lia). by eapply unmapped_leaf.
  - unfold subtable_of. wp_steps.
    destruct (leaf_not_table _ _ _ _ _ _ _ _ Hwf HL3 Hi) as (_ & _ & Hfollow).
    eapply wp_deref; [exact Hfollow|]. wp_step. fold x in Hi.
    eapply wp_mono; [apply (Hsub HL3 x i c lab); try done| |done].
    + eapply wf_mono; [exact Hwf|done|done|]. intros j l b Hj. by eapply Nu_enter.
    + intros va Hin Hcov. unfold covers in Hcov. cbn [entries_of] in Hcov.
      destruct (Htot' va Hin) as [t Ht]; [lia|]. exists t. rewrite <- Ht.
      rewrite (levels_from_S L) by lia. symmetry. eapply walk_table; try done. unfold x in *. lia.
    + intros [] c' (c1 & lab1 & Hm1 & ->). rewrite Hrc.
      unfold table_top in Hm1. cbn [entries_of] in Hm1. rewrite <- (blk_next L) in Hm1 by lia.
      by eapply (wp_unmap_table L B p k i).
Qed.

Lemma unmap_loop_S unmap_sub n p L k x :
  unmap_loop unmap_sub (S n) mm p L k x =
    (unmap_entry unmap_sub mm p L k x;;
     if region_end_va mm <=? u64 (x + blk L) then ret tt
     else unmap_loop unmap_sub n mm p L (k + 1) (u64 (x + blk L))).
Proof. done. Qed.

Lemma unmap_top_page : (4096 | top).
Proof. unfold region_top. apply Z.divide_add_r; (apply Z.mod_divide; [lia|apply Hok]). Qed.

Lemma wp_unmap_loop unmap_sub n L B p k c0 lab0 c lab :
  let x := B + k * blk L in
  (L < 3 -> unmap_sub_spec L unmap_sub) ->
  unmapped L B p x c0 lab0 c lab -> label_of c0 lab0 p = Some (L, B) ->
  0 <= k -> Z.of_nat (S n) = entries_of c0 p - k -> base_va mm < x + blk L -> x < top ->
  unmap_total L B p c0 -> xlat_regime c0 = regime ->
  wpd (unmap_loop unmap_sub (S n) mm p L k x)
    (fun _ c' => exists lab', unmapped L B p (table_top mm c0 p L B) c0 lab0 c' lab') c.
Proof.
  revert k c lab. induction n as [|n IH]; intros k c lab x Hsub Hm Hp Hk Hn Hbase Htop Htot Hreg.
  all: pose proof (unmapped_self _ _ _ _ _ _ _ _ Hm Hp) as Hpc.
  all: pose proof (um_wf _ _ _ _ _ _ _ _ Hm) as Hwf.
  all: destruct (label_level _ _ _ _ _ _ _ _ Hwf Hpc) as [HLv HL0]; pose proof (blk_pos L).
  all: destruct (label_base _ _ _ _ _ _ _ _ Hwf Hpc) as [HB _]; pose proof (vr_va _ Hok).
  all: pose proof (block_aligned _ _ _ _ _ k _ _ _ Hwf Hpc : (blk L | x)) as Hax.
  all: assert (0 <= x) by (unfold x; nia).
  all: assert (x + blk L <= 2 ^ 48) as Hx48
         by (apply blk_aligned_bound; [lia|done|unfold region_top in Htop; lia]).
  all: assert (x + blk L <= B + entries_of c0 p * blk L) as Hfit by (unfold x; nia).
  all: assert (0 <= k < entries_of c0 p) as Hkr by lia.
  all: assert (meets mm x (blk L)) as Hmeet by (unfold meets; unfold region_top in Htop; lia).
  all: rewrite unmap_loop_S; wp_step.
  all: eapply wp_mono; [by eapply wp_unmap_entry| |done].
  all: intros [] c1 [lab1 Hm1]; rewrite u64_small, unmap_end_top by lia.
  all: assert (4096 | x + blk L) as Hdx by
    (apply (Z.divide_trans _ (blk L)); [apply blk_page; lia|apply Z.divide_add_r; [done|apply Z.divide_refl]]).
  all: assert (top - 1 <= x + blk L -> top <= x + blk L) as Hstop.
  1, 3: intros Hle; destruct (Z.le_gt_cases top (x + blk L)) as [?|Hgt]; [done|];
    rewrite (divide_between 4096 (x + blk L) top); (done || lia || apply unmap_top_page).
  all: destruct (Z.leb_spec (top - 1) (x + blk L)) as [Hend|Hmore].
  1, 3: apply wp_ret; exists lab1; unfold table_top;
    rewrite Z.min_l in Hm1 |- * by (specialize (Hstop Hend); lia); done.
  - apply wp_ret. exists lab1. unfold table_top.
    assert (x + blk L = B + entries_of c0 p * blk L) as Hlast.
    { unfold x. replace (entries_of c0 p) with (k + 1) by lia. lia. }
    by rewrite <- Hlast.
  - rewrite Z.min_r in Hm1 by lia.
    assert (x + blk L = B + (k + 1) * blk L) as Hnext by (unfold x; lia). rewrite Hnext.
    apply (IH (k + 1) c1 lab1); try done; [by rewrite <- Hnext|lia|lia|lia|lia].
Qed.

Lemma wp_unmap_region fuel L B p c lab :
  fuel = levels_from L -> wf Qu Er (Nu L B B) c lab -> label_of c lab p = Some (L, B) ->
  meets mm B (entries_of c p * blk L) -> unmap_total L B p c -> xlat_regime c = regime ->
  wpd (xlat_tables_unmap_region fuel mm B p (entries_of c p) L) (fun _ => unmap_post L B p c lab) c.
Proof.
  revert L B p c lab. induction fuel as [|fuel IH]; intros L B p c lab Hf Hwf Hp Hmeet Htot Hreg.
  all: destruct (label_level _ _ _ _ _ _ _ _ Hwf Hp) as [HLv HL0].
  { unfold levels_from, XLAT_TABLE_LEVEL_MAX in Hf. lia. }
  rewrite levels_from_S in Hf by lia. injection Hf as ->.
  pose proof (wf_geo _ _ _ _ _ Hwf) as Hg. pose proof (blk_pos L). pose proof (vr_va _ Hok).
  pose proof (vr_size _ Hok). destruct (label_base _ _ _ _ _ _ _ _ Hwf Hp) as [HB HdB].
  pose proof (entries_bound _ p Hg) as Hent.
  assert (blk L | B) as HdL by (eapply Z.divide_trans; [|exact HdB]; by exists 512).
  destruct (first_entry mm L B (entries_of c p)) as (k & Hstart & Hidx & Hk & Hb1 & Hb2 & Hb3); try done; try lia.
  assert (unmapped L B p (B + k * blk L) c lab c lab) as Hm.
  { pose proof (unmapped_start L B p c lab Hwf) as Hm0.
    destruct Hb3 as [->|Hb3]; [by rewrite Z.mul_0_l, Z.add_0_r|].
    eapply unmapped_skip; [done|nia|done]. }
  cbn [xlat_tables_unmap_region]. wp_steps. unfold id. apply wp_assert.
  { rewrite (proj2 (Z.leb_le _ _)), (proj2 (Z.leb_le L _)) by (unfold XLAT_TABLE_LEVEL_MAX; lia). done. }
  wp_steps. rewrite Hidx, Hstart.
  replace (Z.to_nat (entries_of c p - k)) with (S (Z.to_nat (entries_of c p - k - 1))) by lia.
  eapply wp_mono; [eapply wp_unmap_loop; try done; [|lia|lia]| |done].
  - intros HL3 x i c1 lab1 Hwf1 Hi Hmx Htx Hr1.
    pose proof (IH (L + 1) x (Sub i) c1 lab1 eq_refl Hwf1 Hi) as Hsub. cbn [entries_of] in Hsub.
    apply Hsub; [|done|done]. by rewrite <- blk_next by lia.
  - intros [] c1 [lab1 Hm1]. destruct p as [|i].
    + cbn in Hp. injection Hp as <- <-. rewrite Z.ltb_irrefl. apply wp_ret. by exists c1, lab1.
    + destruct (wf_lab _ _ _ _ _ Hwf _ _ _ Hp) as (Hlt & _). rewrite (proj2 (Z.ltb_lt _ _)) by lia.
      cbn [when]. eapply wp_exact; [|by exists c1, lab1].
      eapply dec_count_run; [done|apply Hm1|by apply (unmapped_self _ _ _ _ _ _ _ _ Hm1 Hp)].
Qed.
End Unmap.
