(* ===== verification/XlatRegions.v ===== *)
(** * Translation tables: the array of regions

    The array holds the regions in the order of their ends, and of their sizes
    where the ends are equal; regions are apart, or one lies in the other with
    the same offset between virtual and physical addresses. *)

From stdpp Require Import list_numbers sorting.
From S2P Require Import Prelude XlatDefs XlatCore XlatWalk XlatDesc XlatMap.
#[local] Open Scope cmd_scope.

(** ** Regions as ranges *)

(** The fields are C integers. *)
Definition region_typed (mm : mmap_region) : Prop :=
  0 <= base_pa mm < 2 ^ 64 /\ 0 <= base_va mm < 2 ^ 64 /\ 0 <= size mm < 2 ^ 64 /\
  0 <= attr mm < 2 ^ 32 /\ 0 <= granularity mm < 2 ^ 64.

Definition va_top (mm : mmap_region) : Z := base_va mm + size mm.
Definition pa_top (mm : mmap_region) : Z := base_pa mm + size mm.

(** A region within the address spaces. *)
Record region_fits (va_max pa_max : Z) (mm : mmap_region) : Prop := {
  fit_size : 0 < size mm;
  fit_va : 0 <= base_va mm /\ va_top mm <= va_max + 1;
  fit_pa : 0 <= base_pa mm /\ pa_top mm <= pa_max + 1;
  fit_page_va : base_va mm mod 4096 = 0;
  fit_page_pa : base_pa mm mod 4096 = 0;
  fit_page_size : size mm mod 4096 = 0;
  fit_gran : granularity mm = blk 1 \/ granularity mm = blk 2 \/ granularity mm = blk 3
}.

Definition nested (r s : mmap_region) : Prop := inside s (base_va r) (size r).
Definition va_apart (r s : mmap_region) : Prop := va_top r <= base_va s \/ va_top s <= base_va r.
Definition pa_apart (r s : mmap_region) : Prop := pa_top r <= base_pa s \/ pa_top s <= base_pa r.

(** Two regions that may be in the array together. *)
Definition compatible `{XlatConfig} (r s : mmap_region) : Prop :=
  if decide (nested r s \/ nested s r) then
    (PLAT_XLAT_TABLES_DYNAMIC = true ->
       is_set (attr r) MT_DYNAMIC = false /\ is_set (attr s) MT_DYNAMIC = false) /\
    base_va s - base_pa s = base_va r - base_pa r /\
    ~ (base_va r = base_va s /\ size r = size s)
  else va_apart r s /\ pa_apart r s.

Section Regions.
Context `{XlatConfig}.
Implicit Types (c : xlat_ctx) (r s mm : mmap_region) (rs : list mmap_region).

#[export] Instance compatible_dec r s : Decision (compatible r s).
Proof. unfold compatible, va_apart, pa_apart. destruct (decide _); apply _. Defined.

Lemma compatible_sym r s : compatible r s -> compatible s r.
Proof.
  unfold compatible. destruct (decide (nested r s \/ nested s r)) as [Hn|Hn].
  - rewrite decide_True by tauto. intros (Hd & Ho & Hne). split_and!; [|lia|lia].
    intros Hb. by destruct (Hd Hb).
  - rewrite decide_False by tauto. unfold va_apart, pa_apart. lia.
Qed.

Lemma fits_end_va va_max pa_max mm :
  region_fits va_max pa_max mm -> va_max < 2 ^ 64 -> region_end_va mm = va_top mm - 1.
Proof. intros [? ? ? ? ? ? ?] ?. unfold region_end_va, va_top in *. apply u64_small. lia. Qed.

Lemma fits_end_pa va_max pa_max mm :
  region_fits va_max pa_max mm -> pa_max < 2 ^ 64 -> region_end_pa mm = pa_top mm - 1.
Proof. intros [? ? ? ? ? ? ?] ?. unfold region_end_pa, pa_top in *. apply u64_small. lia. Qed.

Lemma u64_inj x y : - 2 ^ 63 <= x < 2 ^ 63 -> - 2 ^ 63 <= y < 2 ^ 63 -> u64 x = u64 y <-> x = y.
Proof.
  intros Hx Hy. split; [|by intros ->]. unfold u64. intros He.
  pose proof (Z.div_mod x (2 ^ 64)). pose proof (Z.div_mod y (2 ^ 64)).
  assert (x - y = 2 ^ 64 * (x / 2 ^ 64 - y / 2 ^ 64)) by lia. nia.
Qed.

(** The code's test of a pair is [compatible]. *)
Lemma overlap_refused_spec va_max pa_max r s :
  va_max < 2 ^ 48 -> pa_max < 2 ^ 48 -> region_fits va_max pa_max r -> region_fits va_max pa_max s ->
  overlap_refused r s = false <-> compatible r s.
Proof.
  intros Hva Hpa Hr Hs. unfold overlap_refused.
  assert (va_max < 2 ^ 64 /\ pa_max < 2 ^ 64) as [Hv Hp] by lia.
  rewrite (fits_end_va _ _ _ Hr Hv), (fits_end_va _ _ _ Hs Hv).
  rewrite (fits_end_pa _ _ _ Hr Hp), (fits_end_pa _ _ _ Hs Hp).
  destruct Hr as [Hr1 Hr2 Hr3 _ _ _ _], Hs as [Hs1 Hs2 Hs3 _ _ _ _].
  unfold va_top, pa_top in *.
  assert (((base_va s <=? base_va r) && (base_va r + size r - 1 <=? base_va s + size s - 1))
     || ((base_va r <=? base_va s) && (base_va s + size s - 1 <=? base_va r + size r - 1))
     = bool_decide (nested r s \/ nested s r)) as ->.
  { apply eq_true_iff_eq. rewrite bool_decide_eq_true, orb_true_iff, !andb_true_iff, !Z.leb_le.
    unfold nested, inside. lia. }
  unfold compatible. case_bool_decide as Hn; [rewrite decide_True by done|rewrite decide_False by done].
  - rewrite !orb_false_iff, negb_false_iff, Z.eqb_eq, u64_inj by lia.
    rewrite !andb_false_iff, orb_false_iff, !Z.eqb_neq.
    assert (~ (base_va r = base_va s /\ size r = size s) <-> base_va r <> base_va s \/ size r <> size s)
      as -> by lia.
    destruct PLAT_XLAT_TABLES_DYNAMIC; intuition congruence.
  - rewrite orb_false_iff, !negb_false_iff, !orb_true_iff, !Z.ltb_lt.
    unfold va_apart, pa_apart, va_top, pa_top. lia.
Qed.

(** ** The array *)

(** The order of the array. *)
Definition before (r s : mmap_region) : Prop :=
  va_top r < va_top s \/ (va_top r = va_top s /\ size r <= size s).

(** The array holds the regions [rs] and then entries that are empty. *)
Record regions_wf (c : xlat_ctx) (rs : list mmap_region) : Prop := {
  rw_mmap : exists zs, mmap c = rs ++ zs /\ zs <> [] /\ Forall (fun r => size r = 0) zs;
  rw_len : Z.of_nat (length (mmap c)) = mmap_num c + 1 /\ 1 <= mmap_num c;
  rw_fits : Forall (region_fits (va_max_address c) (pa_max_address c)) rs;
  rw_pairs : StronglySorted (fun r s => before r s /\ compatible r s) rs;
  rw_space : 0 <= va_max_address c < 2 ^ 48 /\ 0 <= pa_max_address c < 2 ^ 48;
  rw_max : 0 <= max_va c <= va_max_address c /\ 0 <= max_pa c <= pa_max_address c
}.

Lemma fits_nonzero va_max pa_max rs :
  Forall (region_fits va_max pa_max) rs -> Forall (fun r => size r <> 0) rs.
Proof. intros Hf. eapply Forall_impl; [exact Hf|]. intros r [? ? ? ? ? ? ?]. lia. Qed.

(** A scan of the array stops in the regions or at the first empty entry. *)
Lemma skip_while_spec f rs zs i :
  (forall z, z ∈ zs -> f z = false) -> zs <> [] ->
  exists l1 l2, rs = l1 ++ l2 /\ skip_while f (rs ++ zs) i = Some (i + Z.of_nat (length l1)) /\
    Forall (fun r => f r = true) l1 /\ (forall r l, l2 = r :: l -> f r = false).
Proof.
  intros Hz Hne. revert i. induction rs as [|r rs IH]; intros i.
  - exists [], []. destruct zs as [|z zs]; [done|]. cbn [app skip_while].
    rewrite (Hz z) by apply list_elem_of_here. split_and!; [done|f_equal; cbn; lia|done|done].
  - cbn [app skip_while]. destruct (f r) eqn:Hf.
    + destruct (IH (i + 1)) as (l1 & l2 & -> & Hs & Ht & Hh). exists (r :: l1), l2.
      split_and!; [done|rewrite Hs; f_equal; cbn [length]; lia|by constructor|done].
    + exists [], (r :: rs). split_and!; [done|f_equal; cbn; lia|done|]. by intros ? ? [= -> ->].
Qed.

(** *** The checks *)

(** [mmap_add_region_check] in unbounded arithmetic. *)
Definition check_spec (c : xlat_ctx) (rs : list mmap_region) (mm : mmap_region) : Z :=
  if negb ((base_pa mm mod 4096 =? 0) && (base_va mm mod 4096 =? 0) && (size mm mod 4096 =? 0) &&
           ((granularity mm =? blk 1) || (granularity mm =? blk 2) || (granularity mm =? blk 3)))
  then - EINVAL
  else if negb ((va_top mm <=? va_max_address c + 1) && (pa_top mm <=? pa_max_address c + 1))
  then - ERANGE
  else if Z.of_nat (length rs) =? mmap_num c then - ENOMEM
  else if negb (forallb (fun s => bool_decide (compatible mm s)) rs) then - EPERM
  else 0.

Lemma page_aligned_mod x : IS_PAGE_ALIGNED x = (x mod 4096 =? 0).
Proof. unfold IS_PAGE_ALIGNED. change PAGE_SIZE_MASK with (Z.ones 12). by rewrite Z.land_ones. Qed.

Lemma overlaps_loop_run mm rs zs c :
  va_max_address c < 2 ^ 48 -> pa_max_address c < 2 ^ 48 ->
  region_fits (va_max_address c) (pa_max_address c) mm ->
  Forall (region_fits (va_max_address c) (pa_max_address c)) rs ->
  Forall (fun r => size r = 0) zs -> zs <> [] ->
  overlaps_loop mm (rs ++ zs) c =
    Done (if forallb (fun s => bool_decide (compatible mm s)) rs then 0 else - EPERM) c.
Proof.
  intros Hva Hpa Hmm Hrs Hzs Hne. induction Hrs as [|r rs Hr Hrs IH]; cbn [app overlaps_loop forallb].
  - destruct Hzs as [|z zs Hz]; [done|]. cbn [overlaps_loop]. by rewrite Hz.
  - rewrite (proj2 (Z.eqb_neq (size r) 0)) by (pose proof (fit_size _ _ _ Hr); lia).
    pose proof (overlap_refused_spec _ _ _ _ Hva Hpa Hmm Hr) as Hspec.
    destruct (overlap_refused mm r) eqn:Ho.
    + rewrite bool_decide_eq_false_2; [done|]. intros Hc. by apply Hspec in Hc.
    + rewrite bool_decide_eq_true_2 by (by apply Hspec). exact IH.
Qed.

(** The sum of two 64-bit numbers, less one, is below the first exactly when it
    wraps around. *)
Lemma end_wraps b n top :
  0 <= b < 2 ^ 64 -> 0 < n < 2 ^ 64 -> top < 2 ^ 64 ->
  (u64 (b + n - 1) <? b) || (top <? u64 (b + n - 1)) = negb (b + n <=? top + 1).
Proof.
  intros Hb Hn Ht. apply eq_true_iff_eq. rewrite orb_true_iff, negb_true_iff, !Z.ltb_lt, Z.leb_gt.
  unfold u64. destruct (Z.lt_ge_cases (b + n - 1) (2 ^ 64)) as [Hlt|Hge].
  - rewrite Z.mod_small by lia. lia.
  - rewrite (Z.mod_eq (b + n - 1)) by lia.
    assert ((b + n - 1) / 2 ^ 64 = 1) as -> by (symmetry; apply Z.div_unique with (b + n - 1 - 2 ^ 64); lia).
    lia.
Qed.

Lemma add_region_check_run mm c rs :
  regions_wf c rs -> region_typed mm -> 0 < size mm ->
  mmap_add_region_check mm c = Done (check_spec c rs mm) c.
Proof.
  intros [(zs & Hmm & Hne & Hzs) [Hlen Hnum] Hfits _ [Hva Hpa] _] (Htp & Htv & Hts & _ & _) Hsz.
  unfold mmap_add_region_check, check_spec, bind, gets, id. rewrite !page_aligned_mod.
  set (g := (granularity mm =? blk 1) || (granularity mm =? blk 2) || (granularity mm =? blk 3)).
  assert (negb (granularity mm =? blk 1) && negb (granularity mm =? blk 2) &&
          negb (granularity mm =? blk 3) = negb g) as ->.
  { unfold g. by destruct (_ =? blk 1), (_ =? blk 2), (_ =? blk 3). }
  destruct (base_pa mm mod 4096 =? 0) eqn:Ap, (base_va mm mod 4096 =? 0) eqn:Av,
    (size mm mod 4096 =? 0) eqn:As, g eqn:G; cbn [negb orb andb]; try done.
  pose proof (end_wraps (base_va mm) (size mm) (va_max_address c) Htv ltac:(lia) ltac:(lia)) as Wv.
  pose proof (end_wraps (base_pa mm) (size mm) (pa_max_address c) Htp ltac:(lia) ltac:(lia)) as Wp.
  fold (region_end_va mm) (va_top mm) in Wv. fold (region_end_pa mm) (pa_top mm) in Wp.
  rewrite negb_andb, <- Wv, <- Wp.
  destruct (region_end_pa mm <? base_pa mm), (region_end_va mm <? base_va mm); cbn [orb] in *;
    rewrite ?orb_true_r; try done.
  destruct (va_max_address c <? region_end_va mm); cbn [orb]; [done|].
  destruct (pa_max_address c <? region_end_pa mm); cbn [orb]; [done|].
  symmetry in Wv, Wp. apply negb_false_iff, Z.leb_le in Wv, Wp. rewrite Z.eqb_eq in *.
  assert (region_fits (va_max_address c) (pa_max_address c) mm) as Hf.
  { constructor; try done; try lia. unfold g in G. rewrite !orb_true_iff, !Z.eqb_eq in G. tauto. }
  destruct (proj2 (zlookup_lt_is_Some (mmap c) (mmap_num c - 1))) as [r Hr]; [lia|].
  rewrite Hr. cbn [deref ret]. rewrite Hmm in Hlen, Hr. rewrite length_app in Hlen.
  assert (zs <> [] -> 1 <= Z.of_nat (length zs)) as Hz1 by (destruct zs; [done|cbn [length]; lia]).
  specialize (Hz1 Hne). rewrite zlookup_to_nat in Hr by lia.
  destruct (Z.eqb_spec (Z.of_nat (length rs)) (mmap_num c)) as [Hfull|Hfree].
  - rewrite lookup_app_l in Hr by lia.
    pose proof (proj1 (Forall_lookup _ _) (fits_nonzero _ _ _ Hfits) _ _ Hr) as Hnz.
    cbv beta in Hnz. by rewrite (proj2 (Z.eqb_neq (size r) 0)).
  - rewrite lookup_app_r in Hr by lia.
    pose proof (proj1 (Forall_lookup _ _) Hzs _ _ Hr) as Hz0. cbv beta in Hz0.
    rewrite Hz0. cbn [Z.eqb negb]. rewrite Hmm, overlaps_loop_run by (done || lia).
    by destruct (forallb _ rs).
Qed.

(** *** Adding a region *)

Lemma sorted_tail_before mm l1 r l2 :
  StronglySorted (fun r s => before r s /\ compatible r s) (l1 ++ r :: l2) ->
  before mm r -> Forall (before mm) (r :: l2).
Proof.
  intros Hs Hb. constructor; [done|]. apply StronglySorted_app_1_r in Hs.
  apply StronglySorted_inv in Hs as [_ Hall]. eapply Forall_impl; [exact Hall|].
  intros s [Hrs _]. unfold before in *. lia.
Qed.

(** Where the two loops stop. *)
Lemma insert_pos_spec c rs mm :
  regions_wf c rs -> region_fits (va_max_address c) (pa_max_address c) mm ->
  exists l1 l2, rs = l1 ++ l2 /\ insert_pos mm (mmap c) = Some (Z.of_nat (length l1)) /\
    Forall (fun r => before r mm) l1 /\ Forall (before mm) l2.
Proof.
  intros [(zs & Hmm & Hne & Hzs) _ Hfits Hsort [Hva Hpa] _] Hf. unfold insert_pos. rewrite Hmm.
  set (f1 := fun r => (region_end_va r <? region_end_va mm) && negb (size r =? 0)).
  set (f2 := fun r => (region_end_va r =? region_end_va mm) && negb (size r =? 0) && (size r <? size mm)).
  assert (forall z, z ∈ zs -> size z = 0) as Hz by (by apply Forall_forall).
  assert (va_max_address c < 2 ^ 64) as Hva64 by lia.
  destruct (skip_while_spec f1 rs zs 0) as (a & b & -> & H1 & Ha & Hb); [|done|].
  { intros z Hin. unfold f1. by rewrite (Hz z Hin), andb_false_r. }
  rewrite H1. cbn [mbind option_bind]. rewrite Z.add_0_l, Nat2Z.id, <- app_assoc, drop_app_length.
  destruct (skip_while_spec f2 b zs (Z.of_nat (length a))) as (b1 & b2 & -> & H2 & Hb1 & Hb2); [|done|].
  { intros z Hin. unfold f2. by rewrite (Hz z Hin), andb_false_r. }
  rewrite H2. exists (a ++ b1), b2. rewrite <- app_assoc. rewrite app_assoc in Hfits, Hsort.
  apply Forall_app in Hfits as [[Hfa Hfb1]%Forall_app Hfb2].
  pose proof (fits_end_va _ _ _ Hf Hva64) as Emm.
  assert (forall r, region_fits (va_max_address c) (pa_max_address c) r ->
            region_end_va r = va_top r - 1 /\ (size r =? 0) = false) as Hend.
  { intros r Hr. split; [by eapply fits_end_va|]. apply Z.eqb_neq. pose proof (fit_size _ _ _ Hr). lia. }
  split_and!; [done|by rewrite length_app, Nat2Z.inj_add| |].
  - apply Forall_app. split; apply Forall_forall; intros r Hr.
    + pose proof (proj1 (Forall_forall _ _) Ha r Hr) as Hf1. unfold f1 in Hf1. cbv beta in Hf1.
      destruct (Hend r (proj1 (Forall_forall _ _) Hfa r Hr)) as [Er Hs0]. rewrite Er, Emm in Hf1.
      apply andb_true_iff in Hf1 as [Hlt%Z.ltb_lt _]. left. lia.
    + pose proof (proj1 (Forall_forall _ _) Hb1 r Hr) as Hf2. unfold f2 in Hf2. cbv beta in Hf2.
      destruct (Hend r (proj1 (Forall_forall _ _) Hfb1 r Hr)) as [Er Hs0]. rewrite Er, Emm in Hf2.
      rewrite !andb_true_iff, Z.eqb_eq, Z.ltb_lt in Hf2. right. lia.
  - destruct b2 as [|r b2]; [constructor|]. eapply sorted_tail_before; [exact Hsort|].
    specialize (Hb2 r b2 eq_refl). apply Forall_inv in Hfb2.
    destruct (Hend r Hfb2) as [Er Hs0]. unfold f2 in Hb2. cbv beta in Hb2. rewrite Er, Emm, Hs0 in Hb2.
    assert (va_top mm <= va_top r) as Hle.
    { destruct b1 as [|r1 b1].
      - specialize (Hb r b2 eq_refl). unfold f1 in Hb. cbv beta in Hb. rewrite Er, Emm, Hs0 in Hb.
        rewrite andb_true_r in Hb. apply Z.ltb_ge in Hb. lia.
      - pose proof (Forall_inv Hb1) as Hf2. cbv beta in Hf2. apply Forall_inv in Hfb1.
        destruct (Hend r1 Hfb1) as [Er1 _]. unfold f2 in Hf2. rewrite !andb_true_iff, Z.eqb_eq, Er1, Emm in Hf2.
        rewrite <- app_assoc in Hsort. apply StronglySorted_app_1_r in Hsort.
        apply StronglySorted_inv in Hsort as [_ Hall].
        apply Forall_app in Hall as [_ [[Hbr _] _]%Forall_cons]. unfold before in Hbr. lia. }
    unfold before. cbn [negb] in Hb2. rewrite andb_true_r in Hb2.
    apply andb_false_iff in Hb2 as [Hb2%Z.eqb_neq|Hb2%Z.ltb_ge]; lia.
Qed.

(** The array stays sorted and its regions compatible. *)
Lemma regions_wf_insert c l1 l2 zs mm mpa mva :
  regions_wf c (l1 ++ l2) -> region_fits (va_max_address c) (pa_max_address c) mm ->
  Forall (fun r => before r mm) l1 -> Forall (before mm) l2 -> Forall (compatible mm) (l1 ++ l2) ->
  Forall (fun r => size r = 0) zs -> zs <> [] ->
  Z.of_nat (length ((l1 ++ mm :: l2) ++ zs)) = mmap_num c + 1 ->
  0 <= mva <= va_max_address c -> 0 <= mpa <= pa_max_address c ->
  regions_wf (set_regions ((l1 ++ mm :: l2) ++ zs) mpa mva c) (l1 ++ mm :: l2).
Proof.
  intros Hwf Hf Hb1 Hb2 Hcomp Hzs Hne Hlen Hmva Hmpa.
  pose proof (rw_fits _ _ Hwf) as Hfits. apply Forall_app in Hfits as [Hf1 Hf2].
  apply Forall_app in Hcomp as [Hc1 Hc2].
  constructor; cbn.
  - by exists zs.
  - split; [done|]. apply (rw_len _ _ Hwf).
  - apply Forall_app. split; [done|]. by constructor.
  - pose proof (rw_pairs _ _ Hwf) as Hs.
    apply StronglySorted_app_2; [|by apply StronglySorted_app_1_l in Hs|].
    + intros r s Hr Hs'. apply elem_of_cons in Hs' as [->|Hs'].
      * split; [by apply (proj1 (Forall_forall _ _) Hb1)|].
        by apply compatible_sym, (proj1 (Forall_forall _ _) Hc1).
      * by eapply StronglySorted_app_1_elem_of in Hs.
    + constructor; [by apply StronglySorted_app_1_r in Hs|]. apply Forall_forall. intros s Hin.
      split; [by apply (proj1 (Forall_forall _ _) Hb2)|by apply (proj1 (Forall_forall _ _) Hc2)].
  - apply Hwf.
  - done.
Qed.

(** Making room at the front of [l2], over the elements up to the end of [l2]. *)
Lemma memmove_up (l1 l2 l3 : list mmap_region) z :
  exists x, memmove_regions (Z.of_nat (length l1) + 1) (Z.of_nat (length l1)) (Z.of_nat (length l2))
      (l1 ++ l2 ++ z :: l3) = Some (l1 ++ x :: l2 ++ l3).
Proof.
  unfold memmove_regions, zslice.
  destruct (l2 ++ z :: l3) as [|x l] eqn:Hl; [by destruct l2|]. exists x. rewrite <- Hl.
  rewrite !length_app. cbn [length].
  rewrite !(proj2 (Z.leb_le _ _)) by lia. cbn [andb mbind option_bind]. rewrite !Nat2Z.id. f_equal.
  rewrite drop_app_length, take_app_length.
  replace (Z.to_nat (Z.of_nat (length l1) + 1)) with (length l1 + 1)%nat by lia.
  replace (Z.to_nat (Z.of_nat (length l1) + 1 + Z.of_nat (length l2)))
    with (length l1 + (length l2 + 1))%nat by lia.
  rewrite take_app_add, drop_app_add, drop_app_add, Hl. cbn [take drop]. by rewrite <- app_assoc.
Qed.

(** Closing the gap at the front of [x :: l]. *)
Lemma memmove_down (l1 l : list mmap_region) x z :
  memmove_regions (Z.of_nat (length l1)) (Z.of_nat (length l1) + 1) (Z.of_nat (length l) + 1)
    (l1 ++ x :: l ++ [z]) = Some (l1 ++ (l ++ [z]) ++ [z]).
Proof.
  unfold memmove_regions, zslice. rewrite !length_app. cbn [length]. rewrite length_app. cbn [length].
  rewrite !(proj2 (Z.leb_le _ _)) by lia. cbn [andb mbind option_bind]. f_equal.
  replace (Z.to_nat (Z.of_nat (length l1) + 1)) with (length l1 + 1)%nat by lia.
  replace (Z.to_nat (Z.of_nat (length l) + 1)) with (length (l ++ [z])) by (rewrite length_app; cbn; lia).
  replace (Z.to_nat (Z.of_nat (length l1) + (Z.of_nat (length l) + 1)))
    with (length l1 + (length l + 1))%nat by lia.
  rewrite Nat2Z.id, drop_app_add, drop_app_add, take_app_length. cbn [drop]. f_equal.
  rewrite take_ge by done. f_equal.
  replace (length l + 1)%nat with (S (length l)) by lia. cbn [drop]. apply drop_app_length.
Qed.

Lemma zupdate_middle (l1 l2 : list mmap_region) x y :
  zupdate (l1 ++ x :: l2) (Z.of_nat (length l1)) y = l1 ++ y :: l2.
Proof.
  unfold zupdate. rewrite (proj2 (in_range_spec _ _)) by (rewrite length_app; cbn [length]; lia).
  rewrite Nat2Z.id. rewrite insert_app_r_alt by lia. by rewrite Nat.sub_diag.
Qed.

Definition raised (cur new : Z) : Z := if cur <? new then new else cur.

(** The context with one more region. *)
Definition with_region (ms : list mmap_region) (mm : mmap_region) (c : xlat_ctx) : xlat_ctx :=
  set_regions ms (raised (max_pa c) (region_end_pa mm)) (raised (max_va c) (region_end_va mm)) c.

Lemma check_spec_ok c rs mm :
  regions_wf c rs -> region_typed mm -> 0 < size mm -> check_spec c rs mm = 0 ->
  region_fits (va_max_address c) (pa_max_address c) mm /\
  Z.of_nat (length rs) < mmap_num c /\ Forall (compatible mm) rs.
Proof.
  intros Hwf (Htp & Htv & _) Hsz. unfold check_spec.
  destruct (negb _) eqn:E1; [done|]. destruct (negb ((va_top mm <=? _) && _)) eqn:E2; [done|].
  destruct (_ =? mmap_num c) eqn:E3; [done|]. destruct (negb (forallb _ _)) eqn:E4; [done|]. intros _.
  apply negb_false_iff in E1, E2, E4.
  rewrite !andb_true_iff, !orb_true_iff, !Z.eqb_eq in E1. rewrite andb_true_iff, !Z.leb_le in E2.
  apply Z.eqb_neq in E3. split; [|split].
  - constructor; (lia || tauto).
  - destruct (rw_mmap _ _ Hwf) as (zs & Hm & Hne & _). destruct (rw_len _ _ Hwf) as [Hl _].
    rewrite Hm, length_app in Hl. destruct zs; [done|]. cbn [length] in Hl. lia.
  - apply Forall_forall. intros r Hr. rewrite forallb_forall in E4.
    apply list_elem_of_In in Hr. apply E4, bool_decide_eq_true in Hr. done.
Qed.

Lemma check_spec_zero c rs mm :
  region_fits (va_max_address c) (pa_max_address c) mm -> Z.of_nat (length rs) < mmap_num c ->
  Forall (compatible mm) rs -> check_spec c rs mm = 0.
Proof.
  intros [? ? ? P1 P2 P3 Hg] Hroom Hc. unfold check_spec. rewrite P1, P2, P3.
  assert ((granularity mm =? blk 1) || (granularity mm =? blk 2) || (granularity mm =? blk 3) = true) as ->
    by (rewrite !orb_true_iff, !Z.eqb_eq; tauto).
  rewrite !(proj2 (Z.leb_le _ _)), (proj2 (Z.eqb_neq (Z.of_nat _) _)) by lia.
  enough (forallb (fun s => bool_decide (compatible mm s)) rs = true) as -> by done.
  apply forallb_forall. intros s Hs%list_elem_of_In. apply bool_decide_eq_true.
  by apply (proj1 (Forall_forall _ _) Hc).
Qed.

Lemma raised_bounds c rs mm :
  regions_wf c rs -> region_fits (va_max_address c) (pa_max_address c) mm ->
  0 <= raised (max_va c) (region_end_va mm) <= va_max_address c /\
  0 <= raised (max_pa c) (region_end_pa mm) <= pa_max_address c.
Proof.
  intros Hwf Hf. destruct (rw_space _ _ Hwf), (rw_max _ _ Hwf). unfold raised.
  rewrite (fits_end_va _ _ _ Hf), (fits_end_pa _ _ _ Hf) by lia.
  destruct Hf as [? ? ? ? ? ? ?]. unfold va_top, pa_top in *.
  split; destruct (_ <? _) eqn:E; try (rewrite Z.ltb_lt in E); lia.
Qed.

(** [mmap_add_region_ctx] puts a region that passes the checks at its place. *)
Lemma wp_add_region c rs mm :
  regions_wf c rs -> region_typed mm -> initialized c = false ->
  wp (mmap_add_region_ctx mm)
    (fun _ c' => (size mm = 0 /\ c' = c) \/
       (0 < size mm /\ check_spec c rs mm = 0 /\ exists l1 l2 zs, rs = l1 ++ l2 /\
        c' = with_region ((l1 ++ mm :: l2) ++ zs) mm c /\ regions_wf c' (l1 ++ mm :: l2)))
    (fun w c' => w = AssertFailed /\ check_spec c rs mm <> 0 /\ c' = c) c.
Proof.
  intros Hwf Ht Hi. unfold mmap_add_region_ctx.
  destruct (Z.eqb_spec (size mm) 0) as [Hz|Hnz]; [apply wp_ret; by left|].
  assert (0 < size mm) as Hsz by (unfold region_typed in Ht; lia).
  wp_steps. unfold id. apply wp_assert; [by rewrite Hi|]. wp_step.
  eapply wp_exact; [by apply add_region_check_run|].
  destruct (Z.eqb_spec (check_spec c rs mm) 0) as [Hc|Hc]; cbn [negb]; [|done].
  destruct (check_spec_ok _ _ _ Hwf Ht Hsz Hc) as (Hf & Hroom & Hcomp).
  destruct (insert_pos_spec _ _ _ Hwf Hf) as (l1 & l2 & -> & Hpos & Hb1 & Hb2).
  pose proof Hwf as [(zs & Hmm & Hne & Hzs) [Hlen Hnum] Hfits _ _ _].
  rewrite Hmm, length_app in Hlen. destruct zs as [|z [|z' zs]]; cbn [length] in Hlen; [done|lia|].
  destruct (memmove_up l1 l2 (z' :: zs) z) as [x Hmove].
  apply Forall_cons in Hzs as [Hz0 Hzs].
  wp_step. eapply wp_deref; [exact Hpos|].
  (* the end of the regions *)
  assert (skip_while (fun r => negb (size r =? 0))
            (take (Z.to_nat (mmap_num c)) (mmap c) ++ [no_region]) 0 =
          Some (Z.of_nat (length (l1 ++ l2)))) as Hlast.
  { rewrite Hmm, take_app, take_ge by lia. rewrite <- app_assoc.
    match goal with |- skip_while ?f (_ ++ ?t) 0 = _ => set (tl := t) end.
    destruct (skip_while_spec (fun r => negb (size r =? 0)) (l1 ++ l2) tl 0)
      as (a & b & Hab & Hs & _ & Hb); [|unfold tl; by destruct (take _ _)|].
    - intros y Hy. apply elem_of_app in Hy as [Hy|Hy%list_elem_of_singleton]; [|by subst].
      assert (size y = 0) as ->; [|done]. apply (elem_of_take _ _ _) in Hy as (j & Hj & _).
      apply (proj1 (Forall_lookup (fun r => size r = 0) (z :: z' :: zs))) with j; [by constructor|done].
    - rewrite Hs. destruct b as [|r b]; [by rewrite app_nil_r in Hab; rewrite Hab|].
      specialize (Hb r b eq_refl). cbv beta in Hb. apply negb_false_iff, Z.eqb_eq in Hb.
      pose proof (fits_nonzero _ _ _ Hfits) as Hnz'. rewrite Hab in Hnz'.
      apply Forall_app in Hnz' as [_ [? _]%Forall_cons]. done. }
  wp_step. eapply wp_deref; [exact Hlast|].
  wp_step. eapply wp_deref.
  { rewrite Hmm, zlookup_of_nat, lookup_app_r, Nat.sub_diag by done. done. }
  wp_step. apply wp_assert; [by rewrite Hz0|]. wp_step. eapply wp_deref.
  { rewrite length_app, Nat2Z.inj_add.
    replace (Z.of_nat (length l1) + Z.of_nat (length l2) - Z.of_nat (length l1))
      with (Z.of_nat (length l2)) by lia. rewrite Hmm, <- app_assoc. exact Hmove. }
  unfold put_regions, raise_max. wp_steps.
  assert (exists y, (l1 ++ x :: l2 ++ z' :: zs).[mmap_num c] = Some y /\ size y = 0) as (y & Hy & Hy0).
  { rewrite zlookup_to_nat by lia. rewrite length_app in Hlen.
    rewrite lookup_app_r by lia. rewrite lookup_cons_ne_0 by lia. rewrite lookup_app_r by lia.
    match goal with |- exists y, (z' :: zs) !! ?n = _ /\ _ =>
      destruct (lookup_lt_is_Some_2 (z' :: zs) n) as [y Hy]; [cbn [length]; lia|] end.
    exists y. split; [done|]. by apply (proj1 (Forall_lookup _ _) Hzs _ _ Hy). }
  eapply wp_deref; [exact Hy|]. wp_steps. apply wp_assert; [by rewrite Hy0|]. wp_steps.
  right. split_and!; [done|done|]. exists l1, l2, (z' :: zs). split; [done|].
  rewrite zupdate_middle. replace (l1 ++ mm :: l2 ++ z' :: zs) with ((l1 ++ mm :: l2) ++ z' :: zs)
    by (by rewrite <- app_assoc). split; [done|].
  destruct (raised_bounds _ _ _ Hwf Hf).
  change (regions_wf (with_region ((l1 ++ mm :: l2) ++ z' :: zs) mm c) (l1 ++ mm :: l2)).
  apply regions_wf_insert; try done.
  rewrite length_app in Hlen. rewrite !length_app. cbn [length]. lia.
Qed.

(** C10. [mmap_add_region_check] is the reference check [check_spec], error
    code by error code, and accepts exactly the regions that are aligned and of
    a supported granularity, lie inside both address spaces, find room in the
    array and are compatible with every region already in it: apart from it in
    both spaces, or one a proper part of the other with the same offset between
    virtual and physical addresses and neither dynamic. *)
Theorem region_check_exact c rs mm :
  regions_wf c rs -> region_typed mm -> 0 < size mm ->
  exists e, mmap_add_region_check mm c = Done e c /\ e = check_spec c rs mm /\
    (e = 0 <-> region_fits (va_max_address c) (pa_max_address c) mm /\
               Z.of_nat (length rs) < mmap_num c /\ Forall (compatible mm) rs).
Proof.
  intros Hwf Ht Hsz. exists (check_spec c rs mm). split_and!; [by apply add_region_check_run|done|].
  split; [by apply check_spec_ok|]. intros (Hf & Hroom & Hc). by apply check_spec_zero.
Qed.
End Regions.
