(* ===== verification/XlatInit.v ===== *)
(** * Translation tables: the tables hold the regions

    The tables translate an address by the smallest region that contains it.
    This is what [init_xlat_tables_ctx] establishes, and what dynamic regions
    keep. *)

From stdpp Require Import list_numbers sorting.
From S2P Require Import Prelude XlatDefs XlatCore XlatWalk XlatShape XlatDesc XlatMap XlatRegions.
#[local] Open Scope cmd_scope.

Section Hold.
Context `{XlatConfig}.
Implicit Types (c : xlat_ctx) (rs : list mmap_region) (mm : mmap_region).

(** ** The specification of the tables *)

(** [o] is the translation of [va] by the regions [rs]: that of the smallest one
    that contains it. *)
Definition translates_by (regime : Z) (rs : list mmap_region) (va : Z) (o : option (Z * Z)) : Prop :=
  match o with
  | None => forall r, r ∈ rs -> ~ in_region r va
  | Some t => exists r, r ∈ rs /\ in_region r va /\ t = region_result regime r va /\
                forall s, s ∈ rs -> in_region s va -> size r <= size s
  end.

(** Mapped entries lie in a region, empty ones meet none, and the count of a
    table is the number of regions that meet it. *)
Definition in_some (rs : list mmap_region) (x n : Z) : Prop := exists r, r ∈ rs /\ inside r x n.
Definition meets_none (rs : list mmap_region) (x n : Z) : Prop := forall r, r ∈ rs -> ~ meets r x n.
Definition meet_count (rs : list mmap_region) (l b : Z) : Z :=
  Z.of_nat (length (filter (fun r => meets r b (512 * blk l)) rs)).

Definition shape_holds (c : xlat_ctx) (rs : list mmap_region) (lab : labels) : Prop :=
  wf (in_some rs) (meets_none rs) (meet_count rs) c lab.

Definition tables_hold (c : xlat_ctx) (rs : list mmap_region) : Prop :=
  (exists lab, shape_holds c rs lab) /\
  forall va, 0 <= va <= va_max_address c ->
    translates_by (xlat_regime c) rs va
      (walk (levels_from (base_level c)) c Base (base_level c) va).

(** Only the regions count, not their order. *)
#[export] Instance translates_by_perm regime :
  Proper ((≡ₚ) ==> eq ==> eq ==> iff) (translates_by regime).
Proof.
  intros rs rs' Hp va ? <- o ? <-. unfold translates_by. destruct o; by setoid_rewrite Hp.
Qed.

Lemma meet_count_perm rs rs' l b : rs ≡ₚ rs' -> meet_count rs l b = meet_count rs' l b.
Proof. intros Hp. unfold meet_count. by rewrite Hp. Qed.

#[export] Instance tables_hold_perm c : Proper ((≡ₚ) ==> iff) (tables_hold c).
Proof.
  assert (forall rs rs', rs ≡ₚ rs' -> tables_hold c rs -> tables_hold c rs') as Himp.
  { intros rs rs' Hp [[lab Hs] Ht]. split; [|intros va Hva; rewrite <- Hp; by apply Ht].
    exists lab. eapply wf_mono; [exact Hs| | |].
    - intros x l _ (r & Hr & Hi). exists r. by rewrite <- Hp.
    - intros p l b k _ _ Hn r Hr. apply Hn. by rewrite Hp.
    - intros i l b _. by apply meet_count_perm. }
  intros rs rs' Hp. split; apply Himp; [done|by symmetry].
Qed.

Lemma meet_count_zero rs l b :
  meet_count rs l b = 0 <-> meets_none rs b (512 * blk l).
Proof.
  unfold meet_count, meets_none. induction rs as [|r rs IH]; [split; [set_solver|done]|].
  rewrite filter_cons. setoid_rewrite elem_of_cons. case_decide as Hm; cbn [length].
  - split; [lia|]. intros Hn. by destruct (Hn r (or_introl eq_refl)).
  - rewrite IH. split; [|by auto]. intros Hn s [->|?]; auto.
Qed.

(** ** Mapping one more region *)

(** A region that can be mapped after [rs]: each of them is apart from it or
    within it. *)
Definition outer_of (rs : list mmap_region) (mm : mmap_region) : Prop :=
  forall r, r ∈ rs -> va_apart r mm \/ nested r mm.

Lemma fits_region_ok regime va_max pa_max mm :
  va_max < 2 ^ 48 -> pa_max < 2 ^ 48 -> region_fits va_max pa_max mm ->
  is_Some (leaf_attrs regime mm) -> region_ok regime mm.
Proof. intros Hv Hp [? ? ? ? ? ? ?] Ha. unfold va_top, pa_top in *. constructor; (done || lia). Qed.

Lemma meet_count_snoc rs mm l b :
  meet_count (rs ++ [mm]) l b = meet_count rs l b + (if decide (meets mm b (512 * blk l)) then 1 else 0).
Proof.
  unfold meet_count. rewrite filter_app, length_app, filter_cons, filter_nil.
  case_decide; cbn [length]; lia.
Qed.

Lemma translates_by_filled regime rs mm va o :
  outer_of rs mm -> (forall r, r ∈ rs -> 0 < size r) -> translates_by regime rs va o ->
  translates_by regime (rs ++ [mm]) va (filled regime mm (va_top mm) o va).
Proof.
  intros Hout Hpos Ho. unfold filled.
  destruct (decide (in_region mm va /\ va < va_top mm)) as [[Hin _]|Hnin].
  - destruct o as [t|]; cbn [default] in *.
    + destruct Ho as (r & Hr & Hir & -> & Hmin). exists r. split_and!; [set_solver|done|done|].
      intros s [Hs|Hs%list_elem_of_singleton]%elem_of_app His; [by apply Hmin|subst s].
      specialize (Hpos r Hr). destruct (Hout r Hr) as [Ha|Hn].
      * unfold va_apart, va_top, in_region in *. lia.
      * unfold nested, inside in Hn. lia.
    + exists mm. split_and!; [set_solver|done|done|].
      intros s [Hs|Hs%list_elem_of_singleton]%elem_of_app His; [by destruct (Ho s Hs)|subst s; lia].
  - assert (~ in_region mm va) as Hno by (unfold in_region, va_top in *; lia).
    destruct o as [t|]; cbn in *.
    + destruct Ho as (r & Hr & Hir & -> & Hmin). exists r. split_and!; [set_solver|done|done|].
      intros s [Hs|Hs%list_elem_of_singleton]%elem_of_app His; [by apply Hmin|by subst s].
    + intros s [Hs|Hs%list_elem_of_singleton]%elem_of_app; [by apply Ho|by subst s].
Qed.

Lemma wp_map_from_base c rs mm :
  tables_hold c rs -> (forall r, r ∈ rs -> 0 < size r) ->
  va_max_address c < 2 ^ 48 -> pa_max_address c < 2 ^ 48 ->
  region_fits (va_max_address c) (pa_max_address c) mm ->
  is_Some (leaf_attrs (xlat_regime c) mm) -> outer_of rs mm ->
  wp (map_from_base mm)
    (fun e c' => (e = region_end_va mm /\ same_conf c c' /\ tables_hold c' (rs ++ [mm])) \/
       (e <> region_end_va mm /\ PLAT_XLAT_TABLES_DYNAMIC = true /\ no_free c'))
    (fun w c' => PLAT_XLAT_TABLES_DYNAMIC = false /\ w = AssertFailed /\ no_free c') c.
Proof.
  intros [[lab Hs] Ht] Hpos Hva Hpa Hf Ha Hout.
  pose proof (fits_region_ok _ _ _ _ Hva Hpa Hf Ha) as Hok.
  pose proof (wf_geo _ _ _ _ _ Hs) as Hg. pose proof (geo_level _ Hg).
  assert (va_max_address c < 2 ^ 64) as Hv64 by lia.
  pose proof (fits_end_va _ _ _ Hf Hv64) as Hend.
  destruct (fit_va _ _ _ Hf) as [Hb0 Htop]. pose proof (fit_size _ _ _ Hf) as Hsz.
  pose proof (geo_va_max _ Hg) as Hmax.
  assert (table_top mm c Base (base_level c) 0 = va_top mm) as Htt.
  { unfold table_top, region_top. cbn [entries_of]. fold (va_top mm). lia. }
  unfold map_from_base. wp_steps. unfold id.
  eapply wp_mono; [eapply (wp_map_region (xlat_regime c) mm Hok (in_some (rs ++ [mm])) (meets_none rs)
    (meet_count rs)) with (L := base_level c) (B := 0) (p := Base) (lab := lab)| |done].
  - (* mapped entries *)
    intros x n Hin. exists mm. set_solver.
  - intros x n (r & [Hr|Hr%list_elem_of_singleton]%elem_of_app & Hin) Hm; [|by subst].
    unfold inside, meets in *. destruct (Hout r Hr) as [Hap|Hn].
    + unfold va_apart, va_top in Hap. lia.
    + unfold nested, inside in Hn. lia.
  - intros x n y m Hno Hxy Hym r Hr. specialize (Hno r Hr). unfold meets in *. lia.
  - intros x l Hl Hno. apply meet_count_zero. by rewrite <- blk_next by lia.
  - intros l b. unfold meet_count. lia.
  - done.
  - cbn [bump]. eapply wf_mono; [exact Hs| |done|].
    + intros x l _ (r & Hr & Hi). exists r. set_solver.
    + intros i l b Hi. unfold Nv. rewrite decide_False; [lia|].
      destruct (wf_lab _ _ _ _ _ Hs _ _ _ Hi) as (? & _ & ? & _). unfold visited. lia.
  - done.
  - cbn [entries_of]. unfold meets. unfold va_top in Htop. lia.
  - done.
  - intros e c' [[-> [lab' Hm]]|(Hd & Hfree & Hal)]; [left; rewrite Htt in Hm |- *|right].
    + rewrite Hend. pose proof (mp_conf _ _ _ _ _ _ _ _ _ _ _ _ _ Hm) as Hs'. split_and!; [done|done|].
      destruct (same_conf_fields _ _ Hs') as (Hbl & _ & Hvm & _ & _ & Hrg & _).
      assert (forall va, 0 <= va <= va_max_address c ->
        walk (levels_from (base_level c)) c' Base (base_level c) va =
        filled (xlat_regime c) mm (va_top mm) (walk (levels_from (base_level c)) c Base (base_level c) va) va) as Hw.
      { intros va Hva'. apply (mp_walk _ _ _ _ _ _ _ _ _ _ _ _ _ Hm). unfold covers. cbn [entries_of]. lia. }
      pose proof (mp_wf _ _ _ _ _ _ _ _ _ _ _ _ _ Hm) as Hwf'. split.
      * exists lab'. eapply wf_mono; [exact Hwf'|done| |].
        -- intros p l b k Hp Hk Hno r [Hr|Hr%list_elem_of_singleton]%elem_of_app; [by apply Hno|subst r].
           intros Hmeet. destruct (label_level _ _ _ _ _ _ _ _ Hwf' Hp).
           destruct (label_base _ _ _ _ _ _ _ _ Hwf' Hp).
           pose proof (entry_range _ _ _ _ (wf_geo _ _ _ _ _ Hwf') Hk). pose proof (blk_pos l).
           (* an address of the region in the entry *)
           set (va := Z.max (base_va mm) (b + k * blk l)).
           assert (in_region mm va /\ b + k * blk l <= va < b + (k + 1) * blk l) as [Hin Hvk]
             by (unfold in_region, meets, va in *; lia).
           assert (va <= va_max_address c') as Hvm' by (rewrite Hvm; unfold in_region, va_top in *; lia).
           pose proof (walk_empty _ _ _ _ _ _ _ _ _ _ Hwf' Hp Hk Hvk Hvm') as Hnone.
           rewrite Hbl, Hw in Hnone by (unfold in_region in *; lia). unfold filled in Hnone.
           by rewrite decide_True in Hnone by (split; [done|unfold in_region, va_top in *; lia]).
        -- intros i l b Hi. rewrite meet_count_snoc. unfold Nv. f_equal.
           destruct (wf_lab _ _ _ _ _ Hwf' _ _ _ Hi) as (? & _ & ? & _).
           apply decide_ext. unfold visited, meets, va_top. lia.
      * intros va Hva'. rewrite Hbl, Hrg, Hw by lia. apply translates_by_filled; try done.
        apply Ht. lia.
    + split_and!; [|done|done]. rewrite Hend. intros ->. apply Z.mod_divide in Hal as [q Hq]; [|lia].
      assert (4096 | va_top mm) as [q' Hq'].
      { unfold va_top. apply Z.divide_add_r; (apply Z.mod_divide; [lia|apply Hf]). }
      lia.
Qed.

(** ** Initialisation *)

(** The order of the array: a region that overlaps a later one lies in it. *)
Lemma before_outer r s : 0 < size s -> before r s -> compatible r s -> va_apart r s \/ nested r s.
Proof.
  unfold before, compatible, va_top. intros Hs Hb. case_decide as Hn; [|intros [? _]; by left].
  intros _. destruct Hn as [?|Hn]; [by right|]. right. unfold nested, inside in *. lia.
Qed.

Lemma zero_tables_run c :
  geometry c -> (PLAT_XLAT_TABLES_DYNAMIC = false -> next_table c = 0) ->
  exists c', zero_tables c = Done tt c' /\ same_conf c c' /\ tables_hold c' [].
Proof.
  intros Hg Hnext. eexists. split; [done|]. split; [done|].
  match goal with |- tables_hold ?x [] => set (c' := x) end.
  assert (forall i t, (tables c').[i] = Some t -> t = replicate 512 0) as Htab.
  { intros i t Ht. pose proof (zlookup_lt_Some _ _ _ Ht) as Hi. unfold c' in Ht, Hi.
    cbn [tables set_mem] in Ht, Hi. rewrite length_imap in Hi. rewrite zlookup_to_nat, list_lookup_imap in Ht by lia.
    destruct (tables c !! Z.to_nat i) as [u|]; [|done].
    cbn [fmap option_fmap option_map] in Ht. injection Ht as <-.
    rewrite (geo_num _ Hg) in Hi. by rewrite (proj2 (Nat.ltb_lt _ _)) by lia. }
  assert (base_table c' = replicate (Z.to_nat (base_table_entries c)) 0) as Hbase.
  { unfold c'. cbn. pose proof (geo_base _ Hg). by rewrite drop_ge, app_nil_r by lia. }
  assert (forall p k d, entry_at c' p k = Some d -> d = 0) as Hzero.
  { intros p k d Hd. unfold entry_at in Hd.
    assert (exists n, table_at c' p = Some (replicate n 0) \/ table_at c' p = None) as [n [Ht|Ht]].
    { destruct p as [|i]; cbn [table_at]; [rewrite Hbase; eauto|].
      destruct ((tables c').[i]) as [t|] eqn:Ht; [|exists 0%nat; by right]. rewrite (Htab _ _ Ht). eauto. }
    - rewrite Ht in Hd. cbn in Hd. pose proof (zlookup_lt_Some _ _ _ Hd).
      rewrite zlookup_to_nat in Hd by lia. by apply lookup_replicate in Hd as [-> _].
    - by rewrite Ht in Hd. }
  assert (geometry c') as Hg'.
  { destruct Hg as [? ? ? ? ? ? Hc ? ?]. constructor; try done.
    - rewrite Hbase, length_replicate. cbn. lia.
    - unfold c'. cbn. by rewrite length_imap.
    - intros i t Ht. by rewrite (Htab _ _ Ht).
    - intros Hd. unfold c'. cbn. rewrite Hd, length_app, length_replicate, length_drop.
      specialize (Hc Hd). lia. }
  assert (wf (in_some []) (meets_none []) (meet_count []) c' (fun _ => None)) as Hwf.
  { constructor; try done.
    - intros p l b k d _ Hd. left. split; [by eapply Hzero|]. unfold meets_none. set_solver.
    - intros i t k d _ Ht Hd. apply (Hzero (Sub i) k). unfold entry_at. cbn [table_at]. by rewrite Ht.
    - intros i Hi. split; [|done]. intros _. unfold free_table, c'. cbn in Hi |- *.
      destruct PLAT_XLAT_TABLES_DYNAMIC eqn:Hd.
      + rewrite zlookup_to_nat by lia. rewrite lookup_app_l by (rewrite length_replicate; lia).
        apply lookup_replicate_2. lia.
      + rewrite (Hnext eq_refl). lia. }
  split; [by exists (fun _ => None)|]. intros va Hva.
  pose proof (geo_level _ Hg'). pose proof (geo_va_max _ Hg') as Hmax.
  assert (label_of c' (fun _ => None) Base = Some (base_level c', 0)) as Hlab by done.
  assert (covers c' Base (base_level c') 0 va) as Hcov by (unfold covers; cbn [entries_of]; lia).
  destruct (covers_block _ _ _ _ _ _ _ _ _ Hwf Hlab Hcov) as (k & Hk & Hkva).
  destruct (entry_some _ _ _ _ _ _ _ _ _ Hwf Hlab Hk) as [d Hd].
  rewrite (Hzero _ _ _ Hd) in Hd. rewrite levels_from_S by lia.
  rewrite (walk_invalid _ _ _ _ _ _ _ _ _ _ _ Hwf Hlab Hk Hkva Hd). cbn. set_solver.
Qed.

(** The table pool is used up: the only way the mapping of regions ends early.
    A build with dynamic regions panics; one without fails an assertion. *)
Definition out_of_tables (w : stop) (c : xlat_ctx) : Prop :=
  no_free c /\ w = (if PLAT_XLAT_TABLES_DYNAMIC then Panicked else AssertFailed).

Definition attrs_valid (regime : Z) (mm : mmap_region) : Prop := is_Some (leaf_attrs regime mm).

Lemma wp_map_regions c ds rs zs :
  tables_hold c ds -> va_max_address c < 2 ^ 48 -> pa_max_address c < 2 ^ 48 ->
  Forall (region_fits (va_max_address c) (pa_max_address c)) (ds ++ rs) ->
  Forall (attrs_valid (xlat_regime c)) rs ->
  StronglySorted (fun r s => before r s /\ compatible r s) (ds ++ rs) ->
  zs <> [] -> Forall (fun r => size r = 0) zs ->
  wp (map_regions (rs ++ zs)) (fun _ c' => same_conf c c' /\ tables_hold c' (ds ++ rs)) out_of_tables c.
Proof.
  revert c ds. induction rs as [|mm rs IH]; intros c ds Ht Hva Hpa Hf Ha Hs Hne Hz.
  - destruct zs as [|z zs]; [done|]. apply Forall_cons in Hz as [Hz _]. cbn [app map_regions].
    rewrite Hz. apply wp_ret. split; [apply same_conf_refl|]. by rewrite app_nil_r.
  - pose proof Hf as [Hfd [Hfm _]%Forall_cons]%Forall_app. apply Forall_cons in Ha as [Ham Ha].
    pose proof (fit_size _ _ _ Hfm) as Hsz. cbn [app map_regions].
    rewrite (proj2 (Z.eqb_neq _ _)) by lia. apply wp_bind.
    eapply wp_mono; [apply (wp_map_from_base c ds mm); try done| |].
    + intros r Hr. apply (fit_size _ _ _ (proj1 (Forall_forall _ _) Hfd r Hr)).
    + intros r Hr. eapply StronglySorted_app_1_elem_of in Hs as [Hb Hc]; [|done|apply list_elem_of_here].
      by apply before_outer.
    + intros e c' [(-> & Hs' & Ht')|(He & Hd & Hfree)].
      * rewrite Z.eqb_refl. pose proof (same_conf_fields _ _ Hs') as (_ & _ & Hv & _ & _ & Hr & _).
        assert (pa_max_address c' = pa_max_address c) as Hp by (rewrite Hs'; done).
        change (mm :: rs) with ([mm] ++ rs) in *. rewrite (app_assoc ds [mm] rs) in *.
        eapply wp_mono; [apply (IH c' (ds ++ [mm]))| |done]; rewrite ?Hv, ?Hp, ?Hr; try done.
        intros [] c2 [Hs2 Ht2]. split; [by eapply same_conf_trans|done].
      * rewrite (proj2 (Z.eqb_neq _ _) He). apply wp_halt. unfold out_of_tables. by rewrite Hd.
    + intros w c' (Hd & -> & Hfree). unfold out_of_tables. by rewrite Hd.
Qed.
End Hold.
