(* ===== verification/XlatBoot.v ===== *)
(** * Translation tables: from the regions of the platform to the tables

    An image registers a context, adds its regions and initialises the tables.
    The regions are added to the array in the order the tables need, so every
    address is translated by the smallest region that contains it, whatever the
    order in which they were added. *)

From stdpp Require Import list_numbers sorting.
From S2P Require Import Prelude XlatDefs XlatCore XlatWalk XlatShape XlatDesc XlatMap XlatRegions XlatInit.
#[local] Open Scope cmd_scope.

Section Boot.
Context `{XlatConfig}.
Implicit Types (c : xlat_ctx) (rs : list mmap_region) (mm : mmap_region).

(** ** Fields that the tables do not depend on *)

Lemma tables_hold_regions ms mpa mva c rs :
  tables_hold c rs -> tables_hold (set_regions ms mpa mva c) rs.
Proof.
  intros [[lab [[? ? ? ? ? ? ? ? ?] ? ? ? ? ? ? ?]] Ht]. split.
  - exists lab. by constructor.
  - intros va Hva. cbn in *. rewrite (walk_same c); [by apply Ht|by intros []|done..].
Qed.

Lemma tables_hold_flags i ro c rs :
  tables_hold c rs -> tables_hold (set_flags i (xlat_regime c) ro c) rs.
Proof.
  intros [[lab [[? ? ? ? ? ? ? ? ?] ? ? ? ? ? ? ?]] Ht]. split.
  - exists lab. by constructor.
  - intros va Hva. cbn in *. rewrite (walk_same c); [by apply Ht|by intros []|done..].
Qed.

Lemma regions_wf_same c c' rs :
  regions_wf c rs -> mmap c' = mmap c -> mmap_num c' = mmap_num c ->
  va_max_address c' = va_max_address c -> pa_max_address c' = pa_max_address c ->
  max_va c' = max_va c -> max_pa c' = max_pa c -> regions_wf c' rs.
Proof. intros [? ? ? ? ? ?] E1 E2 E3 E4 E5 E6. constructor; by rewrite ?E1, ?E2, ?E3, ?E4, ?E5, ?E6. Qed.

Lemma regions_wf_conf c c' rs : regions_wf c rs -> same_conf c c' -> regions_wf c' rs.
Proof. intros Hr Hs. apply (regions_wf_same c); [done|by rewrite Hs..]. Qed.

Lemma same_conf_ctx c c' :
  same_conf c c' ->
  initialized c' = initialized c /\ max_pa c' = max_pa c /\ max_va c' = max_va c /\
  mmap_num c' = mmap_num c /\ pa_max_address c' = pa_max_address c.
Proof. intros Hs. rewrite Hs. done. Qed.

(** ** What initialisation relies on *)

(** The image runs at the exception level of the regime, or above it, with the
    MMU off, on a CPU that supports the physical addresses. *)
Record init_ready (c : xlat_ctx) : Prop := {
  rd_regime : xlat_regime c = EL1_EL0_REGIME \/ xlat_regime c = EL2_REGIME \/
              xlat_regime c = EL3_REGIME;
  rd_mmu : is_mmu_enabled_ctx c = Done false c;
  rd_min : xlat_get_min_virt_addr_space_size - 1 <= va_max_address c;
  rd_max : va_max_address c <= MAX_VIRT_ADDR_SPACE_SIZE - 1;
  rd_pow : IS_POWER_OF_TWO (u64 (va_max_address c + 1)) = true;
  rd_pa : exists bits, pa_range_bits_arr.[id_aa64mmfr0_parange] = Some bits /\
            pa_max_address c <= u64 (Z.shiftl 1 bits) - 1
}.

Lemma wp_init c rs :
  geometry c -> regions_wf c rs -> Forall (attrs_valid (xlat_regime c)) rs ->
  (PLAT_XLAT_TABLES_DYNAMIC = false -> next_table c = 0) ->
  initialized c = false -> init_ready c ->
  wp init_xlat_tables_ctx
    (fun _ c' => initialized c' = true /\ xlat_regime c' = xlat_regime c /\
       va_max_address c' = va_max_address c /\ base_level c' = base_level c /\
       (pa_max_address c' = pa_max_address c /\ max_pa c' = max_pa c) /\
       regions_wf c' rs /\ tables_hold c' rs)
    out_of_tables c.
Proof.
  intros Hg Hr Ha Hnext Hi [Hregime Hmmu Hmin Hmax Hpow (bits & Hbits & Hpa)].
  unfold init_xlat_tables_ctx. wp_steps. unfold id. apply wp_assert; [by rewrite Hi|].
  wp_step. apply wp_assert; [by destruct Hregime as [->|[->| ->]]|].
  wp_step. eapply wp_exact; [exact Hmmu|]. wp_step. apply wp_assert; [done|].
  wp_step. apply wp_assert; [by apply Z.leb_le|]. wp_step. apply wp_assert; [by apply Z.leb_le|].
  wp_step. apply wp_assert; [done|]. wp_step.
  destruct (zero_tables_run _ Hg Hnext) as (c1 & Hz & Hs1 & Ht1). eapply wp_exact; [exact Hz|].
  pose proof (regions_wf_conf _ _ _ Hr Hs1) as Hr1.
  destruct (rw_mmap _ _ Hr1) as (zs & Hmm & Hne & Hzs). destruct (rw_space _ _ Hr1).
  assert (mmap c = mmap c1) as -> by (by rewrite Hs1).
  assert (xlat_regime c = xlat_regime c1) as Hreg by (by rewrite Hs1). rewrite Hreg in *.
  rewrite Hmm. wp_step. eapply wp_mono; [apply (wp_map_regions c1 [] rs zs); try done; try lia| |done].
  { apply Hr1. } { apply Hr1. }
  intros [] c2 [Hs2 Ht2]. pose proof (regions_wf_conf _ _ _ Hr1 Hs2) as Hr2.
  pose proof (same_conf_trans _ _ _ Hs1 Hs2) as Hs. destruct (rw_max _ _ Hr2).
  unfold xlat_arch_get_max_supported_pa. wp_step. rewrite Hbits. wp_steps. unfold id.
  apply wp_assert; [apply Z.leb_le; by rewrite Hs|]. wp_step.
  apply wp_assert; [apply Z.leb_le; lia|]. wp_step. apply wp_assert; [apply Z.leb_le; lia|]. wp_steps.
  split_and!; [done|by rewrite Hs2|by rewrite Hs..|by apply (regions_wf_same c2)|].
  by apply tables_hold_flags.
Qed.

(** ** Adding the regions of the platform *)

(** The regions [mms] fit, and each pair of them can be in the array together. *)
Definition addable (va_max pa_max : Z) (mms : list mmap_region) : Prop :=
  Forall region_typed mms /\ Forall (region_fits va_max pa_max) mms /\ ForallOrdPairs compatible mms.

Definition only_regions (c c' : xlat_ctx) : Prop :=
  c' = set_regions (mmap c') (max_pa c') (max_va c') c.

Lemma only_regions_trans c1 c2 c3 : only_regions c1 c2 -> only_regions c2 c3 -> only_regions c1 c3.
Proof. unfold only_regions. destruct c1, c2, c3. cbn. intros [= ] [= ]. by simplify_eq. Qed.

(** [max_pa] is the highest address of what was recorded and of the regions. *)
Definition highest (old : Z) (mms : list mmap_region) (top : Z) : Prop :=
  forall x, top <= x <-> old <= x /\ Forall (fun m => pa_top m - 1 <= x) mms.

Lemma highest_cons old mm mms top va_max pa_max :
  region_fits va_max pa_max mm -> pa_max < 2 ^ 64 -> highest (raised old (region_end_pa mm)) mms top ->
  highest old (mm :: mms) top.
Proof.
  intros Hf Hpa Ht x. rewrite (Ht x), Forall_cons. unfold raised. rewrite (fits_end_pa _ _ _ Hf Hpa).
  destruct (Z.ltb_spec old (pa_top mm - 1)); split; intros (? & ?); split_and!; try tauto; lia.
Qed.

Lemma wp_mmap_add c rs mms e mms' :
  regions_wf c rs -> initialized c = false -> addable (va_max_address c) (pa_max_address c) mms ->
  Forall (fun mm => Forall (compatible mm) rs) mms ->
  Z.of_nat (length (rs ++ mms)) <= mmap_num c -> granularity e = 0 ->
  wpd (mmap_add_ctx (mms ++ e :: mms'))
    (fun _ c' => only_regions c c' /\ highest (max_pa c) mms (max_pa c') /\
                 exists rs', rs' ≡ₚ rs ++ mms /\ regions_wf c' rs') c.
Proof.
  revert c rs. induction mms as [|mm mms IH]; intros c rs Hwf Hi (Htyp & Hfit & Hpair) Hrs Hroom He.
  - cbn [app mmap_add_ctx]. rewrite He. apply wp_ret. split; [by destruct c|].
    split; [intros x; split; [by split|by intros []]|]. exists rs. by rewrite app_nil_r.
  - apply Forall_cons in Htyp as [Ht Htyp]. apply Forall_cons in Hfit as [Hf Hfit].
    apply Forall_cons in Hrs as [Hc Hrs]. inversion Hpair as [|? ? Hmm Hpair']. subst.
    rewrite length_app in Hroom. cbn [length] in Hroom.
    assert (check_spec c rs mm = 0) as Hcheck by (apply check_spec_zero; (done || lia)).
    pose proof (fit_gran _ _ _ Hf) as Hgr. cbn [app mmap_add_ctx].
    rewrite (proj2 (Z.eqb_neq (granularity mm) 0)) by (destruct Hgr as [->|[->| ->]]; done).
    apply wp_bind. eapply wp_mono; [by apply (wp_add_region c rs mm)| |].
    + intros [] c' [[Hz _]|(_ & _ & l1 & l2 & zs & -> & Hc' & Hwf')].
      { pose proof (fit_size _ _ _ Hf). lia. }
      assert (only_regions c c') as Ho by (by rewrite Hc').
      assert (initialized c' = initialized c /\ va_max_address c' = va_max_address c /\
              pa_max_address c' = pa_max_address c /\ mmap_num c' = mmap_num c) as (Ei & Ev & Ep & En)
        by (by rewrite Ho).
      assert (Forall (fun m => Forall (compatible m) (l1 ++ mm :: l2)) mms) as Hrs'.
      { apply Forall_forall. intros m Hm. pose proof (proj1 (Forall_forall _ _) Hrs m Hm) as Hm12.
        apply Forall_app in Hm12 as [? ?]. apply Forall_app. split; [done|]. constructor; [|done].
        by apply compatible_sym, (proj1 (Forall_forall _ _) Hmm). }
      eapply wp_mono; [apply (IH c' (l1 ++ mm :: l2)); rewrite ?Ei, ?Ev, ?Ep, ?En; try done| |done].
      * rewrite !length_app in *. cbn [length]. lia.
      * intros [] c2 (Ho2 & Htop & rs' & Hp & Hwf2). split; [by eapply only_regions_trans|].
        split; [apply (highest_cons _ _ _ _ _ _ Hf); [destruct (rw_space _ _ Hwf); lia|by rewrite Hc' in Htop]|].
        exists rs'. split; [|done]. rewrite Hp. solve_Permutation.
    + intros w c' (_ & Hne & _). done.
Qed.

(** ** A registered context *)

(** What [REGISTER_XLAT_CONTEXT] needs of its arguments: address spaces whose
    sizes are powers of two, and tables where the descriptors can hold their
    address. *)
Record register_ok (mmap_count tables_count va_bits pa_bits taddr : Z) : Prop := {
  rg_mmap : 1 <= mmap_count;
  rg_tables : 0 <= tables_count;
  rg_va_bits : 16 <= va_bits <= 48;
  rg_pa_bits : 12 <= pa_bits <= 48;
  rg_addr : 0 <= taddr /\ taddr mod 4096 = 0 /\ taddr + tables_count * 4096 <= 2 ^ 48
}.

(** The base table of an address space of a power of two. *)
Lemma base_table_size va_bits :
  12 <= va_bits <= 48 ->
  let l := GET_XLAT_TABLE_LEVEL_BASE (2 ^ va_bits) in
  let n := GET_NUM_BASE_LEVEL_ENTRIES (2 ^ va_bits) in
  0 <= l <= 3 /\ 1 <= n <= 512 /\ 2 ^ va_bits = n * blk l.
Proof.
  intros Hb l n.
  assert (exists k, va_bits = Z.of_nat k /\ In k (seq 12 37)) as (k & -> & Hk).
  { exists (Z.to_nat va_bits). split; [lia|]. apply in_seq. lia. }
  assert (forallb (fun k =>
    let s := 2 ^ Z.of_nat k in
    let l := GET_XLAT_TABLE_LEVEL_BASE s in
    let n := GET_NUM_BASE_LEVEL_ENTRIES s in
    bool_decide (0 <= l <= 3 /\ 1 <= n <= 512 /\ s = n * blk l)) (seq 12 37) = true) as Hall by done.
  rewrite forallb_forall in Hall. by apply Hall, bool_decide_eq_true in Hk.
Qed.

Lemma register_geometry mmap_count tables_count va_bits pa_bits regime taddr :
  register_ok mmap_count tables_count va_bits pa_bits taddr ->
  geometry (register_xlat_context mmap_count tables_count (2 ^ va_bits) (2 ^ pa_bits) regime taddr).
Proof.
  intros [? ? ? ? ?]. destruct (base_table_size va_bits) as (? & ? & Hsz); [lia|].
  constructor; cbn; try done.
  - lia.
  - rewrite length_replicate. lia.
  - rewrite length_replicate. lia.
  - intros i t Ht. pose proof (zlookup_lt_Some _ _ _ Ht). rewrite zlookup_to_nat in Ht by lia.
    by apply lookup_replicate in Ht as [-> _].
  - intros _. rewrite length_replicate. lia.
Qed.

Lemma register_regions mmap_count tables_count va_bits pa_bits regime taddr :
  register_ok mmap_count tables_count va_bits pa_bits taddr ->
  regions_wf (register_xlat_context mmap_count tables_count (2 ^ va_bits) (2 ^ pa_bits) regime taddr) [].
Proof.
  intros [? ? ? ? ?]. pose proof (Z.pow_le_mono_r 2 va_bits 48). pose proof (Z.pow_le_mono_r 2 pa_bits 48).
  pose proof (Z.pow_pos_nonneg 2 va_bits). pose proof (Z.pow_pos_nonneg 2 pa_bits).
  constructor; cbn.
  - eexists. split; [done|]. split; [|by apply Forall_replicate].
    replace (Z.to_nat (mmap_count + 1)) with (S (Z.to_nat mmap_count)) by lia. done.
  - rewrite length_replicate. lia.
  - constructor.
  - constructor.
  - lia.
  - lia.
Qed.

(** The state of the machine when the tables are built. *)
Record cpu_ready (va_bits pa_bits regime : Z) : Prop := {
  cr_regime : regime = EL1_EL0_REGIME \/ regime = EL2_REGIME \/ regime = EL3_REGIME;
  cr_el : regime <= current_el <= 3;
  cr_mmu : is_set (if regime =? EL1_EL0_REGIME then sctlr_el1
                   else if regime =? EL2_REGIME then sctlr_el2 else sctlr_el3) SCTLR_M_BIT = false;
  cr_min : if is_feat_ttst_supported then 16 <= va_bits else 25 <= va_bits;
  cr_pa : exists bits, pa_range_bits_arr.[id_aa64mmfr0_parange] = Some bits /\ pa_bits <= bits
}.

Lemma power_of_two k : 0 <= k -> IS_POWER_OF_TWO (2 ^ k) = true.
Proof.
  intros Hk. unfold IS_POWER_OF_TWO. apply Z.eqb_eq. replace (2 ^ k - 1) with (Z.ones k).
  - rewrite Z.land_ones by done. apply Z.mod_same. lia.
  - rewrite Z.ones_equiv. lia.
Qed.

Lemma cpu_ready_init c va_bits pa_bits :
  cpu_ready va_bits pa_bits (xlat_regime c) -> 12 <= va_bits <= 48 -> 12 <= pa_bits <= 48 ->
  va_max_address c = 2 ^ va_bits - 1 -> pa_max_address c = 2 ^ pa_bits - 1 -> init_ready c.
Proof.
  intros [Hr Hel Hm Hmin (bits & Hbits & Hpa)] Hv Hp Ev Ep.
  pose proof (Z.pow_le_mono_r 2 va_bits 48). pose proof (Z.pow_pos_nonneg 2 va_bits).
  constructor; rewrite ?Ev, ?Ep; [done| | | | |].
  - unfold is_mmu_enabled_ctx, xlat_arch_current_el, bind, gets, id, assert_. cbn [andb].
    unfold EL1_EL0_REGIME, EL2_REGIME, EL3_REGIME in *.
    rewrite (proj2 (Z.ltb_lt 0 current_el)) by lia. cbn [negb ret].
    destruct Hr as [Hr|[Hr|Hr]]; rewrite Hr in *; cbn in Hm |- *;
      rewrite (proj2 (Z.leb_le _ current_el)) by lia; cbn; by rewrite Hm.
  - unfold xlat_get_min_virt_addr_space_size. destruct is_feat_ttst_supported.
    + pose proof (Z.pow_le_mono_r 2 16 va_bits). change MIN_VIRT_ADDR_SPACE_SIZE_TTST with (2 ^ 16). lia.
    + pose proof (Z.pow_le_mono_r 2 25 va_bits). change MIN_VIRT_ADDR_SPACE_SIZE with (2 ^ 25). lia.
  - change MAX_VIRT_ADDR_SPACE_SIZE with (2 ^ 48). lia.
  - replace (2 ^ va_bits - 1 + 1) with (2 ^ va_bits) by lia. rewrite u64_small by lia.
    apply power_of_two. lia.
  - exists bits. split; [done|].
    assert (bits ∈ pa_range_bits_arr) as Hin.
    { pose proof (zlookup_lt_Some _ _ _ Hbits). rewrite zlookup_to_nat in Hbits by lia.
      by eapply list_elem_of_lookup_2. }
    assert (32 <= bits <= 56) by (unfold pa_range_bits_arr in Hin; set_unfold in Hin; lia).
    rewrite Z.shiftl_mul_pow2, Z.mul_1_l by lia.
    pose proof (Z.pow_le_mono_r 2 pa_bits bits). pose proof (Z.pow_lt_mono_r 2 bits 64).
    rewrite u64_small by (pose proof (Z.pow_pos_nonneg 2 bits); lia). lia.
Qed.
(** The whole address space, from the walk of the addresses below its end. *)
Lemma translate_hold c rs va :
  tables_hold c rs -> Forall (region_fits (va_max_address c) (pa_max_address c)) rs ->
  translates_by (xlat_regime c) rs va (translate c va).
Proof.
  intros [_ Ht] Hf. unfold translate. destruct (Z.leb_spec 0 va), (Z.leb_spec va (va_max_address c));
    cbn [andb]; [by apply Ht|..].
  all: intros r Hr; destruct (proj1 (Forall_forall _ _) Hf r Hr) as [? ? ? ? ? ? ?].
  all: unfold in_region, va_top in *; lia.
Qed.

(** The image's part: its regions are added in some order and the tables are
    initialised. *)
Definition xlat_boot (mms : list mmap_region) (e : mmap_region) : cmd xlat_ctx unit :=
  mmap_add_ctx (mms ++ [e]);; init_xlat_tables_ctx.

(** What [xlat_boot] needs of the registered context, the CPU and the regions;
    [e] ends the array. *)
Record boot_ok (mmap_count tables_count va_bits pa_bits regime taddr : Z)
    (mms : list mmap_region) (e : mmap_region) : Prop := {
  bo_register : register_ok mmap_count tables_count va_bits pa_bits taddr;
  bo_cpu : cpu_ready va_bits pa_bits regime;
  bo_add : addable (2 ^ va_bits - 1) (2 ^ pa_bits - 1) mms;
  bo_attrs : Forall (attrs_valid regime) mms;
  bo_room : Z.of_nat (length mms) <= mmap_count;
  bo_end : granularity e = 0
}.

Lemma wp_boot mmap_count tables_count va_bits pa_bits regime taddr mms e :
  boot_ok mmap_count tables_count va_bits pa_bits regime taddr mms e ->
  wp (xlat_boot mms e)
    (fun _ c => initialized c = true /\ xlat_regime c = regime /\ va_max_address c = 2 ^ va_bits - 1 /\
       base_level c = GET_XLAT_TABLE_LEVEL_BASE (2 ^ va_bits) /\
       (pa_max_address c = 2 ^ pa_bits - 1 /\ highest 0 mms (max_pa c)) /\
       exists rs, rs ≡ₚ mms /\ regions_wf c rs /\ tables_hold c rs)
    out_of_tables
    (register_xlat_context mmap_count tables_count (2 ^ va_bits) (2 ^ pa_bits) regime taddr).
Proof.
  intros [Hreg Hcpu Hadd Hattr Hlen He].
  pose proof (register_geometry _ _ _ _ regime _ Hreg) as Hg.
  pose proof (register_regions _ _ _ _ regime _ Hreg) as Hr.
  set (c0 := register_xlat_context _ _ _ _ _ _) in *.
  apply wp_bind. eapply wp_mono; [apply (wp_mmap_add c0 [] mms e []); try done| |done].
  { by apply Forall_forall. }
  intros [] c1 (Ho & Htop & rs & Hp & Hr1). cbn [app] in Hp.
  destruct Hreg as [_ _ ? ? _].
  eapply wp_mono; [apply (wp_init c1 rs)| |done].
  - rewrite Ho. destruct Hg. by constructor.
  - done.
  - rewrite Ho, Hp. done.
  - intros _. by rewrite Ho.
  - by rewrite Ho.
  - apply (cpu_ready_init _ va_bits pa_bits); first [lia | by rewrite Ho].
  - intros [] c (Hi & Hrg & Hv & Hb & [Hpm Hmp] & Hr2 & Ht).
    split_and!; [done|by rewrite Hrg, Ho|by rewrite Hv, Ho|by rewrite Hb, Ho|by rewrite Hpm, Ho|by rewrite Hmp|].
    by exists rs.
Qed.

(** C5. An image that registers a translation context, adds its regions with
    [mmap_add] and builds the tables with [init_xlat_tables] gets exactly the
    translation it asked for: a walk of the MMU through the tables of any
    address ends at the physical address and with the attributes of the
    smallest region that contains it, and faults if no region does. The code
    stops only if it uses up the pool of tables; no assertion fails and no
    access leaves a table. *)
Theorem boot_translates mmap_count tables_count va_bits pa_bits regime taddr mms e :
  boot_ok mmap_count tables_count va_bits pa_bits regime taddr mms e ->
  wp (xlat_boot mms e)
    (fun _ c => initialized c = true /\ forall va, translates_by regime mms va (translate c va))
    out_of_tables
    (register_xlat_context mmap_count tables_count (2 ^ va_bits) (2 ^ pa_bits) regime taddr).
Proof.
  intros Hok. eapply wp_mono; [by apply wp_boot| |done].
  intros [] c (Hi & <- & _ & _ & _ & rs & Hp & Hr & Ht). split; [done|]. intros va. rewrite <- Hp.
  apply translate_hold; [done|apply Hr].
Qed.
End Boot.
