(* ===== verification/XlatDynamic.v ===== *)
(** * Translation tables: dynamic regions

    A region that is added once the tables are in use is mapped as well, and one
    that is removed is unmapped: the tables keep translating each address by the
    regions of the array. *)

From stdpp Require Import list_numbers sorting.
From S2P Require Import Prelude XlatDefs XlatCore XlatWalk XlatShape XlatDesc XlatMap XlatUnmap XlatRegions XlatInit XlatBoot.
#[local] Open Scope cmd_scope.

Section Dynamic.
Context `{XlatConfig}.
Hypothesis Hdyn : PLAT_XLAT_TABLES_DYNAMIC = true.
Implicit Types (c : xlat_ctx) (rs : list mmap_region) (mm : mmap_region).

(** ** Unmapping a region of the tables *)

Lemma translates_by_drop regime rs mm va o :
  Forall (va_apart mm) rs -> translates_by regime (rs ++ [mm]) va o ->
  translates_by regime rs va (if decide (in_region mm va) then None else o).
Proof.
  intros Hap Ho. rewrite Forall_forall in Hap. case_decide as Hin.
  - intros r Hr Hir. specialize (Hap r Hr). unfold va_apart, va_top, in_region in *. lia.
  - destruct o as [t|]; cbn in *.
    + destruct Ho as (r & [Hr|Hr%list_elem_of_singleton]%elem_of_app & Hir & -> & Hmin); [|by subst].
      exists r. split_and!; try done. intros s Hs. apply Hmin. set_solver.
    + intros r Hr. apply Ho. set_solver.
Qed.

Lemma fits_va_range va_max pa_max mm :
  va_max < 2 ^ 48 -> region_fits va_max pa_max mm -> va_range_ok mm.
Proof. intros ? [? ? ? ? ? ? ?]. unfold va_top in *. constructor; (done || lia). Qed.

Lemma wp_unmap_from_base c rs mm :
  tables_hold c (rs ++ [mm]) -> va_max_address c < 2 ^ 48 ->
  region_fits (va_max_address c) (pa_max_address c) mm -> Forall (va_apart mm) rs ->
  el_covers (xlat_regime c) ->
  wpd (unmap_from_base mm) (fun _ c' => same_conf c c' /\ tables_hold c' rs) c.
Proof.
  intros [[lab Hs] Ht] Hva Hf Hap Hel. pose proof (fits_va_range _ _ _ Hva Hf) as Hok.
  pose proof (wf_geo _ _ _ _ _ Hs) as Hg. pose proof (geo_level _ Hg).
  destruct (fit_va _ _ _ Hf) as [Hb0 Htop]. pose proof (fit_size _ _ _ Hf) as Hsz.
  pose proof (geo_va_max _ Hg) as Hmax.
  assert (forall r, r ∈ rs -> va_apart mm r) as Hap' by (by apply Forall_forall).
  assert (table_top mm c Base (base_level c) 0 = va_top mm) as Htt.
  { unfold table_top, region_top. cbn [entries_of]. fold (va_top mm). lia. }
  unfold unmap_from_base. wp_steps. unfold id.
  eapply wp_mono; [eapply (wp_unmap_region Hdyn (xlat_regime c) mm Hel Hok (in_some rs) (meets_none rs)
    (meet_count rs)) with (L := base_level c) (B := 0) (p := Base) (lab := lab)| |done].
  - intros x n Hn (r & Hr & Hin). specialize (Hap' r Hr). unfold va_apart, va_top, inside, meets in *. lia.
  - intros x n Hn Hin r Hr. specialize (Hap' r Hr). unfold va_apart, va_top, inside, meets in *. lia.
  - intros x n y m Hno Hxy Hym r Hr. specialize (Hno r Hr). unfold meets in *. lia.
  - intros x l Hl. rewrite meet_count_zero. by rewrite <- blk_next by lia.
  - intros x n Hn (r & Hr & Hin) Hno. specialize (Hno r Hr). unfold inside, meets in *. lia.
  - done.
  - eapply wf_mono; [exact Hs| | |].
    + intros x l _ (r & [Hr|Hr%list_elem_of_singleton]%elem_of_app & Hin); [left; by exists r|right; by subst].
    + intros p l b k _ _ Hno r Hr. apply Hno. set_solver.
    + intros i l b Hi. rewrite meet_count_snoc. unfold Nu. f_equal. apply decide_ext.
      destruct (wf_lab _ _ _ _ _ Hs _ _ _ Hi) as (Hl & _ & Hb & _). pose proof (blk_pos l).
      unfold pending, meets, region_top. lia.
  - done.
  - cbn [entries_of]. unfold meets, va_top in *. lia.
  - intros va Hin _. assert (0 <= va <= va_max_address c) as Hr by (unfold in_region, va_top in *; lia).
    specialize (Ht va Hr). destruct (walk _ _ _ _ _); [done|]. cbn in Ht. destruct (Ht mm); [set_solver|done].
  - done.
  - intros [] c' (c1 & lab1 & Hm & ->). cbn [lower]. rewrite Htt in Hm.
    pose proof (um_conf _ _ _ _ _ _ _ _ _ _ _ _ Hm) as Hs'. split; [done|].
    destruct (same_conf_fields _ _ Hs') as (Hbl & _ & Hvm & _ & _ & Hrg & _).
    assert (forall va, 0 <= va <= va_max_address c ->
      walk (levels_from (base_level c)) c1 Base (base_level c) va =
      if decide (in_region mm va) then None
      else walk (levels_from (base_level c)) c Base (base_level c) va) as Hw.
    { intros va Hva'. rewrite (um_walk _ _ _ _ _ _ _ _ _ _ _ _ Hm)
        by (unfold covers; cbn [entries_of]; lia).
      unfold cleared. apply decide_ext. unfold in_region, va_top. lia. }
    pose proof (um_wf _ _ _ _ _ _ _ _ _ _ _ _ Hm) as Hwf1. split.
    + exists lab1. eapply wf_weaken; [exact Hwf1| |done|].
      * intros p l b k d Hp Hd Hl [?|Hin]; [done|]. exfalso.
        destruct (label_level _ _ _ _ _ _ _ _ Hwf1 Hp). pose proof (blk_pos l). unfold inside in Hin.
        pose proof (walk_to_leaf _ _ _ _ _ _ _ (b + k * blk l) _ _ _ Hwf1 Hp Hd Hl ltac:(lia)) as Hwl.
        rewrite Hbl, Hvm, Hw, decide_True in Hwl by (unfold in_region, va_top in *; lia).
        discriminate Hwl. unfold va_top in *. lia.
      * intros i l b Hi. unfold Nu. rewrite decide_False; [lia|].
        destruct (wf_lab _ _ _ _ _ Hwf1 _ _ _ Hi) as (? & _). unfold pending, region_top, va_top. lia.
    + intros va Hva'. rewrite Hbl, Hrg, Hw by lia. apply translates_by_drop; [done|]. apply Ht. lia.
Qed.

(** ** The state between calls *)

Record xlat_inv (c : xlat_ctx) (rs : list mmap_region) : Prop := {
  xi_regions : regions_wf c rs;
  xi_tables : initialized c = true -> tables_hold c rs;
  xi_el : el_covers (xlat_regime c)
}.

Lemma dynamic_apart mm r : compatible mm r -> is_set (attr mm) MT_DYNAMIC = true -> va_apart mm r.
Proof.
  unfold compatible. intros Hc Hd. case_decide; [|by destruct Hc]. destruct Hc as (Hc & _).
  destruct (Hc Hdyn). congruence.
Qed.

Lemma sorted_apart l1 mm l2 :
  StronglySorted (fun r s => before r s /\ compatible r s) (l1 ++ mm :: l2) ->
  is_set (attr mm) MT_DYNAMIC = true -> Forall (va_apart mm) (l1 ++ l2).
Proof.
  intros Hs Hd. apply Forall_app. split; apply Forall_forall; intros r Hr; apply dynamic_apart; try done.
  - eapply StronglySorted_app_1_elem_of in Hs as [_ Hc]; [|exact Hr|apply list_elem_of_here].
    by apply compatible_sym.
  - apply StronglySorted_app_1_r, StronglySorted_inv in Hs as [_ Hall].
    by apply (proj1 (Forall_forall _ _) Hall).
Qed.

Lemma sorted_remove {A} (R : A -> A -> Prop) l1 x l2 :
  StronglySorted R (l1 ++ x :: l2) -> StronglySorted R (l1 ++ l2).
Proof.
  intros Hs. apply StronglySorted_app_2.
  - intros a b Ha Hb. eapply StronglySorted_app_1_elem_of in Hs; [exact Hs|done|set_solver].
  - by apply StronglySorted_app_1_l in Hs.
  - by apply StronglySorted_app_1_r, StronglySorted_inv in Hs as [? _].
Qed.

(** The new maximum. *)
Lemma max_end_run end_of rs zs acc bound :
  zs <> [] -> Forall (fun r => size r = 0) zs -> Forall (fun r => size r <> 0 /\ end_of r <= bound) rs ->
  0 <= acc <= bound -> exists m, max_end end_of (rs ++ zs) acc = Some m /\ 0 <= m <= bound.
Proof.
  intros Hne Hz. revert acc. induction rs as [|r rs IH]; intros acc Hrs Hacc.
  - destruct zs as [|z zs]; [done|]. apply Forall_cons in Hz as [Hz _]. cbn. rewrite Hz. by exists acc.
  - apply Forall_cons in Hrs as [[Hsz Hr] Hrs]. cbn [app max_end].
    rewrite (proj2 (Z.eqb_neq _ _) Hsz). apply IH; [done|]. destruct (Z.ltb_spec acc (end_of r)); lia.
Qed.

(** The array without one of its regions. *)
Lemma regions_wf_remove c l1 mm l2 :
  regions_wf c (l1 ++ mm :: l2) ->
  exists ms zs, memmove_regions (Z.of_nat (length l1)) (Z.of_nat (length l1) + 1)
      (mmap_num c - Z.of_nat (length l1)) (mmap c) = Some ms /\
    ms = (l1 ++ l2) ++ zs /\ zs <> [] /\ Forall (fun r => size r = 0) zs /\
    forall mpa mva c', 0 <= mpa <= pa_max_address c -> 0 <= mva <= va_max_address c ->
      c' = set_regions ms mpa mva c -> regions_wf c' (l1 ++ l2).
Proof.
  intros [(zs & Hmm & Hne & Hzs) [Hlen Hnum] Hfits Hs Hsp _].
  destruct (exists_last Hne) as (zs' & z & ->). exists ((l1 ++ l2) ++ (zs' ++ [z]) ++ [z]), ((zs' ++ [z]) ++ [z]).
  assert (Forall (fun r => size r = 0) ((zs' ++ [z]) ++ [z])) as Hzs2.
  { apply Forall_app. split; [done|]. apply Forall_app in Hzs as [_ Hz]. done. }
  assert ((zs' ++ [z]) ++ [z] <> []) as Hne2 by (by destruct zs').
  split_and!; try done.
  - rewrite Hmm. replace ((l1 ++ mm :: l2) ++ zs' ++ [z]) with (l1 ++ mm :: (l2 ++ zs') ++ [z])
      by (cbn; by rewrite <- !app_assoc). rewrite Hmm, !length_app in Hlen. cbn [length] in Hlen.
    replace (mmap_num c - Z.of_nat (length l1)) with (Z.of_nat (length (l2 ++ zs')) + 1)
      by (rewrite length_app; lia).
    rewrite memmove_down. by rewrite <- !app_assoc.
  - intros mpa mva c' Hpa Hva ->. apply Forall_app in Hfits as [Hf1 [_ Hf2]%Forall_cons].
    constructor; cbn; try done.
    + by eexists.
    + split; [|done]. rewrite Hmm in Hlen. rewrite !length_app in *. cbn [length] in *. lia.
    + by apply Forall_app.
    + by eapply sorted_remove.
Qed.

(** ** Removing a region *)

(** The region that [mmap_remove_dynamic_region_ctx] finds. *)
Lemma find_region c rs va sz :
  regions_wf c rs ->
  exists i r, skip_while (fun r => negb (size r =? 0) && negb ((base_va r =? va) && (size r =? sz)))
      (mmap c) 0 = Some i /\ (mmap c).[i] = Some r /\
    ((size r = 0 /\ forall s, s ∈ rs -> ~ (base_va s = va /\ size s = sz)) \/
     (0 < size r /\ base_va r = va /\ size r = sz /\
      exists l1 l2, rs = l1 ++ r :: l2 /\ i = Z.of_nat (length l1))).
Proof.
  intros [(zs & Hmm & Hne & Hzs) _ Hfits _ _ _].
  destruct (skip_while_spec (fun r => negb (size r =? 0) && negb ((base_va r =? va) && (size r =? sz))) rs zs 0)
    as (l1 & l2 & -> & Hs & Ht & Hh); [|done|].
  { intros z Hz. by rewrite (proj1 (Forall_forall _ _) Hzs z Hz). }
  rewrite Hmm, Hs, Z.add_0_l. exists (Z.of_nat (length l1)).
  assert (forall s, s ∈ l1 -> ~ (base_va s = va /\ size s = sz)) as Hl1.
  { intros s Hin [<- <-]. pose proof (proj1 (Forall_forall _ _) Ht s Hin) as Hb. cbv beta in Hb.
    by rewrite !Z.eqb_refl, andb_false_r in Hb. }
  destruct l2 as [|r l2].
  - destruct zs as [|z zs]; [done|]. apply Forall_cons in Hzs as [Hz _]. exists z.
    rewrite app_nil_r, zlookup_of_nat, lookup_app_r, Nat.sub_diag by lia. by split_and!; [..|left].
  - apply Forall_app in Hfits as [_ [Hf _]%Forall_cons]. pose proof (fit_size _ _ _ Hf) as Hsz. exists r.
    rewrite <- app_assoc, zlookup_of_nat, lookup_app_r, Nat.sub_diag by lia. split_and!; [done|done|right].
    specialize (Hh r l2 eq_refl). cbv beta in Hh.
    rewrite (proj2 (Z.eqb_neq _ _)) in Hh by lia. cbn [negb andb] in Hh.
    apply negb_false_iff, andb_true_iff in Hh as [Hb%Z.eqb_eq Hz%Z.eqb_eq].
    split_and!; try done. by exists l1, l2.
Qed.

Lemma fits_ends va_max pa_max rs :
  va_max < 2 ^ 64 -> pa_max < 2 ^ 64 -> Forall (region_fits va_max pa_max) rs ->
  Forall (fun r => size r <> 0 /\ region_end_va r <= va_max) rs /\
  Forall (fun r => size r <> 0 /\ region_end_pa r <= pa_max) rs.
Proof.
  intros Hv Hp Hf. split; (eapply Forall_impl; [exact Hf|]); intros r Hr; cbv beta.
  - rewrite (fits_end_va _ _ _ Hr Hv). destruct Hr. unfold va_top in *. lia.
  - rewrite (fits_end_pa _ _ _ Hr Hp). destruct Hr. unfold pa_top in *. lia.
Qed.

(** What [mmap_remove_dynamic_region_ctx] returns and does: no such region, a
    static one, or a dynamic one that is gone from the array and the tables. *)
Definition remove_post (c : xlat_ctx) (rs : list mmap_region) (va sz r : Z) (c' : xlat_ctx) : Prop :=
  (r = - EINVAL /\ c' = c /\ forall s, s ∈ rs -> ~ (base_va s = va /\ size s = sz)) \/
  (r = - EPERM /\ c' = c /\
   exists mm, mm ∈ rs /\ base_va mm = va /\ size mm = sz /\ is_set (attr mm) MT_DYNAMIC = false) \/
  (r = 0 /\ exists mm l1 l2, rs = l1 ++ mm :: l2 /\ base_va mm = va /\ size mm = sz /\
     is_set (attr mm) MT_DYNAMIC = true /\ xlat_inv c' (l1 ++ l2) /\
     initialized c' = initialized c /\ xlat_regime c' = xlat_regime c).

Lemma wp_remove_dynamic c rs va sz :
  xlat_inv c rs -> wpd (mmap_remove_dynamic_region_ctx va sz) (remove_post c rs va sz) c.
Proof.
  intros [Hr Htab Hel]. destruct (find_region c rs va sz Hr) as (i & mm & Hi & Hmm & Hcase).
  assert (exists z, (mmap c).[mmap_num c] = Some z /\ size z = 0) as (z & Hz & Hz0).
  { destruct (rw_mmap _ _ Hr) as (zs & Hm & Hne & Hzs). destruct (rw_len _ _ Hr) as [Hlen Hnum].
    destruct (exists_last Hne) as (zs' & z & ->). exists z. apply Forall_app in Hzs as [_ [Hz _]%Forall_cons].
    split; [|done]. rewrite Hm, app_assoc in Hlen |- *. rewrite length_app in Hlen. cbn [length] in Hlen.
    rewrite zlookup_to_nat, lookup_app_r by lia. by replace (Z.to_nat (mmap_num c) - _)%nat with 0%nat by lia. }
  unfold mmap_remove_dynamic_region_ctx. wp_steps. unfold id. eapply wp_deref; [exact Hz|]. wp_step.
  apply wp_assert; [by rewrite Hz0|]. wp_step. eapply wp_deref; [exact Hi|]. wp_step.
  eapply wp_deref; [exact Hmm|]. destruct Hcase as [[Hs0 Hno]|(Hsz & Hb & Hs & l1 & l2 & -> & ->)].
  { rewrite Hs0. apply wp_ret. by left. }
  rewrite (proj2 (Z.eqb_neq (size mm) 0)) by lia.
  destruct (is_set (attr mm) MT_DYNAMIC) eqn:Hd; cbn [negb]; [|apply wp_ret; right; left;
    split_and!; [done|done|]; exists mm; split_and!; (done || set_solver)].
  pose proof (rw_fits _ _ Hr) as Hfits. destruct (rw_space _ _ Hr) as [Hvs Hps].
  pose proof Hfits as Hf12. apply Forall_app in Hf12 as [Hf1 [Hf Hf2]%Forall_cons].
  assert (Forall (region_fits (va_max_address c) (pa_max_address c)) (l1 ++ l2)) as Hf3 by (by apply Forall_app).
  destruct (fits_ends (va_max_address c) (pa_max_address c) (l1 ++ l2)) as [Hev Hep]; [lia|lia|done|].
  destruct (regions_wf_remove _ _ _ _ Hr) as (ms & zs & Hmove & -> & Hne & Hzs & Hwf').
  destruct (max_end_run region_end_va _ zs 0 (va_max_address c) Hne Hzs Hev) as (mv & Hmv & Hmvb); [lia|].
  destruct (max_end_run region_end_pa _ zs 0 (pa_max_address c) Hne Hzs Hep) as (mp & Hmp & Hmpb); [lia|].
  destruct (rw_max _ _ Hr) as [Hmax1 Hmax2].
  (* the tables *)
  wp_step. eapply (wp_mono _ (fun _ c1 => same_conf c c1 /\ (initialized c = true -> tables_hold c1 (l1 ++ l2))));
    [| |done].
  { apply wp_when; intros Hini; [|split; [apply same_conf_refl|congruence]]. wp_step.
    eapply wp_mono; [apply (wp_unmap_from_base c (l1 ++ l2) mm); try done; try lia| |done].
    - specialize (Htab Hini). assert (l1 ++ mm :: l2 ≡ₚ (l1 ++ l2) ++ [mm]) as <- by solve_Permutation. done.
    - by eapply sorted_apart; [apply Hr|].
    - intros [] c1 [Hs1 Ht1]. unfold xlat_arch_tlbi_va_sync, emit. wp_step.
      split; [by eapply same_conf_trans; [exact Hs1|]|]. intros _.
      destruct Ht1 as [[lab Hl] Hw]. split; [exists lab; by apply (wf_traced [TlbiSync])|].
      intros v Hv. cbn in *. rewrite (walk_same c1); [by apply Hw|by intros []|done..]. }
  intros [] c1 [Hs1 Ht1]. wp_step. eapply wp_deref; [exact Hmove|]. unfold put_regions. wp_steps.
  (* the maxima *)
  assert (forall v p, 0 <= v <= va_max_address c -> 0 <= p <= pa_max_address c ->
    remove_post c (l1 ++ mm :: l2) va sz 0 (set_regions ((l1 ++ l2) ++ zs) p v c1)) as Hend.
  { intros v p Hv Hp. right; right. split; [done|]. exists mm, l1, l2. cbn.
    assert (initialized c1 = initialized c /\ xlat_regime c1 = xlat_regime c) as [Ei Er] by (by rewrite Hs1).
    split_and!; try done. constructor; cbn; [|by rewrite Ei; intros Hini; apply tables_hold_regions, Ht1|by rewrite Er].
    apply (regions_wf_same (set_regions ((l1 ++ l2) ++ zs) p v c)); try done;
      [by apply (Hwf' p v)|by cbn; rewrite Hs1..]. }
  assert (max_va c1 = max_va c /\ max_pa c1 = max_pa c) as [Em Ep] by (by rewrite Hs1).
  apply wp_when; intros _.
  - wp_step. eapply wp_deref; [exact Hmv|]. wp_steps. apply wp_when; intros _.
    + wp_step. eapply wp_deref; [exact Hmp|]. wp_steps. cbn. by apply (Hend mv mp).
    + wp_steps. cbn. rewrite Ep. by apply (Hend mv (max_pa c)).
  - wp_step. apply wp_when; intros _.
    + wp_step. eapply wp_deref; [exact Hmp|]. wp_steps. cbn. rewrite Em. by apply (Hend (max_va c) mp).
    + wp_steps. cbn. rewrite Em, Ep. by apply (Hend (max_va c) (max_pa c)).
Qed.

(** ** Adding a region *)

Definition dynamic_of (mm : mmap_region) : mmap_region := with_attr (Z.lor (attr mm) MT_DYNAMIC) mm.

Lemma dynamic_of_typed mm : region_typed mm -> region_typed (dynamic_of mm).
Proof.
  unfold region_typed, dynamic_of. cbn. intros (? & ? & ? & Ha & ?). split_and!; try (done || lia).
  - apply Z.lor_nonneg. split; [lia|done].
  - destruct (decide (attr mm = 0)) as [->|]; [done|].
    assert (0 < Z.lor (attr mm) MT_DYNAMIC) as Hpos.
    { assert (0 <= Z.lor (attr mm) MT_DYNAMIC) by (apply Z.lor_nonneg; split; [lia|done]).
      destruct (decide (Z.lor (attr mm) MT_DYNAMIC = 0)) as [Hz|]; [|lia].
      apply Z.lor_eq_0_iff in Hz. lia. }
    apply Z.log2_lt_pow2; [done|]. rewrite Z.log2_lor by (done || lia).
    change (Z.log2 MT_DYNAMIC) with 31. pose proof (Z.log2_lt_pow2 (attr mm) 32). lia.
Qed.

Lemma dynamic_of_set mm : is_set (attr (dynamic_of mm)) MT_DYNAMIC = true.
Proof.
  unfold is_set, dynamic_of. cbn [attr with_attr MAP_REGION_FULL_SPEC]. apply negb_true_iff, Z.eqb_neq.
  rewrite Z.land_lor_distr_l, Z.land_diag. intros Hz. apply Z.lor_eq_0_iff in Hz as [_ Hz]. done.
Qed.

(** The tables ran out while the region was mapped. *)
Definition ran_out (c : xlat_ctx) (mm : mmap_region) : Prop :=
  exists ms e c1, map_from_base mm (set_regions ms (max_pa c) (max_va c) c) = Done e c1 /\
    e <> region_end_va mm /\ no_free c1.

(** What [mmap_add_dynamic_region_ctx] returns and does. *)
Definition add_post (c : xlat_ctx) (rs : list mmap_region) (mm : mmap_region) (r : Z) (c' : xlat_ctx) : Prop :=
  (size mm = 0 /\ r = 0 /\ c' = c) \/
  (0 < size mm /\ r = check_spec c rs (dynamic_of mm) /\ r <> 0 /\ c' = c) \/
  (0 < size mm /\ check_spec c rs (dynamic_of mm) = 0 /\ r = 0 /\ exists l1 l2, rs = l1 ++ l2 /\
     xlat_inv c' (l1 ++ dynamic_of mm :: l2) /\
     initialized c' = initialized c /\ xlat_regime c' = xlat_regime c) \/
  (r = - ENOMEM /\ initialized c = true /\ ran_out c (dynamic_of mm)).

(** The array with the region, before it is mapped. *)
Lemma insert_dynamic c rs mm :
  regions_wf c rs -> region_typed mm -> 0 < size mm -> check_spec c rs mm = 0 ->
  exists l1 l2 zs ms y, rs = l1 ++ l2 /\ insert_pos mm (mmap c) = Some (Z.of_nat (length l1)) /\
    memmove_regions (Z.of_nat (length l1) + 1) (Z.of_nat (length l1))
      (mmap_num c - Z.of_nat (length l1)) (mmap c) = Some ms /\
    ms.[mmap_num c] = Some y /\ size y = 0 /\
    zupdate ms (Z.of_nat (length l1)) mm = (l1 ++ mm :: l2) ++ zs /\
    forall mpa mva, 0 <= mva <= va_max_address c -> 0 <= mpa <= pa_max_address c ->
      regions_wf (set_regions ((l1 ++ mm :: l2) ++ zs) mpa mva c) (l1 ++ mm :: l2).
Proof.
  intros Hwf Ht Hsz Hc. destruct (check_spec_ok _ _ _ Hwf Ht Hsz Hc) as (Hf & Hroom & Hcomp).
  destruct (insert_pos_spec _ _ _ Hwf Hf) as (l1 & l2 & -> & Hpos & Hb1 & Hb2).
  pose proof Hwf as [(zs & Hmm & Hne & Hzs) [Hlen Hnum] _ _ _ _].
  destruct (exists_last Hne) as (zs' & z & ->). rewrite Hmm, !length_app in Hlen. cbn [length] in Hlen.
  rewrite length_app in Hroom. apply Forall_app in Hzs as [Hzs' _].
  assert (zs' <> []) as Hne' by (destruct zs'; [cbn in Hlen; lia|done]).
  destruct (memmove_up l1 (l2 ++ zs') [] z) as [x Hmove].
  destruct (exists_last Hne') as (zs2 & y & Hy).
  exists l1, l2, zs', (l1 ++ x :: (l2 ++ zs') ++ []), y. split_and!; try done.
  - rewrite length_app in Hmove.
    replace (mmap_num c - Z.of_nat (length l1)) with (Z.of_nat (length l2 + length zs')) by lia.
    rewrite Hmm. replace ((l1 ++ l2) ++ zs' ++ [z]) with (l1 ++ (l2 ++ zs') ++ [z]) by (by rewrite <- !app_assoc).
    exact Hmove.
  - rewrite app_nil_r, Hy. rewrite Hy, length_app in Hlen. cbn [length] in Hlen.
    replace (l1 ++ x :: l2 ++ zs2 ++ [y]) with ((l1 ++ x :: l2 ++ zs2) ++ [y])
      by (rewrite <- app_assoc; cbn; by rewrite <- app_assoc).
    rewrite zlookup_to_nat, lookup_app_r by (rewrite ?length_app; cbn [length]; rewrite ?length_app; lia).
    match goal with |- [y] !! ?n = _ => replace n with 0%nat; [done|] end.
    rewrite ?length_app. cbn [length]. rewrite ?length_app. lia.
  - rewrite Hy in Hzs'. by apply Forall_app in Hzs' as [_ [? _]%Forall_cons].
  - rewrite app_nil_r, zupdate_middle. by rewrite <- app_assoc.
  - intros mpa mva Hmva Hmpa. apply regions_wf_insert; try done.
    rewrite !length_app. cbn [length]. lia.
Qed.

Lemma wp_add_dynamic c rs mm :
  xlat_inv c rs -> region_typed mm -> attrs_valid (xlat_regime c) (dynamic_of mm) ->
  wp (mmap_add_dynamic_region_ctx mm) (add_post c rs mm)
    (fun _ _ => initialized c = true /\ ran_out c (dynamic_of mm)) c.
Proof.
  intros [Hr Htab Hel] Hty Hattr. unfold mmap_add_dynamic_region_ctx.
  destruct (Z.eqb_spec (size mm) 0) as [Hz|Hz]; [apply wp_ret; by left|].
  assert (0 < size mm) as Hsz by (unfold region_typed in Hty; lia). fold (dynamic_of mm).
  apply dynamic_of_typed in Hty. pose proof (dynamic_of_set mm) as Hset.
  assert (size (dynamic_of mm) = size mm) as Esz by done.
  set (m := dynamic_of mm) in *. wp_step.
  eapply wp_exact; [apply add_region_check_run; try done; lia|].
  destruct (Z.eqb_spec (check_spec c rs m) 0) as [Hc|Hc]; cbn [negb]; [|apply wp_ret; by right; left].
  destruct (insert_dynamic c rs m Hr Hty ltac:(lia) Hc) as
    (l1 & l2 & zs & ms & y & -> & Hpos & Hmove & Hy & Hy0 & Hup & Hwf').
  destruct (check_spec_ok _ _ _ Hr Hty ltac:(lia) Hc) as (Hf & Hroom & Hcomp).
  wp_steps. unfold id. eapply wp_deref; [exact Hpos|]. wp_step. eapply wp_deref; [exact Hmove|].
  unfold put_regions. wp_steps. eapply wp_deref; [exact Hy|]. wp_step. apply wp_assert; [by rewrite Hy0|].
  wp_steps. rewrite Hup. cbn [max_pa max_va set_regions].
  set (c2 := set_regions ((l1 ++ m :: l2) ++ zs) (max_pa c) (max_va c) c).
  change (set_regions _ (max_pa c) (max_va c) (set_regions _ _ _ c)) with c2.
  destruct (raised_bounds _ _ _ Hr Hf) as [Hrv Hrp]. destruct (rw_space _ _ Hr) as [Hvs Hps].
  assert (forall c3, same_conf c2 c3 -> (initialized c = true -> tables_hold c3 (l1 ++ m :: l2)) ->
    add_post c (l1 ++ l2) mm 0 (set_regions (mmap c3) (raised (max_pa c3) (region_end_pa m))
      (raised (max_va c3) (region_end_va m)) c3)) as Hend.
  { intros c3 Hs3 Ht3. right; right; left. split_and!; try done. exists l1, l2.
    destruct (same_conf_ctx _ _ Hs3) as (Ei & Ep & Ev & En & Epm).
    destruct (same_conf_fields _ _ Hs3) as (_ & _ & Evm & _ & _ & Er & Em).
    split_and!; [done| |by cbn; rewrite Ei|by cbn; rewrite Er].
    constructor; cbn [initialized xlat_regime set_regions]; rewrite ?Ei, ?Er; [|by intros Hi; apply tables_hold_regions, Ht3|done].
    rewrite Em, Ep, Ev. eapply regions_wf_same; [by apply (Hwf' _ _ Hrv Hrp)|..]; cbn; by rewrite ?En, ?Evm, ?Epm. }
  destruct (initialized c) eqn:Hi; [|wp_steps; cbv beta iota; unfold raise_max; wp_steps;
    by apply (Hend c2 (same_conf_refl c2))].
  unfold map_dynamic. wp_step.
  assert (tables_hold c2 (l1 ++ l2)) as Ht2 by (by apply tables_hold_regions, Htab).
  assert (Forall (va_apart m) (l1 ++ l2)) as Hap.
  { eapply Forall_impl; [exact Hcomp|]. intros r Hmr. by apply dynamic_apart. }
  assert (wp (map_from_base m) (fun e c3 => (e = region_end_va m /\ same_conf c2 c3 /\
      tables_hold c3 ((l1 ++ l2) ++ [m])) \/ (e <> region_end_va m /\ ran_out c m)) no_stop c2) as Hmap'.
  { opose proof* (wp_map_from_base c2 (l1 ++ l2) m Ht2) as Hmap; try done; try (cbn; lia).
    - intros r Hin. apply (fit_size _ _ _ (proj1 (Forall_forall _ _) (rw_fits _ _ Hr) r Hin)).
    - intros r Hin. left. pose proof (proj1 (Forall_forall _ _) Hap r Hin) as Hx. unfold va_apart in *. lia.
    - unfold wp in *. destruct (map_from_base m c2) as [e c3|w c3] eqn:Hrun;
        [|destruct Hmap as (? & _); congruence].
      destruct Hmap as [Hmap|(He & _ & Hfree)]; [by left|right]. split; [done|].
      by exists ((l1 ++ m :: l2) ++ zs), e, c3. }
  eapply wp_mono; [exact Hmap'| |done]. intros e c3 [(-> & Hs3 & Ht3)|[He Hout]].
  - rewrite Z.eqb_refl. cbn [negb]. unfold emit. wp_steps. unfold raise_max. wp_steps.
    match goal with |- add_post _ _ _ _ (set_regions _ _ _ ?x) => apply (Hend x) end.
    + by eapply same_conf_trans; [exact Hs3|].
    + intros _. assert (l1 ++ m :: l2 ≡ₚ (l1 ++ l2) ++ [m]) as -> by solve_Permutation.
      destruct Ht3 as [[lab Hl] Hw]. split; [exists lab; by apply (wf_traced [DsbIshst])|].
      intros v Hv. cbn in *. rewrite (walk_same c3); [by apply Hw|by intros []|done..].
  - rewrite (proj2 (Z.eqb_neq _ _) He). cbn [negb].
    match goal with |- wp ?k _ _ ?s => enough (wp k (fun r _ => r = Some (- ENOMEM)) (fun _ _ => True) s) as Hk end.
    { eapply wp_mono; [apply Hk| |by intros; split]. intros r c4 ->. wp_steps. by right; right; right. }
    wp_steps. unfold deref.
    match goal with |- wp (match ?o with _ => _ end) _ _ _ => destruct o end; [|by apply wp_halt].
    unfold put_regions. wp_steps.
    match goal with |- wp (if ?b then _ else _) _ _ _ => destruct b end; wp_steps; [done|].
    match goal with |- wp ?u _ _ ?s => unfold wp; destruct (u s); done end.
Qed.

(** ** Adding and removing a region *)

(** The regions determine the translation. *)
Lemma translates_by_unique regime rs va o o' :
  (forall r s, r ∈ rs -> s ∈ rs -> r <> s -> compatible r s) ->
  translates_by regime rs va o -> translates_by regime rs va o' -> o = o'.
Proof.
  intros Hc Ho Ho'. destruct o as [t|], o' as [t'|]; cbn in *; [|naive_solver..].
  destruct Ho as (r & Hr & Hir & -> & Hmin), Ho' as (s & Hs & His & -> & Hmin').
  destruct (decide (r = s)) as [->|Hne]; [done|]. exfalso.
  specialize (Hmin s Hs His). specialize (Hmin' r Hr Hir). specialize (Hc r s Hr Hs Hne).
  unfold compatible, nested, inside, va_apart, va_top, in_region in *. case_decide; lia.
Qed.

Lemma regions_pairs c rs r s :
  regions_wf c rs -> r ∈ rs -> s ∈ rs -> r <> s -> compatible r s.
Proof.
  intros Hwf Hr Hs Hne. pose proof (rw_pairs _ _ Hwf) as Hp. clear Hwf.
  induction Hp as [|x l Hl IH Hall]; [set_solver|]. rewrite Forall_forall in Hall.
  apply elem_of_cons in Hr as [->|Hr], Hs as [->|Hs]; [done| | |by apply IH].
  - by apply Hall.
  - by apply compatible_sym, Hall.
Qed.

(** A region is the only one of the array with its range, when it is dynamic. *)
Lemma dynamic_only c l1 mm l2 s :
  regions_wf c (l1 ++ mm :: l2) -> is_set (attr mm) MT_DYNAMIC = true -> s ∈ l1 ++ mm :: l2 ->
  base_va s = base_va mm -> size s = size mm -> s = mm.
Proof.
  intros Hwf Hd Hs Hb Hz. destruct (decide (s = mm)) as [|Hne]; [done|]. exfalso.
  assert (compatible mm s) as Hc by (eapply regions_pairs; [exact Hwf|set_solver|done|congruence]).
  apply dynamic_apart in Hc; [|done]. pose proof (rw_fits _ _ Hwf) as Hf.
  pose proof (fit_size _ _ _ (proj1 (Forall_forall _ _) Hf s Hs)).
  unfold va_apart, va_top in Hc. lia.
Qed.

Lemma app_cons_unique {A} (x : A) k1 k2 y l1 l2 :
  k1 ++ x :: k2 = l1 ++ y :: l2 -> x = y -> x ∉ k1 -> x ∉ l1 -> k1 = l1 /\ k2 = l2.
Proof.
  intros Heq ->. revert l1 Heq. induction k1 as [|a k1 IH]; intros [|b l1] [=] Hk Hl; simplify_eq; try done.
  - set_solver.
  - set_solver.
  - destruct (IH l1) as [-> ->]; [done|set_solver|set_solver|done].
Qed.

(** No region is in the array twice. *)
Lemma before_not_in c l1 mm l2 : regions_wf c (l1 ++ mm :: l2) -> mm ∉ l1.
Proof.
  intros Hwf Hin. pose proof (rw_pairs _ _ Hwf) as Hs.
  eapply StronglySorted_app_1_elem_of in Hs as [_ Hc]; [|exact Hin|apply list_elem_of_here].
  pose proof (rw_fits _ _ Hwf) as Hf. apply Forall_app in Hf as [_ [Hf _]%Forall_cons].
  pose proof (fit_size _ _ _ Hf). unfold compatible, nested, inside, va_apart, va_top in Hc. case_decide; lia.
Qed.

Lemma inv_translate c rs va :
  xlat_inv c rs -> initialized c = true -> translates_by (xlat_regime c) rs va (translate c va).
Proof. intros [Hr Ht _] Hi. apply translate_hold; [by apply Ht|apply Hr]. Qed.

Lemma translates_by_add regime rs mm va o :
  Forall (va_apart mm) rs -> 0 < size mm -> translates_by regime rs va o ->
  translates_by regime (rs ++ [mm]) va
    (if decide (in_region mm va) then Some (region_result regime mm va) else o).
Proof.
  intros Hap Hsz Ho. rewrite Forall_forall in Hap. case_decide as Hin.
  - exists mm. split_and!; [set_solver|done|done|].
    intros s [Hs|Hs%list_elem_of_singleton]%elem_of_app His; [|subst; lia].
    specialize (Hap s Hs). unfold va_apart, va_top, in_region in *. lia.
  - destruct o as [t|]; cbn in *.
    + destruct Ho as (r & Hr & Hir & -> & Hmin). exists r. split_and!; [set_solver|done|done|].
      intros s [Hs|Hs%list_elem_of_singleton]%elem_of_app His; [by apply Hmin|by subst].
    + intros r [Hr|Hr%list_elem_of_singleton]%elem_of_app; [by apply Ho|by subst].
Qed.

(** From the regions to the translations, after a region was added or removed. *)
Lemma inv_added c c' l1 mm l2 va :
  xlat_inv c (l1 ++ l2) -> xlat_inv c' (l1 ++ mm :: l2) -> initialized c = true ->
  initialized c' = initialized c -> xlat_regime c' = xlat_regime c ->
  is_set (attr mm) MT_DYNAMIC = true ->
  translate c' va = if decide (in_region mm va) then Some (region_result (xlat_regime c) mm va)
                    else translate c va.
Proof.
  intros Hc Hc' Hi Hi' Er Hd. pose proof (xi_regions _ _ Hc') as Hr'.
  pose proof (sorted_apart _ _ _ (rw_pairs _ _ Hr') Hd) as Hap.
  assert (0 < size mm) as Hsz.
  { pose proof (rw_fits _ _ Hr') as Hf. apply Forall_app in Hf as [_ [Hf _]%Forall_cons].
    apply (fit_size _ _ _ Hf). }
  assert (l1 ++ mm :: l2 ≡ₚ (l1 ++ l2) ++ [mm]) as Hp by solve_Permutation.
  eapply translates_by_unique; [by intros r s; eapply regions_pairs|apply (inv_translate _ _ va Hc'); congruence|].
  rewrite Hp, Er. apply translates_by_add; try done. by apply inv_translate.
Qed.

Lemma inv_removed c c' l1 mm l2 va :
  xlat_inv c (l1 ++ mm :: l2) -> xlat_inv c' (l1 ++ l2) -> initialized c = true ->
  initialized c' = initialized c -> xlat_regime c' = xlat_regime c ->
  is_set (attr mm) MT_DYNAMIC = true ->
  translate c' va = if decide (in_region mm va) then None else translate c va.
Proof.
  intros Hc Hc' Hi Hi' Er Hd. pose proof (xi_regions _ _ Hc) as Hr.
  pose proof (sorted_apart _ _ _ (rw_pairs _ _ Hr) Hd) as Hap.
  assert (l1 ++ mm :: l2 ≡ₚ (l1 ++ l2) ++ [mm]) as Hp by solve_Permutation.
  eapply translates_by_unique; [by intros r s; eapply regions_pairs, Hc'|apply (inv_translate _ _ va Hc'); congruence|].
  rewrite Er. apply translates_by_drop; [done|]. rewrite <- Hp. by apply inv_translate.
Qed.

(** C6. Adding a region while the tables are in use: when the region
    passes the checks and the tables suffice, the call returns 0, the walk of
    every address of the region ends at its physical address with its
    attributes, every other address translates as before, and the invariant of
    the context holds with the region added. A region that fails the checks
    is answered with their error and nothing changes. The remaining outcomes
    are those of a pool that runs out of tables while the region is mapped. *)
Theorem dynamic_add_translates c rs mm :
  xlat_inv c rs -> initialized c = true -> region_typed mm -> 0 < size mm ->
  attrs_valid (xlat_regime c) (dynamic_of mm) ->
  wp (mmap_add_dynamic_region_ctx mm)
    (fun r c' =>
      (r = 0 /\ check_spec c rs (dynamic_of mm) = 0 /\
       (exists rs', rs' ≡ₚ dynamic_of mm :: rs /\ xlat_inv c' rs') /\
       forall va, translate c' va =
         if decide (in_region mm va) then Some (region_result (xlat_regime c) (dynamic_of mm) va)
         else translate c va) \/
      (r = check_spec c rs (dynamic_of mm) /\ r <> 0 /\ c' = c) \/
      (r = - ENOMEM /\ ran_out c (dynamic_of mm)))
    (fun _ _ => ran_out c (dynamic_of mm)) c.
Proof.
  intros Hinv Hi Hty Hsz Ha. eapply wp_mono; [by eapply wp_add_dynamic| |by intros w c' [_ ?]].
  intros r c' [(? & _)|[(_ & ? & ? & ?)|[(_ & Hc & -> & l1 & l2 & -> & Hinv' & Hi' & Er)|(? & _ & ?)]]];
    [lia|by right; left| |by right; right].
  left. split_and!; [done|done| |].
  { exists (l1 ++ dynamic_of mm :: l2). split; [solve_Permutation|done]. }
  intros va. by rewrite (inv_added c c' l1 (dynamic_of mm) l2) by (done || apply dynamic_of_set).
Qed.

(** C7. Removing a region: the call always returns. It answers 0 when a
    dynamic region has this base and size; then no address of the region
    translates any more, every other address does as before, and the invariant
    holds for the other regions. It answers [-EPERM] for a static region and
    [-EINVAL] when there is none, and changes nothing. *)
Theorem dynamic_remove_translates c rs va sz :
  xlat_inv c rs -> initialized c = true ->
  wpd (mmap_remove_dynamic_region_ctx va sz)
    (fun r c' =>
      (r = 0 /\ exists mm, mm ∈ rs /\ base_va mm = va /\ size mm = sz /\ is_set (attr mm) MT_DYNAMIC = true /\
         (exists rs', mm :: rs' ≡ₚ rs /\ xlat_inv c' rs') /\
         forall a, translate c' a = if decide (va <= a < va + sz) then None else translate c a) \/
      (r = - EPERM /\ c' = c /\
       exists mm, mm ∈ rs /\ base_va mm = va /\ size mm = sz /\ is_set (attr mm) MT_DYNAMIC = false) \/
      (r = - EINVAL /\ c' = c /\ forall mm, mm ∈ rs -> ~ (base_va mm = va /\ size mm = sz))) c.
Proof.
  intros Hinv Hi. eapply wp_mono; [by eapply wp_remove_dynamic| |done].
  intros r c' [?|[?|(-> & mm & l1 & l2 & -> & <- & <- & Hd & Hinv' & Hi' & Er)]];
    [by right; right|by right; left|left]. split; [done|].
  exists mm. split_and!; [set_solver|done|done|done| |].
  { exists (l1 ++ l2). split; [solve_Permutation|done]. }
  intros a.
  rewrite (inv_removed c c' l1 mm l2); try done.
Qed.

(** C19. In an image with dynamic regions, on tables that satisfy the invariant,
    adding a non-empty region with a valid attribute encoding and removing it
    again by its base address and size is the identity: when the addition
    answers 0 so does the removal, every address translates as before both, and
    the invariant holds for the same list of regions as before. The code stops
    only if it uses up the pool of tables. *)
Theorem dynamic_add_remove c rs mm :
  xlat_inv c rs -> initialized c = true -> region_typed mm -> 0 < size mm ->
  attrs_valid (xlat_regime c) (dynamic_of mm) ->
  wp (let! a := mmap_add_dynamic_region_ctx mm in
      let! r := (if a =? 0 then mmap_remove_dynamic_region_ctx (base_va mm) (size mm) else ret a) in
      ret (a, r))
    (fun '(a, r) c' => r = a /\ (a = 0 -> xlat_inv c' rs /\ forall va, translate c' va = translate c va))
    (fun _ _ => ran_out c (dynamic_of mm)) c.
Proof.
  intros Hinv Hi Hty Hsz Ha. wp_step. eapply wp_mono; [by eapply wp_add_dynamic| |by intros w c' [_ ?]].
  intros a c1 [(? & _)|[(_ & ? & Hne & ->)|[(_ & Hc & -> & l1 & l2 & -> & Hinv1 & Hi1 & Er)|(-> & _ & ?)]]]; [lia| | |].
  - rewrite (proj2 (Z.eqb_neq _ _) Hne). by wp_steps.
  - cbn [Z.eqb]. wp_step. pose proof (dynamic_of_set mm) as Hset.
    eapply wp_mono; [by eapply wp_remove_dynamic| |done].
    intros r c' Hpost. wp_steps. unfold remove_post in Hpost.
    destruct Hpost as [(_ & _ & Hno)|[(_ & _ & s & Hs & Hb & Hz & Hd)|
      (-> & m & k1 & k2 & Hl & Hb & Hz & Hd & Hinv' & Hi' & Er')]].
    + destruct (Hno (dynamic_of mm)); [set_solver|done].
    + rewrite (dynamic_only c1 l1 (dynamic_of mm) l2 s (xi_regions _ _ Hinv1)) in Hd by done. congruence.
    + assert (m = dynamic_of mm) as ->.
      { eapply (dynamic_only c1 l1 _ l2); [apply Hinv1|done|rewrite Hl; set_solver|done|done]. }
      split; [done|]. intros _.
      assert (k1 ++ k2 = l1 ++ l2) as Heq.
      { destruct (app_cons_unique _ k1 k2 _ l1 l2 (eq_sym Hl) eq_refl) as [-> ->]; [| |done].
        - eapply before_not_in. rewrite <- Hl. apply (xi_regions _ _ Hinv1).
        - eapply before_not_in, (xi_regions _ _ Hinv1). }
      rewrite Heq in Hinv'. split; [done|]. intros va.
      rewrite (inv_removed c1 c' l1 (dynamic_of mm) l2), (inv_added c c1 l1 (dynamic_of mm) l2) by
        (done || congruence). case_decide as Hin; [|done].
      pose proof (inv_translate _ _ va Hinv Hi) as Ht. destruct (translate c va) as [t|]; [|done].
      destruct Ht as (r & Hr & Hir & _). exfalso.
      pose proof (sorted_apart _ _ _ (rw_pairs _ _ (xi_regions _ _ Hinv1)) Hset) as Hap.
      pose proof (proj1 (Forall_forall _ _) Hap r Hr) as Ha'. unfold va_apart, va_top, in_region in *. lia.
  - by wp_steps.
Qed.
End Dynamic.
