(* ===== verification/XlatUtils.v ===== *)
(** * Translation tables: attributes of mapped memory, and the MMU registers
    (lib/xlat_tables_v2/xlat_tables_utils.c, xlat_tables_context.c and
    aarch64/xlat_tables_arch.c)

    Looking up the descriptor of an address, reading and changing its
    attributes, the functions on the image's own context, and the values of the
    MMU registers. Printing of the tables is left out. *)

From stdpp Require Import list_numbers.
From S2P Require Import Prelude XlatDefs XlatCore.
#[local] Open Scope cmd_scope.

Section Utils.
Context `{XlatConfig}.
Abbreviation xcmd := (cmd xlat_ctx).
Abbreviation assert := (assert_ true).

(** ** xlat_tables_utils.c *)

(** The loop of [find_xlat_table_entry]: the table, the index and the level of
    the descriptor. [fuel] is the number of levels that are left. *)
Fixpoint find_loop (fuel : nat) (virtual_addr : Z) (table : table_ptr) (entries level : Z) :
    xcmd (option (table_ptr * Z * Z)) :=
  match fuel with
  | O => assert false;; ret None
  | S fuel' =>
      let idx := XLAT_TABLE_IDX virtual_addr level in
      if entries <=? idx then ret None
      else
        let! desc := read_entry table idx in
        let desc_type := Z.land desc DESC_MASK in
        if desc_type =? INVALID_DESC then ret None
        else if level =? XLAT_TABLE_LEVEL_MAX then
          assert (desc_type =? PAGE_DESC);; ret (Some (table, idx, level))
        else if desc_type =? BLOCK_DESC then ret (Some (table, idx, level))
        else
          assert (desc_type =? TABLE_DESC);;
          let! subtable := subtable_of desc in
          find_loop fuel' virtual_addr subtable XLAT_TABLE_ENTRIES (level + 1)
  end.

Definition find_xlat_table_entry (virtual_addr : Z) (xlat_table_base : table_ptr)
    (xlat_table_base_entries virt_addr_space_size : Z) : xcmd (option (table_ptr * Z * Z)) :=
  let start_level := GET_XLAT_TABLE_LEVEL_BASE virt_addr_space_size in
  find_loop (levels_from start_level) virtual_addr xlat_table_base xlat_table_base_entries start_level.

(** The flags of a descriptor. *)
Definition attributes_of (regime desc : Z) : xcmd Z :=
  let attr_index := Z.land (Z.shiftr desc ATTR_INDEX_SHIFT) ATTR_INDEX_MASK in
  let! attributes :=
    (if attr_index =? ATTR_IWBWA_OWBWA_NTR_INDEX then ret MT_MEMORY
     else if attr_index =? ATTR_NON_CACHEABLE_INDEX then ret MT_NON_CACHEABLE
     else (assert (attr_index =? ATTR_DEVICE_INDEX);; ret MT_DEVICE)) in
  let ap2_bit := Z.land (Z.shiftr desc AP2_SHIFT) 1 in
  let attributes := if ap2_bit =? AP2_RW then Z.lor attributes MT_RW else attributes in
  let ap1_bit := Z.land (Z.shiftr desc AP1_SHIFT) 1 in
  let attributes :=
    if (regime =? EL1_EL0_REGIME) && (ap1_bit =? AP1_ACCESS_UNPRIVILEGED)
    then Z.lor attributes MT_USER else attributes in
  let! xn_mask := xlat_arch_regime_get_xn_desc regime in
  if Z.land desc xn_mask =? xn_mask then ret (Z.lor attributes MT_EXECUTE_NEVER)
  else (assert (Z.land desc xn_mask =? 0);; ret attributes).

(** The attributes, the table and index of the descriptor, the physical address
    and the level; [None] is the error [-EINVAL]. *)
Definition xlat_get_mem_attributes_internal (base_va : Z) :
    xcmd (option (Z * (table_ptr * Z) * Z * Z)) :=
  let! c := gets id in
  assert (initialized c);;
  assert ((xlat_regime c =? EL1_EL0_REGIME) || (xlat_regime c =? EL2_REGIME) ||
          (xlat_regime c =? EL3_REGIME));;
  let virt_addr_space_size := u64 (va_max_address c + 1) in
  assert (0 <? virt_addr_space_size);;
  let! entry := find_xlat_table_entry base_va Base (base_table_entries c) virt_addr_space_size in
  match entry with
  | None => ret None
  | Some (table, idx, level) =>
      let! desc := read_entry table idx in
      let! attributes := attributes_of (xlat_regime c) desc in
      ret (Some (attributes, (table, idx), Z.land desc TABLE_ADDR_MASK, level))
  end.

(** The error, and the attributes and level on success. *)
Definition xlat_get_mem_attributes_ctx (base_va : Z) : xcmd (Z * option (Z * Z)) :=
  let! r := xlat_get_mem_attributes_internal base_va in
  ret (match r with
       | None => (- EINVAL, None)
       | Some (attributes, _, _, level) => (0, Some (attributes, level))
       end).

(** The sanity checks of [n] pages; [false] is the error [-EINVAL]. *)
Fixpoint check_pages (n : nat) (base_va space attr : Z) : xcmd bool :=
  match n with
  | O => ret true
  | S n' =>
      let! c := gets id in
      let! entry := find_xlat_table_entry base_va Base (base_table_entries c) space in
      match entry with
      | None => ret false
      | Some (table, idx, level) =>
          let! desc := read_entry table idx in
          if negb (Z.land desc DESC_MASK =? PAGE_DESC) || negb (level =? XLAT_TABLE_LEVEL_MAX)
          then ret false
          else
            let attr_index := Z.land (Z.shiftr desc ATTR_INDEX_SHIFT) ATTR_INDEX_MASK in
            if (attr_index =? ATTR_DEVICE_INDEX) && negb (is_set attr MT_EXECUTE_NEVER)
            then ret false
            else check_pages n' (u64 (base_va + PAGE_SIZE)) space attr
      end
  end.

(** The flags that may change. *)
Definition MT_CHANGE_MASK : Z := Z.lor (Z.lor MT_RW MT_EXECUTE_NEVER) MT_USER.

(** The new descriptor of a page. *)
Definition new_desc (old_attr addr_pa level old_desc attr : Z) : xcmd Z :=
  let! c := gets id in
  let new_attr := Z.lor (Z.ldiff old_attr MT_CHANGE_MASK) (Z.land attr MT_CHANGE_MASK) in
  let! desc := xlat_desc new_attr addr_pa level in
  let desc := Z.lor desc (Z.land old_desc (LOWER_ATTRS NS)) in
  ret (if is_feat_rme_supported && (xlat_regime c =? EL3_REGIME)
       then Z.lor desc (Z.land old_desc (LOWER_ATTRS EL3_S1_NSE)) else desc).

(** One page: break-before-make. *)
Definition change_page (base_va attr : Z) : xcmd unit :=
  let! c := gets id in
  let! r := xlat_get_mem_attributes_internal base_va in
  match r with
  | None => halt MemFault
  | Some (old_attr, (table, idx), addr_pa, level) =>
      let! old_desc := read_entry table idx in
      let! desc := new_desc old_attr addr_pa level old_desc attr in
      write_entry table idx INVALID_DESC;;
      xlat_arch_tlbi_va base_va (xlat_regime c);;
      xlat_arch_tlbi_va_sync;;
      write_entry table idx desc
  end.

Fixpoint change_pages (n : nat) (base_va attr : Z) : xcmd unit :=
  match n with
  | O => ret tt
  | S n' => change_page base_va attr;; change_pages n' (u64 (base_va + PAGE_SIZE)) attr
  end.

(** The loops count pages in 32 bits: with more pages than that they never end
    by themselves, and the checks go on until an address, of the [2^52] pages of
    64 bits, is refused. *)
Definition xlat_change_mem_attributes_ctx (base_va size attr : Z) : xcmd Z :=
  let! c := gets id in
  assert (initialized c);;
  let virt_addr_space_size := u64 (va_max_address c + 1) in
  assert (0 <? virt_addr_space_size);;
  if negb (IS_PAGE_ALIGNED base_va) then ret (- EINVAL)
  else if size =? 0 then ret (- EINVAL)
  else if negb (size mod PAGE_SIZE =? 0) then ret (- EINVAL)
  else if negb (is_set attr MT_EXECUTE_NEVER) && is_set attr MT_RW then ret (- EINVAL)
  else
    let pages_count := size / PAGE_SIZE in
    let endless := 2 ^ 32 <=? pages_count in
    let! ok := check_pages (Z.to_nat (if endless then 2 ^ 52 else pages_count)) base_va
                 virt_addr_space_size attr in
    if negb ok then ret (- EINVAL)
    else if endless then halt NoReturn
    else
      change_pages (Z.to_nat pages_count) base_va attr;;
      emit DsbIsh;;
      ret 0.

(** ** xlat_tables_context.c: the functions on the image's own context *)

Definition mmap_add_region (base_pa base_va size attr : Z) : xcmd unit :=
  mmap_add_region_ctx (MAP_REGION base_pa base_va size attr).

Definition mmap_add (mms : list mmap_region) : xcmd unit := mmap_add_ctx mms.

Definition MAP_REGION_ALLOC_VA (pa sz attr : Z) : mmap_region := MAP_REGION pa 0 sz attr.

(** The virtual address is returned. *)
Definition mmap_add_region_alloc_va (base_pa size attr : Z) : xcmd Z :=
  let! mm := mmap_add_region_alloc_va_ctx (MAP_REGION_ALLOC_VA base_pa size attr) in
  ret (base_va mm).

(** The array [mms] is returned as the calls leave it. *)
Fixpoint mmap_add_alloc_va (mms : list mmap_region) : xcmd (list mmap_region) :=
  match mms with
  | [] => halt MemFault
  | mm :: mms' =>
      if granularity mm =? 0 then ret mms
      else
        assert (base_va mm =? 0);;
        let! mm := mmap_add_region_alloc_va_ctx mm in
        let! rest := mmap_add_alloc_va mms' in
        ret (mm :: rest)
  end.

Definition mmap_add_dynamic_region (base_pa base_va size attr : Z) : xcmd Z :=
  mmap_add_dynamic_region_ctx (MAP_REGION base_pa base_va size attr).

Definition mmap_add_dynamic_region_alloc_va (base_pa size attr : Z) : xcmd (Z * Z) :=
  let! r := mmap_add_dynamic_region_alloc_va_ctx (MAP_REGION_ALLOC_VA base_pa size attr) in
  ret (fst r, base_va (snd r)).

Definition mmap_remove_dynamic_region (base_va size : Z) : xcmd Z :=
  mmap_remove_dynamic_region_ctx base_va size.

Definition xlat_get_mem_attributes (base_va : Z) : xcmd (Z * option Z) :=
  let! r := xlat_get_mem_attributes_ctx base_va in
  ret (fst r, fst <$> snd r).

Definition xlat_change_mem_attributes (base_va size attr : Z) : xcmd Z :=
  xlat_change_mem_attributes_ctx base_va size attr.

(** ** The MMU registers *)

Definition MAIR_ATTR_SET (attr index : Z) : Z := Z.shiftl attr (Z.shiftl index 3).
Definition MAKE_MAIR_NORMAL_MEMORY (inner outer : Z) : Z := Z.lor inner (Z.shiftl outer 4).
Definition MAIR_DEV_nGnRnE : Z := 0x0.
Definition MAIR_NORM_NC : Z := 0x4.
Definition MAIR_NORM_WB_NTR_RWA : Z := 0xf.
Definition ATTR_NON_CACHEABLE : Z := MAKE_MAIR_NORMAL_MEMORY MAIR_NORM_NC MAIR_NORM_NC.
Definition ATTR_DEVICE : Z := MAIR_DEV_nGnRnE.
Definition ATTR_IWBWA_OWBWA_NTR : Z := MAKE_MAIR_NORMAL_MEMORY MAIR_NORM_WB_NTR_RWA MAIR_NORM_WB_NTR_RWA.

Definition ADDR_MASK_48_TO_63 : Z := 0xFFFF000000000000.
Definition ADDR_MASK_44_TO_47 : Z := 0x0000F00000000000.
Definition ADDR_MASK_42_TO_43 : Z := 0x00000C0000000000.
Definition ADDR_MASK_40_TO_41 : Z := 0x0000030000000000.
Definition ADDR_MASK_36_TO_39 : Z := 0x000000F000000000.
Definition ADDR_MASK_32_TO_35 : Z := 0x0000000F00000000.
Definition TCR_PS_BITS_4GB : Z := 0x0.
Definition TCR_PS_BITS_64GB : Z := 0x1.
Definition TCR_PS_BITS_1TB : Z := 0x2.
Definition TCR_PS_BITS_4TB : Z := 0x3.
Definition TCR_PS_BITS_16TB : Z := 0x4.
Definition TCR_PS_BITS_256TB : Z := 0x5.

Definition tcr_physical_addr_size_bits (max_addr : Z) : xcmd Z :=
  assert (negb (is_set max_addr ADDR_MASK_48_TO_63));;
  ret (if is_set max_addr ADDR_MASK_44_TO_47 then TCR_PS_BITS_256TB
       else if is_set max_addr ADDR_MASK_42_TO_43 then TCR_PS_BITS_16TB
       else if is_set max_addr ADDR_MASK_40_TO_41 then TCR_PS_BITS_4TB
       else if is_set max_addr ADDR_MASK_36_TO_39 then TCR_PS_BITS_1TB
       else if is_set max_addr ADDR_MASK_32_TO_35 then TCR_PS_BITS_64GB
       else TCR_PS_BITS_4GB).

Definition TCR_EL3_RES1 : Z := Z.lor (Z.shiftl 1 31) (Z.shiftl 1 23).
Definition TCR_EL2_RES1 : Z := Z.lor (Z.shiftl 1 31) (Z.shiftl 1 23).
Definition TCR_EL1_IPS_SHIFT : Z := 32.
Definition TCR_EL2_PS_SHIFT : Z := 16.
Definition TCR_EL3_PS_SHIFT : Z := 16.
Definition TCR_T0SZ_SHIFT : Z := 0.
Definition TCR_RGN_INNER_NC : Z := Z.shiftl 0x0 8.
Definition TCR_RGN_INNER_WBA : Z := Z.shiftl 0x1 8.
Definition TCR_RGN_OUTER_NC : Z := Z.shiftl 0x0 10.
Definition TCR_RGN_OUTER_WBA : Z := Z.shiftl 0x1 10.
Definition TCR_SH_NON_SHAREABLE : Z := Z.shiftl 0x0 12.
Definition TCR_SH_INNER_SHAREABLE : Z := Z.shiftl 0x3 12.
Definition TCR_EPD1_BIT : Z := Z.shiftl 1 23.
Definition TCR_HPD_BIT : Z := Z.shiftl 1 24.
Definition TCR_HWU59_BIT : Z := Z.shiftl 1 25.
Definition TCR_HWU60_BIT : Z := Z.shiftl 1 26.
Definition TCR_HWU61_BIT : Z := Z.shiftl 1 27.
Definition TCR_HWU62_BIT : Z := Z.shiftl 1 28.
Definition TTBR_CNP_BIT : Z := 0x1.
Definition XLAT_TABLE_NC : Z := Z.shiftl 1 1.

(** [__builtin_ctzll] *)
Definition ctz64 (x : Z) : Z := Z.log2 (Z.land x (- x)).

(** The values of MAIR, TCR and TTBR0; [base_table] is the address of the base
    table. *)
Definition setup_mmu_cfg (flags base_table max_pa max_va regime : Z) : xcmd (Z * Z * Z) :=
  let mair := MAIR_ATTR_SET ATTR_DEVICE ATTR_DEVICE_INDEX in
  let mair := Z.lor mair (MAIR_ATTR_SET ATTR_IWBWA_OWBWA_NTR ATTR_IWBWA_OWBWA_NTR_INDEX) in
  let mair := Z.lor mair (MAIR_ATTR_SET ATTR_NON_CACHEABLE ATTR_NON_CACHEABLE_INDEX) in
  assert (max_va <? 2 ^ 64 - 1);;
  let virtual_addr_space_size := u64 (max_va + 1) in
  assert (xlat_get_min_virt_addr_space_size <=? virtual_addr_space_size);;
  assert (virtual_addr_space_size <=? MAX_VIRT_ADDR_SPACE_SIZE);;
  assert (IS_POWER_OF_TWO virtual_addr_space_size);;
  let t0sz := 64 - ctz64 virtual_addr_space_size in
  let tcr := Z.shiftl t0sz TCR_T0SZ_SHIFT in
  let tcr :=
    if is_set flags XLAT_TABLE_NC
    then Z.lor tcr (Z.lor (Z.lor TCR_SH_NON_SHAREABLE TCR_RGN_OUTER_NC) TCR_RGN_INNER_NC)
    else Z.lor tcr (Z.lor (Z.lor TCR_SH_INNER_SHAREABLE TCR_RGN_OUTER_WBA) TCR_RGN_INNER_WBA) in
  let! tcr_ps_bits := tcr_physical_addr_size_bits max_pa in
  let! tcr :=
    (if regime =? EL1_EL0_REGIME then
       ret (Z.lor tcr (Z.lor TCR_EPD1_BIT (Z.shiftl tcr_ps_bits TCR_EL1_IPS_SHIFT)))
     else if regime =? EL2_REGIME then
       ret (Z.lor tcr (Z.lor TCR_EL2_RES1 (Z.shiftl tcr_ps_bits TCR_EL2_PS_SHIFT)))
     else
       assert (regime =? EL3_REGIME);;
       ret (Z.lor tcr (Z.lor TCR_EL3_RES1 (Z.shiftl tcr_ps_bits TCR_EL3_PS_SHIFT)))) in
  let tcr :=
    if is_feat_morello_supported
    then Z.lor tcr (Z.lor (Z.lor (Z.lor (Z.lor TCR_HPD_BIT TCR_HWU59_BIT) TCR_HWU60_BIT)
                      TCR_HWU61_BIT) TCR_HWU62_BIT)
    else tcr in
  let ttbr0 := if is_feat_ttcnp_supported then Z.lor base_table TTBR_CNP_BIT else base_table in
  ret (mair, tcr, ttbr0).

Definition MAX_PHYS_ADDR (c : xlat_ctx) : Z :=
  if PLAT_XLAT_TABLES_DYNAMIC then pa_max_address c else max_pa c.

(** [enable_mmu_el1], [enable_mmu_el2] and [enable_mmu_el3], by their regime:
    the registers and then the assembly that enables the MMU. *)
Definition enable_mmu_el (regime flags base_table : Z) : xcmd unit :=
  let! c := gets id in
  let! params := setup_mmu_cfg flags base_table (MAX_PHYS_ADDR c) (va_max_address c) regime in
  emit (MmuOn regime (fst (fst params)) (snd (fst params)) (snd params) flags).

Definition enable_mmu (flags base_table : Z) : xcmd unit :=
  if current_el =? 1 then enable_mmu_el EL1_EL0_REGIME flags base_table
  else if current_el =? 2 then enable_mmu_el EL2_REGIME flags base_table
  else if current_el =? 3 then enable_mmu_el EL3_REGIME flags base_table
  else halt Panicked.

(** The tables are at the addresses they are mapped at. *)
Definition xlat_make_tables_readonly (base_table : Z) : xcmd Z :=
  let! c := gets id in
  assert (initialized c);;
  if (xlat_regime c =? EL1_EL0_REGIME) || (xlat_regime c =? EL3_REGIME) then
    emit (MmuOff (xlat_regime c));;
    let! rc := xlat_change_mem_attributes_ctx (tables_addr c) (tables_num c * XLAT_TABLE_SIZE)
                 (Z.lor MT_RO_DATA MT_SECURE) in
    enable_mmu_el (xlat_regime c) 0 base_table;;
    when (rc =? 0)
      (modify (fun c => set_flags (initialized c) (xlat_regime c) true c));;
    ret rc
  else (assert (xlat_regime c =? EL2_REGIME);; ret (-1)).
End Utils.
