(* ===== verification/XlatAttrs.v ===== *)
(** * Translation tables: reading and changing attributes

    The lookup of the library agrees with the walk of the MMU on the addresses
    of the context; the flags it reads are those a region was mapped with; a
    change of attributes keeps the physical addresses and their space and
    replaces the flags of exactly the pages it is asked for. *)

From stdpp Require Import list_numbers sorting.
From S2P Require Import Prelude XlatDefs XlatCore XlatWalk XlatShape XlatDesc XlatMap XlatUnmap XlatRegions XlatInit XlatBoot XlatDynamic XlatUtils.
#[local] Open Scope cmd_scope.

Section Attrs.
Context `{XlatConfig}.
Implicit Types (c : xlat_ctx) (lab : labels) (p q : table_ptr) (va : Z).

(** ** Looking up a descriptor *)

(** The descriptor that [find_xlat_table_entry] returns is the one the walk
    ends at. *)
Definition found (c : xlat_ctx) (lab : labels) (va : Z) (o : option (Z * Z))
    (r : option (table_ptr * Z * Z)) : Prop :=
  match r with
  | None => o = None
  | Some (q, k, l) => exists b d, label_of c lab q = Some (l, b) /\ entry_at c q k = Some d /\
      is_leaf l d = true /\ b + k * blk l <= va < b + (k + 1) * blk l /\ o = Some (leaf_result l d va)
  end.

(** The level of the descriptor at which a walk ends. *)
Fixpoint walk_level (fuel : nat) (c : xlat_ctx) (p : table_ptr) (level va : Z) : option Z :=
  match fuel with
  | O => None
  | S fuel' =>
      d ← entry_at c p (XLAT_TABLE_IDX va level);
      if is_leaf level d then Some level
      else if (level <? 3) && (d mod 4 =? 3) then
        q ← table_at_addr c (Z.land d TABLE_ADDR_MASK);
        walk_level fuel' c q (level + 1) va
      else None
  end.

Definition leaf_level (c : xlat_ctx) (va : Z) : option Z :=
  walk_level (levels_from (base_level c)) c Base (base_level c) va.

Lemma find_loop_run Q E N c lab fuel p l b va :
  wf Q E N c lab -> fuel = levels_from l -> label_of c lab p = Some (l, b) -> covers c p l b va ->
  exists r, find_loop fuel va p (entries_of c p) l c = Done r c /\
    found c lab va (walk fuel c p l va) r /\ walk_level fuel c p l va = snd <$> r.
Proof.
  intros Hwf. revert l p b. induction fuel as [|fuel IH]; intros l p b Hf Hp Hc.
  all: destruct (label_level _ _ _ _ _ _ _ _ Hwf Hp) as [Hl Hl0].
  { unfold levels_from, XLAT_TABLE_LEVEL_MAX in Hf. lia. }
  rewrite levels_from_S in Hf by lia. injection Hf as ->.
  destruct (covers_block _ _ _ _ _ _ _ _ _ Hwf Hp Hc) as (k & Hk & Hva).
  destruct (entry_some _ _ _ _ _ _ _ _ _ Hwf Hp Hk) as [d Hd].
  destruct (table_idx_covers _ _ _ _ _ _ _ _ _ Hwf Hp Hc) as [Hidx _].
  destruct (entry_block _ _ _ _ _ _ _ _ _ _ Hwf Hp Hk Hva) as [_ Hdiv]. rewrite Hdiv in Hidx.
  cbn [find_loop]. rewrite Hidx, (proj2 (Z.leb_gt _ _)) by lia.
  unfold read_entry, bind at 1 2, gets, id. rewrite Hd. cbn [deref ret]. rewrite desc_type_mod.
  unfold INVALID_DESC, PAGE_DESC, BLOCK_DESC, TABLE_DESC, XLAT_TABLE_LEVEL_MAX.
  rewrite (walk_entry _ _ _ _ _ _ _ _ _ _ _ _ Hwf Hp Hk Hva Hd).
  cbn [walk_level]. rewrite Hidx, Hd. cbn [mbind option_bind].
  destruct (wf_entry _ _ _ _ _ Hwf _ _ _ _ _ Hp Hd) as [[-> _]|[(Hl3 & i & -> & Hi)|[Hleaf _]]].
  - exists None. split; [done|]. cbn. unfold is_leaf. by destruct (l =? 3), (1 <=? l), (l <? 3).
  - destruct (leaf_not_table _ _ _ _ _ _ _ _ Hwf Hl3 Hi) as (-> & Hty & Hfollow). rewrite Hty, Hfollow.
    apply andb_true_iff in Hty as [_ Hty%Z.eqb_eq]. rewrite Hty, (proj2 (Z.eqb_neq l 3)) by lia.
    cbn [Z.eqb Pos.eqb]. unfold bind, assert_. cbn [andb negb ret mbind option_bind].
    assert (subtable_of (table_desc c i) c = Done (Sub i) c) as ->.
    { unfold subtable_of, bind, gets, id. by rewrite Hfollow. }
    change XLAT_TABLE_ENTRIES with (entries_of c (Sub i)).
    apply (IH (l + 1) (Sub i) (b + k * blk l)); [done|done|].
    unfold covers. cbn [entries_of]. rewrite <- blk_next by lia. lia.
  - rewrite Hleaf. exists (Some (p, k, l)). split; [|split; [cbn; exists b, d; done|done]].
    unfold is_leaf in Hleaf. destruct (l =? 3).
    + apply Z.eqb_eq in Hleaf. by rewrite Hleaf.
    + apply andb_true_iff in Hleaf as [_ Hleaf%Z.eqb_eq]. by rewrite Hleaf.
Qed.

(** The base level is the one the size of the address space gives. *)
Definition level_matches (c : xlat_ctx) : Prop :=
  base_level c = GET_XLAT_TABLE_LEVEL_BASE (u64 (va_max_address c + 1)).

(** Tables of the shape that mapping gives them. *)
Definition tables_wf (c : xlat_ctx) : Prop := exists Q E N lab, wf Q E N c lab.

Lemma find_entry_run Q E N c lab va :
  wf Q E N c lab -> level_matches c -> 0 <= va <= va_max_address c ->
  exists r, find_xlat_table_entry va Base (base_table_entries c) (u64 (va_max_address c + 1)) c = Done r c /\
    found c lab va (translate c va) r /\ leaf_level c va = snd <$> r.
Proof.
  intros Hwf Hl Hva. pose proof (wf_geo _ _ _ _ _ Hwf) as Hg. unfold find_xlat_table_entry. rewrite <- Hl.
  assert (translate c va = walk (levels_from (base_level c)) c Base (base_level c) va) as ->.
  { unfold translate. by rewrite !(proj2 (Z.leb_le _ _)) by lia. }
  apply (find_loop_run Q E N c lab _ Base _ 0); try done.
  unfold covers. cbn [entries_of]. rewrite (geo_va_max _ Hg) in Hva. lia.
Qed.

(** *** Addresses outside the space *)

(** The address that is looked up for [va]: an index has nine bits at every
    level, so that the bits above those of the base level do not count. *)
Definition looked_up (c : xlat_ctx) (va : Z) : Z := va mod (512 * blk (base_level c)).

Lemma table_idx_mod va l : 0 <= l <= 3 -> XLAT_TABLE_IDX va l = (va / blk l) mod 512.
Proof.
  intros Hl. unfold XLAT_TABLE_IDX. rewrite blk_shift by done. by apply (Z.land_ones (va / blk l) 9).
Qed.

Lemma idx_looked_up b l va : 0 <= b <= l -> l <= 3 -> XLAT_TABLE_IDX (va mod (512 * blk b)) l = XLAT_TABLE_IDX va l.
Proof.
  intros Hb Hl. rewrite !table_idx_mod by lia. pose proof (blk_pos l). pose proof (blk_pos b).
  destruct (blk_divide b l) as [q Hq]; [lia|lia|]. assert (0 < q) by nia. rewrite Hq.
  replace (512 * (q * blk l)) with (blk l * (512 * q)) by ring.
  rewrite Z.rem_mul_r by lia. rewrite (Z.mul_comm (blk l) ((va / blk l) mod (512 * q))), Z.add_comm, Z.div_add_l by lia.
  rewrite (Z.div_small (va mod blk l)), Z.add_0_r by (apply Z.mod_pos_bound; lia).
  rewrite Z.rem_mul_r, Z.mul_comm, Z.mod_add by lia. by rewrite Z.mod_mod by lia.
Qed.

Lemma find_loop_looked_up b fuel va p n l c :
  0 <= b <= l -> l <= 3 -> find_loop fuel (va mod (512 * blk b)) p n l c = find_loop fuel va p n l c.
Proof.
  revert p n l c. induction fuel as [|fuel IH]; intros p n l c Hb Hl; [done|]. cbn [find_loop].
  rewrite idx_looked_up by done. destruct (n <=? _); [done|]. unfold bind.
  destruct (read_entry p _ c) as [d c'|]; [|done]. destruct (_ =? INVALID_DESC); [done|].
  destruct (Z.eqb_spec l XLAT_TABLE_LEVEL_MAX) as [|Hne]; [done|]. unfold XLAT_TABLE_LEVEL_MAX in Hne.
  destruct (_ =? BLOCK_DESC); [done|]. destruct (assert_ _ _ c') as [? c2|]; [|done].
  destruct (subtable_of d c2) as [q c3|]; [|done]. apply IH; lia.
Qed.

Lemma find_entry_looked_up Q E N c lab va :
  wf Q E N c lab -> level_matches c ->
  find_xlat_table_entry va Base (base_table_entries c) (u64 (va_max_address c + 1)) c =
  find_xlat_table_entry (looked_up c va) Base (base_table_entries c) (u64 (va_max_address c + 1)) c.
Proof.
  intros Hwf Hl. pose proof (geo_level _ (wf_geo _ _ _ _ _ Hwf)). unfold find_xlat_table_entry, looked_up.
  rewrite <- Hl. symmetry. apply find_loop_looked_up; lia.
Qed.

Lemma find_entry_outside Q E N c lab va :
  wf Q E N c lab -> level_matches c -> va_max_address c < va < 512 * blk (base_level c) ->
  find_xlat_table_entry va Base (base_table_entries c) (u64 (va_max_address c + 1)) c = Done None c /\
  translate c va = None.
Proof.
  intros Hwf Hl Hva. pose proof (wf_geo _ _ _ _ _ Hwf) as Hg. pose proof (geo_level _ Hg) as Hlv.
  pose proof (geo_va_max _ Hg) as Hmax. pose proof (geo_entries _ Hg). pose proof (blk_pos (base_level c)). split.
  - unfold find_xlat_table_entry. rewrite <- Hl. destruct (levels_from (base_level c)) as [|n] eqn:Hn.
    { exfalso. unfold levels_from, XLAT_TABLE_LEVEL_MAX in Hn. lia. }
    cbn [find_loop]. rewrite table_idx_mod by lia.
    assert (base_table_entries c <= va / blk (base_level c) < 512) as [Hd1 Hd2].
    { split; [apply Z.div_le_lower_bound; nia|apply Z.div_lt_upper_bound; lia]. }
    rewrite Z.mod_small by lia. by rewrite (proj2 (Z.leb_le _ _)) by lia.
  - unfold translate. rewrite (proj2 (Z.leb_gt va _)), andb_false_r by lia. done.
Qed.

(** ** Flags of a descriptor *)

Definition type_of (x : Z) : Z :=
  let i := Z.land (Z.shiftr x 2) 3 in
  if i =? 0 then MT_MEMORY else if i =? 2 then MT_NON_CACHEABLE else MT_DEVICE.

Definition writable (x : Z) : bool := Z.land (Z.shiftr x 7) 1 =? 0.
Definition exec_never (regime x : Z) : bool := Z.land x (xn_attrs regime) =? xn_attrs regime.
Definition unprivileged (x : Z) : bool := Z.land (Z.shiftr x 6) 1 =? 1.

(** The flags that [xlat_get_mem_attributes] reads. *)
Definition view (regime x : Z) : Z :=
  Z.lor (Z.lor (Z.lor (type_of x) (if writable x then MT_RW else 0))
    (if (regime =? EL1_EL0_REGIME) && unprivileged x then MT_USER else 0))
    (if exec_never regime x then MT_EXECUTE_NEVER else 0).

(** Attributes the library can read. *)
Definition legit (regime x : Z) : Prop :=
  Z.land (Z.shiftr x 2) 3 <> 3 /\ (exec_never regime x = true \/ Z.land x (xn_attrs regime) = 0).

(** Reading flags takes only attribute bits. *)
Lemma attr_bits_of d m :
  Z.land m (Z.lor TABLE_ADDR_MASK DESC_MASK) = 0 -> Z.land d m = Z.land (desc_attrs d) m.
Proof.
  intros Hm. unfold desc_attrs. apply Z.bits_inj'. intros n Hn. rewrite !Z.land_spec, Z.ldiff_spec.
  apply (f_equal (fun z => Z.testbit z n)) in Hm. rewrite Z.land_spec, Z.testbit_0_l in Hm.
  by destruct (Z.testbit m n), (Z.testbit (Z.lor _ _) n), (Z.testbit d n).
Qed.

Lemma field_mask x s m : 0 <= s -> Z.land (Z.shiftr x s) m = Z.shiftr (Z.land x (Z.shiftl m s)) s.
Proof.
  intros Hs. apply Z.bits_inj'. intros n Hn. rewrite Z.land_spec, !Z.shiftr_spec, Z.land_spec, Z.shiftl_spec by lia.
  do 2 f_equal. lia.
Qed.

Lemma field_of d s m :
  0 <= s -> Z.land (Z.shiftl m s) (Z.lor TABLE_ADDR_MASK DESC_MASK) = 0 ->
  Z.land (Z.shiftr d s) m = Z.land (Z.shiftr (desc_attrs d) s) m.
Proof. intros Hs Hm. rewrite !field_mask by done. by rewrite (attr_bits_of d). Qed.

Lemma xn_attrs_mask regime : Z.land (xn_attrs regime) (Z.lor TABLE_ADDR_MASK DESC_MASK) = 0.
Proof. unfold xn_attrs. by destruct (regime =? EL1_EL0_REGIME). Qed.

Lemma index_cases x : let i := Z.land (Z.shiftr x 2) 3 in i = 0 \/ i = 1 \/ i = 2 \/ i = 3.
Proof.
  cbn. change 3 with (Z.ones 2) at 1 2 3 4. rewrite Z.land_ones by lia.
  pose proof (Z.mod_pos_bound (Z.shiftr x 2) (2 ^ 2)). change (Z.ones 2) with 3. lia.
Qed.

Lemma attributes_of_run regime d c :
  1 <= regime <= 3 -> legit regime (desc_attrs d) ->
  attributes_of regime d c = Done (view regime (desc_attrs d)) c.
Proof.
  intros Hr [Hi Hx]. unfold attributes_of.
  assert (is_Some (user_attrs regime 0)) as Hu.
  { assert (regime = 1 \/ regime = 2 \/ regime = 3) as [->|[->| ->]] by lia; vm_compute; by eexists. }
  unfold ATTR_INDEX_SHIFT, ATTR_INDEX_MASK, AP2_SHIFT, AP1_SHIFT, AP2_RW, AP1_ACCESS_UNPRIVILEGED.
  rewrite (field_of d 2 3), (field_of d 7 1), (field_of d 6 1) by done.
  unfold bind. unfold view, type_of, writable, unprivileged, exec_never in *.
  unfold ATTR_IWBWA_OWBWA_NTR_INDEX, ATTR_NON_CACHEABLE_INDEX, ATTR_DEVICE_INDEX.
  set (i := Z.land (Z.shiftr (desc_attrs d) 2) 3) in *.
  assert ((if i =? 0 then ret MT_MEMORY else if i =? 2 then ret MT_NON_CACHEABLE
    else assert_ true (i =? 1);; ret MT_DEVICE) c =
    Done (if i =? 0 then MT_MEMORY else if i =? 2 then MT_NON_CACHEABLE else MT_DEVICE) c) as Hty.
  { destruct (index_cases (desc_attrs d)) as [Ei|[Ei|[Ei|Ei]]]; fold i in Ei; rewrite Ei in *; try done. }
  unfold bind in Hty. rewrite Hty, (xn_run _ _ Hu), (attr_bits_of d _ (xn_attrs_mask _)).
  destruct (Z.land (Z.shiftr (desc_attrs d) 7) 1 =? 0), ((regime =? EL1_EL0_REGIME) && _);
    destruct (_ =? xn_attrs regime) eqn:Hxn; rewrite ?Z.lor_0_r; try done;
    (destruct Hx as [?|Hx]; [congruence|]; unfold assert_; rewrite Hx; done).
Qed.

(** ** The flags of a region *)

(** What is read back of the flags a region was given. Memory that is writable,
    and device memory, is never executable. *)
Definition attr_view (regime a : Z) : Z :=
  Z.lor (Z.lor (Z.lor (MT_TYPE a) (if is_set a MT_RW then MT_RW else 0))
    (if (regime =? EL1_EL0_REGIME) && is_set a MT_USER then MT_USER else 0))
    (if (MT_TYPE a =? MT_DEVICE) || is_set a MT_RW || is_set a MT_EXECUTE_NEVER
     then MT_EXECUTE_NEVER else 0).

(** The bits of a descriptor that carry flags. *)
Definition INDEX_BITS : Z := Z.shiftl 3 2.
Definition RO_BIT : Z := Z.shiftl 1 7.
Definition USER_BIT : Z := Z.shiftl 1 6.
Definition XN_BITS : Z := Z.lor (UPPER_ATTRS UXN) (UPPER_ATTRS PXN).
Definition FLAG_BITS : Z := Z.lor (Z.lor INDEX_BITS RO_BIT) (Z.lor USER_BIT XN_BITS).

Lemma land_sub x m m' : Z.land m' m = m -> Z.land x m = Z.land (Z.land x m') m.
Proof. intros Hm. by rewrite <- Z.land_assoc, Hm. Qed.

(** Attributes with the same flag bits are read alike. *)
Lemma view_flags regime x y :
  Z.land x FLAG_BITS = Z.land y FLAG_BITS ->
  view regime x = view regime y /\ (legit regime x <-> legit regime y).
Proof.
  intros Heq.
  assert (forall s m, 0 <= s -> Z.land FLAG_BITS (Z.shiftl m s) = Z.shiftl m s ->
    Z.land (Z.shiftr x s) m = Z.land (Z.shiftr y s) m) as Hf.
  { intros s m Hs Hm. rewrite !field_mask by done. by rewrite (land_sub x _ _ Hm), (land_sub y _ _ Hm), Heq. }
  assert (Z.land x (xn_attrs regime) = Z.land y (xn_attrs regime)) as Hx.
  { assert (Z.land FLAG_BITS (xn_attrs regime) = xn_attrs regime) as Hm.
    { unfold xn_attrs. by destruct (regime =? EL1_EL0_REGIME). }
    by rewrite (land_sub x _ _ Hm), (land_sub y _ _ Hm), Heq. }
  unfold view, legit, type_of, writable, unprivileged, exec_never.
  by rewrite (Hf 2 3), (Hf 7 1), (Hf 6 1), Hx by done.
Qed.

(** The flag bits of the parts of [region_attrs]. *)
Lemma pas_flags regime a x : pas_attrs regime a = Some x -> Z.land x FLAG_BITS = 0.
Proof. unfold pas_attrs. intros Hx. repeat (case_match; simplify_eq/=); by vm_compute. Qed.

Lemma user_flags regime a x :
  user_attrs regime a = Some x ->
  Z.land x FLAG_BITS = if (regime =? EL1_EL0_REGIME) && negb (is_set a MT_USER) then 0 else USER_BIT.
Proof. unfold user_attrs. intros Hx. repeat (case_match; simplify_eq/=); by vm_compute. Qed.

Lemma mem_flags regime a x :
  mem_attrs regime a = Some x ->
  (MT_TYPE a = MT_DEVICE \/ MT_TYPE a = MT_MEMORY \/ MT_TYPE a = MT_NON_CACHEABLE) /\
  Z.land x FLAG_BITS =
    Z.lor (Z.shiftl (if MT_TYPE a =? MT_DEVICE then 1 else if MT_TYPE a =? MT_MEMORY then 0 else 2) 2)
      (if (MT_TYPE a =? MT_DEVICE) || is_set a MT_RW || is_set a MT_EXECUTE_NEVER then xn_attrs regime else 0).
Proof.
  unfold mem_attrs, xn_attrs. intros Hx.
  destruct (Z.eqb_spec (MT_TYPE a) MT_DEVICE) as [E1|E1].
  { simplify_eq. split; [by left|]. by destruct (regime =? EL1_EL0_REGIME). }
  destruct (Z.eqb_spec (MT_TYPE a) MT_MEMORY) as [E2|E2].
  { simplify_eq. split; [by right; left|]. cbn [orb]. rewrite !Z.land_lor_distr_l.
    assert (forall b : bool, Z.land (if b then GP else 0) FLAG_BITS = 0) as -> by (by intros []).
    assert (forall b b' : bool, Z.land (if b then LOWER_ATTRS NSH else if b' then LOWER_ATTRS OSH
      else LOWER_ATTRS ISH) FLAG_BITS = 0) as -> by (by intros [] []).
    rewrite !Z.lor_0_r. destruct (is_set a MT_RW || _), (regime =? EL1_EL0_REGIME); done. }
  destruct (Z.eqb_spec (MT_TYPE a) MT_NON_CACHEABLE) as [E3|E3]; [|done]. simplify_eq.
  split; [by right; right|]. cbn [orb].
  destruct (is_set a MT_RW || _), (regime =? EL1_EL0_REGIME); done.
Qed.

Lemma region_flags regime a x :
  region_attrs regime a = Some x ->
  view regime x = attr_view regime a /\ legit regime x.
Proof.
  unfold region_attrs. intros Hx.
  destruct (pas_attrs _ a) as [pas|] eqn:Hp; [|done]. cbn in Hx.
  destruct (user_attrs _ a) as [user|] eqn:Hu; [|done]. cbn in Hx.
  destruct (mem_attrs _ a) as [mem|] eqn:Hm; [|done]. cbn in Hx. injection Hx as <-.
  destruct (mem_flags _ _ _ Hm) as [Hty Hmf].
  set (y := Z.lor (Z.lor (if is_set a MT_RW then 0 else RO_BIT)
    (if (regime =? EL1_EL0_REGIME) && negb (is_set a MT_USER) then 0 else USER_BIT))
    (Z.lor (Z.shiftl (if MT_TYPE a =? MT_DEVICE then 1 else if MT_TYPE a =? MT_MEMORY then 0 else 2) 2)
      (if (MT_TYPE a =? MT_DEVICE) || is_set a MT_RW || is_set a MT_EXECUTE_NEVER then xn_attrs regime else 0))).
  assert (view regime y = attr_view regime a /\ legit regime y) as Hy.
  { unfold y, attr_view, view, legit, type_of, writable, unprivileged, exec_never, xn_attrs.
    destruct Hty as [->|[->| ->]], (is_set a MT_RW), (is_set a MT_USER), (is_set a MT_EXECUTE_NEVER),
      (regime =? EL1_EL0_REGIME); vm_compute; (split; [done|]; split; [done|by (left + right)]). }
  match goal with |- view _ ?z = _ /\ _ => destruct (view_flags regime z y) as [-> Hl] end; [|tauto].
  rewrite !Z.land_lor_distr_l, (pas_flags _ _ _ Hp), (user_flags _ _ _ Hu), Hmf.
  unfold y. rewrite !Z.land_lor_distr_l. unfold xn_attrs.
  destruct (MT_TYPE a =? MT_DEVICE), (MT_TYPE a =? MT_MEMORY), (is_set a MT_RW), (is_set a MT_USER),
    (is_set a MT_EXECUTE_NEVER), (regime =? EL1_EL0_REGIME); done.
Qed.

Lemma leaf_flags regime mm x :
  leaf_attrs regime mm = Some x -> view regime x = attr_view regime (attr mm) /\ legit regime x.
Proof.
  unfold leaf_attrs. destruct (region_attrs regime (attr mm)) as [y|] eqn:Hy; [|done]. cbn. intros [= <-].
  apply region_flags in Hy. destruct (_ && _); [|done].
  destruct (view_flags regime (Z.lor y (Z.lor SC_BIT LC0_BIT)) y) as [-> Hl]; [|tauto].
  rewrite Z.land_lor_distr_l. change (Z.land (Z.lor SC_BIT LC0_BIT) FLAG_BITS) with 0. apply Z.lor_0_r.
Qed.

(** ** Reading attributes *)

(** A context in use, whose mapped addresses have attributes the library can
    read. *)
Record attrs_ready (c : xlat_ctx) : Prop := {
  ar_wf : tables_wf c;
  ar_init : initialized c = true;
  ar_level : level_matches c;
  ar_space : va_max_address c < 2 ^ 48;
  ar_el : el_covers (xlat_regime c);
  ar_legit : forall va pa x, translate c va = Some (pa, x) -> legit (xlat_regime c) x /\ attr_bits x
}.

Lemma regime_valid regime :
  el_covers regime -> (regime =? EL1_EL0_REGIME) || (regime =? EL2_REGIME) || (regime =? EL3_REGIME) = true.
Proof. intros [Hr _]. assert (regime = 1 \/ regime = 2 \/ regime = 3) as [->|[->| ->]] by lia; done. Qed.

Lemma space_positive c Q E N lab :
  wf Q E N c lab -> va_max_address c < 2 ^ 48 -> 0 < u64 (va_max_address c + 1).
Proof.
  intros Hwf Hs. pose proof (wf_geo _ _ _ _ _ Hwf) as Hg. pose proof (geo_level _ Hg). pose proof (geo_entries _ Hg).
  pose proof (geo_va_max _ Hg). pose proof (blk_pos (base_level c)). rewrite u64_small; nia.
Qed.

Lemma read_entry_run p k d c : entry_at c p k = Some d -> read_entry p k c = Done d c.
Proof. intros Hd. unfold read_entry, bind, gets, id. by rewrite Hd. Qed.

(** What [xlat_get_mem_attributes_internal] gives, by the walk. *)
Definition got (c : xlat_ctx) (lab : labels) (va : Z) (o : option (Z * Z))
    (r : option (Z * (table_ptr * Z) * Z * Z)) : Prop :=
  match r with
  | None => o = None
  | Some (a, (q, k), pa, l) => exists b d, label_of c lab q = Some (l, b) /\ entry_at c q k = Some d /\
      is_leaf l d = true /\ b + k * blk l <= va < b + (k + 1) * blk l /\ o = Some (leaf_result l d va) /\
      a = view (xlat_regime c) (desc_attrs d) /\ pa = Z.land d TABLE_ADDR_MASK
  end.

Lemma get_internal_found Q E N c lab w va :
  wf Q E N c lab -> attrs_ready c ->
  (exists r, find_xlat_table_entry w Base (base_table_entries c) (u64 (va_max_address c + 1)) c = Done r c /\
     found c lab va (translate c va) r) ->
  exists r, xlat_get_mem_attributes_internal w c = Done r c /\ got c lab va (translate c va) r.
Proof.
  intros Hwf [_ Hi Hl Hs Hel Hlg] (r & Hr & Hf).
  unfold xlat_get_mem_attributes_internal. unfold bind at 1, gets, id. unfold bind at 1, assert_ at 1.
  rewrite Hi. cbn [andb negb]. unfold ret at 1. unfold bind at 1, assert_ at 1.
  rewrite (regime_valid _ Hel). cbn [andb negb]. unfold ret at 1. unfold bind at 1, assert_ at 1.
  rewrite (proj2 (Z.ltb_lt _ _) (space_positive _ _ _ _ _ Hwf Hs)). cbn [andb negb]. unfold ret at 1.
  unfold bind at 1. rewrite Hr. destruct r as [[[q k] l]|]; [|by exists None].
  destruct Hf as (b & d & Hq & Hd & Hleaf & Hb & Ht). unfold bind. rewrite (read_entry_run _ _ _ _ Hd).
  rewrite attributes_of_run; [|apply Hel|by eapply Hlg in Ht as [? _]].
  eexists. split; [done|]. by exists b, d.
Qed.

Lemma get_internal_run Q E N c lab va :
  wf Q E N c lab -> attrs_ready c -> 0 <= va <= va_max_address c ->
  exists r, xlat_get_mem_attributes_internal va c = Done r c /\ got c lab va (translate c va) r.
Proof.
  intros Hwf Har Hva. eapply get_internal_found; [done|done|].
  destruct (find_entry_run _ _ _ _ _ _ Hwf (ar_level _ Har) Hva) as (r & Hr & Hf & _). by exists r.
Qed.

(** Any address is read as the one that is looked up for it. *)
Lemma get_internal_any Q E N c lab va :
  wf Q E N c lab -> attrs_ready c ->
  exists r, xlat_get_mem_attributes_internal va c = Done r c /\
    got c lab (looked_up c va) (translate c (looked_up c va)) r.
Proof.
  intros Hwf Har. pose proof (ar_level _ Har) as Hl. eapply get_internal_found; [done|done|].
  rewrite (find_entry_looked_up _ _ _ _ _ _ Hwf Hl). pose proof (geo_level _ (wf_geo _ _ _ _ _ Hwf)).
  pose proof (blk_pos (base_level c)).
  assert (0 <= looked_up c va < 512 * blk (base_level c)) as Hw by (apply Z.mod_pos_bound; lia).
  destruct (decide (looked_up c va <= va_max_address c)) as [Hin|Hout].
  - destruct (find_entry_run _ _ _ _ _ _ Hwf Hl (conj (proj1 Hw) Hin)) as (r & Hr & Hf & _). by exists r.
  - destruct (find_entry_outside _ _ _ _ _ (looked_up c va) Hwf Hl) as [Hr Ht]; [lia|]. exists None. by rewrite Ht.
Qed.

(** The addresses of the space are looked up as they are. *)
Lemma looked_up_inside c rs va : tables_hold c rs -> 0 <= va <= va_max_address c -> looked_up c va = va.
Proof.
  intros [[lab Hwf] _] Hva. pose proof (wf_geo _ _ _ _ _ Hwf) as Hg. pose proof (geo_level _ Hg).
  pose proof (geo_va_max _ Hg). pose proof (geo_entries _ Hg). pose proof (blk_pos (base_level c)).
  apply Z.mod_small. nia.
Qed.

(** From the regions to what can be read. *)
Lemma hold_ready c rs :
  tables_hold c rs -> Forall (attrs_valid (xlat_regime c)) rs ->
  Forall (region_fits (va_max_address c) (pa_max_address c)) rs -> initialized c = true ->
  level_matches c -> va_max_address c < 2 ^ 48 -> el_covers (xlat_regime c) -> attrs_ready c.
Proof.
  intros Ht Ha Hf Hi Hl Hs Hel. constructor; try done.
  - destruct Ht as [[lab Hwf] _]. by eexists _, _, _, lab.
  - intros va pa x Htr. pose proof (translate_hold c rs va Ht Hf) as Hby. rewrite Htr in Hby.
    destruct Hby as (r & Hr & _ & [= _ ->] & _). destruct (proj1 (Forall_forall _ _) Ha r Hr) as [y Hy].
    rewrite Hy. cbn. split; [by eapply leaf_flags|by eapply leaf_attrs_bits].
Qed.

(** C11. Reading back: on initialised tables that hold regions with valid
    attributes, [xlat_get_mem_attributes_ctx] answers 0 with the attributes
    (memory type, access, execute-never) of the smallest region that contains
    the address that is looked up, and [-EINVAL] when no region does; it changes
    nothing. An address of the virtual address space is looked up as it is. Any
    other address is not refused: it is looked up without the bits above the
    nine that index the base table, so that it may be answered for an address
    inside the space. *)
Theorem get_attributes_of_region c rs va :
  tables_hold c rs -> Forall (attrs_valid (xlat_regime c)) rs ->
  Forall (region_fits (va_max_address c) (pa_max_address c)) rs -> initialized c = true ->
  level_matches c -> va_max_address c < 2 ^ 48 -> el_covers (xlat_regime c) ->
  (0 <= va <= va_max_address c -> looked_up c va = va) /\
  wpd (xlat_get_mem_attributes_ctx va)
    (fun '(e, res) c' => c' = c /\
      match res with
      | None => e = - EINVAL /\ forall r, r ∈ rs -> ~ in_region r (looked_up c va)
      | Some (a, level) => e = 0 /\ exists r, r ∈ rs /\ in_region r (looked_up c va) /\
          (forall s, s ∈ rs -> in_region s (looked_up c va) -> size r <= size s) /\
          a = attr_view (xlat_regime c) (attr r)
      end) c.
Proof.
  intros Ht Ha Hf Hi Hl Hs Hel. pose proof (hold_ready _ _ Ht Ha Hf Hi Hl Hs Hel) as Har.
  split; [by eapply looked_up_inside|].
  pose proof (translate_hold c rs (looked_up c va) Ht Hf) as Hby. destruct Ht as [[lab Hwf] _].
  destruct (get_internal_any _ _ _ _ _ va Hwf Har) as (r & Hr & Hg).
  unfold xlat_get_mem_attributes_ctx. wp_step. eapply wp_exact; [exact Hr|].
  destruct r as [[[[a [q k]] pa] l]|]; wp_step.
  - destruct Hg as (b & d & _ & _ & _ & _ & Htr & -> & _). rewrite Htr in Hby.
    destruct Hby as (r & Hin & Hir & [= _ Hx] & Hmin). split_and!; [done|done|]. exists r. split_and!; try done.
    destruct (proj1 (Forall_forall _ _) Ha r Hin) as [y Hy]. rewrite Hx, Hy. cbn. by eapply leaf_flags.
  - cbn in Hg. rewrite Hg in Hby. by split.
Qed.

(** *** Writable memory is not executable *)

Lemma attr_view_wx regime a :
  is_set a MT_RW = true -> is_set (attr_view regime a) MT_EXECUTE_NEVER = true.
Proof.
  intros Hw. unfold attr_view. rewrite Hw, orb_true_r, orb_true_l. unfold is_set.
  rewrite Z.land_lor_distr_l, Z.land_diag. apply negb_true_iff, Z.eqb_neq.
  intros [_ ?]%Z.lor_eq_0_iff. done.
Qed.

Lemma view_writable regime x : is_set (view regime x) MT_RW = writable x.
Proof.
  unfold view, type_of. destruct (writable x), (_ && _), (exec_never regime x);
    (destruct (_ =? 0); [done|]; destruct (_ =? 2); done).
Qed.

Lemma view_exec_never regime x : is_set (view regime x) MT_EXECUTE_NEVER = exec_never regime x.
Proof.
  unfold view, type_of. destruct (writable x), (_ && _), (exec_never regime x);
    (destruct (_ =? 0); [done|]; destruct (_ =? 2); done).
Qed.

(** ** Changing attributes *)

(** With RME, mappings of the Secure space need FEAT_SEL2. *)
Definition pas_ok (regime : Z) : Prop :=
  is_feat_rme_supported = true -> regime = EL3_REGIME /\ is_feat_sel2_supported = true.

(** The attributes of a page after a change: its flags are replaced, its memory
    type and physical address space are kept. *)
Definition new_flags (regime x a : Z) : Z :=
  Z.lor (Z.ldiff (view regime x) MT_CHANGE_MASK) (Z.land a MT_CHANGE_MASK).
Definition kept_pas (regime x : Z) : Z :=
  Z.lor (Z.land x (LOWER_ATTRS NS))
    (if is_feat_rme_supported && (regime =? EL3_REGIME) then Z.land x (LOWER_ATTRS EL3_S1_NSE) else 0).
Definition changed (regime x a : Z) : Z :=
  Z.lor (default 0 (region_attrs regime (new_flags regime x a))) (kept_pas regime x).

Lemma view_type regime x : Z.ldiff (view regime x) MT_CHANGE_MASK = type_of x.
Proof.
  unfold view, type_of. destruct (writable x), (_ && _), (exec_never regime x);
    (destruct (_ =? 0); [done|]; destruct (_ =? 2); done).
Qed.

Lemma type_of_cases x : type_of x = MT_MEMORY \/ type_of x = MT_NON_CACHEABLE \/ type_of x = MT_DEVICE.
Proof. unfold type_of. destruct (_ =? 0); [by left|]. destruct (_ =? 2); tauto. Qed.

(** A field of the new flags that does not change. *)
Lemma new_flags_kept regime x a m :
  Z.land MT_CHANGE_MASK m = 0 -> Z.land (new_flags regime x a) m = Z.land (type_of x) m.
Proof.
  intros Hm. unfold new_flags. by rewrite view_type, Z.land_lor_distr_l, <- Z.land_assoc, Hm, Z.land_0_r, Z.lor_0_r.
Qed.

(** A flag that changes. *)
Lemma new_flags_set regime x a m :
  Z.land MT_CHANGE_MASK m = m -> (forall t, t = MT_MEMORY \/ t = MT_NON_CACHEABLE \/ t = MT_DEVICE -> Z.land t m = 0) ->
  is_set (new_flags regime x a) m = is_set a m.
Proof.
  intros Hm Ht. unfold new_flags, is_set.
  by rewrite view_type, Z.land_lor_distr_l, (Ht _ (type_of_cases x)), <- Z.land_assoc, Hm, Z.lor_0_l.
Qed.

Lemma new_flags_pas regime x a :
  pas_ok regime -> pas_attrs regime (new_flags regime x a) = Some 0.
Proof.
  intros Hp. unfold pas_attrs, MT_PAS. rewrite new_flags_kept by done.
  unfold pas_ok in Hp. destruct is_feat_rme_supported.
  - destruct (Hp eq_refl) as [-> ->]. destruct (type_of_cases x) as [->|[->| ->]]; done.
  - destruct (type_of_cases x) as [->|[->| ->]]; done.
Qed.

Lemma new_flags_valid regime x a :
  1 <= regime <= 3 -> pas_ok regime -> is_Some (region_attrs regime (new_flags regime x a)).
Proof.
  intros Hr Hp. unfold region_attrs.
  rewrite new_flags_pas by done.
  assert (is_Some (user_attrs regime (new_flags regime x a))) as [u ->].
  { unfold user_attrs, EL1_EL0_REGIME, EL2_REGIME, EL3_REGIME.
    assert (regime = 1 \/ regime = 2 \/ regime = 3) as [->|[->| ->]] by lia; cbn; eauto. }
  assert (is_Some (mem_attrs regime (new_flags regime x a))) as [m ->].
  { unfold mem_attrs, MT_TYPE. rewrite new_flags_kept by done.
    destruct (type_of_cases x) as [->|[->| ->]]; cbn; eauto. }
  cbn. eauto.
Qed.

Lemma changed_flags regime x a :
  1 <= regime <= 3 -> pas_ok regime ->
  view regime (changed regime x a) = attr_view regime (new_flags regime x a) /\
  legit regime (changed regime x a).
Proof.
  intros Hr Hp. destruct (new_flags_valid regime x a Hr Hp) as [y Hy]. unfold changed. rewrite Hy. cbn [default from_option id].
  destruct (region_flags _ _ _ Hy) as [Hv Hl].
  destruct (view_flags regime (Z.lor y (kept_pas regime x)) y) as [-> Hl']; [|tauto].
  rewrite Z.land_lor_distr_l. enough (Z.land (kept_pas regime x) FLAG_BITS = 0) as -> by apply Z.lor_0_r.
  unfold kept_pas. rewrite Z.land_lor_distr_l, <- Z.land_assoc.
  change (Z.land (LOWER_ATTRS NS) FLAG_BITS) with 0. rewrite Z.land_0_r. destruct (_ && _); [|done].
  by rewrite <- Z.land_assoc, Z.land_0_r.
Qed.

Lemma attr_bits_land x m : attr_bits x -> attr_bits (Z.land x m).
Proof.
  intros [Hx Ex]. split; [apply Z.land_nonneg; by left|]. unfold desc_attrs in *. apply Z.bits_inj'.
  intros n Hn. rewrite Z.ldiff_spec, !Z.land_spec. rewrite <- Ex at 2. rewrite Z.ldiff_spec.
  by destruct (Z.testbit x n), (Z.testbit m n), (Z.testbit _ n).
Qed.

Lemma changed_bits regime x a : attr_bits x -> attr_bits (changed regime x a).
Proof.
  intros Hx. unfold changed, kept_pas. apply attr_bits_lor; [|apply attr_bits_lor].
  - destruct (region_attrs _ _) as [y|] eqn:Hy; cbn; [by eapply region_attrs_bits|by split].
  - by apply attr_bits_land.
  - destruct (_ && _); [by apply attr_bits_land|by split].
Qed.

(** The new descriptor. *)
Lemma new_desc_run c d a pa :
  1 <= xlat_regime c <= 3 -> pas_ok (xlat_regime c) -> pa mod 4096 = 0 ->
  new_desc (view (xlat_regime c) (desc_attrs d)) pa 3 d a c =
    Done (Z.lor (Z.lor pa PAGE_DESC) (changed (xlat_regime c) (desc_attrs d) a)) c.
Proof.
  intros Hr Hp Hpa. set (x := desc_attrs d). destruct (new_flags_valid (xlat_regime c) x a Hr Hp) as [y Hy].
  unfold new_desc. unfold bind at 1, gets, id. fold (new_flags (xlat_regime c) x a). unfold bind.
  rewrite (xlat_desc_run _ _ _ _ y) by done. unfold ret, changed, kept_pas. rewrite Hy.
  cbn [Z.eqb XLAT_TABLE_LEVEL_MAX Pos.eqb default from_option id]. f_equal.
  rewrite (attr_bits_of d (LOWER_ATTRS NS)), (attr_bits_of d (LOWER_ATTRS EL3_S1_NSE)) by done. fold x.
  destruct (_ && _); by rewrite ?Z.lor_0_r, !Z.lor_assoc.
Qed.

(** *** A store to a page descriptor *)

(** The state after a page was changed: the descriptor is written twice. *)
Definition page_changed (p : table_ptr) (k va d : Z) (c : xlat_ctx) : xlat_ctx :=
  written p k d (traced [TlbiSync] (traced [DsbIshst; TlbiVa va] (written p k INVALID_DESC c))).

(** Apart from the trace, the last store is what counts. *)
Definition retraced (tr : list xlat_event) (c : xlat_ctx) : xlat_ctx :=
  set_mem (base_table c) (tables c) (tables_mapped_regions c) (next_table c) tr c.

Lemma page_changed_eq p k va d c :
  page_changed p k va d c = retraced (xlat_trace (page_changed p k va d c)) (written p k d c).
Proof.
  unfold page_changed, retraced, written, traced. destruct p as [|i]; cbn; [by rewrite zupdate_zupdate|].
  destruct ((tables c).[i]) as [t|] eqn:Ht; cbn; [|by rewrite Ht].
  rewrite zlookup_zupdate_eq by (by eapply zlookup_lt_Some). by rewrite !zupdate_zupdate.
Qed.

Lemma wf_retraced tr Q E N c lab : wf Q E N c lab -> wf Q E N (retraced tr c) lab.
Proof. intros [[? ? ? ? ? ? ? ? ?] ? ? ? ? ? ? ?]. by constructor. Qed.

Lemma same_conf_page p k va d c : same_conf c (page_changed p k va d c).
Proof. rewrite page_changed_eq. apply (same_conf_trans _ (written p k d c)); [apply same_conf_written|done]. Qed.

Lemma entry_page p k va d c old q j :
  entry_at c p k = Some old ->
  entry_at (page_changed p k va d c) q j = if decide (q = p /\ j = k) then Some d else entry_at c q j.
Proof.
  intros Hold. rewrite page_changed_eq. rewrite <- (entry_written _ _ _ _ d _ _ Hold). by destruct q.
Qed.

Lemma wf_page Q E N c lab p b k old d va :
  wf Q E N c lab -> label_of c lab p = Some (3, b) -> entry_at c p k = Some old ->
  is_leaf 3 old = true -> is_leaf 3 d = true -> wf Q E N (page_changed p k va d c) lab.
Proof.
  intros Hwf Hp Hold Hl Hl'. rewrite page_changed_eq. apply wf_retraced. eapply wf_write; try done.
  - intros i Hi. destruct (wf_lab _ _ _ _ _ Hwf _ _ _ Hi) as (? & _). lia.
  - right; right. split; [done|].
    destruct (wf_entry _ _ _ _ _ Hwf _ _ _ _ _ Hp Hold) as [[-> _]|[(? & _)|[_ ?]]]; [done|lia|done].
Qed.

(** The translation after a page was changed. *)
Lemma translate_page Q E N c lab p b k old d v va :
  wf Q E N c lab -> label_of c lab p = Some (3, b) -> entry_at c p k = Some old ->
  is_leaf 3 old = true -> is_leaf 3 d = true ->
  translate (page_changed p k v d c) va =
    if decide (b + k * 4096 <= va < b + (k + 1) * 4096) then
      (if (0 <=? va) && (va <=? va_max_address c) then Some (leaf_result 3 d va) else None)
    else translate c va.
Proof.
  intros Hwf Hp Hold Hl Hl'. pose proof (wf_page _ _ _ _ _ _ _ _ _ _ v Hwf Hp Hold Hl Hl') as Hwf'.
  set (c' := page_changed p k v d c) in *. pose proof (same_conf_page p k v d c : same_conf c c') as Hs.
  destruct (same_conf_fields _ _ Hs) as (Hbl & _ & Hvm & Hta & _).
  pose proof (entry_range _ _ _ _ (wf_geo _ _ _ _ _ Hwf) Hold) as Hk.
  assert (length (tables c') = length (tables c)) as Hlen.
  { unfold c'. rewrite page_changed_eq. apply length_written. }
  assert (forall q, q <> p -> table_at c' q = table_at c q) as Hother.
  { intros q Hq. unfold c'. rewrite page_changed_eq. rewrite <- (table_written_ne p q k d c Hq). by destruct q. }
  assert (forall q l b', label_of c' lab q = Some (l, b') <-> label_of c lab q = Some (l, b')) as Hlab.
  { intros q l b'. by rewrite (label_of_conf _ _ _ _ Hs). }
  unfold translate. rewrite Hvm, Hbl.
  destruct ((0 <=? va) && (va <=? va_max_address c)) eqn:Hr; [|by case_decide].
  apply andb_true_iff in Hr as [Hr0%Z.leb_le Hr1%Z.leb_le].
  case_decide as Hpg.
  - rewrite <- Hbl. eapply walk_to_leaf; [exact Hwf'|by apply Hlab| |done|done|by rewrite Hvm].
    unfold c'. by rewrite (entry_page _ _ _ _ _ _ _ _ Hold), decide_True.
  - assert (covers c Base (base_level c) 0 va) as Hc0.
    { unfold covers. cbn [entries_of]. rewrite (geo_va_max _ (wf_geo _ _ _ _ _ Hwf)) in Hr1. lia. }
    assert (covers c p 3 b va \/ ~ covers c p 3 b va) as [Hcp|Hncp] by (unfold covers; lia).
    + (* the same table, another entry *)
      destruct (covers_block _ _ _ _ _ _ _ _ _ Hwf Hp Hcp) as (j & Hj & Hjva).
      assert (j <> k) as Hjk by (intros ->; apply Hpg; exact Hjva).
      rewrite <- Hbl at 1 2. rewrite (walk_to_entry c' lab p 3 b j va _ _ _ Hwf'), (walk_to_entry c lab p 3 b j va _ _ _ Hwf);
        try done.
      eapply (walk_ext1 _ _ _ _ _ _ _ j); try done.
      * unfold c'. rewrite (entry_page _ _ _ _ _ _ _ _ Hold), decide_False by (by intros [_ ?]). done.
      * intros q l' b' Hq Hl3 _. destruct (label_level _ _ _ _ _ _ _ _ Hwf Hq). lia.
    + eapply (walk_ext _ _ _ _ _ _ _ Hwf Hta Hlen); [done|done|].
      intros q l' b' Hq _ Hcq. apply Hother. intros ->. rewrite Hp in Hq. by simplify_eq.
Qed.

(** *** The loops *)

(** An address at the beginning of a page that is mapped as a page. *)
Definition paged (c : xlat_ctx) (lab : labels) (va : Z) : Prop :=
  exists p b k d, label_of c lab p = Some (3, b) /\ entry_at c p k = Some d /\ is_leaf 3 d = true /\
    va = b + k * 4096.

(** The block or page that contains an address is the only one. *)
Lemma leaf_unique Q E N c lab p l b k d q l' b' k' d' va :
  wf Q E N c lab ->
  label_of c lab p = Some (l, b) -> entry_at c p k = Some d -> is_leaf l d = true ->
  b + k * blk l <= va < b + (k + 1) * blk l ->
  label_of c lab q = Some (l', b') -> entry_at c q k' = Some d' -> is_leaf l' d' = true ->
  b' + k' * blk l' <= va < b' + (k' + 1) * blk l' -> l <= l' ->
  p = q /\ l = l' /\ b = b' /\ k = k'.
Proof.
  intros Hwf Hp Hd Hl Hva Hq Hd' Hl' Hva' Hle. pose proof (wf_geo _ _ _ _ _ Hwf) as Hg.
  pose proof (entry_range _ _ _ _ Hg Hd) as Hk. pose proof (entry_range _ _ _ _ Hg Hd') as Hk'.
  destruct (entry_block _ _ _ _ _ _ _ _ _ _ Hwf Hp Hk Hva) as [Hc Hi].
  destruct (entry_block _ _ _ _ _ _ _ _ _ _ Hwf Hq Hk' Hva') as [Hc' Hi'].
  destruct (decide (l = l')) as [->|Hne].
  { destruct (label_unique _ _ _ _ _ _ _ _ _ _ _ Hwf Hp Hq Hc Hc') as [-> ->].
    split_and!; try done. congruence. }
  exfalso. assert (l < l') as Hlt by lia. destruct (label_level _ _ _ _ _ _ _ _ Hwf Hp).
  pose proof (block_aligned _ _ _ _ _ k _ _ _ Hwf Hp) as Hax. pose proof (blk_pos l).
  destruct (label_level _ _ _ _ _ _ _ _ Hwf Hq). pose proof (blk_pos l').
  destruct q as [|i]; [cbn in Hq; simplify_eq; lia|].
  assert (b + k * blk l <= b' < b + (k + 1) * blk l) as Hb'.
  { destruct (table_within _ _ l (b + k * blk l) _ _ _ _ _ _ Hwf ltac:(lia) Hax Hq Hlt) as [?|[?|?]];
      [| |lia]; unfold covers in Hc'; cbn [entries_of] in Hc'; lia. }
  destruct (table_in_entry _ _ _ _ _ _ (Sub i) _ _ _ _ _ Hwf Hp Hk Hq Hlt Hb') as (i' & Hi1 & Hlab).
  assert (l < 3) as Hl3 by lia. destruct (leaf_not_table _ _ _ _ _ _ _ _ Hwf Hl3 Hlab) as (Hnl & _).
  rewrite Hd in Hi1. simplify_eq. congruence.
Qed.

Lemma paged_got Q E N c lab va p b k d r :
  wf Q E N c lab -> label_of c lab p = Some (3, b) -> entry_at c p k = Some d -> is_leaf 3 d = true ->
  va = b + k * 4096 -> 0 <= va <= va_max_address c -> got c lab va (translate c va) r ->
  translate c va = Some (leaf_result 3 d va) /\
  r = Some (view (xlat_regime c) (desc_attrs d), (p, k), Z.land d TABLE_ADDR_MASK, 3).
Proof.
  intros Hwf Hp Hd Hl -> Hr Hg.
  assert (b + k * blk 3 <= b + k * 4096 < b + (k + 1) * blk 3) as Hva
    by (change (blk 3) with 4096; lia).
  assert (translate c (b + k * 4096) = Some (leaf_result 3 d (b + k * 4096))) as Ht.
  { unfold translate. rewrite !(proj2 (Z.leb_le _ _)) by lia. eapply walk_to_leaf; try done. lia. }
  split; [done|]. destruct r as [[[[a [q k']] pa] l]|]; cbn in Hg; [|congruence].
  destruct Hg as (b' & d' & Hq & Hd' & Hl' & Hva' & _ & -> & ->).
  destruct (label_level _ _ _ _ _ _ _ _ Hwf Hq).
  destruct (leaf_unique _ _ _ _ _ _ _ _ _ _ _ _ _ _ _ _ Hwf Hq Hd' Hl' Hva' Hp Hd Hl Hva) as (-> & -> & -> & ->); [lia|].
  rewrite Hd in Hd'. by simplify_eq.
Qed.

(** Device memory, by the attribute index. *)
Definition device_memory (x : Z) : bool := Z.land (Z.shiftr x 2) 3 =? ATTR_DEVICE_INDEX.

(** A page whose attributes may become [a]: a descriptor of its own maps it,
    and device memory stays execute-never. *)
Definition page_allows (c : xlat_ctx) (a va : Z) : Prop :=
  leaf_level c va = Some 3 /\
  (is_set a MT_EXECUTE_NEVER = false -> forall pa x, translate c va = Some (pa, x) -> device_memory x = false).

Lemma page_step (P : Z -> Prop) va n :
  (forall i, 0 <= i < Z.of_nat (S n) -> P (va + i * 4096)) <->
  P va /\ forall i, 0 <= i < Z.of_nat n -> P (va + 4096 + i * 4096).
Proof.
  split.
  - intros HP. split; [replace va with (va + 0 * 4096) by lia; apply HP; lia|].
    intros i Hi. replace (va + 4096 + i * 4096) with (va + (i + 1) * 4096) by lia. apply HP. lia.
  - intros [HP0 HP] i Hi. destruct (decide (i = 0)) as [->|].
    + by rewrite Z.mul_0_l, Z.add_0_r.
    + replace (va + i * 4096) with (va + 4096 + (i - 1) * 4096) by lia. apply HP. lia.
Qed.

Lemma check_pages_run Q E N c lab n va a :
  wf Q E N c lab -> level_matches c -> 0 <= va -> va mod 4096 = 0 ->
  va + Z.of_nat n * 4096 <= va_max_address c + 1 -> va_max_address c < 2 ^ 48 ->
  exists r, check_pages n va (u64 (va_max_address c + 1)) a c = Done r c /\
    (r = true <-> forall i, 0 <= i < Z.of_nat n -> page_allows c a (va + i * 4096)) /\
    (r = true -> forall i, 0 <= i < Z.of_nat n -> paged c lab (va + i * 4096)).
Proof.
  intros Hwf Hl. revert va. induction n as [|n IH]; intros va Hv0 Hal Htop Hs; cbn [check_pages].
  { exists true. split; [done|]. split; [split; [lia|done]|lia]. }
  assert (0 <= va <= va_max_address c) as Hva by lia. setoid_rewrite (page_step (page_allows c a)).
  destruct (find_entry_run _ _ _ _ _ _ Hwf Hl Hva) as (r & Hr & Hf & Hll).
  assert (forall P Q : Prop, ~ P -> (exists r, Done false c = Done r c /\ (r = true <-> P) /\ (r = true -> Q)))
    as Hno by (intros P R HP; exists false; naive_solver).
  unfold bind at 1, gets, id. unfold bind at 1. rewrite Hr.
  destruct r as [[[q k] l]|]; [|apply Hno; intros [[Hx _] _]; rewrite Hll in Hx; done].
  destruct Hf as (b & d & Hq & Hd & Hleaf & Hb & Ht). unfold bind at 1. rewrite (read_entry_run _ _ _ _ Hd).
  cbn in Hll. destruct (negb (Z.land d DESC_MASK =? PAGE_DESC) || negb (l =? XLAT_TABLE_LEVEL_MAX)) eqn:Hpg.
  { apply Hno. intros [[Hx _] _]. rewrite Hll in Hx. injection Hx as ->. unfold is_leaf in Hleaf.
    rewrite desc_type_mod in Hpg. apply Z.eqb_eq in Hleaf. by rewrite Hleaf in Hpg. }
  apply orb_false_iff in Hpg as [_ Hl3%negb_false_iff%Z.eqb_eq]. unfold XLAT_TABLE_LEVEL_MAX in Hl3. subst l.
  assert (forall pa x, translate c va = Some (pa, x) ->
    (Z.land (Z.shiftr d ATTR_INDEX_SHIFT) ATTR_INDEX_MASK =? ATTR_DEVICE_INDEX) = device_memory x) as Hdm.
  { intros pa x Hx. rewrite Ht in Hx. injection Hx as _ <-. unfold device_memory, ATTR_INDEX_SHIFT, ATTR_INDEX_MASK.
    by rewrite (field_of d 2 3) by done. }
  destruct (_ && negb (is_set a MT_EXECUTE_NEVER)) eqn:Hdev.
  { apply Hno. intros [[_ Hx] _]. apply andb_true_iff in Hdev as [Hdev Hxn%negb_true_iff].
    specialize (Hx Hxn _ _ Ht). rewrite (Hdm _ _ Ht), Hx in Hdev. done. }
  change PAGE_SIZE with 4096. rewrite u64_small by lia.
  destruct (IH (va + 4096)) as (r & Hrun & Hspec & Hpaged); [lia| |lia|lia|].
  { by rewrite <- (Z.add_mod_idemp_r va 4096 4096), Z.mod_same, Z.add_0_r by lia. }
  exists r. split; [done|]. rewrite Hspec. split.
  - split; [|by intros [_ ?]]. intros Hrest. split; [|done]. split; [done|].
    intros Hxn pa x Hx. rewrite Hxn, andb_true_r in Hdev. by rewrite (Hdm _ _ Hx) in Hdev.
  - intros Hrest. apply (page_step (paged c lab)). split; [|apply Hpaged; by apply Hspec].
    exists q, b, k, d. split_and!; try done. change (blk 3) with 4096 in Hb.
    destruct (label_base _ _ _ _ _ _ _ _ Hwf Hq) as [_ [qb Hqb]]. change (blk 3) with 4096 in Hqb.
    apply Z.mod_divide in Hal as [qv Hqv]; [|lia]. lia.
Qed.

(** The attributes that [a] gives to the pages it is applied to. *)
Definition recoded (regime a : Z) (o : option (Z * Z)) : option (Z * Z) :=
  match o with Some (pa, x) => Some (pa, changed regime x a) | None => None end.

Lemma change_page_run Q E N c lab va a :
  wf Q E N c lab -> attrs_ready c -> pas_ok (xlat_regime c) -> paged c lab va ->
  0 <= va -> va + 4096 <= va_max_address c + 1 ->
  exists p k d, change_page va a c = Done tt (page_changed p k va d c) /\
    wf Q E N (page_changed p k va d c) lab /\
    (forall w, paged c lab w -> paged (page_changed p k va d c) lab w) /\
    forall w, translate (page_changed p k va d c) w =
      if decide (va <= w < va + 4096) then recoded (xlat_regime c) a (translate c w) else translate c w.
Proof.
  intros Hwf Har Hp (p & b & k & d & Hq & Hd & Hl & Hva) Hv0 Htop.
  assert (0 <= va <= va_max_address c) as Hr by lia. pose proof (ar_el _ Har) as Hel.
  destruct (get_internal_run _ _ _ _ _ _ Hwf Har Hr) as (r & Hrun & Hg).
  destruct (paged_got _ _ _ _ _ _ _ _ _ _ _ Hwf Hq Hd Hl Hva Hr Hg) as [Ht ->].
  set (x := desc_attrs d) in *. set (pa := Z.land d TABLE_ADDR_MASK) in *.
  assert (0 <= pa < 2 ^ 48 /\ pa mod 4096 = 0) as [Hpa Hpm].
  { unfold pa. rewrite desc_addr. pose proof (Z.mod_pos_bound (d / 4096) (2 ^ 36)).
    split; [lia|]. apply Z.mod_mul. lia. }
  set (d' := Z.lor (Z.lor pa PAGE_DESC) (changed (xlat_regime c) x a)).
  destruct (ar_legit _ Har _ _ _ Ht) as [Hlg Hbits]. fold x in Hlg, Hbits.
  assert (is_leaf 3 d' = true /\ forall w, leaf_result 3 d' w = (pa + w mod 4096, changed (xlat_regime c) x a)) as [Hl' Hres].
  { split; [|intros w]; [eapply (leaf_desc 3 pa (changed (xlat_regime c) x a) 0)|
      apply (leaf_desc 3 pa (changed (xlat_regime c) x a) w d')]; try done; by apply changed_bits. }
  exists p, k, d'. split_and!.
  - unfold change_page. unfold bind at 1, gets, id. unfold bind at 1. rewrite Hrun. unfold bind at 1.
    rewrite (read_entry_run _ _ _ _ Hd). unfold bind at 1.
    pose proof (new_desc_run c d a pa (proj1 Hel) Hp Hpm) as Hnd. fold x d' in Hnd. rewrite Hnd.
    unfold bind at 1. rewrite write_entry_run by (by eexists). unfold bind at 1.
    rewrite (tlbi_va_run _ _ _ Hel). unfold bind at 1, xlat_arch_tlbi_va_sync, emit, modify.
    rewrite write_entry_run; [done|]. exists INVALID_DESC.
    etransitivity; [|exact (decide_True (P := p = p /\ k = k) (Some INVALID_DESC) (entry_at c p k) (conj eq_refl eq_refl))].
    rewrite <- (entry_written _ _ _ _ _ _ _ Hd). by destruct p.
  - by eapply wf_page.
  - intros w (q & b' & k' & e & Hq' & He & Hle & ->). exists q, b', k'.
    rewrite (label_of_conf _ _ _ _ (same_conf_page _ _ _ _ _)), (entry_page _ _ _ _ _ _ _ _ Hd).
    destruct (decide (q = p /\ k' = k)); [by exists d'|by exists e].
  - intros w. rewrite (translate_page _ _ _ _ _ _ _ _ _ _ _ _ Hwf Hq Hd Hl Hl').
    replace (b + (k + 1) * 4096) with (va + 4096) by lia. rewrite <- Hva. case_decide as Hw; [|done].
    assert (translate c w = Some (pa + w mod 4096, x)) as ->.
    { assert (w <= va_max_address c) as Hwm by lia. unfold translate. rewrite !(proj2 (Z.leb_le _ _)) by lia.
      erewrite walk_to_leaf; try done; [|change (blk 3) with 4096; lia].
      unfold leaf_result. fold pa x. change (blk 3) with 4096.
      pose proof (Z.div_mod pa 4096). do 2 f_equal. lia. }
    cbn [recoded]. rewrite !(proj2 (Z.leb_le _ _)) by lia. by rewrite Hres.
Qed.

Lemma change_pages_run Q E N c lab n va a :
  wf Q E N c lab -> attrs_ready c -> pas_ok (xlat_regime c) ->
  (forall i, 0 <= i < Z.of_nat n -> paged c lab (va + i * 4096)) ->
  0 <= va -> va + Z.of_nat n * 4096 <= va_max_address c + 1 ->
  exists c', change_pages n va a c = Done tt c' /\ attrs_ready c' /\ same_conf c c' /\
    forall w, translate c' w =
      if decide (va <= w < va + Z.of_nat n * 4096)
      then recoded (xlat_regime c) a (translate c w) else translate c w.
Proof.
  revert c va. induction n as [|n IH]; intros c va Hwf Har Hp Hpg Hv0 Htop; cbn [change_pages].
  { exists c. split_and!; [done|done|apply same_conf_refl|]. intros w. by rewrite decide_False by lia. }
  pose proof (ar_space _ Har) as Hs.
  destruct (change_page_run _ _ _ _ _ va a Hwf Har Hp) as (p & k & d & Hrun & Hwf1 & Hpg1 & Ht1); [|lia|lia|].
  { rewrite <- (Z.add_0_r va). apply (Hpg 0). lia. }
  set (c1 := page_changed p k va d c) in *. pose proof (same_conf_page p k va d c : same_conf c c1) as Hs1.
  destruct (same_conf_fields _ _ Hs1) as (Hbl & _ & Hvm & _ & _ & Hrg & _).
  destruct (same_conf_ctx _ _ Hs1) as (Hin & _).
  assert (attrs_ready c1) as Har1.
  { constructor.
    - by eexists _, _, _, lab.
    - rewrite Hin. apply Har.
    - unfold level_matches. rewrite Hbl, Hvm. apply Har.
    - by rewrite Hvm.
    - rewrite Hrg. apply Har.
    - intros w pa x. rewrite Ht1, Hrg. pose proof (ar_legit _ Har w) as Hlg.
      case_decide; [|apply Hlg]. destruct (translate c w) as [[pa0 x0]|]; [|done]. cbn. intros [= <- <-].
      split; [apply changed_flags; [apply Har|done]|apply changed_bits, (Hlg _ _ eq_refl)]. }
  destruct (IH c1 (va + 4096) Hwf1 Har1) as (c' & Hrun' & Har' & Hs' & Ht').
  { by rewrite Hrg. }
  { intros i Hi. apply Hpg1. replace (va + 4096 + i * 4096) with (va + (i + 1) * 4096) by lia. apply Hpg. lia. }
  { lia. } { rewrite Hvm. lia. }
  exists c'. split_and!; [|done|exact (same_conf_trans _ _ _ Hs1 Hs')|].
  - unfold bind. rewrite Hrun. change PAGE_SIZE with 4096. rewrite u64_small by lia. done.
  - intros w. rewrite Ht', Hrg, Ht1.
    destruct (decide (va <= w < va + 4096)).
    + rewrite decide_False, decide_True by lia. done.
    + apply decide_ext. lia.
Qed.

(** No address is both writable and executable. *)
Definition w_xor_x (c : xlat_ctx) : Prop :=
  forall va pa x, translate c va = Some (pa, x) -> writable x = true -> exec_never (xlat_regime c) x = true.

Lemma leaf_w_xor_x regime mm x :
  leaf_attrs regime mm = Some x -> writable x = true -> exec_never regime x = true.
Proof.
  intros Hx Hw. destruct (leaf_flags _ _ _ Hx) as [Hv _].
  rewrite <- (view_writable regime), Hv in Hw. rewrite <- view_exec_never, Hv. apply attr_view_wx.
  unfold attr_view, is_set in *. destruct (negb (Z.land (attr mm) MT_RW =? 0)) eqn:Hrw; [done|].
  exfalso. rewrite orb_false_r in Hw.
  assert (forall t, (t = MT_DEVICE \/ t = MT_MEMORY \/ t = MT_NON_CACHEABLE) -> forall b1 b2 : bool,
    negb (Z.land (Z.lor (Z.lor (Z.lor t 0) (if b1 then MT_USER else 0)) (if b2 then MT_EXECUTE_NEVER else 0)) MT_RW =? 0) = false) as Hno.
  { intros t [->|[->| ->]] [] []; done. }
  rewrite Hno in Hw; [done|]. unfold leaf_attrs, region_attrs in Hx.
  destruct (pas_attrs _ _); [|done]. cbn in Hx. destruct (user_attrs _ _); [|done]. cbn in Hx.
  destruct (mem_attrs _ _) as [m|] eqn:Hm; [|done]. by apply mem_flags in Hm as [? _].
Qed.

Lemma hold_w_xor_x c rs :
  tables_hold c rs -> Forall (attrs_valid (xlat_regime c)) rs ->
  Forall (region_fits (va_max_address c) (pa_max_address c)) rs -> w_xor_x c.
Proof.
  intros Ht Ha Hf va pa x Htr. pose proof (translate_hold c rs va Ht Hf) as Hby. rewrite Htr in Hby.
  destruct Hby as (r & Hr & _ & [= _ ->] & _). destruct (proj1 (Forall_forall _ _) Ha r Hr) as [y Hy].
  rewrite Hy. cbn. by eapply leaf_w_xor_x.
Qed.

(** C8. No page is writable and executable: after the tables of any valid
    set of regions are built, every address that translates to a writable
    descriptor translates to an execute-never one, whatever combination of
    flags the regions were given; the context then satisfies what reading and
    changing attributes requires. *)
Theorem boot_w_xor_x mmap_count tables_count va_bits pa_bits regime taddr mms e :
  boot_ok mmap_count tables_count va_bits pa_bits regime taddr mms e ->
  wp (xlat_boot mms e) (fun _ c => w_xor_x c /\ attrs_ready c) out_of_tables
    (register_xlat_context mmap_count tables_count (2 ^ va_bits) (2 ^ pa_bits) regime taddr).
Proof.
  intros Hok. pose proof Hok as [Hreg Hcpu _ Hattr _ _]. eapply wp_mono; [by apply wp_boot| |done].
  intros [] c (Hi & Hr & Hv & Hb & _ & rs & Hp & Hw & Ht).
  assert (Forall (attrs_valid (xlat_regime c)) rs) as Ha by (by rewrite Hp, Hr).
  destruct (rw_space _ _ Hw) as [Hs _].
  split; [by eapply hold_w_xor_x; [done|done|apply Hw]|].
  eapply hold_ready; [done|done|apply Hw|done| |lia|].
  - unfold level_matches. rewrite Hb, Hv. f_equal. replace (2 ^ va_bits - 1 + 1) with (2 ^ va_bits) by lia.
    symmetry. apply u64_small. lia.
  - rewrite Hr. destruct Hcpu as [Hc He _ _ _]. unfold el_covers.
    destruct Hc as [->|[->| ->]]; unfold EL1_EL0_REGIME, EL2_REGIME, EL3_REGIME in *; lia.
Qed.

(** *** What a change does to the attributes *)

Lemma attr_view_parts regime f :
  MT_TYPE f = MT_DEVICE \/ MT_TYPE f = MT_MEMORY \/ MT_TYPE f = MT_NON_CACHEABLE ->
  Z.ldiff (attr_view regime f) MT_CHANGE_MASK = MT_TYPE f /\
  is_set (attr_view regime f) MT_RW = is_set f MT_RW /\
  is_set (attr_view regime f) MT_USER = (regime =? EL1_EL0_REGIME) && is_set f MT_USER /\
  is_set (attr_view regime f) MT_EXECUTE_NEVER =
    (MT_TYPE f =? MT_DEVICE) || is_set f MT_RW || is_set f MT_EXECUTE_NEVER.
Proof.
  intros Ht. unfold attr_view. generalize (is_set f MT_RW) (is_set f MT_USER) (is_set f MT_EXECUTE_NEVER).
  destruct Ht as [->|[->| ->]]; intros [] [] []; destruct (regime =? EL1_EL0_REGIME); by vm_compute.
Qed.

Lemma view_unprivileged regime x :
  is_set (view regime x) MT_USER = (regime =? EL1_EL0_REGIME) && unprivileged x.
Proof.
  unfold view, type_of. destruct (writable x), (_ && _), (exec_never regime x);
    (destruct (_ =? 0); [done|]; destruct (_ =? 2); done).
Qed.

(** The bits of the physical address space, and those of the shareability. *)
Definition PAS_BITS : Z := LOWER_ATTRS (Z.lor NS EL3_S1_NSE).
Definition shareability (x : Z) : Z := Z.land (Z.shiftr x 8) 3.

(** The parts of the attributes of a region. *)
Lemma region_parts regime f y :
  region_attrs regime f = Some y -> pas_attrs regime f = Some 0 ->
  exists user mem, user_attrs regime f = Some user /\ mem_attrs regime f = Some mem /\
    y = Z.lor (Z.lor (Z.lor (LOWER_ATTRS ACCESS_FLAG) (if is_set f MT_RW then LOWER_ATTRS AP_RW else LOWER_ATTRS AP_RO))
          user) mem.
Proof.
  unfold region_attrs. intros Hy Hp. rewrite Hp in Hy. cbn [mbind option_bind] in Hy.
  destruct (user_attrs _ f) as [user|]; [|done]. cbn [mbind option_bind] in Hy.
  destruct (mem_attrs _ f) as [mem|]; [|done]. cbn [mbind option_bind] in Hy. injection Hy as <-.
  exists user, mem. by rewrite Z.lor_0_r.
Qed.

Lemma user_attrs_cases regime f user :
  user_attrs regime f = Some user -> user = LOWER_ATTRS AP_ACCESS_UNPRIVILEGED \/ user = 0.
Proof. unfold user_attrs. intros Hu. repeat (case_match; simplify_eq/=); tauto. Qed.

(** Memory attributes without a shareability of their own. *)
Lemma mem_attrs_fields regime f mem :
  mem_attrs regime f = Some mem -> MT_SHAREABILITY f = 0 ->
  Z.land mem PAS_BITS = 0 /\ shareability mem = (if MT_TYPE f =? MT_MEMORY then 3 else 2).
Proof.
  unfold mem_attrs, xn_attrs, shareability. intros Hm Hs. rewrite Hs in Hm. rewrite field_mask by done.
  destruct (Z.eqb_spec (MT_TYPE f) MT_DEVICE) as [->|_].
  { injection Hm as <-. by destruct (regime =? EL1_EL0_REGIME). }
  destruct (MT_TYPE f =? MT_MEMORY).
  { injection Hm as <-. rewrite !Z.land_lor_distr_l.
    destruct (is_set f MT_RW || _), (regime =? EL1_EL0_REGIME), (is_feat_bti_supported && _); done. }
  destruct (MT_TYPE f =? MT_NON_CACHEABLE); [|done]. injection Hm as <-.
  destruct (is_set f MT_RW || _), (regime =? EL1_EL0_REGIME); done.
Qed.

(** Only the address space sets its bits, and the shareability is that of the
    memory type. *)
Lemma region_fields regime f y :
  region_attrs regime f = Some y -> pas_attrs regime f = Some 0 -> MT_SHAREABILITY f = 0 ->
  Z.land y PAS_BITS = 0 /\ shareability y = (if MT_TYPE f =? MT_MEMORY then 3 else 2).
Proof.
  intros Hy Hp Hs. destruct (region_parts _ _ _ Hy Hp) as (user & mem & Hu & Hm & ->).
  destruct (mem_attrs_fields _ _ _ Hm Hs) as [M1 M2]. unfold shareability in *. rewrite field_mask in * by done.
  rewrite !Z.land_lor_distr_l, M1, !Z.shiftr_lor, M2.
  destruct (user_attrs_cases _ _ _ Hu) as [->| ->], (is_set f MT_RW), (MT_TYPE f =? MT_MEMORY); done.
Qed.

(** What is kept of a page. *)
Lemma kept_ns regime x : Z.land (kept_pas regime x) (LOWER_ATTRS NS) = Z.land x (LOWER_ATTRS NS).
Proof.
  unfold kept_pas. rewrite Z.land_lor_distr_l, <- Z.land_assoc, Z.land_diag. destruct (_ && _); [|apply Z.lor_0_r].
  by rewrite <- Z.land_assoc, Z.land_0_r, Z.lor_0_r.
Qed.

Lemma kept_nse regime x : is_feat_rme_supported && (regime =? EL3_REGIME) = true ->
  Z.land (kept_pas regime x) (LOWER_ATTRS EL3_S1_NSE) = Z.land x (LOWER_ATTRS EL3_S1_NSE).
Proof.
  intros Hr. unfold kept_pas. rewrite Hr, Z.land_lor_distr_l, <- !Z.land_assoc, Z.land_diag, Z.land_0_r. done.
Qed.

Lemma kept_sh regime x : Z.land (kept_pas regime x) (LOWER_ATTRS ISH) = 0.
Proof.
  unfold kept_pas. rewrite Z.land_lor_distr_l, <- Z.land_assoc, Z.land_0_r. destruct (_ && _); [|done].
  by rewrite <- Z.land_assoc, Z.land_0_r.
Qed.

Lemma sub_mask y m n : Z.land m n = n -> Z.land y m = 0 -> Z.land y n = 0.
Proof. intros <- Hy. by rewrite Z.land_assoc, Hy. Qed.

Lemma changed_parts regime x a :
  1 <= regime <= 3 -> pas_ok regime ->
  type_of (changed regime x a) = type_of x /\
  writable (changed regime x a) = is_set a MT_RW /\
  exec_never regime (changed regime x a) =
    (type_of x =? MT_DEVICE) || is_set a MT_RW || is_set a MT_EXECUTE_NEVER /\
  (regime = EL1_EL0_REGIME -> unprivileged (changed regime x a) = is_set a MT_USER) /\
  Z.land (changed regime x a) (LOWER_ATTRS NS) = Z.land x (LOWER_ATTRS NS) /\
  (is_feat_rme_supported = true ->
   Z.land (changed regime x a) (LOWER_ATTRS EL3_S1_NSE) = Z.land x (LOWER_ATTRS EL3_S1_NSE)) /\
  shareability (changed regime x a) = (if type_of x =? MT_MEMORY then 3 else 2).
Proof.
  intros Hr Hp. destruct (changed_flags regime x a Hr Hp) as [Hv _].
  destruct (new_flags_valid regime x a Hr Hp) as [y Hy]. set (f := new_flags regime x a) in *.
  assert (MT_TYPE f = type_of x) as Ht.
  { unfold f, MT_TYPE. rewrite new_flags_kept by done. by destruct (type_of_cases x) as [->|[->| ->]]. }
  destruct (attr_view_parts regime f) as (H1' & H2' & H3' & H4').
  { rewrite Ht. pose proof (type_of_cases x). tauto. }
  assert (forall m, m = MT_RW \/ m = MT_EXECUTE_NEVER \/ m = MT_USER -> is_set f m = is_set a m) as Hset.
  { intros m Hm. apply new_flags_set; [by destruct Hm as [->|[->| ->]]|].
    intros t [->|[->| ->]]; by destruct Hm as [->|[->| ->]]. }
  assert (MT_SHAREABILITY f = 0) as Hs0.
  { unfold f, MT_SHAREABILITY. rewrite new_flags_kept by done. by destruct (type_of_cases x) as [->|[->| ->]]. }
  destruct (region_fields _ _ _ Hy (new_flags_pas _ _ _ Hp) Hs0) as [Hpas Hsh].
  rewrite Ht in H1', H4'. rewrite !Hset in * by tauto. rewrite <- Hv in H1', H2', H3', H4'.
  split_and!.
  - by rewrite <- (view_type regime).
  - by rewrite <- (view_writable regime).
  - by rewrite <- view_exec_never.
  - intros ->. rewrite view_unprivileged in H3'. exact H3'.
  - unfold changed. fold f. rewrite Hy. cbn [default from_option id]. rewrite Z.land_lor_distr_l, kept_ns.
    by rewrite (sub_mask y PAS_BITS (LOWER_ATTRS NS) eq_refl Hpas).
  - intros Hrme. unfold changed. fold f. rewrite Hy. cbn [default from_option id]. rewrite Z.land_lor_distr_l.
    rewrite kept_nse by (rewrite Hrme; by destruct (Hp Hrme) as [-> _]).
    by rewrite (sub_mask y PAS_BITS (LOWER_ATTRS EL3_S1_NSE) eq_refl Hpas).
  - unfold changed. fold f. rewrite Hy. cbn [default from_option id]. rewrite <- Ht, <- Hsh.
    unfold shareability. rewrite !field_mask, Z.land_lor_distr_l by done.
    change (Z.shiftl 3 8) with (LOWER_ATTRS ISH). by rewrite kept_sh, Z.lor_0_r.
Qed.

(** A page before and after a change: the address, the memory type and the
    security state (NS, and with RME also NSE) are kept, the flags are those
    asked for, and the shareability becomes the one the memory type has by
    itself: inner for cacheable memory, outer otherwise. *)
Definition page_change (regime a : Z) (o o' : option (Z * Z)) : Prop :=
  exists pa x x', o = Some (pa, x) /\ o' = Some (pa, x') /\
    type_of x' = type_of x /\ Z.land x' (LOWER_ATTRS NS) = Z.land x (LOWER_ATTRS NS) /\
    writable x' = is_set a MT_RW /\ exec_never regime x' = is_set a MT_EXECUTE_NEVER /\
    (regime = EL1_EL0_REGIME -> unprivileged x' = is_set a MT_USER) /\
    (is_feat_rme_supported = true -> Z.land x' (LOWER_ATTRS EL3_S1_NSE) = Z.land x (LOWER_ATTRS EL3_S1_NSE)) /\
    shareability x' = (if type_of x =? MT_MEMORY then 3 else 2).

Lemma page_of base_va n va :
  base_va <= va < base_va + Z.of_nat n * 4096 ->
  exists i, 0 <= i < Z.of_nat n /\ base_va + i * 4096 <= va < base_va + i * 4096 + 4096.
Proof.
  intros Hva. exists ((va - base_va) / 4096).
  pose proof (Z.div_mod (va - base_va) 4096). pose proof (Z.mod_pos_bound (va - base_va) 4096).
  split; [split; [apply Z.div_pos; lia|]|lia]. apply Z.div_lt_upper_bound; lia.
Qed.

(** The request makes no page both writable and executable. *)
Definition no_rwx (a : Z) : Prop := ~ (is_set a MT_RW = true /\ is_set a MT_EXECUTE_NEVER = false).

(** One page that allows the change, recoded. *)
Lemma recoded_page Q E N c lab a v va :
  wf Q E N c lab -> attrs_ready c -> pas_ok (xlat_regime c) -> no_rwx a ->
  paged c lab v -> page_allows c a v -> v <= va < v + 4096 -> 0 <= v -> va <= va_max_address c ->
  page_change (xlat_regime c) a (translate c va) (recoded (xlat_regime c) a (translate c va)).
Proof.
  intros Hwf Har Hp Hrwx (p & b & k & d & Hq & Hd & Hl & Hpv) [_ Hdev] Hva Hv0 Hmax.
  pose proof (ar_el _ Har) as [Hreg _].
  assert (forall w, v <= w <= va -> translate c w = Some (leaf_result 3 d w)) as Hw.
  { intros w Hw. unfold translate. rewrite !(proj2 (Z.leb_le _ _)) by lia.
    eapply walk_to_leaf; try done; [|lia]. change (blk 3) with 4096. lia. }
  rewrite (Hw va) by lia. rewrite (Hw v) in Hdev by lia. unfold leaf_result in *.
  cbn [recoded]. eexists _, _, _. split; [done|]. split; [done|].
  destruct (changed_parts (xlat_regime c) (desc_attrs d) a Hreg Hp) as (P1 & P2 & P3 & P4 & P5 & P6 & P7).
  split_and!; try done. rewrite P3. unfold no_rwx in Hrwx.
  destruct (is_set a MT_EXECUTE_NEVER) eqn:Hxn; [apply orb_true_r|].
  destruct (is_set a MT_RW); [by destruct Hrwx|]. rewrite !orb_false_r.
  specialize (Hdev eq_refl _ _ eq_refl). apply Z.eqb_neq. unfold type_of. unfold device_memory in Hdev.
  destruct (ar_legit _ Har va _ _ (Hw va ltac:(lia))) as [[Hne _] _].
  destruct (index_cases (desc_attrs d)) as [Ei|[Ei|[Ei|Ei]]]; rewrite ?Ei in *; done.
Qed.

(** The requests that are carried out. *)
Definition change_allowed (c : xlat_ctx) (base_va size a : Z) : Prop :=
  base_va mod 4096 = 0 /\ size <> 0 /\ size mod 4096 = 0 /\ no_rwx a /\
  forall i, 0 <= i < size / 4096 -> page_allows c a (base_va + i * 4096).

(** The effect of one that is. *)
Definition change_post (c : xlat_ctx) (base_va size a : Z) (c' : xlat_ctx) : Prop :=
  attrs_ready c' /\ (w_xor_x c -> w_xor_x c') /\
  forall va, if decide (base_va <= va < base_va + size)
    then page_change (xlat_regime c) a (translate c va) (translate c' va)
    else translate c' va = translate c va.

Lemma wp_change_pages Q E N c lab n base_va a :
  wf Q E N c lab -> attrs_ready c -> pas_ok (xlat_regime c) -> no_rwx a ->
  (forall i, 0 <= i < Z.of_nat n -> paged c lab (base_va + i * 4096)) ->
  (forall i, 0 <= i < Z.of_nat n -> page_allows c a (base_va + i * 4096)) ->
  0 <= base_va -> base_va + Z.of_nat n * 4096 <= va_max_address c + 1 ->
  wpd (change_pages n base_va a;; emit DsbIsh;; ret 0)
    (fun r c' => r = 0 /\ change_post c base_va (Z.of_nat n * 4096) a c') c.
Proof.
  intros Hwf Har Hp Hrwx Hpg Hal Hv0 Htop.
  destruct (change_pages_run Q E N c lab n base_va a Hwf Har Hp Hpg Hv0 Htop) as (c1 & Hrun1 & Har1 & Hs1 & Ht1).
  wp_step. eapply wp_exact; [exact Hrun1|]. unfold emit. wp_steps.
  match goal with |- _ /\ change_post _ _ _ _ ?x => set (c2 := x) end. split; [done|].
  assert (forall va, translate c2 va = translate c1 va) as Htr.
  { intros va. unfold translate, c2. cbn [base_level va_max_address set_mem].
    by rewrite (walk_same c1) by (done || by intros []). }
  assert (xlat_regime c2 = xlat_regime c) as Hrg by (apply (same_conf_fields _ _ Hs1)).
  assert (forall va, base_va <= va < base_va + Z.of_nat n * 4096 ->
    page_change (xlat_regime c) a (translate c va) (translate c2 va)) as Hpc.
  { intros va Hva. rewrite Htr, Ht1, decide_True by done.
    destruct (page_of _ _ _ Hva) as (i & Hi & Hiv). by eapply (recoded_page Q E N c lab a (base_va + i * 4096)); auto; lia. }
  split_and!.
  - destruct Har1 as [(Q1 & E1 & N1 & lab1 & W1) ? Hl1 ? ? Hlg1]. constructor; try done.
    + exists Q1, E1, N1, lab1. by apply (wf_retraced (xlat_trace c1 ++ [DsbIsh])).
    + intros va pa x. rewrite Htr. apply Hlg1.
  - intros Hwx va pa x Hx Hw. rewrite Hrg.
    destruct (decide (base_va <= va < base_va + Z.of_nat n * 4096)) as [Hin|Hout].
    + destruct (Hpc va Hin) as (pa' & y & y' & _ & Hy' & _ & _ & Hwr & Hxn & _).
      rewrite Hx in Hy'. simplify_eq. rewrite Hxn. rewrite Hwr in Hw. unfold no_rwx in Hrwx.
      destruct (is_set a MT_EXECUTE_NEVER); [done|]. by destruct Hrwx.
    + rewrite Htr, Ht1, decide_False in Hx by done. by eapply Hwx.
  - intros va. case_decide as Hin; [by apply Hpc|]. by rewrite Htr, Ht1, decide_False by done.
Qed.

(** C9. [xlat_change_mem_attributes_ctx], for a range of fewer than 2^32 pages
    inside the address space of initialised tables, is carried out exactly when the range is made of whole pages, is not
    empty, each page has a descriptor of its own, and the flags ask neither for
    writable and executable memory nor for executable device memory. Otherwise
    it answers [-EINVAL] and changes nothing. When it is carried out every page
    of the range keeps its physical address, memory type and security state (NS,
    and with RME the NSE bit), has the access flags asked for and the
    shareability of its memory type (another one is not kept), other addresses
    translate as before, and no page becomes writable and executable. With RME
    the context is one of EL3 and the CPU has FEAT_SEL2 ([pas_ok]): the new
    descriptor is first encoded as Secure, which is asserted to be possible. *)
Theorem change_attributes_ok c base_va size a :
  attrs_ready c -> pas_ok (xlat_regime c) -> 0 <= base_va -> 0 <= size < 2 ^ 44 ->
  base_va + size <= va_max_address c + 1 ->
  wpd (xlat_change_mem_attributes_ctx base_va size a)
    (fun r c' =>
      (~ change_allowed c base_va size a /\ r = - EINVAL /\ c' = c) \/
      (change_allowed c base_va size a /\ r = 0 /\ change_post c base_va size a c')) c.
Proof.
  intros Har Hp Hv0 Hsz Htop. pose proof (ar_wf _ Har) as (Q & E & N & lab & Hwf).
  unfold xlat_change_mem_attributes_ctx. wp_steps. unfold id. apply wp_assert; [apply Har|]. wp_step.
  apply wp_assert; [apply Z.ltb_lt; by eapply space_positive; [|apply Har]|].
  rewrite page_aligned_mod. destruct (Z.eqb_spec (base_va mod 4096) 0) as [Hal|Hal]; cbn [negb];
    [|wp_step; left; split; [by intros (? & _)|done]].
  destruct (Z.eqb_spec size 0) as [Hz|Hs0]; [wp_step; left; split; [by intros (_ & ? & _)|done]|].
  change PAGE_SIZE with 4096. destruct (Z.eqb_spec (size mod 4096) 0) as [Hsm|Hsm]; cbn [negb];
    [|wp_step; left; split; [by intros (_ & _ & ? & _)|done]].
  destruct (negb (is_set a MT_EXECUTE_NEVER) && is_set a MT_RW) eqn:Hrwx.
  { wp_step. left. split; [|done]. intros (_ & _ & _ & Hno & _). apply Hno.
    apply andb_true_iff in Hrwx as [?%negb_true_iff ?]. done. }
  assert (no_rwx a) as Hno by (intros [E1 E2]; by rewrite E1, E2 in Hrwx).
  assert (size = Z.of_nat (Z.to_nat (size / 4096)) * 4096) as Hn.
  { pose proof (Z.div_mod size 4096). pose proof (Z.div_pos size 4096). lia. }
  assert (size / 4096 < 2 ^ 32) as Hlt by (apply Z.div_lt_upper_bound; lia).
  rewrite (proj2 (Z.leb_gt _ _) Hlt).
  destruct (check_pages_run Q E N c lab (Z.to_nat (size / 4096)) base_va a) as (r & Hrun & Hspec & Hpg);
    try done; [apply Har|lia|apply Har|].
  rewrite Z2Nat.id in Hspec by (apply Z.div_pos; lia).
  wp_step. eapply wp_exact; [exact Hrun|]. destruct r; cbn [negb].
  2:{ wp_step. left. split; [|done]. intros (_ & _ & _ & _ & Hall). by apply Hspec in Hall. }
  specialize (Hpg eq_refl). specialize (proj1 Hspec eq_refl) as Hall.
  assert (change_allowed c base_va size a) as Hok by done.
  eapply wp_mono; [eapply wp_change_pages; try done; [|lia]| |done].
  - rewrite Z2Nat.id by (apply Z.div_pos; lia). done.
  - intros r c' [-> Hpost]. rewrite <- Hn in Hpost. by right.
Qed.
End Attrs.
