(* ===== verification/XlatMmu.v ===== *)
(** * Translation tables: the MMU registers

    The values of MAIR and TCR agree with the descriptors and the size of the
    address spaces: a descriptor's attribute index selects its memory type, the
    walk starts at the base level, and the physical address range holds every
    address that the tables translate to. *)

From stdpp Require Import list_numbers.
From S2P Require Import Prelude XlatDefs XlatCore XlatWalk XlatDesc XlatMap XlatRegions XlatInit XlatBoot XlatUtils XlatAttrs.
#[local] Open Scope cmd_scope.

Section Mmu.
Context `{XlatConfig}.
Implicit Types (c : xlat_ctx).

(** The number of address bits of a value of TCR.PS. *)
Definition ps_bits (ps : Z) : Z := default 0 ([32; 36; 40; 42; 44; 48].[ps]).

(** Whether an address has a bit from [j] to [k - 1], when it has none above. *)
Lemma is_set_range x j k :
  0 <= j <= k -> 0 <= x < 2 ^ k -> is_set x (Z.shiftl (Z.ones (k - j)) j) = (2 ^ j <=? x).
Proof.
  intros Hj Hx. unfold is_set.
  assert (Z.land x (Z.shiftl (Z.ones (k - j)) j) = Z.shiftl (Z.shiftr x j) j) as ->.
  { apply Z.bits_inj'. intros n Hn. rewrite Z.land_spec. destruct (Z.ltb_spec n j).
    - by rewrite !Z.shiftl_spec_low, andb_false_r by lia.
    - rewrite !Z.shiftl_spec, Z.shiftr_spec, Z.testbit_ones_nonneg by lia.
      replace (n - j + j) with n by lia. destruct (Z.ltb_spec (n - j) (k - j)); [apply andb_true_r|].
      rewrite <- (Z.mod_small x (2 ^ k)) by lia. by rewrite Z.mod_pow2_bits_high by lia. }
  rewrite Z.shiftl_mul_pow2, Z.shiftr_div_pow2 by lia. pose proof (Z.pow_pos_nonneg 2 j).
  destruct (Z.leb_spec (2 ^ j) x) as [Hle|Hlt].
  - apply negb_true_iff, Z.eqb_neq. assert (1 <= x / 2 ^ j) by (apply Z.div_le_lower_bound; lia). nia.
  - by rewrite Z.div_small by lia.
Qed.

Lemma range_fits x ps c :
  0 <= ps <= 5 -> x < 2 ^ ps_bits ps -> ps = 0 \/ 2 ^ ps_bits (ps - 1) <= x ->
  exists ps', Done ps c = Done ps' c /\ 0 <= ps' <= 5 /\
    x < 2 ^ ps_bits ps' /\ (ps' = 0 \/ 2 ^ ps_bits (ps' - 1) <= x).
Proof. by exists ps. Qed.

Lemma physical_range x c :
  0 <= x < 2 ^ 48 ->
  exists ps, tcr_physical_addr_size_bits x c = Done ps c /\ 0 <= ps <= 5 /\
    x < 2 ^ ps_bits ps /\ (ps = 0 \/ 2 ^ ps_bits (ps - 1) <= x).
Proof.
  intros Hx. destruct (Hx) as [_ Hlt]. unfold tcr_physical_addr_size_bits, bind, assert_.
  assert (is_set x ADDR_MASK_48_TO_63 = false) as ->.
  { change ADDR_MASK_48_TO_63 with (Z.shiftl (Z.ones (64 - 48)) 48).
    rewrite is_set_range by lia. apply Z.leb_gt. lia. }
  cbn [andb negb]. unfold ret.
  change ADDR_MASK_44_TO_47 with (Z.shiftl (Z.ones (48 - 44)) 44). rewrite is_set_range by lia.
  destruct (Z.leb_spec (2 ^ 44) x) as [Hge|Hgt]; [apply (range_fits x 5); [lia|exact Hlt|right; exact Hge]|clear Hlt; rename Hgt into Hlt].
  change ADDR_MASK_42_TO_43 with (Z.shiftl (Z.ones (44 - 42)) 42). rewrite is_set_range by lia.
  destruct (Z.leb_spec (2 ^ 42) x) as [Hge|Hgt]; [apply (range_fits x 4); [lia|exact Hlt|right; exact Hge]|clear Hlt; rename Hgt into Hlt].
  change ADDR_MASK_40_TO_41 with (Z.shiftl (Z.ones (42 - 40)) 40). rewrite is_set_range by lia.
  destruct (Z.leb_spec (2 ^ 40) x) as [Hge|Hgt]; [apply (range_fits x 3); [lia|exact Hlt|right; exact Hge]|clear Hlt; rename Hgt into Hlt].
  change ADDR_MASK_36_TO_39 with (Z.shiftl (Z.ones (40 - 36)) 36). rewrite is_set_range by lia.
  destruct (Z.leb_spec (2 ^ 36) x) as [Hge|Hgt]; [apply (range_fits x 2); [lia|exact Hlt|right; exact Hge]|clear Hlt; rename Hgt into Hlt].
  change ADDR_MASK_32_TO_35 with (Z.shiftl (Z.ones (36 - 32)) 32). rewrite is_set_range by lia.
  destruct (Z.leb_spec (2 ^ 32) x) as [Hge|Hgt]; [apply (range_fits x 1); [lia|exact Hlt|right; exact Hge]|clear Hlt; rename Hgt into Hlt].
  apply (range_fits x 0); [lia|exact Hlt|by left].
Qed.

(** ** The fields of the registers *)

(** The field of [w] bits from bit [s]. *)
Definition field (x s w : Z) : Z := Z.land (Z.shiftr x s) (Z.ones w).

(** The encoding in MAIR of the memory type of a region. *)
Definition mair_type (a : Z) : Z :=
  if MT_TYPE a =? MT_DEVICE then 0x00 else if MT_TYPE a =? MT_NON_CACHEABLE then 0x44 else 0xff.

(** Where TCR has the physical address size. *)
Definition ps_shift (regime : Z) : Z := if regime =? EL1_EL0_REGIME then 32 else 16.

(** The level at which the MMU starts a walk of [n] bits of address: nine bits
    a level, down to the twelve bits of a page. *)
Definition start_level (n : Z) : Z := 4 - (n - 12 + 8) / 9.

(** Shareability and cacheability of the walks: inner shareable and write-back,
    or not cached at all. *)
Definition walk_attrs (flags : Z) : Z := if is_set flags XLAT_TABLE_NC then 0x0 else 0x35.

(** The registers agree with the tables of the regions [mms]: the descriptor of
    any region selects the type of its memory, TCR describes an address space of
    [n] bits whose walk starts at the base level, and its physical range holds
    every address a walk of the tables can give. In a build with dynamic regions
    the range holds the whole physical space of the context, for the regions
    that are added later. It is the smallest range that does: a smaller one
    would not reach the top of the physical space, or of some region. *)
Record registers_fit (c : xlat_ctx) (mms : list mmap_region) (regime flags n mair tcr : Z) : Prop := {
  rf_type a x : region_attrs regime a = Some x -> field mair (8 * field x 2 3) 8 = mair_type a;
  rf_t0sz : field tcr 0 6 = 64 - n;
  rf_level : start_level (64 - field tcr 0 6) = base_level c;
  rf_walk : field tcr 8 6 = walk_attrs flags;
  rf_ps : 0 <= field tcr (ps_shift regime) 3 <= 5;
  rf_holds va pa x : translate c va = Some (pa, x) -> 0 <= pa < 2 ^ ps_bits (field tcr (ps_shift regime) 3);
  rf_later : PLAT_XLAT_TABLES_DYNAMIC = true -> pa_max_address c < 2 ^ ps_bits (field tcr (ps_shift regime) 3);
  rf_least : 0 < field tcr (ps_shift regime) 3 ->
    let smaller := 2 ^ ps_bits (field tcr (ps_shift regime) 3 - 1) in
    if PLAT_XLAT_TABLES_DYNAMIC then smaller <= pa_max_address c else exists r, r ∈ mms /\ smaller < pa_top r
}.

(** The value of MAIR. *)
Definition mair_value : Z := 0x4400ff.

Lemma mair_selects regime a x :
  region_attrs regime a = Some x -> field mair_value (8 * field x 2 3) 8 = mair_type a.
Proof.
  unfold region_attrs, pas_attrs, user_attrs, mem_attrs, xn_attrs, mair_type. intros Hx.
  repeat (case_match; simplify_eq/=); simplify_eq/=; try done;
    exfalso; rewrite ?Z.eqb_eq, ?Z.eqb_neq in *; unfold MT_DEVICE, MT_MEMORY, MT_NON_CACHEABLE in *; lia.
Qed.

(** A property of the small numbers, by evaluation. *)
Lemma by_range (P : Z -> bool) lo hi :
  forallb P (seqZ lo (hi - lo + 1)) = true -> forall x, lo <= x <= hi -> P x = true.
Proof.
  rewrite forallb_forall. intros HP x Hx. apply HP, list_elem_of_In, elem_of_seqZ. lia.
Qed.

Lemma vas_facts n :
  16 <= n <= 48 ->
  ctz64 (2 ^ n) = n /\ IS_POWER_OF_TWO (2 ^ n) = true /\
  GET_XLAT_TABLE_LEVEL_BASE (2 ^ n) = start_level n.
Proof.
  intros Hn.
  pose proof (by_range (fun n => (ctz64 (2 ^ n) =? n) && IS_POWER_OF_TWO (2 ^ n) &&
    (GET_XLAT_TABLE_LEVEL_BASE (2 ^ n) =? start_level n)) 16 48) as Hr.
  specialize (Hr ltac:(by vm_compute) n Hn). apply andb_true_iff in Hr as [Hr Hl%Z.eqb_eq].
  by apply andb_true_iff in Hr as [Hc%Z.eqb_eq Hp].
Qed.

(** TCR as [setup_mmu_cfg] puts it together. *)
Definition tcr_value (t0sz ps regime : Z) (nc morello : bool) : Z :=
  let tcr := Z.shiftl t0sz TCR_T0SZ_SHIFT in
  let tcr :=
    if nc then Z.lor tcr (Z.lor (Z.lor TCR_SH_NON_SHAREABLE TCR_RGN_OUTER_NC) TCR_RGN_INNER_NC)
    else Z.lor tcr (Z.lor (Z.lor TCR_SH_INNER_SHAREABLE TCR_RGN_OUTER_WBA) TCR_RGN_INNER_WBA) in
  let tcr :=
    if regime =? EL1_EL0_REGIME then
      Z.lor tcr (Z.lor TCR_EPD1_BIT (Z.shiftl ps TCR_EL1_IPS_SHIFT))
    else Z.lor tcr (Z.lor TCR_EL3_RES1 (Z.shiftl ps TCR_EL3_PS_SHIFT)) in
  if morello then Z.lor tcr (Z.lor (Z.lor (Z.lor (Z.lor TCR_HPD_BIT TCR_HWU59_BIT) TCR_HWU60_BIT)
                               TCR_HWU61_BIT) TCR_HWU62_BIT)
  else tcr.

Lemma tcr_fields t0sz ps regime nc morello :
  16 <= t0sz <= 48 -> 0 <= ps <= 5 -> 1 <= regime <= 3 ->
  let tcr := tcr_value t0sz ps regime nc morello in
  field tcr 0 6 = t0sz /\ field tcr 8 6 = (if nc then 0x0 else 0x35) /\ field tcr (ps_shift regime) 3 = ps.
Proof.
  intros Ht Hps Hr. pose proof (by_range (fun t => forallb (fun p => forallb (fun r => forallb (fun n =>
    forallb (fun m => let tcr := tcr_value t p r n m in
      (field tcr 0 6 =? t) && (field tcr 8 6 =? (if n then 0x0 else 0x35)) &&
      (field tcr (ps_shift r) 3 =? p)) [true; false]) [true; false]) (seqZ 1 3)) (seqZ 0 6)) 16 48) as Hf.
  specialize (Hf ltac:(by vm_compute) _ Ht).
  apply (by_range _ 0 5) with (x := ps) in Hf; [|done].
  apply (by_range _ 1 3) with (x := regime) in Hf; [|done].
  rewrite forallb_forall in Hf. specialize (Hf nc ltac:(destruct nc; cbn; tauto)).
  rewrite forallb_forall in Hf. specialize (Hf morello ltac:(destruct morello; cbn; tauto)).
  apply andb_true_iff in Hf as [Hf ?%Z.eqb_eq]. by apply andb_true_iff in Hf as [?%Z.eqb_eq ?%Z.eqb_eq].
Qed.

Lemma setup_mmu_run flags bt pa n regime c :
  (if is_feat_ttst_supported then 16 <= n else 25 <= n) -> n <= 48 -> 0 <= pa < 2 ^ 48 -> 1 <= regime <= 3 ->
  exists ps,
    setup_mmu_cfg flags bt pa (2 ^ n - 1) regime c =
      Done (mair_value, tcr_value (64 - n) ps regime (is_set flags XLAT_TABLE_NC) is_feat_morello_supported,
            if is_feat_ttcnp_supported then Z.lor bt TTBR_CNP_BIT else bt) c /\
    0 <= ps <= 5 /\ pa < 2 ^ ps_bits ps /\ (ps = 0 \/ 2 ^ ps_bits (ps - 1) <= pa).
Proof.
  intros Hmin Hn Hpa Hr. destruct (physical_range pa c Hpa) as (ps & Hrun & Hps). exists ps. split; [|done].
  assert (16 <= n) as Hn16 by (destruct is_feat_ttst_supported; lia).
  destruct (vas_facts n) as (Hctz & Hpow & _); [lia|].
  assert (2 ^ n <= 2 ^ 48) as Hmax by (apply Z.pow_le_mono_r; lia). pose proof (Z.pow_pos_nonneg 2 n).
  assert (xlat_get_min_virt_addr_space_size <= 2 ^ n) as Hm.
  { unfold xlat_get_min_virt_addr_space_size.
    destruct is_feat_ttst_supported; [change MIN_VIRT_ADDR_SPACE_SIZE_TTST with (2 ^ 16)
      |change MIN_VIRT_ADDR_SPACE_SIZE with (2 ^ 25)]; apply Z.pow_le_mono_r; lia. }
  unfold setup_mmu_cfg, bind, assert_. replace (2 ^ n - 1 + 1) with (2 ^ n) by lia.
  rewrite u64_small by lia. change MAX_VIRT_ADDR_SPACE_SIZE with (2 ^ 48).
  rewrite (proj2 (Z.ltb_lt (2 ^ n - 1) _)), (proj2 (Z.leb_le _ _) Hm), (proj2 (Z.leb_le _ _) Hmax), Hpow by lia.
  cbn [andb negb ret]. rewrite Hrun, Hctz. unfold tcr_value.
  assert (regime = 1 \/ regime = 2 \/ regime = 3) as [-> | [-> | ->]] by lia;
    destruct (is_set flags XLAT_TABLE_NC), is_feat_morello_supported; reflexivity.
Qed.

(** Enabling the MMU adds one event. *)
Lemma translate_event c va ev :
  translate (set_mem (base_table c) (tables c) (tables_mapped_regions c) (next_table c) (xlat_trace c ++ [ev]) c) va =
  translate c va.
Proof. unfold translate. cbn [base_level va_max_address set_mem]. by rewrite (walk_same c) by (done || by intros []). Qed.

(** The highest address is at least [y] only if a region reaches it. *)
Lemma highest_reached mms top y :
  highest 0 mms top -> 0 < y -> y <= top -> exists r, r ∈ mms /\ y < pa_top r.
Proof.
  intros Ht Hy Hle. destruct (decide (Exists (fun m => y < pa_top m) mms)) as [Hex|Hno].
  - apply Exists_exists in Hex as (r & Hr & Hlt). by exists r.
  - exfalso. assert (top <= y - 1); [|lia]. apply Ht. split; [lia|]. apply Forall_forall. intros m Hm.
    destruct (decide (y < pa_top m)); [|lia]. destruct Hno. apply Exists_exists. by exists m.
Qed.

(** The range that holds [MAX_PHYS_ADDR] holds the addresses of the tables. *)
Lemma tables_in_range c rs mms ps :
  regions_wf c rs -> tables_hold c rs -> rs ≡ₚ mms -> highest 0 mms (max_pa c) ->
  MAX_PHYS_ADDR c < 2 ^ ps_bits ps ->
  forall va pa x, translate c va = Some (pa, x) -> 0 <= pa < 2 ^ ps_bits ps.
Proof.
  intros Hw Ht Hp Htop Hmax va pa x Htr. pose proof (translate_hold c rs va Ht (rw_fits _ _ Hw)) as Hby.
  rewrite Htr in Hby. destruct Hby as (r & Hr & Hin & [= -> _] & _).
  pose proof (proj1 (Forall_forall _ _) (rw_fits _ _ Hw) r Hr) as Hf. destruct Hf as [? ? ? _ _ _ _].
  assert (pa_top r - 1 <= MAX_PHYS_ADDR c) as Hle.
  { unfold MAX_PHYS_ADDR. destruct PLAT_XLAT_TABLES_DYNAMIC; [lia|].
    apply (proj1 (Forall_forall _ _) (proj2 (proj1 (Htop (max_pa c)) ltac:(done)))). by rewrite <- Hp. }
  unfold in_region, va_top, pa_top in *. lia.
Qed.

Lemma least_range c mms ps :
  highest 0 mms (max_pa c) -> 0 <= ps <= 5 -> 0 < ps -> 2 ^ ps_bits (ps - 1) <= MAX_PHYS_ADDR c ->
  if PLAT_XLAT_TABLES_DYNAMIC then 2 ^ ps_bits (ps - 1) <= pa_max_address c
  else exists r, r ∈ mms /\ 2 ^ ps_bits (ps - 1) < pa_top r.
Proof.
  intros Htop Hps Hpos Hle. unfold MAX_PHYS_ADDR in Hle. destruct PLAT_XLAT_TABLES_DYNAMIC; [done|].
  destruct (highest_reached _ _ (2 ^ ps_bits (ps - 1)) Htop) as (r & Hr & Hlt); [|done|].
  - apply Z.pow_pos_nonneg; [lia|]. assert (ps = 1 \/ ps = 2 \/ ps = 3 \/ ps = 4 \/ ps = 5) as Hc by lia.
    by destruct_or! Hc; subst ps.
  - exists r. split; [done|lia].
Qed.

(** C12. The registers with which an image enables the MMU on the tables it has
    built fit these tables: the byte of MAIR that the descriptor of any region
    selects is the type of the region's memory; TCR gives an input size of
    exactly the bits of the address space, from which the MMU starts its walk at
    the level of the base table; the physical address range holds the physical
    address of every translation, and with dynamic regions every address that
    one added later can have, and is the smallest of the architecture that does;
    and TTBR0 is the base table. The code stops only if it uses up the pool of
    tables. *)
Theorem mmu_registers_fit mmap_count tables_count va_bits pa_bits regime taddr mms e flags bt :
  boot_ok mmap_count tables_count va_bits pa_bits regime taddr mms e ->
  wp (xlat_boot mms e;; enable_mmu_el regime flags bt)
    (fun _ c => exists tr mair tcr ttbr0,
      xlat_trace c = tr ++ [MmuOn regime mair tcr ttbr0 flags] /\
      registers_fit c mms regime flags va_bits mair tcr /\
      (ttbr0 = bt \/ ttbr0 = Z.lor bt TTBR_CNP_BIT))
    out_of_tables
    (register_xlat_context mmap_count tables_count (2 ^ va_bits) (2 ^ pa_bits) regime taddr).
Proof.
  intros Hok. wp_step. eapply wp_mono; [by apply wp_boot| |done].
  intros [] c (_ & _ & Hva & Hlvl & [Hpm Htop] & rs & Hp & Hw & Ht).
  destruct Hok as [[_ _ Hn _ _] [Hr _ _ Hmin _] _ _ _ _].
  assert (1 <= regime <= 3) as Hr3 by (destruct Hr as [->|[->| ->]]; done).
  assert (0 <= MAX_PHYS_ADDR c < 2 ^ 48) as Hpa
    by (destruct (rw_space _ _ Hw), (rw_max _ _ Hw); unfold MAX_PHYS_ADDR; destruct PLAT_XLAT_TABLES_DYNAMIC; lia).
  destruct (setup_mmu_run flags bt _ va_bits regime c Hmin (proj2 Hn) Hpa Hr3) as (ps & Hrun & Hps & Hfit & Hleast).
  destruct (tcr_fields (64 - va_bits) ps regime (is_set flags XLAT_TABLE_NC) is_feat_morello_supported)
    as (Ht0 & Hwk & Hp3); [lia..|]. cbn zeta in *.
  unfold enable_mmu_el, emit. wp_steps. unfold id. rewrite Hva. eapply wp_exact; [exact Hrun|]. cbn [fst snd].
  wp_steps. eexists _, _, _, _. split; [reflexivity|]. split; [|destruct is_feat_ttcnp_supported; tauto].
  constructor.
  - apply mair_selects.
  - done.
  - rewrite Ht0. replace (64 - (64 - va_bits)) with va_bits by lia. etransitivity; [|symmetry; exact Hlvl].
    symmetry. by apply vas_facts.
  - rewrite Hwk. by unfold walk_attrs.
  - by rewrite Hp3.
  - intros va pa x. rewrite translate_event, Hp3. by eapply tables_in_range.
  - intros Hd. rewrite Hp3. unfold MAX_PHYS_ADDR in Hfit. by rewrite Hd in Hfit.
  - rewrite Hp3. intros Hpos. apply (least_range c); [done|done|done|]. by destruct Hleast as [->|].
Qed.
End Mmu.
