(* ===== verification/XlatDemo.v ===== *)
(** * Translation tables: concrete platforms

    The hypotheses of the theorems hold for a small platform, and two runs that
    do not do what the comments of the library say. *)

From stdpp Require Import list_numbers sorting.
From S2P Require Import Prelude XlatDefs XlatCore XlatWalk XlatShape XlatDesc XlatMap XlatUnmap XlatRegions XlatInit XlatBoot XlatDynamic XlatUtils XlatAttrs XlatMmu.
#[local] Open Scope cmd_scope.

(** An image at EL3 with dynamic regions. *)
Definition demo_config : XlatConfig := {|
  PLAT_XLAT_TABLES_DYNAMIC := true; ENABLE_FEAT_MORELLO := false; ENABLE_RMM := false;
  is_feat_morello_supported := false; is_feat_bti_supported := true;
  is_feat_rme_supported := false; is_feat_sel2_supported := true;
  is_feat_ttst_supported := false; is_feat_ttcnp_supported := false;
  id_aa64mmfr0_parange := 5; current_el := 3;
  sctlr_el1 := 0; sctlr_el2 := 0; sctlr_el3 := 0 |}.

#[local] Existing Instance demo_config.

Lemma demo_dynamic : PLAT_XLAT_TABLES_DYNAMIC = true.
Proof. done. Qed.

Definition G : Z := 0x40000000.
Abbreviation demo_context := (register_xlat_context 8 5 (2 ^ 40) (2 ^ 40) EL3_REGIME 0x80000000).

(** Code inside a larger read-write region, and a device. *)
Definition demo_code : mmap_region := MAP_REGION 0x4000000 0x4000000 0x2000 (Z.lor MT_CODE MT_SECURE).
Definition demo_ram : mmap_region := MAP_REGION 0x4000000 0x4000000 0x8000 MT_RW_DATA.
Definition demo_uart : mmap_region := MAP_REGION 0x9000000 0x9000000 0x200000 (Z.lor MT_DEVICE MT_RW).
Definition demo_regions : list mmap_region := [demo_ram; demo_code; demo_uart].

(** A run returns, with a property of its result. *)
Definition ends {S A} (o : outcome S A) (P : A -> S -> Prop) : Prop :=
  match o with Done a s => P a s | Stopped _ _ => False end.

Ltac concrete := repeat (split || constructor); by vm_compute.

Lemma demo_boot_ok : boot_ok 8 5 40 40 EL3_REGIME 0x80000000 demo_regions no_region.
Proof.
  constructor.
  - constructor; concrete.
  - constructor; [by right; right|concrete|done|done|by exists 48].
  - split_and!; [repeat constructor; by vm_compute| |].
    + repeat constructor; try (by vm_compute); by left.
    + repeat (apply FOP_nil || apply FOP_cons || apply Forall_nil_2 || apply Forall_cons_2);
        (apply (bool_decide_unpack _); vm_compute; exact I).
  - repeat constructor; by eexists.
  - done.
  - done.
Qed.

Definition returns {S A} (o : outcome S A) : bool :=
  match o with Done _ _ => true | Stopped _ _ => false end.

Lemma wp_ends {S A} (p : cmd S A) Q E s : wp p Q E s -> returns (p s) = true -> ends (p s) Q.
Proof. unfold wp, ends, returns. by destruct (p s). Qed.

Definition state_of {S A} (o : outcome S A) : S :=
  match o with Done _ s | Stopped _ s => s end.

Lemma wp_state {S} (p : cmd S unit) Q E s :
  wp p Q E s -> returns (p s) = true -> Q tt (state_of (p s)).
Proof. unfold wp, state_of, returns. by destruct (p s) as [[] s'|]. Qed.

(** ** The tables of the small platform *)

Abbreviation demo_booted := (state_of (xlat_boot demo_regions no_region demo_context)).

Lemma demo_returns : returns (xlat_boot demo_regions no_region demo_context) = true.
Proof. by vm_compute. Qed.

Lemma boot_translates_witness :
  boot_ok 8 5 40 40 EL3_REGIME 0x80000000 demo_regions no_region /\
  ends (xlat_boot demo_regions no_region demo_context)
    (fun _ c => initialized c = true /\
       forall va, translates_by EL3_REGIME demo_regions va (translate c va)).
Proof.
  split; [exact demo_boot_ok|].
  exact (wp_ends _ _ _ _ (boot_translates 8 5 40 40 EL3_REGIME 0x80000000 _ _ demo_boot_ok) demo_returns).
Defined.

Lemma demo_el : el_covers EL3_REGIME.
Proof. by vm_compute. Qed.

Lemma demo_inv :
  exists rs, rs ≡ₚ demo_regions /\ xlat_inv demo_booted rs /\ initialized demo_booted = true.
Proof.
  destruct (wp_state _ _ _ _ (wp_boot 8 5 40 40 EL3_REGIME 0x80000000 _ _ demo_boot_ok) demo_returns)
    as (Hi & Hr & Hv & Hb & _ & rs & Hp & Hw & Ht).
  pose proof demo_el as Hel. rewrite <- Hr in Hel.
  exact (ex_intro _ rs (conj Hp (conj (Build_xlat_inv _ _ Hw (fun _ => Ht) Hel) Hi))).
Qed.

(** A run whose result is [a]. *)
Definition returns_value {S} (o : outcome S Z) (a : Z) : bool :=
  match o with Done b _ => b =? a | Stopped _ _ => false end.

Lemma wp_value {S} (p : cmd S Z) Q E s a :
  wp p Q E s -> returns_value (p s) a = true -> ends (p s) (fun b s' => b = a /\ Q b s').
Proof.
  unfold wp, ends, returns_value. destruct (p s) as [b s'|]; [|done]. intros HQ Hb%Z.eqb_eq. done.
Qed.

Lemma boot_w_xor_x_witness :
  boot_ok 8 5 40 40 EL3_REGIME 0x80000000 demo_regions no_region /\
  ends (xlat_boot demo_regions no_region demo_context) (fun _ c => w_xor_x c /\ attrs_ready c).
Proof.
  split; [exact demo_boot_ok|].
  exact (wp_ends _ _ _ _ (boot_w_xor_x 8 5 40 40 EL3_REGIME 0x80000000 _ _ demo_boot_ok) demo_returns).
Defined.

(** A page added once the tables are in use. *)
Definition demo_page : mmap_region := MAP_REGION 0x5000000 0x6000000 0x1000 MT_RW_DATA.

Lemma demo_page_typed : region_typed demo_page.
Proof. by vm_compute. Qed.

Lemma demo_page_size : 0 < size demo_page.
Proof. by vm_compute. Qed.

Lemma demo_regime : xlat_regime demo_booted = EL3_REGIME.
Proof. by vm_compute. Qed.

Lemma demo_attrs : Forall (attrs_valid (xlat_regime demo_booted)) demo_regions.
Proof. rewrite demo_regime. repeat constructor; by eexists. Qed.

Lemma demo_page_attrs : attrs_valid (xlat_regime demo_booted) (dynamic_of demo_page).
Proof. rewrite demo_regime. by eexists. Qed.

Lemma demo_add_returns : returns_value (mmap_add_dynamic_region_ctx demo_page demo_booted) 0 = true.
Proof. by vm_compute. Qed.

Lemma region_check_witness :
  exists rs, xlat_inv demo_booted rs /\
    exists e, mmap_add_region_check demo_page demo_booted = Done e demo_booted /\
      e = check_spec demo_booted rs demo_page.
Proof.
  destruct demo_inv as (rs & _ & Hinv & _). exists rs. split; [exact Hinv|].
  destruct (region_check_exact demo_booted rs demo_page (xi_regions _ _ Hinv) demo_page_typed demo_page_size)
    as (e & Hrun & He & _).
  exact (ex_intro _ e (conj Hrun He)).
Defined.

Lemma dynamic_add_witness :
  exists rs, xlat_inv demo_booted rs /\
    ends (mmap_add_dynamic_region_ctx demo_page demo_booted)
      (fun r c' => r = 0 /\
        ((r = 0 /\ check_spec demo_booted rs (dynamic_of demo_page) = 0 /\
          (exists rs', rs' ≡ₚ dynamic_of demo_page :: rs /\ xlat_inv c' rs') /\
          forall va, translate c' va =
            if decide (in_region demo_page va)
            then Some (region_result (xlat_regime demo_booted) (dynamic_of demo_page) va)
            else translate demo_booted va) \/
         (r = check_spec demo_booted rs (dynamic_of demo_page) /\ r <> 0 /\ c' = demo_booted) \/
         (r = - ENOMEM /\ ran_out demo_booted (dynamic_of demo_page)))).
Proof.
  destruct demo_inv as (rs & _ & Hinv & Hi). exists rs. split; [exact Hinv|].
  exact (wp_value _ _ _ _ _ (dynamic_add_translates demo_dynamic demo_booted rs demo_page Hinv Hi
    demo_page_typed demo_page_size demo_page_attrs) demo_add_returns).
Defined.

Lemma dynamic_add_remove_witness :
  exists rs, xlat_inv demo_booted rs /\
    ends ((let! a := mmap_add_dynamic_region_ctx demo_page in
           let! r := (if a =? 0 then mmap_remove_dynamic_region_ctx (base_va demo_page) (size demo_page)
                      else ret a) in
           ret (a, r)) demo_booted)
      (fun '(a, r) c' => r = a /\ (a = 0 -> xlat_inv c' rs /\
         forall va, translate c' va = translate demo_booted va)).
Proof.
  destruct demo_inv as (rs & _ & Hinv & Hi). exists rs. split; [exact Hinv|].
  refine (wp_ends _ _ _ _ (dynamic_add_remove demo_dynamic demo_booted rs demo_page Hinv Hi
    demo_page_typed demo_page_size demo_page_attrs) _).
  vm_compute. exact eq_refl.
Defined.

(** The same page, removed again. *)
Abbreviation demo_added := (state_of (mmap_add_dynamic_region_ctx demo_page demo_booted)).

Lemma wp_value_state {S} (p : cmd S Z) Q E s a :
  wp p Q E s -> returns_value (p s) a = true -> Q a (state_of (p s)).
Proof. unfold wp, state_of, returns_value. destruct (p s) as [b s'|]; [|done]. by intros HQ <-%Z.eqb_eq. Qed.

Lemma demo_added_inv :
  exists rs, xlat_inv demo_added rs /\ initialized demo_added = true.
Proof.
  destruct demo_inv as (rs & _ & Hinv & Hi).
  destruct (wp_value_state _ _ _ _ _ (wp_add_dynamic demo_dynamic _ _ _ Hinv demo_page_typed demo_page_attrs)
    demo_add_returns) as [(Hz & _)|[(_ & _ & Hz & _)|[(_ & _ & _ & l1 & l2 & _ & Hinv' & Hi' & _)|(Hz & _)]]].
  - exfalso. pose proof demo_page_size as Hp. rewrite Hz in Hp. exact (Z.lt_irrefl _ Hp).
  - exfalso. exact (Hz eq_refl).
  - rewrite Hi in Hi'. exact (ex_intro _ _ (conj Hinv' Hi')).
  - discriminate Hz.
Qed.

Lemma dynamic_remove_witness :
  exists rs, xlat_inv demo_added rs /\
    ends (mmap_remove_dynamic_region_ctx 0x6000000 0x1000 demo_added)
      (fun r c' => r = 0 /\
        ((r = 0 /\ exists mm, mm ∈ rs /\ base_va mm = 0x6000000 /\ size mm = 0x1000 /\
            is_set (attr mm) MT_DYNAMIC = true /\ (exists rs', mm :: rs' ≡ₚ rs /\ xlat_inv c' rs') /\
            forall a, translate c' a =
              if decide (0x6000000 <= a < 0x6000000 + 0x1000) then None else translate demo_added a) \/
         (r = - EPERM /\ c' = demo_added /\ exists mm, mm ∈ rs /\ base_va mm = 0x6000000 /\
            size mm = 0x1000 /\ is_set (attr mm) MT_DYNAMIC = false) \/
         (r = - EINVAL /\ c' = demo_added /\
            forall mm, mm ∈ rs -> ~ (base_va mm = 0x6000000 /\ size mm = 0x1000)))).
Proof.
  destruct demo_added_inv as (rs & Hinv & Hi). exists rs. split; [exact Hinv|].
  refine (wp_value _ _ _ _ _ (dynamic_remove_translates demo_dynamic demo_added rs 0x6000000 0x1000 Hinv Hi) _).
  vm_compute. exact eq_refl.
Defined.

(** Attributes of the page after the code: made read-only, and read back. *)
Lemma demo_ready : attrs_ready demo_booted.
Proof.
  destruct demo_inv as (rs & Hp & Hinv & Hi). pose proof (xi_regions _ _ Hinv) as Hw.
  destruct (rw_space _ _ Hw) as [[_ Hs] _].
  refine (hold_ready demo_booted rs (xi_tables _ _ Hinv Hi) _ (rw_fits _ _ Hw) Hi _ Hs (xi_el _ _ Hinv)).
  - rewrite Hp. exact demo_attrs.
  - vm_compute. exact eq_refl.
Qed.

Lemma change_attributes_witness :
  attrs_ready demo_booted /\
  ends (xlat_change_mem_attributes_ctx 0x4002000 0x1000 MT_RO_DATA demo_booted)
    (fun r c' => r = 0 /\
      ((~ change_allowed demo_booted 0x4002000 0x1000 MT_RO_DATA /\ r = - EINVAL /\ c' = demo_booted) \/
       (change_allowed demo_booted 0x4002000 0x1000 MT_RO_DATA /\ r = 0 /\
        change_post demo_booted 0x4002000 0x1000 MT_RO_DATA c'))).
Proof.
  split; [exact demo_ready|].
  refine (wp_value _ _ _ _ _ (change_attributes_ok demo_booted 0x4002000 0x1000 MT_RO_DATA demo_ready _ _ _ _) _);
    vm_compute; intuition discriminate.
Defined.

Lemma get_attributes_witness :
  exists rs, tables_hold demo_booted rs /\
    ends (xlat_get_mem_attributes_ctx 0x4001000 demo_booted)
      (fun '(e, res) c' => c' = demo_booted /\
        match res with
        | None => e = - EINVAL /\ forall r, r ∈ rs -> ~ in_region r (looked_up demo_booted 0x4001000)
        | Some (a, level) => e = 0 /\ exists r, r ∈ rs /\ in_region r (looked_up demo_booted 0x4001000) /\
            (forall s, s ∈ rs -> in_region s (looked_up demo_booted 0x4001000) -> size r <= size s) /\
            a = attr_view (xlat_regime demo_booted) (attr r)
        end).
Proof.
  destruct demo_inv as (rs & Hp & Hinv & Hi). pose proof (xi_regions _ _ Hinv) as Hw.
  exists rs. split; [exact (xi_tables _ _ Hinv Hi)|]. destruct (rw_space _ _ Hw) as [[_ Hs] _].
  refine (wp_ends _ _ _ _ (proj2 (get_attributes_of_region demo_booted rs 0x4001000 (xi_tables _ _ Hinv Hi)
    _ (rw_fits _ _ Hw) Hi _ Hs (xi_el _ _ Hinv))) _).
  - rewrite Hp. exact demo_attrs.
  - vm_compute. exact eq_refl.
  - vm_compute. exact eq_refl.
Defined.

(** The MMU is enabled with the tables of the small platform. *)
Abbreviation demo_mmu := (xlat_boot demo_regions no_region;; enable_mmu_el EL3_REGIME 0 0x70000000).

Lemma demo_mmu_returns : returns (demo_mmu demo_context) = true.
Proof. by vm_compute. Qed.

Lemma mmu_registers_witness :
  boot_ok 8 5 40 40 EL3_REGIME 0x80000000 demo_regions no_region /\
  ends (demo_mmu demo_context) (fun _ c => exists tr mair tcr ttbr0,
    xlat_trace c = tr ++ [MmuOn EL3_REGIME mair tcr ttbr0 0] /\
    registers_fit c demo_regions EL3_REGIME 0 40 mair tcr /\
    (ttbr0 = 0x70000000 \/ ttbr0 = Z.lor 0x70000000 TTBR_CNP_BIT)).
Proof.
  split; [exact demo_boot_ok|].
  exact (wp_ends _ _ _ _ (mmu_registers_fit 8 5 40 40 EL3_REGIME 0x80000000 _ _ 0 0x70000000 demo_boot_ok)
    demo_mmu_returns).
Defined.

(** ** A region that cannot be mapped *)

(** [region_a] takes two of the five sub-tables, so that [region_f] runs out of
    them; [region_a] is removed and two pages are added. *)
Definition region_a : mmap_region := MAP_REGION (300 * G) (512 * G) 0x1000 MT_RW_DATA.
Definition region_f : mmap_region := MAP_REGION 0 0 (G + 0x1000) MT_RW_DATA.
Definition region_b : mmap_region := MAP_REGION 0x5000000 0x1000 0x1000 MT_RW_DATA.
Definition region_d : mmap_region := MAP_REGION 0x7000000 0x201000 0x1000 MT_RW_DATA.

Definition stale_run : cmd xlat_ctx (list Z) :=
  xlat_boot [] no_region;;
  let! a := mmap_add_dynamic_region_ctx region_a in
  let! f := mmap_add_dynamic_region_ctx region_f in
  let! r := mmap_remove_dynamic_region_ctx (base_va region_a) (size region_a) in
  let! b := mmap_add_dynamic_region_ctx region_b in
  let! d := mmap_add_dynamic_region_ctx region_d in
  ret [a; f; r; b; d].

(** An addition that runs out of tables is not undone completely. On
    a platform of five sub-tables such a failed addition, followed by calls
    that all succeed, leaves an address inside a region that was added with
    success translating to the memory of a translation table, with no
    attributes, instead of to the region. *)
Theorem failed_add_leaves_stale_descriptor :
  ends (stale_run demo_context) (fun rcs c =>
    rcs = [0; - ENOMEM; 0; 0; 0] /\
    region_result EL3_REGIME (dynamic_of region_d) 0x201000 = (0x7000000, 0x40000000000740) /\
    translate c 0x201000 = Some (table_addr c 4, 0)).
Proof. vm_compute. repeat split. Qed.

(** ** An address outside the address space *)

Definition small_context : xlat_ctx := register_xlat_context 8 5 (2 ^ 32) (2 ^ 32) EL3_REGIME 0x80000000.

Definition alias_run : cmd xlat_ctx (Z * Z) :=
  xlat_boot [MAP_REGION 0x1000 0x1000 0x1000 MT_RW_DATA] no_region;;
  let! g := xlat_get_mem_attributes_ctx (2 ^ 39 + 0x1000) in
  let! r := xlat_change_mem_attributes_ctx (2 ^ 39 + 0x1000) 0x1000 MT_RO_DATA in
  ret (fst g, r).

(** The TLB entries of an address are invalidated. *)
Definition invalidated (va : Z) (e : xlat_event) : bool :=
  match e with TlbiVa v => v =? va | _ => false end.

(** Addresses beyond the address space are not refused. On a platform
    of 32-bit addresses, asking for the attributes of [2^39 + 0x1000] and
    changing them both succeed; the change is made to the page at [0x1000], and
    the TLB entries of that page are not invalidated. *)
Theorem address_outside_space_accepted :
  ends (alias_run small_context) (fun rcs c =>
    rcs = (0, 0) /\ va_max_address c < 2 ^ 39 + 0x1000 /\
    translate c (2 ^ 39 + 0x1000) = None /\
    (writable ∘ snd) <$> translate c 0x1000 = Some false /\
    existsb (invalidated 0x1000) (xlat_trace c) = false).
Proof. vm_compute. repeat split. Qed.
