(* ===== verification/GptDefs.v ===== *)
(** * Granule protection tables: definitions (lib/gpt_rme/gpt_rme_private.h,
    include/lib/gpt_rme/gpt_rme.h)

    The granule protection tables say to which physical address space (secure,
    non-secure, realm, root, ...) each granule of memory belongs. The level 0
    table has an entry per region of at least 1GB: a block descriptor with one
    GPI for the region, or the address of a level 1 table. An entry of a level 1
    table is a Granules descriptor with the GPIs of sixteen granules, or a
    Contiguous descriptor with the GPI of an aligned block of 2MB, 32MB or
    512MB, which is repeated in every entry of the block. *)

From stdpp Require Import list_numbers gmap.
From S2P Require Import Prelude.
#[local] Open Scope cmd_scope.

Definition EPERM : Z := 1.
Definition ENOMEM : Z := 12.
Definition EFAULT : Z := 14.
Definition EINVAL : Z := 22.
Definition EOVERFLOW : Z := 84.

Definition SZ_4K : Z := 0x1000.
Definition SZ_16K : Z := 0x4000.
Definition SZ_64K : Z := 0x10000.
Definition SZ_2M : Z := 0x200000.
Definition SZ_32M : Z := 0x2000000.
Definition SZ_512M : Z := 0x20000000.

Definition SMC_FROM_SECURE : Z := 0.
Definition SMC_FROM_NON_SECURE : Z := 1.
Definition SMC_FROM_REALM : Z := 0x21.

(** ** GPIs *)

Definition GPT_GPI_NO_ACCESS : Z := 0x0.
Definition GPT_GPI_SA : Z := 0x4.
Definition GPT_GPI_NSP : Z := 0x5.
Definition GPT_GPI_SECURE : Z := 0x8.
Definition GPT_GPI_NS : Z := 0x9.
Definition GPT_GPI_ROOT : Z := 0xA.
Definition GPT_GPI_REALM : Z := 0xB.
Definition GPT_GPI_NSO : Z := 0xD.
Definition GPT_GPI_ANY : Z := 0xF.

Definition GPT_NSE_SECURE : Z := 0.
Definition GPT_NSE_ROOT : Z := 1.
Definition GPT_NSE_NS : Z := 2.
Definition GPT_NSE_REALM : Z := 3.
Definition GPT_NSE_SHIFT : Z := 62.
Definition GPT_NSE2_SA : Z := 1.
Definition GPT_NSE2_NSP : Z := 5.
Definition GPT_NSE2_SHIFT : Z := 61.

(** ** Descriptors *)

Definition GPT_L0_TYPE_MASK : Z := 0xF.
Definition GPT_L0_TYPE_SHIFT : Z := 0.
Definition GPT_L0_TYPE_TBL_DESC : Z := 3.
Definition GPT_L0_TYPE_BLK_DESC : Z := 1.
Definition GPT_L0_TBL_DESC_L1ADDR_MASK : Z := 0xFFFFFFFFFF.
Definition GPT_L0_TBL_DESC_L1ADDR_SHIFT : Z := 12.
Definition GPT_L0_BLK_DESC_GPI_MASK : Z := 0xF.
Definition GPT_L0_BLK_DESC_GPI_SHIFT : Z := 4.

Definition GPT_L1_TYPE_CONT_DESC_MASK : Z := 0xF.
Definition GPT_L1_TYPE_CONT_DESC : Z := 1.
Definition GPT_L1_CONTIG_2MB : Z := 1.
Definition GPT_L1_CONTIG_32MB : Z := 2.
Definition GPT_L1_CONTIG_512MB : Z := 3.
Definition GPT_L1_CONT_DESC_GPI_SHIFT : Z := 4.
Definition GPT_L1_CONT_DESC_GPI_MASK : Z := 0xF.
Definition GPT_L1_CONT_DESC_CONTIG_SHIFT : Z := 8.
Definition GPT_L1_CONT_DESC_CONTIG_MASK : Z := 3.
Definition GPT_L1_GRAN_DESC_GPI_MASK : Z := 0xF.

Definition GPT_L1_CONT_DESC_2MB : Z :=
  Z.lor GPT_L1_TYPE_CONT_DESC (Z.shiftl GPT_L1_CONTIG_2MB GPT_L1_CONT_DESC_CONTIG_SHIFT).
Definition GPT_L1_CONT_DESC_32MB : Z :=
  Z.lor GPT_L1_TYPE_CONT_DESC (Z.shiftl GPT_L1_CONTIG_32MB GPT_L1_CONT_DESC_CONTIG_SHIFT).
Definition GPT_L1_CONT_DESC_512MB : Z :=
  Z.lor GPT_L1_TYPE_CONT_DESC (Z.shiftl GPT_L1_CONTIG_512MB GPT_L1_CONT_DESC_CONTIG_SHIFT).

Definition GPT_L1_GPI_CONT_DESC (gpi desc : Z) : Z := Z.lor desc (u64 (Z.shiftl gpi GPT_L1_CONT_DESC_GPI_SHIFT)).

(** [GPT_L1_CONT_DESC(_desc, _size)], with the template of the size. *)
Definition GPT_L1_CONT_DESC (desc template : Z) : Z :=
  Z.lor template (Z.shiftl (Z.land desc GPT_L1_GRAN_DESC_GPI_MASK) GPT_L1_CONT_DESC_GPI_SHIFT).

Definition GPT_L1_GPI_BYTE (gpi : Z) : Z := Z.lor gpi (Z.shiftl gpi 4).
Definition GPT_L1_GPI_HALF (gpi : Z) : Z := Z.lor (GPT_L1_GPI_BYTE gpi) (Z.shiftl (GPT_L1_GPI_BYTE gpi) 8).
Definition GPT_L1_GPI_WORD (gpi : Z) : Z := Z.lor (GPT_L1_GPI_HALF gpi) (Z.shiftl (GPT_L1_GPI_HALF gpi) 16).
Definition GPT_BUILD_L1_DESC (gpi : Z) : Z := Z.lor (GPT_L1_GPI_WORD gpi) (Z.shiftl (GPT_L1_GPI_WORD gpi) 32).

Definition GPT_L1_SECURE_DESC : Z := GPT_BUILD_L1_DESC GPT_GPI_SECURE.
Definition GPT_L1_NS_DESC : Z := GPT_BUILD_L1_DESC GPT_GPI_NS.
Definition GPT_L1_REALM_DESC : Z := GPT_BUILD_L1_DESC GPT_GPI_REALM.
Definition GPT_L1_NSO_DESC : Z := GPT_BUILD_L1_DESC GPT_GPI_NSO.
Definition GPT_L1_ROOT_DESC : Z := GPT_BUILD_L1_DESC GPT_GPI_ROOT.
Definition GPT_L1_SA_DESC : Z := GPT_BUILD_L1_DESC GPT_GPI_SA.
Definition GPT_L1_NSP_DESC : Z := GPT_BUILD_L1_DESC GPT_GPI_NSP.
Definition GPT_L1_ANY_DESC : Z := GPT_BUILD_L1_DESC GPT_GPI_ANY.

Definition GPT_L0_TYPE (desc : Z) : Z := Z.land (Z.shiftr desc GPT_L0_TYPE_SHIFT) GPT_L0_TYPE_MASK.
Definition GPT_L0_BLK_DESC (gpi : Z) : Z :=
  Z.lor GPT_L0_TYPE_BLK_DESC (Z.shiftl (Z.land gpi GPT_L0_BLK_DESC_GPI_MASK) GPT_L0_BLK_DESC_GPI_SHIFT).
Definition GPT_L0_TBL_DESC (pa : Z) : Z :=
  Z.lor GPT_L0_TYPE_TBL_DESC (Z.land pa (Z.shiftl GPT_L0_TBL_DESC_L1ADDR_MASK GPT_L0_TBL_DESC_L1ADDR_SHIFT)).
Definition GPT_L0_BLKD_GPI (desc : Z) : Z :=
  Z.land (Z.shiftr desc GPT_L0_BLK_DESC_GPI_SHIFT) GPT_L0_BLK_DESC_GPI_MASK.
Definition GPT_L0_TBLD_ADDR (desc : Z) : Z :=
  Z.land desc (Z.shiftl GPT_L0_TBL_DESC_L1ADDR_MASK GPT_L0_TBL_DESC_L1ADDR_SHIFT).
Definition GPT_L1_CONT_GPI (desc : Z) : Z :=
  Z.land (Z.shiftr desc GPT_L1_CONT_DESC_GPI_SHIFT) GPT_L1_CONT_DESC_GPI_MASK.
Definition GPT_L1_CONT_CONTIG (desc : Z) : Z :=
  Z.land (Z.shiftr desc GPT_L1_CONT_DESC_CONTIG_SHIFT) GPT_L1_CONT_DESC_CONTIG_MASK.

(** [(desc & GPT_L1_TYPE_CONT_DESC_MASK) == GPT_L1_TYPE_CONT_DESC] *)
Definition is_cont_desc (desc : Z) : bool := Z.land desc GPT_L1_TYPE_CONT_DESC_MASK =? GPT_L1_TYPE_CONT_DESC.

(** ** Regions *)

Record pas_region_t := {
  pas_base_pa : Z;
  pas_size : Z;
  pas_attrs : Z
}.

Definition GPT_PAS_ATTR_MAP_TYPE_BLOCK : Z := 0.
Definition GPT_PAS_ATTR_MAP_TYPE_GRANULE : Z := 1.
Definition GPT_PAS_ATTR_GPI (attrs : Z) : Z := Z.land (Z.shiftr attrs 0) 0xF.
Definition GPT_PAS_ATTR_MAP_TYPE (attrs : Z) : Z := Z.land (Z.shiftr attrs 4) 0x1.
Definition GPT_PAS_ATTR (type gpi : Z) : Z := Z.lor (Z.shiftl (Z.land type 0x1) 4) (Z.shiftl (Z.land gpi 0xF) 0).
Definition GPT_MAP_REGION_BLOCK (pa sz gpi : Z) : pas_region_t :=
  {| pas_base_pa := pa; pas_size := sz; pas_attrs := GPT_PAS_ATTR GPT_PAS_ATTR_MAP_TYPE_BLOCK gpi |}.
Definition GPT_MAP_REGION_GRANULE (pa sz gpi : Z) : pas_region_t :=
  {| pas_base_pa := pa; pas_size := sz; pas_attrs := GPT_PAS_ATTR GPT_PAS_ATTR_MAP_TYPE_GRANULE gpi |}.

(** ** Registers *)

Definition GPCCR_NSO_BIT : Z := Z.shiftl 1 19.
Definition GPCCR_NSP_BIT : Z := Z.shiftl 1 26.
Definition GPCCR_SA_BIT : Z := Z.shiftl 1 25.
Definition GPCCR_GPC_BIT : Z := Z.shiftl 1 16.
Definition GPCCR_PGS_SHIFT : Z := 14.
Definition GPCCR_PGS_MASK : Z := 0x3.
Definition SET_GPCCR_PGS (x : Z) : Z := Z.shiftl (Z.land x GPCCR_PGS_MASK) GPCCR_PGS_SHIFT.
Definition GPCCR_SH_IS : Z := 3.
Definition SET_GPCCR_SH (x : Z) : Z := Z.shiftl (Z.land x 0x3) 12.
Definition GPCCR_ORGN_WB_RA_WA : Z := 1.
Definition SET_GPCCR_ORGN (x : Z) : Z := Z.shiftl (Z.land x 0x3) 10.
Definition GPCCR_IRGN_WB_RA_WA : Z := 1.
Definition SET_GPCCR_IRGN (x : Z) : Z := Z.shiftl (Z.land x 0x3) 8.
Definition GPCCR_PPS_SHIFT : Z := 0.
Definition GPCCR_PPS_MASK : Z := 0x7.
Definition SET_GPCCR_PPS (x : Z) : Z := Z.shiftl (Z.land x GPCCR_PPS_MASK) GPCCR_PPS_SHIFT.
Definition GPTBR_BADDR_SHIFT : Z := 0.
Definition GPTBR_BADDR_VAL_SHIFT : Z := 12.
Definition GPTBR_BADDR_MASK : Z := 0xffffffffff.

(** ** The build and the CPU

    [gpccr_l0gptsz] is the read-only field L0GPTSZ of GPCCR_EL3. *)
Class GptConfig := {
  ENABLE_RMM : bool;
  RME_GPT_MAX_BLOCK : Z;
  RME_GPT_BITLOCK_BLOCK : Z;
  is_feat_rme_gpc2_supported : bool;
  is_feat_rme_gdi_supported : bool;
  is_feat_mte2_supported : bool;
  gpccr_l0gptsz : Z;
  sctlr_c_bit : bool;
  xlat_arch_is_granule_size_supported : Z -> bool
}.

(** ** State *)

Record gpt_config_t := {
  plat_gpt_l0_base : Z;
  gc_pps : Z;
  gc_t : Z;
  gc_pgs : Z;
  gc_p : Z
}.

Record gpi_lookup_t := {
  gl_desc : Z;
  gl_nse : Z;
  gl_nse2 : Z;
  gl_policy : list Z
}.

(** What other observers may see, in its order: a store of a word to a table,
    and maintenance of the TLBs and caches, registers and locks. *)
Inductive gpt_event : Set :=
  | Store (addr v : Z)
  | TlbiRpalos (addr size : Z)
  | TlbiPaallos
  | FlushToPopa (mte2 : bool) (addr size : Z)
  | FlushDcache (addr size : Z)
  | Memset (addr v size : Z)
  | WriteGptbr (v : Z)
  | WriteGpccr (v : Z)
  | SpinLock | SpinUnlock
  | BitLock (lock mask : Z) | BitUnlock (lock mask : Z).

(** The words of the memory that EL3 can access, and the variables of the file. *)
Record gpt_state := {
  gpt_mem : gmap Z Z;
  gpt_config : gpt_config_t;
  gpi_config : list gpi_lookup_t;
  gpt_l1_cnt_2mb : Z;
  gpt_l1_index_mask : Z;
  gpt_l1_tbl : Z;
  gpt_bitlock : Z;
  gptbr_el3 : Z;
  gpccr_el3 : Z;
  gpt_trace : list gpt_event
}.

Definition set_gpt_mem (v : gmap Z Z) (s : gpt_state) : gpt_state := {|
  gpt_mem := v; gpt_config := gpt_config s; gpi_config := gpi_config s; gpt_l1_cnt_2mb := gpt_l1_cnt_2mb s;
  gpt_l1_index_mask := gpt_l1_index_mask s; gpt_l1_tbl := gpt_l1_tbl s; gpt_bitlock := gpt_bitlock s;
  gptbr_el3 := gptbr_el3 s; gpccr_el3 := gpccr_el3 s; gpt_trace := gpt_trace s |}.
Definition set_gpt_config (v : gpt_config_t) (s : gpt_state) : gpt_state := {|
  gpt_mem := gpt_mem s; gpt_config := v; gpi_config := gpi_config s; gpt_l1_cnt_2mb := gpt_l1_cnt_2mb s;
  gpt_l1_index_mask := gpt_l1_index_mask s; gpt_l1_tbl := gpt_l1_tbl s; gpt_bitlock := gpt_bitlock s;
  gptbr_el3 := gptbr_el3 s; gpccr_el3 := gpccr_el3 s; gpt_trace := gpt_trace s |}.
Definition set_gpi_config (v : list gpi_lookup_t) (s : gpt_state) : gpt_state := {|
  gpt_mem := gpt_mem s; gpt_config := gpt_config s; gpi_config := v; gpt_l1_cnt_2mb := gpt_l1_cnt_2mb s;
  gpt_l1_index_mask := gpt_l1_index_mask s; gpt_l1_tbl := gpt_l1_tbl s; gpt_bitlock := gpt_bitlock s;
  gptbr_el3 := gptbr_el3 s; gpccr_el3 := gpccr_el3 s; gpt_trace := gpt_trace s |}.
Definition set_l1_params (cnt mask : Z) (s : gpt_state) : gpt_state := {|
  gpt_mem := gpt_mem s; gpt_config := gpt_config s; gpi_config := gpi_config s; gpt_l1_cnt_2mb := cnt;
  gpt_l1_index_mask := mask; gpt_l1_tbl := gpt_l1_tbl s; gpt_bitlock := gpt_bitlock s;
  gptbr_el3 := gptbr_el3 s; gpccr_el3 := gpccr_el3 s; gpt_trace := gpt_trace s |}.
Definition set_gpt_l1_tbl (v : Z) (s : gpt_state) : gpt_state := {|
  gpt_mem := gpt_mem s; gpt_config := gpt_config s; gpi_config := gpi_config s; gpt_l1_cnt_2mb := gpt_l1_cnt_2mb s;
  gpt_l1_index_mask := gpt_l1_index_mask s; gpt_l1_tbl := v; gpt_bitlock := gpt_bitlock s;
  gptbr_el3 := gptbr_el3 s; gpccr_el3 := gpccr_el3 s; gpt_trace := gpt_trace s |}.
Definition set_gpt_bitlock (v : Z) (s : gpt_state) : gpt_state := {|
  gpt_mem := gpt_mem s; gpt_config := gpt_config s; gpi_config := gpi_config s; gpt_l1_cnt_2mb := gpt_l1_cnt_2mb s;
  gpt_l1_index_mask := gpt_l1_index_mask s; gpt_l1_tbl := gpt_l1_tbl s; gpt_bitlock := v;
  gptbr_el3 := gptbr_el3 s; gpccr_el3 := gpccr_el3 s; gpt_trace := gpt_trace s |}.
Definition set_gpt_regs (br ccr : Z) (s : gpt_state) : gpt_state := {|
  gpt_mem := gpt_mem s; gpt_config := gpt_config s; gpi_config := gpi_config s; gpt_l1_cnt_2mb := gpt_l1_cnt_2mb s;
  gpt_l1_index_mask := gpt_l1_index_mask s; gpt_l1_tbl := gpt_l1_tbl s; gpt_bitlock := gpt_bitlock s;
  gptbr_el3 := br; gpccr_el3 := ccr; gpt_trace := gpt_trace s |}.
Definition add_gpt_event (e : gpt_event) (s : gpt_state) : gpt_state := {|
  gpt_mem := gpt_mem s; gpt_config := gpt_config s; gpi_config := gpi_config s; gpt_l1_cnt_2mb := gpt_l1_cnt_2mb s;
  gpt_l1_index_mask := gpt_l1_index_mask s; gpt_l1_tbl := gpt_l1_tbl s; gpt_bitlock := gpt_bitlock s;
  gptbr_el3 := gptbr_el3 s; gpccr_el3 := gpccr_el3 s; gpt_trace := gpt_trace s ++ [e] |}.

Abbreviation gpt := (cmd gpt_state).

Definition emit_gpt (e : gpt_event) : gpt unit := modify (add_gpt_event e).

(** Loads and stores of a word. *)
Definition load (addr : Z) : gpt Z := let! s := gets id in deref (gpt_mem s !! addr).
Definition store (addr v : Z) : gpt unit :=
  load addr ;;
  modify (fun s => set_gpt_mem (<[addr := v]> (gpt_mem s)) s) ;;
  emit_gpt (Store addr v).

(** [memset]: the bytes from [base] on become [v], in every word that has some of
    them. A word holds its byte [j] in bits 8j to 8j + 7. *)
Definition fill_word (base v size addr word : Z) : Z :=
  fold_left (fun w j => if (base <=? addr + j) && (addr + j <? base + size)
                        then Z.lor (Z.land w (Z.lnot (Z.shiftl 0xff (8 * j)))) (Z.shiftl v (8 * j)) else w)
    [0; 1; 2; 3; 4; 5; 6; 7] word.
Definition fill_bytes (base v size : Z) (m : gmap Z Z) : gmap Z Z :=
  map_imap (fun addr word => Some (fill_word base v size addr word)) m.
Definition memset (base v size : Z) : gpt unit :=
  modify (fun s => set_gpt_mem (fill_bytes base v size (gpt_mem s)) s) ;;
  emit_gpt (Memset base v size).

(** ** Sizes and indices *)

Section Macros.
Context `{Cfg : GptConfig}.

Definition GPT_L0GPTSZ : Z := gpccr_l0gptsz.
Definition GPT_S_VAL : Z := GPT_L0GPTSZ + 30.

Definition GPT_PGS_MAX : Z := 2.
Definition GPT_PPS_MAX : Z := 6.

Definition GPT_L0_IDX_WIDTH (t : Z) : Z := if GPT_S_VAL <? t then t - GPT_S_VAL else 0.
Definition GPT_L0_IDX_SHIFT : Z := GPT_S_VAL.
Definition GPT_L0_IDX_MASK (t : Z) : Z := Z.shiftr 0x3FFFFF (22 - GPT_L0_IDX_WIDTH t).
Definition GPT_L0_REGION_COUNT (t : Z) : Z := GPT_L0_IDX_MASK t + 1.
Definition GPT_L0_REGION_SIZE : Z := Z.shiftl 1 GPT_L0_IDX_SHIFT.
Definition GPT_L0_TABLE_SIZE (t : Z) : Z := Z.shiftl (GPT_L0_REGION_COUNT t) 3.

Definition GPT_L1_IDX_WIDTH (p : Z) : Z := (GPT_S_VAL - 1) - (p + 3).
Definition GPT_L1_IDX_SHIFT (p : Z) : Z := p + 4.
Definition GPT_L1_IDX_MASK (p : Z) : Z := Z.shiftr 0x7FFFFF (23 - GPT_L1_IDX_WIDTH p).
Definition GPT_L1_GPI_IDX_SHIFT (p : Z) : Z := p.
Definition GPT_L1_GPI_IDX_MASK : Z := 0xF.
Definition GPT_L1_ENTRY_COUNT (p : Z) : Z := GPT_L1_IDX_MASK p + 1.
Definition GPT_L1_ENTRY_COUNT_2MB (p : Z) : Z := Z.shiftr SZ_2M (GPT_L1_IDX_SHIFT p).
Definition GPT_L1_TABLE_SIZE (p : Z) : Z := Z.shiftl (GPT_L1_ENTRY_COUNT p) 3.

Definition GPT_PPS_ACTUAL_SIZE (t : Z) : Z := Z.shiftl 1 t.
Definition GPT_PGS_ACTUAL_SIZE (p : Z) : Z := Z.shiftl 1 p.
Definition GPT_L0GPTSZ_ACTUAL_SIZE : Z := Z.shiftl 1 GPT_S_VAL.
Definition GPT_L0_IDX (pa : Z) : Z := Z.shiftr pa GPT_L0_IDX_SHIFT.
Definition GPT_IS_L0_ALIGNED (pa : Z) : bool := Z.land pa (GPT_L0_REGION_SIZE - 1) =? 0.
Definition GPT_IS_L1_ALIGNED (p pa : Z) : bool := Z.land pa (GPT_PGS_ACTUAL_SIZE p - 1) =? 0.
Definition GPT_L1_GPI_IDX (p pa : Z) : Z := Z.land (Z.shiftr pa (GPT_L1_GPI_IDX_SHIFT p)) GPT_L1_GPI_IDX_MASK.

Definition ALIGN_2MB (addr : Z) : Z := Z.land addr (Z.lnot (SZ_2M - 1)).
Definition ALIGN_32MB (addr : Z) : Z := Z.land addr (Z.lnot (SZ_32M - 1)).
Definition ALIGN_512MB (addr : Z) : Z := Z.land addr (Z.lnot (SZ_512M - 1)).
Definition GPT_REGION_IS_CONT (len addr size : Z) : bool := (size <=? len) && (Z.land addr (size - 1) =? 0).

(** Macros of gpt_rme.c that depend on the variables of the file. *)
Definition GPT_L1_INDEX (s : gpt_state) (pa : Z) : Z :=
  Z.land (Z.shiftr pa (GPT_L1_IDX_SHIFT (gc_p (gpt_config s)))) (gpt_l1_index_mask s).
Definition L1_QWORDS_2MB (s : gpt_state) : Z := gpt_l1_cnt_2mb s / 2.
Definition L1_QWORDS_32MB (s : gpt_state) : Z := L1_QWORDS_2MB s * 16.
Definition L1_QWORDS_512MB (s : gpt_state) : Z := L1_QWORDS_32MB s * 16.
Definition L1_BYTES_2MB (s : gpt_state) : Z := gpt_l1_cnt_2mb s * 8.
Definition L1_BYTES_32MB (s : gpt_state) : Z := L1_BYTES_2MB s * 16.
End Macros.

Definition GPI_TO_DESC (gpi : Z) : gpt Z :=
  let! s := gets id in
  let! g := deref ((gpi_config s).[gpi]) in
  ret (gl_desc g).
Definition GPI_TO_NSE (gpi : Z) : gpt Z :=
  let! s := gets id in
  let! g := deref ((gpi_config s).[gpi]) in
  ret (Z.lor (u64 (Z.shiftl (gl_nse g) GPT_NSE_SHIFT)) (u64 (Z.shiftl (gl_nse2 g) GPT_NSE2_SHIFT))).
