(* ===== verification/Gpt.v ===== *)
(** * Granule protection tables: operations (lib/gpt_rme/gpt_rme.c)

    Construction of the tables from a list of regions, the registers, and the
    transition of a granule from one physical address space to another. A
    pointer to a word is its address. *)

From stdpp Require Import list_numbers gmap.
From S2P Require Import Prelude GptDefs.
#[local] Open Scope cmd_scope.

#[local] Abbreviation assert := (assert_ true).

Definition gpt_t_lookup : list Z := [32; 36; 40; 42; 44; 48; 52].
Definition gpt_p_lookup : list Z := [12; 16; 14].

Definition no_gpi : gpi_lookup_t := {| gl_desc := 0; gl_nse := 0; gl_nse2 := 0; gl_policy := [0; 0; 0] |}.

(** The initial value of [gpi_config]. *)
Definition gpi_config_init : list gpi_lookup_t :=
  [no_gpi; no_gpi; no_gpi; no_gpi;
   {| gl_desc := GPT_L1_SA_DESC; gl_nse := 0; gl_nse2 := GPT_NSE2_SA; gl_policy := [0; 0; 0] |};
   {| gl_desc := GPT_L1_NSP_DESC; gl_nse := 0; gl_nse2 := GPT_NSE2_NSP; gl_policy := [0; 0; 0] |};
   no_gpi; no_gpi;
   {| gl_desc := GPT_L1_SECURE_DESC; gl_nse := GPT_NSE_SECURE; gl_nse2 := 0;
      gl_policy := [Z.shiftl 1 GPT_GPI_NS; 0; 0] |};
   {| gl_desc := GPT_L1_NS_DESC; gl_nse := GPT_NSE_NS; gl_nse2 := 0;
      gl_policy := [Z.shiftl 1 GPT_GPI_SECURE; 0; Z.shiftl 1 GPT_GPI_REALM] |};
   {| gl_desc := GPT_L1_ROOT_DESC; gl_nse := GPT_NSE_ROOT; gl_nse2 := 0; gl_policy := [0; 0; 0] |};
   {| gl_desc := GPT_L1_REALM_DESC; gl_nse := GPT_NSE_REALM; gl_nse2 := 0;
      gl_policy := [0; 0; Z.shiftl 1 GPT_GPI_NS] |};
   no_gpi;
   {| gl_desc := GPT_L1_NSO_DESC; gl_nse := GPT_NSE_NS; gl_nse2 := 0; gl_policy := [0; 0; 0] |};
   no_gpi; no_gpi].

(** [gpi_info_t]; [gi_lock] and [gi_mask] are the bit lock of the granule. *)
Record gpi_info_t := {
  gi_l1_desc : Z;
  gi_l1_addr : Z;
  gi_idx : Z;
  gi_gpi_shift : Z;
  gi_gpi : Z;
  gi_lock : Z;
  gi_mask : Z
}.

Definition set_gi_desc (v : Z) (g : gpi_info_t) : gpi_info_t := {|
  gi_l1_desc := v; gi_l1_addr := gi_l1_addr g; gi_idx := gi_idx g; gi_gpi_shift := gi_gpi_shift g;
  gi_gpi := gi_gpi g; gi_lock := gi_lock g; gi_mask := gi_mask g |}.
Definition set_gi_gpi (v : Z) (g : gpi_info_t) : gpi_info_t := {|
  gi_l1_desc := gi_l1_desc g; gi_l1_addr := gi_l1_addr g; gi_idx := gi_idx g; gi_gpi_shift := gi_gpi_shift g;
  gi_gpi := v; gi_lock := gi_lock g; gi_mask := gi_mask g |}.

(** The element of an array of words. *)
Definition elem (array i : Z) : Z := array + 8 * i.

Section Gpt.
Context `{Cfg : GptConfig}.

Definition GPT_LOCK (g : gpi_info_t) : gpt unit :=
  emit_gpt (if RME_GPT_BITLOCK_BLOCK =? 0 then SpinLock else BitLock (gi_lock g) (gi_mask g)).
Definition GPT_UNLOCK (g : gpi_info_t) : gpt unit :=
  emit_gpt (if RME_GPT_BITLOCK_BLOCK =? 0 then SpinUnlock else BitUnlock (gi_lock g) (gi_mask g)).

Definition tlbi_page_dsbosh (base : Z) : gpt unit :=
  let! s := gets id in
  let! size := deref ([SZ_4K; SZ_64K; SZ_16K].[gc_pgs (gpt_config s)]) in
  emit_gpt (TlbiRpalos (Z.land base (Z.lnot (size - 1))) size).

(** ** Contiguous blocks

    Stores of 128 bits are two stores of words. *)

Definition fill_desc (l1 l1_desc cnt : Z) : gpt unit :=
  for_each (seqZ 0 cnt) (fun i => store (l1 + 16 * i) l1_desc ;; store (l1 + 16 * i + 8) l1_desc).

Definition shatter_2mb (base : Z) (g : gpi_info_t) (l1_desc : Z) : gpt unit :=
  let! s := gets id in
  let idx := GPT_L1_INDEX s (ALIGN_2MB base) in
  fill_desc (elem (gi_l1_addr g) idx) l1_desc (L1_QWORDS_2MB s).

Definition shatter_32mb (base : Z) (g : gpi_info_t) (l1_desc : Z) : gpt unit :=
  let! s := gets id in
  let l1_gran := elem (gi_l1_addr g) (GPT_L1_INDEX s (ALIGN_2MB base)) in
  let l1_cont_desc := GPT_L1_CONT_DESC l1_desc GPT_L1_CONT_DESC_2MB in
  let l1 := elem (gi_l1_addr g) (GPT_L1_INDEX s (ALIGN_32MB base)) in
  fold_each (seqZ 0 16) l1 (fun _ l1 =>
    fill_desc l1 (if l1 =? l1_gran then l1_desc else l1_cont_desc) (L1_QWORDS_2MB s) ;;
    ret (l1 + L1_BYTES_2MB s)) ;;
  ret tt.

Definition shatter_512mb (base : Z) (g : gpi_info_t) (l1_desc : Z) : gpt unit :=
  let! s := gets id in
  let l1_32mb := elem (gi_l1_addr g) (GPT_L1_INDEX s (ALIGN_32MB base)) in
  let l1_cont_desc := GPT_L1_CONT_DESC l1_desc GPT_L1_CONT_DESC_32MB in
  let l1 := elem (gi_l1_addr g) (GPT_L1_INDEX s (ALIGN_512MB base)) in
  fold_each (seqZ 0 16) l1 (fun _ l1 =>
    (if l1 =? l1_32mb then shatter_32mb base g l1_desc
     else fill_desc l1 l1_cont_desc (L1_QWORDS_32MB s)) ;;
    ret (l1 + L1_BYTES_32MB s)) ;;
  ret tt.

(** ** Validation *)

Definition is_gpi_valid (gpi : Z) : bool :=
  if (gpi =? GPT_GPI_NO_ACCESS) || (gpi =? GPT_GPI_SECURE) || (gpi =? GPT_GPI_NS) || (gpi =? GPT_GPI_ROOT) ||
     (ENABLE_RMM && (gpi =? GPT_GPI_REALM)) || (gpi =? GPT_GPI_ANY) then true
  else if gpi =? GPT_GPI_NSO then is_feat_rme_gpc2_supported
  else if (gpi =? GPT_GPI_SA) || (gpi =? GPT_GPI_NSP) then is_feat_rme_gdi_supported
  else false.

Definition check_pas_overlap (base_1 size_1 base_2 size_2 : Z) : bool :=
  (base_2 <? u64 (base_1 + size_1)) && (base_1 <? u64 (base_2 + size_2)).

Definition does_previous_pas_exist_here (l0_idx : Z) (pas_regions : list pas_region_t) (pas_idx : Z) : bool :=
  existsb (fun r => check_pas_overlap (u64 (GPT_L0GPTSZ_ACTUAL_SIZE * l0_idx)) GPT_L0GPTSZ_ACTUAL_SIZE
                                      (pas_base_pa r) (pas_size r))
    (take (Z.to_nat pas_idx) pas_regions).

(** The last address of a region, in 64 bits. *)
Definition pas_last (r : pas_region_t) : Z := u64 (pas_base_pa r + pas_size r - 1).

(** The check that no L0 entry of a region has been initialised. The index is a
    32-bit variable: beyond its range the loop does not end. *)
Definition check_l0_unused (r : pas_region_t) : gpt Z :=
  let! s := gets id in
  let first := u32 (GPT_L0_IDX (pas_base_pa r)) in
  let last := GPT_L0_IDX (pas_last r) in
  let! unused :=
    all_of (seqZ first (Z.min last (2 ^ 32 - 1) - first + 1)) (fun i =>
      let! d := load (elem (plat_gpt_l0_base (gpt_config s)) i) in
      ret ((GPT_L0_TYPE d =? GPT_L0_TYPE_BLK_DESC) && (GPT_L0_BLKD_GPI d =? GPT_GPI_ANY))) in
  if negb unused then ret (- EFAULT)
  else if last <? 2 ^ 32 then ret 0
  else halt NoReturn.

(** The tables a region with granules needs that no region before it does. *)
Definition count_l1 (r : pas_region_t) (pas_regions : list pas_region_t) (idx : Z) : Z :=
  let pas_l1_cnt := u32 (GPT_L0_IDX (pas_last r) - GPT_L0_IDX (pas_base_pa r) + 1) in
  let pas_l1_cnt :=
    if (1 <? pas_l1_cnt) && does_previous_pas_exist_here (u32 (GPT_L0_IDX (pas_last r))) pas_regions idx
    then u32 (pas_l1_cnt - 1) else pas_l1_cnt in
  if does_previous_pas_exist_here (u32 (GPT_L0_IDX (pas_base_pa r))) pas_regions idx
  then u32 (pas_l1_cnt - 1) else pas_l1_cnt.

(** One region: an error, or the tables it adds. *)
Definition validate_pas (pas_regions : list pas_region_t) (idx : Z) (r : pas_region_t) : gpt (Z + Z) :=
  let! s := gets id in
  let p := gc_p (gpt_config s) in
  if UINT64_MAX - pas_base_pa r <? pas_size r then ret (inl (- EOVERFLOW))
  else if (GPT_PPS_ACTUAL_SIZE (gc_t (gpt_config s)) <? pas_base_pa r + pas_size r) ||
          negb (is_gpi_valid (GPT_PAS_ATTR_GPI (pas_attrs r))) then ret (inl (- EFAULT))
  else if existsb (fun r' => check_pas_overlap (pas_base_pa r) (pas_size r) (pas_base_pa r') (pas_size r'))
            (drop (Z.to_nat (idx + 1)) pas_regions) then ret (inl (- EFAULT))
  else
    let! rc := check_l0_unused r in
    if negb (rc =? 0) then ret (inl rc)
    else if GPT_PAS_ATTR_MAP_TYPE (pas_attrs r) =? GPT_PAS_ATTR_MAP_TYPE_BLOCK then
      if negb (GPT_IS_L0_ALIGNED (pas_base_pa r)) || negb (GPT_IS_L0_ALIGNED (pas_size r)) then ret (inl (- EFAULT))
      else ret (inr 0)
    else if GPT_PAS_ATTR_MAP_TYPE (pas_attrs r) =? GPT_PAS_ATTR_MAP_TYPE_GRANULE then
      if negb (GPT_IS_L1_ALIGNED p (pas_base_pa r)) || negb (GPT_IS_L1_ALIGNED p (pas_size r))
      then ret (inl (- EFAULT))
      else ret (inr (count_l1 r pas_regions idx))
    else ret (inl (- EINVAL)).

(** The conversion of an [unsigned int] to [int]. *)
Definition to_int (x : Z) : Z := if x <? 2 ^ 31 then x else x - 2 ^ 32.

Fixpoint validate_loop (pas_regions : list pas_region_t) (idx l1_cnt : Z) (l : list pas_region_t) : gpt Z :=
  match l with
  | [] => ret (to_int l1_cnt)
  | r :: l' =>
      let! v := validate_pas pas_regions idx r in
      match v with
      | inl rc => ret rc
      | inr cnt => validate_loop pas_regions (idx + 1) (u32 (l1_cnt + cnt)) l'
      end
  end.

Definition validate_pas_mappings (pas_regions : list pas_region_t) : gpt Z :=
  assert (negb (Z.of_nat (length pas_regions) =? 0)) ;;
  validate_loop pas_regions 0 0 pas_regions.

Definition set_pps (pps t : Z) (c : gpt_config_t) : gpt_config_t := {|
  plat_gpt_l0_base := plat_gpt_l0_base c; gc_pps := pps; gc_t := t; gc_pgs := gc_pgs c; gc_p := gc_p c |}.
Definition set_pgs (pgs p : Z) (c : gpt_config_t) : gpt_config_t := {|
  plat_gpt_l0_base := plat_gpt_l0_base c; gc_pps := gc_pps c; gc_t := gc_t c; gc_pgs := pgs; gc_p := p |}.
Definition set_l0_base (v : Z) (c : gpt_config_t) : gpt_config_t := {|
  plat_gpt_l0_base := v; gc_pps := gc_pps c; gc_t := gc_t c; gc_pgs := gc_pgs c; gc_p := gc_p c |}.
Definition upd_config (f : gpt_config_t -> gpt_config_t) : gpt unit :=
  modify (fun s => set_gpt_config (f (gpt_config s)) s).

Definition validate_l0_params (pps l0_mem_base l0_mem_size : Z) : gpt Z :=
  if GPT_PPS_MAX <? pps then ret (- EINVAL)
  else
    let! t := deref (gpt_t_lookup.[pps]) in
    upd_config (set_pps pps t) ;;
    let l0_alignment := if SZ_4K <? GPT_L0_TABLE_SIZE t then GPT_L0_TABLE_SIZE t else SZ_4K in
    if (l0_mem_base =? 0) || negb (Z.land l0_mem_base (l0_alignment - 1) =? 0) then ret (- EFAULT)
    else if l0_mem_size <? GPT_L0_TABLE_SIZE t then ret (- ENOMEM)
    else ret 0.

Definition validate_l1_params (l1_mem_base l1_mem_size l1_gpt_cnt : Z) : gpt Z :=
  let! s := gets id in
  let p := gc_p (gpt_config s) in
  if negb (xlat_arch_is_granule_size_supported (GPT_PGS_ACTUAL_SIZE p)) then ret (- EPERM)
  else if negb (Z.land l1_mem_base (GPT_L1_TABLE_SIZE p - 1) =? 0) then ret (- EFAULT)
  else
    let l1_gpt_mem_sz := u64 (l1_gpt_cnt * GPT_L1_TABLE_SIZE p) in
    if negb (l1_gpt_mem_sz / GPT_L1_TABLE_SIZE p =? l1_gpt_cnt) then ret (- ENOMEM)
    else if l1_mem_size <? l1_gpt_mem_sz then ret (- ENOMEM)
    else ret 0.

(** ** Construction *)

Definition generate_l0_blk_desc (pas : pas_region_t) : gpt unit :=
  let! s := gets id in
  assert (negb (plat_gpt_l0_base (gpt_config s) =? 0)) ;;
  let gpt_desc := GPT_L0_BLK_DESC (GPT_PAS_ATTR_GPI (pas_attrs pas)) in
  let idx := GPT_L0_IDX (pas_base_pa pas) in
  let end_idx := GPT_L0_IDX (u64 (pas_base_pa pas + pas_size pas)) in
  for_each (seqZ idx (end_idx - idx)) (fun i => store (elem (plat_gpt_l0_base (gpt_config s)) i) gpt_desc).

Definition get_l1_end_pa (cur_pa end_pa : Z) : gpt Z :=
  let cur_idx := GPT_L0_IDX cur_pa in
  let end_idx := GPT_L0_IDX end_pa in
  assert (cur_idx <=? end_idx) ;;
  if cur_idx =? end_idx then ret end_pa else ret (u64 (Z.shiftl (cur_idx + 1) GPT_L0_IDX_SHIFT)).

(** The sizes of contiguous blocks, largest first, with their descriptors. *)
Definition gpt_fill_lookup : list (Z * Z) :=
  (if RME_GPT_MAX_BLOCK =? 512 then [(SZ_512M, GPT_L1_CONT_DESC_512MB)] else []) ++
  (if 32 <=? RME_GPT_MAX_BLOCK then [(SZ_32M, GPT_L1_CONT_DESC_32MB)] else []) ++
  (if negb (RME_GPT_MAX_BLOCK =? 0) then [(SZ_2M, GPT_L1_CONT_DESC_2MB)] else []).

Definition fill_l1_cont_desc (l1 first length gpi : Z) : gpt Z :=
  let! s := gets id in
  let idx := GPT_L1_INDEX s first in
  match list_find (fun e => GPT_REGION_IS_CONT length first (fst e) = true) gpt_fill_lookup with
  | Some (_, (cont_size, desc)) =>
      let l1_desc := GPT_L1_GPI_CONT_DESC gpi desc in
      let cnt :=
        if cont_size =? SZ_512M then L1_QWORDS_512MB s
        else if cont_size =? SZ_32M then L1_QWORDS_32MB s
        else L1_QWORDS_2MB s in
      fill_desc (elem l1 idx) l1_desc cnt ;;
      ret (u64 (first + cont_size))
  | None => ret first
  end.

Definition build_l1_desc (gpi : Z) : Z :=
  let l1_desc := Z.lor gpi (u64 (Z.shiftl gpi 4)) in
  let l1_desc := Z.lor l1_desc (u64 (Z.shiftl l1_desc 8)) in
  let l1_desc := Z.lor l1_desc (u64 (Z.shiftl l1_desc 16)) in
  Z.lor l1_desc (u64 (Z.shiftl l1_desc 32)).

Definition fill_l1_gran_desc (l1 first last gpi : Z) : gpt Z :=
  let! s := gets id in
  let p := gc_p (gpt_config s) in
  let l1_desc := build_l1_desc gpi in
  let gpi_mask := u64 (Z.shiftl UINT64_MAX (Z.shiftl (GPT_L1_GPI_IDX p first) 2)) in
  let i0 := GPT_L1_INDEX s first in
  let i1 := GPT_L1_INDEX s last in
  fold_each (seqZ i0 (i1 - i0 + 1)) gpi_mask (fun i gpi_mask =>
    let gpi_mask :=
      if i =? i1 then Z.land gpi_mask (Z.shiftr gpi_mask (Z.shiftl (15 - GPT_L1_GPI_IDX p last) 2)) else gpi_mask in
    let! old := load (elem l1 i) in
    assert (Z.land old gpi_mask =? Z.land GPT_L1_ANY_DESC gpi_mask) ;;
    store (elem l1 i) (Z.lor (Z.land old (Z.lnot gpi_mask)) (Z.land l1_desc gpi_mask)) ;;
    ret UINT64_MAX) ;;
  ret (u64 (last + GPT_PGS_ACTUAL_SIZE p)).

(** The loop of [fill_l1_tbl]. Each turn but the first and the last advances by
    2MB or more, which bounds their number. *)
Fixpoint fill_l1_loop (fuel : nat) (l1 first last gpi : Z) : gpt Z :=
  if last <? first then ret first
  else match fuel with
       | O => halt NoReturn
       | S fuel =>
           let! s := gets id in
           let pgs := GPT_PGS_ACTUAL_SIZE (gc_p (gpt_config s)) in
           let length := u64 (last - first + pgs) in
           let! first :=
             (if length <? SZ_2M then fill_l1_gran_desc l1 first last gpi
              else if Z.land first (SZ_2M - 1) =? 0 then fill_l1_cont_desc l1 first length gpi
              else fill_l1_gran_desc l1 first (u64 (ALIGN_2MB (u64 (first + SZ_2M)) - pgs)) gpi) in
           fill_l1_loop fuel l1 first last gpi
       end.

Definition fill_l1_tbl (l1 first last gpi : Z) : gpt unit :=
  let! s := gets id in
  let pgs := GPT_PGS_ACTUAL_SIZE (gc_p (gpt_config s)) in
  assert (negb (l1 =? 0)) ;;
  assert (first <=? last) ;;
  assert (Z.land first (pgs - 1) =? 0) ;;
  assert (Z.land last (pgs - 1) =? 0) ;;
  assert (GPT_L0_IDX first =? GPT_L0_IDX last) ;;
  let! first :=
    (if negb (RME_GPT_MAX_BLOCK =? 0) then fill_l1_loop (Z.to_nat ((last - first) / SZ_2M + 3)) l1 first last gpi
     else fill_l1_gran_desc l1 first last gpi) in
  assert (first =? u64 (last + pgs)).

Definition get_new_l1_tbl : gpt Z :=
  let! s := gets id in
  let p := gc_p (gpt_config s) in
  let l1 := gpt_l1_tbl s in
  modify (set_gpt_l1_tbl (u64 (l1 + GPT_L1_TABLE_SIZE p))) ;;
  for_each (seqZ 0 (GPT_L1_ENTRY_COUNT p)) (fun i => store (elem l1 i) GPT_L1_ANY_DESC) ;;
  ret l1.

(** One L0 entry of [generate_l0_tbl_desc]; the result is the new [cur_pa]. *)
Definition generate_l0_entry (end_pa gpi l0_idx cur_pa : Z) : gpt Z :=
  let! s := gets id in
  let l0 := elem (plat_gpt_l0_base (gpt_config s)) l0_idx in
  let! d := load l0 in
  let! l1_gpt_arr :=
    (if GPT_L0_TYPE d =? GPT_L0_TYPE_TBL_DESC then ret (GPT_L0_TBLD_ADDR d)
     else
       let! l1 := get_new_l1_tbl in
       store l0 (GPT_L0_TBL_DESC l1) ;;
       ret l1) in
  let! l1_end := get_l1_end_pa cur_pa end_pa in
  let last_gran_pa := u64 (l1_end - GPT_PGS_ACTUAL_SIZE (gc_p (gpt_config s))) in
  fill_l1_tbl l1_gpt_arr cur_pa last_gran_pa gpi ;;
  get_l1_end_pa cur_pa end_pa.

Definition generate_l0_tbl_desc (pas : pas_region_t) : gpt unit :=
  let! s := gets id in
  assert (negb (plat_gpt_l0_base (gpt_config s) =? 0)) ;;
  let end_pa := u64 (pas_base_pa pas + pas_size pas) in
  let gpi := GPT_PAS_ATTR_GPI (pas_attrs pas) in
  let first := u32 (GPT_L0_IDX (pas_base_pa pas)) in
  let last := u32 (GPT_L0_IDX (u64 (end_pa - 1))) in
  fold_each (seqZ first (last - first + 1)) (pas_base_pa pas) (generate_l0_entry end_pa gpi) ;;
  ret tt.

Definition flush_l0_for_pas_array (pas : list pas_region_t) : gpt unit :=
  let! s := gets id in
  assert (negb (Z.of_nat (length pas) =? 0)) ;;
  let! p0 := deref (pas.[0]) in
  let start_idx :=
    fold_left (fun a r => if GPT_L0_IDX (pas_base_pa r) <? a then GPT_L0_IDX (pas_base_pa r) else a)
      (drop 1 pas) (GPT_L0_IDX (pas_base_pa p0)) in
  let end_idx :=
    fold_left (fun a r => if a <? GPT_L0_IDX (pas_last r) then GPT_L0_IDX (pas_last r) else a)
      (drop 1 pas) (GPT_L0_IDX (pas_last p0)) in
  emit_gpt (FlushDcache (elem (plat_gpt_l0_base (gpt_config s)) start_idx) (u64 ((end_idx + 1 - start_idx) * 8))).

(** ** Interface: construction and registers *)

Definition policy_or (gpi caller bits : Z) : gpt unit :=
  let! s := gets id in
  let! g := deref ((gpi_config s).[gpi]) in
  let! v := deref ((gl_policy g).[caller]) in
  let g' := {| gl_desc := gl_desc g; gl_nse := gl_nse g; gl_nse2 := gl_nse2 g;
               gl_policy := zupdate (gl_policy g) caller (Z.lor v bits) |} in
  modify (set_gpi_config (zupdate (gpi_config s) gpi g')).

Definition write_gptbr_el3 (v : Z) : gpt unit :=
  modify (fun s => set_gpt_regs v (gpccr_el3 s) s) ;; emit_gpt (WriteGptbr v).
Definition write_gpccr_el3 (v : Z) : gpt unit :=
  modify (fun s => set_gpt_regs (gptbr_el3 s) v s) ;; emit_gpt (WriteGpccr v).

Definition is_gpi_transition_permitted (caller current_gpi target_gpi : Z) : gpt bool :=
  let caller := if caller =? SMC_FROM_REALM then 2 else caller in
  assert (caller <=? 2) ;;
  assert (current_gpi <=? GPT_GPI_ANY) ;;
  let! s := gets id in
  let! g := deref ((gpi_config s).[current_gpi]) in
  let! v := deref ((gl_policy g).[caller]) in
  ret (negb (Z.land (Z.shiftr v target_gpi) 1 =? 0)).

Definition gpt_enable : gpt Z :=
  let! s := gets id in
  let c := gpt_config s in
  if plat_gpt_l0_base c =? 0 then ret (- EPERM)
  else
    write_gptbr_el3
      (Z.land (Z.shiftr (Z.shiftr (plat_gpt_l0_base c) GPTBR_BADDR_VAL_SHIFT) GPTBR_BADDR_SHIFT) GPTBR_BADDR_MASK) ;;
    let v := SET_GPCCR_PPS (gc_pps c) in
    let v := Z.lor v (SET_GPCCR_PGS (gc_pgs c)) in
    let v := Z.lor v (SET_GPCCR_SH GPCCR_SH_IS) in
    let v := Z.lor v (SET_GPCCR_ORGN GPCCR_ORGN_WB_RA_WA) in
    let v := Z.lor v (SET_GPCCR_IRGN GPCCR_IRGN_WB_RA_WA) in
    let v := if is_feat_rme_gdi_supported then Z.lor (Z.lor v GPCCR_NSP_BIT) GPCCR_SA_BIT else v in
    when is_feat_rme_gdi_supported (
      policy_or GPT_GPI_NS SMC_FROM_NON_SECURE (Z.lor (Z.shiftl 1 GPT_GPI_NSP) (Z.shiftl 1 GPT_GPI_SA)) ;;
      policy_or GPT_GPI_NSO SMC_FROM_NON_SECURE (Z.lor (Z.shiftl 1 GPT_GPI_NSP) (Z.shiftl 1 GPT_GPI_SA)) ;;
      policy_or GPT_GPI_NSP SMC_FROM_NON_SECURE (Z.lor (Z.shiftl 1 GPT_GPI_NS) (Z.shiftl 1 GPT_GPI_NSO)) ;;
      policy_or GPT_GPI_SA SMC_FROM_NON_SECURE (Z.lor (Z.shiftl 1 GPT_GPI_NS) (Z.shiftl 1 GPT_GPI_NSO))) ;;
    write_gpccr_el3 v ;;
    emit_gpt TlbiPaallos ;;
    let v := Z.lor v GPCCR_GPC_BIT in
    let v := if is_feat_rme_gpc2_supported then Z.lor v GPCCR_NSO_BIT else v in
    when is_feat_rme_gpc2_supported (
      policy_or GPT_GPI_NS SMC_FROM_NON_SECURE (Z.shiftl 1 GPT_GPI_NSO) ;;
      policy_or GPT_GPI_NSO SMC_FROM_NON_SECURE (Z.shiftl 1 GPT_GPI_NS)) ;;
    write_gpccr_el3 v ;;
    emit_gpt TlbiPaallos ;;
    ret 0.

Definition gpt_init_l0_tables (pps l0_mem_base l0_mem_size : Z) : gpt Z :=
  assert sctlr_c_bit ;;
  let! rc := validate_l0_params pps l0_mem_base l0_mem_size in
  if negb (rc =? 0) then ret rc
  else
    let! s := gets id in
    let t := gc_t (gpt_config s) in
    for_each (seqZ 0 (GPT_L0_REGION_COUNT t)) (fun i =>
      store (elem l0_mem_base i) (GPT_L0_BLK_DESC GPT_GPI_ANY)) ;;
    emit_gpt (FlushDcache l0_mem_base (GPT_L0_TABLE_SIZE t)) ;;
    upd_config (set_l0_base l0_mem_base) ;;
    ret 0.

Definition generate_pas (r : pas_region_t) : gpt unit :=
  if GPT_PAS_ATTR_MAP_TYPE (pas_attrs r) =? GPT_PAS_ATTR_MAP_TYPE_BLOCK
  then generate_l0_blk_desc r else generate_l0_tbl_desc r.

Definition gpt_init_pas_l1_tables (pgs l1_mem_base l1_mem_size : Z) (pas_regions : list pas_region_t) : gpt Z :=
  assert sctlr_c_bit ;;
  if GPT_PGS_MAX <? pgs then ret (- EINVAL)
  else
    let! p := deref (gpt_p_lookup.[pgs]) in
    upd_config (set_pgs pgs p) ;;
    let! s := gets id in
    if plat_gpt_l0_base (gpt_config s) =? 0 then ret (- EPERM)
    else
      let! l1_gpt_cnt := validate_pas_mappings pas_regions in
      if l1_gpt_cnt <? 0 then ret l1_gpt_cnt
      else
        let! rc :=
          (if 0 <? l1_gpt_cnt then
             let! rc := validate_l1_params l1_mem_base l1_mem_size l1_gpt_cnt in
             (if negb (rc =? 0) then ret rc else modify (set_gpt_l1_tbl l1_mem_base) ;; ret 0)
           else ret 0) in
        if negb (rc =? 0) then ret rc
        else
          modify (set_l1_params (u32 (GPT_L1_ENTRY_COUNT_2MB p)) (GPT_L1_IDX_MASK p)) ;;
          for_each pas_regions generate_pas ;;
          flush_l0_for_pas_array pas_regions ;;
          when (0 <? l1_gpt_cnt) (emit_gpt (FlushDcache l1_mem_base (u64 (GPT_L1_TABLE_SIZE p * l1_gpt_cnt)))) ;;
          emit_gpt TlbiPaallos ;;
          ret 0.

Definition LOCK_SIZE : Z := 1.
Definition LOCK_BITS : Z := LOCK_SIZE * 8.

Definition gpt_runtime_init (l1_bitlocks_base l1_bitlocks_size : Z) : gpt Z :=
  assert sctlr_c_bit ;;
  let! s := gets id in
  if negb (is_set (gpccr_el3 s) GPCCR_GPC_BIT) then ret (- EPERM)
  else
    let l0_base :=
      Z.shiftl (Z.land (Z.shiftr (gptbr_el3 s) GPTBR_BADDR_SHIFT) GPTBR_BADDR_MASK) GPTBR_BADDR_VAL_SHIFT in
    let pps := Z.land (Z.shiftr (gpccr_el3 s) GPCCR_PPS_SHIFT) GPCCR_PPS_MASK in
    let! t := deref (gpt_t_lookup.[pps]) in
    let pgs := Z.land (Z.shiftr (gpccr_el3 s) GPCCR_PGS_SHIFT) GPCCR_PGS_MASK in
    let! p := deref (gpt_p_lookup.[pgs]) in
    modify (set_gpt_config {| plat_gpt_l0_base := l0_base; gc_pps := pps; gc_t := t; gc_pgs := pgs; gc_p := p |}) ;;
    modify (set_l1_params (u32 (GPT_L1_ENTRY_COUNT_2MB p)) (GPT_L1_IDX_MASK p)) ;;
    if RME_GPT_BITLOCK_BLOCK =? 0 then ret 0
    else
      let locks_size := GPT_PPS_ACTUAL_SIZE t / (RME_GPT_BITLOCK_BLOCK * SZ_512M * 8) in
      if negb (locks_size <? LOCK_SIZE) && (l1_bitlocks_size <? locks_size) then ret (- ENOMEM)
      else
        let locks_size := if locks_size <? LOCK_SIZE then LOCK_SIZE else locks_size in
        modify (set_gpt_bitlock l1_bitlocks_base) ;;
        memset l1_bitlocks_base 0 locks_size ;;
        emit_gpt (FlushDcache l1_bitlocks_base locks_size) ;;
        ret 0.

(** ** Transitions *)

Definition write_gpt (g : gpi_info_t) (target_pas : Z) : gpt gpi_info_t :=
  let d := Z.land (gi_l1_desc g) (Z.lnot (Z.shiftl GPT_L1_GRAN_DESC_GPI_MASK (gi_gpi_shift g))) in
  let d := Z.lor d (u64 (Z.shiftl target_pas (gi_gpi_shift g))) in
  store (elem (gi_l1_addr g) (gi_idx g)) d ;;
  ret (set_gi_desc d g).

(** The granule's place in the tables, if an L1 table covers it. *)
Definition get_gpi_params (base : Z) : gpt (Z + gpi_info_t) :=
  let! s := gets id in
  let! d := load (elem (plat_gpt_l0_base (gpt_config s)) (GPT_L0_IDX base)) in
  if negb (GPT_L0_TYPE d =? GPT_L0_TYPE_TBL_DESC) then ret (inl (- EINVAL))
  else
    let block_idx := u32 (base / (RME_GPT_BITLOCK_BLOCK * SZ_512M)) in
    ret (inr {|
      gi_l1_desc := 0; gi_l1_addr := GPT_L0_TBLD_ADDR d; gi_idx := u32 (GPT_L1_INDEX s base);
      gi_gpi_shift := u32 (Z.shiftl (GPT_L1_GPI_IDX (gc_p (gpt_config s)) base) 2); gi_gpi := 0;
      gi_lock := gpt_bitlock s + block_idx / LOCK_BITS; gi_mask := u8 (Z.shiftl 1 (Z.land block_idx (LOCK_BITS - 1))) |}).

Definition read_gpi (g : gpi_info_t) : gpt gpi_info_t :=
  let! d := load (elem (gi_l1_addr g) (gi_idx g)) in
  let gpi := if is_cont_desc d then GPT_L1_CONT_GPI d
             else Z.land (Z.shiftr d (gi_gpi_shift g)) GPT_L1_GRAN_DESC_GPI_MASK in
  ret (set_gi_gpi gpi (set_gi_desc d g)).

Definition flush_page_to_popa (addr : Z) : gpt unit :=
  let! s := gets id in
  emit_gpt (FlushToPopa is_feat_mte2_supported addr (GPT_PGS_ACTUAL_SIZE (gc_p (gpt_config s)))).

Definition check_fuse_2mb (base : Z) (g : gpi_info_t) (l1_desc : Z) : gpt bool :=
  let! s := gets id in
  let idx := GPT_L1_INDEX s (ALIGN_2MB base) + gpt_l1_cnt_2mb s - 1 in
  all_of (seqZ 0 (gpt_l1_cnt_2mb s)) (fun k =>
    let! d := load (elem (gi_l1_addr g) (idx - k)) in
    ret (d =? l1_desc)).

Definition fuse_2mb (base : Z) (g : gpi_info_t) (l1_desc : Z) : gpt unit :=
  let! s := gets id in
  fill_desc (elem (gi_l1_addr g) (GPT_L1_INDEX s (ALIGN_2MB base)))
    (GPT_L1_CONT_DESC l1_desc GPT_L1_CONT_DESC_2MB) (L1_QWORDS_2MB s).

Definition check_fuse_32mb (base : Z) (g : gpi_info_t) (l1_desc : Z) : gpt bool :=
  let! s := gets id in
  let idx := GPT_L1_INDEX s (ALIGN_32MB base) + 15 * gpt_l1_cnt_2mb s in
  let l1_cont_desc := GPT_L1_CONT_DESC l1_desc GPT_L1_CONT_DESC_2MB in
  store (elem (gi_l1_addr g) (GPT_L1_INDEX s (ALIGN_2MB base))) l1_cont_desc ;;
  all_of (seqZ 0 16) (fun k =>
    let! d := load (elem (gi_l1_addr g) (idx - k * gpt_l1_cnt_2mb s)) in
    ret (d =? l1_cont_desc)).

Definition fuse_32mb (base : Z) (g : gpi_info_t) (l1_desc : Z) : gpt unit :=
  let! s := gets id in
  fill_desc (elem (gi_l1_addr g) (GPT_L1_INDEX s (ALIGN_32MB base)))
    (GPT_L1_CONT_DESC l1_desc GPT_L1_CONT_DESC_32MB) (L1_QWORDS_32MB s).

Definition check_fuse_512mb (base : Z) (g : gpi_info_t) (l1_desc : Z) : gpt bool :=
  let! s := gets id in
  let idx := GPT_L1_INDEX s (ALIGN_512MB base) + 15 * 16 * gpt_l1_cnt_2mb s in
  let l1_cont_desc := GPT_L1_CONT_DESC l1_desc GPT_L1_CONT_DESC_32MB in
  store (elem (gi_l1_addr g) (GPT_L1_INDEX s (ALIGN_32MB base))) l1_cont_desc ;;
  all_of (seqZ 0 16) (fun k =>
    let! d := load (elem (gi_l1_addr g) (idx - k * (16 * gpt_l1_cnt_2mb s))) in
    ret (d =? l1_cont_desc)).

Definition fuse_512mb (base : Z) (g : gpi_info_t) (l1_desc : Z) : gpt unit :=
  let! s := gets id in
  fill_desc (elem (gi_l1_addr g) (GPT_L1_INDEX s (ALIGN_512MB base)))
    (GPT_L1_CONT_DESC l1_desc GPT_L1_CONT_DESC_512MB) (L1_QWORDS_512MB s).

Definition fuse_block (base : Z) (g : gpi_info_t) (l1_desc : Z) : gpt unit :=
  let! f2 := check_fuse_2mb base g l1_desc in
  if negb f2 then ret tt
  else if RME_GPT_MAX_BLOCK =? 2 then fuse_2mb base g l1_desc
  else
    let! f32 := check_fuse_32mb base g l1_desc in
    if negb f32 then fuse_2mb base g l1_desc
    else if RME_GPT_MAX_BLOCK =? 32 then fuse_32mb base g l1_desc
    else
      let! f512 := check_fuse_512mb base g l1_desc in
      if negb f512 then fuse_32mb base g l1_desc
      else fuse_512mb base g l1_desc.

Definition shatter_block (base : Z) (g : gpi_info_t) (l1_desc : Z) : gpt gpi_info_t :=
  let level := u64 (GPT_L1_CONT_CONTIG (gi_l1_desc g) - 1) in
  let! f := deref ([shatter_2mb; shatter_32mb; shatter_512mb].[level]) in
  f base g l1_desc ;;
  let! size := deref ([SZ_2M; SZ_32M; SZ_512M].[level]) in
  emit_gpt (TlbiRpalos (Z.land base (Z.lnot (size - 1))) size) ;;
  ret (set_gi_desc l1_desc g).

Definition gpt_write_entry (base target_gpi : Z) (g : gpi_info_t) : gpt gpi_info_t :=
  let! g := write_gpt g target_gpi in
  tlbi_page_dsbosh base ;;
  ret g.

Definition gpt_delegate (base target_gpi : Z) (g : gpi_info_t) : gpt gpi_info_t :=
  let source_gpi := gi_gpi g in
  let! nse := GPI_TO_NSE target_gpi in
  flush_page_to_popa (Z.lor base nse) ;;
  let! g := gpt_write_entry base target_gpi g in
  let! nse := GPI_TO_NSE source_gpi in
  flush_page_to_popa (Z.lor base nse) ;;
  ret g.

Definition gpt_undelegate (base target_gpi : Z) (g : gpi_info_t) : gpt gpi_info_t :=
  let source_gpi := gi_gpi g in
  let! g := write_gpt g GPT_GPI_NO_ACCESS in
  tlbi_page_dsbosh base ;;
  let! nse := GPI_TO_NSE source_gpi in
  flush_page_to_popa (Z.lor base nse) ;;
  let! nse := GPI_TO_NSE target_gpi in
  flush_page_to_popa (Z.lor base nse) ;;
  gpt_write_entry base target_gpi g.

(** The result and the new [*granule_count]. *)
Definition gpt_transition_pas (base granule_count target_gpi src_sec_state : Z) : gpt (Z * Z) :=
  let! s := gets id in
  assert (negb (plat_gpt_l0_base (gpt_config s) =? 0)) ;;
  assert sctlr_c_bit ;;
  if granule_count =? 0 then ret (- EINVAL, granule_count)
  else
    let size := GPT_PGS_ACTUAL_SIZE (gc_p (gpt_config s)) in
    if negb (is_gpi_valid target_gpi) then ret (- EPERM, 0)
    else if UINT64_MAX - base <? size then ret (- EINVAL, 0)
    else if negb (Z.land base (size - 1) =? 0) || negb (Z.land size (size - 1) =? 0) || (size =? 0) ||
            (GPT_PPS_ACTUAL_SIZE (gc_t (gpt_config s)) <=? base + size) then ret (- EINVAL, 0)
    else
      let! info := get_gpi_params base in
      match info with
      | inl res => ret (res, 0)
      | inr g =>
          GPT_LOCK g ;;
          let! g := read_gpi g in
          let! permitted := is_gpi_transition_permitted src_sec_state (gi_gpi g) target_gpi in
          if negb permitted then GPT_UNLOCK g ;; ret (- EPERM, 0)
          else
            let! g :=
              (if negb (RME_GPT_MAX_BLOCK =? 0) && is_cont_desc (gi_l1_desc g) then
                 let! d := GPI_TO_DESC (gi_gpi g) in shatter_block base g d
               else ret g) in
            let! g :=
              (if ((target_gpi =? GPT_GPI_NS) && (gi_gpi g =? GPT_GPI_NSO)) ||
                  ((target_gpi =? GPT_GPI_NSO) && (gi_gpi g =? GPT_GPI_NS)) then gpt_write_entry base target_gpi g
               else if (target_gpi =? GPT_GPI_NS) || (target_gpi =? GPT_GPI_NSO) then gpt_undelegate base target_gpi g
               else gpt_delegate base target_gpi g) in
            (if negb (RME_GPT_MAX_BLOCK =? 0) then
               let! d := GPI_TO_DESC target_gpi in
               when (gi_l1_desc g =? d) (fuse_block base g d)
             else ret tt) ;;
            GPT_UNLOCK g ;;
            ret (0, 1)
      end.

End Gpt.
