(* ===== verification/GptTable.v ===== *)
(** * Granule protection tables: what they mean

    The walk the architecture prescribes ([gpi_at]), the fields of descriptors,
    and when a level 1 table is well formed: a Contiguous descriptor is in every
    entry of its block. *)

From stdpp Require Import list_numbers gmap.
From S2P Require Import Prelude GptDefs Gpt.

(** ** Descriptors *)

(** The GPI that an entry of a level 1 table gives to the granule [k] of its
    sixteen. *)
Definition dgpi (d k : Z) : Z :=
  if d mod 16 =? 1 then (d / 16) mod 16 else (d / 2 ^ (4 * k)) mod 16.

(** The Contiguous descriptor of size [c] (1 for 2MB, 2 for 32MB, 3 for 512MB). *)
Definition cont (c g : Z) : Z := 1 + 16 * g + 256 * c.

Lemma land_ones_mod x k : 0 <= k -> Z.land x (Z.ones k) = x mod 2 ^ k.
Proof. apply Z.land_ones. Qed.

Lemma is_cont_desc_mod d : is_cont_desc d = (d mod 16 =? 1).
Proof. unfold is_cont_desc. change GPT_L1_TYPE_CONT_DESC_MASK with (Z.ones 4). by rewrite land_ones_mod. Qed.

Lemma cont_is_cont c g : 0 <= g -> 0 <= c -> is_cont_desc (cont c g) = true.
Proof.
  intros Hg Hc. rewrite is_cont_desc_mod. unfold cont. apply Z.eqb_eq.
  replace (1 + 16 * g + 256 * c) with (1 + (g + 16 * c) * 16) by lia. by rewrite Z.mod_add.
Qed.

Lemma dgpi_cont c g k : 0 <= g < 16 -> 0 <= c -> dgpi (cont c g) k = g.
Proof.
  intros Hg Hc. unfold dgpi. rewrite <- is_cont_desc_mod, cont_is_cont by lia. unfold cont.
  replace (1 + 16 * g + 256 * c) with (1 + (g + 16 * c) * 16) by lia.
  rewrite Z.div_add, Z.div_small, Z.add_0_l by lia.
  rewrite Z.mul_comm with (n := 16), Z.mod_add by lia. by rewrite Z.mod_small.
Qed.

Lemma cont_contig c g : 0 <= g < 16 -> 0 <= c < 4 -> GPT_L1_CONT_CONTIG (cont c g) = c.
Proof.
  intros Hg Hc. unfold GPT_L1_CONT_CONTIG. change GPT_L1_CONT_DESC_CONTIG_MASK with (Z.ones 2).
  rewrite land_ones_mod, Z.shiftr_div_pow2 by done. unfold cont.
  change (2 ^ GPT_L1_CONT_DESC_CONTIG_SHIFT) with 256. change (2 ^ 2) with 4.
  rewrite Z.mul_comm with (n := 256), Z.div_add by lia. rewrite Z.div_small by lia. by rewrite Z.mod_small.
Qed.

Lemma cont_gpi c g : 0 <= g < 16 -> 0 <= c -> GPT_L1_CONT_GPI (cont c g) = g.
Proof.
  intros Hg Hc. transitivity (dgpi (cont c g) 0); [|by apply dgpi_cont]. unfold dgpi.
  rewrite <- is_cont_desc_mod, cont_is_cont by lia. unfold GPT_L1_CONT_GPI.
  change GPT_L1_CONT_DESC_GPI_MASK with (Z.ones 4). by rewrite land_ones_mod, Z.shiftr_div_pow2.
Qed.

Lemma cont_inj c g c' g' : 0 <= g < 16 -> 0 <= g' < 16 -> cont c g = cont c' g' -> c = c' /\ g = g'.
Proof. unfold cont. lia. Qed.

(** The sixteen GPIs and the two ways to build a descriptor of one GPI: what
    they are is decided by computation. *)
Definition gpis : list Z := seqZ 0 16.

Lemma elem_gpis g : 0 <= g < 16 <-> g ∈ gpis.
Proof. unfold gpis. rewrite elem_of_seqZ. lia. Qed.

Lemma all_gpis (P : Z -> bool) : forallb P gpis = true -> forall g, 0 <= g < 16 -> P g = true.
Proof. intros H g Hg. rewrite forallb_forall in H. apply H, list_elem_of_In, elem_gpis, Hg. Qed.

Lemma build_build g : 0 <= g < 16 -> build_l1_desc g = GPT_BUILD_L1_DESC g.
Proof. intros Hg. apply Z.eqb_eq. revert g Hg. by apply all_gpis. Qed.

Lemma build_range g : 0 <= g < 16 -> 0 <= GPT_BUILD_L1_DESC g < 2 ^ 64.
Proof.
  intros Hg. assert ((0 <=? GPT_BUILD_L1_DESC g) && (GPT_BUILD_L1_DESC g <? 2 ^ 64) = true) as H.
  { revert g Hg. by apply all_gpis. } apply andb_true_iff in H as [H1%Z.leb_le H2%Z.ltb_lt]. done.
Qed.

Lemma dgpi_build g k : 0 <= g < 16 -> g <> 1 -> 0 <= k < 16 -> dgpi (GPT_BUILD_L1_DESC g) k = g.
Proof.
  intros Hg Hne Hk.
  assert ((g =? 1) || (dgpi (GPT_BUILD_L1_DESC g) k =? g) = true) as H.
  { revert k Hk. apply all_gpis. clear Hne. revert g Hg.
    enough (forall g, 0 <= g < 16 ->
      forallb (fun k => (g =? 1) || (dgpi (GPT_BUILD_L1_DESC g) k =? g)) gpis = true) as H by auto.
    by apply all_gpis. }
  apply orb_true_iff in H as [H%Z.eqb_eq|H%Z.eqb_eq]; [done|exact H].
Qed.

Lemma build_not_cont g : 0 <= g < 16 -> g <> 1 -> is_cont_desc (GPT_BUILD_L1_DESC g) = false.
Proof.
  intros Hg Hne. assert ((g =? 1) || negb (is_cont_desc (GPT_BUILD_L1_DESC g)) = true) as H.
  { revert g Hg Hne. enough (forall g, 0 <= g < 16 -> (g =? 1) || negb (is_cont_desc (GPT_BUILD_L1_DESC g)) = true)
      by auto. by apply all_gpis. }
  apply orb_true_iff in H as [H%Z.eqb_eq|H%negb_true_iff]; [done|exact H].
Qed.

Lemma cont_of_build g :
  0 <= g < 16 ->
  GPT_L1_CONT_DESC (GPT_BUILD_L1_DESC g) GPT_L1_CONT_DESC_2MB = cont 1 g /\
  GPT_L1_CONT_DESC (GPT_BUILD_L1_DESC g) GPT_L1_CONT_DESC_32MB = cont 2 g /\
  GPT_L1_CONT_DESC (GPT_BUILD_L1_DESC g) GPT_L1_CONT_DESC_512MB = cont 3 g.
Proof.
  intros Hg.
  assert ((GPT_L1_CONT_DESC (GPT_BUILD_L1_DESC g) GPT_L1_CONT_DESC_2MB =? cont 1 g) &&
          (GPT_L1_CONT_DESC (GPT_BUILD_L1_DESC g) GPT_L1_CONT_DESC_32MB =? cont 2 g) &&
          (GPT_L1_CONT_DESC (GPT_BUILD_L1_DESC g) GPT_L1_CONT_DESC_512MB =? cont 3 g) = true) as H.
  { revert g Hg. by apply all_gpis. }
  rewrite !andb_true_iff, !Z.eqb_eq in H. tauto.
Qed.

Lemma gpi_cont_desc g :
  0 <= g < 16 ->
  GPT_L1_GPI_CONT_DESC g GPT_L1_CONT_DESC_2MB = cont 1 g /\ GPT_L1_GPI_CONT_DESC g GPT_L1_CONT_DESC_32MB = cont 2 g /\
  GPT_L1_GPI_CONT_DESC g GPT_L1_CONT_DESC_512MB = cont 3 g.
Proof.
  intros Hg.
  assert ((GPT_L1_GPI_CONT_DESC g GPT_L1_CONT_DESC_2MB =? cont 1 g) &&
          (GPT_L1_GPI_CONT_DESC g GPT_L1_CONT_DESC_32MB =? cont 2 g) &&
          (GPT_L1_GPI_CONT_DESC g GPT_L1_CONT_DESC_512MB =? cont 3 g) = true) as H.
  { revert g Hg. by apply all_gpis. }
  rewrite !andb_true_iff, !Z.eqb_eq in H. tauto.
Qed.

(** ** Changing one GPI of a Granules descriptor *)

Definition nib (d k : Z) : Z := (d / 2 ^ (4 * k)) mod 16.

Lemma nib_spec d k n : 0 <= k -> 0 <= n -> Z.testbit (nib d k) n = (n <? 4) && Z.testbit d (n + 4 * k).
Proof.
  intros Hk Hn. unfold nib. change 16 with (2 ^ 4). destruct (Z.ltb_spec n 4).
  - rewrite Z.mod_pow2_bits_low, Z.div_pow2_bits by lia. done.
  - by rewrite Z.mod_pow2_bits_high by lia.
Qed.

Definition set_nib (d k g : Z) : Z := Z.lor (Z.land d (Z.lnot (Z.shiftl 15 (4 * k)))) (u64 (Z.shiftl g (4 * k))).

Lemma bits_small x k n : 0 <= x < 2 ^ k -> 0 <= k <= n -> Z.testbit x n = false.
Proof. intros Hx Hn. rewrite <- (Z.mod_small x (2 ^ k)) by done. apply Z.mod_pow2_bits_high. lia. Qed.

Lemma set_nib_bits d k g n :
  0 <= k < 16 -> 0 <= g < 16 -> 0 <= n ->
  Z.testbit (set_nib d k g) n =
    if (4 * k <=? n) && (n <? 4 * k + 4) then Z.testbit g (n - 4 * k) else Z.testbit d n.
Proof.
  intros Hk Hg Hn. unfold set_nib. change 15 with (Z.ones 4).
  rewrite Z.lor_spec, Z.land_spec, Z.lnot_spec, Z.shiftl_spec by lia. unfold u64.
  assert (Z.testbit (Z.shiftl g (4 * k) mod 2 ^ 64) n =
          (4 * k <=? n) && (n <? 4 * k + 4) && Z.testbit g (n - 4 * k)) as ->.
  { destruct (Z.leb_spec (4 * k) n), (Z.ltb_spec n (4 * k + 4)); cbn [andb].
    - by rewrite Z.mod_pow2_bits_low, Z.shiftl_spec by lia.
    - destruct (Z.ltb_spec n 64); [|by rewrite Z.mod_pow2_bits_high by lia].
      rewrite Z.mod_pow2_bits_low, Z.shiftl_spec by lia. apply (bits_small g 4); lia.
    - rewrite Z.mod_pow2_bits_low, Z.shiftl_spec by lia. by rewrite Z.testbit_neg_r by lia.
    - lia. }
  destruct (Z.leb_spec (4 * k) n), (Z.ltb_spec n (4 * k + 4)); cbn [andb].
  - rewrite Z.ones_spec_low, andb_false_r by lia. done.
  - rewrite Z.ones_spec_high, andb_true_r, orb_false_r by lia. done.
  - rewrite (Z.testbit_neg_r (Z.ones 4)), andb_true_r, orb_false_r by lia. done.
  - lia.
Qed.

Lemma set_nib_nib d k g k' :
  0 <= k < 16 -> 0 <= g < 16 -> 0 <= k' -> nib (set_nib d k g) k' = if decide (k' = k) then g else nib d k'.
Proof.
  intros Hk Hg Hk'. apply Z.bits_inj'. intros n Hn. rewrite nib_spec, set_nib_bits by lia.
  destruct (Z.ltb_spec n 4) as [Hlt|Hge]; cbn [andb].
  - case_decide as Hd.
    + subst k'. rewrite (proj2 (Z.leb_le _ _)), (proj2 (Z.ltb_lt _ _)) by lia. f_equal. lia.
    + rewrite nib_spec, (proj2 (Z.ltb_lt n 4)) by lia. cbn [andb].
      destruct (Z.leb_spec (4 * k) (n + 4 * k')), (Z.ltb_spec (n + 4 * k') (4 * k + 4)); cbn [andb]; try done. lia.
  - case_decide; symmetry; [by apply (bits_small g 4); lia|].
    rewrite nib_spec, (proj2 (Z.ltb_ge n 4)) by lia. done.
Qed.

Lemma pow2_range x k : 0 <= k -> (forall n, k <= n -> Z.testbit x n = false) -> 0 <= x -> x < 2 ^ k.
Proof.
  intros Hk Hb Hx. assert (x mod 2 ^ k = x) as <-; [|by apply Z.mod_pos_bound; lia].
  apply Z.bits_inj'. intros n Hn. destruct (Z.ltb_spec n k);
    [by apply Z.mod_pow2_bits_low|by rewrite Z.mod_pow2_bits_high, Hb by lia].
Qed.

Lemma set_nib_range d k g : 0 <= d < 2 ^ 64 -> 0 <= k < 16 -> 0 <= g < 16 -> 0 <= set_nib d k g < 2 ^ 64.
Proof.
  intros Hd Hk Hg. assert (0 <= set_nib d k g).
  { unfold set_nib. apply Z.lor_nonneg. split; [apply Z.land_nonneg; lia|apply u64_range]. }
  split; [done|]. apply pow2_range; [lia| |done]. intros n Hn. rewrite set_nib_bits by lia.
  rewrite (proj2 (Z.ltb_ge n _)), andb_false_r by lia. by apply (bits_small d 64).
Qed.

Lemma dgpi_gran d k : is_cont_desc d = false -> dgpi d k = nib d k.
Proof. rewrite is_cont_desc_mod. unfold dgpi. by intros ->. Qed.

Lemma is_cont_nib d : is_cont_desc d = (nib d 0 =? 1).
Proof. rewrite is_cont_desc_mod. unfold nib. change (2 ^ (4 * 0)) with 1. by rewrite Z.div_1_r. Qed.

Lemma set_nib_gran d k g :
  is_cont_desc d = false -> 0 <= k < 16 -> 0 <= g < 16 -> g <> 1 -> is_cont_desc (set_nib d k g) = false.
Proof.
  rewrite !is_cont_nib. intros Hd Hk Hg Hne. rewrite set_nib_nib by lia. case_decide; [by apply Z.eqb_neq|done].
Qed.

Lemma dgpi_range d k : 0 <= dgpi d k < 16.
Proof. unfold dgpi. destruct (_ =? _); by apply Z.mod_pos_bound. Qed.

(** A Granules descriptor is determined by its GPIs. *)
Lemma gran_eq d d' :
  0 <= d < 2 ^ 64 -> 0 <= d' < 2 ^ 64 -> (forall k, 0 <= k < 16 -> nib d k = nib d' k) -> d = d'.
Proof.
  intros Hd Hd' H. apply Z.bits_inj'. intros n Hn. destruct (Z.ltb_spec n 64).
  - pose proof (Z.div_mod n 4 ltac:(lia)) as Hq. pose proof (Z.mod_pos_bound n 4 ltac:(lia)) as Hr.
    specialize (H (n / 4) ltac:(lia)). apply (f_equal (fun z => Z.testbit z (n mod 4))) in H.
    rewrite !nib_spec, (proj2 (Z.ltb_lt (n mod 4) 4)) in H by lia. cbn [andb] in H.
    by replace (n mod 4 + 4 * (n / 4)) with n in H by lia.
  - rewrite (bits_small d 64), (bits_small d' 64) by lia. done.
Qed.

(** ** Level 1 tables *)

Section Table.
Context (p : Z) (Hp : p = 12 \/ p = 14 \/ p = 16).

(** The number of the block of size [c] that has entry [j]. *)
Definition blk (c j : Z) : Z := j / 2 ^ (13 - p + 4 * c).

Lemma blk_mono c c' i j : 1 <= c <= c' -> blk c i = blk c j -> blk c' i = blk c' j.
Proof.
  intros Hc. unfold blk. intros H.
  replace (2 ^ (13 - p + 4 * c')) with (2 ^ (13 - p + 4 * c) * 2 ^ (4 * (c' - c)))
    by (rewrite <- Z.pow_add_r by lia; f_equal; lia).
  rewrite <- !Z.div_div by lia. by rewrite H.
Qed.

(** A table is well formed: every entry is a Granules descriptor, or a
    Contiguous one that is in every entry of its block. *)
Definition wf_entry (e : Z -> Z) (i : Z) : Prop :=
  (is_cont_desc (e i) = false /\ 0 <= e i < 2 ^ 64) \/
  (exists c g, 1 <= c <= 3 /\ 0 <= g < 16 /\ forall j, blk c j = blk c i -> e j = cont c g).

Definition wf_table (e : Z -> Z) : Prop := forall i, wf_entry e i.

Lemma wf_cont e i :
  wf_table e -> is_cont_desc (e i) = true ->
  exists c g, 1 <= c <= 3 /\ 0 <= g < 16 /\ forall j, blk c j = blk c i -> e j = cont c g.
Proof. intros Hwf Hc. destruct (Hwf i) as [[Hn _]|H]; [congruence|exact H]. Qed.

Lemma wf_cont_block e i c g :
  wf_table e -> 1 <= c <= 3 -> 0 <= g < 16 -> e i = cont c g -> forall j, blk c j = blk c i -> e j = cont c g.
Proof.
  intros Hwf Hc Hg Hi j Hj.
  destruct (wf_cont e i Hwf) as (c' & g' & Hc' & Hg' & Hb); [rewrite Hi; apply cont_is_cont; lia|].
  pose proof (Hb i eq_refl) as Hi'. rewrite Hi in Hi'. apply cont_inj in Hi' as [-> ->]; [|done..]. by apply Hb.
Qed.

(** What a block of size [c] becomes when it is broken up around entry [i]: the
    2MB block of the entry has Granules descriptors, the rest of its 32MB block
    2MB blocks, the rest 32MB blocks. *)
Definition broken (g i j : Z) : Z :=
  if decide (blk 1 j = blk 1 i) then GPT_BUILD_L1_DESC g
  else if decide (blk 2 j = blk 2 i) then cont 1 g else cont 2 g.

Definition shattered (e : Z -> Z) (c g i j : Z) : Z :=
  if decide (blk c j = blk c i) then broken g i j else e j.

Lemma shattered_wf e c g i :
  wf_table e -> 1 <= c <= 3 -> 0 <= g < 16 -> g <> 1 -> e i = cont c g -> wf_table (shattered e c g i).
Proof.
  intros Hwf Hc Hg Hne Hi j. pose proof (wf_cont_block e i c g Hwf Hc Hg Hi) as Hblk.
  unfold wf_entry, shattered. destruct (decide (blk c j = blk c i)) as [Hj|Hj].
  - unfold broken. destruct (decide (blk 1 j = blk 1 i)) as [H1|H1].
    { left. split; [by apply build_not_cont|by apply build_range]. }
    right. destruct (decide (blk 2 j = blk 2 i)) as [H2|H2].
    + exists 1, g. split_and!; [lia|lia|lia|lia|]. intros k Hk.
      assert (1 < c) by (destruct (decide (c = 1)) as [->|]; [done|lia]).
      rewrite (decide_True (P := blk c k = blk c i)) by (rewrite <- Hj; by apply (blk_mono 1); [lia|]).
      rewrite decide_False by congruence.
      rewrite (decide_True (P := blk 2 k = blk 2 i)) by (rewrite <- H2; by apply (blk_mono 1); [lia|]). done.
    + exists 2, g. split_and!; [lia|lia|lia|lia|]. intros k Hk.
      assert (2 < c) by (destruct (decide (c <= 2)); [|lia]; exfalso; apply H2; apply (blk_mono c); [lia|done]).
      rewrite (decide_True (P := blk c k = blk c i)) by (rewrite <- Hj; by apply (blk_mono 2); [lia|]).
      rewrite (decide_False (P := blk 2 k = blk 2 i)) by congruence.
      rewrite decide_False; [done|]. intros Hk1. apply H2. rewrite <- Hk. by apply (blk_mono 1); [lia|].
  - destruct (Hwf j) as [Hg'|(c' & g' & Hc' & Hg' & Hb)]; [by left|]. right. exists c', g'.
    split_and!; [lia|lia|lia|lia|]. intros k Hk. rewrite decide_False; [by apply Hb|]. intros Hki.
    pose proof (Hb k Hk) as H1. rewrite (Hblk k Hki) in H1. apply cont_inj in H1 as [<- _]; [|done..].
    apply Hj. congruence.
Qed.

Lemma shattered_gpi e c g i j k :
  wf_table e -> 1 <= c <= 3 -> 0 <= g < 16 -> g <> 1 -> e i = cont c g -> 0 <= k < 16 ->
  dgpi (shattered e c g i j) k = dgpi (e j) k.
Proof.
  intros Hwf Hc Hg Hne Hi Hk. unfold shattered, broken. repeat case_decide; try done;
    rewrite (wf_cont_block e i c g Hwf Hc Hg Hi j) by done; rewrite (dgpi_cont c) by lia;
    [by apply dgpi_build|by rewrite dgpi_cont by lia..].
Qed.

(** A block of one GPI becomes a Contiguous block, or an entry a Granules
    descriptor. *)
Definition filled (e : Z -> Z) (c d i j : Z) : Z := if decide (blk c j = blk c i) then d else e j.

Lemma filled_wf e c g i :
  wf_table e -> 1 <= c <= 3 -> 0 <= g < 16 ->
  (forall j c' g', blk c j = blk c i -> 1 <= c' <= 3 -> 0 <= g' < 16 -> e j = cont c' g' -> c' <= c) ->
  wf_table (filled e c (cont c g) i).
Proof.
  intros Hwf Hc Hg Hsmall j. unfold wf_entry, filled. destruct (decide (blk c j = blk c i)) as [Hj|Hj].
  - right. exists c, g. split_and!; [lia|lia|lia|lia|]. intros k Hk. rewrite decide_True by congruence. done.
  - destruct (Hwf j) as [Hg'|(c' & g' & Hc' & Hg' & Hb)]; [by left|]. right. exists c', g'.
    split_and!; [lia|lia|lia|lia|]. intros k Hk. rewrite decide_False; [by apply Hb|]. intros Hki.
    pose proof (Hsmall k c' g' Hki Hc' Hg' (Hb k Hk)). apply Hj. rewrite <- Hki. symmetry.
    by apply (blk_mono c'); [lia|].
Qed.

(** One entry that is a Granules descriptor is changed to another one. *)
Lemma entry_wf e i d :
  wf_table e -> is_cont_desc (e i) = false -> is_cont_desc d = false -> 0 <= d < 2 ^ 64 ->
  wf_table (fun j => if decide (j = i) then d else e j).
Proof.
  intros Hwf Hi Hd Hr j. unfold wf_entry. destruct (decide (j = i)) as [->|Hj]; [by left|].
  destruct (Hwf j) as [Hg'|(c' & g' & Hc' & Hg' & Hb)]; [by left|]. right. exists c', g'.
  split_and!; [lia|lia|lia|lia|]. intros k Hk. destruct (decide (k = i)) as [->|]; [|by apply Hb].
  pose proof (Hb i Hk) as H1. rewrite H1, cont_is_cont in Hi by lia. done.
Qed.

Lemma wf_ext e e' : (forall j, e j = e' j) -> wf_table e -> wf_table e'.
Proof.
  intros He Hwf i. destruct (Hwf i) as [H|(c & g & Hc & Hg & Hb)]; [left; by rewrite <- He|].
  right. exists c, g. split_and!; [lia|lia|lia|lia|]. intros j Hj. rewrite <- He. by apply Hb.
Qed.
End Table.
