(* ===== verification/GptBlocks.v ===== *)
(** * Granule protection tables: breaking up and joining contiguous blocks

    What [shatter_block] and [fuse_block] do to a level 1 table, and what another
    observer of the tables sees at any moment while they run. *)

From stdpp Require Import list_numbers gmap.
From S2P Require Import Prelude GptDefs Gpt GptTable.
#[local] Open Scope cmd_scope.

(** ** Observers *)

(** The memory after the stores among some events. *)
Definition replay (evs : list gpt_event) (m : gmap Z Z) : gmap Z Z :=
  fold_left (fun m e => match e with
                        | Store a v => <[a := v]> m
                        | Memset a v size => fill_bytes a v size m
                        | _ => m
                        end) evs m.

(** Every store is to an address of [F]. *)
Definition touches (F : Z -> Prop) (e : gpt_event) : Prop :=
  match e with
  | Store a _ => F a
  | Memset a _ size => forall word, a - 8 < word < a + size -> F word
  | _ => True
  end.

Definition set_gpt_trace (v : list gpt_event) (s : gpt_state) : gpt_state := {|
  gpt_mem := gpt_mem s; gpt_config := gpt_config s; gpi_config := gpi_config s; gpt_l1_cnt_2mb := gpt_l1_cnt_2mb s;
  gpt_l1_index_mask := gpt_l1_index_mask s; gpt_l1_tbl := gpt_l1_tbl s; gpt_bitlock := gpt_bitlock s;
  gptbr_el3 := gptbr_el3 s; gpccr_el3 := gpccr_el3 s; gpt_trace := v |}.

(** Between [s] and [s'] memory is only changed by stores to [F], and at every
    moment satisfies [J]; [evs] are the events, and no variable changes. *)
Record during_evs (evs : list gpt_event) (J : gmap Z Z -> Prop) (F : Z -> Prop) (s s' : gpt_state) : Prop := {
  du_trace : gpt_trace s' = gpt_trace s ++ evs;
  du_mem : gpt_mem s' = replay evs (gpt_mem s);
  du_inv : forall evs1 evs2, evs = evs1 ++ evs2 -> J (replay evs1 (gpt_mem s));
  du_touch : Forall (touches F) evs;
  du_rest : s' = set_gpt_mem (gpt_mem s') (set_gpt_trace (gpt_trace s') s)
}.

Definition during (J : gmap Z Z -> Prop) (F : Z -> Prop) (s s' : gpt_state) : Prop :=
  exists evs, during_evs evs J F s s'.

Lemma replay_app l1 l2 m : replay (l1 ++ l2) m = replay l2 (replay l1 m).
Proof. apply fold_left_app. Qed.

Section During.
Context (J : gmap Z Z -> Prop) (F : Z -> Prop).
Implicit Types s : gpt_state.

Lemma during_refl s : J (gpt_mem s) -> during_evs [] J F s s.
Proof.
  intros HJ. split; [by rewrite app_nil_r|done| |done|by destruct s].
  intros evs1 evs2 [-> ->]%eq_sym%app_eq_nil. done.
Qed.

Lemma during_app e1 e2 s s' s'' :
  during_evs e1 J F s s' -> during_evs e2 J F s' s'' -> during_evs (e1 ++ e2) J F s s''.
Proof.
  intros [T1 M1 I1 F1 R1] [T2 M2 I2 F2 R2]. split.
  - by rewrite T2, T1, app_assoc.
  - by rewrite replay_app, <- M1.
  - intros l1 l2 Heq. apply app_eq_app in Heq as (l & [[-> ->]|[-> ->]]).
    + by eapply I1.
    + rewrite replay_app, <- M1. by eapply I2.
  - by apply Forall_app.
  - rewrite R2, R1. done.
Qed.

Lemma during_trans s s' s'' : during J F s s' -> during J F s' s'' -> during J F s s''.
Proof. intros [e1 H1] [e2 H2]. exists (e1 ++ e2). by eapply during_app. Qed.

Lemma during_inv evs s s' : during_evs evs J F s s' -> J (gpt_mem s').
Proof. intros [_ -> HI _ _]. apply (HI evs []). by rewrite app_nil_r. Qed.

Lemma during_emit e s : (forall m, replay [e] m = m) -> touches F e -> J (gpt_mem s) ->
  during_evs [e] J F s (add_gpt_event e s).
Proof.
  intros He Ht HJ. split; [done|by rewrite He| |by constructor|by destruct s].
  intros [|e' l1] l2 Heq; [done|]. injection Heq as <- [-> ->]%eq_sym%app_eq_nil. by rewrite He.
Qed.
End During.

(** What is observed may be weakened. *)
Lemma during_mono (J J' : gmap Z Z -> Prop) (F F' : Z -> Prop) evs s s' :
  (forall m, J m -> J' m) -> (forall a, F a -> F' a) -> during_evs evs J F s s' -> during_evs evs J' F' s s'.
Proof.
  intros HJ HF [T M I Fo R]. split; [done|done| | |done].
  - intros l1 l2 Heq. by eapply HJ, I.
  - eapply Forall_impl; [exact Fo|]. intros []; cbn; auto.
Qed.

Definition stored (a v : Z) (s : gpt_state) : gpt_state :=
  add_gpt_event (Store a v) (set_gpt_mem (<[a := v]> (gpt_mem s)) s).

Lemma load_run a v s : gpt_mem s !! a = Some v -> load a s = Done v s.
Proof. intros H. unfold load, bind, gets, id. by rewrite H. Qed.

Lemma store_run a v s : is_Some (gpt_mem s !! a) -> store a v s = Done tt (stored a v s).
Proof. intros [w H]. unfold store, bind. by rewrite (load_run _ _ _ H). Qed.

Lemma during_store (J : gmap Z Z -> Prop) (F : Z -> Prop) a v s :
  F a -> J (gpt_mem s) -> J (<[a := v]> (gpt_mem s)) -> during_evs [Store a v] J F s (stored a v s).
Proof.
  intros Ha H1 H2. split; [done|done| |by constructor|by destruct s].
  intros [|e l1] l2 Heq; [done|]. injection Heq as <- [-> ->]%eq_sym%app_eq_nil. done.
Qed.

(** ** A table in memory *)

Section Table.
Context (A N : Z).

(** The entries, with 0 outside the table. *)
Definition tab (m : gmap Z Z) (j : Z) : Z := if decide (0 <= j < N) then default 0 (m !! elem A j) else 0.

Definition mapped (m : gmap Z Z) : Prop := forall j, 0 <= j < N -> is_Some (m !! elem A j).

(** The table gives every granule the GPI it had in [m0], and no other word of
    memory has changed. *)
Record same_view (m0 m : gmap Z Z) : Prop := {
  sv_out : forall a, (forall j, 0 <= j < N -> a <> elem A j) -> m !! a = m0 !! a;
  sv_mapped : mapped m;
  sv_gpi : forall j k, 0 <= j < N -> 0 <= k < 16 -> dgpi (tab m j) k = dgpi (tab m0 j) k
}.

Lemma elem_inj i j : elem A i = elem A j -> i = j.
Proof. unfold elem. lia. Qed.

Lemma tab_lookup m j : mapped m -> 0 <= j < N -> m !! elem A j = Some (tab m j).
Proof. intros Hm Hj. unfold tab. rewrite decide_True by done. by destruct (Hm j Hj) as [v ->]. Qed.

Lemma tab_store m i d j : 0 <= i < N ->
  tab (<[elem A i := d]> m) j = if decide (j = i) then d else tab m j.
Proof.
  intros Hi. unfold tab. case_decide as Hj; [|by rewrite decide_False by (intros ->; done)].
  case_decide as Hji; [subst; by rewrite lookup_insert_eq|].
  rewrite lookup_insert_ne; [done|]. intros H%elem_inj. by subst.
Qed.

Lemma mapped_store m i d : mapped m -> mapped (<[elem A i := d]> m).
Proof.
  intros Hm j Hj. destruct (decide (i = j)) as [->|Hne]; [by rewrite lookup_insert_eq|].
  rewrite lookup_insert_ne; [by apply Hm|]. intros H%elem_inj. done.
Qed.

Lemma same_view_refl m : mapped m -> same_view m m.
Proof. done. Qed.

Lemma same_view_store m0 m i d :
  same_view m0 m -> 0 <= i < N -> (forall k, 0 <= k < 16 -> dgpi d k = dgpi (tab m0 i) k) ->
  same_view m0 (<[elem A i := d]> m).
Proof.
  intros [Ho Hm Hg] Hi Hd. split.
  - intros a Ha. rewrite lookup_insert_ne by (intros <-; by apply (Ha i)). by apply Ho.
  - by apply mapped_store.
  - intros j k Hj Hk. rewrite tab_store by done. case_decide; [subst; by apply Hd|by apply Hg].
Qed.

(** The addresses of some entries. *)
Definition entries (B : Z -> Prop) (a : Z) : Prop := exists j, a = elem A j /\ 0 <= j < N /\ B j.

Lemma wp_fill_desc m0 B i0 d cnt s :
  0 <= cnt -> 0 <= i0 -> i0 + 2 * cnt <= N -> same_view m0 (gpt_mem s) ->
  (forall j k, i0 <= j < i0 + 2 * cnt -> 0 <= k < 16 -> dgpi d k = dgpi (tab m0 j) k) ->
  (forall j, i0 <= j < i0 + 2 * cnt -> B j) ->
  wpd (fill_desc (elem A i0) d cnt) (fun _ s' =>
    during (same_view m0) (entries B) s s' /\
    forall j, tab (gpt_mem s') j = if decide (i0 <= j < i0 + 2 * cnt) then d else tab (gpt_mem s) j) s.
Proof.
  intros Hc Hi0 HN Hv Hd HB. unfold fill_desc.
  eapply wp_mono; [apply (wp_for_each _ _ (fun l s' => during (same_view m0) (entries B) s s' /\
    forall j, tab (gpt_mem s') j =
      if decide (i0 <= j < i0 + 2 * Z.of_nat (length l)) then d else tab (gpt_mem s) j))| |done].
  - split; [eexists; by apply during_refl|]. intros j. cbn [length]. by rewrite decide_False by lia.
  - intros l x s' [l' Heq] [Hdu Ht]. 
    assert (x = Z.of_nat (length l) /\ Z.of_nat (length l) < cnt) as [-> Hlt].
    { apply seqZ_split in Heq. lia. }
    set (n := Z.of_nat (length l)) in *.
    assert (same_view m0 (gpt_mem s')) as Hv' by (destruct Hdu as [evs Hdu]; by apply (during_inv _ _ _ _ _ Hdu)).
    replace (elem A i0 + 16 * n) with (elem A (i0 + 2 * n)) by (unfold elem; lia).
    replace (elem A (i0 + 2 * n) + 8) with (elem A (i0 + 2 * n + 1)) by (unfold elem; lia).
    assert (forall s1 i, same_view m0 (gpt_mem s1) -> i0 <= i < i0 + 2 * cnt ->
      store (elem A i) d s1 = Done tt (stored (elem A i) d s1) /\
      during (same_view m0) (entries B) s1 (stored (elem A i) d s1) /\ same_view m0 (gpt_mem (stored (elem A i) d s1)))
      as Hst.
    { intros s1 i H1 Hi. pose proof (same_view_store m0 _ i d H1 ltac:(lia) ltac:(intros; by apply Hd)) as H2.
      split; [apply store_run, (sv_mapped _ _ H1); lia|]. split; [|done]. exists [Store (elem A i) d].
      apply during_store; [|done..]. exists i. split_and!; [done|lia|lia|by apply HB]. }
    destruct (Hst s' (i0 + 2 * n) Hv' ltac:(lia)) as (R1 & D1 & V1). wp_step. eapply wp_exact; [exact R1|].
    destruct (Hst _ (i0 + 2 * n + 1) V1 ltac:(lia)) as (R2 & D2 & V2). eapply wp_exact; [exact R2|]. split.
    + eapply during_trans; [exact Hdu|]. by eapply during_trans.
    + intros j. rewrite length_app. cbn [length]. unfold stored. cbn [gpt_mem set_gpt_mem add_gpt_event].
      rewrite !tab_store, Ht by lia. repeat case_decide; try done; lia.
  - intros [] s' [Hdu Ht]. split; [done|]. intros j. rewrite Ht, length_seqZ, Z2Nat.id by done. done.
Qed.
End Table.

(** ** Geometry *)

(** The configuration is one of the architecture, and the variables that depend
    on it have their values. *)
Record geo `{Cfg : GptConfig} (s : gpt_state) : Prop := {
  geo_s : GPT_S_VAL = 30 \/ GPT_S_VAL = 34 \/ GPT_S_VAL = 36 \/ GPT_S_VAL = 39;
  geo_t : gc_t (gpt_config s) = 32 \/ gc_t (gpt_config s) = 36 \/ gc_t (gpt_config s) = 40 \/
          gc_t (gpt_config s) = 42 \/ gc_t (gpt_config s) = 44 \/ gc_t (gpt_config s) = 48 \/ gc_t (gpt_config s) = 52;
  geo_p : gc_p (gpt_config s) = 12 \/ gc_p (gpt_config s) = 14 \/ gc_p (gpt_config s) = 16;
  geo_pgs : gpt_p_lookup.[gc_pgs (gpt_config s)] = Some (gc_p (gpt_config s));
  geo_cnt : gpt_l1_cnt_2mb s = 2 ^ (17 - gc_p (gpt_config s));
  geo_mask : gpt_l1_index_mask s = Z.ones (GPT_S_VAL - gc_p (gpt_config s) - 4)
}.

(** Rounding commutes with taking the low part. *)
Lemma round_mod q a b : 0 < a -> 0 < b -> (q / a * a) mod (a * b) = (q mod (a * b)) / a * a.
Proof.
  intros Ha Hb. rewrite (Z.mul_comm a b), Z.mul_mod_distr_r by lia. rewrite (Z.mul_comm b a). f_equal.
  rewrite Z.rem_mul_r, (Z.mul_comm a), Z.div_add by lia. rewrite (Z.div_small (q mod a)); [lia|].
  by apply Z.mod_pos_bound.
Qed.

Lemma align_round x k : 0 <= k -> Z.land x (Z.lnot (2 ^ k - 1)) = x / 2 ^ k * 2 ^ k.
Proof.
  intros Hk. replace (2 ^ k - 1) with (Z.ones k) by (rewrite Z.ones_equiv; lia).
  rewrite <- Z.ldiff_land, Z.ldiff_ones_r by done. by rewrite Z.shiftl_mul_pow2, Z.shiftr_div_pow2.
Qed.

Section Geometry.
Context `{Cfg : GptConfig} (s : gpt_state) (Hgeo : geo s).
#[local] Abbreviation p := (gc_p (gpt_config s)).
#[local] Abbreviation w := (GPT_S_VAL - gc_p (gpt_config s) - 4).

(** The number of entries of a level 1 table. *)
Definition l1_entries : Z := 2 ^ (GPT_S_VAL - gc_p (gpt_config s) - 4).

(** The first entry and the number of entries of the block of size [c]. *)
Definition bsize (c : Z) : Z := 2 ^ (13 - gc_p (gpt_config s) + 4 * c).
Definition bstart (c i : Z) : Z := blk (gc_p (gpt_config s)) c i * bsize c.

Lemma geo_pow : 12 <= p <= 16 /\ 30 <= GPT_S_VAL <= 39 /\ 10 <= w.
Proof. destruct Hgeo as [H1 _ H2 _ _ _]. lia. Qed.

Lemma l1_index x : GPT_L1_INDEX s x = (x / 2 ^ (p + 4)) mod l1_entries.
Proof.
  pose proof geo_pow. unfold GPT_L1_INDEX, GPT_L1_IDX_SHIFT, l1_entries. rewrite (geo_mask s Hgeo).
  rewrite Z.land_ones, Z.shiftr_div_pow2 by lia. done.
Qed.

Lemma l1_index_range x : 0 <= GPT_L1_INDEX s x < l1_entries.
Proof. rewrite l1_index. apply Z.mod_pos_bound. unfold l1_entries. pose proof geo_pow. lia. Qed.

Lemma bsize_pos c : 1 <= c -> 0 < bsize c.
Proof. intros Hc. unfold bsize. pose proof geo_pow. apply Z.pow_pos_nonneg; lia. Qed.

Lemma entries_blocks c : 1 <= c <= 3 -> exists b, 0 < b /\ l1_entries = bsize c * b.
Proof.
  intros Hc. pose proof geo_pow. exists (2 ^ (w - (13 - p + 4 * c))). unfold l1_entries, bsize. split.
  - apply Z.pow_pos_nonneg; lia.
  - rewrite <- Z.pow_add_r by lia. f_equal. lia.
Qed.

Lemma blk_iff c i j : 1 <= c -> blk p c j = blk p c i <-> bstart c i <= j < bstart c i + bsize c.
Proof.
  intros Hc. pose proof (bsize_pos c Hc) as Hb. unfold bstart, blk. fold (bsize c). split.
  - intros <-. pose proof (Z.mul_div_le j (bsize c) Hb). pose proof (Z.mul_succ_div_gt j (bsize c) Hb). lia.
  - intros Hj. symmetry. apply (Z.div_unique_pos j (bsize c) _ (j - i / bsize c * bsize c)); lia.
Qed.

(** A block lies inside the table. *)
Lemma block_inside c i : 1 <= c <= 3 -> 0 <= i < l1_entries -> 0 <= bstart c i /\ bstart c i + bsize c <= l1_entries.
Proof.
  intros Hc Hi. destruct (entries_blocks c Hc) as (b & Hb & Heq). pose proof (bsize_pos c ltac:(lia)) as Hbs.
  unfold bstart, blk. fold (bsize c). rewrite Heq in *.
  pose proof (Z.div_pos i (bsize c) ltac:(lia) Hbs).
  assert (i / bsize c < b) by (apply Z.div_lt_upper_bound; lia). split; nia.
Qed.

Lemma index_aligned c base k :
  1 <= c <= 3 -> k = 17 + 4 * c ->
  GPT_L1_INDEX s (base / 2 ^ k * 2 ^ k) = bstart c (GPT_L1_INDEX s base).
Proof.
  intros Hc ->. pose proof geo_pow. rewrite !l1_index. unfold bstart, blk. fold (bsize c).
  destruct (entries_blocks c Hc) as (b & Hb & ->). pose proof (bsize_pos c ltac:(lia)).
  replace (2 ^ (17 + 4 * c)) with (2 ^ (p + 4) * bsize c)
    by (unfold bsize; rewrite <- Z.pow_add_r by lia; f_equal; lia).
  assert (0 < 2 ^ (p + 4)) as HP by (apply Z.pow_pos_nonneg; lia). set (P := 2 ^ (p + 4)) in *.
  replace (base / (P * bsize c) * (P * bsize c)) with (base / P / bsize c * bsize c * P)
    by (rewrite Z.div_div by lia; ring).
  rewrite Z.div_mul by lia.
  by apply round_mod.
Qed.

Lemma index_2mb base : GPT_L1_INDEX s (ALIGN_2MB base) = bstart 1 (GPT_L1_INDEX s base).
Proof. unfold ALIGN_2MB. change SZ_2M with (2 ^ 21). rewrite align_round by lia. by apply index_aligned. Qed.
Lemma index_32mb base : GPT_L1_INDEX s (ALIGN_32MB base) = bstart 2 (GPT_L1_INDEX s base).
Proof. unfold ALIGN_32MB. change SZ_32M with (2 ^ 25). rewrite align_round by lia. by apply index_aligned. Qed.
Lemma index_512mb base : GPT_L1_INDEX s (ALIGN_512MB base) = bstart 3 (GPT_L1_INDEX s base).
Proof. unfold ALIGN_512MB. change SZ_512M with (2 ^ 29). rewrite align_round by lia. by apply index_aligned. Qed.

Lemma qwords : 2 * L1_QWORDS_2MB s = bsize 1 /\ 2 * L1_QWORDS_32MB s = bsize 2 /\ 2 * L1_QWORDS_512MB s = bsize 3 /\
  bsize 2 = 16 * bsize 1 /\ bsize 3 = 16 * bsize 2 /\ gpt_l1_cnt_2mb s = bsize 1 /\ 0 <= L1_QWORDS_2MB s.
Proof.
  pose proof geo_pow. unfold L1_QWORDS_512MB, L1_QWORDS_32MB, L1_QWORDS_2MB. rewrite (geo_cnt s Hgeo). unfold bsize.
  destruct (geo_p s Hgeo) as [->|[->| ->]]; vm_compute; split_and!; congruence.
Qed.
End Geometry.

(** What [during] leaves alone. *)
Lemma during_config evs J F s s' :
  during_evs evs J F s s' ->
  gpt_config s' = gpt_config s /\ gpi_config s' = gpi_config s /\ gpt_l1_cnt_2mb s' = gpt_l1_cnt_2mb s /\
  gpt_l1_index_mask s' = gpt_l1_index_mask s /\ gpt_bitlock s' = gpt_bitlock s /\ gpt_l1_tbl s' = gpt_l1_tbl s /\
  gptbr_el3 s' = gptbr_el3 s /\ gpccr_el3 s' = gpccr_el3 s.
Proof. intros [_ _ _ _ ->]. done. Qed.

Lemma during_geo `{GptConfig} evs J F s s' : during_evs evs J F s s' -> geo s -> geo s'.
Proof.
  intros (H1 & _ & H2 & H3 & _)%during_config [G1 G2 G3 G4 G5 G6]. split; rewrite ?H1, ?H2, ?H3; done.
Qed.

(** ** Breaking up a block *)

Section Blocks.
Context `{Cfg : GptConfig} (A : Z) (s0 : gpt_state) (Hgeo : geo s0) (base : Z).
#[local] Abbreviation p := (gc_p (gpt_config s0)).
#[local] Abbreviation N := (l1_entries s0).
#[local] Abbreviation i := (GPT_L1_INDEX s0 base).
#[local] Abbreviation tab := (tab A N).
#[local] Abbreviation m0 := (gpt_mem s0).

(** The entries of the 512MB block of the address. *)
Definition near (j : Z) : Prop := blk p 3 j = blk p 3 i.
#[local] Abbreviation quiet := (during (same_view A N m0) (entries A N near)).

(** A state that is reached from [s0] without a change of any GPI. *)
Definition calm (s : gpt_state) : Prop := quiet s0 s.

Lemma calm_view s : calm s -> same_view A N m0 (gpt_mem s).
Proof. intros [evs H]. by apply (during_inv _ _ _ _ _ H). Qed.

Lemma calm_config s : calm s ->
  gpt_config s = gpt_config s0 /\ gpi_config s = gpi_config s0 /\ gpt_l1_cnt_2mb s = gpt_l1_cnt_2mb s0 /\
  gpt_l1_index_mask s = gpt_l1_index_mask s0.
Proof. intros [evs H]. apply during_config in H. tauto. Qed.

Lemma calm_index s x : calm s -> GPT_L1_INDEX s x = GPT_L1_INDEX s0 x.
Proof. intros (H1 & _ & _ & H2)%calm_config. unfold GPT_L1_INDEX. by rewrite H1, H2. Qed.

Lemma calm_qwords s : calm s -> L1_QWORDS_2MB s = L1_QWORDS_2MB s0.
Proof. intros (_ & _ & H & _)%calm_config. unfold L1_QWORDS_2MB. by rewrite H. Qed.

Lemma blk_sub c j : 1 <= c -> blk p (c + 1) j = blk p c j / 16.
Proof.
  intros Hc. pose proof (geo_pow s0 Hgeo). unfold blk. change 16 with (2 ^ 4).
  rewrite Z.div_div by (apply Z.pow_nonzero || apply Z.pow_pos_nonneg; lia). rewrite <- Z.pow_add_r by lia.
  do 2 f_equal. lia.
Qed.

Lemma i_range : 0 <= i < N.
Proof. by apply l1_index_range. Qed.

(** Entries of the block around [i] are in the table and near. *)
Lemma in_block c j : 1 <= c <= 3 -> blk p c j = blk p c i -> 0 <= j < N /\ near j.
Proof.
  intros Hc Hj. split; [|by apply (blk_mono p (geo_p _ Hgeo) c); [lia|]].
  apply blk_iff in Hj; [|done|lia]. pose proof (block_inside s0 Hgeo c i Hc i_range). lia.
Qed.

(** Filling the sub-block [a] of size [c] of the block around [i] of size [c']. *)
Lemma wp_fill_block c c' a d cnt s :
  1 <= c <= c' -> c' <= 3 -> blk p c' (a * bsize s0 c) = blk p c' i -> 2 * cnt = bsize s0 c -> calm s ->
  (forall j k, blk p c' j = blk p c' i -> 0 <= k < 16 -> dgpi d k = dgpi (tab m0 j) k) ->
  wpd (fill_desc (elem A (a * bsize s0 c)) d cnt) (fun _ s' =>
    quiet s s' /\ forall j, tab (gpt_mem s') j = if decide (blk p c j = a) then d else tab (gpt_mem s) j) s.
Proof.
  intros Hc Hc' Ha Hcnt Hs Hd. pose proof (bsize_pos s0 Hgeo c ltac:(lia)) as Hpos.
  assert (bstart s0 c (a * bsize s0 c) = a * bsize s0 c) as Hst.
  { unfold bstart, blk. fold (bsize s0 c). by rewrite Z.div_mul by lia. }
  assert (forall j, blk p c j = a <-> a * bsize s0 c <= j < a * bsize s0 c + bsize s0 c) as Hiff.
  { intros j. rewrite <- Hst at 1 2. rewrite <- blk_iff by (done || lia). unfold blk. fold (bsize s0 c).
    by rewrite Z.div_mul by lia. }
  assert (forall j, blk p c j = a -> blk p c' j = blk p c' i) as Hin.
  { intros j Hj. rewrite <- Ha. apply (blk_mono p (geo_p _ Hgeo) c); [lia|]. rewrite Hj. unfold blk.
    fold (bsize s0 c). by rewrite Z.div_mul by lia. }
  assert (0 <= a * bsize s0 c < N) as Hlo by (apply (in_block c' (a * bsize s0 c)); [lia|exact Ha]).
  assert (a * bsize s0 c + bsize s0 c <= N) as Hhi.
  { pose proof (block_inside s0 Hgeo c (a * bsize s0 c) ltac:(lia) Hlo). lia. }
  eapply wp_mono; [apply (wp_fill_desc A N m0 near); [lia|lia|lia|by apply calm_view| | ]| |done].
  - intros j k Hj Hk. apply Hd; [|done]. apply Hin, Hiff. lia.
  - intros j Hj. apply (in_block c'); [lia|]. apply Hin, Hiff. lia.
  - intros [] s' [Hdu Ht]. split; [done|]. intros j. rewrite Ht. specialize (Hiff j). repeat case_decide; try done; lia.
Qed.

(** A loop over the sixteen sub-blocks. *)
Lemma wp_sub_blocks c (body : Z -> gpt unit) (f : Z -> Z) s :
  c = 1 \/ c = 2 -> calm s ->
  (forall a s1, blk p (c + 1) (a * bsize s0 c) = blk p (c + 1) i -> calm s1 ->
    wpd (body (elem A (a * bsize s0 c))) (fun _ s2 => quiet s1 s2 /\
      forall j, tab (gpt_mem s2) j = if decide (blk p c j = a) then f j else tab (gpt_mem s1) j) s1) ->
  wpd (fold_each (seqZ 0 16) (elem A (bstart s0 (c + 1) i)) (fun _ l1 => body l1 ;; ret (l1 + 8 * bsize s0 c)))
    (fun _ s' => quiet s s' /\
      forall j, tab (gpt_mem s') j = if decide (blk p (c + 1) j = blk p (c + 1) i) then f j else tab (gpt_mem s) j) s.
Proof.
  intros Hc Hs Hbody. set (b := blk p (c + 1) i).
  assert (bsize s0 (c + 1) = 16 * bsize s0 c) as Hbs.
  { destruct (qwords s0 Hgeo) as (_ & _ & _ & H1 & H2 & _). by destruct Hc as [->| ->]. }
  pose proof (bsize_pos s0 Hgeo c ltac:(lia)) as Hpos.
  eapply wp_mono; [apply (wp_fold_each _ _ (fun l l1 s' => quiet s s' /\
    l1 = elem A ((16 * b + Z.of_nat (length l)) * bsize s0 c) /\
    forall j, tab (gpt_mem s') j =
      if decide (16 * b <= blk p c j < 16 * b + Z.of_nat (length l)) then f j else tab (gpt_mem s) j))| |done].
  - split_and!; [eexists; apply during_refl, calm_view, Hs| |].
    + unfold bstart. fold b. rewrite Hbs. f_equal. cbn [length]. lia.
    + intros j. cbn [length]. by rewrite decide_False by lia.
  - intros l x l1 s' [l' Heq] (Hq & -> & Ht).
    assert (Z.of_nat (length l) < 16) as Hlt.
    { apply seqZ_split in Heq. lia. }
    set (n := Z.of_nat (length l)) in *. wp_step.
    assert (calm s') as Hs' by (by eapply during_trans).
    eapply wp_mono; [apply Hbody; [|exact Hs']| |done].
    + rewrite blk_sub by lia. unfold blk at 1. fold (bsize s0 c). rewrite Z.div_mul by lia.
      fold b. rewrite Z.mul_comm, Z.div_add_l by lia. rewrite Z.div_small by lia. lia.
    + intros [] s2 [Hq2 Ht2]. wp_step. split_and!; [by eapply during_trans| |].
      * rewrite length_app. cbn [length]. unfold elem. replace (Z.of_nat (length l + 1)) with (n + 1) by lia. ring.
      * intros j. rewrite Ht2, Ht, length_app. cbn [length]. repeat case_decide; try done; lia.
  - intros l1 s' (Hq & _ & Ht). split; [done|]. intros j. rewrite Ht, length_seqZ.
    change (Z.of_nat (Z.to_nat 16)) with 16. rewrite blk_sub by lia.
    assert (16 * b <= blk p c j < 16 * b + 16 <-> blk p c j / 16 = b) as Hiff.
    { split; [intros H; symmetry; apply (Z.div_unique_pos _ 16 b (blk p c j - 16 * b)); lia|].
      intros <-. pose proof (Z.div_mod (blk p c j) 16 ltac:(lia)). pose proof (Z.mod_pos_bound (blk p c j) 16). lia. }
    repeat case_decide; try done; tauto.
Qed.

(** Every granule of the block of size [c] has the GPI [g]. *)
Definition uniform (c g : Z) : Prop :=
  forall j k, blk p c j = blk p c i -> 0 <= k < 16 -> dgpi (tab m0 j) k = g.

Section Shatter.
Context (gi : gpi_info_t) (Hgi : gi_l1_addr gi = A) (g : Z) (Hg : 0 <= g < 16) (Hg1 : g <> 1).

Lemma fill_2mb d s : calm s -> (forall k, 0 <= k < 16 -> dgpi d k = g) -> uniform 1 g ->
  wpd (let! s := gets id in fill_desc (elem (gi_l1_addr gi) (GPT_L1_INDEX s (ALIGN_2MB base))) d (L1_QWORDS_2MB s))
    (fun _ s' => quiet s s' /\ forall j, tab (gpt_mem s') j = filled p (tab (gpt_mem s)) 1 d i j) s.
Proof.
  intros Hs Hd Hu. wp_steps. unfold id. rewrite Hgi, (calm_index _ _ Hs), (calm_qwords _ Hs), index_2mb by done.
  destruct (qwords s0 Hgeo) as (Hq & _). unfold bstart.
  eapply wp_mono; [apply (wp_fill_block 1 1); [lia|lia| |done|done|]| |done].
  - unfold blk at 1. fold (bsize s0 1). rewrite Z.div_mul; [done|]. pose proof (bsize_pos s0 Hgeo 1). lia.
  - intros j k Hj Hk. rewrite Hd by done. symmetry. by apply Hu.
  - done.
Qed.

Lemma wp_shatter_2mb s : calm s -> uniform 1 g ->
  wpd (shatter_2mb base gi (GPT_BUILD_L1_DESC g))
    (fun _ s' => quiet s s' /\ forall j, tab (gpt_mem s') j = shattered p (tab (gpt_mem s)) 1 g i j) s.
Proof.
  intros Hs Hu. eapply wp_mono; [apply (fill_2mb (GPT_BUILD_L1_DESC g)); [done| |done]| |done].
  - intros k Hk. by apply dgpi_build.
  - intros [] s' [Hq Ht]. split; [done|]. intros j. rewrite Ht. unfold filled, shattered, broken. by repeat case_decide.
Qed.

Lemma uniform_sub c c' : 1 <= c <= c' -> uniform c' g -> uniform c g.
Proof. intros Hc Hu j k Hj Hk. apply Hu; [|done]. by apply (blk_mono p (geo_p _ Hgeo) c). Qed.

Lemma wp_shatter_32mb s : calm s -> uniform 2 g ->
  wpd (shatter_32mb base gi (GPT_BUILD_L1_DESC g))
    (fun _ s' => quiet s s' /\ forall j, tab (gpt_mem s') j = shattered p (tab (gpt_mem s)) 2 g i j) s.
Proof.
  intros Hs Hu. unfold shatter_32mb. wp_step. wp_step. unfold id.
  rewrite Hgi, !(calm_index _ _ Hs), (calm_qwords _ Hs), index_2mb, index_32mb by done.
  destruct (cont_of_build g Hg) as (-> & _ & _). destruct (qwords s0 Hgeo) as (Hq1 & _ & _ & _ & _ & Hq2 & _).
  replace (L1_BYTES_2MB s) with (8 * bsize s0 1)
    by (unfold L1_BYTES_2MB; destruct (calm_config s Hs) as (_ & _ & -> & _); lia).
  wp_step. pose proof (bsize_pos s0 Hgeo 1 ltac:(lia)) as Hpos.
  eapply wp_mono; [apply (wp_sub_blocks 1 (fun l1 => fill_desc l1
      (if l1 =? elem A (bstart s0 1 i) then GPT_BUILD_L1_DESC g else cont 1 g) (L1_QWORDS_2MB s0))
      (fun j => broken p g i j)); [by left|done|]| |done].
  - intros a s1 Ha Hs1. change (1 + 1) with 2 in Ha. eapply wp_mono; [apply (wp_fill_block 1 2); [lia|lia|exact Ha|done|done|]| |done].
    + intros j k Hj Hk. rewrite (Hu j k Hj Hk). destruct (_ =? _); [by apply dgpi_build|by rewrite dgpi_cont by lia].
    + intros [] s2 [Hq Ht]. split; [done|]. intros j. rewrite Ht. case_decide as Hj; [|done]. unfold broken.
      assert ((elem A (a * bsize s0 1) =? elem A (bstart s0 1 i)) = bool_decide (blk p 1 j = blk p 1 i)) as ->.
      { apply eq_bool_prop_intro. rewrite bool_decide_spec, Is_true_true, Z.eqb_eq, Hj. unfold elem, bstart.
        split; [|intros ->; lia]. intros Heq. apply (Z.mul_reg_r _ _ (bsize s0 1)); lia. }
      destruct (decide (blk p 1 j = blk p 1 i)) as [H1|H1];
        [by rewrite bool_decide_true|rewrite bool_decide_false by done].
      rewrite decide_True; [done|]. rewrite <- Ha. apply (blk_mono p (geo_p _ Hgeo) 1); [lia|]. rewrite Hj.
      unfold blk. fold (bsize s0 1). by rewrite Z.div_mul by lia.
  - intros l1 s' [Hq Ht]. wp_step. split; [done|exact Ht].
Qed.

Lemma wp_shatter_512mb s : calm s -> uniform 3 g ->
  wpd (shatter_512mb base gi (GPT_BUILD_L1_DESC g))
    (fun _ s' => quiet s s' /\ forall j, tab (gpt_mem s') j = shattered p (tab (gpt_mem s)) 3 g i j) s.
Proof.
  intros Hs Hu. unfold shatter_512mb. wp_step. wp_step. unfold id.
  rewrite Hgi, !(calm_index _ _ Hs), index_32mb, index_512mb by done.
  destruct (cont_of_build g Hg) as (_ & -> & _).
  destruct (qwords s0 Hgeo) as (Hq1 & Hq32 & _ & Hb & _ & Hq2 & _).
  replace (L1_BYTES_32MB s) with (8 * bsize s0 2)
    by (unfold L1_BYTES_32MB, L1_BYTES_2MB; destruct (calm_config s Hs) as (_ & _ & -> & _); lia).
  wp_step. pose proof (bsize_pos s0 Hgeo 2 ltac:(lia)) as Hpos.
  eapply wp_mono; [apply (wp_sub_blocks 2 (fun l1 =>
      if l1 =? elem A (bstart s0 2 i) then shatter_32mb base gi (GPT_BUILD_L1_DESC g)
      else fill_desc l1 (cont 2 g) (L1_QWORDS_32MB s)) (fun j => broken p g i j)); [by right|done|]| |done].
  - intros a s1 Ha Hs1. change (2 + 1) with 3 in Ha.
    assert (elem A (a * bsize s0 2) = elem A (bstart s0 2 i) <-> a = blk p 2 i) as Hiff.
    { unfold elem, bstart. split; [|intros ->; lia]. intros Heq. apply (Z.mul_reg_r _ _ (bsize s0 2)); lia. }
    destruct (Z.eqb_spec (elem A (a * bsize s0 2)) (elem A (bstart s0 2 i))) as [Heq|Hne].
    + apply Hiff in Heq as ->. eapply wp_mono; [apply wp_shatter_32mb; [done|by apply (uniform_sub 2 3)]| |done].
      intros [] s2 [Hq Ht]. split; [done|]. intros j. rewrite Ht. unfold shattered. done.
    + eapply wp_mono; [apply (wp_fill_block 2 3); [lia|lia|exact Ha| |done|]| |done].
      * unfold L1_QWORDS_32MB in *. by rewrite (calm_qwords _ Hs).
      * intros j k Hj Hk. rewrite (Hu j k Hj Hk). by rewrite dgpi_cont by lia.
      * intros [] s2 [Hq Ht]. split; [done|]. intros j. rewrite Ht. case_decide as Hj; [|done].
        assert (blk p 2 j <> blk p 2 i) as H2 by (rewrite Hj; tauto). unfold broken.
        rewrite (decide_False (P := blk p 2 j = _)), decide_False; [done| |done].
        intros H1. apply H2. by apply (blk_mono p (geo_p _ Hgeo) 1); [lia|].
  - intros l1 s' [Hq Ht]. wp_step. split; [done|exact Ht].
Qed.

(** Shattering the block that has the granule. *)
Lemma wp_shatter_block c : 1 <= c <= 3 -> mapped A N m0 -> wf_table p (tab m0) -> tab m0 i = cont c g ->
  gi_l1_desc gi = cont c g ->
  wpd (shatter_block base gi (GPT_BUILD_L1_DESC g)) (fun gi' s' =>
    gi' = set_gi_desc (GPT_BUILD_L1_DESC g) gi /\ calm s' /\ wf_table p (tab (gpt_mem s')) /\
    tab (gpt_mem s') i = GPT_BUILD_L1_DESC g) s0.
Proof.
  intros Hc Hm Hwf Hi Hd. unfold shatter_block. rewrite Hd, cont_contig by lia.
  assert (calm s0) as Hs0 by (exists []; by apply during_refl).
  assert (uniform c g) as Hu.
  { intros j k Hj Hk. rewrite (wf_cont_block p _ i c g Hwf Hc Hg Hi j Hj). apply dgpi_cont; lia. }
  assert (u64 (c - 1) = c - 1) as -> by (apply u64_small; lia).
  assert (exists f sz, [shatter_2mb; shatter_32mb; shatter_512mb].[c - 1] = Some f /\
    [SZ_2M; SZ_32M; SZ_512M].[c - 1] = Some sz /\
    wpd (f base gi (GPT_BUILD_L1_DESC g))
      (fun _ s' => quiet s0 s' /\ forall j, tab (gpt_mem s') j = shattered p (tab m0) c g i j) s0)
    as (f & sz & Hf & Hsz & Hrun).
  { assert (c = 1 \/ c = 2 \/ c = 3) as [->|[->| ->]] by lia; eexists _, _; split_and!; try reflexivity;
      [by apply wp_shatter_2mb|by apply wp_shatter_32mb|by apply wp_shatter_512mb]. }
  wp_step. eapply wp_deref; [exact Hf|]. wp_step. eapply wp_mono; [exact Hrun| |done].
  intros [] s' [Hq Ht]. wp_step. eapply wp_deref; [exact Hsz|]. unfold emit_gpt. wp_steps.
  split_and!; [done| | |].
  - eapply during_trans; [exact Hq|]. eexists. apply during_emit; [done|done|by apply calm_view].
  - cbn. eapply wf_ext; [intros j; symmetry; apply Ht|]. by apply shattered_wf; [apply (geo_p _ Hgeo)|..].
  - cbn. rewrite Ht. unfold shattered, broken. by rewrite !decide_True.
Qed.
End Shatter.

(** ** Joining blocks *)

Section Fuse.
Context (gi : gpi_info_t) (Hgi : gi_l1_addr gi = A) (g : Z) (Hg : 0 <= g < 16) (Hg1 : g <> 1).
Context (Hm : mapped A N m0) (Hwf : wf_table p (tab m0)).

(** Only the block of size [c] may differ from the table at the beginning. *)
Definition changed (c : Z) (s : gpt_state) : Prop :=
  calm s /\ forall j, blk p c j <> blk p c i -> tab (gpt_mem s) j = tab m0 j.

(** The block of size [c] can be joined: its parts have the GPI and are no larger
    than the size below. *)
Definition joinable (c : Z) : Prop :=
  forall j, blk p c j = blk p c i ->
    tab m0 j = GPT_BUILD_L1_DESC g \/ exists c', 1 <= c' < c /\ tab m0 j = cont c' g.

Lemma joinable_uniform c : c <= 3 -> joinable c -> uniform c g.
Proof.
  intros Hc Hj j k Hb Hk. destruct (Hj j Hb) as [->|(c' & Hc' & ->)]; [by apply dgpi_build|apply dgpi_cont; lia].
Qed.

Lemma joinable_wf c : 1 <= c <= 3 -> joinable c -> wf_table p (filled p (tab m0) c (cont c g) i).
Proof.
  intros Hc Hj. apply filled_wf; [apply (geo_p _ Hgeo)|done..|]. intros j c' g' Hb Hc' Hg' Heq.
  destruct (Hj j Hb) as [He|(c2 & Hc2 & He)]; rewrite He in Heq.
  - apply (f_equal is_cont_desc) in Heq. rewrite build_not_cont, cont_is_cont in Heq by lia. done.
  - apply cont_inj in Heq as [-> _]; [lia|done..].
Qed.

Lemma wp_join c cnt s :
  1 <= c <= 3 -> 2 * cnt = bsize s0 c -> changed c s -> joinable c ->
  wpd (fill_desc (elem A (bstart s0 c i)) (cont c g) cnt) (fun _ s' => calm s' /\ wf_table p (tab (gpt_mem s'))) s.
Proof.
  intros Hc Hcnt [Hs Hout] Hj. unfold bstart.
  eapply wp_mono; [apply (wp_fill_block c c); [lia|lia| |done|done|]| |done].
  - unfold blk at 1. fold (bsize s0 c). rewrite Z.div_mul; [done|]. pose proof (bsize_pos s0 Hgeo c). lia.
  - intros j k Hb Hk. rewrite dgpi_cont by lia. symmetry. by apply (joinable_uniform c); [lia|..].
  - intros [] s' [Hq Ht]. split; [by eapply during_trans|].
    eapply wf_ext; [|by apply (joinable_wf c)]. intros j. rewrite Ht. unfold filled. case_decide; [done|].
    symmetry. by apply Hout.
Qed.

Lemma wp_fuse_2mb s : changed 1 s -> joinable 1 ->
  wpd (fuse_2mb base gi (GPT_BUILD_L1_DESC g)) (fun _ s' => calm s' /\ wf_table p (tab (gpt_mem s'))) s.
Proof.
  intros Hs Hj. unfold fuse_2mb. wp_step. wp_step. unfold id. destruct (cont_of_build g Hg) as (-> & _ & _).
  rewrite Hgi, (calm_index _ _ (proj1 Hs)), (calm_qwords _ (proj1 Hs)), index_2mb by done.
  apply wp_join; [lia|apply (qwords s0 Hgeo)|done..].
Qed.

Lemma wp_fuse_32mb s : changed 2 s -> joinable 2 ->
  wpd (fuse_32mb base gi (GPT_BUILD_L1_DESC g)) (fun _ s' => calm s' /\ wf_table p (tab (gpt_mem s'))) s.
Proof.
  intros Hs Hj. unfold fuse_32mb. wp_step. wp_step. unfold id. destruct (cont_of_build g Hg) as (_ & -> & _).
  rewrite Hgi, (calm_index _ _ (proj1 Hs)), index_32mb by done. unfold L1_QWORDS_32MB.
  rewrite (calm_qwords _ (proj1 Hs)). apply wp_join; [lia|apply (qwords s0 Hgeo)|done..].
Qed.

Lemma wp_fuse_512mb s : changed 3 s -> joinable 3 ->
  wpd (fuse_512mb base gi (GPT_BUILD_L1_DESC g)) (fun _ s' => calm s' /\ wf_table p (tab (gpt_mem s'))) s.
Proof.
  intros Hs Hj. unfold fuse_512mb. wp_step. wp_step. unfold id. destruct (cont_of_build g Hg) as (_ & _ & ->).
  rewrite Hgi, (calm_index _ _ (proj1 Hs)), index_512mb by done. unfold L1_QWORDS_512MB, L1_QWORDS_32MB.
  rewrite (calm_qwords _ (proj1 Hs)). apply wp_join; [lia|apply (qwords s0 Hgeo)|done..].
Qed.

(** A scan of some entries of the table. *)
Lemma scan_run (f : Z -> Z) d n s :
  mapped A N (gpt_mem s) -> (forall k, 0 <= k < n -> 0 <= f k < N) ->
  all_of (seqZ 0 n) (fun k => let! v := load (elem (gi_l1_addr gi) (f k)) in ret (v =? d)) s =
    Done (forallb (fun k => tab (gpt_mem s) (f k) =? d) (seqZ 0 n)) s.
Proof.
  intros Hms Hf. apply all_of_pure. intros k Hk%elem_of_seqZ. rewrite Hgi. unfold bind.
  by rewrite (load_run _ _ _ (tab_lookup A N _ _ Hms (Hf k ltac:(lia)))).
Qed.

Lemma scan_true (q : Z -> bool) n : forallb q (seqZ 0 n) = true -> forall k, 0 <= k < n -> q k = true.
Proof. intros H k Hk. rewrite forallb_forall in H. apply H, list_elem_of_In, elem_of_seqZ. lia. Qed.

Lemma wp_check_fuse_2mb :
  wpd (check_fuse_2mb base gi (GPT_BUILD_L1_DESC g))
    (fun b s' => s' = s0 /\ (b = true -> joinable 1)) s0.
Proof.
  unfold check_fuse_2mb. wp_step. wp_step. unfold id. rewrite index_2mb by done.
  destruct (qwords s0 Hgeo) as (_ & _ & _ & _ & _ & Hq & _). rewrite Hq.
  pose proof (block_inside s0 Hgeo 1 i ltac:(lia) i_range) as Hin.
  eapply wp_exact; [apply (scan_run (fun k => bstart s0 1 i + bsize s0 1 - 1 - k)); [done|lia]|].
  split; [done|]. intros Hb j Hj. apply blk_iff in Hj; [|done|lia]. left.
  apply (scan_true _ _) with (k := bstart s0 1 i + bsize s0 1 - 1 - j) in Hb; [|lia]. apply Z.eqb_eq in Hb.
  rewrite <- Hb. f_equal. lia.
Qed.

(** The first entry of the block is overwritten, then the first entries of the
    sixteen parts of the next larger block are compared. *)
Lemma wp_check_larger c s :
  c = 1 \/ c = 2 -> changed c s -> joinable c ->
  wpd (store (elem (gi_l1_addr gi) (bstart s0 c i)) (cont c g) ;;
       all_of (seqZ 0 16) (fun k =>
         let! d := load (elem (gi_l1_addr gi) (bstart s0 (c + 1) i + 15 * bsize s0 c - k * bsize s0 c)) in
         ret (d =? cont c g)))
    (fun b s' => changed c s' /\ (b = true -> joinable (c + 1))) s.
Proof.
  intros Hc [Hs Hout] Hj. rewrite Hgi.
  assert (bsize s0 (c + 1) = 16 * bsize s0 c) as Hbs.
  { destruct (qwords s0 Hgeo) as (_ & _ & _ & H1 & H2 & _). by destruct Hc as [->| ->]. }
  pose proof (bsize_pos s0 Hgeo c ltac:(lia)) as Hpos.
  pose proof (block_inside s0 Hgeo (c + 1) i ltac:(lia) i_range) as Hin.
  assert (blk p c (bstart s0 c i) = blk p c i) as Hst.
  { apply blk_iff; [done|lia|]. lia. }
  destruct (in_block c (bstart s0 c i) ltac:(lia) Hst) as [Hr Hnear].
  assert (same_view A N m0 (gpt_mem (stored (elem A (bstart s0 c i)) (cont c g) s))) as Hv.
  { apply same_view_store; [by apply calm_view|done|]. intros k Hk. rewrite dgpi_cont by lia. symmetry.
    by apply (joinable_uniform c); [lia|..]. }
  wp_step. eapply wp_exact; [apply store_run, (sv_mapped _ _ _ _ (calm_view _ Hs)); done|].
  set (s1 := stored _ _ s) in *.
  assert (forall j, tab (gpt_mem s1) j = if decide (j = bstart s0 c i) then cont c g else tab (gpt_mem s) j) as Ht
    by (intros j; by apply tab_store).
  pose proof (scan_run (fun k => bstart s0 (c + 1) i + 15 * bsize s0 c - k * bsize s0 c) (cont c g) 16 s1
    (sv_mapped _ _ _ _ Hv)) as Hscan. rewrite Hgi in Hscan.
  eapply wp_exact; [apply Hscan; nia|]. split; [split|].
  - eapply during_trans; [exact Hs|]. eexists. apply during_store; [|by apply calm_view|exact Hv].
    exists (bstart s0 c i). done.
  - intros j Hne. rewrite Ht, decide_False by (intros ->; done). by apply Hout.
  - intros Hb j Hjb. destruct (decide (blk p c j = blk p c i)) as [Hsame|Hdiff].
    { destruct (Hj j Hsame) as [He|(c' & Hc' & He)]; [by left|]. right. exists c'. split; [lia|done]. }
    right. exists c. split; [lia|].
    assert (0 <= blk p c j - 16 * blk p (c + 1) i < 16) as Hk.
    { rewrite <- Hjb, blk_sub by lia. pose proof (Z.div_mod (blk p c j) 16 ltac:(lia)).
      pose proof (Z.mod_pos_bound (blk p c j) 16). lia. }
    apply (scan_true _ _) with (k := 15 - (blk p c j - 16 * blk p (c + 1) i)) in Hb; [|lia]. apply Z.eqb_eq in Hb.
    replace (_ + _ - _) with (bstart s0 c j) in Hb by (unfold bstart; rewrite Hbs; ring).
    assert (blk p c (bstart s0 c j) = blk p c j) as Hsj by (apply blk_iff; [done|lia|]; lia).
    rewrite Ht, decide_False, Hout in Hb by congruence.
    by apply (wf_cont_block p _ (bstart s0 c j) c g Hwf); [lia|..].
Qed.

Lemma changed_larger s : changed 1 s -> changed 2 s.
Proof.
  intros [Hs Ho]. split; [done|]. intros j Hj. apply Ho. intros H. apply Hj.
  by apply (blk_mono p (geo_p _ Hgeo) 1); [lia|].
Qed.

Lemma wp_check_fuse_32mb : joinable 1 ->
  wpd (check_fuse_32mb base gi (GPT_BUILD_L1_DESC g)) (fun b s' => changed 1 s' /\ (b = true -> joinable 2)) s0.
Proof.
  intros Hj. unfold check_fuse_32mb. wp_step. wp_step. unfold id. rewrite index_2mb, index_32mb by done.
  destruct (cont_of_build g Hg) as (-> & _ & _). destruct (qwords s0 Hgeo) as (_ & _ & _ & _ & _ & -> & _).
  apply (wp_check_larger 1); [by left| |done]. split; [eexists; by apply during_refl|done].
Qed.

Lemma wp_check_fuse_512mb s : changed 1 s -> joinable 2 ->
  wpd (check_fuse_512mb base gi (GPT_BUILD_L1_DESC g)) (fun b s' => changed 2 s' /\ (b = true -> joinable 3)) s.
Proof.
  intros Hs Hj. unfold check_fuse_512mb. wp_step. wp_step. unfold id.
  rewrite !(calm_index _ _ (proj1 Hs)), index_32mb, index_512mb by done.
  destruct (cont_of_build g Hg) as (_ & -> & _). destruct (qwords s0 Hgeo) as (_ & _ & _ & Hb & _ & Hq & _).
  destruct (calm_config s (proj1 Hs)) as (_ & _ & -> & _). rewrite Hq.
  replace (15 * 16 * bsize s0 1) with (15 * bsize s0 2) by lia. rewrite <- Hb.
  apply (wp_check_larger 2); [by right|by apply changed_larger|done].
Qed.

Lemma changed_3 s : changed 2 s -> changed 3 s.
Proof.
  intros [Hs Ho]. split; [done|]. intros j Hj. apply Ho. intros H. apply Hj.
  by apply (blk_mono p (geo_p _ Hgeo) 2); [lia|].
Qed.

Lemma wp_fuse_block :
  wpd (fuse_block base gi (GPT_BUILD_L1_DESC g)) (fun _ s' => calm s' /\ wf_table p (tab (gpt_mem s'))) s0.
Proof.
  assert (calm s0) as Hs0 by (exists []; by apply during_refl).
  unfold fuse_block. wp_step. eapply wp_mono; [apply wp_check_fuse_2mb| |done]. intros f2 s [-> H2].
  destruct f2; cbn [negb]; [|wp_step; done]. specialize (H2 eq_refl).
  destruct (RME_GPT_MAX_BLOCK =? 2); [by apply wp_fuse_2mb|].
  wp_step. eapply wp_mono; [by apply wp_check_fuse_32mb| |done]. intros f32 s1 [Hs1 H32].
  destruct f32; cbn [negb]; [|by apply wp_fuse_2mb]. specialize (H32 eq_refl).
  destruct (RME_GPT_MAX_BLOCK =? 32); [by apply wp_fuse_32mb; [apply changed_larger|]|].
  wp_step. eapply wp_mono; [by apply wp_check_fuse_512mb| |done]. intros f512 s2 [Hs2 H512].
  destruct f512; cbn [negb]; [|by apply wp_fuse_32mb]. apply wp_fuse_512mb; [by apply changed_3|by apply H512].
Qed.
End Fuse.
End Blocks.
