(* ===== verification/GptView.v ===== *)
(** * Granule protection tables: the walk and well-formed tables *)

From stdpp Require Import list_numbers gmap.
From S2P Require Import Prelude GptDefs Gpt GptTable GptBlocks.
#[local] Open Scope cmd_scope.

Section View.
Context `{Cfg : GptConfig}.

(** ** The walk of the architecture

    The GPI of an address, or nothing when the walk faults: the address is
    outside the protected space, or a descriptor is invalid. *)
Definition gpi_at (c : gpt_config_t) (m : gmap Z Z) (pa : Z) : option Z :=
  if decide (0 <= pa < 2 ^ gc_t c) then
    d ← m !! elem (plat_gpt_l0_base c) (pa / 2 ^ GPT_S_VAL);
    if d mod 16 =? 1 then Some ((d / 16) mod 16)
    else if d mod 16 =? 3 then
      e ← m !! elem ((d / 2 ^ 12) mod 2 ^ 40 * 2 ^ 12) ((pa mod 2 ^ GPT_S_VAL) / 2 ^ (gc_p c + 4));
      Some (dgpi e ((pa / 2 ^ gc_p c) mod 16))
    else None
  else None.

(** ** Well-formed tables *)

(** The number of entries of the level 0 table. *)
Definition l0_entries (s : gpt_state) : Z := 2 ^ Z.max 0 (gc_t (gpt_config s) - GPT_S_VAL).

(** The level 0 entry [k] points to the table at [A]. *)
Definition links (s : gpt_state) (m : gmap Z Z) (k A : Z) : Prop :=
  0 <= k < l0_entries s /\ A mod 2 ^ 12 = 0 /\ m !! elem (plat_gpt_l0_base (gpt_config s)) k = Some (A + 3).

Record table_ok (s : gpt_state) (m : gmap Z Z) (A : Z) : Prop := {
  to_range : 0 < A < 2 ^ 52;
  to_align : A mod (8 * l1_entries s) = 0;
  to_mapped : mapped A (l1_entries s) m;
  to_wf : wf_table (gc_p (gpt_config s)) (tab A (l1_entries s) m);
  to_noblk : RME_GPT_MAX_BLOCK = 0 -> forall j, is_cont_desc (tab A (l1_entries s) m j) = false;
  to_apart : forall j k, 0 <= j < l1_entries s -> 0 <= k < l0_entries s ->
             elem A j <> elem (plat_gpt_l0_base (gpt_config s)) k
}.

(** Level 0: block descriptors and tables, each table linked once. *)
Record wf_mem (s : gpt_state) (m : gmap Z Z) : Prop := {
  wm_l0 : forall k, 0 <= k < l0_entries s ->
    (exists g, 0 <= g < 16 /\ m !! elem (plat_gpt_l0_base (gpt_config s)) k = Some (1 + 16 * g)) \/
    (exists A, links s m k A /\ table_ok s m A);
  wm_inj : forall k k' A, links s m k A -> links s m k' A -> k = k'
}.

Record wf_gpt (s : gpt_state) : Prop := {
  wg_geo : geo s;
  wg_base : 0 < plat_gpt_l0_base (gpt_config s);
  wg_mem : wf_mem s (gpt_mem s)
}.

Section Memory.
Context (s : gpt_state) (Hgeo : geo s).
#[local] Abbreviation c := (gpt_config s).
#[local] Abbreviation p := (gc_p (gpt_config s)).
#[local] Abbreviation N := (l1_entries s).

Lemma n_pos : 2 ^ 10 <= N.
Proof. unfold l1_entries. pose proof (geo_pow s Hgeo). apply Z.pow_le_mono_r; lia. Qed.

(** Two tables aligned to their size have no entry in common. *)
Lemma tables_apart A A' j j' :
  A mod (8 * N) = 0 -> A' mod (8 * N) = 0 -> 0 <= j < N -> 0 <= j' < N -> elem A j = elem A' j' -> A = A'.
Proof.
  pose proof n_pos. intros HA HA' Hj Hj' Heq. unfold elem in Heq.
  apply Z.mod_divide in HA as [a ->]; [|lia]. apply Z.mod_divide in HA' as [a' ->]; [|lia].
  destruct (Z.div_mod_unique N a a' j j') as [-> _]; [lia..|done].
Qed.

Lemma links_ok m k A : wf_mem s m -> links s m k A -> table_ok s m A.
Proof.
  intros Hwf (Hk & HA & Hd). destruct (wm_l0 _ _ Hwf k Hk) as [(g & Hg & H)|(A' & (_ & _ & H) & Ht)];
    rewrite Hd in H; injection H as H; [|by replace A with A' by lia].
  exfalso. apply Z.mod_divide in HA as [q ->]; [|lia]. lia.
Qed.

Lemma links_tables m k k' A A' j j' :
  wf_mem s m -> links s m k A -> links s m k' A' -> k <> k' -> 0 <= j < N -> 0 <= j' < N -> elem A j <> elem A' j'.
Proof.
  intros Hwf H1 H2 Hne Hj Hj' Heq. apply Hne, (wm_inj _ _ Hwf k k' A); [done|].
  pose proof (links_ok _ _ _ Hwf H1) as T1. pose proof (links_ok _ _ _ Hwf H2) as T2.
  by rewrite (tables_apart A A' j j' (to_align _ _ _ T1) (to_align _ _ _ T2) Hj Hj' Heq).
Qed.

(** ** Addresses *)

Lemma index_walk pa : (pa mod 2 ^ GPT_S_VAL) / 2 ^ (p + 4) = GPT_L1_INDEX s pa.
Proof.
  rewrite l1_index by done. pose proof (geo_pow s Hgeo). unfold l1_entries.
  replace (2 ^ GPT_S_VAL) with (2 ^ (p + 4) * 2 ^ (GPT_S_VAL - p - 4))
    by (rewrite <- Z.pow_add_r by lia; f_equal; lia).
  assert (0 < 2 ^ (p + 4)) by (apply Z.pow_pos_nonneg; lia).
  assert (0 < 2 ^ (GPT_S_VAL - p - 4)) by (apply Z.pow_pos_nonneg; lia).
  rewrite Z.rem_mul_r, (Z.mul_comm (2 ^ (p + 4))), Z.div_add by lia.
  rewrite (Z.div_small (pa mod 2 ^ (p + 4))) by (by apply Z.mod_pos_bound). lia.
Qed.

(** A granule is its region, its entry in the table and its place there. *)
Lemma same_granule pa base :
  pa / 2 ^ p = base / 2 ^ p <->
  pa / 2 ^ GPT_S_VAL = base / 2 ^ GPT_S_VAL /\ GPT_L1_INDEX s pa = GPT_L1_INDEX s base /\
  (pa / 2 ^ p) mod 16 = (base / 2 ^ p) mod 16.
Proof.
  pose proof (geo_pow s Hgeo) as Hpow. rewrite !l1_index by done. pose proof n_pos as HN.
  assert (forall x, x / 2 ^ (p + 4) = x / 2 ^ p / 16) as H1.
  { intros x. change 16 with (2 ^ 4). rewrite Z.div_div, <- Z.pow_add_r by (apply Z.pow_nonzero || lia; lia). done. }
  assert (forall x, x / 2 ^ GPT_S_VAL = x / 2 ^ p / 16 / N) as H2.
  { intros x. unfold l1_entries. change 16 with (2 ^ 4).
    rewrite !Z.div_div, <- !Z.pow_add_r by (try apply Z.pow_nonzero; try apply Z.pow_pos_nonneg; lia).
    do 2 f_equal. lia. }
  rewrite !H1, !H2. set (q := pa / 2 ^ p). set (r := base / 2 ^ p). split; [by intros ->|].
  intros (Ha & Hb & Hc). rewrite (Z.div_mod q 16), (Z.div_mod r 16) by lia. rewrite Hc. do 2 f_equal.
  rewrite (Z.div_mod (q / 16) N), (Z.div_mod (r / 16) N) by lia. by rewrite Ha, Hb.
Qed.

Lemma l0_index pa : 0 <= pa < 2 ^ gc_t c -> 0 <= pa / 2 ^ GPT_S_VAL < l0_entries s.
Proof.
  intros Hpa. pose proof (geo_pow s Hgeo). assert (0 < 2 ^ GPT_S_VAL) by (apply Z.pow_pos_nonneg; lia).
  split; [apply Z.div_pos; lia|]. apply Z.div_lt_upper_bound; [lia|]. unfold l0_entries.
  rewrite <- Z.pow_add_r by lia. eapply Z.lt_le_trans; [apply Hpa|]. apply Z.pow_le_mono_r; lia.
Qed.

(** ** The walk through well-formed tables *)

Lemma link_desc A : 0 < A < 2 ^ 52 -> A mod 2 ^ 12 = 0 ->
  (A + 3) mod 16 = 3 /\ ((A + 3) / 2 ^ 12) mod 2 ^ 40 * 2 ^ 12 = A.
Proof.
  intros HA Hal. apply Z.mod_divide in Hal as [q ->]; [|lia]. change (2 ^ 12) with 4096 in *.
  change (2 ^ 40) with 1099511627776. change (2 ^ 52) with 4503599627370496 in HA. split.
  - replace (q * 4096 + 3) with (3 + q * 256 * 16) by ring. by rewrite Z.mod_add.
  - rewrite Z.div_add_l by lia. rewrite (Z.div_small 3), Z.add_0_r, Z.mod_small by lia. done.
Qed.

Lemma walk_l1 m pa A :
  wf_mem s m -> 0 <= pa < 2 ^ gc_t c -> links s m (pa / 2 ^ GPT_S_VAL) A ->
  gpi_at c m pa = Some (dgpi (tab A N m (GPT_L1_INDEX s pa)) ((pa / 2 ^ p) mod 16)).
Proof.
  intros Hwf Hpa Hl. pose proof (links_ok _ _ _ Hwf Hl) as Ht. destruct Hl as (_ & Hal & Hd).
  unfold gpi_at. rewrite decide_True by done. rewrite Hd. cbn [mbind option_bind].
  destruct (link_desc A (to_range _ _ _ Ht) Hal) as [-> ->]. cbn [Z.eqb Pos.eqb].
  rewrite index_walk. rewrite (tab_lookup A N m) by (apply Ht || by apply l1_index_range). done.
Qed.

Lemma walk_block m pa g :
  0 <= pa < 2 ^ gc_t c -> 0 <= g < 16 ->
  m !! elem (plat_gpt_l0_base c) (pa / 2 ^ GPT_S_VAL) = Some (1 + 16 * g) -> gpi_at c m pa = Some g.
Proof.
  intros Hpa Hg Hd. unfold gpi_at. rewrite decide_True by done. rewrite Hd. cbn [mbind option_bind].
  replace (1 + 16 * g) with (1 + g * 16) by lia. rewrite Z.mod_add by lia. change (1 mod 16 =? 1) with true.
  cbn match. rewrite Z.div_add by lia. change (1 / 16) with 0. by rewrite Z.mod_small.
Qed.

(** Every address of the protected space has a GPI. *)
Lemma walk_some m pa : wf_mem s m -> 0 <= pa < 2 ^ gc_t c -> exists g, gpi_at c m pa = Some g /\ 0 <= g < 16.
Proof.
  intros Hwf Hpa. destruct (wm_l0 _ _ Hwf _ (l0_index pa Hpa)) as [(g & Hg & Hd)|(A & Hl & Ht)].
  - exists g. by rewrite (walk_block m pa g).
  - rewrite (walk_l1 m pa A) by done. eexists. split; [done|apply dgpi_range].
Qed.

(** ** Changing one granule *)

(** The table at [A] is that of [m0] with the GPI [x] for place [k] of entry [i],
    and no other word of memory is changed. *)
Record view_at (A i k x : Z) (m0 m : gmap Z Z) : Prop := {
  va_out : forall a, (forall j, 0 <= j < N -> a <> elem A j) -> m !! a = m0 !! a;
  va_mapped : mapped A N m;
  va_gpi : forall j k', 0 <= j < N -> 0 <= k' < 16 ->
    dgpi (tab A N m j) k' = if decide (j = i /\ k' = k) then x else dgpi (tab A N m0 j) k'
}.

Lemma view_same A i k x m0 m m' : view_at A i k x m0 m -> same_view A N m m' -> view_at A i k x m0 m'.
Proof.
  intros [O1 M1 G1] [O2 M2 G2]. split; [|done|].
  - intros a Ha. by rewrite O2, O1.
  - intros j k' Hj Hk. by rewrite G2, G1.
Qed.

Lemma same_view_at A i k m0 m :
  same_view A N m0 m -> view_at A i k (dgpi (tab A N m0 i) k) m0 m.
Proof.
  intros [O M G]. split; [done|done|]. intros j k' Hj Hk. rewrite G by done.
  case_decide as H; [by destruct H as [-> ->]|done].
Qed.

Lemma view_walk A base x m0 m :
  wf_mem s m0 -> 0 <= base < 2 ^ gc_t c -> links s m0 (base / 2 ^ GPT_S_VAL) A ->
  view_at A (GPT_L1_INDEX s base) ((base / 2 ^ p) mod 16) x m0 m ->
  forall pa, gpi_at c m pa = if decide (pa / 2 ^ p = base / 2 ^ p) then Some x else gpi_at c m0 pa.
Proof.
  intros Hwf Hbase Hl [Ho Hm Hg] pa. pose proof (links_ok _ _ _ Hwf Hl) as Ht.
  assert (forall k, 0 <= k < l0_entries s ->
    m !! elem (plat_gpt_l0_base c) k = m0 !! elem (plat_gpt_l0_base c) k) as H0.
  { intros k Hk. apply Ho. intros j Hj Heq. by apply (to_apart _ _ _ Ht j k). }
  destruct (decide (0 <= pa < 2 ^ gc_t c)) as [Hpa|Hpa].
  2: { assert (gpi_at c m pa = None /\ gpi_at c m0 pa = None) as [-> ->]
         by (unfold gpi_at; rewrite !decide_False by done; done).
       rewrite decide_False; [done|]. intros Heq. apply Hpa. pose proof (geo_pow s Hgeo).
       assert (0 < 2 ^ p) as HP by (apply Z.pow_pos_nonneg; lia).
       assert (2 ^ gc_t c = 2 ^ (gc_t c - p) * 2 ^ p) as HT
         by (rewrite <- Z.pow_add_r by (destruct (geo_t _ Hgeo); lia); f_equal; lia).
       pose proof (Z.div_mod pa (2 ^ p) ltac:(lia)). pose proof (Z.mod_pos_bound pa (2 ^ p) HP).
       pose proof (Z.div_pos base (2 ^ p) ltac:(lia) HP).
       assert (base / 2 ^ p < 2 ^ (gc_t c - p)) by (apply Z.div_lt_upper_bound; lia). nia. }
  pose proof (l0_index pa Hpa) as Hk.
  destruct (decide (pa / 2 ^ GPT_S_VAL = base / 2 ^ GPT_S_VAL)) as [Hsame|Hdiff].
  - rewrite <- Hsame in Hl. rewrite (walk_l1 m0 pa A) by done.
    assert (gpi_at c m pa = Some (dgpi (tab A N m (GPT_L1_INDEX s pa)) ((pa / 2 ^ p) mod 16))) as ->.
    { destruct Hl as (_ & Hal & Hd). unfold gpi_at. rewrite decide_True by done. rewrite H0, Hd by done.
      cbn [mbind option_bind]. destruct (link_desc A (to_range _ _ _ Ht) Hal) as [-> ->]. cbn [Z.eqb Pos.eqb].
      rewrite index_walk. rewrite (tab_lookup A N m) by (done || by apply l1_index_range). done. }
    rewrite Hg by (first [by apply l1_index_range | by apply Z.mod_pos_bound]).
    pose proof (same_granule pa base) as Hiff. repeat case_decide; try done; tauto.
  - rewrite decide_False by (intros [? _]%same_granule; done).
    destruct (wm_l0 _ _ Hwf _ Hk) as [(g & Hg' & Hd)|(A' & Hl' & Ht')].
    + rewrite (walk_block m0 pa g), (walk_block m pa g) by (rewrite ?H0; done). done.
    + rewrite (walk_l1 m0 pa A') by done. destruct Hl' as (H1 & Hal & Hd).
      unfold gpi_at. rewrite decide_True by done. rewrite H0, Hd by done.
      cbn [mbind option_bind]. destruct (link_desc A' (to_range _ _ _ Ht') Hal) as [-> ->]. cbn [Z.eqb Pos.eqb].
      rewrite index_walk, Ho.
      * rewrite (tab_lookup A' N m0) by (apply Ht' || by apply l1_index_range). done.
      * intros j Hj. by apply (links_tables m0 (pa / 2 ^ GPT_S_VAL) (base / 2 ^ GPT_S_VAL));
          [..|by apply l1_index_range|].
Qed.

(** Changes inside one table keep the others and level 0 as they are. *)
Lemma table_wf A k m0 m :
  wf_mem s m0 -> links s m0 k A ->
  (forall a, (forall j, 0 <= j < N -> a <> elem A j) -> m !! a = m0 !! a) -> mapped A N m ->
  wf_table p (tab A N m) -> (RME_GPT_MAX_BLOCK = 0 -> forall j, is_cont_desc (tab A N m j) = false) ->
  wf_mem s m.
Proof.
  intros Hwf Hl Ho Hm Hw Hn. pose proof (links_ok _ _ _ Hwf Hl) as Ht.
  assert (forall k, 0 <= k < l0_entries s ->
    m !! elem (plat_gpt_l0_base c) k = m0 !! elem (plat_gpt_l0_base c) k) as H0.
  { intros k1 Hk. apply Ho. intros j Hj Heq. by apply (to_apart _ _ _ Ht j k1). }
  assert (forall k A, links s m k A <-> links s m0 k A) as Hlinks.
  { intros k1 A1. unfold links. split; intros (H1 & H2 & H3); (split_and!; [lia|lia|done|]);
      [by rewrite <- H0|by rewrite H0]. }
  split.
  - intros k1 Hk. destruct (wm_l0 _ _ Hwf k1 Hk) as [(g & Hg & Hd)|(A1 & Hl1 & Ht1)].
    { left. exists g. by rewrite H0. }
    right. exists A1. split; [by apply Hlinks|]. destruct (decide (k1 = k)) as [->|Hne].
    + assert (A1 = A) as ->. { destruct Hl as (_ & _ & H1), Hl1 as (_ & _ & H2). rewrite H1 in H2. injection H2. lia. }
      destruct Ht as [R1 R2 R3 R4 R5 R6]. by split.
    + assert (forall j, 0 <= j < N -> m !! elem A1 j = m0 !! elem A1 j) as H1.
      { intros j Hj. apply Ho. intros j' Hj'. by apply (links_tables m0 k1 k). }
      assert (forall j, tab A1 N m j = tab A1 N m0 j) as H2.
      { intros j. unfold tab. case_decide; [by rewrite H1|done]. }
      destruct Ht1 as [R1 R2 R3 R4 R5 R6]. split; [done|done| | | |done].
      * intros j Hj. rewrite H1 by done. by apply R3.
      * eapply wf_ext; [intros j; symmetry; apply H2|done].
      * intros Hz j. rewrite H2. by apply R5.
  - intros k1 k2 A1 H1%Hlinks H2%Hlinks. by apply (wm_inj _ _ Hwf k1 k2 A1).
Qed.
End Memory.

(** Whether memory is well formed depends on the configuration only. *)
Lemma wf_mem_config s s' m : gpt_config s' = gpt_config s -> wf_mem s m -> wf_mem s' m.
Proof.
  intros H1 [W1 W2]. split; unfold links, l0_entries in *; rewrite H1; [|exact W2].
  intros k Hk. destruct (W1 k Hk) as [Hblk|(A' & HA & [R1 R2 R3 R4 R5 R6])]; [by left|]. right. exists A'.
  split; [done|]. split; unfold l1_entries, l0_entries in *; rewrite ?H1; done.
Qed.
End View.
