(* ===== verification/GptPolicy.v ===== *)
(** * Granule protection tables: which transitions are permitted *)

From stdpp Require Import list_numbers gmap.
From S2P Require Import Prelude GptDefs Gpt GptTable.
#[local] Open Scope cmd_scope.

Section Policy.
Context `{Cfg : GptConfig}.

(** ** The policy

    The secure world exchanges non-secure and secure granules, the realm world
    non-secure and realm granules. Once [gpt_enable] has run in an image
    ([en]), the non-secure world may change between the non-secure kinds the
    CPU has. *)
Definition non_secure_kind (g : Z) : bool := (g =? GPT_GPI_NS) || (g =? GPT_GPI_NSO).
Definition device_kind (g : Z) : bool := (g =? GPT_GPI_NSP) || (g =? GPT_GPI_SA).

Definition allowed (en : bool) (src cur tgt : Z) : bool :=
  if src =? SMC_FROM_SECURE then
    ((cur =? GPT_GPI_SECURE) && (tgt =? GPT_GPI_NS)) || ((cur =? GPT_GPI_NS) && (tgt =? GPT_GPI_SECURE))
  else if src =? SMC_FROM_REALM then
    ((cur =? GPT_GPI_REALM) && (tgt =? GPT_GPI_NS)) || ((cur =? GPT_GPI_NS) && (tgt =? GPT_GPI_REALM))
  else if src =? SMC_FROM_NON_SECURE then
    en &&
    ((is_feat_rme_gdi_supported &&
      ((non_secure_kind cur && device_kind tgt) || (device_kind cur && non_secure_kind tgt))) ||
     (is_feat_rme_gpc2_supported &&
      (((cur =? GPT_GPI_NS) && (tgt =? GPT_GPI_NSO)) || ((cur =? GPT_GPI_NSO) && (tgt =? GPT_GPI_NS)))))
  else false.

(** A bit set of GPIs. *)
Definition gpi_bits (f : Z -> bool) : Z :=
  fold_right (fun g acc => if f g then Z.lor (Z.shiftl 1 g) acc else acc) 0 gpis.

(** The table [gpi_config] that implements it. *)
Definition gpi_table (en : bool) : list gpi_lookup_t :=
  zip_with (fun (g : Z) (l : gpi_lookup_t) =>
    {| gl_desc := gl_desc l; gl_nse := gl_nse l; gl_nse2 := gl_nse2 l;
       gl_policy := [gpi_bits (allowed en SMC_FROM_SECURE g); gpi_bits (allowed en SMC_FROM_NON_SECURE g);
                     gpi_bits (allowed en SMC_FROM_REALM g)] |}) gpis gpi_config_init.

Lemma gpi_table_init : gpi_table false = gpi_config_init.
Proof. reflexivity. Qed.

(** [gpt_enable] grants the policies of the features the CPU has, and does so
    once: at the next warm boot it changes nothing. *)
Lemma enable_policies en s :
  plat_gpt_l0_base (gpt_config s) <> 0 -> gpi_config s = gpi_table en ->
  wpd gpt_enable (fun rc s' => rc = 0 /\ gpi_config s' = gpi_table true /\ gpt_mem s' = gpt_mem s /\
    gpt_config s' = gpt_config s /\ gpt_l1_cnt_2mb s' = gpt_l1_cnt_2mb s /\
    gpt_l1_index_mask s' = gpt_l1_index_mask s) s.
Proof.
  intros Hb Hg. destruct s as [m cfg g n1 mask tbl lk br ccr tr]. cbn in *. subst g.
  unfold gpt_enable, wp, bind, gets, id. cbn [gpt_config plat_gpt_l0_base].
  rewrite (proj2 (Z.eqb_neq _ _) Hb). cbn match.
  unfold gpi_table, allowed.
  destruct en, is_feat_rme_gdi_supported, is_feat_rme_gpc2_supported; vm_compute; split_and!; reflexivity.
Qed.

(** What the table permits. *)
Definition permits (l : list gpi_lookup_t) (src cur tgt : Z) : option bool :=
  g ← l.[cur];
  v ← (gl_policy g).[if src =? SMC_FROM_REALM then 2 else src];
  Some (negb (Z.land (Z.shiftr v tgt) 1 =? 0)).

Lemma permits_allowed en src cur tgt :
  src = SMC_FROM_SECURE \/ src = SMC_FROM_NON_SECURE \/ src = SMC_FROM_REALM ->
  0 <= cur < 16 -> 0 <= tgt < 16 ->
  permits (gpi_table en) src cur tgt = Some (allowed en src cur tgt).
Proof.
  intros Hsrc Hcur Htgt.
  assert (bool_decide (permits (gpi_table en) src cur tgt = Some (allowed en src cur tgt)) = true) as H;
    [|by apply bool_decide_eq_true in H].
  revert tgt Htgt. apply all_gpis. revert cur Hcur. apply all_gpis. unfold gpi_table, allowed.
  destruct Hsrc as [->|[->| ->]]; destruct en, is_feat_rme_gdi_supported, is_feat_rme_gpc2_supported;
    vm_compute; reflexivity.
Qed.

Lemma permitted_run en src cur tgt s :
  src = SMC_FROM_SECURE \/ src = SMC_FROM_NON_SECURE \/ src = SMC_FROM_REALM ->
  0 <= cur < 16 -> 0 <= tgt < 16 -> gpi_config s = gpi_table en ->
  is_gpi_transition_permitted src cur tgt s = Done (allowed en src cur tgt) s.
Proof.
  intros Hsrc Hcur Htgt Hs. pose proof (permits_allowed en src cur tgt Hsrc Hcur Htgt) as H. unfold permits in H.
  unfold is_gpi_transition_permitted, assert_, bind, gets, id, ret, deref.
  replace ((if src =? SMC_FROM_REALM then 2 else src) <=? 2) with true
    by (destruct Hsrc as [->|[->| ->]]; done).
  rewrite (proj2 (Z.leb_le cur GPT_GPI_ANY)) by (unfold GPT_GPI_ANY; lia). cbn [negb andb].
  rewrite Hs. revert H. destruct ((gpi_table en).[cur]) as [g|]; [|done]. cbn [mbind option_bind ret].
  destruct ((gl_policy g).[_]) as [v|]; [|done]. cbn [mbind option_bind]. intros [= <-]. reflexivity.
Qed.

(** ** The kinds of granule that move *)

Definition movable (g : Z) : bool :=
  (g =? GPT_GPI_SA) || (g =? GPT_GPI_NSP) || (g =? GPT_GPI_SECURE) || (g =? GPT_GPI_NS) || (g =? GPT_GPI_REALM) ||
  (g =? GPT_GPI_NSO).

Lemma allowed_movable en src cur tgt : allowed en src cur tgt = true -> movable cur = true /\ movable tgt = true.
Proof.
  unfold allowed, movable, non_secure_kind, device_kind. intros H.
  repeat match goal with
         | H : context [if ?x =? ?y then _ else _] |- _ => destruct (x =? y)
         | H : _ || _ = true |- _ => apply orb_true_iff in H as [H|H]
         | H : _ && _ = true |- _ => apply andb_true_iff in H as [? ?]
         end; try done; rewrite !orb_true_iff; tauto.
Qed.

(** The address bits that select the address space of a GPI. *)
Definition nse_of (g : Z) : Z :=
  if non_secure_kind g then 2 ^ 63
  else if g =? GPT_GPI_REALM then 2 ^ 63 + 2 ^ 62
  else if g =? GPT_GPI_SA then 2 ^ 61
  else if g =? GPT_GPI_NSP then 2 ^ 63 + 2 ^ 61
  else 0.

Lemma movable_desc en s g : gpi_config s = gpi_table en -> movable g = true ->
  0 <= g < 16 /\ g <> 1 /\ g <> GPT_GPI_NO_ACCESS /\ GPI_TO_DESC g s = Done (GPT_BUILD_L1_DESC g) s /\
  GPI_TO_NSE g s = Done (nse_of g) s.
Proof.
  intros Hs Hg. unfold movable in Hg. rewrite !orb_true_iff, !Z.eqb_eq in Hg.
  assert (0 <= g < 16 /\ g <> 1 /\ g <> GPT_GPI_NO_ACCESS) as (H1 & H2 & H3).
  { unfold GPT_GPI_SA, GPT_GPI_NSP, GPT_GPI_SECURE, GPT_GPI_NS, GPT_GPI_REALM, GPT_GPI_NSO in Hg.
    unfold GPT_GPI_NO_ACCESS. lia. }
  split_and!; [lia|lia|done|done| |].
  - unfold GPI_TO_DESC, bind, gets, id. rewrite Hs.
    destruct Hg as [[[[[->| ->]| ->]| ->]| ->]| ->]; reflexivity.
  - unfold GPI_TO_NSE, bind, gets, id. rewrite Hs.
    destruct Hg as [[[[[->| ->]| ->]| ->]| ->]| ->]; reflexivity.
Qed.
End Policy.
