(* ===== verification/GptTransition.v ===== *)
(** * Granule protection tables: the transition of a granule *)

From stdpp Require Import list_numbers gmap.
From S2P Require Import Prelude GptDefs Gpt GptTable GptBlocks GptView GptPolicy.
#[local] Open Scope cmd_scope.

Section Transition.
Context `{Cfg : GptConfig} (s0 : gpt_state) (Hwf : wf_gpt s0) (base : Z).
#[local] Abbreviation c := (gpt_config s0).
#[local] Abbreviation p := (gc_p (gpt_config s0)).
#[local] Abbreviation N := (l1_entries s0).
#[local] Abbreviation m0 := (gpt_mem s0).
#[local] Abbreviation i := (GPT_L1_INDEX s0 base).
#[local] Abbreviation k := ((base / 2 ^ gc_p (gpt_config s0)) mod 16).

(** ** The steps around the store *)

Section Core.
Context (A : Z) (Hl : links s0 m0 (base / 2 ^ GPT_S_VAL) A) (Hal : base mod 2 ^ p = 0).
#[local] Abbreviation tab := (tab A N).

Let Hgeo : geo s0 := wg_geo _ Hwf.

Lemma k_range : 0 <= k < 16.
Proof. by apply Z.mod_pos_bound. Qed.

Lemma a_table : table_ok s0 m0 A.
Proof. by apply (links_ok s0 m0 (base / 2 ^ GPT_S_VAL)); [apply Hwf|]. Qed.

(** A state with the same variables in which the granule has the GPI [x]. *)
Record holds (x : Z) (s : gpt_state) : Prop := {
  ho_view : view_at s0 A i k x m0 (gpt_mem s);
  ho_rest : s = set_gpt_mem (gpt_mem s) (set_gpt_trace (gpt_trace s) s0)
}.

(** ... and a Granules descriptor in its entry. *)
Record settled (x d : Z) (s : gpt_state) : Prop := {
  se_holds : holds x s;
  se_desc : tab (gpt_mem s) i = d;
  se_gran : is_cont_desc d = false /\ 0 <= d < 2 ^ 64;
  se_wf : wf_table p (tab (gpt_mem s));
  se_noblk : RME_GPT_MAX_BLOCK = 0 -> forall j, is_cont_desc (tab (gpt_mem s) j) = false
}.

Lemma holds_config x s : holds x s ->
  gpt_config s = gpt_config s0 /\ gpi_config s = gpi_config s0 /\ gpt_l1_cnt_2mb s = gpt_l1_cnt_2mb s0 /\
  gpt_l1_index_mask s = gpt_l1_index_mask s0.
Proof. intros [_ ->]. done. Qed.

Lemma holds_geo x s : holds x s -> geo s.
Proof. intros (H1 & _ & H2 & H3)%holds_config. destruct Hgeo. split; rewrite ?H1, ?H2, ?H3; done. Qed.

(** The entry of the granule is the whole of what a step may change. *)
Definition place (a : Z) : Prop := entries A N (near s0 base) a.

(** The moments of a transition. *)
Definition sees (xs : list Z) (m : gmap Z Z) : Prop := exists x, x ∈ xs /\ view_at s0 A i k x m0 m.

Lemma i_in : 0 <= i < N.
Proof. by apply l1_index_range. Qed.

(** The new descriptor is stored in the entry. *)
Lemma store_settles x d y s :
  settled x d s -> 0 <= y < 16 -> y <> 1 ->
  settled y (set_nib d k y) (stored (elem A i) (set_nib d k y) s).
Proof.
  intros [[[Ho Hm Hg] Hrest] Hd [Hc Hr] Hw Hn] Hy Hy1. pose proof k_range as Hk. pose proof i_in as Hi.
  assert (is_cont_desc (set_nib d k y) = false) as Hc' by (by apply set_nib_gran).
  assert (0 <= set_nib d k y < 2 ^ 64) as Hr' by (by apply set_nib_range).
  assert (forall j, tab (<[elem A i := set_nib d k y]> (gpt_mem s)) j =
                    if decide (j = i) then set_nib d k y else tab (gpt_mem s) j) as Ht
    by (intros j; by apply tab_store).
  split; [split; [split|]| |done| |].
  - intros a Ha. cbn. rewrite lookup_insert_ne by (intros <-; by apply (Ha i)). by apply Ho.
  - cbn. by apply mapped_store.
  - intros j k' Hj Hk'. cbn. rewrite Ht. specialize (Hg j k' Hj Hk'). destruct (decide (j = i)) as [->|Hji].
    + rewrite Hd in Hg. rewrite dgpi_gran, set_nib_nib by (done || lia).
      rewrite dgpi_gran in Hg by done. repeat case_decide; try tauto; congruence.
    + rewrite Hg. repeat case_decide; tauto.
  - by rewrite Hrest.
  - cbn. rewrite Ht. by rewrite decide_True.
  - cbn. eapply wf_ext; [intros j; symmetry; apply Ht|]. apply entry_wf; [done|by rewrite Hd|done|done].
  - cbn. intros Hz j. rewrite Ht. case_decide; [done|by apply Hn].
Qed.

(** The information about the granule that the steps pass along. *)
Definition info_of (d cur lock mask : Z) : gpi_info_t := {|
  gi_l1_desc := d; gi_l1_addr := A; gi_idx := i; gi_gpi_shift := 4 * k; gi_gpi := cur; gi_lock := lock;
  gi_mask := mask |}.

Lemma write_gpt_run x d y cur lock mask s :
  settled x d s -> 0 <= y < 16 -> y <> 1 ->
  write_gpt (info_of d cur lock mask) y s =
    Done (info_of (set_nib d k y) cur lock mask) (stored (elem A i) (set_nib d k y) s).
Proof.
  intros Hs Hy Hy1. unfold write_gpt, bind. cbn [gi_l1_addr gi_idx gi_l1_desc gi_gpi_shift info_of].
  change (Z.lor (Z.land d (Z.lnot (Z.shiftl GPT_L1_GRAN_DESC_GPI_MASK (4 * k)))) (u64 (Z.shiftl y (4 * k))))
    with (set_nib d k y).
  rewrite store_run; [done|]. apply (va_mapped _ _ _ _ _ _ _ (ho_view _ _ (se_holds _ _ _ Hs))), i_in.
Qed.

Lemma tlbi_run x s : holds x s ->
  tlbi_page_dsbosh base s = Done tt (add_gpt_event (TlbiRpalos base (2 ^ p)) s).
Proof.
  intros (H1 & _)%holds_config. unfold tlbi_page_dsbosh, bind, gets, id. rewrite H1. pose proof (geo_pgs _ Hgeo) as Hp.
  assert ([SZ_4K; SZ_64K; SZ_16K].[gc_pgs c] = Some (2 ^ p)) as Hsz.
  { pose proof (zlookup_lt_Some _ _ _ Hp) as Hr. cbn in Hr.
    assert (gc_pgs c = 0 \/ gc_pgs c = 1 \/ gc_pgs c = 2) as [Hz|[Hz|Hz]] by lia; rewrite Hz in *;
      injection Hp as <-; reflexivity. }
  rewrite Hsz. cbn [deref ret emit_gpt modify]. do 3 f_equal.
  pose proof (geo_pow s0 Hgeo). rewrite align_round by lia. rewrite Z.mul_comm, <- Z_div_exact_full_2; [done| |done].
  apply Z.pow_nonzero; lia.
Qed.

Lemma flush_run x a s : holds x s ->
  flush_page_to_popa a s = Done tt (add_gpt_event (FlushToPopa is_feat_mte2_supported a (2 ^ p)) s).
Proof.
  intros (H1 & _)%holds_config. unfold flush_page_to_popa, bind, gets, id, emit_gpt, modify. rewrite H1.
  unfold GPT_PGS_ACTUAL_SIZE. rewrite Z.shiftl_mul_pow2, Z.mul_1_l by (destruct (geo_pow s0 Hgeo); lia). done.
Qed.

(** ** The order of stores and maintenance *)

Definition swap (cur tgt : Z) : bool :=
  ((tgt =? GPT_GPI_NS) && (cur =? GPT_GPI_NSO)) || ((tgt =? GPT_GPI_NSO) && (cur =? GPT_GPI_NS)).

(** A granule that leaves the non-secure world is flushed from its new address
    space before it belongs to it, and from the old one after. A granule that
    returns is inaccessible while it is flushed from both. *)
Definition protocol (cur tgt d : Z) : list gpt_event :=
  let set g d := Store (elem A i) (set_nib d k g) in
  let tlbi := TlbiRpalos base (2 ^ p) in
  let flush g := FlushToPopa is_feat_mte2_supported (Z.lor base (nse_of g)) (2 ^ p) in
  if swap cur tgt then [set tgt d; tlbi]
  else if non_secure_kind tgt then
    [set GPT_GPI_NO_ACCESS d; tlbi; flush cur; flush tgt; set tgt (set_nib d k GPT_GPI_NO_ACCESS); tlbi]
  else [flush tgt; set tgt d; tlbi; flush cur].

Lemma near_i : near s0 base i.
Proof. done. Qed.

Lemma settled_emit x d e s : settled x d s -> settled x d (add_gpt_event e s).
Proof. intros [[Hv Hr] H1 H2 H3 H4]. split; [split; [done|]|done..]. by rewrite Hr. Qed.

Lemma settled_sees xs x d s : settled x d s -> x ∈ xs -> sees xs (gpt_mem s).
Proof. intros Hs Hx. exists x. split; [done|]. apply Hs. Qed.

Lemma step_emit xs x d e s :
  settled x d s -> x ∈ xs -> (forall m, replay [e] m = m) -> touches place e ->
  during_evs [e] (sees xs) place s (add_gpt_event e s).
Proof. intros Hs Hx He Ht. apply during_emit; [done|done|by eapply settled_sees]. Qed.

Lemma step_store xs x d y s :
  settled x d s -> 0 <= y < 16 -> y <> 1 -> x ∈ xs -> y ∈ xs ->
  during_evs [Store (elem A i) (set_nib d k y)] (sees xs) place s (stored (elem A i) (set_nib d k y) s).
Proof.
  intros Hs Hy Hy1 Hx Hyx. apply during_store.
  - exists i. split; [done|]. split; [apply i_in|apply near_i].
  - by eapply settled_sees.
  - pose proof (store_settles _ _ y _ Hs Hy Hy1) as Hs'. by apply (settled_sees xs _ _ _ Hs').
Qed.

Definition final_desc (cur tgt d : Z) : Z :=
  if negb (swap cur tgt) && non_secure_kind tgt then set_nib (set_nib d k GPT_GPI_NO_ACCESS) k tgt else set_nib d k tgt.

Context (en : bool) (Hcfg : gpi_config s0 = gpi_table en).

Lemma nse_run x d g s : settled x d s -> movable g = true -> GPI_TO_NSE g s = Done (nse_of g) s.
Proof.
  intros Hs Hg. apply (movable_desc en); [|done]. by rewrite (proj1 (proj2 (holds_config _ _ (se_holds _ _ _ Hs)))).
Qed.

Lemma gpt_write_entry_run x d y cur lock mask s :
  settled x d s -> 0 <= y < 16 -> y <> 1 ->
  gpt_write_entry base y (info_of d cur lock mask) s =
    Done (info_of (set_nib d k y) cur lock mask)
      (add_gpt_event (TlbiRpalos base (2 ^ p)) (stored (elem A i) (set_nib d k y) s)).
Proof.
  intros Hs Hy Hy1. unfold gpt_write_entry, bind. rewrite (write_gpt_run x) by done.
  rewrite (tlbi_run y) by (by eapply se_holds, store_settles). done.
Qed.

Definition arrived (cur tgt d lock mask : Z) (s : gpt_state) (g' : gpi_info_t) (s' : gpt_state) : Prop :=
  g' = info_of (final_desc cur tgt d) cur lock mask /\ settled tgt (final_desc cur tgt d) s' /\
  during_evs (protocol cur tgt d) (sees [cur; GPT_GPI_NO_ACCESS; tgt]) place s s' /\
  (swap cur tgt = false -> non_secure_kind tgt = true ->
     view_at s0 A i k GPT_GPI_NO_ACCESS m0
       (replay [Store (elem A i) (set_nib d k GPT_GPI_NO_ACCESS)] (gpt_mem s))).

Lemma wp_swap cur tgt d lock mask s :
  settled cur d s -> 0 <= tgt < 16 -> tgt <> 1 -> swap cur tgt = true ->
  wpd (gpt_write_entry base tgt (info_of d cur lock mask)) (arrived cur tgt d lock mask s) s.
Proof.
  intros Hs Ht Ht1 Hsw. unfold arrived, protocol, final_desc. rewrite Hsw. cbn [negb andb].
  eapply wp_exact; [by apply (gpt_write_entry_run cur)|]. pose proof (store_settles _ _ tgt _ Hs Ht Ht1) as Hs1.
  split; [done|]. split; [by apply settled_emit|]. split; [|done].
  refine (during_app _ _ [_] [_] _ _ _ (step_store _ _ _ _ _ Hs Ht Ht1 _ _) _); [set_solver..|].
  apply (step_emit _ _ _ _ _ Hs1); [set_solver|done..].
Qed.

Lemma wp_undelegate cur tgt d lock mask s :
  settled cur d s -> movable cur = true -> movable tgt = true -> swap cur tgt = false -> non_secure_kind tgt = true ->
  wpd (gpt_undelegate base tgt (info_of d cur lock mask)) (arrived cur tgt d lock mask s) s.
Proof.
  intros Hs Hcur Htgt Hsw Hns. destruct (movable_desc en s0 tgt Hcfg Htgt) as (Ht & Ht1 & _).
  assert (0 <= GPT_GPI_NO_ACCESS < 16 /\ GPT_GPI_NO_ACCESS <> 1) as [H0 H01] by (unfold GPT_GPI_NO_ACCESS; lia).
  unfold arrived, protocol, final_desc. rewrite Hsw, Hns. cbn [negb andb]. set (J := [cur; GPT_GPI_NO_ACCESS; tgt]).
  assert (cur ∈ J /\ GPT_GPI_NO_ACCESS ∈ J /\ tgt ∈ J) as (J1 & J2 & J3) by (unfold J; set_solver).
  unfold gpt_undelegate. cbn [gi_gpi info_of]. wp_step.
  eapply wp_exact; [by apply (write_gpt_run cur)|]. pose proof (store_settles _ _ GPT_GPI_NO_ACCESS _ Hs H0 H01) as S1.
  wp_step. eapply wp_exact; [by apply (tlbi_run GPT_GPI_NO_ACCESS), (se_holds _ _ _ S1)|].
  pose proof (settled_emit _ _ (TlbiRpalos base (2 ^ p)) _ S1) as S2.
  wp_step. eapply wp_exact; [by apply (nse_run _ _ _ _ S2)|].
  wp_step. eapply wp_exact; [by apply (flush_run GPT_GPI_NO_ACCESS), (se_holds _ _ _ S2)|].
  pose proof (settled_emit _ _ (FlushToPopa is_feat_mte2_supported (Z.lor base (nse_of cur)) (2 ^ p)) _ S2) as S3.
  wp_step. eapply wp_exact; [by apply (nse_run _ _ _ _ S3)|].
  wp_step. eapply wp_exact; [by apply (flush_run GPT_GPI_NO_ACCESS), (se_holds _ _ _ S3)|].
  pose proof (settled_emit _ _ (FlushToPopa is_feat_mte2_supported (Z.lor base (nse_of tgt)) (2 ^ p)) _ S3) as S4.
  eapply wp_exact; [by apply (gpt_write_entry_run _ _ _ _ _ _ _ S4)|]. split; [done|].
  pose proof (store_settles _ _ tgt _ S4 Ht Ht1) as S5. split; [by apply settled_emit|].
  split; [|intros _ _; apply (se_holds _ _ _ S1)].
  refine (during_app _ _ [_] (_ :: _) _ _ _ (step_store J _ _ _ _ Hs H0 H01 J1 J2) _).
  refine (during_app _ _ [_] (_ :: _) _ _ _ (step_emit J _ _ _ _ S1 J2 _ _) _); [done..|].
  refine (during_app _ _ [_] (_ :: _) _ _ _ (step_emit J _ _ _ _ S2 J2 _ _) _); [done..|].
  refine (during_app _ _ [_] (_ :: _) _ _ _ (step_emit J _ _ _ _ S3 J2 _ _) _); [done..|].
  refine (during_app _ _ [_] (_ :: _) _ _ _ (step_store J _ _ _ _ S4 Ht Ht1 J2 J3) _).
  by apply (step_emit J _ _ _ _ S5 J3).
Qed.

Lemma wp_delegate cur tgt d lock mask s :
  settled cur d s -> movable cur = true -> movable tgt = true -> swap cur tgt = false -> non_secure_kind tgt = false ->
  wpd (gpt_delegate base tgt (info_of d cur lock mask)) (arrived cur tgt d lock mask s) s.
Proof.
  intros Hs Hcur Htgt Hsw Hns. destruct (movable_desc en s0 tgt Hcfg Htgt) as (Ht & Ht1 & _).
  unfold arrived, protocol, final_desc. rewrite Hsw, Hns. cbn [negb andb]. set (J := [cur; GPT_GPI_NO_ACCESS; tgt]).
  assert (cur ∈ J /\ tgt ∈ J) as (J1 & J3) by (unfold J; set_solver).
  unfold gpt_delegate. cbn [gi_gpi info_of]. wp_step. eapply wp_exact; [by apply (nse_run _ _ _ _ Hs)|].
  wp_step. eapply wp_exact; [by apply (flush_run cur), (se_holds _ _ _ Hs)|].
  pose proof (settled_emit _ _ (FlushToPopa is_feat_mte2_supported (Z.lor base (nse_of tgt)) (2 ^ p)) _ Hs) as S1.
  wp_step. eapply wp_exact; [by apply (gpt_write_entry_run _ _ _ _ _ _ _ S1)|].
  pose proof (store_settles _ _ tgt _ S1 Ht Ht1) as S2.
  pose proof (settled_emit _ _ (TlbiRpalos base (2 ^ p)) _ S2) as S3.
  wp_step. eapply wp_exact; [by apply (nse_run _ _ _ _ S3)|].
  wp_step. eapply wp_exact; [by apply (flush_run tgt), (se_holds _ _ _ S3)|]. wp_step.
  split; [done|]. split; [by apply settled_emit|]. split; [|done].
  refine (during_app _ _ [_] (_ :: _) _ _ _ (step_emit J _ _ _ _ Hs J1 _ _) _); [done..|].
  refine (during_app _ _ [_] (_ :: _) _ _ _ (step_store J _ _ _ _ S1 Ht Ht1 J1 J3) _).
  refine (during_app _ _ [_] (_ :: _) _ _ _ (step_emit J _ _ _ _ S2 J3 _ _) _); [done..|].
  by apply (step_emit J _ _ _ _ S3 J3).
Qed.

Lemma wp_core cur tgt d lock mask s :
  settled cur d s -> movable cur = true -> movable tgt = true ->
  wpd (if ((tgt =? GPT_GPI_NS) && (gi_gpi (info_of d cur lock mask) =? GPT_GPI_NSO)) ||
          ((tgt =? GPT_GPI_NSO) && (gi_gpi (info_of d cur lock mask) =? GPT_GPI_NS))
       then gpt_write_entry base tgt (info_of d cur lock mask)
       else if (tgt =? GPT_GPI_NS) || (tgt =? GPT_GPI_NSO) then gpt_undelegate base tgt (info_of d cur lock mask)
       else gpt_delegate base tgt (info_of d cur lock mask)) (arrived cur tgt d lock mask s) s.
Proof.
  intros Hs Hcur Htgt. destruct (movable_desc en s0 tgt Hcfg Htgt) as (Ht & Ht1 & _).
  change (gi_gpi (info_of d cur lock mask)) with cur. fold (swap cur tgt). fold (non_secure_kind tgt).
  destruct (swap cur tgt) eqn:Hsw; [by apply wp_swap|].
  destruct (non_secure_kind tgt) eqn:Hns; [by apply wp_undelegate|by apply wp_delegate].
Qed.

(** ** Before and after: contiguous blocks *)

(** The GPI of the granule. *)
Definition cur_gpi : Z := dgpi (tab m0 i) k.

Definition after_lock (lk : gpt_event) : gpt_state := add_gpt_event lk s0.

Lemma after_lock_geo lk : geo (after_lock lk).
Proof. destruct Hgeo as [H1 H2 H3 H4 H5 H6]. by split. Qed.

Lemma wp_shatter_phase lk lock mask :
  movable cur_gpi = true ->
  wpd (if negb (RME_GPT_MAX_BLOCK =? 0) && is_cont_desc (gi_l1_desc (info_of (tab m0 i) cur_gpi lock mask)) then
         let! d := GPI_TO_DESC (gi_gpi (info_of (tab m0 i) cur_gpi lock mask)) in
         shatter_block base (info_of (tab m0 i) cur_gpi lock mask) d
       else ret (info_of (tab m0 i) cur_gpi lock mask))
    (fun g' s' => exists d, g' = info_of d cur_gpi lock mask /\ settled cur_gpi d s' /\
       during (same_view A N m0) place (after_lock lk) s') (after_lock lk).
Proof.
  intros Hmv. cbn [gi_l1_desc gi_gpi info_of]. pose proof a_table as Ht. pose proof (to_wf _ _ _ Ht) as Hw.
  assert (same_view A N m0 m0) as Hsv by (apply same_view_refl, Ht).
  destruct (is_cont_desc (tab m0 i)) eqn:Hc.
  - destruct (Z.eqb_spec RME_GPT_MAX_BLOCK 0) as [Hz|Hz]; cbn [negb andb].
    { rewrite (to_noblk _ _ _ Ht Hz) in Hc. done. }
    destruct (wf_cont p _ i Hw Hc) as (c' & g & Hc' & Hg & Hb). pose proof (Hb i eq_refl) as Hi.
    assert (cur_gpi = g) as Hcg by (unfold cur_gpi; rewrite Hi; apply dgpi_cont; lia). rewrite Hcg in *.
    destruct (movable_desc en (after_lock lk) g Hcfg Hmv) as (_ & Hg1 & _ & Hd & _).
    wp_step. eapply wp_exact; [exact Hd|].
    eapply wp_mono; [apply (wp_shatter_block A (after_lock lk) (after_lock_geo lk) base (info_of (tab m0 i) g lock mask) eq_refl g Hg Hg1 c' Hc'
      (to_mapped _ _ _ Ht) Hw Hi Hi)| |done].
    intros g' s' (-> & Hcalm & Hw' & Hd'). exists (GPT_BUILD_L1_DESC g). split; [done|]. split; [|exact Hcalm].
    pose proof (calm_view _ _ _ _ Hcalm) as Hv. destruct Hcalm as [evs Hev]. split.
    + split; [rewrite <- Hcg; by apply same_view_at|]. by rewrite (du_rest _ _ _ _ _ Hev).
    + exact Hd'.
    + split; [by apply build_not_cont|by apply build_range].
    + exact Hw'.
    + intros. done.
  - rewrite andb_false_r. wp_step. exists (tab m0 i). split; [done|]. split; [|eexists; by apply during_refl].
    destruct (Hw i) as [Hgr|(c' & g & Hc' & Hg & Hb)].
    2: { rewrite (Hb i eq_refl), cont_is_cont in Hc by lia. done. }
    split; [split; [by apply same_view_at|reflexivity]|done|done|exact Hw|by apply Ht].
Qed.

Lemma wp_fuse_phase tgt d cur lock mask s :
  settled tgt d s -> movable tgt = true ->
  wpd (if negb (RME_GPT_MAX_BLOCK =? 0) then
         let! d' := GPI_TO_DESC tgt in
         when (gi_l1_desc (info_of d cur lock mask) =? d') (fuse_block base (info_of d cur lock mask) d')
       else ret tt)
    (fun _ s' => during (same_view A N (gpt_mem s)) place s s' /\ wf_table p (tab (gpt_mem s')) /\
       (RME_GPT_MAX_BLOCK = 0 -> forall j, is_cont_desc (tab (gpt_mem s') j) = false)) s.
Proof.
  intros Hs Hmv. pose proof (se_holds _ _ _ Hs) as Hh. destruct (holds_config _ _ Hh) as (H1 & H2 & H3 & H4).
  assert (same_view A N (gpt_mem s) (gpt_mem s)) as Hsv by (apply same_view_refl, Hh).
  assert (during (same_view A N (gpt_mem s)) place s s) as Hrefl by (eexists; by apply during_refl).
  destruct (Z.eqb_spec RME_GPT_MAX_BLOCK 0) as [Hz|Hz]; cbn [negb].
  { wp_step. split; [done|]. split; apply Hs. }
  destruct (movable_desc en s tgt ltac:(by rewrite H2) Hmv) as (Hg & Hg1 & _ & Hd & _).
  wp_step. eapply wp_exact; [exact Hd|]. unfold when. destruct (_ =? _).
  2: { wp_step. split; [done|]. split; [apply Hs|done]. }
  assert (l1_entries s = N) as HN by (unfold l1_entries; by rewrite H1).
  assert (GPT_L1_INDEX s base = i) as Hi by (unfold GPT_L1_INDEX; by rewrite H1, H4).
  assert (mapped A (l1_entries s) (gpt_mem s)) as Hmp by (rewrite HN; apply Hh).
  assert (wf_table (gc_p (gpt_config s)) (GptBlocks.tab A (l1_entries s) (gpt_mem s))) as Hw
    by (rewrite HN, H1; apply Hs).
  eapply wp_mono; [apply (wp_fuse_block A s (holds_geo _ _ Hh) base (info_of _ cur lock mask) eq_refl tgt Hg Hg1 Hmp Hw)| |done].
  intros [] s' [Hcalm Hw']. rewrite HN, H1 in Hw'. split; [|done].
  unfold calm, near in Hcalm. rewrite HN, Hi, H1 in Hcalm. exact Hcalm.
Qed.
End Core.

(** ** The whole call *)

(** Whether level 0 has a table for the address. *)
Definition granular (m : gmap Z Z) (pa : Z) : bool :=
  match m !! elem (plat_gpt_l0_base c) (pa / 2 ^ GPT_S_VAL) with Some d => d mod 16 =? 3 | None => false end.

Let Hgeo : geo s0 := wg_geo _ Hwf.

Lemma granular_links : 0 <= base < 2 ^ gc_t c ->
  if granular m0 base then exists A, links s0 m0 (base / 2 ^ GPT_S_VAL) A
  else exists d, m0 !! elem (plat_gpt_l0_base c) (base / 2 ^ GPT_S_VAL) = Some d /\ d mod 16 <> 3.
Proof.
  intros Hb. pose proof (wm_l0 _ _ (wg_mem _ Hwf) _ (l0_index s0 Hgeo base Hb)) as Hk. unfold granular.
  destruct Hk as [(g & Hg & Hd)|(A & Hl & Ht)].
  - rewrite Hd. replace (1 + 16 * g) with (1 + g * 16) by lia. rewrite Z.mod_add by lia.
    change (1 mod 16 =? 3) with false. exists (1 + g * 16). rewrite Z.mod_add by lia. done.
  - pose proof Hl as (_ & Hal & Hd). rewrite Hd.
    destruct (link_desc A (to_range _ _ _ Ht) Hal) as [-> _]. by exists A.
Qed.

Lemma l0_type d : GPT_L0_TYPE d = d mod 16.
Proof.
  unfold GPT_L0_TYPE. change GPT_L0_TYPE_MASK with (Z.ones 4). rewrite Z.land_ones by lia.
  by rewrite Z.shiftr_0_r.
Qed.

Lemma tbld_addr d : GPT_L0_TBLD_ADDR d = (d / 2 ^ 12) mod 2 ^ 40 * 2 ^ 12.
Proof.
  unfold GPT_L0_TBLD_ADDR. change GPT_L0_TBL_DESC_L1ADDR_MASK with (Z.ones 40).
  change GPT_L0_TBL_DESC_L1ADDR_SHIFT with 12. rewrite <- Z.shiftr_div_pow2, <- Z.land_ones, <- Z.shiftl_mul_pow2 by lia.
  apply Z.bits_inj'. intros n Hn. rewrite Z.land_spec. destruct (Z.ltb_spec n 12).
  - by rewrite !Z.shiftl_spec_low, andb_false_r by lia.
  - rewrite !Z.shiftl_spec, Z.land_spec, Z.shiftr_spec by lia. do 2 f_equal. lia.
Qed.

(** The bit lock of an address. *)
Definition lock_addr (pa : Z) : Z := gpt_bitlock s0 + u32 (pa / (RME_GPT_BITLOCK_BLOCK * SZ_512M)) / LOCK_BITS.
Definition lock_mask (pa : Z) : Z :=
  u8 (Z.shiftl 1 (Z.land (u32 (pa / (RME_GPT_BITLOCK_BLOCK * SZ_512M))) (LOCK_BITS - 1))).
Definition lock_event : gpt_event :=
  if RME_GPT_BITLOCK_BLOCK =? 0 then SpinLock else BitLock (lock_addr base) (lock_mask base).
Definition unlock_event : gpt_event :=
  if RME_GPT_BITLOCK_BLOCK =? 0 then SpinUnlock else BitUnlock (lock_addr base) (lock_mask base).

Lemma params_run A : links s0 m0 (base / 2 ^ GPT_S_VAL) A ->
  get_gpi_params base s0 = Done (inr (info_of A 0 0 (lock_addr base) (lock_mask base))) s0.
Proof.
  intros Hl. pose proof (links_ok s0 m0 _ A (wg_mem _ Hwf) Hl) as Ht. destruct Hl as (Hk & Hal & Hd).
  pose proof (geo_pow s0 Hgeo) as Hpow. unfold get_gpi_params, bind, gets, id, GPT_L0_IDX, GPT_L0_IDX_SHIFT.
  rewrite Z.shiftr_div_pow2 by lia. rewrite (load_run _ _ _ Hd), l0_type, tbld_addr.
  destruct (link_desc A (to_range _ _ _ Ht) Hal) as [-> ->]. cbn [negb Z.eqb Pos.eqb GPT_L0_TYPE_TBL_DESC].
  unfold ret. do 2 f_equal. unfold info_of. f_equal.
  - apply u32_small. pose proof (l1_index_range s0 Hgeo base) as Hi.
    assert (N <= 2 ^ 23) by (unfold l1_entries; apply Z.pow_le_mono_r; lia). lia.
  - unfold GPT_L1_GPI_IDX, GPT_L1_GPI_IDX_SHIFT. change GPT_L1_GPI_IDX_MASK with (Z.ones 4).
    rewrite Z.land_ones, Z.shiftr_div_pow2, Z.shiftl_mul_pow2 by lia. pose proof k_range.
    change (2 ^ 4) with 16. rewrite u32_small by lia. lia.
Qed.

Lemma read_gpi_run A lk : links s0 m0 (base / 2 ^ GPT_S_VAL) A ->
  read_gpi (info_of A 0 0 (lock_addr base) (lock_mask base)) (after_lock lk) =
    Done (info_of A (tab A N m0 i) (cur_gpi A) (lock_addr base) (lock_mask base)) (after_lock lk).
Proof.
  intros Hl. pose proof (links_ok s0 m0 _ A (wg_mem _ Hwf) Hl) as Ht. unfold read_gpi, bind.
  cbn [gi_l1_addr gi_idx info_of].
  rewrite (load_run _ (tab A N m0 i)) by (apply tab_lookup; [apply Ht|by apply l1_index_range]).
  unfold ret. f_equal. unfold set_gi_gpi, set_gi_desc, info_of, cur_gpi, dgpi.
  cbn [gi_l1_desc gi_l1_addr gi_idx gi_gpi_shift gi_lock gi_mask]. f_equal. rewrite <- is_cont_desc_mod.
  unfold GPT_L1_CONT_GPI. change GPT_L1_CONT_DESC_GPI_MASK with (Z.ones 4).
  change GPT_L1_GRAN_DESC_GPI_MASK with (Z.ones 4). rewrite !Z.land_ones, !Z.shiftr_div_pow2 by (done || (pose proof k_range; lia)).
  done.
Qed.

(** ** The result *)

Context (en : bool) (Hcfg : gpi_config s0 = gpi_table en).

Definition gpi_of (pa : Z) : Z := default 0 (gpi_at c m0 pa).

Definition transition_rc (tgt src : Z) : Z :=
  if negb (is_gpi_valid tgt) then - EPERM
  else if negb (base mod 2 ^ p =? 0) || (2 ^ gc_t c <=? base + 2 ^ p) then - EINVAL
  else if negb (granular m0 base) then - EINVAL
  else if allowed en src (gpi_of base) tgt then 0 else - EPERM.

(** What has happened when a transition succeeded, and in which order. *)
Definition moved (tgt : Z) (s' : gpt_state) : Prop :=
  exists A d sh fu, links s0 m0 (base / 2 ^ GPT_S_VAL) A /\ gpi_of base = cur_gpi A /\
    during_evs ([lock_event] ++ sh ++ protocol A (cur_gpi A) tgt d ++ fu ++ [unlock_event])
      (sees A [cur_gpi A; GPT_GPI_NO_ACCESS; tgt]) (place A) s0 s' /\
    (forall l1 l2, sh = l1 ++ l2 -> view_at s0 A i k (cur_gpi A) m0 (replay l1 m0)) /\
    (swap (cur_gpi A) tgt = false -> non_secure_kind tgt = true ->
       view_at s0 A i k GPT_GPI_NO_ACCESS m0
         (replay (sh ++ [Store (elem A i) (set_nib d k GPT_GPI_NO_ACCESS)]) m0)) /\
    view_at s0 A i k tgt m0 (gpt_mem s') /\ wf_gpt s'.

Lemma valid_range g : is_gpi_valid g = true -> 0 <= g < 16.
Proof.
  unfold is_gpi_valid, GPT_GPI_NO_ACCESS, GPT_GPI_SECURE, GPT_GPI_NS, GPT_GPI_ROOT, GPT_GPI_REALM, GPT_GPI_ANY,
    GPT_GPI_NSO, GPT_GPI_SA, GPT_GPI_NSP. intros H.
  repeat match type of H with
         | (if ?b then _ else _) = true => destruct b eqn:?
         end; rewrite ?orb_true_iff, ?andb_true_iff, ?Z.eqb_eq in *; lia.
Qed.

Lemma lock_quiet m : replay [lock_event] m = m /\ replay [unlock_event] m = m.
Proof. unfold lock_event, unlock_event. destruct (RME_GPT_BITLOCK_BLOCK =? 0); split; reflexivity. Qed.

(** Tables stay well formed when memory does. *)
Lemma during_wf evs J F s s' : during_evs evs J F s s' -> wf_gpt s -> wf_mem s (gpt_mem s') -> wf_gpt s'.
Proof.
  intros Hdu [G B _] Hm. destruct (during_config _ _ _ _ _ Hdu) as (H1 & _).
  split; [by apply (during_geo _ _ _ _ _ Hdu)|by rewrite H1|by apply (wf_mem_config s)].
Qed.

(** The part of the call under the lock. *)
Lemma wp_moved A tgt :
  0 <= base < 2 ^ gc_t c -> base mod 2 ^ p = 0 -> links s0 m0 (base / 2 ^ GPT_S_VAL) A ->
  gpi_of base = cur_gpi A -> movable (cur_gpi A) = true -> movable tgt = true ->
  wpd (let! g :=
         (if negb (RME_GPT_MAX_BLOCK =? 0) &&
             is_cont_desc (gi_l1_desc (info_of A (tab A N m0 i) (cur_gpi A) (lock_addr base) (lock_mask base))) then
            let! d := GPI_TO_DESC (gi_gpi (info_of A (tab A N m0 i) (cur_gpi A) (lock_addr base) (lock_mask base))) in
            shatter_block base (info_of A (tab A N m0 i) (cur_gpi A) (lock_addr base) (lock_mask base)) d
          else ret (info_of A (tab A N m0 i) (cur_gpi A) (lock_addr base) (lock_mask base))) in
       let! g :=
         (if ((tgt =? GPT_GPI_NS) && (gi_gpi g =? GPT_GPI_NSO)) ||
             ((tgt =? GPT_GPI_NSO) && (gi_gpi g =? GPT_GPI_NS)) then gpt_write_entry base tgt g
          else if (tgt =? GPT_GPI_NS) || (tgt =? GPT_GPI_NSO) then gpt_undelegate base tgt g
          else gpt_delegate base tgt g) in
       (if negb (RME_GPT_MAX_BLOCK =? 0) then
          let! d := GPI_TO_DESC tgt in when (gi_l1_desc g =? d) (fuse_block base g d)
        else ret tt) ;;
       GPT_UNLOCK g ;; ret (0, 1))
    (fun r s' => r = (0, 1) /\ moved tgt s') (after_lock lock_event).
Proof.
  intros Hb Hal Hl Hcur Hmv Htgt. pose proof (links_ok s0 m0 _ A (wg_mem _ Hwf) Hl) as Ht.
  set (J := sees A [cur_gpi A; GPT_GPI_NO_ACCESS; tgt]).
  assert (forall m, same_view A N m0 m -> J m) as HJ1.
  { intros m Hm. exists (cur_gpi A). split; [set_solver|]. by apply same_view_at. }
  wp_step. eapply wp_mono; [by apply (wp_shatter_phase A Hl en Hcfg)| |done].
  intros g1 s1 (d1 & -> & Hs1 & sh & Hsh). wp_step.
  eapply wp_mono; [by apply (wp_core A Hl Hal en Hcfg)| |done]. intros g2 s2 (-> & Hs2 & Hev2 & Hna). wp_step.
  eapply wp_mono; [by apply (wp_fuse_phase A en Hcfg)| |done]. intros [] s3 ([fu Hfu] & Hw3 & Hn3).
  unfold GPT_UNLOCK, emit_gpt. cbn [gi_lock gi_mask info_of]. wp_steps. fold unlock_event.
  pose proof (ho_view _ _ _ (se_holds _ _ _ _ Hs2)) as Hv2.
  assert (forall m, same_view A N (gpt_mem s2) m -> view_at s0 A i k tgt m0 m) as Hv by (intros m; by apply view_same).
  assert (view_at s0 A i k tgt m0 (gpt_mem s3)) as Hv3 by (apply Hv; by apply (during_inv _ _ _ _ _ Hfu)).
  split; [done|]. exists A, d1, sh, fu.
  assert (during_evs ([lock_event] ++ sh ++ protocol A (cur_gpi A) tgt d1 ++ fu ++ [unlock_event]) J (place A) s0
    (add_gpt_event unlock_event s3)) as Hall.
  { apply (during_app _ _ _ _ _ (after_lock lock_event)).
    { apply during_emit; [apply lock_quiet|unfold lock_event; by destruct (_ =? 0)|].
      apply HJ1, same_view_refl, Ht. }
    apply (during_app _ _ _ _ _ s1); [by eapply during_mono; [exact HJ1| |exact Hsh]|].
    apply (during_app _ _ _ _ _ s2); [exact Hev2|].
    apply (during_app _ _ _ _ _ s3).
    { eapply during_mono; [|done|exact Hfu]. intros m Hm. exists tgt. split; [set_solver|by apply Hv]. }
    apply during_emit; [apply lock_quiet|unfold unlock_event; by destruct (_ =? 0)|].
    exists tgt. split; [set_solver|done]. }
  split_and!; [done|done|exact Hall| | |exact Hv3|].
  - intros l1 l2 Heq. apply same_view_at. by apply (du_inv _ _ _ _ _ Hsh l1 l2).
  - intros H1 H2. rewrite replay_app. rewrite (du_mem _ _ _ _ _ Hsh) in Hna. by apply Hna.
  - apply (during_wf _ _ _ _ _ Hall Hwf). cbn [gpt_mem add_gpt_event].
    apply (table_wf s0 Hgeo A (base / 2 ^ GPT_S_VAL) m0); [apply Hwf|done|apply Hv3|apply Hv3|done|done].
Qed.

(** A call that is refused: at most the lock has been taken and released. *)
Definition refused (s' : gpt_state) : Prop :=
  s' = s0 \/ s' = add_gpt_event unlock_event (add_gpt_event lock_event s0).

Definition world (src : Z) : Prop := src = SMC_FROM_SECURE \/ src = SMC_FROM_NON_SECURE \/ src = SMC_FROM_REALM.

(** The checks on the address. *)
Lemma address_check : 0 <= base < 2 ^ 64 ->
  negb (Z.land base (GPT_PGS_ACTUAL_SIZE p - 1) =? 0) ||
  negb (Z.land (GPT_PGS_ACTUAL_SIZE p) (GPT_PGS_ACTUAL_SIZE p - 1) =? 0) || (GPT_PGS_ACTUAL_SIZE p =? 0) ||
  (GPT_PPS_ACTUAL_SIZE (gc_t c) <=? base + GPT_PGS_ACTUAL_SIZE p) =
  negb (base mod 2 ^ p =? 0) || (2 ^ gc_t c <=? base + 2 ^ p).
Proof.
  intros Hb. unfold GPT_PGS_ACTUAL_SIZE, GPT_PPS_ACTUAL_SIZE. pose proof (geo_pow s0 Hgeo) as Hpow.
  rewrite !Z.shiftl_mul_pow2, !Z.mul_1_l by (destruct (geo_t _ Hgeo); lia).
  replace (2 ^ p - 1) with (Z.ones p) by (rewrite Z.ones_equiv; lia). rewrite !Z.land_ones by lia.
  rewrite Z_mod_same_full, (proj2 (Z.eqb_neq (2 ^ p) 0)) by (apply Z.pow_nonzero; lia). cbn [negb Z.eqb].
  by rewrite !orb_false_r.
Qed.

Lemma size_overflow : UINT64_MAX - base < GPT_PGS_ACTUAL_SIZE p -> 2 ^ gc_t c <= base + 2 ^ p.
Proof.
  unfold GPT_PGS_ACTUAL_SIZE, UINT64_MAX. pose proof (geo_pow s0 Hgeo) as Hpow.
  rewrite Z.shiftl_mul_pow2, Z.mul_1_l by lia.
  assert (2 ^ gc_t c <= 2 ^ 52) by (apply Z.pow_le_mono_r; destruct (geo_t _ Hgeo); lia). lia.
Qed.

Lemma wp_transition count tgt src :
  sctlr_c_bit = true -> 0 <= base < 2 ^ 64 -> world src -> count <> 0 ->
  wpd (gpt_transition_pas base count tgt src)
    (fun r s' => r = (transition_rc tgt src, if transition_rc tgt src =? 0 then 1 else 0) /\
       if transition_rc tgt src =? 0 then moved tgt s' else refused s') s0.
Proof.
  intros Hc Hb Hsrc Hcnt. pose proof (geo_pow s0 Hgeo) as Hpow.
  assert (0 < 2 ^ p) as HP by (apply Z.pow_pos_nonneg; lia).
  unfold gpt_transition_pas. pose proof (wg_base _ Hwf) as Hbase.
  wp_steps. apply wp_assert; [unfold id; by rewrite (proj2 (Z.eqb_neq _ _)) by lia|].
  wp_step. apply wp_assert; [done|]. unfold id. cbv zeta.
  rewrite (proj2 (Z.eqb_neq count 0)) by done. unfold transition_rc, gpi_of.
  destruct (is_gpi_valid tgt) eqn:Htgt; cbn [negb]; [|wp_step; split; [done|by left]].
  destruct (Z.ltb_spec (UINT64_MAX - base) (GPT_PGS_ACTUAL_SIZE p)) as [Hov|_].
  { apply size_overflow in Hov. rewrite (proj2 (Z.leb_le _ _) Hov), orb_true_r. wp_step. split; [done|by left]. }
  rewrite address_check by done.
  destruct (negb (base mod 2 ^ p =? 0)) eqn:Hal; cbn [orb]; [wp_step; split; [done|by left]|].
  apply negb_false_iff, Z.eqb_eq in Hal.
  destruct (Z.leb_spec (2 ^ gc_t c) (base + 2 ^ p)) as [Hle|Hlt]; [wp_step; split; [done|by left]|].
  pose proof (granular_links ltac:(lia)) as Hgl. destruct (granular m0 base) eqn:Hgr; cbn [negb].
  2: { destruct Hgl as (d & Hd & Ht). wp_step. unfold get_gpi_params. wp_step. wp_step.
       unfold GPT_L0_IDX, GPT_L0_IDX_SHIFT. rewrite Z.shiftr_div_pow2 by lia.
       wp_step. eapply wp_exact; [by apply load_run|]. rewrite l0_type.
       rewrite (proj2 (Z.eqb_neq _ GPT_L0_TYPE_TBL_DESC) Ht). cbn [negb]. wp_steps. split; [done|by left]. }
  destruct Hgl as (A & Hl). wp_step. eapply wp_exact; [by apply params_run|]. cbn beta iota.
  assert (default 0 (gpi_at c m0 base) = cur_gpi A) as Hcur
    by (rewrite (walk_l1 s0 Hgeo m0 base A); [done|apply Hwf|lia|done]). rewrite Hcur.
  unfold GPT_LOCK, emit_gpt. cbn [gi_lock gi_mask info_of]. wp_step. wp_step. fold lock_event.
  change (add_gpt_event lock_event s0) with (after_lock lock_event).
  wp_step. eapply wp_exact; [by apply read_gpi_run|]. cbn [gi_gpi info_of].
  wp_step. eapply wp_exact; [by apply (permitted_run en); [| apply dgpi_range | apply valid_range |]|].
  destruct (allowed en src (cur_gpi A) tgt) eqn:Hal'; cbn [negb].
  - destruct (allowed_movable _ _ _ _ Hal') as [M1 M2]. change (0 =? 0) with true. cbn match.
    by apply wp_moved; [lia|..].
  - unfold GPT_UNLOCK, emit_gpt. cbn [gi_lock gi_mask info_of]. wp_steps. split; [done|by right].
Qed.
End Transition.
