(* ===== verification/GptProps.v ===== *)
(** * Granule protection tables: properties of transitions

    What a call of [gpt_transition_pas] does to the GPIs the hardware sees, at
    its end and at every moment until then, which lock protects it, and what
    any sequence of calls leaves alone. *)

From stdpp Require Import list_numbers gmap.
From S2P Require Import Prelude GptDefs Gpt GptTable GptBlocks GptView GptPolicy GptTransition.
#[local] Open Scope cmd_scope.

Record call_t := {
  call_base : Z;
  call_count : Z;
  call_target : Z;
  call_src : Z
}.

Definition valid_call (k : call_t) : Prop := 0 <= call_base k < 2 ^ 64 /\ world (call_src k) /\ call_count k <> 0.

Section Props.
Context `{Cfg : GptConfig}.

Definition transition (k : call_t) : gpt (Z * Z) :=
  gpt_transition_pas (call_base k) (call_count k) (call_target k) (call_src k).

(** The GPIs of the memory. *)
Definition view (s : gpt_state) (pa : Z) : option Z := gpi_at (gpt_config s) (gpt_mem s) pa.

(** The same granule. *)
Definition same (s : gpt_state) (pa pa' : Z) : Prop :=
  pa / 2 ^ gc_p (gpt_config s) = pa' / 2 ^ gc_p (gpt_config s).
#[export] Instance same_dec s pa pa' : Decision (same s pa pa').
Proof. unfold same. apply _. Defined.

(** Well-formed tables and caches on: transitions can be asked for. *)
Record ready (en : bool) (s : gpt_state) : Prop := {
  rd_wf : wf_gpt s;
  rd_policy : gpi_config s = gpi_table en;
  rd_cache : sctlr_c_bit = true
}.

Definition rc_of (en : bool) (k : call_t) (s : gpt_state) : Z :=
  transition_rc s (call_base k) en (call_target k) (call_src k).

Lemma rc_ok en k s : rc_of en k s = 0 ->
  is_gpi_valid (call_target k) = true /\ call_base k mod 2 ^ gc_p (gpt_config s) = 0 /\
  call_base k + 2 ^ gc_p (gpt_config s) < 2 ^ gc_t (gpt_config s) /\
  allowed en (call_src k) (gpi_of s (call_base k)) (call_target k) = true.
Proof.
  unfold rc_of, transition_rc. destruct (is_gpi_valid _); cbn [negb]; [|done].
  destruct (Z.eqb_spec (call_base k mod 2 ^ gc_p (gpt_config s)) 0); cbn [negb orb]; [|done].
  destruct (Z.leb_spec (2 ^ gc_t (gpt_config s)) (call_base k + 2 ^ gc_p (gpt_config s))); [done|].
  destruct (granular _ _ _); cbn [negb]; [|done]. destruct (allowed _ _ _ _); [done|done].
Qed.

Lemma base_in_space en k s : wf_gpt s -> valid_call k -> rc_of en k s = 0 ->
  0 <= call_base k < 2 ^ gc_t (gpt_config s).
Proof.
  intros Hwf [Hb _] (_ & _ & H & _)%rc_ok. pose proof (geo_pow s (wg_geo _ Hwf)).
  assert (0 < 2 ^ gc_p (gpt_config s)) by (apply Z.pow_pos_nonneg; lia). lia.
Qed.

(** A call, with everything known about it. *)
Lemma call_run en k s : ready en s -> valid_call k ->
  exists s', transition k s = Done (rc_of en k s, if rc_of en k s =? 0 then 1 else 0) s' /\
    if rc_of en k s =? 0 then moved s (call_base k) (call_target k) s' else refused s (call_base k) s'.
Proof.
  intros [Hwf Hp Hc] (Hb & Hw & Hn).
  destruct (wpd_done _ _ _ (wp_transition s Hwf (call_base k) en Hp (call_count k) (call_target k) (call_src k)
    Hc Hb Hw Hn)) as (r & s' & Hr & -> & H). by exists s'.
Qed.

Lemma refused_same b s s' : refused s b s' ->
  gpt_mem s' = gpt_mem s /\ gpt_config s' = gpt_config s /\ gpi_config s' = gpi_config s /\ (wf_gpt s -> wf_gpt s').
Proof.
  intros [->| ->]; [done|]. split_and!; [done..|]. intros Hwf.
  apply (during_wf [lock_event s b; unlock_event s b] (fun _ => True) (fun _ => True) s); [|done|apply Hwf].
  apply (during_app _ _ [_] [_] _ (add_gpt_event (lock_event s b) s)); apply during_emit; try done;
    try (intros m; by apply (lock_quiet s b m)); unfold lock_event, unlock_event; by destruct (_ =? 0).
Qed.

Lemma moved_config b tgt s s' : moved s b tgt s' ->
  gpt_config s' = gpt_config s /\ gpi_config s' = gpi_config s /\ wf_gpt s'.
Proof. intros (A & d & sh & fu & _ & _ & H & _ & _ & _ & Hw). by destruct (during_config _ _ _ _ _ H) as (-> & -> & _). Qed.

(** The walk in a memory that some moment of the call may show. *)
Lemma moment_view en k s A x m :
  wf_gpt s -> valid_call k -> rc_of en k s = 0 -> links s (gpt_mem s) (call_base k / 2 ^ GPT_S_VAL) A ->
  view_at s A (GPT_L1_INDEX s (call_base k)) ((call_base k / 2 ^ gc_p (gpt_config s)) mod 16) x (gpt_mem s) m ->
  forall pa, gpi_at (gpt_config s) m pa = if decide (same s pa (call_base k)) then Some x else view s pa.
Proof.
  intros Hwf Hk Hrc Hl Hv pa. unfold same.
  rewrite (view_walk s (wg_geo _ Hwf) A (call_base k) x (gpt_mem s) m (wg_mem _ Hwf)
    (base_in_space _ _ _ Hwf Hk Hrc) Hl Hv pa).
  by repeat case_decide.
Qed.

(** ** The effect *)

Lemma call_effect en k s :
  ready en s -> valid_call k ->
  exists s', transition k s = Done (rc_of en k s, if rc_of en k s =? 0 then 1 else 0) s' /\
    ready en s' /\ gpt_config s' = gpt_config s /\
    forall pa, view s' pa =
      if decide (rc_of en k s = 0 /\ same s pa (call_base k)) then Some (call_target k) else view s pa.
Proof.
  intros Hr Hk. destruct (call_run en k s Hr Hk) as (s' & Hrun & H). exists s'. split; [done|].
  destruct Hr as [Hwf Hp Hc]. destruct (Z.eqb_spec (rc_of en k s) 0) as [Hrc|Hrc].
  - pose proof (moved_config _ _ _ _ H) as (H1 & H2 & H3). split; [split; [done|by rewrite H2|done]|]. split; [done|].
    intros pa. unfold view at 1. rewrite H1. destruct H as (A & d & sh & fu & Hl & _ & _ & _ & _ & Hv & _).
    rewrite (moment_view en k s A _ _ Hwf Hk Hrc Hl Hv). repeat case_decide; tauto.
  - destruct (refused_same _ _ _ H) as (H1 & H2 & H3 & H4). split; [split; [by apply H4|by rewrite H3|done]|].
    split; [done|]. intros pa. rewrite decide_False by tauto. unfold view. by rewrite H1, H2.
Qed.

(** The GPI of a granule is that of any of its addresses. *)
Lemma same_space s pa pa' : geo s -> same s pa pa' ->
  0 <= pa < 2 ^ gc_t (gpt_config s) <-> 0 <= pa' < 2 ^ gc_t (gpt_config s).
Proof.
  intros Hgeo Hs. unfold same in Hs. pose proof (geo_pow s Hgeo). set (p := gc_p (gpt_config s)) in *.
  assert (0 < 2 ^ p) as HP by (apply Z.pow_pos_nonneg; lia).
  replace (2 ^ gc_t (gpt_config s)) with (2 ^ (gc_t (gpt_config s) - p) * 2 ^ p)
    by (rewrite <- Z.pow_add_r by (destruct (geo_t _ Hgeo); lia); f_equal; lia).
  set (n := 2 ^ (gc_t (gpt_config s) - p)).
  assert (forall x, 0 <= x < n * 2 ^ p <-> 0 <= x / 2 ^ p < n) as H'; [|by rewrite !H', Hs].
  intros x. split.
  - intros Hx. split; [apply Z.div_pos; lia|apply Z.div_lt_upper_bound; lia].
  - intros [H0 Hn]. pose proof (Z.div_mod x (2 ^ p) ltac:(lia)). pose proof (Z.mod_pos_bound x (2 ^ p) HP). nia.
Qed.

Lemma view_same_granule s pa pa' : wf_gpt s -> same s pa pa' -> view s pa = view s pa'.
Proof.
  intros Hwf Hs. pose proof (wg_geo _ Hwf) as Hgeo. pose proof (same_space s pa pa' Hgeo Hs) as Hiff.
  unfold view, gpi_at. apply (same_granule s Hgeo) in Hs as (H1 & H2 & H3).
  rewrite !(index_walk s Hgeo), H1, H2, H3. repeat case_decide; tauto.
Qed.

(** *** Which calls are accepted *)

(** The word of a level 1 table that describes an address. *)
Definition l1_word (s : gpt_state) (pa : Z) : option Z :=
  if decide (0 <= pa < 2 ^ gc_t (gpt_config s)) then
    d ← gpt_mem s !! elem (plat_gpt_l0_base (gpt_config s)) (pa / 2 ^ GPT_S_VAL);
    if d mod 16 =? 3 then Some (elem ((d / 2 ^ 12) mod 2 ^ 40 * 2 ^ 12) (GPT_L1_INDEX s pa)) else None
  else None.

(** A request that moves a granule: it asks for at least one, the target is a GPI
    of the build, the address is that of a granule inside the protected space
    which is not the last one of it, level 1 tables describe it, and the policy
    lets the caller change its GPI to the target. *)
Record acceptable (en : bool) (k : call_t) (s : gpt_state) : Prop := {
  ac_count : call_count k <> 0;
  ac_gpi : is_gpi_valid (call_target k) = true;
  ac_aligned : (2 ^ gc_p (gpt_config s) | call_base k);
  ac_space : call_base k + 2 ^ gc_p (gpt_config s) <= 2 ^ gc_t (gpt_config s);
  ac_not_last : call_base k + 2 ^ gc_p (gpt_config s) <> 2 ^ gc_t (gpt_config s);
  ac_table : is_Some (l1_word s (call_base k));
  ac_policy : exists g, view s (call_base k) = Some g /\ allowed en (call_src k) g (call_target k) = true
}.

(** The error of a refused call. *)
Definition refusal (k : call_t) (s : gpt_state) : Z :=
  if decide (call_count k = 0) then - EINVAL
  else if is_gpi_valid (call_target k) then
    if decide (call_base k mod 2 ^ gc_p (gpt_config s) = 0 /\
               call_base k + 2 ^ gc_p (gpt_config s) < 2 ^ gc_t (gpt_config s) /\ is_Some (l1_word s (call_base k)))
    then - EPERM else - EINVAL
  else - EPERM.

Lemma granular_word s pa : 0 <= pa < 2 ^ gc_t (gpt_config s) ->
  granular s (gpt_mem s) pa = true <-> is_Some (l1_word s pa).
Proof.
  intros Hpa. unfold granular, l1_word. rewrite decide_True by done.
  destruct (gpt_mem s !! _) as [d|]; cbn [mbind option_bind]; [|by split; [|intros [? H]]].
  destruct (d mod 16 =? 3); by split; [|intros [? H]].
Qed.

Lemma rc_spec en k s : wf_gpt s -> valid_call k ->
  (rc_of en k s = 0 /\ acceptable en k s) \/ (rc_of en k s = refusal k s /\ refusal k s <> 0 /\ ~ acceptable en k s).
Proof.
  intros Hwf (Hb & _ & Hn). pose proof (geo_pow s (wg_geo _ Hwf)).
  assert (0 < 2 ^ gc_p (gpt_config s)) as HP by (apply Z.pow_pos_nonneg; lia).
  unfold rc_of, transition_rc, refusal. rewrite decide_False by done.
  destruct (is_gpi_valid _) eqn:Hg; cbn [negb]; [|right; split_and!; [done|done|intros []; congruence]].
  destruct (Z.eqb_spec (call_base k mod 2 ^ gc_p (gpt_config s)) 0) as [Hal|Hal]; cbn [negb orb];
    [|right; rewrite decide_False by tauto; split_and!; [done|done|]; intros [_ _ Hd];
      apply Hal, Z.mod_divide; [lia|done]].
  destruct (Z.leb_spec (2 ^ gc_t (gpt_config s)) (call_base k + 2 ^ gc_p (gpt_config s))) as [Hsp|Hsp];
    [right; rewrite decide_False by lia; split_and!; [done|done|]; intros []; lia|].
  pose proof (granular_word s (call_base k) ltac:(lia)) as Hgw.
  destruct (granular _ _ _); cbn [negb];
    [|right; rewrite decide_False by (intros (_ & _ & H'%Hgw); done); split_and!; [done|done|];
      intros [_ _ _ _ _ H'%Hgw]; done].
  rewrite decide_True by tauto. destruct (allowed _ _ _ _) eqn:Hall.
  - left. split; [done|]. split; [done|done|apply Z.mod_divide; [lia|done]|lia|lia|by apply Hgw|].
    unfold gpi_of in Hall. fold (view s (call_base k)) in Hall. destruct (view s (call_base k)) as [g|]; [by exists g|].
    by destruct (allowed_movable _ _ _ _ Hall).
  - right. split_and!; [done|done|]. intros [_ _ _ _ _ _ (g & Hv & Hg')]. unfold gpi_of in Hall.
    fold (view s (call_base k)) in Hall. rewrite Hv in Hall. cbn in Hall. congruence.
Qed.

Lemma zero_count_run en k s : ready en s -> call_count k = 0 -> transition k s = Done (- EINVAL, 0) s.
Proof.
  intros [Hwf _ Hc] H0. pose proof (wg_base _ Hwf).
  unfold transition, gpt_transition_pas, bind, gets, assert_, id. rewrite H0, Hc, (proj2 (Z.eqb_neq _ _)) by lia.
  done.
Qed.

(** C4. A call of [gpt_transition_pas] on well-formed tables, from any of the
    three worlds, moves one granule or none. It returns 0 and a count of one if
    and only if the request is [acceptable]: a count other than zero, a GPI of
    the build, the address of a granule of the protected space other than its
    last one, which level 1 tables describe, and a transition that the policy
    allows the caller. Otherwise it returns the error of the first of these
    conditions that fails, a count of zero, and nothing has changed in memory.
    After a successful call a walk of the tables finds the target GPI for the
    addresses of the granule, and what it found before for every other address;
    the tables are well formed again. *)
Theorem transition_refines en k s :
  ready en s -> 0 <= call_base k < 2 ^ 64 -> world (call_src k) ->
  exists r s', transition k s = Done r s' /\ ready en s' /\ gpt_config s' = gpt_config s /\
    ((acceptable en k s /\ r = (0, 1) /\
      forall pa, view s' pa = if decide (same s pa (call_base k)) then Some (call_target k) else view s pa) \/
     (~ acceptable en k s /\ r = (refusal k s, 0) /\ refusal k s <> 0 /\ gpt_mem s' = gpt_mem s)).
Proof.
  intros Hr Hb Hw. destruct (decide (call_count k = 0)) as [Hn|Hn].
  { exists (- EINVAL, 0), s. unfold refusal. rewrite decide_True by done.
    split_and!; [by apply (zero_count_run en)|done|done|]. right. split_and!; [by intros []|done..]. }
  assert (valid_call k) as Hk by done.
  destruct (call_effect en k s Hr Hk) as (s' & Hrun & Hr' & Hc & Hv). eexists _, s'. split_and!; [exact Hrun|done|done|].
  destruct (rc_spec en k s (rd_wf _ _ Hr) Hk) as [[Hrc Hac]|(Hrc & Hne & Hac)].
  - left. rewrite Hrc in *. split_and!; [done|done|]. intros pa. rewrite Hv. repeat case_decide; tauto.
  - right. rewrite Hrc in *. rewrite (proj2 (Z.eqb_neq _ _)) by done. split_and!; [done..|].
    destruct (call_run en k s Hr Hk) as (s1 & Hrun1 & H). rewrite Hrc, (proj2 (Z.eqb_neq _ _)) in Hrun1, H by done.
    rewrite Hrun, (proj2 (Z.eqb_neq _ _)) in Hrun1 by done. injection Hrun1 as <-. apply (refused_same _ _ _ H).
Qed.

(** ** Every moment *)

Lemma refused_moment b s s' evs1 evs2 :
  refused s b s' -> gpt_trace s' = gpt_trace s ++ evs1 ++ evs2 -> replay evs1 (gpt_mem s) = gpt_mem s.
Proof.
  intros Hr Ht.
  assert (exists l, evs1 ++ evs2 = l /\ Forall (fun e => forall m, replay [e] m = m) l) as (l & Hl & Hq).
  { destruct Hr as [->| ->].
    - exists []. split; [|done]. by rewrite <- (app_nil_r (gpt_trace s)) in Ht at 1; apply app_inv_head in Ht.
    - exists [lock_event s b; unlock_event s b]. split.
      + cbn [gpt_trace add_gpt_event] in Ht. rewrite <- app_assoc in Ht. by apply app_inv_head in Ht.
      + pose proof (fun m => lock_quiet s b m). repeat constructor; intros m; apply H. }
  subst l. apply Forall_app in Hq as [Hq _]. clear Ht. induction Hq as [|e l He _ IH]; [done|].
  change (e :: l) with ([e] ++ l). by rewrite replay_app, He.
Qed.

(** C35. At every moment of a call, after any number of its stores, a walk of
    the tables finds for every address what it found before the call; only for
    the granule that is moved may it also find no access or the target GPI. So
    breaking up and joining contiguous blocks, which rewrite the descriptors of
    up to 512MB in place, are invisible to every other observer. *)
Theorem transition_moments en k s r s' evs1 evs2 :
  ready en s -> valid_call k -> transition k s = Done r s' -> gpt_trace s' = gpt_trace s ++ evs1 ++ evs2 ->
  forall pa, gpi_at (gpt_config s) (replay evs1 (gpt_mem s)) pa = view s pa \/
    (fst r = 0 /\ same s pa (call_base k) /\
     (gpi_at (gpt_config s) (replay evs1 (gpt_mem s)) pa = Some GPT_GPI_NO_ACCESS \/
      gpi_at (gpt_config s) (replay evs1 (gpt_mem s)) pa = Some (call_target k))).
Proof.
  intros Hr Hk Hrun Ht pa. destruct (call_run en k s Hr Hk) as (s1 & Hrun1 & H). rewrite Hrun in Hrun1.
  injection Hrun1 as -> ->. destruct Hr as [Hwf Hp Hc]. destruct (Z.eqb_spec (rc_of en k s) 0) as [Hrc|Hrc].
  - destruct H as (A & d & sh & fu & Hl & Hcur & Hev & _).
    assert (evs1 ++ evs2 = [lock_event s (call_base k)] ++ sh ++
      protocol s (call_base k) A (cur_gpi s (call_base k) A) (call_target k) d ++ fu ++ [unlock_event s (call_base k)])
      as Heq by (rewrite (du_trace _ _ _ _ _ Hev) in Ht; by apply app_inv_head in Ht).
    destruct (du_inv _ _ _ _ _ Hev evs1 evs2 (eq_sym Heq)) as (x & Hx & Hv).
    pose proof (moment_view en k s A _ _ Hwf Hk Hrc Hl Hv pa) as Hpa. rewrite Hpa. case_decide as Hs; [|by left].
    assert (view s pa = Some (cur_gpi s (call_base k) A)) as Hold.
    { pose proof (moment_view en k s A _ _ Hwf Hk Hrc Hl (same_view_at s A _ _ _ _ (same_view_refl A _ _
        (to_mapped _ _ _ (links_ok s _ _ A (wg_mem _ Hwf) Hl)))) pa) as H0.
      rewrite decide_True in H0 by done. exact H0. }
    rewrite Hold. rewrite !elem_of_cons in Hx. destruct Hx as [->|[->|[->|Hx]]]; [by left|right..|by apply elem_of_nil in Hx];
      split_and!; tauto.
  - left. by rewrite (refused_moment _ _ _ _ _ H Ht).
Qed.

(** ** Maintenance *)

(** The events of a successful call and what they show. *)
Lemma moved_events en k s s' :
  ready en s -> valid_call k -> transition k s = Done (0, 1) s' ->
  exists A cur d sh fu, view s (call_base k) = Some cur /\ movable cur = true /\ movable (call_target k) = true /\
    allowed en (call_src k) cur (call_target k) = true /\
    gpt_trace s' = gpt_trace s ++ [lock_event s (call_base k)] ++ sh ++
      protocol s (call_base k) A cur (call_target k) d ++ fu ++ [unlock_event s (call_base k)] /\
    (forall l1 l2, sh = l1 ++ l2 -> gpi_at (gpt_config s) (replay l1 (gpt_mem s)) (call_base k) = Some cur) /\
    (swap cur (call_target k) = false -> non_secure_kind (call_target k) = true ->
       gpi_at (gpt_config s) (replay (sh ++ [Store (elem A (GPT_L1_INDEX s (call_base k)))
         (set_nib d ((call_base k / 2 ^ gc_p (gpt_config s)) mod 16) GPT_GPI_NO_ACCESS)]) (gpt_mem s)) (call_base k) =
       Some GPT_GPI_NO_ACCESS) /\
    Forall (touches (place s (call_base k) A)) (sh ++ protocol s (call_base k) A cur (call_target k) d ++ fu) /\
    links s (gpt_mem s) (call_base k / 2 ^ GPT_S_VAL) A.
Proof.
  intros Hr Hk Hrun. destruct (call_run en k s Hr Hk) as (s1 & Hrun1 & H). rewrite Hrun in Hrun1.
  injection Hrun1 as Hrc _ <-. symmetry in Hrc. rewrite Hrc in H. cbn [Z.eqb] in H.
  destruct Hr as [Hwf Hp Hc]. destruct H as (A & d & sh & fu & Hl & Hcur & Hev & Hsh & Hna & _).
  destruct (rc_ok en k s Hrc) as (_ & _ & _ & Hall). rewrite Hcur in Hall.
  destruct (allowed_movable _ _ _ _ Hall) as [M1 M2].
  pose proof (fun x m Hv => moment_view en k s A x m Hwf Hk Hrc Hl Hv (call_base k)) as Hm.
  assert (same s (call_base k) (call_base k)) as Hs by done.
  exists A, (cur_gpi s (call_base k) A), d, sh, fu. split_and!; try done.
  - pose proof (Hm _ _ (Hsh [] sh eq_refl)) as H. rewrite decide_True in H by done. exact H.
  - apply (du_trace _ _ _ _ _ Hev).
  - intros l1 l2 Heq. rewrite (Hm _ _ (Hsh l1 l2 Heq)). by rewrite decide_True.
  - intros H1 H2. rewrite (Hm _ _ (Hna H1 H2)). by rewrite decide_True.
  - pose proof (du_touch _ _ _ _ _ Hev) as Ht. rewrite !Forall_app in Ht. rewrite !Forall_app. tauto.
Qed.

(** The maintenance of the TLBs and caches for a granule of a call. *)
Definition tlbi_of (k : call_t) (s : gpt_state) : gpt_event := TlbiRpalos (call_base k) (2 ^ gc_p (gpt_config s)).
Definition flush_of (k : call_t) (g : Z) (s : gpt_state) : gpt_event :=
  FlushToPopa is_feat_mte2_supported (Z.lor (call_base k) (nse_of g)) (2 ^ gc_p (gpt_config s)).

Lemma replay_quiet l l' m : Forall (fun e => forall m, replay [e] m = m) l' -> replay (l ++ l') m = replay l m.
Proof.
  intros Hq. rewrite replay_app. generalize (replay l m) as m'. clear m l.
  induction Hq as [|e l He _ IH]; intros m; [done|]. change (e :: l) with ([e] ++ l). by rewrite replay_app, He.
Qed.

(** C20. A granule that returns to the non-secure world is scrubbed before it is
    accessible there: at any moment at which the walk finds the target GPI, the
    call has made the granule inaccessible, and since then invalidated its TLB
    entries and flushed it from the caches of the old and of the new address
    space, in this order. *)
Theorem scrubbed_before_return en k s s' cur evs1 evs2 :
  ready en s -> valid_call k -> transition k s = Done (0, 1) s' ->
  view s (call_base k) = Some cur -> non_secure_kind cur = false -> non_secure_kind (call_target k) = true ->
  gpt_trace s' = gpt_trace s ++ evs1 ++ evs2 ->
  gpi_at (gpt_config s) (replay evs1 (gpt_mem s)) (call_base k) = Some (call_target k) ->
  exists e1 e2, evs1 = e1 ++ [tlbi_of k s; flush_of k cur s; flush_of k (call_target k) s] ++ e2 /\
    gpi_at (gpt_config s) (replay e1 (gpt_mem s)) (call_base k) = Some GPT_GPI_NO_ACCESS.
Proof.
  intros Hr Hk Hrun Hcur Hnc Hnt Ht Hat.
  destruct (moved_events en k s s' Hr Hk Hrun) as (A & cur' & d & sh & fu & Hcur' & M1 & M2 & _ & Htr & Hsh & Hna & _).
  rewrite Hcur in Hcur'. injection Hcur' as <-. rewrite Ht in Htr. apply app_inv_head in Htr.
  assert (swap cur (call_target k) = false) as Hsw.
  { unfold swap, non_secure_kind in *. apply orb_false_iff in Hnc as [-> ->]. by rewrite !andb_false_r. }
  specialize (Hna Hsw Hnt). revert Htr. unfold protocol. rewrite Hsw, Hnt. cbv zeta.
  set (st0 := Store (elem A (GPT_L1_INDEX s (call_base k))) (set_nib d _ GPT_GPI_NO_ACCESS)) in *.
  set (st1 := Store (elem A (GPT_L1_INDEX s (call_base k))) _).
  fold (tlbi_of k s) (flush_of k cur s) (flush_of k (call_target k) s).
  set (q := [tlbi_of k s; flush_of k cur s; flush_of k (call_target k) s]).
  set (lk := [lock_event s (call_base k)]) in *. intros Htr.
  assert (forall l m, replay (lk ++ l) m = replay l m) as Hlk
    by (intros l m; unfold lk; rewrite replay_app; by rewrite (proj1 (lock_quiet s (call_base k) m))).
  assert (evs1 ++ evs2 = ((lk ++ sh ++ [st0]) ++ q) ++ [st1; tlbi_of k s] ++ fu ++ [unlock_event s (call_base k)])
    as Heq by (rewrite Htr; unfold q; by rewrite <- !app_assoc).
  clear Htr. apply app_eq_app in Heq as (l & [[-> _]|[Heq _]]).
  { exists (lk ++ sh ++ [st0]), l. split; [by rewrite <- !app_assoc|]. by rewrite Hlk. }
  exfalso. destruct (movable_desc en s (call_target k) (rd_policy _ _ Hr) M2) as (_ & _ & Hne & _).
  symmetry in Heq. apply app_eq_app in Heq as (l' & [[Heq Hq]|[Heq _]]).
  - assert (Forall (fun e => forall m, replay [e] m = m) l') as Hquiet.
    { assert (Forall (fun e => forall m, replay [e] m = m) q) as H by (by repeat constructor).
      rewrite Hq in H. by apply Forall_app in H as [H _]. }
    subst evs1. rewrite replay_quiet, Hlk, Hna in Hat by done. congruence.
  - assert (gpi_at (gpt_config s) (replay evs1 (gpt_mem s)) (call_base k) = Some cur \/
            gpi_at (gpt_config s) (replay evs1 (gpt_mem s)) (call_base k) = Some GPT_GPI_NO_ACCESS) as Hold.
    { destruct evs1 as [|e evs1]; [by left|]. injection Heq as <- Heq.
      change (lock_event s (call_base k) :: evs1) with (lk ++ evs1). rewrite Hlk.
      apply app_eq_app in Heq as (l2 & [[-> Hl2]|[-> Hl2]]); [by left; apply (Hsh _ l2)|].
      destruct l2 as [|e l2]; [left; rewrite app_nil_r; by apply (Hsh sh []); rewrite app_nil_r|].
      injection Hl2 as <- [-> ->]%eq_sym%app_eq_nil. by right. }
    rewrite Hat in Hold. destruct Hold as [[= Hx]|[= Hx]]; [congruence|done].
Qed.

(** ** Sequences of calls *)

Definition calls (l : list call_t) : gpt unit := for_each l (fun k => transition k ;; ret tt).

Lemma allowed_worlds en src cur tgt : allowed en src cur tgt = true ->
  (src <> SMC_FROM_REALM -> cur <> GPT_GPI_REALM /\ tgt <> GPT_GPI_REALM) /\
  (src <> SMC_FROM_SECURE -> cur <> GPT_GPI_SECURE /\ tgt <> GPT_GPI_SECURE).
Proof.
  unfold allowed, non_secure_kind, device_kind, SMC_FROM_REALM, SMC_FROM_SECURE, SMC_FROM_NON_SECURE, GPT_GPI_REALM,
    GPT_GPI_SECURE, GPT_GPI_NS, GPT_GPI_NSO, GPT_GPI_NSP, GPT_GPI_SA.
  destruct (Z.eqb_spec src 0), (Z.eqb_spec src 0x21), (Z.eqb_spec src 1); rewrite ?orb_true_iff, ?andb_true_iff, ?orb_true_iff,
    ?Z.eqb_eq; try done; lia.
Qed.

(** One call seen from one address. *)
Lemma call_world en k s pa g :
  ready en s -> valid_call k -> view s pa = Some g ->
  exists r s' g', transition k s = Done r s' /\ ready en s' /\ view s' pa = Some g' /\
    (movable g = false -> g' = g) /\
    (call_src k <> SMC_FROM_REALM -> g = GPT_GPI_REALM <-> g' = GPT_GPI_REALM) /\
    (call_src k <> SMC_FROM_SECURE -> g = GPT_GPI_SECURE <-> g' = GPT_GPI_SECURE).
Proof.
  intros Hr Hk Hg. destruct (call_effect en k s Hr Hk) as (s' & Hrun & Hr' & _ & Hv). specialize (Hv pa).
  case_decide as Hd; [|by eexists _, s', g; rewrite Hv].
  destruct Hd as [Hrc Hs]. eexists _, s', (call_target k). split_and!; [exact Hrun|done|done|..];
    destruct (rc_ok en k s Hrc) as (_ & _ & _ & Hall);
    replace (gpi_of s (call_base k)) with g in Hall
      by (unfold gpi_of; fold (view s (call_base k)); by rewrite <- (view_same_granule s pa), Hg by (done || apply Hr));
    destruct (allowed_movable _ _ _ _ Hall), (allowed_worlds _ _ _ _ Hall) as [W1 W2]; [congruence|..].
  - intros H1. destruct (W1 H1). done.
  - intros H1. destruct (W2 H1). done.
Qed.

(** C16. Worlds stay apart under any sequence of calls: every call returns and
    the tables stay well formed; granules that are root, inaccessible or open to
    all keep their GPI; a granule becomes or stops being a realm granule only by
    calls from the realm world, and a secure one only by calls from the secure
    world. *)
Theorem worlds_stay_apart en l s pa g :
  ready en s -> Forall valid_call l -> view s pa = Some g ->
  exists s' g', calls l s = Done tt s' /\ ready en s' /\ view s' pa = Some g' /\
    (movable g = false -> g' = g) /\
    (Forall (fun k => call_src k <> SMC_FROM_REALM) l -> g = GPT_GPI_REALM <-> g' = GPT_GPI_REALM) /\
    (Forall (fun k => call_src k <> SMC_FROM_SECURE) l -> g = GPT_GPI_SECURE <-> g' = GPT_GPI_SECURE).
Proof.
  intros Hr Hl. revert s g Hr. induction Hl as [|k l Hk _ IH]; intros s g Hr Hg.
  { exists s, g. done. }
  destruct (call_world en k s pa g Hr Hk Hg) as (r & s1 & g1 & Hrun & Hr1 & Hg1 & M1 & R1 & S1).
  destruct (IH s1 g1 Hr1 Hg1) as (s2 & g2 & Hrun2 & Hr2 & Hg2 & M2 & R2 & S2). exists s2, g2.
  split; [|split; [done|split; [done|split]]].
  - unfold calls. cbn [for_each]. unfold bind. rewrite Hrun. exact Hrun2.
  - intros H. rewrite M2, M1; [done|done|by rewrite M1].
  - rewrite !Forall_cons. split; intros [H1 H2]; [rewrite (R1 H1); by apply R2|rewrite (S1 H1); by apply S2].
Qed.

(** ** Locks *)

Lemma l1_word_links s pa a : wf_gpt s -> l1_word s pa = Some a ->
  exists A, links s (gpt_mem s) (pa / 2 ^ GPT_S_VAL) A /\ a = elem A (GPT_L1_INDEX s pa).
Proof.
  intros Hwf. unfold l1_word. case_decide as Hpa; [|done].
  destruct (wm_l0 _ _ (wg_mem _ Hwf) _ (l0_index s (wg_geo _ Hwf) pa Hpa)) as [(g & Hg & Hd)|(A & Hl & Ht)].
  - rewrite Hd. cbn [mbind option_bind]. replace (1 + 16 * g) with (1 + g * 16) by lia. by rewrite Z.mod_add by lia.
  - pose proof Hl as (_ & Hal & Hd). rewrite Hd. cbn [mbind option_bind].
    destruct (link_desc A (to_range _ _ _ Ht) Hal) as [-> ->]. intros [= <-]. by exists A.
Qed.

(** The 512MB block of an address is its region and a block of its table. *)
Lemma block_512mb s pa : geo s ->
  pa / SZ_512M = pa / 2 ^ GPT_S_VAL * 2 ^ (GPT_S_VAL - 29) + blk (gc_p (gpt_config s)) 3 (GPT_L1_INDEX s pa).
Proof.
  intros Hgeo. pose proof (geo_pow s Hgeo) as Hpow. rewrite l1_index by done. unfold blk, l1_entries.
  set (p := gc_p (gpt_config s)) in *. set (q := pa / 2 ^ (p + 4)).
  assert (0 < 2 ^ (p + 4) /\ 0 < 2 ^ (25 - p) /\ 0 < 2 ^ (GPT_S_VAL - 29)) as (P1 & P2 & P3)
    by (split_and!; apply Z.pow_pos_nonneg; lia).
  assert (pa / SZ_512M = q / 2 ^ (25 - p)) as ->.
  { unfold q. rewrite Z.div_div, <- Z.pow_add_r by lia. replace (p + 4 + (25 - p)) with 29 by lia. done. }
  assert (2 ^ (GPT_S_VAL - p - 4) = 2 ^ (25 - p) * 2 ^ (GPT_S_VAL - 29)) as HN
    by (rewrite <- Z.pow_add_r by lia; f_equal; lia).
  assert (pa / 2 ^ GPT_S_VAL = q / (2 ^ (25 - p) * 2 ^ (GPT_S_VAL - 29))) as ->.
  { unfold q. rewrite Z.div_div by nia. do 2 f_equal. rewrite <- HN, <- Z.pow_add_r by lia. f_equal. lia. }
  rewrite HN. replace (13 - p + 4 * 3) with (25 - p) by lia.
  set (a := 2 ^ (25 - p)) in *. set (b := 2 ^ (GPT_S_VAL - 29)) in *.
  rewrite (Z.div_mod q (a * b)) at 1 by nia. replace (a * b * (q / (a * b))) with (q / (a * b) * b * a) by ring.
  by rewrite Z.div_add_l by lia.
Qed.

(** Every entry of a table describes some address of its region. *)
Lemma entry_address s k j : geo s -> 0 <= j < l1_entries s ->
  exists pa, pa / 2 ^ GPT_S_VAL = k /\ GPT_L1_INDEX s pa = j.
Proof.
  intros Hgeo Hj. pose proof (geo_pow s Hgeo) as Hpow. set (p := gc_p (gpt_config s)) in *.
  exists ((k * l1_entries s + j) * 2 ^ (p + 4)). assert (0 < 2 ^ (p + 4)) by (apply Z.pow_pos_nonneg; lia). split.
  - replace (2 ^ GPT_S_VAL) with (2 ^ (p + 4) * l1_entries s)
      by (unfold l1_entries; rewrite <- Z.pow_add_r by lia; f_equal; unfold p; lia).
    rewrite <- Z.div_div, Z.div_mul, Z.div_add_l by lia. rewrite (Z.div_small j) by done. lia.
  - rewrite l1_index by done. fold p. rewrite Z.div_mul by lia. rewrite Z.add_comm, Z.mod_add by lia.
    by apply Z.mod_small.
Qed.

Context (Hlock : 0 <= RME_GPT_BITLOCK_BLOCK).

Lemma lock_of_block s pa pa' : pa / SZ_512M = pa' / SZ_512M -> lock_event s pa = lock_event s pa'.
Proof.
  intros H. unfold lock_event. destruct (Z.eqb_spec RME_GPT_BITLOCK_BLOCK 0); [done|].
  unfold lock_addr, lock_mask. rewrite (Z.mul_comm RME_GPT_BITLOCK_BLOCK), <- !Z.div_div by (done || lia).
  by rewrite H.
Qed.

Lemma near_block s base pa : geo s ->
  pa / 2 ^ GPT_S_VAL = base / 2 ^ GPT_S_VAL -> near s base (GPT_L1_INDEX s pa) -> pa / SZ_512M = base / SZ_512M.
Proof. intros Hgeo H1 H2. rewrite !(block_512mb s) by done. by rewrite H1, H2. Qed.

Lemma block_in_space s base pa : geo s ->
  0 <= base < 2 ^ gc_t (gpt_config s) -> pa / SZ_512M = base / SZ_512M -> 0 <= pa < 2 ^ gc_t (gpt_config s).
Proof.
  intros Hgeo Hb H. assert (2 ^ gc_t (gpt_config s) = 2 ^ (gc_t (gpt_config s) - 29) * SZ_512M) as HT.
  { change SZ_512M with (2 ^ 29). rewrite <- Z.pow_add_r by (destruct (geo_t _ Hgeo); lia). f_equal. lia. }
  rewrite HT in *. set (n := 2 ^ _) in *. assert (0 < SZ_512M) as HS by done.
  pose proof (Z.div_pos base SZ_512M ltac:(lia) HS).
  assert (base / SZ_512M < n) by (apply Z.div_lt_upper_bound; lia). rewrite <- H in *.
  pose proof (Z.div_mod pa SZ_512M ltac:(lia)). pose proof (Z.mod_pos_bound pa SZ_512M HS). nia.
Qed.

(** C24. A call that moves a granule takes one lock first and releases it last,
    and every store in between is to a word of a level 1 table all of whose
    addresses are protected by this lock: two calls that write the same word
    hold the same lock, however much the blocks they break up or join extend. *)
Theorem stores_under_lock en k s s' :
  ready en s -> valid_call k -> transition k s = Done (0, 1) s' ->
  exists body, gpt_trace s' = gpt_trace s ++ [lock_event s (call_base k)] ++ body ++ [unlock_event s (call_base k)] /\
    forall a v, Store a v ∈ body -> exists pa, l1_word s pa = Some a /\
      forall pa', l1_word s pa' = Some a -> lock_event s pa' = lock_event s (call_base k).
Proof.
  intros Hr Hk Hrun. pose proof (rd_wf _ _ Hr) as Hwf. pose proof (wg_geo _ Hwf) as Hgeo.
  destruct (call_run en k s Hr Hk) as (s1 & Hrun1 & _). rewrite Hrun in Hrun1. injection Hrun1 as Hrc _ _.
  pose proof (base_in_space en k s Hwf Hk (eq_sym Hrc)) as Hb.
  destruct (moved_events en k s s' Hr Hk Hrun) as (A & cur & d & sh & fu & _ & _ & _ & _ & Htr & _ & _ & Hpl & Hl).
  exists (sh ++ protocol s (call_base k) A cur (call_target k) d ++ fu). split; [by rewrite Htr, <- !app_assoc|].
  intros a v Hin. rewrite Forall_forall in Hpl. specialize (Hpl _ Hin) as (j & -> & Hj & Hnear).
  pose proof (links_ok s _ _ A (wg_mem _ Hwf) Hl) as Ht. pose proof Hl as (_ & Hal & Hd).
  destruct (entry_address s (call_base k / 2 ^ GPT_S_VAL) j Hgeo Hj) as (pa & H1 & H2). exists pa. split.
  - unfold l1_word. rewrite decide_True.
    + rewrite H1, Hd. cbn [mbind option_bind]. destruct (link_desc A (to_range _ _ _ Ht) Hal) as [-> ->]. by rewrite H2.
    + apply (block_in_space s (call_base k)); [done|done|]. apply (near_block s); [done|done|by rewrite H2].
  - intros pa' (A' & Hl' & Heq)%l1_word_links; [|done].
    pose proof (links_ok s _ _ A' (wg_mem _ Hwf) Hl') as Ht'.
    pose proof (l1_index_range s Hgeo pa') as Hi'.
    assert (A = A') as <- by (by apply (tables_apart s Hgeo A A' j (GPT_L1_INDEX s pa')); [apply Ht|apply Ht'|..]).
    apply elem_inj in Heq. apply lock_of_block, (near_block s); [done| |by rewrite <- Heq].
    by apply (wm_inj _ _ (wg_mem _ Hwf) _ _ A).
Qed.
End Props.
