(* ===== verification/GptBoot.v ===== *)
(** * Granule protection tables: from one boot stage to the next

    The stage that builds the tables sets the registers with [gpt_enable]; the
    runtime firmware, whose variables are initial, recovers the configuration
    from the registers with [gpt_runtime_init]. *)

From stdpp Require Import list_numbers gmap.
From S2P Require Import Prelude GptDefs Gpt GptTable GptBlocks GptView GptPolicy GptTransition GptProps.
#[local] Open Scope cmd_scope.

Section Boot.
Context `{Cfg : GptConfig}.

(** The configuration that the registers can hold. *)
Record encodable (c : gpt_config_t) : Prop := {
  en_base : 0 < plat_gpt_l0_base c < 2 ^ 52;
  en_align : plat_gpt_l0_base c mod 2 ^ 12 = 0;
  en_t : gpt_t_lookup.[gc_pps c] = Some (gc_t c);
  en_p : gpt_p_lookup.[gc_pgs c] = Some (gc_p c)
}.

(** What [gpt_enable] leaves in GPCCR_EL3. *)
Definition gpccr_value (c : gpt_config_t) : Z :=
  Z.lor (Z.lor (Z.lor (Z.lor (Z.lor (SET_GPCCR_PPS (gc_pps c)) (SET_GPCCR_PGS (gc_pgs c))) (SET_GPCCR_SH GPCCR_SH_IS))
    (SET_GPCCR_ORGN GPCCR_ORGN_WB_RA_WA)) (SET_GPCCR_IRGN GPCCR_IRGN_WB_RA_WA))
    (Z.lor (if is_feat_rme_gdi_supported then Z.lor GPCCR_NSP_BIT GPCCR_SA_BIT else 0)
       (Z.lor GPCCR_GPC_BIT (if is_feat_rme_gpc2_supported then GPCCR_NSO_BIT else 0))).

Lemma pps_cases c : encodable c -> 0 <= gc_pps c < 7 /\ 0 <= gc_pgs c < 3.
Proof.
  intros [_ _ Ht Hp]. apply zlookup_lt_Some in Ht, Hp. done.
Qed.

(** A table with the entries that [gpt_enable] changes. *)
Definition shaped (l : list gpi_lookup_t) : Prop :=
  forall g, 0 <= g < 16 -> exists x, l.[g] = Some x /\ length (gl_policy x) = 3%nat.

Lemma table_shaped en : shaped (gpi_table en).
Proof.
  intros g Hg. assert (match (gpi_table en).[g] with Some x => Nat.eqb (length (gl_policy x)) 3 | None => false end = true)
    as H. { revert g Hg. by apply all_gpis. }
  destruct ((gpi_table en).[g]) as [x|]; [|done]. exists x. split; [done|by apply Nat.eqb_eq].
Qed.

Lemma wp_policy_or g b Q s :
  shaped (gpi_config s) -> 0 <= g < 16 -> (forall l, shaped l -> Q tt (set_gpi_config l s)) ->
  wpd (policy_or g SMC_FROM_NON_SECURE b) Q s.
Proof.
  intros Hs Hg HQ. unfold policy_or. wp_steps. unfold id. destruct (Hs g Hg) as (x & Hx & Hlen).
  eapply wp_deref; [exact Hx|]. wp_step.
  destruct (proj2 (zlookup_lt_is_Some (gl_policy x) SMC_FROM_NON_SECURE)) as [v Hv]; [by rewrite Hlen|].
  eapply wp_deref; [exact Hv|]. cbv zeta. wp_steps. apply HQ. intros g' Hg'. destruct (Hs g' Hg') as (y & Hy & Hlen').
  rewrite (zlookup_zupdate _ _ _ _ x Hx). case_decide; [|by exists y].
  eexists. split; [done|]. cbn [gl_policy]. by rewrite length_zupdate.
Qed.

Lemma enable_regs s : encodable (gpt_config s) -> shaped (gpi_config s) ->
  wpd gpt_enable (fun rc s' => rc = 0 /\ gptbr_el3 s' = plat_gpt_l0_base (gpt_config s) / 2 ^ 12 /\
    gpccr_el3 s' = gpccr_value (gpt_config s)) s.
Proof.
  intros Hc Hs. destruct Hc as [Hb Hal _ _]. unfold gpt_enable. wp_steps. unfold id.
  rewrite (proj2 (Z.eqb_neq _ _)) by lia. unfold write_gptbr_el3, write_gpccr_el3, emit_gpt.
  assert (Z.land (Z.shiftr (Z.shiftr (plat_gpt_l0_base (gpt_config s)) GPTBR_BADDR_VAL_SHIFT) GPTBR_BADDR_SHIFT)
    GPTBR_BADDR_MASK = plat_gpt_l0_base (gpt_config s) / 2 ^ 12) as ->.
  { change GPTBR_BADDR_SHIFT with 0. rewrite Z.shiftr_0_r, Z.shiftr_div_pow2 by done.
    change GPTBR_BADDR_MASK with (Z.ones 40). rewrite Z.land_ones by lia. apply Z.mod_small.
    change GPTBR_BADDR_VAL_SHIFT with 12. split; [apply Z.div_pos; lia|apply Z.div_lt_upper_bound; lia]. }
  wp_steps. cbv zeta. unfold gpccr_value.
  destruct is_feat_rme_gdi_supported, is_feat_rme_gpc2_supported; cbn [when]; wp_steps;
    repeat (apply wp_policy_or; [done|by vm_compute|intros ? ?]; wp_steps);
    (split; [done|]; split; [done|]); cbn [gpccr_el3 set_gpt_regs add_gpt_event set_gpi_config];
    rewrite ?Z.lor_0_r, ?Z.lor_0_l, ?Z.lor_assoc; done.
Qed.

Lemma gpccr_fields c : encodable c ->
  is_set (gpccr_value c) GPCCR_GPC_BIT = true /\
  Z.land (Z.shiftr (gpccr_value c) GPCCR_PPS_SHIFT) GPCCR_PPS_MASK = gc_pps c /\
  Z.land (Z.shiftr (gpccr_value c) GPCCR_PGS_SHIFT) GPCCR_PGS_MASK = gc_pgs c.
Proof.
  intros Hc. destruct (pps_cases c Hc) as [H1 H2]. clear Hc. unfold gpccr_value.
  destruct c as [b pps t pgs p]. cbn [gc_pps gc_pgs] in *.
  assert (pps = 0 \/ pps = 1 \/ pps = 2 \/ pps = 3 \/ pps = 4 \/ pps = 5 \/ pps = 6) as Hpps by lia.
  assert (pgs = 0 \/ pgs = 1 \/ pgs = 2) as Hpgs by lia. clear H1 H2.
  destruct_or! Hpps; destruct_or! Hpgs; subst;
    destruct is_feat_rme_gdi_supported, is_feat_rme_gpc2_supported; done.
Qed.

Lemma geo_of s cnt mask c :
  geo s -> gpt_config s = c -> cnt = u32 (GPT_L1_ENTRY_COUNT_2MB (gc_p c)) -> mask = GPT_L1_IDX_MASK (gc_p c) ->
  forall s', gpt_config s' = c -> gpt_l1_cnt_2mb s' = cnt -> gpt_l1_index_mask s' = mask -> geo s'.
Proof.
  intros [G1 G2 G3 G4 _ _] <- -> -> s' H1 H2 H3. split; rewrite ?H1; [done..| |].
  - rewrite H2. by destruct G3 as [->|[->| ->]].
  - rewrite H3. unfold GPT_L1_IDX_MASK, GPT_L1_IDX_WIDTH.
    destruct G1 as [->|[->|[->| ->]]], G3 as [->|[->| ->]]; done.
Qed.

(** The bytes that the bit locks need, as [gpt_runtime_init] checks them. *)
Definition locks_missing (c : gpt_config_t) (size : Z) : bool :=
  negb (RME_GPT_BITLOCK_BLOCK =? 0) &&
  (LOCK_SIZE <=? GPT_PPS_ACTUAL_SIZE (gc_t c) / (RME_GPT_BITLOCK_BLOCK * SZ_512M * 8)) &&
  (size <? GPT_PPS_ACTUAL_SIZE (gc_t c) / (RME_GPT_BITLOCK_BLOCK * SZ_512M * 8)).

(** The bytes that are cleared for the bit locks: at least one. *)
Definition locks_bytes (c : gpt_config_t) : Z :=
  if RME_GPT_BITLOCK_BLOCK =? 0 then 0
  else Z.max LOCK_SIZE (GPT_PPS_ACTUAL_SIZE (gc_t c) / (RME_GPT_BITLOCK_BLOCK * SZ_512M * 8)).

(** *** Memory outside the tables *)

(** The address of an entry of the level 0 table or of a linked level 1 table. *)
Definition table_word (s : gpt_state) (a : Z) : Prop :=
  (exists k, 0 <= k < l0_entries s /\ a = elem (plat_gpt_l0_base (gpt_config s)) k) \/
  (exists k A j, links s (gpt_mem s) k A /\ 0 <= j < l1_entries s /\ a = elem A j).

(** None of the [size] bytes from [base] on belongs to the tables. *)
Definition apart_from_tables (s : gpt_state) (base size : Z) : Prop :=
  forall a, table_word s a -> a + 8 <= base \/ base + size <= a.

Lemma fill_word_apart base v size a w : a + 8 <= base \/ base + size <= a -> fill_word base v size a w = w.
Proof.
  intros H. unfold fill_word.
  assert (forall j, 0 <= j < 8 -> (base <=? a + j) && (a + j <? base + size) = false) as Hj
    by (intros j Hj; destruct (Z.leb_spec base (a + j)), (Z.ltb_spec (a + j) (base + size)); try done; lia).
  cbn [fold_left]. by rewrite !Hj by lia.
Qed.

Lemma fill_bytes_apart s base v size a :
  apart_from_tables s base size -> table_word s a -> fill_bytes base v size (gpt_mem s) !! a = gpt_mem s !! a.
Proof.
  intros Hap Ha. unfold fill_bytes. rewrite map_lookup_imap. destruct (gpt_mem s !! a) as [w|]; [|done].
  cbn [mbind option_bind]. by rewrite fill_word_apart by (by apply Hap).
Qed.

Section Outside.
Context (s : gpt_state) (m : gmap Z Z) (Hwf : wf_gpt s).
Context (Hm : forall a, table_word s a -> m !! a = gpt_mem s !! a).

Lemma outside_l0 k : 0 <= k < l0_entries s ->
  m !! elem (plat_gpt_l0_base (gpt_config s)) k = gpt_mem s !! elem (plat_gpt_l0_base (gpt_config s)) k.
Proof. intros Hk. apply Hm. left. by exists k. Qed.

Lemma outside_links k A : links s m k A <-> links s (gpt_mem s) k A.
Proof.
  unfold links. split; intros (Hk & HA & Hd).
  - rewrite outside_l0 in Hd by done. done.
  - rewrite outside_l0 by done. done.
Qed.

Lemma outside_tab k A : links s (gpt_mem s) k A ->
  forall j, tab A (l1_entries s) m j = tab A (l1_entries s) (gpt_mem s) j.
Proof.
  intros Hl j. unfold tab. case_decide as Hj; [|done]. rewrite Hm; [done|]. right. by exists k, A, j.
Qed.

Lemma outside_wf : wf_mem s m.
Proof.
  pose proof (wg_mem _ Hwf) as [W1 W2]. split.
  - intros k Hk. rewrite outside_l0 by done. destruct (W1 k Hk) as [Hb|(A & Hl & Ht)]; [by left|].
    right. exists A. split; [by apply outside_links|]. pose proof (outside_tab k A Hl) as Htab.
    destruct Ht as [T1 T2 T3 T4 T5 T6]. split; try done.
    + intros j Hj. rewrite Hm; [by apply T3|]. right. by exists k, A, j.
    + intros j. specialize (T4 j). unfold wf_entry in *. rewrite Htab. destruct T4 as [T4|(c & g & H1 & H2 & H3)]; [by left|].
      right. exists c, g. split; [done|]. split; [done|]. intros j' Hj'. rewrite Htab. by apply H3.
    + intros H0 j. rewrite Htab. by apply T5.
  - intros k k' A H1%outside_links H2%outside_links. by eapply W2.
Qed.

Lemma outside_view pa : gpi_at (gpt_config s) m pa = view s pa.
Proof.
  unfold view, gpi_at. case_decide as Hpa; [|done]. pose proof (wg_geo _ Hwf) as Hgeo.
  pose proof (l0_index s Hgeo pa Hpa) as Hk. rewrite outside_l0 by done.
  destruct (wm_l0 _ _ (wg_mem _ Hwf) _ Hk) as [(g & Hg & ->)|(A & Hl & Ht)]; cbn [mbind option_bind].
  { replace (1 + 16 * g) with (1 + g * 16) by lia. by rewrite Z.mod_add by lia. }
  pose proof Hl as (_ & Hal & ->). cbn [mbind option_bind].
  destruct (link_desc A (to_range _ _ _ Ht) Hal) as [-> ->]. cbn [Z.eqb Pos.eqb].
  rewrite (index_walk s Hgeo). rewrite Hm; [done|]. right. exists (pa / 2 ^ GPT_S_VAL), A, (GPT_L1_INDEX s pa).
  split_and!; [done|..|done]; rewrite l1_index by done; pose proof (n_pos s Hgeo); apply Z.mod_pos_bound; lia.
Qed.
End Outside.

(** *** Initialisation of the runtime firmware *)

(** The memory that [gpt_runtime_init] leaves. *)
Definition runtime_mem (s : gpt_state) (base size : Z) : gmap Z Z :=
  if locks_missing (gpt_config s) size || (RME_GPT_BITLOCK_BLOCK =? 0) then gpt_mem s
  else fill_bytes base 0 (locks_bytes (gpt_config s)) (gpt_mem s).

Lemma wp_gpt_runtime_init s s2 base size :
  wf_gpt s -> encodable (gpt_config s) -> sctlr_c_bit = true ->
  gptbr_el3 s2 = plat_gpt_l0_base (gpt_config s) / 2 ^ 12 -> gpccr_el3 s2 = gpccr_value (gpt_config s) ->
  gpt_mem s2 = gpt_mem s ->
  wpd (gpt_runtime_init base size) (fun rc s3 =>
    rc = (if locks_missing (gpt_config s) size then - ENOMEM else 0) /\ gpt_config s3 = gpt_config s /\
    gpi_config s3 = gpi_config s2 /\ gpt_mem s3 = runtime_mem s base size /\ geo s3 /\
    (rc = 0 -> RME_GPT_BITLOCK_BLOCK <> 0 -> gpt_bitlock s3 = base)) s2.
Proof.
  intros Hwf Hc Hcache Hbr Hcc Hmem. destruct (gpccr_fields _ Hc) as (F1 & F2 & F3).
  unfold gpt_runtime_init. wp_steps. apply wp_assert; [done|]. wp_steps. unfold id. rewrite Hcc, F1, F2, F3, Hbr.
  cbn [negb]. cbv zeta. wp_step. eapply wp_deref; [apply Hc|]. wp_step. eapply wp_deref; [apply Hc|]. wp_steps.
  assert (Z.shiftl (Z.land (Z.shiftr (plat_gpt_l0_base (gpt_config s) / 2 ^ 12) GPTBR_BADDR_SHIFT) GPTBR_BADDR_MASK)
    GPTBR_BADDR_VAL_SHIFT = plat_gpt_l0_base (gpt_config s)) as ->.
  { destruct Hc as [Hb Hal _ _]. change GPTBR_BADDR_SHIFT with 0. change GPTBR_BADDR_MASK with (Z.ones 40).
    rewrite Z.shiftr_0_r, Z.land_ones, Z.mod_small, Z.shiftl_mul_pow2
      by (done || (split; [apply Z.div_pos|apply Z.div_lt_upper_bound]; lia)).
    change GPTBR_BADDR_VAL_SHIFT with 12. rewrite (Z.div_mod (plat_gpt_l0_base _) (2 ^ 12)) at 2 by done. lia. }
  assert (forall s3, gpt_config s3 = gpt_config s ->
    gpt_l1_cnt_2mb s3 = u32 (GPT_L1_ENTRY_COUNT_2MB (gc_p (gpt_config s))) ->
    gpt_l1_index_mask s3 = GPT_L1_IDX_MASK (gc_p (gpt_config s)) -> geo s3) as Hgeo
    by (intros s3; apply (geo_of s _ _ (gpt_config s) (wg_geo _ Hwf) eq_refl eq_refl eq_refl)).
  replace {| plat_gpt_l0_base := plat_gpt_l0_base (gpt_config s); gc_pps := gc_pps (gpt_config s);
    gc_t := gc_t (gpt_config s); gc_pgs := gc_pgs (gpt_config s); gc_p := gc_p (gpt_config s) |}
    with (gpt_config s) by (by destruct (gpt_config s)).
  unfold runtime_mem, locks_missing, locks_bytes. destruct (Z.eqb_spec RME_GPT_BITLOCK_BLOCK 0); cbn [negb andb orb].
  { wp_steps. split_and!; [done..|by apply Hgeo|done]. }
  rewrite Z.leb_antisym, orb_false_r. destruct (negb (_ <? LOCK_SIZE) && _).
  - wp_steps. split_and!; [done..|by apply Hgeo|done].
  - unfold memset, emit_gpt. wp_steps. split_and!; [done..| |by apply Hgeo|done].
    cbn [gpt_mem set_gpt_mem add_gpt_event set_gpt_bitlock set_l1_params set_gpt_config]. rewrite Hmem. f_equal.
    destruct (Z.ltb_spec (GPT_PPS_ACTUAL_SIZE (gc_t (gpt_config s)) / (RME_GPT_BITLOCK_BLOCK * SZ_512M * 8)) LOCK_SIZE); lia.
Qed.

(** C40. What the stage that built the tables leaves in the registers with
    [gpt_enable], the runtime firmware reads back with [gpt_runtime_init]. Given
    memory for the bit locks that is apart from the tables, it returns 0 with
    that memory cleared and in use for the locks, or the error for missing
    memory; in both cases the configuration is the same, the tables have the
    same GPI for every address, and transitions can be asked for on them. The
    size of the lock memory is compared only when the protected space needs a
    byte of locks or more: for a smaller one a byte is used unchecked. The
    policies that [gpt_enable] grants to the non-secure world are variables and
    are not handed over. *)
Theorem runtime_inherits_tables s s1 s2 base size :
  wf_gpt s -> encodable (gpt_config s) -> gpi_config s = gpi_config_init -> sctlr_c_bit = true ->
  gpt_enable s = Done 0 s1 ->
  gptbr_el3 s2 = gptbr_el3 s1 -> gpccr_el3 s2 = gpccr_el3 s1 -> gpt_mem s2 = gpt_mem s1 ->
  gpi_config s2 = gpi_config_init -> apart_from_tables s base (locks_bytes (gpt_config s)) ->
  exists s3, gpt_runtime_init base size s2 =
      Done (if locks_missing (gpt_config s) size then - ENOMEM else 0) s3 /\
    ready false s3 /\ gpt_config s3 = gpt_config s /\ (forall pa, view s3 pa = view s pa) /\
    gpt_mem s3 = runtime_mem s base size /\
    (locks_missing (gpt_config s) size = false -> RME_GPT_BITLOCK_BLOCK <> 0 -> gpt_bitlock s3 = base).
Proof.
  intros Hwf Hc Hg Hcache Hrun Hbr Hcc Hmem Hg2 Hap. rewrite <- gpi_table_init in Hg, Hg2.
  pose proof (enable_regs s Hc ltac:(rewrite Hg; apply table_shaped)) as He. unfold wp in He. rewrite Hrun in He.
  destruct He as (_ & H1 & H2).
  pose proof (enable_policies false s ltac:(destruct Hc; lia) Hg) as He. unfold wp in He. rewrite Hrun in He.
  destruct He as (_ & _ & Hm & _).
  destruct (wpd_done _ _ _ (wp_gpt_runtime_init s s2 base size Hwf Hc Hcache ltac:(congruence) ltac:(congruence)
    ltac:(congruence))) as (rc & s3 & Hrun3 & -> & E1 & E2 & E3 & E4 & E5).
  assert (forall a, table_word s a -> runtime_mem s base size !! a = gpt_mem s !! a) as Hout
    by (intros a Ha; unfold runtime_mem; destruct (_ || _); [done|by apply fill_bytes_apart]).
  exists s3. split; [done|]. split; [split; [|by rewrite E2|done]|split_and!; [done| |done|]].
  - split; [done|by rewrite E1; apply Hwf|]. rewrite E3. apply (wf_mem_config s); [done|by apply outside_wf].
  - intros pa. unfold view at 1. rewrite E1, E3. by apply outside_view.
  - intros Hno. apply E5. by rewrite Hno.
Qed.
End Boot.
