(* ===== verification/GptFill.v ===== *)
(** * Granule protection tables: filling a level 1 table

    What the functions that build the tables do to one level 1 table: they give
    a range of its granules a GPI, in Granules descriptors or in the largest
    contiguous blocks that fit. *)

From stdpp Require Import list_numbers gmap.
From S2P Require Import Prelude GptDefs Gpt GptTable GptBlocks GptView.
#[local] Open Scope cmd_scope.

(** ** Masks of a descriptor *)

(** The bits of the granules [lo] to [hi] of an entry. *)
Definition masks (m lo hi : Z) : Prop :=
  forall n, 0 <= n -> Z.testbit m n = (4 * lo <=? n) && (n <? 4 * hi + 4).

Lemma masks_from lo : 0 <= lo < 16 -> masks (u64 (Z.shiftl UINT64_MAX (Z.shiftl lo 2))) lo 15.
Proof.
  intros Hlo n Hn. unfold u64. rewrite (Z.shiftl_mul_pow2 lo) by lia. replace (lo * 2 ^ 2) with (4 * lo) by lia.
  change UINT64_MAX with (Z.ones 64). destruct (Z.ltb_spec n (4 * 15 + 4)).
  - rewrite Z.mod_pow2_bits_low, Z.shiftl_spec by lia. destruct (Z.leb_spec (4 * lo) n).
    + by rewrite Z.ones_spec_low by lia.
    + by rewrite Z.testbit_neg_r by lia.
  - by rewrite Z.mod_pow2_bits_high, andb_false_r by lia.
Qed.

Lemma masks_all : masks UINT64_MAX 0 15.
Proof.
  intros n Hn. change UINT64_MAX with (Z.ones 64). rewrite Z.testbit_ones_nonneg by lia.
  by rewrite (proj2 (Z.leb_le _ _)) by lia.
Qed.

Lemma masks_to m lo hi : masks m lo 15 -> 0 <= lo -> 0 <= hi < 16 ->
  masks (Z.land m (Z.shiftr m (Z.shiftl (15 - hi) 2))) lo hi.
Proof.
  intros Hm Hlo Hhi n Hn. rewrite (Z.shiftl_mul_pow2 (15 - hi)), Z.land_spec, Z.shiftr_spec, !Hm by lia.
  replace ((15 - hi) * 2 ^ 2) with (60 - 4 * hi) by lia.
  destruct (Z.leb_spec (4 * lo) n), (Z.ltb_spec n (4 * 15 + 4)), (Z.ltb_spec n (4 * hi + 4)),
    (Z.leb_spec (4 * lo) (n + (60 - 4 * hi))), (Z.ltb_spec (n + (60 - 4 * hi)) (4 * 15 + 4)); cbn [andb]; lia.
Qed.

(** Some granules of an entry from another descriptor. *)
Definition merge (old d m : Z) : Z := Z.lor (Z.land old (Z.lnot m)) (Z.land d m).

Lemma merge_bits old d m lo hi n : masks m lo hi -> 0 <= n ->
  Z.testbit (merge old d m) n = if (4 * lo <=? n) && (n <? 4 * hi + 4) then Z.testbit d n else Z.testbit old n.
Proof.
  intros Hm Hn. unfold merge. rewrite Z.lor_spec, !Z.land_spec, Z.lnot_spec, Hm by lia.
  destruct ((4 * lo <=? n) && (n <? 4 * hi + 4)); cbn [negb]; by rewrite ?andb_true_r, ?andb_false_r, ?orb_false_r, ?orb_false_l.
Qed.

Lemma merge_nib old d m lo hi k : masks m lo hi -> 0 <= k ->
  nib (merge old d m) k = if decide (lo <= k <= hi) then nib d k else nib old k.
Proof.
  intros Hm Hk. apply Z.bits_inj'. intros n Hn. rewrite nib_spec, (merge_bits _ _ _ lo hi) by (done || lia).
  destruct (Z.ltb_spec n 4) as [Hlt|Hge]; cbn [andb].
  - case_decide; rewrite nib_spec, (proj2 (Z.ltb_lt n 4)) by lia; cbn [andb];
      destruct (Z.leb_spec (4 * lo) (n + 4 * k)), (Z.ltb_spec (n + 4 * k) (4 * hi + 4)); cbn [andb]; done || lia.
  - case_decide; by rewrite nib_spec, (proj2 (Z.ltb_ge n 4)) by lia.
Qed.

Lemma merge_range old d m lo hi : masks m lo hi -> 0 <= lo -> hi < 16 -> 0 <= old < 2 ^ 64 -> 0 <= d < 2 ^ 64 ->
  0 <= merge old d m < 2 ^ 64.
Proof.
  intros Hm Hlo Hhi Hold Hd. assert (0 <= merge old d m).
  { unfold merge. apply Z.lor_nonneg. split; apply Z.land_nonneg; lia. }
  split; [done|]. apply pow2_range; [lia| |done]. intros n Hn. rewrite (merge_bits _ _ _ lo hi) by (done || lia).
  destruct (_ && _); by apply (bits_small _ 64).
Qed.

(** The check that these granules are unused. *)
Lemma masked_any old m lo hi : masks m lo hi -> 0 <= lo -> hi < 16 ->
  (forall k, lo <= k <= hi -> nib old k = GPT_GPI_ANY) -> Z.land old m = Z.land GPT_L1_ANY_DESC m.
Proof.
  intros Hm Hlo Hhi Hk. apply Z.bits_inj'. intros n Hn. rewrite !Z.land_spec, Hm by done.
  destruct ((4 * lo <=? n) && (n <? 4 * hi + 4)) eqn:Hin; [|by rewrite !andb_false_r]. rewrite !andb_true_r.
  apply andb_true_iff in Hin as [H1%Z.leb_le H2%Z.ltb_lt].
  pose proof (Z.div_mod n 4 ltac:(lia)) as Hdm. pose proof (Z.mod_pos_bound n 4 ltac:(lia)) as Hr.
  change GPT_L1_ANY_DESC with (Z.ones 64). rewrite Z.ones_spec_low by lia.
  pose proof (nib_spec old (n / 4) (n mod 4) ltac:(lia) ltac:(lia)) as Hnib. rewrite Hk in Hnib by lia.
  rewrite (proj2 (Z.ltb_lt _ _)) in Hnib by lia. cbn [andb] in Hnib.
  replace (n mod 4 + 4 * (n / 4)) with n in Hnib by lia. rewrite <- Hnib.
  change GPT_GPI_ANY with (Z.ones 4). by rewrite Z.ones_spec_low by lia.
Qed.

(** ** One table *)

Section Fill.
Context `{Cfg : GptConfig} (A : Z).

(** Nothing but the table (and the trace) has changed. *)
Record inside (s s' : gpt_state) : Prop := {
  in_out : forall a, (forall j, 0 <= j < l1_entries s -> a <> elem A j) -> gpt_mem s' !! a = gpt_mem s !! a;
  in_rest : s' = set_gpt_mem (gpt_mem s') (set_gpt_trace (gpt_trace s') s)
}.

Lemma inside_config s s' : inside s s' ->
  gpt_config s' = gpt_config s /\ gpi_config s' = gpi_config s /\ gpt_l1_cnt_2mb s' = gpt_l1_cnt_2mb s /\
  gpt_l1_index_mask s' = gpt_l1_index_mask s /\ gpt_l1_tbl s' = gpt_l1_tbl s.
Proof. intros [_ ->]. done. Qed.

Lemma inside_n s s' : inside s s' -> l1_entries s' = l1_entries s.
Proof. intros (H & _)%inside_config. unfold l1_entries. by rewrite H. Qed.

Lemma inside_geo s s' : inside s s' -> geo s -> geo s'.
Proof. intros (H1 & _ & H2 & H3 & _)%inside_config [G1 G2 G3 G4 G5 G6]. split; rewrite ?H1, ?H2, ?H3; done. Qed.

Lemma inside_refl s : inside s s.
Proof. split; [done|by destruct s]. Qed.

Lemma inside_trans s s' s'' : inside s s' -> inside s' s'' -> inside s s''.
Proof.
  intros H1 H2. pose proof (inside_n _ _ H1) as HN. destruct H1 as [O1 R1], H2 as [O2 R2]. split.
  - intros a Ha. rewrite O2; [by apply O1|]. intros j. rewrite HN. apply Ha.
  - rewrite R2, R1. done.
Qed.

Lemma inside_store s i d : 0 <= i < l1_entries s -> inside s (stored (elem A i) d s).
Proof.
  intros Hi. split; [|by destruct s]. intros a Ha. cbn. apply lookup_insert_ne. intros <-. by apply (Ha i).
Qed.

(** The table gives granule [q] the GPI [g q], or is unused there. *)
Record filled_as (g : Z -> option Z) (s : gpt_state) : Prop := {
  fa_mapped : mapped A (l1_entries s) (gpt_mem s);
  fa_wf : wf_table (gc_p (gpt_config s)) (tab A (l1_entries s) (gpt_mem s));
  fa_noblk : RME_GPT_MAX_BLOCK = 0 -> forall j, is_cont_desc (tab A (l1_entries s) (gpt_mem s) j) = false;
  fa_gpi : forall j k, 0 <= j < l1_entries s -> 0 <= k < 16 ->
    dgpi (tab A (l1_entries s) (gpt_mem s) j) k = default GPT_GPI_ANY (g (16 * j + k));
  fa_free : forall j k, 0 <= j < l1_entries s -> 0 <= k < 16 -> g (16 * j + k) = None ->
    is_cont_desc (tab A (l1_entries s) (gpt_mem s) j) = false
}.

(** Granules [a] to [a + n - 1] get a GPI. *)
Definition assign (g : Z -> option Z) (a n x : Z) (q : Z) : option Z := if decide (a <= q < a + n) then Some x else g q.

Lemma filled_ext g g' s : (forall q, 0 <= q < 16 * l1_entries s -> g q = g' q) -> filled_as g s -> filled_as g' s.
Proof.
  intros He [M W B G F]. split; [done|done|done| |].
  - intros j k Hj Hk. rewrite <- He by lia. by apply G.
  - intros j k Hj Hk. rewrite <- He by lia. by apply F.
Qed.

(** One entry gets new GPIs for its granules [lo] to [hi]. *)
Lemma wp_fill_entry g x lo hi m i s :
  0 <= x < 16 -> x <> 1 -> filled_as g s -> 0 <= i < l1_entries s -> 0 <= lo -> lo <= hi -> hi < 16 -> masks m lo hi ->
  (forall k, lo <= k <= hi -> g (16 * i + k) = None) ->
  wpd (let! old := load (elem A i) in
       assert_ true (Z.land old m =? Z.land GPT_L1_ANY_DESC m) ;;
       store (elem A i) (Z.lor (Z.land old (Z.lnot m)) (Z.land (build_l1_desc x) m)) ;;
       ret UINT64_MAX)
    (fun r s' => r = UINT64_MAX /\ inside s s' /\ filled_as (assign g (16 * i + lo) (hi - lo + 1) x) s') s.
Proof.
  intros Hx Hx1 [M W B G F] Hi Hlo Hlh Hhi Hm Hnone. set (N := l1_entries s) in *.
  pose proof (F i lo Hi ltac:(lia) (Hnone lo ltac:(lia))) as Hgran. set (old := tab A N (gpt_mem s) i) in *.
  assert (0 <= old < 2 ^ 64) as Hold.
  { destruct (W i) as [[_ H]|(c & g' & Hc & Hg' & Hb)]; [exact H|].
    unfold old in Hgran. rewrite (Hb i eq_refl), cont_is_cont in Hgran by lia. done. }
  wp_step. eapply wp_exact; [apply load_run, tab_lookup; [exact M|done]|]. fold old. wp_step. apply wp_assert.
  { apply Z.eqb_eq, (masked_any old m lo hi); [done..|]. intros k Hk. rewrite <- dgpi_gran by done.
    unfold old. rewrite G by lia. by rewrite Hnone. }
  rewrite build_build by done. fold (merge old (GPT_BUILD_L1_DESC x) m). set (d := merge _ _ m).
  wp_step. eapply wp_exact; [apply store_run, M; done|]. wp_step. split; [done|]. split; [by apply inside_store|].
  assert (forall k, 0 <= k < 16 -> nib d k = if decide (lo <= k <= hi) then x else nib old k) as Hnib.
  { intros k Hk. unfold d. rewrite (merge_nib _ _ _ lo hi) by (done || lia). case_decide; [|done].
    rewrite <- dgpi_gran by (by apply build_not_cont). by apply dgpi_build. }
  assert (is_cont_desc d = false) as Hd.
  { rewrite is_cont_nib, Hnib by lia. rewrite is_cont_nib in Hgran. case_decide; [by apply Z.eqb_neq|done]. }
  assert (forall j, tab A N (gpt_mem (stored (elem A i) d s)) j = if decide (j = i) then d else tab A N (gpt_mem s) j) as Ht
    by (intros j; by apply tab_store).
  split; change (l1_entries (stored (elem A i) d s)) with N; change (gpt_config (stored (elem A i) d s)) with (gpt_config s).
  - cbn. by apply mapped_store.
  - eapply wf_ext; [intros j; symmetry; apply Ht|]. apply entry_wf; [done|done|done|].
    apply (merge_range _ _ _ lo hi); [done..|by apply build_range].
  - intros Hz j. rewrite Ht. case_decide; [done|by apply B].
  - intros j k Hj Hk. rewrite Ht. unfold assign. case_decide as Hji; [subst j|].
    + rewrite dgpi_gran, Hnib by done. repeat case_decide; try lia; [done|].
      rewrite <- dgpi_gran by done. by apply G.
    + rewrite decide_False by lia. by apply G.
  - intros j k Hj Hk. rewrite Ht. unfold assign. case_decide as Hq; [done|]. intros Hnq.
    case_decide; [done|by apply (F j k)].
Qed.

(** Granule [q] of the level 0 region [r]. *)
Definition gaddr (s : gpt_state) (r q : Z) : Z := r * 2 ^ GPT_S_VAL + q * 2 ^ gc_p (gpt_config s).

Lemma gaddr_units s r q : geo s -> gaddr s r q = (r * (16 * l1_entries s) + q) * 2 ^ gc_p (gpt_config s).
Proof.
  intros Hgeo. pose proof (geo_pow s Hgeo). unfold gaddr, l1_entries. set (p := gc_p (gpt_config s)) in *.
  replace (2 ^ GPT_S_VAL) with (16 * 2 ^ (GPT_S_VAL - p - 4) * 2 ^ p); [ring|].
  change 16 with (2 ^ 4). rewrite <- !Z.pow_add_r by lia. f_equal. lia.
Qed.

Lemma gaddr_index s r q : geo s -> 0 <= q < 16 * l1_entries s ->
  GPT_L1_INDEX s (gaddr s r q) = q / 16 /\ GPT_L1_GPI_IDX (gc_p (gpt_config s)) (gaddr s r q) = q mod 16 /\
  gaddr s r q / 2 ^ GPT_S_VAL = r /\ 0 <= q / 16 < l1_entries s.
Proof.
  intros Hgeo Hq. pose proof (geo_pow s Hgeo) as Hpow. set (p := gc_p (gpt_config s)) in *. set (N := l1_entries s) in *.
  assert (0 < 2 ^ p) as HP by (apply Z.pow_pos_nonneg; lia).
  assert (0 <= q / 16 < N) as Hi by (split; [apply Z.div_pos; lia|apply Z.div_lt_upper_bound; lia]).
  rewrite l1_index by done. rewrite gaddr_units by done. fold p N. split_and!; [..|lia|lia].
  - rewrite Z.pow_add_r, <- Z.div_div, Z.div_mul by lia. change (2 ^ 4) with 16.
    replace (r * (16 * N) + q) with (r * N * 16 + q) by ring. rewrite Z.div_add_l by lia.
    rewrite Z.add_comm, Z.mod_add by lia. by apply Z.mod_small.
  - unfold GPT_L1_GPI_IDX, GPT_L1_GPI_IDX_SHIFT. change GPT_L1_GPI_IDX_MASK with (Z.ones 4).
    rewrite Z.land_ones, Z.shiftr_div_pow2, Z.div_mul by lia. change (2 ^ 4) with 16.
    replace (r * (16 * N) + q) with (q + r * N * 16) by ring. by rewrite Z.mod_add by lia.
  - replace (2 ^ GPT_S_VAL) with (2 ^ p * (16 * N))
      by (unfold N, l1_entries; change 16 with (2 ^ 4); rewrite <- !Z.pow_add_r by lia; f_equal; unfold p; lia).
    rewrite <- Z.div_div, Z.div_mul, Z.div_add_l by lia. rewrite (Z.div_small q) by lia. lia.
Qed.

(** Granules [a] to [b] in Granules descriptors. *)
Lemma wp_fill_gran g x r a b s :
  geo s -> 0 <= x < 16 -> x <> 1 -> filled_as g s -> 0 <= a -> a <= b -> b < 16 * l1_entries s ->
  (forall q, a <= q <= b -> g q = None) ->
  wpd (fill_l1_gran_desc A (gaddr s r a) (gaddr s r b) x)
    (fun v s' => v = u64 (gaddr s r (b + 1)) /\ inside s s' /\ filled_as (assign g a (b - a + 1) x) s') s.
Proof.
  intros Hgeo Hx Hx1 Hf Ha Hab Hb Hnone. pose proof (geo_pow s Hgeo) as Hpow.
  destruct (gaddr_index s r a Hgeo ltac:(lia)) as (Ia & Ka & _ & Ra).
  destruct (gaddr_index s r b Hgeo ltac:(lia)) as (Ib & Kb & _ & Rb).
  unfold fill_l1_gran_desc. wp_step. wp_step. unfold id. cbv zeta. rewrite Ia, Ka, Ib, Kb.
  pose proof (Z.div_mod a 16 ltac:(lia)). pose proof (Z.mod_pos_bound a 16 ltac:(lia)).
  pose proof (Z.div_mod b 16 ltac:(lia)). pose proof (Z.mod_pos_bound b 16 ltac:(lia)).
  assert (a / 16 <= b / 16) as Hle by (apply Z.div_le_mono; lia). set (i0 := a / 16) in *. set (i1 := b / 16) in *.
  wp_step. eapply wp_mono; [apply (wp_fold_each _ _ (fun l m s' =>
    masks m (if decide (l = []) then a mod 16 else 0) 15 /\ inside s s' /\
    filled_as (assign g a (Z.min (b + 1) (16 * (i0 + Z.of_nat (length l))) - a) x) s'))| |done].
  - split; [rewrite decide_True by done; apply masks_from; lia|]. split; [apply inside_refl|].
    apply (filled_ext g); [|done]. intros q Hq. unfold assign. cbn [length]. by rewrite decide_False by lia.
  - intros l i m s' [l' [-> Hlt]%seqZ_split] (Hm & Hin & Hf'). set (n := Z.of_nat (length l)) in *.
    set (lo := if decide (l = []) then a mod 16 else 0) in *. set (hi := if i0 + n =? i1 then b mod 16 else 15).
    set (m' := if i0 + n =? i1 then _ else m).
    assert (0 <= lo < 16 /\ (n = 0 -> lo = a mod 16) /\ (0 < n -> lo = 0)) as (L1 & L2 & L3).
    { unfold lo. case_decide as Hn; [subst l; split_and!; [lia|lia|done|cbn in *; lia]|].
      split_and!; [lia|lia| |done]. destruct l; [done|cbn in *; lia]. }
    assert (0 <= hi < 16 /\ masks m' lo hi) as [Hh Hm'].
    { unfold hi, m'. destruct (Z.eqb_spec (i0 + n) i1); [|split; [lia|done]].
      split; [lia|]. apply masks_to; [done|lia|lia]. }
    assert (lo <= hi) as Hlh.
    { unfold hi. destruct (Z.eqb_spec (i0 + n) i1); [|lia]. destruct (decide (n = 0)); [rewrite L2 by done; lia|].
      rewrite L3 by lia. lia. }
    rewrite <- (inside_n _ _ Hin) in Hb, Ra, Rb.
    eapply wp_mono; [apply (wp_fill_entry (assign g a (Z.min (b + 1) (16 * (i0 + n)) - a) x) x lo hi m' (i0 + n)); [done|done|exact Hf'|lia|lia|lia|lia|exact Hm'|]| |done].
    + intros k Hk. unfold assign. assert (16 * (i0 + n) + k <= b).
      { unfold hi in Hk. destruct (Z.eqb_spec (i0 + n) i1); lia. }
      rewrite decide_False by lia. apply Hnone. destruct (decide (n = 0)); [rewrite L2 in Hk by done; lia|lia].
    + intros v s2 (-> & Hin2 & Hf2). split; [rewrite decide_False by (intros []%app_eq_nil; done); apply masks_all|].
      split; [by eapply inside_trans|]. eapply filled_ext; [|exact Hf2]. intros q Hq. unfold assign.
      rewrite length_app. cbn [length]. replace (Z.of_nat (length l + 1)) with (n + 1) by lia.
      assert ((i0 + n < i1 /\ hi = 15) \/ (i0 + n = i1 /\ hi = b mod 16)) as Hhi
        by (unfold hi; destruct (Z.eqb_spec (i0 + n) i1); [by right|left; split; [lia|done]]).
      assert ((n = 0 /\ lo = a mod 16) \/ (0 < n /\ lo = 0)) as Hlo
        by (destruct (decide (n = 0)); [left; split; [done|by apply L2]|right; split; [lia|apply L3; lia]]).
      clear Hm Hm' L2 L3. clearbody n lo hi i0 i1.
      destruct Hhi as [[Hhi1 ->]|[Hhi1 ->]], Hlo as [[-> ->]|[Hn ->]]; repeat case_decide; done || lia.
  - intros m s' (_ & Hin & Hf'). wp_step. split.
    { f_equal. rewrite !gaddr_units by done. unfold GPT_PGS_ACTUAL_SIZE. rewrite Z.shiftl_mul_pow2 by lia. ring. }
    split; [done|]. eapply filled_ext; [|exact Hf']. intros q Hq. unfold assign. rewrite length_seqZ, Z2Nat.id by lia.
    repeat case_decide; done || lia.
Qed.

(** ** Contiguous blocks *)

Lemma wp_fill_words i0 d cnt s :
  0 <= cnt -> 0 <= i0 -> i0 + 2 * cnt <= l1_entries s -> mapped A (l1_entries s) (gpt_mem s) ->
  wpd (fill_desc (elem A i0) d cnt) (fun _ s' => inside s s' /\ mapped A (l1_entries s) (gpt_mem s') /\
    forall j, tab A (l1_entries s) (gpt_mem s') j =
      if decide (i0 <= j < i0 + 2 * cnt) then d else tab A (l1_entries s) (gpt_mem s) j) s.
Proof.
  intros Hc Hi HN Hm. set (N := l1_entries s) in *. unfold fill_desc.
  eapply wp_mono; [apply (wp_for_each _ _ (fun l s' => inside s s' /\ mapped A N (gpt_mem s') /\
    forall j, tab A N (gpt_mem s') j =
      if decide (i0 <= j < i0 + 2 * Z.of_nat (length l)) then d else tab A N (gpt_mem s) j))| |done].
  - split; [apply inside_refl|]. split; [done|]. intros j. cbn [length]. by rewrite decide_False by lia.
  - intros l x s' [l' [-> Hlt]%seqZ_split] (Hin & Hm' & Ht). set (n := Z.of_nat (length l)) in *.
    replace (elem A i0 + 16 * (0 + n)) with (elem A (i0 + 2 * n)) by (unfold elem; lia).
    replace (elem A (i0 + 2 * n) + 8) with (elem A (i0 + 2 * n + 1)) by (unfold elem; lia).
    wp_step. eapply wp_exact; [apply store_run, Hm'; lia|].
    assert (mapped A N (gpt_mem (stored (elem A (i0 + 2 * n)) d s'))) as Hm2 by (by apply mapped_store).
    eapply wp_exact; [apply store_run, Hm2; lia|]. split_and!.
    + eapply inside_trans; [exact Hin|]. pose proof (inside_n _ _ Hin) as HN'. fold N in HN'.
      eapply inside_trans; apply inside_store; [rewrite HN'; lia|]. change (0 <= i0 + 2 * n + 1 < l1_entries s'). lia.
    + by apply mapped_store.
    + intros j. rewrite length_app. cbn [length]. unfold stored. cbn [gpt_mem set_gpt_mem add_gpt_event].
      rewrite !tab_store, Ht by lia. repeat case_decide; try done; lia.
  - intros [] s' (Hin & Hm' & Ht). split; [done|]. split; [done|]. intros j.
    by rewrite Ht, length_seqZ, Z2Nat.id by done.
Qed.

(** The number of granules of a block of size [c]. *)
Definition bgran (s : gpt_state) (c : Z) : Z := 16 * bsize s c.

Lemma bgran_bytes s c : geo s -> 1 <= c -> bgran s c * 2 ^ gc_p (gpt_config s) = 2 ^ (17 + 4 * c) /\ 0 < bgran s c.
Proof.
  intros Hgeo Hc. pose proof (geo_pow s Hgeo). unfold bgran, bsize. change 16 with (2 ^ 4).
  rewrite <- !Z.pow_add_r by lia. split; [f_equal; lia|apply Z.pow_pos_nonneg; lia].
Qed.

Lemma gaddr_aligned s r a c : geo s -> 1 <= c <= 3 ->
  gaddr s r a mod 2 ^ (17 + 4 * c) = 0 <-> a mod bgran s c = 0.
Proof.
  intros Hgeo Hc. destruct (bgran_bytes s c Hgeo ltac:(lia)) as [<- Hpos]. rewrite gaddr_units by done.
  pose proof (geo_pow s Hgeo). assert (0 < 2 ^ gc_p (gpt_config s)) by (apply Z.pow_pos_nonneg; lia).
  rewrite Z.mul_mod_distr_r by lia. destruct (entries_blocks s Hgeo c Hc) as (b & Hb & ->).
  replace (r * (16 * (bsize s c * b)) + a) with (a + r * b * bgran s c) by (unfold bgran; ring).
  rewrite Z.mod_add by lia. split; [|lia]. intros Hz. by apply Z.eq_mul_0_l in Hz; [|lia].
Qed.

Lemma region_is_cont s r a n c : geo s -> 1 <= c <= 3 ->
  GPT_REGION_IS_CONT (n * 2 ^ gc_p (gpt_config s)) (gaddr s r a) (2 ^ (17 + 4 * c)) = true <->
  bgran s c <= n /\ a mod bgran s c = 0.
Proof.
  intros Hgeo Hc. unfold GPT_REGION_IS_CONT. rewrite andb_true_iff, Z.leb_le, Z.eqb_eq.
  replace (2 ^ (17 + 4 * c) - 1) with (Z.ones (17 + 4 * c)) by (rewrite Z.ones_equiv; lia).
  rewrite Z.land_ones by lia. rewrite gaddr_aligned by done.
  destruct (bgran_bytes s c Hgeo ltac:(lia)) as [<- _]. pose proof (geo_pow s Hgeo).
  assert (0 < 2 ^ gc_p (gpt_config s)) by (apply Z.pow_pos_nonneg; lia).
  by rewrite <- Z.mul_le_mono_pos_r by lia.
Qed.

Definition cont_template (c : Z) : Z :=
  if c =? 3 then GPT_L1_CONT_DESC_512MB else if c =? 2 then GPT_L1_CONT_DESC_32MB else GPT_L1_CONT_DESC_2MB.

Lemma fill_lookup_elem e : e ∈ gpt_fill_lookup -> exists c, 1 <= c <= 3 /\ e = (2 ^ (17 + 4 * c), cont_template c).
Proof.
  unfold gpt_fill_lookup. rewrite !elem_of_app. intros [H|[H|H]].
  - exists 3. destruct (_ =? _); [|by apply not_elem_of_nil in H]. by apply list_elem_of_singleton in H as ->.
  - exists 2. destruct (_ <=? _); [|by apply not_elem_of_nil in H]. by apply list_elem_of_singleton in H as ->.
  - exists 1. destruct (negb _); [|by apply not_elem_of_nil in H]. by apply list_elem_of_singleton in H as ->.
Qed.

Lemma fill_lookup_found s r a n : geo s -> RME_GPT_MAX_BLOCK <> 0 -> a mod bgran s 1 = 0 -> bgran s 1 <= n ->
  exists k c, 1 <= c <= 3 /\ bgran s c <= n /\ a mod bgran s c = 0 /\
    list_find (fun e => GPT_REGION_IS_CONT (n * 2 ^ gc_p (gpt_config s)) (gaddr s r a) (fst e) = true) gpt_fill_lookup =
      Some (k, (2 ^ (17 + 4 * c), cont_template c)).
Proof.
  intros Hgeo Hmb Ha Hn.
  destruct (list_find _ gpt_fill_lookup) as [[k e]|] eqn:Hfind.
  - apply list_find_Some in Hfind as (Hk & HP & _).
    destruct (fill_lookup_elem e (list_elem_of_lookup_2 _ _ _ Hk)) as (c & Hc & ->). cbn [fst] in HP.
    apply region_is_cont in HP; [|done|done]. exists k, c. tauto.
  - exfalso. apply list_find_None in Hfind. rewrite Forall_forall in Hfind.
    apply (Hfind (SZ_2M, GPT_L1_CONT_DESC_2MB)).
    + unfold gpt_fill_lookup. rewrite (proj2 (Z.eqb_neq _ _) Hmb). cbn [negb]. rewrite !elem_of_app. right. right.
      by apply list_elem_of_singleton.
    + cbn [fst]. by apply (region_is_cont s r a n 1).
Qed.

Lemma wp_fill_cont g x r a n s :
  geo s -> RME_GPT_MAX_BLOCK <> 0 -> 0 <= x < 16 -> filled_as g s ->
  0 <= a -> a + n <= 16 * l1_entries s -> a mod bgran s 1 = 0 -> bgran s 1 <= n ->
  (forall q, a <= q < a + n -> g q = None) ->
  wpd (fill_l1_cont_desc A (gaddr s r a) (n * 2 ^ gc_p (gpt_config s)) x)
    (fun v s' => exists c, 1 <= c <= 3 /\ bgran s c <= n /\ a mod bgran s c = 0 /\
       v = u64 (gaddr s r (a + bgran s c)) /\ inside s s' /\ filled_as (assign g a (bgran s c) x) s') s.
Proof.
  intros Hgeo Hmb Hx Hf Ha Hend Hal Hn Hnone. pose proof Hf as [M W B G F]. set (N := l1_entries s) in *.
  destruct (fill_lookup_found s r a n Hgeo Hmb Hal Hn) as (k & c & Hc & Hcn & Hca & Hfind).
  pose proof (bsize_pos s Hgeo c ltac:(lia)) as Hpos. destruct (bgran_bytes s c Hgeo ltac:(lia)) as [Hby Hbg].
  destruct (gaddr_index s r a Hgeo ltac:(fold N; lia)) as (Ia & _ & _ & Ra). fold N in Ra.
  apply Z.mod_divide in Hca as [b ->]; [|lia].
  assert (b * bgran s c / 16 = b * bsize s c) as Hdiv
    by (unfold bgran; replace (b * (16 * bsize s c)) with (b * bsize s c * 16) by ring; by rewrite Z.div_mul).
  rewrite Hdiv in *. set (i0 := b * bsize s c) in *.
  unfold fill_l1_cont_desc. wp_step. wp_step. unfold id. cbv zeta. rewrite Hfind, Ia.
  assert (GPT_L1_GPI_CONT_DESC x (cont_template c) = cont c x) as ->.
  { destruct (gpi_cont_desc x Hx) as (H1 & H2 & H3). unfold cont_template.
    assert (c = 1 \/ c = 2 \/ c = 3) as [->|[->| ->]] by lia; done. }
  set (cnt := if _ =? SZ_512M then _ else _).
  assert (2 * cnt = bsize s c) as Hcnt.
  { unfold cnt. destruct (qwords s Hgeo) as (Q1 & Q2 & Q3 & _).
    assert (c = 1 \/ c = 2 \/ c = 3) as [->|[->| ->]] by lia; done. }
  assert (i0 + bsize s c <= N) as Hin0 by (unfold bgran in *; lia).
  wp_step. eapply wp_mono; [apply wp_fill_words; [lia|lia|fold N; lia|done]| |done].
  intros [] s' (Hin & Hm & Ht). fold N in Hm, Ht. wp_step. exists c.
  split_and!; [lia|lia|done|by apply Z.mod_mul; lia| |done|].
  { f_equal. rewrite !gaddr_units by done. rewrite <- Hby. ring. }
  rewrite Hcnt in Ht.
  assert (forall j, i0 <= j < i0 + bsize s c <-> blk (gc_p (gpt_config s)) c j = blk (gc_p (gpt_config s)) c i0) as Hblk.
  { intros j. rewrite blk_iff by (done || lia). unfold bstart, blk. fold (bsize s c). unfold i0 at 3 4.
    by rewrite Z.div_mul by lia. }
  assert (forall j k, i0 <= j < i0 + bsize s c -> 0 <= k < 16 -> b * bgran s c <= 16 * j + k < b * bgran s c + bgran s c)
    as Hq by (intros j k' Hj Hk; unfold bgran; lia).
  destruct (inside_config _ _ Hin) as (Hcfg & _).
  split; rewrite ?(inside_n _ _ Hin), ?Hcfg; fold N; [done| |done| |].
  - apply (wf_ext _ (filled (gc_p (gpt_config s)) (tab A N (gpt_mem s)) c (cont c x) i0)).
    { intros j. rewrite Ht. unfold filled. specialize (Hblk j). repeat case_decide; tauto. }
    apply (filled_wf _ (geo_p _ Hgeo)); [done|done|done|]. intros j c' g' Hj%Hblk Hc' Hg' Heq. exfalso.
    assert (is_cont_desc (tab A N (gpt_mem s) j) = false) as Hno
      by (apply (F j 0); [lia|lia|]; apply Hnone; pose proof (Hq j 0 Hj ltac:(lia)); lia).
    rewrite Heq, cont_is_cont in Hno by lia. done.
  - intros j k' Hj Hk. rewrite Ht. unfold assign. destruct (decide (i0 <= j < i0 + bsize s c)) as [Hd|Hd].
    + rewrite decide_True by (by apply Hq). rewrite dgpi_cont by lia. done.
    + rewrite decide_False by (unfold bgran; lia). by apply G.
  - intros j k' Hj Hk. rewrite Ht. unfold assign. destruct (decide (i0 <= j < i0 + bsize s c)) as [Hd|Hd].
    + by rewrite decide_True by (by apply Hq).
    + rewrite decide_False by (unfold bgran; lia). by apply F.
Qed.

(** ** The whole range *)

Lemma assign_app g a m n x q : 0 <= m -> 0 <= n -> assign (assign g a m x) (a + m) n x q = assign g a (m + n) x q.
Proof. intros Hm Hn. unfold assign. repeat case_decide; done || lia. Qed.

Lemma inside_gaddr s s' r q : inside s s' -> gaddr s' r q = gaddr s r q.
Proof. intros (H & _)%inside_config. unfold gaddr. by rewrite H. Qed.

Lemma inside_bgran s s' c : inside s s' -> bgran s' c = bgran s c.
Proof. intros (H & _)%inside_config. unfold bgran, bsize. by rewrite H. Qed.

Lemma gaddr_range s r q : geo s -> 0 <= r -> r * 2 ^ GPT_S_VAL + 2 ^ GPT_S_VAL < 2 ^ 64 -> 0 <= q <= 16 * l1_entries s ->
  0 <= gaddr s r q < 2 ^ 64.
Proof.
  intros Hgeo Hr Hs Hq. pose proof (geo_pow s Hgeo). unfold gaddr.
  assert (16 * l1_entries s * 2 ^ gc_p (gpt_config s) = 2 ^ GPT_S_VAL) as HN.
  { unfold l1_entries. change 16 with (2 ^ 4). rewrite <- !Z.pow_add_r by lia. f_equal. lia. }
  assert (0 < 2 ^ gc_p (gpt_config s)) by (apply Z.pow_pos_nonneg; lia).
  assert (0 < 2 ^ GPT_S_VAL) by (apply Z.pow_pos_nonneg; lia). nia.
Qed.

(** The next address aligned to 2MB. *)
Lemma align_next s r a : geo s ->
  ALIGN_2MB (gaddr s r a + SZ_2M) = gaddr s r ((a / bgran s 1 + 1) * bgran s 1).
Proof.
  intros Hgeo. unfold ALIGN_2MB. change (SZ_2M - 1) with (2 ^ 21 - 1). rewrite align_round by lia.
  destruct (bgran_bytes s 1 Hgeo ltac:(lia)) as [Hby Hpos]. change (17 + 4 * 1) with 21 in Hby.
  change SZ_2M with (2 ^ 21). rewrite !gaddr_units by done. destruct (entries_blocks s Hgeo 1 ltac:(lia)) as (b & Hb & ->).
  pose proof (geo_pow s Hgeo). assert (0 < 2 ^ gc_p (gpt_config s)) by (apply Z.pow_pos_nonneg; lia). rewrite <- Hby.
  set (U := bgran s 1) in *. replace (16 * (bsize s 1 * b)) with (b * U) by (unfold U, bgran; ring).
  set (P := 2 ^ gc_p (gpt_config s)) in *.
  replace ((r * (b * U) + a) * P + U * P) with ((a + (r * b + 1) * U) * P) by ring.
  rewrite Z.div_mul_cancel_r, Z.div_add by lia. ring.
Qed.

Section Loop.
Context (s0 : gpt_state) (Hgeo : geo s0) (x : Z) (Hx : 0 <= x < 16) (Hx1 : x <> 1).
Context (r : Z) (Hr : 0 <= r) (Hspace : r * 2 ^ GPT_S_VAL + 2 ^ GPT_S_VAL < 2 ^ 64).
Context (b : Z) (Hb : 0 <= b < 16 * l1_entries s0).
#[local] Abbreviation U := (bgran s0 1).
#[local] Abbreviation at_ := (gaddr s0 r).

(** Turns of the loop that are left. *)
Definition turns (a : Z) : Z := (b - a + 1) / U + 1 + (if decide (a mod U = 0) then 0 else 1).

(** One turn. *)
Definition fill_turn (first last : Z) : gpt Z :=
  let! s := gets id in
  let pgs := GPT_PGS_ACTUAL_SIZE (gc_p (gpt_config s)) in
  let length := u64 (last - first + pgs) in
  if length <? SZ_2M then fill_l1_gran_desc A first last x
  else if Z.land first (SZ_2M - 1) =? 0 then fill_l1_cont_desc A first length x
  else fill_l1_gran_desc A first (u64 (ALIGN_2MB (u64 (first + SZ_2M)) - pgs)) x.

Lemma u_bytes : U * 2 ^ gc_p (gpt_config s0) = SZ_2M /\ 0 < U /\ 0 < 2 ^ gc_p (gpt_config s0).
Proof.
  destruct (bgran_bytes s0 1 Hgeo ltac:(lia)) as [Hby Hpos]. pose proof (geo_pow s0 Hgeo).
  split_and!; [exact Hby|done|apply Z.pow_pos_nonneg; lia].
Qed.

Lemma at_u64 q : 0 <= q <= 16 * l1_entries s0 -> u64 (at_ q) = at_ q.
Proof. intros Hq. by apply u64_small, gaddr_range. Qed.

Lemma bgran_units c : 1 <= c <= 3 -> exists m, 1 <= m /\ bgran s0 c = m * U.
Proof.
  intros Hc. destruct (qwords s0 Hgeo) as (_ & _ & _ & Q1 & Q2 & _). unfold bgran.
  assert (c = 1 \/ c = 2 \/ c = 3) as [->|[->| ->]] by lia; rewrite ?Q2, ?Q1;
    [exists 1|exists 16|exists 256]; split; lia.
Qed.

Section Turn.
Context (g : Z -> option Z) (a : Z) (s : gpt_state) (Hin : inside s0 s) (Hf : filled_as g s) (Ha : 0 <= a <= b).
Context (Hnone : forall q, a <= q <= b -> g q = None).

(** Granules from [a] on were given their GPI, and the loop goes on after them. *)
Definition advanced (v : Z) (s' : gpt_state) : Prop :=
  exists m, 0 < m <= b - a + 1 /\ v = at_ (a + m) /\ inside s0 s' /\ filled_as (assign g a m x) s' /\
    (a + m <= b -> turns (a + m) < turns a).

Lemma turn_gran b' : a <= b' <= b -> (b' < b -> turns (b' + 1) < turns a) ->
  wpd (fill_l1_gran_desc A (at_ a) (at_ b') x) advanced s.
Proof.
  intros Hb' Ht. pose proof (inside_n _ _ Hin) as HN. rewrite <- !(inside_gaddr s0 s) by done.
  eapply wp_mono; [apply (wp_fill_gran g); try done; [by apply (inside_geo s0)|lia|lia|lia|intros q Hq; apply Hnone; lia]| |done].
  intros v s' (-> & Hin' & Hf'). exists (b' - a + 1). rewrite (inside_gaddr s0 s) by done.
  replace (a + (b' - a + 1)) with (b' + 1) by lia.
  split_and!; [lia|lia|apply at_u64; lia|by eapply inside_trans|done|intros; apply Ht; lia].
Qed.

Lemma turn_cont : RME_GPT_MAX_BLOCK <> 0 -> U <= b - a + 1 -> a mod U = 0 ->
  wpd (fill_l1_cont_desc A (at_ a) ((b - a + 1) * 2 ^ gc_p (gpt_config s0)) x) advanced s.
Proof.
  intros Hmb Hbig Hal. pose proof (inside_n _ _ Hin) as HN. destruct u_bytes as (_ & Hpos & _).
  rewrite <- (inside_gaddr s0 s) by done. destruct (inside_config _ _ Hin) as (<- & _).
  eapply wp_mono; [apply (wp_fill_cont g); rewrite ?(inside_bgran s0 s) by done; try done;
    [by apply (inside_geo s0)|lia|lia|intros q Hq; apply Hnone; lia]| |done].
  intros v s' (c & Hc & Hcn & Hca & -> & Hin' & Hf'). rewrite (inside_gaddr s0 s), (inside_bgran s0 s) in * by done.
  destruct (bgran_units c Hc) as (m & Hm & Hmu).
  assert (U <= bgran s0 c) by (rewrite Hmu; nia). exists (bgran s0 c).
  split_and!; [lia|lia|apply at_u64; lia|by eapply inside_trans|done|]. intros Hle. unfold turns.
  rewrite (decide_True (P := a mod U = 0)) by done.
  rewrite decide_True by (rewrite Hmu, Z.mod_add by lia; done).
  assert ((b - (a + bgran s0 c) + 1) / U + 1 <= (b - a + 1) / U) as Hd; [|lia].
  rewrite <- Z.div_add by lia. apply Z.div_le_mono; lia.
Qed.

Lemma turn_edge : U <= b - a + 1 -> a mod U <> 0 ->
  wpd (fill_l1_gran_desc A (at_ a) (u64 (ALIGN_2MB (u64 (at_ a + SZ_2M)) - 2 ^ gc_p (gpt_config s0))) x) advanced s.
Proof.
  intros Hbig Hal. destruct u_bytes as (Hby & Hpos & HP).
  pose proof (Z.div_mod a U ltac:(lia)) as Hdm. pose proof (Z.mod_pos_bound a U Hpos) as Hmod.
  set (a' := (a / U + 1) * U). assert (a < a' <= a + U) as Ha' by (unfold a'; lia).
  replace (at_ a + SZ_2M) with (at_ (a + U)) by (unfold gaddr; rewrite <- Hby; ring). rewrite at_u64 by lia.
  replace (at_ (a + U)) with (at_ a + SZ_2M) by (unfold gaddr; rewrite <- Hby; ring). rewrite align_next by done. fold a'.
  replace (at_ a' - 2 ^ gc_p (gpt_config s0)) with (at_ (a' - 1)) by (unfold gaddr; ring). rewrite at_u64 by lia.
  apply turn_gran; [lia|]. intros Hle. replace (a' - 1 + 1) with a' by lia. unfold turns.
  rewrite decide_True by (unfold a'; apply Z.mod_mul; lia). rewrite decide_False by done.
  assert ((b - a' + 1) / U <= (b - a + 1) / U) by (apply Z.div_le_mono; lia). lia.
Qed.

Lemma wp_fill_turn : RME_GPT_MAX_BLOCK <> 0 -> wpd (fill_turn (at_ a) (at_ b)) advanced s.
Proof.
  intros Hmb. destruct u_bytes as (Hby & Hpos & HP). unfold fill_turn. wp_step. wp_step. unfold id. cbv zeta.
  destruct (inside_config _ _ Hin) as (-> & _). unfold GPT_PGS_ACTUAL_SIZE. pose proof (geo_pow s0 Hgeo).
  rewrite Z.shiftl_mul_pow2, Z.mul_1_l by lia.
  assert (at_ b - at_ a + 2 ^ gc_p (gpt_config s0) = (b - a + 1) * 2 ^ gc_p (gpt_config s0)) as -> by (unfold gaddr; ring).
  rewrite u64_small.
  2: { pose proof (gaddr_range s0 r (b + 1) Hgeo Hr Hspace ltac:(lia)). pose proof (gaddr_range s0 r a Hgeo Hr Hspace ltac:(lia)).
       assert (at_ (b + 1) - at_ a = (b - a + 1) * 2 ^ gc_p (gpt_config s0)) by (unfold gaddr; ring). nia. }
  rewrite <- Hby at 1. destruct (Z.ltb_spec ((b - a + 1) * 2 ^ gc_p (gpt_config s0)) (U * 2 ^ gc_p (gpt_config s0))) as [Hs|Hs].
  { apply turn_gran; [lia|]. lia. }
  apply Z.mul_le_mono_pos_r in Hs; [|done].
  assert ((Z.land (at_ a) (SZ_2M - 1) =? 0) = bool_decide (a mod U = 0)) as ->.
  { apply eq_bool_prop_intro. rewrite bool_decide_spec, Is_true_true, Z.eqb_eq.
    change (SZ_2M - 1) with (Z.ones (17 + 4 * 1)). rewrite Z.land_ones by lia. by apply gaddr_aligned. }
  case_bool_decide; [by apply turn_cont|by apply turn_edge].
Qed.
End Turn.

(** Enough fuel for the turns that are left gives the result. *)
Lemma wp_fill_loop fuel g a s :
  RME_GPT_MAX_BLOCK <> 0 -> inside s0 s -> filled_as g s -> 0 <= a <= b + 1 -> (forall q, a <= q <= b -> g q = None) ->
  (a <= b -> turns a <= Z.of_nat fuel) ->
  wpd (fill_l1_loop fuel A (at_ a) (at_ b) x)
    (fun v s' => v = at_ (b + 1) /\ inside s0 s' /\ filled_as (assign g a (b - a + 1) x) s') s.
Proof.
  intros Hmb. destruct u_bytes as (Hby & Hpos & HP). revert g a s. induction fuel as [|fuel IH];
    intros g a s Hin Hf Ha Hnone Hfuel; cbn [fill_l1_loop].
  all: assert ((at_ b <? at_ a) = bool_decide (b < a)) as ->
    by (apply eq_bool_prop_intro; rewrite bool_decide_spec, Is_true_true, Z.ltb_lt; unfold gaddr; nia).
  all: case_bool_decide as Hlt;
    [wp_step; replace a with (b + 1) in * by lia; split_and!; [done|done|];
     eapply filled_ext; [|exact Hf]; intros q Hq; unfold assign; by rewrite decide_False by lia|].
  - assert (0 <= (b - a + 1) / U) by (apply Z.div_pos; lia). unfold turns in Hfuel. case_decide; lia.
  - change (wpd (let! first := fill_turn (at_ a) (at_ b) in fill_l1_loop fuel A first (at_ b) x)
      (fun v s' => v = at_ (b + 1) /\ inside s0 s' /\ filled_as (assign g a (b - a + 1) x) s') s).
    wp_step. eapply wp_mono; [by apply (wp_fill_turn g a s Hin Hf); [lia|..]| |done].
    intros v s' (m & Hm & -> & Hin' & Hf' & Ht). eapply wp_mono; [apply (IH (assign g a m x)); try done; [lia|..]| |done].
    + intros q Hq. unfold assign. rewrite decide_False by lia. apply Hnone. lia.
    + intros Hle. specialize (Ht Hle). lia.
    + intros v s2 (-> & Hin2 & Hf2). split_and!; [done|done|]. eapply filled_ext; [|exact Hf2].
      intros q Hq. rewrite assign_app by lia. f_equal. lia.
Qed.

Lemma wp_fill_l1_tbl g a s :
  A <> 0 -> inside s0 s -> filled_as g s -> 0 <= a <= b -> (forall q, a <= q <= b -> g q = None) ->
  wpd (fill_l1_tbl A (at_ a) (at_ b) x)
    (fun _ s' => inside s0 s' /\ filled_as (assign g a (b - a + 1) x) s') s.
Proof.
  intros HA Hin Hf Ha Hnone. destruct u_bytes as (Hby & Hpos & HP). pose proof (geo_pow s0 Hgeo) as Hpow.
  pose proof (inside_n _ _ Hin) as HN. unfold fill_l1_tbl. wp_step. wp_step. unfold id. cbv zeta.
  destruct (inside_config _ _ Hin) as (Hcfg & _). rewrite Hcfg.
  assert (GPT_PGS_ACTUAL_SIZE (gc_p (gpt_config s0)) = 2 ^ gc_p (gpt_config s0)) as ->
    by (unfold GPT_PGS_ACTUAL_SIZE; rewrite Z.shiftl_mul_pow2, Z.mul_1_l by lia; done).
  assert (forall q, Z.land (at_ q) (2 ^ gc_p (gpt_config s0) - 1) = 0) as Hal.
  { intros q. replace (2 ^ gc_p (gpt_config s0) - 1) with (Z.ones (gc_p (gpt_config s0))) by (rewrite Z.ones_equiv; lia).
    rewrite Z.land_ones, gaddr_units by (done || lia). apply Z.mod_mul. lia. }
  wp_step. apply wp_assert; [by rewrite (proj2 (Z.eqb_neq A 0))|].
  wp_step. apply wp_assert; [apply Z.leb_le; unfold gaddr; nia|].
  wp_step. apply wp_assert; [by rewrite Hal|]. wp_step. apply wp_assert; [by rewrite Hal|].
  wp_step. apply wp_assert.
  { unfold GPT_L0_IDX, GPT_L0_IDX_SHIFT. rewrite !Z.shiftr_div_pow2 by lia.
    destruct (gaddr_index s0 r a Hgeo ltac:(lia)) as (_ & _ & -> & _).
    destruct (gaddr_index s0 r b Hgeo ltac:(lia)) as (_ & _ & -> & _). by apply Z.eqb_eq. }
  wp_step. eapply wp_mono with (Q := fun v s' => v = at_ (b + 1) /\ inside s0 s' /\ filled_as (assign g a (b - a + 1) x) s');
    [| |done].
  - destruct (Z.eqb_spec RME_GPT_MAX_BLOCK 0) as [Hz|Hz]; cbn [negb].
    + rewrite <- !(inside_gaddr s0 s) by done.
      eapply wp_mono; [apply (wp_fill_gran g); try done; [by apply (inside_geo s0)|lia..]| |done].
      intros v s' (-> & Hin' & Hf'). rewrite (inside_gaddr s0 s), at_u64 by (done || lia).
      split_and!; [done|by eapply inside_trans|done].
    + apply wp_fill_loop; try done; [lia|]. intros _. unfold turns.
      replace (at_ b - at_ a) with ((b - a) * 2 ^ gc_p (gpt_config s0)) by (unfold gaddr; ring).
      rewrite <- Hby, Z.div_mul_cancel_r by lia.
      assert ((b - a + 1) / U <= (b - a) / U + 1) by (rewrite <- Z.div_add by lia; apply Z.div_le_mono; lia).
      assert (0 <= (b - a) / U) by (apply Z.div_pos; lia). case_decide; lia.
  - intros v s' (-> & Hin' & Hf'). apply wp_assert; [|done]. apply Z.eqb_eq. rewrite <- (at_u64 (b + 1)) by lia.
    f_equal. unfold gaddr. ring.
Qed.
End Loop.
End Fill.
