(* ===== verification/GptRegions.v ===== *)
(** * Granule protection tables: the list of regions

    When a list of regions is valid, which level 0 regions need a table, and
    that [validate_pas_mappings] accepts the list and counts these tables. *)

From stdpp Require Import list_numbers gmap.
From S2P Require Import Prelude GptDefs Gpt GptTable GptBlocks GptView.
#[local] Open Scope cmd_scope.

Section Regions.
Context `{Cfg : GptConfig} (t p : Z).
Context (Hs : 30 <= GPT_S_VAL <= 39) (Ht : 32 <= t <= 52) (Hp : 12 <= p <= 16).
#[local] Abbreviation R := (2 ^ GPT_S_VAL).

Definition r_gpi (r : pas_region_t) : Z := GPT_PAS_ATTR_GPI (pas_attrs r).
Definition r_block (r : pas_region_t) : bool := GPT_PAS_ATTR_MAP_TYPE (pas_attrs r) =? GPT_PAS_ATTR_MAP_TYPE_BLOCK.
Definition r_end (r : pas_region_t) : Z := pas_base_pa r + pas_size r.
Definition in_region (pa : Z) (r : pas_region_t) : Prop := pas_base_pa r <= pa < r_end r.
#[export] Instance in_region_dec pa r : Decision (in_region pa r).
Proof. unfold in_region. apply _. Defined.

(** A region that is not empty, lies in the protected space and is aligned as
    its kind of mapping requires. *)
Record valid_region (r : pas_region_t) : Prop := {
  vr_base : 0 <= pas_base_pa r;
  vr_size : 0 < pas_size r;
  vr_end : r_end r <= 2 ^ t;
  vr_gpi : is_gpi_valid (r_gpi r) = true;
  vr_align : let a := if r_block r then R else 2 ^ p in pas_base_pa r mod a = 0 /\ pas_size r mod a = 0
}.

Definition disjoint_regions (r r' : pas_region_t) : Prop := forall pa, in_region pa r -> ~ in_region pa r'.

Record valid_regions (l : list pas_region_t) : Prop := {
  vs_some : l <> [];
  vs_each : Forall valid_region l;
  vs_apart : forall i j r r', i <> j -> l !! i = Some r -> l !! j = Some r' -> disjoint_regions r r'
}.

(** What the list asks for. *)
Definition asked (l : list pas_region_t) (pa : Z) : option Z := r_gpi <$> head (filter (in_region pa) l).

(** The level 0 regions that a region meets. *)
Definition r_first (r : pas_region_t) : Z := pas_base_pa r / R.
Definition r_last (r : pas_region_t) : Z := (r_end r - 1) / R.
Definition meets (k : Z) (r : pas_region_t) : bool := (r_first r <=? k) && (k <=? r_last r).
Definition needs_table (k : Z) (r : pas_region_t) : bool := negb (r_block r) && meets k r.
Definition needed (l : list pas_region_t) (k : Z) : bool := existsb (needs_table k) l.
Definition l0_count : Z := 2 ^ Z.max 0 (t - GPT_S_VAL).
Definition tables (l : list pas_region_t) : list Z := filter (fun k => needed l k = true) (seqZ 0 l0_count).

Lemma r_pos : 0 < R.
Proof. apply Z.pow_pos_nonneg; lia. Qed.

Lemma r_nz : R <> 0.
Proof. pose proof r_pos as HR. intros H. by rewrite H in HR. Qed.

(** The quotient and the rest of an address. *)
Lemma r_div x : x = R * (x / R) + x mod R /\ 0 <= x mod R < R.
Proof.
  pose proof r_pos as HR. split; [apply Z.div_mod, r_nz|by apply Z.mod_pos_bound].
Qed.

Lemma meets_spec k r : valid_region r ->
  meets k r = true <-> exists pa, in_region pa r /\ pa / R = k.
Proof.
  intros [Hb Hsz _ _ _]. pose proof r_pos as HR. unfold meets, r_first, r_last, in_region, r_end in *.
  rewrite andb_true_iff, !Z.leb_le. split.
  - intros [H1 H2]. exists (Z.max (pas_base_pa r) (k * R)).
    destruct (r_div (pas_base_pa r)) as [? ?].
    destruct (r_div (pas_base_pa r + pas_size r - 1)) as [? ?].
    assert (k * R <= pas_base_pa r + pas_size r - 1) by nia. split; [lia|].
    destruct (Z.max_spec (pas_base_pa r) (k * R)) as [[Hm ->]|[Hm ->]]; [by rewrite Z.div_mul by lia|].
    apply Z.le_antisymm; [done|]. apply Z.div_le_lower_bound; lia.
  - intros (pa & [H1 H2] & <-). split; apply Z.div_le_mono; lia.
Qed.

Lemma first_last r : valid_region r -> 0 <= r_first r <= r_last r /\ r_last r < l0_count.
Proof.
  intros [Hb Hsz He _ _]. pose proof r_pos as HR. unfold r_first, r_last, r_end in *. split.
  - split; [apply Z.div_pos; lia|apply Z.div_le_mono; lia].
  - apply Z.div_lt_upper_bound; [done|]. unfold l0_count. rewrite <- Z.pow_add_r by lia.
    assert (2 ^ t <= 2 ^ (GPT_S_VAL + Z.max 0 (t - GPT_S_VAL))) by (apply Z.pow_le_mono_r; lia). lia.
Qed.

(** Regions consist of granules. *)
Lemma granule_bounds r : valid_region r ->
  pas_base_pa r = pas_base_pa r / 2 ^ p * 2 ^ p /\ r_end r = r_end r / 2 ^ p * 2 ^ p.
Proof.
  intros [Hb Hsz _ _ Ha]. cbn zeta in Ha. assert (2 ^ p <> 0) as Hnz by (apply Z.pow_nonzero; lia).
  assert (pas_base_pa r mod 2 ^ p = 0 /\ pas_size r mod 2 ^ p = 0) as [A1 A2].
  { destruct (r_block r); [|done]. assert ((2 ^ p | R)) as Hdiv.
    { exists (2 ^ (GPT_S_VAL - p)). rewrite <- Z.pow_add_r by lia. f_equal. lia. }
    destruct Ha as [A1 A2]. rewrite !Z.mod_divide in A1, A2 by (apply Z.pow_nonzero; lia).
    rewrite !Z.mod_divide by done. split; by eapply Z.divide_trans. }
  unfold r_end. apply Z.mod_divide in A1 as [x ->], A2 as [y ->]; [|done..].
  rewrite <- Z.mul_add_distr_r, !Z.div_mul by done. done.
Qed.

Lemma in_region_granule pa r : valid_region r -> in_region (pa / 2 ^ p * 2 ^ p) r <-> in_region pa r.
Proof.
  intros Hv. destruct (granule_bounds r Hv) as [A1 A2]. assert (0 < 2 ^ p) as HP by (apply Z.pow_pos_nonneg; lia).
  unfold in_region. rewrite A1, A2. set (lo := pas_base_pa r / 2 ^ p). set (hi := r_end r / 2 ^ p).
  assert (forall x, x * 2 ^ p <= pa / 2 ^ p * 2 ^ p <-> x * 2 ^ p <= pa) as H.
  { intros x. pose proof (Z.mul_div_le pa (2 ^ p) HP). split; [lia|]. intros Hx. apply Z.mul_le_mono_nonneg_r; [lia|].
    apply Z.div_le_lower_bound; lia. }
  rewrite !Z.lt_nge, !H. done.
Qed.

Lemma asked_granule l pa : Forall valid_region l -> asked l (pa / 2 ^ p * 2 ^ p) = asked l pa.
Proof.
  intros Hl. unfold asked. do 2 f_equal. induction Hl as [|r l Hv Hl IH]; [done|]. rewrite !filter_cons, IH.
  pose proof (in_region_granule pa r Hv). repeat case_decide; tauto.
Qed.

(** A region covers the level 0 regions strictly inside it, and a block region
    all that it meets. *)
Lemma inner_covered r k pa : valid_region r -> r_first r < k < r_last r -> pa / R = k -> in_region pa r.
Proof.
  intros [Hb Hsz _ _ _] Hk <-. pose proof r_pos as HR. unfold r_first, r_last, in_region, r_end in *.
  destruct (r_div pa) as [? ?].
  destruct (r_div (pas_base_pa r)) as [? ?].
  destruct (r_div (pas_base_pa r + pas_size r - 1)) as [? ?].
  set (q := pa / R) in *. set (q1 := pas_base_pa r / R) in *. set (q2 := (pas_base_pa r + pas_size r - 1) / R) in *.
  assert (q1 + 1 <= q /\ q + 1 <= q2) as [? ?] by lia. nia.
Qed.

Lemma block_covered r k pa : valid_region r -> r_block r = true -> meets k r = true -> pa / R = k -> in_region pa r.
Proof.
  intros [Hb Hsz _ _ Ha] Hblk Hm <-. rewrite Hblk in Ha. cbn zeta in Ha. destruct Ha as [Ha1 Ha2]. pose proof r_pos as HR.
  apply andb_true_iff in Hm as [H1%Z.leb_le H2%Z.leb_le]. unfold r_first, r_last, in_region, r_end in *.
  apply Z.mod_divide in Ha1 as [x Hx]; [|apply r_nz]. apply Z.mod_divide in Ha2 as [y Hy]; [|apply r_nz]. rewrite Hx, Hy in *.
  rewrite Z.div_mul in H1 by apply r_nz.
  assert (x * R + y * R - 1 = (R - 1) + (x + y - 1) * R) as He by ring. rewrite He in H2.
  rewrite Z.div_add, (Z.div_small (R - 1)) in H2 by (apply r_nz || lia).
  destruct (r_div pa) as [? ?]. set (q := pa / R) in *. nia.
Qed.

(** A level 0 region that a region with granules shares with others has no
    block, and is at one of its ends. *)
Lemma shared_ends r r' k :
  valid_region r -> valid_region r' -> disjoint_regions r r' -> meets k r = true -> meets k r' = true ->
  r_block r = false /\ r_block r' = false /\ (k = r_first r \/ k = r_last r).
Proof.
  intros Hv Hv' Hd Hm Hm'. pose proof Hm as Hm2. apply andb_true_iff in Hm2 as [H1%Z.leb_le H2%Z.leb_le].
  destruct (proj1 (meets_spec k r Hv) Hm) as (pa & Hpa & Hk). destruct (proj1 (meets_spec k r' Hv') Hm') as (pa' & Hpa' & Hk').
  split_and!.
  - destruct (r_block r) eqn:Hb; [|done]. exfalso. apply (Hd pa'); [|done]. by apply (block_covered r k).
  - destruct (r_block r') eqn:Hb; [|done]. exfalso. apply (Hd pa); [done|]. by apply (block_covered r' k).
  - destruct (decide (k = r_first r)); [by left|]. destruct (decide (k = r_last r)); [by right|].
    exfalso. apply (Hd pa'); [|done]. apply (inner_covered r k); [done|lia|done].
Qed.

(** ** Counting the tables *)

Definition cnt (f : Z -> bool) (l : list Z) : Z := Z.of_nat (length (filter (fun k => f k = true) l)).

Lemma cnt_cons f k l : cnt f (k :: l) = (if f k then 1 else 0) + cnt f l.
Proof. unfold cnt. rewrite filter_cons. destruct (f k); case_decide; cbn [length]; done || lia. Qed.

Lemma cnt_app f l l' : cnt f (l ++ l') = cnt f l + cnt f l'.
Proof. unfold cnt. rewrite filter_app, length_app. lia. Qed.

Lemma cnt_const f b l : (forall k, k ∈ l -> f k = b) -> cnt f l = if b then Z.of_nat (length l) else 0.
Proof.
  induction l as [|k l IH]; intros H; [by destruct b|]. rewrite cnt_cons, H, IH by set_solver.
  destruct b; cbn [length]; lia.
Qed.

Lemma cnt_or f g l : cnt (fun k => f k || g k) l = cnt f l + cnt (fun k => g k && negb (f k)) l.
Proof.
  induction l as [|k l IH]; [done|]. rewrite !cnt_cons, IH. destruct (f k), (g k); cbn [orb andb negb]; lia.
Qed.

Lemma cnt_ends f a w : 1 <= w -> (forall k, a < k < a + w - 1 -> f k = true) ->
  cnt f (seqZ a w) = w - (if f a then 0 else 1) - (if (1 <? w) && negb (f (a + w - 1)) then 1 else 0).
Proof.
  intros Hw Hin. rewrite seqZ_cons by lia. rewrite cnt_cons. destruct (Z.ltb_spec 1 w); cbn [andb].
  - replace (Z.pred w) with ((w - 2) + 1) by lia. rewrite seqZ_app by lia. rewrite cnt_app.
    rewrite (cnt_const f true (seqZ (Z.succ a) (w - 2))), length_seqZ, Z2Nat.id
      by (lia || (intros k Hk; apply elem_of_seqZ in Hk; apply Hin; lia)).
    change (seqZ (Z.succ a + (w - 2)) 1) with [Z.succ a + (w - 2)]. rewrite cnt_cons. change (cnt f []) with 0.
    replace (Z.succ a + (w - 2)) with (a + w - 1) by lia. destruct (f a), (f (a + w - 1)); cbn [negb]; lia.
  - replace w with 1 by lia. change (cnt f (seqZ (Z.succ a) (Z.pred 1))) with 0. destruct (f a); lia.
Qed.

Lemma tables_cnt l : Z.of_nat (length (tables l)) = cnt (needed l) (seqZ 0 l0_count).
Proof. done. Qed.

Lemma needed_snoc l r k : needed (l ++ [r]) k = needed l k || needs_table k r.
Proof. unfold needed. rewrite existsb_app. cbn. by rewrite orb_false_r. Qed.

(** A region with granules adds the tables at its two ends unless another
    region needs them already. *)
Lemma tables_snoc l r :
  valid_region r -> r_block r = false -> Forall valid_region l -> (forall r', r' ∈ l -> disjoint_regions r r') ->
  Z.of_nat (length (tables (l ++ [r]))) = Z.of_nat (length (tables l)) + (r_last r - r_first r + 1) -
    (if needed l (r_first r) then 1 else 0) -
    (if (1 <? r_last r - r_first r + 1) && needed l (r_last r) then 1 else 0).
Proof.
  intros Hv Hb Hl Hd. rewrite !tables_cnt. destruct (first_last r Hv) as [Hfl Hlc].
  set (w := r_last r - r_first r + 1).
  assert (forall lst, cnt (needed (l ++ [r])) lst = cnt (fun k => needed l k || meets k r) lst) as ->.
  { intros lst. unfold cnt. do 2 f_equal. apply list_filter_iff. intros k. rewrite needed_snoc. unfold needs_table.
    by rewrite Hb. }
  rewrite cnt_or. set (f := fun k => meets k r && negb (needed l k)).
  replace l0_count with (r_first r + (w + (l0_count - r_last r - 1))) by (unfold w; lia).
  rewrite !seqZ_app by (unfold w; lia). rewrite (cnt_app f), (cnt_app f).
  assert (forall a n, (forall k, a <= k < a + n -> meets k r = false) -> cnt f (seqZ a n) = 0) as Hout.
  { intros a n H. apply (cnt_const f false). intros k Hk%elem_of_seqZ. unfold f. by rewrite H. }
  rewrite (Hout 0 (r_first r)) by (intros k Hk; unfold meets; apply andb_false_iff; left; apply Z.leb_gt; lia).
  rewrite (Hout _ (l0_count - r_last r - 1))
    by (intros k Hk; unfold meets; apply andb_false_iff; right; apply Z.leb_gt; unfold w in Hk; lia).
  assert (forall k, 0 + r_first r <= k <= r_last r -> f k = negb (needed l k)) as Hf.
  { intros k Hk. unfold f, meets. by rewrite !(proj2 (Z.leb_le _ _)) by lia. }
  rewrite cnt_ends; [|unfold w; lia|].
  - replace (0 + r_first r + w - 1) with (r_last r) by (unfold w; lia). rewrite !Hf by lia. rewrite Z.add_0_l.
    rewrite negb_involutive. destruct (needed l (r_first r)), (needed l (r_last r)); cbn [negb andb]; lia.
  - intros k Hk. rewrite Hf by (unfold w in Hk; lia). apply negb_true_iff. unfold needed.
    apply not_true_is_false. intros (r' & Hr' & Hn)%existsb_exists. apply andb_true_iff in Hn as [_ Hm'].
    apply list_elem_of_In in Hr'. rewrite Forall_forall in Hl.
    assert (meets k r = true) as Hm by (unfold meets; rewrite !(proj2 (Z.leb_le _ _)) by (unfold w in Hk; lia); done).
    destruct (shared_ends r r' k Hv (Hl r' Hr') (Hd r' Hr') Hm Hm') as (_ & _ & [->| ->]); unfold w in Hk; lia.
Qed.

(** ** Validation *)

Lemma space_small x : x <= 2 ^ t -> x <= 2 ^ 52.
Proof. intros Hx. assert (2 ^ t <= 2 ^ 52) by (apply Z.pow_le_mono_r; lia). lia. Qed.

Lemma l0_count_small : l0_count <= 2 ^ 22.
Proof. unfold l0_count. apply Z.pow_le_mono_r; lia. Qed.

Lemma idx_div pa : GPT_L0_IDX pa = pa / R.
Proof. unfold GPT_L0_IDX, GPT_L0_IDX_SHIFT. by rewrite Z.shiftr_div_pow2 by lia. Qed.

Lemma last_idx r : valid_region r -> pas_last r = r_end r - 1 /\ GPT_L0_IDX (pas_last r) = r_last r.
Proof.
  intros [Hb Hsz He _ _]. pose proof (space_small _ He). rewrite idx_div. unfold pas_last, r_last. unfold r_end in *.
  by rewrite u64_small by lia.
Qed.

Lemma overlap_apart r r' : valid_region r -> valid_region r' -> disjoint_regions r r' ->
  check_pas_overlap (pas_base_pa r) (pas_size r) (pas_base_pa r') (pas_size r') = false.
Proof.
  intros [Hb Hsz He _ _] [Hb' Hsz' He' _ _] Hd. pose proof (space_small _ He). pose proof (space_small _ He').
  unfold r_end in *. unfold check_pas_overlap. rewrite !u64_small by lia. apply not_true_is_false.
  rewrite andb_true_iff, !Z.ltb_lt. intros [H1 H2].
  apply (Hd (Z.max (pas_base_pa r) (pas_base_pa r'))); unfold in_region, r_end; lia.
Qed.

Lemma region_inside k : 0 <= k < l0_count -> 0 <= R * k /\ R * k + R < 2 ^ 64.
Proof.
  intros Hk. pose proof r_pos as HR. split; [nia|].
  assert (R * l0_count <= 2 ^ 52) as Hc.
  { unfold l0_count. rewrite <- Z.pow_add_r by lia. apply Z.pow_le_mono_r; lia. } nia.
Qed.

Lemma div_le x k : x / R <= k <-> x < R * k + R.
Proof.
  pose proof r_pos as HR. split; intros H.
  - destruct (r_div x) as [H1 H2]. assert (R * (x / R) <= R * k) by (apply Z.mul_le_mono_nonneg_l; lia). lia.
  - apply Z.lt_succ_r, Z.div_lt_upper_bound; lia.
Qed.

Lemma le_div x k : k <= x / R <-> R * k <= x.
Proof.
  pose proof r_pos as HR. split; intros H.
  - destruct (r_div x) as [H1 H2]. assert (R * k <= R * (x / R)) by (apply Z.mul_le_mono_nonneg_l; lia). lia.
  - apply Z.div_le_lower_bound; lia.
Qed.

Lemma overlap_meets k r : valid_region r -> 0 <= k < l0_count ->
  check_pas_overlap (u64 (GPT_L0GPTSZ_ACTUAL_SIZE * k)) GPT_L0GPTSZ_ACTUAL_SIZE (pas_base_pa r) (pas_size r) = meets k r.
Proof.
  intros [Hb Hsz He _ _] Hk. pose proof (space_small _ He). destruct (region_inside k Hk) as [H1 H2]. unfold r_end in *.
  assert (GPT_L0GPTSZ_ACTUAL_SIZE = R) as ->
    by (unfold GPT_L0GPTSZ_ACTUAL_SIZE; rewrite Z.shiftl_mul_pow2, Z.mul_1_l by lia; done).
  pose proof r_pos as HR. unfold check_pas_overlap, meets, r_first, r_last, r_end.
  rewrite (u64_small (R * k)) by lia. rewrite !u64_small by lia. f_equal.
  - apply eq_bool_prop_intro. rewrite !Is_true_true, Z.ltb_lt, Z.leb_le, div_le. lia.
  - apply eq_bool_prop_intro. rewrite !Is_true_true, Z.ltb_lt, Z.leb_le, le_div. lia.
Qed.

Lemma previous_needed l r rest k :
  valid_region r -> r_block r = false -> Forall valid_region l -> (forall r', r' ∈ l -> disjoint_regions r r') ->
  meets k r = true -> does_previous_pas_exist_here k (l ++ r :: rest) (Z.of_nat (length l)) = needed l k.
Proof.
  intros Hv Hb Hl Hd Hm. unfold does_previous_pas_exist_here, needed.
  rewrite Nat2Z.id, take_app_length.
  assert (0 <= k < l0_count) as Hk.
  { destruct (first_last r Hv). apply andb_true_iff in Hm as [H1%Z.leb_le H2%Z.leb_le]. lia. }
  clear rest. induction Hl as [|r' l Hv' Hl IH]; [done|]. cbn [existsb].
  rewrite IH by (intros r2 Hr2; apply Hd; by right). f_equal. rewrite overlap_meets by done. unfold needs_table.
  destruct (meets k r') eqn:Hm'; [|by rewrite andb_false_r].
  destruct (shared_ends r r' k Hv Hv' (Hd r' ltac:(by left)) Hm Hm') as (_ & -> & _). done.
Qed.

Lemma count_l1_run l r rest :
  valid_region r -> r_block r = false -> Forall valid_region l -> (forall r', r' ∈ l -> disjoint_regions r r') ->
  count_l1 r (l ++ r :: rest) (Z.of_nat (length l)) =
    Z.of_nat (length (tables (l ++ [r]))) - Z.of_nat (length (tables l)).
Proof.
  intros Hv Hb Hl Hd. pose proof (tables_snoc l r Hv Hb Hl Hd) as Ht'. destruct (first_last r Hv) as [Hfl Hlc].
  pose proof l0_count_small. destruct (last_idx r Hv) as [_ Hlast]. unfold count_l1. rewrite Hlast, idx_div.
  fold (r_first r).
  assert (meets (r_first r) r = true /\ meets (r_last r) r = true) as [M1 M2]
    by (unfold meets; rewrite !(proj2 (Z.leb_le _ _)) by lia; done).
  rewrite !(u32_small (r_last r)), (u32_small (r_first r)), (u32_small (r_last r - _ + 1)) by lia.
  rewrite !previous_needed by done.
  destruct (Z.ltb_spec 1 (r_last r - r_first r + 1)), (needed l (r_last r)), (needed l (r_first r)); cbn [andb] in *;
    rewrite ?u32_small by (rewrite ?u32_small by lia; lia); lia.
Qed.

Section Validate.
Context (s : gpt_state) (Hcfg_t : gc_t (gpt_config s) = t) (Hcfg_p : gc_p (gpt_config s) = p).
Context (Hunused : forall k, 0 <= k < l0_count ->
  gpt_mem s !! elem (plat_gpt_l0_base (gpt_config s)) k = Some (GPT_L0_BLK_DESC GPT_GPI_ANY)).

Lemma l0_unused_run r : valid_region r -> check_l0_unused r s = Done 0 s.
Proof.
  intros Hv. destruct (first_last r Hv) as [Hfl Hlc]. pose proof l0_count_small. destruct (last_idx r Hv) as [_ Hlast].
  unfold check_l0_unused, bind, gets, id. rewrite Hlast, idx_div. fold (r_first r). rewrite u32_small by lia.
  rewrite (all_of_pure _ _ (fun _ => true)).
  - assert (forall l : list Z, forallb (fun _ => true) l = true) as -> by (induction l; done).
    cbn [negb]. by rewrite (proj2 (Z.ltb_lt _ _)) by lia.
  - intros k Hk%elem_of_seqZ. unfold bind. rewrite (load_run _ (GPT_L0_BLK_DESC GPT_GPI_ANY)) by (apply Hunused; lia). done.
Qed.

Lemma aligned_land x k : 0 <= k -> x mod 2 ^ k = 0 -> (Z.land x (Z.shiftl 1 k - 1) =? 0) = true.
Proof.
  intros Hk Hx. rewrite Z.shiftl_mul_pow2, Z.mul_1_l by done.
  replace (2 ^ k - 1) with (Z.ones k) by (rewrite Z.ones_equiv; lia). rewrite Z.land_ones by done. by apply Z.eqb_eq.
Qed.

Lemma validate_pas_run l r rest :
  valid_region r -> Forall valid_region (l ++ rest) ->
  (forall r', r' ∈ l ++ rest -> disjoint_regions r r') ->
  validate_pas (l ++ r :: rest) (Z.of_nat (length l)) r s =
    Done (inr (Z.of_nat (length (tables (l ++ [r]))) - Z.of_nat (length (tables l)))) s.
Proof.
  intros Hv [Hl Hrest]%Forall_app Hd. pose proof Hv as [Hb Hsz He Hg Ha]. pose proof (space_small _ He) as Hsm.
  unfold r_end in He, Hsm. unfold validate_pas. unfold bind at 1. unfold gets, id. rewrite Hcfg_t, Hcfg_p.
  rewrite (proj2 (Z.ltb_ge _ _)) by (unfold UINT64_MAX; lia).
  assert (GPT_PPS_ACTUAL_SIZE t = 2 ^ t) as -> by (unfold GPT_PPS_ACTUAL_SIZE; by rewrite Z.shiftl_mul_pow2, Z.mul_1_l by lia).
  rewrite (proj2 (Z.ltb_ge _ _)) by lia. unfold r_gpi in Hg. rewrite Hg. cbn [negb orb].
  assert (drop (Z.to_nat (Z.of_nat (length l) + 1)) (l ++ r :: rest) = rest) as ->.
  { replace (Z.to_nat (Z.of_nat (length l) + 1)) with (length l + 1)%nat by lia. by rewrite drop_app_add. }
  replace (existsb _ rest) with false.
  2: { symmetry. apply not_true_is_false. intros (r' & Hr' & Ho)%existsb_exists. apply list_elem_of_In in Hr'.
       rewrite Forall_forall in Hrest. rewrite overlap_apart in Ho; [done|done|by apply Hrest|]. apply Hd. set_solver. }
  unfold bind at 1. rewrite l0_unused_run by done. cbn [negb Z.eqb]. fold (r_block r).
  destruct (r_block r) eqn:Hblk; cbn zeta in Ha; destruct Ha as [A1 A2].
  - unfold GPT_IS_L0_ALIGNED, GPT_L0_REGION_SIZE, GPT_L0_IDX_SHIFT. rewrite !aligned_land by (done || lia). cbn [negb orb].
    unfold ret. do 2 f_equal. unfold tables. rewrite (list_filter_iff _ (fun k => needed l k = true)); [lia|].
    intros k. rewrite needed_snoc. unfold needs_table. rewrite Hblk. cbn [negb andb]. by rewrite orb_false_r.
  - assert ((GPT_PAS_ATTR_MAP_TYPE (pas_attrs r) =? GPT_PAS_ATTR_MAP_TYPE_GRANULE) = true) as ->.
    { assert (GPT_PAS_ATTR_MAP_TYPE (pas_attrs r) = Z.shiftr (pas_attrs r) 4 mod 2) as Hty
        by (apply (Z.land_ones _ 1); lia).
      unfold r_block, GPT_PAS_ATTR_MAP_TYPE_BLOCK, GPT_PAS_ATTR_MAP_TYPE_GRANULE in *. rewrite Hty in *.
      apply Z.eqb_neq in Hblk. apply Z.eqb_eq. pose proof (Z.mod_pos_bound (Z.shiftr (pas_attrs r) 4) 2 eq_refl). lia. }
    unfold GPT_IS_L1_ALIGNED, GPT_PGS_ACTUAL_SIZE. rewrite !aligned_land by (done || lia). cbn [negb orb].
    unfold ret. do 2 f_equal. apply count_l1_run; [done..|]. intros r' Hr'. apply Hd. set_solver.
Qed.

Lemma tables_mono l l' : (length (tables l) <= length (tables (l ++ l')))%nat.
Proof.
  apply Nat2Z.inj_le. rewrite !tables_cnt.
  assert (cnt (needed (l ++ l')) (seqZ 0 l0_count) = cnt (fun k => needed l k || needed l' k) (seqZ 0 l0_count)) as ->.
  { unfold cnt. do 2 f_equal. apply list_filter_iff. intros k. unfold needed. by rewrite existsb_app. }
  rewrite cnt_or. assert (forall f ks, 0 <= cnt f ks) as H by (intros f ks; unfold cnt; lia).
  specialize (H (fun k => needed l' k && negb (needed l k)) (seqZ 0 l0_count)). lia.
Qed.

Lemma tables_small l : Z.of_nat (length (tables l)) <= 2 ^ 22.
Proof.
  pose proof l0_count_small. assert (length (tables l) <= length (seqZ 0 l0_count))%nat by (apply length_filter).
  rewrite length_seqZ in *. lia.
Qed.

Lemma validate_loop_run todo l : valid_regions (l ++ todo) ->
  validate_loop (l ++ todo) (Z.of_nat (length l)) (Z.of_nat (length (tables l))) todo s =
    Done (Z.of_nat (length (tables (l ++ todo)))) s.
Proof.
  revert l. induction todo as [|r todo IH]; intros l Hval; cbn [validate_loop].
  - rewrite app_nil_r. unfold ret. f_equal. unfold to_int. pose proof (tables_small l).
    by rewrite (proj2 (Z.ltb_lt _ _)) by lia.
  - pose proof Hval as [_ Heach Hap]. pose proof Heach as Heach'. rewrite Forall_app, Forall_cons in Heach.
    destruct Heach as (Hl & Hr & Htodo).
    assert (forall r', r' ∈ l ++ todo -> disjoint_regions r r') as Hd.
    { intros r' [Hin|Hin]%elem_of_app; apply list_elem_of_lookup in Hin as [i Hi].
      - apply (Hap (length l) i); [|by apply list_lookup_middle|by apply lookup_app_l_Some].
        apply lookup_lt_Some in Hi. lia.
      - apply (Hap (length l) (length l + S i)%nat); [lia|by apply list_lookup_middle|].
        rewrite lookup_app_r by lia. by replace (length l + S i - length l)%nat with (S i) by lia. }
    unfold bind. rewrite validate_pas_run; [|done|by apply Forall_app|done]. cbn match.
    pose proof (tables_mono l [r]). pose proof (tables_small (l ++ [r])).
    rewrite u32_small by lia. replace (l ++ r :: todo) with ((l ++ [r]) ++ todo) in * by (by rewrite <- app_assoc).
    specialize (IH (l ++ [r]) Hval). rewrite length_app in IH. cbn [length] in IH.
    rewrite Nat2Z.inj_add in IH. rewrite <- IH. f_equal. lia.
Qed.

Lemma tables_nil : tables [] = [].
Proof.
  unfold tables. induction (seqZ 0 l0_count) as [|k ks IH]; [done|]. rewrite filter_cons, IH. by case_decide.
Qed.

Lemma validate_run l : valid_regions l -> validate_pas_mappings l s = Done (Z.of_nat (length (tables l))) s.
Proof.
  intros Hval. unfold validate_pas_mappings, bind, assert_.
  destruct l as [|r l]; [by destruct Hval|]. cbn [length Z.of_nat Z.eqb negb andb].
  pose proof (validate_loop_run (r :: l) [] Hval) as H. rewrite tables_nil in H. exact H.
Qed.
End Validate.
End Regions.
