(* ===== verification/GptInit.v ===== *)
(** * Granule protection tables: tables under construction

    The state between the regions of a list ([building]): which level 0 regions
    have a table and what has been assigned to each granule. Such tables are
    well formed. New tables, and one entry of level 0. *)

From stdpp Require Import list_numbers gmap.
From S2P Require Import Prelude GptDefs Gpt GptTable GptBlocks GptView GptPolicy GptTransition GptProps GptFill GptRegions.
#[local] Open Scope cmd_scope.

Section Init.
Context `{Cfg : GptConfig} (B : Z) (cap : nat).

(** The level 1 table number [i] of the memory given for tables. *)
Definition tbl (s : gpt_state) (i : nat) : Z := B + 8 * l1_entries s * Z.of_nat i.

(** The number of granules of a level 0 region. *)
Definition width (s : gpt_state) : Z := 16 * l1_entries s.

(** Memory for [cap] tables, apart from level 0. *)
Record room (s : gpt_state) : Prop := {
  rm_base : (0 < cap)%nat -> 0 < B /\ B mod (8 * l1_entries s) = 0 /\ tbl s cap <= 2 ^ 52;
  rm_mapped : forall i, (i < cap)%nat -> mapped (tbl s i) (l1_entries s) (gpt_mem s);
  rm_apart : forall i j k, (i < cap)%nat -> 0 <= j < l1_entries s -> 0 <= k < l0_entries s ->
    elem (tbl s i) j <> elem (plat_gpt_l0_base (gpt_config s)) k
}.

(** Tables under construction: [ks] are the level 0 regions with a table, in the
    order of their tables, and [G] gives the granules assigned so far. *)
Record building (s : gpt_state) (ks : list Z) (G : Z -> option Z) : Prop := {
  bu_geo : geo s;
  bu_base : 0 < plat_gpt_l0_base (gpt_config s);
  bu_room : room s;
  bu_cap : (length ks <= cap)%nat;
  bu_tbl : (0 < cap)%nat -> gpt_l1_tbl s = tbl s (length ks);
  bu_nodup : NoDup ks;
  bu_in : forall k, k ∈ ks -> 0 <= k < l0_entries s;
  bu_l0 : forall k, 0 <= k < l0_entries s ->
    ((k ∉ ks) /\ exists x, 0 <= x < 16 /\
       gpt_mem s !! elem (plat_gpt_l0_base (gpt_config s)) k = Some (1 + 16 * x) /\
       ((x = GPT_GPI_ANY /\ forall q, 0 <= q < width s -> G (k * width s + q) = None) \/
        (forall q, 0 <= q < width s -> G (k * width s + q) = Some x))) \/
    (exists i, ks !! i = Some k /\
       gpt_mem s !! elem (plat_gpt_l0_base (gpt_config s)) k = Some (tbl s i + 3) /\
       filled_as (tbl s i) (fun q => G (k * width s + q)) s)
}.

Lemma tbl_align s i : geo s -> room s -> (i < cap)%nat ->
  0 < tbl s i < 2 ^ 52 /\ tbl s i mod (8 * l1_entries s) = 0 /\ tbl s i mod 2 ^ 12 = 0.
Proof.
  intros Hgeo Hr Hi. destruct (rm_base _ Hr ltac:(lia)) as (H1 & H2 & H3). pose proof (n_pos s Hgeo) as HN.
  unfold tbl in *. set (N := l1_entries s) in *. assert (Z.of_nat i + 1 <= Z.of_nat cap) by lia.
  assert ((B + 8 * N * Z.of_nat i) mod (8 * N) = 0) as Hal
    by (rewrite (Z.mul_comm (8 * N)), Z.mod_add by lia; done).
  split_and!; [nia|nia|done|]. apply Z.mod_divide in Hal as [y ->]; [|lia].
  assert (exists z, 8 * N = z * 2 ^ 12) as [z ->].
  { exists (2 ^ (GPT_S_VAL - gc_p (gpt_config s) - 4 - 9)). unfold N, l1_entries. change 8 with (2 ^ 3).
    pose proof (geo_pow s Hgeo). rewrite <- !Z.pow_add_r by lia. f_equal. lia. }
  rewrite Z.mul_assoc. by apply Z.mod_mul.
Qed.

Lemma tbl_inj s i j : geo s -> tbl s i = tbl s j -> i = j.
Proof. intros Hgeo. pose proof (n_pos s Hgeo). unfold tbl. nia. Qed.

(** The linked tables are those of [ks]. *)
Lemma building_links s ks G k A : building s ks G -> links s (gpt_mem s) k A ->
  exists i, ks !! i = Some k /\ A = tbl s i /\ filled_as A (fun q => G (k * width s + q)) s.
Proof.
  intros HB (Hk & Hal & Hd). destruct (bu_l0 _ _ _ HB k Hk) as [(_ & x & Hx & Hd' & _)|(i & Hi & Hd' & Hf)];
    rewrite Hd in Hd'; injection Hd' as Heq.
  - exfalso. apply Z.mod_divide in Hal as [y ->]; [|lia]. lia.
  - exists i. replace A with (tbl s i) by lia. done.
Qed.

Lemma building_table s ks G k i : building s ks G -> ks !! i = Some k ->
  (i < cap)%nat /\ filled_as (tbl s i) (fun q => G (k * width s + q)) s /\ links s (gpt_mem s) k (tbl s i).
Proof.
  intros HB Hi. pose proof (lookup_lt_Some _ _ _ Hi) as Hlt. pose proof (bu_cap _ _ _ HB).
  destruct (tbl_align s i (bu_geo _ _ _ HB) (bu_room _ _ _ HB) ltac:(lia)) as (_ & _ & Hal).
  pose proof (bu_in _ _ _ HB k ltac:(by eapply list_elem_of_lookup_2)) as Hk.
  destruct (bu_l0 _ _ _ HB k Hk) as [(Hn & _)|(i' & Hi' & Hd & Hf)].
  - exfalso. apply Hn. by eapply list_elem_of_lookup_2.
  - assert (i' = i) as -> by (by eapply NoDup_lookup; [apply HB|..]). split; [lia|]. split; [done|]. split; [done|by split].
Qed.

Lemma granule_split s pa : geo s ->
  pa / 2 ^ gc_p (gpt_config s) =
    pa / 2 ^ GPT_S_VAL * width s + (16 * GPT_L1_INDEX s pa + (pa / 2 ^ gc_p (gpt_config s)) mod 16) /\
  0 <= 16 * GPT_L1_INDEX s pa + (pa / 2 ^ gc_p (gpt_config s)) mod 16 < width s.
Proof.
  intros Hgeo. pose proof (geo_pow s Hgeo) as Hpow. pose proof (l1_index_range s Hgeo pa) as Hi.
  rewrite l1_index in * by done. unfold width. set (N := l1_entries s) in *. set (p := gc_p (gpt_config s)) in *.
  set (q := pa / 2 ^ p). pose proof (Z.mod_pos_bound q 16 ltac:(lia)).
  assert (pa / 2 ^ (p + 4) = q / 16) as Hq.
  { unfold q. rewrite Z.pow_add_r, <- Z.div_div by (try apply Z.pow_nonzero; lia). done. }
  assert (pa / 2 ^ GPT_S_VAL = q / 16 / N) as ->.
  { unfold q, N, l1_entries. fold p. change 16 with (2 ^ 4).
    rewrite !Z.div_div, <- !Z.pow_add_r by (try apply Z.pow_nonzero; try apply Z.pow_pos_nonneg; lia). do 2 f_equal. lia. }
  rewrite Hq in *. pose proof (n_pos s Hgeo). fold N in H0.
  pose proof (Z.div_mod q 16 ltac:(lia)). pose proof (Z.div_mod (q / 16) N ltac:(lia)). split; [|lia]. nia.
Qed.

(** Tables under construction are well formed, and the walk finds what was
    assigned. *)
Lemma building_wf s ks G : building s ks G ->
  wf_gpt s /\ forall pa, 0 <= pa < 2 ^ gc_t (gpt_config s) ->
    view s pa = Some (default GPT_GPI_ANY (G (pa / 2 ^ gc_p (gpt_config s)))).
Proof.
  intros HB. pose proof (bu_geo _ _ _ HB) as Hgeo. pose proof (bu_room _ _ _ HB) as Hr.
  assert (wf_mem s (gpt_mem s)) as Hwf.
  { split.
    - intros k Hk. destruct (bu_l0 _ _ _ HB k Hk) as [(_ & x & Hx & Hd & _)|(i & Hi & _)]; [left; by exists x|].
      right. destruct (building_table s ks G k i HB Hi) as (Hlt & [M W Nb _ _] & Hl). exists (tbl s i). split; [done|].
      destruct (tbl_align s i Hgeo Hr Hlt) as (H1 & H2 & _). split; [done..|]. intros j k'. by apply Hr.
    - intros k k' A (i & Hi & -> & _)%(building_links _ _ _ _ _ HB) (i' & Hi' & Heq & _)%(building_links _ _ _ _ _ HB).
      apply (tbl_inj s) in Heq as ->; [|done]. congruence. }
  split; [by split; [|apply HB|]|]. intros pa Hpa. destruct (granule_split s pa Hgeo) as [Hq Hin]. unfold view.
  destruct (bu_l0 _ _ _ HB _ (l0_index s Hgeo pa Hpa)) as [(_ & x & Hx & Hd & Hc)|(i & Hi & _)].
  - rewrite (walk_block s _ pa x) by done. f_equal. rewrite Hq.
    destruct Hc as [[-> Hc]|Hc]; by rewrite Hc.
  - destruct (building_table s ks G _ i HB Hi) as (_ & [_ _ _ Hg _] & Hl).
    rewrite (walk_l1 s Hgeo _ pa (tbl s i)) by done. f_equal. rewrite Hg, <- Hq; [done|by apply l1_index_range|].
    by apply Z.mod_pos_bound.
Qed.

(** ** Changes of memory *)

(** The variables the tables depend on. *)
Definition same_setup (s s' : gpt_state) : Prop :=
  gpt_config s' = gpt_config s /\ gpt_l1_cnt_2mb s' = gpt_l1_cnt_2mb s /\
  gpt_l1_index_mask s' = gpt_l1_index_mask s /\ gpi_config s' = gpi_config s.

Lemma setup_geo s s' : same_setup s s' -> geo s -> geo s'.
Proof. intros (H1 & H2 & H3 & _) [G1 G2 G3 G4 G5 G6]. split; rewrite ?H1, ?H2, ?H3; done. Qed.

Lemma setup_eqs s s' : same_setup s s' ->
  l1_entries s' = l1_entries s /\ l0_entries s' = l0_entries s /\ width s' = width s /\ (forall i, tbl s' i = tbl s i).
Proof. intros (H1 & _). unfold tbl, width, l1_entries, l0_entries. by rewrite !H1. Qed.

Lemma setup_trans s s' s'' : same_setup s s' -> same_setup s' s'' -> same_setup s s''.
Proof. intros (H1 & H2 & H3 & H4) (H5 & H6 & H7 & H8). unfold same_setup. by rewrite H5, H6, H7, H8. Qed.

Lemma inside_setup A s s' : inside A s s' -> same_setup s s'.
Proof. intros (H1 & H2 & H3 & H4 & _)%inside_config. done. Qed.

Lemma filled_same A g s s' : same_setup s s' ->
  (forall j, 0 <= j < l1_entries s -> gpt_mem s' !! elem A j = gpt_mem s !! elem A j) ->
  filled_as A g s -> filled_as A g s'.
Proof.
  intros Hs He [M W Nb Hg Hf]. destruct (setup_eqs _ _ Hs) as (HN & _). destruct Hs as (Hc & _).
  assert (forall j, tab A (l1_entries s) (gpt_mem s') j = tab A (l1_entries s) (gpt_mem s) j) as Ht.
  { intros j. unfold tab. case_decide; [by rewrite He|done]. }
  split; rewrite ?HN, ?Hc.
  - intros j Hj. rewrite He by done. by apply M.
  - eapply wf_ext; [intros j; symmetry; apply Ht|done].
  - intros Hz j. rewrite Ht. by apply Nb.
  - intros j k Hj Hk. rewrite Ht. by apply Hg.
  - intros j k Hj Hk. rewrite Ht. by apply Hf.
Qed.

(** Memory may change inside the tables. *)
Lemma room_same s s' : same_setup s s' ->
  (forall i j, (i < cap)%nat -> 0 <= j < l1_entries s -> is_Some (gpt_mem s !! elem (tbl s i) j) ->
     is_Some (gpt_mem s' !! elem (tbl s i) j)) ->
  room s -> room s'.
Proof.
  intros Hs Hm [R1 R2 R3]. destruct (setup_eqs _ _ Hs) as (HN & HL & _ & Ht). destruct Hs as (Hc & _).
  split; rewrite ?HN, ?HL, ?Hc, ?Ht; [done| |].
  - intros i Hi j Hj. rewrite Ht. apply Hm; [done|done|]. by apply R2.
  - intros i j k Hi Hj Hk. rewrite Ht. by apply R3.
Qed.

(** Other tables are elsewhere. *)
Lemma tables_disjoint s i i' j j' : geo s -> room s -> (i < cap)%nat -> (i' < cap)%nat ->
  0 <= j < l1_entries s -> 0 <= j' < l1_entries s -> elem (tbl s i) j = elem (tbl s i') j' -> i = i'.
Proof.
  intros Hgeo Hr Hi Hi' Hj Hj' Heq.
  destruct (tbl_align s i Hgeo Hr Hi) as (_ & H1 & _). destruct (tbl_align s i' Hgeo Hr Hi') as (_ & H2 & _).
  apply (tbl_inj s); [done|]. by apply (tables_apart s Hgeo _ _ j j').
Qed.

(** A linked table is filled further. *)
Lemma building_fill s s' ks G k i a n x :
  building s ks G -> ks !! i = Some k -> inside (tbl s i) s s' ->
  filled_as (tbl s i) (assign (fun q => G (k * width s + q)) a n x) s' -> 0 <= a -> a + n <= width s ->
  building s' ks (assign G (k * width s + a) n x).
Proof.
  intros HB Hi Hin Hf Ha Hn. pose proof (bu_geo _ _ _ HB) as Hgeo. pose proof (bu_room _ _ _ HB) as Hr.
  pose proof (inside_setup _ _ _ Hin) as Hs. destruct (setup_eqs _ _ Hs) as (HN & HL & HW & Ht). pose proof Hs as (Hc & _).
  destruct (building_table s ks G k i HB Hi) as (Hic & _ & _).
  assert (forall a', (forall j, 0 <= j < l1_entries s -> a' <> elem (tbl s i) j) -> gpt_mem s' !! a' = gpt_mem s !! a')
    as Hout by apply Hin.
  assert (0 <= k < l0_entries s) as Hk by (apply (bu_in _ _ _ HB); by eapply list_elem_of_lookup_2).
  assert (forall k', 0 <= k' < l0_entries s -> gpt_mem s' !! elem (plat_gpt_l0_base (gpt_config s)) k' =
    gpt_mem s !! elem (plat_gpt_l0_base (gpt_config s)) k') as Hl0.
  { intros k' Hk'. apply Hout. intros j Hj Heq. by apply (rm_apart _ Hr i j k'). }
  assert (forall k' q, k' <> k -> 0 <= q < width s ->
    assign G (k * width s + a) n x (k' * width s + q) = G (k' * width s + q)) as Hother.
  { intros k' q Hne Hq. unfold assign. rewrite decide_False; [done|]. nia. }
  split.
  - by apply (setup_geo s).
  - rewrite Hc. apply HB.
  - apply (room_same s); [done| |done]. intros i' j Hi' Hj Hsome. destruct (decide (i' = i)) as [->|Hne].
    + pose proof (fa_mapped _ _ _ Hf) as Hm. rewrite HN in Hm. by apply Hm.
    + rewrite Hout; [done|]. intros j' Hj' Heq. by apply Hne, (tables_disjoint s i' i j j').
  - apply HB.
  - intros Hcap. rewrite Ht, <- (bu_tbl _ _ _ HB Hcap). apply (inside_config _ _ _ Hin).
  - apply HB.
  - rewrite HL. apply HB.
  - rewrite HL, HW, Hc. intros k' Hk'. rewrite Hl0 by done.
    destruct (bu_l0 _ _ _ HB k' Hk') as [(Hn' & y & Hy & Hd & Hcase)|(i' & Hi' & Hd & Hf')].
    + left. split; [done|]. exists y. split; [done|]. split; [done|].
      assert (k' <> k) as Hne by (intros ->; apply Hn'; by eapply list_elem_of_lookup_2).
      destruct Hcase as [[-> Hcase]|Hcase]; [left; split; [done|]|right]; intros q Hq; rewrite Hother by done; by apply Hcase.
    + right. exists i'. rewrite Ht. split; [done|]. split; [done|]. destruct (decide (i' = i)) as [->|Hne].
      * rewrite Hi in Hi'. injection Hi' as <-. eapply filled_ext; [|exact Hf]. intros q Hq. unfold assign.
        repeat case_decide; done || lia.
      * assert (k' <> k) as Hkk by (intros ->; apply Hne; by eapply NoDup_lookup; [apply HB|..]).
        assert ((i' < cap)%nat) as Hi'c by (apply lookup_lt_Some in Hi'; pose proof (bu_cap _ _ _ HB); lia).
        apply (filled_ext _ (fun q => G (k' * width s + q))).
        { intros q Hq. rewrite HN in Hq. by rewrite Hother by (done || (unfold width; lia)). }
        apply (filled_same _ _ s); [done| |done]. intros j Hj. apply Hout. intros j' Hj' Heq.
        by apply Hne, (tables_disjoint s i' i j j').
Qed.

(** ** A new table *)

Lemma l1_count s : geo s ->
  GPT_L1_ENTRY_COUNT (gc_p (gpt_config s)) = l1_entries s /\
  GPT_L1_TABLE_SIZE (gc_p (gpt_config s)) = 8 * l1_entries s.
Proof.
  intros [G1 _ G3 _ _ _]. assert (GPT_L1_ENTRY_COUNT (gc_p (gpt_config s)) = l1_entries s) as H.
  { unfold GPT_L1_ENTRY_COUNT, GPT_L1_IDX_MASK, GPT_L1_IDX_WIDTH, l1_entries.
    destruct G1 as [->|[->|[->| ->]]], G3 as [->|[->| ->]]; done. }
  split; [done|]. unfold GPT_L1_TABLE_SIZE. rewrite H, Z.shiftl_mul_pow2 by lia. lia.
Qed.

Lemma unused_table A s : mapped A (l1_entries s) (gpt_mem s) ->
  (forall j, 0 <= j < l1_entries s -> tab A (l1_entries s) (gpt_mem s) j = GPT_L1_ANY_DESC) ->
  filled_as A (fun _ => None) s.
Proof.
  intros Hm Ht. assert (forall j, is_cont_desc (tab A (l1_entries s) (gpt_mem s) j) = false) as Hc.
  { intros j. destruct (decide (0 <= j < l1_entries s)) as [Hj|Hj]; [by rewrite Ht|].
    unfold tab. by rewrite decide_False. }
  split; [done| |done| |done].
  - intros j. left. split; [done|]. destruct (decide (0 <= j < l1_entries s)) as [Hj|Hj]; [by rewrite Ht|].
    unfold tab. by rewrite decide_False.
  - intros j k Hj Hk. rewrite Ht by done. cbn [default]. by apply dgpi_build.
Qed.

Lemma wp_new_table A s :
  geo s -> gpt_l1_tbl s = A -> 0 < A -> A + 8 * l1_entries s < 2 ^ 64 -> mapped A (l1_entries s) (gpt_mem s) ->
  wpd get_new_l1_tbl (fun l1 s' => l1 = A /\ gpt_l1_tbl s' = A + 8 * l1_entries s /\ same_setup s s' /\
    (forall a, (forall j, 0 <= j < l1_entries s -> a <> elem A j) -> gpt_mem s' !! a = gpt_mem s !! a) /\
    filled_as A (fun _ => None) s') s.
Proof.
  intros Hgeo Htb HA Hend Hm. destruct (l1_count s Hgeo) as [Hn Hsz]. pose proof (n_pos s Hgeo) as HN.
  unfold get_new_l1_tbl. wp_steps. unfold id. rewrite Htb, Hn, Hsz, u64_small by lia.
  set (s1 := set_gpt_l1_tbl (A + 8 * l1_entries s) s). set (N := l1_entries s) in *.
  eapply wp_mono; [apply (wp_for_each _ _ (fun l s' => inside A s1 s' /\ mapped A N (gpt_mem s') /\
    forall j, tab A N (gpt_mem s') j =
      if decide (0 <= j < Z.of_nat (length l)) then GPT_L1_ANY_DESC else tab A N (gpt_mem s) j))| |done].
  - split; [apply inside_refl|]. split; [done|]. intros j. cbn [length]. by rewrite decide_False by lia.
  - intros l j s' [l' [-> Hlt]%seqZ_split] (Hin & Hm' & Ht). eapply wp_exact; [apply store_run, Hm'; lia|]. split_and!.
    + eapply inside_trans; [exact Hin|]. apply inside_store. rewrite (inside_n _ _ _ Hin). change (l1_entries s1) with N. lia.
    + by apply mapped_store.
    + intros j. unfold stored. cbn [gpt_mem set_gpt_mem add_gpt_event]. rewrite tab_store, Ht, length_app by lia.
      cbn [length]. repeat case_decide; try done; lia.
  - intros [] s' (Hin & Hm' & Ht). wp_step. pose proof (inside_n _ _ _ Hin) as HN'. change (l1_entries s1) with N in HN'.
    split_and!; [done| | | |].
    + destruct (inside_config _ _ _ Hin) as (_ & _ & _ & _ & ->). done.
    + apply (inside_setup A s1). done.
    + intros a Ha. rewrite (in_out _ _ _ Hin) by done. done.
    + apply unused_table; rewrite HN'; [done|]. intros j Hj. rewrite Ht, length_seqZ, Z2Nat.id, decide_True by lia. done.
Qed.

(** ** An entry of level 0 that gets a table *)

Lemma tbl_desc A : 0 < A < 2 ^ 52 -> A mod 2 ^ 12 = 0 -> GPT_L0_TBL_DESC A = A + 3.
Proof.
  intros HA Hal. unfold GPT_L0_TBL_DESC. change GPT_L0_TYPE_TBL_DESC with 3.
  change (Z.land A (Z.shiftl GPT_L0_TBL_DESC_L1ADDR_MASK GPT_L0_TBL_DESC_L1ADDR_SHIFT)) with (GPT_L0_TBLD_ADDR A).
  rewrite tbld_addr. pose proof (Z.div_mod A (2 ^ 12) ltac:(lia)) as Hd.
  rewrite Z.mod_small by (split; [apply Z.div_pos; lia|apply Z.div_lt_upper_bound; lia]).
  rewrite Z.lor_comm, <- Z.shiftl_mul_pow2, lor_shiftl by lia. lia.
Qed.

(** Level 0 region [k] gets the next table, which is all unused. *)
Lemma building_link s s' ks G k :
  building s ks G -> (length ks < cap)%nat -> 0 <= k < l0_entries s -> k ∉ ks ->
  (forall q, 0 <= q < width s -> G (k * width s + q) = None) ->
  same_setup s s' -> gpt_l1_tbl s' = tbl s (S (length ks)) ->
  gpt_mem s' !! elem (plat_gpt_l0_base (gpt_config s)) k = Some (tbl s (length ks) + 3) ->
  (forall a, a <> elem (plat_gpt_l0_base (gpt_config s)) k ->
     (forall j, 0 <= j < l1_entries s -> a <> elem (tbl s (length ks)) j) -> gpt_mem s' !! a = gpt_mem s !! a) ->
  filled_as (tbl s (length ks)) (fun _ => None) s' ->
  building s' (ks ++ [k]) G.
Proof.
  intros HB Hlen Hk Hnk HG Hs Htb Hd Hout Hf. pose proof (bu_geo _ _ _ HB) as Hgeo. pose proof (bu_room _ _ _ HB) as Hr.
  destruct (setup_eqs _ _ Hs) as (HN & HL & HW & Ht). pose proof Hs as (Hc & _).
  set (l0 := plat_gpt_l0_base (gpt_config s)) in *. set (n := length ks) in *.
  assert (forall i j, (i < cap)%nat -> i <> n -> 0 <= j < l1_entries s ->
    gpt_mem s' !! elem (tbl s i) j = gpt_mem s !! elem (tbl s i) j) as Htab.
  { intros i j Hi Hne Hj. apply Hout; [by apply (rm_apart _ Hr)|]. intros j' Hj' Heq.
    by apply Hne, (tables_disjoint s i n j j'). }
  split.
  - by apply (setup_geo s).
  - rewrite Hc. apply HB.
  - apply (room_same s); [done| |done]. intros i j Hi Hj Hsome. destruct (decide (i = n)) as [->|Hne];
      [|by rewrite Htab]. pose proof (fa_mapped _ _ _ Hf) as Hm. rewrite HN in Hm. by apply Hm.
  - rewrite length_app. cbn [length]. lia.
  - intros _. rewrite Ht, length_app, Htb. cbn [length]. f_equal. fold n. lia.
  - apply NoDup_app. split_and!; [apply HB| |apply NoDup_singleton]. intros k' Hk' ->%list_elem_of_singleton. done.
  - intros k' [Hk'| ->%list_elem_of_singleton]%elem_of_app; rewrite HL; [by apply (bu_in _ _ _ HB)|done].
  - rewrite HL, HW, Hc. fold l0. intros k' Hk'. destruct (decide (k' = k)) as [->|Hne].
    + right. exists n. rewrite Ht. split; [by apply list_lookup_middle|]. split; [done|].
      eapply filled_ext; [|exact Hf]. intros q Hq. symmetry. apply HG. rewrite HN in Hq. exact Hq.
    + assert (gpt_mem s' !! elem l0 k' = gpt_mem s !! elem l0 k') as ->.
      { apply Hout; [intros Heq%elem_inj; done|]. intros j Hj Heq. by apply (rm_apart _ Hr n j k'). }
      destruct (bu_l0 _ _ _ HB k' Hk') as [(Hn' & y & Hy)|(i & Hi & Hd' & Hf')].
      * left. split; [|by exists y]. rewrite elem_of_app, list_elem_of_singleton. tauto.
      * right. exists i. rewrite Ht. pose proof (lookup_lt_Some _ _ _ Hi) as Hil. fold n in Hil.
        split; [by apply lookup_app_l_Some|]. split; [done|].
        apply (filled_same _ _ s); [done| |done]. intros j Hj. apply Htab; [lia|lia|done].
Qed.

(** The first half of [generate_l0_entry]: the table of the entry. *)
Definition entry_table (l0_idx : Z) : gpt Z :=
  let! s := gets id in
  let l0 := elem (plat_gpt_l0_base (gpt_config s)) l0_idx in
  let! d := load l0 in
  if GPT_L0_TYPE d =? GPT_L0_TYPE_TBL_DESC then ret (GPT_L0_TBLD_ADDR d)
  else
    let! l1 := get_new_l1_tbl in
    store l0 (GPT_L0_TBL_DESC l1) ;;
    ret l1.

(** The tables after region [k] has been given one. *)
Definition linked (k : Z) (ks ks' : list Z) : Prop := (k ∈ ks /\ ks' = ks) \/ ((k ∉ ks) /\ ks' = ks ++ [k]).

Lemma linked_elem k ks ks' k' : linked k ks ks' -> k' ∈ ks' <-> k' ∈ ks \/ k' = k.
Proof. intros [[Hk ->]|[Hk ->]]; [naive_solver|]. by rewrite elem_of_app, list_elem_of_singleton. Qed.

Lemma wp_entry_table s ks G k :
  building s ks G -> 0 <= k < l0_entries s ->
  (k ∉ ks -> (forall q, 0 <= q < width s -> G (k * width s + q) = None) /\ (length ks < cap)%nat) ->
  wpd (entry_table k) (fun A s' => exists ks' i, linked k ks ks' /\ ks' !! i = Some k /\ A = tbl s i /\
    building s' ks' G /\ same_setup s s') s.
Proof.
  intros HB Hk Hnew. pose proof (bu_geo _ _ _ HB) as Hgeo. pose proof (bu_room _ _ _ HB) as Hr.
  unfold entry_table. wp_steps. unfold id. set (l0 := plat_gpt_l0_base (gpt_config s)).
  destruct (bu_l0 _ _ _ HB k Hk) as [(Hn & x & Hx & Hd & _)|(i & Hi & Hd & _)]; fold l0 in Hd.
  - eapply wp_exact; [by apply load_run|]. rewrite l0_type. replace (1 + 16 * x) with (1 + x * 16) by lia.
    rewrite Z.mod_add by lia. change (1 mod 16 =? GPT_L0_TYPE_TBL_DESC) with false. cbn match.
    destruct (Hnew Hn) as [HG Hlen]. set (n := length ks) in *.
    destruct (tbl_align s n Hgeo Hr Hlen) as (A1 & A2 & A3). destruct (rm_base _ Hr ltac:(lia)) as (_ & _ & Hend).
    assert (tbl s n + 8 * l1_entries s = tbl s (S n)) as Hnext by (unfold tbl; rewrite Nat2Z.inj_succ; ring).
    assert (tbl s (S n) <= tbl s cap) by (unfold tbl; pose proof (n_pos s Hgeo); nia).
    wp_step. eapply wp_mono; [apply (wp_new_table (tbl s n)); [done|apply (bu_tbl _ _ _ HB); lia|lia|lia|by apply (rm_mapped _ Hr)]| |done].
    intros A s1 (-> & Htb & Hs1 & Hout & Hf). wp_step.
    assert (gpt_mem s1 !! elem l0 k = gpt_mem s !! elem l0 k) as Hl0
      by (apply Hout; intros j Hj Heq; by apply (rm_apart _ Hr n j k)).
    eapply wp_exact; [apply store_run; rewrite Hl0, Hd; by eexists|]. wp_step. rewrite tbl_desc by (done || lia).
    exists (ks ++ [k]), n. split; [by right|]. split; [by apply list_lookup_middle|]. split; [done|].
    split; [|by apply (setup_trans s s1)].
    assert (forall a, a <> elem l0 k -> gpt_mem (stored (elem l0 k) (tbl s n + 3) s1) !! a = gpt_mem s1 !! a) as Hst
      by (intros a Ha; by apply lookup_insert_ne).
    apply (building_link s _ ks G k); [done|done|done|done|done|by apply (setup_trans s s1)| | | |].
    + cbn. by rewrite Htb.
    + apply lookup_insert_eq.
    + intros a Ha Ha'. rewrite Hst by done. by apply Hout.
    + apply (filled_same _ _ s1); [done| |done]. intros j Hj. apply Hst. intros Heq.
      destruct (setup_eqs _ _ Hs1) as (HN & _). rewrite HN in Hj. by apply (rm_apart _ Hr n j k).
  - eapply wp_exact; [by apply load_run|]. destruct (building_table s ks G k i HB Hi) as (Hic & _ & _).
    destruct (tbl_align s i Hgeo Hr Hic) as (A1 & A2 & A3). rewrite l0_type, tbld_addr.
    destruct (link_desc (tbl s i) A1 A3) as [-> ->]. change (3 =? GPT_L0_TYPE_TBL_DESC) with true. cbn match. wp_step.
    exists ks, i. split; [left; split; [by eapply list_elem_of_lookup_2|done]|]. by split_and!.
Qed.

(** ** One entry of level 0 *)

Lemma width_bytes s : geo s -> width s * 2 ^ gc_p (gpt_config s) = 2 ^ GPT_S_VAL /\ 0 < width s /\ 0 < 2 ^ gc_p (gpt_config s).
Proof.
  intros Hgeo. pose proof (geo_pow s Hgeo). pose proof (n_pos s Hgeo). unfold width, l1_entries in *.
  split_and!; [|lia|apply Z.pow_pos_nonneg; lia]. change 16 with (2 ^ 4). rewrite <- !Z.pow_add_r by lia. f_equal. lia.
Qed.

Lemma idx_granule s q : geo s -> GPT_L0_IDX (q * 2 ^ gc_p (gpt_config s)) = q / width s.
Proof.
  intros Hgeo. destruct (width_bytes s Hgeo) as (HW & H1 & H2). pose proof (geo_pow s Hgeo).
  unfold GPT_L0_IDX, GPT_L0_IDX_SHIFT. rewrite Z.shiftr_div_pow2, <- HW by lia. by rewrite Z.div_mul_cancel_r by lia.
Qed.

Lemma end_pa_run s k cu eu :
  geo s -> 0 <= k -> (k + 1) * 2 ^ GPT_S_VAL < 2 ^ 64 -> k * width s <= cu < (k + 1) * width s -> cu < eu ->
  get_l1_end_pa (cu * 2 ^ gc_p (gpt_config s)) (eu * 2 ^ gc_p (gpt_config s)) s =
    Done (Z.min eu ((k + 1) * width s) * 2 ^ gc_p (gpt_config s)) s.
Proof.
  intros Hgeo Hk Hsp Hcu Heu. destruct (width_bytes s Hgeo) as (HW & H1 & H2). pose proof (geo_pow s Hgeo).
  unfold get_l1_end_pa, bind, assert_. rewrite !idx_granule by done.
  assert (cu / width s = k) as -> by (symmetry; apply (Z.div_unique_pos _ _ k (cu - k * width s)); lia).
  assert (k <= eu / width s) as Hle by (apply Z.div_le_lower_bound; lia).
  rewrite (proj2 (Z.leb_le _ _) Hle). cbn [negb andb]. unfold ret.
  destruct (Z.eqb_spec k (eu / width s)) as [Heq|Hne].
  - assert (eu < (k + 1) * width s) by (pose proof (Z.mul_succ_div_gt eu (width s) H1); rewrite <- Heq in *; nia).
    by rewrite Z.min_l by lia.
  - assert ((k + 1) * width s <= eu) by (pose proof (Z.mul_div_le eu (width s) H1); nia).
    rewrite Z.min_r by lia. unfold GPT_L0_IDX_SHIFT. rewrite Z.shiftl_mul_pow2, u64_small by (lia || nia).
    f_equal. rewrite <- HW. ring.
Qed.

Lemma l0_entry_halves end_pa x k cur_pa s :
  generate_l0_entry end_pa x k cur_pa s =
  (let! A := entry_table k in
   let! l1_end := get_l1_end_pa cur_pa end_pa in
   fill_l1_tbl A cur_pa (u64 (l1_end - GPT_PGS_ACTUAL_SIZE (gc_p (gpt_config s)))) x ;;
   get_l1_end_pa cur_pa end_pa) s.
Proof.
  unfold generate_l0_entry, entry_table, bind, gets, id.
  destruct (load _ s) as [d s1|]; [|done]. destruct (_ =? _); [done|].
  destruct (get_new_l1_tbl s1) as [l1 s2|]; [|done]. by destruct (store _ _ s2).
Qed.

Lemma wp_l0_entry s ks G k cu eu x :
  building s ks G -> 0 <= k < l0_entries s -> (k + 1) * 2 ^ GPT_S_VAL < 2 ^ 64 -> 0 <= x < 16 -> x <> 1 ->
  k * width s <= cu < (k + 1) * width s -> cu < eu ->
  (k ∉ ks -> (forall q, 0 <= q < width s -> G (k * width s + q) = None) /\ (length ks < cap)%nat) ->
  (forall Q, cu <= Q < Z.min eu ((k + 1) * width s) -> G Q = None) ->
  wpd (generate_l0_entry (eu * 2 ^ gc_p (gpt_config s)) x k (cu * 2 ^ gc_p (gpt_config s)))
    (fun v s' => v = Z.min eu ((k + 1) * width s) * 2 ^ gc_p (gpt_config s) /\ same_setup s s' /\
       exists ks', linked k ks ks' /\ building s' ks' (assign G cu (Z.min eu ((k + 1) * width s) - cu) x)) s.
Proof.
  intros HB Hk Hsp Hx Hx1 Hcu Heu Hnew HG. pose proof (bu_geo _ _ _ HB) as Hgeo.
  destruct (width_bytes s Hgeo) as (HW & W1 & W2). set (W := width s) in *. set (P := 2 ^ gc_p (gpt_config s)) in *.
  set (e := Z.min eu ((k + 1) * W)) in *.
  unfold wp. rewrite l0_entry_halves. fold P. apply wp_bind.
  eapply wp_mono; [by apply wp_entry_table| |done]. intros A s1 (ks' & i & Hlk & Hi & -> & HB1 & Hs1).
  pose proof (bu_geo _ _ _ HB1) as Hgeo1. destruct (setup_eqs _ _ Hs1) as (HN1 & _ & HW1 & Ht1). pose proof Hs1 as (Hc1 & _).
  fold W in HW1. destruct (building_table s1 ks' G k i HB1 Hi) as (Hic & Hf & _). rewrite Ht1, HW1 in Hf.
  destruct (tbl_align s1 i Hgeo1 (bu_room _ _ _ HB1) Hic) as (HA & _). rewrite Ht1 in HA.
  assert (e * P <= (k + 1) * 2 ^ GPT_S_VAL) as HeP by (rewrite <- HW; unfold e; nia).
  assert (cu < e <= (k + 1) * W) as He by (unfold e; lia).
  wp_step. pose proof (end_pa_run s1 k cu eu Hgeo1 ltac:(lia) Hsp) as Hend. rewrite Hc1, HW1 in Hend. fold P e in Hend.
  eapply wp_exact; [apply Hend; done|]. cbv beta.
  assert (GPT_PGS_ACTUAL_SIZE (gc_p (gpt_config s)) = P) as ->
    by (unfold GPT_PGS_ACTUAL_SIZE; rewrite Z.shiftl_mul_pow2, Z.mul_1_l by (pose proof (geo_pow s Hgeo); lia); done).
  replace (e * P - P) with ((e - 1) * P) by ring. rewrite u64_small by nia.
  assert (forall Q, gaddr s1 k (Q - k * W) = Q * P) as Hga.
  { intros Q. rewrite gaddr_units by done. rewrite Hc1. fold P. change (16 * l1_entries s1) with (width s1). rewrite HW1. ring. }
  rewrite <- (Hga cu), <- (Hga (e - 1)).
  assert (16 * l1_entries s1 = W) as HNW by (change (16 * l1_entries s1) with (width s1); done).
  wp_step. eapply wp_mono; [apply (wp_fill_l1_tbl (tbl s i) s1 Hgeo1 x Hx Hx1 k ltac:(lia) ltac:(lia) (e - 1 - k * W)
    ltac:(rewrite HNW; lia) (fun q => G (k * W + q)) (cu - k * W) s1); [lia|apply inside_refl|done|lia|]| |done].
  { intros q Hq. apply HG. lia. }
  intros [] s2 (Hin & Hf2). pose proof (inside_setup _ _ _ Hin) as Hs2. pose proof (setup_trans _ _ _ Hs1 Hs2) as Hs12.
  destruct (setup_eqs _ _ Hs12) as (_ & _ & HW2 & _). pose proof Hs12 as (Hc2 & _). fold W in HW2.
  assert (building s2 ks' (assign G cu (e - cu) x)) as HB2.
  { rewrite <- Ht1 in Hin, Hf2. pose proof (building_fill s1 s2 ks' G k i (cu - k * W) (e - 1 - k * W - (cu - k * W) + 1) x HB1 Hi Hin) as Hb.
    rewrite HW1 in Hb. specialize (Hb Hf2 ltac:(lia) ltac:(lia)).
    replace (k * W + (cu - k * W)) with cu in Hb by lia. by replace (e - 1 - k * W - (cu - k * W) + 1) with (e - cu) in Hb by lia. }
  rewrite Hga. pose proof (end_pa_run s2 k cu eu (bu_geo _ _ _ HB2) ltac:(lia) Hsp) as Hend2. rewrite Hc2, HW2 in Hend2. fold P e in Hend2.
  eapply wp_exact; [apply Hend2; done|]. split; [done|]. split; [done|]. by exists ks'.
Qed.

(** ** A region *)

Lemma building_ext s ks G G' :
  (forall k q, 0 <= k < l0_entries s -> 0 <= q < width s -> G (k * width s + q) = G' (k * width s + q)) ->
  building s ks G -> building s ks G'.
Proof.
  intros He [B1 B2 B3 B4 B5 B6 B7 B8]. split; [done..|]. intros k Hk.
  destruct (B8 k Hk) as [(Hn & x & Hx & Hd & Hc)|(i & Hi & Hd & Hf)].
  - left. split; [done|]. exists x. split; [done|]. split; [done|].
    destruct Hc as [[-> Hc]|Hc]; [left; split; [done|]|right]; intros q Hq; rewrite <- He by done; by apply Hc.
  - right. exists i. split; [done|]. split; [done|]. eapply filled_ext; [|exact Hf]. intros q Hq. by apply He.
Qed.

Lemma blk_desc x : 0 <= x < 16 -> GPT_L0_BLK_DESC x = 1 + 16 * x.
Proof. intros Hx. apply Z.eqb_eq. revert x Hx. by apply all_gpis. Qed.

Lemma building_block s ks G k x :
  building s ks G -> 0 <= k < l0_entries s -> k ∉ ks -> 0 <= x < 16 ->
  building (stored (elem (plat_gpt_l0_base (gpt_config s)) k) (1 + 16 * x) s) ks (assign G (k * width s) (width s) x).
Proof.
  intros HB Hk Hnk Hx. pose proof (bu_geo _ _ _ HB) as Hgeo. pose proof (bu_room _ _ _ HB) as Hr.
  set (l0 := plat_gpt_l0_base (gpt_config s)). set (s' := stored _ _ s). destruct (width_bytes s Hgeo) as (_ & HW & _).
  assert (forall a, a <> elem l0 k -> gpt_mem s' !! a = gpt_mem s !! a) as Hout by (intros a Ha; by apply lookup_insert_ne).
  assert (same_setup s s') as Hs by done.
  assert (forall i j, (i < cap)%nat -> 0 <= j < l1_entries s -> gpt_mem s' !! elem (tbl s i) j = gpt_mem s !! elem (tbl s i) j)
    as Htab by (intros i j Hi Hj; apply Hout; by apply (rm_apart _ Hr)).
  assert (forall k' q, k' <> k -> 0 <= q < width s ->
    assign G (k * width s) (width s) x (k' * width s + q) = G (k' * width s + q)) as Hother.
  { intros k' q Hne Hq. unfold assign. rewrite decide_False; [done|]. nia. }
  split; [by apply (setup_geo s)|apply HB| |apply HB..|].
  - apply (room_same s); [done| |done]. intros i j Hi Hj. by rewrite Htab.
  - change (width s') with (width s). change (gpt_config s') with (gpt_config s). fold l0. intros k' Hk'.
    destruct (decide (k' = k)) as [->|Hne].
    { left. split; [done|]. exists x. split; [done|]. split; [apply lookup_insert_eq|]. right. intros q Hq.
      unfold assign. by rewrite decide_True by lia. }
    assert (gpt_mem s' !! elem l0 k' = gpt_mem s !! elem l0 k') as -> by (apply Hout; intros Heq%elem_inj; done).
    destruct (bu_l0 _ _ _ HB k' Hk') as [(Hn & y & Hy & Hd & Hc)|(i & Hi & Hd & Hf)].
    + left. split; [done|]. exists y. split; [done|]. split; [done|].
      destruct Hc as [[-> Hc]|Hc]; [left; split; [done|]|right]; intros q Hq; rewrite Hother by done; by apply Hc.
    + right. exists i. split; [done|]. split; [done|].
      apply (filled_ext _ (fun q => G (k' * width s + q))); [intros q Hq; by rewrite Hother|].
      apply (filled_same _ _ s); [done| |done]. intros j Hj. apply Htab; [|done].
      apply lookup_lt_Some in Hi. pose proof (bu_cap _ _ _ HB). lia.
Qed.
End Init.
