(* ===== verification/GptBuild.v ===== *)
(** * Granule protection tables: building the regions of a list

    The region descriptors of level 0, blocks or tables, and the loop over the
    regions, on tables under construction. *)

From stdpp Require Import list_numbers gmap.
From S2P Require Import Prelude GptDefs Gpt GptTable GptBlocks GptView GptPolicy GptTransition GptProps GptFill GptRegions GptInit.
#[local] Open Scope cmd_scope.

Section Build.
Context `{Cfg : GptConfig} (B : Z) (cap : nat).
#[local] Abbreviation building := (building B cap).
#[local] Abbreviation R := (2 ^ GPT_S_VAL).

(** ** A region *)

Section Region.
Context (s : gpt_state) (ks : list Z) (G : Z -> option Z) (HB : building s ks G).
#[local] Abbreviation t := (gc_t (gpt_config s)).
#[local] Abbreviation p := (gc_p (gpt_config s)).
#[local] Abbreviation W := (width s).
Context (r : pas_region_t) (Hv : valid_region t p r).

Lemma bounds : 30 <= GPT_S_VAL <= 39 /\ 32 <= t <= 52 /\ 12 <= p <= 16.
Proof.
  pose proof (bu_geo _ _ _ _ _ HB) as Hgeo. pose proof (geo_s s Hgeo). pose proof (geo_t s Hgeo). pose proof (geo_p s Hgeo). lia.
Qed.

Lemma counts : l0_count t = l0_entries s.
Proof. done. Qed.

Lemma region_idx : 0 <= r_first r <= r_last r /\ r_last r < l0_entries s.
Proof. destruct bounds as (H1 & H2 & _). by apply (first_last t p H1 H2 r). Qed.

(** The first granule of the region and the one after its last. *)
Definition r_lo : Z := pas_base_pa r / 2 ^ p.
Definition r_hi : Z := r_end r / 2 ^ p.

Lemma region_aligned : pas_base_pa r = r_lo * 2 ^ p /\ r_end r = r_hi * 2 ^ p.
Proof. destruct bounds as (H1 & H2 & H3). by apply (granule_bounds t p). Qed.

Lemma in_granules Q : r_lo <= Q < r_hi <-> in_region (Q * 2 ^ p) r.
Proof.
  destruct region_aligned as [A1 A2]. destruct (width_bytes s (bu_geo _ _ _ _ _ HB)) as (_ & _ & W2).
  unfold in_region. rewrite A1, A2, <- Z.mul_le_mono_pos_r, <- Z.mul_lt_mono_pos_r by done. done.
Qed.

Lemma granule_region k q : 0 <= q < W -> (k * W + q) * 2 ^ p / R = k.
Proof.
  intros Hq. destruct (width_bytes s (bu_geo _ _ _ _ _ HB)) as (HW & W1 & W2). rewrite <- HW, Z.div_mul_cancel_r by lia.
  symmetry. apply (Z.div_unique_pos _ _ _ q); [done|ring].
Qed.

Lemma region_width : r_first r = r_lo / W /\ r_last r = (r_hi - 1) / W /\ r_lo < r_hi.
Proof.
  destruct region_aligned as [A1 A2]. destruct (width_bytes s (bu_geo _ _ _ _ _ HB)) as (HW & W1 & W2).
  destruct Hv as [Hb Hsz _ _ _]. unfold r_first, r_last, r_end in *. rewrite A1, A2 in *. rewrite <- HW.
  split_and!; [by rewrite Z.div_mul_cancel_r by lia| |nia].
  rewrite !(Z.mul_comm W), <- !Z.div_div by lia. f_equal.
  symmetry. apply (Z.div_unique_pos _ _ _ (2 ^ p - 1)); lia.
Qed.

(** What building the region needs: its granules are not assigned, the level 0
    regions without a table that it meets are unused, and there is memory for
    the tables it adds. *)
Record fits : Prop := {
  fit_free : forall Q, r_lo <= Q < r_hi -> G Q = None;
  fit_clear : forall k, meets k r = true -> k ∉ ks -> forall q, 0 <= q < W -> G (k * W + q) = None;
  fit_block : r_block r = true -> forall k, meets k r = true -> k ∉ ks;
  fit_room : forall ks', NoDup ks' -> (forall k, k ∈ ks' -> k ∈ ks \/ needs_table k r = true) -> (length ks' <= cap)%nat
}.

(** The region has been built. *)
Definition built (s' : gpt_state) : Prop :=
  same_setup s s' /\ exists ks', (forall k, k ∈ ks' <-> k ∈ ks \/ needs_table k r = true) /\
    building s' ks' (assign G r_lo (r_hi - r_lo) (r_gpi r)).

Lemma gpi_range : 0 <= r_gpi r < 16 /\ r_gpi r <> 1.
Proof.
  destruct Hv as [_ _ _ Hg _]. split; [by apply valid_range|]. intros H1. rewrite H1 in Hg. revert Hg. unfold is_gpi_valid. cbn. by destruct ENABLE_RMM.
Qed.

Lemma end_small : 0 <= r_end r <= 2 ^ 52 /\ u64 (r_end r) = r_end r.
Proof.
  destruct bounds as (_ & H2 & _). destruct Hv as [Hb Hsz He _ _]. pose proof (space_small t H2 _ He).
  assert (0 <= r_end r) by (unfold r_end in *; lia). split; [lia|]. apply u64_small. lia.
Qed.

Lemma meets_range k : meets k r = true <-> r_first r <= k <= r_last r.
Proof. unfold meets. rewrite andb_true_iff, !Z.leb_le. done. Qed.

Lemma block_ends : r_block r = true -> r_lo = r_first r * W /\ r_hi = (r_last r + 1) * W /\ r_end r / R = r_last r + 1.
Proof.
  intros Hblk. destruct region_aligned as [A1 A2]. destruct region_width as (H1 & H2 & H3). destruct bounds as (B1 & _ & _).
  destruct (width_bytes s (bu_geo _ _ _ _ _ HB)) as (HW & W1 & W2). destruct Hv as [Hb Hsz _ _ Ha].
  rewrite Hblk in Ha. cbn zeta in Ha. destruct Ha as [M1 M2]. apply Z.mod_divide in M1 as [x Hx], M2 as [y Hy];
    [|apply Z.pow_nonzero; lia..]. unfold r_end in *. rewrite Hx, Hy, <- HW in *.
  assert (r_lo = x * W) as E1 by nia. assert (r_hi = (x + y) * W) as E2 by nia.
  assert (r_first r = x) as -> by (rewrite H1, E1; apply Z.div_mul; lia).
  assert (r_last r = x + y - 1) as ->.
  { rewrite H2, E2. symmetry. apply (Z.div_unique_pos _ _ _ (W - 1)); [lia|ring]. }
  split_and!; [done|rewrite E2; ring|]. rewrite <- Z.mul_add_distr_r, Z.div_mul by lia. ring.
Qed.

Lemma wp_blk_desc : r_block r = true -> fits -> wpd (generate_l0_blk_desc r) (fun _ s' => built s') s.
Proof.
  intros Hblk Hfit. destruct (block_ends Hblk) as (E1 & E2 & E3). destruct gpi_range as [Hg _]. destruct bounds as (B1 & B2 & _).
  destruct region_idx as [F1 F2]. destruct end_small as [_ Hend]. unfold generate_l0_blk_desc. wp_steps.
  pose proof (bu_base _ _ _ _ _ HB) as Hb0. apply wp_assert; [unfold id; by rewrite (proj2 (Z.eqb_neq _ _)) by lia|].
  unfold id. fold (r_end r). rewrite Hend, !idx_div by done. rewrite E3. fold (r_first r) (r_gpi r). rewrite blk_desc by done.
  eapply wp_mono; [apply (wp_for_each _ _ (fun l s' => same_setup s s' /\
    building s' ks (assign G r_lo (Z.of_nat (length l) * W) (r_gpi r))))| |done].
  - split; [done|]. apply (building_ext _ _ _ _ G); [|done]. intros k q _ _. unfold assign. cbn [length].
    by rewrite decide_False by lia.
  - intros l k s' [l' [-> Hlt]%seqZ_split] [Hs HB']. set (n := Z.of_nat (length l)) in *.
    destruct (setup_eqs B _ _ Hs) as (_ & HL & HW & _). pose proof Hs as (Hc & _).
    assert (is_Some (gpt_mem s' !! elem (plat_gpt_l0_base (gpt_config s)) (r_first r + n))) as Hmap.
    { destruct (bu_l0 _ _ _ _ _ HB' (r_first r + n)) as [(_ & x & _ & Hd & _)|(i & _ & Hd & _)]; [rewrite HL; lia|..];
        rewrite Hc in Hd; by eexists. }
    eapply wp_exact; [by apply store_run|]. split; [by apply (setup_trans s s')|].
    assert (r_first r + n ∉ ks) as Hnk by (apply (fit_block Hfit Hblk), meets_range; lia).
    pose proof (building_block B cap s' ks _ (r_first r + n) (r_gpi r) HB' ltac:(rewrite HL; lia) Hnk Hg) as Hb'.
    rewrite Hc in Hb'. eapply building_ext; [|exact Hb']. intros k q _ _. rewrite HW, E1, length_app. cbn [length].
    rewrite Z.mul_add_distr_r, assign_app by (destruct (width_bytes s (bu_geo _ _ _ _ _ HB)); nia).
    f_equal. rewrite Nat2Z.inj_add. fold n. ring.
  - intros [] s' [Hs HB']. split; [done|]. exists ks. split.
    { intros k. unfold needs_table. rewrite Hblk. cbn [negb andb]. naive_solver. }
    rewrite length_seqZ, Z2Nat.id in HB' by lia.
    by replace (r_hi - r_lo) with ((r_last r + 1 - r_first r) * W) by (rewrite E1, E2; ring).
Qed.

(** The granules built when the level 0 regions before [k] are. *)
Definition reached (k : Z) : Z := Z.max r_lo (Z.min r_hi (k * W)).

Lemma reached_spec k : r_first r <= k <= r_last r ->
  reached k = Z.max r_lo (k * W) /\ k * W <= reached k < (k + 1) * W /\ reached k < r_hi /\
  Z.min r_hi ((k + 1) * W) = reached (k + 1).
Proof.
  intros Hk. destruct region_width as (W0 & WL & Hlt). destruct (width_bytes s (bu_geo _ _ _ _ _ HB)) as (_ & W1 & _).
  pose proof (Z.mul_succ_div_gt r_lo W W1) as H1. pose proof (Z.mul_div_le (r_hi - 1) W W1) as H2.
  rewrite <- W0 in H1. rewrite <- WL in H2. assert (k * W <= r_last r * W /\ (r_first r + 1) * W <= (k + 1) * W) by nia.
  unfold reached. lia.
Qed.

Lemma reached_ends : reached (r_first r) = r_lo /\ reached (r_last r + 1) = r_hi.
Proof.
  destruct region_width as (W0 & WL & Hlt). destruct (width_bytes s (bu_geo _ _ _ _ _ HB)) as (_ & W1 & _).
  pose proof (Z.mul_div_le r_lo W W1) as H1. pose proof (Z.mul_succ_div_gt (r_hi - 1) W W1) as H2.
  rewrite <- W0 in H1. rewrite <- WL in H2. unfold reached. lia.
Qed.

(** One level 0 entry of the region. *)
Lemma wp_tbl_entry k s' ks' :
  r_block r = false -> fits -> r_first r <= k <= r_last r -> same_setup s s' ->
  (forall k', k' ∈ ks' <-> k' ∈ ks \/ r_first r <= k' < k) ->
  building s' ks' (assign G r_lo (reached k - r_lo) (r_gpi r)) ->
  wpd (generate_l0_entry (r_hi * 2 ^ p) (r_gpi r) k (reached k * 2 ^ p)) (fun v s'' =>
    same_setup s s'' /\ v = reached (k + 1) * 2 ^ p /\ exists ks'',
    (forall k', k' ∈ ks'' <-> k' ∈ ks \/ r_first r <= k' < k + 1) /\
    building s'' ks'' (assign G r_lo (reached (k + 1) - r_lo) (r_gpi r))) s'.
Proof.
  intros Hblk Hfit Hk Hs Hks HB'. destruct gpi_range as [Hg Hg1]. destruct bounds as (B1 & B2 & _).
  destruct region_idx as [F1 F2]. destruct (reached_spec k Hk) as (E1 & E2 & E3 & E4).
  destruct (setup_eqs B _ _ Hs) as (_ & HL & HW & _). pose proof Hs as (Hc & _).
  assert (r_lo <= reached k) as Hlo by (unfold reached; lia).
  assert (forall Q, reached k <= Q -> assign G r_lo (reached k - r_lo) (r_gpi r) Q = G Q) as Hafter.
  { intros Q HQ. unfold assign. by rewrite decide_False by lia. }
  pose proof (region_inside t B1 B2 k) as Hin. change (l0_count t) with (l0_entries s) in Hin. specialize (Hin ltac:(lia)).
  pose proof (wp_l0_entry B cap s' ks' _ k (reached k) r_hi (r_gpi r) HB') as Hwp. rewrite HL, HW, Hc, E4 in Hwp.
  eapply wp_mono; [apply Hwp; clear Hwp; try done; try lia| |done].
  - intros Hnk. split.
    + intros q Hq. unfold assign. destruct (decide _) as [Hd|_]; [lia|].
      apply (fit_clear Hfit); [by apply meets_range| |done]. intros Hin'. apply Hnk, Hks. by left.
    + assert ((length (ks' ++ [k]) <= cap)%nat) as Hlen; [|rewrite length_app in Hlen; cbn [length] in Hlen; lia].
      apply (fit_room Hfit).
      * apply NoDup_app. split_and!; [apply HB'| |apply NoDup_singleton]. intros k' Hk' ->%list_elem_of_singleton. done.
      * intros k'. rewrite elem_of_app, list_elem_of_singleton. unfold needs_table. rewrite Hblk. cbn [negb andb].
        rewrite meets_range. intros [Hk'| ->]; [|right; lia]. apply Hks in Hk' as [Hk'|Hk']; [by left|right; lia].
  - intros Q HQ. rewrite Hafter by lia. apply (fit_free Hfit). lia.
  - intros v s'' (-> & Hs'' & ks'' & Hlk & HB''). split; [by apply (setup_trans s s')|]. split; [done|]. exists ks''. split.
    + intros k'. rewrite (linked_elem k ks' ks'' k' Hlk), Hks.
      assert (r_first r <= k' < k + 1 <-> r_first r <= k' < k \/ k' = k) as -> by lia. tauto.
    + eapply building_ext; [|exact HB'']. intros k' q _ _. replace (reached k) with (r_lo + (reached k - r_lo)) at 2 by lia.
      rewrite assign_app by lia. f_equal. lia.
Qed.

Lemma wp_tbl_desc : r_block r = false -> fits -> wpd (generate_l0_tbl_desc r) (fun _ s' => built s') s.
Proof.
  intros Hblk Hfit. destruct gpi_range as [Hg Hg1]. destruct bounds as (B1 & B2 & _). pose proof (bu_geo _ _ _ _ _ HB) as Hgeo.
  destruct region_idx as [F1 F2]. destruct end_small as [He Hend]. destruct region_aligned as [A1 A2].
  destruct region_width as (W0 & WL & Hlt). destruct (width_bytes s Hgeo) as (HWR & W1 & W2).
  pose proof (l0_count_small t B1 B2) as Hsm. change (l0_count t) with (l0_entries s) in Hsm.
  assert (forall k, needs_table k r = true <-> r_first r <= k <= r_last r) as Hneed
    by (intros k; unfold needs_table; rewrite Hblk; apply meets_range).
  unfold generate_l0_tbl_desc. wp_steps. pose proof (bu_base _ _ _ _ _ HB) as Hb0.
  apply wp_assert; [unfold id; by rewrite (proj2 (Z.eqb_neq _ _)) by lia|]. unfold id. fold (r_end r). rewrite Hend, !idx_div by done.
  assert (0 < r_end r) by (destruct Hv; unfold r_end in *; lia).
  rewrite (u64_small (r_end r - 1)) by lia. fold (r_first r) (r_last r) (r_gpi r). rewrite !u32_small by lia. rewrite A1, A2.
  wp_step. eapply wp_mono; [apply (wp_fold_each _ _ (fun l cur s' => same_setup s s' /\
    cur = reached (r_first r + Z.of_nat (length l)) * 2 ^ p /\ exists ks',
    (forall k, k ∈ ks' <-> k ∈ ks \/ r_first r <= k < r_first r + Z.of_nat (length l)) /\
    building s' ks' (assign G r_lo (reached (r_first r + Z.of_nat (length l)) - r_lo) (r_gpi r))))| |done].
  - cbn [length]. rewrite Z.add_0_r, (proj1 reached_ends). split; [done|]. split; [done|]. exists ks. split; [intros k; split; [by left|intros [?|?]; [done|lia]]|].
    apply (building_ext _ _ _ _ G); [|done]. intros k q _ _. unfold assign. by rewrite decide_False by lia.
  - intros l k cur s' [l' [-> Hn]%seqZ_split] (Hs & -> & ks' & Hks & HB'). rewrite length_app, Nat2Z.inj_add, Z.add_assoc.
    apply (wp_tbl_entry _ s' ks'); try done; lia.
  - intros cur s' (Hs & _ & ks' & Hks & HB'). wp_step. rewrite length_seqZ, Z2Nat.id in Hks, HB' by lia. split; [done|].
    exists ks'. split.
    + intros k. rewrite Hks, Hneed. assert (r_first r <= k < r_first r + (r_last r - r_first r + 1) <-> r_first r <= k <= r_last r) as -> by lia. done.
    + by replace (r_first r + (r_last r - r_first r + 1)) with (r_last r + 1) in HB' by lia; rewrite (proj2 reached_ends) in HB'.
Qed.
End Region.

(** ** The list of regions *)

Lemma asked_snoc l r pa : (in_region pa r -> forall r', r' ∈ l -> ~ in_region pa r') ->
  asked (l ++ [r]) pa = if decide (in_region pa r) then Some (r_gpi r) else asked l pa.
Proof.
  intros Hd. unfold asked. rewrite filter_app, filter_cons, filter_nil. case_decide as Hin; [|by rewrite app_nil_r].
  assert (filter (in_region pa) l = []) as ->; [|done]. induction l as [|r' l IH]; [done|]. rewrite filter_cons, decide_False.
  - apply IH. intros _ r2 Hr2. apply Hd; [done|by right].
  - apply Hd; [done|by left].
Qed.

Lemma asked_some l pa x : asked l pa = Some x -> exists r, r ∈ l /\ in_region pa r /\ r_gpi r = x.
Proof.
  unfold asked. destruct (filter (in_region pa) l) as [|r rs] eqn:Hf; [done|]. intros [= <-]. exists r.
  assert (r ∈ filter (in_region pa) l) as [? ?]%list_elem_of_filter by (rewrite Hf; by left). done.
Qed.

Lemma needed_spec l k : needed l k = true <-> exists r, r ∈ l /\ needs_table k r = true.
Proof.
  unfold needed. rewrite existsb_exists. split; intros (r & Hr & H); exists r; split; try done; by apply list_elem_of_In.
Qed.

Section Regions.
Context (s0 : gpt_state).
#[local] Abbreviation t := (gc_t (gpt_config s0)).
#[local] Abbreviation p := (gc_p (gpt_config s0)).
Context (l : list pas_region_t) (Hl : valid_regions t p l) (Hcap : cap = length (tables t l)).

(** The regions of [done] have been built. *)
Definition progress (done : list pas_region_t) (s : gpt_state) : Prop :=
  same_setup s0 s /\ exists ks, (forall k, k ∈ ks <-> needed done k = true) /\
    building s ks (fun Q => asked done (Q * 2 ^ p)).

Lemma regions_split done r todo : l = done ++ r :: todo ->
  valid_region t p r /\ Forall (valid_region t p) done /\ forall r', r' ∈ done -> disjoint_regions r r'.
Proof.
  intros ->. destruct Hl as [_ Heach Hap]. rewrite Forall_app, Forall_cons in Heach. destruct Heach as (Hd & Hr & _).
  split_and!; [done..|]. intros r' [i Hi]%list_elem_of_lookup.
  apply (Hap (length done) i); [|by apply list_lookup_middle|by apply lookup_app_l_Some]. apply lookup_lt_Some in Hi. lia.
Qed.

Lemma progress_fits done r todo s ks :
  l = done ++ r :: todo -> same_setup s0 s -> (forall k, k ∈ ks <-> needed done k = true) ->
  building s ks (fun Q => asked done (Q * 2 ^ p)) -> fits s ks (fun Q => asked done (Q * 2 ^ p)) r.
Proof.
  intros Heq (Hc & _) Hks HB. destruct (regions_split done r todo Heq) as (Hv & Hd & Hap).
  assert (valid_region (gc_t (gpt_config s)) (gc_p (gpt_config s)) r) as Hv' by (by rewrite Hc).
  destruct (bounds s ks _ HB) as (B1 & B2 & B3). rewrite Hc in B2, B3.
  assert (forall k r', r' ∈ done -> meets k r = true -> meets k r' = true -> r_block r = false /\ r_block r' = false) as Hshare.
  { intros k r' Hr' Hm Hm'. rewrite Forall_forall in Hd.
    destruct (shared_ends t p B1 B2 r r' k Hv (Hd r' Hr') (Hap r' Hr') Hm Hm') as (H1 & H2 & _). done. }
  split.
  - intros Q HQ. rewrite (in_granules s ks _ HB r Hv'), Hc in HQ. destruct (asked done (Q * 2 ^ p)) as [x|] eqn:Ha; [|done].
    apply asked_some in Ha as (r' & Hr' & Hin & _). by destruct (Hap r' Hr' _ HQ).
  - intros k Hm Hnk q Hq. pose proof (granule_region s ks _ HB k q Hq) as Hk. rewrite Hc in Hk.
    destruct (asked done _) as [x|] eqn:Ha; [|done]. apply asked_some in Ha as (r' & Hr' & Hin & _). exfalso. apply Hnk, Hks, needed_spec.
    rewrite Forall_forall in Hd. assert (meets k r' = true) as Hm' by (apply (meets_spec t p B1 B2 k r' (Hd r' Hr')); by eexists).
    exists r'. split; [done|]. unfold needs_table. destruct (Hshare k r' Hr' Hm Hm') as [_ ->]. by rewrite Hm'.
  - intros Hblk k Hm (r' & Hr' & Hn)%Hks%needed_spec. apply andb_true_iff in Hn as [_ Hm'].
    destruct (Hshare k r' Hr' Hm Hm') as [Hb _]. congruence.
  - intros ks' Hnd Hin. rewrite Hcap. apply submseteq_length, NoDup_submseteq; [done|]. intros k Hk.
    unfold tables. apply list_elem_of_filter. rewrite elem_of_seqZ. change (l0_count t) with (l0_entries s0).
    assert (l0_entries s = l0_entries s0) as HL by (unfold l0_entries; by rewrite Hc).
    destruct (Hin k Hk) as [H|H].
    + pose proof (bu_in _ _ _ _ _ HB k H). split; [|lia]. apply Hks in H. rewrite Heq. unfold needed in *.
      rewrite existsb_app, H. done.
    + pose proof H as Hn. apply andb_true_iff in H as [_ Hm%meets_range]. destruct (region_idx s ks _ HB r Hv') as [F1 F2].
      split; [|lia]. apply needed_spec. exists r. split; [rewrite Heq; set_solver|done].
Qed.

Lemma wp_region done r todo s : l = done ++ r :: todo -> progress done s ->
  wpd (generate_pas r) (fun _ s' => progress (done ++ [r]) s') s.
Proof.
  intros Heq (Hs & ks & Hks & HB). pose proof (progress_fits done r todo s ks Heq Hs Hks HB) as Hfit.
  pose proof Hs as (Hc & _). destruct (regions_split done r todo Heq) as (Hv & _ & Hap).
  assert (valid_region (gc_t (gpt_config s)) (gc_p (gpt_config s)) r) as Hv' by (by rewrite Hc).
  assert (wpd (generate_pas r) (fun _ s' => built s ks (fun Q => asked done (Q * 2 ^ p)) r s') s) as Hwp.
  { unfold generate_pas. fold (r_block r). destruct (r_block r) eqn:Hblk; [by apply wp_blk_desc|by apply wp_tbl_desc]. }
  eapply wp_mono; [exact Hwp| |done]. intros [] s' (Hs' & ks' & Hks' & HB'). split; [by apply (setup_trans s0 s)|].
  exists ks'. split.
  - intros k. rewrite Hks', Hks, needed_snoc, orb_true_iff. done.
  - eapply building_ext; [|exact HB']. cbv beta. intros k q _ _. set (Q := k * _ + q).
    rewrite asked_snoc by (intros Hin r' Hr'; by apply (Hap r' Hr')). unfold assign.
    pose proof (in_granules s ks _ HB r Hv' Q) as Hg. rewrite Hc in Hg.
    destruct (decide (in_region (Q * 2 ^ p) r)) as [Hin|Hin]; [rewrite decide_True; [done|]|rewrite decide_False; [done|]].
    + apply Hg in Hin. lia.
    + intros Hr. apply Hin, Hg. lia.
Qed.

Lemma wp_regions s : progress [] s -> wpd (for_each l generate_pas) (fun _ s' => progress l s') s.
Proof.
  intros H0. apply (wp_for_each l generate_pas progress); [done|]. intros done r s' [todo Heq] Hp. by apply (wp_region done r todo).
Qed.
End Regions.
End Build.
