(* ===== verification/GptSetup.v ===== *)
(** * Granule protection tables: initialisation

    [gpt_init_l0_tables] and [gpt_init_pas_l1_tables] turn a valid list of
    regions into well-formed tables in which a walk finds for each address the
    GPI of its region, and any access where there is none. *)

From stdpp Require Import list_numbers gmap.
From S2P Require Import Prelude GptDefs Gpt GptTable GptBlocks GptView GptPolicy GptTransition GptProps GptFill GptRegions GptInit GptBuild.
#[local] Open Scope cmd_scope.

Section Setup.
Context `{Cfg : GptConfig}.

(** What the caller of the two functions has to provide: supported sizes, valid
    regions, aligned memory of sufficient size for level 0 and, if a region has
    granules, for the tables that the regions need. *)
Record valid_setup (s : gpt_state) (pps l0_base l0_size pgs l1_base l1_size t p : Z) (l : list pas_region_t) : Prop := {
  su_s : GPT_S_VAL = 30 \/ GPT_S_VAL = 34 \/ GPT_S_VAL = 36 \/ GPT_S_VAL = 39;
  su_cache : sctlr_c_bit = true;
  su_t : gpt_t_lookup.[pps] = Some t;
  su_p : gpt_p_lookup.[pgs] = Some p;
  su_gran : xlat_arch_is_granule_size_supported (GPT_PGS_ACTUAL_SIZE p) = true;
  su_regions : valid_regions t p l;
  su_l0 : 0 < l0_base /\ l0_base mod Z.max SZ_4K (GPT_L0_TABLE_SIZE t) = 0 /\ GPT_L0_TABLE_SIZE t <= l0_size;
  su_l0_mapped : mapped l0_base (GPT_L0_REGION_COUNT t) (gpt_mem s);
  su_l1 : let n := Z.of_nat (length (tables t l)) in 0 < n ->
    0 < l1_base /\ l1_base mod GPT_L1_TABLE_SIZE p = 0 /\ GPT_L1_TABLE_SIZE p * n <= l1_size /\
    l1_base + GPT_L1_TABLE_SIZE p * n <= 2 ^ 52 /\ mapped l1_base (GPT_L1_ENTRY_COUNT p * n) (gpt_mem s) /\
    (l0_base + GPT_L0_TABLE_SIZE t <= l1_base \/ l1_base + GPT_L1_TABLE_SIZE p * n <= l0_base)
}.

Context (s : gpt_state) (pps l0_base l0_size pgs l1_base l1_size t p : Z) (l : list pas_region_t).
Context (Hsu : valid_setup s pps l0_base l0_size pgs l1_base l1_size t p l).
#[local] Abbreviation cap := (length (tables t l)).

Lemma setup_t : 32 <= t <= 52 /\ (t = 32 \/ t = 36 \/ t = 40 \/ t = 42 \/ t = 44 \/ t = 48 \/ t = 52) /\ 0 <= pps <= 6.
Proof.
  pose proof (su_t _ _ _ _ _ _ _ _ _ _ Hsu) as H. pose proof (zlookup_lt_Some _ _ _ H) as Hr. change (0 <= pps < 7) in Hr.
  assert (pps = 0 \/ pps = 1 \/ pps = 2 \/ pps = 3 \/ pps = 4 \/ pps = 5 \/ pps = 6) as Hc by lia.
  destruct_or! Hc; rewrite Hc in H; injection H as <-; lia.
Qed.

Lemma setup_p : 12 <= p <= 16 /\ (p = 12 \/ p = 14 \/ p = 16) /\ 0 <= pgs <= 2.
Proof.
  pose proof (su_p _ _ _ _ _ _ _ _ _ _ Hsu) as H. pose proof (zlookup_lt_Some _ _ _ H) as Hr. change (0 <= pgs < 3) in Hr.
  assert (pgs = 0 \/ pgs = 1 \/ pgs = 2) as Hc by lia. destruct_or! Hc; rewrite Hc in H; injection H as <-; lia.
Qed.

Lemma setup_s : 30 <= GPT_S_VAL <= 39.
Proof. destruct (su_s _ _ _ _ _ _ _ _ _ _ Hsu); lia. Qed.

Lemma region_count : GPT_L0_REGION_COUNT t = l0_count t /\ GPT_L0_TABLE_SIZE t = 2 ^ (Z.max 0 (t - GPT_S_VAL) + 3).
Proof.
  destruct setup_t as (Ht & _). pose proof setup_s. unfold GPT_L0_TABLE_SIZE, GPT_L0_REGION_COUNT, GPT_L0_IDX_MASK, GPT_L0_IDX_WIDTH, l0_count.
  set (w := Z.max 0 (t - GPT_S_VAL)). assert ((if GPT_S_VAL <? t then t - GPT_S_VAL else 0) = w) as ->
    by (unfold w; destruct (Z.ltb_spec GPT_S_VAL t); lia).
  assert (Z.shiftr 0x3FFFFF (22 - w) + 1 = 2 ^ w) as ->.
  { change 0x3FFFFF with (Z.ones 22). rewrite Z.shiftr_div_pow2, Z.ones_div_pow2, Z.ones_equiv by lia.
    replace (22 - (22 - w)) with w by lia. lia. }
  split; [done|]. rewrite Z.shiftl_mul_pow2, <- Z.pow_add_r by lia. done.
Qed.

Definition l0_config : gpt_config_t := {|
  plat_gpt_l0_base := l0_base; gc_pps := pps; gc_t := t; gc_pgs := gc_pgs (gpt_config s); gc_p := gc_p (gpt_config s) |}.

(** Level 0 is unused. *)
Lemma wp_init_l0 :
  wpd (gpt_init_l0_tables pps l0_base l0_size) (fun rc s1 => rc = 0 /\ gpt_config s1 = l0_config /\
    gpi_config s1 = gpi_config s /\
    (forall k, 0 <= k < l0_count t -> gpt_mem s1 !! elem l0_base k = Some (GPT_L0_BLK_DESC GPT_GPI_ANY)) /\
    (forall a, is_Some (gpt_mem s !! a) -> is_Some (gpt_mem s1 !! a))) s.
Proof.
  destruct setup_t as (Ht & _ & Hpps). destruct region_count as [Hcnt Hsz]. pose proof setup_s as HS.
  destruct (su_l0 _ _ _ _ _ _ _ _ _ _ Hsu) as (H1 & H2 & H3). pose proof (su_l0_mapped _ _ _ _ _ _ _ _ _ _ Hsu) as Hm.
  unfold gpt_init_l0_tables. wp_step. apply wp_assert; [apply Hsu|]. unfold validate_l0_params.
  rewrite (proj2 (Z.ltb_ge _ _)) by (unfold GPT_PPS_MAX; lia). wp_steps. eapply wp_deref; [apply Hsu|]. unfold upd_config. wp_steps.

  assert ((Z.land l0_base ((if SZ_4K <? GPT_L0_TABLE_SIZE t then GPT_L0_TABLE_SIZE t else SZ_4K) - 1) =? 0) = true) as ->.
  { set (w := Z.max 12 (Z.max 0 (t - GPT_S_VAL) + 3)).
    assert (Z.max SZ_4K (GPT_L0_TABLE_SIZE t) = 2 ^ w) as Hmax.
    { rewrite Hsz. change SZ_4K with (2 ^ 12). unfold w. apply (Z.max_mono (Z.pow 2)); [solve_proper|].
      intros a b Hab. by apply Z.pow_le_mono_r. }
    replace (if SZ_4K <? GPT_L0_TABLE_SIZE t then GPT_L0_TABLE_SIZE t else SZ_4K) with (Z.shiftl 1 w);
      [apply aligned_land; [lia|by rewrite <- Hmax]|].
    rewrite Z.shiftl_mul_pow2, Z.mul_1_l, <- Hmax by lia. destruct (Z.ltb_spec SZ_4K (GPT_L0_TABLE_SIZE t)); lia. }
  rewrite (proj2 (Z.eqb_neq _ _)), (proj2 (Z.ltb_ge _ _)) by lia. cbn [negb orb]. wp_steps. change (negb (0 =? 0)) with false. cbn match. wp_steps.
  unfold id. set (s1 := set_gpt_config (set_pps pps t (gpt_config s)) s). change (gc_t (gpt_config s1)) with t. rewrite Hcnt in Hm |- *.
  eapply wp_mono; [apply (wp_for_each _ _ (fun ks s' => gpt_config s' = gpt_config s1 /\ gpi_config s' = gpi_config s /\
    (forall k, 0 <= k < Z.of_nat (length ks) -> gpt_mem s' !! elem l0_base k = Some (GPT_L0_BLK_DESC GPT_GPI_ANY)) /\
    (forall a, is_Some (gpt_mem s !! a) -> is_Some (gpt_mem s' !! a))))| |done].
  - split_and!; [done..| |done]. intros k Hk. cbn [length] in Hk. lia.
  - intros ks k s' [todo [-> Hlt]%seqZ_split] (C1 & C2 & C3 & C4). eapply wp_exact; [apply store_run, C4, Hm; lia|].
    split_and!; [done..| |].
    + intros k Hk. rewrite length_app in Hk. cbn [length] in Hk. cbn [gpt_mem stored add_gpt_event set_gpt_mem].
      destruct (decide (k = 0 + Z.of_nat (length ks))) as [->|Hne]; [apply lookup_insert_eq|].
      rewrite lookup_insert_ne by (intros Heq%elem_inj; lia). apply C3. lia.
    + intros a Ha. cbn [gpt_mem stored add_gpt_event set_gpt_mem]. apply lookup_insert_is_Some'. right. by apply C4.
  - intros [] s' (C1 & C2 & C3 & C4). unfold emit_gpt. wp_steps. rewrite length_seqZ, Z2Nat.id in C3 by (unfold l0_count; lia).
    split_and!; [done| |done..]. cbn [gpt_config set_gpt_config add_gpt_event]. by rewrite C1.
Qed.

(** ** The regions *)

Definition full_config : gpt_config_t := {|
  plat_gpt_l0_base := l0_base; gc_pps := pps; gc_t := t; gc_pgs := pgs; gc_p := p |}.

(** The state in which the regions are built. *)
Record started (s3 : gpt_state) : Prop := {
  st_config : gpt_config s3 = full_config;
  st_cnt : gpt_l1_cnt_2mb s3 = u32 (GPT_L1_ENTRY_COUNT_2MB p);
  st_mask : gpt_l1_index_mask s3 = GPT_L1_IDX_MASK p;
  st_tbl : (0 < cap)%nat -> gpt_l1_tbl s3 = l1_base;
  st_unused : forall k, 0 <= k < l0_count t -> gpt_mem s3 !! elem l0_base k = Some (GPT_L0_BLK_DESC GPT_GPI_ANY);
  st_mapped : forall a, is_Some (gpt_mem s !! a) -> is_Some (gpt_mem s3 !! a)
}.

Lemma started_geo s3 : started s3 -> geo s3.
Proof.
  intros [C1 C2 C3 _ _ _]. destruct setup_t as (_ & Ht & _). destruct setup_p as (_ & Hp & _).
  pose proof (su_s _ _ _ _ _ _ _ _ _ _ Hsu) as HS. split; rewrite ?C1; cbn [gc_t gc_p gc_pgs full_config]; [done..|apply Hsu| |].
  - rewrite C2. by destruct Hp as [->|[->| ->]].
  - rewrite C3. unfold GPT_L1_IDX_MASK, GPT_L1_IDX_WIDTH. destruct HS as [->|[->|[->| ->]]], Hp as [->|[->| ->]]; done.
Qed.

Lemma started_room s3 : started s3 -> room l1_base cap s3.
Proof.
  intros Hst. pose proof (started_geo s3 Hst) as Hgeo. destruct Hst as [C1 _ _ _ _ Hm]. destruct (l1_count s3 Hgeo) as [Hn Hsz].
  pose proof (n_pos s3 Hgeo) as HN. destruct region_count as [_ Hl0]. rewrite C1 in Hn, Hsz. cbn [gc_p full_config] in Hn, Hsz.
  pose proof (su_l1 _ _ _ _ _ _ _ _ _ _ Hsu) as Hl1. cbn zeta in Hl1. rewrite Hn, Hsz in Hl1. set (n := cap) in *.
  assert (l0_entries s3 = l0_count t /\ 8 * l0_count t = GPT_L0_TABLE_SIZE t) as [HL0 HL8].
  { unfold l0_entries, l0_count. rewrite C1, Hl0. split; [done|]. rewrite Z.pow_add_r by lia. lia. }
  set (N := l1_entries s3) in *. split; unfold tbl; fold N.
  - intros Hpos. destruct (Hl1 ltac:(lia)) as (H1 & H2 & _ & H3 & _). split_and!; done.
  - intros i Hi j Hj. destruct (Hl1 ltac:(lia)) as (_ & _ & _ & _ & H & _). apply Hm.
    replace (elem (l1_base + 8 * N * Z.of_nat i) j) with (elem l1_base (N * Z.of_nat i + j)) by (unfold elem; ring).
    apply H. nia.
  - intros i j k Hi Hj Hk. rewrite HL0 in Hk. rewrite C1. cbn [plat_gpt_l0_base full_config].
    destruct (Hl1 ltac:(lia)) as (_ & _ & _ & _ & _ & H). unfold elem.
    assert (8 * N * Z.of_nat i + 8 * j < 8 * N * Z.of_nat n) by nia. assert (0 <= N * Z.of_nat i) by nia. lia.
Qed.

Lemma started_progress s3 : started s3 -> progress l1_base cap s3 [] s3.
Proof.
  intros Hst. split; [done|]. exists []. split; [intros k; split; [by intros ?%elem_of_nil|done]|].
  pose proof Hst as [C1 _ _ Htbl Hun _]. split.
  - by apply started_geo.
  - rewrite C1. cbn. destruct (su_l0 _ _ _ _ _ _ _ _ _ _ Hsu); lia.
  - by apply started_room.
  - cbn [length]. lia.
  - intros Hpos. rewrite Htbl by done. unfold tbl. cbn [length]. lia.
  - constructor.
  - by intros k ?%elem_of_nil.
  - intros k Hk. left. split; [apply not_elem_of_nil|]. exists GPT_GPI_ANY. split; [done|]. split; [|by left].
    rewrite C1. cbn [plat_gpt_l0_base full_config]. rewrite Hun; [done|]. unfold l0_entries in Hk. by rewrite C1 in Hk.
Qed.

(** The tables are built. *)
Record finished (s' : gpt_state) : Prop := {
  fin_config : gpt_config s' = full_config;
  fin_wf : wf_gpt s';
  fin_view : forall pa, 0 <= pa < 2 ^ t -> view s' pa = Some (default GPT_GPI_ANY (asked l pa))
}.

Lemma finished_event s' e : finished s' -> finished (add_gpt_event e s').
Proof.
  intros [C [G B M] V]. split; [done| |done]. split; [by apply (setup_geo s')|done|by apply (wf_mem_config s')].
Qed.

Lemma progress_finished s3 s' : started s3 -> progress l1_base cap s3 l s' -> finished s' /\ gpi_config s' = gpi_config s3.
Proof.
  intros Hst ((C1 & _ & _ & C4) & ks & _ & HB). destruct (building_wf _ _ _ _ _ HB) as [Hwf Hview].
  rewrite (st_config _ Hst) in *. rewrite C1 in Hview. cbn [gc_t gc_p full_config] in *. split; [|done]. split; [done..|].
  intros pa Hpa. rewrite Hview by done. destruct setup_t as (Ht & _). destruct setup_p as (Hp & _).
  rewrite (asked_granule t p setup_s Ht Hp); [done|]. apply (su_regions _ _ _ _ _ _ _ _ _ _ Hsu).
Qed.

(** The memory for tables is accepted. *)
Lemma l1_params_run s3 : gpt_config s3 = full_config -> (0 < cap)%nat ->
  validate_l1_params l1_base l1_size (Z.of_nat cap) s3 = Done 0 s3.
Proof.
  intros Hc Hpos. destruct setup_p as (Hp & Hp3 & _). pose proof setup_s as HS.
  destruct (su_l1 _ _ _ _ _ _ _ _ _ _ Hsu ltac:(lia)) as (H1 & H2 & H3 & H4 & _).
  assert (GPT_L1_TABLE_SIZE p = 2 ^ (GPT_S_VAL - p - 1)) as Hsz.
  { unfold GPT_L1_TABLE_SIZE, GPT_L1_ENTRY_COUNT, GPT_L1_IDX_MASK, GPT_L1_IDX_WIDTH.
    destruct (su_s _ _ _ _ _ _ _ _ _ _ Hsu) as [->|[->|[->| ->]]], Hp3 as [->|[->| ->]]; done. }
  assert (0 < GPT_L1_TABLE_SIZE p) as Hszp by (rewrite Hsz; apply Z.pow_pos_nonneg; lia).
  unfold validate_l1_params, bind, gets, id. rewrite Hc. cbn [gc_p full_config].
  rewrite (su_gran _ _ _ _ _ _ _ _ _ _ Hsu). cbn [negb].
  assert ((Z.land l1_base (GPT_L1_TABLE_SIZE p - 1) =? 0) = true) as ->.
  { rewrite Hsz in *. rewrite <- (Z.mul_1_l (2 ^ _)), <- Z.shiftl_mul_pow2 by lia. apply aligned_land; [lia|done]. }
  cbn [negb]. rewrite u64_small, Z.div_mul, Z.eqb_refl by nia. cbn [negb]. by rewrite (proj2 (Z.ltb_ge _ _)) by lia.
Qed.

Lemma wp_flush s' : finished s' -> wpd (flush_l0_for_pas_array l) (fun _ s'' => finished s'' /\ gpi_config s'' = gpi_config s') s'.
Proof.
  intros Hf. pose proof (vs_some _ _ _ (su_regions _ _ _ _ _ _ _ _ _ _ Hsu)) as Hne. unfold flush_l0_for_pas_array.
  destruct l as [|r rs]; [done|]. wp_steps. apply wp_assert; [done|]. wp_step. eapply wp_deref; [done|]. unfold emit_gpt. wp_steps.
  split; [by apply finished_event|done].
Qed.

Lemma wp_init_pas s1 :
  gpt_config s1 = l0_config ->
  (forall k, 0 <= k < l0_count t -> gpt_mem s1 !! elem l0_base k = Some (GPT_L0_BLK_DESC GPT_GPI_ANY)) ->
  (forall a, is_Some (gpt_mem s !! a) -> is_Some (gpt_mem s1 !! a)) ->
  wpd (gpt_init_pas_l1_tables pgs l1_base l1_size l) (fun rc s2 =>
    rc = 0 /\ finished s2 /\ gpi_config s2 = gpi_config s1) s1.
Proof.
  intros Hc Hun Hm. destruct setup_t as (Ht & _). destruct setup_p as (Hp & _ & Hpgs). pose proof setup_s as HS.
  destruct (su_l0 _ _ _ _ _ _ _ _ _ _ Hsu) as (Hb & _). unfold gpt_init_pas_l1_tables. wp_step. apply wp_assert; [apply Hsu|].
  rewrite (proj2 (Z.ltb_ge _ _)) by (unfold GPT_PGS_MAX; lia). wp_steps. eapply wp_deref; [apply Hsu|].
  unfold upd_config. wp_steps. unfold id. set (s2 := set_gpt_config _ s1).
  assert (gpt_config s2 = full_config) as Hc2 by (cbn [s2 gpt_config set_gpt_config]; by rewrite Hc).
  rewrite Hc2 at 1. change (plat_gpt_l0_base full_config) with l0_base. rewrite (proj2 (Z.eqb_neq _ _)) by lia. wp_steps.
  eapply wp_exact; [apply (validate_run t p HS Ht Hp s2); [by rewrite Hc2..| |apply Hsu]|].
  { intros k Hk. rewrite Hc2. by apply Hun. }
  rewrite (proj2 (Z.ltb_ge _ _)) by lia. wp_steps.
  eapply wp_mono with (Q := fun rc s3 => rc = 0 /\ ((0 < cap)%nat -> gpt_l1_tbl s3 = l1_base) /\ gpt_config s3 = full_config /\
    gpt_mem s3 = gpt_mem s1 /\ gpi_config s3 = gpi_config s1); [| |done].
  - destruct (Z.ltb_spec 0 (Z.of_nat cap)) as [Hpos|Hz].
    + wp_steps. eapply wp_exact; [apply l1_params_run; [done|lia]|]. change (negb (0 =? 0)) with false. cbn match. wp_steps. done.
    + wp_steps. split_and!; [done|lia|done..].
  - intros rc s3 (-> & C1 & C2 & C3 & C4). change (negb (0 =? 0)) with false. cbn match. wp_steps.
    set (s4 := set_l1_params _ _ s3).
    assert (started s4) as Hst.
    { split; try done; [|]; change (gpt_mem s4) with (gpt_mem s3); by rewrite C3. }
    eapply wp_mono; [apply (wp_regions l1_base cap s4 l)| |done].
    + change (gpt_config s4) with (gpt_config s3). rewrite C2. apply Hsu.
    + change (gpt_config s4) with (gpt_config s3). by rewrite C2.
    + by apply started_progress.
    + intros [] s5 Hpr. destruct (progress_finished s4 s5 Hst Hpr) as [Hf Hg]. wp_step.
      eapply wp_mono; [by apply wp_flush| |done]. intros [] s6 [Hf6 Hg6]. unfold emit_gpt.
      destruct (0 <? Z.of_nat cap); cbn [when]; wp_steps; (split; [done|]); split;
        [by repeat apply finished_event| |by repeat apply finished_event|];
        cbn [gpi_config add_gpt_event]; rewrite Hg6, Hg; done.
Qed.

(** C14. The functions that initialise the granule protection tables build what
    the regions ask for. Given supported sizes, memory that is large enough for
    the tables that the regions need, and regions that are not empty, have
    valid GPIs, and are aligned, inside the protected space and disjoint, both return 0 and leave well-formed
    tables in which the walk finds for every address of the protected space the
    GPI of its region, and any access where there is no region. *)
Theorem tables_as_asked : gpi_config s = gpi_config_init ->
  exists s1 s2, gpt_init_l0_tables pps l0_base l0_size s = Done 0 s1 /\
    gpt_init_pas_l1_tables pgs l1_base l1_size l s1 = Done 0 s2 /\
    ready false s2 /\ gpt_config s2 = full_config /\
    forall pa, 0 <= pa < 2 ^ t -> view s2 pa = Some (default GPT_GPI_ANY (asked l pa)).
Proof.
  intros Hg. destruct (wpd_done _ _ _ wp_init_l0) as (rc1 & s1 & R1 & -> & C1 & C2 & C3 & C4).
  destruct (wpd_done _ _ _ (wp_init_pas s1 C1 C3 C4)) as (rc2 & s2 & R2 & -> & [F1 F2 F3] & F4).
  exists s1, s2. split_and!; [done..| |done|done]. split; [done| |apply Hsu]. by rewrite gpi_table_init, F4, C2.
Qed.
End Setup.
