(* ===== verification/GptDemo.v ===== *)
(** * Granule protection tables: a small system

    4GB of protected space in regions of 1GB with granules of 64KB. The first
    region has a table of non-secure granules, whose first 2MB are a contiguous
    block; the others are blocks that any address space may access. *)

From stdpp Require Import list_numbers gmap.
From S2P Require Import Prelude GptDefs Gpt GptTable GptBlocks GptView GptPolicy GptTransition GptProps GptBoot GptFill GptRegions GptInit GptBuild GptSetup.

#[local] Instance demo_gpt : GptConfig := {|
  ENABLE_RMM := true; RME_GPT_MAX_BLOCK := 512; RME_GPT_BITLOCK_BLOCK := 1; is_feat_rme_gpc2_supported := true;
  is_feat_rme_gdi_supported := true; is_feat_mte2_supported := false; gpccr_l0gptsz := 0; sctlr_c_bit := true;
  xlat_arch_is_granule_size_supported := fun _ => true |}.

Definition demo_config : gpt_config_t := {|
  plat_gpt_l0_base := 0x1000; gc_pps := 0; gc_t := 32; gc_pgs := 1; gc_p := 16 |}.

Definition demo_table : Z := 0x10000.

Definition demo_mem : gmap Z Z :=
  list_to_map ((fun k => (elem 0x1000 k, if k =? 0 then demo_table + 3 else 0xf1)) <$> seqZ 0 4) ∪
  list_to_map ((fun j => (elem demo_table j, if j <? 2 then 0x191 else GPT_L1_NS_DESC)) <$> seqZ 0 1024).

Definition demo_state : gpt_state := {|
  gpt_mem := demo_mem; gpt_config := demo_config; gpi_config := gpi_config_init; gpt_l1_cnt_2mb := 2;
  gpt_l1_index_mask := 0x3ff; gpt_l1_tbl := 0; gpt_bitlock := 0x8000; gptbr_el3 := 0; gpccr_el3 := 0;
  gpt_trace := [] |}.

(** ** Checking tables by evaluation *)

Definition entry_ok (p : Z) (e : Z -> Z) (i : Z) : bool :=
  let d := e i in
  let c := GPT_L1_CONT_CONTIG d in
  let g := GPT_L1_CONT_GPI d in
  let size := 2 ^ (13 - p + 4 * c) in
  let first := i / size * size in
  if is_cont_desc d then
    (1 <=? c) && forallb (fun j => e j =? cont c g) (seqZ first size)
  else (0 <=? d) && (d <? 2 ^ 64).

Lemma check_table p n e :
  p = 12 \/ p = 14 \/ p = 16 -> (forall j, ~ (0 <= j < n) -> e j = 0) ->
  forallb (entry_ok p e) (seqZ 0 n) = true -> wf_table p e.
Proof.
  intros Hp Hout Hall i. destruct (decide (0 <= i < n)) as [Hi|Hi]; [|left; by rewrite Hout].
  rewrite forallb_forall in Hall. specialize (Hall i). rewrite <- list_elem_of_In, elem_of_seqZ in Hall.
  specialize (Hall ltac:(lia)). unfold entry_ok in Hall. destruct (is_cont_desc (e i)) eqn:Hc.
  - right. apply andb_true_iff in Hall as [H1%Z.leb_le H2]. rewrite forallb_forall in H2.
    set (c := GPT_L1_CONT_CONTIG (e i)) in *.
    assert (c = Z.shiftr (e i) 8 mod 2 ^ 2) as Hc' by (apply (Z.land_ones _ 2); done).
    pose proof (Z.mod_pos_bound (Z.shiftr (e i) 8) (2 ^ 2) eq_refl).
    exists c, (GPT_L1_CONT_GPI (e i)). split_and!; [lia|lia| | |].
    1, 2: assert (GPT_L1_CONT_GPI (e i) = Z.shiftr (e i) 4 mod 2 ^ 4) as -> by (apply (Z.land_ones _ 4); done);
      by apply Z.mod_pos_bound.
    intros j Hj. apply Z.eqb_eq, H2. rewrite <- list_elem_of_In, elem_of_seqZ. unfold blk in Hj.
    set (size := 2 ^ (13 - p + 4 * c)) in *. assert (0 < size) as Hs by (apply Z.pow_pos_nonneg; lia). rewrite <- Hj.
    pose proof (Z.mul_div_le j size Hs). pose proof (Z.mul_succ_div_gt j size Hs). lia.
  - left. apply andb_true_iff in Hall as [H1%Z.leb_le H2%Z.ltb_lt]. done.
Qed.

Lemma demo_l0 k : 0 <= k < 4 -> demo_mem !! elem 0x1000 k = Some (if k =? 0 then demo_table + 3 else 0xf1).
Proof.
  intros Hk. assert (k = 0 \/ k = 1 \/ k = 2 \/ k = 3) as [->|[->|[->| ->]]] by lia; vm_compute; reflexivity.
Qed.

Lemma demo_links k A : links demo_state demo_mem k A -> k = 0 /\ A = demo_table.
Proof.
  intros (Hk & HA & Hd). cbn [demo_state demo_config gpt_config plat_gpt_l0_base] in Hd.
  rewrite demo_l0 in Hd by done. injection Hd as Hd. destruct (Z.eqb_spec k 0); [unfold demo_table in *; lia|].
  by replace A with 238 in HA by lia.
Qed.

Lemma demo_wf : wf_gpt demo_state.
Proof.
  assert (mapped demo_table 1024 demo_mem) as Hmap.
  { assert (forallb (fun j => bool_decide (is_Some (demo_mem !! elem demo_table j))) (seqZ 0 1024) = true) as H
      by (vm_compute; reflexivity).
    intros j Hj. rewrite forallb_forall in H. specialize (H j).
    rewrite <- list_elem_of_In, elem_of_seqZ, bool_decide_eq_true in H. apply H. lia. }
  pose proof demo_links as Hlinks.
  split; [split; cbn; auto|done|split].
  - intros k Hk. change (0 <= k < 4) in Hk. assert (k = 0 \/ k = 1 \/ k = 2 \/ k = 3) as Hcases by lia.
    destruct Hcases as [->|Hcases].
    2: { left. exists 15. split; [lia|]. cbn [demo_state demo_config gpt_config plat_gpt_l0_base].
         rewrite demo_l0 by lia. by rewrite (proj2 (Z.eqb_neq k 0)) by lia. }
    right. exists demo_table. split; [split; [done|split; [done|by apply demo_l0]]|]. split; [done|done|exact Hmap| |done|].
    + apply (check_table _ 1024); [by right; right| |by vm_compute].
      intros j Hj. unfold tab. by rewrite decide_False.
    + intros j k Hj Hk'. change (0 <= k < 4) in Hk'. change (0 <= j < 1024) in Hj. unfold elem, demo_table. cbn. lia.
  - intros k k' A [-> _]%Hlinks [-> _]%Hlinks. done.
Qed.

Lemma gdemo_ready : ready false demo_state.
Proof. split; [apply demo_wf|done|done]. Qed.

(** ** A granule goes to the realm world and comes back *)

Definition to_realm : call_t := {|
  call_base := 0x10000; call_count := 1; call_target := GPT_GPI_REALM; call_src := SMC_FROM_REALM |}.
Definition from_realm : call_t := {|
  call_base := 0x10000; call_count := 1; call_target := GPT_GPI_NS; call_src := SMC_FROM_REALM |}.

Definition state_after (k : call_t) (s : gpt_state) : gpt_state :=
  match transition k s with Done _ s' => s' | _ => s end.
Definition demo_there : gpt_state := state_after to_realm demo_state.
Definition demo_back : gpt_state := state_after from_realm demo_there.

Lemma to_realm_valid : valid_call to_realm.
Proof. split; [done|]. split; [by right; right|done]. Qed.
Lemma from_realm_valid : valid_call from_realm.
Proof. split; [done|]. split; [by right; right|done]. Qed.

Definition succeeds (k : call_t) (s : gpt_state) : bool :=
  match transition k s with Done r _ => (fst r =? 0) && (snd r =? 1) | _ => false end.

Lemma succeeds_run k s : succeeds k s = true -> transition k s = Done (0, 1) (state_after k s).
Proof.
  unfold succeeds, state_after. destruct (transition k s) as [[r n] s'|]; [|done].
  intros [H1%Z.eqb_eq H2%Z.eqb_eq]%andb_true_iff. cbn in H1, H2. by subst.
Qed.

Lemma to_realm_run : transition to_realm demo_state = Done (0, 1) demo_there.
Proof. apply succeeds_run. vm_compute. reflexivity. Qed.
Lemma from_realm_run : transition from_realm demo_there = Done (0, 1) demo_back.
Proof. apply succeeds_run. vm_compute. reflexivity. Qed.

Lemma done_state {S A} (a b : A) (s s' : S) : Done a s = Done b s' -> s = s'.
Proof. by intros [= _ ->]. Qed.

Lemma there_ready : ready false demo_there.
Proof.
  destruct (call_effect false to_realm demo_state gdemo_ready to_realm_valid) as (s' & Hrun & Hr & _).
  rewrite to_realm_run in Hrun. apply done_state in Hrun. rewrite Hrun. exact Hr.
Qed.

Lemma demo_views :
  view demo_state 0x10000 = Some GPT_GPI_NS /\ view demo_there 0x10000 = Some GPT_GPI_REALM /\
  view demo_state 0x80000000 = Some GPT_GPI_ANY.
Proof. split_and!; vm_compute; reflexivity. Qed.

Lemma there_trace : gpt_trace demo_there = gpt_trace demo_state ++ gpt_trace demo_there ++ [].
Proof. by rewrite app_nil_r. Qed.

(** The events of the return, after those of the way there. *)
Definition back_events : list gpt_event := drop (length (gpt_trace demo_there)) (gpt_trace demo_back).

Lemma back_trace : gpt_trace demo_back = gpt_trace demo_there ++ back_events ++ [].
Proof.
  destruct (moved_events false from_realm demo_there demo_back there_ready from_realm_valid from_realm_run)
    as (A & cur & d & sh & fu & _ & _ & _ & _ & Htr & _).
  rewrite app_nil_r. unfold back_events. rewrite Htr, drop_app_length. reflexivity.
Qed.

Lemma back_moment :
  gpi_at (gpt_config demo_there) (replay back_events (gpt_mem demo_there)) 0x10000 = Some GPT_GPI_NS.
Proof. vm_compute. reflexivity. Qed.

(** ** The theorems at these states *)

Lemma to_realm_acceptable : acceptable false to_realm demo_state.
Proof.
  destruct (rc_spec false to_realm demo_state (rd_wf _ _ gdemo_ready) to_realm_valid) as [[_ H]|(Hrc & Hne & _)]; [done|].
  exfalso. apply Hne. rewrite <- Hrc. vm_compute. reflexivity.
Qed.

Lemma transition_refines_witness :
  exists s', transition to_realm demo_state = Done (0, 1) s' /\ ready false s' /\
    view s' 0x10000 = Some GPT_GPI_REALM.
Proof.
  destruct (transition_refines false to_realm demo_state gdemo_ready (proj1 to_realm_valid) (proj1 (proj2 to_realm_valid)))
    as (r & s' & Hrun & Hr & _ & [(_ & -> & Hv)|(Hno & _)]); [|by destruct (Hno to_realm_acceptable)].
  exists s'. split; [exact Hrun|]. split; [exact Hr|]. rewrite Hv. by rewrite decide_True.
Defined.

Lemma transition_moments_witness :
  gpi_at (gpt_config demo_state) (replay (gpt_trace demo_there) (gpt_mem demo_state)) 0x80000000 =
    view demo_state 0x80000000 \/
  (fst (0, 1) = 0 /\ same demo_state 0x80000000 0x10000 /\
   (gpi_at (gpt_config demo_state) (replay (gpt_trace demo_there) (gpt_mem demo_state)) 0x80000000 =
      Some GPT_GPI_NO_ACCESS \/
    gpi_at (gpt_config demo_state) (replay (gpt_trace demo_there) (gpt_mem demo_state)) 0x80000000 =
      Some GPT_GPI_REALM)).
Proof.
  exact (transition_moments false to_realm demo_state (0, 1) demo_there (gpt_trace demo_there) [] gdemo_ready
    to_realm_valid to_realm_run there_trace 0x80000000).
Defined.

Lemma scrubbed_before_return_witness :
  exists e1 e2, back_events = e1 ++ [tlbi_of from_realm demo_there; flush_of from_realm GPT_GPI_REALM demo_there;
      flush_of from_realm GPT_GPI_NS demo_there] ++ e2 /\
    gpi_at (gpt_config demo_there) (replay e1 (gpt_mem demo_there)) 0x10000 = Some GPT_GPI_NO_ACCESS.
Proof.
  exact (scrubbed_before_return false from_realm demo_there demo_back GPT_GPI_REALM back_events [] there_ready
    from_realm_valid from_realm_run (proj1 (proj2 demo_views)) eq_refl eq_refl back_trace back_moment).
Defined.

Lemma lock_block_positive : 0 <= RME_GPT_BITLOCK_BLOCK.
Proof. cbn. lia. Qed.

Lemma stores_under_lock_witness :
  exists body, gpt_trace demo_there =
      gpt_trace demo_state ++ [lock_event demo_state 0x10000] ++ body ++ [unlock_event demo_state 0x10000] /\
    forall a v, Store a v ∈ body -> exists pa, l1_word demo_state pa = Some a /\
      forall pa', l1_word demo_state pa' = Some a -> lock_event demo_state pa' = lock_event demo_state 0x10000.
Proof.
  exact (stores_under_lock lock_block_positive false to_realm demo_state demo_there gdemo_ready to_realm_valid
    to_realm_run).
Defined.

Lemma demo_calls_valid : Forall valid_call [to_realm; from_realm].
Proof. repeat constructor; cbn; unfold world; auto; lia. Qed.

Lemma worlds_stay_apart_witness :
  exists s' g', calls [to_realm; from_realm] demo_state = Done tt s' /\ ready false s' /\
    view s' 0x80000000 = Some g' /\ (movable GPT_GPI_ANY = false -> g' = GPT_GPI_ANY) /\
    (Forall (fun k => call_src k <> SMC_FROM_REALM) [to_realm; from_realm] ->
       GPT_GPI_ANY = GPT_GPI_REALM <-> g' = GPT_GPI_REALM) /\
    (Forall (fun k => call_src k <> SMC_FROM_SECURE) [to_realm; from_realm] ->
       GPT_GPI_ANY = GPT_GPI_SECURE <-> g' = GPT_GPI_SECURE).
Proof.
  exact (worlds_stay_apart false [to_realm; from_realm] demo_state 0x80000000 GPT_GPI_ANY gdemo_ready demo_calls_valid
    (proj2 (proj2 demo_views))).
Defined.

(** ** The handover *)

Definition demo_enabled : gpt_state := match gpt_enable demo_state with Done _ s' => s' | _ => demo_state end.

(** The runtime firmware: the registers and the memory, and initial variables. *)
Definition demo_runtime : gpt_state := {|
  gpt_mem := gpt_mem demo_enabled;
  gpt_config := {| plat_gpt_l0_base := 0; gc_pps := 0; gc_t := 0; gc_pgs := 0; gc_p := 0 |};
  gpi_config := gpi_config_init; gpt_l1_cnt_2mb := 0; gpt_l1_index_mask := 0; gpt_l1_tbl := 0; gpt_bitlock := 0;
  gptbr_el3 := gptbr_el3 demo_enabled; gpccr_el3 := gpccr_el3 demo_enabled; gpt_trace := [] |}.

Lemma demo_encodable : encodable (gpt_config demo_state).
Proof. by split. Qed.

Lemma demo_enable_run : gpt_enable demo_state = Done 0 demo_enabled.
Proof.
  assert (match gpt_enable demo_state with Done r _ => r =? 0 | _ => false end = true) as H by (vm_compute; reflexivity).
  revert H. unfold demo_enabled. destruct (gpt_enable demo_state) as [r s'|]; [|done]. by intros ->%Z.eqb_eq.
Qed.

(** The bit locks at 0x8000 are between the tables. *)
Lemma demo_locks_apart : apart_from_tables demo_state 0x8000 (locks_bytes demo_config).
Proof.
  change (locks_bytes demo_config) with 1. intros a [(k & Hk & ->)|(k & A & j & Hl & Hj & ->)].
  - left. change (0 <= k < 4) in Hk. unfold elem. cbn. lia.
  - right. destruct (demo_links k A Hl) as [-> ->]. unfold elem, demo_table. lia.
Qed.

Lemma runtime_inherits_tables_witness :
  exists s3, gpt_runtime_init 0x8000 1 demo_runtime = Done 0 s3 /\
    ready false s3 /\ gpt_config s3 = gpt_config demo_state /\ forall pa, view s3 pa = view demo_state pa.
Proof.
  destruct (runtime_inherits_tables demo_state demo_enabled demo_runtime 0x8000 1 demo_wf demo_encodable eq_refl eq_refl
    demo_enable_run eq_refl eq_refl eq_refl eq_refl demo_locks_apart) as (s3 & Hrun & Hr & Hc & Hv & _).
  exists s3. split; [exact Hrun|]. split; [exact Hr|]. split; [exact Hc|exact Hv].
Defined.

(** ** Initialisation

    Non-secure memory that ends inside a block of 2MB, realm memory that crosses
    a boundary of level 0, and a secure gigabyte as a block. *)

Definition demo_regions : list pas_region_t :=
  [GPT_MAP_REGION_GRANULE 0 0x210000 GPT_GPI_NS; GPT_MAP_REGION_GRANULE 0x30000000 0x20000000 GPT_GPI_REALM;
   GPT_MAP_REGION_BLOCK 0x80000000 0x40000000 GPT_GPI_SECURE].

Definition blank_state : gpt_state := {|
  gpt_mem := list_to_map ((fun k => (elem 0x1000 k, 0)) <$> seqZ 0 4) ∪
             list_to_map ((fun k => (elem 0x10000 k, 0)) <$> seqZ 0 2048);
  gpt_config := {| plat_gpt_l0_base := 0; gc_pps := 0; gc_t := 0; gc_pgs := 0; gc_p := 0 |};
  gpi_config := gpi_config_init; gpt_l1_cnt_2mb := 0; gpt_l1_index_mask := 0; gpt_l1_tbl := 0; gpt_bitlock := 0;
  gptbr_el3 := 0; gpccr_el3 := 0; gpt_trace := [] |}.

Lemma demo_mapped A n : forallb (fun j => bool_decide (is_Some (gpt_mem blank_state !! elem A j))) (seqZ 0 n) = true ->
  mapped A n (gpt_mem blank_state).
Proof.
  intros H j Hj. rewrite forallb_forall in H. specialize (H j).
  rewrite <- list_elem_of_In, elem_of_seqZ, bool_decide_eq_true in H. apply H. lia.
Qed.

Lemma demo_regions_valid : valid_regions 32 16 demo_regions.
Proof.
  split; [done| |].
  - repeat constructor; vm_compute; done.
  - assert (forall i j (r r' : pas_region_t), i <> j -> demo_regions !! i = Some r -> demo_regions !! j = Some r' ->
      r_end r <= pas_base_pa r' \/ r_end r' <= pas_base_pa r) as H.
    { intros i j r r' Hij Hi Hj. destruct i as [|[|[|i]]]; [| | |done]; (destruct j as [|[|[|j]]]; [| | |done]);
        try done; cbn in Hi, Hj; injection Hi as Hi; injection Hj as Hj; subst r r'; unfold r_end; cbn; lia. }
    intros i j r r' Hij Hi Hj pa Hin Hin'. destruct (H i j r r' Hij Hi Hj); unfold in_region in *; lia.
Qed.

Lemma demo_setup : valid_setup blank_state 0 0x1000 0x1000 1 0x10000 0x4000 32 16 demo_regions.
Proof.
  split; [by left|done..|exact demo_regions_valid| | |].
  - split; [done|]. split; vm_compute; done.
  - apply demo_mapped. vm_compute. reflexivity.
  - assert (length (tables 32 demo_regions) = 2%nat) as -> by (vm_compute; reflexivity). cbn zeta. intros _.
    split; [done|]. split; [by vm_compute|]. split; [by vm_compute|]. split; [by vm_compute|]. split; [|by left; vm_compute].
    apply demo_mapped. vm_compute. reflexivity.
Qed.

Lemma tables_as_asked_witness :
  exists s1 s2, gpt_init_l0_tables 0 0x1000 0x1000 blank_state = Done 0 s1 /\
    gpt_init_pas_l1_tables 1 0x10000 0x4000 demo_regions s1 = Done 0 s2 /\ ready false s2 /\
    view s2 0x200000 = Some GPT_GPI_NS /\ view s2 0x210000 = Some GPT_GPI_ANY /\
    view s2 0x40000000 = Some GPT_GPI_REALM /\ view s2 0xbfffffff = Some GPT_GPI_SECURE.
Proof.
  destruct (tables_as_asked blank_state 0 0x1000 0x1000 1 0x10000 0x4000 32 16 demo_regions demo_setup eq_refl)
    as (s1 & s2 & R1 & R2 & Hr & _ & Hv).
  exists s1, s2. split; [exact R1|]. split; [exact R2|]. split; [exact Hr|].
  split; [|split; [|split]]; (rewrite Hv; [vm_compute; reflexivity|lia]).
Defined.
